(* ===== verification/_CoqProject ===== *)
-Q . S2P
Prelude.v
Reorder.v
CsiBuf.v
Bitmap.v
Sta.v
Bytes.v
Ies.v
Rates.v
Rsn.v
Attr.v
Elems.v
Wep.v
RxFrame.v
RxState.v
RxCheck.v
RxSafe.v
Defrag.v
Msdu.v
Amsdu.v
Deliver.v
RxPath.v
RxPool.v
Tim.v
ApPs.v
ApPsInv.v
ApPsSent.v
ApPsRun.v
Acl.v
Join.v
JoinInv.v
ApSec.v
ApSta.v
ApAuth.v
ApAuthInv.v
Chan.v
ChanGroup.v
ChanPlan.v
ChanCtx.v
ChanCtxInv.v
Dispr.v
DisprInv.v
DisprRun.v
DisprOrder.v
DisprMdl.v
TxDesc.v
PhlTx.v
PhlRing.v
PhlPlan.v
PhlRun.v
PhlInv.v
PhlFlow.v
PhlQueue.v
