(* ===== verification/Prelude.v ===== *)
(** * A verification of parts of the RTL8852AU driver

    The driver connects an 802.11ax USB adapter to Linux.  It has three layers:
    [core/] is the station, access point and frame logic and what [os_dep/] calls
    for cfg80211; [phl/] is the hardware independent layer below it, which keeps
    the stations, roles and channels, reorders received packets and serialises
    everything that touches the hardware through a command dispatcher;
    [phl/hal_g6/] programs the chip.  The development models the parts that are
    algorithms on their own: those with an input an air interface controls (the
    element parsers, the ciphers, the way of a received frame, reordering) and
    those that hand out a resource (stations, MAC ids, received frames,
    channel-state buffers, messages, the command token).

    ** Files and what they model

    - [Prelude]: machine integers ([u8], [u16], [u32], [BIT]), the tactics [dlia]
      and [split_all], the lemmas on lists and integers the parts share.
    - [Reorder] (phl/phl_rx_agg.c, phl/phl_rx.c): the block-ack reorder ring of a
      traffic identifier: [phl_rx_reorder], its release loops, the timer, block-ack
      requests, start, stop and teardown of a session.  The station directory is
      the class [StaLookup], as [phl_rx_reorder] knows it only through its look-up.
    - [CsiBuf] (phl/hal_g6/hal_csi_buffer.c): the channel-state buffers.
    - [Bitmap]: the class the MAC-id tables use their bitmap through, its laws, and
      the two implementations of the driver.
    - [Sta] (phl/phl_sta.c): the station pool, the queues of the roles, the MAC-id
      tables, allocation, release and look-ups.
    - [Bytes]: buffers, pointers into them, and the result type [res]: a value, an
      access outside of a buffer ([Oob]) or fuel that is used up ([Looping]).
    - [Ies], [Rates], [Rsn], [Attr], [Elems] (core/rtw_ieee80211.c): building,
      finding, replacing and removing elements; supported rates and extended
      capabilities; WPA and RSN; the vendor elements with attributes (WPS, P2P,
      Wi-Fi Display, OWE, Multi-AP), the P2P and the Wi-Fi Display routines once
      over a class of formats; the parser of all elements of a frame.
    - [Wep] (core/rtw_security.c): RC4, CRC-32, WEP, TKIP, Michael.
    - [RxFrame] (include/rtw_recv.h, wifi.h, rtw_security.h): a [recv_frame], its
      buffer and the moves of its data ([recvframe_pull], [recvframe_put] and the
      like), the fields of a MAC header.
    - [RxState] (core/rtw_recv.c, rtw_sta_mgt.c): the interface with its stations,
      their look-up, the pool of free frames.
    - [RxCheck], [RxSafe] (core/rtw_recv.c, rtw_ap.c): the checks of a received
      data frame up to [validate_recv_frame], and that they are safe.
    - [Defrag] (core/rtw_recv.c): [recvframe_chk_defrag], [recvframe_defrag].
    - [Msdu], [Amsdu], [Deliver] (core/rtw_recv.c, rtw_ap.c, recv_linux.c): from an
      MSDU or an A-MSDU to packets for the network stack or for other stations.
    - [RxPath], [RxPool] (core/rtw_recv.c, rtw_security.c, rtw_swcrypto.c, rtw_phl.c):
      [rtw_core_rx_process] as a whole, and where the frames of the pool are.
    - [Tim] (core/rtw_ap.c, core/rtw_wlan_util.c): the traffic indication map of an
      access point and its element in the beacon.
    - [ApPs], [ApPsInv], [ApPsSent], [ApPsRun] (core/rtw_xmit.c, rtw_recv.c,
      rtw_sta_mgt.c, rtw_ap.c): the frames an access point keeps for stations that
      sleep, the invariant, what is sent and what is freed, and runs.
    - [Acl] (core/rtw_ap.c, core/rtw_sta_mgt.c, os_dep/linux/ioctl_cfg80211.c): the
      lists of addresses an access point accepts or denies.
    - [Join], [JoinInv] (core/rtw_mlme_ext.c, core/rtw_mlme.c): a station's way into
      a network: beacon, authentication, association, the two timers, aborts.
    - [ApSec] (core/rtw_ap.c): what an access point takes over from an association
      request, above all the ciphers and the protection of management frames.
    - [ApSta] (core/rtw_sta_mgt.c, os_dep/osdep_service_linux.c): the pool of an access
      point's stations, their hash table, the linked lists of those that authenticate
      and that are associated.
    - [ApAuth], [ApAuthInv] (core/rtw_mlme_ext.c, core/rtw_ap.c, core/rtw_mlme.c,
      os_dep/linux/ioctl_cfg80211.c): authentication, association and departure at an
      access point, and the watchdog for stations that do not finish.
    - [Chan] (core/rtw_rf.c, phl/phl_chan.c): channels, the channels and frequencies
      of a setting (primary channel, bandwidth, side), operating classes.
    - [ChanGroup] (core/rtw_ieee80211.c, core/rtw_mi.c, phl/phl_chan.c): whether
      settings can share the radio, and the setting that covers them.
    - [ChanPlan] (core/rtw_mlme_ext.c, core/rtw_chplan.c, core/rtw_ap.c): the
      channels a country allows, the non-occupancy of channels after radar, and
      the choice of a channel for an access point.
    - [ChanCtx], [ChanCtxInv] (phl/phl_chan.c, phl/phl_mr.c): the settings in use
      on a band with the roles that share them, as a store with pointers.
    - [TxDesc] (phl/hal_g6/mac/mac_ax/trx_desc.c, phl/hal_g6/mac/txdesc.h): the descriptor
      in front of a frame that is sent.
    - [PhlTx] (phl/phl_tx.c, phl/hci/phl_trx_usb.c): the rings of each station between core
      and phl, the plan of a turn, the frames of a ring in one USB transfer, the buffers.
      [PhlRun] (the same files): the tasklet, pausing and resuming the data path, and runs.
      [PhlRing], [PhlPlan]: what one ring and one transfer are, and which rings a turn
      serves in which order.  [PhlInv], [PhlFlow], [PhlQueue]: the invariant, that the
      operations keep it, and what holds of runs.
    - [Dispr], [DisprInv], [DisprRun], [DisprOrder], [DisprMdl]
      (phl/phl_cmd_dispatcher.c): the command dispatcher, below.

    [RxPath.rtw_core_rx_process] is the way of one received frame: checks
    ([RxCheck]), decryption and Michael ([Wep], the AES ciphers an argument),
    defragmentation ([Defrag]), checks of the result, delivery ([Msdu]).  Its state
    is an [adapter]; what it does to the rest of the driver (a packet for the
    network stack, a deauthentication, a null frame, a sleeping station that woke
    up) is an [event] in the adapter's trace.  An access outside of a buffer or of
    an array is [Oob].

    [ApPs.ap] adds to that [adapter] what sleeping stations need: their queues and
    ids, the two maps, the beacon.  [process_pwrbit_data] and [process_wmmps_data]
    of [RxCheck] say in their events when a station sleeps, wakes up or sends a
    trigger; [ApPs.rx_pwrbit] and [ApPs.rx_trigger] carry these out.  A run
    ([ApPsRun.run]) is any sequence of frames for stations, power management bits,
    triggers, polls, watchdog steps, associations and departures; [ApPsRun.legal]
    says what the rest of the driver takes care of, or should: that a station which
    associates is awake is not checked anywhere.

    [Join.mlme] is the state of a station that joins: [mlmext_info] with its timers
    and what the rest of the driver tells it.  Each handler of a frame, of a timer or
    of a command is a function on it; [JoinInv.step] is one of them at a time, and
    what they send or report is in its log.  [JoinInv] gives the protocol as an
    automaton over the log.

    [ApAuth.ap] is the other side: the table of the stations ([ApSta.sta_priv]) with a
    log.  The two lists run through the entries as a heap of pointers ([ApSta.links]),
    so an entry that is freed while it is linked does to them what it does in the
    driver; [ApSta.linked] says when such a heap is a list.  [ApAuth.run] is any
    sequence of frames, requests of the host and passes of the watchdog, each in an
    [env] of its own (policy, access list, keys, time); [ApAuthInv.legal] asks for
    receive buffers with some room behind the frame and an initialisation vector in
    protected frames.  The protocol with one address is [ApAuthInv.spec_step].

    [PhlTx.phl] has a station's rings as a heap that stations are registered in and freed
    from.  [PhlRun.op] are the steps: core adds a request, the tasklet runs, the bus
    completes a transfer, power saving answers, a module pauses or resumes the data path.
    [PhlInv.fifo] is the specification: a ring gives back what it accepted, in this order.

    The frame parts call each other the way the code does: [Rates], [Rsn], [Attr]
    and [Elems] all search with [Ies.rtw_get_ie].  [Sta] uses the sessions of
    [Reorder] for the traffic identifiers of a station and [Bitmap] for its tables.
    [ChanGroup], [ChanPlan] and [ChanCtx] compute with the settings of [Chan]; a
    context takes a role when [ChanGroup] says their settings go together.

    ** The command dispatcher

    Modules send messages to each other through a dispatcher, and whoever needs
    the hardware for a while (a scan, a connection) asks it for its only token.
    One thread serves both.  [Dispr] models its state (a [cmd_dispatcher]: the
    pools of 24 messages and 8 requests with their queues, the queue of token
    operations, the modules, the semaphore), each call another thread can make
    ([call], [exec_call]), a turn of the thread ([dispr_thread_loop_hdl]), and
    starting and stopping.  The callbacks of modules and requests are an argument
    ([handlers]): a function of everything that happened before, kept in [log],
    that gives their result and the calls they make.  A call another thread makes
    while a turn runs is one the callback makes that it arrives at; a call that
    arrives between turns is a step of its own.  Several dispatchers can share a
    thread; [OtherTurn] is a turn another one's wake-up caused.

    [DisprInv] has the invariant and proves every step keeps it.  It is proved
    once under two assumptions, [S] (the callbacks behave: nothing goes wrong) and
    [C] (no controller sends: messages are queued at the end), which the theorems
    of [DisprRun] instantiate: with [S] false the invariant holds of whatever run
    there is, with [S] true there is one.  [DisprInv.arbiter] is the specification
    of the token: a machine that reads the log and is stuck on an event that
    breaks the rules; [DisprRun.requests_follow_arbiter] is the refinement.
    [DisprOrder] gives the receivers of a message as a list and proves that a
    dispatch visits them in that order.  [DisprMdl] models the registry of modules
    and proves what [DisprRun] assumes of it.

    ** What the theorems show

    - Refinement: the requests of a dispatcher follow the arbiter; the operations
      on channel contexts those of lists of settings with sets of roles; an access
      list is a mode with a finite set; a station's join follows the protocol, with
      bounded retries and a result that fits; an access point makes entries, authenticates,
      answers and reports stations only in the order and on the grounds it should.
    - Invariants: a reorder session delivers in order and conserves packets; the
      station directory; a received frame is in the pool, in a queue of fragments or
      at the network stack, and nowhere twice; leases of channel-state buffers are
      exclusive; the queues and the token of a dispatcher; its registry of modules;
      the queues, maps, ids and the beacon of an access point with sleeping stations;
      the table of an access point's stations and its lists.
    - What sleeping stations can rely on, in legal runs: the frames for each are given to
      phl in order and once, or are still kept, and which are sent and which freed is
      phl's answer or the station's leaving; whoever has announced frames waiting finds
      its bit in the beacon, waking up and triggers deliver what they should with the
      right flags.
    - The rings between core and phl are queues: in every run each request that was accepted
      comes back once and in order or waits in its ring, no buffer and no ring state is lost
      ([PhlQueue.tx_fifo]); the data path stands still exactly when a module has paused it
      ([PhlQueue.tx_pause_exact]); a turn's transfer holds the frames of a ring, aligned, with
      their descriptors ([PhlRing.handle_spec]), and its plan has management frames first
      ([PhlPlan.plan_order]); what fits a buffer is sent as long as nothing fails
      ([PhlQueue.tx_drains]), and Examples show what stays behind otherwise.
    - Liveness and termination: a waiting message is taken; turns end; a join ends,
      with a failure if nobody answers; a station that does not finish its
      authentication is forgotten; stopping ends and leaves everything idle; removing
      the roles frees every channel context; release loops, teardown of a role, the
      watchdog's pass; the one attribute search that does not end
      ([Attr.attr_search_hangs]).
    - Round trips: RSN and WPA elements, attributes, WEP and TKIP, operating classes,
      the fragments of an MSDU, the subframes of an A-MSDU, the descriptors of frames.
    - Equivalence: the table CRC, the incremental Michael and the WPA search with
      their references; the walk over an A-MSDU with a parser of its bytes; the copies
      the core and phl have of one computation; the check before a channel context is
      added and the addition.
    - Types: the checks of a received frame keep it and the interface well formed.
    - Safety and bounds: the parsers of received elements stay inside their
      buffers on every input; group frames are not accepted twice, and without
      encryption only EAPOL is accepted in a protected network; after radar no
      setting on its channels is used; an access point takes no station into its network
      with ciphers outside of its policy; distinct TKIP counters give distinct RC4
      keys.
    - Functional behaviour of each operation, its errors included.

    ** Fuel

    Loops over a buffer use fuel.  [Ies.ie_fuel] and [Attr.vendor_fuel] are the
    length of the buffer plus one: every step moves by at least two (or one)
    bytes, and the theorems state results, so running out is excluded.  The
    [Msdu.amsdu_loop] has the length of the frame plus one, and a subframe takes 14
    bytes at least ([Amsdu.amsdu_safe] shows that it is enough).  The
    attribute searches take their fuel as an argument because one of them may not
    end; their theorems hold for fuel above a bound they give.
    The two loops of a turn of the dispatcher take their bound as an argument: with
    callbacks that behave [DisprInv.calm_fuel], 400, is enough, as a turn then handles
    at most 18 * 16 + 17 token operations (there are 8 slots and 17 operation nodes,
    [DisprInv.wp_token_ops]); with others a turn of the driver may not end, and the
    model says [Looping] then, at every bound.  The theorems that do not ask the callbacks
    to behave hold at every bound.  [clear_waiting_msg] and [clear_wating_req] need one
    round and have fuel for two.  [ChanPlan.ap_narrow] and
    [ChanPlan.chset_sync_loop] have the bandwidth plus one, which every step lowers.

    ** Not modelled

    - Hardware access, interrupts, the USB core, PCIe and SDIO, the firmware image and
      the register and calibration tables of [hal_g6] (which are most of its
      lines), rate adaptation and RF calibration: their behaviour is the chip's.
    - [os_dep/] and [platform/]: glue to Linux.
    - Of the state machines of [core/] that send and receive management frames all
      but a station's join and an access point's part in it: scan, tdls, p2p, ft, rm;
      of the access point beacons, the elements of its association responses, WMM and
      Multi-AP, and how it checks whether associated stations are still there.
    - Of the receive path: management and control frames (events), the reorder code
      of [core/], which is compiled out, mesh, WDS and TDLS, clones of group frames
      to other interfaces, monitor mode, the EAPOL and DHCP statistics.  The
      ciphers that are not in rtw_security.c are arguments of [RxPath].
    - Of the transmit path: what core does with a packet before it is a request (attributes,
      encryption, A-MSDU, shortcuts), firmware commands, and throughput statistics.
    - Of power saving: frames to a group, which [BMC_ON_HIQ] sends through a hardware
      queue, the commands that start that queue, TDLS and mesh, and the queues of
      the access categories, which this driver never fills.
    - The regulatory database and the transmit power limits; the time slots of two
      channel contexts ([phl_mcc.c]) and the life of a role ([phl_role.c]).
    - The clients of the dispatcher (power saving, error recovery, scan,
      multi-channel concurrency), the AES ciphers in [core/crypto/], which are
      third-party code, and BIP, CCMP and GCMP, which call them; the AES of
      rtw_security.c is compiled out.
    - In the modelled files: trace output, statistics counters, and the functions
      the components' notes name.
    - Preemption inside a turn of the dispatcher other than at a callback, and
      allocation failures where the code has no path for them. *)

From Stdlib Require Import ZArith Lia Bool.
From stdpp Require Export base option list numbers.
From stdpp Require Import tactics.
Export list_basics.list list_relations.list list_monad.list list_misc.list list_numbers.list.

#[global] Open Scope Z_scope.

(** ** Machine integers

    The C types [u8], [u16] and [u32] are integers with the wrap-around of the
    conversion written out; [s8] and [s16] convert to the signed types. *)

Definition u8 (x : Z) : Z := x mod 256.
Definition u16 (x : Z) : Z := x mod 65536.
Definition u32 (x : Z) : Z := x mod 4294967296.
Definition s8 (x : Z) : Z := (x + 128) mod 256 - 128.
Definition s16 (x : Z) : Z := (x + 32768) mod 65536 - 32768.

(** [BIT(n)] of the driver's headers. *)
Definition BIT (n : Z) : Z := Z.shiftl 1 n.

Definition is_u8 (x : Z) : Prop := 0 <= x < 256.
Definition is_u16 (x : Z) : Prop := 0 <= x < 65536.
Definition is_u32 (x : Z) : Prop := 0 <= x < 4294967296.

Create HintDb wifi.

(** Linear arithmetic with [/] and [mod] by their defining equations. *)
Ltac dlia := Z.to_euclidean_division_equations; lia.

(** All conjuncts of a goal, those that are easy closed. *)
Ltac split_all := repeat match goal with |- _ /\ _ => split end; try done; try lia.

Lemma u8_range x : is_u8 (u8 x).
Proof. unfold is_u8, u8. dlia. Qed.
Lemma u16_range x : is_u16 (u16 x).
Proof. unfold is_u16, u16. dlia. Qed.
Lemma u32_range x : is_u32 (u32 x).
Proof. unfold is_u32, u32. dlia. Qed.
Lemma u8_id x : is_u8 x -> u8 x = x.
Proof. unfold is_u8, u8. dlia. Qed.
Lemma u16_id x : is_u16 x -> u16 x = x.
Proof. unfold is_u16, u16. dlia. Qed.
Lemma u32_id x : is_u32 x -> u32 x = x.
Proof. unfold is_u32, u32. dlia. Qed.
#[export] Hint Resolve u8_range u16_range u32_range : wifi.

(** A pointer is [option]: [is_Some_b p] is the C test [if (p)]. *)
Definition is_Some_b {A} (o : option A) : bool :=
  match o with Some _ => true | None => false end.

(** ** Arrays

    An array is a list; an access outside of it has no value ([None]), so a
    theorem that an operation returns [Some _] also says that it stays inside
    its arrays. *)

Definition rd {A} (l : list A) (i : Z) : option A :=
  if i <? 0 then None else l !! Z.to_nat i.

Definition wr {A} (l : list A) (i : Z) (x : A) : option (list A) :=
  if i <? 0 then None
  else if (Z.to_nat i <? length l)%nat then Some (<[Z.to_nat i := x]> l)
  else None.

Section arrays.
Context {A : Type}.
Implicit Types l : list A.

Lemma rd_lookup l i : 0 <= i -> rd l i = l !! Z.to_nat i.
  Proof. intros. unfold rd. destruct (Z.ltb_spec i 0); [lia|done]. Qed.

Lemma rd_some l i : 0 <= i < Z.of_nat (length l) -> exists x, rd l i = Some x.
  Proof.
    intros. rewrite rd_lookup by lia.
    destruct (lookup_lt_is_Some_2 l (Z.to_nat i)) as [x ?]; [lia|eauto].
  Qed.

Lemma rd_inv l i x : rd l i = Some x -> 0 <= i < Z.of_nat (length l).
  Proof.
    unfold rd. destruct (Z.ltb_spec i 0); [done|].
    intros ?%lookup_lt_Some. lia.
  Qed.

Lemma wr_some l i x :
    0 <= i < Z.of_nat (length l) -> wr l i x = Some (<[Z.to_nat i := x]> l).
  Proof.
    intros. unfold wr. destruct (Z.ltb_spec i 0); [lia|].
    destruct (Nat.ltb_spec (Z.to_nat i) (length l)); [done|lia].
  Qed.

Lemma wr_inv l i x l' :
    wr l i x = Some l' ->
    0 <= i < Z.of_nat (length l) /\ l' = <[Z.to_nat i := x]> l.
  Proof.
    unfold wr. destruct (Z.ltb_spec i 0); [done|].
    destruct (Nat.ltb_spec (Z.to_nat i) (length l)); [|done].
    intros [= <-]. split; [lia|done].
  Qed.

Lemma rd_wr l i x l' j :
  wr l i x = Some l' -> rd l' j = if j =? i then Some x else rd l j.
Proof.
  intros [Hi ->]%wr_inv. unfold rd. destruct (Z.ltb_spec j 0).
  - destruct (Z.eqb_spec j i); [lia|done].
  - destruct (Z.eqb_spec j i) as [->|].
    + apply list_lookup_insert_eq. lia.
    + apply list_lookup_insert_ne. lia.
Qed.

Lemma wr_total l i x :
  0 <= i < Z.of_nat (length l) -> exists l', wr l i x = Some l'.
Proof. intros. rewrite wr_some by done. eauto. Qed.

Lemma rd_is_wr l i x y : rd l i = Some x -> exists l', wr l i y = Some l'.
Proof. intros ?%rd_inv. by apply wr_total. Qed.

Lemma rd_replicate n (x y : A) i : rd (replicate n x) i = Some y -> y = x.
  Proof. unfold rd. case_match; [done|]. by intros [-> _]%lookup_replicate. Qed.

Lemma wr_length l i x l' : wr l i x = Some l' -> length l' = length l.
  Proof. intros [? ->]%wr_inv. apply length_insert. Qed.
End arrays.

(** ** Loops

    [while fuel c f s] runs [f] while [c] holds; [None] says that the fuel ran
    out or that the body had no value. *)

Fixpoint while {S : Type} (fuel : nat) (c : S -> option bool) (f : S -> option S)
    (s : S) : option S :=
  match fuel with
  | O => None
  | Datatypes.S fuel =>
      b ← c s;
      if b : bool then s' ← f s; while fuel c f s' else Some s
  end.

(** A loop whose body decreases a measure under an invariant ends, with any
    fuel above the measure, in a state that satisfies the invariant and
    refutes the condition. *)
Lemma while_total {S} (I : S -> Prop) (m : S -> nat) c f :
  (forall s, I s -> exists b, c s = Some b) ->
  (forall s, I s -> c s = Some true -> exists s', f s = Some s' /\ I s' /\ (m s' < m s)%nat) ->
  forall fuel s, I s -> (m s < fuel)%nat ->
    exists s', while fuel c f s = Some s' /\ I s' /\ c s' = Some false.
Proof.
  intros Hc Hf. induction fuel as [|fuel IH]; intros s HI Hm; [lia|].
  destruct (Hc s HI) as [[] Hcs]; simpl; rewrite Hcs; simpl.
  - destruct (Hf s HI Hcs) as (s' & Hfs & HI' & Hlt). rewrite Hfs. simpl.
    apply IH; [done|lia].
  - eauto.
Qed.

(** [for (k = i; k < i + n; k++) if (p(k)) break;]: the index at which the
    loop stops, [i + n] when no test succeeds. *)
Fixpoint for_find (p : Z -> option bool) (n : nat) (i : Z) : option Z :=
  match n with
  | O => Some i
  | S n =>
      b ← p i;
      if b : bool then Some i else for_find p n (i + 1)
  end.

Lemma for_find_spec p q n i :
  (forall k, i <= k < i + Z.of_nat n -> p k = Some (q k)) ->
  exists j, for_find p n i = Some j /\ i <= j <= i + Z.of_nat n /\
    (forall k, i <= k < j -> q k = false) /\ (j < i + Z.of_nat n -> q j = true).
Proof.
  revert i. induction n as [|n IH]; intros i Hp; cbn [for_find].
  { exists i. split; [done|]. split; [lia|]. split; intros; lia. }
  rewrite Hp by lia. cbn [mbind option_bind]. destruct (q i) eqn:Hq.
  - exists i. split; [done|]. split; [lia|]. split; [lia|done].
  - destruct (IH (i + 1)) as (j & -> & Hj & Hno & Hyes); [intros; apply Hp; lia|].
    exists j. split; [done|]. split; [lia|]. split; [|intros; apply Hyes; lia].
    intros k Hk. destruct (decide (k = i)) as [->|]; [done|]. apply Hno. lia.
Qed.

(** ** Masks *)

Lemma land_mask n x : 0 <= n -> Z.land x (Z.ones n) = x mod 2 ^ n.
Proof. intros. by apply Z.land_ones. Qed.

Lemma land_fff x : Z.land x 0xfff = x mod 4096.
Proof. change 0xfff with (Z.ones 12). by rewrite land_mask. Qed.
Lemma land_ff x : Z.land x 0xff = x mod 256.
Proof. change 0xff with (Z.ones 8). by rewrite land_mask. Qed.
Lemma land_ffff x : Z.land x 0xffff = x mod 65536.
Proof. change 0xffff with (Z.ones 16). by rewrite land_mask. Qed.

Lemma u8_testbit x m : 0 <= m < 8 -> Z.testbit (u8 x) m = Z.testbit x m.
Proof. intros. unfold u8. change 256 with (2 ^ 8). by rewrite Z.mod_pow2_bits_low by lia. Qed.

(** ** Modular arithmetic *)

Lemma mod_mod_divide_pos x m b : (b | m) -> (x mod m) mod b = x mod b.
Proof. intros. by apply Z.mod_mod_divide. Qed.

(** A reduction modulo a multiple of the modulus can be dropped. *)
Lemma mod_wrap x y m b : (b | m) -> (x mod m + y) mod b = (x + y) mod b.
Proof.
  intros. rewrite <- Zplus_mod_idemp_l, mod_mod_divide_pos, Zplus_mod_idemp_l; done.
Qed.

(** Two offsets below the modulus that reach the same residue are equal. *)
Lemma mod_add_inj a b d1 d2 :
  0 <= d1 < b -> 0 <= d2 < b -> (a + d1) mod b = (a + d2) mod b -> d1 = d2.
Proof.
  intros H1 H2 E.
  pose proof (Z.div_mod (a + d1) b ltac:(lia)).
  pose proof (Z.div_mod (a + d2) b ltac:(lia)).
  set (q1 := (a + d1) / b) in *. set (q2 := (a + d2) / b) in *.
  assert (d1 - d2 = b * (q1 - q2)) by lia.
  destruct (Z.lt_trichotomy q1 q2) as [?|[->|?]]; [nia|lia|nia].
Qed.

(** A number in the modulus' range is the residue of every number it is
    congruent to. *)
Lemma mod_eq_sub x y m : 0 < m -> x mod m = y mod m <-> (x - y) mod m = 0.
Proof.
  intros Hm. split; intros E.
  - rewrite Zminus_mod, E, Z.sub_diag. by apply Z.mod_0_l; lia.
  - apply Z.mod_divide in E as [q E]; [|lia].
    replace x with (y + q * m) by lia. by rewrite Z_mod_plus_full.
Qed.

(** ** Lists indexed by consecutive integers *)

Section omap_seqZ.
Context {A : Type}.
Implicit Types f g : Z -> option A.

Lemma omap_seqZ_app f m n1 n2 :
    0 <= n1 -> 0 <= n2 ->
    omap f (seqZ m (n1 + n2)) = omap f (seqZ m n1) ++ omap f (seqZ (m + n1) n2).
  Proof. intros. by rewrite seqZ_app, omap_app. Qed.

Lemma omap_seqZ_ext f g m n :
    (forall d, m <= d < m + n -> f d = g d) -> omap f (seqZ m n) = omap g (seqZ m n).
  Proof.
    intros E. assert (H : forall d, d ∈ seqZ m n -> f d = g d).
    { intros d Hd%elem_of_seqZ. apply E. lia. }
    clear E. induction (seqZ m n) as [|d l IH]; [done|].
    csimpl. rewrite (H d) by constructor. rewrite IH; [done|].
    intros. apply H. by constructor.
  Qed.

Lemma omap_seqZ_none f m n :
    (forall d, m <= d < m + n -> f d = None) -> omap f (seqZ m n) = [].
  Proof.
    intros E. rewrite (omap_seqZ_ext f (fun _ => None)) by done.
    by induction (seqZ m n).
  Qed.

Lemma omap_seqZ_shift f m n k :
    omap f (seqZ (m + k) n) = omap (fun d => f (d + k)) (seqZ m n).
  Proof.
    rewrite (Z.add_comm m k), <- fmap_add_seqZ.
    induction (seqZ m n) as [|d l IH]; [done|].
    rewrite fmap_cons. csimpl. rewrite IH, (Z.add_comm k d). done.
  Qed.

Lemma omap_seqZ_cons f m n :
    0 < n -> omap f (seqZ m n) =
      match f m with Some x => [x] | None => [] end ++ omap f (seqZ (m + 1) (n - 1)).
  Proof.
    intros. rewrite seqZ_cons by lia. csimpl.
    rewrite Z.add_1_r, Z.sub_1_r. by destruct (f m).
  Qed.

Lemma elem_of_omap_seqZ f m n x :
    x ∈ omap f (seqZ m n) <-> exists d, m <= d < m + n /\ f d = Some x.
  Proof.
    rewrite list_elem_of_omap. setoid_rewrite elem_of_seqZ. naive_solver lia.
  Qed.
End omap_seqZ.

(** ** Filters that keep everything or nothing *)

Lemma filter_all {A} (P : A -> Prop) `{!forall x, Decision (P x)} l : Forall P l -> filter P l = l.
Proof. induction 1; [done|]. rewrite filter_cons_True by done. by f_equal. Qed.

Lemma filter_none {A} (P : A -> Prop) `{!forall x, Decision (P x)} l :
  Forall (fun x => ~ P x) l -> filter P l = [].
Proof. induction 1; [done|]. by rewrite filter_cons_False. Qed.

(** ** Members of a concatenation *)

Lemma elem_of_concat {A} (x : A) (ls : list (list A)) : x ∈ concat ls <-> exists l, x ∈ l /\ l ∈ ls.
Proof.
  induction ls as [|l ls IH]; cbn; [split; [by intros ?%elem_of_nil|by intros (? & _ & ?%elem_of_nil)]|].
  rewrite elem_of_app, IH. setoid_rewrite elem_of_cons. naive_solver.
Qed.
