(* ===== verification/Reorder.v ===== *)
(** * Receive reordering ([phl/phl_rx.c], [phl/phl_rx_agg.c])

    The block-ack reordering ring of one traffic identifier: the data and the
    operations as the driver has them. *)

From Stdlib Require Import ZArith Lia Bool Sorted.
From stdpp Require Import base option list numbers gmap tactics.
From S2P Require Import Prelude.

Module Reorder.

Definition SEQ_MODULO : Z := 0x1000.
Definition SEQ_MASK : Z := 0xfff.
Definition HT_RX_REORDER_BUF_TIMEOUT_MS : Z := 100.
Definition PHL_MAX_AGG_WSIZE : Z := 32.
Definition TID_MAX_NUM : Z := 8.

(** The meta data of a received packet ([struct rtw_r_meta_data]), the fields
    the reordering reads. *)
Record r_meta := {
  seq : Z; tid : Z;
  bc : bool; mc : bool; qos : bool; q_null : bool;
  more_frag : bool; frag_num : Z;
  amsdu_cut : bool; last_msdu : bool;
  addr_cam_vld : bool; macid : Z;
  mac_addr : list Z; ta : list Z;
}.

(** [struct rtw_phl_rx_pkt]: [ptr] is the packet's identity, [length0] is
    [pkt_list[0].length]; stations and roles are named by integers. *)
Record rx_pkt := {
  ptr : Z;
  length0 : Z;
  mdata : r_meta;
  tx_sta : option Z;
  rx_role : option Z;
}.

Definition pkt_seq (p : rx_pkt) : Z := seq (mdata p).

(** [struct phl_tid_ampdu_rx] *)
Record tid_ampdu_rx := {
  reorder_buf : list (option rx_pkt);
  reorder_time : list Z;
  head_seq_num : Z;
  stored_mpdu_num : Z;
  ssn : Z;
  buf_size : Z;
  rtid : Z;
  started : bool;
  removed : bool;
}.

(** Calls that leave the component. *)
Inductive event :=
  | EvRecyclePkt (p : rx_pkt)           (* hci_trx_ops->recycle_rx_pkt *)
  | EvRecycleBuf (p : option rx_pkt)    (* phl_recycle_rx_buf *)
  | EvSetTimer (ms : Z)                 (* _os_set_timer(reorder_timer) *)
  | EvCancelTimer                       (* _os_cancel_timer_async *)
  | EvRxSts (sta : Z)                   (* rtw_hal_set_sta_rx_sts *)
  | EvHalStartBa (tid buf_size : Z)     (* rtw_hal_start_ba_session *)
  | EvHalStopBa (tid : Z).              (* rtw_hal_stop_ba_session *)

(** The state the operations thread: the ring, the output list [frames] and
    the calls made so far. *)
Record ro := {
  ring : tid_ampdu_rx;
  frames : list rx_pkt;
  events : list event;
}.

Definition set_head (r : tid_ampdu_rx) (h : Z) : tid_ampdu_rx :=
  {| reorder_buf := reorder_buf r; reorder_time := reorder_time r; head_seq_num := h;
     stored_mpdu_num := stored_mpdu_num r; ssn := ssn r; buf_size := buf_size r;
     rtid := rtid r; started := started r; removed := removed r |}.
Definition set_buf (r : tid_ampdu_rx) (b : list (option rx_pkt)) (n : Z) : tid_ampdu_rx :=
  {| reorder_buf := b; reorder_time := reorder_time r; head_seq_num := head_seq_num r;
     stored_mpdu_num := n; ssn := ssn r; buf_size := buf_size r;
     rtid := rtid r; started := started r; removed := removed r |}.
Definition set_time (r : tid_ampdu_rx) (t : list Z) : tid_ampdu_rx :=
  {| reorder_buf := reorder_buf r; reorder_time := t; head_seq_num := head_seq_num r;
     stored_mpdu_num := stored_mpdu_num r; ssn := ssn r; buf_size := buf_size r;
     rtid := rtid r; started := started r; removed := removed r |}.
Definition set_started (r : tid_ampdu_rx) : tid_ampdu_rx :=
  {| reorder_buf := reorder_buf r; reorder_time := reorder_time r;
     head_seq_num := head_seq_num r; stored_mpdu_num := stored_mpdu_num r; ssn := ssn r;
     buf_size := buf_size r; rtid := rtid r; started := true; removed := removed r |}.

Definition with_ring (s : ro) (r : tid_ampdu_rx) : ro :=
  {| ring := r; frames := frames s; events := events s |}.
Definition emit (s : ro) (e : event) : ro :=
  {| ring := ring s; frames := frames s; events := events s ++ [e] |}.

(** ** Sequence numbers *)

Definition seq_less (sq1 sq2 : Z) : bool :=
  Z.land (sq1 - sq2) SEQ_MASK >? Z.shiftr SEQ_MODULO 1.
Definition seq_inc (sq : Z) : Z := Z.land (sq + 1) SEQ_MASK.
Definition seq_sub (sq1 sq2 : Z) : Z := Z.land (sq1 - sq2) SEQ_MASK.
Definition reorder_index (r : tid_ampdu_rx) (sq : Z) : Z :=
  seq_sub sq (ssn r) mod buf_size r.

(** ** Releasing *)

Definition phl_release_reorder_frame (s : ro) (index : Z) : option ro :=
  let r := ring s in
  pkt ← rd (reorder_buf r) index;
  match pkt with
  | None => Some (with_ring s (set_head r (seq_inc (head_seq_num r))))
  | Some p =>
      b ← wr (reorder_buf r) index None;
      let r1 := set_buf r b (u16 (stored_mpdu_num r - 1)) in
      Some {| ring := set_head r1 (seq_inc (head_seq_num r1));
              frames := frames s ++ [p]; events := events s |}
  end.

(** The conditions and the common body of the two release loops. *)
Definition head_index (s : ro) : Z := reorder_index (ring s) (head_seq_num (ring s)).
Definition head_filled (s : ro) : option bool :=
  p ← rd (reorder_buf (ring s)) (head_index s); Some (is_Some_b p).
Definition behind (head : Z) (s : ro) : option bool :=
  Some (seq_less (head_seq_num (ring s)) head && negb (stored_mpdu_num (ring s) =? 0)).
Definition release_next (s : ro) : option ro :=
  phl_release_reorder_frame s (head_index s).

(** "don't leave incomplete A-MSDUs around": the buffers between [index] and
    [j] are recycled. *)
Fixpoint recycle_between (fuel : nat) (s : ro) (i j : Z) : option ro :=
  match fuel with
  | O => None
  | S fuel =>
      if i =? j then Some s
      else
        p ← rd (reorder_buf (ring s)) i;
        recycle_between fuel (emit s (EvRecycleBuf p)) ((i + 1) mod buf_size (ring s)) j
  end.

(** The scan for timed-out frames; [true] when it stopped with
    [goto set_release_timer]. *)
Fixpoint release_timed_out (fuel : nat) (s : ro) (cur_time index j skipped : Z)
    : option (ro * bool) :=
  match fuel with
  | O => None
  | S fuel =>
      if j =? index then Some (s, false)
      else
        let r := ring s in
        let next := (j + 1) mod buf_size r in
        pkt ← rd (reorder_buf r) j;
        match pkt with
        | None => release_timed_out fuel s cur_time index next (skipped + 1)
        | Some _ =>
            t ← rd (reorder_time r) j;
            if negb (skipped =? 0) && (cur_time <? u32 (t + HT_RX_REORDER_BUF_TIMEOUT_MS))
            then Some (s, true)
            else
              s1 ← recycle_between (S (Z.to_nat (buf_size r))) s ((index + 1) mod buf_size r) j;
              s2 ← phl_release_reorder_frame s1 j;
              let r2 := ring s2 in
              let s3 := with_ring s2 (set_head r2 (Z.land (head_seq_num r2 + skipped) SEQ_MASK)) in
              release_timed_out fuel s3 cur_time index next 0
        end
  end.

(** The scan for the next stored frame before the timer is set; C's [%]
    truncates, hence [Z.rem]. *)
Fixpoint find_stored (fuel : nat) (r : tid_ampdu_rx) (index j : Z) : option Z :=
  match fuel with
  | O => None
  | S fuel =>
      if j =? Z.rem (index - 1) (buf_size r) then Some j
      else
        pkt ← rd (reorder_buf r) j;
        match pkt with
        | Some _ => Some j
        | None => find_stored fuel r index ((j + 1) mod buf_size r)
        end
  end.

Definition set_release_timer (s : ro) : ro :=
  if removed (ring s) then s else emit s (EvSetTimer HT_RX_REORDER_BUF_TIMEOUT_MS).

(** Enough fuel for one turn around the ring. *)
Definition ring_fuel (r : tid_ampdu_rx) : nat := S (S (Z.to_nat (buf_size r))).

Definition phl_reorder_release (s : ro) (cur_time : Z) : option ro :=
  let r := ring s in
  let index := reorder_index r (head_seq_num r) in
  pkt ← rd (reorder_buf r) index;
  res ←
    (if negb (is_Some_b pkt) && negb (stored_mpdu_num r =? 0) then
       release_timed_out (ring_fuel r) s cur_time index ((index + 1) mod buf_size r) 1
     else
       s1 ← while (ring_fuel r) head_filled release_next s;
       Some (s1, false));
  let (s1, set_timer) := res : ro * bool in
  if set_timer then Some (set_release_timer s1)
  else if negb (stored_mpdu_num (ring s1) =? 0) then
    let r1 := ring s1 in
    let idx := head_seq_num r1 mod buf_size r1 in
    _ ← find_stored (ring_fuel r1) r1 idx idx;
    Some (set_release_timer s1)
  else Some (emit s1 EvCancelTimer).

Definition phl_release_reorder_frames (s : ro) (head : Z) : option ro :=
  s1 ← while (ring_fuel (ring s))
         (behind head)
         release_next s;
  Some (with_ring s1 (set_head (ring s1) head)).

(** [t_store] and [t_release] are the two readings of the clock. The boolean
    is the C result: [true] when the packet was taken. *)
Definition phl_manage_sta_reorder_buf (s : ro) (pkt : rx_pkt) (t_store t_release : Z)
    : option (bool * ro) :=
  let r := ring s in
  let mpdu_seq_num := pkt_seq pkt in
  let head := head_seq_num r in
  if negb (started r) && seq_less mpdu_seq_num head then Some (false, s)
  else
    let s := with_ring s (set_started r) in
    if seq_less mpdu_seq_num head then Some (true, emit s (EvRecyclePkt pkt))
    else
      s ← (if negb (seq_less mpdu_seq_num (u16 (head + buf_size r))) then
             phl_release_reorder_frames s (seq_inc (seq_sub mpdu_seq_num (buf_size r)))
           else Some s);
      let r := ring s in
      let index := reorder_index r mpdu_seq_num in
      cur ← rd (reorder_buf r) index;
      match cur with
      | Some _ => Some (true, emit s (EvRecyclePkt pkt))
      | None =>
          if (mpdu_seq_num =? head_seq_num r) && (stored_mpdu_num r =? 0) then
            Some (false, with_ring s (set_head r (seq_inc (head_seq_num r))))
          else
            b ← wr (reorder_buf r) index (Some pkt);
            t ← wr (reorder_time r) index t_store;
            let r1 := set_time (set_buf r b (u16 (stored_mpdu_num r + 1))) t in
            s ← phl_reorder_release (with_ring s r1) t_release;
            Some (true, s)
      end.

(** [phl_sta_rx_reorder_timer_expired] over the rings of a station: every
    session is released at the time of its own turn; the frames of a session
    are handed up before the next session is looked at. *)
Fixpoint phl_sta_rx_reorder_timer_expired (tid_rx : list (option tid_ampdu_rx))
    (times : list Z) : option (list (option tid_ampdu_rx) * list rx_pkt * list event) :=
  match tid_rx, times with
  | [], _ => Some ([], [], [])
  | None :: rest, _ :: times =>
      res ← phl_sta_rx_reorder_timer_expired rest times;
      let '(rest', fr, ev) := res in Some (None :: rest', fr, ev)
  | Some r :: rest, t :: times =>
      s ← phl_reorder_release {| ring := r; frames := []; events := [] |} t;
      res ← phl_sta_rx_reorder_timer_expired rest times;
      let '(rest', fr, ev) := res in
      Some (Some (ring s) :: rest', frames s ++ fr, events s ++ ev)
  | _ :: _, [] => None
  end.

(** [rtw_phl_rx_bar]: the array of sessions after a block-ack request and the
    frames handed up. *)
Definition rtw_phl_rx_bar (tid_rx : list (option tid_ampdu_rx)) (tid sq : Z)
    : option (list (option tid_ampdu_rx) * list rx_pkt) :=
  r ← rd tid_rx tid;
  match r with
  | None => Some (tid_rx, [])
  | Some r =>
      if seq_less sq (head_seq_num r) then Some (tid_rx, [])
      else
        s ← phl_release_reorder_frames {| ring := r; frames := []; events := [] |} sq;
        tid_rx' ← wr tid_rx tid (Some (ring s));
        Some (tid_rx', frames s)
  end.

(** ** The entry from the receive path *)

Inductive rtw_phl_status :=
  | RTW_PHL_STATUS_SUCCESS | RTW_PHL_STATUS_FAILURE | RTW_PHL_STATUS_RESOURCE.

Record stainfo := {
  wrole : option Z;
  tid_rx : list (option tid_ampdu_rx);
}.

(** What the reordering asks of the station directory. *)
Class StaLookup := {
  get_stainfo_by_macid : Z -> option Z;
  get_wrole_by_addr : list Z -> option Z;
  get_stainfo_by_addr : Z -> list Z -> option Z;
}.

Definition set_length0 (p : rx_pkt) (n : Z) : rx_pkt :=
  {| ptr := ptr p; length0 := n; mdata := mdata p; tx_sta := tx_sta p; rx_role := rx_role p |}.
Definition set_sta (p : rx_pkt) (sta : Z) (role : option Z) : rx_pkt :=
  {| ptr := ptr p; length0 := length0 p; mdata := mdata p;
     tx_sta := Some sta; rx_role := role |}.

(** The stations, the output list and the calls made. *)
Record rx_state := {
  stas : gmap Z stainfo;
  rx_frames : list rx_pkt;
  rx_events : list event;
}.

Definition drop_frame (s : rx_state) (p : rx_pkt) : rtw_phl_status * rx_state :=
  (RTW_PHL_STATUS_FAILURE,
   {| stas := stas s; rx_frames := rx_frames s; rx_events := rx_events s ++ [EvRecyclePkt p] |}).
Definition dont_reorder (s : rx_state) (p : rx_pkt) : rtw_phl_status * rx_state :=
  (RTW_PHL_STATUS_SUCCESS,
   {| stas := stas s; rx_frames := rx_frames s ++ [p]; rx_events := rx_events s |}).

(** The station a packet belongs to: by MAC id when the address CAM matched,
    else (or when that station has no role) by the transmitter address.
    [None] is [goto dont_reorder]. *)
Definition find_sta `{StaLookup} (s : rx_state) (meta : r_meta) : option Z :=
  let by_cam := if addr_cam_vld meta then get_stainfo_by_macid (macid meta) else None in
  let has_role :=
    match by_cam with
    | Some sta => match stas s !! sta with Some i => is_Some_b (wrole i) | None => false end
    | None => false
    end in
  if has_role then by_cam
  else
    match get_wrole_by_addr (mac_addr meta) with
    | Some role => get_stainfo_by_addr role (ta meta)
    | None => None
    end.

Definition phl_rx_reorder `{StaLookup} (append_fcs : bool) (s : rx_state) (p : rx_pkt)
    (t_store t_release : Z) : option (rtw_phl_status * rx_state) :=
  let meta := mdata p in
  let strip := append_fcs && negb (amsdu_cut meta && negb (last_msdu meta)) in
  if strip && (length0 p <=? 4) then Some (drop_frame s p)
  else
    let p := if strip then set_length0 p (length0 p - 4) else p in
    if bc meta || mc meta || negb (qos meta) || q_null meta
       || (more_frag meta || negb (frag_num meta =? 0))
    then Some (dont_reorder s p)
    else
      match find_sta s meta with
      | None => Some (dont_reorder s p)
      | Some sta =>
          info ← stas s !! sta;
          let p := set_sta p sta (wrole info) in
          let s := {| stas := stas s; rx_frames := rx_frames s;
                      rx_events := rx_events s ++ [EvRxSts sta] |} in
          if TID_MAX_NUM <=? tid meta then Some (drop_frame s p)
          else
            r ← rd (tid_rx info) (tid meta);
            match r with
            | None => Some (dont_reorder s p)
            | Some r =>
                res ← phl_manage_sta_reorder_buf
                        {| ring := r; frames := rx_frames s; events := rx_events s |}
                        p t_store t_release;
                let (taken, s1) := res : bool * ro in
                tid_rx' ← wr (tid_rx info) (tid meta) (Some (ring s1));
                let s2 :=
                  {| stas := <[sta := {| wrole := wrole info; tid_rx := tid_rx' |}]> (stas s);
                     rx_frames := frames s1; rx_events := events s1 |} in
                Some (if taken : bool then (RTW_PHL_STATUS_SUCCESS, s2) else dont_reorder s2 p)
            end
      end.

(** ** Sessions ([phl/phl_rx_agg.c]) *)

(** [phl_tid_ampdu_rx_free]: the packets handed back to the HCI layer. *)
Definition phl_tid_ampdu_rx_free (r : option tid_ampdu_rx) : list event :=
  match r with
  | None => []
  | Some r => omap (fmap EvRecyclePkt) (reorder_buf r)
  end.

Definition set_removed (r : tid_ampdu_rx) : tid_ampdu_rx :=
  {| reorder_buf := reorder_buf r; reorder_time := reorder_time r;
     head_seq_num := head_seq_num r; stored_mpdu_num := stored_mpdu_num r; ssn := ssn r;
     buf_size := buf_size r; rtid := rtid r; started := started r; removed := true |}.

(** [phl_free_rx_reorder]: every session is marked removed, the timer is
    cancelled and the sessions are freed. *)
Definition phl_free_rx_reorder (i : stainfo) : stainfo * list event :=
  let marked := fmap set_removed <$> tid_rx i in
  ({| wrole := wrole i; tid_rx := (fun _ => None) <$> marked |},
   EvCancelTimer :: concat (phl_tid_ampdu_rx_free <$> marked)).

Definition rtw_phl_stop_rx_ba_session (sta : option stainfo) (tid : Z)
    : option (option stainfo * list event) :=
  match sta with
  | None => Some (None, [])
  | Some i =>
      if TID_MAX_NUM <=? tid then Some (Some i, [EvHalStopBa tid])
      else
        r ← rd (tid_rx i) tid;
        match r with
        | None => Some (Some i, [EvHalStopBa tid])
        | Some r =>
            t ← wr (tid_rx i) tid None;
            Some (Some {| wrole := wrole i; tid_rx := t |},
                  EvHalStopBa tid :: phl_tid_ampdu_rx_free (Some (set_removed r)))
        end
  end.

(** [phl_tid_ampdu_rx_alloc]; the booleans are the results of its three
    allocations. *)
Definition phl_tid_ampdu_rx_alloc (ok_r ok_buf ok_time : bool) (ssn tid buf_size : Z)
    : option tid_ampdu_rx :=
  if negb ok_r then None
  else if negb ok_buf then None
  else if negb ok_time then None
  else Some {|
    reorder_buf := replicate (Z.to_nat buf_size) None;
    reorder_time := replicate (Z.to_nat buf_size) 0;
    head_seq_num := ssn; stored_mpdu_num := 0; ssn := ssn; buf_size := buf_size;
    rtid := tid; started := false; removed := false |}.

Definition rtw_phl_start_rx_ba_session (i : stainfo) (ok_r ok_buf ok_time : bool)
    (start_seq_num ba_policy tid buf_size : Z) : option (rtw_phl_status * stainfo * list event) :=
  let hal := [EvHalStartBa tid buf_size] in
  if negb (ba_policy =? 0) then Some (RTW_PHL_STATUS_FAILURE, i, hal)
  else
    let buf_size := if buf_size =? 0 then PHL_MAX_AGG_WSIZE else buf_size in
    match phl_tid_ampdu_rx_alloc ok_r ok_buf ok_time start_seq_num tid buf_size with
    | None => Some (RTW_PHL_STATUS_RESOURCE, i, hal)
    | Some r =>
        if TID_MAX_NUM <=? tid then Some (RTW_PHL_STATUS_FAILURE, i, hal)
        else
          old ← rd (tid_rx i) tid;
          t ← wr (tid_rx i) tid (Some r);
          Some (RTW_PHL_STATUS_SUCCESS, {| wrole := wrole i; tid_rx := t |},
                hal ++ phl_tid_ampdu_rx_free old)
    end.

(** ** The sliding window

    Seen from the head, the ring is a window: [at_ r d] is what is stored [d]
    places after [head_seq_num]. *)

Definition slot (r : tid_ampdu_rx) (d : Z) : Z :=
  (head_seq_num r - ssn r + d) mod buf_size r.

Definition at_ (r : tid_ampdu_rx) (d : Z) : option rx_pkt :=
  default None (reorder_buf r !! Z.to_nat (slot r d)).

Definition span (r : tid_ampdu_rx) (a n : Z) : list rx_pkt :=
  omap (at_ r) (seqZ a n).

(** The stored packets, in sequence order. *)
Definition contents (r : tid_ampdu_rx) : list rx_pkt := span r 0 (buf_size r).

(** The sequence distance from the head. *)
Definition offset (r : tid_ampdu_rx) (sq : Z) : Z := (sq - head_seq_num r) mod SEQ_MODULO.

Record wf (r : tid_ampdu_rx) : Prop := {
  wf_size : 2 <= buf_size r <= 1024;
  wf_divide : (buf_size r | SEQ_MODULO);
  wf_buf : Z.of_nat (length (reorder_buf r)) = buf_size r;
  wf_time : Z.of_nat (length (reorder_time r)) = buf_size r;
  wf_head : 0 <= head_seq_num r < SEQ_MODULO;
  wf_ssn : 0 <= ssn r < SEQ_MODULO;
  wf_stored : stored_mpdu_num r = Z.of_nat (length (contents r));
  wf_seq : forall d p, 0 <= d < buf_size r -> at_ r d = Some p ->
             pkt_seq p = (head_seq_num r + d) mod SEQ_MODULO;
}.

(** [slides k r r' fr]: the window moved by [k] places and [fr] are the
    packets that left it. *)
Record slides (k : Z) (r r' : tid_ampdu_rx) (fr : list rx_pkt) : Prop := {
  sl_nonneg : 0 <= k;
  sl_head : head_seq_num r' = (head_seq_num r + k) mod SEQ_MODULO;
  sl_at : forall d, 0 <= d < buf_size r ->
            at_ r' d = if d + k <? buf_size r then at_ r (d + k) else None;
  sl_fr : fr = span r 0 (Z.min k (buf_size r));
  sl_stored : stored_mpdu_num r' = stored_mpdu_num r - Z.of_nat (length fr);
  sl_buf : length (reorder_buf r') = length (reorder_buf r);
  sl_time : reorder_time r' = reorder_time r;
  sl_ssn : ssn r' = ssn r;
  sl_size : buf_size r' = buf_size r;
  sl_started : started r' = started r;
  sl_removed : removed r' = removed r;
}.

Lemma seq_inc_mod x : seq_inc x = (x + 1) mod SEQ_MODULO.
Proof. apply land_fff. Qed.
Lemma seq_sub_mod x y : seq_sub x y = (x - y) mod SEQ_MODULO.
Proof. apply land_fff. Qed.
Lemma seq_less_spec x y : seq_less x y = ((x - y) mod SEQ_MODULO >? 2048).
Proof. unfold seq_less. by rewrite land_fff. Qed.

Lemma reorder_index_mod r sq :
  (buf_size r | SEQ_MODULO) -> reorder_index r sq = (sq - ssn r) mod buf_size r.
Proof.
  intros. unfold reorder_index. rewrite seq_sub_mod. by apply mod_mod_divide_pos.
Qed.

Lemma reorder_index_slot r sq :
  wf r -> reorder_index r sq = slot r (offset r sq).
Proof.
  intros [? Hd _ _ _ _ _ _]. rewrite reorder_index_mod by done.
  unfold slot, offset.
  rewrite <- (Zplus_mod_idemp_r (_ mod SEQ_MODULO)), mod_mod_divide_pos by done.
  rewrite Zplus_mod_idemp_r. f_equal. lia.
Qed.

Lemma reorder_index_head r : wf r -> reorder_index r (head_seq_num r) = slot r 0.
Proof.
  intros H. rewrite reorder_index_slot by done. unfold offset. by rewrite Z.sub_diag.
Qed.

Section window.
Context (r : tid_ampdu_rx) (Hwf : wf r).

Lemma slot_range d : 0 <= slot r d < buf_size r.
  Proof. apply Z.mod_pos_bound. destruct Hwf; lia. Qed.

Lemma rd_slot d : rd (reorder_buf r) (slot r d) = Some (at_ r d).
  Proof.
    pose proof (slot_range d) as Hs. destruct Hwf.
    destruct (rd_some (reorder_buf r) (slot r d)) as [x Hx]; [lia|].
    rewrite Hx. rewrite rd_lookup in Hx by lia. unfold at_. by rewrite Hx.
  Qed.

Lemma slot_inj d1 d2 :
    0 <= d1 < buf_size r -> 0 <= d2 < buf_size r -> slot r d1 = slot r d2 -> d1 = d2.
  Proof. apply mod_add_inj. Qed.

Lemma at_period d : at_ r (d + buf_size r) = at_ r d.
  Proof.
    unfold at_, slot. do 3 f_equal. destruct Hwf.
    rewrite Z.add_assoc, <- (Z.mul_1_l (buf_size r)) at 1. by apply Z_mod_plus_full.
  Qed.

Lemma stored_contents : stored_mpdu_num r = Z.of_nat (length (span r 0 (buf_size r))).
  Proof. by destruct Hwf. Qed.

Lemma stored_bound : 0 <= stored_mpdu_num r <= buf_size r.
  Proof.
    rewrite stored_contents. split; [lia|]. unfold span.
    assert (forall l : list Z, (length (omap (at_ r) l) <= length l)%nat) as Hl.
    { induction l as [|x l IH]; [done|]. csimpl. destruct (at_ r x); simpl; lia. }
    specialize (Hl (seqZ 0 (buf_size r))). rewrite length_seqZ in Hl.
    destruct Hwf. lia.
  Qed.

Lemma not_stored_none :
    stored_mpdu_num r = 0 -> forall d, 0 <= d < buf_size r -> at_ r d = None.
  Proof.
    intros H0 d Hd. rewrite stored_contents in H0.
    destruct (at_ r d) as [p|] eqn:E; [|done].
    assert (p ∈ span r 0 (buf_size r)) as Hin.
    { apply elem_of_omap_seqZ. exists d. split; [lia|done]. }
    destruct (span r 0 (buf_size r)); [by apply not_elem_of_nil in Hin|simpl in H0; lia].
  Qed.

Lemma stored_some :
    stored_mpdu_num r <> 0 -> exists d p, 0 <= d < buf_size r /\ at_ r d = Some p.
  Proof.
    intros Hn. rewrite stored_contents in Hn.
    destruct (span r 0 (buf_size r)) as [|p l] eqn:E; [done|].
    assert (p ∈ span r 0 (buf_size r)) as Hin by (rewrite E; constructor).
    apply elem_of_omap_seqZ in Hin as (d & ? & ?). exists d, p. split; [lia|done].
  Qed.
End window.

(** Storing at a slot changes the window at its place only. *)
Lemma at_insert r b n d0 x d :
  wf r -> 0 <= d0 < buf_size r -> 0 <= d < buf_size r ->
  b = <[Z.to_nat (slot r d0) := x]> (reorder_buf r) ->
  at_ (set_buf r b n) d = if d =? d0 then x else at_ r d.
Proof.
  intros Hwf Hd0 Hd ->. unfold at_ at 1. change (slot (set_buf _ _ _) d) with (slot r d).
  simpl. pose proof (slot_range r Hwf d). pose proof (slot_range r Hwf d0).
  destruct (Z.eqb_spec d d0) as [->|Hne].
  - rewrite list_lookup_insert_eq; [done|]. destruct Hwf. lia.
  - rewrite list_lookup_insert_ne; [done|]. intros E.
    apply Hne, (slot_inj r); [done..|]. lia.
Qed.

(** Moving the head moves the window. *)
Lemma at_set_head r k d :
  wf r -> at_ (set_head r ((head_seq_num r + k) mod SEQ_MODULO)) d = at_ r (d + k).
Proof.
  intros [? Hd _ _ _ _ _ _]. unfold at_, slot; simpl. do 3 f_equal.
  rewrite <- Z.add_sub_swap, <- Z.add_sub_assoc, mod_wrap by done. f_equal. lia.
Qed.

Lemma span_split r k :
  0 <= k <= buf_size r ->
  contents r = span r 0 k ++ span r k (buf_size r - k).
Proof.
  intros Hk. unfold contents, span.
  rewrite <- (Zplus_minus k (buf_size r)) at 1.
  rewrite omap_seqZ_app by lia. by rewrite Z.add_0_l.
Qed.

(** What leaves the window, followed by what stays, is what was there. *)
Lemma slides_contents k r r' fr :
  wf r -> slides k r r' fr -> contents r = fr ++ contents r'.
Proof.
  intros Hwf [Hk _ Hat -> _ _ _ _ Hs _ _].
  assert (0 <= Z.min k (buf_size r) <= buf_size r) as Hm by (destruct Hwf; lia).
  rewrite (span_split r (Z.min k (buf_size r))) by done. f_equal.
  unfold contents, span. rewrite Hs.
  set (m := Z.min k (buf_size r)) in *.
  replace (buf_size r) with ((buf_size r - m) + m) at 2 by lia.
  rewrite omap_seqZ_app by lia.
  rewrite (omap_seqZ_none _ _ m).
  - rewrite app_nil_r, <- (Z.add_0_l m) at 1. rewrite omap_seqZ_shift.
    apply omap_seqZ_ext. intros d Hd. rewrite Hat by lia.
    destruct (Z.ltb_spec (d + k) (buf_size r)); [|lia].
    f_equal. lia.
  - intros d Hd. rewrite Hat by lia.
    destruct (Z.ltb_spec (d + k) (buf_size r)); [lia|done].
Qed.

Lemma slides_wf k r r' fr : wf r -> slides k r r' fr -> wf r'.
Proof.
  intros Hwf Hsl. pose proof (slides_contents k r r' fr Hwf Hsl) as Hc.
  destruct Hwf as [H1 H2 H3 H4 H5 H6 H7 H8].
  destruct Hsl as [Hk Hh Hat Hfr Hst Hb Ht Hssn Hs _ _].
  split; rewrite ?Hs, ?Hb, ?Ht, ?Hssn; try done.
  - rewrite Hh. apply Z.mod_pos_bound. done.
  - rewrite Hst, H7, Hc, length_app. lia.
  - intros d p Hd. rewrite Hat by done.
    destruct (Z.ltb_spec (d + k) (buf_size r)); [|done].
    intros Hp. rewrite (H8 (d + k) p) by (lia || done).
    rewrite Hh, Zplus_mod_idemp_l. f_equal. lia.
Qed.

Lemma slides_refl r : wf r -> slides 0 r r [].
Proof.
  intros Hwf. assert (span r 0 0 = []) as Hs0 by done.
  split; try done; try lia.
  - rewrite Z.add_0_r, Z.mod_small; [done|apply Hwf].
  - intros d Hd. rewrite Z.add_0_r. destruct (Z.ltb_spec d (buf_size r)); [done|lia].
  - destruct Hwf. rewrite Z.min_l by lia. done.
  - simpl. lia.
Qed.

Lemma slides_trans k1 k2 r r1 r2 f1 f2 :
  wf r -> slides k1 r r1 f1 -> slides k2 r1 r2 f2 -> slides (k1 + k2) r r2 (f1 ++ f2).
Proof.
  intros Hwf [Hk1 Hh1 Ha1 Hf1 Hst1 Hb1 Ht1 Hn1 Hs1 Hstd1 Hrm1]
         [Hk2 Hh2 Ha2 Hf2 Hst2 Hb2 Ht2 Hn2 Hs2 Hstd2 Hrm2].
  rewrite Hs1 in *. split; try congruence; try lia.
  - rewrite Hh2, Hh1, Zplus_mod_idemp_l. f_equal. lia.
  - intros d Hd. rewrite Ha2 by done.
    destruct (Z.ltb_spec (d + k2) (buf_size r)).
    + rewrite Ha1 by lia. rewrite <- Z.add_assoc, (Z.add_comm k2 k1). done.
    + destruct (Z.ltb_spec (d + (k1 + k2)) (buf_size r)); [lia|done].
  - rewrite Hf1, Hf2. unfold span. set (B := buf_size r) in *.
    assert (2 <= B) by (destruct Hwf; lia).
    destruct (Z.le_gt_cases B k1).
    + rewrite (Z.min_r (k1 + k2) B), (Z.min_r k1 B) by lia.
      rewrite (omap_seqZ_none (at_ r1)), app_nil_r; [done|].
      intros d Hd. rewrite Ha1 by lia. destruct (Z.ltb_spec (d + k1) B); [lia|done].
    + rewrite (Z.min_l k1) by lia.
      replace (Z.min (k1 + k2) B) with (k1 + Z.min k2 (B - k1)) by lia.
      rewrite omap_seqZ_app by lia. f_equal.
      replace (Z.min k2 B) with (Z.min k2 (B - k1) + (Z.min k2 B - Z.min k2 (B - k1))) by lia.
      rewrite (omap_seqZ_app (at_ r1)) by lia.
      rewrite (omap_seqZ_none _ (0 + _)), app_nil_r.
      * rewrite omap_seqZ_shift. apply omap_seqZ_ext. intros d Hd. rewrite Ha1 by lia.
        destruct (Z.ltb_spec (d + k1) B); [done|lia].
      * intros d Hd. rewrite Ha1 by lia. destruct (Z.ltb_spec (d + k1) B); [lia|done].
  - rewrite Hst2, Hst1, length_app. lia.
Qed.

(** Emptying the slot at [d0], below which nothing is stored, and moving the
    head just past it slides the window by [d0 + 1]. *)
Lemma slides_take r d0 p n h :
  wf r -> 0 <= d0 < buf_size r -> at_ r d0 = Some p ->
  (forall d, 0 <= d < d0 -> at_ r d = None) ->
  n = stored_mpdu_num r - 1 -> h = (head_seq_num r + (d0 + 1)) mod SEQ_MODULO ->
  slides (d0 + 1) r
    (set_head (set_buf r (<[Z.to_nat (slot r d0) := None]> (reorder_buf r)) n) h) [p].
Proof.
  intros Hwf Hd0 Hp Hnone -> ->.
  set (r1 := set_buf r _ _).
  assert (forall d, 0 <= d < buf_size r ->
            at_ r1 d = if d =? d0 then None else at_ r d) as Ha1.
  { intros d Hd. by apply at_insert. }
  assert (forall d, at_ (set_head r1 ((head_seq_num r + (d0 + 1)) mod SEQ_MODULO)) d
                    = at_ r1 (d + (d0 + 1))) as Ha2.
  { intros d. unfold at_, slot. simpl. do 3 f_equal. destruct Hwf as [? Hdiv _ _ _ _ _ _].
    rewrite <- Z.add_sub_swap, <- Z.add_sub_assoc, mod_wrap by done. f_equal. lia. }
  assert (forall d, at_ r1 (d + buf_size r) = at_ r1 d) as Hper.
  { intros d. unfold at_, slot. simpl. do 3 f_equal.
    rewrite Z.add_assoc, <- (Z.mul_1_l (buf_size r)) at 1. apply Z_mod_plus_full. }
  split; try done; try lia.
  - intros d Hd. rewrite Ha2. destruct (Z.ltb_spec (d + (d0 + 1)) (buf_size r)).
    + rewrite Ha1 by lia. destruct (Z.eqb_spec (d + (d0 + 1)) d0); [lia|done].
    + replace (d + (d0 + 1)) with ((d + (d0 + 1) - buf_size r) + buf_size r) by lia.
      rewrite Hper, Ha1 by lia.
      destruct (Z.eqb_spec (d + (d0 + 1) - buf_size r) d0); [done|].
      apply Hnone. lia.
  - unfold span. rewrite Z.min_l by lia. rewrite omap_seqZ_app by lia.
    rewrite omap_seqZ_none by (intros; apply Hnone; lia).
    rewrite omap_seqZ_cons, !Z.add_0_l, Hp by lia.
    replace (d0 + 1 - d0 - 1) with 0 by lia. done.
  - apply length_insert.
Qed.

(** ** Lemmas on the operations *)

Lemma at_mod r x : wf r -> at_ r x = at_ r (x mod buf_size r).
Proof.
  intros [? _ _ _ _ _ _ _]. unfold at_, slot. do 3 f_equal.
  by rewrite Zplus_mod_idemp_r.
Qed.

Lemma slot_succ r d : (slot r d + 1) mod buf_size r = slot r (d + 1).
Proof. unfold slot. rewrite Zplus_mod_idemp_l. f_equal. lia. Qed.

Lemma slot_turn r : slot r (buf_size r) = slot r 0.
Proof.
  unfold slot. rewrite <- (Z.mul_1_l (buf_size r)) at 1. rewrite Z_mod_plus_full.
  f_equal. lia.
Qed.

Lemma slides_slot k r r' fr x : wf r -> slides k r r' fr -> slot r x = slot r' (x - k).
Proof.
  intros [? Hd _ _ _ _ _ _] [_ Hh _ _ _ _ _ Hn Hs _ _]. unfold slot.
  rewrite Hh, Hn, Hs.
  replace (_ mod SEQ_MODULO - ssn r + (x - k))
    with ((head_seq_num r + k) mod SEQ_MODULO + (x - k - ssn r)) by lia.
  rewrite mod_wrap by done. f_equal. lia.
Qed.

Lemma slides_skip r k :
  wf r -> 0 <= k -> (forall d, 0 <= d < Z.min k (buf_size r) -> at_ r d = None) ->
  slides k r (set_head r ((head_seq_num r + k) mod SEQ_MODULO)) [].
Proof.
  intros Hwf Hk Hnone.
  assert (2 <= buf_size r) by (destruct Hwf; lia).
  split; try done; try (simpl; lia).
  - intros d Hd. rewrite at_set_head by done.
    destruct (Z.ltb_spec (d + k) (buf_size r)); [done|].
    rewrite at_mod by done. apply Hnone.
    pose proof (Z.mod_pos_bound (d + k) (buf_size r) ltac:(lia)).
    destruct (Z.le_gt_cases k (buf_size r)); [|lia].
    rewrite <- (Z_mod_plus_full _ (-1)), Z.mod_small by lia. lia.
  - symmetry. by apply omap_seqZ_none.
Qed.

(** Inside the window, the slid ring at an old place. *)
Lemma slides_at_old k r r' fr x :
  wf r -> slides k r r' fr -> k <= buf_size r -> 0 <= x < buf_size r ->
  at_ r' (x - k) = if k <=? x then at_ r x else None.
Proof.
  intros Hwf Hsl Hk Hx. pose proof (slides_wf _ _ _ _ Hwf Hsl) as Hwf'.
  destruct Hsl as [? _ Hat _ _ _ _ _ Hs _ _].
  destruct (Z.leb_spec k x).
  - rewrite Hat by lia. rewrite Z.sub_add.
    destruct (Z.ltb_spec x (buf_size r)); [done|lia].
  - rewrite at_mod, Hs by done.
    rewrite <- (Z_mod_plus_full _ 1), Z.mod_small by lia. rewrite Hat by lia.
    destruct (Z.ltb_spec (x - k + 1 * buf_size r + k) (buf_size r)); [lia|done].
Qed.

Lemma stored_dec r : wf r -> stored_mpdu_num r <> 0 ->
  u16 (stored_mpdu_num r - 1) = stored_mpdu_num r - 1.
Proof.
  intros Hwf ?. pose proof (stored_bound r Hwf). destruct Hwf.
  apply u16_id. unfold is_u16. lia.
Qed.

(** Releasing the frame [d0] places after the head, when nothing is stored
    before it, and counting the skipped places. *)
Lemma release_frame_at s d0 p :
  wf (ring s) -> 0 <= d0 < buf_size (ring s) -> at_ (ring s) d0 = Some p ->
  (forall d, 0 <= d < d0 -> at_ (ring s) d = None) ->
  exists r', phl_release_reorder_frame s (slot (ring s) d0)
             = Some {| ring := r'; frames := frames s ++ [p]; events := events s |}
    /\ slides (d0 + 1) (ring s)
         (set_head r' (Z.land (head_seq_num r' + d0) SEQ_MASK)) [p].
Proof.
  intros Hwf Hd0 Hp Hnone. set (r := ring s) in *.
  pose proof (slot_range r Hwf d0). pose proof (stored_bound r Hwf) as Hsb.
  assert (stored_mpdu_num r <> 0) as Hne.
  { intros E. by rewrite (not_stored_none r Hwf E) in Hp. }
  eexists. unfold phl_release_reorder_frame. fold r.
  rewrite rd_slot by done. simpl. rewrite Hp.
  rewrite wr_some by (destruct Hwf; lia). simpl. split; [reflexivity|].
  simpl. rewrite land_fff. eapply slides_take; try done.
  - by apply stored_dec.
  - rewrite seq_inc_mod, Zplus_mod_idemp_l. f_equal. lia.
Qed.

(** Releasing at the head slides the window by one. *)
Lemma release_head s :
  wf (ring s) ->
  exists s' fr, phl_release_reorder_frame s (slot (ring s) 0) = Some s'
    /\ slides 1 (ring s) (ring s') fr /\ frames s' = frames s ++ fr
    /\ events s' = events s.
Proof.
  intros Hwf. destruct (at_ (ring s) 0) as [p|] eqn:E.
  - destruct (release_frame_at s 0 p) as (r' & Hr & Hsl);
      [done|destruct Hwf; lia|done|lia|].
    eexists _, [p]. split; [exact Hr|]. split; [|done].
    simpl. replace r' with (set_head r' (Z.land (head_seq_num r' + 0) SEQ_MASK)); [done|].
    rewrite land_fff, Z.add_0_r.
    unfold phl_release_reorder_frame in Hr.
    rewrite rd_slot in Hr by done. simpl in Hr. rewrite E in Hr.
    pose proof (slot_range (ring s) Hwf 0).
    rewrite wr_some in Hr by (destruct Hwf; lia). simpl in Hr. injection Hr as <-.
    simpl. rewrite seq_inc_mod. unfold set_head; simpl.
    by rewrite Zmod_mod.
  - eexists _, []. unfold phl_release_reorder_frame.
    rewrite rd_slot by done. simpl. rewrite E. split; [done|].
    rewrite app_nil_r. split; [|done]. simpl. rewrite seq_inc_mod.
    apply slides_skip; [done|lia|]. intros d Hd. replace d with 0 by lia. done.
Qed.

(** [released k s s' fr]: from [s] to [s'] the window slid by [k], the packets
    [fr] that left it were appended to the output and no call was made. *)
Record released (k : Z) (s s' : ro) (fr : list rx_pkt) : Prop := {
  rel_slides : slides k (ring s) (ring s') fr;
  rel_frames : frames s' = frames s ++ fr;
  rel_events : events s' = events s;
}.

Lemma released_refl s : wf (ring s) -> released 0 s s [].
Proof. intros. split; [by apply slides_refl|by rewrite app_nil_r|done]. Qed.

Lemma released_head k s s1 fr :
  wf (ring s) -> released k s s1 fr ->
  exists s2 fr2,
    release_next s1 = Some s2
    /\ released (k + 1) s s2 (fr ++ fr2).
Proof.
  intros Hwf [Hsl Hf He]. pose proof (slides_wf _ _ _ _ Hwf Hsl) as Hwf1.
  unfold release_next, head_index. rewrite reorder_index_head by done.
  destruct (release_head s1 Hwf1) as (s2 & fr2 & -> & Hsl2 & Hf2 & He2).
  exists s2, fr2. split; [done|]. split.
  - by eapply slides_trans.
  - by rewrite Hf2, Hf, app_assoc.
  - by rewrite He2.
Qed.

(** [ready r k]: exactly the first [k] places of the window are filled. *)
Definition ready (r : tid_ampdu_rx) (k : Z) : Prop :=
  0 <= k <= buf_size r /\ (forall d, 0 <= d < k -> at_ r d <> None)
  /\ (k < buf_size r -> at_ r k = None).

Lemma slides_offset k r r' fr :
  wf r -> slides k r r' fr -> k < SEQ_MODULO -> offset r (head_seq_num r') = k.
Proof.
  intros Hwf Hsl Hk. unfold offset. destruct Hsl as [? -> _ _ _ _ _ _ _ _ _].
  unfold SEQ_MODULO in *. destruct Hwf. dlia.
Qed.

Lemma ready_loop s :
  wf (ring s) ->
  exists s' k fr,
    while (ring_fuel (ring s)) head_filled release_next s = Some s'
    /\ ready (ring s) k /\ released k s s' fr.
Proof.
  intros Hwf. set (r := ring s). set (B := buf_size r).
  assert (2 <= B <= 1024) as HB by apply Hwf.
  set (I := fun s1 => exists k fr, 0 <= k <= B /\ (forall d, 0 <= d < k -> at_ r d <> None)
                        /\ released k s s1 fr).
  assert (forall s1, I s1 -> head_filled s1 = Some (is_Some_b (at_ (ring s1) 0))) as Hc.
  { intros s1 (k & fr & _ & _ & [Hsl _ _]).
    pose proof (slides_wf _ _ _ _ Hwf Hsl). unfold head_filled, head_index.
    by rewrite reorder_index_head, rd_slot. }
  destruct (while_total I (fun s1 => Z.to_nat (B - offset r (head_seq_num (ring s1))))
              head_filled release_next) with (fuel := ring_fuel r) (s := s) as (s' & Hw & HI & Hend).
  - intros s1 H1. rewrite Hc by done. eauto.
  - intros s1 H1 Ht. rewrite Hc in Ht by done. destruct H1 as (k & fr & Hk & Hall & Hrel).
    pose proof Hrel as [Hsl _ _].
    assert (k < B /\ at_ r k <> None) as [HkB Hatk].
    { rewrite (sl_at _ _ _ _ Hsl 0) in Ht by (fold r B; lia). fold r B in Ht.
      rewrite Z.add_0_l in Ht. destruct (Z.ltb_spec k B); [|done].
      by destruct (at_ r k). }
    destruct (released_head k s s1 fr Hwf Hrel) as (s2 & fr2 & Hs2 & Hrel2).
    exists s2. split; [exact Hs2|]. split.
    + exists (k + 1), (fr ++ fr2). split; [lia|]. split; [|done].
      intros d Hd. destruct (decide (d = k)) as [->|]; [done|]. apply Hall. lia.
    + pose proof (rel_slides _ _ _ _ Hrel2) as Hsl2. unfold r.
      rewrite (slides_offset (k + 1) _ _ _ Hwf Hsl2), (slides_offset k _ _ _ Hwf Hsl)
        by (unfold SEQ_MODULO; lia). lia.
  - exists 0, []. split; [lia|]. split; [lia|]. by apply released_refl.
  - unfold offset, r. rewrite Z.sub_diag. unfold ring_fuel. fold r B.
    change (0 mod SEQ_MODULO) with 0. lia.
  - destruct HI as (k & fr & Hk & Hall & Hrel). exists s', k, fr.
    split; [exact Hw|]. split; [|done]. split; [done|]. split; [done|].
    intros HkB. rewrite Hc in Hend by (exists k, fr; done).
    pose proof Hrel as [Hsl _ _]. rewrite (sl_at _ _ _ _ Hsl 0) in Hend by (fold r B; lia).
    fold r B in Hend, HkB. rewrite Z.add_0_l in Hend. destruct (Z.ltb_spec k B); [|lia].
    by destruct (at_ r k).
Qed.

Lemma slides_to_head r head :
  wf r -> 0 <= head < SEQ_MODULO ->
  (head_seq_num r + offset r head) mod SEQ_MODULO = head.
Proof.
  intros Hwf Hh. unfold offset. rewrite Zplus_mod_idemp_r.
  replace (_ + _) with head by lia. by apply Z.mod_small.
Qed.

(** Sequence comparison against a place of the window. *)
Lemma seq_less_offset r k head :
  wf r -> 0 <= k <= offset r head -> offset r head < 2048 ->
  seq_less ((head_seq_num r + k) mod SEQ_MODULO) head = (k <? offset r head).
Proof.
  intros Hwf Hk Ho. rewrite seq_less_spec.
  replace (((head_seq_num r + k) mod SEQ_MODULO - head) mod SEQ_MODULO)
    with ((k - offset r head) mod SEQ_MODULO).
  - unfold SEQ_MODULO. destruct (Z.ltb_spec k (offset r head)).
    + rewrite <- (Z_mod_plus_full _ 1), Z.mod_small by lia.
      destruct (Z.gtb_spec (k - offset r head + 1 * 4096) 2048); [done|lia].
    + replace (k - offset r head) with 0 by lia. done.
  - unfold offset. rewrite Zminus_mod_idemp_r, Zminus_mod_idemp_l. f_equal. lia.
Qed.

(** [phl_release_reorder_frames]: the window slides to the new head. *)
Lemma release_frames_spec s head :
  wf (ring s) -> 0 <= head < SEQ_MODULO -> offset (ring s) head < 2048 ->
  exists s' fr, phl_release_reorder_frames s head = Some s'
    /\ released (offset (ring s) head) s s' fr.
Proof.
  intros Hwf Hh Ho. set (r := ring s) in *. set (B := buf_size r).
  set (D := offset r head) in *.
  assert (2 <= B <= 1024) as HB by apply Hwf.
  assert (0 <= D) as HD by (apply Z.mod_pos_bound; done).
  set (I := fun s1 => exists k fr, 0 <= k <= D /\ released k s s1 fr).
  assert (forall s1 k fr, 0 <= k <= D -> released k s s1 fr ->
            seq_less (head_seq_num (ring s1)) head = (k <? D)) as Hless.
  { intros s1 k fr Hk [Hsl _ _]. rewrite (sl_head _ _ _ _ Hsl).
    by apply seq_less_offset. }
  destruct (while_total I (fun s1 => Z.to_nat (B - offset r (head_seq_num (ring s1))))
              (behind head) release_next) with (fuel := ring_fuel r) (s := s)
    as (s' & Hw & (k & fr & Hk & Hrel) & Hend).
  - intros s1 _. unfold behind. eauto.
  - intros s1 (k & fr & Hk & Hrel) Ht. unfold behind in Ht.
    rewrite (Hless _ _ _ Hk Hrel) in Ht. injection Ht as [HkD Hst]%andb_prop.
    apply Z.ltb_lt in HkD. apply negb_true_iff, Z.eqb_neq in Hst.
    pose proof Hrel as [Hsl _ _]. pose proof (slides_wf _ _ _ _ Hwf Hsl) as Hwf1.
    destruct (stored_some _ Hwf1 Hst) as (d & q & Hd & Hq).
    rewrite (sl_size _ _ _ _ Hsl) in Hd. rewrite (sl_at _ _ _ _ Hsl) in Hq by done.
    fold r B in Hq, Hd. destruct (Z.ltb_spec (d + k) B); [|done].
    destruct (released_head k s s1 fr Hwf Hrel) as (s2 & fr2 & Hs2 & Hrel2).
    exists s2. split; [exact Hs2|]. split.
    + exists (k + 1), (fr ++ fr2). split; [lia|done].
    + pose proof (rel_slides _ _ _ _ Hrel2) as Hsl2.
      rewrite (slides_offset (k + 1) _ _ _ Hwf Hsl2), (slides_offset k _ _ _ Hwf Hsl)
        by (unfold SEQ_MODULO; lia). lia.
  - exists 0, []. split; [lia|]. by apply released_refl.
  - unfold offset, r. rewrite Z.sub_diag. unfold ring_fuel. fold r B.
    change (0 mod SEQ_MODULO) with 0. lia.
  - unfold phl_release_reorder_frames. fold r. rewrite Hw. simpl.
    eexists _, fr. split; [reflexivity|].
    pose proof Hrel as [Hsl Hf He]. pose proof (slides_wf _ _ _ _ Hwf Hsl) as Hwf1.
    split; [|done..]. simpl.
    assert (head = (head_seq_num (ring s') + (D - k)) mod SEQ_MODULO) as Hhd.
    { rewrite (sl_head _ _ _ _ Hsl), Zplus_mod_idemp_l.
      replace (_ + k + (D - k)) with (head_seq_num r + D) by (unfold r; lia).
      symmetry. by apply slides_to_head. }
    rewrite Hhd at 1. rewrite <- (app_nil_r fr).
    replace D with (k + (D - k)) at 1 by lia.
    eapply slides_trans; [done..|]. apply slides_skip; [done|lia|].
    unfold behind in Hend. rewrite (Hless _ _ _ Hk Hrel) in Hend.
    injection Hend as [HkD|Hst]%andb_false_iff.
    + apply Z.ltb_ge in HkD. lia.
    + apply negb_false_iff, Z.eqb_eq in Hst. intros d Hd.
      apply not_stored_none; [done..|]. lia.
Qed.

(** *** The scan for timed-out frames *)

Definition time_at (r : tid_ampdu_rx) (d : Z) : Z :=
  default 0 (reorder_time r !! Z.to_nat (slot r d)).

(** Where the scan stops: from place [d] on, with the window already slid to
    [e], over [n] more places. A frame behind a gap ([e < d]) stops the scan
    when its time is not over. *)
Fixpoint expiry_point (n : nat) (r : tid_ampdu_rx) (cur d e : Z) : Z :=
  match n with
  | O => e
  | S n =>
      match at_ r d with
      | None => expiry_point n r cur (d + 1) e
      | Some _ =>
          if (e <? d) && (cur <? u32 (time_at r d + HT_RX_REORDER_BUF_TIMEOUT_MS)) then e
          else expiry_point n r cur (d + 1) (d + 1)
      end
  end.

Definition null_recycles (ev ev' : list event) : Prop :=
  exists n, ev' = ev ++ replicate n (EvRecycleBuf None).

Lemma null_recycles_refl ev : null_recycles ev ev.
Proof. exists 0%nat. by rewrite app_nil_r. Qed.

Lemma null_recycles_trans ev1 ev2 ev3 :
  null_recycles ev1 ev2 -> null_recycles ev2 ev3 -> null_recycles ev1 ev3.
Proof.
  intros [n ->] [m ->]. exists (n + m)%nat. by rewrite replicate_add, app_assoc.
Qed.

Lemma null_recycles_one ev : null_recycles ev (ev ++ [EvRecycleBuf None]).
Proof. by exists 1%nat. Qed.

Lemma rd_time_slot r d : wf r -> rd (reorder_time r) (slot r d) = Some (time_at r d).
Proof.
  intros Hwf. pose proof (slot_range r Hwf d) as Hs. destruct Hwf.
  destruct (rd_some (reorder_time r) (slot r d)) as [x Hx]; [lia|].
  rewrite Hx. rewrite rd_lookup in Hx by lia. unfold time_at. by rewrite Hx.
Qed.

(** Between two places of a window in which nothing is stored the recycling
    loop only meets null buffers. *)
Lemma recycle_between_spec fuel s r x d :
  buf_size (ring s) = buf_size r -> 0 < buf_size r ->
  0 <= x <= d -> d < buf_size r ->
  (forall y, x <= y < d -> rd (reorder_buf (ring s)) (slot r y) = Some None) ->
  (Z.to_nat (d - x) < fuel)%nat ->
  exists s', recycle_between fuel s (slot r x) (slot r d) = Some s'
    /\ ring s' = ring s /\ frames s' = frames s /\ null_recycles (events s) (events s').
Proof.
  intros Hs HB Hx Hd Hnull Hfuel. revert s x Hs Hx Hnull Hfuel.
  induction fuel as [|fuel IH]; intros s x Hs Hx Hnull Hfuel; [lia|]. simpl.
  destruct (Z.eqb_spec (slot r x) (slot r d)) as [E|Hne].
  - eexists. split; [done|]. split; [done|]. split; [done|]. apply null_recycles_refl.
  - assert (x < d). { destruct (Z.eq_dec x d); [congruence|lia]. }
    rewrite Hnull by lia. simpl. rewrite Hs, slot_succ.
    edestruct (IH (emit s (EvRecycleBuf None)) (x + 1)) as (s' & -> & ? & ? & ?);
      [done|lia|intros; apply Hnull; lia|lia|].
    exists s'. split; [done|]. split; [done|]. split; [done|].
    eapply null_recycles_trans; [|done]. apply null_recycles_one.
Qed.

(** In the ring slid to [e], everything from the old head to the first place
    not yet scanned is null. *)
Lemma scanned_null r r' e d fr y :
  wf r -> slides e r r' fr -> e <= d -> d <= buf_size r -> 0 <= y < d ->
  (forall x, e <= x < d -> at_ r x = None) ->
  rd (reorder_buf r') (slot r y) = Some None.
Proof.
  intros Hwf Hsl He Hd Hy Hnone. pose proof (slides_wf _ _ _ _ Hwf Hsl) as Hwf'.
  rewrite (slides_slot _ _ _ _ y Hwf Hsl), rd_slot by done. f_equal.
  rewrite (slides_at_old _ _ _ _ y Hwf Hsl) by lia.
  destruct (Z.leb_spec e y); [apply Hnone; lia|done].
Qed.

Lemma release_timed_out_spec fuel s0 s cur d e fr :
  let r := ring s0 in
  wf r -> slides e r (ring s) fr -> frames s = frames s0 ++ fr ->
  null_recycles (events s0) (events s) ->
  1 <= d <= buf_size r -> e <= d ->
  (forall x, e <= x < d -> at_ r x = None) ->
  (Z.to_nat (buf_size r - d) < fuel)%nat ->
  exists s' b fr',
    release_timed_out fuel s cur (slot r 0) (slot r d) (d - e) = Some (s', b)
    /\ slides (expiry_point (Z.to_nat (buf_size r - d)) r cur d e) r (ring s') fr'
    /\ frames s' = frames s0 ++ fr' /\ null_recycles (events s0) (events s')
    /\ (b = true -> stored_mpdu_num (ring s') <> 0).
Proof.
  intros r Hwf. revert s d e fr. induction fuel as [|fuel IH];
    intros s d e fr Hsl Hf He Hd Hed Hnone Hfuel; [lia|].
  assert (2 <= buf_size r) by apply Hwf.
  pose proof (slides_wf _ _ _ _ Hwf Hsl) as Hwf'.
  assert (0 <= e) as He0 by apply (sl_nonneg _ _ _ _ Hsl).
  destruct (Z.eq_dec d (buf_size r)) as [->|HdB].
  { exists s, false, fr. simpl. rewrite slot_turn, Z.eqb_refl, Z.sub_diag. done. }
  assert (Z.to_nat (buf_size r - d) = S (Z.to_nat (buf_size r - (d + 1)))) as -> by lia.
  cbn [release_timed_out expiry_point].
  destruct (Z.eqb_spec (slot r d) (slot r 0)) as [E|_].
  { apply (slot_inj r) in E; lia. }
  assert (at_ (ring s) (d - e) = at_ r d) as Hat.
  { rewrite (slides_at_old _ _ _ _ d Hwf Hsl) by lia.
    by destruct (Z.leb_spec e d); [|lia]. }
  assert (rd (reorder_buf (ring s)) (slot r d) = Some (at_ r d)) as ->.
  { by rewrite (slides_slot _ _ _ _ d Hwf Hsl), rd_slot, Hat. }
  cbn [mbind option_bind].
  rewrite (sl_size _ _ _ _ Hsl), !slot_succ.
  destruct (at_ r d) as [q|] eqn:Eq.
  2:{ replace (d - e + 1) with (d + 1 - e) by lia.
      apply (IH s (d + 1) e fr); try done; try lia.
      intros x Hx. destruct (Z.eq_dec x d) as [->|]; [done|]. apply Hnone. lia. }
  rewrite (sl_time _ _ _ _ Hsl), rd_time_slot by done. cbn [mbind option_bind].
  replace (negb (d - e =? 0)) with (e <? d)
    by (destruct (Z.eqb_spec (d - e) 0), (Z.ltb_spec e d); (done || lia)).
  destruct ((e <? d) && (cur <? _)) eqn:Ec.
  { exists s, true, fr. do 4 (split; [done|]). intros _ Hz.
    pose proof (sl_size _ _ _ _ Hsl).
    rewrite (not_stored_none _ Hwf' Hz) in Hat by lia. congruence. }
  destruct (recycle_between_spec (S (Z.to_nat (buf_size r))) s r (0 + 1) d)
    as (s1 & -> & Hr1 & Hf1 & Hn1).
  { apply (sl_size _ _ _ _ Hsl). }
  { lia. }
  { lia. }
  { lia. }
  { intros y Hy. eapply (scanned_null r (ring s) e d); (done || lia). }
  { lia. }
  cbn [mbind option_bind].
  destruct (release_frame_at s1 (d - e) q) as (r2 & Hrel & Hsl2); rewrite ?Hr1.
  { done. }
  { rewrite (sl_size _ _ _ _ Hsl). lia. }
  { congruence. }
  { intros y Hy. pose proof (slides_at_old _ _ _ _ (y + e) Hwf Hsl) as Hy'.
    rewrite Z.add_simpl_r in Hy'. rewrite Hy' by lia.
    destruct (Z.leb_spec e (y + e)); [apply Hnone; lia|done]. }
  rewrite Hr1, <- (slides_slot _ _ _ _ d Hwf Hsl) in Hrel. rewrite Hrel.
  cbn [mbind option_bind ring]. rewrite Hr1 in Hsl2.
  match goal with |- context [release_timed_out fuel ?s' _ _ _ _] =>
    pose proof (IH s' (d + 1) (d + 1) (fr ++ [q])) as IH' end.
  rewrite Z.sub_diag in IH'. apply IH'; clear IH IH'.
  - unfold with_ring. cbn [ring]. replace (d + 1) with (e + (d - e + 1)) by lia.
    by eapply slides_trans.
  - cbn. by rewrite Hf1, Hf, app_assoc.
  - cbn. by eapply null_recycles_trans.
  - lia.
  - lia.
  - lia.
  - lia.
Qed.

(** *** The whole release *)

(** How far [phl_reorder_release] slides the window at time [cur]. *)
Definition release_point (r : tid_ampdu_rx) (cur k : Z) : Prop :=
  match at_ r 0 with
  | None => if stored_mpdu_num r =? 0 then k = 0
            else k = expiry_point (Z.to_nat (buf_size r - 1)) r cur 1 0
  | Some _ => ready r k
  end.

(** The timer runs exactly when frames are left in a session that goes on. *)
Definition timer_event (r : tid_ampdu_rx) : list event :=
  if stored_mpdu_num r =? 0 then [EvCancelTimer]
  else if removed r then [] else [EvSetTimer HT_RX_REORDER_BUF_TIMEOUT_MS].

Definition timer_events (ev : list event) (r : tid_ampdu_rx) (ev' : list event) : Prop :=
  exists n, ev' = ev ++ replicate n (EvRecycleBuf None) ++ timer_event r.

Lemma set_release_timer_ok s ev :
  null_recycles ev (events s) -> stored_mpdu_num (ring s) <> 0 ->
  ring (set_release_timer s) = ring s /\ frames (set_release_timer s) = frames s
  /\ timer_events ev (ring s) (events (set_release_timer s)).
Proof.
  intros [n Hn] Hst. unfold set_release_timer, timer_events, timer_event.
  apply Z.eqb_neq in Hst. rewrite Hst.
  destruct (removed (ring s)); (split; [done|split; [done|]]); exists n.
  - by rewrite app_nil_r.
  - cbn [emit events]. by rewrite Hn, app_assoc.
Qed.

(** The search for a stored frame ends when there is one. *)
Lemma find_stored_ok fuel r idx t t' q :
  0 < buf_size r -> 0 <= t <= t' -> (Z.to_nat (t' - t) < fuel)%nat ->
  Z.of_nat (length (reorder_buf r)) = buf_size r ->
  rd (reorder_buf r) ((idx + t') mod buf_size r) = Some (Some q) ->
  exists j, find_stored fuel r idx ((idx + t) mod buf_size r) = Some j.
Proof.
  intros HB Ht Hfuel Hlen Hq. revert t Ht Hfuel.
  induction fuel as [|fuel IH]; intros t Ht Hfuel; [lia|]. cbn [find_stored].
  destruct (_ =? _); [eauto|].
  destruct (rd_some (reorder_buf r) ((idx + t) mod buf_size r)) as [x Hx].
  { rewrite Hlen. by apply Z.mod_pos_bound. }
  rewrite Hx. cbn [mbind option_bind]. destruct x; [eauto|].
  destruct (Z.eq_dec t t') as [->|]; [congruence|].
  rewrite Zplus_mod_idemp_l, <- Z.add_assoc. apply IH; lia.
Qed.

Lemma find_stored_total r :
  wf r -> stored_mpdu_num r <> 0 ->
  exists j, find_stored (ring_fuel r) r (head_seq_num r mod buf_size r)
              (head_seq_num r mod buf_size r) = Some j.
Proof.
  intros Hwf Hst. destruct (stored_some r Hwf Hst) as (d & q & Hd & Hq).
  assert (2 <= buf_size r) by apply Hwf.
  set (idx := head_seq_num r mod buf_size r).
  set (t' := (slot r d - idx) mod buf_size r).
  assert (0 <= t' < buf_size r) by (apply Z.mod_pos_bound; lia).
  destruct (find_stored_ok (ring_fuel r) r idx 0 t' q) as [j Hj];
    [lia|lia|unfold ring_fuel; lia|apply Hwf| |].
  - unfold t'. rewrite Zplus_mod_idemp_r.
    replace (idx + _) with (slot r d) by lia.
    rewrite (Z.mod_small (slot r d)) by by apply slot_range. by rewrite rd_slot, Hq.
  - rewrite Z.add_0_r in Hj. unfold idx in Hj. rewrite Zmod_mod in Hj. eauto.
Qed.

(** After the release loops, the timer is set or cancelled. *)
Lemma release_tail s ev :
  wf (ring s) -> null_recycles ev (events s) ->
  exists s',
    (if negb (stored_mpdu_num (ring s) =? 0) then
       _ ← find_stored (ring_fuel (ring s)) (ring s)
             (head_seq_num (ring s) mod buf_size (ring s))
             (head_seq_num (ring s) mod buf_size (ring s));
       Some (set_release_timer s)
     else Some (emit s EvCancelTimer)) = Some s'
    /\ ring s' = ring s /\ frames s' = frames s /\ timer_events ev (ring s) (events s').
Proof.
  intros Hwf Hn. destruct (Z.eqb_spec (stored_mpdu_num (ring s)) 0) as [E|E]; cbn [negb].
  - eexists. split; [done|]. split; [done|]. split; [done|].
    destruct Hn as [n Hn]. exists n. unfold timer_event. rewrite E. cbn.
    by rewrite Hn, app_assoc.
  - destruct (find_stored_total (ring s) Hwf E) as [j ->]. cbn [mbind option_bind].
    eexists. split; [done|]. by apply set_release_timer_ok.
Qed.

Lemma reorder_release_spec s cur :
  wf (ring s) ->
  exists s' k fr, phl_reorder_release s cur = Some s'
    /\ release_point (ring s) cur k /\ slides k (ring s) (ring s') fr
    /\ frames s' = frames s ++ fr /\ timer_events (events s) (ring s') (events s').
Proof.
  intros Hwf. set (r := ring s) in *. assert (2 <= buf_size r) by apply Hwf.
  unfold phl_reorder_release, release_point. fold r.
  rewrite reorder_index_head, rd_slot by done. cbn [mbind option_bind].
  destruct (negb (is_Some_b (at_ r 0)) && negb (stored_mpdu_num r =? 0)) eqn:Ec.
  - apply andb_true_iff in Ec as [Ea Est].
    destruct (at_ r 0) eqn:E0; [done|]. clear Ea. apply negb_true_iff in Est. rewrite Est.
    destruct (release_timed_out_spec (ring_fuel r) s s cur 1 0 [])
      as (s1 & b & fr & Heq & Hsl & Hf & Hn & Hb); fold r;
      [done|by apply slides_refl|by rewrite app_nil_r|apply null_recycles_refl|lia|lia| |
       unfold ring_fuel; lia|].
    { intros x Hx. by replace x with 0 by lia. }
    fold r in Heq, Hsl. rewrite slot_succ, Z.add_0_l.
    change (1 - 0) with 1 in Heq. rewrite Heq. cbn [mbind option_bind].
    destruct b.
    + destruct (set_release_timer_ok s1 (events s) Hn (Hb eq_refl)) as (H1 & H2 & H3).
      exists (set_release_timer s1), (expiry_point (Z.to_nat (buf_size r - 1)) r cur 1 0), fr.
      rewrite H1, H2. done.
    + destruct (release_tail s1 (events s)) as (s2 & -> & H1 & H2 & H3);
        [by eapply slides_wf|done|].
      exists s2, (expiry_point (Z.to_nat (buf_size r - 1)) r cur 1 0), fr.
      rewrite H1, H2. done.
  - destruct (ready_loop s Hwf) as (s1 & k & fr & Heq & Hr & [Hsl Hf He]). fold r in Heq, Hr, Hsl.
    rewrite Heq. cbn [mbind option_bind].
    destruct (release_tail s1 (events s)) as (s2 & -> & H1 & H2 & H3);
      [by eapply slides_wf|rewrite He; apply null_recycles_refl|].
    exists s2, k, fr. rewrite H1, H2. split; [done|]. split; [|done].
    destruct (at_ r 0) eqn:E0; [done|]. simpl in Ec. apply negb_false_iff in Ec. rewrite Ec.
    destruct Hr as (Hk & Hall & _). destruct (Z.eq_dec k 0); [done|].
    exfalso. apply (Hall 0); [lia|done].
Qed.

(** ** In-order delivery *)

(** The packets of [l] carry, modulo 4096, strictly increasing sequence
    numbers between [h] and [h + k]. *)
Definition in_order (h k : Z) (l : list rx_pkt) : Prop :=
  exists vs, Forall2 (fun p v => pkt_seq p = (h + v) mod SEQ_MODULO) l vs
    /\ StronglySorted Z.lt vs /\ Forall (fun v => 0 <= v < k) vs.

Lemma in_order_nil h k : in_order h k [].
Proof. exists []. split; [done|]. split; constructor. Qed.

Lemma in_order_one h k v p : 0 <= v < k -> pkt_seq p = (h + v) mod SEQ_MODULO -> in_order h k [p].
Proof.
  intros Hv Hp. exists [v]. split; [by repeat constructor|].
  split; [apply SSorted_cons; [apply SSorted_nil|done]|by apply Forall_singleton].
Qed.

Lemma in_order_mod h k l : in_order (h mod SEQ_MODULO) k l <-> in_order h k l.
Proof.
  unfold in_order. split; intros (vs & H1 & H2); exists vs; (split; [|done]);
    (eapply Forall2_impl; [exact H1|]); cbn; intros p v ->; by rewrite Zplus_mod_idemp_l.
Qed.

Lemma StronglySorted_app_lt (l1 l2 : list Z) m :
  StronglySorted Z.lt l1 -> StronglySorted Z.lt l2 ->
  Forall (fun v => v < m) l1 -> Forall (fun v => m <= v) l2 ->
  StronglySorted Z.lt (l1 ++ l2).
Proof.
  induction 1 as [|x l1 Hs IH Hx]; intros H2 Hl1 Hl2; [done|].
  apply Forall_cons in Hl1 as [? ?]. cbn. constructor; [by apply IH|].
  apply Forall_app. split; [done|]. eapply Forall_impl; [done|]. cbn. lia.
Qed.

Lemma in_order_app h k1 k2 l1 l2 :
  in_order h k1 l1 -> in_order (h + k1) k2 l2 -> 0 <= k1 -> 0 <= k2 ->
  in_order h (k1 + k2) (l1 ++ l2).
Proof.
  intros (v1 & F1 & S1 & B1) (v2 & F2 & S2 & B2) ? ?.
  exists (v1 ++ (Z.add k1 <$> v2)). split; [|split].
  - apply Forall2_app; [done|]. apply Forall2_fmap_r.
    eapply Forall2_impl; [done|]. cbn. intros p v ->. f_equal. lia.
  - apply (StronglySorted_app_lt _ _ k1); try done.
    + clear -S2. induction S2 as [|v l Hs IH Hv]; [constructor|]. rewrite fmap_cons.
      constructor; [done|]. apply Forall_fmap. eapply Forall_impl; [done|]. cbn. lia.
    + eapply Forall_impl; [done|]. cbn. lia.
    + apply Forall_fmap. eapply Forall_impl; [done|]. cbn. lia.
  - apply Forall_app. split.
    + eapply Forall_impl; [done|]. cbn. lia.
    + apply Forall_fmap. eapply Forall_impl; [done|]. cbn. lia.
Qed.

Lemma in_order_weaken h k k' l : in_order h k l -> k <= k' -> in_order h k' l.
Proof.
  intros (v & F & S & B) ?. exists v. split; [done|]. split; [done|].
  eapply Forall_impl; [done|]. cbn. lia.
Qed.

Lemma span_in_order r n :
  wf r -> 0 <= n <= buf_size r -> in_order (head_seq_num r) n (span r 0 n).
Proof.
  intros Hwf [Hn HnB].
  revert HnB. pattern n. apply natlike_ind; [..|done]; clear n Hn.
  - intros _. apply in_order_nil.
  - intros n Hn IH HnB. unfold span. rewrite <- Z.add_1_r, omap_seqZ_app by lia.
    rewrite (omap_seqZ_cons _ _ 1), Z.add_0_l by lia.
    change (seqZ (n + 1) (1 - 1)) with (@nil Z).
    apply in_order_app; try lia; [apply IH; lia|].
    destruct (at_ r n) as [q|] eqn:E; cbn; [|apply in_order_nil].
    apply (in_order_one _ _ 0); [lia|].
    rewrite (wf_seq r Hwf n q) by (done || lia). f_equal. lia.
Qed.

Lemma slides_in_order k r r' fr :
  wf r -> slides k r r' fr -> in_order (head_seq_num r) k fr.
Proof.
  intros Hwf Hsl. rewrite (sl_fr _ _ _ _ Hsl). pose proof (sl_nonneg _ _ _ _ Hsl).
  assert (2 <= buf_size r) by apply Hwf.
  eapply in_order_weaken; [apply span_in_order; [done|]|]; lia.
Qed.

(** ** Storing a packet *)

Definition stored_at (r : tid_ampdu_rx) (o : Z) (p : rx_pkt) (t : list Z) : tid_ampdu_rx :=
  set_time (set_buf r (<[Z.to_nat (slot r o) := Some p]> (reorder_buf r))
              (stored_mpdu_num r + 1)) t.

Lemma stored_at_contents r o p t :
  wf r -> 0 <= o < buf_size r -> at_ r o = None ->
  contents (stored_at r o p t) ≡ₚ p :: contents r.
Proof.
  intros Hwf Ho Hnone.
  assert (forall d, 0 <= d < buf_size r ->
            at_ (stored_at r o p t) d = if d =? o then Some p else at_ r d) as Hat.
  { intros d Hd. change (at_ (stored_at r o p t) d) with
      (at_ (set_buf r (<[Z.to_nat (slot r o) := Some p]> (reorder_buf r))
              (stored_mpdu_num r + 1)) d). by apply at_insert. }
  unfold contents, span. change (buf_size (stored_at r o p t)) with (buf_size r).
  replace (buf_size r) with (o + (1 + (buf_size r - o - 1))) by lia.
  rewrite !omap_seqZ_app, !(omap_seqZ_cons _ _ 1), Z.add_0_l by lia.
  change (seqZ (o + 1) (1 - 1)) with (@nil Z).
  rewrite Hat, Z.eqb_refl, Hnone by lia. cbn [omap list_omap app].
  rewrite (omap_seqZ_ext (at_ (stored_at r o p t)) (at_ r) 0 o).
  2:{ intros d Hd. rewrite Hat by lia. destruct (Z.eqb_spec d o); [lia|done]. }
  rewrite (omap_seqZ_ext (at_ (stored_at r o p t)) (at_ r) (o + 1)).
  2:{ intros d Hd. rewrite Hat by lia. destruct (Z.eqb_spec d o); [lia|done]. }
  symmetry. apply Permutation_middle.
Qed.

Lemma wf_stored_at r o p t :
  wf r -> 0 <= o < buf_size r -> at_ r o = None ->
  pkt_seq p = (head_seq_num r + o) mod SEQ_MODULO -> length t = length (reorder_time r) ->
  wf (stored_at r o p t).
Proof.
  intros Hwf Ho Hnone Hp Ht.
  pose proof (stored_at_contents r o p t Hwf Ho Hnone) as Hc%Permutation_length.
  destruct Hwf as [H1 H2 H3 H4 H5 H6 H7 H8] eqn:E. clear E. rename Hwf into Hwf.
  split; cbn; try done.
  - by rewrite length_insert.
  - by rewrite Ht.
  - rewrite Hc. cbn. lia.
  - intros d q Hd. change (at_ (stored_at r o p t) d) with
      (at_ (set_buf r (<[Z.to_nat (slot r o) := Some p]> (reorder_buf r))
              (stored_mpdu_num r + 1)) d).
    rewrite (at_insert r _ _ o (Some p) d Hwf Ho Hd eq_refl).
    destruct (Z.eqb_spec d o) as [->|]; [by intros [= <-]|]. by apply H8.
Qed.

Lemma wf_set_started r : wf r -> wf (set_started r).
Proof. by intros [? ? ? ? ? ? ? ?]. Qed.

Lemma stored_inc r o : wf r -> 0 <= o < buf_size r -> at_ r o = None ->
  u16 (stored_mpdu_num r + 1) = stored_mpdu_num r + 1.
Proof.
  intros Hwf _ _. pose proof (stored_bound r Hwf). destruct Hwf.
  apply u16_id. unfold is_u16. lia.
Qed.

(** The packets handed back for recycling. *)
Definition recycled (ev : list event) : list rx_pkt :=
  omap (fun e => match e with
                 | EvRecyclePkt p => Some p | EvRecycleBuf q => q | _ => None end) ev.

Lemma timer_events_recycled ev r ev' : timer_events ev r ev' -> recycled ev' = recycled ev.
Proof.
  intros [n ->]. unfold recycled. rewrite !omap_app.
  assert (forall n, omap (fun e => match e with
            | EvRecyclePkt p => Some p | EvRecycleBuf q => q | _ => None end)
            (replicate n (EvRecycleBuf None)) = []) as -> by (induction n0; done).
  unfold timer_event. destruct (_ =? 0), (removed r); cbn; by rewrite app_nil_r.
Qed.

(** The sequence distance decides the three cases of an arriving packet. *)
Lemma window_test r sq :
  wf r -> seq_less sq (head_seq_num r) = false ->
  seq_less sq (u16 (head_seq_num r + buf_size r)) = (offset r sq <? buf_size r).
Proof.
  intros Hwf Hl. rewrite seq_less_spec in *. fold (offset r sq) in Hl.
  assert (0 <= offset r sq <= 2048) as Ho.
  { pose proof (Z.mod_pos_bound (sq - head_seq_num r) SEQ_MODULO eq_refl).
    unfold offset in *. split; [lia|]. by destruct (Z.gtb_spec ((sq - head_seq_num r) mod SEQ_MODULO) 2048). }
  assert (2 <= buf_size r <= 1024 /\ 0 <= head_seq_num r < 4096) as [? ?]
    by (destruct Hwf; done).
  rewrite u16_id by (unfold is_u16; lia).
  replace ((sq - (head_seq_num r + buf_size r)) mod SEQ_MODULO)
    with ((offset r sq - buf_size r) mod SEQ_MODULO)
    by (unfold offset; rewrite Zminus_mod_idemp_l; f_equal; lia).
  unfold SEQ_MODULO. destruct (Z.ltb_spec (offset r sq) (buf_size r)).
  - rewrite <- (Z_mod_plus_full _ 1), Z.mod_small by lia. lia.
  - rewrite Z.mod_small by lia. lia.
Qed.

(** What one packet does to the ring: [fr] is handed up by the ring, [dr] is
    recycled, the head moves by [k]; the packet itself is handed up by the
    caller when [taken] is false. *)
Record arrival (s s' : ro) (p : rx_pkt) (taken : bool) (k : Z) (fr dr : list rx_pkt) : Prop := {
  arr_wf : wf (ring s');
  arr_k : 0 <= k;
  arr_head : head_seq_num (ring s') = (head_seq_num (ring s) + k) mod SEQ_MODULO;
  arr_size : buf_size (ring s') = buf_size (ring s);
  arr_frames : frames s' = frames s ++ fr;
  arr_recycled : recycled (events s') = recycled (events s) ++ dr;
  arr_conserved : p :: contents (ring s)
                  ≡ₚ fr ++ (if taken then [] else [p]) ++ dr ++ contents (ring s');
  arr_started : started (ring s) = true -> started (ring s') = true;
  arr_order : started (ring s) = true ->
              in_order (head_seq_num (ring s)) k (fr ++ if taken then [] else [p]);
}.

Lemma arrival_drop s r0 p k fr s1 :
  wf r0 -> released k {| ring := r0; frames := frames s; events := events s |} s1 fr ->
  head_seq_num r0 = head_seq_num (ring s) -> contents r0 = contents (ring s) ->
  buf_size r0 = buf_size (ring s) -> started r0 = true ->
  arrival s (emit s1 (EvRecyclePkt p)) p true k fr [p].
Proof.
  intros Hwf [Hsl Hf He] Hh Hc Hs Hst. cbn in *.
  pose proof (slides_wf _ _ _ _ Hwf Hsl). pose proof (slides_contents _ _ _ _ Hwf Hsl) as Hcc.
  split; cbn; try done.
  - apply (sl_nonneg _ _ _ _ Hsl).
  - by rewrite (sl_head _ _ _ _ Hsl), Hh.
  - by rewrite (sl_size _ _ _ _ Hsl).
  - unfold recycled. by rewrite omap_app, He.
  - rewrite <- Hc, Hcc. apply Permutation_middle.
  - intros _. by rewrite (sl_started _ _ _ _ Hsl).
  - intros _. rewrite app_nil_r, <- Hh. by apply (slides_in_order _ _ _ _ Hwf Hsl).
Qed.

(** A packet inside the window of [s1], to which the window of [r0] slid. *)
Lemma arrival_in_window s r0 p k fr s1 t1 t2 :
  wf r0 -> released k {| ring := r0; frames := frames s; events := events s |} s1 fr ->
  head_seq_num r0 = head_seq_num (ring s) -> contents r0 = contents (ring s) ->
  buf_size r0 = buf_size (ring s) -> started r0 = true ->
  0 <= pkt_seq p < SEQ_MODULO -> offset (ring s1) (pkt_seq p) < buf_size (ring s1) ->
  exists b s' K fr' dr,
    (let r := ring s1 in
     let index := reorder_index r (pkt_seq p) in
     cur ← rd (reorder_buf r) index;
     match cur with
     | Some _ => Some (true, emit s1 (EvRecyclePkt p))
     | None =>
         if (pkt_seq p =? head_seq_num r) && (stored_mpdu_num r =? 0) then
           Some (false, with_ring s1 (set_head r (seq_inc (head_seq_num r))))
         else
           b ← wr (reorder_buf r) index (Some p);
           t ← wr (reorder_time r) index t1;
           let r1 := set_time (set_buf r b (u16 (stored_mpdu_num r + 1))) t in
           s ← phl_reorder_release (with_ring s1 r1) t2;
           Some (true, s)
     end) = Some (b, s') /\ arrival s s' p b K fr' dr.
Proof.
  intros Hwf Hrel Hh Hc Hs Hst Hp Ho. pose proof Hrel as [Hsl Hf He]. cbn in Hsl, Hf, He.
  pose proof (slides_wf _ _ _ _ Hwf Hsl) as Hwf1.
  pose proof (slides_contents _ _ _ _ Hwf Hsl) as Hcc.
  pose proof (sl_nonneg _ _ _ _ Hsl).
  set (o := offset (ring s1) (pkt_seq p)) in *.
  assert (0 <= o) by (apply Z.mod_pos_bound; done).
  assert (pkt_seq p = (head_seq_num (ring s1) + o) mod SEQ_MODULO) as Hpo
    by (unfold o; by rewrite slides_to_head).
  cbv zeta. rewrite reorder_index_slot, rd_slot by done. fold o. cbn [mbind option_bind].
  destruct (at_ (ring s1) o) as [q|] eqn:Eo.
  { eexists true, _, k, fr, [p]. split; [done|]. by apply (arrival_drop s r0). }
  destruct ((pkt_seq p =? head_seq_num (ring s1)) && (stored_mpdu_num (ring s1) =? 0)) eqn:Ed.
  - apply andb_prop in Ed as [Eh%Z.eqb_eq Es%Z.eqb_eq].
    assert (slides 1 (ring s1) (set_head (ring s1) (seq_inc (head_seq_num (ring s1)))) [])
      as Hsl1.
    { rewrite seq_inc_mod. apply slides_skip; [done|lia|]. intros d Hd.
      apply not_stored_none; [done..|]. lia. }
    pose proof (slides_trans _ _ _ _ _ _ _ Hwf Hsl Hsl1) as Hsl2.
    eexists false, _, (k + 1), fr, []. split; [done|]. rewrite app_nil_r in Hsl2.
    split; cbn.
    + by eapply slides_wf.
    + lia.
    + rewrite <- Hh. apply (sl_head _ _ _ _ Hsl2).
    + by rewrite (sl_size _ _ _ _ Hsl), Hs.
    + done.
    + by rewrite He, app_nil_r.
    + rewrite <- Hc, (slides_contents _ _ _ _ Hwf Hsl2). apply Permutation_middle.
    + intros _. by rewrite (sl_started _ _ _ _ Hsl), Hst.
    + intros _. apply in_order_app; [| |done|lia].
      * rewrite <- Hh. by apply (slides_in_order _ _ _ _ Hwf Hsl).
      * apply (in_order_one _ _ 0); [lia|]. rewrite Eh, (sl_head _ _ _ _ Hsl), Hh.
        f_equal. lia.
  - pose proof (slot_range _ Hwf1 o).
    rewrite !wr_some by (destruct Hwf1; lia). cbn [mbind option_bind].
    rewrite (stored_inc _ o) by done.
    set (t := <[Z.to_nat (slot (ring s1) o) := t1]> (reorder_time (ring s1))).
    change (set_time (set_buf _ _ _) t) with (stored_at (ring s1) o p t).
    assert (wf (stored_at (ring s1) o p t)) as Hwf2.
    { apply wf_stored_at; try done. apply length_insert. }
    destruct (reorder_release_spec (with_ring s1 (stored_at (ring s1) o p t)) t2 Hwf2)
      as (s2 & k2 & fr2 & -> & _ & Hsl2 & Hf2 & Ht2). cbn [mbind option_bind].
    cbn [with_ring ring frames events] in Hsl2, Hf2, Ht2.
    pose proof (sl_nonneg _ _ _ _ Hsl2).
    exists true, s2, (k + k2), (fr ++ fr2), []. split; [done|]. split.
    + by eapply slides_wf.
    + lia.
    + rewrite (sl_head _ _ _ _ Hsl2). cbn. rewrite (sl_head _ _ _ _ Hsl), Hh.
      rewrite Zplus_mod_idemp_l. f_equal. lia.
    + rewrite (sl_size _ _ _ _ Hsl2). cbn. by rewrite (sl_size _ _ _ _ Hsl), Hs.
    + by rewrite Hf2, Hf, app_assoc.
    + by rewrite (timer_events_recycled _ _ _ Ht2), He, app_nil_r.
    + rewrite <- Hc, Hcc. cbn [app]. rewrite <- app_assoc.
      rewrite <- (slides_contents _ _ _ _ Hwf2 Hsl2), (stored_at_contents _ o) by done.
      apply Permutation_middle.
    + intros _. rewrite (sl_started _ _ _ _ Hsl2). cbn. by rewrite (sl_started _ _ _ _ Hsl), Hst.
    + intros _. rewrite app_nil_r. apply in_order_app; try done.
      * rewrite <- Hh. by apply (slides_in_order _ _ _ _ Hwf Hsl).
      * apply in_order_mod. rewrite <- Hh, <- (sl_head _ _ _ _ Hsl).
        by apply (slides_in_order _ _ _ _ Hwf2 Hsl2).
Qed.

Lemma manage_spec s p t1 t2 :
  wf (ring s) -> 0 <= pkt_seq p < SEQ_MODULO ->
  exists b s' K fr dr,
    phl_manage_sta_reorder_buf s p t1 t2 = Some (b, s') /\ arrival s s' p b K fr dr.
Proof.
  intros Hwf Hp. unfold phl_manage_sta_reorder_buf.
  destruct (negb (started (ring s)) && seq_less (pkt_seq p) (head_seq_num (ring s))) eqn:Ens.
  { apply andb_prop in Ens as [Ens _]. apply negb_true_iff in Ens.
    exists false, s, 0, [], []. split; [done|]. split; try done.
    - rewrite Z.add_0_r, Z.mod_small; [done|apply Hwf].
    - by rewrite app_nil_r.
    - by rewrite app_nil_r.
    - congruence. }
  clear Ens. cbn [with_ring ring emit].
  pose proof (wf_set_started _ Hwf) as Hwf0. set (r0 := set_started (ring s)) in *.
  assert (released 0 {| ring := r0; frames := frames s; events := events s |}
            {| ring := r0; frames := frames s; events := events s |} []) as Hrel0
    by by apply released_refl.
  destruct (seq_less (pkt_seq p) (head_seq_num (ring s))) eqn:El.
  { eexists true, _, 0, [], [p]. split; [done|]. by apply (arrival_drop s r0). }
  change (head_seq_num (ring s)) with (head_seq_num r0) in *.
  change (buf_size (ring s)) with (buf_size r0).
  rewrite window_test by done.
  change (with_ring s r0) with {| ring := r0; frames := frames s; events := events s |}.
  destruct (Z.ltb_spec (offset r0 (pkt_seq p)) (buf_size r0)) as [Hin|Hout]; cbn [negb].
  - cbn [mbind option_bind]. by eapply (arrival_in_window s r0).
  - rewrite seq_inc_mod, seq_sub_mod, Zplus_mod_idemp_l.
    set (h := (pkt_seq p - buf_size r0 + 1) mod SEQ_MODULO).
    assert (0 <= h < SEQ_MODULO) by by apply Z.mod_pos_bound.
    assert (offset r0 (pkt_seq p) <= 2048) as Ho.
    { rewrite seq_less_spec in El. unfold offset.
      destruct (Z.gtb_spec ((pkt_seq p - head_seq_num r0) mod SEQ_MODULO) 2048); [done|lia]. }
    assert (2 <= buf_size r0 <= 1024) by apply Hwf0.
    assert (offset r0 h = offset r0 (pkt_seq p) - buf_size r0 + 1) as Hoh.
    { unfold offset at 1, h. rewrite Zminus_mod_idemp_l.
      replace (pkt_seq p - buf_size r0 + 1 - head_seq_num r0)
        with ((pkt_seq p - head_seq_num r0) + (1 - buf_size r0)) by lia.
      rewrite <- Zplus_mod_idemp_l. fold (offset r0 (pkt_seq p)).
      rewrite Z.mod_small; unfold SEQ_MODULO; lia. }
    destruct (release_frames_spec {| ring := r0; frames := frames s; events := events s |} h)
      as (s1 & fr & -> & Hrel); [done|done|cbn; lia|].
    cbn [mbind option_bind]. eapply (arrival_in_window s r0); try done.
    pose proof (rel_slides _ _ _ _ Hrel) as Hsl. cbn in Hsl.
    rewrite (sl_size _ _ _ _ Hsl). unfold offset. rewrite (sl_head _ _ _ _ Hsl), slides_to_head by done.
    unfold h. rewrite Zminus_mod_idemp_r.
    replace (pkt_seq p - _) with (buf_size r0 - 1) by lia.
    rewrite Z.mod_small; unfold SEQ_MODULO; lia.
Qed.

#[local] Arguments phl_release_reorder_frames : simpl never.
#[local] Arguments phl_manage_sta_reorder_buf : simpl never.
#[local] Arguments phl_reorder_release : simpl never.

(** ** Sessions as sequences of inputs *)

Inductive input :=
  | InPkt (p : rx_pkt) (t_store t_release : Z)
  | InTimer (t : Z)
  | InBar (sq : Z).

Definition fresh (r : tid_ampdu_rx) : ro := {| ring := r; frames := []; events := [] |}.

(** One input: the new ring, the packets handed up and those recycled. *)
Definition session_step (r : tid_ampdu_rx) (i : input)
    : option (tid_ampdu_rx * list rx_pkt * list rx_pkt) :=
  match i with
  | InPkt p t1 t2 =>
      res ← phl_manage_sta_reorder_buf (fresh r) p t1 t2;
      let (taken, s) := res : bool * ro in
      Some (ring s, frames s ++ (if taken : bool then [] else [p]), recycled (events s))
  | InTimer t =>
      s ← phl_reorder_release (fresh r) t; Some (ring s, frames s, recycled (events s))
  | InBar sq =>
      if seq_less sq (head_seq_num r) then Some (r, [], [])
      else s ← phl_release_reorder_frames (fresh r) sq;
           Some (ring s, frames s, recycled (events s))
  end.

(** Sequence numbers have twelve bits; a block-ack request is not exactly half
    the sequence space ahead. *)
Definition input_ok (r : tid_ampdu_rx) (i : input) : Prop :=
  match i with
  | InPkt p _ _ => 0 <= pkt_seq p < SEQ_MODULO
  | InTimer _ => True
  | InBar sq => 0 <= sq < SEQ_MODULO /\ offset r sq <> 2048
  end.

Inductive session : tid_ampdu_rx -> list input -> tid_ampdu_rx -> list rx_pkt -> list rx_pkt -> Prop :=
  | session_nil r : session r [] r [] []
  | session_cons r i ins r1 r2 d1 d2 c1 c2 :
      input_ok r i -> session_step r i = Some (r1, d1, c1) -> session r1 ins r2 d2 c2 ->
      session r (i :: ins) r2 (d1 ++ d2) (c1 ++ c2).

Definition input_pkts (ins : list input) : list rx_pkt :=
  omap (fun i => match i with InPkt p _ _ => Some p | _ => None end) ins.

(** What one input does, for all inputs at once. *)
Lemma session_step_spec r i :
  wf r -> input_ok r i ->
  exists r' d c k, session_step r i = Some (r', d, c) /\ wf r' /\ 0 <= k
    /\ head_seq_num r' = (head_seq_num r + k) mod SEQ_MODULO
    /\ contents r ++ input_pkts [i] ≡ₚ d ++ c ++ contents r'
    /\ (started r = true -> started r' = true /\ in_order (head_seq_num r) k d).
Proof.
  intros Hwf Hi. destruct i as [p t1 t2|t|sq]; cbn in Hi |- *.
  - destruct (manage_spec (fresh r) p t1 t2 Hwf Hi) as (b & s' & K & fr & dr & -> & [? ? Hh _ Hf Hr Hc Hs Ho]).
    cbn in *. exists (ring s'), (fr ++ if b then [] else [p]), dr, K.
    rewrite Hf, Hr. split; [done|]. do 3 (split; [done|]). split; [|eauto].
    rewrite <- app_assoc, <- Hc. symmetry. apply Permutation_cons_append.
  - destruct (reorder_release_spec (fresh r) t Hwf) as (s' & k & fr & -> & _ & Hsl & Hf & Ht).
    cbn in *. exists (ring s'), fr, [], k.
    rewrite Hf, (timer_events_recycled _ _ _ Ht). cbn. split; [done|].
    split; [by eapply slides_wf|]. split; [apply (sl_nonneg _ _ _ _ Hsl)|].
    split; [apply (sl_head _ _ _ _ Hsl)|].
    split; [by rewrite app_nil_r, (slides_contents _ _ _ _ Hwf Hsl)|].
    intros ?. rewrite (sl_started _ _ _ _ Hsl). split; [done|]. by eapply slides_in_order.
  - destruct Hi as [Hsq Hne]. destruct (seq_less sq (head_seq_num r)) eqn:El.
    + exists r, [], [], 0. split; [done|]. split; [done|]. split; [done|].
      rewrite Z.add_0_r, Z.mod_small, app_nil_r by apply Hwf.
      split; [done|]. split; [done|]. intros. split; [done|apply in_order_nil].
    + rewrite seq_less_spec in El. fold (offset r sq) in El.
      destruct (Z.gtb_spec (offset r sq) 2048); [done|].
      destruct (release_frames_spec (fresh r) sq) as (s' & fr & -> & [Hsl Hf He]);
        [done|done|cbn; lia|]. cbn in *.
      exists (ring s'), fr, [], (offset r sq). rewrite Hf, He. cbn. split; [done|].
      split; [by eapply slides_wf|]. split; [apply (sl_nonneg _ _ _ _ Hsl)|].
      split; [apply (sl_head _ _ _ _ Hsl)|].
      split; [by rewrite app_nil_r, (slides_contents _ _ _ _ Hwf Hsl)|].
      intros ?. rewrite (sl_started _ _ _ _ Hsl). split; [done|]. by eapply slides_in_order.
Qed.

Lemma session_spec r ins r' d c :
  wf r -> session r ins r' d c ->
  exists k, wf r' /\ 0 <= k /\ head_seq_num r' = (head_seq_num r + k) mod SEQ_MODULO
    /\ contents r ++ input_pkts ins ≡ₚ d ++ c ++ contents r'
    /\ (started r = true -> in_order (head_seq_num r) k d).
Proof.
  intros Hwf Hrun. induction Hrun as [r|r i ins r1 r2 d1 d2 c1 c2 Hi Hstep Hrun IH].
  - exists 0. split; [done|]. split; [done|].
    rewrite Z.add_0_r, Z.mod_small by apply Hwf. rewrite app_nil_r. split; [done|].
    split; [done|]. intros _. apply in_order_nil.
  - destruct (session_step_spec r i Hwf Hi) as (r1' & d1' & c1' & k1 & E & Hwf1 & Hk1 & Hh1 & Hc1 & Ho1).
    rewrite Hstep in E. injection E as <- <- <-.
    destruct (IH Hwf1) as (k2 & Hwf2 & Hk2 & Hh2 & Hc2 & Ho2).
    exists (k1 + k2). split; [done|]. split; [lia|]. split; [|split].
    + rewrite Hh2, Hh1, Zplus_mod_idemp_l. f_equal. lia.
    + replace (input_pkts (i :: ins)) with (input_pkts [i] ++ input_pkts ins)
        by (cbn; by destruct i).
      rewrite app_assoc, Hc1. rewrite <- !app_assoc, Hc2. solve_Permutation.
    + intros Hs. destruct (Ho1 Hs) as [Hs1 Hd1].
      apply in_order_app; try done. apply in_order_mod. rewrite <- Hh1. auto.
Qed.

(** ** New sessions *)

Lemma alloc_wf ssn tid size :
  2 <= size <= 1024 -> (size | SEQ_MODULO) -> 0 <= ssn < SEQ_MODULO ->
  exists r, phl_tid_ampdu_rx_alloc true true true ssn tid size = Some r /\ wf r
    /\ contents r = [] /\ head_seq_num r = ssn /\ buf_size r = size /\ started r = false.
Proof.
  intros Hs Hd Hn. eexists. split; [reflexivity|].
  match goal with |- wf ?r /\ _ => set (r0 := r) end.
  assert (forall d, at_ r0 d = None) as Hnone.
  { intros d. unfold at_. cbn. destruct (_ !! _) as [x|] eqn:E; [|done].
    by apply lookup_replicate in E as [-> _]. }
  assert (contents r0 = []) as Hc by by apply omap_seqZ_none.
  split; [|done]. split; try done; cbn.
  - rewrite length_replicate. lia.
  - rewrite length_replicate. lia.
  - by rewrite Hc.
  - intros d p _. by rewrite Hnone.
Qed.

(** The stations' sessions: eight slots, well-formed rings. *)
Definition tid_rx_ok (l : list (option tid_ampdu_rx)) : Prop :=
  length l = 8%nat /\ Forall (fun o => forall r, o = Some r -> wf r) l.

Lemma tid_rx_ok_rd l tid :
  tid_rx_ok l -> 0 <= tid < TID_MAX_NUM ->
  exists o, rd l tid = Some o /\ (forall r, o = Some r -> wf r).
Proof.
  intros [Hl Hf] Ht. unfold TID_MAX_NUM in Ht. destruct (rd_some l tid) as [o Ho]; [lia|].
  exists o. split; [done|]. rewrite rd_lookup in Ho by lia.
  by apply (Forall_lookup_1 _ _ _ _ Hf Ho).
Qed.

Lemma tid_rx_ok_wr l tid r :
  tid_rx_ok l -> 0 <= tid < TID_MAX_NUM -> wf r ->
  exists l', wr l tid (Some r) = Some l' /\ tid_rx_ok l'.
Proof.
  intros [Hl Hf] Ht Hr. unfold TID_MAX_NUM in Ht. rewrite wr_some by lia.
  eexists. split; [done|]. split; [by rewrite length_insert|].
  apply Forall_insert; [done|]. by intros ? [= <-].
Qed.

(** ** Properties *)

(** C1: in a started block-ack session whose window divides the sequence space (a power
    of two from 2 to 1024 entries, [wf]), whatever packets and timer expirations arrive,
    and block-ack requests that are not exactly half the sequence space, 2048, ahead of
    the head ([input_ok]), in whatever order, the packets handed up carry strictly
    increasing sequence numbers (counted from the head without the 12-bit wrap): nothing
    is handed up out of order or twice.  Both conditions are needed:
    [window_of_100_drops_a_new_frame] is what a window of another size does, and
    [bar_half_space_leaves_stale_frame] a request 2048 ahead. *)
Theorem session_delivers_in_order r ins r' d c :
  wf r -> started r = true -> session r ins r' d c ->
  exists k, head_seq_num r' = (head_seq_num r + k) mod SEQ_MODULO
            /\ in_order (head_seq_num r) k d.
Proof.
  intros Hwf Hs Hrun. destruct (session_spec r ins r' d c Hwf Hrun) as (k & _ & _ & Hh & _ & Ho).
  eauto.
Qed.

(** C2: no packet is lost: the packets stored before a run and those that
    arrived are exactly those handed up, recycled, or still stored. *)
Theorem session_conserves_packets r ins r' d c :
  wf r -> session r ins r' d c ->
  contents r ++ input_pkts ins ≡ₚ d ++ c ++ contents r' /\ wf r'.
Proof.
  intros Hwf Hrun. destruct (session_spec r ins r' d c Hwf Hrun) as (k & ? & _ & _ & ? & _).
  done.
Qed.

(** [phl_manage_sta_reorder_buf] always returns: its loops end and its array
    accesses stay inside the ring; a packet behind the head of a started
    session is recycled, and the ring stays well-formed. *)
Theorem manage_total s p t1 t2 :
  wf (ring s) -> 0 <= pkt_seq p < SEQ_MODULO ->
  exists b s', phl_manage_sta_reorder_buf s p t1 t2 = Some (b, s') /\ wf (ring s')
    /\ (started (ring s) = true -> 2048 < offset (ring s) (pkt_seq p) ->
        b = true /\ frames s' = frames s /\ recycled (events s') = recycled (events s) ++ [p]).
Proof.
  intros Hwf Hp. destruct (manage_spec s p t1 t2 Hwf Hp) as (b & s' & K & fr & dr & E & Ha).
  exists b, s'. split; [done|]. split; [apply Ha|]. intros Hs Ho.
  unfold phl_manage_sta_reorder_buf in E. rewrite Hs in E. cbn [negb andb] in E.
  rewrite seq_less_spec in E. fold (offset (ring s) (pkt_seq p)) in E.
  destruct (Z.gtb_spec (offset (ring s) (pkt_seq p)) 2048); [|lia].
  injection E as <- <-. cbn. split; [done|]. split; [done|].
  unfold recycled. by rewrite omap_app.
Qed.

(** [phl_reorder_release] slides the window by exactly the ready run when the
    head is present, and otherwise up to the last frame whose time is over (or
    that follows one without a gap); nothing stored is recycled, and the timer
    is armed exactly when frames stay behind in a session not removed. *)
Theorem reorder_release_exact s cur :
  wf (ring s) ->
  exists s' k fr, phl_reorder_release s cur = Some s'
    /\ release_point (ring s) cur k
    /\ frames s' = frames s ++ fr /\ fr = span (ring s) 0 (Z.min k (buf_size (ring s)))
    /\ contents (ring s) = fr ++ contents (ring s')
    /\ recycled (events s') = recycled (events s)
    /\ timer_events (events s) (ring s') (events s').
Proof.
  intros Hwf. destruct (reorder_release_spec s cur Hwf) as (s' & k & fr & E & Hk & Hsl & Hf & Ht).
  exists s', k, fr. do 3 (split; [done|]). split; [apply (sl_fr _ _ _ _ Hsl)|].
  split; [by apply (slides_contents k)|]. split; [|done]. by apply (timer_events_recycled _ _ _ Ht).
Qed.

(** a session opened with a power-of-two window of at most 1024 starts with a
    well-formed empty ring at the announced sequence number, every other slot
    is unchanged, and the frames of a session it replaces are recycled. *)
Theorem start_rx_ba_session_ok i ssn0 tid size :
  tid_rx_ok (tid_rx i) -> 0 <= tid < TID_MAX_NUM -> 0 <= ssn0 < SEQ_MODULO ->
  2 <= size <= 1024 -> (size | SEQ_MODULO) ->
  exists i' r old, rtw_phl_start_rx_ba_session i true true true ssn0 0 tid size
      = Some (RTW_PHL_STATUS_SUCCESS, i', EvHalStartBa tid size :: phl_tid_ampdu_rx_free old)
    /\ rd (tid_rx i) tid = Some old /\ tid_rx i' = <[Z.to_nat tid := Some r]> (tid_rx i)
    /\ wf r /\ contents r = [] /\ head_seq_num r = ssn0 /\ buf_size r = size
    /\ tid_rx_ok (tid_rx i').
Proof.
  intros Hok Ht Hn Hs Hd. destruct (alloc_wf ssn0 tid size Hs Hd Hn) as (r & Er & Hr & Hc & Hh & Hb & _).
  destruct (tid_rx_ok_rd _ _ Hok Ht) as (old & Eold & _).
  destruct (tid_rx_ok_wr _ _ _ Hok Ht Hr) as (l' & Ewr & Hok').
  unfold rtw_phl_start_rx_ba_session. cbn [negb Z.eqb].
  destruct (Z.eqb_spec size 0); [lia|]. rewrite Er.
  destruct (Z.leb_spec TID_MAX_NUM tid); [lia|]. rewrite Eold. cbn [mbind option_bind].
  rewrite Ewr. cbn [mbind option_bind]. apply wr_inv in Ewr as [_ ->].
  eexists _, r, old. done.
Qed.

(** a block-ack request for a TID of eight or more (the frame's TID field has
    four bits) reads outside the eight sessions of the station; for every
    other TID the handler returns and keeps the sessions well-formed. *)
Theorem rx_bar_out_of_range l tid sq :
  tid_rx_ok l -> 0 <= tid < 16 -> 0 <= sq < SEQ_MODULO ->
  (forall r, rd l tid = Some (Some r) -> offset r sq <> 2048) ->
  (rtw_phl_rx_bar l tid sq = None <-> TID_MAX_NUM <= tid)
  /\ (forall l' fr, rtw_phl_rx_bar l tid sq = Some (l', fr) -> tid_rx_ok l').
Proof.
  intros Hok Ht Hsq Hhalf. unfold rtw_phl_rx_bar, TID_MAX_NUM in *.
  destruct (Z.le_gt_cases 8 tid) as [Hge|Hlt].
  - assert (rd l tid = None) as ->; [|split; [done|by intros ? ? [=]]].
    rewrite rd_lookup by lia. apply lookup_ge_None. destruct Hok as [-> _]. lia.
  - destruct (tid_rx_ok_rd l tid Hok) as (o & Eo & Hwf); [unfold TID_MAX_NUM; lia|].
    rewrite Eo in *. cbn [mbind option_bind]. destruct o as [r|].
    2:{ split; [split; [done|lia]|by intros ? ? [= <- <-]]. }
    specialize (Hwf r eq_refl). specialize (Hhalf r eq_refl).
    destruct (seq_less sq (head_seq_num r)) eqn:El.
    { split; [split; [done|lia]|by intros ? ? [= <- <-]]. }
    rewrite seq_less_spec in El. fold (offset r sq) in El.
    destruct (Z.gtb_spec (offset r sq) 2048); [done|].
    destruct (release_frames_spec (fresh r) sq Hwf Hsq) as (s' & fr & E & [Hsl _ _]); [cbn; lia|].
    unfold fresh in E. rewrite E. cbn [mbind option_bind].
    destruct (tid_rx_ok_wr l tid (ring s') Hok) as (l' & El' & Hok');
      [unfold TID_MAX_NUM; lia|by eapply slides_wf|].
    rewrite El'. cbn [mbind option_bind]. split; [split; [done|lia]|].
    by intros ? ? [= <- <-].
Qed.

(** [phl_rx_reorder] returns for every frame when the station directory names
    known stations with well-formed sessions, and keeps them so. It fails only
    by handing exactly this frame back for recycling, with nothing delivered
    and no session touched: when the frame check sequence leaves nothing of
    it, or its TID is out of range. *)
Theorem rx_reorder_total `{StaLookup} fcs s p t1 t2 :
  (forall sta i, stas s !! sta = Some i -> tid_rx_ok (tid_rx i)) ->
  (forall sta, find_sta s (mdata p) = Some sta -> is_Some (stas s !! sta)) ->
  0 <= pkt_seq p < SEQ_MODULO -> 0 <= tid (mdata p) ->
  exists st s', phl_rx_reorder fcs s p t1 t2 = Some (st, s')
    /\ (forall sta i, stas s' !! sta = Some i -> tid_rx_ok (tid_rx i))
    /\ st <> RTW_PHL_STATUS_RESOURCE
    /\ (st = RTW_PHL_STATUS_FAILURE ->
        stas s' = stas s /\ rx_frames s' = rx_frames s
        /\ (exists p', ptr p' = ptr p /\ recycled (rx_events s') = recycled (rx_events s) ++ [p'])
        /\ ((fcs = true /\ length0 p <= 4) \/ TID_MAX_NUM <= tid (mdata p))).
Proof.
  intros Hok Hdir Hseq Htid. unfold phl_rx_reorder, recycled.
  set (strip := fcs && _).
  destruct (strip && (length0 p <=? 4)) eqn:E1.
  { apply andb_prop in E1 as [E1 ?%Z.leb_le]. unfold strip in E1. apply andb_prop in E1 as [-> _].
    eexists _, _. split; [reflexivity|]. split; [done|]. split; [done|]. intros _.
    do 2 (split; [done|]). split; [|left; split; [done|lia]].
    exists p. split; [done|]. cbn. by rewrite omap_app. }
  clear E1. set (p0 := if strip then set_length0 p (length0 p - 4) else p).
  assert (ptr p0 = ptr p /\ mdata p0 = mdata p) as [Hptr Hmd] by (unfold p0; by destruct strip).
  cbv zeta. destruct (bc _ || _ || _ || _ || _).
  { eexists _, _. split; [reflexivity|]. split; [done|]. by split. }
  destruct (find_sta s (mdata p)) as [sta|] eqn:Ef.
  2:{ eexists _, _. split; [reflexivity|]. split; [done|]. by split. }
  destruct (Hdir sta eq_refl) as [i Hi]. rewrite Hi. cbn [mbind option_bind].
  specialize (Hok sta i Hi) as Hoki.
  destruct (Z.leb_spec TID_MAX_NUM (tid (mdata p))).
  { eexists _, _. split; [reflexivity|]. split; [done|]. split; [done|]. intros _.
    do 2 (split; [done|]). split; [|by right].
    exists (set_sta p0 sta (wrole i)). split; [done|]. cbn. rewrite !omap_app. cbn.
    by rewrite app_nil_r. }
  destruct (tid_rx_ok_rd _ (tid (mdata p)) Hoki) as (o & -> & Hwf); [lia|].
  cbn [mbind option_bind]. destruct o as [r|].
  2:{ eexists _, _. split; [reflexivity|]. split; [done|]. by split. }
  destruct (manage_spec {| ring := r; frames := rx_frames s; events := rx_events s ++ [EvRxSts sta] |}
              (set_sta p0 sta (wrole i)) t1 t2 (Hwf r eq_refl)) as (b & s1 & K & fr & dr & E & Ha).
  { unfold pkt_seq. cbn. by rewrite Hmd. }
  cbn [stas rx_frames rx_events] in *. rewrite E. cbn [mbind option_bind].
  destruct (tid_rx_ok_wr _ (tid (mdata p)) (ring s1) Hoki) as (l' & -> & Hok');
    [lia|apply Ha|]. cbn [mbind option_bind].
  assert (forall sta0 i0, <[sta := {| wrole := wrole i; tid_rx := l' |}]> (stas s) !! sta0 = Some i0 ->
            tid_rx_ok (tid_rx i0)) as Hins.
  { intros sta0 i0. rewrite lookup_insert. case_decide; [by intros [= <-]|apply Hok]. }
  destruct b; (eexists _, _; split; [reflexivity|]; split; [done|by split]).
Qed.

(** ** What the ring needs of its size, and concrete runs *)

Definition meta_of (sq : Z) : r_meta :=
  {| seq := sq; tid := 0; bc := false; mc := false; qos := true; q_null := false;
     more_frag := false; frag_num := 0; amsdu_cut := false; last_msdu := false;
     addr_cam_vld := true; macid := 1; mac_addr := []; ta := [] |}.
Definition pkt_of (id sq : Z) : rx_pkt :=
  {| ptr := id; length0 := 100; mdata := meta_of sq; tx_sta := None; rx_role := None |}.
Definition ring_of (ssn0 size : Z) : tid_ampdu_rx :=
  set_started (default (set_head {| reorder_buf := []; reorder_time := []; head_seq_num := 0;
    stored_mpdu_num := 0; ssn := 0; buf_size := 0; rtid := 0; started := false;
    removed := false |} 0) (phl_tid_ampdu_rx_alloc true true true ssn0 0 size)).

(** A run of inputs, as a function. *)
Fixpoint run (r : tid_ampdu_rx) (ins : list input)
    : option (tid_ampdu_rx * list Z * list Z) :=
  match ins with
  | [] => Some (r, [], [])
  | i :: ins =>
      res ← session_step r i;
      let '(r1, d1, c1) := res in
      res2 ← run r1 ins;
      let '(r2, d2, c2) := res2 in
      Some (r2, (pkt_seq <$> d1) ++ d2, (pkt_seq <$> c1) ++ c2)
  end.

(** the power-of-two window is needed: with a window of 100 frames the ring
    index is not continuous where sequence numbers wrap, and a frame that is
    new and inside the window is dropped as a duplicate. *)
Theorem window_of_100_drops_a_new_frame :
  exists r', run (ring_of 0 100)
      [InBar 2000; InBar 4000; InBar 4089; InPkt (pkt_of 1 4090) 0 0; InPkt (pkt_of 2 90) 0 0]
    = Some (r', [], [90]).
Proof. eexists. vm_compute. reflexivity. Qed.

(** a block-ack request exactly 2048 ahead of the head moves the head but
    leaves the stored frame in the ring; a later, newer frame then finds its
    slot taken and is dropped, and the old frame comes out behind newer ones. *)
Theorem bar_half_space_leaves_stale_frame :
  exists r', run (ring_of 0 8)
      [InPkt (pkt_of 1 1) 0 0; InBar 2048; InPkt (pkt_of 2 2049) 0 0; InPkt (pkt_of 3 2048) 0 0;
       InPkt (pkt_of 4 2050) 0 0]
    = Some (r', [2048; 1; 2050], [2049]).
Proof. eexists. vm_compute. reflexivity. Qed.

(** ** Witnesses *)

Lemma ring_of_wf : wf (ring_of 4090 64).
Proof.
  destruct (alloc_wf 4090 0 64) as (r & Er & Hr & _); [lia|by exists 64|done|].
  unfold ring_of. rewrite Er. by apply wf_set_started.
Qed.

Definition demo_inputs : list input :=
  [InPkt (pkt_of 1 4091) 0 0; InPkt (pkt_of 2 4090) 5 5; InPkt (pkt_of 3 1) 6 6;
   InTimer 200; InBar 3; InPkt (pkt_of 4 2) 210 210].

Definition demo_ring : tid_ampdu_rx := ring_of 4090 64.

(** Runs a concrete session step by step. *)
Ltac run_session :=
  repeat (eapply session_cons; [vm_compute; intuition congruence|vm_compute; reflexivity|]);
  apply session_nil.

Lemma demo_session : exists r' d c, session demo_ring demo_inputs r' d c
  /\ pkt_seq <$> d = [4090; 4091; 1] /\ pkt_seq <$> c = [2].
Proof. do 3 eexists. split; [run_session|]. split; reflexivity. Qed.

Lemma session_delivers_in_order_witness :
  exists r' d c k, pkt_seq <$> d = [4090; 4091; 1]
    /\ head_seq_num r' = (4090 + k) mod SEQ_MODULO /\ in_order 4090 k d /\ pkt_seq <$> c = [2].
Proof.
  destruct demo_session as (r' & d & c & Hrun & Hd & Hc).
  destruct (session_delivers_in_order demo_ring demo_inputs r' d c ring_of_wf eq_refl Hrun)
    as (k & Hh & Ho).
  exists r', d, c, k. split; [exact Hd|]. split; [exact Hh|]. split; [exact Ho|exact Hc].
Defined.

Lemma session_conserves_packets_witness :
  exists r' d c, length d = 3%nat /\ length c = 1%nat
    /\ contents demo_ring ++ input_pkts demo_inputs ≡ₚ d ++ c ++ contents r' /\ wf r'.
Proof.
  destruct demo_session as (r' & d & c & Hrun & Hd & Hc).
  exists r', d, c. split; [by rewrite <- (length_fmap pkt_seq d), Hd|].
  split; [by rewrite <- (length_fmap pkt_seq c), Hc|].
  exact (session_conserves_packets demo_ring demo_inputs r' d c ring_of_wf Hrun).
Defined.

Lemma manage_total_witness :
  exists b s', phl_manage_sta_reorder_buf (fresh demo_ring) (pkt_of 9 4000) 0 0 = Some (b, s')
    /\ wf (ring s') /\ b = true /\ recycled (events s') = [pkt_of 9 4000].
Proof.
  destruct (manage_total (fresh demo_ring) (pkt_of 9 4000) 0 0 ring_of_wf)
    as (b & s' & E & Hw & Hold).
  { vm_compute. intuition congruence. }
  exists b, s'. split; [exact E|]. split; [exact Hw|].
  destruct (Hold eq_refl) as (Hb & _ & Hr); [vm_compute; reflexivity|]. split; [exact Hb|exact Hr].
Defined.

Lemma reorder_release_exact_witness :
  exists s' k (fr : list rx_pkt), phl_reorder_release (fresh demo_ring) 7 = Some s' /\ fr = []
    /\ release_point demo_ring 7 k /\ events s' = [EvCancelTimer].
Proof.
  destruct (reorder_release_exact (fresh demo_ring) 7 ring_of_wf)
    as (s' & k & fr & E & Hk & Hf & Hfr & Hc & _ & Ht).
  exists s', k, fr. split; [exact E|]. split; [|split; [exact Hk|]].
  - assert (contents demo_ring = []) as Hd by reflexivity. cbn [fresh ring] in Hc.
    rewrite Hd in Hc. by destruct fr.
  - vm_compute in E. injection E as <-. reflexivity.
Defined.

Definition demo_sta : stainfo :=
  {| wrole := Some 0; tid_rx := Some demo_ring :: replicate 7 None |}.

Lemma demo_sta_ok : tid_rx_ok (tid_rx demo_sta).
Proof.
  split; [reflexivity|]. repeat (apply Forall_cons; split); try done.
  intros r [= <-]. apply ring_of_wf.
Qed.

Lemma start_rx_ba_session_ok_witness :
  exists i' r old, rtw_phl_start_rx_ba_session demo_sta true true true 77 0 3 256
      = Some (RTW_PHL_STATUS_SUCCESS, i', EvHalStartBa 3 256 :: phl_tid_ampdu_rx_free old)
    /\ wf r /\ head_seq_num r = 77 /\ tid_rx_ok (tid_rx i').
Proof.
  destruct (start_rx_ba_session_ok demo_sta 77 3 256) as (i' & r & old & E & _ & _ & Hw & _ & Hh & _ & Hok).
  { exact demo_sta_ok. }
  { split; [discriminate|reflexivity]. }
  { split; [discriminate|reflexivity]. }
  { split; discriminate. }
  { by exists 16. }
  exists i', r, old. split; [exact E|]. split; [exact Hw|]. split; [exact Hh|exact Hok].
Defined.

Lemma rx_bar_out_of_range_witness :
  rtw_phl_rx_bar (tid_rx demo_sta) 9 5 = None
  /\ exists l' fr, rtw_phl_rx_bar (tid_rx demo_sta) 0 4092 = Some (l', fr) /\ tid_rx_ok l'.
Proof.
  split.
  - apply (rx_bar_out_of_range (tid_rx demo_sta) 9 5 demo_sta_ok);
      [split; [discriminate|reflexivity]|split; [discriminate|reflexivity]|discriminate|].
    discriminate.
  - destruct (rx_bar_out_of_range (tid_rx demo_sta) 0 4092 demo_sta_ok) as [_ Hok];
      [split; [discriminate|reflexivity]|split; [discriminate|reflexivity]| |].
    + by intros r [= <-].
    + eexists _, _. split; [vm_compute; reflexivity|]. eapply Hok. vm_compute; reflexivity.
Defined.

Definition demo_dir : StaLookup :=
  {| get_stainfo_by_macid m := if m =? 1 then Some 0 else None;
     get_wrole_by_addr _ := None; get_stainfo_by_addr _ _ := None |}.
Definition demo_state : rx_state :=
  {| stas := {[ 0 := demo_sta ]}; rx_frames := []; rx_events := [] |}.

Lemma rx_reorder_total_witness :
  exists st s', @phl_rx_reorder demo_dir true demo_state (pkt_of 5 4090) 0 0 = Some (st, s')
    /\ st <> RTW_PHL_STATUS_RESOURCE
    /\ (forall sta i, stas s' !! sta = Some i -> tid_rx_ok (tid_rx i)).
Proof.
  destruct (@rx_reorder_total demo_dir true demo_state (pkt_of 5 4090) 0 0)
    as (st & s' & E & Hok & Hst & _).
  - intros sta i. cbn. intros [<- <-]%lookup_singleton_Some. exact demo_sta_ok.
  - intros sta Hf. vm_compute in Hf. injection Hf as <-. by eexists.
  - split; [discriminate|reflexivity].
  - discriminate.
  - exists st, s'. split; [exact E|]. split; [exact Hst|exact Hok].
Defined.

End Reorder.
