(* ===== verification/CsiBuf.v ===== *)
(** * CSI buffers (phl/hal_g6/hal_csi_buffer.c)

    The hardware's channel-state buffers are handed out to beamforming
    stations in parts of 20, 40 or 80 MHz.  Each 80 MHz buffer has four busy
    bits; a grant is reported to the caller as the buffer's index and a
    position code.  Module [CsiBuf] holds the tables, the operations and the
    lease relation: a run of queries and releases with the grants that are
    outstanding. *)

From stdpp Require Import relations.
From S2P Require Import Prelude.

Module CsiBuf.

(** ** Data *)

Definition CSI_BUF_SUB_IDX_80 : Z := 0.
Definition CSI_BUF_SUB_IDX_40_U : Z := 36.
Definition CSI_BUF_SUB_IDX_40_L : Z := 40.
Definition CSI_BUF_SUB_IDX_20_UU : Z := 4.
Definition CSI_BUF_SUB_IDX_20_UL : Z := 8.
Definition CSI_BUF_SUB_IDX_20_LU : Z := 12.
Definition CSI_BUF_SUB_IDX_20_LL : Z := 16.
Definition CSI_BUF_SUB_IDX_NON : Z := 63.

Definition CSI_BUF_STS_BUSY : Z := 1.
Definition CSI_BUF_STS_IDLE : Z := 0.

Inductive hal_csi_buf_type := HAL_CSI_BUF_TYPE_SU | HAL_CSI_BUF_TYPE_MU.

Inductive hal_csi_buf_size :=
  HAL_CSI_BUF_SIZE_NONE | HAL_CSI_BUF_SIZE_20 | HAL_CSI_BUF_SIZE_40
| HAL_CSI_BUF_SIZE_80 | HAL_CSI_BUF_SIZE_160.

(** [enum channel_width] (phl/rtw_general_def.h). *)
Inductive channel_width :=
  CHANNEL_WIDTH_20 | CHANNEL_WIDTH_40 | CHANNEL_WIDTH_80 | CHANNEL_WIDTH_160
| CHANNEL_WIDTH_80_80 | CHANNEL_WIDTH_5 | CHANNEL_WIDTH_10 | CHANNEL_WIDTH_MAX.

(** [enum rtw_hal_status]: the values this file uses. *)
Inductive rtw_hal_status :=
  RTW_HAL_STATUS_SUCCESS | RTW_HAL_STATUS_FAILURE | RTW_HAL_STATUS_RESOURCE.

#[export] Instance hal_csi_buf_type_eq_dec : EqDecision hal_csi_buf_type.
Proof. solve_decision. Defined.
#[export] Instance channel_width_eq_dec : EqDecision channel_width.
Proof. solve_decision. Defined.
#[export] Instance rtw_hal_status_eq_dec : EqDecision rtw_hal_status.
Proof. solve_decision. Defined.

(** A word of bit fields: 6 bits of [sub_idx], 5 of [idx], 1 of [type]. *)
Record hal_csi_buf := mk_csi_buf {
  sub_idx : Z;
  idx : Z;
  type : hal_csi_buf_type
}.

(** The conversions of the bit fields. *)
Definition f_sub_idx (x : Z) : Z := x mod 64.
Definition f_idx (x : Z) : Z := x mod 32.

Definition set_sub_idx (b : hal_csi_buf) (x : Z) : hal_csi_buf :=
  {| sub_idx := f_sub_idx x; idx := idx b; type := type b |}.
Definition set_idx (b : hal_csi_buf) (x : Z) : hal_csi_buf :=
  {| sub_idx := sub_idx b; idx := f_idx x; type := type b |}.
Definition set_type (b : hal_csi_buf) (t : hal_csi_buf_type) : hal_csi_buf :=
  {| sub_idx := sub_idx b; idx := idx b; type := t |}.

(** [csi_buf = None] is the null pointer. *)
Record hal_csi_obj := mk_csi_obj {
  max_csi_buf_nr : Z;
  max_csi_buf_nr_su : Z;
  max_csi_buf_nr_mu : Z;
  csi_buf : option (list hal_csi_buf)
}.

Definition with_buf (o : hal_csi_obj) (l : list hal_csi_buf) : hal_csi_obj :=
  {| max_csi_buf_nr := max_csi_buf_nr o; max_csi_buf_nr_su := max_csi_buf_nr_su o;
     max_csi_buf_nr_mu := max_csi_buf_nr_mu o; csi_buf := Some l |}.

(** ** The busy bits *)

Definition IS_SUB20_BUSY (b : hal_csi_buf) (i : Z) : Z :=
  if Z.land (sub_idx b) (BIT i) =? BIT i then CSI_BUF_STS_BUSY else CSI_BUF_STS_IDLE.
Definition SET_SUB20_BUSY (b : hal_csi_buf) (i : Z) : hal_csi_buf :=
  set_sub_idx b (Z.lor (sub_idx b) (BIT i)).
Definition IS_40L_BUSY (b : hal_csi_buf) : Z :=
  if Z.land (sub_idx b) (Z.lor (BIT 0) (BIT 1)) =? Z.lor (BIT 0) (BIT 1)
  then CSI_BUF_STS_BUSY else CSI_BUF_STS_IDLE.
Definition IS_40U_BUSY (b : hal_csi_buf) : Z :=
  if Z.land (sub_idx b) (Z.lor (BIT 2) (BIT 3)) =? Z.lor (BIT 0) (BIT 1)
  then CSI_BUF_STS_BUSY else CSI_BUF_STS_IDLE.
Definition SET_40L_BUSY (b : hal_csi_buf) : hal_csi_buf :=
  set_sub_idx b (Z.lor (sub_idx b) (Z.lor (BIT 0) (BIT 1))).
Definition SET_40U_BUSY (b : hal_csi_buf) : hal_csi_buf :=
  set_sub_idx b (Z.lor (sub_idx b) (Z.lor (BIT 2) (BIT 3))).
Definition CLEAR_CSI_STS_BIT (b : hal_csi_buf) (x : Z) : hal_csi_buf :=
  set_sub_idx b (Z.land (sub_idx b) (Z.lnot (Z.shiftl 1 x))).

(** ** Queries on one buffer: the position code and the updated buffer *)

Definition query_avl_buf_idx_20 (b : hal_csi_buf) : Z * hal_csi_buf :=
  if IS_SUB20_BUSY b 0 =? CSI_BUF_STS_IDLE
  then (CSI_BUF_SUB_IDX_20_LL, SET_SUB20_BUSY b 0)
  else if IS_SUB20_BUSY b 1 =? CSI_BUF_STS_IDLE
  then (CSI_BUF_SUB_IDX_20_LU, SET_SUB20_BUSY b 1)
  else if IS_SUB20_BUSY b 2 =? CSI_BUF_STS_IDLE
  then (CSI_BUF_SUB_IDX_20_UL, SET_SUB20_BUSY b 2)
  else if IS_SUB20_BUSY b 3 =? CSI_BUF_STS_IDLE
  then (CSI_BUF_SUB_IDX_20_UU, SET_SUB20_BUSY b 3)
  else (CSI_BUF_SUB_IDX_NON, b).

Definition query_avl_buf_idx_40 (b : hal_csi_buf) : Z * hal_csi_buf :=
  if IS_40L_BUSY b =? CSI_BUF_STS_IDLE
  then (CSI_BUF_SUB_IDX_40_L, SET_40L_BUSY b)
  else if IS_40U_BUSY b =? CSI_BUF_STS_IDLE
  then (CSI_BUF_SUB_IDX_40_U, SET_40U_BUSY b)
  else (CSI_BUF_SUB_IDX_NON, b).

Definition query_avl_buf_idx_80 (b : hal_csi_buf) : Z * hal_csi_buf :=
  if sub_idx b =? CSI_BUF_STS_IDLE
  then (CSI_BUF_SUB_IDX_80, set_sub_idx b 15)
  else (CSI_BUF_SUB_IDX_NON, b).

(** The loop shared by the six cases of [_query_csi_buf_su] and
    [_query_csi_buf_mu]: buffers [i], [i+1], ... (at most [n] of them) are
    asked in turn.  The result is the updated table, the last position code
    and the granting buffer. *)
Fixpoint scan_buf (q : hal_csi_buf -> Z * hal_csi_buf) (n : nat) (i : Z)
    (l : list hal_csi_buf) (sub_id : Z)
    : option (list hal_csi_buf * Z * option hal_csi_buf) :=
  match n with
  | O => Some (l, sub_id, None)
  | S n =>
      b ← rd l i;
      let '(sub_id, b') := q b in
      l' ← wr l i b';
      if negb (sub_id =? CSI_BUF_SUB_IDX_NON) then Some (l', sub_id, Some b')
      else scan_buf q n (i + 1) l' sub_id
  end.

(** The [switch] on the size: the loop runs for [i] from [s] below [e]. *)
Definition query_range (o : hal_csi_obj) (size : hal_csi_buf_size) (s e : Z)
    : option (hal_csi_obj * Z * option hal_csi_buf) :=
  let run q :=
    if e <=? s then Some (o, CSI_BUF_SUB_IDX_NON, None) else
    l ← csi_buf o;
    '(l', sub_id, b) ← scan_buf q (Z.to_nat (e - s)) s l CSI_BUF_SUB_IDX_NON;
    Some (with_buf o l', sub_id, b) in
  match size with
  | HAL_CSI_BUF_SIZE_20 => run query_avl_buf_idx_20
  | HAL_CSI_BUF_SIZE_40 => run query_avl_buf_idx_40
  | HAL_CSI_BUF_SIZE_80 => run query_avl_buf_idx_80
  | _ => Some (o, CSI_BUF_SUB_IDX_NON, None)
  end.

Definition query_csi_buf_su (o : hal_csi_obj) (size : hal_csi_buf_size)
    : option (hal_csi_obj * Z * option hal_csi_buf) :=
  query_range o size 0 (max_csi_buf_nr_su o).

Definition query_csi_buf_mu (o : hal_csi_obj) (size : hal_csi_buf_size)
    : option (hal_csi_obj * Z * option hal_csi_buf) :=
  query_range o size (max_csi_buf_nr_su o) (max_csi_buf_nr o).

Definition bw2csi (bw : channel_width) : hal_csi_buf_size :=
  match bw with
  | CHANNEL_WIDTH_20 => HAL_CSI_BUF_SIZE_20
  | CHANNEL_WIDTH_40 => HAL_CSI_BUF_SIZE_40
  | CHANNEL_WIDTH_80 => HAL_CSI_BUF_SIZE_80
  | _ => HAL_CSI_BUF_SIZE_NONE
  end.

(** ** The interface of the file

    [hal_com->csi_obj] is the argument [option hal_csi_obj] where it can be
    null; [None] as a result is a null-pointer or out-of-range access.  The
    caller's word is the last argument, [None] when the pointer is null. *)

Definition zero_buf : hal_csi_buf :=
  {| sub_idx := 0; idx := 0; type := HAL_CSI_BUF_TYPE_SU |}.

(** [alloc_ok] tells whether [_os_mem_alloc] gives memory.  The [memset]
    before the null check is the access that fails when it does not. *)
Definition hal_csi_init_buf (o : hal_csi_obj) (num : Z) (alloc_ok : bool)
    : option (hal_csi_obj * rtw_hal_status) :=
  if negb alloc_ok then
    if num =? 0 then
      Some ({| max_csi_buf_nr := max_csi_buf_nr o; max_csi_buf_nr_su := max_csi_buf_nr_su o;
               max_csi_buf_nr_mu := max_csi_buf_nr_mu o; csi_buf := None |},
            RTW_HAL_STATUS_RESOURCE)
    else None
  else
    let l := (fun i => set_sub_idx (set_idx zero_buf i) 0) <$> seqZ 0 num in
    Some (with_buf o l, RTW_HAL_STATUS_SUCCESS).

Definition hal_csi_deinit (obj : option hal_csi_obj) : option (option hal_csi_obj) :=
  (* csi_buf = csi_obj->csi_buf comes before the test of csi_obj *)
  o ← obj;
  Some None.

(** The loop that marks the buffers from [i] on as multi-user. *)
Fixpoint mark_mu (n : nat) (i : Z) (l : list hal_csi_buf) : option (list hal_csi_buf) :=
  match n with
  | O => Some l
  | S n =>
      b ← rd l i;
      l' ← wr l i (set_type b HAL_CSI_BUF_TYPE_MU);
      mark_mu n (i + 1) l'
  end.

(** [obj_ok] and [buf_ok] tell whether the two allocations give memory;
    memory from [_os_mem_alloc] is zeroed. *)
Definition hal_csi_init (obj : option hal_csi_obj) (su_buf_nr mu_buf_nr : Z)
    (obj_ok buf_ok : bool) : option (option hal_csi_obj * rtw_hal_status) :=
  if negb obj_ok then
    obj' ← hal_csi_deinit obj;
    Some (obj', RTW_HAL_STATUS_RESOURCE)
  else
    let o := {| max_csi_buf_nr := 0; max_csi_buf_nr_su := 0; max_csi_buf_nr_mu := 0;
                csi_buf := None |} in
    if su_buf_nr + mu_buf_nr =? 0 then
      obj' ← hal_csi_deinit (Some o);
      Some (obj', RTW_HAL_STATUS_RESOURCE)
    else
      '(o, _) ← hal_csi_init_buf o (u8 (mu_buf_nr + su_buf_nr)) buf_ok;
      let n := u8 (su_buf_nr + mu_buf_nr) in
      let o := {| max_csi_buf_nr := n; max_csi_buf_nr_su := su_buf_nr;
                  max_csi_buf_nr_mu := mu_buf_nr; csi_buf := csi_buf o |} in
      if n <=? su_buf_nr then Some (Some o, RTW_HAL_STATUS_SUCCESS) else
      l ← csi_buf o;
      l' ← mark_mu (Z.to_nat (n - su_buf_nr)) su_buf_nr l;
      Some (Some (with_buf o l'), RTW_HAL_STATUS_SUCCESS).

Definition hal_csi_query_idle_csi_buf (o : hal_csi_obj) (mu : Z) (bw : channel_width)
    (buf : option hal_csi_buf) : option (hal_csi_obj * option hal_csi_buf * rtw_hal_status) :=
  match buf with
  | None => Some (o, buf, RTW_HAL_STATUS_FAILURE)
  | Some b =>
      let size := bw2csi bw in
      let ty := if mu =? 0 then HAL_CSI_BUF_TYPE_SU else HAL_CSI_BUF_TYPE_MU in
      '(o, sub, tmp) ←
        match ty with
        | HAL_CSI_BUF_TYPE_SU => query_csi_buf_su o size
        | HAL_CSI_BUF_TYPE_MU => query_csi_buf_mu o size
        end;
      match tmp with
      | None => Some (o, buf, RTW_HAL_STATUS_RESOURCE)
      | Some t =>
          if sub =? CSI_BUF_SUB_IDX_NON then Some (o, buf, RTW_HAL_STATUS_RESOURCE)
          else
            Some (o, Some (set_type (set_sub_idx (set_idx b (idx t)) sub) ty),
                  RTW_HAL_STATUS_SUCCESS)
      end
  end.

(** The [switch] of the release on the position code. *)
Definition release_sub (b : hal_csi_buf) (sub : Z) : hal_csi_buf :=
  if sub =? CSI_BUF_SUB_IDX_80 then set_sub_idx b 0
  else if sub =? CSI_BUF_SUB_IDX_40_U then CLEAR_CSI_STS_BIT (CLEAR_CSI_STS_BIT b 3) 2
  else if sub =? CSI_BUF_SUB_IDX_40_L then CLEAR_CSI_STS_BIT (CLEAR_CSI_STS_BIT b 1) 0
  else if sub =? CSI_BUF_SUB_IDX_20_UU then CLEAR_CSI_STS_BIT b 3
  else if sub =? CSI_BUF_SUB_IDX_20_UL then CLEAR_CSI_STS_BIT b 2
  else if sub =? CSI_BUF_SUB_IDX_20_LU then CLEAR_CSI_STS_BIT b 1
  else if sub =? CSI_BUF_SUB_IDX_20_LL then CLEAR_CSI_STS_BIT b 0
  else b.

Definition hal_csi_release_csi_buf (o : hal_csi_obj) (buf : option hal_csi_buf)
    : option (hal_csi_obj * option hal_csi_buf * rtw_hal_status) :=
  match buf with
  | None => Some (o, buf, RTW_HAL_STATUS_FAILURE)
  | Some b =>
      if idx b <? max_csi_buf_nr o then
        l ← csi_buf o;
        t ← rd l (idx b);
        l' ← wr l (idx b) (release_sub t (sub_idx b));
        Some (with_buf o l', Some (set_sub_idx (set_idx b 0) CSI_BUF_SUB_IDX_NON),
              RTW_HAL_STATUS_SUCCESS)
      else Some (o, buf, RTW_HAL_STATUS_FAILURE)
  end.

(** [true] is [_SUCCESS]. *)
Definition hal_is_csi_buf_valid (o : hal_csi_obj) (b : hal_csi_buf) : bool :=
  if max_csi_buf_nr o <=? idx b then false
  else if sub_idx b =? CSI_BUF_SUB_IDX_NON then false
  else true.

Definition rtw_hal_get_csi_buf_bw (b : hal_csi_buf) : channel_width :=
  let s := sub_idx b in
  if s =? CSI_BUF_SUB_IDX_80 then CHANNEL_WIDTH_80
  else if (s =? CSI_BUF_SUB_IDX_40_U) || (s =? CSI_BUF_SUB_IDX_40_L) then CHANNEL_WIDTH_40
  else if (s =? CSI_BUF_SUB_IDX_20_UU) || (s =? CSI_BUF_SUB_IDX_20_UL)
          || (s =? CSI_BUF_SUB_IDX_20_LU) || (s =? CSI_BUF_SUB_IDX_20_LL)
  then CHANNEL_WIDTH_20
  else CHANNEL_WIDTH_MAX.

Definition rtw_hal_get_csi_buf_type (buf : option hal_csi_buf) : bool :=
  match buf with
  | Some b => match type b with HAL_CSI_BUF_TYPE_MU => true | _ => false end
  | None => false
  end.

(** ** Leases

    [lease_mask] is the part of a buffer that a position code stands for.  A
    run of the allocator keeps the list of the words callers hold. *)

Definition lease_mask (s : Z) : Z :=
  if s =? CSI_BUF_SUB_IDX_80 then 15
  else if s =? CSI_BUF_SUB_IDX_40_U then 12
  else if s =? CSI_BUF_SUB_IDX_40_L then 3
  else if s =? CSI_BUF_SUB_IDX_20_UU then 8
  else if s =? CSI_BUF_SUB_IDX_20_UL then 4
  else if s =? CSI_BUF_SUB_IDX_20_LU then 2
  else if s =? CSI_BUF_SUB_IDX_20_LL then 1
  else 0.

Definition holds (i k : Z) (b : hal_csi_buf) : bool :=
  (idx b =? i) && Z.testbit (lease_mask (sub_idx b)) k.

(** How many of the words in [L] stand for bit [k] of buffer [i]. *)
Fixpoint holders (i k : Z) (L : list hal_csi_buf) : Z :=
  match L with
  | [] => 0
  | b :: L => Z.b2z (holds i k b) + holders i k L
  end.

(** The widths of a run are those [P] allows. *)
Inductive lstep (P : channel_width -> Prop) :
    hal_csi_obj * list hal_csi_buf -> hal_csi_obj * list hal_csi_buf -> Prop :=
| lstep_grant o L mu bw b0 o' b' :
    P bw ->
    hal_csi_query_idle_csi_buf o mu bw (Some b0) = Some (o', Some b', RTW_HAL_STATUS_SUCCESS) ->
    lstep P (o, L) (o', b' :: L)
| lstep_refuse o L mu bw b0 o' b' st :
    P bw ->
    hal_csi_query_idle_csi_buf o mu bw b0 = Some (o', b', st) ->
    st <> RTW_HAL_STATUS_SUCCESS ->
    lstep P (o, L) (o', L)
| lstep_release o L1 b L2 o' b' :
    hal_csi_release_csi_buf o (Some b) = Some (o', b', RTW_HAL_STATUS_SUCCESS) ->
    lstep P (o, L1 ++ b :: L2) (o', L1 ++ L2).

(** ** Invariant of the object *)

Definition buf_wf (su i : Z) (b : hal_csi_buf) : Prop :=
  idx b = i /\ 0 <= sub_idx b < 16 /\ (type b = HAL_CSI_BUF_TYPE_MU <-> su <= i).

(** At most 32 buffers, because [idx] has five bits. *)
Record wf (o : hal_csi_obj) (l : list hal_csi_buf) : Prop := {
  wf_buf : csi_buf o = Some l;
  wf_len : Z.of_nat (length l) = max_csi_buf_nr o;
  wf_su : 0 <= max_csi_buf_nr_su o <= max_csi_buf_nr o;
  wf_max : max_csi_buf_nr o <= 32;
  wf_bufs : forall i b, l !! i = Some b -> buf_wf (max_csi_buf_nr_su o) (Z.of_nat i) b
}.

(** ** One buffer *)

(** What a query on one buffer does, as a check on its position code and the
    busy bits before and after. *)
Definition grants (q : hal_csi_buf -> Z * hal_csi_buf) (bw : channel_width)
    (exact : bool) : Prop :=
  forall b, 0 <= sub_idx b < 16 ->
    let '(s, b') := q b in
    (s = CSI_BUF_SUB_IDX_NON -> b' = b) /\
    (s <> CSI_BUF_SUB_IDX_NON ->
     idx b' = idx b /\ type b' = type b /\ 0 <= s < 63 /\
     sub_idx b' = Z.lor (sub_idx b) (lease_mask s) /\ 0 <= sub_idx b' < 16 /\
     (exact = true -> Z.land (sub_idx b) (lease_mask s) = 0) /\
     lease_mask s <> 0 /\
     forall c, rtw_hal_get_csi_buf_bw (set_sub_idx c s) = bw).

Ltac cases16 b :=
  let s := fresh "s" in let i := fresh in let t := fresh in let H := fresh in
  destruct b as [s i t]; cbn [sub_idx]; intros H;
  assert (s = 0 \/ s = 1 \/ s = 2 \/ s = 3 \/ s = 4 \/ s = 5 \/ s = 6 \/ s = 7 \/
          s = 8 \/ s = 9 \/ s = 10 \/ s = 11 \/ s = 12 \/ s = 13 \/ s = 14 \/ s = 15)
    by lia; clear H; intuition subst s.

Lemma grants_20 : grants query_avl_buf_idx_20 CHANNEL_WIDTH_20 true.
Proof. intros b. cases16 b; vm_compute; repeat split; try done; lia. Qed.
Lemma grants_40 : grants query_avl_buf_idx_40 CHANNEL_WIDTH_40 false.
Proof. intros b. cases16 b; vm_compute; repeat split; try done; lia. Qed.
Lemma grants_80 : grants query_avl_buf_idx_80 CHANNEL_WIDTH_80 true.
Proof. intros b. cases16 b; vm_compute; repeat split; try done; lia. Qed.

(** Releasing the code of a lease clears the bits it stands for. *)
Lemma release_sub_bits b s :
  0 <= sub_idx b < 16 -> 
  idx (release_sub b s) = idx b /\ type (release_sub b s) = type b /\
  sub_idx (release_sub b s) = Z.ldiff (sub_idx b) (lease_mask s) /\
  0 <= sub_idx (release_sub b s) < 16.
Proof.
  unfold release_sub, lease_mask. intros H. revert H.
  destruct (s =? CSI_BUF_SUB_IDX_80); [cases16 b; vm_compute; repeat split; done|].
  destruct (s =? CSI_BUF_SUB_IDX_40_U); [cases16 b; vm_compute; repeat split; done|].
  destruct (s =? CSI_BUF_SUB_IDX_40_L); [cases16 b; vm_compute; repeat split; done|].
  destruct (s =? CSI_BUF_SUB_IDX_20_UU); [cases16 b; vm_compute; repeat split; done|].
  destruct (s =? CSI_BUF_SUB_IDX_20_UL); [cases16 b; vm_compute; repeat split; done|].
  destruct (s =? CSI_BUF_SUB_IDX_20_LU); [cases16 b; vm_compute; repeat split; done|].
  destruct (s =? CSI_BUF_SUB_IDX_20_LL); [cases16 b; vm_compute; repeat split; done|].
  cases16 b; vm_compute; repeat split; done.
Qed.

(** ** The scan *)

Lemma scan_buf_spec q bw ex l :
  grants q bw ex ->
  (forall i b, l !! i = Some b -> 0 <= sub_idx b < 16) ->
  forall n i sub, 0 <= i -> i + Z.of_nat n <= Z.of_nat (length l) ->
  exists l' s r, scan_buf q n i l sub = Some (l', s, r) /\
    match r with
    | None => l' = l /\ s = match n with O => sub | _ => CSI_BUF_SUB_IDX_NON end /\
        forall j b, i <= Z.of_nat j < i + Z.of_nat n -> l !! j = Some b ->
          (q b).1 = CSI_BUF_SUB_IDX_NON
    | Some b' => exists j b, i <= Z.of_nat j < i + Z.of_nat n /\ l !! j = Some b /\
        q b = (s, b') /\ s <> CSI_BUF_SUB_IDX_NON /\ l' = <[j := b']> l
    end.
Proof.
  intros Hq Hl. induction n as [|n IH]; intros i sub Hi Hn.
  { exists l, sub, None. cbn. split; [done|]. split; [done|]. split; [done|lia]. }
  destruct (rd_some l i) as [b Hb]; [lia|].
  assert (Hlk : l !! Z.to_nat i = Some b) by (by rewrite <- rd_lookup by lia).
  cbn [scan_buf]. rewrite Hb. cbn [mbind option_bind].
  pose proof (Hq b (Hl _ _ Hlk)) as Hg. destruct (q b) as [s b'] eqn:Hqb.
  rewrite wr_some by lia. cbn [mbind option_bind].
  destruct (Z.eqb_spec s CSI_BUF_SUB_IDX_NON) as [->|Hs]; cbn [negb].
  - destruct Hg as [Hg _]. rewrite (Hg eq_refl). rewrite list_insert_id by done.
    destruct (IH (i + 1) CSI_BUF_SUB_IDX_NON) as (l' & s' & r & -> & Hr); [lia..|].
    exists l', s', r. split; [done|]. destruct r as [b2|].
    + destruct Hr as (j & c & ? & ? & ?). exists j, c. split; [lia|done].
    + destruct Hr as (-> & Hs' & Hno). split; [done|]. split.
      * by destruct n.
      * intros j c Hj Hc. destruct (decide (Z.of_nat j = i)).
        -- assert (j = Z.to_nat i) as -> by lia. simplify_eq. by rewrite Hqb.
        -- apply (Hno j c); [lia|done].
  - exists (<[Z.to_nat i := b']> l), s, (Some b'). split; [done|].
    exists (Z.to_nat i), b. split; [lia|]. done.
Qed.

(** ** Queries on the object *)

Definition query_of (bw : channel_width) : option (hal_csi_buf -> Z * hal_csi_buf) :=
  match bw with
  | CHANNEL_WIDTH_20 => Some query_avl_buf_idx_20
  | CHANNEL_WIDTH_40 => Some query_avl_buf_idx_40
  | CHANNEL_WIDTH_80 => Some query_avl_buf_idx_80
  | _ => None
  end.

Lemma query_of_grants bw q :
  query_of bw = Some q -> grants q bw (negb (bool_decide (bw = CHANNEL_WIDTH_40))).
Proof.
  destruct bw; intros [= <-]; cbn; auto using grants_20, grants_40, grants_80.
Qed.

Lemma with_buf_id o l : csi_buf o = Some l -> with_buf o l = o.
Proof. destruct o; unfold with_buf; cbn. by intros ->. Qed.

Lemma query_range_run o bw s e l q :
  csi_buf o = Some l -> query_of bw = Some q ->
  query_range o (bw2csi bw) s e =
    if e <=? s then Some (o, CSI_BUF_SUB_IDX_NON, None) else
    '(l', sub_id, b) ← scan_buf q (Z.to_nat (e - s)) s l CSI_BUF_SUB_IDX_NON;
    Some (with_buf o l', sub_id, b).
Proof. intros Hl. destruct bw; intros [= <-]; cbn; by rewrite ?Hl. Qed.

(** The buffers a request may use, and the request's type. *)
Definition lo (o : hal_csi_obj) (mu : Z) : Z := if mu =? 0 then 0 else max_csi_buf_nr_su o.
Definition hi (o : hal_csi_obj) (mu : Z) : Z :=
  if mu =? 0 then max_csi_buf_nr_su o else max_csi_buf_nr o.
Definition ty_of (mu : Z) : hal_csi_buf_type :=
  if mu =? 0 then HAL_CSI_BUF_TYPE_SU else HAL_CSI_BUF_TYPE_MU.

Definition granted (o : hal_csi_obj) (l : list hal_csi_buf) (mu : Z) (bw : channel_width)
    (o' : hal_csi_obj) (b' : hal_csi_buf) : Prop :=
  exists q j t t', query_of bw = Some q /\ lo o mu <= Z.of_nat j < hi o mu /\
    l !! j = Some t /\ q t = (sub_idx b', t') /\ sub_idx b' <> CSI_BUF_SUB_IDX_NON /\
    o' = with_buf o (<[j := t']> l) /\ idx b' = Z.of_nat j /\ type b' = ty_of mu.

Definition refused (o : hal_csi_obj) (l : list hal_csi_buf) (mu : Z)
    (bw : channel_width) : Prop :=
  forall q j t, query_of bw = Some q -> lo o mu <= Z.of_nat j < hi o mu ->
    l !! j = Some t -> (q t).1 = CSI_BUF_SUB_IDX_NON.

Lemma query_range_cases o l mu bw :
  wf o l ->
  exists o' s r, query_range o (bw2csi bw) (lo o mu) (hi o mu) = Some (o', s, r) /\
    match r with
    | None => o' = o /\ refused o l mu bw
    | Some t' => exists q j t, query_of bw = Some q /\ lo o mu <= Z.of_nat j < hi o mu /\
        l !! j = Some t /\ q t = (s, t') /\ s <> CSI_BUF_SUB_IDX_NON /\
        o' = with_buf o (<[j := t']> l)
    end.
Proof.
  intros [Hb Hlen Hsu Hmax Hbufs].
  destruct (query_of bw) as [q|] eqn:Hq; cycle 1.
  { exists o, CSI_BUF_SUB_IDX_NON, None. split; [by destruct bw|].
    split; [done|]. intros q j t Hq'. congruence. }
  rewrite (query_range_run o bw _ _ l q Hb Hq).
  destruct (Z.leb_spec (hi o mu) (lo o mu)).
  { exists o, CSI_BUF_SUB_IDX_NON, None. split; [done|]. split; [done|].
    intros q' j t _ ?. lia. }
  assert (0 <= lo o mu /\ hi o mu <= max_csi_buf_nr o)
    by (unfold lo, hi; destruct (mu =? 0); lia).
  destruct (scan_buf_spec q bw _ l (query_of_grants _ _ Hq)
              ltac:(intros i b Hi; apply (Hbufs i b Hi))
              (Z.to_nat (hi o mu - lo o mu)) (lo o mu) CSI_BUF_SUB_IDX_NON)
    as (l' & s & r & -> & Hr); [lia..|].
  exists (with_buf o l'), s, r. split; [done|]. destruct r as [t'|].
  - destruct Hr as (j & t & Hj & Ht & Hqt & Hs & ->).
    exists q, j, t. repeat split; [lia|lia|done..].
  - destruct Hr as (-> & _ & Hno). split; [by apply with_buf_id|].
    intros q' j t ? Hj Ht. simplify_eq. apply (Hno j t); [lia|done].
Qed.

Lemma query_idle_cases o l mu bw b0 :
  wf o l ->
  exists o' b' st,
    hal_csi_query_idle_csi_buf o mu bw (Some b0) = Some (o', Some b', st) /\
    ((st = RTW_HAL_STATUS_SUCCESS /\ granted o l mu bw o' b') \/
     (st = RTW_HAL_STATUS_RESOURCE /\ o' = o /\ b' = b0 /\ refused o l mu bw)).
Proof.
  intros Hwf. destruct (query_range_cases o l mu bw Hwf) as (o' & s & r & Hr & Hcase).
  assert (E : (match ty_of mu with
               | HAL_CSI_BUF_TYPE_SU => query_csi_buf_su o (bw2csi bw)
               | HAL_CSI_BUF_TYPE_MU => query_csi_buf_mu o (bw2csi bw)
               end) = Some (o', s, r)).
  { rewrite <- Hr. unfold ty_of, lo, hi. by destruct (mu =? 0). }
  unfold hal_csi_query_idle_csi_buf. fold (ty_of mu). rewrite E. cbn [mbind option_bind].
  destruct r as [t'|].
  - destruct Hcase as (q & j & t & Hq & Hj & Ht & Hqt & Hs & ->).
    destruct (Z.eqb_spec s CSI_BUF_SUB_IDX_NON); [done|].
    eexists _, _, _. split; [done|]. left. split; [done|].
    destruct Hwf as [? ? ? ? Hbufs]. destruct (Hbufs _ _ Ht) as (Hi & Hst & Hty).
    pose proof (query_of_grants _ _ Hq t Hst) as Hg. rewrite Hqt in Hg.
    destruct Hg as [_ Hg]. destruct (Hg Hs) as (Hi' & _ & Hsr & _).
    pose proof (lookup_lt_Some _ _ _ Ht).
    exists q, j, t, t'. cbn. unfold f_idx, f_sub_idx.
    rewrite (Z.mod_small s) by lia. rewrite Hi', Hi, Z.mod_small by lia.
    repeat split; done || lia.
  - destruct Hcase as [-> Href]. exists o, b0, RTW_HAL_STATUS_RESOURCE. split; [done|]. by right.
Qed.

Lemma refuses_20 t : 0 <= sub_idx t < 16 ->
  (query_avl_buf_idx_20 t).1 = CSI_BUF_SUB_IDX_NON <-> sub_idx t = 15.
Proof. cases16 t; vm_compute; done. Qed.
Lemma refuses_40 t : 0 <= sub_idx t < 16 ->
  (query_avl_buf_idx_40 t).1 <> CSI_BUF_SUB_IDX_NON.
Proof. cases16 t; vm_compute; done. Qed.
Lemma refuses_80 t : 0 <= sub_idx t < 16 ->
  (query_avl_buf_idx_80 t).1 = CSI_BUF_SUB_IDX_NON <-> sub_idx t <> 0.
Proof. cases16 t; vm_compute; done. Qed.

(** Replacing a buffer by one with the same index and type. *)
Lemma wf_insert o l j t t' :
  wf o l -> l !! j = Some t -> idx t' = idx t -> type t' = type t ->
  0 <= sub_idx t' < 16 -> wf (with_buf o (<[j := t']> l)) (<[j := t']> l).
Proof.
  intros [Hb Hlen Hsu Hmax Hbufs] Ht Hi Hty Hs. split; cbn; [done| |done..|].
  - by rewrite length_insert.
  - intros i b. rewrite list_lookup_insert_Some. intros [(-> & <- & _)|[_ Hl]].
    + destruct (Hbufs _ _ Ht) as (? & _ & ?). unfold buf_wf. by rewrite Hi, Hty.
    + by apply Hbufs.
Qed.

Lemma granted_inv o l mu bw o' b' :
  wf o l -> granted o l mu bw o' b' ->
  exists j t t', lo o mu <= Z.of_nat j < hi o mu /\ l !! j = Some t /\
    idx b' = Z.of_nat j /\ idx b' < max_csi_buf_nr o /\ type b' = ty_of mu /\
    sub_idx b' <> CSI_BUF_SUB_IDX_NON /\ rtw_hal_get_csi_buf_bw b' = bw /\
    o' = with_buf o (<[j := t']> l) /\ wf o' (<[j := t']> l) /\
    0 <= sub_idx t < 16 /\ idx t' = idx t /\ type t' = type t /\
    sub_idx t' = Z.lor (sub_idx t) (lease_mask (sub_idx b')) /\
    (bw <> CHANNEL_WIDTH_40 -> Z.land (sub_idx t) (lease_mask (sub_idx b')) = 0).
Proof.
  intros Hwf (q & j & t & t' & Hq & Hj & Ht & Hqt & Hs & -> & Hi & Hty).
  destruct (wf_bufs _ _ Hwf _ _ Ht) as (Hit & Hst & _).
  pose proof (query_of_grants _ _ Hq t Hst) as Hg. rewrite Hqt in Hg.
  destruct Hg as [_ Hg]. destruct (Hg Hs) as (? & ? & Hr & ? & ? & Hex & _ & Hbw).
  pose proof (lookup_lt_Some _ _ _ Ht). pose proof (wf_len _ _ Hwf).
  assert (wf (with_buf o (<[j := t']> l)) (<[j := t']> l)) by (eapply wf_insert; eauto).
  assert (rtw_hal_get_csi_buf_bw b' = bw).
  { specialize (Hbw b'). revert Hbw. destruct b' as [s i ty]. cbn in *.
    unfold set_sub_idx, f_sub_idx, rtw_hal_get_csi_buf_bw. cbn.
    by rewrite Z.mod_small by lia. }
  exists j, t, t'. do 13 (split; [done || lia|]).
  intros. apply Hex. destruct bw; done.
Qed.

(** ** The lease invariant *)

Definition accounted (l : list hal_csi_buf) (L : list hal_csi_buf) : Prop :=
  forall j t k, l !! j = Some t -> 0 <= k ->
    holders (Z.of_nat j) k L = Z.b2z (Z.testbit (sub_idx t) k).

Lemma holders_app i k L1 L2 : holders i k (L1 ++ L2) = holders i k L1 + holders i k L2.
Proof. induction L1 as [|b L1 IH]; cbn; [done|]. rewrite IH. lia. Qed.

Lemma holders_nonneg i k L : 0 <= holders i k L.
Proof. induction L; cbn; [done|]. destruct (holds _ _ _); cbn; lia. Qed.

Lemma accounted_grant l L j t t' b :
  accounted l L -> l !! j = Some t -> idx b = Z.of_nat j ->
  sub_idx t' = Z.lor (sub_idx t) (lease_mask (sub_idx b)) ->
  Z.land (sub_idx t) (lease_mask (sub_idx b)) = 0 ->
  accounted (<[j := t']> l) (b :: L).
Proof.
  intros Hacc Ht Hi Hor Hand j' t1 k Hl Hk. cbn. unfold holds. rewrite Hi.
  apply list_lookup_insert_Some in Hl as [(<- & <- & _)|[Hne Hl]].
  - rewrite Z.eqb_refl, Hor, Z.lor_spec, (Hacc _ _ _ Ht Hk). cbn.
    assert (E : Z.testbit (Z.land (sub_idx t) (lease_mask (sub_idx b))) k = false)
      by by rewrite Hand, Z.bits_0.
    rewrite Z.land_spec in E. by destruct (Z.testbit (sub_idx t) k), (Z.testbit _ k).
  - destruct (Z.eqb_spec (Z.of_nat j) (Z.of_nat j')); [lia|]. cbn. by apply Hacc.
Qed.

Lemma accounted_release l L1 b L2 j t :
  accounted l (L1 ++ b :: L2) -> l !! j = Some t -> idx b = Z.of_nat j ->
  0 <= sub_idx t < 16 ->
  accounted (<[j := release_sub t (sub_idx b)]> l) (L1 ++ L2).
Proof.
  intros Hacc Ht Hi Hst j' t1 k Hl Hk.
  apply list_lookup_insert_Some in Hl as [(<- & <- & _)|[Hne Hl]].
  - destruct (release_sub_bits t (sub_idx b) Hst) as (_ & _ & -> & _).
    pose proof (Hacc _ _ _ Ht Hk) as E. rewrite holders_app in E |- *. cbn in E.
    unfold holds in E. rewrite Hi, Z.eqb_refl in E. rewrite Z.ldiff_spec.
    pose proof (holders_nonneg (Z.of_nat j) k L1). pose proof (holders_nonneg (Z.of_nat j) k L2).
    destruct (Z.testbit (sub_idx t) k), (Z.testbit (lease_mask _) k); cbn in *; lia.
  - pose proof (Hacc _ _ _ Hl Hk) as E. rewrite holders_app in E |- *. cbn in E.
    unfold holds in E. destruct (Z.eqb_spec (idx b) (Z.of_nat j')); [lia|]. cbn in E. lia.
Qed.

Lemma lstep_inv o l L o' L' :
  wf o l -> accounted l L -> lstep (fun bw => bw <> CHANNEL_WIDTH_40) (o, L) (o', L') ->
  exists l', wf o' l' /\ accounted l' L'.
Proof.
  intros Hwf Hacc Hstep. inversion Hstep as [? ? mu bw b0 ? b' Hbw Hq|? ? mu bw [b0|] ? b' st Hbw Hq Hst|? L1 b L2 ? b' Hr]; subst.
  - destruct (query_idle_cases o l mu bw b0 Hwf) as (o1 & b1 & st & Hq' & Hc).
    rewrite Hq in Hq'. injection Hq' as <- <- <-. destruct Hc as [[_ Hg]|[Hc _]]; [|done].
    destruct (granted_inv _ _ _ _ _ _ Hwf Hg)
      as (j & t & t' & Hj & Ht & Hi & Hm & Hty & Hs & Hb & -> & Hwf' & Hst & Hi' & Hty' & Hor & Hand).
    exists (<[j := t']> l). split; [done|]. eapply accounted_grant; eauto.
  - destruct (query_idle_cases o l mu bw b0 Hwf) as (o1 & b1 & st1 & Hq' & Hc).
    rewrite Hq in Hq'. injection Hq' as <- -> <-. destruct Hc as [[-> _]|(_ & -> & _)]; [done|].
    eauto.
  - cbn in Hq. injection Hq as <- <- <-. eauto.
  - unfold hal_csi_release_csi_buf in Hr. destruct (idx b <? max_csi_buf_nr o); [|done].
    rewrite (wf_buf _ _ Hwf) in Hr. cbn [mbind option_bind] in Hr.
    destruct (rd l (idx b)) as [t|] eqn:Hrd; [|done]. cbn [mbind option_bind] in Hr.
    pose proof (rd_inv _ _ _ Hrd) as Hlt. rewrite rd_lookup in Hrd by lia.
    rewrite wr_some in Hr by done. cbn [mbind option_bind] in Hr. injection Hr as <- <-.
    assert (Hst : 0 <= sub_idx t < 16) by apply (wf_bufs _ _ Hwf _ _ Hrd).
    destruct (release_sub_bits t (sub_idx b) Hst) as (? & ? & _ & ?).
    eexists. split; [by eapply wf_insert|]. apply accounted_release; [done|done|lia|done].
Qed.

(** ** The properties *)

(** A query on a well-formed object always returns.  It either grants a
    part of a buffer of the requested kind, whose width and type the caller
    reads back from its word and which leaves the object well-formed; or it
    reports a lack of resources, changes nothing, and every buffer of that
    kind is full (20 MHz), in use (80 MHz), there is none (40 MHz) or the
    width has no buffers. *)
Theorem query_idle_spec o l mu bw b0 (Hwf : wf o l) :
  exists o' b' st,
    hal_csi_query_idle_csi_buf o mu bw (Some b0) = Some (o', Some b', st) /\
    ((st = RTW_HAL_STATUS_SUCCESS /\ (exists l', wf o' l') /\
      hal_is_csi_buf_valid o' b' = true /\ rtw_hal_get_csi_buf_bw b' = bw /\
      rtw_hal_get_csi_buf_type (Some b') = negb (mu =? 0) /\
      lo o mu <= idx b' < hi o mu) \/
     (st = RTW_HAL_STATUS_RESOURCE /\ o' = o /\ b' = b0 /\
      match bw with
      | CHANNEL_WIDTH_20 => forall j t, lo o mu <= Z.of_nat j < hi o mu ->
          l !! j = Some t -> sub_idx t = 15
      | CHANNEL_WIDTH_40 => hi o mu <= lo o mu
      | CHANNEL_WIDTH_80 => forall j t, lo o mu <= Z.of_nat j < hi o mu ->
          l !! j = Some t -> sub_idx t <> 0
      | _ => True
      end)).
Proof.
  destruct (query_idle_cases o l mu bw b0 Hwf) as (o' & b' & st & -> & [(-> & Hg)|(-> & -> & -> & Hr)]).
  - destruct (granted_inv _ _ _ _ _ _ Hwf Hg)
      as (j & t & t' & Hj & Ht & Hi & Hm & Hty & Hs & Hbw & -> & Hwf' & _).
    eexists _, _, _. split; [done|]. left. split; [done|]. split; [eauto|].
    split; [|split; [done|split; [|lia]]].
    + unfold hal_is_csi_buf_valid. cbn.
      destruct (Z.leb_spec (max_csi_buf_nr o) (idx b')); [lia|].
      by destruct (Z.eqb_spec (sub_idx b') CSI_BUF_SUB_IDX_NON).
    + cbn. rewrite Hty. unfold ty_of. by destruct (mu =? 0).
  - exists o, b0, RTW_HAL_STATUS_RESOURCE. split; [done|]. right. do 3 (split; [done|]).
    assert (Hrange : forall j t, l !! j = Some t -> 0 <= sub_idx t < 16)
      by (intros j t Ht; apply (wf_bufs _ _ Hwf _ _ Ht)).
    destruct bw; try done.
    + intros j t Hj Ht. apply (refuses_20 t); [by eapply Hrange|by eapply Hr].
    + destruct (Z.le_gt_cases (hi o mu) (lo o mu)) as [|Hlt]; [done|exfalso].
      assert (Hin : exists t, l !! Z.to_nat (lo o mu) = Some t).
      { apply lookup_lt_is_Some_2. destruct Hwf as [? Hlen ? ? ?]. revert Hlt.
        unfold lo, hi. destruct (mu =? 0); lia. }
      destruct Hin as [t Ht]. apply (refuses_40 t); [by eapply Hrange|].
      eapply Hr; [done| |done]. destruct Hwf as [? ? ? ? ?].
      assert (0 <= lo o mu) by (unfold lo; destruct (mu =? 0); lia). lia.
    + intros j t Hj Ht. apply (refuses_80 t); [by eapply Hrange|by eapply Hr].
Qed.

(** Releasing a 20 or 80 MHz grant gives back the object as it was before
    the query, and marks the caller's word as holding nothing. *)
Theorem query_release_roundtrip o l mu bw b0 o' b' (Hwf : wf o l)
    (Hbw : bw <> CHANNEL_WIDTH_40)
    (Hq : hal_csi_query_idle_csi_buf o mu bw (Some b0)
          = Some (o', Some b', RTW_HAL_STATUS_SUCCESS)) :
  exists b'', hal_csi_release_csi_buf o' (Some b') = Some (o, Some b'', RTW_HAL_STATUS_SUCCESS)
    /\ hal_is_csi_buf_valid o b'' = false.
Proof.
  destruct (query_idle_cases o l mu bw b0 Hwf) as (o1 & b1 & st & Hq' & Hc).
  rewrite Hq in Hq'. injection Hq' as <- <- <-. destruct Hc as [[_ Hg]|[Hc _]]; [|done].
  destruct (granted_inv _ _ _ _ _ _ Hwf Hg)
    as (j & t & t' & Hj & Ht & Hi & Hm & Hty & Hs & Hb & -> & Hwf' & Hst & Hi' & Hty' & Hor & Hand).
  specialize (Hand Hbw). pose proof (lookup_lt_Some _ _ _ Ht) as Hlt.
  assert (Hst' : 0 <= sub_idx t' < 16).
  { apply (wf_bufs _ _ Hwf' j t'). by rewrite list_lookup_insert_eq. }
  destruct (release_sub_bits t' (sub_idx b') Hst') as (Hri & Hrt & Hrs & _).
  assert (Hback : release_sub t' (sub_idx b') = t).
  { assert (Hld : Z.ldiff (sub_idx t') (lease_mask (sub_idx b')) = sub_idx t).
    { rewrite Hor. apply Z.bits_inj. intros n. rewrite Z.ldiff_spec, Z.lor_spec.
      assert (E : Z.testbit (Z.land (sub_idx t) (lease_mask (sub_idx b'))) n = false)
        by by rewrite Hand, Z.bits_0.
      rewrite Z.land_spec in E. by destruct (Z.testbit (sub_idx t) n), (Z.testbit _ n). }
    rewrite Hld in Hrs. destruct (release_sub t' (sub_idx b')), t; cbn in *; congruence. }
  unfold hal_csi_release_csi_buf. cbn [max_csi_buf_nr with_buf csi_buf].
  destruct (Z.ltb_spec (idx b') (max_csi_buf_nr o)) as [_|]; [|lia].
  cbn [mbind option_bind]. rewrite Hi, rd_lookup by lia. rewrite Nat2Z.id.
  rewrite list_lookup_insert_eq by done. cbn [mbind option_bind].
  rewrite Hback, wr_some by (rewrite length_insert; lia). cbn [mbind option_bind].
  rewrite Nat2Z.id, list_insert_insert_eq. rewrite (list_insert_id l j t Ht).
  replace (with_buf (with_buf o (<[j := t']> l)) l) with (with_buf o l) by done.
  rewrite with_buf_id by apply Hwf.
  eexists. split; [done|]. unfold hal_is_csi_buf_valid. cbn.
  by destruct (_ <=? _).
Qed.

(** C23: Starting from an object with no part in use, in every sequence of
    queries for 20 or 80 MHz and releases of held words, no part of a buffer
    is ever held by two words, and a busy bit is set exactly while a word
    holds its part. *)
Theorem leases_exclusive o l o' L (Hwf : wf o l)
    (Hidle : forall j t, l !! j = Some t -> sub_idx t = 0)
    (Hrun : rtc (lstep (fun bw => bw <> CHANNEL_WIDTH_40)) (o, []) (o', L)) :
  exists l', wf o' l' /\
    forall j t k, l' !! j = Some t -> 0 <= k ->
      holders (Z.of_nat j) k L = Z.b2z (Z.testbit (sub_idx t) k) /\
      holders (Z.of_nat j) k L <= 1.
Proof.
  assert (H : exists l', wf o' l' /\ accounted l' L).
  { assert (Hacc : accounted l []).
    { intros j t k Hl _. by rewrite (Hidle _ _ Hl), Z.bits_0. }
    clear Hidle. change o with ((o, @nil hal_csi_buf)).1 in Hwf.
    change [] with ((o, @nil hal_csi_buf)).2 in Hacc.
    change (wf (o', L).1) with (wf o'). remember (o, @nil hal_csi_buf) as c eqn:Ec.
    remember (o', L) as c' eqn:Ec'. clear Ec. revert l Hwf Hacc o' L Ec'.
    induction Hrun as [c|c c1 c2 Hs _ IH]; intros l Hwf Hacc ? ? Ec'.
    - subst c. eauto.
    - destruct c as [? ?], c1 as [o1 L1]. cbn in *.
      destruct (lstep_inv _ _ _ _ _ Hwf Hacc Hs) as (l1 & ? & ?). eauto. }
  destruct H as (l' & ? & Hacc). exists l'. split; [done|]. intros j t k Hl Hk.
  rewrite (Hacc _ _ _ Hl Hk). split; [done|]. by destruct (Z.testbit _ _).
Qed.

(** A request for 40 MHz is never refused while there is a buffer of the
    kind: the test of the upper half compares with the wrong bits, so parts
    in use are handed out again. *)
Theorem query_40_never_refused o l mu b0 (Hwf : wf o l) (Hsome : lo o mu < hi o mu) :
  exists o' b', hal_csi_query_idle_csi_buf o mu CHANNEL_WIDTH_40 (Some b0)
    = Some (o', Some b', RTW_HAL_STATUS_SUCCESS).
Proof.
  destruct (query_idle_cases o l mu CHANNEL_WIDTH_40 b0 Hwf)
    as (o' & b' & st & Hq & [[-> _]|(_ & _ & _ & Hr)]); [eauto|exfalso].
  assert (0 <= lo o mu /\ hi o mu <= max_csi_buf_nr o).
  { destruct Hwf as [_ _ ? _ _]. unfold lo, hi. destruct (mu =? 0); lia. }
  destruct (lookup_lt_is_Some_2 l (Z.to_nat (lo o mu))) as [t Ht].
  { destruct Hwf as [_ Hlen _ _ _]. lia. }
  apply (refuses_40 t); [apply (wf_bufs _ _ Hwf _ _ Ht)|].
  eapply (Hr _ (Z.to_nat (lo o mu)) t); [done|lia|done].
Qed.

(** ** Initialisation *)

Lemma mark_mu_spec n i l :
  0 <= i -> i + Z.of_nat n <= Z.of_nat (length l) ->
  exists l', mark_mu n i l = Some l' /\ length l' = length l /\
    forall j b, l' !! j = Some b -> exists b0, l !! j = Some b0 /\
      b = if decide (i <= Z.of_nat j < i + Z.of_nat n)
          then set_type b0 HAL_CSI_BUF_TYPE_MU else b0.
Proof.
  revert i l. induction n as [|n IH]; intros i l Hi Hn; cbn.
  { exists l. split; [done|]. split; [done|]. intros j b Hb. exists b. split; [done|].
    by rewrite decide_False by lia. }
  destruct (rd_some l i) as [b Hb]; [lia|]. rewrite Hb. cbn.
  rewrite wr_some by lia. cbn. rewrite rd_lookup in Hb by lia.
  destruct (IH (i + 1) (<[Z.to_nat i := set_type b HAL_CSI_BUF_TYPE_MU]> l))
    as (l' & -> & Hlen & Hl'); [lia|rewrite length_insert; lia|].
  exists l'. rewrite Hlen, length_insert. split; [done|]. split; [done|].
  intros j c Hc. destruct (Hl' _ _ Hc) as (c0 & Hc0 & ->).
  apply list_lookup_insert_Some in Hc0 as [(<- & <- & _)|[Hne Hl]].
  - exists b. split; [done|]. rewrite decide_False, decide_True by lia. done.
  - exists c0. split; [done|]. destruct (decide (i + 1 <= Z.of_nat j < i + 1 + Z.of_nat n)).
    + by rewrite decide_True by lia.
    + by rewrite decide_False by lia.
Qed.

(** With memory for both allocations and 1 to 32 buffers in total,
    initialisation builds a well-formed object with every part idle. *)
Theorem hal_csi_init_ok obj su mu (Hsu : 0 <= su) (Hmu : 0 <= mu) (Hn : 1 <= su + mu <= 32) :
  exists o l, hal_csi_init obj su mu true true = Some (Some o, RTW_HAL_STATUS_SUCCESS) /\
    wf o l /\ max_csi_buf_nr_su o = su /\ max_csi_buf_nr o = su + mu /\
    forall j t, l !! j = Some t -> sub_idx t = 0.
Proof.
  unfold hal_csi_init. cbn [negb]. destruct (Z.eqb_spec (su + mu) 0); [lia|].
  unfold hal_csi_init_buf. cbn [negb mbind option_bind csi_buf with_buf].
  rewrite (Z.add_comm mu su), u8_id by (unfold is_u8; lia).
  set (l0 := (fun i => set_sub_idx (set_idx zero_buf i) 0) <$> seqZ 0 (su + mu)).
  assert (Hlen0 : Z.of_nat (length l0) = su + mu)
    by (unfold l0; rewrite length_fmap, length_seqZ; lia).
  assert (H0 : forall j b, l0 !! j = Some b -> idx b = Z.of_nat j /\ sub_idx b = 0 /\
             type b = HAL_CSI_BUF_TYPE_SU /\ Z.of_nat j < su + mu).
  { intros j b. unfold l0. rewrite list_lookup_fmap. intros (i & Hi & ->)%fmap_Some.
    apply lookup_seqZ in Hi as [-> ?]. cbn. unfold f_idx, f_sub_idx.
    rewrite Z.mod_small by lia. repeat split; lia. }
  destruct (Z.leb_spec (su + mu) su).
  - eexists _, l0. split; [done|]. split; [|split; [done|split; [cbn; lia|]]].
    + split; cbn; try done; try lia. intros i b Hb.
      destruct (H0 _ _ Hb) as (? & E & Et & ?). unfold buf_wf. rewrite E, Et.
      split; [done|]. split; [lia|]. split; [done|lia].
    + intros j t Ht. by destruct (H0 _ _ Ht) as (? & ? & ? & ?).
  - destruct (mark_mu_spec (Z.to_nat (su + mu - su)) su l0) as (l' & -> & Hlen & Hl'); [lia..|].
    cbn [mbind option_bind].
    assert (Hb : forall i b, l' !! i = Some b -> buf_wf su (Z.of_nat i) b /\ sub_idx b = 0).
    { intros j b Hb. destruct (Hl' _ _ Hb) as (b0 & Hb0 & ->).
      destruct (H0 _ _ Hb0) as (? & E & Et & ?). unfold buf_wf.
      destruct (decide _) as [|Hno]; cbn; rewrite E.
      - split; [|done]. split; [done|]. split; [lia|]. split; [lia|done].
      - rewrite Et. split; [|done]. split; [done|]. split; [lia|]. split; [done|lia]. }
    eexists _, l'. split; [done|]. split; [|split; [done|split; [cbn; lia|]]].
    + split; cbn; try done; try lia. intros i b Hi. by apply Hb.
    + intros j t Ht. by apply (Hb j).
Qed.

(** Without memory for the object (none existing before) or for the
    buffers, initialisation dereferences a null pointer instead of reporting
    the lack of memory. *)
Theorem hal_csi_init_no_memory su mu (Hsu : 0 <= su) (Hmu : 0 <= mu) (Hn : 1 <= su + mu <= 255)
    buf_ok obj :
  hal_csi_init None su mu false buf_ok = None /\
  hal_csi_init obj su mu true false = None.
Proof.
  split; [done|]. unfold hal_csi_init. cbn [negb].
  destruct (Z.eqb_spec (su + mu) 0); [lia|]. unfold hal_csi_init_buf. cbn [negb].
  rewrite !u8_id by (unfold is_u8; lia). destruct (Z.eqb_spec (mu + su) 0); [lia|done].
Qed.

(** ** Concrete inputs *)

Definition demo_bufs (s0 s1 : Z) : list hal_csi_buf :=
  [mk_csi_buf s0 0 HAL_CSI_BUF_TYPE_SU; mk_csi_buf s1 1 HAL_CSI_BUF_TYPE_MU].
Definition demo (s0 s1 : Z) : hal_csi_obj := mk_csi_obj 2 1 1 (Some (demo_bufs s0 s1)).

Lemma demo_wf s0 s1 : 0 <= s0 < 16 -> 0 <= s1 < 16 -> wf (demo s0 s1) (demo_bufs s0 s1).
Proof.
  intros. split; cbn; try done; try lia.
  intros [|[|i]] b [= <-]; cbn; (split; [done|split; [done|cbn; intuition (done || lia)]]).
Qed.

Lemma query_idle_spec_witness :
  exists o' b', hal_csi_query_idle_csi_buf (demo 7 0) 0 CHANNEL_WIDTH_20 (Some zero_buf)
    = Some (o', Some b', RTW_HAL_STATUS_SUCCESS) /\
    rtw_hal_get_csi_buf_bw b' = CHANNEL_WIDTH_20.
Proof.
  destruct (query_idle_spec (demo 7 0) (demo_bufs 7 0) 0 CHANNEL_WIDTH_20 zero_buf
              (demo_wf 7 0 ltac:(lia) ltac:(lia)))
    as (o' & b' & st & Hq & [(-> & _ & _ & Hb & _)|(_ & _ & _ & Hr)]).
  - eauto.
  - exfalso. specialize (Hr 0%nat (mk_csi_buf 7 0 HAL_CSI_BUF_TYPE_SU)).
    cbn in Hr. discriminate Hr; [lia|done].
Defined.

Lemma query_release_roundtrip_witness :
  exists o' b' b'', hal_csi_query_idle_csi_buf (demo 5 0) 0 CHANNEL_WIDTH_20 (Some zero_buf)
      = Some (o', Some b', RTW_HAL_STATUS_SUCCESS) /\
    hal_csi_release_csi_buf o' (Some b') = Some (demo 5 0, Some b'', RTW_HAL_STATUS_SUCCESS).
Proof.
  eexists _, _.
  destruct (query_release_roundtrip (demo 5 0) (demo_bufs 5 0) 0 CHANNEL_WIDTH_20 zero_buf _ _
              (demo_wf 5 0 ltac:(lia) ltac:(lia)) ltac:(done) eq_refl) as (b'' & Hr & _).
  exists b''. split; [reflexivity|exact Hr].
Defined.

Lemma leases_exclusive_witness :
  exists o' L, length L = 3%nat /\ (exists l', wf o' l' /\
    forall j t k, l' !! j = Some t -> 0 <= k ->
      holders (Z.of_nat j) k L = Z.b2z (Z.testbit (sub_idx t) k) /\
      holders (Z.of_nat j) k L <= 1).
Proof.
  eexists _, _. split; cycle 1.
  - apply (leases_exclusive (demo 0 0) (demo_bufs 0 0)).
    + apply demo_wf; lia.
    + intros [|[|j]] t [= <-]; reflexivity.
    + eapply rtc_l; [apply (lstep_grant _ _ _ 0 CHANNEL_WIDTH_20 zero_buf); [done|reflexivity]|].
      eapply rtc_l; [apply (lstep_grant _ _ _ 0 CHANNEL_WIDTH_20 zero_buf); [done|reflexivity]|].
      eapply rtc_l; [apply (lstep_grant _ _ _ 1 CHANNEL_WIDTH_80 zero_buf); [done|reflexivity]|].
      eapply rtc_l; [eapply (lstep_release _ _ [mk_csi_buf 0 1 HAL_CSI_BUF_TYPE_MU] _ [mk_csi_buf 16 0 HAL_CSI_BUF_TYPE_SU]); reflexivity|].
      eapply rtc_l; [apply (lstep_grant _ _ _ 0 CHANNEL_WIDTH_20 zero_buf); [done|reflexivity]|].
      apply rtc_refl.
  - reflexivity.
Defined.

(** A buffer that is wholly in use is granted again. *)
Lemma query_40_never_refused_witness :
  exists o' b', hal_csi_query_idle_csi_buf (demo 15 0) 0 CHANNEL_WIDTH_40 (Some zero_buf)
    = Some (o', Some b', RTW_HAL_STATUS_SUCCESS).
Proof.
  apply (query_40_never_refused (demo 15 0) (demo_bufs 15 0) 0 zero_buf).
  - apply demo_wf; lia.
  - cbn. lia.
Defined.

Lemma hal_csi_init_ok_witness :
  exists o l, hal_csi_init None 2 1 true true = Some (Some o, RTW_HAL_STATUS_SUCCESS) /\
    wf o l /\ max_csi_buf_nr_su o = 2 /\ max_csi_buf_nr o = 2 + 1 /\
    forall j t, l !! j = Some t -> sub_idx t = 0.
Proof. apply (hal_csi_init_ok None 2 1); lia. Defined.

Lemma hal_csi_init_no_memory_witness :
  hal_csi_init None 2 1 false true = None /\ hal_csi_init None 2 1 true false = None.
Proof. apply (hal_csi_init_no_memory 2 1 ltac:(lia) ltac:(lia) ltac:(lia) true None). Defined.

(** Two 20 MHz words do not overlap, a 40 MHz word overlaps the one before:
    the part of the lower 20 MHz is held twice. *)
Example overlap_40_over_20 :
  let '(o1, b1) := match hal_csi_query_idle_csi_buf (demo 0 0) 0 CHANNEL_WIDTH_20 (Some zero_buf) with
                   | Some (o, Some b, _) => (o, b) | _ => (demo 0 0, zero_buf) end in
  let '(o2, b2) := match hal_csi_query_idle_csi_buf o1 0 CHANNEL_WIDTH_40 (Some zero_buf) with
                   | Some (o, Some b, _) => (o, b) | _ => (demo 0 0, zero_buf) end in
  holders 0 0 [b1; b2] = 2.
Proof. reflexivity. Qed.
End CsiBuf.
