(* ===== verification/Bitmap.v ===== *)
(** * Bitmaps

    The driver keeps its tables of used hardware entries in bitmaps: an array
    of 32-bit words for the MAC ids (phl/phl_sta.c) and a single word for the
    security CAM (core/rtw_sec_cam.c).  [Bitmap] is what their clients call,
    [BitmapLaws] what they rely on; both implementations are proved here to
    obey the laws. *)

From S2P Require Import Prelude.

(** The three operations; [None] is an access outside of the map. *)
Class Bitmap (M : Type) := {
  bm_test : M -> Z -> option bool;
  bm_set : M -> Z -> option M;
  bm_clr : M -> Z -> option M
}.

(** [bits m] is the set the map stands for, [bm_cap] the number of entries,
    [bm_ok] the maps that have the size and words of the declaration. *)
Class BitmapLaws (M : Type) `{Bitmap M} := {
  bits : M -> Z -> bool;
  bm_cap : Z;
  bm_ok : M -> Prop;
  bm_test_ok m i : bm_ok m -> 0 <= i < bm_cap -> bm_test m i = Some (bits m i);
  bm_set_ok m i : bm_ok m -> 0 <= i < bm_cap ->
    exists m', bm_set m i = Some m' /\ bm_ok m' /\
      forall j, 0 <= j < bm_cap -> bits m' j = (j =? i) || bits m j;
  bm_clr_ok m i : bm_ok m -> 0 <= i < bm_cap ->
    exists m', bm_clr m i = Some m' /\ bm_ok m' /\
      forall j, 0 <= j < bm_cap -> bits m' j = negb (j =? i) && bits m j
}.

(** ** One word *)

(** [w & BIT(n)] as a truth value. *)
Definition word_test (w n : Z) : bool := negb (Z.land w (BIT n) =? 0).
Definition word_set (w n : Z) : Z := Z.lor w (BIT n).
Definition word_clr (w n : Z) : Z := Z.land w (Z.lnot (BIT n)).

Lemma BIT_bit n k : 0 <= n -> 0 <= k -> Z.testbit (BIT n) k = (n =? k).
Proof.
  intros. unfold BIT. rewrite Z.shiftl_1_l, Z.pow2_bits_eqb by done. done.
Qed.

Lemma word_test_spec w n : 0 <= n -> word_test w n = Z.testbit w n.
Proof.
  intros Hn. unfold word_test. destruct (Z.testbit w n) eqn:E.
  - destruct (Z.eqb_spec (Z.land w (BIT n)) 0) as [H0|]; [|done].
    apply (f_equal (fun z => Z.testbit z n)) in H0.
    rewrite Z.land_spec, BIT_bit, E, Z.eqb_refl, Z.bits_0 in H0 by done. done.
  - destruct (Z.eqb_spec (Z.land w (BIT n)) 0) as [|H0]; [done|]. exfalso. apply H0.
    apply Z.bits_inj'. intros k Hk. rewrite Z.land_spec, BIT_bit, Z.bits_0 by done.
    destruct (Z.eqb_spec n k) as [->|]; [by rewrite E|by rewrite andb_false_r].
Qed.

Lemma word_set_spec w n k : 0 <= n -> 0 <= k ->
  Z.testbit (word_set w n) k = (k =? n) || Z.testbit w k.
Proof.
  intros. unfold word_set. rewrite Z.lor_spec, BIT_bit, (Z.eqb_sym n k) by done.
  apply orb_comm.
Qed.

Lemma word_clr_spec w n k : 0 <= n -> 0 <= k ->
  Z.testbit (word_clr w n) k = negb (k =? n) && Z.testbit w k.
Proof.
  intros. unfold word_clr. rewrite Z.land_spec, Z.lnot_spec, BIT_bit, (Z.eqb_sym n k) by done.
  apply andb_comm.
Qed.

(** A word stays a 32-bit word. *)
Lemma is_u32_bits w : is_u32 w <-> 0 <= w /\ forall k, 32 <= k -> Z.testbit w k = false.
Proof.
  unfold is_u32. split.
  - intros [H0 H]. split; [done|]. intros k Hk. destruct (decide (w = 0)) as [->|].
    { apply Z.bits_0. }
    apply Z.bits_above_log2; [done|]. apply Z.log2_lt_pow2; [lia|].
    apply Z.lt_le_trans with (2 ^ 32); [done|]. apply Z.pow_le_mono_r; lia.
  - intros [H0 H]. split; [done|]. change 4294967296 with (2 ^ 32).
    destruct (decide (w = 0)) as [->|]; [done|]. apply Z.log2_lt_pow2; [lia|].
    destruct (Z.lt_ge_cases (Z.log2 w) 32) as [|Hge]; [done|].
    specialize (H _ Hge). rewrite Z.bit_log2 in H by lia. done.
Qed.

Lemma word_set_u32 w n : is_u32 w -> 0 <= n < 32 -> is_u32 (word_set w n).
Proof.
  intros [H0 H]%is_u32_bits Hn. apply is_u32_bits. split.
  - apply Z.lor_nonneg. split; [done|]. unfold BIT. by apply Z.shiftl_nonneg.
  - intros k Hk. rewrite word_set_spec, H by lia. destruct (Z.eqb_spec k n); [lia|done].
Qed.

Lemma word_clr_u32 w n : is_u32 w -> 0 <= n < 32 -> is_u32 (word_clr w n).
Proof.
  intros [H0 H]%is_u32_bits Hn. apply is_u32_bits. split.
  - apply Z.land_nonneg. by left.
  - intros k Hk. rewrite word_clr_spec, H by lia. apply andb_false_r.
Qed.

(** ** Arrays of words *)

Section words.
Variable nwords : nat.

Definition words_ok (m : list Z) : Prop := length m = nwords /\ Forall is_u32 m.
Definition words_bits (m : list Z) (i : Z) : bool :=
  Z.testbit (nth (Z.to_nat (i / 32)) m 0) (i mod 32).

Definition words_test (m : list Z) (i : Z) : option bool :=
  w ← rd m (i / 32); Some (word_test w (i mod 32)).
Definition words_set (m : list Z) (i : Z) : option (list Z) :=
  w ← rd m (i / 32); wr m (i / 32) (word_set w (i mod 32)).
Definition words_clr (m : list Z) (i : Z) : option (list Z) :=
  w ← rd m (i / 32); wr m (i / 32) (word_clr w (i mod 32)).

Lemma words_rd m i :
  words_ok m -> 0 <= i < 32 * Z.of_nat nwords ->
  exists w, rd m (i / 32) = Some w /\ is_u32 w /\ nth (Z.to_nat (i / 32)) m 0 = w /\
    m !! Z.to_nat (i / 32) = Some w /\ 0 <= i / 32 < Z.of_nat (length m).
Proof.
  intros [Hl Hw] Hi. assert (0 <= i / 32 < Z.of_nat (length m)) by dlia.
  destruct (rd_some m (i / 32)) as [w Hr]; [done|].
  exists w. split; [done|]. rewrite rd_lookup in Hr by lia.
  split; [by eapply Forall_lookup_1|]. split; [|done].
  rewrite nth_lookup, Hr. done.
Qed.

Lemma words_bits_insert m i w j :
  words_ok m -> 0 <= i < 32 * Z.of_nat nwords -> 0 <= j < 32 * Z.of_nat nwords ->
  words_bits (<[Z.to_nat (i / 32) := w]> m) j =
    if j / 32 =? i / 32 then Z.testbit w (j mod 32) else words_bits m j.
Proof.
  intros Hok Hi Hj. destruct (words_rd m i Hok Hi) as (w0 & _ & _ & _ & _ & ?).
  unfold words_bits. rewrite !nth_lookup. destruct (Z.eqb_spec (j / 32) (i / 32)) as [->|].
  - rewrite list_lookup_insert_eq by lia. done.
  - rewrite list_lookup_insert_ne by dlia. done.
Qed.

Lemma words_ok_insert m i w :
  words_ok m -> is_u32 w -> words_ok (<[i := w]> m).
Proof.
  intros [Hl Hw] Hu. split; [by rewrite length_insert|]. by apply Forall_insert.
Qed.

Lemma words_test_ok m i : words_ok m -> 0 <= i < 32 * Z.of_nat nwords ->
  words_test m i = Some (words_bits m i).
Proof.
  intros Hok Hi. destruct (words_rd m i Hok Hi) as (w & Hr & _ & Hn & _).
  unfold words_test, words_bits. rewrite Hr, Hn. cbn. rewrite word_test_spec by dlia. done.
Qed.

Lemma words_set_ok m i : words_ok m -> 0 <= i < 32 * Z.of_nat nwords ->
  exists m', words_set m i = Some m' /\ words_ok m' /\
    forall j, 0 <= j < 32 * Z.of_nat nwords -> words_bits m' j = (j =? i) || words_bits m j.
Proof.
  intros Hok Hi. destruct (words_rd m i Hok Hi) as (w & Hr & Hu & Hn & Hl & Hb).
  unfold words_set. rewrite Hr. cbn. rewrite wr_some by done. eexists. split; [done|].
  split; [apply words_ok_insert; [done|apply word_set_u32; [done|dlia]]|].
  intros j Hj. rewrite words_bits_insert by done. unfold words_bits.
  destruct (Z.eqb_spec (j / 32) (i / 32)) as [E|]; cycle 1.
  { destruct (Z.eqb_spec j i) as [->|]; done. }
  rewrite word_set_spec by dlia. rewrite E, Hn. f_equal.
  destruct (Z.eqb_spec (j mod 32) (i mod 32)), (Z.eqb_spec j i); dlia || done.
Qed.

Lemma words_clr_ok m i : words_ok m -> 0 <= i < 32 * Z.of_nat nwords ->
  exists m', words_clr m i = Some m' /\ words_ok m' /\
    forall j, 0 <= j < 32 * Z.of_nat nwords -> words_bits m' j = negb (j =? i) && words_bits m j.
Proof.
  intros Hok Hi. destruct (words_rd m i Hok Hi) as (w & Hr & Hu & Hn & Hl & Hb).
  unfold words_clr. rewrite Hr. cbn. rewrite wr_some by done. eexists. split; [done|].
  split; [apply words_ok_insert; [done|apply word_clr_u32; [done|dlia]]|].
  intros j Hj. rewrite words_bits_insert by done. unfold words_bits.
  destruct (Z.eqb_spec (j / 32) (i / 32)) as [E|]; cycle 1.
  { destruct (Z.eqb_spec j i) as [->|]; done. }
  rewrite word_clr_spec by dlia. rewrite E, Hn. f_equal. f_equal.
  destruct (Z.eqb_spec (j mod 32) (i mod 32)), (Z.eqb_spec j i); dlia || done.
Qed.
End words.

(** ** First free entry *)

Section first_free.
Context {M : Type} `{BitmapLaws M}.

(** The loop of both clients: the first entry from [i] on that is not in use. *)
Definition first_free (m : M) (n : nat) (i : Z) : option Z :=
  for_find (fun k => u ← bm_test m k; Some (negb u)) n i.

Lemma first_free_ok m n i :
  bm_ok m -> 0 <= i -> i + Z.of_nat n <= bm_cap ->
  exists j, first_free m n i = Some j /\ i <= j <= i + Z.of_nat n /\
    (forall k, i <= k < j -> bits m k = true) /\
    (j < i + Z.of_nat n -> bits m j = false).
Proof.
  intros Hm Hi Hn.
  destruct (for_find_spec (fun k => u ← bm_test m k; Some (negb u))
              (fun k => negb (bits m k)) n i) as (j & Hj & Hr & Hno & Hyes).
  { intros k Hk. by rewrite bm_test_ok by (done || lia). }
  exists j. split; [done|]. split; [done|]. split.
  - intros k Hk. specialize (Hno k Hk). by destruct (bits m k).
  - intros Hlt. specialize (Hyes Hlt). by destruct (bits m j).
Qed.
End first_free.
