(* ===== verification/Sta.v ===== *)
(** * Stations and MAC ids (phl/phl_sta.c)

    The driver keeps a fixed pool of station records.  A record is on the free
    queue or on the queue of the role it belongs to; a station of a role has a
    MAC id, which four tables of [macid_ctl_t] describe.  Module [Sta] models
    the tables, the queues, allocation, release and the look-ups, over a store
    in which a station is known by its position in the pool, as the C code
    knows it by its address. *)

From S2P Require Import Prelude Reorder Bitmap.

Module Sta.

(** ** Data *)

Definition PHL_MACID_MAX_ARRAY_NUM : Z := 8.
Definition PHL_MACID_MAX_NUM : Z := PHL_MACID_MAX_ARRAY_NUM * 32.
Definition PHL_MAX_STA_NUM : Z := 128.

Inductive role_type :=
  PHL_RTYPE_NONE | PHL_RTYPE_STATION | PHL_RTYPE_AP | PHL_RTYPE_VAP | PHL_RTYPE_ADHOC
| PHL_RTYPE_ADHOC_MASTER | PHL_RTYPE_MESH | PHL_RTYPE_MONITOR | PHL_RTYPE_P2P_DEVICE
| PHL_RTYPE_P2P_GC | PHL_RTYPE_P2P_GO | PHL_RTYPE_TDLS | PHL_RTYPE_NAN | PHL_MLME_MAX.

#[export] Instance role_type_eq_dec : EqDecision role_type.
Proof. solve_decision. Defined.

(** A station: [wrole] is the index of its role. *)
Record stainfo := mk_sta {
  mac_addr : list Z;
  wrole : option Z;
  macid : Z;
  active : bool;
  bcn_hit_cond : Z;
  hit_rule : Z;
  protect : Z;
  tid_rx : list (option Reorder.tid_ampdu_rx)
}.

Record phl_queue := mk_q { queue : list Z; cnt : Z }.

Record role := mk_role {
  rtype : role_type;
  rmac : list Z;
  assoc_sta_queue : phl_queue
}.

Record macid_ctl_t := mk_mc {
  used_map : list Z;
  bmc_map : list Z;
  wifi_role_usedmap : list (list Z);
  wrole_bmc : list Z;
  sta : list (option Z);
  max_num : Z
}.

(** The part of [phl_info_t] the file works on.  [stas] is the pool,
    [t_ring_list] and [t_ring_free_list] the MAC ids of the transmit rings
    (phl/phl_tx.c), [events] what the reordering of freed stations did. *)
Record phl := mk_phl {
  stas : list stainfo;
  free_sta_queue : phl_queue;
  roles : list role;
  mc : macid_ctl_t;
  t_ring_list : list Z;
  t_ring_free_list : list Z;
  events : list Reorder.event
}.

Definition with_stas (s : phl) (x : list stainfo) : phl :=
  mk_phl x (free_sta_queue s) (roles s) (mc s) (t_ring_list s) (t_ring_free_list s) (events s).
Definition with_free (s : phl) (x : phl_queue) : phl :=
  mk_phl (stas s) x (roles s) (mc s) (t_ring_list s) (t_ring_free_list s) (events s).
Definition with_roles (s : phl) (x : list role) : phl :=
  mk_phl (stas s) (free_sta_queue s) x (mc s) (t_ring_list s) (t_ring_free_list s) (events s).
Definition with_mc (s : phl) (x : macid_ctl_t) : phl :=
  mk_phl (stas s) (free_sta_queue s) (roles s) x (t_ring_list s) (t_ring_free_list s) (events s).
Definition with_rings (s : phl) (x y : list Z) : phl :=
  mk_phl (stas s) (free_sta_queue s) (roles s) (mc s) x y (events s).
Definition with_events (s : phl) (x : list Reorder.event) : phl :=
  mk_phl (stas s) (free_sta_queue s) (roles s) (mc s) (t_ring_list s) (t_ring_free_list s) x.

Definition set_macid (t : stainfo) (x : Z) : stainfo :=
  mk_sta (mac_addr t) (wrole t) x (active t) (bcn_hit_cond t) (hit_rule t) (protect t) (tid_rx t).
Definition set_mac (t : stainfo) (x : list Z) : stainfo :=
  mk_sta x (wrole t) (macid t) (active t) (bcn_hit_cond t) (hit_rule t) (protect t) (tid_rx t).
Definition set_wrole (t : stainfo) (x : option Z) : stainfo :=
  mk_sta (mac_addr t) x (macid t) (active t) (bcn_hit_cond t) (hit_rule t) (protect t) (tid_rx t).
Definition set_active (t : stainfo) (x : bool) : stainfo :=
  mk_sta (mac_addr t) (wrole t) (macid t) x (bcn_hit_cond t) (hit_rule t) (protect t) (tid_rx t).
Definition set_tid_rx (t : stainfo) (x : list (option Reorder.tid_ampdu_rx)) : stainfo :=
  mk_sta (mac_addr t) (wrole t) (macid t) (active t) (bcn_hit_cond t) (hit_rule t) (protect t) x.

(** A store to a station through its pointer. *)
Definition upd_sta (s : phl) (p : Z) (f : stainfo -> stainfo) : option phl :=
  t ← rd (stas s) p;
  l ← wr (stas s) p (f t);
  Some (with_stas s l).

Definition set_assoc (r : role) (q : phl_queue) : role :=
  mk_role (rtype r) (rmac r) q.

Definition bc_addr : list Z := [0xff; 0xff; 0xff; 0xff; 0xff; 0xff].

(** [_os_mem_cmp(a, b, 6) == 0]. *)
Definition mac_eq (a b : list Z) : bool := bool_decide (a = b).

(** The macro [is_broadcast_mac_addr] tests the six bytes. *)
Definition is_broadcast_mac_addr (a : list Z) : bool :=
  match a with
  | [a0; a1; a2; a3; a4; a5] =>
      (Z.land a0 0xff =? 0xff) && (Z.land a1 0xff =? 0xff) && (Z.land a2 0xff =? 0xff)
      && (Z.land a3 0xff =? 0xff) && (Z.land a4 0xff =? 0xff) && (Z.land a5 0xff =? 0xff)
  | _ => false
  end.

(** ** MAC ids: the bitmaps *)

Definition phl_macid_is_used : list Z -> Z -> option bool := words_test.
Definition phl_macid_map_set : list Z -> Z -> option (list Z) := words_set.
Definition phl_macid_map_clr : list Z -> Z -> option (list Z) := words_clr.

#[export] Instance macid_map : Bitmap (list Z) :=
  {| bm_test := phl_macid_is_used; bm_set := phl_macid_map_set; bm_clr := phl_macid_map_clr |}.

#[export] Instance macid_map_laws : BitmapLaws (list Z) :=
  {| bits := words_bits; bm_cap := 256; bm_ok := words_ok 8;
     bm_test_ok := words_test_ok 8; bm_set_ok := words_set_ok 8;
     bm_clr_ok := words_clr_ok 8 |}.

(** [hal_macid_num] is the number the chip reports; the result is [None] when
    the initialisation fails.  The tables of a fresh [phl_info] are zero. *)
Definition phl_macid_ctrl_init (hal_macid_num : Z) (c : macid_ctl_t) : option macid_ctl_t :=
  if hal_macid_num =? 0 then None
  else
    let n := Z.min hal_macid_num PHL_MACID_MAX_NUM in
    Some (mk_mc (used_map c) (bmc_map c) (wifi_role_usedmap c) ((fun _ => n) <$> wrole_bmc c)
            (sta c) n).

Definition phl_macid_ctrl_deinit (c : macid_ctl_t) : macid_ctl_t :=
  mk_mc (used_map c) (bmc_map c) (wifi_role_usedmap c) (wrole_bmc c) (sta c) 0.

(** The stores of the allocation loop's body for the id it found. *)
Definition take_macid (c : macid_ctl_t) (r p mid : Z) (bmc_sta : bool) : option macid_ctl_t :=
  um ← phl_macid_map_set (used_map c) mid;
  rm ← rd (wifi_role_usedmap c) r;
  rm ← phl_macid_map_set rm mid;
  rms ← wr (wifi_role_usedmap c) r rm;
  st ← wr (sta c) mid (Some p);
  if bmc_sta then
    bm ← phl_macid_map_set (bmc_map c) mid;
    wb ← wr (wrole_bmc c) r mid;
    Some (mk_mc um bm rms wb st (max_num c))
  else Some (mk_mc um (bmc_map c) rms (wrole_bmc c) st (max_num c)).

(** Results of the driver are [true] for [RTW_PHL_STATUS_SUCCESS]. *)
Definition phl_alloc_macid (s : phl) (p : Z) : option (phl * bool) :=
  t ← rd (stas s) p;
  match wrole t with
  | None => Some (s, false)
  | Some r =>
      let bmc_sta := mac_eq bc_addr (mac_addr t) in
      mid ← first_free (used_map (mc s)) (Z.to_nat (max_num (mc s))) 0;
      if mid =? max_num (mc s) then
        s ← upd_sta s p (fun t => set_macid t (max_num (mc s)));
        Some (s, false)
      else
        c ← take_macid (mc s) r p mid bmc_sta;
        s ← upd_sta (with_mc s c) p (fun t => set_macid t mid);
        Some (s, true)
  end.

(** The stores of a release.  [wrole_bmc] keeps its value. *)
Definition give_macid (c : macid_ctl_t) (r mid : Z) (bmc_sta : bool) : option macid_ctl_t :=
  um ← phl_macid_map_clr (used_map c) mid;
  rm ← rd (wifi_role_usedmap c) r;
  rm ← phl_macid_map_clr rm mid;
  rms ← wr (wifi_role_usedmap c) r rm;
  st ← wr (sta c) mid None;
  if bmc_sta then
    bm ← phl_macid_map_clr (bmc_map c) mid;
    Some (mk_mc um bm rms (wrole_bmc c) st (max_num c))
  else Some (mk_mc um (bmc_map c) rms (wrole_bmc c) st (max_num c)).

Definition phl_release_macid (s : phl) (p : Z) : option (phl * bool) :=
  t ← rd (stas s) p;
  let inv s := upd_sta s p (fun t => set_macid t (max_num (mc s))) in
  if max_num (mc s) <=? macid t then
    s ← inv s; Some (s, false)
  else
    u ← phl_macid_is_used (used_map (mc s)) (macid t);
    if negb u then s ← inv s; Some (s, false)
    else
      r ← wrole t;
      c ← give_macid (mc s) r (macid t) (mac_eq bc_addr (mac_addr t));
      s ← inv (with_mc s c);
      Some (s, true).

Definition rtw_phl_wrole_bcmc_id_get (c : macid_ctl_t) (r : Z) : option Z := rd (wrole_bmc c) r.
Definition rtw_phl_get_macid_max_num (c : macid_ctl_t) : Z := max_num c.

Definition rtw_phl_macid_is_bmc (c : macid_ctl_t) (m : Z) : option bool :=
  if max_num c <=? m then Some true else phl_macid_is_used (bmc_map c) m.
Definition rtw_phl_macid_is_used (c : macid_ctl_t) (m : Z) : option bool :=
  if max_num c <=? m then Some true else phl_macid_is_used (used_map c) m.

(** The loops over the roles' maps, which stop at the second role that uses
    the id, respectively at one that is not [r]. *)
Fixpoint shared_from (maps : list (list Z)) (m : Z) (seen : bool) : option bool :=
  match maps with
  | [] => Some false
  | w :: maps =>
      u ← phl_macid_is_used w m;
      if u : bool then if seen then Some true else shared_from maps m true
      else shared_from maps m seen
  end.
Definition rtw_phl_macid_is_wrole_shared (c : macid_ctl_t) (m : Z) : option bool :=
  if max_num c <=? m then Some false else shared_from (wifi_role_usedmap c) m false.

Fixpoint specific_from (maps : list (list Z)) (i r m : Z) (seen : bool) : option bool :=
  match maps with
  | [] => Some seen
  | w :: maps =>
      u ← phl_macid_is_used w m;
      if u : bool then
        if seen || negb (i =? r) then Some false else specific_from maps (i + 1) r m true
      else specific_from maps (i + 1) r m seen
  end.
Definition rtw_phl_macid_is_wrole_specific (c : macid_ctl_t) (m r : Z) : option bool :=
  if max_num c <=? m then Some false else specific_from (wifi_role_usedmap c) 0 r m false.

(** ** Station queues *)

(** Which queue: the free queue or a role's. *)
Inductive qname := QFree | QRole (r : Z).

Definition get_q (s : phl) (q : qname) : option phl_queue :=
  match q with
  | QFree => Some (free_sta_queue s)
  | QRole r => x ← rd (roles s) r; Some (assoc_sta_queue x)
  end.

Definition put_q (s : phl) (q : qname) (x : phl_queue) : option phl :=
  match q with
  | QFree => Some (with_free s x)
  | QRole r =>
      y ← rd (roles s) r;
      l ← wr (roles s) r (set_assoc y x);
      Some (with_roles s l)
  end.

Definition phl_stainfo_enqueue (s : phl) (q : qname) (psta : option Z) : option (phl * bool) :=
  match psta with
  | None => Some (s, false)
  | Some p =>
      x ← get_q s q;
      s ← put_q s q (mk_q (queue x ++ [p]) (cnt x + 1));
      Some (s, true)
  end.

Definition phl_stainfo_dequeue (s : phl) (q : qname) : option (phl * option Z) :=
  x ← get_q s q;
  match queue x with
  | [] => Some (s, None)
  | p :: l =>
      s ← put_q s q (mk_q l (cnt x - 1));
      Some (s, Some p)
  end.

Definition remove_p (p : Z) (l : list Z) : list Z := filter (fun x => x <> p) l.

(** [list_del(&psta->list)] unlinks the node from the list it is on, whichever
    that is; a node that is on none was unlinked before. *)
Definition list_del (s : phl) (p : Z) : option phl :=
  if bool_decide (p ∈ queue (free_sta_queue s) ++
                      concat ((fun r => queue (assoc_sta_queue r)) <$> roles s))
  then
    let del q := mk_q (remove_p p (queue q)) (cnt q) in
    Some (with_roles (with_free s (del (free_sta_queue s)))
            ((fun r => set_assoc r (del (assoc_sta_queue r))) <$> roles s))
  else None.

Definition phl_stainfo_queue_del (s : phl) (q : qname) (psta : option Z) : option (phl * bool) :=
  match psta with
  | None => Some (s, false)
  | Some p =>
      x ← get_q s q;
      if cnt x =? 0 then Some (s, true)
      else
        s ← list_del s p;
        x ← get_q s q;
        s ← put_q s q (mk_q (queue x) (cnt x - 1));
        Some (s, true)
  end.

(** The first station of the list with the address. *)
Fixpoint search_list (st : list stainfo) (l : list Z) (addr : list Z) : option (option Z) :=
  match l with
  | [] => Some None
  | p :: l =>
      t ← rd st p;
      if mac_eq (mac_addr t) addr then Some (Some p) else search_list st l addr
  end.

Definition phl_stainfo_queue_search (s : phl) (q : qname) (addr : list Z) : option (option Z) :=
  x ← get_q s q;
  search_list (stas s) (queue x) addr.

Definition phl_stainfo_queue_get_first (s : phl) (q : qname) : option (option Z) :=
  x ← get_q s q;
  Some (head (queue x)).

(** ** Look-ups *)

Definition rtw_phl_get_stainfo_by_macid (s : phl) (m : Z) : option (option Z) :=
  if max_num (mc s) <=? m then Some None
  else
    u ← phl_macid_is_used (used_map (mc s)) m;
    if u : bool then rd (sta (mc s)) m else Some None.

(** The null pointer [mc->sta[mid]] is dereferenced without a test. *)
Definition addr_at (s : phl) (addr : list Z) (m : Z) : option bool :=
  u ← phl_macid_is_used (used_map (mc s)) m;
  if u : bool then
    q ← rd (sta (mc s)) m;
    p ← q;
    t ← rd (stas s) p;
    Some (mac_eq (mac_addr t) addr)
  else Some false.

Definition rtw_phl_get_stainfo_by_addr_ex (s : phl) (addr : list Z) : option (option Z) :=
  m ← for_find (addr_at s addr) (Z.to_nat (max_num (mc s))) 0;
  if m =? max_num (mc s) then Some None else rd (sta (mc s)) m.

Definition rtw_phl_get_macid_by_addr (s : phl) (addr : list Z) : option Z :=
  o ← rtw_phl_get_stainfo_by_addr_ex s addr;
  match o with
  | Some p => t ← rd (stas s) p; Some (macid t)
  | None => Some (max_num (mc s))
  end.

Definition rtw_phl_get_stainfo_by_addr (s : phl) (r : Z) (addr : list Z) : option (option Z) :=
  if is_broadcast_mac_addr addr then
    m ← rd (wrole_bmc (mc s)) r;
    if max_num (mc s) <=? m then Some None else rd (sta (mc s)) m
  else phl_stainfo_queue_search s (QRole r) addr.

Definition rtw_phl_get_stainfo_self (s : phl) (r : Z) : option (option Z) :=
  phl_stainfo_queue_get_first s (QRole r).

(** ** Freeing stations *)

(** The role's own station: for a station or client role the test also
    stores the role's address into the record. *)
Definition phl_self_stainfo_chk (s : phl) (r p : Z) : option (phl * bool) :=
  x ← rd (roles s) r;
  match rtype x with
  | PHL_RTYPE_STATION | PHL_RTYPE_P2P_GC =>
      s ← upd_sta s p (fun t => set_mac t (rmac x));
      Some (s, true)
  | PHL_RTYPE_AP | PHL_RTYPE_MESH | PHL_RTYPE_P2P_GO | PHL_RTYPE_TDLS =>
      t ← rd (stas s) p;
      Some (s, mac_eq (rmac x) (mac_addr t))
  | _ => Some (s, false)
  end.

(** [phl_register_tx_ring] and [phl_deregister_tx_ring] of phl/phl_tx.c, as
    far as the list of rings goes; [ring_ok] tells whether the ring could be
    allocated. *)
Definition phl_register_tx_ring (s : phl) (m : Z) (ring_ok : bool) : phl * bool :=
  if ring_ok then (with_rings s (t_ring_list s ++ [m]) (t_ring_free_list s), true)
  else (s, false).

Fixpoint remove_first (m : Z) (l : list Z) : option (list Z) :=
  match l with
  | [] => None
  | x :: l => if m =? x then Some l else l' ← remove_first m l; Some (x :: l')
  end.

Definition phl_deregister_tx_ring (s : phl) (m : Z) : phl * bool :=
  match remove_first m (t_ring_list s) with
  | Some l => (with_rings s l (t_ring_free_list s ++ [m]), true)
  | None => (s, false)
  end.

Definition free_rx_reorder (s : phl) (p : Z) : option phl :=
  t ← rd (stas s) p;
  let '(i, ev) := Reorder.phl_free_rx_reorder (Reorder.Build_stainfo (wrole t) (tid_rx t)) in
  s ← upd_sta s p (fun t => set_tid_rx t (Reorder.tid_rx i));
  Some (with_events s (events s ++ ev)).

Definition phl_free_stainfo_sw (s : phl) (psta : option Z) : option (phl * bool) :=
  match psta with
  | None => Some (s, false)
  | Some p =>
      s ← free_rx_reorder s p;
      t ← rd (stas s) p;
      let '(s, _) := phl_deregister_tx_ring s (macid t) in
      phl_release_macid s p
  end.

Definition __phl_free_stainfo_sw (s : phl) (psta : option Z) : option (phl * bool) :=
  match psta with
  | None => Some (s, false)
  | Some p =>
      t ← rd (stas s) p;
      let go s :=
        r ← wrole t;
        '(s, _) ← phl_stainfo_queue_del s (QRole r) (Some p);
        '(s, _) ← phl_free_stainfo_sw s (Some p);
        phl_stainfo_enqueue s QFree (Some p) in
      if is_broadcast_mac_addr (mac_addr t) then go s
      else
        r ← wrole t;
        '(s, self) ← phl_self_stainfo_chk s r p;
        if self : bool then Some (s, true) else go s
  end.

(** [hal_ok] is the result of [rtw_hal_del_sta_entry]. *)
Definition phl_free_stainfo_hw (s : phl) (psta : option Z) (hal_ok : bool)
    : option (phl * bool) :=
  match psta with
  | None => Some (s, false)
  | Some p => s ← upd_sta s p (fun t => set_active t false); Some (s, hal_ok)
  end.

(** [sta->wrole] is read before any test of [sta]. *)
Definition __phl_free_stainfo_hw (s : phl) (psta : option Z) (hal_ok : bool)
    : option (phl * bool) :=
  p ← psta;
  t ← rd (stas s) p;
  if is_broadcast_mac_addr (mac_addr t) then phl_free_stainfo_hw s psta hal_ok
  else
    r ← wrole t;
    '(s, self) ← phl_self_stainfo_chk s r p;
    if self : bool then Some (s, true) else phl_free_stainfo_hw s psta hal_ok.

Definition __phl_free_stainfo (s : phl) (psta : option Z) (hal_ok : bool)
    : option (phl * bool) :=
  '(s, _) ← __phl_free_stainfo_hw s psta hal_ok;
  __phl_free_stainfo_sw s psta.

(** ** Allocating stations *)

Definition phl_sta_set_default_value (t : stainfo) : stainfo :=
  mk_sta (mac_addr t) (wrole t) (macid t) (active t) 0 0 0 (tid_rx t).

Definition phl_alloc_stainfo_sw_ids (s : phl) (p : Z) (ring_ok : bool) : option (phl * bool) :=
  '(s, ok) ← phl_alloc_macid s p;
  if negb ok then Some (s, false)
  else
    t ← rd (stas s) p;
    match phl_register_tx_ring s (macid t) ring_ok with
    | (s, true) => Some (s, true)
    | (s, false) => '(s, _) ← phl_release_macid s p; Some (s, false)
    end.

(** The part of [phl_alloc_stainfo_sw] after the look-ups. *)
Definition alloc_new (s : phl) (sta_addr : list Z) (r : Z) (ring_ok : bool)
    : option (phl * option Z) :=
  '(s, o) ← phl_stainfo_dequeue s QFree;
  match o with
  | None => Some (s, None)
  | Some p =>
      s ← upd_sta s p (fun t => set_wrole (set_mac t sta_addr) (Some r));
      '(s, ok) ← phl_alloc_stainfo_sw_ids s p ring_ok;
      if negb ok then
        '(s, _) ← phl_stainfo_enqueue s QFree (Some p);
        Some (s, None)
      else
        s ← upd_sta s p phl_sta_set_default_value;
        '(s, _) ← phl_stainfo_enqueue s (QRole r) (Some p);
        Some (s, Some p)
  end.

Definition phl_alloc_stainfo_sw (s : phl) (sta_addr : list Z) (r : Z) (ring_ok : bool)
    : option (phl * option Z) :=
  x ← rd (roles s) r;
  let search :=
    o ← rtw_phl_get_stainfo_by_addr s r sta_addr;
    match o with
    | Some p => Some (s, Some p)
    | None => alloc_new s sta_addr r ring_ok
    end in
  if bool_decide (rtype x = PHL_RTYPE_STATION) && negb (is_broadcast_mac_addr sta_addr) then
    o ← rtw_phl_get_stainfo_self s r;
    match o with
    | Some p => s ← upd_sta s p (fun t => set_mac t sta_addr); Some (s, Some p)
    | None => search
    end
  else search.

(** [hal_ok] is the result of [rtw_hal_add_sta_entry]. *)
Definition phl_alloc_stainfo_hw (s : phl) (psta : option Z) (hal_ok : bool)
    : option (phl * bool) :=
  match psta with
  | None => Some (s, false)
  | Some p =>
      if hal_ok then s ← upd_sta s p (fun t => set_active t true); Some (s, true)
      else Some (s, false)
  end.

Definition __phl_alloc_stainfo (s : phl) (sta_addr : list Z) (r : Z) (ring_ok hal_ok : bool)
    : option (phl * option Z * bool) :=
  '(s, o) ← phl_alloc_stainfo_sw s sta_addr r ring_ok;
  match o with
  | None => Some (s, None, false)
  | Some p =>
      t ← rd (stas s) p;
      if active t then Some (s, Some p, true)
      else
        '(s, ok) ← phl_alloc_stainfo_hw s (Some p) hal_ok;
        if ok : bool then Some (s, Some p, true)
        else
          '(s, _) ← __phl_free_stainfo_sw s (Some p);
          Some (s, None, false)
  end.

(** [_phl_alloc_stainfo] dispatches on its two flags; the station pointer is
    [*sta] before and after. *)
Definition phl_alloc_stainfo (s : phl) (psta : option Z) (sta_addr : list Z) (r : Z)
    (alloc only_hw ring_ok hal_ok : bool) : option (phl * option Z * bool) :=
  if alloc then
    if only_hw then '(s, ok) ← phl_alloc_stainfo_hw s psta hal_ok; Some (s, psta, ok)
    else __phl_alloc_stainfo s sta_addr r ring_ok hal_ok
  else
    if only_hw then '(s, ok) ← __phl_free_stainfo_hw s psta hal_ok; Some (s, psta, ok)
    else '(s, ok) ← __phl_free_stainfo s psta hal_ok; Some (s, psta, ok).

(** ** Freeing a role's stations *)

(** The [do .. while] loops; one step per station of the queue. *)
Fixpoint role_free_loop (hw : bool) (fuel : nat) (s : phl) (r : Z) : option phl :=
  match fuel with
  | O => None
  | S fuel =>
      '(s, o) ← phl_stainfo_dequeue s (QRole r);
      match o with
      | None => Some s
      | Some p =>
          '(s, _) ← (if hw then phl_free_stainfo_hw s (Some p) true else Some (s, true));
          '(s, _) ← phl_free_stainfo_sw s (Some p);
          '(s, _) ← phl_stainfo_enqueue s QFree (Some p);
          role_free_loop hw fuel s r
      end
  end.

Definition role_fuel (s : phl) (r : Z) : nat :=
  match get_q s (QRole r) with Some q => S (length (queue q)) | None => 1 end.

Definition phl_wifi_role_free_stainfo_sw (s : phl) (r : Z) : option phl :=
  role_free_loop false (role_fuel s r) s r.
Definition phl_wifi_role_free_stainfo (s : phl) (r : Z) : option phl :=
  role_free_loop true (role_fuel s r) s r.

(** The loop over the ids of the role. *)
Fixpoint role_free_hw_from (n : nat) (m : Z) (used : list Z) (s : phl) : option phl :=
  match n with
  | O => Some s
  | S n =>
      u ← phl_macid_is_used used m;
      s ← (if u : bool then
             o ← rd (sta (mc s)) m;
             match o with
             | Some p => '(s, _) ← phl_free_stainfo_hw s (Some p) true; Some s
             | None => Some s
             end
           else Some s);
      role_free_hw_from n (m + 1) used s
  end.
Definition phl_wifi_role_free_stainfo_hw (s : phl) (r : Z) : option phl :=
  used ← rd (wifi_role_usedmap (mc s)) r;
  role_free_hw_from (Z.to_nat (max_num (mc s))) 0 used s.

(** ** The pool *)

(** [phl_stainfo_ctrl_init]: every record of the zeroed buffer goes to the free
    queue.  [hal_ok i] is the result of [rtw_hal_stainfo_init] for record [i];
    a failure takes the queue apart again. *)
Definition phl_stainfo_init (t : stainfo) : stainfo :=
  mk_sta (mac_addr t) (wrole t) (macid t) false (bcn_hit_cond t) (hit_rule t) (protect t)
    ((fun _ => None) <$> tid_rx t).

Definition zero_sta : stainfo :=
  mk_sta [0; 0; 0; 0; 0; 0] None 0 false 0 0 0 (replicate 8 None).

Fixpoint enqueue_from (n : nat) (i : Z) (hal_ok : Z -> bool) (s : phl) : option (phl * bool) :=
  match n with
  | O => Some (s, true)
  | S n =>
      s ← upd_sta s i phl_stainfo_init;
      if hal_ok i then
        '(s, _) ← phl_stainfo_enqueue s QFree (Some i);
        enqueue_from n (i + 1) hal_ok s
      else Some (s, false)
  end.

Definition phl_stainfo_ctrl_init (s : phl) (alloc_ok : bool) (hal_ok : Z -> bool)
    : option (phl * bool) :=
  if negb alloc_ok then Some (s, false)
  else
    let s := with_free (with_stas s (replicate (Z.to_nat PHL_MAX_STA_NUM) zero_sta)) (mk_q [] 0) in
    '(s, ok) ← enqueue_from (Z.to_nat PHL_MAX_STA_NUM) 0 hal_ok s;
    if ok : bool then Some (s, true) else Some (with_free (with_stas s []) (mk_q [] 0), false).

(** ** The id tables

    [iwf st c n L]: the tables [c] say of the [n] roles exactly which stations
    of the pool [st] hold an id, namely those in [L], which id it is and which
    role they belong to. *)

Record iwf (st : list stainfo) (c : macid_ctl_t) (n : Z) (L : list Z) : Prop := {
  i_max : 0 < max_num c <= 256;
  i_um : words_ok 8 (used_map c);
  i_bm : words_ok 8 (bmc_map c);
  i_rm : Forall (words_ok 8) (wifi_role_usedmap c);
  i_rml : Z.of_nat (length (wifi_role_usedmap c)) = n;
  i_wb : Z.of_nat (length (wrole_bmc c)) = n;
  i_wbn : Forall (fun m => 0 <= m) (wrole_bmc c);
  i_sta : length (sta c) = 256%nat;
  i_live : forall p, p ∈ L -> exists t r, rd st p = Some t /\ wrole t = Some r /\
    0 <= r < n /\ 0 <= macid t < max_num c /\ rd (sta c) (macid t) = Some (Some p);
  i_tab : forall m p, rd (sta c) m = Some (Some p) ->
    p ∈ L /\ exists t, rd st p = Some t /\ macid t = m;
  i_used : forall m, 0 <= m < 256 ->
    words_bits (used_map c) m = true <-> exists p, rd (sta c) m = Some (Some p);
  i_role : forall r w m, rd (wifi_role_usedmap c) r = Some w -> 0 <= m < 256 ->
    words_bits w m = true <->
    exists p t, rd (sta c) m = Some (Some p) /\ rd st p = Some t /\ wrole t = Some r
}.

Lemma iwf_ext st c n L L' : (forall p, p ∈ L <-> p ∈ L') -> iwf st c n L -> iwf st c n L'.
Proof.
  intros E []. split; try done.
  - intros p Hp. apply i_live0. by apply E.
  - intros m p Hp. destruct (i_tab0 m p Hp) as [? ?]. split; [by apply E|done].
Qed.

(** Stores that keep ids and roles of the holders keep the tables' invariant. *)
Lemma iwf_stas st st' c n L :
  (forall p t, p ∈ L -> rd st p = Some t ->
     exists t', rd st' p = Some t' /\ macid t' = macid t /\ wrole t' = wrole t) ->
  iwf st c n L -> iwf st' c n L.
Proof.
  intros E []. split; try done.
  - intros p Hp. destruct (i_live0 p Hp) as (t & r & Ht & Hr & ? & Hm & ?).
    destruct (E p t Hp Ht) as (t' & ? & Em & Ew). exists t', r. by rewrite Em, Ew.
  - intros m p Hp. destruct (i_tab0 m p Hp) as (? & t & Ht & <-). split; [done|].
    destruct (E p t) as (t' & ? & ? & ?); [done..|]. eauto.
  - intros r w m Hw Hm. rewrite (i_role0 r w m Hw Hm). split; intros (p & t & Hp & Ht & Hr).
    + destruct (i_tab0 m p Hp) as (? & _).
      destruct (E p t) as (t' & ? & ? & ?); [done..|]. exists p, t'. by rewrite H2.
    + destruct (i_tab0 m p Hp) as (? & t0 & Ht0 & _).
      destruct (E p t0) as (t' & ? & ? & ?); [done..|]. exists p, t0.
      simplify_eq. split; [done|split; [done|congruence]].
Qed.

Lemma elem_remove q p l : q ∈ remove_p p l <-> q <> p /\ q ∈ l.
Proof. unfold remove_p. by rewrite list_elem_of_filter. Qed.

Section take_give.
Variables (st st' : list stainfo) (c : macid_ctl_t) (n : Z) (L : list Z) (p r mid : Z) (t : stainfo).
Hypothesis Hwf : iwf st c n L.
Hypothesis Ht : rd st p = Some t.
Hypothesis Hr : wrole t = Some r.

Lemma role_map_rd : 0 <= r < n ->
  exists w, rd (wifi_role_usedmap c) r = Some w /\ words_ok 8 w.
Proof using Hwf.
  intros Hrn. destruct (rd_some (wifi_role_usedmap c) r) as [w Hw].
  { destruct Hwf as [? ? ? ? -> ]. done. }
  exists w. split; [done|]. rewrite rd_lookup in Hw by lia.
  destruct Hwf as [? ? ? Hrm]. by eapply Forall_lookup_1 in Hrm.
Qed.

Lemma role_maps_wr w rms : wr (wifi_role_usedmap c) r w = Some rms -> words_ok 8 w ->
  Forall (words_ok 8) rms /\ Z.of_nat (length rms) = n.
Proof using Hwf.
  intros Hw Ho. split.
  - apply wr_inv in Hw as [_ ->]. apply Forall_insert; [apply Hwf|done].
  - rewrite (wr_length _ _ _ _ Hw). apply Hwf.
Qed.

Lemma take_macid_ok b :
  0 <= r < n -> 0 <= mid < max_num c -> words_bits (used_map c) mid = false -> p ∉ L ->
  wr st p (set_macid t mid) = Some st' ->
  exists c', take_macid c r p mid b = Some c' /\ iwf st' c' n (p :: L) /\
    max_num c' = max_num c /\
    forall m, rd (sta c') m = if m =? mid then Some (Some p) else rd (sta c) m.
Proof using All.
  intros Hrn Hmid Hfree Hp Hst'. pose proof (i_max _ _ _ _ Hwf) as Hmax.
  destruct (words_set_ok 8 (used_map c) mid) as (um & Hum & Humok & Humb); [apply Hwf|lia|].
  destruct (role_map_rd Hrn) as (w & Hw & Hwok).
  destruct (words_set_ok 8 w mid) as (w' & Hw' & Hwok' & Hwb'); [done|lia|].
  destruct (rd_is_wr _ _ _ w' Hw) as [rms Hrms].
  destruct (role_maps_wr _ _ Hrms Hwok') as [Hrms1 Hrms2].
  destruct (wr_total (sta c) mid (Some p)) as [sta' Hsta']; [rewrite (i_sta _ _ _ _ Hwf); lia|].
  assert (Hnew : forall m, rd sta' m = if m =? mid then Some (Some p) else rd (sta c) m)
    by (intros m; by apply rd_wr).
  assert (Hold : forall q, rd (sta c) mid <> Some (Some q)).
  { intros q Hq. assert (words_bits (used_map c) mid = true); [|congruence].
    apply (i_used _ _ _ _ Hwf); [lia|eauto]. }
  assert (Hoth : forall q, q ∈ L -> q <> p) by (intros q ? ->; done).
  assert (Hrd : forall q, rd st' q = if q =? p then Some (set_macid t mid) else rd st q)
    by (intros q; by apply rd_wr).
  assert (Hmain : forall bm wb, words_ok 8 bm -> Z.of_nat (length wb) = n ->
            Forall (fun m => 0 <= m) wb ->
            iwf st' (mk_mc um bm rms wb sta' (max_num c)) n (p :: L)).
  { intros bm wb Hbm Hwb Hwbn. split; cbn; try done.
    - by rewrite (wr_length _ _ _ _ Hsta'), (i_sta _ _ _ _ Hwf).
    - intros q Hq. rewrite Hrd. destruct (Z.eqb_spec q p) as [->|Hne].
      + exists (set_macid t mid), r. cbn. rewrite Hnew, Z.eqb_refl. split_all.
      + destruct (i_live _ _ _ _ Hwf q) as (t' & r' & ? & ? & ? & ? & Htab); [by apply elem_of_cons in Hq as [?|?]|].
        exists t', r'. rewrite Hnew. destruct (Z.eqb_spec (macid t') mid) as [E|]; [|split_all].
        rewrite E in Htab. by destruct (Hold q).
    - intros m q. rewrite Hnew, Hrd. destruct (Z.eqb_spec m mid) as [->|].
      + intros [= <-]. rewrite Z.eqb_refl. split; [rewrite elem_of_cons; by left|]. by exists (set_macid t mid).
      + intros Hq. destruct (i_tab _ _ _ _ Hwf m q Hq) as (? & t' & ? & ?).
        destruct (Z.eqb_spec q p) as [->|]; [done|]. split; [rewrite elem_of_cons; by right|eauto].
    - intros m Hm. rewrite Humb, Hnew by lia. destruct (Z.eqb_spec m mid) as [->|]; cbn.
      + by split; [eauto|].
      + by apply (i_used _ _ _ _ Hwf).
    - intros r' w0 m. rewrite (rd_wr _ _ _ _ r' Hrms). intros Hw0 Hm.
      rewrite Hnew. setoid_rewrite Hrd. destruct (Z.eqb_spec r' r) as [->|Hrne].
      + injection Hw0 as <-. rewrite Hwb' by lia. destruct (Z.eqb_spec m mid) as [->|]; cbn.
        * split; [|done]. intros _. exists p, (set_macid t mid). by rewrite Z.eqb_refl.
        * rewrite (i_role _ _ _ _ Hwf r w m Hw Hm). split; intros (q & t' & Hq & Ht' & Hr').
          -- exists q, t'. destruct (i_tab _ _ _ _ Hwf m q Hq) as (? & _).
             destruct (Z.eqb_spec q p) as [->|]; done.
          -- exists q. destruct (i_tab _ _ _ _ Hwf m q Hq) as (? & _).
             destruct (Z.eqb_spec q p) as [->|]; [done|]. eauto.
      + rewrite (i_role _ _ _ _ Hwf r' w0 m Hw0 Hm). destruct (Z.eqb_spec m mid) as [->|].
        * split; intros (q & t' & Hq & Ht' & Hr'); [by destruct (Hold q)|].
          injection Hq as <-. rewrite Z.eqb_refl in Ht'. injection Ht' as <-. cbn in Hr'. congruence.
        * split; intros (q & t' & Hq & Ht' & Hr');
            exists q, t'; destruct (i_tab _ _ _ _ Hwf m q Hq) as (? & _);
            destruct (Z.eqb_spec q p) as [->|]; done. }
  unfold take_macid, phl_macid_map_set. rewrite Hum. cbn [mbind option_bind].
  rewrite Hw. cbn [mbind option_bind]. rewrite Hw'. cbn [mbind option_bind].
  rewrite Hrms. cbn [mbind option_bind]. rewrite Hsta'. cbn [mbind option_bind].
  destruct b.
  - destruct (words_set_ok 8 (bmc_map c) mid) as (bm & Hbm & Hbmok & _); [apply Hwf|lia|].
    destruct (wr_total (wrole_bmc c) r mid) as [wb Hwb]; [rewrite (i_wb _ _ _ _ Hwf); lia|].
    rewrite Hbm. cbn [mbind option_bind]. rewrite Hwb. cbn [mbind option_bind].
    eexists. split; [done|]. split; [|done]. apply Hmain; [done| |].
    + rewrite (wr_length _ _ _ _ Hwb). apply Hwf.
    + apply wr_inv in Hwb as [_ ->]. apply Forall_insert; [apply Hwf|lia].
  - eexists. split; [done|]. split; [|done]. apply Hmain; apply Hwf.
Qed.

Lemma give_macid_ok b :
  p ∈ L -> mid = macid t -> wr st p (set_macid t (max_num c)) = Some st' ->
  exists c', give_macid c r mid b = Some c' /\ iwf st' c' n (remove_p p L) /\
    max_num c' = max_num c /\
    forall m, rd (sta c') m = if m =? mid then Some None else rd (sta c) m.
Proof using All.
  intros Hp -> Hst'. pose proof (i_max _ _ _ _ Hwf) as Hmax.
  destruct (i_live _ _ _ _ Hwf p Hp) as (t0 & r0 & Ht0 & Hr0 & Hrn & Hmid & Htab).
  rewrite Ht in Ht0. injection Ht0 as <-. rewrite Hr in Hr0. injection Hr0 as <-.
  set (mid' := macid t) in *.
  destruct (words_clr_ok 8 (used_map c) mid') as (um & Hum & Humok & Humb); [apply Hwf|lia|].
  destruct (role_map_rd Hrn) as (w & Hw & Hwok).
  destruct (words_clr_ok 8 w mid') as (w' & Hw' & Hwok' & Hwb'); [done|lia|].
  destruct (rd_is_wr _ _ _ w' Hw) as [rms Hrms].
  destruct (role_maps_wr _ _ Hrms Hwok') as [Hrms1 Hrms2].
  destruct (wr_total (sta c) mid' None) as [sta' Hsta']; [rewrite (i_sta _ _ _ _ Hwf); lia|].
  assert (Hnew : forall m, rd sta' m = if m =? mid' then Some None else rd (sta c) m)
    by (intros m; by apply rd_wr).
  assert (Hrd : forall q, rd st' q = if q =? p then Some (set_macid t (max_num c)) else rd st q)
    by (intros q; by apply rd_wr).
  assert (Hin : forall q, q ∈ remove_p p L <-> q <> p /\ q ∈ L)
    by (intros q; apply elem_remove).
  assert (Huniq : forall m, rd (sta c) m = Some (Some p) -> m = mid').
  { intros m Hm. destruct (i_tab _ _ _ _ Hwf m p Hm) as (_ & t' & Ht' & <-).
    rewrite Ht in Ht'. by injection Ht' as <-. }
  assert (Hmain : forall bm, words_ok 8 bm ->
            iwf st' (mk_mc um bm rms (wrole_bmc c) sta' (max_num c)) n (remove_p p L)).
  { intros bm Hbm. split; cbn; try done; try apply Hwf.
    - by rewrite (wr_length _ _ _ _ Hsta'), (i_sta _ _ _ _ Hwf).
    - intros q [Hne Hq]%Hin. rewrite Hrd. destruct (Z.eqb_spec q p) as [->|]; [done|].
      destruct (i_live _ _ _ _ Hwf q Hq) as (t' & r' & ? & ? & ? & ? & Ht').
      exists t', r'. rewrite Hnew. destruct (Z.eqb_spec (macid t') mid') as [E|]; [|split_all].
      rewrite E, Htab in Ht'. congruence.
    - intros m q. rewrite Hnew, Hrd. destruct (Z.eqb_spec m mid') as [->|Hne]; [done|].
      intros Hq. destruct (i_tab _ _ _ _ Hwf m q Hq) as (? & t' & ? & ?).
      destruct (Z.eqb_spec q p) as [->|]; [by apply Huniq in Hq|]. rewrite Hin. eauto.
    - intros m Hm. rewrite Humb, Hnew by lia. destruct (Z.eqb_spec m mid') as [->|]; cbn.
      + split; [done|by intros [? ?]].
      + by apply (i_used _ _ _ _ Hwf).
    - intros r' w0 m. rewrite (rd_wr _ _ _ _ r' Hrms). intros Hw0 Hm. rewrite Hnew.
      assert (Hsame : m <> mid' -> 
        (exists q t', rd (sta c) m = Some (Some q) /\ rd st' q = Some t' /\ wrole t' = Some r') <->
        (exists q t', rd (sta c) m = Some (Some q) /\ rd st q = Some t' /\ wrole t' = Some r')).
      { intros Hne. split; intros (q & t' & Hq & Ht' & Hr'); exists q, t'; rewrite Hrd in *;
          destruct (Z.eqb_spec q p) as [->|]; try done; by apply Huniq in Hq. }
      destruct (Z.eqb_spec m mid') as [->|Hne]; cycle 1.
      + rewrite Hsame by done. destruct (Z.eqb_spec r' r) as [->|Hrne].
        * injection Hw0 as <-. rewrite Hwb' by lia. destruct (Z.eqb_spec m mid'); [done|]. cbn.
          by apply (i_role _ _ _ _ Hwf).
        * by apply (i_role _ _ _ _ Hwf).
      + destruct (Z.eqb_spec r' r) as [->|Hrne].
        * injection Hw0 as <-. rewrite Hwb', Z.eqb_refl by lia. cbn.
          split; [done|]. by intros (? & ? & ? & ?).
        * rewrite (i_role _ _ _ _ Hwf r' w0 mid' Hw0 Hm). split; intros (q & t' & Hq & Ht' & Hr').
          -- assert (q = p) as -> by congruence. congruence.
          -- done. }
  unfold give_macid, phl_macid_map_clr. rewrite Hum. cbn [mbind option_bind].
  rewrite Hw. cbn [mbind option_bind]. rewrite Hw'. cbn [mbind option_bind].
  rewrite Hrms. cbn [mbind option_bind]. rewrite Hsta'. cbn [mbind option_bind].
  destruct b.
  - destruct (words_clr_ok 8 (bmc_map c) mid') as (bm & Hbm & Hbmok & _); [apply Hwf|lia|].
    rewrite Hbm. cbn [mbind option_bind]. eexists. split; [done|]. split; [by apply Hmain|done].
  - eexists. split; [done|]. split; [|done]. apply Hmain; apply Hwf.
Qed.
End take_give.

(** ** Queues *)

Definition nodes_of (l : list role) : list Z := concat ((fun r => queue (assoc_sta_queue r)) <$> l).
Definition all_nodes (s : phl) : list Z := queue (free_sta_queue s) ++ nodes_of (roles s).

#[export] Instance qname_eq_dec : EqDecision qname.
Proof. solve_decision. Defined.

Lemma nodes_of_wr l r x x' l' :
  rd l r = Some x -> wr l r x' = Some l' ->
  exists rest, nodes_of l ≡ₚ queue (assoc_sta_queue x) ++ rest /\
    nodes_of l' ≡ₚ queue (assoc_sta_queue x') ++ rest.
Proof.
  intros Hr Hw. pose proof (rd_inv _ _ _ Hr). rewrite rd_lookup in Hr by lia.
  apply wr_inv in Hw as [_ ->]. set (i := Z.to_nat r) in *.
  exists (nodes_of (take i l) ++ nodes_of (drop (S i) l)). split.
  - rewrite <- (take_drop_middle l i x Hr) at 1.
    unfold nodes_of. rewrite fmap_app, concat_app. cbn. solve_Permutation.
  - rewrite insert_take_drop by (eapply lookup_lt_Some; eauto).
    unfold nodes_of. rewrite fmap_app, concat_app. cbn. solve_Permutation.
Qed.

(** What a store into a queue leaves as it was. *)
Record qframe (s s' : phl) : Prop := {
  qf_stas : stas s' = stas s;
  qf_mc : mc s' = mc s;
  qf_rings : t_ring_list s' = t_ring_list s;
  qf_roles : length (roles s') = length (roles s);
  qf_role : forall r x, rd (roles s) r = Some x ->
    exists x', rd (roles s') r = Some x' /\ rtype x' = rtype x /\ rmac x' = rmac x
}.

Lemma put_q_spec s q x x' :
  get_q s q = Some x ->
  exists s' rest, put_q s q x' = Some s' /\ qframe s s' /\
    all_nodes s ≡ₚ queue x ++ rest /\ all_nodes s' ≡ₚ queue x' ++ rest /\
    forall q', get_q s' q' = if decide (q' = q) then Some x' else get_q s q'.
Proof.
  destruct q as [|r]; cbn [get_q put_q].
  - intros [= <-]. exists (with_free s x'), (nodes_of (roles s)).
    split; [done|]. split; [|split; [done|split; [done|]]].
    + split; cbn; eauto.
    + intros [|r]; cbn; by destruct (decide _).
  - destruct (rd (roles s) r) as [y|] eqn:Hy; cbn; [|done]. intros [= <-].
    destruct (rd_is_wr _ _ _ (set_assoc y x') Hy) as [l Hl]. rewrite Hl. cbn.
    destruct (nodes_of_wr _ _ _ _ _ Hy Hl) as (rest & H1 & H2).
    exists (with_roles s l), (queue (free_sta_queue s) ++ rest).
    split; [done|]. split; [|split; [|split]].
    + split; cbn; try done; [by eapply wr_length|].
      intros r' z Hz. rewrite (rd_wr _ _ _ _ _ Hl). destruct (Z.eqb_spec r' r) as [->|]; [|eauto].
      exists (set_assoc y x'). split; [done|]. simplify_eq. done.
    + unfold all_nodes. rewrite H1. solve_Permutation.
    + unfold all_nodes. cbn. rewrite H2. solve_Permutation.
    + intros [|r']; cbn; [by destruct (decide _)|]. rewrite (rd_wr _ _ _ _ _ Hl).
      destruct (Z.eqb_spec r' r) as [->|Hne]; [by rewrite decide_True|].
      rewrite decide_False by congruence. done.
Qed.

(** ** The state invariant

    [inv s H K]: the stations on the queues and those in [H] are the pool, each
    once; the queues' counters are right; a station on a role's queue belongs to
    the role; the id tables describe the stations of the roles and [K].  Between
    operations [H] and [K] are empty. *)

Definition in_role (s : phl) (p : Z) : Prop :=
  exists r x, get_q s (QRole r) = Some x /\ p ∈ queue x.

Record inv (s : phl) (H K : list Z) : Prop := {
  v_nodes : all_nodes s ++ H ≡ₚ seqZ 0 (Z.of_nat (length (stas s)));
  v_cnt : forall q x, get_q s q = Some x -> cnt x = Z.of_nat (length (queue x));
  v_link : forall r x p, get_q s (QRole r) = Some x -> p ∈ queue x ->
    exists t, rd (stas s) p = Some t /\ wrole t = Some r;
  v_ids : exists L, iwf (stas s) (mc s) (Z.of_nat (length (roles s))) L /\
    forall p, p ∈ L <-> in_role s p \/ p ∈ K
}.

Lemma inv_nodup s H K : inv s H K -> NoDup (all_nodes s ++ H).
Proof. intros [Hn _ _ _]. rewrite Hn. apply NoDup_seqZ. Qed.

Lemma get_q_nodes s q x : get_q s q = Some x -> exists rest, all_nodes s ≡ₚ queue x ++ rest.
Proof. intros Hq. destruct (put_q_spec s q x x Hq) as (s' & rest & _ & _ & ? & _). eauto. Qed.

Lemma in_hand_not_queued s H K p q x :
  inv s H K -> p ∈ H -> get_q s q = Some x -> p ∉ queue x.
Proof.
  intros Hinv Hp Hq Hin. pose proof (inv_nodup _ _ _ Hinv) as Hnd.
  destruct (get_q_nodes _ _ _ Hq) as [rest E].
  apply NoDup_app in Hnd as (_ & Hd & _). apply (Hd p); [|done].
  rewrite E. apply elem_of_app. by left.
Qed.

Lemma in_hand_not_role s H K p : inv s H K -> p ∈ H -> ~ in_role s p.
Proof. intros Hinv Hp (r & x & Hq & Hx). by eapply in_hand_not_queued. Qed.

Lemma queues_disjoint s H K q1 q2 x1 x2 p :
  inv s H K -> q1 <> q2 -> get_q s q1 = Some x1 -> get_q s q2 = Some x2 ->
  p ∈ queue x1 -> p ∉ queue x2.
Proof.
  intros Hinv Hne H1 H2 Hp1 Hp2. pose proof (inv_nodup _ _ _ Hinv) as Hnd.
  destruct (put_q_spec s q1 x1 (mk_q [] 0) H1) as (s' & rest & _ & _ & E & E' & Hg).
  specialize (Hg q2). rewrite decide_False in Hg by done. rewrite H2 in Hg.
  destruct (get_q_nodes _ _ _ Hg) as [rest2 E2]. cbn in E'. rewrite E2 in E'.
  apply NoDup_app in Hnd as (Hnd & _ & _). rewrite E in Hnd.
  apply NoDup_app in Hnd as (_ & Hd & _). apply (Hd p Hp1). rewrite <- E'.
  apply elem_of_app. by left.
Qed.

Lemma in_pool s H K p :
  inv s H K -> p ∈ all_nodes s ++ H -> exists t, rd (stas s) p = Some t.
Proof.
  intros [Hn _ _ _] Hp. rewrite Hn in Hp. apply elem_of_seqZ in Hp. apply rd_some. lia.
Qed.

(** Replacing one queue and moving what it loses or gains in or out of hand. *)
Lemma inv_put s H K q x x' H' K' :
  inv s H K -> get_q s q = Some x ->
  queue x ++ H ≡ₚ queue x' ++ H' ->
  cnt x' = Z.of_nat (length (queue x')) ->
  (forall r p, q = QRole r -> p ∈ queue x' ->
     exists t, rd (stas s) p = Some t /\ wrole t = Some r) ->
  (forall p, (match q with QFree => False | QRole _ => p ∈ queue x end) \/ p ∈ K <->
             (match q with QFree => False | QRole _ => p ∈ queue x' end) \/ p ∈ K') ->
  exists s', put_q s q x' = Some s' /\ inv s' H' K' /\ qframe s s' /\
    forall q', get_q s' q' = if decide (q' = q) then Some x' else get_q s q'.
Proof.
  intros [Hn Hc Hl (L & HL & HLin)] Hq Hperm Hcnt Hlink HK.
  destruct (put_q_spec s q x x' Hq) as (s' & rest & Hput & Hf & E & E' & Hg).
  exists s'. split; [done|]. split; [|done]. destruct Hf as [F1 F2 F3 F4 F5]. split.
  - rewrite F1, <- Hn, E, E'.
    transitivity (rest ++ (queue x' ++ H')); [solve_Permutation|].
    rewrite <- Hperm. solve_Permutation.
  - intros q' y. rewrite Hg. case_decide as Hd; [by intros [= <-]|apply Hc].
  - intros r y p. rewrite Hg, F1. case_decide as Hd; [|apply Hl].
    intros [= <-] Hp. by eapply Hlink.
  - exists L. rewrite F1, F2, F4. split; [done|]. intros p. rewrite HLin.
    assert (Hsplit : forall sx y, get_q sx q = Some y ->
              (forall q', q' <> q -> get_q sx q' = get_q s q') ->
              in_role sx p <-> (match q with QFree => False | QRole _ => p ∈ queue y end) \/
                (exists r y, QRole r <> q /\ get_q s (QRole r) = Some y /\ p ∈ queue y)).
    { intros sx y Hy Ho. split.
      - intros (r & z & Hz & Hp). destruct (decide (QRole r = q)) as [<-|Hne].
        + left. congruence.
        + right. exists r, z. rewrite <- Ho by done. done.
      - intros [Hp|(r & z & Hne & Hz & Hp)].
        + destruct q as [|r]; [done|]. by exists r, y.
        + exists r, z. by rewrite Ho. }
    rewrite (Hsplit s x), (Hsplit s' x'); try done.
    + specialize (HK p). tauto.
    + rewrite Hg. by rewrite decide_True.
    + intros q' ?. rewrite Hg. by rewrite decide_False.
Qed.

Lemma dequeue_free s H K : inv s H K ->
  (queue (free_sta_queue s) = [] /\ phl_stainfo_dequeue s QFree = Some (s, None)) \/
  exists s' p, phl_stainfo_dequeue s QFree = Some (s', Some p) /\ inv s' (p :: H) K /\
    qframe s s' /\ queue (free_sta_queue s) = p :: queue (free_sta_queue s') /\
    forall r, get_q s' (QRole r) = get_q s (QRole r).
Proof.
  intros Hinv. unfold phl_stainfo_dequeue. cbn [get_q mbind option_bind].
  destruct (queue (free_sta_queue s)) as [|p l] eqn:E; [by left|right].
  destruct (inv_put s H K QFree (free_sta_queue s) (mk_q l (cnt (free_sta_queue s) - 1)) (p :: H) K)
    as (s' & Hput & Hinv' & Hf & Hg); [done|done| | |done|done|].
  - rewrite E. cbn. solve_Permutation.
  - cbn. rewrite (v_cnt _ _ _ Hinv QFree (free_sta_queue s)), E by done. cbn. lia.
  - rewrite Hput. cbn [mbind option_bind]. exists s', p. split; [done|]. split; [done|].
    split; [done|]. specialize (Hg QFree) as Hg0. cbn in Hg0. injection Hg0 as ->. split; [done|].
    intros r. exact (Hg (QRole r)).
Qed.

Lemma dequeue_role s H K r x : inv s H K -> get_q s (QRole r) = Some x ->
  match queue x with
  | [] => phl_stainfo_dequeue s (QRole r) = Some (s, None)
  | p :: l => exists s', phl_stainfo_dequeue s (QRole r) = Some (s', Some p) /\
      inv s' (p :: H) (p :: K) /\ qframe s s' /\
      get_q s' (QRole r) = Some (mk_q l (cnt x - 1)) /\
      forall q, q <> QRole r -> get_q s' q = get_q s q
  end.
Proof.
  intros Hinv Hq. unfold phl_stainfo_dequeue. rewrite Hq. cbn [mbind option_bind].
  destruct (queue x) as [|p l] eqn:E; [done|].
  destruct (inv_put s H K (QRole r) x (mk_q l (cnt x - 1)) (p :: H) (p :: K))
    as (s' & Hput & Hinv' & Hf & Hg); [done|done| | | | |].
  - rewrite E. cbn. solve_Permutation.
  - cbn. rewrite (v_cnt _ _ _ Hinv _ _ Hq), E. cbn. lia.
  - intros r' q [= <-] Hp. eapply (v_link _ _ _ Hinv); [done|]. rewrite E. by right.
  - intros q. rewrite E. cbn. rewrite !elem_of_cons. tauto.
  - rewrite Hput. cbn [mbind option_bind]. exists s'. split; [done|]. split; [done|].
    split; [done|]. split; [rewrite Hg; by rewrite decide_True|].
    intros q ?. rewrite Hg. by rewrite decide_False.
Qed.

Lemma enqueue_free s H K p : inv s (p :: H) K ->
  exists s', phl_stainfo_enqueue s QFree (Some p) = Some (s', true) /\ inv s' H K /\
    qframe s s' /\ queue (free_sta_queue s') = queue (free_sta_queue s) ++ [p] /\
    forall r, get_q s' (QRole r) = get_q s (QRole r).
Proof.
  intros Hinv. unfold phl_stainfo_enqueue. cbn [get_q mbind option_bind].
  destruct (inv_put s (p :: H) K QFree (free_sta_queue s)
              (mk_q (queue (free_sta_queue s) ++ [p]) (cnt (free_sta_queue s) + 1)) H K)
    as (s' & Hput & Hinv' & Hf & Hg); [done|done| | |done|done|].
  - cbn. solve_Permutation.
  - cbn. rewrite (v_cnt _ _ _ Hinv QFree (free_sta_queue s)), length_app by done. cbn. lia.
  - rewrite Hput. cbn [mbind option_bind]. exists s'. split; [done|]. split; [done|].
    split; [done|]. specialize (Hg QFree) as Hg0. cbn in Hg0. injection Hg0 as ->. split; [done|].
    intros r. exact (Hg (QRole r)).
Qed.

Lemma enqueue_role s H K p r x t : inv s (p :: H) (p :: K) ->
  get_q s (QRole r) = Some x -> rd (stas s) p = Some t -> wrole t = Some r ->
  exists s', phl_stainfo_enqueue s (QRole r) (Some p) = Some (s', true) /\ inv s' H K /\
    qframe s s' /\ get_q s' (QRole r) = Some (mk_q (queue x ++ [p]) (cnt x + 1)) /\
    forall q, q <> QRole r -> get_q s' q = get_q s q.
Proof.
  intros Hinv Hq Ht Hr. unfold phl_stainfo_enqueue. rewrite Hq. cbn [mbind option_bind].
  destruct (inv_put s (p :: H) (p :: K) (QRole r) x (mk_q (queue x ++ [p]) (cnt x + 1)) H K)
    as (s' & Hput & Hinv' & Hf & Hg); [done|done| | | | |].
  - cbn. solve_Permutation.
  - cbn. rewrite (v_cnt _ _ _ Hinv _ _ Hq), length_app. cbn. lia.
  - intros r' q [= <-]. cbn. rewrite elem_of_app, list_elem_of_singleton. intros [Hp| ->]; [|eauto].
    by eapply (v_link _ _ _ Hinv).
  - intros q. cbn. rewrite elem_of_app, elem_of_cons, list_elem_of_singleton. tauto.
  - rewrite Hput. cbn [mbind option_bind]. exists s'. split; [done|]. split; [done|].
    split; [done|]. split; [rewrite Hg; by rewrite decide_True|].
    intros q ?. rewrite Hg. by rewrite decide_False.
Qed.

(** Only the pool changes. *)
Record sframe (s s' : phl) : Prop := {
  sf_free : free_sta_queue s' = free_sta_queue s;
  sf_roles : roles s' = roles s;
  sf_len : length (stas s') = length (stas s)
}.

Lemma sframe_q s s' q : sframe s s' -> get_q s' q = get_q s q.
Proof. intros []. destruct q; cbn; congruence. Qed.
Lemma sframe_refl s : sframe s s.
Proof. by split. Qed.
Lemma sframe_trans s1 s2 s3 : sframe s1 s2 -> sframe s2 s3 -> sframe s1 s3.
Proof. intros [] []. split; congruence. Qed.

(** A change of the tables and of the station in hand. *)
Lemma inv_sframe s s' H K K' L :
  inv s H K -> sframe s s' ->
  (forall p t, ~ p ∈ H -> rd (stas s) p = Some t ->
     exists t', rd (stas s') p = Some t' /\ wrole t' = wrole t) ->
  iwf (stas s') (mc s') (Z.of_nat (length (roles s))) L ->
  (forall p, p ∈ L <-> in_role s p \/ p ∈ K') ->
  inv s' H K'.
Proof.
  intros Hinv Hf Hrole HL HLin. pose proof (fun q => sframe_q _ _ q Hf) as Hq. destruct Hf as [F1 F2 F3]. split.
  - unfold all_nodes. rewrite F1, F2, F3. apply Hinv.
  - intros q x Hx. rewrite Hq in Hx. by eapply (v_cnt _ _ _ Hinv).
  - intros r x p Hx Hp. rewrite Hq in Hx.
    destruct (v_link _ _ _ Hinv r x p Hx Hp) as (t & Ht & Hr).
    destruct (Hrole p t) as (t' & ? & E); [|done|].
    + intros HpH. by eapply in_hand_not_queued.
    + exists t'. by rewrite E.
  - exists L. rewrite F2. split; [done|]. intros p. rewrite HLin. unfold in_role.
    by setoid_rewrite Hq.
Qed.

Lemma upd_sta_spec s p f t : rd (stas s) p = Some t ->
  exists s', upd_sta s p f = Some s' /\ sframe s s' /\ mc s' = mc s /\
    t_ring_list s' = t_ring_list s /\
    forall q, rd (stas s') q = if q =? p then Some (f t) else rd (stas s) q.
Proof.
  intros Ht. unfold upd_sta. rewrite Ht. cbn [mbind option_bind].
  destruct (rd_is_wr _ _ _ (f t) Ht) as [l Hl]. rewrite Hl. cbn [mbind option_bind].
  exists (with_stas s l). split; [done|]. split; [split; cbn; [done|done|by eapply wr_length]|].
  split; [done|]. split; [done|]. intros q. by apply rd_wr.
Qed.

(** A store that keeps id and role, to any station. *)
Lemma inv_upd s H K p f t :
  inv s H K -> rd (stas s) p = Some t -> macid (f t) = macid t -> wrole (f t) = wrole t ->
  exists s', upd_sta s p f = Some s' /\ inv s' H K /\ sframe s s' /\ mc s' = mc s /\
    t_ring_list s' = t_ring_list s /\
    forall q, rd (stas s') q = if q =? p then Some (f t) else rd (stas s) q.
Proof.
  intros Hinv Ht Hm Hr. destruct (upd_sta_spec s p f t Ht) as (s' & Hu & Hf & Hmc & Hri & Hrd).
  exists s'. split; [done|]. split; [|done].
  destruct (v_ids _ _ _ Hinv) as (L & HL & HLin).
  apply (inv_sframe s s' H K K L); try done.
  - intros q t' _ Hq. rewrite Hrd. destruct (Z.eqb_spec q p) as [->|]; [|eauto].
    exists (f t). split; [done|]. congruence.
  - rewrite Hmc. eapply iwf_stas; [|done]. intros q t' _ Hq. rewrite Hrd.
    destruct (Z.eqb_spec q p) as [->|]; [|eauto]. exists (f t). split; [done|].
    simplify_eq. done.
Qed.

(** Any store to a station in hand that holds no id. *)
Lemma inv_upd_hand s H K p f t :
  inv s H K -> rd (stas s) p = Some t -> p ∈ H -> ~ p ∈ K ->
  exists s', upd_sta s p f = Some s' /\ inv s' H K /\ sframe s s' /\ mc s' = mc s /\
    t_ring_list s' = t_ring_list s /\
    forall q, rd (stas s') q = if q =? p then Some (f t) else rd (stas s) q.
Proof.
  intros Hinv Ht Hp HpK. destruct (upd_sta_spec s p f t Ht) as (s' & Hu & Hf & Hmc & Hri & Hrd).
  exists s'. split; [done|]. split; [|done].
  destruct (v_ids _ _ _ Hinv) as (L & HL & HLin).
  apply (inv_sframe s s' H K K L); try done.
  - intros q t' HqH Hq. rewrite Hrd. destruct (Z.eqb_spec q p) as [->|]; [done|eauto].
  - rewrite Hmc. eapply iwf_stas; [|done]. intros q t' Hq Ht'. rewrite Hrd.
    destruct (Z.eqb_spec q p) as [->|]; [|eauto].
    apply HLin in Hq as [Hq|Hq]; [|done]. by destruct (in_hand_not_role _ _ _ _ Hinv Hp).
Qed.

(** ** Ids of a station in hand *)

Definition nroles (s : phl) : Z := Z.of_nat (length (roles s)).

(** Storing the id tables of a station in hand that has none. *)
Lemma alloc_macid_spec s H K p t r :
  inv s H K -> p ∈ H -> ~ p ∈ K -> rd (stas s) p = Some t -> wrole t = Some r ->
  0 <= r < nroles s ->
  exists s' ok m, phl_alloc_macid s p = Some (s', ok) /\ sframe s s' /\
    t_ring_list s' = t_ring_list s /\ max_num (mc s') = max_num (mc s) /\
    (forall q, rd (stas s') q = if q =? p then Some (set_macid t m) else rd (stas s) q) /\
    (forall k, 0 <= k < m -> exists q, rd (sta (mc s)) k = Some (Some q)) /\
    if ok : bool then
      inv s' H (p :: K) /\ 0 <= m < max_num (mc s) /\
      (forall q, rd (sta (mc s)) m <> Some (Some q)) /\
      (forall k, rd (sta (mc s')) k = if k =? m then Some (Some p) else rd (sta (mc s)) k)
    else inv s' H K /\ m = max_num (mc s) /\ mc s' = mc s.
Proof.
  intros Hinv HpH HpK Ht Hr Hrn. destruct (v_ids _ _ _ Hinv) as (L & HL & HLin).
  pose proof (i_max _ _ _ _ HL) as Hmax.
  assert (HpL : ~ p ∈ L).
  { rewrite HLin. intros [Hp|Hp]; [by eapply in_hand_not_role|done]. }
  destruct (first_free_ok (used_map (mc s)) (Z.to_nat (max_num (mc s))) 0)
    as (m & Hm & Hmr & Hbusy & Hfree); [apply HL|done|cbn; lia|].
  assert (Hbusy' : forall k, 0 <= k < m -> exists q, rd (sta (mc s)) k = Some (Some q)).
  { intros k Hk. apply (i_used _ _ _ _ HL); [lia|]. by apply Hbusy. }
  unfold phl_alloc_macid. rewrite Ht. cbn [mbind option_bind]. rewrite Hr, Hm.
  cbn [mbind option_bind]. destruct (Z.eqb_spec m (max_num (mc s))) as [->|Hne].
  - destruct (inv_upd_hand s H K p (fun t => set_macid t (max_num (mc s))) t)
      as (s' & -> & Hinv' & Hf & Hmc & Hri & Hrd); [done..|]. cbn [mbind option_bind].
    exists s', false, (max_num (mc s)). rewrite Hmc. split_all.
  - destruct (rd_is_wr _ _ _ (set_macid t m) Ht) as [st' Hst'].
    destruct (take_macid_ok (stas s) st' (mc s) (nroles s) L p r m t HL Ht Hr
                (mac_eq bc_addr (mac_addr t)))
      as (c' & -> & HL' & Hmx & Htab); [done|lia|apply Hfree; lia|done|done|].
    cbn [mbind option_bind]. unfold upd_sta. cbn [stas with_mc]. rewrite Ht.
    cbn [mbind option_bind]. rewrite Hst'. cbn [mbind option_bind].
    exists (with_stas (with_mc s c') st'), true, m.
    assert (Hf : sframe s (with_stas (with_mc s c') st'))
      by (split; [done|done|by eapply wr_length]).
    split; [done|]. split; [done|]. split; [done|]. split; [done|].
    split; [intros q; by apply rd_wr|]. split; [done|]. split; [|split; [lia|split; [|done]]].
    + apply (inv_sframe s _ H K (p :: K) (p :: L)); try done.
      * intros q t' HqH Hq. cbn. rewrite (rd_wr _ _ _ _ _ Hst').
        destruct (Z.eqb_spec q p) as [->|]; [done|eauto].
      * intros q. rewrite !elem_of_cons, HLin. tauto.
    + intros q Hq. assert (words_bits (used_map (mc s)) m = true).
      { apply (i_used _ _ _ _ HL); [lia|eauto]. }
      assert (words_bits (used_map (mc s)) m = false) by (apply Hfree; lia). congruence.
Qed.

Lemma release_macid_spec s H K p t :
  inv s H K -> p ∈ H -> p ∈ K -> rd (stas s) p = Some t ->
  exists s', phl_release_macid s p = Some (s', true) /\ sframe s s' /\
    t_ring_list s' = t_ring_list s /\ max_num (mc s') = max_num (mc s) /\
    inv s' H (remove_p p K) /\
    (forall q, rd (stas s') q =
       if q =? p then Some (set_macid t (max_num (mc s))) else rd (stas s) q) /\
    (forall k, rd (sta (mc s')) k = if k =? macid t then Some None else rd (sta (mc s)) k).
Proof.
  intros Hinv HpH HpK Ht. destruct (v_ids _ _ _ Hinv) as (L & HL & HLin).
  assert (HpL : p ∈ L) by (rewrite HLin; by right).
  destruct (i_live _ _ _ _ HL p HpL) as (t0 & r & Ht0 & Hr & Hrn & Hm & Htab).
  rewrite Ht in Ht0. injection Ht0 as <-. pose proof (i_max _ _ _ _ HL) as Hmax.
  destruct (rd_is_wr _ _ _ (set_macid t (max_num (mc s))) Ht) as [st' Hst'].
  destruct (give_macid_ok (stas s) st' (mc s) (nroles s) L p r (macid t) t HL Ht Hr
              (mac_eq bc_addr (mac_addr t)) HpL eq_refl Hst')
    as (c' & Hgive & HL' & Hmx & Htab').
  unfold phl_release_macid. rewrite Ht. cbn [mbind option_bind].
  destruct (Z.leb_spec (max_num (mc s)) (macid t)); [lia|].
  unfold phl_macid_is_used. rewrite (words_test_ok 8) by (apply HL || lia).
  cbn [mbind option_bind].
  assert (words_bits (used_map (mc s)) (macid t) = true) as ->
    by (apply (i_used _ _ _ _ HL); [lia|eauto]).
  cbn [negb]. rewrite Hr. cbn [mbind option_bind]. rewrite Hgive. cbn [mbind option_bind].
  unfold upd_sta. cbn [stas with_mc]. rewrite Ht. cbn [mbind option_bind mc with_mc].
  rewrite Hmx, Hst'. cbn [mbind option_bind].
  exists (with_stas (with_mc s c') st').
  assert (Hf : sframe s (with_stas (with_mc s c') st'))
    by (split; [done|done|by eapply wr_length]).
  split; [done|]. split; [done|]. split; [done|]. split; [done|]. split; [|split; [|done]].
  - apply (inv_sframe s _ H K (remove_p p K) (remove_p p L)); try done.
    + intros q t' HqH Hq. cbn. rewrite (rd_wr _ _ _ _ _ Hst').
      destruct (Z.eqb_spec q p) as [->|]; [done|eauto].
    + intros q. rewrite !elem_remove, HLin. split; [tauto|].
      intros [Hq|[? ?]]; [|tauto]. split; [|tauto]. intros ->. by eapply in_hand_not_role.
  - intros q. by apply rd_wr.
Qed.

Lemma inv_rings s H K x y : inv s H K -> inv (with_rings s x y) H K.
Proof. intros []. by split. Qed.
Lemma inv_events s H K e : inv s H K -> inv (with_events s e) H K.
Proof. intros []. by split. Qed.

(** Freeing a station in hand. *)
Lemma free_stainfo_sw_spec s H K p t :
  inv s H K -> p ∈ H -> p ∈ K -> rd (stas s) p = Some t ->
  exists s' t', phl_free_stainfo_sw s (Some p) = Some (s', true) /\ sframe s s' /\
    max_num (mc s') = max_num (mc s) /\ inv s' H (remove_p p K) /\
    (forall q, rd (stas s') q = if q =? p then Some t' else rd (stas s) q) /\
    macid t' = max_num (mc s) /\ mac_addr t' = mac_addr t /\
    Forall (fun x => x = None) (tid_rx t') /\
    (forall k, rd (sta (mc s')) k = if k =? macid t then Some None else rd (sta (mc s)) k).
Proof.
  intros Hinv HpH HpK Ht. unfold phl_free_stainfo_sw, free_rx_reorder.
  rewrite Ht. cbn [mbind option_bind].
  destruct (Reorder.phl_free_rx_reorder _) as [i ev] eqn:Hro.
  destruct (inv_upd s H K p (fun t => set_tid_rx t (Reorder.tid_rx i)) t)
    as (s1 & -> & Hinv1 & Hf1 & Hmc1 & Hri1 & Hrd1); [done..|].
  cbn [mbind option_bind stas with_events]. rewrite Hrd1, Z.eqb_refl. cbn [mbind option_bind].
  set (t1 := set_tid_rx t (Reorder.tid_rx i)) in *.
  set (s2 := with_events s1 (events s1 ++ ev)).
  assert (Hinv2 : inv s2 H K) by by apply inv_events.
  assert (Hdereg : exists s3 b, phl_deregister_tx_ring s2 (macid t1) = (s3, b) /\
            inv s3 H K /\ sframe s2 s3 /\ stas s3 = stas s2 /\ mc s3 = mc s2).
  { unfold phl_deregister_tx_ring. destruct (remove_first _ _).
    - eexists _, _. split; [done|]. split; [by apply inv_rings|]. by split.
    - eexists _, _. split; [done|]. by split. }
  destruct Hdereg as (s3 & b & -> & Hinv3 & Hf3 & Hst3 & Hmc3).
  destruct (release_macid_spec s3 H K p t1) as (s4 & -> & Hf4 & Hri4 & Hmx4 & Hinv4 & Hrd4 & Htab4);
    [done|done|done|rewrite Hst3; cbn; by rewrite Hrd1, Z.eqb_refl|].
  assert (Hmcs : mc s3 = mc s) by (rewrite Hmc3; exact Hmc1).
  exists s4, (set_macid t1 (max_num (mc s3))). split; [done|].
  split; [|split; [by rewrite Hmx4, Hmcs|split; [done|split; [|split; [by rewrite Hmcs|split; [done|split]]]]]].
  - eapply sframe_trans; [|done]. eapply sframe_trans; [|done]. destruct Hf1. by split.
  - intros q. rewrite Hrd4, Hst3. cbn. rewrite Hrd1. by destruct (q =? p).
  - unfold Reorder.phl_free_rx_reorder in Hro. cbn in Hro. injection Hro as <- <-. cbn.
    apply Forall_fmap. apply Forall_forall. done.
  - intros k. rewrite Htab4, Hmcs. done.
Qed.

(** ** Unlinking *)

Lemma remove_p_id p l : p ∉ l -> remove_p p l = l.
Proof.
  induction l as [|x l IH]; [done|]. rewrite not_elem_of_cons. intros [Hne Hl].
  unfold remove_p in *. rewrite filter_cons_True by done. by rewrite IH.
Qed.

Lemma remove_p_perm p l : NoDup l -> p ∈ l -> l ≡ₚ p :: remove_p p l.
Proof.
  intros Hnd Hp. apply NoDup_Permutation; [done| |].
  - constructor; [rewrite elem_remove; tauto|]. by apply NoDup_filter.
  - intros x. rewrite elem_of_cons, elem_remove. destruct (decide (x = p)) as [->|]; tauto.
Qed.

Lemma wr_wr {A} (l l1 : list A) i a b : wr l i a = Some l1 -> wr l1 i b = wr l i b.
Proof.
  intros H. pose proof (wr_length _ _ _ _ H) as Hlen. apply wr_inv in H as [Hi ->].
  rewrite !wr_some by (rewrite ?length_insert; lia). by rewrite list_insert_insert_eq.
Qed.

Lemma list_del_spec s H K r y p :
  inv s H K -> rd (roles s) r = Some y -> p ∈ queue (assoc_sta_queue y) ->
  exists l, list_del s p = Some (with_roles s l) /\
    wr (roles s) r (set_assoc y (mk_q (remove_p p (queue (assoc_sta_queue y)))
                                      (cnt (assoc_sta_queue y)))) = Some l.
Proof.
  intros Hinv Hy Hp. set (y' := set_assoc _ _).
  destruct (rd_is_wr _ _ _ y' Hy) as [l Hl]. exists l. split; [|done].
  assert (Hq : get_q s (QRole r) = Some (assoc_sta_queue y)) by (cbn; by rewrite Hy).
  unfold list_del. rewrite bool_decide_eq_true_2; cycle 1.
  { destruct (get_q_nodes _ _ _ Hq) as [rest E]. unfold all_nodes, nodes_of in E.
    rewrite E. apply elem_of_app. by left. }
  f_equal. unfold with_roles, with_free. cbn. f_equal.
  - rewrite remove_p_id; [by destruct (free_sta_queue s)|].
    by eapply (queues_disjoint s H K (QRole r) QFree).
  - apply wr_inv in Hl as [Hr ->]. apply list_eq. intros i. rewrite list_lookup_fmap.
    destruct (decide (i = Z.to_nat r)) as [->|Hne].
    + rewrite list_lookup_insert_eq by lia. rewrite <- rd_lookup, Hy by lia. done.
    + rewrite list_lookup_insert_ne by done.
      destruct (roles s !! i) as [z|] eqn:Hz; [|done]. cbn. f_equal.
      rewrite remove_p_id; [by destruct z as [? ? []]|].
      eapply (queues_disjoint s H K (QRole r) (QRole (Z.of_nat i))); try done.
      * intros [= ->]. rewrite Nat2Z.id in Hne. done.
      * cbn. rewrite rd_lookup, Nat2Z.id, Hz by lia. done.
Qed.

Lemma queue_del_spec s H K r x p :
  inv s H K -> get_q s (QRole r) = Some x -> p ∈ queue x ->
  exists s', phl_stainfo_queue_del s (QRole r) (Some p) = Some (s', true) /\
    inv s' (p :: H) (p :: K) /\ qframe s s' /\
    get_q s' (QRole r) = Some (mk_q (remove_p p (queue x)) (cnt x - 1)) /\
    forall q, q <> QRole r -> get_q s' q = get_q s q.
Proof.
  intros Hinv Hq Hp. unfold phl_stainfo_queue_del. rewrite Hq. cbn [mbind option_bind].
  pose proof (v_cnt _ _ _ Hinv _ _ Hq) as Hcnt.
  assert (Hnd : NoDup (queue x)).
  { pose proof (inv_nodup _ _ _ Hinv) as Hnd. apply NoDup_app in Hnd as (Hnd & _ & _).
    destruct (get_q_nodes _ _ _ Hq) as [rest E]. rewrite E in Hnd. by apply NoDup_app in Hnd as [? _]. }
  pose proof (remove_p_perm p (queue x) Hnd Hp) as Hperm.
  assert (Hlen : length (queue x) = S (length (remove_p p (queue x)))) by by rewrite Hperm at 1.
  destruct (Z.eqb_spec (cnt x) 0); [lia|].
  pose proof Hq as Hq'. cbn [get_q] in Hq'.
  destruct (rd (roles s) r) as [y|] eqn:Hy; [|done]. cbn in Hq'. injection Hq' as <-.
  destruct (list_del_spec s H K r y p Hinv Hy Hp) as (l & -> & Hl). cbn [mbind option_bind].
  cbn [get_q put_q with_roles roles]. rewrite (rd_wr _ _ _ _ r Hl), Z.eqb_refl.
  cbn [mbind option_bind assoc_sta_queue set_assoc queue cnt].
  rewrite (wr_wr _ _ _ _ _ Hl).
  destruct (inv_put s H K (QRole r) (assoc_sta_queue y)
     (mk_q (remove_p p (queue (assoc_sta_queue y))) (cnt (assoc_sta_queue y) - 1)) (p :: H) (p :: K))
    as (s' & Hput & Hinv' & Hf & Hg); [done|done| | | | |].
  - cbn. rewrite Hperm at 1. solve_Permutation.
  - cbn [cnt queue]. lia.
  - intros r' q [= <-] Hq'. cbn in Hq'. apply elem_remove in Hq' as [_ Hq'].
    by eapply (v_link _ _ _ Hinv).
  - intros q. cbn. rewrite elem_of_cons, elem_remove. destruct (decide (q = p)) as [->|]; tauto.
  - cbn [put_q] in Hput. rewrite Hy in Hput. cbn [mbind option_bind] in Hput.
    unfold set_assoc in *. cbn [rtype rmac] in *. 
    match type of Hput with context [wr ?a ?b ?c] => destruct (wr a b c) as [l'|]; [|done] end.
    cbn [mbind option_bind] in *. injection Hput as <-. eexists. split; [done|].
    split; [done|]. split; [done|].
    pose proof (Hg (QRole r)) as Hg0. rewrite decide_True in Hg0 by done. split; [exact Hg0|].
    intros q Hne. pose proof (Hg q) as Hg1. rewrite decide_False in Hg1 by done. exact Hg1.
Qed.

(** ** Allocation *)

Lemma get_q_total s r : 0 <= r < nroles s -> exists x y, rd (roles s) r = Some y /\
  get_q s (QRole r) = Some x /\ x = assoc_sta_queue y.
Proof.
  intros Hr. destruct (rd_some (roles s) r) as [y Hy]; [done|]. cbn. rewrite Hy. eauto.
Qed.

Lemma qframe_nroles s s' : qframe s s' -> nroles s' = nroles s.
Proof. intros []. unfold nroles. by f_equal. Qed.
Lemma sframe_nroles s s' : sframe s s' -> nroles s' = nroles s.
Proof. intros []. unfold nroles. by f_equal; f_equal. Qed.

Lemma alloc_ids_spec s H K p t r ring_ok :
  inv s H K -> p ∈ H -> ~ p ∈ K -> rd (stas s) p = Some t -> wrole t = Some r ->
  0 <= r < nroles s ->
  exists s' ok t', phl_alloc_stainfo_sw_ids s p ring_ok = Some (s', ok) /\ sframe s s' /\
    (forall q, rd (stas s') q = if q =? p then Some t' else rd (stas s) q) /\
    mac_addr t' = mac_addr t /\ wrole t' = wrole t /\ active t' = active t /\
    max_num (mc s') = max_num (mc s) /\
    (ok = false -> inv s' H K) /\
    (ok = true -> inv s' H (p :: K) /\
      (forall k, 0 <= k < macid t' -> exists q, rd (sta (mc s)) k = Some (Some q)) /\
      rd (sta (mc s)) (macid t') <> None /\
      (forall q, rd (sta (mc s)) (macid t') <> Some (Some q))) /\
    (ring_ok = true -> (exists k, 0 <= k < max_num (mc s) /\ rd (sta (mc s)) k = Some None) ->
     ok = true).
Proof.
  intros Hinv HpH HpK Ht Hr Hrn. unfold phl_alloc_stainfo_sw_ids.
  destruct (alloc_macid_spec s H K p t r) as
    (s1 & ok & m & -> & Hf & Hri & Hmx & Hrd & Hbusy & Hok); [done..|].
  cbn [mbind option_bind].
  assert (Hm0 : 0 <= m -> m < max_num (mc s) -> rd (sta (mc s)) m <> None).
  { intros. destruct (v_ids _ _ _ Hinv) as (L & HL & _).
    destruct (rd_some (sta (mc s)) m) as [? ->]; [|done].
    rewrite (i_sta _ _ _ _ HL). destruct (i_max _ _ _ _ HL). lia. }
  destruct ok; cbn [negb].
  - destruct Hok as (Hinv1 & Hm & Hfree & Htab). rewrite Hrd, Z.eqb_refl. cbn [mbind option_bind].
    unfold phl_register_tx_ring. destruct ring_ok.
    + eexists _, true, (set_macid t m). split; [done|]. split; [by destruct Hf|].
      split; [done|]. do 4 (split; [done|]). split; [done|]. split; [|done].
      intros _. split; [by apply inv_rings|]. split; [done|]. split; [by apply Hm0; lia|done].
    + destruct (release_macid_spec s1 H (p :: K) p (set_macid t m)) as
        (s2 & -> & Hf2 & Hri2 & Hmx2 & Hinv2 & Hrd2 & Htab2); [done|done|by left|by rewrite Hrd, Z.eqb_refl|].
      cbn [mbind option_bind].
      eexists _, false, (set_macid (set_macid t m) (max_num (mc s1))). split; [done|].
      split; [by eapply sframe_trans|].
      split; [intros q; rewrite Hrd2, Hrd; by destruct (q =? p)|].
      do 3 (split; [done|]). split; [congruence|]. split; [|split; [done|done]].
      intros _. unfold remove_p in Hinv2. rewrite filter_cons_False in Hinv2 by tauto.
      fold (remove_p p K) in Hinv2. by rewrite remove_p_id in Hinv2.
  - destruct Hok as (Hinv1 & -> & Hmc). eexists _, false, _. split; [done|]. split; [done|].
    split; [done|]. do 4 (split; [done|]). split; [done|]. split; [done|].
    intros _ (k & Hk & Hkn). destruct (Hbusy k Hk) as [q Hq]. congruence.
Qed.

(** What the part after the look-ups does: a new station, or nothing. *)
Lemma alloc_new_spec s addr r ring_ok :
  inv s [] [] -> 0 <= r < nroles s ->
  exists s' o, alloc_new s addr r ring_ok = Some (s', o) /\ inv s' [] [] /\
    nroles s' = nroles s /\ max_num (mc s') = max_num (mc s) /\
    match o with
    | None => forall q, get_q s' (QRole q) = get_q s (QRole q)
    | Some p => exists t x, rd (stas s') p = Some t /\ mac_addr t = addr /\ wrole t = Some r /\
        head (queue (free_sta_queue s)) = Some p /\
        get_q s (QRole r) = Some x /\
        get_q s' (QRole r) = Some (mk_q (queue x ++ [p]) (cnt x + 1)) /\
        (forall q, q <> r -> get_q s' (QRole q) = get_q s (QRole q)) /\
        (forall k, 0 <= k < macid t -> exists q, rd (sta (mc s)) k = Some (Some q)) /\
        rd (sta (mc s)) (macid t) = Some None /\
        (forall q, q <> p -> rd (stas s') q = rd (stas s) q)
    end /\
    (ring_ok = true -> queue (free_sta_queue s) <> [] ->
     (exists k, 0 <= k < max_num (mc s) /\ rd (sta (mc s)) k = Some None) -> o <> None).
Proof.
  intros Hinv Hr. unfold alloc_new.
  destruct (dequeue_free s [] [] Hinv) as [[Hempty ->]|(s1 & p & -> & Hinv1 & Hf1 & Hq1 & Hr1)].
  { cbn [mbind option_bind]. exists s, None. by split_all. }
  cbn [mbind option_bind]. pose proof (qframe_nroles _ _ Hf1) as Hn1. destruct Hf1 as [F1 F2 F3 F4 _].
  destruct (in_pool s1 [p] [] p Hinv1) as [t Ht]; [apply elem_of_app; right; by left|].
  destruct (inv_upd_hand s1 [p] [] p (fun t => set_wrole (set_mac t addr) (Some r)) t)
    as (s2 & -> & Hinv2 & Hf2 & Hmc2 & _ & Hrd2); [done|done|by left|by intros ?%not_elem_of_nil|].
  cbn [mbind option_bind]. pose proof (sframe_nroles _ _ Hf2) as Hn2.
  set (t2 := set_wrole (set_mac t addr) (Some r)) in *.
  destruct (alloc_ids_spec s2 [p] [] p t2 r ring_ok) as
    (s3 & ok & t3 & -> & Hf3 & Hrd3 & Ha3 & Hw3 & _ & Hmx3 & Hbad & Hgood & Hprog);
    [done|by left|by intros ?%not_elem_of_nil|by rewrite Hrd2, Z.eqb_refl|done|by rewrite Hn2, Hn1|].
  pose proof (sframe_nroles _ _ Hf3) as Hn3. rewrite Hmc2, F2 in *.
  assert (Hq3 : forall q, get_q s3 (QRole q) = get_q s (QRole q)).
  { intros q. by rewrite (sframe_q _ _ _ Hf3), (sframe_q _ _ _ Hf2). }
  cbn [mbind option_bind]. destruct ok; cbn [negb].
  - destruct (Hgood eq_refl) as (Hinv3 & Hlow & Hmt & Hfree).
    destruct (inv_upd s3 [p] [p] p phl_sta_set_default_value t3)
      as (s4 & -> & Hinv4 & Hf4 & Hmc4 & _ & Hrd4); [done|by rewrite Hrd3, Z.eqb_refl|done|done|].
    cbn [mbind option_bind]. pose proof (sframe_nroles _ _ Hf4) as Hn4.
    destruct (get_q_total s r Hr) as (x & y & Hy & Hx & _).
    destruct (enqueue_role s4 [] [] p r x (phl_sta_set_default_value t3))
      as (s5 & -> & Hinv5 & Hf5 & Hg5 & Ho5);
      [done|by rewrite (sframe_q _ _ _ Hf4), Hq3|by rewrite Hrd4, Z.eqb_refl|cbn; by rewrite Hw3|].
    cbn [mbind option_bind]. pose proof (qframe_nroles _ _ Hf5) as Hn5. destruct Hf5 as [G1 G2 _ _ _].
    exists s5, (Some p). split; [done|]. split; [done|]. split; [congruence|].
    split; [by rewrite G2, Hmc4, Hmx3|]. split; [|done].
    exists (phl_sta_set_default_value t3), x. rewrite G1. split; [by rewrite Hrd4, Z.eqb_refl|].
    split; [exact Ha3|]. split; [exact Hw3|]. split; [by rewrite Hq1|]. split; [done|].
    split; [done|]. split.
    { intros q Hq. rewrite Ho5 by congruence. by rewrite (sframe_q _ _ _ Hf4). }
    split; [done|]. split.
    { cbn. destruct (rd (sta (mc s)) (macid t3)) as [[q|]|] eqn:E; [by destruct (Hfree q)|done|done]. }
    intros q Hq. rewrite Hrd4, Hrd3, Hrd2. destruct (Z.eqb_spec q p); [done|]. by rewrite F1.
  - specialize (Hbad eq_refl).
    destruct (enqueue_free s3 [] [] p Hbad) as (s4 & -> & Hinv4 & Hf4 & Hg4 & Ho4).
    cbn [mbind option_bind]. pose proof (qframe_nroles _ _ Hf4) as Hn4.
    exists s4, None. split; [done|]. split; [done|]. split; [congruence|].
    split; [by rewrite (qf_mc _ _ Hf4), Hmx3|]. split; [intros q; by rewrite Ho4|].
    intros Hro _ Hk. by specialize (Hprog Hro Hk).
Qed.

(** ** Look-ups *)

Lemma search_list_spec st l addr :
  (forall p, p ∈ l -> exists t, rd st p = Some t) ->
  exists o, search_list st l addr = Some o /\
    match o with
    | Some p => p ∈ l /\ exists t, rd st p = Some t /\ mac_addr t = addr
    | None => forall p t, p ∈ l -> rd st p = Some t -> mac_addr t <> addr
    end.
Proof.
  induction l as [|p l IH]; intros Hl; cbn.
  { exists None. split; [done|]. by intros p t ?%not_elem_of_nil. }
  destruct (Hl p) as [t Ht]; [by left|]. rewrite Ht. cbn. unfold mac_eq.
  case_bool_decide as Hm.
  - exists (Some p). split; [done|]. split; [by left|eauto].
  - destruct IH as (o & -> & Ho); [intros q ?; apply Hl; by right|].
    exists o. split; [done|]. destruct o as [q|].
    + destruct Ho as [? ?]. split; [by right|done].
    + intros q u Hq Hu. apply elem_of_cons in Hq as [->|Hq]; [congruence|eauto].
Qed.

Lemma role_in_pool s H K p : inv s H K -> in_role s p -> exists t, rd (stas s) p = Some t.
Proof. intros Hinv (r & x & Hq & Hp). destruct (v_link _ _ _ Hinv r x p) as (t & ? & _); eauto. Qed.

(** The stations the tables know are those of the roles. *)
Lemma table_in_role s m p : inv s [] [] ->
  rd (sta (mc s)) m = Some (Some p) -> in_role s p /\ exists t, rd (stas s) p = Some t /\ macid t = m.
Proof.
  intros Hinv Hm. destruct (v_ids _ _ _ Hinv) as (L & HL & HLin).
  destruct (i_tab _ _ _ _ HL m p Hm) as [Hp ?]. apply HLin in Hp as [?|?%not_elem_of_nil]; done.
Qed.

Lemma role_in_table s p : inv s [] [] -> in_role s p ->
  exists t, rd (stas s) p = Some t /\ 0 <= macid t < max_num (mc s) /\
    rd (sta (mc s)) (macid t) = Some (Some p).
Proof.
  intros Hinv Hp. destruct (v_ids _ _ _ Hinv) as (L & HL & HLin).
  destruct (i_live _ _ _ _ HL p) as (t & r & ? & ? & ? & ? & ?); [apply HLin; by left|eauto].
Qed.

Lemma get_stainfo_by_macid_spec s m : inv s [] [] -> 0 <= m ->
  exists o, rtw_phl_get_stainfo_by_macid s m = Some o /\
    forall p, o = Some p <-> m < max_num (mc s) /\ rd (sta (mc s)) m = Some (Some p).
Proof.
  intros Hinv Hm. destruct (v_ids _ _ _ Hinv) as (L & HL & _).
  pose proof (i_max _ _ _ _ HL). unfold rtw_phl_get_stainfo_by_macid.
  destruct (Z.leb_spec (max_num (mc s)) m).
  { exists None. split; [done|]. intros p. split; [done|lia]. }
  unfold phl_macid_is_used. rewrite (words_test_ok 8) by (apply HL || lia). cbn [mbind option_bind].
  pose proof (i_used _ _ _ _ HL m ltac:(lia)) as Hu.
  destruct (words_bits (used_map (mc s)) m).
  - destruct Hu as [[q Hq] _]; [done|]. exists (Some q). split; [done|]. intros p. rewrite Hq.
    split; [intros [= ->]; split_all|by intros [_ [= ->]]].
  - exists None. split; [done|]. intros p. split; [done|].
    intros [_ Hp]. destruct Hu as [_ Hu]. by discriminate Hu; eauto.
Qed.

Lemma get_stainfo_by_addr_spec s r addr : inv s [] [] -> 0 <= r < nroles s ->
  exists o, rtw_phl_get_stainfo_by_addr s r addr = Some o /\
    (forall p, o = Some p -> in_role s p) /\
    (is_broadcast_mac_addr addr = false -> forall x, get_q s (QRole r) = Some x ->
       match o with
       | Some p => p ∈ queue x /\ exists t, rd (stas s) p = Some t /\ mac_addr t = addr
       | None => forall p t, p ∈ queue x -> rd (stas s) p = Some t -> mac_addr t <> addr
       end).
Proof.
  intros Hinv Hr. destruct (v_ids _ _ _ Hinv) as (L & HL & _).
  unfold rtw_phl_get_stainfo_by_addr. destruct (is_broadcast_mac_addr addr).
  - destruct (rd_some (wrole_bmc (mc s)) r) as [m Hm]; [rewrite (i_wb _ _ _ _ HL); done|].
    rewrite Hm. cbn [mbind option_bind].
    assert (0 <= m).
    { rewrite rd_lookup in Hm by lia. by eapply (Forall_lookup_1 _ _ _ _ (i_wbn _ _ _ _ HL)). }
    destruct (Z.leb_spec (max_num (mc s)) m).
    { exists None. by split_all. }
    destruct (rd_some (sta (mc s)) m) as [o Ho].
    { rewrite (i_sta _ _ _ _ HL). destruct (i_max _ _ _ _ HL). lia. }
    exists o. rewrite Ho. split; [done|]. split; [|done].
    intros p ->. by eapply table_in_role.
  - unfold phl_stainfo_queue_search. destruct (get_q_total s r Hr) as (x & y & _ & Hx & _).
    rewrite Hx. cbn [mbind option_bind].
    destruct (search_list_spec (stas s) (queue x) addr) as (o & -> & Ho).
    { intros p Hp. eapply role_in_pool; [done|]. by exists r, x. }
    exists o. split; [done|]. split.
    + intros p ->. exists r, x. by destruct Ho.
    + intros _ x' [= <-]. done.
Qed.

Lemma alloc_sw_spec s addr r ring_ok : inv s [] [] -> 0 <= r < nroles s ->
  exists s' o, phl_alloc_stainfo_sw s addr r ring_ok = Some (s', o) /\ inv s' [] [] /\
    nroles s' = nroles s /\ max_num (mc s') = max_num (mc s) /\
    forall p, o = Some p -> in_role s' p.
Proof.
  intros Hinv Hr. destruct (get_q_total s r Hr) as (x & y & Hy & Hx & _).
  unfold phl_alloc_stainfo_sw. rewrite Hy. cbn [mbind option_bind].
  assert (Hsearch : exists s' o,
    (o ← rtw_phl_get_stainfo_by_addr s r addr;
     match o with Some p => Some (s, Some p) | None => alloc_new s addr r ring_ok end)
    = Some (s', o) /\ inv s' [] [] /\ nroles s' = nroles s /\
    max_num (mc s') = max_num (mc s) /\ forall p, o = Some p -> in_role s' p).
  { destruct (get_stainfo_by_addr_spec s r addr Hinv Hr) as (o & -> & Hin & _).
    cbn [mbind option_bind]. destruct o as [p|].
    - exists s, (Some p). by split_all.
    - destruct (alloc_new_spec s addr r ring_ok Hinv Hr) as (s' & o & -> & Hi & Hn & Hm & Ho & _).
      exists s', o. split_all. intros p ->. destruct Ho as (t & z & _ & _ & _ & _ & _ & Hq & _).
      eexists r, _. split; [done|]. cbn. apply elem_of_app. right. by left. }
  destruct (_ && _); [|exact Hsearch].
  unfold rtw_phl_get_stainfo_self, phl_stainfo_queue_get_first. rewrite Hx.
  cbn [mbind option_bind]. destruct (queue x) as [|p l] eqn:E; [exact Hsearch|]. cbn [head].
  assert (Hp : in_role s p) by (exists r, x; rewrite E; split; [done|by left]).
  destruct (role_in_pool _ _ _ _ Hinv Hp) as [t Ht].
  destruct (inv_upd s [] [] p (fun t => set_mac t addr) t) as (s1 & -> & Hi & Hf & Hmc & _ & _); [done..|].
  cbn [mbind option_bind]. exists s1, (Some p). rewrite Hmc. split_all.
  - by apply sframe_nroles.
  - intros q [= <-]. destruct Hp as (r' & x' & Hq & Hin). exists r', x'.
    by rewrite (sframe_q _ _ _ Hf).
Qed.

(** ** Release *)

Lemma self_chk_spec s H K r p t : inv s H K -> 0 <= r < nroles s -> rd (stas s) p = Some t ->
  exists s' b t', phl_self_stainfo_chk s r p = Some (s', b) /\ inv s' H K /\ sframe s s' /\
    mc s' = mc s /\
    (forall q, rd (stas s') q = if q =? p then Some t' else rd (stas s) q) /\
    macid t' = macid t /\ wrole t' = wrole t.
Proof.
  intros Hinv Hr Ht. destruct (get_q_total s r Hr) as (x & y & Hy & Hx & _).
  unfold phl_self_stainfo_chk. rewrite Hy. cbn [mbind option_bind].
  destruct (inv_upd s H K p (fun t => set_mac t (rmac y)) t) as (s1 & Hu & Hi & Hf & Hmc & _ & Hrd);
    [done..|].
  assert (Hself : forall q, rd (stas s) q = if q =? p then Some t else rd (stas s) q)
    by (intros q; destruct (Z.eqb_spec q p) as [->|]; done).
  destruct (rtype y); rewrite ?Hu, ?Ht; cbn [mbind option_bind];
    first [by exists s1, true, (set_mac t (rmac y)) | by eexists s, _, t].
Qed.

(** [p] has left its role for the free queue and holds no id. *)
Record released (s s' : phl) (p r m : Z) : Prop := {
  re_inv : inv s' [] [];
  re_free : exists l, queue (free_sta_queue s') = l ++ [p];
  re_role : forall x, get_q s (QRole r) = Some x ->
    get_q s' (QRole r) = Some (mk_q (remove_p p (queue x)) (cnt x - 1));
  re_roles : forall q, q <> r -> get_q s' (QRole q) = get_q s (QRole q);
  re_tab : forall k, rd (sta (mc s')) k = if k =? m then Some None else rd (sta (mc s)) k;
  re_sta : exists t, rd (stas s') p = Some t /\ macid t = max_num (mc s) /\
    Forall (fun x => x = None) (tid_rx t);
  re_n : nroles s' = nroles s;
  re_max : max_num (mc s') = max_num (mc s)
}.

Lemma free_queued_spec s p r x t :
  inv s [] [] -> get_q s (QRole r) = Some x -> p ∈ queue x -> rd (stas s) p = Some t ->
  exists s', ('(s, _) ← phl_stainfo_queue_del s (QRole r) (Some p);
              '(s, _) ← phl_free_stainfo_sw s (Some p);
              phl_stainfo_enqueue s QFree (Some p)) = Some (s', true) /\
    released s s' p r (macid t).
Proof.
  intros Hinv Hq Hp Ht.
  destruct (queue_del_spec s [] [] r x p Hinv Hq Hp) as (s1 & -> & Hi1 & Hf1 & Hg1 & Ho1).
  cbn [mbind option_bind]. pose proof (qframe_nroles _ _ Hf1) as Hn1. destruct Hf1 as [F1 F2 _ _ _].
  destruct (free_stainfo_sw_spec s1 [p] [p] p t) as
    (s2 & t2 & -> & Hf2 & Hm2 & Hi2 & Hrd2 & Ha2 & Hmac2 & Hro2 & Htab2);
    [done|by left|by left|by rewrite F1|].
  cbn [mbind option_bind]. pose proof (sframe_nroles _ _ Hf2) as Hn2.
  unfold remove_p in Hi2. rewrite filter_cons_False in Hi2 by tauto. cbn in Hi2.
  destruct (enqueue_free s2 [] [] p Hi2) as (s3 & -> & Hi3 & Hf3 & Hg3 & Ho3).
  pose proof (qframe_nroles _ _ Hf3) as Hn3. destruct Hf3 as [G1 G2 _ _ _].
  exists s3. split; [done|]. split.
  - done.
  - eauto.
  - intros x' Hx'. rewrite Hq in Hx'. injection Hx' as <-.
    by rewrite Ho3, (sframe_q _ _ _ Hf2).
  - intros q Hne. rewrite Ho3, (sframe_q _ _ _ Hf2). apply Ho1. congruence.
  - intros k. rewrite G2, Htab2, F2. done.
  - exists t2. rewrite G1, Hrd2, Z.eqb_refl, Ha2, F2. done.
  - congruence.
  - by rewrite G2, Hm2, F2.
Qed.

Lemma free_sw_spec s p : inv s [] [] -> in_role s p ->
  exists s', __phl_free_stainfo_sw s (Some p) = Some (s', true) /\ inv s' [] [] /\
    nroles s' = nroles s /\ max_num (mc s') = max_num (mc s).
Proof.
  intros Hinv (r & x & Hq & Hp). destruct (v_link _ _ _ Hinv r x p Hq Hp) as (t & Ht & Hr).
  assert (Hrn : 0 <= r < nroles s).
  { cbn in Hq. destruct (rd (roles s) r) eqn:E; [|done]. by apply rd_inv in E. }
  unfold __phl_free_stainfo_sw. rewrite Ht. cbn [mbind option_bind]. rewrite Hr.
  cbn [mbind option_bind].
  destruct (free_queued_spec s p r x t Hinv Hq Hp Ht) as (s1 & E1 & R1).
  destruct (is_broadcast_mac_addr _).
  { exists s1. rewrite E1. destruct R1. done. }
  destruct (self_chk_spec s [] [] r p t Hinv Hrn Ht) as (s2 & b & t2 & -> & Hi & Hf & Hmc & Hrd & Hm & _).
  cbn [mbind option_bind]. pose proof (sframe_nroles _ _ Hf). destruct b.
  { exists s2. rewrite Hmc. done. }
  destruct (free_queued_spec s2 p r x t2 Hi) as (s3 & -> & R3);
    [by rewrite (sframe_q _ _ _ Hf)|done|by rewrite Hrd, Z.eqb_refl|].
  exists s3. destruct R3. rewrite <- Hmc. split_all.
Qed.

Lemma free_hw_spec s p hal_ok : inv s [] [] -> in_role s p ->
  exists s' b, __phl_free_stainfo_hw s (Some p) hal_ok = Some (s', b) /\ inv s' [] [] /\
    in_role s' p /\ nroles s' = nroles s /\ mc s' = mc s.
Proof.
  intros Hinv Hp. destruct Hp as (r & x & Hq & Hin).
  destruct (v_link _ _ _ Hinv r x p Hq Hin) as (t & Ht & Hr).
  assert (Hrn : 0 <= r < nroles s).
  { cbn in Hq. destruct (rd (roles s) r) eqn:Er; [|done]. by apply rd_inv in Er. }
  assert (Hkeep : forall s1, sframe s s1 -> in_role s1 p).
  { intros s1 Hf. exists r, x. by rewrite (sframe_q _ _ _ Hf). }
  unfold __phl_free_stainfo_hw. cbn [mbind option_bind]. rewrite Ht. cbn [mbind option_bind].
  destruct (inv_upd s [] [] p (fun t => set_active t false) t) as (s1 & Hu & Hi & Hf & Hmc & _ & Hrd);
    [done..|].
  assert (Hhw : phl_free_stainfo_hw s (Some p) hal_ok = Some (s1, hal_ok)).
  { unfold phl_free_stainfo_hw. by rewrite Hu. }
  destruct (is_broadcast_mac_addr _).
  { exists s1, hal_ok. pose proof (sframe_nroles _ _ Hf). split_all. by apply Hkeep. }
  rewrite Hr. cbn [mbind option_bind].
  destruct (self_chk_spec s [] [] r p t Hinv Hrn Ht) as (s2 & b & t2 & -> & Hi2 & Hf2 & Hmc2 & Hrd2 & _ & _).
  cbn [mbind option_bind]. pose proof (sframe_nroles _ _ Hf2). destruct b.
  { exists s2, true. split_all. by apply Hkeep. }
  destruct (inv_upd s2 [] [] p (fun t => set_active t false) t2) as (s3 & Hu3 & Hi3 & Hf3 & Hmc3 & _);
    [done|by rewrite Hrd2, Z.eqb_refl|done|done|].
  unfold phl_free_stainfo_hw. rewrite Hu3. cbn [mbind option_bind].
  exists s3, hal_ok. pose proof (sframe_nroles _ _ Hf3). split_all; [|congruence..].
  apply Hkeep. by eapply sframe_trans.
Qed.

Lemma free_spec s p hal_ok : inv s [] [] -> in_role s p ->
  exists s' b, __phl_free_stainfo s (Some p) hal_ok = Some (s', b) /\ inv s' [] [] /\
    nroles s' = nroles s /\ max_num (mc s') = max_num (mc s).
Proof.
  intros Hinv Hp. unfold __phl_free_stainfo.
  destruct (free_hw_spec s p hal_ok Hinv Hp) as (s1 & b & -> & Hi & Hp1 & Hn & Hm).
  cbn [mbind option_bind]. destruct (free_sw_spec s1 p Hi Hp1) as (s2 & -> & Hi2 & Hn2 & Hm2).
  exists s2, true. split_all; congruence.
Qed.

Lemma alloc_spec s addr r ring_ok hal_ok : inv s [] [] -> 0 <= r < nroles s ->
  exists s' o b, __phl_alloc_stainfo s addr r ring_ok hal_ok = Some (s', o, b) /\ inv s' [] [] /\
    nroles s' = nroles s /\ max_num (mc s') = max_num (mc s).
Proof.
  intros Hinv Hr. unfold __phl_alloc_stainfo.
  destruct (alloc_sw_spec s addr r ring_ok Hinv Hr) as (s1 & o & -> & Hi & Hn & Hm & Hin).
  cbn [mbind option_bind]. destruct o as [p|]; [|by eexists _, _, _].
  specialize (Hin p eq_refl). destruct (role_in_pool _ _ _ _ Hi Hin) as [t Ht].
  rewrite Ht. cbn [mbind option_bind]. destruct (active t); [by eexists _, _, _|].
  unfold phl_alloc_stainfo_hw. destruct hal_ok.
  - destruct (inv_upd s1 [] [] p (fun t => set_active t true) t) as (s2 & -> & Hi2 & Hf & Hmc & _);
      [done..|]. cbn [mbind option_bind]. pose proof (sframe_nroles _ _ Hf).
    eexists _, _, _. split; [done|]. split; [done|]. split; congruence.
  - cbn [mbind option_bind]. destruct (free_sw_spec s1 p Hi Hin) as (s2 & -> & Hi2 & Hn2 & Hm2).
    cbn [mbind option_bind]. eexists _, _, _. split; [done|]. split; [done|]. split; congruence.
Qed.

(** ** Freeing a role *)

Lemma role_free_loop_spec hw r fuel s x :
  inv s [] [] -> get_q s (QRole r) = Some x -> (length (queue x) < fuel)%nat ->
  exists s', role_free_loop hw fuel s r = Some s' /\ inv s' [] [] /\
    nroles s' = nroles s /\ max_num (mc s') = max_num (mc s) /\
    (exists y, get_q s' (QRole r) = Some y /\ queue y = []) /\
    (forall q, q <> r -> get_q s' (QRole q) = get_q s (QRole q)) /\
    exists l, queue (free_sta_queue s') = queue (free_sta_queue s) ++ l /\ l = queue x.
Proof.
  revert s x. induction fuel as [|fuel IH]; intros s x Hinv Hq Hlen; [lia|].
  pose proof (dequeue_role s [] [] r x Hinv Hq) as Hd. cbn [role_free_loop].
  destruct (queue x) as [|p l] eqn:E.
  { rewrite Hd. cbn [mbind option_bind]. exists s. split_all; [by exists x|].
    exists []. by rewrite app_nil_r. }
  destruct Hd as (s1 & -> & Hi1 & Hf1 & Hg1 & Ho1). cbn [mbind option_bind].
  pose proof (qframe_nroles _ _ Hf1) as Hn1. destruct Hf1 as [F1 F2 _ _ _].
  destruct (in_pool s1 [p] [p] p Hi1) as [t Ht]; [apply elem_of_app; right; by left|].
  assert (Hhw : exists s2 t2 b,
    (if hw then phl_free_stainfo_hw s1 (Some p) true else Some (s1, true)) = Some (s2, b) /\
    inv s2 [p] [p] /\ sframe s1 s2 /\ mc s2 = mc s1 /\ rd (stas s2) p = Some t2).
  { destruct hw; [|by exists s1, t, true].
    destruct (inv_upd s1 [p] [p] p (fun t => set_active t false) t) as
      (s2 & Hu & Hi2 & Hf2 & Hmc & _ & Hrd); [done..|].
    exists s2, (set_active t false), true. unfold phl_free_stainfo_hw. rewrite Hu.
    by rewrite Hrd, Z.eqb_refl. }
  destruct Hhw as (s2 & t2 & b & -> & Hi2 & Hf2 & Hmc2 & Ht2). cbn [mbind option_bind].
  pose proof (sframe_nroles _ _ Hf2) as Hn2.
  destruct (free_stainfo_sw_spec s2 [p] [p] p t2) as
    (s3 & t3 & -> & Hf3 & Hm3 & Hi3 & _); [done|by left|by left|done|].
  cbn [mbind option_bind]. pose proof (sframe_nroles _ _ Hf3) as Hn3.
  unfold remove_p in Hi3. rewrite filter_cons_False in Hi3 by tauto. cbn in Hi3.
  destruct (enqueue_free s3 [] [] p Hi3) as (s4 & -> & Hi4 & Hf4 & Hg4 & Ho4).
  cbn [mbind option_bind]. pose proof (qframe_nroles _ _ Hf4) as Hn4. destruct Hf4 as [G1 G2 _ _ _].
  destruct (IH s4 (mk_q l (cnt x - 1))) as (s5 & -> & Hi5 & Hn5 & Hm5 & He5 & Ho5 & l5 & Hl5 & ->).
  { done. }
  { by rewrite Ho4, (sframe_q _ _ _ Hf3), (sframe_q _ _ _ Hf2). }
  { cbn in *. lia. }
  exists s5. split; [done|]. split; [done|]. split; [congruence|]. split; [congruence|].
  split; [done|]. split.
  - intros q Hne. rewrite Ho5, Ho4, (sframe_q _ _ _ Hf3), (sframe_q _ _ _ Hf2) by done.
    apply Ho1. congruence.
  - eexists. split; [|done]. rewrite Hl5, Hg4. cbn.
    assert (free_sta_queue s3 = free_sta_queue s) as ->.
    { pose proof (Ho1 QFree ltac:(done)) as Hfq. cbn in Hfq. injection Hfq as <-.
      rewrite <- (sf_free _ _ Hf2). apply Hf3. }
    by rewrite <- app_assoc, E.
Qed.

Lemma role_free_hw_from_spec used n m s : inv s [] [] -> words_ok 8 used -> 0 <= m ->
  m + Z.of_nat n <= 256 ->
  exists s', role_free_hw_from n m used s = Some s' /\ inv s' [] [] /\ sframe s s' /\ mc s' = mc s.
Proof.
  revert m s. induction n as [|n IH]; intros m s Hinv Hu Hm Hn; cbn [role_free_hw_from].
  { exists s. split_all. }
  unfold phl_macid_is_used. rewrite (words_test_ok 8) by (done || lia). cbn [mbind option_bind].
  assert (Hstep : exists s1, (if words_bits used m then
             o ← rd (sta (mc s)) m;
             match o with
             | Some p => '(s, _) ← phl_free_stainfo_hw s (Some p) true; Some s
             | None => Some s
             end else Some s) = Some s1 /\ inv s1 [] [] /\ sframe s s1 /\ mc s1 = mc s).
  { destruct (words_bits used m); [|by exists s].
    destruct (v_ids _ _ _ Hinv) as (L & HL & _).
    destruct (rd_some (sta (mc s)) m) as [o Ho]; [rewrite (i_sta _ _ _ _ HL); lia|].
    rewrite Ho. cbn [mbind option_bind]. destruct o as [p|]; [|by exists s].
    destruct (table_in_role s m p Hinv Ho) as (_ & t & Ht & _).
    destruct (inv_upd s [] [] p (fun t => set_active t false) t) as (s1 & Hu1 & Hi & Hf & Hmc & _);
      [done..|]. exists s1. unfold phl_free_stainfo_hw. rewrite Hu1. done. }
  destruct Hstep as (s1 & -> & Hi1 & Hf1 & Hmc1). cbn [mbind option_bind].
  destruct (IH (m + 1) s1) as (s2 & -> & Hi2 & Hf2 & Hmc2); [done|done|lia|lia|].
  exists s2. split_all; [by eapply sframe_trans|congruence].
Qed.

(** ** Operations and runs *)

Inductive op :=
| OAlloc (addr : list Z) (r : Z) (ring_ok hal_ok : bool)
| OFree (p : Z) (hal_ok : bool)
| ORoleFree (r : Z)
| ORoleFreeSw (r : Z)
| ORoleFreeHw (r : Z).

Definition exec (s : phl) (o : op) : option phl :=
  match o with
  | OAlloc addr r ring_ok hal_ok =>
      '(s, _, _) ← phl_alloc_stainfo s None addr r true false ring_ok hal_ok; Some s
  | OFree p hal_ok =>
      '(s, _, _) ← phl_alloc_stainfo s (Some p) [] 0 false false true hal_ok; Some s
  | ORoleFree r => phl_wifi_role_free_stainfo s r
  | ORoleFreeSw r => phl_wifi_role_free_stainfo_sw s r
  | ORoleFreeHw r => phl_wifi_role_free_stainfo_hw s r
  end.

(** Callers pass roles that exist and free stations of roles. *)
Definition valid (s : phl) (o : op) : Prop :=
  match o with
  | OAlloc _ r _ _ | ORoleFree r | ORoleFreeSw r | ORoleFreeHw r => 0 <= r < nroles s
  | OFree p _ => in_role s p
  end.

Lemma exec_ok s o : inv s [] [] -> valid s o -> exists s', exec s o = Some s' /\ inv s' [] [].
Proof.
  intros Hinv. destruct o as [addr r ring_ok hal_ok|p hal_ok|r|r|r];
    unfold exec, valid, phl_alloc_stainfo; intros Hv.
  - destruct (alloc_spec s addr r ring_ok hal_ok Hinv Hv) as (s' & o & b & -> & ? & _).
    by exists s'.
  - destruct (free_spec s p hal_ok Hinv Hv) as (s' & b & -> & ? & _). by exists s'.
  - destruct (get_q_total s r Hv) as (x & y & _ & Hx & _).
    destruct (role_free_loop_spec true r (role_fuel s r) s x Hinv Hx) as (s' & Hs & ? & _).
    { unfold role_fuel. rewrite Hx. lia. }
    by exists s'.
  - destruct (get_q_total s r Hv) as (x & y & _ & Hx & _).
    destruct (role_free_loop_spec false r (role_fuel s r) s x Hinv Hx) as (s' & Hs & ? & _).
    { unfold role_fuel. rewrite Hx. lia. }
    by exists s'.
  - destruct (v_ids _ _ _ Hinv) as (L & HL & _).
    unfold phl_wifi_role_free_stainfo_hw.
    destruct (rd_some (wifi_role_usedmap (mc s)) r) as [w Hw]; [rewrite (i_rml _ _ _ _ HL); done|].
    rewrite Hw. cbn [mbind option_bind]. rewrite rd_lookup in Hw by lia.
    destruct (role_free_hw_from_spec w (Z.to_nat (max_num (mc s))) 0 s) as (s' & -> & ? & _);
      [done|by eapply (Forall_lookup_1 _ _ _ _ (i_rm _ _ _ _ HL))|done| |by exists s'].
    destruct (i_max _ _ _ _ HL). lia.
Qed.

Inductive run : phl -> list op -> phl -> Prop :=
| run_nil s : run s [] s
| run_cons s o s1 l s2 : valid s o -> exec s o = Some s1 -> run s1 l s2 -> run s (o :: l) s2.

Lemma run_inv s l s' : inv s [] [] -> run s l s' -> inv s' [] [].
Proof.
  intros Hinv Hr. induction Hr as [|s o s1 l s2 Hv He _ IH]; [done|].
  apply IH. destruct (exec_ok s o Hinv Hv) as (s1' & He' & ?). congruence.
Qed.

(** ** Start of the driver *)

(** A zeroed [phl_info] with the roles [rs], then the two initialisations in
    the order of [rtw_phl_init] (phl/phl_init.c). *)
Definition zero_mc (n : nat) : macid_ctl_t :=
  mk_mc (replicate 8 0) (replicate 8 0) (replicate n (replicate 8 0)) (replicate n 0)
    (replicate 256 None) 0.

Definition phl_sta_boot (rs : list role) (hal_macid_num : Z) (alloc_ok : bool)
    (hal_ok : Z -> bool) : option (phl * bool) :=
  match phl_macid_ctrl_init hal_macid_num (zero_mc (length rs)) with
  | None => Some (mk_phl [] (mk_q [] 0) rs (zero_mc (length rs)) [] [] [], false)
  | Some c => phl_stainfo_ctrl_init (mk_phl [] (mk_q [] 0) rs c [] [] []) alloc_ok hal_ok
  end.

Lemma enqueue_from_spec n i s :
  inv s (seqZ i (Z.of_nat n)) [] ->
  exists s', enqueue_from n i (fun _ => true) s = Some (s', true) /\ inv s' [] [] /\
    queue (free_sta_queue s') = queue (free_sta_queue s) ++ seqZ i (Z.of_nat n) /\
    mc s' = mc s /\ nroles s' = nroles s /\
    forall r, get_q s' (QRole r) = get_q s (QRole r).
Proof.
  revert i s. induction n as [|n IH]; intros i s Hinv; cbn [enqueue_from].
  { exists s. rewrite app_nil_r. split_all. }
  rewrite seqZ_cons in Hinv by lia. replace (Z.pred (Z.of_nat (S n))) with (Z.of_nat n) in Hinv by lia.
  destruct (in_pool s _ _ i Hinv) as [t Ht]; [apply elem_of_app; right; by left|].
  destruct (inv_upd s _ _ i phl_stainfo_init t Hinv) as (s1 & -> & Hi1 & Hf1 & Hmc1 & _); [done..|].
  cbn [mbind option_bind]. pose proof (sframe_nroles _ _ Hf1) as Hn1.
  destruct (enqueue_free s1 _ _ i Hi1) as (s2 & -> & Hi2 & Hf2 & Hg2 & Ho2). cbn [mbind option_bind].
  pose proof (qframe_nroles _ _ Hf2) as Hn2.
  destruct (IH (i + 1) s2) as (s3 & -> & Hi3 & Hg3 & Hmc3 & Hn3 & Ho3).
  { by rewrite Z.add_1_r. }
  exists s3. split; [done|]. split; [done|]. split; [|split; [|split; [congruence|]]].
  - rewrite Hg3, Hg2, (sf_free _ _ Hf1), <- app_assoc, (seqZ_cons i) by lia.
    rewrite Z.add_1_r. replace (Z.pred (Z.of_nat (S n))) with (Z.of_nat n) by lia. done.
  - by rewrite Hmc3, (qf_mc _ _ Hf2).
  - intros r. by rewrite Ho3, Ho2, (sframe_q _ _ _ Hf1).
Qed.

Lemma words_ok_zero : words_ok 8 (replicate 8 0).
Proof. split; [done|]. by repeat (constructor; [done|]). Qed.

Lemma words_bits_zero m : words_bits (replicate 8 0) m = false.
Proof.
  unfold words_bits. rewrite nth_lookup.
  destruct (replicate 8 0 !! Z.to_nat (m / 32)) as [w|] eqn:E; cbn; [|apply Z.bits_0].
  apply lookup_replicate in E as [-> _]. apply Z.bits_0.
Qed.

Lemma boot_spec rs num :
  0 < num -> (forall x, x ∈ rs -> assoc_sta_queue x = mk_q [] 0) ->
  exists s, phl_sta_boot rs num true (fun _ => true) = Some (s, true) /\ inv s [] [] /\
    queue (free_sta_queue s) = seqZ 0 PHL_MAX_STA_NUM /\ max_num (mc s) = Z.min num 256 /\
    nroles s = Z.of_nat (length rs) /\ (forall k o, rd (sta (mc s)) k = Some o -> o = None).
Proof.
  intros Hnum Hrs. unfold phl_sta_boot, phl_macid_ctrl_init.
  destruct (Z.eqb_spec num 0); [lia|]. unfold phl_stainfo_ctrl_init. cbn [negb].
  unfold with_free, with_stas. cbn [stas free_sta_queue roles mc t_ring_list t_ring_free_list events].
  set (c := mk_mc _ _ _ _ _ _). set (s0 := mk_phl _ _ _ _ _ _ _).
  assert (Hq : forall r x, get_q s0 (QRole r) = Some x -> x = mk_q [] 0).
  { intros r x. cbn. destruct (rd rs r) as [y|] eqn:E; [|done]. cbn. intros [= <-].
    apply Hrs. rewrite rd_lookup in E by (apply rd_inv in E; lia). by eapply list_elem_of_lookup_2. }
  assert (Hnone : forall m p, rd (sta c) m <> Some (Some p)).
  { intros m p Hm. by apply (rd_replicate _ _ _ _) in Hm. }
  assert (Hnodes : nodes_of rs = []).
  { clear -Hrs. unfold nodes_of. induction rs as [|x l IH]; [done|]. cbn.
    rewrite (Hrs x), IH by (first [by left | intros y ?; apply Hrs; by right]). done. }
  destruct (enqueue_from_spec (Z.to_nat PHL_MAX_STA_NUM) 0 s0) as (s & -> & Hi & Hf & Hmc & Hn & Ho).
  { split.
    - unfold all_nodes. cbn [free_sta_queue roles s0 stas queue]. by rewrite Hnodes.
    - intros [|r] x; [by intros [= <-]|]. intros Hx. by rewrite (Hq r x Hx).
    - intros r x p Hx. rewrite (Hq r x Hx). by intros ?%not_elem_of_nil.
    - exists []. split; cycle 1.
      { intros p. split; [by intros ?%not_elem_of_nil|].
        intros [(r & x & Hx & Hp)|?%not_elem_of_nil]; [|done]. rewrite (Hq r x Hx) in Hp.
        by apply not_elem_of_nil in Hp. }
      split; cbn; try (by rewrite ?length_replicate, ?length_fmap, ?length_replicate).
      + unfold PHL_MACID_MAX_NUM, PHL_MACID_MAX_ARRAY_NUM. lia.
      + apply words_ok_zero.
      + apply words_ok_zero.
      + apply Forall_replicate, words_ok_zero.
      + apply Forall_fmap, Forall_replicate. cbn.
        unfold PHL_MACID_MAX_NUM, PHL_MACID_MAX_ARRAY_NUM. lia.
      + by intros p ?%not_elem_of_nil.
      + intros m p Hm. by destruct (Hnone m p).
      + intros m Hm. split; [|intros [p Hp]; by destruct (Hnone m p)].
        intros Hb. assert (Hb' : words_bits (replicate 8 0) m = true) by exact Hb.
        by rewrite words_bits_zero in Hb'.
      + intros r w m Hw Hm. apply rd_replicate in Hw as ->.
        split; [|intros (p & t & Hp & _); by destruct (Hnone m p)].
        intros Hb. assert (Hb' : words_bits (replicate 8 0) m = true) by exact Hb.
        by rewrite words_bits_zero in Hb'. }
  cbn [mbind option_bind]. exists s. rewrite Hmc, Hn. split_all.
  intros k o Hk. by apply rd_replicate in Hk.
Qed.

(** ** The properties *)

(** C4: From the start of the driver on, whatever stations are allocated and
    freed and whatever the memory and the hardware answer, every operation
    returns; a station of a role is found under its MAC id, no other station
    has that id, and a station without a role is on the free queue. *)
Theorem directory_invariant rs num s l s' (Hnum : 0 < num)
    (Hrs : forall x, x ∈ rs -> assoc_sta_queue x = mk_q [] 0)
    (Hboot : phl_sta_boot rs num true (fun _ => true) = Some (s, true))
    (Hrun : run s l s') :
  (forall o, valid s' o -> exists s'', exec s' o = Some s'') /\
  (forall p, in_role s' p -> exists t, rd (stas s') p = Some t /\
     rtw_phl_get_stainfo_by_macid s' (macid t) = Some (Some p) /\
     p ∉ queue (free_sta_queue s')) /\
  (forall m p, 0 <= m -> rtw_phl_get_stainfo_by_macid s' m = Some (Some p) ->
     in_role s' p /\ exists t, rd (stas s') p = Some t /\ macid t = m) /\
  (forall p t, rd (stas s') p = Some t -> in_role s' p \/ p ∈ queue (free_sta_queue s')).
Proof.
  destruct (boot_spec rs num Hnum Hrs) as (s0 & Hb & Hinv & _). rewrite Hboot in Hb.
  injection Hb as <-. apply (run_inv _ _ _ Hinv) in Hrun as Hinv'. split; [|split; [|split]].
  - intros o Ho. destruct (exec_ok s' o Hinv' Ho) as (s'' & ? & _). eauto.
  - intros p Hp. destruct (role_in_table s' p Hinv' Hp) as (t & Ht & Hm & Htab).
    exists t. split; [done|]. split.
    + destruct (get_stainfo_by_macid_spec s' (macid t) Hinv') as (o & -> & Ho); [lia|].
      f_equal. apply Ho. split; [lia|done].
    + destruct Hp as (r & x & Hx & Hp).
      by apply (queues_disjoint s' [] [] (QRole r) QFree x (free_sta_queue s') p).
  - intros m p Hm Hp. destruct (get_stainfo_by_macid_spec s' m Hinv' Hm) as (o & Ho & Hiff).
    rewrite Ho in Hp. injection Hp as ->. destruct (Hiff p) as [[_ Htab] _]; [done|].
    by apply table_in_role.
  - intros p t Ht. pose proof (v_nodes _ _ _ Hinv') as Hn. rewrite app_nil_r in Hn.
    assert (Hp : p ∈ all_nodes s').
    { rewrite Hn. apply elem_of_seqZ. apply rd_inv in Ht. lia. }
    apply elem_of_app in Hp as [Hp|Hp]; [by right|left].
    unfold nodes_of in Hp. apply list_elem_of_In, in_concat in Hp as (q & Hq & Hp).
    apply list_elem_of_In in Hq, Hp. apply list_elem_of_fmap in Hq as (y & -> & Hy).
    apply list_elem_of_lookup in Hy as [i Hi]. exists (Z.of_nat i), (assoc_sta_queue y).
    split; [|done]. cbn. rewrite rd_lookup, Nat2Z.id, Hi by lia. done.
Qed.

(** A new unicast address on a role gets the first free record and the
    lowest free MAC id, and the station is then found by its address and by
    its id. *)
Theorem alloc_then_lookup s addr r x (Hinv : inv s [] [])
    (Hx : get_q s (QRole r) = Some x) (Huni : is_broadcast_mac_addr addr = false)
    (Hself : (exists y, rd (roles s) r = Some y /\ rtype y <> PHL_RTYPE_STATION) \/ queue x = [])
    (Hnew : forall p t, p ∈ queue x -> rd (stas s) p = Some t -> mac_addr t <> addr)
    (Hrec : queue (free_sta_queue s) <> [])
    (Hid : exists k, 0 <= k < max_num (mc s) /\ rd (sta (mc s)) k = Some None) :
  exists s' p t, phl_alloc_stainfo_sw s addr r true = Some (s', Some p) /\
    head (queue (free_sta_queue s)) = Some p /\
    rd (stas s') p = Some t /\ mac_addr t = addr /\ wrole t = Some r /\
    (forall k, 0 <= k < macid t -> exists q, rtw_phl_get_stainfo_by_macid s k = Some (Some q)) /\
    rtw_phl_get_stainfo_by_macid s (macid t) = Some None /\
    rtw_phl_get_stainfo_by_addr s' r addr = Some (Some p) /\
    rtw_phl_get_stainfo_by_macid s' (macid t) = Some (Some p).
Proof.
  assert (Hr : 0 <= r < nroles s).
  { cbn in Hx. destruct (rd (roles s) r) eqn:E; [|done]. by apply rd_inv in E. }
  assert (Halloc : phl_alloc_stainfo_sw s addr r true = alloc_new s addr r true).
  { destruct (get_stainfo_by_addr_spec s r addr Hinv Hr) as (o & Ho & _ & Hsrch).
    specialize (Hsrch Huni x Hx).
    assert (o = None) as ->.
    { destruct o as [p|]; [|done]. destruct Hsrch as (Hp & t & Ht & Ha). by destruct (Hnew p t). }
    unfold phl_alloc_stainfo_sw. cbn [get_q] in Hx.
    destruct (rd (roles s) r) as [y|] eqn:Hy; [|done]. cbn in Hx. injection Hx as <-.
    cbn [mbind option_bind]. rewrite Ho. cbn [mbind option_bind].
    destruct Hself as [(y' & [= <-] & Hty)|Hq].
    - by rewrite bool_decide_eq_false_2.
    - destruct (_ && _); [|done]. unfold rtw_phl_get_stainfo_self, phl_stainfo_queue_get_first.
      cbn [get_q]. rewrite Hy. cbn [mbind option_bind]. by rewrite Hq. }
  destruct (alloc_new_spec s addr r true Hinv Hr) as (s' & o & Hs & Hinv' & Hn & Hm & Ho & Hprog).
  destruct o as [p|]; [|by destruct (Hprog eq_refl Hrec Hid)].
  destruct Ho as (t & x' & Ht & Ha & Hw & Hhd & Hx' & Hg & _ & Hlow & Hnone & Hoth).
  rewrite Hx in Hx'. injection Hx' as <-.
  assert (Hp : in_role s' p).
  { eexists r, _. split; [done|]. apply elem_of_app. right. by left. }
  destruct (role_in_table s' p Hinv' Hp) as (t' & Ht' & Hb & Htab). rewrite Ht in Ht'.
  injection Ht' as <-.
  exists s', p, t. rewrite Halloc. do 5 (split; [done|]). split; [|split; [|split]].
  - intros k Hk. destruct (Hlow k Hk) as [q Hq]. exists q.
    destruct (get_stainfo_by_macid_spec s k Hinv) as (o & -> & Hiff); [lia|]. f_equal.
    apply Hiff. split; [lia|done].
  - destruct (get_stainfo_by_macid_spec s (macid t) Hinv) as (o & -> & Hiff); [lia|].
    destruct o as [q|]; [|done]. destruct (Hiff q) as [[_ Hq] _]; [done|]. congruence.
  - destruct (get_stainfo_by_addr_spec s' r addr Hinv') as (o & -> & _ & Hsrch); [by rewrite Hn|].
    specialize (Hsrch Huni _ Hg). destruct o as [q|].
    + destruct Hsrch as (Hq & u & Hu & Hau). cbn in Hq.
      apply elem_of_app in Hq as [Hq|Hq%list_elem_of_singleton]; [|by subst].
      destruct (decide (q = p)) as [->|Hne]; [done|].
      rewrite Hoth in Hu by done. by destruct (Hnew q u).
    + exfalso. apply (Hsrch p t); [|done|done]. apply elem_of_app. right. by left.
  - destruct (get_stainfo_by_macid_spec s' (macid t) Hinv') as (o & -> & Hiff); [lia|]. f_equal.
    apply Hiff. split; [lia|done].
Qed.

(** Freeing a peer of an access point takes it off the role's queue, puts
    its record at the end of the free queue with no reordering session left,
    and its MAC id is free and finds no station; other ids and roles stay. *)
Theorem free_peer s p r x y t (Hinv : inv s [] []) (Hy : rd (roles s) r = Some y)
    (Hx : x = assoc_sta_queue y) (Hp : p ∈ queue x) (Ht : rd (stas s) p = Some t)
    (Hap : rtype y = PHL_RTYPE_AP) (Hpeer : rmac y <> mac_addr t) :
  exists s' t', __phl_free_stainfo_sw s (Some p) = Some (s', true) /\
    get_q s' (QRole r) = Some (mk_q (remove_p p (queue x)) (cnt x - 1)) /\
    (exists l, queue (free_sta_queue s') = l ++ [p]) /\
    rd (stas s') p = Some t' /\ Forall (fun o => o = None) (tid_rx t') /\
    (forall m, 0 <= m -> rtw_phl_get_stainfo_by_macid s' m =
       if m =? macid t then Some None else rtw_phl_get_stainfo_by_macid s m) /\
    (forall q, q <> r -> get_q s' (QRole q) = get_q s (QRole q)).
Proof.
  assert (Hq : get_q s (QRole r) = Some x) by (cbn; by rewrite Hy, Hx).
  destruct (v_link _ _ _ Hinv r x p Hq Hp) as (t0 & Ht0 & Hr). rewrite Ht in Ht0. injection Ht0 as <-.
  destruct (free_queued_spec s p r x t Hinv Hq Hp Ht) as (s' & E & R).
  destruct R as [Ri Rf Rr Ro Rt (t' & Ht' & Hm & Hro) Rn Rm].
  exists s', t'. split.
  { unfold __phl_free_stainfo_sw. rewrite Ht. cbn [mbind option_bind]. rewrite Hr.
    cbn [mbind option_bind]. rewrite E. unfold phl_self_stainfo_chk. rewrite Hy.
    cbn [mbind option_bind]. rewrite Hap, Ht. cbn [mbind option_bind]. unfold mac_eq.
    rewrite bool_decide_eq_false_2 by done. rewrite E. by destruct (is_broadcast_mac_addr _). }
  split; [by apply Rr|]. split; [done|]. split; [done|]. split; [done|]. split; [|done].
  intros m Hm0. destruct (get_stainfo_by_macid_spec s' m Ri Hm0) as (o' & -> & Ho').
  destruct (get_stainfo_by_macid_spec s m Hinv Hm0) as (o & -> & Ho).
  rewrite Rt, Rm in Ho'. destruct (Z.eqb_spec m (macid t)).
  - destruct o' as [q|]; [|done]. destruct (Ho' q) as [[_ ?] _]; done.
  - f_equal. destruct o' as [q|].
    + symmetry. apply Ho. by apply Ho'.
    + destruct o as [q|]; [|done]. apply Ho'. by apply Ho.
Qed.

(** Freeing a role's stations ends with the role's queue empty, its
    records on the free queue in order, no MAC id marked as the role's, and
    the other roles untouched. *)
Theorem role_free_all s r x w (Hinv : inv s [] []) (Hx : get_q s (QRole r) = Some x) :
  exists s', phl_wifi_role_free_stainfo s r = Some s' /\
    (exists y, get_q s' (QRole r) = Some y /\ queue y = []) /\
    queue (free_sta_queue s') = queue (free_sta_queue s) ++ queue x /\
    (forall q, q <> r -> get_q s' (QRole q) = get_q s (QRole q)) /\
    (rd (wifi_role_usedmap (mc s')) r = Some w ->
     forall m, 0 <= m < 256 -> phl_macid_is_used w m = Some false).
Proof.
  destruct (role_free_loop_spec true r (role_fuel s r) s x Hinv Hx)
    as (s' & Hs & Hi & Hn & Hm & He & Ho & l & Hl & ->).
  { unfold role_fuel. rewrite Hx. lia. }
  exists s'. split; [done|]. do 3 (split; [done|]). intros Hw m Hmr.
  destruct (v_ids _ _ _ Hi) as (L & HL & HLin). unfold phl_macid_is_used.
  assert (Hwok : words_ok 8 w).
  { rewrite rd_lookup in Hw by (apply rd_inv in Hw; lia).
    by eapply (Forall_lookup_1 _ _ _ _ (i_rm _ _ _ _ HL)). }
  rewrite (words_test_ok 8) by (done || lia). f_equal.
  destruct (words_bits w m) eqn:Eb; [|done]. exfalso.
  apply (i_role _ _ _ _ HL r w m Hw Hmr) in Eb as (p & t & Hp & Ht & Hr).
  destruct (table_in_role s' m p Hi Hp) as ((r' & x' & Hx' & Hpx) & _).
  destruct (v_link _ _ _ Hi r' x' p Hx' Hpx) as (t' & Ht' & Hr').
  rewrite Ht in Ht'. injection Ht' as <-. rewrite Hr in Hr'. injection Hr' as <-.
  destruct He as (y & Hy & He). rewrite Hy in Hx'. injection Hx' as <-. rewrite He in Hpx.
  by apply not_elem_of_nil in Hpx.
Qed.

(** With memory, a chip that reports at least one MAC id and roles without
    stations, the start gives a free queue of all 128 records in order, at
    most 256 ids, and no id in use. *)
Theorem boot_ok rs num (Hnum : 0 < num)
    (Hrs : forall x, x ∈ rs -> assoc_sta_queue x = mk_q [] 0) :
  exists s, phl_sta_boot rs num true (fun _ => true) = Some (s, true) /\
    queue (free_sta_queue s) = seqZ 0 128 /\ rtw_phl_get_macid_max_num (mc s) = Z.min num 256 /\
    forall m, 0 <= m -> rtw_phl_get_stainfo_by_macid s m = Some None.
Proof.
  destruct (boot_spec rs num Hnum Hrs) as (s & Hb & Hinv & Hf & Hm & _ & Hnone).
  exists s. split; [done|]. split; [done|]. split; [done|]. intros m Hm0.
  destruct (get_stainfo_by_macid_spec s m Hinv Hm0) as (o & -> & Ho).
  destruct o as [p|]; [|done]. destruct (Ho p) as [[_ Hp] _]; [done|].
  by apply Hnone in Hp.
Qed.

(** ** Concrete inputs *)

Definition demo_roles : list role :=
  [mk_role PHL_RTYPE_AP [2; 0; 0; 0; 0; 1] (mk_q [] 0);
   mk_role PHL_RTYPE_AP [2; 0; 0; 0; 0; 2] (mk_q [] 0)].
Definition addr_a : list Z := [2; 0; 0; 0; 0; 0xa].

Definition demo_boot : option phl :=
  '(s, _) ← phl_sta_boot demo_roles 4 true (fun _ => true); Some s.
Definition demo : phl :=
  match demo_boot with Some s => s | None => mk_phl [] (mk_q [] 0) [] (zero_mc 0) [] [] [] end.
Definition after (s : phl) (o : op) : phl := match exec s o with Some s' => s' | None => s end.
Definition demo_peer : phl := after demo (OAlloc addr_a 0 true true).

Lemma demo_roles_empty x : x ∈ demo_roles -> assoc_sta_queue x = mk_q [] 0.
Proof. intros Hx. repeat (apply elem_of_cons in Hx as [->|Hx]; [done|]). by apply not_elem_of_nil in Hx. Qed.

Lemma demo_boots : phl_sta_boot demo_roles 4 true (fun _ => true) = Some (demo, true).
Proof.
  destruct (boot_spec demo_roles 4 ltac:(lia) demo_roles_empty) as (s & Hb & _).
  unfold demo, demo_boot. rewrite Hb. reflexivity.
Qed.

Lemma demo_inv : inv demo [] [].
Proof.
  destruct (boot_spec demo_roles 4 ltac:(lia) demo_roles_empty) as (s & Hb & Hinv & _).
  unfold demo, demo_boot. rewrite Hb. exact Hinv.
Qed.

Lemma demo_alloc_valid : valid demo (OAlloc addr_a 0 true true).
Proof. vm_compute. by split. Qed.

Lemma demo_peer_inv : inv demo_peer [] [].
Proof.
  destruct (exec_ok demo _ demo_inv demo_alloc_valid) as (s & Hs & Hinv).
  unfold demo_peer, after. rewrite Hs. exact Hinv.
Qed.

Lemma directory_invariant_witness :
  exists t, rd (stas demo_peer) 0 = Some t /\
    rtw_phl_get_stainfo_by_macid demo_peer (macid t) = Some (Some 0).
Proof.
  destruct (directory_invariant demo_roles 4 demo [OAlloc addr_a 0 true true] demo_peer
              ltac:(lia) demo_roles_empty demo_boots) as (_ & Hin & _).
  - apply (run_cons _ _ demo_peer); [exact demo_alloc_valid|vm_compute; reflexivity|constructor].
  - destruct (Hin 0) as (t & Ht & Hm & _).
    + exists 0. eexists. split; [vm_compute; reflexivity|]. by left.
    + eauto.
Defined.

Lemma alloc_then_lookup_witness :
  exists s' p t, phl_alloc_stainfo_sw demo addr_a 1 true = Some (s', Some p) /\
    rd (stas s') p = Some t /\ mac_addr t = addr_a /\
    rtw_phl_get_stainfo_by_macid s' (macid t) = Some (Some p).
Proof.
  destruct (alloc_then_lookup demo addr_a 1 (mk_q [] 0) demo_inv)
    as (s' & p & t & Hs & _ & Ht & Ha & _ & _ & _ & _ & Hm).
  - vm_compute. reflexivity.
  - reflexivity.
  - right. reflexivity.
  - intros p t Hp. by apply not_elem_of_nil in Hp.
  - vm_compute. discriminate.
  - exists 0. vm_compute. split; [split; [discriminate|reflexivity]|reflexivity].
  - exists s', p, t. auto.
Defined.

Definition demo_ap : role := mk_role PHL_RTYPE_AP [2; 0; 0; 0; 0; 1] (mk_q [0] 1).

Lemma free_peer_witness :
  exists s', __phl_free_stainfo_sw demo_peer (Some 0) = Some (s', true) /\
    rtw_phl_get_stainfo_by_macid s' 0 = Some None.
Proof.
  destruct (free_peer demo_peer 0 0 (mk_q [0] 1) demo_ap
              (mk_sta addr_a (Some 0) 0 true 0 0 0 (replicate 8 None)) demo_peer_inv)
    as (s' & t' & Hs & _ & _ & _ & _ & Hm & _).
  - vm_compute. reflexivity.
  - reflexivity.
  - by left.
  - vm_compute. reflexivity.
  - reflexivity.
  - discriminate.
  - exists s'. split; [exact Hs|]. by rewrite Hm.
Defined.

Lemma role_free_all_witness :
  exists s', phl_wifi_role_free_stainfo demo_peer 0 = Some s' /\
    exists y, get_q s' (QRole 0) = Some y /\ queue y = [].
Proof.
  destruct (role_free_all demo_peer 0 (mk_q [0] 1) [] demo_peer_inv) as (s' & Hs & He & _).
  - vm_compute. reflexivity.
  - exists s'. split; [exact Hs|exact He].
Defined.

Lemma boot_ok_witness :
  exists s, phl_sta_boot demo_roles 300 true (fun _ => true) = Some (s, true) /\
    rtw_phl_get_macid_max_num (mc s) = 256.
Proof.
  destruct (boot_ok demo_roles 300 ltac:(lia) demo_roles_empty) as (s & Hb & _ & Hm & _).
  exists s. split; [exact Hb|exact Hm].
Defined.

(** The MAC id recorded as a role's broadcast id outlives the broadcast
    station: when the id is given to a station of another role, a look-up or an
    allocation of the first role's broadcast station gives that station. *)
Theorem stale_broadcast_id :
  let s1 := after demo (OAlloc bc_addr 0 true true) in
  let s2 := after s1 (ORoleFree 0) in
  let s3 := after s2 (OAlloc addr_a 1 true true) in
  rtw_phl_get_stainfo_by_addr s2 0 bc_addr = Some None /\
  rtw_phl_get_stainfo_by_addr s3 0 bc_addr = Some (Some 1) /\
  (t ← rd (stas s3) 1; Some (wrole t, mac_addr t)) = Some (Some 1, addr_a) /\
  (o ← phl_alloc_stainfo_sw s3 bc_addr 0 true; Some o.2) = Some (Some 1).
Proof. vm_compute. repeat split. Qed.
End Sta.
