(* ===== verification/Bytes.v ===== *)
(** * Byte buffers

    The parsers of management frames walk over byte buffers with pointers.  A
    buffer is a list of bytes and a pointer an offset into it; a computation
    ends with a value, with an access outside of the buffer, or with its fuel
    used up ([Looping]), so that a loop that never ends is told apart from one
    that leaves its buffer. *)

From S2P Require Import Prelude.

Inductive res (A : Type) :=
| Ret (a : A)
| Oob
| Looping.
Arguments Ret {A} a.
Arguments Oob {A}.
Arguments Looping {A}.

#[export] Instance res_ret : MRet res := @Ret.
#[export] Instance res_bind : MBind res := fun A B f x =>
  match x with Ret a => f a | Oob => Oob | Looping => Looping end.

#[export] Instance res_eq_dec {A} `{EqDecision A} : EqDecision (res A).
Proof. solve_decision. Defined.

Definition zlen {A} (l : list A) : Z := Z.of_nat (length l).
Definition zdrop {A} (n : Z) (l : list A) : list A := drop (Z.to_nat n) l.
Definition ztake {A} (n : Z) (l : list A) : list A := take (Z.to_nat n) l.

Definition is_byte (x : Z) : Prop := 0 <= x < 256.

(** [b[i]]. *)
Definition byte_at (b : list Z) (i : Z) : res Z :=
  match rd b i with Some x => Ret x | None => Oob end.

(** The [n] bytes from [off] on. *)
Definition slice (b : list Z) (off n : Z) : res (list Z) :=
  if (0 <=? off) && (0 <=? n) && (off + n <=? zlen b)
  then Ret (ztake n (zdrop off b)) else Oob.

(** [memcpy(b + off, s, |s|)]. *)
Definition blit (b : list Z) (off : Z) (s : list Z) : res (list Z) :=
  if (0 <=? off) && (off + zlen s <=? zlen b)
  then Ret (ztake off b ++ s ++ zdrop (off + zlen s) b) else Oob.

(** [memcmp(b + off, s, |s|) == 0]; all of the bytes must be readable. *)
Definition bytes_match (b : list Z) (off : Z) (s : list Z) : res bool :=
  x ← slice b off (zlen s); Ret (bool_decide (x = s)).

(** [memmove(b + dst, b + src, n)]. *)
Definition bmove (b : list Z) (dst src n : Z) : res (list Z) :=
  x ← slice b src n; blit b dst x.

Definition get_le16 (b : list Z) (off : Z) : res Z :=
  x ← byte_at b off; y ← byte_at b (off + 1); Ret (Z.lor (Z.shiftl y 8) x).
Definition get_be16 (b : list Z) (off : Z) : res Z :=
  x ← byte_at b off; y ← byte_at b (off + 1); Ret (Z.lor (Z.shiftl x 8) y).

(** [RTW_PUT_LE16]. *)
Definition put_le16 (x : Z) : list Z := [Z.land x 0xff; Z.shiftr x 8].
Definition put_be16 (x : Z) : list Z := [Z.shiftr x 8; Z.land x 0xff].

(** ** Lemmas *)

Lemma zlen_app {A} (l1 l2 : list A) : zlen (l1 ++ l2) = zlen l1 + zlen l2.
Proof. unfold zlen. rewrite length_app. lia. Qed.
Lemma zlen_cons {A} (x : A) l : zlen (x :: l) = 1 + zlen l.
Proof. unfold zlen. cbn [length]. lia. Qed.
Lemma zlen_nil {A} : zlen (@nil A) = 0.
Proof. done. Qed.
Lemma zlen_nonneg {A} (l : list A) : 0 <= zlen l.
Proof. unfold zlen. lia. Qed.
Create Rewrite HintDb bytes.
#[export] Hint Rewrite @zlen_app @zlen_cons @zlen_nil : bytes.
Ltac zlens := autorewrite with bytes in *.

Lemma zdrop_app {A} (l1 l2 : list A) n : n = zlen l1 -> zdrop n (l1 ++ l2) = l2.
Proof. intros ->. unfold zdrop, zlen. rewrite Nat2Z.id. apply drop_app_length. Qed.
Lemma ztake_app {A} (l1 l2 : list A) n : n = zlen l1 -> ztake n (l1 ++ l2) = l1.
Proof. intros ->. unfold ztake, zlen. rewrite Nat2Z.id. apply take_app_length. Qed.
Lemma ztake_zdrop {A} n (l : list A) : ztake n l ++ zdrop n l = l.
Proof. apply take_drop. Qed.
Lemma zlen_ztake {A} n (l : list A) : 0 <= n <= zlen l -> zlen (ztake n l) = n.
Proof. unfold zlen, ztake. intros. rewrite length_take. lia. Qed.
Lemma zlen_zdrop {A} n (l : list A) : 0 <= n <= zlen l -> zlen (zdrop n l) = zlen l - n.
Proof. unfold zlen, zdrop. intros. rewrite length_drop. lia. Qed.

Lemma byte_at_some b i : 0 <= i < zlen b -> exists x, byte_at b i = Ret x /\ rd b i = Some x.
Proof. intros Hi. unfold byte_at. destruct (rd_some b i Hi) as [x ->]. eauto. Qed.

Lemma byte_at_app p x s i : i = zlen p -> byte_at (p ++ x :: s) i = Ret x.
Proof.
  intros ->. unfold byte_at, zlen. rewrite rd_lookup, Nat2Z.id by lia.
  by rewrite list_lookup_middle.
Qed.

Lemma byte_at_app1 p x y s i : i = zlen p + 1 -> byte_at (p ++ x :: y :: s) i = Ret y.
Proof.
  intros ->. replace (p ++ x :: y :: s) with ((p ++ [x]) ++ y :: s) by by rewrite <- app_assoc.
  apply byte_at_app. by zlens.
Qed.

Lemma byte_at_oob b i : zlen b <= i -> byte_at b i = Oob.
Proof.
  intros Hi. unfold byte_at. destruct (rd b i) eqn:E; [|done].
  apply rd_inv in E. unfold zlen in Hi. lia.
Qed.

Lemma slice_app p x s off n : off = zlen p -> n = zlen x -> slice (p ++ x ++ s) off n = Ret x.
Proof.
  intros -> ->. unfold slice. pose proof (zlen_nonneg p). pose proof (zlen_nonneg x).
  pose proof (zlen_nonneg s). zlens.
  destruct (Z.leb_spec 0 (zlen p)); [|lia]. destruct (Z.leb_spec 0 (zlen x)); [|lia].
  destruct (Z.leb_spec (zlen p + zlen x) (zlen p + (zlen x + zlen s))); [|lia]. cbn.
  by rewrite zdrop_app, ztake_app.
Qed.

Lemma slice_some b off n : 0 <= off -> 0 <= n -> off + n <= zlen b ->
  slice b off n = Ret (ztake n (zdrop off b)).
Proof.
  intros. unfold slice. destruct (Z.leb_spec 0 off); [|lia]. destruct (Z.leb_spec 0 n); [|lia].
  by destruct (Z.leb_spec (off + n) (zlen b)); [|lia].
Qed.

Lemma bytes_match_some b off s : 0 <= off -> off + zlen s <= zlen b ->
  exists m, bytes_match b off s = Ret m.
Proof.
  intros. unfold bytes_match. rewrite slice_some by (done || apply zlen_nonneg). cbn. eauto.
Qed.

Lemma blit_app p x s y off : off = zlen p -> zlen y = zlen x ->
  blit (p ++ x ++ s) off y = Ret (p ++ y ++ s).
Proof.
  intros -> Hy. unfold blit. pose proof (zlen_nonneg p). pose proof (zlen_nonneg x).
  pose proof (zlen_nonneg s). zlens. destruct (Z.leb_spec 0 (zlen p)); [|lia].
  destruct (Z.leb_spec (zlen p + zlen y) (zlen p + (zlen x + zlen s))); [|lia]. cbn.
  rewrite ztake_app by done. f_equal. f_equal. f_equal. rewrite app_assoc.
  apply zdrop_app. zlens. lia.
Qed.

(** Writing over the beginning of [r]. *)
Lemma blit_over p r y off : off = zlen p -> zlen y <= zlen r ->
  blit (p ++ r) off y = Ret (p ++ y ++ zdrop (zlen y) r).
Proof.
  intros -> Hle. rewrite <- (ztake_zdrop (zlen y) r) at 1. apply blit_app; [done|].
  pose proof (zlen_nonneg y). by rewrite zlen_ztake.
Qed.

Lemma zdrop_app_le {A} n (l1 l2 : list A) : n <= zlen l1 -> zdrop n (l1 ++ l2) = zdrop n l1 ++ l2.
Proof. unfold zdrop, zlen. intros. apply drop_app_le. lia. Qed.
Lemma zdrop_zdrop {A} n m (l : list A) : 0 <= n -> 0 <= m -> zdrop n (zdrop m l) = zdrop (m + n) l.
Proof. unfold zdrop. intros. rewrite drop_drop. f_equal. lia. Qed.

(** What follows is saved, [y] is written over [x], and it is put back behind [y]. *)
Lemma replace_and_move p x s r y : zlen y + zlen s <= zlen x + zlen s + zlen r ->
  (b ← blit (p ++ x ++ s ++ r) (zlen p) y; blit b (zlen p + zlen y) s) =
    Ret (p ++ y ++ s ++ zdrop (zlen y + zlen s) (x ++ s ++ r)).
Proof.
  intros Hle. pose proof (zlen_nonneg y). pose proof (zlen_nonneg s).
  pose proof (zlen_nonneg (x ++ s ++ r)). rewrite blit_over by (zlens; lia). cbn [mbind res_bind].
  rewrite app_assoc. rewrite blit_over; [|zlens; lia|].
  - by rewrite <- app_assoc, zdrop_zdrop.
  - rewrite zlen_zdrop; zlens; lia.
Qed.

(** Two bytes and the number they stand for. *)
Lemma le16_value x y : is_byte x -> is_byte y -> Z.lor (Z.shiftl y 8) x = 256 * y + x.
Proof.
  unfold is_byte. intros Hx Hy. rewrite Z.shiftl_mul_pow2 by lia. change (2 ^ 8) with 256.
  rewrite <- (Z.lor_comm x). replace (256 * y + x) with (x + y * 256) by lia.
  rewrite <- Z.add_lor_land. enough (Z.land x (y * 256) = 0) as -> by lia.
  apply Z.bits_inj'. intros n Hn. rewrite Z.land_spec, Z.bits_0.
  change 256 with (2 ^ 8). rewrite Z.mul_pow2_bits by lia.
  destruct (Z.lt_ge_cases n 8).
  - rewrite (Z.testbit_neg_r y) by lia. apply andb_false_r.
  - rewrite (Z.bits_above_log2 x); [done|lia|].
    destruct (decide (x = 0)) as [->|]; [cbn; lia|].
    apply Z.log2_lt_pow2; [lia|]. apply Z.lt_le_trans with (2 ^ 8); [lia|].
    apply Z.pow_le_mono_r; lia.
Qed.

(** Moving [y] over [x] that precedes it; the bytes behind are as before. *)
Lemma bmove_left p x y s dst src n :
  dst = zlen p -> src = zlen p + zlen x -> n = zlen y ->
  bmove (p ++ x ++ y ++ s) dst src n = Ret (p ++ y ++ zdrop (zlen y) (x ++ y) ++ s).
Proof.
  intros -> -> ->. unfold bmove.
  replace (p ++ x ++ y ++ s) with ((p ++ x) ++ y ++ s) by by rewrite <- !app_assoc.
  rewrite slice_app by (rewrite ?zlen_app; done). cbn [mbind res_bind].
  replace ((p ++ x) ++ y ++ s) with (p ++ (x ++ y) ++ s) by by rewrite <- !app_assoc.
  pose proof (zlen_nonneg x). pose proof (zlen_nonneg y).
  rewrite <- (ztake_zdrop (zlen y) (x ++ y)) at 1. rewrite <- (app_assoc (ztake _ _)).
  apply blit_app; [done|]. rewrite zlen_ztake; [done|]. rewrite zlen_app. lia.
Qed.

(** A single byte is stored as by an assignment. *)
Lemma blit1 b i v : 0 <= i < zlen b -> blit b i [v] = Ret (<[Z.to_nat i := v]> b).
Proof.
  intros Hi. unfold zlen in Hi. set (n := Z.to_nat i).
  assert (Hn : (n < length b)%nat) by lia.
  rewrite insert_take_drop by done. destruct (lookup_lt_is_Some_2 b n Hn) as [x Hx].
  rewrite <- (take_drop_middle b n x Hx) at 1.
  change (x :: drop (S n) b) with ([x] ++ drop (S n) b).
  by rewrite blit_app; [|unfold zlen; rewrite length_take; lia|].
Qed.

Lemma get_le16_app p x y s i : is_byte x -> is_byte y -> i = zlen p ->
  get_le16 (p ++ x :: y :: s) i = Ret (256 * y + x).
Proof.
  intros Hx Hy ->. unfold get_le16. rewrite (byte_at_app p x (y :: s) (zlen p)) by done. cbn [mbind res_bind].
  rewrite byte_at_app1 by done. cbn [mbind res_bind]. by rewrite le16_value.
Qed.

Lemma put_le16_bytes n : 0 <= n < 65536 ->
  exists x y, put_le16 n = [x; y] /\ is_byte x /\ is_byte y /\ n = 256 * y + x.
Proof.
  intros Hn. unfold put_le16. rewrite land_ff, Z.shiftr_div_pow2 by lia. change (2 ^ 8) with 256.
  exists (n mod 256), (n / 256). unfold is_byte. pose proof (Z.div_mod n 256 ltac:(lia)).
  pose proof (Z.mod_pos_bound n 256 ltac:(lia)). split_all; try (done || lia).
Qed.

Lemma get_put_le16 p n s i : 0 <= n < 65536 -> i = zlen p ->
  get_le16 (p ++ put_le16 n ++ s) i = Ret n.
Proof.
  intros Hn ->. destruct (put_le16_bytes n Hn) as (x & y & -> & Hx & Hy & ->).
  by apply get_le16_app.
Qed.

Lemma get_le16_some b i : Forall is_byte b -> 0 <= i -> i + 2 <= zlen b ->
  exists n, get_le16 b i = Ret n /\ 0 <= n < 65536.
Proof.
  intros Hb Hi Hl. unfold get_le16.
  destruct (byte_at_some b i) as (x & Hx & Hrx); [lia|].
  destruct (byte_at_some b (i + 1)) as (y & Hy & Hry); [lia|].
  rewrite Hx. cbn [mbind res_bind]. rewrite Hy. cbn [mbind res_bind].
  rewrite rd_lookup in Hrx, Hry by lia. rewrite Forall_lookup in Hb.
  pose proof (Hb _ _ Hrx) as Hbx. pose proof (Hb _ _ Hry) as Hby. unfold is_byte in *.
  rewrite le16_value by done. eexists. split; [done|]. lia.
Qed.

Lemma get_be16_app p x y s i : is_byte x -> is_byte y -> i = zlen p ->
  get_be16 (p ++ x :: y :: s) i = Ret (256 * x + y).
Proof.
  intros Hx Hy ->. unfold get_be16. rewrite (byte_at_app p x (y :: s) (zlen p)) by done.
  cbn [mbind res_bind]. rewrite byte_at_app1 by done. cbn [mbind res_bind]. by rewrite le16_value.
Qed.

Lemma get_put_be16 p n s i : 0 <= n < 65536 -> i = zlen p ->
  get_be16 (p ++ put_be16 n ++ s) i = Ret n.
Proof.
  intros Hn ->. destruct (put_le16_bytes n Hn) as (x & y & E & Hx & Hy & ->).
  unfold put_le16 in E. injection E as E1 E2. unfold put_be16. rewrite E1, E2.
  by apply get_be16_app.
Qed.

Lemma get_be16_some b i : Forall is_byte b -> 0 <= i -> i + 2 <= zlen b ->
  exists n, get_be16 b i = Ret n /\ 0 <= n < 65536.
Proof.
  intros Hb Hi Hl. unfold get_be16.
  destruct (byte_at_some b i) as (x & Hx & Hrx); [lia|].
  destruct (byte_at_some b (i + 1)) as (y & Hy & Hry); [lia|].
  rewrite Hx. cbn [mbind res_bind]. rewrite Hy. cbn [mbind res_bind].
  rewrite rd_lookup in Hrx, Hry by lia. rewrite Forall_lookup in Hb.
  pose proof (Hb _ _ Hrx) as Hbx. pose proof (Hb _ _ Hry) as Hby. unfold is_byte in *.
  rewrite le16_value by done. eexists. split; [done|]. lia.
Qed.

Lemma byte_at_mid p q s k : 0 <= k < zlen q -> byte_at (p ++ q ++ s) (zlen p + k) = Ret (q !!! Z.to_nat k).
Proof.
  intros Hk. unfold zlen in Hk. destruct (lookup_lt_is_Some_2 q (Z.to_nat k)) as [x Hx]; [lia|].
  pose proof (take_drop_middle q _ _ Hx) as Hq.
  rewrite (list_lookup_total_correct _ _ _ Hx). rewrite <- Hq at 1.
  rewrite <- app_assoc, (app_assoc p). cbn [app]. apply byte_at_app.
  rewrite zlen_app. unfold zlen. rewrite length_take. lia.
Qed.
