(* ===== verification/Ies.v ===== *)
(** * Information elements (core/rtw_ieee80211.c)

    The elements of a management frame are a run of bytes: identifier, length,
    content.  Module [Ies] models the routines that build, find, replace and
    remove elements and the supported-rate routines on top of them, and proves
    them against the list of elements a buffer encodes. *)

From S2P Require Import Prelude Bytes.

Module Ies.

(** ** Building *)

(** A writer gives the bytes written at [pbuf]; the frame length grows by
    their number. *)
Definition rtw_set_ie (pbuf : list Z) (off : Z) (index len : Z) (source : list Z) (frlen : Z)
    : res (list Z * Z * Z) :=
  b ← blit pbuf off [u8 index];
  b ← blit b (off + 1) [u8 len];
  b ← (if 0 <? len then s ← slice source 0 len; blit b (off + 2) s else Ret b);
  Ret (b, off + len + 2, u32 (frlen + (len + 2))).

Definition rtw_set_fixed_ie (pbuf : list Z) (off len : Z) (source : list Z) (frlen : Z)
    : res (list Z * Z * Z) :=
  s ← slice source 0 len;
  b ← blit pbuf off s;
  Ret (b, off + len, u32 (frlen + len)).

Definition WLAN_EID_CHANNEL_SWITCH : Z := 37.
Definition WLAN_EID_SECONDARY_CHANNEL_OFFSET : Z := 62.

Definition rtw_set_ie_ch_switch (buf : list Z) (off buf_len ch_switch_mode new_ch ch_switch_cnt : Z)
    : res (list Z * Z * Z) :=
  rtw_set_ie buf off WLAN_EID_CHANNEL_SWITCH 3 [ch_switch_mode; new_ch; ch_switch_cnt] buf_len.

Definition IEEE80211_SCN : Z := 0.
Definition IEEE80211_SCA : Z := 1.
Definition IEEE80211_SCB : Z := 3.
Definition CHAN_OFFSET_NO_EXT : Z := 0.
Definition CHAN_OFFSET_UPPER : Z := 1.
Definition CHAN_OFFSET_LOWER : Z := 3.

Definition secondary_ch_offset_to_hal_ch_offset (ch_offset : Z) : Z :=
  if ch_offset =? IEEE80211_SCN then CHAN_OFFSET_NO_EXT
  else if ch_offset =? IEEE80211_SCA then CHAN_OFFSET_UPPER
  else if ch_offset =? IEEE80211_SCB then CHAN_OFFSET_LOWER
  else CHAN_OFFSET_NO_EXT.

Definition hal_ch_offset_to_secondary_ch_offset (ch_offset : Z) : Z :=
  if ch_offset =? CHAN_OFFSET_NO_EXT then IEEE80211_SCN
  else if ch_offset =? CHAN_OFFSET_UPPER then IEEE80211_SCA
  else if ch_offset =? CHAN_OFFSET_LOWER then IEEE80211_SCB
  else IEEE80211_SCN.

Definition rtw_set_ie_secondary_ch_offset (buf : list Z) (off buf_len secondary_ch_offset : Z)
    : res (list Z * Z * Z) :=
  rtw_set_ie buf off WLAN_EID_SECONDARY_CHANNEL_OFFSET 1 [secondary_ch_offset] buf_len.

Definition rtw_set_ie_mesh_ch_switch_parm (buf : list Z) (off buf_len ttl flags reason precedence : Z)
    : res (list Z * Z * Z) :=
  rtw_set_ie buf off 0x118 6 ([ttl; flags] ++ put_le16 reason ++ put_le16 precedence) buf_len.

(** ** Finding *)

(** The loop of [rtw_get_ie] at pointer [p] with [i] bytes behind it; the
    result is the element's pointer and content length. *)
Fixpoint get_ie_loop (fuel : nat) (b : list Z) (p i index limit : Z) : res (option (Z * Z)) :=
  match fuel with
  | O => Looping
  | S fuel =>
      x ← byte_at b p;
      if x =? index then l ← byte_at b (p + 1); Ret (Some (p, l))
      else
        tmp ← byte_at b (p + 1);
        let p := p + (tmp + 2) in
        let i := i + (tmp + 2) in
        if limit <=? i then Ret None else get_ie_loop fuel b p i index limit
  end.

(** Every turn takes at least two bytes of the limit. *)
Definition ie_fuel (limit : Z) : nat := S (Z.to_nat limit).

Definition rtw_get_ie (b : list Z) (off index limit : Z) : res (option (Z * Z)) :=
  if limit <? 1 then Ret None else get_ie_loop (ie_fuel limit) b off 0 index limit.

Definition oui_matches (b : list Z) (off : Z) (oui : option (list Z)) : res bool :=
  match oui with None => Ret true | Some o => bytes_match b off o end.

(** The loop of [rtw_get_ie_ex]: pointer and length of the entire element. *)
Fixpoint get_ie_ex_loop (fuel : nat) (b : list Z) (off cnt in_len eid : Z) (oui : option (list Z))
    : res (option (Z * Z)) :=
  match fuel with
  | O => Looping
  | S fuel =>
      if cnt <? in_len then
        x ← byte_at b (off + cnt);
        m ← (if eid =? x then oui_matches b (off + cnt + 2) oui else Ret false);
        l ← byte_at b (off + cnt + 1);
        if m : bool then Ret (Some (off + cnt, l + 2))
        else get_ie_ex_loop fuel b off (cnt + (l + 2)) in_len eid oui
      else Ret None
  end.

Definition rtw_get_ie_ex (b : list Z) (off in_len eid : Z) (oui : option (list Z))
    : res (option (Z * Z)) :=
  if in_len <=? 0 then Ret None else get_ie_ex_loop (ie_fuel in_len) b off 0 in_len eid oui.

(** ** Replacing and removing *)

(** The result is the buffer, the new length and whether it was updated;
    [alloc_ok] is the result of [rtw_malloc]. *)
Definition rtw_ies_update_ie (ies : list Z) (ies_len ies_offset eid : Z) (content : list Z)
    (alloc_ok : bool) : res (list Z * Z * bool) :=
  let content_len := zlen content in
  if (ies_len =? 0) || (ies_len <=? ies_offset) then Ret (ies, ies_len, false)
  else
    let start := ies_offset in
    let search_len := ies_len - ies_offset in
    o ← rtw_get_ie ies start eid search_len;
    match o with
    | None => Ret (ies, ies_len, false)
    | Some (target_ie, target_ielen) =>
        if target_ielen =? 0 then Ret (ies, ies_len, false)
        else if target_ielen =? content_len then
          b ← blit ies (target_ie + 2) content;
          b ← blit b (target_ie + 1) [content_len];
          Ret (b, ies_len, true)
        else if negb alloc_ok then Ret (ies, ies_len, false)
        else
          let remain_ies := target_ie + 2 + target_ielen in
          let remain_len := u32 (search_len - (remain_ies - start)) in
          backup ← slice ies remain_ies remain_len;
          b ← blit ies (target_ie + 2) content;
          b ← blit b (target_ie + 1) [content_len];
          b ← blit b (target_ie + 2 + content_len) backup;
          Ret (b, u32 (ies_len + (content_len - target_ielen)), true)
    end.

Fixpoint remove_loop (fuel : nat) (ies : list Z) (ies_len start search_len eid : Z)
    (oui : option (list Z)) (ret : bool) : res (list Z * Z * bool) :=
  match fuel with
  | O => Looping
  | S fuel =>
      o ← rtw_get_ie_ex ies start search_len eid oui;
      match o with
      | None => Ret (ies, ies_len, ret)
      | Some (target_ie, target_ielen) =>
          let remain_ies := target_ie + target_ielen in
          let remain_len := u32 (search_len - (remain_ies - start)) in
          b ← bmove ies target_ie remain_ies remain_len;
          remove_loop fuel b (u32 (ies_len - target_ielen)) target_ie remain_len eid oui true
      end
  end.

Definition rtw_ies_remove_ie (ies : list Z) (ies_len offset eid : Z) (oui : option (list Z))
    : res (list Z * Z * bool) :=
  if ies_len <=? offset then Ret (ies, ies_len, false)
  else remove_loop (ie_fuel ies_len) ies ies_len offset (ies_len - offset) eid oui false.

(** ** Supported rates *)

Definition IEEE80211_BASIC_RATE_MASK : Z := 0x80.
Definition WIFI_CCKRATES : list Z := [0x82; 0x84; 0x8B; 0x96].
Definition WIFI_OFDMRATES : list Z := [0x0C; 0x12; 0x18; 0x24; 0x30; 0x48; 0x60; 0x6C].
Definition NDIS_802_11_LENGTH_RATES_EX : Z := 16.

Definition WLAN_MD_INVALID : Z := 0.
Definition WLAN_MD_11B : Z := 1.
Definition WLAN_MD_11A : Z := 2.
Definition WLAN_MD_11G : Z := 4.
Definition WLAN_MD_11BG : Z := 5.

Definition is_cck7 (r : Z) : bool :=
  let x := Z.land r 0x7f in (x =? 2) || (x =? 4) || (x =? 11) || (x =? 22).

(** The table scan; the value of the rate's bit. *)
Fixpoint bit_of (l : list Z) (i val : Z) : Z :=
  match l with
  | [] => 0
  | x :: l => if x =? val then BIT i else bit_of l (i + 1) val
  end.
Definition rtw_get_bit_value_from_ieee_value (val : Z) : Z :=
  bit_of [2; 4; 11; 22; 12; 18; 24; 36; 48; 72; 96; 108] 0 val.

Fixpoint cckrate_size (n : nat) (rate : list Z) (i : Z) : res Z :=
  match n with
  | O => Ret i
  | S n => x ← byte_at rate i; if is_cck7 x then cckrate_size n rate (i + 1) else Ret i
  end.
Definition rtw_get_cckrate_size (rate : list Z) (rate_length : Z) : res Z :=
  cckrate_size (Z.to_nat rate_length) rate 0.

(** The two loops run to a zero byte. *)
Fixpoint cckrates_included (fuel : nat) (rate : list Z) (i : Z) : res bool :=
  match fuel with
  | O => Looping
  | S fuel =>
      x ← byte_at rate i;
      if x =? 0 then Ret false
      else if is_cck7 x then Ret true else cckrates_included fuel rate (i + 1)
  end.
Definition rtw_is_cckrates_included (rate : list Z) : res bool :=
  cckrates_included (S (length rate)) rate 0.

Fixpoint cckratesonly_included (fuel : nat) (rate : list Z) (i : Z) : res bool :=
  match fuel with
  | O => Looping
  | S fuel =>
      x ← byte_at rate i;
      if x =? 0 then Ret true
      else if negb (is_cck7 x) then Ret false else cckratesonly_included fuel rate (i + 1)
  end.
Definition rtw_is_cckratesonly_included (rate : list Z) : res bool :=
  cckratesonly_included (S (length rate)) rate 0.

Definition rtw_check_network_type (rate : list Z) (channel : Z) : res Z :=
  if 14 <? channel then
    c ← rtw_is_cckrates_included rate;
    Ret (if c : bool then WLAN_MD_INVALID else WLAN_MD_11A)
  else
    o ← rtw_is_cckratesonly_included rate;
    if o : bool then Ret WLAN_MD_11B
    else
      c ← rtw_is_cckrates_included rate;
      Ret (if c : bool then WLAN_MD_11BG else WLAN_MD_11G).

(** The sixteen bytes of [SupportedRates]. *)
Definition rtw_set_supported_rate (mode ch : Z) : list Z :=
  let '(cck_en, ofdm_en) :=
    if mode =? WLAN_MD_11B then (true, false)
    else if (mode =? WLAN_MD_11G) || (mode =? WLAN_MD_11A) then (false, true)
    else if ch <? 14 then (true, true) else (false, true) in
  let r := (if cck_en : bool then WIFI_CCKRATES else []) ++
           (if ofdm_en : bool then WIFI_OFDMRATES else []) in
  r ++ replicate (Z.to_nat (NDIS_802_11_LENGTH_RATES_EX - zlen r)) 0.

(** core/rtw_wlan_util.c. *)
Definition rate_in (l : list Z) (rate : Z) : bool :=
  existsb (fun x => Z.land x 0x7f =? Z.land rate 0x7f) l.
Definition rtw_is_cck_rate (rate : Z) : bool := rate_in WIFI_CCKRATES rate.
Definition rtw_is_ofdm_rate (rate : Z) : bool := rate_in WIFI_OFDMRATES rate.
Definition rtw_is_basic_rate_ofdm (rate : Z) : bool := rate_in [0x8C; 0x98; 0xB0] rate.

(** The part of [WLAN_BSSID_EX] the routines use. *)
Record bss := mk_bss { IEs : list Z; IELength : Z; SupportedRates : list Z; DSConfig : Z }.
Definition _BEACON_IE_OFFSET_ : Z := 12.
Definition _SUPPORTEDRATES_IE_ : Z := 1.
Definition _EXT_SUPPORTEDRATES_IE_ : Z := 50.

Inductive keep_rates := KeepCCK | KeepOFDM.

(** The loop that collects the kept rates into the array [new_rate] of
    sixteen bytes. *)
Fixpoint filter_rates (n : nat) (i : Z) (b : list Z) (p : Z) (k : keep_rates)
    (new_rate : list Z) (idx : Z) : res (list Z * Z) :=
  match n with
  | O => Ret (new_rate, idx)
  | S n =>
      x ← byte_at b (p + i + 2);
      let kept := match k with KeepCCK => rtw_is_cck_rate x | KeepOFDM => rtw_is_ofdm_rate x end in
      if kept then
        let v := if rtw_is_basic_rate_ofdm x then Z.lor x IEEE80211_BASIC_RATE_MASK else x in
        nr ← blit new_rate idx [v];
        filter_rates n (i + 1) b p k nr (idx + 1)
      else filter_rates n (i + 1) b p k new_rate idx
  end.

Definition rtw_filter_suppport_rateie (b : bss) (k : keep_rates) : res bss :=
  o ← rtw_get_ie (IEs b) _BEACON_IE_OFFSET_ _SUPPORTEDRATES_IE_ (IELength b - _BEACON_IE_OFFSET_);
  match o with
  | None => Ret b
  | Some (p, ie_orilen) =>
      '(new_rate, idx) ← filter_rates (Z.to_nat ie_orilen) 0 (IEs b) p k
                           (replicate (Z.to_nat NDIS_802_11_LENGTH_RATES_EX) 0) 0;
      m ← blit (IEs b) (p + 1) [idx];
      s ← slice new_rate 0 idx;
      m ← blit m (p + 2) s;
      let remain_ies := p + 2 + ie_orilen in
      m ← bmove m (p + 2 + idx) remain_ies (u32 (IELength b - remain_ies));
      Ret (mk_bss m (u32 (IELength b - (ie_orilen - idx))) (SupportedRates b) (DSConfig b))
  end.

Definition rtw_update_rate_bymode (b : bss) (mode : Z) : res (bss * Z) :=
  let network_ielen := IELength b in
  '(b, ty) ←
    (if mode =? WLAN_MD_11B then
       b ← rtw_filter_suppport_rateie b KeepCCK;
       o ← rtw_get_ie (IEs b) _BEACON_IE_OFFSET_ _EXT_SUPPORTEDRATES_IE_
             (IELength b - _BEACON_IE_OFFSET_);
       match o with
       | Some (_, ie_len) =>
           '(m, _, _) ← rtw_ies_remove_ie (IEs b) network_ielen _BEACON_IE_OFFSET_
                          _EXT_SUPPORTEDRATES_IE_ None;
           Ret (mk_bss m (u32 (IELength b - ie_len)) (SupportedRates b) (DSConfig b), WLAN_MD_11B)
       | None => Ret (b, WLAN_MD_11B)
       end
     else if Z.land mode WLAN_MD_11B =? 0 then
       b ← rtw_filter_suppport_rateie b KeepOFDM;
       Ret (b, if 14 <? DSConfig b then WLAN_MD_11A else WLAN_MD_11G)
     else
       o ← rtw_get_ie (IEs b) _BEACON_IE_OFFSET_ _EXT_SUPPORTEDRATES_IE_
             (IELength b - _BEACON_IE_OFFSET_);
       Ret (b, if is_Some_b o then WLAN_MD_11BG else WLAN_MD_11B));
  Ret (mk_bss (IEs b) (IELength b) (rtw_set_supported_rate ty (DSConfig b)) (DSConfig b), ty).

(** The length up to the zero byte, at most thirteen. *)
Fixpoint rateset_len (fuel : nat) (rateset : list Z) (i : Z) : res Z :=
  match fuel with
  | O => Looping
  | S fuel =>
      x ← byte_at rateset i;
      if x =? 0 then Ret i else if 12 <? i then Ret i else rateset_len fuel rateset (i + 1)
  end.
Definition rtw_get_rateset_len (rateset : list Z) : res Z := rateset_len 14 rateset 0.

(** ** Extended capabilities *)

Definition WLAN_EID_EXT_CAP : Z := 127.
Definition WLAN_EID_EXT_CAP_MAX_LEN : Z := 10.

Definition rtw_add_ext_cap_info (data : list Z) (len cap_info : Z) : res (list Z * Z) :=
  let byte_offset := Z.shiftr cap_info 3 in
  let bit_offset := cap_info mod 8 in
  x ← byte_at data byte_offset;
  d ← blit data byte_offset [u8 (Z.lor x (BIT bit_offset))];
  Ret (d, if len <? byte_offset + 1 then byte_offset + 1 else len).

(** The loop over the bytes: one more than the position of the last one that
    is not zero. *)
Fixpoint last_nonzero (n : nat) (i : Z) (data : list Z) (max_len : Z) : res Z :=
  match n with
  | O => Ret max_len
  | S n =>
      x ← byte_at data i;
      last_nonzero n (i + 1) data (if x =? 0 then max_len else i + 1)
  end.

Definition rtw_remove_ext_cap_info (data : list Z) (len cap_info : Z) : res (list Z * Z) :=
  let byte_offset := Z.shiftr cap_info 3 in
  let bit_offset := cap_info mod 8 in
  x ← byte_at data byte_offset;
  d ← blit data byte_offset [Z.land x (u8 (Z.lnot (BIT bit_offset)))];
  n ← last_nonzero (Z.to_nat WLAN_EID_EXT_CAP_MAX_LEN) 0 d 0;
  Ret (d, n).

Definition rtw_update_ext_cap_ie (data : list Z) (data_len : Z) (ies : list Z)
    (ies_len ies_offset : Z) (alloc_ok : bool) : res (list Z * Z) :=
  if negb (data_len =? 0) then
    o ← rtw_get_ie ies ies_offset WLAN_EID_EXT_CAP (ies_len - ies_offset);
    match o with
    | None =>
        '(b, _, n) ← rtw_set_ie ies ies_len WLAN_EID_EXT_CAP data_len data 0;
        Ret (b, u32 (ies_len + n))
    | Some _ =>
        c ← slice data 0 data_len;
        '(b, n, _) ← rtw_ies_update_ie ies ies_len ies_offset WLAN_EID_EXT_CAP c alloc_ok;
        Ret (b, n)
    end
  else
    '(b, n, _) ← rtw_ies_remove_ie ies ies_len ies_offset WLAN_EID_EXT_CAP None;
    Ret (b, n).

(** [ext_cap_data[i] |= extcap_ie[i]]. *)
Fixpoint or_bytes (n : nat) (i : Z) (data ies : list Z) (p : Z) : res (list Z) :=
  match n with
  | O => Ret data
  | S n =>
      x ← byte_at data i;
      y ← byte_at ies (p + i);
      d ← blit data i [Z.lor x y];
      or_bytes n (i + 1) d ies p
  end.

Definition rtw_parse_ext_cap_ie (data : list Z) (data_len : Z) (ies : list Z)
    (ies_len ies_offset : Z) : res (list Z * Z) :=
  o ← rtw_get_ie ies ies_offset WLAN_EID_EXT_CAP (ies_len - ies_offset);
  match o with
  | None => Ret (data, data_len)
  | Some (p, n) =>
      if data_len =? 0 then
        s ← slice ies (p + 2) n;
        d ← blit data 0 s;
        Ret (d, u8 n)
      else d ← or_bytes (Z.to_nat n) 0 data ies (p + 2); Ret (d, data_len)
  end.

(** ** Encoded elements *)

Definition elem : Type := Z * list Z.
Definition enc1 (x : elem) : list Z := x.1 :: zlen x.2 :: x.2.
Fixpoint enc (l : list elem) : list Z :=
  match l with [] => [] | x :: l => enc1 x ++ enc l end.

Definition elem_ok (x : elem) : Prop := is_byte x.1 /\ zlen x.2 < 256 /\ Forall is_byte x.2.

(** The reference definition of a search: the elements before the first match,
    the match and those after it. *)
Fixpoint split_first (p : elem -> bool) (l : list elem) : option (list elem * elem * list elem) :=
  match l with
  | [] => None
  | x :: l =>
      if p x then Some ([], x, l)
      else '(l1, y, l2) ← split_first p l; Some (x :: l1, y, l2)
  end.

Definition has_eid (eid : Z) (x : elem) : bool := x.1 =? eid.

(** An element with the identifier and, if given, the OUI at the start of its
    content. *)
Definition has_oui (eid : Z) (oui : option (list Z)) (x : elem) : bool :=
  has_eid eid x &&
  match oui with None => true | Some o => bool_decide (ztake (zlen o) x.2 = o) end.

(** An OUI is compared only with elements that are long enough to hold it. *)
Definition oui_fits (eid : Z) (oui : option (list Z)) (x : elem) : Prop :=
  match oui with None => True | Some o => x.1 = eid -> zlen o <= zlen x.2 end.

Lemma enc_app l1 l2 : enc (l1 ++ l2) = enc l1 ++ enc l2.
Proof. induction l1 as [|x l1 IH]; cbn [enc app]; [done|]. by rewrite IH, app_assoc. Qed.

Lemma zlen_enc1 x : zlen (enc1 x) = zlen x.2 + 2.
Proof. unfold enc1. zlens. lia. Qed.
Lemma zlen_enc_cons x l : zlen (enc (x :: l)) = zlen x.2 + 2 + zlen (enc l).
Proof. cbn [enc]. rewrite zlen_app, zlen_enc1. done. Qed.
Lemma enc_long l : Z.of_nat (length l) * 2 <= zlen (enc l).
Proof.
  induction l as [|x l IH]; [done|]. rewrite zlen_enc_cons. cbn [length].
  pose proof (zlen_nonneg x.2). lia.
Qed.

Lemma split_first_some p l l1 x l2 :
  split_first p l = Some (l1, x, l2) ->
  l = l1 ++ x :: l2 /\ p x = true /\ Forall (fun y => p y = false) l1.
Proof.
  revert l1. induction l as [|y l IH]; intros l1; cbn; [done|].
  destruct (p y) eqn:Hy; [intros [= <- <- <-]; by split_all|].
  destruct (split_first p l) as [[[k z] k2]|] eqn:E; cbn; [|done].
  intros [= <- <- <-]. destruct (IH k eq_refl) as (-> & ? & ?). split_all. by constructor.
Qed.

Lemma split_first_none p l : split_first p l = None -> Forall (fun y => p y = false) l.
Proof.
  induction l as [|y l IH]; cbn; [constructor|]. destruct (p y) eqn:Hy; [done|].
  destruct (split_first p l) as [[[? ?] ?]|]; [done|]. intros _. constructor; auto.
Qed.

Lemma split_first_filter p l :
  filter (fun x => p x = false) l =
    match split_first p l with
    | None => l
    | Some (l1, _, l2) => l1 ++ filter (fun x => p x = false) l2
    end.
Proof.
  induction l as [|y l IH]; [done|]. cbn [split_first]. destruct (p y) eqn:Hy.
  - rewrite filter_cons_False by congruence. done.
  - rewrite filter_cons_True by done. rewrite IH.
    by destruct (split_first p l) as [[[k z] k2]|].
Qed.

(** The two header bytes of an encoded element. *)
Lemma enc_header pre x l post i :
  i = zlen pre ->
  byte_at (pre ++ enc (x :: l) ++ post) i = Ret x.1 /\
  byte_at (pre ++ enc (x :: l) ++ post) (i + 1) = Ret (zlen x.2).
Proof.
  intros ->. cbn [enc enc1 app]. split; [by apply byte_at_app|]. by apply byte_at_app1.
Qed.

(** An encoded element skipped: the buffer with it in the part before. *)
Lemma enc_step pre x l post :
  pre ++ enc (x :: l) ++ post = (pre ++ enc1 x) ++ enc l ++ post.
Proof. cbn [enc]. by rewrite <- !app_assoc. Qed.

Lemma get_ie_loop_spec index post l :
  forall fuel pre i limit, (length l < fuel)%nat -> l <> [] ->
  limit = i + zlen (enc l) ->
  get_ie_loop fuel (pre ++ enc l ++ post) (zlen pre) i index limit =
    Ret match split_first (has_eid index) l with
        | Some (l1, x, _) => Some (zlen pre + zlen (enc l1), zlen x.2)
        | None => None
        end.
Proof.
  induction l as [|x l IH]; intros [|fuel] pre i limit Hf Hne Hlim; try done; [cbn in Hf; lia|].
  destruct (enc_header pre x l post (zlen pre) eq_refl) as [H0 H1].
  cbn [get_ie_loop]. rewrite H0. cbn [mbind res_bind]. rewrite H1. cbn [mbind res_bind].
  cbn [split_first]. unfold has_eid at 1. destruct (x.1 =? index).
  { f_equal. f_equal. f_equal. cbn; zlens; lia. }
  rewrite zlen_enc_cons in Hlim. destruct (Z.leb_spec limit (i + (zlen x.2 + 2))).
  - assert (l = []) as ->; [|done]. destruct l as [|y l]; [done|].
    pose proof (enc_long (y :: l)). cbn [length] in *. lia.
  - rewrite enc_step. replace (zlen pre + (zlen x.2 + 2)) with (zlen (pre ++ enc1 x))
      by (rewrite zlen_app, zlen_enc1; lia).
    rewrite IH; [|cbn in Hf; lia| |lia].
    + destruct (split_first _ l) as [[[k z] k2]|]; [|done]. cbn [mbind option_bind].
      f_equal. f_equal. f_equal. rewrite zlen_app, zlen_enc1, zlen_enc_cons. lia.
    + intros ->. cbn in Hlim. zlens. lia.
Qed.

Lemma ie_fuel_enc l k : zlen (enc l) <= k -> (length l < ie_fuel k)%nat.
Proof. intros. pose proof (enc_long l). unfold ie_fuel. lia. Qed.

Lemma get_ie_enc index pre l post off limit :
  off = zlen pre -> limit = zlen (enc l) ->
  rtw_get_ie (pre ++ enc l ++ post) off index limit =
    Ret match split_first (has_eid index) l with
        | Some (l1, x, _) => Some (off + zlen (enc l1), zlen x.2)
        | None => None
        end.
Proof.
  intros -> ->. unfold rtw_get_ie. destruct (Z.ltb_spec (zlen (enc l)) 1) as [Hz|Hz].
  - destruct l as [|x l]; [done|]. pose proof (enc_long (x :: l)). cbn [length] in *. lia.
  - apply get_ie_loop_spec; [by apply ie_fuel_enc| |done]. by intros ->.
Qed.

Lemma oui_matches_enc pre x l post oui off :
  off = zlen pre + 2 -> oui_fits x.1 oui x ->
  oui_matches (pre ++ enc (x :: l) ++ post) off oui = Ret (has_oui x.1 oui x).
Proof.
  intros -> Hfit. unfold has_oui, has_eid. rewrite Z.eqb_refl. cbn [andb].
  destruct oui as [o|]; [|done]. specialize (Hfit eq_refl). unfold oui_matches, bytes_match.
  replace (pre ++ enc (x :: l) ++ post)
    with ((pre ++ [x.1; zlen x.2]) ++ ztake (zlen o) x.2 ++ zdrop (zlen o) x.2 ++ enc l ++ post).
  - rewrite slice_app; [done|by zlens|]. rewrite zlen_ztake; [done|].
    pose proof (zlen_nonneg o). lia.
  - cbn [enc enc1 app]. rewrite <- !app_assoc. cbn [app]. f_equal. f_equal. f_equal.
    rewrite (app_assoc (ztake _ _)), ztake_zdrop. by rewrite app_assoc.
Qed.

Lemma get_ie_ex_loop_spec eid oui post l :
  Forall (oui_fits eid oui) l ->
  forall fuel pre cnt off in_len, (length l < fuel)%nat -> off + cnt = zlen pre ->
  in_len = cnt + zlen (enc l) ->
  get_ie_ex_loop fuel (pre ++ enc l ++ post) off cnt in_len eid oui =
    Ret match split_first (has_oui eid oui) l with
        | Some (l1, x, _) => Some (zlen pre + zlen (enc l1), zlen (enc1 x))
        | None => None
        end.
Proof.
  induction l as [|x l IH]; intros Hfit [|fuel] pre cnt off in_len Hf Hoff Hlen; try done;
    try (cbn in Hf; lia); cbn [get_ie_ex_loop].
  { cbn [enc] in Hlen. rewrite zlen_nil in Hlen. destruct (Z.ltb_spec cnt in_len); [lia|done]. }
  apply Forall_cons in Hfit as [Hx Hfit]. rewrite zlen_enc_cons in Hlen.
  pose proof (zlen_nonneg x.2). pose proof (zlen_nonneg (enc l)).
  destruct (Z.ltb_spec cnt in_len); [|lia].
  destruct (enc_header pre x l post (zlen pre) eq_refl) as [Hb0 Hb1].
  rewrite <- Hoff in Hb0, Hb1. rewrite Hb0. cbn [mbind res_bind]. rewrite Hb1.
  assert (Hm : (if eid =? x.1 then oui_matches (pre ++ enc (x :: l) ++ post) (off + cnt + 2) oui
                else Ret false) = Ret (has_oui eid oui x)).
  { destruct (Z.eqb_spec eid x.1) as [->|Hne].
    - apply oui_matches_enc; [lia|done].
    - unfold has_oui, has_eid. by destruct (Z.eqb_spec x.1 eid) as [E|]; [congruence|]. }
  rewrite Hm. cbn [mbind res_bind split_first]. destruct (has_oui eid oui x).
  - f_equal. f_equal. f_equal; [cbn; zlens; lia|]. by rewrite zlen_enc1.
  - rewrite enc_step. rewrite (IH Hfit); [|cbn in Hf; lia| |lia].
    + destruct (split_first _ l) as [[[k z] k2]|]; [|done]. cbn [mbind option_bind].
      f_equal. f_equal. f_equal. rewrite zlen_app, zlen_enc1, zlen_enc_cons. lia.
    + rewrite zlen_app, zlen_enc1. lia.
Qed.

Lemma get_ie_ex_enc eid oui pre l post off in_len :
  Forall (oui_fits eid oui) l -> off = zlen pre -> in_len = zlen (enc l) ->
  rtw_get_ie_ex (pre ++ enc l ++ post) off in_len eid oui =
    Ret match split_first (has_oui eid oui) l with
        | Some (l1, x, _) => Some (off + zlen (enc l1), zlen (enc1 x))
        | None => None
        end.
Proof.
  intros Hfit -> ->. unfold rtw_get_ie_ex. destruct (Z.leb_spec (zlen (enc l)) 0) as [Hz|Hz].
  - destruct l as [|x l]; [done|]. pose proof (enc_long (x :: l)). cbn [length] in *. lia.
  - apply get_ie_ex_loop_spec; [done|by apply ie_fuel_enc|lia|lia].
Qed.

(** ** Removal *)

(** Buffers are far below 2 GB. *)
Definition small (n : Z) : Prop := 0 <= n < 2147483648.

Lemma u32_small n : small n -> u32 n = n.
Proof. unfold small, u32. intros. apply Z.mod_small. lia. Qed.

Definition keep (eid : Z) (oui : option (list Z)) (l : list elem) : list elem :=
  filter (fun x => has_oui eid oui x = false) l.

Lemma keep_cons_split eid oui l l1 x l2 :
  split_first (has_oui eid oui) l = Some (l1, x, l2) -> keep eid oui l = l1 ++ keep eid oui l2.
Proof. intros E. unfold keep. by rewrite split_first_filter, E. Qed.

Lemma remove_loop_spec eid oui n :
  forall l pre post total ret fuel, (length l <= n)%nat -> Forall (oui_fits eid oui) l ->
  (n < fuel)%nat -> small total -> zlen (enc l) <= total ->
  exists junk,
    remove_loop fuel (pre ++ enc l ++ post) total (zlen pre) (zlen (enc l)) eid oui ret =
      Ret (pre ++ enc (keep eid oui l) ++ junk ++ post,
           total - zlen junk,
           ret || existsb (has_oui eid oui) l) /\
    zlen junk = zlen (enc l) - zlen (enc (keep eid oui l)).
Proof.
  induction n as [|n IH]; intros l pre post total ret [|fuel] Hn Hfit Hfuel Hs Ht; try lia.
  { destruct l; [|cbn in Hn; lia]. exists []. cbn. rewrite orb_false_r, Z.sub_0_r. done. }
  cbn [remove_loop]. rewrite get_ie_ex_enc by done. cbn [mbind res_bind].
  destruct (split_first (has_oui eid oui) l) as [[[l1 x] l2]|] eqn:E.
  - rewrite (keep_cons_split _ _ _ _ _ _ E).
    apply split_first_some in E as (-> & Hx & Hl1).
    apply Forall_app in Hfit as [_ Hfit]. apply Forall_cons in Hfit as [_ Hfit].
    rewrite enc_app, zlen_app in Ht. change (enc (x :: l2)) with (enc1 x ++ enc l2) in Ht.
    rewrite zlen_app in Ht. pose proof (zlen_nonneg (enc l1)). pose proof (zlen_nonneg (enc1 x)).
    pose proof (zlen_nonneg (enc l2)). unfold small in Hs.
    assert (Hbuf : pre ++ enc (l1 ++ x :: l2) ++ post = (pre ++ enc l1) ++ enc1 x ++ enc l2 ++ post).
    { rewrite enc_app. cbn [enc]. by rewrite <- !app_assoc. }
    assert (Hlen : zlen (enc (l1 ++ x :: l2)) = zlen (enc l1) + zlen (enc1 x) + zlen (enc l2)).
    { rewrite enc_app. cbn [enc]. rewrite !zlen_app. lia. }
    rewrite Hbuf, Hlen.
    replace (zlen (enc l1) + zlen (enc1 x) + zlen (enc l2)
             - (zlen pre + zlen (enc l1) + zlen (enc1 x) - zlen pre)) with (zlen (enc l2)) by lia.
    rewrite (u32_small (zlen (enc l2))) by (unfold small; lia).
    rewrite bmove_left by (rewrite ?zlen_app; lia). cbn [mbind res_bind].
    rewrite u32_small by (unfold small; lia).
    set (junk0 := zdrop (zlen (enc l2)) (enc1 x ++ enc l2)).
    assert (Hj0 : zlen junk0 = zlen (enc1 x)).
    { unfold junk0. rewrite zlen_zdrop; rewrite zlen_app; lia. }
    rewrite length_app in Hn. cbn [length] in Hn.
    destruct (IH l2 (pre ++ enc l1) (junk0 ++ post) (total - zlen (enc1 x)) true fuel)
      as (junk & Hr & Hj); [lia|done|lia|unfold small; lia|lia|].
    rewrite zlen_app in Hr. rewrite Hr. exists (junk ++ junk0). rewrite enc_app, !zlen_app.
    split; [|lia]. f_equal. f_equal; [f_equal|].
    + by rewrite <- !app_assoc.
    + lia.
    + symmetry. rewrite existsb_app. cbn. rewrite Hx. by rewrite !orb_true_r.
  - pose proof (split_first_none _ _ E) as Hno.
    assert (keep eid oui l = l) as ->.
    { unfold keep. by rewrite split_first_filter, E. }
    exists []. rewrite zlen_nil. split; [|lia]. rewrite Z.sub_0_r. f_equal. f_equal.
    enough (existsb (has_oui eid oui) l = false) as -> by by rewrite orb_false_r.
    clear -Hno. induction Hno as [|y l Hy _ IH]; [done|]. cbn. by rewrite Hy, IH.
Qed.

Lemma enc_cons_nonempty (x : elem) l : 0 < zlen (enc (x :: l)).
Proof. rewrite zlen_enc_cons. pose proof (zlen_nonneg x.2). pose proof (zlen_nonneg (enc l)). lia. Qed.

Lemma keep_fits eid oui l :
  Forall (oui_fits eid oui) l -> Forall (oui_fits eid oui) (keep eid oui l).
Proof.
  rewrite !Forall_forall. intros H x Hx. apply H. unfold keep in Hx.
  by apply list_elem_of_filter in Hx as [_ ?].
Qed.

Lemma keep_none eid oui l :
  Forall (fun x => has_oui eid oui x = false) l -> keep eid oui l = l.
Proof.
  intros H. induction H as [|x l Hx _ IH]; [done|]. unfold keep in *.
  rewrite filter_cons_True by done. by rewrite IH.
Qed.

Lemma remove_ie_enc eid oui pre l post :
  Forall (oui_fits eid oui) l -> small (zlen pre + zlen (enc l)) ->
  exists junk,
    rtw_ies_remove_ie (pre ++ enc l ++ post) (zlen pre + zlen (enc l)) (zlen pre) eid oui =
      Ret (pre ++ enc (keep eid oui l) ++ junk ++ post,
           zlen pre + zlen (enc (keep eid oui l)),
           existsb (has_oui eid oui) l) /\
    zlen junk = zlen (enc l) - zlen (enc (keep eid oui l)).
Proof.
  intros Hfit Hsmall.
  unfold rtw_ies_remove_ie. pose proof (zlen_nonneg pre). pose proof (zlen_nonneg (enc l)).
  destruct (Z.leb_spec (zlen pre + zlen (enc l)) (zlen pre)) as [Hle|Hlt].
  - destruct l as [|x l]; [|pose proof (enc_cons_nonempty x l); lia]. by exists [].
  - destruct (remove_loop_spec eid oui (length l) l pre post (zlen pre + zlen (enc l)) false
                (ie_fuel (zlen pre + zlen (enc l)))) as (junk & Hr & Hj);
      [done|done|apply ie_fuel_enc; lia|done|lia|].
    exists junk. replace (zlen pre + zlen (enc l) - zlen pre) with (zlen (enc l)) by lia.
    rewrite Hr. split; [|done]. f_equal. f_equal. f_equal. lia.
Qed.

(** On a buffer that holds the elements [l] behind a fixed part [pre],
    removal leaves exactly the elements that do not match, in order, reports
    their length and whether any matched, and keeps the bytes behind the
    elements; the buffer keeps its size and a second removal finds nothing. *)
Theorem remove_ie_spec eid oui pre l post (Hfit : Forall (oui_fits eid oui) l)
    (Hsmall : small (zlen pre + zlen (enc l))) :
  exists junk,
    rtw_ies_remove_ie (pre ++ enc l ++ post) (zlen pre + zlen (enc l)) (zlen pre) eid oui =
      Ret (pre ++ enc (keep eid oui l) ++ junk ++ post,
           zlen pre + zlen (enc (keep eid oui l)),
           existsb (has_oui eid oui) l) /\
    zlen junk = zlen (enc l) - zlen (enc (keep eid oui l)) /\
    rtw_get_ie_ex (pre ++ enc (keep eid oui l) ++ junk ++ post) (zlen pre)
      (zlen (enc (keep eid oui l))) eid oui = Ret None.
Proof.
  destruct (remove_ie_enc eid oui pre l post Hfit Hsmall) as (junk & Hr & Hj).
  exists junk. split; [done|]. split; [done|]. rewrite get_ie_ex_enc; [|by apply keep_fits|done|done].
  enough (split_first (has_oui eid oui) (keep eid oui l) = None) as -> by done.
  clear. unfold keep. induction l as [|x l IH]; [done|].
  destruct (has_oui eid oui x) eqn:Hx.
  - by rewrite filter_cons_False by congruence.
  - rewrite filter_cons_True by done. cbn [split_first]. by rewrite Hx, IH.
Qed.

(** ** Replacement *)

(** The element [x] in front of [s], with the bytes before its content. *)
Lemma enc_around pre l1 eid c l2 s :
  pre ++ enc (l1 ++ (eid, c) :: l2) ++ s = ((pre ++ enc l1) ++ [eid]) ++ [zlen c] ++ c ++ enc l2 ++ s.
Proof. rewrite enc_app. cbn [enc enc1 fst snd app]. rewrite <- !app_assoc. cbn [app]. by rewrite <- !app_assoc. Qed.

Lemma zlen_enc_around l1 eid c l2 :
  zlen (enc (l1 ++ (eid, c) :: l2)) = zlen (enc l1) + zlen c + 2 + zlen (enc l2).
Proof. rewrite enc_app, zlen_app, zlen_enc_cons. cbn [snd]. lia. Qed.

Lemma split_first_mid p l1 x l2 :
  Forall (fun y => p y = false) l1 -> p x = true -> split_first p (l1 ++ x :: l2) = Some (l1, x, l2).
Proof.
  intros Hl Hx. induction Hl as [|y l1 Hy _ IH]; cbn; [by rewrite Hx|]. by rewrite Hy, IH.
Qed.

(** Another content of the same length. *)
Lemma write_content P c0 s content : zlen content = zlen c0 ->
  (b ← blit (P ++ [zlen c0] ++ c0 ++ s) (zlen P + 1) content; blit b (zlen P) [zlen content]) =
    Ret (P ++ [zlen content] ++ content ++ s).
Proof.
  intros Heq. replace (P ++ [zlen c0] ++ c0 ++ s) with ((P ++ [zlen c0]) ++ c0 ++ s)
    by by rewrite <- !app_assoc.
  rewrite blit_app by (zlens; lia). cbn [mbind res_bind]. rewrite <- app_assoc.
  by rewrite blit_app by (zlens; lia).
Qed.

(** Another content of another length, and what follows behind it. *)
Lemma write_content_move P c0 s r content : 0 <= zlen c0 + zlen r - zlen content ->
  (b ← blit (P ++ [zlen c0] ++ c0 ++ s ++ r) (zlen P + 1) content;
   b ← blit b (zlen P) [zlen content]; blit b (zlen P + 1 + zlen content) s) =
    Ret (P ++ [zlen content] ++ content ++ s ++ zdrop (zlen content + zlen s) (c0 ++ s ++ r)).
Proof.
  intros Hr. pose proof (zlen_nonneg content). pose proof (zlen_nonneg s).
  replace (P ++ [zlen c0] ++ c0 ++ s ++ r) with ((P ++ [zlen c0]) ++ c0 ++ s ++ r)
    by by rewrite <- !app_assoc.
  rewrite blit_over by (zlens; lia). cbn [mbind res_bind]. rewrite <- app_assoc.
  rewrite blit_app by (zlens; lia). cbn [mbind res_bind].
  set (R := c0 ++ s ++ r). assert (zlen R = zlen c0 + zlen s + zlen r) by (unfold R; zlens; lia).
  replace (P ++ [zlen content] ++ content ++ zdrop (zlen content) R)
    with ((P ++ [zlen content] ++ content) ++ zdrop (zlen content) R) by by rewrite <- !app_assoc.
  rewrite blit_over; [|zlens; lia|rewrite zlen_zdrop; lia].
  rewrite zdrop_zdrop by done. by rewrite <- !app_assoc.
Qed.

(** Replacing the content of the first element with the identifier keeps
    the elements before and after it: the buffer then encodes the list with
    that one content replaced, and the length is the new encoding's. *)
Theorem update_ie_spec eid content pre l1 c0 l2 post room
    (Hl1 : Forall (fun x => has_eid eid x = false) l1) (Heid : is_byte eid)
    (Hc0 : 0 < zlen c0) (Hc : zlen content < 256)
    (Hroom : zlen room = Z.max 0 (zlen content - zlen c0))
    (Hsmall : small (zlen pre + zlen (enc (l1 ++ (eid, c0) :: l2)) + 256)) :
  exists tail,
    rtw_ies_update_ie (pre ++ enc (l1 ++ (eid, c0) :: l2) ++ room ++ post)
      (zlen pre + zlen (enc (l1 ++ (eid, c0) :: l2))) (zlen pre) eid content true =
      Ret (pre ++ enc (l1 ++ (eid, content) :: l2) ++ tail ++ post,
           zlen pre + zlen (enc (l1 ++ (eid, content) :: l2)), true).
Proof.
  rewrite !zlen_enc_around in *. cbn [snd] in *.
  pose proof (zlen_nonneg pre). pose proof (zlen_nonneg (enc l1)). pose proof (zlen_nonneg (enc l2)).
  pose proof (zlen_nonneg content). set (n := zlen pre + _) in *. unfold rtw_ies_update_ie.
  destruct (Z.eqb_spec n 0); [lia|]. destruct (Z.leb_spec n (zlen pre)); [lia|]. cbn [orb].
  rewrite get_ie_enc by (rewrite ?zlen_enc_around; lia). cbn [mbind res_bind].
  rewrite split_first_mid by (done || apply Z.eqb_refl).
  cbn [snd]. destruct (Z.eqb_spec (zlen c0) 0); [lia|]. rewrite enc_around.
  set (P := (pre ++ enc l1) ++ [eid]).
  assert (HP : zlen pre + zlen (enc l1) + 1 = zlen P) by (unfold P; zlens; lia).
  replace (zlen pre + zlen (enc l1) + 2) with (zlen P + 1) by lia. rewrite HP.
  destruct (Z.eqb_spec (zlen c0) (zlen content)) as [Heq|Hne].
  - exists room. rewrite enc_around. fold P.
    pose proof (write_content P c0 (enc l2 ++ room ++ post) content (eq_sym Heq)) as E.
    destruct (blit _ (zlen P + 1) content) as [b| |]; cbn [mbind res_bind] in *; try done.
    rewrite E. cbn [mbind res_bind]. do 3 f_equal. lia.
  - cbn [negb]. exists (zdrop (zlen content + zlen (enc l2)) (c0 ++ enc l2 ++ room)).
    rewrite enc_around. fold P.
    replace (u32 (n - zlen pre - (zlen P + 1 + zlen c0 - zlen pre)))
      with (zlen (enc l2)) by (rewrite u32_small by (unfold small in *; lia); lia).
    replace (slice _ _ _) with (Ret (enc l2)).
    2:{ replace (P ++ [zlen c0] ++ c0 ++ enc l2 ++ room ++ post)
          with ((P ++ [zlen c0] ++ c0) ++ enc l2 ++ room ++ post) by by rewrite <- !app_assoc.
        symmetry. apply slice_app; [zlens; lia|done]. }
    cbn [mbind res_bind]. pose proof (zlen_nonneg post).
    pose proof (write_content_move P c0 (enc l2) (room ++ post) content) as E.
    destruct (blit _ (zlen P + 1) content) as [b| |]; cbn [mbind res_bind] in *;
      try (discriminate E; zlens; lia).
    destruct (blit b (zlen P) _) as [b2| |]; cbn [mbind res_bind] in *;
      try (discriminate E; zlens; lia).
    rewrite E by (zlens; lia). cbn [mbind res_bind]. rewrite u32_small by (unfold small in *; lia).
    do 3 f_equal; [|lia]. do 4 f_equal.
    rewrite <- zdrop_app_le by (zlens; lia). by rewrite <- !app_assoc.
Qed.

(** ** Witnesses of the two editing theorems *)

(** An SSID, a vendor element with the WPA OUI, a channel element. *)
Definition sample : list elem := [(0, [97; 98]); (221, [0; 80; 242; 1; 1]); (3, [11])].

Lemma remove_ie_spec_witness : exists junk,
  rtw_ies_remove_ie ([9; 9] ++ enc sample ++ [7]) 16 2 221 (Some [0; 80; 242]) =
    Ret ([9; 9] ++ enc [(0, [97; 98]); (3, [11])] ++ junk ++ [7], 9, true) /\
  zlen junk = 7 /\
  rtw_get_ie_ex ([9; 9] ++ enc [(0, [97; 98]); (3, [11])] ++ junk ++ [7]) 2 7 221
    (Some [0; 80; 242]) = Ret None.
Proof.
  apply (remove_ie_spec 221 (Some [0; 80; 242]) [9; 9] sample [7]).
  - repeat (apply Forall_cons_2; [by vm_compute|]). constructor.
  - vm_compute. by split.
Defined.

Lemma update_ie_spec_witness : exists tail,
  rtw_ies_update_ie ([9; 9] ++ enc sample ++ [0] ++ [7]) 16 2 3 [1; 2] true =
    Ret ([9; 9] ++ enc [(0, [97; 98]); (221, [0; 80; 242; 1; 1]); (3, [1; 2])] ++ tail ++ [7], 17, true).
Proof.
  apply (update_ie_spec 3 [1; 2] [9; 9] [(0, [97; 98]); (221, [0; 80; 242; 1; 1])] [11] [] [7] [0]).
  - by repeat constructor.
  - unfold is_byte. lia.
  - by vm_compute.
  - by vm_compute.
  - by vm_compute.
  - by vm_compute.
Defined.

(** An element without content is left as it is although it was found. *)
Example update_empty_element :
  rtw_ies_update_ie (enc [(3, []); (5, [1])] ++ [0; 0]) 5 0 3 [7; 7] true =
    Ret (enc [(3, []); (5, [1])] ++ [0; 0], 5, false).
Proof. reflexivity. Qed.

(** ** Searches on arbitrary bytes *)

Lemma u8_small n : 0 <= n < 256 -> u8 n = n.
Proof. intros. by apply u8_id. Qed.

Lemma is_byte_at b i x : Forall is_byte b -> byte_at b i = Ret x -> is_byte x.
Proof.
  intros Hb. unfold byte_at. destruct (rd b i) as [y|] eqn:E; [|done]. intros [= <-].
  pose proof (rd_inv _ _ _ E). rewrite rd_lookup in E by lia. rewrite Forall_lookup in Hb. eauto.
Qed.

Lemma get_ie_loop_total b index limit : Forall is_byte b ->
  forall fuel p i off, 0 <= off -> 0 <= i < limit -> p = off + i ->
  off + limit + 1 <= zlen b -> limit - i < Z.of_nat fuel ->
  exists o, get_ie_loop fuel b p i index limit = Ret o /\
    forall q n, o = Some (q, n) ->
      off <= q < off + limit /\ byte_at b q = Ret index /\ byte_at b (q + 1) = Ret n.
Proof.
  intros Hb. induction fuel as [|fuel IH]; intros p i off Hoff Hi -> Hlen Hf; [lia|].
  cbn [get_ie_loop].
  destruct (byte_at_some b (off + i)) as (x & Hx & _); [lia|]. rewrite Hx. cbn [mbind res_bind].
  destruct (byte_at_some b (off + i + 1)) as (n & Hn & _); [lia|]. rewrite Hn.
  cbn [mbind res_bind]. destruct (Z.eqb_spec x index) as [->|].
  { eexists. split; [done|]. intros q k [= <- <-]. split_all; (done || lia). }
  pose proof (is_byte_at _ _ _ Hb Hn) as Hr. unfold is_byte in Hr.
  destruct (Z.leb_spec limit (i + (n + 2))); [by eexists|].
  apply IH; lia.
Qed.

(** On any bytes a search returns when one byte behind the limit can be
    read, and what it returns is an element header with the identifier asked
    for whose first byte is before the limit. *)
Theorem get_ie_total b off index limit (Hb : Forall is_byte b) (Hoff : 0 <= off)
    (Hlen : off + limit + 1 <= zlen b) :
  exists o, rtw_get_ie b off index limit = Ret o /\
    forall q n, o = Some (q, n) ->
      off <= q < off + limit /\ byte_at b q = Ret index /\ byte_at b (q + 1) = Ret n.
Proof.
  unfold rtw_get_ie. destruct (Z.ltb_spec limit 1); [by eexists|].
  apply get_ie_loop_total; [done|lia..|]. unfold ie_fuel. lia.
Qed.

Lemma get_ie_total_witness : exists o, rtw_get_ie [3; 200; 5] 0 5 2 = Ret o /\
  forall q n, o = Some (q, n) ->
    0 <= q < 0 + 2 /\ byte_at [3; 200; 5] q = Ret 5 /\ byte_at [3; 200; 5] (q + 1) = Ret n.
Proof.
  apply (get_ie_total [3; 200; 5] 0 5 2); [|lia|by vm_compute].
  repeat constructor; cbn; lia.
Defined.

(** Without that byte a lone identifier at the end makes the search read
    behind the buffer, and the content of a match may end behind the limit. *)
Example get_ie_reads_behind : rtw_get_ie [3; 1; 0; 5] 0 7 4 = Oob.
Proof. reflexivity. Qed.
Example get_ie_long_content : rtw_get_ie [3; 1; 0; 5; 200] 0 5 4 = Ret (Some (3, 200)).
Proof. reflexivity. Qed.

(** ** Building, then finding *)

Lemma split_first_snoc p l x :
  Forall (fun y => p y = false) l -> p x = true -> split_first p (l ++ [x]) = Some (l, x, []).
Proof.
  intros Hl Hx. induction Hl as [|y l Hy _ IH]; cbn; [by rewrite Hx|]. by rewrite Hy, IH.
Qed.

Lemma set_ie_enc pre l room post index content frlen :
  0 <= index < 256 -> zlen content < 256 -> zlen room = zlen content + 2 ->
  rtw_set_ie (pre ++ enc l ++ room ++ post) (zlen pre + zlen (enc l)) index (zlen content) content
    frlen =
    Ret (pre ++ enc (l ++ [(index, content)]) ++ post,
         zlen pre + zlen (enc (l ++ [(index, content)])), u32 (frlen + (zlen content + 2))).
Proof.
  intros Hi Hc Hr. pose proof (zlen_nonneg content). unfold rtw_set_ie.
  destruct room as [|r0 [|r1 room]]; zlens; [lia|lia|].
  rewrite !u8_small by lia. set (P := pre ++ enc l).
  assert (HP : zlen P = zlen pre + zlen (enc l)) by (unfold P; apply zlen_app). rewrite <- HP.
  replace (pre ++ enc l ++ (r0 :: r1 :: room) ++ post) with (P ++ [r0] ++ ([r1] ++ room ++ post))
    by (unfold P; by rewrite <- !app_assoc).
  rewrite blit_app by done. cbn [mbind res_bind].
  replace (P ++ [index] ++ [r1] ++ room ++ post) with ((P ++ [index]) ++ [r1] ++ room ++ post)
    by by rewrite <- !app_assoc.
  rewrite blit_app by (rewrite ?zlen_app; zlens; lia). cbn [mbind res_bind].
  assert (Hres : pre ++ enc (l ++ [(index, content)]) ++ post =
                 (P ++ [index; zlen content]) ++ content ++ post).
  { unfold P. rewrite enc_app. cbn [enc enc1 fst snd]. by rewrite app_nil_r, <- !app_assoc. }
  assert (zlen P + zlen content + 2 = zlen pre + zlen (enc (l ++ [(index, content)]))) as Hend.
  { rewrite enc_app, zlen_app, zlen_enc_cons. cbn [enc snd]. rewrite zlen_nil. lia. }
  rewrite Hres, <- Hend. destruct (Z.ltb_spec 0 (zlen content)).
  - assert (slice content 0 (zlen content) = Ret content) as ->.
    { pose proof (slice_app [] content [] 0 (zlen content) eq_refl eq_refl) as E.
      by rewrite app_nil_r in E. }
    cbn [mbind res_bind].
    replace ((P ++ [index]) ++ [zlen content] ++ room ++ post)
      with ((P ++ [index; zlen content]) ++ room ++ post) by by rewrite <- !app_assoc.
    by rewrite blit_app by (rewrite ?zlen_app; zlens; lia).
  - destruct content as [|c content]; [|exfalso; zlens; pose proof (zlen_nonneg content); lia].
    destruct room as [|r room]; [|exfalso; zlens; pose proof (zlen_nonneg room); lia].
    cbn [mbind res_bind]. by rewrite <- !app_assoc.
Qed.

(** An element written behind the elements of a buffer extends their
    encoding, adds its size to the frame length, and is what a search for its
    identifier then finds, unless an earlier element has the identifier. *)
Theorem set_then_get pre l room post index content frlen
    (Hi : 0 <= index < 256) (Hc : zlen content < 256) (Hr : zlen room = zlen content + 2)
    (Hl : Forall (fun x => has_eid index x = false) l) :
  let pos := zlen pre + zlen (enc l) in
  exists b, rtw_set_ie (pre ++ enc l ++ room ++ post) pos index (zlen content) content frlen =
      Ret (b, pos + zlen content + 2, u32 (frlen + (zlen content + 2))) /\
    b = pre ++ enc (l ++ [(index, content)]) ++ post /\
    rtw_get_ie b (zlen pre) index (zlen (enc l) + zlen content + 2) =
      Ret (Some (pos, zlen content)) /\
    slice b (pos + 2) (zlen content) = Ret content.
Proof.
  assert (Hend : zlen (enc (l ++ [(index, content)])) = zlen (enc l) + zlen content + 2).
  { rewrite enc_app, zlen_app, zlen_enc_cons. cbn [enc snd]. rewrite zlen_nil. lia. }
  cbn zeta. rewrite set_ie_enc by done. eexists. split; [rewrite Hend; f_equal; f_equal; f_equal; lia|].
  split; [done|]. split.
  - rewrite get_ie_enc by lia. rewrite split_first_snoc; [done|done|].
    unfold has_eid. apply Z.eqb_refl.
  - rewrite enc_app. cbn [enc]. rewrite app_nil_r. unfold enc1. cbn [fst snd].
    replace (pre ++ (enc l ++ index :: zlen content :: content) ++ post)
      with ((pre ++ enc l ++ [index; zlen content]) ++ content ++ post) by by rewrite <- !app_assoc.
    apply slice_app; [|done]. rewrite !zlen_app. zlens. lia.
Qed.

Lemma set_then_get_witness : exists b,
  rtw_set_ie ([1] ++ enc sample ++ [0; 0; 0] ++ []) 15 5 1 [8] 40 = Ret (b, 18, 43) /\
  b = [1] ++ enc (sample ++ [(5, [8])]) ++ [] /\
  rtw_get_ie b 1 5 17 = Ret (Some (15, 1)) /\ slice b 17 1 = Ret [8].
Proof.
  apply (set_then_get [1] sample [0; 0; 0] [] 5 [8] 40); [lia|by vm_compute|done|].
  by repeat constructor.
Defined.

(** The mesh channel switch element is written with the identifier 0x118 cut to
    a byte, 24; the identifier of the standard is the decimal 118. *)
Example mesh_ch_switch_id :
  rtw_set_ie_mesh_ch_switch_parm (replicate 8 0) 0 0 1 2 3 4 = Ret ([24; 6; 1; 2; 3; 0; 4; 0], 8, 8).
Proof. reflexivity. Qed.

Lemma ch_offset_roundtrip o :
  o = CHAN_OFFSET_NO_EXT \/ o = CHAN_OFFSET_UPPER \/ o = CHAN_OFFSET_LOWER ->
  secondary_ch_offset_to_hal_ch_offset (hal_ch_offset_to_secondary_ch_offset o) = o.
Proof. by intros [-> | [-> | ->]]. Qed.

End Ies.
