(* ===== verification/Rates.v ===== *)
(** * Supported rates and extended capabilities (core/rtw_ieee80211.c)

    Theorems about the element editing of [rtw_update_rate_bymode] and about the
    capability bits of the extended capabilities element. *)

From S2P Require Import Prelude Bytes Ies.

Module Rates.
Import Ies.

(** ** The filter of the supported rates element *)

Definition keeps (k : keep_rates) (x : Z) : bool :=
  match k with KeepCCK => rtw_is_cck_rate x | KeepOFDM => rtw_is_ofdm_rate x end.
Definition mark_basic (x : Z) : Z :=
  if rtw_is_basic_rate_ofdm x then Z.lor x IEEE80211_BASIC_RATE_MASK else x.

(** The reference definition of the filtered content. *)
Fixpoint kept (k : keep_rates) (r : list Z) : list Z :=
  match r with
  | [] => []
  | x :: r => if keeps k x then mark_basic x :: kept k r else kept k r
  end.

Lemma zlen_kept k r : zlen (kept k r) <= zlen r.
Proof. induction r as [|x r IH]; cbn [kept]; [lia|]. destruct (keeps k x); zlens; lia. Qed.

Lemma filter_rates_spec k p tail rest :
  forall A i kd z, p + i + 2 = zlen A -> zlen (kept k rest) <= zlen z ->
  exists z', filter_rates (length rest) i (A ++ rest ++ tail) p k (kd ++ z) (zlen kd) =
    Ret (kd ++ kept k rest ++ z', zlen kd + zlen (kept k rest)).
Proof.
  induction rest as [|x rest IH]; intros A i kd z HA Hz; cbn [length filter_rates kept] in *.
  { exists z. rewrite zlen_nil, Z.add_0_r. done. }
  cbn [app]. rewrite byte_at_app by done. cbn [mbind res_bind].
  change (match k with KeepCCK => _ | KeepOFDM => _ end) with (keeps k x).
  replace (A ++ x :: rest ++ tail) with ((A ++ [x]) ++ rest ++ tail) by by rewrite <- app_assoc.
  destruct (keeps k x).
  - destruct z as [|z0 z]; zlens; [pose proof (zlen_nonneg (kept k rest)); lia|].
    change (kd ++ z0 :: z) with (kd ++ [z0] ++ z). rewrite blit_app by done. cbn [mbind res_bind].
    fold (mark_basic x). rewrite (app_assoc kd).
    replace (zlen kd + 1) with (zlen (kd ++ [mark_basic x])) by (rewrite zlen_app; by zlens).
    destruct (IH (A ++ [x]) (i + 1) (kd ++ [mark_basic x]) z) as [z' Hz'];
      [rewrite zlen_app; zlens; lia|lia|].
    exists z'. rewrite Hz'. rewrite !zlen_app. zlens.
    rewrite <- !app_assoc. f_equal. f_equal. lia.
  - destruct (IH (A ++ [x]) (i + 1) kd z) as [z' Hz']; [rewrite zlen_app; zlens; lia|done|].
    by exists z'.
Qed.

Lemma split_first_at p l1 x l2 :
  Forall (fun y => p y = false) l1 -> p x = true -> split_first p (l1 ++ x :: l2) = Some (l1, x, l2).
Proof.
  intros Hl Hx. induction Hl as [|y l Hy _ IH]; cbn; [by rewrite Hx|]. by rewrite Hy, IH.
Qed.

Lemma slice_prefix x s n : n = zlen x -> slice (x ++ s) 0 n = Ret x.
Proof. intros. by apply (slice_app [] x s). Qed.

Lemma filter_enc k pre l1 r l2 post sr ds :
  zlen pre = _BEACON_IE_OFFSET_ ->
  Forall (fun x => has_eid _SUPPORTEDRATES_IE_ x = false) l1 ->
  zlen (kept k r) <= NDIS_802_11_LENGTH_RATES_EX ->
  small (12 + zlen (enc (l1 ++ (_SUPPORTEDRATES_IE_, r) :: l2))) ->
  let l := l1 ++ (_SUPPORTEDRATES_IE_, r) :: l2 in
  let l' := l1 ++ (_SUPPORTEDRATES_IE_, kept k r) :: l2 in
  exists junk,
    rtw_filter_suppport_rateie (mk_bss (pre ++ enc l ++ post) (12 + zlen (enc l)) sr ds) k =
      Ret (mk_bss (pre ++ enc l' ++ junk ++ post) (12 + zlen (enc l')) sr ds).
Proof.
  intros Hpre Hl1 Hk Hsmall. cbn zeta. set (l := l1 ++ _). unfold rtw_filter_suppport_rateie. cbn [IEs IELength].
  change _BEACON_IE_OFFSET_ with 12 in *.
  rewrite get_ie_enc by lia. cbn [mbind res_bind]. unfold l at 1.
  rewrite split_first_at by done. cbn [snd].
  assert (Hlen : forall c, zlen (enc (l1 ++ (_SUPPORTEDRATES_IE_, c) :: l2)) =
                   zlen (enc l1) + 2 + zlen c + zlen (enc l2)).
  { intros c. rewrite enc_app, zlen_app, zlen_enc_cons. cbn [snd]. lia. }
  assert (Hbuf : forall c s, pre ++ enc (l1 ++ (_SUPPORTEDRATES_IE_, c) :: l2) ++ s =
            ((pre ++ enc l1) ++ [_SUPPORTEDRATES_IE_]) ++ [zlen c] ++ c ++ enc l2 ++ s).
  { intros c s. rewrite enc_app. cbn [enc]. unfold enc1. cbn [fst snd]. by rewrite <- !app_assoc. }
  unfold l in *. rewrite !Hlen in *. rewrite !Hbuf. set (P := (pre ++ enc l1) ++ [_]) in *.
  assert (HP : zlen P = zlen pre + zlen (enc l1) + 1) by (unfold P; rewrite !zlen_app; by zlens).
  assert (Hr : Z.to_nat (zlen r) = length r) by apply Nat2Z.id. rewrite Hr.
  destruct (filter_rates_spec k (12 + zlen (enc l1)) (enc l2 ++ post) r (P ++ [zlen r]) 0 []
              (replicate 16 0)) as [z' Hz']; [rewrite zlen_app; zlens; lia|done|].
  rewrite <- !app_assoc in Hz'. cbn [app] in Hz'. cbn [app].
  change (zlen []) with 0 in Hz'.
  change (Z.to_nat NDIS_802_11_LENGTH_RATES_EX) with 16%nat. rewrite Hz'. cbn [mbind res_bind].
  set (K := kept k r) in *. pose proof (zlen_kept k r) as HK. fold K in HK. rewrite Z.add_0_l.
  pose proof (zlen_nonneg (enc l1)). pose proof (zlen_nonneg (enc l2)). pose proof (zlen_nonneg K).
  replace (P ++ zlen r :: r ++ enc l2 ++ post) with (P ++ [zlen r] ++ r ++ enc l2 ++ post) by done.
  rewrite blit_app by (done || lia). cbn [mbind res_bind]. rewrite slice_prefix by done.
  cbn [mbind res_bind].
  set (r1 := ztake (zlen K) r). set (r2 := zdrop (zlen K) r).
  assert (Hr1 : zlen r1 = zlen K) by (apply zlen_ztake; lia).
  assert (Hr2 : zlen r2 = zlen r - zlen K) by (apply zlen_zdrop; lia).
  replace (P ++ [zlen K] ++ r ++ enc l2 ++ post)
    with ((P ++ [zlen K]) ++ r1 ++ r2 ++ enc l2 ++ post)
    by (rewrite (app_assoc r1); unfold r1, r2; by rewrite ztake_zdrop, <- !app_assoc).
  rewrite blit_app by (rewrite ?zlen_app; zlens; lia). cbn [mbind res_bind].
  replace ((P ++ [zlen K]) ++ K ++ r2 ++ enc l2 ++ post)
    with ((P ++ [zlen K] ++ K) ++ r2 ++ enc l2 ++ post) by by rewrite <- !app_assoc.
  unfold small in Hsmall. pose proof (zlen_nonneg r).
  rewrite (u32_small (_ - (12 + _ + 2 + zlen r))) by (unfold small; lia).
  rewrite bmove_left by (rewrite ?zlen_app; zlens; lia). cbn [mbind res_bind].
  exists (zdrop (zlen (enc l2)) (r2 ++ enc l2)). rewrite Hbuf.
  rewrite (u32_small (_ - (zlen r - zlen K))) by (unfold small; lia).
  f_equal. f_equal; [|lia]. by rewrite <- !app_assoc.
Qed.

(** In a mode without 802.11b the network keeps exactly its OFDM rates: the
    supported rates element then holds them, 6, 12 and 24 Mbps marked basic, the
    other elements are unchanged and in order, the length is that of the new
    elements, and the type and the rate table are those of the channel's band. *)
Theorem update_rate_ofdm mode pre l1 r l2 post sr ds (Hpre : zlen pre = _BEACON_IE_OFFSET_)
    (Hmode : Z.land mode WLAN_MD_11B = 0)
    (Hl1 : Forall (fun x => has_eid _SUPPORTEDRATES_IE_ x = false) l1)
    (Hk : zlen (kept KeepOFDM r) <= NDIS_802_11_LENGTH_RATES_EX)
    (Hsmall : small (12 + zlen (enc (l1 ++ (_SUPPORTEDRATES_IE_, r) :: l2)))) :
  let l := l1 ++ (_SUPPORTEDRATES_IE_, r) :: l2 in
  let l' := l1 ++ (_SUPPORTEDRATES_IE_, kept KeepOFDM r) :: l2 in
  exists junk,
    rtw_update_rate_bymode (mk_bss (pre ++ enc l ++ post) (12 + zlen (enc l)) sr ds) mode =
      Ret (mk_bss (pre ++ enc l' ++ junk ++ post) (12 + zlen (enc l'))
             (WIFI_OFDMRATES ++ replicate 8 0) ds,
           if 14 <? ds then WLAN_MD_11A else WLAN_MD_11G).
Proof.
  destruct (filter_enc KeepOFDM pre l1 r l2 post sr ds Hpre Hl1 Hk Hsmall) as [junk Hf].
  cbn zeta in *. exists junk. unfold rtw_update_rate_bymode.
  destruct (Z.eqb_spec mode WLAN_MD_11B) as [->|_]; [done|].
  rewrite Hmode. cbn [Z.eqb]. rewrite Hf. cbn [mbind res_bind IEs IELength DSConfig].
  by destruct (14 <? ds).
Qed.

(** A beacon with the eight OFDM and two CCK rates. *)
Definition beacon12 : list Z := replicate 12 0.

Lemma update_rate_ofdm_witness : exists junk,
  rtw_update_rate_bymode (mk_bss (beacon12 ++ enc [(0, [97]); (1, [130; 132; 12; 18; 108]); (3, [6])]
      ++ []) 25 [] 6) WLAN_MD_11G =
    Ret (mk_bss (beacon12 ++ enc [(0, [97]); (1, [140; 18; 108]); (3, [6])] ++ junk ++ []) 23
           (WIFI_OFDMRATES ++ replicate 8 0) 6, WLAN_MD_11G).
Proof.
  apply (update_rate_ofdm WLAN_MD_11G beacon12 [(0, [97])] [130; 132; 12; 18; 108] [(3, [6])] [] [] 6).
  - done.
  - done.
  - by repeat constructor.
  - by vm_compute.
  - by vm_compute.
Defined.

(** More than sixteen kept rates leave the array they are collected in: the
    element comes from the hostapd's beacon and is not bounded before. *)
Example filter_overflow :
  rtw_filter_suppport_rateie
    (mk_bss (beacon12 ++ enc [(1, replicate 17 108)]) 31 [] 6) KeepOFDM = Oob.
Proof. reflexivity. Qed.

(** ** The extended rates element in 802.11b mode *)

Lemma keep_eid_split eid l a x c :
  split_first (has_eid eid) l = Some (a, x, c) -> Forall (fun y => has_eid eid y = false) c ->
  keep eid None l = a ++ c /\ l = a ++ x :: c.
Proof.
  intros E Hc. assert (Hh : forall y, has_oui eid None y = has_eid eid y).
  { intros y. unfold has_oui. apply andb_true_r. }
  apply split_first_some in E as (-> & Hx & Ha). split; [|done].
  assert (keep eid None (a ++ x :: c) = keep eid None a ++ keep eid None c) as ->.
  { unfold keep. rewrite filter_app. by rewrite filter_cons_False by (rewrite Hh; congruence). }
  f_equal; apply keep_none; (eapply Forall_impl; [eassumption|]); intros y; by rewrite Hh.
Qed.

(** When a network whose rates are all CCK is put into 802.11b mode its
    extended rates element is removed, but the length is reduced by the
    element's content only: the two bytes of its header stay in the length, so
    that it is two more than the elements'. *)
Theorem update_rate_11b_length pre l1 r l2 post sr ds a x c (Hpre : zlen pre = _BEACON_IE_OFFSET_)
    (Hl1 : Forall (fun x => has_eid _SUPPORTEDRATES_IE_ x = false) l1)
    (Hr : kept KeepCCK r = r) (Hlen : zlen r <= NDIS_802_11_LENGTH_RATES_EX)
    (Hx : split_first (has_eid _EXT_SUPPORTEDRATES_IE_) (l1 ++ (_SUPPORTEDRATES_IE_, r) :: l2) =
            Some (a, x, c))
    (Hc : Forall (fun y => has_eid _EXT_SUPPORTEDRATES_IE_ y = false) c)
    (Hsmall : small (12 + zlen (enc (l1 ++ (_SUPPORTEDRATES_IE_, r) :: l2)))) :
  let l := l1 ++ (_SUPPORTEDRATES_IE_, r) :: l2 in
  exists junk,
    rtw_update_rate_bymode (mk_bss (pre ++ enc l ++ post) (12 + zlen (enc l)) sr ds) WLAN_MD_11B =
      Ret (mk_bss (pre ++ enc (a ++ c) ++ junk ++ post) (12 + zlen (enc (a ++ c)) + 2)
             (WIFI_CCKRATES ++ replicate 12 0) ds, WLAN_MD_11B).
Proof.
  cbn zeta. rewrite <- Hr in Hlen.
  destruct (filter_enc KeepCCK pre l1 r l2 post sr ds Hpre Hl1 Hlen Hsmall) as [junk0 Hf].
  cbn zeta in Hf. rewrite Hr in Hf. set (l := l1 ++ _) in *.
  destruct (keep_eid_split _ _ _ _ _ Hx Hc) as [Hkeep Hl].
  change _BEACON_IE_OFFSET_ with 12 in Hpre. unfold rtw_update_rate_bymode.
  cbn [Z.eqb Pos.eqb WLAN_MD_11B]. rewrite Hf. cbn [mbind res_bind IEs IELength DSConfig].
  change _BEACON_IE_OFFSET_ with 12.
  rewrite get_ie_enc by lia. cbn [mbind res_bind]. rewrite Hx.
  destruct (remove_ie_enc _EXT_SUPPORTEDRATES_IE_ None pre l (junk0 ++ post)) as (junk & Hrm & _);
    [by rewrite Forall_lookup|by rewrite Hpre|].
  rewrite Hpre in Hrm. rewrite Hrm. cbn [mbind res_bind].
  rewrite Hkeep. exists (junk ++ junk0).
  assert (zlen (enc l) = zlen (enc (a ++ c)) + zlen x.2 + 2) as Hsum.
  { rewrite Hl, !enc_app, !zlen_app, zlen_enc_cons. lia. }
  pose proof (zlen_nonneg x.2). pose proof (zlen_nonneg (enc (a ++ c))). unfold small in *.
  cbn [IEs IELength SupportedRates DSConfig snd].
  rewrite Hsum in *. rewrite u32_small by (unfold small; lia).
  f_equal. f_equal. f_equal; [by rewrite <- !app_assoc|lia].
Qed.

Lemma update_rate_11b_length_witness : exists junk,
  rtw_update_rate_bymode (mk_bss (beacon12 ++ enc [(1, [130; 132]); (50, [139; 150]); (3, [6])] ++ [])
      23 [] 6) WLAN_MD_11B =
    Ret (mk_bss (beacon12 ++ enc [(1, [130; 132]); (3, [6])] ++ junk ++ []) 21
           (WIFI_CCKRATES ++ replicate 12 0) 6, WLAN_MD_11B).
Proof.
  apply (update_rate_11b_length beacon12 [] [130; 132] [(50, [139; 150]); (3, [6])] [] [] 6
           [(1, [130; 132])] (50, [139; 150]) [(3, [6])]).
  - done.
  - constructor.
  - done.
  - by vm_compute.
  - done.
  - by repeat constructor.
  - by vm_compute.
Defined.

(** ** Extended capabilities *)

(** Capability [k] of the ten bytes. *)
Definition cap_bit (d : list Z) (k : Z) : bool :=
  match rd d (k / 8) with Some x => Z.testbit x (k mod 8) | None => false end.

Definition ext_caps (d : list Z) : Prop :=
  zlen d = WLAN_EID_EXT_CAP_MAX_LEN /\ Forall is_byte d.

Lemma shiftr3 k : Z.shiftr k 3 = k / 8.
Proof. by rewrite Z.shiftr_div_pow2. Qed.

Lemma cap_bit_insert d c v k x : 0 <= c < 80 -> 0 <= k < 80 -> zlen d = 10 ->
  rd d (c / 8) = Some x ->
  cap_bit (<[Z.to_nat (c / 8) := v]> d) k =
    if k / 8 =? c / 8 then Z.testbit v (k mod 8) else cap_bit d k.
Proof.
  intros Hc Hk Hd Hx. unfold cap_bit. pose proof (rd_inv _ _ _ Hx).
  assert (0 <= k / 8) by (apply Z.div_pos; lia).
  rewrite !(rd_lookup _ (k / 8)) by lia. destruct (Z.eqb_spec (k / 8) (c / 8)) as [->|Hne].
  - rewrite list_lookup_insert_eq; [done|]. unfold zlen in *. lia.
  - rewrite list_lookup_insert_ne; [done|]. lia.
Qed.

Lemma cap_index c : 0 <= c < 80 -> 0 <= c / 8 < 10 /\ 0 <= c mod 8 < 8.
Proof.
  intros. split; [|apply Z.mod_pos_bound; lia].
  split; [apply Z.div_pos; lia|apply Z.div_lt_upper_bound; lia].
Qed.

Lemma same_cap k c : (k =? c) = (k / 8 =? c / 8) && (k mod 8 =? c mod 8).
Proof.
  pose proof (Z.div_mod k 8 ltac:(lia)). pose proof (Z.div_mod c 8 ltac:(lia)).
  destruct (Z.eqb_spec k c) as [->|]; [by rewrite !Z.eqb_refl|].
  destruct (Z.eqb_spec (k / 8) (c / 8)); [|done].
  destruct (Z.eqb_spec (k mod 8) (c mod 8)); [lia|done].
Qed.

Lemma testbit_BIT n m : 0 <= n -> 0 <= m -> Z.testbit (BIT n) m = (m =? n).
Proof. intros. unfold BIT. rewrite Z.shiftl_1_l. rewrite Z.pow2_bits_eqb by done. apply Z.eqb_sym. Qed.

Lemma land_u8 x y : Z.land x (u8 y) = u8 (Z.land x y).
Proof. unfold u8. by rewrite <- !land_ff, Z.land_assoc. Qed.

(** Adding a capability sets its bit and no other, and the element's length
    then covers it. *)
Theorem add_ext_cap_bits d len c (Hd : ext_caps d) (Hc : 0 <= c < 80) :
  exists d', rtw_add_ext_cap_info d len c = Ret (d', Z.max len (c / 8 + 1)) /\ ext_caps d' /\
    forall k, 0 <= k < 80 -> cap_bit d' k = (k =? c) || cap_bit d k.
Proof.
  destruct Hd as [Hl Hb]. destruct (cap_index c Hc) as [Hi Hm].
  unfold rtw_add_ext_cap_info. rewrite shiftr3. unfold WLAN_EID_EXT_CAP_MAX_LEN in Hl.
  destruct (byte_at_some d (c / 8)) as (x & Hx & Hr); [lia|]. rewrite Hx. cbn [mbind res_bind].
  rewrite blit1 by lia. cbn [mbind res_bind]. eexists. split; [|split; [split|]].
  - f_equal. f_equal. destruct (Z.ltb_spec len (c / 8 + 1)); lia.
  - unfold zlen in *. by rewrite length_insert.
  - apply Forall_insert; [done|]. apply u8_range.
  - intros k Hk. destruct (cap_index k Hk) as [Hki Hkm].
    rewrite (cap_bit_insert d c _ k x) by done. rewrite (same_cap k c).
    destruct (Z.eqb_spec (k / 8) (c / 8)) as [E|]; [|done]. cbn [andb].
    rewrite u8_testbit by lia. rewrite Z.lor_spec, testbit_BIT by lia.
    unfold cap_bit. rewrite E, Hr. apply orb_comm.
Qed.

Lemma last_nonzero_spec d : forall n i m, i + Z.of_nat n = zlen d -> 0 <= i -> 0 <= m <= i ->
  (forall j, m <= j < i -> rd d j = Some 0) -> (0 < m -> rd d (m - 1) <> Some 0) ->
  exists r, last_nonzero n i d m = Ret r /\ 0 <= r <= zlen d /\
    (forall j, r <= j < zlen d -> rd d j = Some 0) /\ (0 < r -> rd d (r - 1) <> Some 0).
Proof.
  induction n as [|n IH]; intros i m Hn Hi Hm Hz Hp; cbn [last_nonzero].
  { exists m. split; [done|]. split; [lia|]. split; [|done]. intros. apply Hz. lia. }
  destruct (byte_at_some d i) as (x & Hx & Hr); [lia|]. rewrite Hx. cbn [mbind res_bind].
  destruct (Z.eqb_spec x 0) as [->|Hne]; apply IH; try lia.
  - intros j Hj. destruct (decide (j = i)) as [->|]; [done|]. apply Hz. lia.
  - done.
  - intros _. replace (i + 1 - 1) with i by lia. congruence.
Qed.

(** Removing a capability clears its bit and no other, and the element's
    length is then the least that covers the capabilities left. *)
Theorem remove_ext_cap_bits d len c (Hd : ext_caps d) (Hc : 0 <= c < 80) :
  exists d' n, rtw_remove_ext_cap_info d len c = Ret (d', n) /\ ext_caps d' /\
    (forall k, 0 <= k < 80 -> cap_bit d' k = negb (k =? c) && cap_bit d k) /\
    0 <= n <= 10 /\ (forall j, n <= j < 10 -> rd d' j = Some 0) /\
    (0 < n -> rd d' (n - 1) <> Some 0).
Proof.
  destruct Hd as [Hl Hb]. destruct (cap_index c Hc) as [Hi Hm].
  unfold rtw_remove_ext_cap_info. rewrite shiftr3. unfold WLAN_EID_EXT_CAP_MAX_LEN in *.
  destruct (byte_at_some d (c / 8)) as (x & Hx & Hr); [lia|]. rewrite Hx. cbn [mbind res_bind].
  rewrite blit1 by lia. cbn [mbind res_bind]. set (d' := <[_ := _]> d).
  assert (Hl' : zlen d' = 10) by (unfold d', zlen in *; by rewrite length_insert).
  destruct (last_nonzero_spec d' (Z.to_nat 10) 0 0) as (n & Hn & Hn10 & Hz & Hp); try lia.
  rewrite Hn. cbn [mbind res_bind]. exists d', n. rewrite Hl' in *. split; [done|]. split; [split; [done|]|split].
  - apply Forall_insert; [done|]. rewrite land_u8. apply u8_range.
  - intros k Hk. destruct (cap_index k Hk) as [Hki Hkm]. unfold d'.
    rewrite (cap_bit_insert d c _ k x) by done. rewrite (same_cap k c).
    destruct (Z.eqb_spec (k / 8) (c / 8)) as [E|]; [|done]. cbn [andb].
    rewrite Z.land_spec, u8_testbit by lia. rewrite Z.lnot_spec, testbit_BIT by lia.
    unfold cap_bit. rewrite E, Hr. apply andb_comm.
  - done.
Qed.

Definition caps_sample : list Z := [1; 0; 4; 0; 0; 0; 0; 0; 0; 0].
Lemma caps_sample_ok : ext_caps caps_sample.
Proof. split; [done|]. repeat constructor; cbn; lia. Qed.

Lemma add_ext_cap_bits_witness : exists d', rtw_add_ext_cap_info caps_sample 3 62 = Ret (d', 8) /\
  ext_caps d' /\ forall k, 0 <= k < 80 -> cap_bit d' k = (k =? 62) || cap_bit caps_sample k.
Proof. apply (add_ext_cap_bits caps_sample 3 62); [apply caps_sample_ok|lia]. Defined.

Lemma remove_ext_cap_bits_witness :
  exists d' n, rtw_remove_ext_cap_info caps_sample 3 18 = Ret (d', n) /\ ext_caps d' /\
    (forall k, 0 <= k < 80 -> cap_bit d' k = negb (k =? 18) && cap_bit caps_sample k) /\
    0 <= n <= 10 /\ (forall j, n <= j < 10 -> rd d' j = Some 0) /\
    (0 < n -> rd d' (n - 1) <> Some 0).
Proof. apply (remove_ext_cap_bits caps_sample 3 18); [apply caps_sample_ok|lia]. Defined.

End Rates.
