(* ===== verification/Rsn.v ===== *)
(** * Security elements (core/rtw_ieee80211.c)

    Module [Rsn] models the cipher and key-management suites, the search for and
    the parsers of the WPA and RSN elements, the collection of security elements
    from a beacon, and the routines for the SPP A-MSDU mode.  The RSN parser is
    proved to stay inside the element on all inputs and to invert an encoder. *)

From S2P Require Import Prelude Bytes Ies.

Module Rsn.
Import Ies.

(** ** Suites *)

Definition WPA_CIPHER_NONE : Z := BIT 0.
Definition WPA_CIPHER_WEP40 : Z := BIT 1.
Definition WPA_CIPHER_WEP104 : Z := BIT 2.
Definition WPA_CIPHER_TKIP : Z := BIT 3.
Definition WPA_CIPHER_CCMP : Z := BIT 4.
Definition WPA_CIPHER_GCMP : Z := BIT 5.
Definition WPA_CIPHER_GCMP_256 : Z := BIT 6.
Definition WPA_CIPHER_CCMP_256 : Z := BIT 7.
Definition WPA_CIPHER_BIP_CMAC_128 : Z := BIT 8.
Definition WPA_CIPHER_BIP_GMAC_128 : Z := BIT 9.
Definition WPA_CIPHER_BIP_GMAC_256 : Z := BIT 10.
Definition WPA_CIPHER_BIP_CMAC_256 : Z := BIT 11.

Definition wpa_sel (n : Z) : list Z := [0x00; 0x50; 0xf2; n].
Definition rsn_sel (n : Z) : list Z := [0x00; 0x0f; 0xac; n].

(** The comparisons of the three functions, in their order. *)
Fixpoint suite_of (tbl : list (list Z * Z)) (s : list Z) : Z :=
  match tbl with
  | [] => 0
  | (x, v) :: tbl => if bool_decide (s = x) then v else suite_of tbl s
  end.

Definition wpa_ciphers : list (list Z * Z) :=
  [(wpa_sel 0, WPA_CIPHER_NONE); (wpa_sel 1, WPA_CIPHER_WEP40); (wpa_sel 2, WPA_CIPHER_TKIP);
   (wpa_sel 4, WPA_CIPHER_CCMP); (wpa_sel 5, WPA_CIPHER_WEP104)].

Definition rsn_ciphers : list (list Z * Z) :=
  [(rsn_sel 0, WPA_CIPHER_NONE); (rsn_sel 1, WPA_CIPHER_WEP40); (rsn_sel 2, WPA_CIPHER_TKIP);
   (rsn_sel 4, WPA_CIPHER_CCMP); (rsn_sel 8, WPA_CIPHER_GCMP); (rsn_sel 9, WPA_CIPHER_GCMP_256);
   (rsn_sel 10, WPA_CIPHER_CCMP_256); (rsn_sel 5, WPA_CIPHER_WEP104);
   (rsn_sel 6, WPA_CIPHER_BIP_CMAC_128); (rsn_sel 11, WPA_CIPHER_BIP_GMAC_128);
   (rsn_sel 12, WPA_CIPHER_BIP_GMAC_256); (rsn_sel 13, WPA_CIPHER_BIP_CMAC_256)].

Definition akm_suites : list (list Z * Z) :=
  [(rsn_sel 1, BIT 0); (rsn_sel 2, BIT 1); (rsn_sel 3, BIT 2); (rsn_sel 4, BIT 3);
   (rsn_sel 5, BIT 4); (rsn_sel 6, BIT 5); (rsn_sel 7, BIT 6); (rsn_sel 8, BIT 7);
   (rsn_sel 9, BIT 8); (rsn_sel 11, BIT 9); (rsn_sel 12, BIT 10); (rsn_sel 14, BIT 11);
   (rsn_sel 15, BIT 12); (rsn_sel 16, BIT 13); (rsn_sel 17, BIT 14)].

Definition WLAN_AKM_TYPE_8021X : Z := BIT 0.

Definition suite_at (tbl : list (list Z * Z)) (b : list Z) (off : Z) : res Z :=
  s ← slice b off 4; Ret (suite_of tbl s).

Definition rtw_get_wpa_cipher_suite (b : list Z) (s : Z) : res Z := suite_at wpa_ciphers b s.
Definition rtw_get_rsn_cipher_suite (b : list Z) (s : Z) : res Z := suite_at rsn_ciphers b s.
Definition rtw_get_akm_suite_bitmap (b : list Z) (s : Z) : res Z := suite_at akm_suites b s.

(** The loops that collect the suites of a list. *)
Fixpoint suites_or (get : list Z -> Z -> res Z) (n : nat) (b : list Z) (pos acc : Z) : res Z :=
  match n with
  | O => Ret acc
  | S n => v ← get b pos; suites_or get n b (pos + 4) (Z.lor acc v)
  end.

(** ** The WPA element *)

Definition _WPA_IE_ID_ : Z := 0xdd.
Definition _WPA2_IE_ID_ : Z := 0x30.
Definition RTW_WPA_OUI_TYPE : list Z := [0x00; 0x50; 0xf2; 1].

(** The search: the pointer of the element and its content length. *)
Fixpoint get_wpa_ie_loop (fuel : nat) (b : list Z) (pie pbuf limit limit_new : Z)
    : res (option (Z * Z)) :=
  match fuel with
  | O => Looping
  | S fuel =>
      o ← rtw_get_ie b pbuf _WPA_IE_ID_ limit_new;
      match o with
      | None => Ret None
      | Some (pbuf, len) =>
          m ← bytes_match b (pbuf + 2) RTW_WPA_OUI_TYPE;
          ok ← (if m : bool then v ← get_le16 b (pbuf + 6); Ret (v =? 1) else Ret false);
          if ok : bool then l ← byte_at b (pbuf + 1); Ret (Some (pbuf, l))
          else
            let limit_new := limit - (pbuf - pie) - 2 - len in
            if limit_new <=? 0 then Ret None
            else get_wpa_ie_loop fuel b pie (pbuf + (2 + len)) limit limit_new
      end
  end.

Definition rtw_get_wpa_ie (b : list Z) (pie limit : Z) : res (option (Z * Z)) :=
  get_wpa_ie_loop (ie_fuel limit) b pie pie limit limit.

Definition rtw_get_wpa2_ie (b : list Z) (pie limit : Z) : res (option (Z * Z)) :=
  rtw_get_ie b pie _WPA2_IE_ID_ limit.

(** The outputs [(group, pairwise, akm)] start from the caller's values;
    [None] is [_FAIL] with the outputs written before it dropped. *)
Definition rtw_parse_wpa_ie (ie : list Z) (wpa_ie_len group_cipher pairwise_cipher akm : Z)
    : res (option (Z * Z * Z)) :=
  if wpa_ie_len <=? 0 then Ret None
  else
    x ← byte_at ie 0;
    if negb (x =? _WPA_IE_ID_) then Ret None
    else
      l ← byte_at ie 1;
      if negb (l =? u8 (wpa_ie_len - 2)) then Ret None
      else
        m ← bytes_match ie 2 RTW_WPA_OUI_TYPE;
        if negb m then Ret None
        else
          let pos := 8 in
          let rem := wpa_ie_len - 8 in
          (* group cipher *)
          g ← (if 4 <=? rem then
                 v ← rtw_get_wpa_cipher_suite ie pos; Ret (Some (v, pos + 4, rem - 4))
               else if 0 <? rem then Ret None
               else Ret (Some (group_cipher, pos, rem)));
          match g with
          | None => Ret None
          | Some (group, pos, rem) =>
              (* pairwise ciphers *)
              p ← (if 2 <=? rem then
                     count ← get_le16 ie pos;
                     let pos := pos + 2 in
                     let rem := rem - 2 in
                     if (count =? 0) || (rem <? count * 4) then Ret None
                     else
                       v ← suites_or rtw_get_wpa_cipher_suite (Z.to_nat count) ie pos pairwise_cipher;
                       Ret (Some (v, pos + 4 * count, rem - 4 * count))
                   else if rem =? 1 then Ret None
                   else Ret (Some (pairwise_cipher, pos, rem)));
              match p with
              | None => Ret None
              | Some (pairwise, pos, rem) =>
                  a ← (if 6 <=? rem then
                         m ← bytes_match ie (pos + 2) RTW_WPA_OUI_TYPE;
                         Ret (if m : bool then WLAN_AKM_TYPE_8021X else akm)
                       else Ret akm);
                  Ret (Some (group, pairwise, a))
              end
          end.

(** ** The RSN element *)

(** Pointers into the element are offsets. *)
Record rsne_info := mk_rsne_info {
  gcs : option Z;
  pcs_cnt : Z; pcs_list : option Z;
  akm_cnt : Z; akm_list : option Z;
  cap : option Z;
  pmkid_cnt : Z; pmkid_list : option Z;
  gmcs : option Z;
  err : bool }.

Definition info0 : rsne_info := mk_rsne_info None 0 None 0 None None 0 None None false.

Definition set_gcs (p : Z) (i : rsne_info) : rsne_info :=
  mk_rsne_info (Some p) (pcs_cnt i) (pcs_list i) (akm_cnt i) (akm_list i) (cap i) (pmkid_cnt i)
    (pmkid_list i) (gmcs i) (err i).
Definition set_pcs (n p : Z) (i : rsne_info) : rsne_info :=
  mk_rsne_info (gcs i) n (Some p) (akm_cnt i) (akm_list i) (cap i) (pmkid_cnt i) (pmkid_list i)
    (gmcs i) (err i).
Definition set_akm (n p : Z) (i : rsne_info) : rsne_info :=
  mk_rsne_info (gcs i) (pcs_cnt i) (pcs_list i) n (Some p) (cap i) (pmkid_cnt i) (pmkid_list i)
    (gmcs i) (err i).
Definition set_cap (p : Z) (i : rsne_info) : rsne_info :=
  mk_rsne_info (gcs i) (pcs_cnt i) (pcs_list i) (akm_cnt i) (akm_list i) (Some p) (pmkid_cnt i)
    (pmkid_list i) (gmcs i) (err i).
Definition set_pmkid (n p : Z) (i : rsne_info) : rsne_info :=
  mk_rsne_info (gcs i) (pcs_cnt i) (pcs_list i) (akm_cnt i) (akm_list i) (cap i) n (Some p)
    (gmcs i) (err i).
Definition set_gmcs (p : Z) (i : rsne_info) : rsne_info :=
  mk_rsne_info (gcs i) (pcs_cnt i) (pcs_list i) (akm_cnt i) (akm_list i) (cap i) (pmkid_cnt i)
    (pmkid_list i) (Some p) (err i).

(** [goto exit] and [goto err]: the record and the result. *)
Definition exit (i : rsne_info) : res (rsne_info * bool) := Ret (i, true).
Definition fail (i : rsne_info) : res (rsne_info * bool) :=
  Ret (mk_rsne_info (gcs i) (pcs_cnt i) (pcs_list i) (akm_cnt i) (akm_list i) (cap i) (pmkid_cnt i)
    (pmkid_list i) (gmcs i) true, false).

Definition RSN_HEADER_LEN : Z := 4.
Definition RSN_SELECTOR_LEN : Z := 4.
Definition RSN_PMKID_LEN : Z := 16.
Definition RSN_VERSION_BSD : Z := 1.

(** What is left is too short for the next field: the element may end exactly
    here, and is truncated otherwise. *)
Definition ends (ie_len pos : Z) (i : rsne_info) : res (rsne_info * bool) :=
  if negb (ie_len =? pos) then fail i else exit i.

(** The parts of the function body, each from its check to the next one. *)
Definition parse_gmcs (ie_len pos : Z) (i : rsne_info) : res (rsne_info * bool) :=
  if ie_len <? pos + RSN_SELECTOR_LEN then ends ie_len pos i else exit (set_gmcs pos i).

Definition parse_pmkid (ie : list Z) (ie_len pos : Z) (i : rsne_info) : res (rsne_info * bool) :=
  if ie_len <? pos + 2 then ends ie_len pos i
  else
    cnt ← get_le16 ie pos;
    let pos := pos + 2 in
    if ie_len <? pos + RSN_PMKID_LEN * cnt then
      if negb (ie_len =? pos) || negb (cnt =? 0) then fail i else exit i
    else parse_gmcs ie_len (pos + RSN_PMKID_LEN * cnt) (set_pmkid cnt pos i).

Definition parse_cap (ie : list Z) (ie_len pos : Z) (i : rsne_info) : res (rsne_info * bool) :=
  if ie_len <? pos + 2 then ends ie_len pos i
  else parse_pmkid ie ie_len (pos + 2) (set_cap pos i).

(** The suite lists have the same form. *)
Definition parse_suites (ie : list Z) (ie_len pos : Z) (set : Z -> Z -> rsne_info -> rsne_info)
    (next : Z -> rsne_info -> res (rsne_info * bool)) (i : rsne_info) : res (rsne_info * bool) :=
  if ie_len <? pos + 2 then ends ie_len pos i
  else
    cnt ← get_le16 ie pos;
    let pos := pos + 2 in
    if cnt =? 0 then fail i
    else if ie_len <? pos + RSN_SELECTOR_LEN * cnt then ends ie_len pos i
    else next (pos + RSN_SELECTOR_LEN * cnt) (set cnt pos i).

Definition rtw_rsne_info_parse (ie : list Z) (ie_len : Z) : res (rsne_info * bool) :=
  if ie_len <? RSN_HEADER_LEN then fail info0
  else
    x ← byte_at ie 0;
    if negb (x =? _WPA2_IE_ID_) then fail info0
    else
      l ← byte_at ie 1;
      if negb (l =? ie_len - 2) then fail info0
      else
        v ← byte_at ie 2;
        if negb (v =? RSN_VERSION_BSD) then fail info0
        else
          let pos := RSN_HEADER_LEN in
          if ie_len <? pos + RSN_SELECTOR_LEN then ends ie_len pos info0
          else
            let i := set_gcs pos info0 in
            parse_suites ie ie_len (pos + RSN_SELECTOR_LEN) set_pcs
              (fun pos => parse_suites ie ie_len pos set_akm (parse_cap ie ie_len)) i.

Definition le_bits (w off len : Z) : Z := Z.land (Z.shiftr w off) (Z.ones len).

Definition MFP_NO : Z := 0.

Record wpa2 := mk_wpa2 {
  group_cipher : Z; pairwise_cipher : Z; mgmt_cipher : Z; key_mgmt : Z; mfp_opt : Z; spp_opt : Z }.

Definition suite_opt (b : list Z) (p : option Z) (dflt : Z) : res Z :=
  match p with Some p => rtw_get_rsn_cipher_suite b p | None => Ret dflt end.
Definition suites_opt (get : list Z -> Z -> res Z) (b : list Z) (p : option Z) (n : Z) : res Z :=
  match p with
  | Some p => suites_or get (Z.to_nat n) b p 0
  | None => if n =? 0 then Ret 0 else Oob
  end.

(** All output pointers given. *)
Definition rtw_parse_wpa2_ie (ie : list Z) (ie_len : Z) : res (option wpa2) :=
  '(info, ok) ← rtw_rsne_info_parse ie ie_len;
  if negb ok then Ret None
  else
    g ← suite_opt ie (gcs info) 0;
    p ← suites_opt rtw_get_rsn_cipher_suite ie (pcs_list info) (pcs_cnt info);
    m ← suite_opt ie (gmcs info) WPA_CIPHER_BIP_CMAC_128;
    a ← suites_opt rtw_get_akm_suite_bitmap ie (akm_list info) (akm_cnt info);
    w ← match cap info with Some c => w ← get_le16 ie c; Ret (Some w) | None => Ret None end;
    Ret (Some (mk_wpa2 g p m a
      (match w with Some w => le_bits w 6 2 | None => MFP_NO end)
      (match w with Some w => le_bits w 10 2 | None => 0 end))).

(** ** Collecting the security elements of a beacon *)

Definition SEC_IE_OFFSET : Z := 12.

(** [rsn] and [wpa] are the copies made and the lengths reported, the caller's
    at the start. *)
Fixpoint get_sec_ie_loop (fuel : nat) (b : list Z) (cnt in_len : Z)
    (rsn wpa : list Z * Z) : res ((list Z * Z) * (list Z * Z)) :=
  match fuel with
  | O => Looping
  | S fuel =>
      if cnt <? in_len then
        authmode ← byte_at b cnt;
        w ← (if authmode =? _WPA_IE_ID_ then bytes_match b (cnt + 2) RTW_WPA_OUI_TYPE
             else Ret false);
        l ← byte_at b (cnt + 1);
        if w : bool then
          s ← slice b cnt (l + 2);
          get_sec_ie_loop fuel b (cnt + (l + 2)) in_len rsn (s, l + 2)
        else if authmode =? _WPA2_IE_ID_ then
          s ← slice b cnt (l + 2);
          get_sec_ie_loop fuel b (cnt + (l + 2)) in_len (s, l + 2) wpa
        else get_sec_ie_loop fuel b (cnt + (l + 2)) in_len rsn wpa
      else Ret (rsn, wpa)
  end.

Definition rtw_get_sec_ie (b : list Z) (in_len : Z) (rsn wpa : list Z * Z)
    : res ((list Z * Z) * (list Z * Z) * Z) :=
  '(rsn, wpa) ← get_sec_ie_loop (ie_fuel in_len) b SEC_IE_OFFSET in_len rsn wpa;
  Ret (rsn, wpa, rsn.2 + wpa.2).

Definition _WAPI_IE_ : Z := 68.

Fixpoint get_wapi_ie_loop (fuel : nat) (b : list Z) (cnt in_len : Z) (wapi : list Z * Z)
    : res (list Z * Z) :=
  match fuel with
  | O => Looping
  | S fuel =>
      if cnt <? in_len then
        authmode ← byte_at b cnt;
        w ← (if authmode =? _WAPI_IE_ then
               m ← bytes_match b (cnt + 6) [0x00; 0x14; 0x72; 0x01];
               if m : bool then Ret true else bytes_match b (cnt + 6) [0x00; 0x14; 0x72; 0x02]
             else Ret false);
        l ← byte_at b (cnt + 1);
        if w : bool then
          s ← slice b cnt (l + 2);
          get_wapi_ie_loop fuel b (cnt + (l + 2)) in_len (s, l + 2)
        else get_wapi_ie_loop fuel b (cnt + (l + 2)) in_len wapi
      else Ret wapi
  end.

Definition rtw_get_wapi_ie (b : list Z) (in_len : Z) : res (list Z * Z) :=
  if in_len <=? 0 then Ret ([], 0)
  else get_wapi_ie_loop (ie_fuel in_len) b SEC_IE_OFFSET in_len ([], 0).

(** ** SPP A-MSDU *)

Definition SPP_CAP : Z := BIT 0.
Definition SPP_REQ : Z := BIT 1.
Definition RTW_AMSDU_MODE_NON_SPP : Z := 0.
Definition RTW_AMSDU_MODE_SPP : Z := 1.
Definition RTW_AMSDU_MODE_ALL_DROP : Z := 2.

(** [SET_RSN_CAP_SPP]; the pointer may be null. *)
Definition set_rsn_cap_spp (ie : list Z) (cap : option Z) (spp : Z) : res (list Z) :=
  match cap with
  | None => Oob
  | Some c =>
      w ← get_le16 ie c;
      let cleared := Z.land w (Z.lnot (Z.shiftl (Z.ones 2) 10)) in
      blit ie c (put_le16 (Z.lor cleared (Z.shiftl (Z.land spp (Z.ones 2)) 10)))
  end.

Definition rtw_set_spp_amsdu_mode (mode : Z) (ie : list Z) (ie_len : Z) : res (list Z) :=
  let go (spp : Z) :=
    '(info, ok) ← rtw_rsne_info_parse ie ie_len;
    if negb ok then Ret ie else set_rsn_cap_spp ie (cap info) spp in
  if mode =? RTW_AMSDU_MODE_NON_SPP then go (u8 (Z.lor (Z.lnot SPP_CAP) (Z.lnot SPP_REQ)))
  else if mode =? RTW_AMSDU_MODE_SPP then go (u8 (Z.lor SPP_CAP SPP_REQ))
  else if mode =? RTW_AMSDU_MODE_ALL_DROP then go (u8 (Z.lor (Z.lnot SPP_CAP) SPP_REQ))
  else Ret ie.

(** The second test is that the complement of the bit, an [int], is not zero. *)
Definition rtw_check_amsdu_disable (mode spp_opt : Z) : bool :=
  if (mode =? RTW_AMSDU_MODE_NON_SPP) && negb (Z.land spp_opt SPP_REQ =? 0) then true
  else if (mode =? RTW_AMSDU_MODE_SPP) && negb (Z.lnot (Z.land spp_opt SPP_CAP) =? 0) then true
  else mode =? RTW_AMSDU_MODE_ALL_DROP.

(** ** The RSN parser stays inside the element *)

Definition in_ie (ie_len : Z) (p : option Z) (n : Z) : Prop :=
  match p with Some p => RSN_HEADER_LEN <= p /\ p + n <= ie_len | None => True end.
Definition list_in_ie (ie_len : Z) (p : option Z) (n size : Z) : Prop :=
  0 <= n /\ in_ie ie_len p (size * n) /\ (p = None -> n = 0).

(** Every pointer is into the element and everything it points to is there. *)
Definition info_ok (ie_len : Z) (i : rsne_info) : Prop :=
  in_ie ie_len (gcs i) RSN_SELECTOR_LEN /\
  list_in_ie ie_len (pcs_list i) (pcs_cnt i) RSN_SELECTOR_LEN /\
  list_in_ie ie_len (akm_list i) (akm_cnt i) RSN_SELECTOR_LEN /\
  in_ie ie_len (cap i) 2 /\
  list_in_ie ie_len (pmkid_list i) (pmkid_cnt i) RSN_PMKID_LEN /\
  in_ie ie_len (gmcs i) RSN_SELECTOR_LEN.

(** A parser stage ends with a sound record. *)
Definition parses (ie_len : Z) (r : res (rsne_info * bool)) : Prop :=
  exists i ok, r = Ret (i, ok) /\ info_ok ie_len i.

Section safety.
Context (ie : list Z) (ie_len : Z).
Hypothesis (Hb : Forall is_byte ie) (Hlen : ie_len <= zlen ie).

Lemma fail_parses i : info_ok ie_len i -> parses ie_len (fail i).
Proof. intros H. eexists _, _. by split. Qed.
Lemma exit_parses i : info_ok ie_len i -> parses ie_len (exit i).
Proof. intros H. eexists _, _. by split. Qed.
Lemma ends_parses pos i : info_ok ie_len i -> parses ie_len (ends ie_len pos i).
Proof. intros H. unfold ends. destruct (negb _); [by apply fail_parses|by apply exit_parses]. Qed.

Ltac info := unfold info_ok, list_in_ie, in_ie, RSN_HEADER_LEN, RSN_SELECTOR_LEN, RSN_PMKID_LEN in *;
  cbn in *; intuition (try done; lia).

Lemma parse_gmcs_parses pos i : 4 <= pos -> info_ok ie_len i -> parses ie_len (parse_gmcs ie_len pos i).
Proof.
  intros Hp Hi. unfold parse_gmcs. destruct (Z.ltb_spec ie_len (pos + RSN_SELECTOR_LEN)).
  - by apply ends_parses.
  - apply exit_parses. info.
Qed.

Lemma parse_pmkid_parses pos i : 4 <= pos -> info_ok ie_len i ->
  parses ie_len (parse_pmkid ie ie_len pos i).
Proof.
  intros Hp Hi. unfold parse_pmkid. destruct (Z.ltb_spec ie_len (pos + 2)); [by apply ends_parses|].
  destruct (get_le16_some ie pos Hb) as (n & -> & Hn); [lia|lia|]. cbn [mbind res_bind].
  destruct (Z.ltb_spec ie_len (pos + 2 + RSN_PMKID_LEN * n)).
  - destruct (_ || _); [by apply fail_parses|by apply exit_parses].
  - apply parse_gmcs_parses; [unfold RSN_PMKID_LEN; lia|]. info.
Qed.

Lemma parse_cap_parses pos i : 4 <= pos -> info_ok ie_len i ->
  parses ie_len (parse_cap ie ie_len pos i).
Proof.
  intros Hp Hi. unfold parse_cap. destruct (Z.ltb_spec ie_len (pos + 2)); [by apply ends_parses|].
  apply parse_pmkid_parses; [lia|]. info.
Qed.

Lemma parse_suites_parses set next pos i :
  (forall n p, 4 <= p -> 0 < n -> p + RSN_SELECTOR_LEN * n <= ie_len -> info_ok ie_len (set n p i)) ->
  (forall p j, 4 <= p -> info_ok ie_len j -> parses ie_len (next p j)) ->
  4 <= pos -> info_ok ie_len i -> parses ie_len (parse_suites ie ie_len pos set next i).
Proof.
  intros Hset Hnext Hp Hi. unfold parse_suites.
  destruct (Z.ltb_spec ie_len (pos + 2)); [by apply ends_parses|].
  destruct (get_le16_some ie pos Hb) as (n & -> & Hn); [lia|lia|]. cbn [mbind res_bind].
  destruct (Z.eqb_spec n 0); [by apply fail_parses|].
  destruct (Z.ltb_spec ie_len (pos + 2 + RSN_SELECTOR_LEN * n)); [by apply ends_parses|].
  apply Hnext; [unfold RSN_SELECTOR_LEN; lia|]. apply Hset; lia.
Qed.

Lemma info_parse_ok : parses ie_len (rtw_rsne_info_parse ie ie_len).
Proof.
  assert (H0 : info_ok ie_len info0) by info. unfold rtw_rsne_info_parse.
  destruct (Z.ltb_spec ie_len RSN_HEADER_LEN) as [|H4]; [by apply fail_parses|].
  unfold RSN_HEADER_LEN in H4. pose proof (zlen_nonneg ie).
  destruct (byte_at_some ie 0) as (x & -> & _); [lia|]. cbn [mbind res_bind].
  destruct (negb _); [by apply fail_parses|].
  destruct (byte_at_some ie 1) as (l & -> & _); [lia|]. cbn [mbind res_bind].
  destruct (negb _); [by apply fail_parses|].
  destruct (byte_at_some ie 2) as (v & -> & _); [lia|]. cbn [mbind res_bind].
  destruct (negb _); [by apply fail_parses|].
  destruct (Z.ltb_spec ie_len (RSN_HEADER_LEN + RSN_SELECTOR_LEN)); [by apply ends_parses|].
  apply parse_suites_parses; [intros; info| |done|info].
  intros p j Hp Hj. apply parse_suites_parses; [intros; info|by apply parse_cap_parses|done|done].
Qed.

Lemma suite_at_some tbl pos : 0 <= pos -> pos + 4 <= zlen ie -> exists v, suite_at tbl ie pos = Ret v.
Proof. intros. unfold suite_at. rewrite slice_some by lia. by eexists. Qed.

Lemma suites_or_some tbl n : forall pos acc, 0 <= pos -> pos + 4 * Z.of_nat n <= zlen ie ->
  exists v, suites_or (suite_at tbl) n ie pos acc = Ret v.
Proof.
  induction n as [|n IH]; intros pos acc Hp Hl; cbn [suites_or]; [by eexists|].
  destruct (suite_at_some tbl pos) as [v ->]; [lia|lia|]. cbn [mbind res_bind]. apply IH; lia.
Qed.

Lemma suite_opt_some p dflt : in_ie ie_len p RSN_SELECTOR_LEN -> exists v, suite_opt ie p dflt = Ret v.
Proof.
  destruct p as [p|]; [|by eexists]. unfold in_ie, RSN_HEADER_LEN, RSN_SELECTOR_LEN. intros Hp.
  apply suite_at_some; lia.
Qed.

Lemma suites_opt_some tbl p n : list_in_ie ie_len p n RSN_SELECTOR_LEN ->
  exists v, suites_opt (suite_at tbl) ie p n = Ret v.
Proof.
  intros (Hn & Hp & H0). destruct p as [p|]; cbn [suites_opt].
  - unfold in_ie, RSN_HEADER_LEN, RSN_SELECTOR_LEN in Hp. apply suites_or_some; lia.
  - rewrite H0 by done. by eexists.
Qed.

Lemma parse_wpa2_total : exists r, rtw_parse_wpa2_ie ie ie_len = Ret r.
Proof.
  destruct info_parse_ok as (i & ok & Hp & H1 & H2 & H3 & H4 & _ & H6).
  unfold rtw_parse_wpa2_ie. rewrite Hp. cbn [mbind res_bind]. destruct ok; [|by eexists]. cbn [negb].
  destruct (suite_opt_some _ 0 H1) as [g ->]. cbn [mbind res_bind].
  destruct (suites_opt_some rsn_ciphers _ _ H2) as [p Hp2].
  change (suite_at rsn_ciphers) with rtw_get_rsn_cipher_suite in Hp2. rewrite Hp2. cbn [mbind res_bind].
  destruct (suite_opt_some _ WPA_CIPHER_BIP_CMAC_128 H6) as [m ->]. cbn [mbind res_bind].
  destruct (suites_opt_some akm_suites _ _ H3) as [a Ha].
  change (suite_at akm_suites) with rtw_get_akm_suite_bitmap in Ha. rewrite Ha. cbn [mbind res_bind].
  destruct (cap i) as [c|]; [|by eexists]. unfold in_ie, RSN_HEADER_LEN in H4.
  destruct (get_le16_some ie c Hb) as (w & -> & _); [lia|lia|]. by eexists.
Qed.
End safety.

(** C24: Whatever the bytes of an RSN element of the given length are, parsing
    ends without an access outside of the element, and every pointer of the
    result is followed by as many bytes of the element as its count asks for. *)
Theorem rsne_parse_safe ie ie_len (Hb : Forall is_byte ie) (Hlen : ie_len <= zlen ie) :
  (exists i ok, rtw_rsne_info_parse ie ie_len = Ret (i, ok) /\ info_ok ie_len i) /\
  exists r, rtw_parse_wpa2_ie ie ie_len = Ret r.
Proof. split; [by apply info_parse_ok|by apply parse_wpa2_total]. Qed.

Definition short_rsn : list Z := [48; 10; 1; 0; 0; 15; 172; 4; 9; 0; 0; 15].

Lemma rsne_parse_safe_witness :
  (exists i ok, rtw_rsne_info_parse short_rsn 12 = Ret (i, ok) /\ info_ok 12 i) /\
  exists r, rtw_parse_wpa2_ie short_rsn 12 = Ret r.
Proof.
  apply (rsne_parse_safe short_rsn 12); [|by vm_compute].
  repeat (apply Forall_cons_2; [unfold is_byte; lia|]). constructor.
Defined.

(** ** The RSN parser inverts the encoder *)

(** The contents of a complete RSN element (IEEE 802.11, 9.4.2.24). *)
Record rsn_desc := mk_rsn_desc {
  d_gcs : list Z; d_pcs : list (list Z); d_akm : list (list Z); d_cap : Z;
  d_pmkid : list (list Z); d_gmcs : option (list Z) }.

Definition count_of (l : list (list Z)) : Z := zlen l.
Definition suites_body (l : list (list Z)) : list Z := put_le16 (count_of l) ++ concat l.
Definition rsn_body (d : rsn_desc) : list Z :=
  put_le16 RSN_VERSION_BSD ++ d_gcs d ++ suites_body (d_pcs d) ++ suites_body (d_akm d) ++
  put_le16 (d_cap d) ++ suites_body (d_pmkid d) ++
  match d_gmcs d with Some s => s | None => [] end.
Definition rsn_encode (d : rsn_desc) : list Z := _WPA2_IE_ID_ :: zlen (rsn_body d) :: rsn_body d.

Definition all_len (n : Z) (l : list (list Z)) : Prop := Forall (fun x => zlen x = n) l.

Definition desc_ok (d : rsn_desc) : Prop :=
  zlen (d_gcs d) = 4 /\ all_len 4 (d_pcs d) /\ d_pcs d <> [] /\ all_len 4 (d_akm d) /\
  d_akm d <> [] /\ 0 <= d_cap d < 65536 /\ all_len 16 (d_pmkid d) /\
  match d_gmcs d with Some s => zlen s = 4 | None => True end /\ zlen (rsn_body d) < 256.

(** The bits of the suites of a list. *)
Definition suites_bits (tbl : list (list Z * Z)) (l : list (list Z)) (acc : Z) : Z :=
  foldl (fun a s => Z.lor a (suite_of tbl s)) acc l.

(** What the element means. *)
Definition rsn_meaning (d : rsn_desc) : wpa2 :=
  mk_wpa2 (suite_of rsn_ciphers (d_gcs d)) (suites_bits rsn_ciphers (d_pcs d) 0)
    match d_gmcs d with Some s => suite_of rsn_ciphers s | None => WPA_CIPHER_BIP_CMAC_128 end
    (suites_bits akm_suites (d_akm d) 0) (le_bits (d_cap d) 6 2) (le_bits (d_cap d) 10 2).

Lemma zlen_concat n l : all_len n l -> zlen (concat l) = n * count_of l.
Proof.
  unfold count_of. intros H. induction H as [|x l Hx _ IH]; [unfold zlen; cbn; lia|].
  cbn [concat]. rewrite zlen_app, zlen_cons. lia.
Qed.

Lemma zlen_put_le16 n : zlen (put_le16 n) = 2.
Proof. done. Qed.

Lemma zlen_suites n l : all_len n l -> zlen (suites_body l) = 2 + n * count_of l.
Proof. intros. unfold suites_body. rewrite zlen_app, (zlen_concat n) by done. done. Qed.

Lemma count_pos l : l <> [] -> 0 < count_of l.
Proof.
  destruct l as [|x l]; [done|]. intros _. unfold count_of. rewrite zlen_cons.
  pose proof (zlen_nonneg l). lia.
Qed.

Lemma suite_at_app tbl p x s off : off = zlen p -> zlen x = 4 ->
  suite_at tbl (p ++ x ++ s) off = Ret (suite_of tbl x).
Proof. intros -> Hx. unfold suite_at. by rewrite slice_app. Qed.

Lemma suites_or_app tbl l : all_len 4 l -> forall p s acc,
  suites_or (suite_at tbl) (length l) (p ++ concat l ++ s) (zlen p) acc = Ret (suites_bits tbl l acc).
Proof.
  intros H. induction H as [|x l Hx _ IH]; intros p s acc; cbn [length suites_or]; [done|].
  cbn [concat]. rewrite <- (app_assoc x). rewrite suite_at_app by done. cbn [mbind res_bind].
  rewrite app_assoc. replace (zlen p + 4) with (zlen (p ++ x)) by (rewrite zlen_app; lia).
  apply IH.
Qed.

Lemma slice_suites n p l s : all_len n l ->
  slice (p ++ suites_body l ++ s) (zlen p + 2) (n * count_of l) = Ret (concat l).
Proof.
  intros Hl. unfold suites_body. rewrite <- app_assoc, app_assoc.
  apply slice_app; [by rewrite zlen_app|by rewrite (zlen_concat n)].
Qed.

(** A suite list, met while parsing. *)
Lemma parse_suites_app p l s ie_len set next i :
  all_len 4 l -> l <> [] -> count_of l < 65536 ->
  zlen p + zlen (suites_body l) <= ie_len ->
  parse_suites (p ++ suites_body l ++ s) ie_len (zlen p) set next i =
    next (zlen p + zlen (suites_body l)) (set (count_of l) (zlen p + 2) i).
Proof.
  intros Hl Hne Hn Hlen. pose proof (count_pos l Hne). unfold parse_suites.
  rewrite (zlen_suites 4) in * by done.
  destruct (Z.ltb_spec ie_len (zlen p + 2)); [lia|].
  unfold suites_body. rewrite <- !app_assoc. rewrite get_put_le16 by (done || lia).
  cbn [mbind res_bind]. destruct (Z.eqb_spec (count_of l) 0); [lia|]. unfold RSN_SELECTOR_LEN.
  destruct (Z.ltb_spec ie_len (zlen p + 2 + 4 * count_of l)); [lia|].
  f_equal. lia.
Qed.

Definition with_cap (d : rsn_desc) (c : Z) : rsn_desc :=
  mk_rsn_desc (d_gcs d) (d_pcs d) (d_akm d) c (d_pmkid d) (d_gmcs d).

Section encoded.
Context (d : rsn_desc) (Hd : desc_ok d) (post : list Z).

Let ie := rsn_encode d ++ post.
Let len := zlen (rsn_encode d).
Let p1 := _WPA2_IE_ID_ :: zlen (rsn_body d) :: put_le16 RSN_VERSION_BSD.
Let p2 := p1 ++ d_gcs d.
Let p3 := p2 ++ suites_body (d_pcs d).
Let p4 := p3 ++ suites_body (d_akm d).
Let p5 := p4 ++ put_le16 (d_cap d).
Let p6 := p5 ++ suites_body (d_pmkid d).
Let g := match d_gmcs d with Some s => s | None => [] end.

Definition encoded_info : rsne_info :=
  mk_rsne_info (Some 4) (count_of (d_pcs d)) (Some (zlen p2 + 2))
    (count_of (d_akm d)) (Some (zlen p3 + 2)) (Some (zlen p4))
    (count_of (d_pmkid d)) (Some (zlen p5 + 2))
    (match d_gmcs d with Some _ => Some (zlen p6) | None => None end) false.

Lemma ie_at1 : ie = p1 ++ d_gcs d ++ (suites_body (d_pcs d) ++ suites_body (d_akm d) ++
  put_le16 (d_cap d) ++ suites_body (d_pmkid d) ++ g ++ post).
Proof. unfold ie, p1, rsn_encode, rsn_body, g. cbn [app]. by rewrite <- !app_assoc. Qed.
Lemma ie_at2 : ie = p2 ++ suites_body (d_pcs d) ++ (suites_body (d_akm d) ++
  put_le16 (d_cap d) ++ suites_body (d_pmkid d) ++ g ++ post).
Proof. rewrite ie_at1. unfold p2. by rewrite <- !app_assoc. Qed.
Lemma ie_at3 : ie = p3 ++ suites_body (d_akm d) ++
  (put_le16 (d_cap d) ++ suites_body (d_pmkid d) ++ g ++ post).
Proof. rewrite ie_at2. unfold p3. by rewrite <- !app_assoc. Qed.
Lemma ie_at4 : ie = p4 ++ put_le16 (d_cap d) ++ (suites_body (d_pmkid d) ++ g ++ post).
Proof. rewrite ie_at3. unfold p4. by rewrite <- !app_assoc. Qed.
Lemma ie_at5 : ie = p5 ++ suites_body (d_pmkid d) ++ (g ++ post).
Proof. rewrite ie_at4. unfold p5. by rewrite <- !app_assoc. Qed.
Lemma ie_at6 : ie = p6 ++ g ++ post.
Proof. rewrite ie_at5. unfold p6. by rewrite <- !app_assoc. Qed.

Lemma zlen_parts :
  zlen p2 = 8 /\ zlen p3 = zlen p2 + 2 + 4 * count_of (d_pcs d) /\
  zlen p4 = zlen p3 + 2 + 4 * count_of (d_akm d) /\ zlen p5 = zlen p4 + 2 /\
  zlen p6 = zlen p5 + 2 + 16 * count_of (d_pmkid d) /\ len = zlen p6 + zlen g /\ len < 258.
Proof.
  destruct Hd as (H1 & H2 & _ & H3 & _ & _ & H4 & _ & H5).
  assert (Hp2 : zlen p2 = 8) by (unfold p2; rewrite zlen_app, H1; done).
  split; [done|]. split; [unfold p3; rewrite zlen_app, (zlen_suites 4) by done; lia|].
  split; [unfold p4; rewrite zlen_app, (zlen_suites 4) by done; lia|].
  split; [unfold p5; by rewrite zlen_app|].
  split; [unfold p6; rewrite zlen_app, (zlen_suites 16) by done; lia|].
  split; [|unfold len, rsn_encode; zlens; lia].
  pose proof ie_at6 as E. apply (f_equal zlen) in E. unfold ie in E. rewrite !zlen_app in E.
  unfold len. lia.
Qed.

Lemma count_bound :
  0 < count_of (d_pcs d) < 65536 /\ 0 < count_of (d_akm d) < 65536 /\
  0 <= count_of (d_pmkid d) < 65536.
Proof.
  destruct zlen_parts as (E2 & E3 & E4 & E5 & E6 & E7 & Hlt).
  destruct Hd as (_ & _ & Hpn & _ & Han & _).
  pose proof (count_pos _ Hpn). pose proof (count_pos _ Han).
  assert (0 <= count_of (d_pmkid d)) by apply zlen_nonneg. pose proof (zlen_nonneg g). lia.
Qed.

Lemma encoded_parse : rtw_rsne_info_parse ie len = Ret (encoded_info, true).
Proof.
  destruct zlen_parts as (E2 & E3 & E4 & E5 & E6 & E7 & Hlt).
  destruct count_bound as (Hp & Ha & Hk). pose proof (zlen_nonneg g).
  destruct Hd as (Hg & Hpl & Hpn & Hal & Han & Hc & Hkl & Hm & Hbody).
  unfold rtw_rsne_info_parse, RSN_HEADER_LEN, RSN_SELECTOR_LEN.
  destruct (Z.ltb_spec len 4); [lia|].
  change (byte_at ie 0) with (Ret _WPA2_IE_ID_). cbn [mbind res_bind].
  rewrite Z.eqb_refl. cbn [negb].
  change (byte_at ie 1) with (Ret (zlen (rsn_body d))). cbn [mbind res_bind].
  assert ((zlen (rsn_body d) =? len - 2) = true) as -> by (apply Z.eqb_eq; unfold len, rsn_encode; zlens; lia).
  cbn [negb]. change (byte_at ie 2) with (Ret RSN_VERSION_BSD). cbn [mbind res_bind].
  rewrite Z.eqb_refl. cbn [negb]. destruct (Z.ltb_spec len (4 + 4)); [lia|].
  rewrite ie_at2 at 1. change (4 + 4) with 8. rewrite <- E2.
  rewrite parse_suites_app by (done || lia || rewrite (zlen_suites 4) by done; lia).
  rewrite (zlen_suites 4) by done.
  replace (zlen p2 + (2 + 4 * count_of (d_pcs d))) with (zlen p3) by lia.
  rewrite ie_at3 at 1.
  rewrite parse_suites_app by (done || lia || rewrite (zlen_suites 4) by done; lia).
  rewrite (zlen_suites 4) by done.
  replace (zlen p3 + (2 + 4 * count_of (d_akm d))) with (zlen p4) by lia.
  unfold parse_cap. destruct (Z.ltb_spec len (zlen p4 + 2)); [lia|]. rewrite <- E5.
  unfold parse_pmkid. destruct (Z.ltb_spec len (zlen p5 + 2)); [lia|].
  rewrite ie_at5. unfold suites_body at 1. rewrite <- app_assoc.
  rewrite get_put_le16 by (done || lia). cbn [mbind res_bind]. unfold RSN_PMKID_LEN.
  rewrite <- E6. destruct (Z.ltb_spec len (zlen p6)); [lia|].
  unfold parse_gmcs, ends, RSN_SELECTOR_LEN, encoded_info. subst g.
  destruct (d_gmcs d) as [s|].
  - destruct (Z.ltb_spec len (zlen p6 + 4)); [lia|done].
  - rewrite zlen_nil in E7. destruct (Z.ltb_spec len (zlen p6 + 4)); [|lia].
    assert ((len =? zlen p6) = true) as -> by (apply Z.eqb_eq; lia). done.
Qed.

Lemma suites_of_list tbl p l s : all_len 4 l ->
  suites_opt (suite_at tbl) (p ++ suites_body l ++ s) (Some (zlen p + 2)) (count_of l) =
    Ret (suites_bits tbl l 0).
Proof.
  intros Hl. unfold suites_opt, suites_body. rewrite <- app_assoc, app_assoc.
  replace (zlen p + 2) with (zlen (p ++ put_le16 (count_of l))) by (rewrite zlen_app; done).
  assert (Z.to_nat (count_of l) = length l) as -> by apply Nat2Z.id. by apply suites_or_app.
Qed.

Lemma encoded_wpa2 : rtw_parse_wpa2_ie ie len = Ret (Some (rsn_meaning d)).
Proof.
  unfold rtw_parse_wpa2_ie. rewrite encoded_parse. cbn [mbind res_bind negb].
  destruct zlen_parts as (E2 & E3 & E4 & E5 & E6 & E7 & Hlt).
  destruct Hd as (Hg & Hpl & Hpn & Hal & Han & Hc & Hkl & Hm & Hbody).
  assert (suite_opt ie (gcs encoded_info) 0 = Ret (suite_of rsn_ciphers (d_gcs d))) as ->.
  { cbn [suite_opt gcs encoded_info]. rewrite ie_at1. by apply suite_at_app. }
  cbn [mbind res_bind].
  assert (suites_opt rtw_get_rsn_cipher_suite ie (pcs_list encoded_info) (pcs_cnt encoded_info) =
          Ret (suites_bits rsn_ciphers (d_pcs d) 0)) as ->.
  { rewrite ie_at2. by apply (suites_of_list rsn_ciphers). }
  cbn [mbind res_bind].
  assert (suite_opt ie (gmcs encoded_info) WPA_CIPHER_BIP_CMAC_128 =
          Ret (mgmt_cipher (rsn_meaning d))) as ->.
  { rewrite ie_at6. subst g. unfold rsn_meaning, encoded_info. cbn [gmcs mgmt_cipher].
    destruct (d_gmcs d) as [s|]; [|done]. cbn [suite_opt]. by apply suite_at_app. }
  cbn [mbind res_bind].
  assert (suites_opt rtw_get_akm_suite_bitmap ie (akm_list encoded_info) (akm_cnt encoded_info) =
          Ret (suites_bits akm_suites (d_akm d) 0)) as ->.
  { rewrite ie_at3. by apply (suites_of_list akm_suites). }
  cbn [mbind res_bind cap encoded_info]. rewrite ie_at4, get_put_le16 by (done || lia). done.
Qed.

Lemma encoded_set_cap c : blit ie (zlen p4) (put_le16 c) = Ret (rsn_encode (with_cap d c) ++ post).
Proof.
  rewrite ie_at4, blit_app by done. f_equal.
  unfold p4, p3, p2, p1, rsn_encode, with_cap, rsn_body, g. cbn [d_gcs d_pcs d_akm d_cap d_pmkid d_gmcs].
  cbn [app]. rewrite <- !app_assoc. cbn [app]. rewrite !zlen_app, !zlen_put_le16. done.
Qed.
End encoded.

(** C30: Parsing an RSN element built from a description gives what the
    description means: the group cipher, the union of the pairwise ciphers and of
    the key managements, the management cipher or its default, and the two
    capability fields; the PMKID list pointed to is the description's. *)
Theorem rsne_parse_encode d post (Hd : desc_ok d) :
  let ie := rsn_encode d ++ post in
  let len := zlen (rsn_encode d) in
  rtw_parse_wpa2_ie ie len = Ret (Some (rsn_meaning d)) /\
  exists i p, rtw_rsne_info_parse ie len = Ret (i, true) /\
    pmkid_cnt i = count_of (d_pmkid d) /\ pmkid_list i = Some p /\
    slice ie p (16 * pmkid_cnt i) = Ret (concat (d_pmkid d)).
Proof.
  cbn zeta. split; [by apply encoded_wpa2|]. rewrite encoded_parse by done.
  do 2 eexists. split; [done|]. cbn [pmkid_cnt pmkid_list encoded_info].
  split; [done|]. split; [done|]. rewrite (ie_at5 d post). apply slice_suites.
  by destruct Hd as (_ & _ & _ & _ & _ & _ & Hk & _).
Qed.

(** CCMP and TKIP, PSK and SAE, management frame protection required. *)
Definition sample_rsn : rsn_desc :=
  mk_rsn_desc (rsn_sel 4) [rsn_sel 4; rsn_sel 2] [rsn_sel 2; rsn_sel 8] 0xc0 [replicate 16 7]
    (Some (rsn_sel 11)).

Lemma rsne_parse_encode_witness :
  let ie := rsn_encode sample_rsn ++ [1; 2] in
  let len := zlen (rsn_encode sample_rsn) in
  rtw_parse_wpa2_ie ie len = Ret (Some (rsn_meaning sample_rsn)) /\
  exists i p, rtw_rsne_info_parse ie len = Ret (i, true) /\
    pmkid_cnt i = count_of (d_pmkid sample_rsn) /\ pmkid_list i = Some p /\
    slice ie p (16 * pmkid_cnt i) = Ret (concat (d_pmkid sample_rsn)).
Proof.
  apply (rsne_parse_encode sample_rsn [1; 2]). unfold desc_ok, all_len.
  cbn [d_gcs d_pcs d_akm d_cap d_pmkid d_gmcs sample_rsn]. split_all; try done; try lia.
  all: by repeat constructor.
Defined.

Example sample_rsn_meaning :
  rsn_meaning sample_rsn =
    mk_wpa2 WPA_CIPHER_CCMP (Z.lor WPA_CIPHER_CCMP WPA_CIPHER_TKIP) WPA_CIPHER_BIP_GMAC_128
      (Z.lor (BIT 1) (BIT 7)) 3 0.
Proof. reflexivity. Qed.

(** The second byte of the version is not looked at. *)
Example version_high_byte : rtw_parse_wpa2_ie [48; 2; 1; 7] 4 =
  Ret (Some (mk_wpa2 0 0 WPA_CIPHER_BIP_CMAC_128 0 0 0)).
Proof. reflexivity. Qed.


(** ** The SPP A-MSDU mode *)

(** The capability word with the two SPP bits replaced. *)
Definition spp_word (w spp : Z) : Z :=
  Z.lor (Z.land w (Z.lnot (Z.shiftl (Z.ones 2) 10))) (Z.shiftl (Z.land spp (Z.ones 2)) 10).

Lemma spp_word_bits w spp n : 0 <= n ->
  Z.testbit (spp_word w spp) n =
    if (n =? 10) || (n =? 11) then Z.testbit spp (n - 10) else Z.testbit w n.
Proof.
  intros Hn. unfold spp_word. rewrite Z.lor_spec, Z.land_spec, Z.lnot_spec by done.
  rewrite !Z.shiftl_spec by done. rewrite Z.land_spec.
  destruct (Z.lt_ge_cases n 10).
  - rewrite !(Z.testbit_neg_r _ (n - 10)) by lia.
    destruct (Z.eqb_spec n 10); [lia|]. destruct (Z.eqb_spec n 11); [lia|].
    cbn [orb andb negb]. by rewrite andb_true_r, orb_false_r.
  - destruct (Z.lt_ge_cases n 12).
    + rewrite Z.ones_spec_low by lia. cbn [negb]. rewrite andb_false_r, andb_true_r. cbn [orb].
      destruct (Z.eqb_spec n 10); [done|]. by destruct (Z.eqb_spec n 11); [|lia].
    + rewrite Z.ones_spec_high by lia. cbn [negb]. rewrite andb_true_r, andb_false_r, orb_false_r.
      destruct (Z.eqb_spec n 10); [lia|]. by destruct (Z.eqb_spec n 11); [lia|].
Qed.

Lemma spp_word_range w spp : 0 <= w < 65536 -> 0 <= spp_word w spp < 65536.
Proof.
  intros Hw. assert (H0 : 0 <= spp_word w spp).
  { unfold spp_word. apply Z.lor_nonneg. split; [apply Z.land_nonneg; lia|].
    apply Z.shiftl_nonneg, Z.land_nonneg. by right. }
  split; [done|]. destruct (Z.eq_dec (spp_word w spp) 0) as [->|Hne]; [lia|].
  change 65536 with (2 ^ 16). apply Z.log2_lt_pow2; [lia|].
  apply Z.nle_gt. intros Hlog.
  pose proof (Z.bit_log2 (spp_word w spp) ltac:(lia)) as Hbit.
  rewrite spp_word_bits in Hbit by lia.
  destruct (Z.eqb_spec (Z.log2 (spp_word w spp)) 10); [lia|].
  destruct (Z.eqb_spec (Z.log2 (spp_word w spp)) 11); [lia|]. cbn [orb] in Hbit.
  enough (Z.testbit w (Z.log2 (spp_word w spp)) = false) by congruence.
  destruct (Z.eq_dec w 0) as [->|]; [apply Z.testbit_0_l|].
  apply Z.bits_above_log2; [lia|]. apply Z.lt_le_trans with 16; [|done].
  apply Z.log2_lt_pow2; [lia|]. change (2 ^ 16) with 65536; lia.
Qed.

Lemma spp_word_opt w spp : le_bits (spp_word w spp) 10 2 = Z.land spp 3.
Proof.
  unfold le_bits. apply Z.bits_inj'. intros n Hn.
  rewrite !Z.land_spec, Z.shiftr_spec by done. change 3 with (Z.ones 2).
  rewrite spp_word_bits by lia. destruct (Z.lt_ge_cases n 2).
  - replace (n + 10 - 10) with n by lia.
    destruct (Z.eqb_spec (n + 10) 10); [done|]. by destruct (Z.eqb_spec (n + 10) 11); [|lia].
  - by rewrite Z.ones_spec_high, !andb_false_r by lia.
Qed.

(** The value the two bits get in each mode. *)
Definition spp_of_mode (mode : Z) : Z := if mode =? RTW_AMSDU_MODE_ALL_DROP then 2 else 3.

(** Setting the A-MSDU mode of a complete RSN element changes the two SPP
    bits of its capabilities only; the bits become 3, capable and required, in
    the non-SPP mode as well as in the SPP mode, and 2 in the mode that drops. *)
Theorem set_spp_mode_spec mode d post (Hmode : 0 <= mode <= 2) (Hd : desc_ok d) :
  exists c, rtw_set_spp_amsdu_mode mode (rsn_encode d ++ post) (zlen (rsn_encode d)) =
      Ret (rsn_encode (with_cap d c) ++ post) /\
    0 <= c < 65536 /\ le_bits c 10 2 = spp_of_mode mode /\
    forall n, 0 <= n -> n <> 10 -> n <> 11 -> Z.testbit c n = Z.testbit (d_cap d) n.
Proof.
  assert (Hset : forall spp, (
    '(info, ok) ← rtw_rsne_info_parse (rsn_encode d ++ post) (zlen (rsn_encode d));
    if negb ok then Ret (rsn_encode d ++ post)
    else set_rsn_cap_spp (rsn_encode d ++ post) (cap info) spp) =
    Ret (rsn_encode (with_cap d (spp_word (d_cap d) spp)) ++ post)).
  { intros spp. rewrite encoded_parse by done. cbn [mbind res_bind negb cap encoded_info].
    unfold set_rsn_cap_spp. rewrite (ie_at4 d post) at 1.
    rewrite get_put_le16 by (done || by destruct Hd as (_ & _ & _ & _ & _ & ? & _)).
    cbn [mbind res_bind]. by rewrite encoded_set_cap. }
  assert (Hw : 0 <= d_cap d < 65536) by by destruct Hd as (_ & _ & _ & _ & _ & ? & _).
  assert (Hres : forall spp, rtw_set_spp_amsdu_mode mode (rsn_encode d ++ post) (zlen (rsn_encode d)) =
      Ret (rsn_encode (with_cap d (spp_word (d_cap d) spp)) ++ post) ->
      Z.land spp 3 = spp_of_mode mode ->
    exists c, rtw_set_spp_amsdu_mode mode (rsn_encode d ++ post) (zlen (rsn_encode d)) =
      Ret (rsn_encode (with_cap d c) ++ post) /\
    0 <= c < 65536 /\ le_bits c 10 2 = spp_of_mode mode /\
    forall n, 0 <= n -> n <> 10 -> n <> 11 -> Z.testbit c n = Z.testbit (d_cap d) n).
  { intros spp Hr Hv. eexists. split; [exact Hr|]. split; [by apply spp_word_range|].
    split; [by rewrite spp_word_opt|]. intros n Hn H10 H11. rewrite spp_word_bits by done.
    destruct (Z.eqb_spec n 10); [done|]. by destruct (Z.eqb_spec n 11). }
  assert (mode = 0 \/ mode = 1 \/ mode = 2) as [-> | [-> | ->]] by lia;
    (eapply Hres; [apply Hset|reflexivity]).
Qed.

Lemma sample_rsn_ok : desc_ok sample_rsn.
Proof.
  unfold desc_ok, all_len.
  cbn [d_gcs d_pcs d_akm d_cap d_pmkid d_gmcs sample_rsn]. split_all; try done; try lia.
  all: by repeat constructor.
Qed.

Lemma set_spp_mode_spec_witness :
  exists c, rtw_set_spp_amsdu_mode 0 (rsn_encode sample_rsn ++ []) (zlen (rsn_encode sample_rsn)) =
      Ret (rsn_encode (with_cap sample_rsn c) ++ []) /\
    0 <= c < 65536 /\ le_bits c 10 2 = 3 /\
    forall n, 0 <= n -> n <> 10 -> n <> 11 -> Z.testbit c n = Z.testbit (d_cap sample_rsn) n.
Proof. apply (set_spp_mode_spec 0 sample_rsn []); [lia|apply sample_rsn_ok]. Defined.

(** An element that ends before its capabilities has no word to write to. *)
Example set_spp_without_cap : rtw_set_spp_amsdu_mode 1 [48; 2; 1; 0] 4 = Oob.
Proof. reflexivity. Qed.

(** Whether A-MSDU is disabled for a peer: in the non-SPP mode when the
    peer requires SPP; in the SPP mode always, also for a peer that is SPP
    capable, since the complement of the capability bit is never zero; always in
    the mode that drops. *)
Theorem check_amsdu_disable_spec mode spp_opt :
  rtw_check_amsdu_disable mode spp_opt =
    if mode =? RTW_AMSDU_MODE_NON_SPP then Z.testbit spp_opt 1
    else (mode =? RTW_AMSDU_MODE_SPP) || (mode =? RTW_AMSDU_MODE_ALL_DROP).
Proof.
  unfold rtw_check_amsdu_disable. destruct (Z.eqb_spec mode RTW_AMSDU_MODE_NON_SPP) as [->|Hm].
  - cbn [andb]. assert (Z.land spp_opt SPP_REQ = if Z.testbit spp_opt 1 then 2 else 0) as ->;
      [|by destruct (Z.testbit spp_opt 1)].
    change SPP_REQ with (2 ^ 1). rewrite Z.land_comm. apply Z.bits_inj'. intros n Hn.
    rewrite Z.land_spec, Z.pow2_bits_eqb by lia. destruct (Z.eqb_spec 1 n) as [<-|Hne].
    + cbn [andb]. by destruct (Z.testbit spp_opt 1).
    + cbn [andb]. destruct (Z.testbit spp_opt 1); [|by rewrite Z.testbit_0_l].
      change 2 with (2 ^ 1). rewrite Z.pow2_bits_eqb by lia. by destruct (Z.eqb_spec 1 n).
  - cbn [andb]. destruct (Z.eqb_spec mode RTW_AMSDU_MODE_SPP) as [->|Hs]; [|done].
    cbn [andb orb].
    destruct (Z.eqb_spec (Z.lnot (Z.land spp_opt SPP_CAP)) 0) as [E|]; [|reflexivity].
    exfalso. assert (0 <= Z.land spp_opt SPP_CAP) by (apply Z.land_nonneg; by right).
    unfold Z.lnot in E. lia.
Qed.


(** ** The search for the WPA element *)

(** A WPA element of version 1. *)
Definition is_wpa (x : elem) : bool :=
  has_eid _WPA_IE_ID_ x && bool_decide (ztake 6 x.2 = RTW_WPA_OUI_TYPE ++ put_le16 1).

(** A vendor element is at least as long as the OUI and the version. *)
Definition wpa_fits (x : elem) : Prop :=
  x.1 = _WPA_IE_ID_ -> 6 <= zlen x.2 /\ Forall is_byte x.2.

Lemma six_bytes (c : list Z) : 6 <= zlen c ->
  exists a0 a1 a2 a3 v0 v1 r, c = [a0; a1; a2; a3] ++ v0 :: v1 :: r.
Proof.
  intros H. destruct c as [|a0 [|a1 [|a2 [|a3 [|v0 [|v1 r]]]]]]; try (unfold zlen in H; cbn in H; lia).
  by exists a0, a1, a2, a3, v0, v1, r.
Qed.

(** The two checks of the search on an element. *)
Lemma wpa_check pre x l post : wpa_fits x -> x.1 = _WPA_IE_ID_ ->
  let b := pre ++ enc (x :: l) ++ post in
  (m ← bytes_match b (zlen pre + 2) RTW_WPA_OUI_TYPE;
   if m : bool then v ← get_le16 b (zlen pre + 6); Ret (v =? 1) else Ret false) = Ret (is_wpa x).
Proof.
  intros Hfit Hid b. destruct (Hfit Hid) as [Hlen Hb].
  destruct (six_bytes _ Hlen) as (a0 & a1 & a2 & a3 & v0 & v1 & r & Hc).
  assert (Hbuf : b = (pre ++ [x.1; zlen x.2]) ++ [a0; a1; a2; a3] ++ (v0 :: v1 :: r ++ enc l ++ post)).
  { unfold b. cbn [enc]. unfold enc1. rewrite Hc at 2. by rewrite <- !app_assoc. }
  unfold bytes_match. rewrite Hbuf at 1. rewrite slice_app by (rewrite ?zlen_app; by zlens).
  cbn [mbind res_bind]. unfold is_wpa, has_eid. rewrite Hid, Z.eqb_refl. cbn [andb].
  rewrite Hc in Hb. apply Forall_app in Hb as [_ Hb].
  apply Forall_cons in Hb as [Hv0 Hb]. apply Forall_cons in Hb as [Hv1 _].
  assert (ztake 6 x.2 = [a0; a1; a2; a3; v0; v1]) as -> by by rewrite Hc.
  case_bool_decide as Ho; cbn [mbind res_bind].
  - replace b with ((pre ++ [x.1; zlen x.2; a0; a1; a2; a3]) ++ v0 :: v1 :: r ++ enc l ++ post)
      by (rewrite Hbuf, <- !app_assoc; done).
    rewrite get_le16_app; [|done|done|by rewrite zlen_app; zlens].
    cbn [mbind res_bind]. f_equal. unfold is_byte in *. injection Ho as -> -> -> ->.
    change (RTW_WPA_OUI_TYPE ++ put_le16 1) with [0x00; 0x50; 0xf2; 1; 1; 0].
    destruct (Z.eqb_spec (256 * v1 + v0) 1).
    + assert (v1 = 0 /\ v0 = 1) as [-> ->] by lia. by rewrite bool_decide_eq_true_2.
    + rewrite bool_decide_eq_false_2; [done|]. intros E. injection E as -> ->. lia.
  - f_equal. symmetry. apply bool_decide_eq_false_2. intros E. apply Ho. by injection E as -> -> -> -> _ _.
Qed.

Lemma split_wpa_skip a l :
  Forall (fun y => has_eid _WPA_IE_ID_ y = false) a ->
  split_first is_wpa (a ++ l) =
    '(l1, y, l2) ← split_first is_wpa l; Some (a ++ l1, y, l2).
Proof.
  intros Ha. induction Ha as [|y a Hy _ IH]; cbn [app split_first].
  - by destruct (split_first is_wpa l) as [[[? ?] ?]|].
  - unfold is_wpa at 1. rewrite Hy. cbn [andb]. rewrite IH.
    by destruct (split_first is_wpa l) as [[[? ?] ?]|].
Qed.

Lemma get_wpa_ie_loop_spec pie post n : forall l pre fuel, (length l <= n)%nat -> (n < fuel)%nat ->
  Forall wpa_fits l ->
  get_wpa_ie_loop fuel (pre ++ enc l ++ post) pie (zlen pre) (zlen pre - pie + zlen (enc l))
    (zlen (enc l)) =
    Ret match split_first is_wpa l with
        | Some (l1, x, _) => Some (zlen pre + zlen (enc l1), zlen x.2)
        | None => None
        end.
Proof.
  induction n as [|n IH]; intros l pre [|fuel] Hl Hf Hfit; try lia; cbn [get_wpa_ie_loop];
    (rewrite get_ie_enc by done); cbn [mbind res_bind].
  { by destruct l; [|cbn in Hl; lia]. }
  destruct (split_first (has_eid _WPA_IE_ID_) l) as [[[a x] c]|] eqn:E.
  - apply split_first_some in E as (-> & Hx & Ha). unfold has_eid in Hx. apply Z.eqb_eq in Hx.
    apply Forall_app in Hfit as [_ Hfit]. apply Forall_cons in Hfit as [Hxfit Hfit].
    rewrite split_wpa_skip by done. cbn [split_first].
    assert (Hbuf : pre ++ enc (a ++ x :: c) ++ post = (pre ++ enc a) ++ enc (x :: c) ++ post).
    { by rewrite enc_app, <- !app_assoc. }
    rewrite Hbuf. rewrite <- (zlen_app pre).
    pose proof (wpa_check (pre ++ enc a) x c post Hxfit Hx) as Hchk. cbn zeta in Hchk.
    destruct (bytes_match _ (zlen (pre ++ enc a) + 2) RTW_WPA_OUI_TYPE) as [m| |]; try done.
    cbn [mbind res_bind] in Hchk |- *. rewrite Hchk. cbn [mbind res_bind].
    destruct (is_wpa x) eqn:Hw.
    + destruct (enc_header (pre ++ enc a) x c post (zlen (pre ++ enc a)) eq_refl) as [_ ->].
      cbn [mbind res_bind option_bind]. rewrite app_nil_r. by rewrite zlen_app.
    + assert (Hlen : zlen (enc (a ++ x :: c)) = zlen (enc a) + (zlen x.2 + 2) + zlen (enc c)).
      { rewrite enc_app, zlen_app, zlen_enc_cons. lia. }
      rewrite length_app in Hl. cbn [length] in Hl.
      replace (zlen pre - pie + zlen (enc (a ++ x :: c)) - (zlen (pre ++ enc a) - pie) - 2 - zlen x.2)
        with (zlen (enc c)) by (rewrite zlen_app; lia).
      destruct (Z.leb_spec (zlen (enc c)) 0).
      { destruct c as [|y c]; [done|]. pose proof (enc_cons_nonempty y c). lia. }
      rewrite enc_step. replace (zlen (pre ++ enc a) + (2 + zlen x.2))
        with (zlen ((pre ++ enc a) ++ enc1 x)) by (rewrite (zlen_app (pre ++ enc a)), zlen_enc1; lia).
      replace (zlen pre - pie + zlen (enc (a ++ x :: c)))
        with (zlen ((pre ++ enc a) ++ enc1 x) - pie + zlen (enc c))
        by (rewrite !zlen_app, zlen_enc1; lia).
      rewrite IH by (done || lia).
      destruct (split_first is_wpa c) as [[[k z] k2]|]; [|done]. cbn [mbind option_bind].
      f_equal. f_equal. f_equal. rewrite enc_app. cbn [enc]. rewrite !zlen_app. lia.
  - apply split_first_none in E. rewrite <- (app_nil_r l), split_wpa_skip by done. done.
Qed.

(** On a buffer of elements the search gives the first WPA element of
    version 1, wherever it stands among other vendor elements, and nothing when
    there is none. *)
Theorem get_wpa_ie_spec pre l post (Hfit : Forall wpa_fits l) :
  rtw_get_wpa_ie (pre ++ enc l ++ post) (zlen pre) (zlen (enc l)) =
    Ret match split_first is_wpa l with
        | Some (l1, x, _) => Some (zlen pre + zlen (enc l1), zlen x.2)
        | None => None
        end.
Proof.
  unfold rtw_get_wpa_ie. pose proof (get_wpa_ie_loop_spec (zlen pre) post (length l) l pre
    (ie_fuel (zlen (enc l))) (le_n _) (ie_fuel_enc _ _ (Z.le_refl _)) Hfit) as H.
  by replace (zlen pre - zlen pre + zlen (enc l)) with (zlen (enc l)) in H by lia.
Qed.

(** A WPS element before the WPA element. *)
Definition vendor_sample : list elem :=
  [(221, [0; 80; 242; 4; 16; 74]); (3, [1]); (221, [0; 80; 242; 1; 1; 0; 9])].

Lemma get_wpa_ie_spec_witness :
  rtw_get_wpa_ie ([5] ++ enc vendor_sample ++ [6]) 1 20 = Ret (Some (12, 7)).
Proof.
  apply (get_wpa_ie_spec [5] vendor_sample [6]).
  repeat (apply Forall_cons_2;
    [intros E; vm_compute in E; first [discriminate E |
       split; [by vm_compute|repeat (apply Forall_cons_2; [unfold is_byte; lia|]); constructor]]|]).
  constructor.
Defined.


(** ** The WPA parser *)

(** The element with a group cipher, pairwise ciphers and what follows them. *)
Definition wpa_body (g : list Z) (pcs : list (list Z)) (tail : list Z) : list Z :=
  RTW_WPA_OUI_TYPE ++ put_le16 1 ++ g ++ suites_body pcs ++ tail.
Definition wpa_encode (g : list Z) (pcs : list (list Z)) (tail : list Z) : list Z :=
  _WPA_IE_ID_ :: zlen (wpa_body g pcs tail) :: wpa_body g pcs tail.

Lemma bytes_match_app p x s off y : off = zlen p -> zlen y = zlen x ->
  bytes_match (p ++ x ++ s) off y = Ret (bool_decide (x = y)).
Proof. intros -> Hy. unfold bytes_match. by rewrite Hy, slice_app. Qed.

(** Parsing a WPA element gives its group cipher, adds its pairwise ciphers
    to the caller's and sets the key management when the first suite after the
    two bytes of the count is 802.1X, reading only the element. *)
Theorem parse_wpa_encode g pcs tail post gc0 pc0 akm0 (Hg : zlen g = 4) (Hp : all_len 4 pcs)
    (Hne : pcs <> []) (Hlen : zlen (wpa_body g pcs tail) < 256) :
  rtw_parse_wpa_ie (wpa_encode g pcs tail ++ post) (zlen (wpa_encode g pcs tail)) gc0 pc0 akm0 =
    Ret (Some (suite_of wpa_ciphers g, suites_bits wpa_ciphers pcs pc0,
      if (6 <=? zlen tail) && bool_decide (ztake 4 (zdrop 2 tail) = RTW_WPA_OUI_TYPE)
      then WLAN_AKM_TYPE_8021X else akm0)).
Proof.
  set (ie := wpa_encode g pcs tail ++ post). set (len := zlen (wpa_encode g pcs tail)).
  pose proof (count_pos pcs Hne) as Hc. pose proof (zlen_nonneg tail).
  assert (Hbody : zlen (wpa_body g pcs tail) = 12 + 4 * count_of pcs + zlen tail).
  { unfold wpa_body. rewrite !zlen_app, (zlen_suites 4), Hg by done. change (zlen RTW_WPA_OUI_TYPE) with 4. change (zlen (put_le16 1)) with 2. lia. }
  assert (Hl : len = 14 + 4 * count_of pcs + zlen tail) by (unfold len, wpa_encode; zlens; lia).
  set (h := [_WPA_IE_ID_; zlen (wpa_body g pcs tail)]).
  assert (H1 : ie = h ++ RTW_WPA_OUI_TYPE ++ (put_le16 1 ++ g ++ suites_body pcs ++ tail ++ post)).
  { unfold ie, wpa_encode, h, wpa_body. cbn [app]. by rewrite <- !app_assoc. }
  set (q := h ++ RTW_WPA_OUI_TYPE ++ put_le16 1).
  assert (H2 : ie = q ++ g ++ (put_le16 (count_of pcs) ++ concat pcs ++ tail ++ post)).
  { rewrite H1. unfold q, suites_body. by rewrite <- !app_assoc. }
  assert (H3 : ie = (q ++ g) ++ put_le16 (count_of pcs) ++ (concat pcs ++ tail ++ post)).
  { rewrite H2. by rewrite <- !app_assoc. }
  set (r := (q ++ g) ++ put_le16 (count_of pcs)).
  assert (H4 : ie = r ++ concat pcs ++ (tail ++ post)).
  { rewrite H3. unfold r. by rewrite <- !app_assoc. }
  assert (Hq : zlen q = 8) by done. assert (Hqg : zlen (q ++ g) = 12) by (rewrite zlen_app; lia).
  assert (Hr : zlen r = 14) by (unfold r; rewrite zlen_app, Hqg; done).
  assert (Hcc : zlen (concat pcs) = 4 * count_of pcs) by by apply zlen_concat.
  unfold rtw_parse_wpa_ie. destruct (Z.leb_spec len 0); [lia|].
  change (byte_at ie 0) with (Ret _WPA_IE_ID_). cbn [mbind res_bind]. rewrite Z.eqb_refl. cbn [negb].
  change (byte_at ie 1) with (Ret (zlen (wpa_body g pcs tail))). cbn [mbind res_bind].
  rewrite u8_small by lia. destruct (Z.eqb_spec (zlen (wpa_body g pcs tail)) (len - 2)); [|lia].
  cbn [negb]. rewrite H1 at 1. rewrite bytes_match_app by done.
  rewrite bool_decide_eq_true_2 by done. cbn [mbind res_bind negb].
  destruct (Z.leb_spec 4 (len - 8)); [|lia].
  assert (rtw_get_wpa_cipher_suite ie 8 = Ret (suite_of wpa_ciphers g)) as ->.
  { rewrite H2. by apply suite_at_app. }
  cbn [mbind res_bind]. destruct (Z.leb_spec 2 (len - 8 - 4)); [|lia].
  assert (get_le16 ie (8 + 4) = Ret (count_of pcs)) as ->.
  { rewrite H3. apply get_put_le16; lia. }
  cbn [mbind res_bind]. destruct (Z.eqb_spec (count_of pcs) 0); [lia|].
  destruct (Z.ltb_spec (len - 8 - 4 - 2) (count_of pcs * 4)); [lia|]. cbn [orb].
  assert (suites_or rtw_get_wpa_cipher_suite (Z.to_nat (count_of pcs)) ie (8 + 4 + 2) pc0 =
          Ret (suites_bits wpa_ciphers pcs pc0)) as ->.
  { rewrite H4. change (8 + 4 + 2) with 14. rewrite <- Hr. unfold count_of, zlen at 1.
    rewrite Nat2Z.id. by apply (suites_or_app wpa_ciphers). }
  cbn [mbind res_bind].
  replace (len - 8 - 4 - 2 - 4 * count_of pcs) with (zlen tail) by lia.
  destruct (Z.leb_spec 6 (zlen tail)) as [Ht6|]; [|done]. cbn [andb].
  assert (Hlast : ie = (r ++ concat pcs ++ ztake 2 tail) ++ ztake 4 (zdrop 2 tail) ++
                    (zdrop 4 (zdrop 2 tail) ++ post)).
  { rewrite H4. rewrite <- (ztake_zdrop 2 tail) at 1. rewrite <- (ztake_zdrop 4 (zdrop 2 tail)) at 1.
    by rewrite <- !app_assoc. }
  assert (zlen (zdrop 2 tail) = zlen tail - 2) by (apply zlen_zdrop; lia).
  rewrite Hlast at 1. rewrite bytes_match_app; [|rewrite !zlen_app, zlen_ztake by lia; lia|by rewrite zlen_ztake by lia].
  cbn [mbind res_bind]. by case_bool_decide.
Qed.

Lemma parse_wpa_encode_witness :
  rtw_parse_wpa_ie (wpa_encode (wpa_sel 2) [wpa_sel 2; wpa_sel 4] ([1; 0] ++ wpa_sel 1) ++ [9])
    (zlen (wpa_encode (wpa_sel 2) [wpa_sel 2; wpa_sel 4] ([1; 0] ++ wpa_sel 1))) 0 0 0 =
  Ret (Some (WPA_CIPHER_TKIP, Z.lor WPA_CIPHER_TKIP WPA_CIPHER_CCMP, WLAN_AKM_TYPE_8021X)).
Proof.
  apply (parse_wpa_encode (wpa_sel 2) [wpa_sel 2; wpa_sel 4] ([1; 0] ++ wpa_sel 1) [9] 0 0 0).
  - done.
  - by repeat constructor.
  - done.
  - by vm_compute.
Defined.

(** An element that ends inside its header counts as parsed. *)
Example short_wpa_accepted :
  rtw_parse_wpa_ie [221; 4; 0; 80; 242; 1] 6 7 8 9 = Ret (Some (7, 8, 9)).
Proof. reflexivity. Qed.

(** ** The security elements of a beacon *)

(** The last element of a kind, as the copy and the length reported. *)
Definition last_of (p : elem -> bool) (l : list elem) (dflt : list Z * Z) : list Z * Z :=
  foldl (fun a x => if p x then (enc1 x, zlen (enc1 x)) else a) dflt l.

Definition is_rsn (x : elem) : bool := has_eid _WPA2_IE_ID_ x.
Definition is_wpa_oui (x : elem) : bool := has_oui _WPA_IE_ID_ (Some RTW_WPA_OUI_TYPE) x.

Lemma slice_elem pre x l post : slice (pre ++ enc (x :: l) ++ post) (zlen pre) (zlen x.2 + 2) = Ret (enc1 x).
Proof.
  cbn [enc]. rewrite <- (app_assoc (enc1 x)). apply slice_app; [done|]. by rewrite zlen_enc1.
Qed.

Lemma get_sec_ie_loop_spec post l :
  Forall (oui_fits _WPA_IE_ID_ (Some RTW_WPA_OUI_TYPE)) l ->
  forall fuel pre rsn wpa, (length l < fuel)%nat ->
  get_sec_ie_loop fuel (pre ++ enc l ++ post) (zlen pre) (zlen pre + zlen (enc l)) rsn wpa =
    Ret (last_of is_rsn l rsn, last_of is_wpa_oui l wpa).
Proof.
  induction l as [|x l IH]; intros Hfit [|fuel] pre rsn wpa Hf; try (cbn in Hf; lia);
    cbn [get_sec_ie_loop].
  { cbn [enc]. rewrite zlen_nil. by destruct (Z.ltb_spec (zlen pre) (zlen pre + 0)); [lia|]. }
  apply Forall_cons in Hfit as [Hx Hfit].
  pose proof (enc_cons_nonempty x l). destruct (Z.ltb_spec (zlen pre) (zlen pre + zlen (enc (x :: l)))); [|lia].
  destruct (enc_header pre x l post (zlen pre) eq_refl) as [-> ->]. cbn [mbind res_bind].
  assert ((if x.1 =? _WPA_IE_ID_
           then bytes_match (pre ++ enc (x :: l) ++ post) (zlen pre + 2) RTW_WPA_OUI_TYPE
           else Ret false) = Ret (is_wpa_oui x)) as ->.
  { unfold is_wpa_oui. destruct (Z.eqb_spec x.1 _WPA_IE_ID_) as [E|E].
    - pose proof (oui_matches_enc pre x l post (Some RTW_WPA_OUI_TYPE) _ eq_refl) as Hm.
      rewrite E in Hm. by apply Hm.
    - unfold has_oui, has_eid. by destruct (Z.eqb_spec x.1 _WPA_IE_ID_). }
  cbn [mbind res_bind]. rewrite slice_elem. cbn [mbind res_bind].
  assert (Hnext : forall rsn wpa,
    get_sec_ie_loop fuel (pre ++ enc (x :: l) ++ post) (zlen pre + (zlen x.2 + 2))
      (zlen pre + zlen (enc (x :: l))) rsn wpa = Ret (last_of is_rsn l rsn, last_of is_wpa_oui l wpa)).
  { intros. rewrite enc_step, <- zlen_enc1, <- zlen_app.
    replace (zlen pre + zlen (enc (x :: l))) with (zlen (pre ++ enc1 x) + zlen (enc l))
      by (cbn [enc]; rewrite !zlen_app; lia).
    apply IH; [done|]. cbn in Hf. lia. }
  unfold last_of. cbn [foldl]. fold (last_of is_rsn l) (last_of is_wpa_oui l).
  rewrite <- zlen_enc1. change (x.1 =? _WPA2_IE_ID_) with (is_rsn x).
  destruct (is_wpa_oui x) eqn:Hw.
  - assert (is_rsn x = false) as ->.
    { unfold is_wpa_oui, has_oui, is_rsn, has_eid in *. apply andb_true_iff in Hw as [Hw _].
      apply Z.eqb_eq in Hw. by rewrite Hw. }
    rewrite zlen_enc1. apply Hnext.
  - destruct (is_rsn x); rewrite zlen_enc1; apply Hnext.
Qed.

(** The security elements collected from a beacon are the last RSN and the
    last WPA element behind its fixed part, each copied whole with its length;
    without one the caller's buffer and length stay. *)
Theorem get_sec_ie_spec pre l post rsn wpa (Hpre : zlen pre = SEC_IE_OFFSET)
    (Hfit : Forall (oui_fits _WPA_IE_ID_ (Some RTW_WPA_OUI_TYPE)) l) :
  let rsn' := last_of is_rsn l rsn in
  let wpa' := last_of is_wpa_oui l wpa in
  rtw_get_sec_ie (pre ++ enc l ++ post) (12 + zlen (enc l)) rsn wpa =
    Ret (rsn', wpa', rsn'.2 + wpa'.2).
Proof.
  unfold rtw_get_sec_ie. cbn zeta. rewrite <- Hpre. change 12 with SEC_IE_OFFSET. rewrite <- Hpre.
  rewrite get_sec_ie_loop_spec; [done|done|].
  pose proof (ie_fuel_enc l (zlen pre + zlen (enc l))). apply H. pose proof (zlen_nonneg pre). lia.
Qed.

Lemma get_sec_ie_spec_witness :
  rtw_get_sec_ie (replicate 12 0 ++ enc vendor_sample ++ []) 32 ([], 0) ([], 0) =
    Ret (([], 0), ([221; 7; 0; 80; 242; 1; 1; 0; 9], 9), 9).
Proof.
  apply (get_sec_ie_spec (replicate 12 0) vendor_sample [] ([], 0) ([], 0)); [done|].
  repeat (apply Forall_cons_2; [by vm_compute|]). constructor.
Defined.

End Rsn.
