(* ===== verification/Attr.v ===== *)
(** * Vendor elements and their attributes (core/rtw_ieee80211.c)

    The searches for the WPS, P2P, Wi-Fi Display and OWE elements, the searches
    for attributes inside of them and the removal of elements and attributes.
    The code of the P2P and the Wi-Fi Display routines differs in the OUI type
    and the byte order only; it is modelled once over a class of formats. *)

From S2P Require Import Prelude Bytes Ies.

Module Attr.
Import Ies.

Definition WLAN_EID_VENDOR_SPECIFIC : Z := 221.
Definition MAX_IE_SZ : Z := 768.

(** ** Searching a run of elements *)

(** The loop the four searches share; [m] is the test on an element's body. *)
Fixpoint vendor_loop (fuel : nat) (b : list Z) (off cnt in_len eid : Z) (m : Z -> res bool)
    : res (option (Z * Z)) :=
  match fuel with
  | O => Looping
  | S fuel =>
      if cnt + 1 + 4 <? in_len then
        x ← byte_at b (off + cnt);
        if MAX_IE_SZ <=? cnt + 1 + 4 then Ret None
        else
          t ← (if x =? eid then m (off + cnt + 2) else Ret false);
          l ← byte_at b (off + cnt + 1);
          if t : bool then Ret (Some (off + cnt, l + 2))
          else vendor_loop fuel b off (cnt + (l + 2)) in_len eid m
      else Ret None
  end.

(** The guard bounds the walk as well as the length does. *)
Definition vendor_fuel (in_len : Z) : nat := S (Z.to_nat (Z.min in_len MAX_IE_SZ)).

Definition get_vendor_ie (b : list Z) (off in_len : Z) (oui : list Z) : res (option (Z * Z)) :=
  if in_len <=? 0 then Ret None
  else vendor_loop (vendor_fuel in_len) b off 0 in_len WLAN_EID_VENDOR_SPECIFIC
         (fun p => bytes_match b p oui).

Definition wps_oui : list Z := [0x00; 0x50; 0xF2; 0x04].
Definition p2p_oui : list Z := [0x50; 0x6F; 0x9A; 0x09].
Definition wfd_oui : list Z := [0x50; 0x6F; 0x9A; 0x0A].

Definition rtw_get_wps_ie (b : list Z) (off in_len : Z) := get_vendor_ie b off in_len wps_oui.
Definition rtw_get_p2p_ie (b : list Z) (off in_len : Z) := get_vendor_ie b off in_len p2p_oui.
Definition rtw_get_wfd_ie (b : list Z) (off in_len : Z) := get_vendor_ie b off in_len wfd_oui.

Definition WLAN_EID_EXTENSION : Z := 255.
Definition WLAN_EID_EXT_OWE_DH_PARAM : Z := 32.

Definition rtw_get_owe_ie (b : list Z) (off in_len : Z) : res (option (Z * Z)) :=
  if in_len <=? 0 then Ret None
  else vendor_loop (vendor_fuel in_len) b off 0 in_len WLAN_EID_EXTENSION
         (fun p => x ← byte_at b p; Ret (x =? WLAN_EID_EXT_OWE_DH_PARAM)).

(** [rtw_get_wps_ie_from_scan_queue]: the offset of the elements depends on the
    frame. *)
Inductive bss_type := BSS_TYPE_UNDEF | BSS_TYPE_BCN | BSS_TYPE_PROB_REQ | BSS_TYPE_PROB_RSP.
Definition rtw_get_wps_ie_from_scan_queue (b : list Z) (in_len : Z) (frame_type : bss_type)
    : res (option (Z * Z)) :=
  match frame_type with
  | BSS_TYPE_BCN | BSS_TYPE_PROB_RSP => rtw_get_wps_ie b 12 (u32 (in_len - 12))
  | BSS_TYPE_PROB_REQ => rtw_get_wps_ie b 0 in_len
  | BSS_TYPE_UNDEF => Ret None
  end.

Definition rtw_is_wps_ie (b : list Z) (ie_ptr : Z) : res (option Z) :=
  eid ← byte_at b ie_ptr;
  m ← (if eid =? WLAN_EID_VENDOR_SPECIFIC then bytes_match b (ie_ptr + 2) wps_oui else Ret false);
  if m : bool then l ← byte_at b (ie_ptr + 1); Ret (Some (l + 2)) else Ret None.

(** ** WPS attributes *)

(** The fuel is the caller's: the loop need not end. *)
Fixpoint wps_attr_loop (fuel : nat) (b : list Z) (wps_ie pos wps_ielen target : Z)
    : res (option (Z * Z)) :=
  match fuel with
  | O => Looping
  | S fuel =>
      if pos - wps_ie <? wps_ielen then
        attr_id ← get_be16 b pos;
        attr_data_len ← get_be16 b (pos + 2);
        let attr_len := u16 (attr_data_len + 4) in
        if attr_id =? target then Ret (Some (pos, attr_len))
        else wps_attr_loop fuel b wps_ie (pos + attr_len) wps_ielen target
      else Ret None
  end.

Definition rtw_get_wps_attr (fuel : nat) (b : list Z) (wps_ie wps_ielen target : Z)
    : res (option (Z * Z)) :=
  x ← byte_at b wps_ie;
  m ← (if x =? WLAN_EID_VENDOR_SPECIFIC then bytes_match b (wps_ie + 2) wps_oui else Ret false);
  if m : bool then wps_attr_loop fuel b wps_ie (wps_ie + 6) wps_ielen target else Ret None.

(** Pointer and length of the content; an attribute of length zero is none. *)
Definition rtw_get_wps_attr_content (fuel : nat) (b : list Z) (wps_ie wps_ielen target : Z)
    : res (option (Z * Z)) :=
  o ← rtw_get_wps_attr fuel b wps_ie wps_ielen target;
  match o with
  | Some (p, n) => Ret (if n =? 0 then None else Some (p + 4, u32 (n - 4)))
  | None => Ret None
  end.

(** ** P2P and Wi-Fi Display attributes *)

(** An unsigned 32-bit value passed as an [int]. *)
Definition int_of (x : Z) : Z := if x <? 2147483648 then x else x - 4294967296.

(** What differs between the two formats. *)
Class AttrFormat := {
  fmt_oui : list Z;
  fmt_get16 : list Z -> Z -> res Z }.

Definition p2p_format : AttrFormat := {| fmt_oui := p2p_oui; fmt_get16 := get_le16 |}.
Definition wfd_format : AttrFormat := {| fmt_oui := wfd_oui; fmt_get16 := get_be16 |}.

Section format.
Context {F : AttrFormat}.

(** The parameter is an [int]; the callers pass an unsigned length. *)
Definition get_fmt_ie (b : list Z) (off in_len : Z) := get_vendor_ie b off (int_of in_len) fmt_oui.

Fixpoint attr_loop (fuel : nat) (b : list Z) (ie pos ielen target : Z) : res (option (Z * Z)) :=
  match fuel with
  | O => Looping
  | S fuel =>
      if pos - ie + 3 <=? ielen then
        attr_id ← byte_at b pos;
        attr_data_len ← fmt_get16 b (pos + 1);
        let attr_len := u16 (attr_data_len + 3) in
        if ielen <? pos - ie + attr_len then Ret None
        else if attr_id =? target then Ret (Some (pos, attr_len))
        else attr_loop fuel b ie (pos + attr_len) ielen target
      else Ret None
  end.

Definition get_attr (fuel : nat) (b : list Z) (ie ielen target : Z) : res (option (Z * Z)) :=
  if ielen <=? 6 then Ret None
  else
    x ← byte_at b ie;
    m ← (if x =? WLAN_EID_VENDOR_SPECIFIC then bytes_match b (ie + 2) fmt_oui else Ret false);
    if m : bool then attr_loop fuel b ie (ie + 6) ielen target else Ret None.

Definition get_attr_content (fuel : nat) (b : list Z) (ie ielen target : Z) : res (option (Z * Z)) :=
  o ← get_attr fuel b ie ielen target;
  match o with
  | Some (p, n) => Ret (if n =? 0 then None else Some (p + 3, u32 (n - 3)))
  | None => Ret None
  end.

(** [memset(b + off, 0, n)]. *)
Definition bzero (b : list Z) (off n : Z) : res (list Z) := blit b off (replicate (Z.to_nat n) 0).

Fixpoint del_ie_loop (fuel : nat) (b : list Z) (ies ies_len : Z) : res (list Z * Z) :=
  match fuel with
  | O => Looping
  | S fuel =>
      o ← get_fmt_ie b ies ies_len;
      match o with
      | Some (target_ie, target_ie_len) =>
          if target_ie_len =? 0 then Ret (b, ies_len)
          else
            let next_ie := target_ie + target_ie_len in
            let remain_len := u32 (ies_len - (next_ie - ies)) in
            b ← bmove b target_ie next_ie remain_len;
            b ← bzero b (target_ie + remain_len) target_ie_len;
            del_ie_loop fuel b ies (u32 (ies_len - target_ie_len))
      | None => Ret (b, ies_len)
      end
  end.

Definition del_ie (b : list Z) (ies ies_len : Z) : res (list Z * Z) :=
  del_ie_loop (ie_fuel ies_len) b ies ies_len.

Fixpoint del_attr_loop (fuel : nat) (b : list Z) (ie ielen attr_id : Z) : res (list Z * Z) :=
  match fuel with
  | O => Looping
  | S fuel =>
      o ← get_attr (S fuel) b ie ielen attr_id;
      match o with
      | Some (target_attr, target_attr_len) =>
          if target_attr_len =? 0 then Ret (b, ielen)
          else
            let next_attr := target_attr + target_attr_len in
            let remain_len := u32 (ielen - (next_attr - ie)) in
            b ← bmove b target_attr next_attr remain_len;
            b ← bzero b (target_attr + remain_len) target_attr_len;
            l ← byte_at b (ie + 1);
            b ← blit b (ie + 1) [u8 (l - target_attr_len)];
            del_attr_loop fuel b ie (u32 (ielen - target_attr_len)) attr_id
      | None => Ret (b, ielen)
      end
  end.

Definition del_attr (fuel : nat) (b : list Z) (ie ielen attr_id : Z) : res (list Z * Z) :=
  del_attr_loop fuel b ie ielen attr_id.

(** The elements of a [WLAN_BSSID_EX] start behind the fixed part [fix]: twelve
    bytes, or none in a probe request. *)
Definition bss_ex_get_ie (b : bss) (fix_ : Z) : res (option (Z * Z)) :=
  get_fmt_ie (IEs b) fix_ (u32 (IELength b - fix_)).

Definition bss_ex_del_ie (b : bss) (fix_ : Z) : res bss :=
  let ies_len_ori := u32 (IELength b - fix_) in
  '(m, ies_len) ← del_ie (IEs b) fix_ ies_len_ori;
  Ret (mk_bss m (u32 (IELength b - (ies_len_ori - ies_len))) (SupportedRates b) (DSConfig b)).

Fixpoint bss_ex_del_attr_loop (fuel : nat) (m : list Z) (len ies ies_len attr_id : Z)
    : res (list Z * Z) :=
  match fuel with
  | O => Looping
  | S fuel =>
      o ← get_fmt_ie m ies ies_len;
      match o with
      | None => Ret (m, len)
      | Some (ie, ie_len_ori) =>
          let next_ie_ori := ie + ie_len_ori in
          let remain_len := u32 (len - next_ie_ori) in
          '(m, ie_len) ← del_attr (S fuel) m ie ie_len_ori attr_id;
          if negb (ie_len =? ie_len_ori) then
            let next_ie := ie + ie_len in
            m ← bmove m next_ie next_ie_ori remain_len;
            m ← bzero m (next_ie + remain_len) (u32 (ie_len_ori - ie_len));
            bss_ex_del_attr_loop fuel m (u32 (len - (ie_len_ori - ie_len))) next_ie remain_len attr_id
          else bss_ex_del_attr_loop fuel m len next_ie_ori remain_len attr_id
      end
  end.

Definition bss_ex_del_attr (fuel : nat) (b : bss) (fix_ attr_id : Z) : res bss :=
  '(m, len) ← bss_ex_del_attr_loop fuel (IEs b) (IELength b) fix_ (u32 (IELength b - fix_)) attr_id;
  Ret (mk_bss m len (SupportedRates b) (DSConfig b)).
End format.

Definition rtw_get_p2p_attr := get_attr (F := p2p_format).
Definition rtw_get_p2p_attr_content := get_attr_content (F := p2p_format).
Definition rtw_del_p2p_ie := del_ie (F := p2p_format).
Definition rtw_del_p2p_attr := del_attr (F := p2p_format).
Definition rtw_bss_ex_get_p2p_ie := bss_ex_get_ie (F := p2p_format).
Definition rtw_bss_ex_del_p2p_ie := bss_ex_del_ie (F := p2p_format).
Definition rtw_bss_ex_del_p2p_attr := bss_ex_del_attr (F := p2p_format).
Definition rtw_get_wfd_attr := get_attr (F := wfd_format).
Definition rtw_get_wfd_attr_content := get_attr_content (F := wfd_format).
Definition rtw_del_wfd_ie := del_ie (F := wfd_format).
Definition rtw_del_wfd_attr := del_attr (F := wfd_format).
Definition rtw_bss_ex_get_wfd_ie := bss_ex_get_ie (F := wfd_format).
Definition rtw_bss_ex_del_wfd_ie := bss_ex_del_ie (F := wfd_format).
Definition rtw_bss_ex_del_wfd_attr := bss_ex_del_attr (F := wfd_format).

(** The writer: the bytes at [pbuf] and the attribute's whole length. *)
Definition rtw_set_p2p_attr_content (b : list Z) (pbuf attr_id attr_len : Z) (pdata : option (list Z))
    : res (list Z * Z) :=
  b ← blit b pbuf [attr_id];
  b ← blit b (pbuf + 1) (put_le16 attr_len);
  b ← match pdata with
      | Some d => s ← slice d 0 attr_len; blit b (pbuf + 3) s
      | None => Ret b
      end;
  Ret (b, attr_len + 3).

(** ** Merging P2P elements *)

Fixpoint p2p_merged_len_loop (fuel : nat) (b : list Z) (in_ie in_len i len : Z) : res Z :=
  match fuel with
  | O => Looping
  | S fuel =>
      if i <? in_len then
        x ← byte_at b (in_ie + i);
        l ← byte_at b (in_ie + i + 1);
        m ← (if x =? WLAN_EID_VENDOR_SPECIFIC then bytes_match b (in_ie + i + 2) p2p_oui
             else Ret false);
        p2p_merged_len_loop fuel b in_ie in_len (i + (l + 2)) (if m : bool then len + (l - 4) else len)
      else Ret (len + 4)
  end.

Definition rtw_get_p2p_merged_ies_len (b : list Z) (in_ie in_len : Z) : res Z :=
  p2p_merged_len_loop (ie_fuel in_len) b in_ie in_len 0 0.

(** The merged bytes go to a buffer [d]; the count is an [u8]. *)
Fixpoint p2p_merge_loop (fuel : nat) (b : list Z) (in_len i : Z) (d : list Z) (pos len : Z)
    : res (list Z * Z) :=
  match fuel with
  | O => Looping
  | S fuel =>
      if i <? in_len then
        x ← byte_at b i;
        l ← byte_at b (i + 1);
        m ← (if x =? WLAN_EID_VENDOR_SPECIFIC then bytes_match b (i + 2) p2p_oui else Ret false);
        if m : bool then
          s ← slice b (i + 6) (l - 4);
          d ← blit d pos s;
          p2p_merge_loop fuel b in_len (i + (l + 2)) d (pos + (l - 4)) (u8 (len + (l - 4)))
        else p2p_merge_loop fuel b in_len (i + (l + 2)) d pos len
      else Ret (d, len + 4)
  end.

Definition rtw_p2p_merge_ies (b : list Z) (in_len : Z) (merge_ie : list Z) : res (list Z * Z) :=
  d ← blit merge_ie 0 ([0xDD; 0x00] ++ p2p_oui);
  p2p_merge_loop (ie_fuel in_len) b in_len 0 d 6 0.

(** ** Multi-AP *)

Definition MULTI_AP_OUI : list Z := [0x50; 0x6F; 0x9A; 0x1B].
Definition MULTI_AP_SUB_ELEM_TYPE : Z := 0x06.

Definition rtw_get_multi_ap_ie_ext (b : list Z) (ies ies_len : Z) : res Z :=
  o ← rtw_get_ie_ex b ies ies_len WLAN_EID_VENDOR_SPECIFIC (Some MULTI_AP_OUI);
  match o with
  | None => Ret 0
  | Some (ie, ielen) =>
      if ielen <? 9 then Ret 0
      else
        t ← byte_at b (ie + 6);
        if negb (t =? MULTI_AP_SUB_ELEM_TYPE) then Ret 0 else byte_at b (ie + 8)
  end.

Definition rtw_set_multi_ap_ie_ext (b : list Z) (pbuf frlen val : Z) : res (list Z * Z * Z) :=
  b ← blit b pbuf ([WLAN_EID_VENDOR_SPECIFIC; 7] ++ MULTI_AP_OUI ++ [MULTI_AP_SUB_ELEM_TYPE; 1; val]);
  Ret (b, pbuf + 9, u32 (frlen + 9)).

(** ** The search for a vendor element *)

Definition has_vendor (oui : list Z) (x : elem) : bool := has_oui WLAN_EID_VENDOR_SPECIFIC (Some oui) x.

Lemma has_vendor_long oui x : has_vendor oui x = true -> zlen oui <= zlen x.2.
Proof.
  unfold has_vendor, has_oui. intros [_ H]%andb_true_iff. apply bool_decide_eq_true in H.
  rewrite <- H. unfold zlen, ztake. rewrite length_take. lia.
Qed.

Lemma enc_short l : zlen (enc l) <= 5 -> forall oui, zlen oui = 4 ->
  split_first (has_vendor oui) l = None.
Proof.
  intros H oui Ho. induction l as [|x l IH]; [done|]. rewrite zlen_enc_cons in H. cbn [split_first].
  pose proof (zlen_nonneg x.2). pose proof (zlen_nonneg (enc l)).
  destruct (has_vendor oui x) eqn:Hx; [apply has_vendor_long in Hx; lia|].
  by rewrite IH by lia.
Qed.

Lemma vendor_loop_spec oui post l : zlen oui = 4 ->
  Forall (oui_fits WLAN_EID_VENDOR_SPECIFIC (Some oui)) l ->
  forall fuel pre cnt off in_len, (length l < fuel)%nat -> off + cnt = zlen pre ->
  in_len = cnt + zlen (enc l) -> in_len <= MAX_IE_SZ ->
  vendor_loop fuel (pre ++ enc l ++ post) off cnt in_len WLAN_EID_VENDOR_SPECIFIC
      (fun p => bytes_match (pre ++ enc l ++ post) p oui) =
    Ret match split_first (has_vendor oui) l with
        | Some (l1, x, _) => Some (zlen pre + zlen (enc l1), zlen (enc1 x))
        | None => None
        end.
Proof.
  intros Ho. induction l as [|x l IH]; intros Hfit [|fuel] pre cnt off in_len Hf Hoff Hlen Hmax;
    try (cbn in Hf; lia); cbn [vendor_loop].
  { cbn [enc] in Hlen. rewrite zlen_nil in Hlen. by destruct (Z.ltb_spec (cnt + 1 + 4) in_len); [lia|]. }
  destruct (Z.ltb_spec (cnt + 1 + 4) in_len) as [Hlt|Hge].
  2:{ rewrite (enc_short (x :: l)) by (done || lia). done. }
  destruct (Z.leb_spec MAX_IE_SZ (cnt + 1 + 4)); [lia|].
  apply Forall_cons in Hfit as [Hx Hfit]. rewrite zlen_enc_cons in Hlen.
  destruct (enc_header pre x l post (zlen pre) eq_refl) as [Hb0 Hb1].
  rewrite <- Hoff in Hb0, Hb1. rewrite Hb0. cbn [mbind res_bind].
  assert (Hm : (if x.1 =? WLAN_EID_VENDOR_SPECIFIC
                then bytes_match (pre ++ enc (x :: l) ++ post) (off + cnt + 2) oui
                else Ret false) = Ret (has_vendor oui x)).
  { unfold has_vendor. destruct (Z.eqb_spec x.1 WLAN_EID_VENDOR_SPECIFIC) as [E|E].
    - pose proof (oui_matches_enc pre x l post (Some oui) (off + cnt + 2) ltac:(lia)) as Hm.
      rewrite E in Hm. by apply Hm.
    - unfold has_oui, has_eid. by destruct (Z.eqb_spec x.1 WLAN_EID_VENDOR_SPECIFIC). }
  rewrite Hm. cbn [mbind res_bind]. rewrite Hb1. cbn [mbind res_bind split_first].
  destruct (has_vendor oui x).
  - f_equal. f_equal. f_equal; [cbn [enc]; rewrite zlen_nil; lia|]. by rewrite zlen_enc1.
  - rewrite enc_step. rewrite (IH Hfit); [|cbn in Hf; lia| |lia|done].
    + destruct (split_first _ l) as [[[k z] k2]|]; [|done]. cbn [mbind option_bind].
      f_equal. f_equal. f_equal. rewrite zlen_app, zlen_enc1, zlen_enc_cons. lia.
    + rewrite zlen_app, zlen_enc1. lia.
Qed.

Lemma get_vendor_ie_enc oui pre l post off in_len : zlen oui = 4 ->
  Forall (oui_fits WLAN_EID_VENDOR_SPECIFIC (Some oui)) l -> off = zlen pre ->
  in_len = zlen (enc l) -> in_len <= MAX_IE_SZ ->
  get_vendor_ie (pre ++ enc l ++ post) off in_len oui =
    Ret match split_first (has_vendor oui) l with
        | Some (l1, x, _) => Some (off + zlen (enc l1), zlen (enc1 x))
        | None => None
        end.
Proof.
  intros Ho Hfit -> -> Hmax. unfold get_vendor_ie.
  destruct (Z.leb_spec (zlen (enc l)) 0) as [Hz|Hz].
  - destruct l as [|x l]; [done|]. pose proof (enc_cons_nonempty x l). lia.
  - apply vendor_loop_spec; try done; [|lia].
    unfold vendor_fuel. rewrite Z.min_l by done. pose proof (enc_long l). lia.
Qed.


(** ** Attributes *)

(** What the attribute routines rely on: a writer the reader inverts. *)
Class AttrLaws (F : AttrFormat) := {
  fmt_put16 : Z -> list Z;
  fmt_oui_len : zlen fmt_oui = 4;
  fmt_put_len n : zlen (fmt_put16 n) = 2;
  fmt_get_put p n s i : 0 <= n < 65536 -> i = zlen p -> fmt_get16 (p ++ fmt_put16 n ++ s) i = Ret n;
  fmt_get_some b i : Forall is_byte b -> 0 <= i -> i + 2 <= zlen b ->
    exists n, fmt_get16 b i = Ret n /\ 0 <= n < 65536 }.

#[export] Instance p2p_laws : AttrLaws p2p_format.
Proof.
  refine {| fmt_put16 := put_le16 : Z -> list Z |}; try done.
  - apply get_put_le16.
  - apply get_le16_some.
Defined.
#[export] Instance wfd_laws : AttrLaws wfd_format.
Proof.
  refine {| fmt_put16 := put_be16 : Z -> list Z |}; try done.
  - apply get_put_be16.
  - apply get_be16_some.
Defined.

Section attributes.
Context {F : AttrFormat} {L : AttrLaws F}.

Definition enca1 (a : elem) : list Z := a.1 :: fmt_put16 (zlen a.2) ++ a.2.
Fixpoint enca (l : list elem) : list Z := match l with [] => [] | a :: l => enca1 a ++ enca l end.

(** A vendor element of the format: its header, then attributes. *)
Definition ie_hdr (len : Z) : list Z := WLAN_EID_VENDOR_SPECIFIC :: len :: fmt_oui.

Lemma enca_app l1 l2 : enca (l1 ++ l2) = enca l1 ++ enca l2.
Proof. induction l1 as [|x l1 IH]; cbn [enca app]; [done|]. by rewrite IH, app_assoc. Qed.
Lemma zlen_enca1 a : zlen (enca1 a) = zlen a.2 + 3.
Proof. unfold enca1. rewrite zlen_cons, zlen_app, fmt_put_len. lia. Qed.
Lemma zlen_enca_cons a l : zlen (enca (a :: l)) = zlen a.2 + 3 + zlen (enca l).
Proof. cbn [enca]. by rewrite zlen_app, zlen_enca1. Qed.
Lemma enca_long l : Z.of_nat (length l) * 3 <= zlen (enca l).
Proof.
  induction l as [|x l IH]; [done|]. rewrite zlen_enca_cons. cbn [length].
  pose proof (zlen_nonneg x.2). lia.
Qed.
Lemma zlen_ie_hdr len : zlen (ie_hdr len) = 6.
Proof. unfold ie_hdr. rewrite !zlen_cons, fmt_oui_len. done. Qed.

Lemma u16_small n : 0 <= n < 65536 -> u16 n = n.
Proof. intros. by apply u16_id. Qed.

(** One turn of the loop on an encoded attribute. *)
Lemma attr_loop_step fuel pre ie pos x l s ielen target :
  pos = zlen pre -> zlen x.2 < 65533 ->
  pos - ie + zlen x.2 + 3 <= ielen ->
  attr_loop (S fuel) (pre ++ enca (x :: l) ++ s) ie pos ielen target =
    if x.1 =? target then Ret (Some (pos, zlen x.2 + 3))
    else attr_loop fuel ((pre ++ enca1 x) ++ enca l ++ s) ie (pos + (zlen x.2 + 3)) ielen target.
Proof.
  intros -> Hx Hlen. pose proof (zlen_nonneg x.2). cbn [attr_loop].
  destruct (Z.leb_spec (zlen pre - ie + 3) ielen); [|lia].
  assert (Hbuf : pre ++ enca (x :: l) ++ s =
                 pre ++ x.1 :: fmt_put16 (zlen x.2) ++ (x.2 ++ enca l ++ s)).
  { cbn [enca]. unfold enca1. cbn [app]. by rewrite <- !app_assoc. }
  rewrite Hbuf at 1. rewrite byte_at_app by done. cbn [mbind res_bind].
  assert (fmt_get16 (pre ++ enca (x :: l) ++ s) (zlen pre + 1) = Ret (zlen x.2)) as ->.
  { rewrite Hbuf. change (x.1 :: ?r) with ([x.1] ++ r). rewrite app_assoc.
    apply fmt_get_put; [lia|]. by rewrite zlen_app. }
  cbn [mbind res_bind]. rewrite u16_small by lia.
  destruct (Z.ltb_spec ielen (zlen pre - ie + (zlen x.2 + 3))); [lia|].
  destruct (x.1 =? target); [done|]. f_equal. cbn [enca]. by rewrite <- !app_assoc.
Qed.

Definition attr_ok (a : elem) : Prop := zlen a.2 < 65533.

(** The loop over the attributes before the one looked for. *)
Lemma attr_loop_skip l : Forall attr_ok l -> forall fuel pre ie pos s ielen target,
  pos = zlen pre -> Forall (fun a => has_eid target a = false) l ->
  pos - ie + zlen (enca l) <= ielen ->
  attr_loop (length l + fuel) (pre ++ enca l ++ s) ie pos ielen target =
    attr_loop fuel ((pre ++ enca l) ++ s) ie (pos + zlen (enca l)) ielen target.
Proof.
  intros Hok. induction Hok as [|x l Hx _ IH]; intros fuel pre ie pos s ielen target -> Ht Hlen;
    cbn [length Nat.add]; unfold attr_ok in *.
  { cbn [enca]. rewrite zlen_nil, Z.add_0_r, app_nil_r. done. }
  apply Forall_cons in Ht as [Hxt Ht]. rewrite zlen_enca_cons in Hlen.
  pose proof (zlen_nonneg (enca l)). rewrite attr_loop_step by (done || lia).
  unfold has_eid in Hxt. rewrite Hxt. rewrite IH; [|by rewrite zlen_app, zlen_enca1|done|lia].
  f_equal; [cbn [enca]; by rewrite <- !app_assoc|]. rewrite zlen_enca_cons. lia.
Qed.

(** The header is recognised. *)
Lemma get_attr_hdr fuel pre len s ie ielen target : ie = zlen pre -> 6 < ielen ->
  get_attr fuel (pre ++ ie_hdr len ++ s) ie ielen target =
    attr_loop fuel ((pre ++ ie_hdr len) ++ s) ie (ie + 6) ielen target.
Proof.
  intros -> Hl. unfold get_attr. destruct (Z.leb_spec ielen 6); [lia|].
  assert (Hbuf : pre ++ ie_hdr len ++ s =
                 (pre ++ [WLAN_EID_VENDOR_SPECIFIC; len]) ++ fmt_oui ++ s).
  { unfold ie_hdr. by rewrite <- !app_assoc. }
  assert (byte_at (pre ++ ie_hdr len ++ s) (zlen pre) = Ret WLAN_EID_VENDOR_SPECIFIC) as ->
    by by apply byte_at_app.
  cbn [mbind res_bind]. rewrite Z.eqb_refl. unfold bytes_match. rewrite Hbuf at 1.
  rewrite slice_app by (rewrite ?zlen_app; done). cbn [mbind res_bind].
  rewrite bool_decide_eq_true_2 by done. by rewrite app_assoc.
Qed.

Lemma split_first_parts p (l : list elem) :
  match split_first p l with
  | Some (a, x, c) => l = a ++ x :: c /\ p x = true /\ Forall (fun y => p y = false) a
  | None => Forall (fun y => p y = false) l
  end.
Proof.
  destruct (split_first p l) as [[[a x] c]|] eqn:E; [by apply split_first_some|by apply split_first_none].
Qed.

Lemma get_attr_enc fuel pre len l post ie ielen target :
  ie = zlen pre -> ielen = 6 + zlen (enca l) -> (length l < fuel)%nat -> Forall attr_ok l ->
  get_attr fuel (pre ++ ie_hdr len ++ enca l ++ post) ie ielen target =
    Ret match split_first (has_eid target) l with
        | Some (l1, x, _) => Some (ie + 6 + zlen (enca l1), zlen x.2 + 3)
        | None => None
        end.
Proof.
  intros -> -> Hf Hok. destruct l as [|y l0].
  { unfold get_attr. cbn [enca]. rewrite zlen_nil. done. }
  set (l := y :: l0) in *. assert (0 < zlen (enca l)) as Hpos.
  { unfold l. rewrite zlen_enca_cons. pose proof (zlen_nonneg y.2). pose proof (zlen_nonneg (enca l0)). lia. }
  rewrite get_attr_hdr by (done || lia). set (P := pre ++ ie_hdr len).
  assert (HP : zlen P = zlen pre + 6) by (unfold P; by rewrite zlen_app, zlen_ie_hdr).
  rewrite <- HP. pose proof (split_first_parts (has_eid target) l) as Hsp.
  destruct (split_first (has_eid target) l) as [[[a x] c]|].
  - destruct Hsp as (-> & Hx & Ha). apply Forall_app in Hok as [Hoka Hok].
    apply Forall_cons in Hok as [Hokx _]. rewrite length_app in Hf. cbn [length] in Hf.
    rewrite enca_app, <- app_assoc, zlen_app, zlen_enca_cons in *.
    pose proof (zlen_nonneg (enca c)). pose proof (zlen_nonneg x.2).
    replace fuel with (length a + S (fuel - length a - 1))%nat by lia.
    rewrite attr_loop_skip by (done || lia).
    unfold attr_ok in *. rewrite attr_loop_step by (rewrite ?zlen_app; lia).
    unfold has_eid in Hx. by rewrite Hx.
  - replace fuel with (length l + S (fuel - length l - 1))%nat by lia.
    rewrite attr_loop_skip by (done || lia). cbn [attr_loop].
    destruct (Z.leb_spec (zlen P + zlen (enca l) - zlen pre + 3) (6 + zlen (enca l))); [lia|done].
Qed.

(** ** Safety and divergence *)

Lemma attr_loop_safe b ie ielen target : Forall is_byte b -> 0 <= ie -> ie + ielen <= zlen b ->
  forall fuel pos, ie <= pos ->
  match attr_loop fuel b ie pos ielen target with
  | Ret (Some (p, n)) => pos <= p /\ 0 <= n /\ p + n <= ie + ielen /\ byte_at b p = Ret target
  | Ret None | Looping => True
  | Oob => False
  end.
Proof.
  intros Hb Hie Hlen. induction fuel as [|fuel IH]; intros pos Hpos; cbn [attr_loop]; [done|].
  destruct (Z.leb_spec (pos - ie + 3) ielen) as [Hin|]; [|done].
  destruct (byte_at_some b pos) as (x & Hx & _); [lia|]. rewrite Hx. cbn [mbind res_bind].
  destruct (fmt_get_some b (pos + 1) Hb) as (n & -> & Hn); [lia|lia|]. cbn [mbind res_bind].
  pose proof (u16_range (n + 3)) as Hr. unfold is_u16 in Hr.
  destruct (Z.ltb_spec ielen (pos - ie + u16 (n + 3))); [done|].
  destruct (Z.eqb_spec x target) as [->|]; [by split_all; (done || lia)|].
  specialize (IH (pos + u16 (n + 3)) ltac:(lia)).
  destruct (attr_loop _ _ _ _ _ _) as [[[p k]|]| |]; try done. intuition lia.
Qed.

Lemma get_attr_safe_enc b ie ielen target fuel :
  Forall is_byte b -> 0 <= ie -> ie + ielen <= zlen b ->
  match get_attr fuel b ie ielen target with
  | Ret (Some (p, n)) => ie + 6 <= p /\ 0 <= n /\ p + n <= ie + ielen /\ byte_at b p = Ret target
  | Ret None | Looping => True
  | Oob => False
  end.
Proof.
  intros Hb Hie Hlen. unfold get_attr. destruct (Z.leb_spec ielen 6); [done|].
  destruct (byte_at_some b ie) as (x & -> & _); [lia|]. cbn [mbind res_bind].
  destruct (x =? WLAN_EID_VENDOR_SPECIFIC); [|done].
  destruct (bytes_match_some b (ie + 2) fmt_oui) as [m ->]; [lia|rewrite fmt_oui_len; lia|].
  cbn [mbind res_bind]. destruct m; [|done].
  apply (attr_loop_safe b ie ielen target Hb Hie Hlen fuel (ie + 6)). lia.
Qed.

(** An attribute header whose length wraps the [u16] to zero. *)
Definition bad_attr (id dlen : Z) : list Z := id :: fmt_put16 dlen.

Lemma bad_attr_at fuel pre id dlen s ie pos ielen target :
  pos = zlen pre -> 0 <= dlen < 65536 -> pos - ie + 3 <= ielen ->
  attr_loop (S fuel) (pre ++ bad_attr id dlen ++ s) ie pos ielen target =
    if ielen <? pos - ie + u16 (dlen + 3) then Ret None
    else if id =? target then Ret (Some (pos, u16 (dlen + 3)))
    else attr_loop fuel (pre ++ bad_attr id dlen ++ s) ie (pos + u16 (dlen + 3)) ielen target.
Proof.
  intros -> Hd Hlen. cbn [attr_loop]. destruct (Z.leb_spec (zlen pre - ie + 3) ielen); [|lia].
  assert (byte_at (pre ++ bad_attr id dlen ++ s) (zlen pre) = Ret id) as ->
    by by apply byte_at_app.
  cbn [mbind res_bind].
  assert (fmt_get16 (pre ++ bad_attr id dlen ++ s) (zlen pre + 1) = Ret dlen) as ->; [|done].
  unfold bad_attr. cbn [app]. change (id :: ?r) with ([id] ++ r). rewrite app_assoc.
  apply fmt_get_put; [done|]. by rewrite zlen_app.
Qed.

Lemma bad_attr_loops fuel pre id s ie ielen target :
  id <> target -> zlen pre - ie + 3 <= ielen ->
  attr_loop fuel (pre ++ bad_attr id 0xfffd ++ s) ie (zlen pre) ielen target = Looping.
Proof.
  intros Hne Hlen. induction fuel as [|fuel IH]; [done|].
  rewrite bad_attr_at by (done || lia). change (u16 (0xfffd + 3)) with 0. rewrite !Z.add_0_r.
  destruct (Z.ltb_spec ielen (zlen pre - ie)); [lia|]. by destruct (Z.eqb_spec id target).
Qed.

Lemma attr_loop_hangs l : Forall attr_ok l -> forall fuel pre id s ie ielen target,
  Forall (fun a => has_eid target a = false) l -> id <> target ->
  zlen pre - ie + zlen (enca l) + 3 <= ielen ->
  attr_loop fuel (pre ++ enca l ++ bad_attr id 0xfffd ++ s) ie (zlen pre) ielen target = Looping.
Proof.
  intros Hok. induction Hok as [|x l Hx _ IH]; intros fuel pre id s ie ielen target Ht Hne Hlen.
  { cbn [enca app] in *. rewrite zlen_nil in Hlen. apply bad_attr_loops; [done|lia]. }
  destruct fuel as [|fuel]; [done|]. apply Forall_cons in Ht as [Hxt Ht].
  rewrite zlen_enca_cons in Hlen. pose proof (zlen_nonneg (enca l)). unfold attr_ok in Hx.
  rewrite attr_loop_step by (done || lia). unfold has_eid in Hxt. rewrite Hxt.
  rewrite <- zlen_enca1, <- zlen_app. apply IH; [done|done|]. rewrite zlen_app, zlen_enca1. lia.
Qed.

(** ** Removing attributes *)

Definition keepa (target : Z) (l : list elem) : list elem :=
  filter (fun a => has_eid target a = false) l.

Lemma keepa_split target l a x c :
  split_first (has_eid target) l = Some (a, x, c) -> keepa target l = keepa target (a ++ c).
Proof.
  intros E. apply split_first_some in E as (-> & Hx & _). unfold keepa. rewrite !filter_app.
  by rewrite filter_cons_False by congruence.
Qed.

Lemma keepa_none target l :
  Forall (fun a => has_eid target a = false) l -> keepa target l = l.
Proof.
  intros H. induction H as [|x l Hx _ IH]; [done|]. unfold keepa in *.
  rewrite filter_cons_True by done. by rewrite IH.
Qed.

Lemma zlen_replicate n : 0 <= n -> zlen (replicate (Z.to_nat n) 0) = n.
Proof. intros. unfold zlen. rewrite length_replicate. lia. Qed.

(** One attribute removed: the bytes behind it move up, zeros fill in. *)
Lemma del_one_attr p x y s : forall dst next n,
  dst = zlen p -> next = zlen p + zlen x -> n = zlen y ->
  (b ← bmove (p ++ x ++ y ++ s) dst next n; bzero b (dst + n) (zlen x)) =
    Ret (p ++ y ++ replicate (Z.to_nat (zlen x)) 0 ++ s).
Proof.
  intros dst next n -> -> ->. rewrite bmove_left by done. cbn [mbind res_bind]. unfold bzero.
  pose proof (zlen_nonneg x). pose proof (zlen_nonneg y). rewrite (app_assoc p y).
  rewrite blit_app.
  - by rewrite <- app_assoc.
  - by rewrite zlen_app.
  - rewrite zlen_replicate, zlen_zdrop; rewrite ?zlen_app; lia.
Qed.

Lemma ie_hdr_set pre len s v : blit (pre ++ ie_hdr len ++ s) (zlen pre + 1) [v] = Ret (pre ++ ie_hdr v ++ s).
Proof.
  unfold ie_hdr.
  replace (pre ++ (WLAN_EID_VENDOR_SPECIFIC :: len :: fmt_oui) ++ s)
    with ((pre ++ [WLAN_EID_VENDOR_SPECIFIC]) ++ [len] ++ (fmt_oui ++ s)) by by rewrite <- !app_assoc.
  rewrite blit_app; [by rewrite <- !app_assoc|by rewrite zlen_app|done].
Qed.

Lemma u8_sub x k1 k2 : u8 (u8 (x - k1) - k2) = u8 (x - (k1 + k2)).
Proof. unfold u8. rewrite Zminus_mod_idemp_l. f_equal. lia. Qed.

Lemma del_attr_loop_spec target n : forall fuel pre len k l post,
  (length l <= n)%nat -> (n < fuel)%nat -> Forall attr_ok l -> 6 + zlen (enca l) < 2147483648 ->
  let d := zlen (enca l) - zlen (enca (keepa target l)) in
  del_attr_loop fuel (pre ++ ie_hdr (u8 (len - k)) ++ enca l ++ post) (zlen pre) (6 + zlen (enca l))
      target =
    Ret (pre ++ ie_hdr (u8 (len - (k + d))) ++ enca (keepa target l) ++
           replicate (Z.to_nat d) 0 ++ post, 6 + zlen (enca (keepa target l))) /\ 0 <= d.
Proof.
  induction n as [|n IH]; intros [|fuel] pre len k l post Hn Hf Hok Hs; cbn zeta; try lia;
    cbn [del_attr_loop]; (rewrite get_attr_enc by (done || lia)); cbn [mbind res_bind].
  { destruct l; [|cbn in Hn; lia]. change (keepa target []) with (@nil elem).
    rewrite Z.sub_diag, (Z.add_0_r k). split; [done|lia]. }
  pose proof (split_first_parts (has_eid target) l) as Hsp.
  destruct (split_first (has_eid target) l) as [[[a x] c]|] eqn:E.
  - rewrite (keepa_split _ _ _ _ _ E). destruct Hsp as (-> & _ & _).
    assert (Hac : Forall attr_ok (a ++ c) /\ (length (a ++ c) <= n)%nat).
    { rewrite length_app in *. cbn [length] in Hn. split; [|lia].
      apply Forall_app in Hok as [? Hok]. apply Forall_cons in Hok as [? ?]. by apply Forall_app. }
    assert (Hsum : zlen (enca (a ++ x :: c)) = zlen (enca (a ++ c)) + (zlen x.2 + 3)).
    { rewrite !enca_app, !zlen_app, zlen_enca_cons. lia. }
    pose proof (zlen_nonneg x.2). pose proof (zlen_nonneg (enca (a ++ c))).
    pose proof (zlen_nonneg (enca a)). pose proof (zlen_nonneg (enca c)).
    destruct (Z.eqb_spec (zlen x.2 + 3) 0); [lia|].
    set (h := ie_hdr (u8 (len - k))).
    assert (Hh : zlen h = 6) by apply zlen_ie_hdr.
    replace (pre ++ h ++ enca (a ++ x :: c) ++ post)
      with ((pre ++ h ++ enca a) ++ enca1 x ++ enca c ++ post)
      by (rewrite enca_app; cbn [enca]; by rewrite <- !app_assoc).
    assert (Hr : u32 (6 + zlen (enca (a ++ x :: c)) -
               (zlen pre + 6 + zlen (enca a) + (zlen x.2 + 3) - zlen pre)) = zlen (enca c)).
    { rewrite u32_small.
      - rewrite enca_app, zlen_app, zlen_enca_cons. lia.
      - unfold small. rewrite enca_app, zlen_app, zlen_enca_cons in *. lia. }
    rewrite Hr. pose proof (del_one_attr (pre ++ h ++ enca a) (enca1 x) (enca c) post
      (zlen pre + 6 + zlen (enca a)) (zlen pre + 6 + zlen (enca a) + (zlen x.2 + 3))
      (zlen (enca c))) as Hdel.
    rewrite zlen_enca1, !zlen_app, Hh in Hdel. specialize (Hdel ltac:(lia) ltac:(lia) eq_refl).
    destruct (bmove _ _ _ _) as [b1| |]; try done. cbn [mbind res_bind] in Hdel |- *.
    rewrite Hdel. cbn [mbind res_bind].
    set (Z0 := replicate (Z.to_nat (zlen x.2 + 3)) 0).
    replace ((pre ++ h ++ enca a) ++ enca c ++ Z0 ++ post)
      with (pre ++ h ++ enca (a ++ c) ++ (Z0 ++ post)) by (rewrite enca_app; by rewrite <- !app_assoc).
    assert (byte_at (pre ++ h ++ enca (a ++ c) ++ Z0 ++ post) (zlen pre + 1) =
            Ret (u8 (len - k))) as -> by by apply byte_at_app1.
    cbn [mbind res_bind]. unfold h. rewrite ie_hdr_set. cbn [mbind res_bind]. rewrite u8_sub.
    rewrite (u32_small (6 + zlen (enca (a ++ x :: c)) - _)) by (unfold small; lia).
    replace (6 + zlen (enca (a ++ x :: c)) - (zlen x.2 + 3)) with (6 + zlen (enca (a ++ c))) by lia.
    destruct (IH fuel pre len (k + (zlen x.2 + 3)) (a ++ c) (Z0 ++ post)) as [Hres Hd];
      [by destruct Hac|lia|by destruct Hac|lia|].
    rewrite Hres. set (d := zlen (enca (a ++ c)) - _) in *.
    replace (zlen (enca (a ++ x :: c)) - zlen (enca (keepa target (a ++ c)))) with (d + (zlen x.2 + 3)) by lia.
    split; [|lia]. f_equal. f_equal. f_equal. f_equal; [f_equal; f_equal; lia|]. f_equal.
    rewrite Z2Nat.inj_add, replicate_add by lia. by rewrite <- app_assoc.
  - rewrite (keepa_none _ _ Hsp), Z.sub_diag, (Z.add_0_r k). split; [done|lia].
Qed.
End attributes.

(** On any bytes a search for an attribute never leaves the element it is
    given, and an attribute it finds lies inside the element and has the
    identifier asked for; this holds for P2P and for Wi-Fi Display elements. *)
Theorem get_attr_safe b ie ielen target fuel
    (Hb : Forall is_byte b) (Hie : 0 <= ie) (Hlen : ie + ielen <= zlen b) :
  let safe r :=
    match r with
    | Ret (Some (p, n)) => ie + 6 <= p /\ 0 <= n /\ p + n <= ie + ielen /\ byte_at b p = Ret target
    | Ret None | Looping => True
    | Oob => False
    end in
  safe (rtw_get_p2p_attr fuel b ie ielen target) /\ safe (rtw_get_wfd_attr fuel b ie ielen target).
Proof.
  cbn zeta. split; [by apply (get_attr_safe_enc (F := p2p_format))|by apply (get_attr_safe_enc (F := wfd_format))].
Qed.

Definition p2p_sample : list Z := [221; 9; 80; 111; 154; 9; 2; 2; 0; 7; 7].

Lemma get_attr_safe_witness :
  let safe r :=
    match r with
    | Ret (Some (p, n)) => 0 + 6 <= p /\ 0 <= n /\ p + n <= 0 + 11 /\ byte_at p2p_sample p = Ret 2
    | Ret None | Looping => True
    | Oob => False
    end in
  safe (rtw_get_p2p_attr 20 p2p_sample 0 11 2) /\ safe (rtw_get_wfd_attr 20 p2p_sample 0 11 2).
Proof.
  apply (get_attr_safe p2p_sample 0 11 2 20); [|lia|by vm_compute].
  repeat (apply Forall_cons_2; [unfold is_byte; lia|]). constructor.
Defined.

(** The search does not end on an element with an attribute of length
    0xfffd other than the one looked for: the length of the whole attribute, an
    [u16], is then zero and the search stays where it is, whatever its fuel. *)
Theorem attr_search_hangs pre len l id s target
    (Hok : Forall attr_ok l) (Hl : Forall (fun a => has_eid target a = false) l) (Hid : id <> target) :
  (forall fuel ielen, 6 + zlen (enca (F := p2p_format) l) + 3 <= ielen ->
     rtw_get_p2p_attr fuel
       (pre ++ ie_hdr (F := p2p_format) len ++ enca (F := p2p_format) l ++ [id; 0xfd; 0xff] ++ s)
       (zlen pre) ielen target = Looping) /\
  (forall fuel ielen, 6 + zlen (enca (F := wfd_format) l) + 3 <= ielen ->
     rtw_get_wfd_attr fuel
       (pre ++ ie_hdr (F := wfd_format) len ++ enca (F := wfd_format) l ++ [id; 0xff; 0xfd] ++ s)
       (zlen pre) ielen target = Looping).
Proof.
  split; intros fuel ielen Hlen.
  - pose proof (zlen_nonneg (enca (F := p2p_format) l)).
    unfold rtw_get_p2p_attr. rewrite get_attr_hdr by (done || lia).
    replace (zlen pre + 6) with (zlen (pre ++ ie_hdr (F := p2p_format) len))
      by (rewrite zlen_app, zlen_ie_hdr; done).
    change [id; 0xfd; 0xff] with (bad_attr (F := p2p_format) id 0xfffd).
    apply (attr_loop_hangs l Hok fuel _ id s); [done|done|]. rewrite zlen_app, zlen_ie_hdr. lia.
  - pose proof (zlen_nonneg (enca (F := wfd_format) l)).
    unfold rtw_get_wfd_attr. rewrite get_attr_hdr by (done || lia).
    replace (zlen pre + 6) with (zlen (pre ++ ie_hdr (F := wfd_format) len))
      by (rewrite zlen_app, zlen_ie_hdr; done).
    change [id; 0xff; 0xfd] with (bad_attr (F := wfd_format) id 0xfffd).
    apply (attr_loop_hangs l Hok fuel _ id s); [done|done|]. rewrite zlen_app, zlen_ie_hdr. lia.
Qed.

Lemma attr_search_hangs_witness :
  (forall fuel ielen, 6 + 0 + 3 <= ielen ->
     rtw_get_p2p_attr fuel ([] ++ ie_hdr (F := p2p_format) 7 ++ [] ++ [1; 0xfd; 0xff] ++ [])
       0 ielen 2 = Looping) /\
  (forall fuel ielen, 6 + 0 + 3 <= ielen ->
     rtw_get_wfd_attr fuel ([] ++ ie_hdr (F := wfd_format) 7 ++ [] ++ [1; 0xff; 0xfd] ++ [])
       0 ielen 2 = Looping).
Proof. apply (attr_search_hangs [] 7 [] 1 [] 2); [constructor|constructor|lia]. Defined.

(** With the length 0xfffe the whole attribute is one byte and its content is
    reported with four bytes less than nothing, which the callers copy. *)
Example p2p_content_underflow :
  rtw_get_p2p_attr_content 5 [221; 7; 80; 111; 154; 9; 2; 0xfe; 0xff] 0 9 2 =
    Ret (Some (9, 4294967294)).
Proof. reflexivity. Qed.

(** The same in a WPS element, where also nothing keeps an attribute inside. *)
Lemma wps_search_hangs fuel : rtw_get_wps_attr fuel
  ([221; 8] ++ wps_oui ++ [16; 74; 0xff; 0xfc]) 0 10 4096 = Looping.
Proof.
  enough (forall b, b = [221; 8] ++ wps_oui ++ [16; 74; 0xff; 0xfc] ->
            wps_attr_loop fuel b 0 6 10 4096 = Looping) as H by by apply H.
  intros b ->. induction fuel as [|fuel IH]; [done|]. exact IH.
Qed.
Example wps_attr_behind :
  rtw_get_wps_attr 5 ([221; 8] ++ wps_oui ++ [16; 0; 0; 200]) 0 10 4096 = Ret (Some (6, 204)).
Proof. reflexivity. Qed.

(** Removing an attribute from an element removes every one with the
    identifier and no other, keeps their order, lowers the element's length byte
    and the length returned by what was removed, and clears the bytes freed. *)
Theorem del_attr_spec (F : AttrFormat) (L : AttrLaws F) target fuel pre len l post
    (Hfuel : (length l < fuel)%nat) (Hlen : is_byte len) (Hok : Forall attr_ok l)
    (Hs : 6 + zlen (enca l) < 2147483648) :
  let d := zlen (enca l) - zlen (enca (keepa target l)) in
  del_attr fuel (pre ++ ie_hdr len ++ enca l ++ post) (zlen pre) (6 + zlen (enca l)) target =
    Ret (pre ++ ie_hdr (u8 (len - d)) ++ enca (keepa target l) ++ replicate (Z.to_nat d) 0 ++ post,
         6 + zlen (enca (keepa target l))).
Proof.
  cbn zeta. destruct (del_attr_loop_spec target (length l) fuel pre len 0 l post (le_n _) Hfuel Hok Hs)
    as [H _]. rewrite Z.sub_0_r, u8_small in H by done. rewrite Z.add_0_l in H. exact H.
Qed.

Lemma del_attr_spec_witness :
  rtw_del_p2p_attr 5 ([9] ++ ie_hdr (F := p2p_format) 18 ++
      enca (F := p2p_format) [(2, [1; 2]); (3, []); (2, [5; 6])] ++ [8]) 1 19 2 =
    Ret ([9] ++ ie_hdr (F := p2p_format) 8 ++ enca (F := p2p_format) [(3, [])] ++
           replicate 10 0 ++ [8], 9).
Proof.
  apply (del_attr_spec p2p_format p2p_laws 2 5 [9] 18 [(2, [1; 2]); (3, []); (2, [5; 6])] [8]).
  - cbn. lia.
  - unfold is_byte. lia.
  - by repeat constructor.
  - by vm_compute.
Defined.

(** An element that claims more bytes than are left makes the length left wrap
    below zero, and the move leaves the buffer. *)
Example del_ie_overrun : rtw_del_p2p_ie [221; 20; 80; 111; 154; 9; 0; 0] 0 8 = Oob.
Proof. reflexivity. Qed.

Example del_ie_middle :
  rtw_del_p2p_ie ([3; 1; 6; 221; 5; 80; 111; 154; 9; 2] ++ [5; 1; 1]) 0 13 =
    Ret ([3; 1; 6; 5; 1; 1] ++ replicate 7 0, 6).
Proof. reflexivity. Qed.

(** ** Writing an attribute, then finding it *)

Lemma set_p2p_attr_enc pre id content room post : zlen content < 65533 -> zlen room = zlen content + 3 ->
  rtw_set_p2p_attr_content (pre ++ room ++ post) (zlen pre) id (zlen content) (Some content) =
    Ret (pre ++ enca1 (F := p2p_format) (id, content) ++ post, zlen content + 3).
Proof.
  intros Hc Hr. pose proof (zlen_nonneg content). unfold rtw_set_p2p_attr_content.
  destruct room as [|r0 [|r1 [|r2 room]]]; try (unfold zlen in Hr; cbn in Hr; lia).
  rewrite !zlen_cons in Hr.
  change (pre ++ (r0 :: r1 :: r2 :: room) ++ post) with (pre ++ [r0] ++ ([r1; r2] ++ room ++ post)).
  rewrite blit_app by done. cbn [mbind res_bind].
  rewrite (app_assoc pre). rewrite blit_app; [|by rewrite zlen_app|done]. cbn [mbind res_bind].
  assert (slice content 0 (zlen content) = Ret content) as ->.
  { pose proof (slice_app [] content [] 0 (zlen content) eq_refl eq_refl) as E.
    by rewrite app_nil_r in E. }
  cbn [mbind res_bind]. rewrite (app_assoc (pre ++ [id])).
  rewrite blit_app; [|rewrite !zlen_app; change (zlen (put_le16 (zlen content))) with 2; change (zlen [id]) with 1; lia|lia].
  cbn [mbind res_bind]. f_equal. f_equal. unfold enca1. cbn [fst snd]. by rewrite <- !app_assoc.
Qed.

(** An attribute written behind the attributes of a P2P element is what a
    search then finds, content and all, unless an earlier one has its
    identifier; the length returned is what the element grows by. *)
Theorem set_then_get_attr pre len l id content room post fuel
    (Hc : zlen content < 65533) (Hr : zlen room = zlen content + 3) (Hok : Forall attr_ok l)
    (Hl : Forall (fun a => has_eid id a = false) l) (Hfuel : (S (length l) < fuel)%nat) :
  let front := pre ++ ie_hdr (F := p2p_format) len ++ enca (F := p2p_format) l in
  exists b, rtw_set_p2p_attr_content (front ++ room ++ post) (zlen front) id (zlen content) (Some content) =
      Ret (b, zlen content + 3) /\
    rtw_get_p2p_attr_content fuel b (zlen pre) (zlen front - zlen pre + zlen content + 3) id =
      Ret (Some (zlen front + 3, zlen content)) /\
    slice b (zlen front + 3) (zlen content) = Ret content.
Proof.
  cbn zeta. set (front := pre ++ _). pose proof (zlen_nonneg content).
  assert (Hfront : zlen front = zlen pre + 6 + zlen (enca (F := p2p_format) l)).
  { unfold front. rewrite !zlen_app, zlen_ie_hdr. lia. }
  rewrite set_p2p_attr_enc by done. eexists. split; [done|]. split.
  - unfold rtw_get_p2p_attr_content, get_attr_content.
    replace (front ++ enca1 (F := p2p_format) (id, content) ++ post)
      with (pre ++ ie_hdr (F := p2p_format) len ++ enca (F := p2p_format) (l ++ [(id, content)]) ++ post)
      by (unfold front; rewrite enca_app; cbn [enca]; rewrite app_nil_r; by rewrite <- !app_assoc).
    rewrite get_attr_enc; [|done| |rewrite length_app; cbn; lia|by apply Forall_app; split; [|repeat constructor]].
    + rewrite split_first_snoc; [|done|unfold has_eid; apply Z.eqb_refl]. cbn [mbind res_bind snd].
      destruct (Z.eqb_spec (zlen content + 3) 0); [lia|].
      rewrite u32_small by (unfold small; lia). f_equal. f_equal. f_equal; lia.
    + rewrite enca_app, zlen_app, zlen_enca_cons. cbn [enca snd]. rewrite zlen_nil. lia.
  - change (enca1 (id, content)) with ([id] ++ put_le16 (zlen content) ++ content).
    replace (front ++ ([id] ++ put_le16 (zlen content) ++ content) ++ post)
      with ((front ++ [id] ++ put_le16 (zlen content)) ++ content ++ post) by by rewrite <- !app_assoc.
    apply slice_app; [|done]. rewrite !zlen_app.
    change (zlen (put_le16 (zlen content))) with 2. change (zlen [id]) with 1. lia.
Qed.

Lemma set_then_get_attr_witness :
  let front := [] ++ ie_hdr (F := p2p_format) 8 ++ enca (F := p2p_format) [(2, [7])] in
  exists b, rtw_set_p2p_attr_content (front ++ [0; 0; 0; 0; 0] ++ []) 10 6 2 (Some [3; 4]) = Ret (b, 5) /\
    rtw_get_p2p_attr_content 5 b 0 15 6 = Ret (Some (13, 2)) /\ slice b 13 2 = Ret [3; 4].
Proof.
  apply (set_then_get_attr [] 8 [(2, [7])] 6 [3; 4] [0; 0; 0; 0; 0] [] 5).
  - by vm_compute.
  - done.
  - by repeat constructor.
  - by repeat constructor.
  - cbn. lia.
Defined.

(** The merged element keeps the length byte zero, and the count of more than
    251 merged bytes is cut to a byte. *)
Example p2p_merge_length_byte :
  rtw_p2p_merge_ies [221; 6; 80; 111; 154; 9; 1; 2; 221; 5; 80; 111; 154; 9; 3] 15 (replicate 9 255) =
    Ret ([0xDD; 0; 80; 111; 154; 9; 1; 2; 3], 7).
Proof. reflexivity. Qed.

End Attr.
