(* ===== verification/Elems.v ===== *)
(** * Parsing the elements of a management frame (core/rtw_ieee80211.c)

    Module [Elems] models [rtw_ieee802_11_parse_elems] and its two helpers, in
    the configuration without mesh and token based transmission, and proves what
    it finds on encoded elements and that it stays inside arbitrary ones. *)

From S2P Require Import Prelude Bytes Ies.

Module Elems.
Import Ies.

(** The pointer members of [struct rtw_ieee802_11_elems]. *)
Inductive field :=
| ssid | supp_rates | fh_params | ds_params | cf_params | tim | ibss_params | challenge | erp_info
| ext_supp_rates | wpa_ie | rsn_ie | wme | wme_tspec | wps_ie | power_cap | supp_channels | mdie
| ftie | timeout_int | ht_capabilities | ht_operation | vendor_ht_cap | vht_capabilities
| vht_operation | vht_op_mode_notify | he_capabilities | he_operation | rm_en_cap.

#[export] Instance field_eq_dec : EqDecision field.
Proof. solve_decision. Defined.

(** A member's pointer and length. *)
Definition elems : Type := field -> option (Z * Z).
Definition elems0 : elems := fun _ => None.
Definition set_field (e : elems) (f : field) (p n : Z) : elems :=
  fun g => if decide (f = g) then Some (p, n) else e g.

Inductive ParseRes := ParseOK | ParseUnknown | ParseFailed.

Definition OUI_MICROSOFT : Z := 0x0050f2.
Definition OUI_BROADCOM : Z := 0x00904c.
Definition WME_OUI_TYPE : Z := 2.
Definition VENDOR_HT_CAPAB_OUI_TYPE : Z := 0x33.

Definition get_be24 (b : list Z) (p : Z) : res Z :=
  x ← byte_at b p; y ← byte_at b (p + 1); z ← byte_at b (p + 2);
  Ret (Z.lor (Z.lor (Z.shiftl x 16) (Z.shiftl y 8)) z).

(** The member set, or [None] for the result [-1]. *)
Definition rtw_ieee802_11_parse_vendor_specific (b : list Z) (pos elen : Z) : res (option field) :=
  if elen <? 4 then Ret None
  else
    oui ← get_be24 b pos;
    if oui =? OUI_MICROSOFT then
      t ← byte_at b (pos + 3);
      if t =? 1 then Ret (Some wpa_ie)
      else if t =? WME_OUI_TYPE then
        if elen <? 5 then Ret None
        else
          s ← byte_at b (pos + 4);
          if (s =? 0) || (s =? 1) then Ret (Some wme)
          else if s =? 2 then Ret (Some wme_tspec) else Ret None
      else if t =? 4 then Ret (Some wps_ie) else Ret None
    else if oui =? OUI_BROADCOM then
      t ← byte_at b (pos + 3);
      Ret (if t =? VENDOR_HT_CAPAB_OUI_TYPE then Some vendor_ht_cap else None)
    else Ret None.

Definition rtw_ieee802_11_parse_ext_elems (b : list Z) (start : Z) : res (option field) :=
  id ← byte_at b start;
  Ret (if id =? 35 then Some he_capabilities else if id =? 36 then Some he_operation else None).

(** The cases of the switch that name a member directly. *)
Definition field_of_id (id : Z) : option field :=
  if id =? 0 then Some ssid else if id =? 1 then Some supp_rates
  else if id =? 2 then Some fh_params else if id =? 3 then Some ds_params
  else if id =? 4 then Some cf_params else if id =? 5 then Some tim
  else if id =? 6 then Some ibss_params else if id =? 16 then Some challenge
  else if id =? 42 then Some erp_info else if id =? 50 then Some ext_supp_rates
  else if id =? 48 then Some rsn_ie else if id =? 33 then Some power_cap
  else if id =? 36 then Some supp_channels else if id =? 54 then Some mdie
  else if id =? 55 then Some ftie else if id =? 56 then Some timeout_int
  else if id =? 45 then Some ht_capabilities else if id =? 61 then Some ht_operation
  else if id =? 191 then Some vht_capabilities else if id =? 192 then Some vht_operation
  else if id =? 199 then Some vht_op_mode_notify else if id =? 70 then Some rm_en_cap
  else None.

(** The member an element sets and whether it counts as unknown. *)
Definition parse_one (b : list Z) (id pos elen : Z) : res (option field * bool) :=
  match field_of_id id with
  | Some f => Ret (Some f, false)
  | None =>
      if id =? 221 then
        o ← rtw_ieee802_11_parse_vendor_specific b pos elen;
        Ret (o, negb (is_Some_b o))
      else if id =? 255 then
        o ← rtw_ieee802_11_parse_ext_elems b pos; Ret (o, false)
      else Ret (None, true)
  end.

Fixpoint parse_loop (fuel : nat) (b : list Z) (pos left_ : Z) (e : elems) (unknown : Z)
    : res (elems * ParseRes) :=
  match fuel with
  | O => Looping
  | S fuel =>
      if 2 <=? left_ then
        id ← byte_at b pos;
        elen ← byte_at b (pos + 1);
        if left_ - 2 <? elen then Ret (e, ParseFailed)
        else
          '(f, unk) ← parse_one b id (pos + 2) elen;
          let e := match f with Some f => set_field e f (pos + 2) elen | None => e end in
          parse_loop fuel b (pos + 2 + elen) (left_ - 2 - elen) e
            (if unk : bool then unknown + 1 else unknown)
      else
        Ret (e, if negb (left_ =? 0) then ParseFailed
                else if negb (unknown =? 0) then ParseUnknown else ParseOK)
  end.

Definition rtw_ieee802_11_parse_elems (b : list Z) (start len : Z) : res (elems * ParseRes) :=
  parse_loop (ie_fuel len) b start len elems0 0.

(** ** Arbitrary bytes *)

Definition inside (lo hi : Z) (e : elems) : Prop :=
  forall f p n, e f = Some (p, n) -> lo + 2 <= p /\ 0 <= n < 256 /\ p + n <= hi.

Lemma inside_set lo hi e f p n :
  inside lo hi e -> lo + 2 <= p -> 0 <= n < 256 -> p + n <= hi -> inside lo hi (set_field e f p n).
Proof.
  intros He Hp Hn Hh g q k. unfold set_field. case_decide; [|by apply He].
  intros [= <- <-]. lia.
Qed.

Lemma parse_vendor_total b pos elen : 0 <= pos -> pos + elen <= zlen b ->
  exists o, rtw_ieee802_11_parse_vendor_specific b pos elen = Ret o.
Proof.
  intros Hp Hl. unfold rtw_ieee802_11_parse_vendor_specific, get_be24.
  destruct (Z.ltb_spec elen 4); [by eexists|].
  destruct (byte_at_some b pos) as (x & -> & _); [lia|].
  destruct (byte_at_some b (pos + 1)) as (y & -> & _); [lia|].
  destruct (byte_at_some b (pos + 2)) as (z & -> & _); [lia|].
  destruct (byte_at_some b (pos + 3)) as (t & -> & _); [lia|]. cbn [mbind res_bind].
  destruct (_ =? OUI_MICROSOFT); [|destruct (_ =? OUI_BROADCOM); by eexists].
  destruct (t =? 1); [by eexists|]. destruct (t =? WME_OUI_TYPE); [|destruct (t =? 4); by eexists].
  destruct (Z.ltb_spec elen 5); [by eexists|].
  destruct (byte_at_some b (pos + 4)) as (s & -> & _); [lia|]. cbn [mbind res_bind].
  destruct (_ || _); [by eexists|]. destruct (s =? 2); by eexists.
Qed.

Lemma parse_one_total b id pos elen : 0 <= pos -> 0 <= elen -> pos + elen <= zlen b -> pos < zlen b ->
  exists o, parse_one b id pos elen = Ret o.
Proof.
  intros Hp He Hl Hlt. unfold parse_one. destruct (field_of_id id); [by eexists|].
  destruct (id =? 221).
  { destruct (parse_vendor_total b pos elen) as [o ->]; [done|done|]. by eexists. }
  destruct (id =? 255); [|by eexists]. unfold rtw_ieee802_11_parse_ext_elems.
  destruct (byte_at_some b pos) as (x & -> & _); [lia|]. by eexists.
Qed.

Lemma parse_loop_total b lo hi : Forall is_byte b -> 0 <= lo -> hi < zlen b ->
  forall fuel pos left_ e unknown, left_ < Z.of_nat fuel -> lo <= pos -> pos + left_ = hi -> 0 <= left_ ->
  inside lo hi e ->
  exists e' r, parse_loop fuel b pos left_ e unknown = Ret (e', r) /\ inside lo hi e'.
Proof.
  intros Hb Hlo Hhi. induction fuel as [|fuel IH]; intros pos left_ e unknown Hf Hpos Hsum Hleft He; [lia|].
  cbn [parse_loop]. destruct (Z.leb_spec 2 left_); [|by do 2 eexists].
  destruct (byte_at_some b pos) as (id & -> & _); [lia|]. cbn [mbind res_bind].
  destruct (byte_at_some b (pos + 1)) as (n & Hn & _); [lia|]. rewrite Hn. cbn [mbind res_bind].
  pose proof (is_byte_at _ _ _ Hb Hn) as Hr. unfold is_byte in Hr.
  destruct (Z.ltb_spec (left_ - 2) n); [by do 2 eexists|].
  destruct (parse_one_total b id (pos + 2) n) as [[f unk] ->]; [lia..|]. cbn [mbind res_bind].
  apply IH; try lia. destruct f as [f|]; [|done]. apply inside_set; [done|lia..].
Qed.

(** C40: On any bytes parsing returns, and every element it reports lies inside
    the range given, when one byte behind the range can be read: an extension
    element without content at its end is looked into. *)
Theorem parse_elems_total b start len (Hb : Forall is_byte b) (Hs : 0 <= start) (Hlen : 0 <= len)
    (Hend : start + len + 1 <= zlen b) :
  exists e r, rtw_ieee802_11_parse_elems b start len = Ret (e, r) /\
    forall f p n, e f = Some (p, n) -> start + 2 <= p /\ 0 <= n < 256 /\ p + n <= start + len.
Proof.
  unfold rtw_ieee802_11_parse_elems.
  apply (parse_loop_total b start (start + len) Hb Hs ltac:(lia)); try done; try lia.
  unfold ie_fuel. lia.
Qed.

Definition cut_sample : list Z := [0; 1; 97; 48; 9; 1; 0].
Lemma parse_elems_total_witness :
  exists e r, rtw_ieee802_11_parse_elems cut_sample 0 6 = Ret (e, r) /\
    forall f p n, e f = Some (p, n) -> 0 + 2 <= p /\ 0 <= n < 256 /\ p + n <= 0 + 6.
Proof.
  apply (parse_elems_total cut_sample 0 6); [|lia|lia|by vm_compute].
  repeat (apply Forall_cons_2; [unfold is_byte; lia|]). constructor.
Defined.

Example empty_extension_reads_behind :
  (r ← rtw_ieee802_11_parse_elems [255; 0] 0 2; Ret r.2) = Oob.
Proof. reflexivity. Qed.

(** ** Encoded elements *)

(** The reference definition: the member an element is for. *)
Definition vendor_field (c : list Z) : option field :=
  match c with
  | x :: y :: z :: t :: r =>
      let oui := Z.lor (Z.lor (Z.shiftl x 16) (Z.shiftl y 8)) z in
      if oui =? OUI_MICROSOFT then
        if t =? 1 then Some wpa_ie
        else if t =? WME_OUI_TYPE then
          match r with
          | s :: _ => if (s =? 0) || (s =? 1) then Some wme else if s =? 2 then Some wme_tspec else None
          | [] => None
          end
        else if t =? 4 then Some wps_ie else None
      else if oui =? OUI_BROADCOM then
        if t =? VENDOR_HT_CAPAB_OUI_TYPE then Some vendor_ht_cap else None
      else None
  | _ => None
  end.

Definition ext_field (c : list Z) : option field :=
  match c with
  | id :: _ => if id =? 35 then Some he_capabilities else if id =? 36 then Some he_operation else None
  | [] => None
  end.

Definition elem_field (x : elem) : option field :=
  match field_of_id x.1 with
  | Some f => Some f
  | None => if x.1 =? 221 then vendor_field x.2 else if x.1 =? 255 then ext_field x.2 else None
  end.
(** Extension elements never count as unknown. *)
Definition elem_unknown (x : elem) : bool :=
  match elem_field x with Some _ => false | None => negb (x.1 =? 255) end.

Definition ext_fits (x : elem) : Prop := x.1 = 255 -> x.2 <> [].

(** The bytes of an element's content, read in place. *)
Lemma content_at pre (x : elem) l post k a r s : x.2 = a ++ r :: s -> k = zlen pre + 2 + zlen a ->
  byte_at (pre ++ enc (x :: l) ++ post) k = Ret r.
Proof.
  intros Hc ->. cbn [enc]. unfold enc1. rewrite Hc at 2.
  replace (pre ++ ((x.1 :: zlen x.2 :: a ++ r :: s) ++ enc l) ++ post)
    with ((pre ++ [x.1; zlen x.2] ++ a) ++ r :: (s ++ enc l ++ post)).
  - apply byte_at_app. rewrite !zlen_app. change (zlen [x.1; zlen x.2]) with 2. lia.
  - cbn [app]. rewrite <- !app_assoc. cbn [app]. by rewrite <- ?app_assoc.
Qed.

Lemma vendor_enc pre x l post :
  rtw_ieee802_11_parse_vendor_specific (pre ++ enc (x :: l) ++ post) (zlen pre + 2) (zlen x.2) =
    Ret (vendor_field x.2).
Proof.
  pose proof (content_at pre x l post) as Hat. set (b := pre ++ _) in *.
  unfold rtw_ieee802_11_parse_vendor_specific, get_be24.
  destruct x.2 as [|c0 [|c1 [|c2 [|c3 c]]]]; try done.
  destruct (Z.ltb_spec (zlen (c0 :: c1 :: c2 :: c3 :: c)) 4) as [Hs|_].
  { exfalso. rewrite !zlen_cons in Hs. pose proof (zlen_nonneg c). lia. }
  rewrite (Hat (zlen pre + 2) [] c0 (c1 :: c2 :: c3 :: c)) by (done || (rewrite zlen_nil; lia)).
  cbn [mbind res_bind].
  rewrite (Hat (zlen pre + 2 + 1) [c0] c1 (c2 :: c3 :: c)) by done. cbn [mbind res_bind].
  rewrite (Hat (zlen pre + 2 + 2) [c0; c1] c2 (c3 :: c)) by done. cbn [mbind res_bind].
  rewrite (Hat (zlen pre + 2 + 3) [c0; c1; c2] c3 c) by done. cbn [mbind res_bind].
  cbn [vendor_field]. destruct (_ =? OUI_MICROSOFT); [|by destruct (_ =? OUI_BROADCOM)].
  destruct (c3 =? 1); [done|]. destruct (c3 =? WME_OUI_TYPE); [|by destruct (c3 =? 4)].
  destruct c as [|c4 c]; [done|].
  destruct (Z.ltb_spec (zlen (c0 :: c1 :: c2 :: c3 :: c4 :: c)) 5) as [Hs|_].
  { exfalso. rewrite !zlen_cons in Hs. pose proof (zlen_nonneg c). lia. }
  rewrite (Hat (zlen pre + 2 + 4) [c0; c1; c2; c3] c4 c) by done. cbn [mbind res_bind].
  destruct (_ || _); [done|]. by destruct (c4 =? 2).
Qed.

Lemma parse_one_enc pre x l post : ext_fits x ->
  parse_one (pre ++ enc (x :: l) ++ post) x.1 (zlen pre + 2) (zlen x.2) =
    Ret (elem_field x, elem_unknown x).
Proof.
  intros Hext. unfold parse_one, elem_unknown, elem_field.
  destruct (field_of_id x.1); [done|]. destruct (Z.eqb_spec x.1 221) as [E|_].
  - rewrite vendor_enc. cbn [mbind res_bind]. rewrite E. by destruct (vendor_field x.2).
  - destruct (Z.eqb_spec x.1 255) as [E|_]; [|done].
    unfold rtw_ieee802_11_parse_ext_elems. specialize (Hext E).
    destruct x.2 as [|c0 c] eqn:Hc; [done|].
    rewrite (content_at pre x l post (zlen pre + 2) [] c0 c) by (done || (rewrite zlen_nil; lia)).
    cbn [mbind res_bind ext_field]. by destruct (c0 =? 35), (c0 =? 36).
Qed.

(** Where the members end up: the last element for a member wins. *)
Fixpoint collect (pos : Z) (l : list elem) (e : elems) : elems :=
  match l with
  | [] => e
  | x :: l =>
      collect (pos + zlen (enc1 x)) l
        match elem_field x with Some f => set_field e f (pos + 2) (zlen x.2) | None => e end
  end.

Definition count_unknown (l : list elem) : Z := zlen (filter (fun x => elem_unknown x = true) l).

(** The loop over the elements, [rest] bytes of [tail] counting as left. *)
Lemma parse_loop_gen tail rest l : Forall ext_fits l ->
  forall fuel pre e unknown, 0 <= rest ->
  parse_loop (length l + fuel) (pre ++ enc l ++ tail) (zlen pre) (zlen (enc l) + rest) e unknown =
    parse_loop fuel ((pre ++ enc l) ++ tail) (zlen pre + zlen (enc l)) rest
      (collect (zlen pre) l e) (unknown + count_unknown l).
Proof.
  intros Hext. induction l as [|x l IH]; intros fuel pre e unknown Ht; cbn [length Nat.add].
  { cbn [enc collect]. change (count_unknown []) with 0.
    rewrite zlen_nil, Z.add_0_l, !Z.add_0_r, app_nil_r. done. }
  apply Forall_cons in Hext as [Hx Hext]. cbn [parse_loop].
  rewrite zlen_enc_cons. pose proof (zlen_nonneg x.2). pose proof (zlen_nonneg (enc l)).
  destruct (Z.leb_spec 2 (zlen x.2 + 2 + zlen (enc l) + rest)); [|lia].
  destruct (enc_header pre x l tail (zlen pre) eq_refl) as [-> ->]. cbn [mbind res_bind].
  destruct (Z.ltb_spec (zlen x.2 + 2 + zlen (enc l) + rest - 2) (zlen x.2)); [lia|].
  rewrite parse_one_enc by done. cbn [mbind res_bind].
  replace (zlen pre + 2 + zlen x.2) with (zlen (pre ++ enc1 x)) by (rewrite zlen_app, zlen_enc1; lia).
  replace (zlen x.2 + 2 + zlen (enc l) + rest - 2 - zlen x.2) with (zlen (enc l) + rest) by lia.
  rewrite enc_step. rewrite (IH Hext) by done. cbn [collect].
  replace ((pre ++ enc1 x) ++ enc l) with (pre ++ enc (x :: l)) by (cbn [enc]; by rewrite <- app_assoc).
  f_equal.
  - rewrite zlen_app, zlen_enc1. lia.
  - by rewrite zlen_app.
  - unfold count_unknown. destruct (elem_unknown x) eqn:Hu.
    + rewrite filter_cons_True by done. rewrite zlen_cons. lia.
    + rewrite filter_cons_False by congruence. lia.
Qed.

Lemma collect_keep f l : Forall (fun x => elem_field x <> Some f) l -> forall pos e,
  collect pos l e f = e f.
Proof.
  intros H. induction H as [|x l Hx _ IH]; intros pos e; [done|]. cbn [collect]. rewrite IH.
  destruct (elem_field x) as [g|]; [|done]. unfold set_field. case_decide; [congruence|done].
Qed.

Lemma collect_last f l1 x l2 pos e : elem_field x = Some f ->
  Forall (fun y => elem_field y <> Some f) l2 ->
  collect pos (l1 ++ x :: l2) e f = Some (pos + zlen (enc l1) + 2, zlen x.2).
Proof.
  intros Hx H2. revert pos e. induction l1 as [|y l1 IH]; intros pos e; cbn [app collect].
  - rewrite collect_keep by done. rewrite Hx. unfold set_field. rewrite decide_True by done.
    cbn [enc]. rewrite zlen_nil. f_equal. f_equal. lia.
  - rewrite IH. cbn [enc]. rewrite zlen_app. f_equal. f_equal. lia.
Qed.

(** Parsing a run of elements followed by [tail], bytes too few for another
    element, gives for every member the content of the last element for it and
    nothing for a member without one; the result is a failure exactly when there
    is such a rest, and otherwise tells whether an element was unknown. *)
Theorem parse_elems_spec pre l tail post (Hext : Forall ext_fits l)
    (Htail : match tail with [] | [_] => True | _ :: n :: c => zlen c < n end) :
  exists e, rtw_ieee802_11_parse_elems (pre ++ enc l ++ tail ++ post) (zlen pre)
      (zlen (enc l) + zlen tail) =
      Ret (e, if decide (tail = []) then if count_unknown l =? 0 then ParseOK else ParseUnknown
              else ParseFailed) /\
    (forall f, Forall (fun x => elem_field x <> Some f) l -> e f = None) /\
    (forall f l1 x l2, l = l1 ++ x :: l2 -> elem_field x = Some f ->
       Forall (fun y => elem_field y <> Some f) l2 ->
       e f = Some (zlen pre + zlen (enc l1) + 2, zlen x.2)).
Proof.
  exists (collect (zlen pre) l elems0). split; [|split].
  2:{ intros f Hf. by rewrite collect_keep. }
  2:{ intros f l1 x l2 -> Hx H2. by rewrite (collect_last f l1 x l2). }
  pose proof (zlen_nonneg tail). unfold rtw_ieee802_11_parse_elems.
  pose proof (enc_long l).
  assert (exists k, ie_fuel (zlen (enc l) + zlen tail) = (length l + S k)%nat) as [k ->].
  { exists (Z.to_nat (zlen (enc l) + zlen tail) - length l)%nat. unfold ie_fuel. lia. }
  assert (Hgo : forall fuel p e u,
    parse_loop (length l + fuel) (pre ++ enc l ++ tail ++ p) (zlen pre) (zlen (enc l) + zlen tail) e u =
    parse_loop fuel ((pre ++ enc l) ++ tail ++ p) (zlen pre + zlen (enc l)) (zlen tail)
      (collect (zlen pre) l e) (u + count_unknown l)).
  { intros fuel p e u. pose proof (parse_loop_gen (tail ++ p) (zlen tail) l Hext fuel pre e u) as Hp.
    by apply Hp. }
  rewrite Hgo, Z.add_0_l. cbn [parse_loop].
  destruct tail as [|i [|n c]].
  - rewrite decide_True by done. cbn. by destruct (count_unknown l =? 0).
  - rewrite decide_False by done. done.
  - rewrite decide_False by done. rewrite !zlen_cons. pose proof (zlen_nonneg c).
    destruct (Z.leb_spec 2 (1 + (1 + zlen c))); [|lia].
    rewrite <- zlen_app. cbn [app].
    rewrite (byte_at_app (pre ++ enc l) i (n :: c ++ post) (zlen (pre ++ enc l))) by done.
    cbn [mbind res_bind]. rewrite byte_at_app1 by done. cbn [mbind res_bind].
    by destruct (Z.ltb_spec (1 + (1 + zlen c) - 2) n); [|lia].
Qed.

(** Two rate elements, a WPA element, an unknown one and a cut one. *)
Definition frame_sample : list elem :=
  [(1, [2]); (221, [0; 80; 242; 1; 1; 0]); (1, [4; 11]); (200, [])].

Lemma parse_elems_spec_witness :
  exists e, rtw_ieee802_11_parse_elems ([7] ++ enc frame_sample ++ [48; 4; 1] ++ [9]) 1 20 =
      Ret (e, ParseFailed) /\
    (forall f, Forall (fun x => elem_field x <> Some f) frame_sample -> e f = None) /\
    (forall f l1 x l2, frame_sample = l1 ++ x :: l2 -> elem_field x = Some f ->
       Forall (fun y => elem_field y <> Some f) l2 -> e f = Some (1 + zlen (enc l1) + 2, zlen x.2)).
Proof.
  apply (parse_elems_spec [7] frame_sample [48; 4; 1] [9]).
  - repeat (apply Forall_cons_2; [intros E; vm_compute in E; discriminate E|]). constructor.
  - by vm_compute.
Defined.

End Elems.
