(* ===== verification/Wep.v ===== *)
(** * WEP and TKIP in software (core/rtw_security.c)

    Module [Wep] models the RC4 cipher, the CRC of the ICV, the encryption and
    decryption of WEP and TKIP fragments, the TKIP key mixing and the Michael
    MIC.  Decryption is proved to undo encryption, the CRC and the MIC to be
    those of their reference definitions and the key mixing to be one to one. *)

From S2P Require Import Prelude Bytes.
#[local] Open Scope Z_scope.

Module Wep.

(** ** RC4 *)

Record arc4context := mk_arc4 { x : Z; y : Z; state : list Z }.

(** The first loop of [arcfour_init]. *)
Definition arc4_identity : list Z := seqZ 0 256.

(** The second loop; [state] is indexed by values masked to a byte. *)
Fixpoint arc4_schedule (n : nat) (counter keyindex stateindex : Z) (key : list Z) (key_len : Z)
    (st : list Z) : list Z :=
  match n with
  | O => st
  | S n =>
      let t := st !!! Z.to_nat counter in
      let stateindex := Z.land (stateindex + key !!! Z.to_nat keyindex + t) 0xff in
      let u := st !!! Z.to_nat stateindex in
      let st := <[Z.to_nat stateindex := u8 t]> st in
      let st := <[Z.to_nat counter := u8 u]> st in
      let keyindex := if key_len <=? keyindex + 1 then 0 else keyindex + 1 in
      arc4_schedule n (counter + 1) keyindex stateindex key key_len st
  end.

Definition arcfour_init (key : list Z) (key_len : Z) : arc4context :=
  mk_arc4 0 0 (arc4_schedule 256 0 0 0 key key_len arc4_identity).

Definition arcfour_byte (c : arc4context) : arc4context * Z :=
  let x := Z.land (x c + 1) 0xff in
  let sx := state c !!! Z.to_nat x in
  let y := Z.land (sx + y c) 0xff in
  let sy := state c !!! Z.to_nat y in
  let st := <[Z.to_nat y := u8 sx]> (state c) in
  let st := <[Z.to_nat x := u8 sy]> st in
  (mk_arc4 x y st, st !!! Z.to_nat (Z.land (sx + sy) 0xff)).

Fixpoint arcfour_encrypt (c : arc4context) (src : list Z) : arc4context * list Z :=
  match src with
  | [] => (c, [])
  | b :: src =>
      let '(c, k) := arcfour_byte c in
      let '(c, d) := arcfour_encrypt c src in
      (c, Z.lxor b (u8 k) :: d)
  end.

(** ** The CRC of the ICV *)

Definition CRC32_POLY : Z := 0x04c11db7.

Definition crc32_reverseBit (data : Z) : Z :=
  Z.lor (Z.lor (Z.lor (Z.lor (Z.lor (Z.lor (Z.lor
    (u8 (Z.land (Z.shiftl data 7) 0x80)) (Z.land (Z.shiftl data 5) 0x40))
    (Z.land (Z.shiftl data 3) 0x20)) (Z.land (Z.shiftl data 1) 0x10))
    (Z.land (Z.shiftr data 1) 0x08)) (Z.land (Z.shiftr data 3) 0x04))
    (Z.land (Z.shiftr data 5) 0x02)) (Z.land (Z.shiftr data 7) 0x01).

(** The bytes of a [u32] in memory, and back. *)
Definition le32_bytes (v : Z) : list Z :=
  [Z.land v 0xff; Z.land (Z.shiftr v 8) 0xff; Z.land (Z.shiftr v 16) 0xff; Z.land (Z.shiftr v 24) 0xff].
Definition le32_of (b0 b1 b2 b3 : Z) : Z :=
  Z.lor (Z.lor (Z.lor b0 (Z.shiftl b1 8)) (Z.shiftl b2 16)) (Z.shiftl b3 24).

(** One turn of the inner loop of [crc32_init]. *)
Definition crc32_shift (c : Z) : Z :=
  if negb (Z.land c 0x80000000 =? 0) then Z.lxor (u32 (Z.shiftl c 1)) CRC32_POLY
  else u32 (Z.shiftl c 1).

Definition crc32_entry (i : Z) : Z :=
  let c := Nat.iter 8 crc32_shift (Z.shiftl (crc32_reverseBit (u8 i)) 24) in
  match le32_bytes c with
  | [p0; p1; p2; p3] =>
      le32_of (crc32_reverseBit p3) (crc32_reverseBit p2) (crc32_reverseBit p1) (crc32_reverseBit p0)
  | _ => 0
  end.

(** The table after [crc32_init], which every user calls first. *)
Definition crc32_table : list Z := Eval vm_compute in crc32_entry <$> seqZ 0 256.

Definition crc32_step (crc b : Z) : Z :=
  Z.lxor (crc32_table !!! Z.to_nat (Z.land (Z.lxor crc b) 0xff)) (Z.shiftr crc 8).

(** [~crc] of a [u32]. *)
Definition not32 (x : Z) : Z := u32 (Z.lnot x).

Definition getcrc32 (buf : list Z) : Z := not32 (foldl crc32_step 0xffffffff buf).
Definition rtw_calc_crc32 (data : list Z) : Z := not32 (foldl crc32_step 0xffffffff data).

(** The bytes that are counted; none for a negative length. *)
Definition crc_of (b : list Z) (off len : Z) : res Z :=
  if len <=? 0 then Ret (getcrc32 []) else s ← slice b off len; Ret (getcrc32 s).

(** ** WEP fragments *)

(** [memcpy(&wepkey[0], iv, 3); memcpy(&wepkey[3], key, keylength)] into sixteen
    bytes. *)
Definition wep_key (pframe : list Z) (hdrlen : Z) (key : list Z) (keylength : Z) : res (list Z) :=
  if 16 <? 3 + keylength then Oob
  else iv ← slice pframe hdrlen 3; k ← slice key 0 keylength; Ret (iv ++ k).

(** The encryption of payload and ICV in place under an RC4 key. *)
Definition encrypt_payload (rc4key : list Z) (key_len : Z) (pframe : list Z) (p length : Z)
    : res (list Z) :=
  crc ← crc_of pframe p length;
  payload ← slice pframe p length;
  let c := arcfour_init rc4key key_len in
  let '(c, d) := arcfour_encrypt c payload in
  f ← blit pframe p d;
  let '(_, icv) := arcfour_encrypt c (le32_bytes crc) in
  blit f (p + length) icv.

(** One fragment; [len] is the length of its buffer. *)
Definition wep_encrypt_frag (key : list Z) (keylength hdrlen iv_len icv_len len : Z) (pframe : list Z)
    : res (list Z) :=
  wepkey ← wep_key pframe hdrlen key keylength;
  encrypt_payload wepkey (3 + keylength) pframe (iv_len + hdrlen) (len - hdrlen - iv_len - icv_len).

Fixpoint mapM_res (f : Z -> list Z -> res (list Z)) (l : list (Z * list Z)) : res (list (list Z)) :=
  match l with
  | [] => Ret []
  | (len, fr) :: l => g ← f len fr; gs ← mapM_res f l; Ret (g :: gs)
  end.

(** The fragments with their lengths, as the caller's state gives them. *)
Definition rtw_wep_encrypt (wep : bool) (key : list Z) (keylength hdrlen iv_len icv_len : Z)
    (frags : list (Z * list Z)) : res (list (list Z)) :=
  if negb wep then Ret (snd <$> frags)
  else mapM_res (fun len f => wep_encrypt_frag key keylength hdrlen iv_len icv_len len f) frags.

Definition decrypt_payload (rc4key : list Z) (key_len : Z) (pframe : list Z) (p length : Z)
    : res (list Z) :=
  payload ← slice pframe p length;
  let '(_, d) := arcfour_encrypt (arcfour_init rc4key key_len) payload in
  blit pframe p d.

(** The ICV is computed and not looked at. *)
Definition rtw_wep_decrypt (wep : bool) (key : list Z) (keylength hdrlen iv_len len : Z)
    (pframe : list Z) : res (list Z) :=
  if negb wep then Ret pframe
  else
    wepkey ← wep_key pframe hdrlen key keylength;
    let length := len - hdrlen - iv_len in
    let p := iv_len + hdrlen in
    f ← decrypt_payload wepkey (3 + keylength) pframe p length;
    _ ← crc_of f p (length - 4);
    Ret f.

(** ** The TKIP key mixing *)

Definition Sbox1_0 : list Z :=
  [0xC6A5; 0xF884; 0xEE99; 0xF68D; 0xFF0D; 0xD6BD; 0xDEB1; 0x9154;
   0x6050; 0x0203; 0xCEA9; 0x567D; 0xE719; 0xB562; 0x4DE6; 0xEC9A;
   0x8F45; 0x1F9D; 0x8940; 0xFA87; 0xEF15; 0xB2EB; 0x8EC9; 0xFB0B;
   0x41EC; 0xB367; 0x5FFD; 0x45EA; 0x23BF; 0x53F7; 0xE496; 0x9B5B;
   0x75C2; 0xE11C; 0x3DAE; 0x4C6A; 0x6C5A; 0x7E41; 0xF502; 0x834F;
   0x685C; 0x51F4; 0xD134; 0xF908; 0xE293; 0xAB73; 0x6253; 0x2A3F;
   0x080C; 0x9552; 0x4665; 0x9D5E; 0x3028; 0x37A1; 0x0A0F; 0x2FB5;
   0x0E09; 0x2436; 0x1B9B; 0xDF3D; 0xCD26; 0x4E69; 0x7FCD; 0xEA9F;
   0x121B; 0x1D9E; 0x5874; 0x342E; 0x362D; 0xDCB2; 0xB4EE; 0x5BFB;
   0xA4F6; 0x764D; 0xB761; 0x7DCE; 0x527B; 0xDD3E; 0x5E71; 0x1397;
   0xA6F5; 0xB968; 0x0000; 0xC12C; 0x4060; 0xE31F; 0x79C8; 0xB6ED;
   0xD4BE; 0x8D46; 0x67D9; 0x724B; 0x94DE; 0x98D4; 0xB0E8; 0x854A;
   0xBB6B; 0xC52A; 0x4FE5; 0xED16; 0x86C5; 0x9AD7; 0x6655; 0x1194;
   0x8ACF; 0xE910; 0x0406; 0xFE81; 0xA0F0; 0x7844; 0x25BA; 0x4BE3;
   0xA2F3; 0x5DFE; 0x80C0; 0x058A; 0x3FAD; 0x21BC; 0x7048; 0xF104;
   0x63DF; 0x77C1; 0xAF75; 0x4263; 0x2030; 0xE51A; 0xFD0E; 0xBF6D;
   0x814C; 0x1814; 0x2635; 0xC32F; 0xBEE1; 0x35A2; 0x88CC; 0x2E39;
   0x9357; 0x55F2; 0xFC82; 0x7A47; 0xC8AC; 0xBAE7; 0x322B; 0xE695;
   0xC0A0; 0x1998; 0x9ED1; 0xA37F; 0x4466; 0x547E; 0x3BAB; 0x0B83;
   0x8CCA; 0xC729; 0x6BD3; 0x283C; 0xA779; 0xBCE2; 0x161D; 0xAD76;
   0xDB3B; 0x6456; 0x744E; 0x141E; 0x92DB; 0x0C0A; 0x486C; 0xB8E4;
   0x9F5D; 0xBD6E; 0x43EF; 0xC4A6; 0x39A8; 0x31A4; 0xD337; 0xF28B;
   0xD532; 0x8B43; 0x6E59; 0xDAB7; 0x018C; 0xB164; 0x9CD2; 0x49E0;
   0xD8B4; 0xACFA; 0xF307; 0xCF25; 0xCAAF; 0xF48E; 0x47E9; 0x1018;
   0x6FD5; 0xF088; 0x4A6F; 0x5C72; 0x3824; 0x57F1; 0x73C7; 0x9751;
   0xCB23; 0xA17C; 0xE89C; 0x3E21; 0x96DD; 0x61DC; 0x0D86; 0x0F85;
   0xE090; 0x7C42; 0x71C4; 0xCCAA; 0x90D8; 0x0605; 0xF701; 0x1C12;
   0xC2A3; 0x6A5F; 0xAEF9; 0x69D0; 0x1791; 0x9958; 0x3A27; 0x27B9;
   0xD938; 0xEB13; 0x2BB3; 0x2233; 0xD2BB; 0xA970; 0x0789; 0x33A7;
   0x2DB6; 0x3C22; 0x1592; 0xC920; 0x8749; 0xAAFF; 0x5078; 0xA57A;
   0x038F; 0x59F8; 0x0980; 0x1A17; 0x65DA; 0xD731; 0x84C6; 0xD0B8;
   0x82C3; 0x29B0; 0x5A77; 0x1E11; 0x7BCB; 0xA8FC; 0x6DD6; 0x2C3A].

Definition Sbox1_1 : list Z :=
  [0xA5C6; 0x84F8; 0x99EE; 0x8DF6; 0x0DFF; 0xBDD6; 0xB1DE; 0x5491;
   0x5060; 0x0302; 0xA9CE; 0x7D56; 0x19E7; 0x62B5; 0xE64D; 0x9AEC;
   0x458F; 0x9D1F; 0x4089; 0x87FA; 0x15EF; 0xEBB2; 0xC98E; 0x0BFB;
   0xEC41; 0x67B3; 0xFD5F; 0xEA45; 0xBF23; 0xF753; 0x96E4; 0x5B9B;
   0xC275; 0x1CE1; 0xAE3D; 0x6A4C; 0x5A6C; 0x417E; 0x02F5; 0x4F83;
   0x5C68; 0xF451; 0x34D1; 0x08F9; 0x93E2; 0x73AB; 0x5362; 0x3F2A;
   0x0C08; 0x5295; 0x6546; 0x5E9D; 0x2830; 0xA137; 0x0F0A; 0xB52F;
   0x090E; 0x3624; 0x9B1B; 0x3DDF; 0x26CD; 0x694E; 0xCD7F; 0x9FEA;
   0x1B12; 0x9E1D; 0x7458; 0x2E34; 0x2D36; 0xB2DC; 0xEEB4; 0xFB5B;
   0xF6A4; 0x4D76; 0x61B7; 0xCE7D; 0x7B52; 0x3EDD; 0x715E; 0x9713;
   0xF5A6; 0x68B9; 0x0000; 0x2CC1; 0x6040; 0x1FE3; 0xC879; 0xEDB6;
   0xBED4; 0x468D; 0xD967; 0x4B72; 0xDE94; 0xD498; 0xE8B0; 0x4A85;
   0x6BBB; 0x2AC5; 0xE54F; 0x16ED; 0xC586; 0xD79A; 0x5566; 0x9411;
   0xCF8A; 0x10E9; 0x0604; 0x81FE; 0xF0A0; 0x4478; 0xBA25; 0xE34B;
   0xF3A2; 0xFE5D; 0xC080; 0x8A05; 0xAD3F; 0xBC21; 0x4870; 0x04F1;
   0xDF63; 0xC177; 0x75AF; 0x6342; 0x3020; 0x1AE5; 0x0EFD; 0x6DBF;
   0x4C81; 0x1418; 0x3526; 0x2FC3; 0xE1BE; 0xA235; 0xCC88; 0x392E;
   0x5793; 0xF255; 0x82FC; 0x477A; 0xACC8; 0xE7BA; 0x2B32; 0x95E6;
   0xA0C0; 0x9819; 0xD19E; 0x7FA3; 0x6644; 0x7E54; 0xAB3B; 0x830B;
   0xCA8C; 0x29C7; 0xD36B; 0x3C28; 0x79A7; 0xE2BC; 0x1D16; 0x76AD;
   0x3BDB; 0x5664; 0x4E74; 0x1E14; 0xDB92; 0x0A0C; 0x6C48; 0xE4B8;
   0x5D9F; 0x6EBD; 0xEF43; 0xA6C4; 0xA839; 0xA431; 0x37D3; 0x8BF2;
   0x32D5; 0x438B; 0x596E; 0xB7DA; 0x8C01; 0x64B1; 0xD29C; 0xE049;
   0xB4D8; 0xFAAC; 0x07F3; 0x25CF; 0xAFCA; 0x8EF4; 0xE947; 0x1810;
   0xD56F; 0x88F0; 0x6F4A; 0x725C; 0x2438; 0xF157; 0xC773; 0x5197;
   0x23CB; 0x7CA1; 0x9CE8; 0x213E; 0xDD96; 0xDC61; 0x860D; 0x850F;
   0x90E0; 0x427C; 0xC471; 0xAACC; 0xD890; 0x0506; 0x01F7; 0x121C;
   0xA3C2; 0x5F6A; 0xF9AE; 0xD069; 0x9117; 0x5899; 0x273A; 0xB927;
   0x38D9; 0x13EB; 0xB32B; 0x3322; 0xBBD2; 0x70A9; 0x8907; 0xA733;
   0xB62D; 0x223C; 0x9215; 0x20C9; 0x4987; 0xFFAA; 0x7850; 0x7AA5;
   0x8F03; 0xF859; 0x8009; 0x171A; 0xDA65; 0x31D7; 0xC684; 0xB8D0;
   0xC382; 0xB029; 0x775A; 0x111E; 0xCB7B; 0xFCA8; 0xD66D; 0x3A2C].

Definition Lo8 (v : Z) : Z := Z.land v 0xff.
Definition Hi8 (v : Z) : Z := Z.land (Z.shiftr v 8) 0xff.
Definition Lo16 (v : Z) : Z := Z.land v 0xffff.
Definition Hi16 (v : Z) : Z := Z.land (Z.shiftr v 16) 0xffff.
Definition Mk16 (hi lo : Z) : Z := Z.lxor lo (Z.shiftl hi 8).
Definition RotR1 (v : Z) : Z := Z.lxor (Z.land (Z.shiftr v 1) 0x7fff) (Z.shiftl (Z.land v 1) 15).
Definition S_ (v : Z) : Z := Z.lxor (Sbox1_0 !!! Z.to_nat (Lo8 v)) (Sbox1_1 !!! Z.to_nat (Hi8 v)).

Section mixing.
Variable tk : list Z.

Definition TK16 (n : Z) : Z := Mk16 (tk !!! Z.to_nat (2 * n + 1)) (tk !!! Z.to_nat (2 * n)).

(** The five words of the phase 1 key. *)
Record p1k := mk_p1k { a0 : Z; a1 : Z; a2 : Z; a3 : Z; a4 : Z }.

Definition phase1_round (i : Z) (p : p1k) : p1k :=
  let k := Z.land i 1 in
  let b0 := u16 (a0 p + S_ (Z.lxor (a4 p) (TK16 (k + 0)))) in
  let b1 := u16 (a1 p + S_ (Z.lxor b0 (TK16 (k + 2)))) in
  let b2 := u16 (a2 p + S_ (Z.lxor b1 (TK16 (k + 4)))) in
  let b3 := u16 (a3 p + S_ (Z.lxor b2 (TK16 (k + 6)))) in
  let b4 := u16 (a4 p + S_ (Z.lxor b3 (TK16 (k + 0)))) in
  mk_p1k b0 b1 b2 b3 (u16 (b4 + i)).

Definition phase1 (ta : list Z) (iv32 : Z) : p1k :=
  let w n := Mk16 (ta !!! (n + 1)%nat) (ta !!! n) in
  foldl (fun p i => phase1_round i p) (mk_p1k (Lo16 iv32) (Hi16 iv32) (w 0%nat) (w 2%nat) (w 4%nat))
    (seqZ 0 8).

(** The six words [PPK] after the mixing. *)
Record ppk := mk_ppk { q0 : Z; q1 : Z; q2 : Z; q3 : Z; q4 : Z; q5 : Z }.

Definition phase2_ppk (p : p1k) (iv16 : Z) : ppk :=
  let q5 := u16 (a4 p + iv16) in
  let q0 := u16 (a0 p + S_ (Z.lxor q5 (TK16 0))) in
  let q1 := u16 (a1 p + S_ (Z.lxor q0 (TK16 1))) in
  let q2 := u16 (a2 p + S_ (Z.lxor q1 (TK16 2))) in
  let q3 := u16 (a3 p + S_ (Z.lxor q2 (TK16 3))) in
  let q4 := u16 (a4 p + S_ (Z.lxor q3 (TK16 4))) in
  let q5 := u16 (q5 + S_ (Z.lxor q4 (TK16 5))) in
  let q0 := u16 (q0 + RotR1 (Z.lxor q5 (TK16 6))) in
  let q1 := u16 (q1 + RotR1 (Z.lxor q0 (TK16 7))) in
  let q2 := u16 (q2 + RotR1 q1) in
  let q3 := u16 (q3 + RotR1 q2) in
  let q4 := u16 (q4 + RotR1 q3) in
  let q5 := u16 (q5 + RotR1 q4) in
  mk_ppk q0 q1 q2 q3 q4 q5.

Definition phase2 (p : p1k) (iv16 : Z) : list Z :=
  let q := phase2_ppk p iv16 in
  [Hi8 iv16; Z.land (Z.lor (Hi8 iv16) 0x20) 0x7f; Lo8 iv16;
   Lo8 (Z.shiftr (Z.lxor (q5 q) (TK16 0)) 1);
   Lo8 (q0 q); Hi8 (q0 q); Lo8 (q1 q); Hi8 (q1 q); Lo8 (q2 q); Hi8 (q2 q);
   Lo8 (q3 q); Hi8 (q3 q); Lo8 (q4 q); Hi8 (q4 q); Lo8 (q5 q); Hi8 (q5 q)].
End mixing.

(** ** TKIP fragments *)

(** [GET_TKIP_PN]: the low sixteen and the next thirty-two bits of the packet
    number. *)
Definition tkip_pn (pframe : list Z) (iv : Z) : res (Z * Z) :=
  t0 ← byte_at pframe (iv + 2);
  t1 ← byte_at pframe iv;
  t2 ← byte_at pframe (iv + 4);
  t3 ← byte_at pframe (iv + 5);
  t4 ← byte_at pframe (iv + 6);
  t5 ← byte_at pframe (iv + 7);
  Ret (Z.lor t0 (Z.shiftl t1 8), le32_of t2 t3 t4 t5).

Definition tkip_rc4key (tk ta : list Z) (pframe : list Z) (hdrlen : Z) : res (list Z) :=
  '(pnl, pnh) ← tkip_pn pframe hdrlen;
  Ret (phase2 tk (phase1 tk ta pnh) pnl).

Definition tkip_encrypt_frag (tk ta : list Z) (hdrlen iv_len icv_len len : Z) (pframe : list Z)
    : res (list Z) :=
  rc4key ← tkip_rc4key tk ta pframe hdrlen;
  encrypt_payload rc4key 16 pframe (iv_len + hdrlen) (len - hdrlen - iv_len - icv_len).

Definition rtw_tkip_encrypt (tkip : bool) (tk ta : list Z) (hdrlen iv_len icv_len : Z)
    (frags : list (Z * list Z)) : res (list (list Z)) :=
  if negb tkip then Ret (snd <$> frags)
  else mapM_res (fun len f => tkip_encrypt_frag tk ta hdrlen iv_len icv_len len f) frags.

(** [ICV] bytes against the four last bytes of the payload. *)
Definition icv_matches (f : list Z) (crc last : Z) : res bool :=
  b3 ← byte_at f last;
  b2 ← byte_at f (last - 1);
  b1 ← byte_at f (last - 2);
  b0 ← byte_at f (last - 3);
  Ret (bool_decide (le32_bytes crc = [b0; b1; b2; b3])).

(** The key of the frame: the group key of its index, when one is installed, or
    the station's; [None] without a station or a group key.  The result is the
    frame and whether it is [_SUCCESS]. *)
Definition rtw_tkip_decrypt (tkip sta_known mcast binstallGrpkey : bool) (grpkey unckey ta : list Z)
    (hdrlen iv_len len : Z) (pframe : list Z) : res (list Z * bool) :=
  if negb tkip then Ret (pframe, true)
  else if negb sta_known then Ret (pframe, false)
  else if mcast && negb binstallGrpkey then Ret (pframe, false)
  else
    let tk := if mcast then grpkey else unckey in
    let p := iv_len + hdrlen in
    let length := len - hdrlen - iv_len in
    rc4key ← tkip_rc4key tk ta pframe hdrlen;
    f ← decrypt_payload rc4key 16 pframe p length;
    crc ← crc_of f p (length - 4);
    ok ← icv_matches f crc (p + length - 1);
    Ret (f, ok).

(** ** Michael *)

Record mic_data := mk_mic { K0 : Z; K1 : Z; L : Z; R : Z; M : Z; nBytesInM : Z }.

Definition rol32 (a n : Z) : Z :=
  u32 (Z.lor (u32 (Z.shiftl a n)) (Z.land (Z.shiftr a (32 - n)) (Z.ones n))).
Definition ror32 (a n : Z) : Z := rol32 a (32 - n).

Definition secmicgetuint32 (b : list Z) : Z :=
  foldl (fun r i => Z.lor r (u32 (Z.shiftl (b !!! Z.to_nat i) (8 * i)))) 0 (seqZ 0 4).
Definition secmicputuint32 (v : Z) : list Z := le32_bytes v.

Definition secmicclear (m : mic_data) : mic_data := mk_mic (K0 m) (K1 m) (K0 m) (K1 m) 0 0.

Definition rtw_secmicsetkey (key : list Z) : mic_data :=
  secmicclear (mk_mic (secmicgetuint32 key) (secmicgetuint32 (drop 4 key)) 0 0 0 0).

(** The processing of a full word. *)
Definition mic_block (l r m : Z) : Z * Z :=
  let l := Z.lxor l m in
  let r := Z.lxor r (rol32 l 17) in
  let l := u32 (l + r) in
  let r := Z.lxor r (Z.lor (Z.shiftr (Z.land l 0xff00ff00) 8) (u32 (Z.shiftl (Z.land l 0x00ff00ff) 8))) in
  let l := u32 (l + r) in
  let r := Z.lxor r (rol32 l 3) in
  let l := u32 (l + r) in
  let r := Z.lxor r (ror32 l 2) in
  let l := u32 (l + r) in
  (l, r).

Definition rtw_secmicappendbyte (m : mic_data) (b : Z) : mic_data :=
  let M := Z.lor (M m) (u32 (Z.shiftl b (8 * nBytesInM m))) in
  let n := nBytesInM m + 1 in
  if 4 <=? n then
    let '(l, r) := mic_block (L m) (R m) M in mk_mic (K0 m) (K1 m) l r 0 0
  else mk_mic (K0 m) (K1 m) (L m) (R m) M n.

Definition rtw_secmicappend (m : mic_data) (src : list Z) : mic_data :=
  foldl rtw_secmicappendbyte m src.

(** The padding loop takes at most three turns. *)
Fixpoint mic_pad (fuel : nat) (m : mic_data) : option mic_data :=
  match fuel with
  | O => None
  | S fuel => if negb (nBytesInM m =? 0) then mic_pad fuel (rtw_secmicappendbyte m 0) else Some m
  end.

Definition rtw_secgetmic (m : mic_data) : option (mic_data * list Z) :=
  m ← mic_pad 4 (rtw_secmicappend m [0x5a; 0; 0; 0; 0]);
  Some (secmicclear m, secmicputuint32 (L m) ++ secmicputuint32 (R m)).

Definition rtw_seccalctkipmic (key header data : list Z) (pri : Z) : res (list Z) :=
  h1 ← byte_at header 1;
  let tods := negb (Z.land h1 1 =? 0) in
  let fromds := negb (Z.land h1 2 =? 0) in
  da ← slice header (if tods then 16 else 4) 6;
  sa ← slice header (if fromds then (if tods then 24 else 16) else 10) 6;
  let m := rtw_secmicsetkey key in
  let m := rtw_secmicappend m da in
  let m := rtw_secmicappend m sa in
  let m := rtw_secmicappend m [pri; 0; 0; 0] in
  let m := rtw_secmicappend m data in
  match rtw_secgetmic m with Some (_, mic) => Ret mic | None => Looping end.

(** ** Countermeasures *)

Record countermeasure := mk_cm { btkip_countermeasure : bool; btkip_countermeasure_time : Z }.

(** [passing_ms] is the time since the countermeasures began. *)
Definition rtw_handle_tkip_countermeasure (s : countermeasure) (passing_ms : Z) : countermeasure * bool :=
  if btkip_countermeasure s then
    if 60 * 1000 <? passing_ms then (mk_cm false 0, true) else (s, false)
  else (s, true).

(** ** Published test vectors *)

Example crc32_check : getcrc32 [49; 50; 51; 52; 53; 54; 55; 56; 57] = 0xCBF43926.
Proof. reflexivity. Qed.
Example rc4_check :
  (arcfour_encrypt (arcfour_init [0x4b; 0x65; 0x79] 3)
    [0x50; 0x6c; 0x61; 0x69; 0x6e; 0x74; 0x65; 0x78; 0x74]).2 =
    [0xbb; 0xf3; 0x16; 0xe8; 0xd9; 0x40; 0xaf; 0x0a; 0xd3].
Proof. vm_compute. reflexivity. Qed.
Example michael_check :
  option_map snd (rtw_secgetmic (rtw_secmicappend
    (rtw_secmicsetkey [0x82; 0x92; 0x5c; 0x1c; 0xa1; 0xd1; 0x30; 0xb8]) [77])) =
    Some [0x43; 0x47; 0x21; 0xca; 0x40; 0x63; 0x9b; 0x3f].
Proof. vm_compute. reflexivity. Qed.
Definition tk_sample : list Z := seqZ 0 16.
Definition ta_sample : list Z := [0x10; 0x22; 0x33; 0x44; 0x55; 0x66].
Example tkip_mixing_check :
  phase2 tk_sample (phase1 tk_sample ta_sample 0) 0 =
    [0x00; 0x20; 0x00; 0x33; 0xea; 0x8d; 0x2f; 0x60; 0xca; 0x6d; 0x13; 0x74; 0x23; 0x4a; 0x66; 0x0b].
Proof. vm_compute. reflexivity. Qed.

(** ** The CRC *)

(** The reference definition: the reflected CRC-32, bit by bit. *)
Definition crc_bit (c : Z) : Z :=
  if Z.odd c then Z.lxor (Z.shiftr c 1) 0xedb88320 else Z.shiftr c 1.
Definition crc_ref_step (crc b : Z) : Z := Nat.iter 8 crc_bit (Z.lxor crc b).
Definition crc_ref (buf : list Z) : Z := not32 (foldl crc_ref_step 0xffffffff buf).

Lemma lxor_swap a b c d : Z.lxor (Z.lxor a b) (Z.lxor c d) = Z.lxor (Z.lxor a c) (Z.lxor b d).
Proof. rewrite !Z.lxor_assoc. f_equal. rewrite <- !Z.lxor_assoc. f_equal. apply Z.lxor_comm. Qed.

Lemma crc_bit_lxor a b : crc_bit (Z.lxor a b) = Z.lxor (crc_bit a) (crc_bit b).
Proof.
  assert (Hodd : Z.odd (Z.lxor a b) = xorb (Z.odd a) (Z.odd b)).
  { rewrite <- !Z.bit0_odd. apply Z.lxor_spec. }
  unfold crc_bit. rewrite Hodd, Z.shiftr_lxor. destruct (Z.odd a), (Z.odd b); cbn [xorb]; try done.
  - rewrite lxor_swap, Z.lxor_nilpotent. by rewrite Z.lxor_0_r.
  - rewrite !Z.lxor_assoc. f_equal. apply Z.lxor_comm.
  - by rewrite Z.lxor_assoc.
Qed.

Lemma crc_iter_lxor n a b :
  Nat.iter n crc_bit (Z.lxor a b) = Z.lxor (Nat.iter n crc_bit a) (Nat.iter n crc_bit b).
Proof. induction n as [|n IH]; [done|]. rewrite !Nat.iter_succ, IH. apply crc_bit_lxor. Qed.

Lemma crc_iter_shiftl n d : Nat.iter n crc_bit (Z.shiftl d (Z.of_nat n)) = d.
Proof.
  induction n as [|n IH]; [apply Z.shiftl_0_r|]. rewrite Nat.iter_succ_r.
  enough (crc_bit (Z.shiftl d (Z.of_nat (S n))) = Z.shiftl d (Z.of_nat n)) as -> by done.
  unfold crc_bit. rewrite <- Z.bit0_odd, Z.shiftl_spec_low by lia.
  rewrite Z.shiftr_shiftl_l by lia. f_equal. lia.
Qed.

Lemma crc32_table_ref k : 0 <= k < 256 -> crc32_table !!! Z.to_nat k = Nat.iter 8 crc_bit k.
Proof.
  intros Hk. assert (Hall : forallb (fun k => crc32_table !!! Z.to_nat k =? Nat.iter 8 crc_bit k)
                              (seqZ 0 256) = true) by (vm_compute; reflexivity).
  rewrite forallb_forall in Hall. apply Z.eqb_eq, Hall. apply list_elem_of_In, elem_of_seqZ. lia.
Qed.

Lemma low_high c : c = Z.lxor (Z.land c 0xff) (Z.shiftl (Z.shiftr c 8) 8).
Proof.
  apply Z.bits_inj'. intros n Hn. rewrite Z.lxor_spec, Z.land_spec. change 0xff with (Z.ones 8).
  destruct (Z.lt_ge_cases n 8).
  - rewrite Z.ones_spec_low, Z.shiftl_spec_low by lia. by rewrite andb_true_r, xorb_false_r.
  - rewrite Z.ones_spec_high, Z.shiftl_spec_high, Z.shiftr_spec by lia.
    rewrite andb_false_r, xorb_false_l. f_equal. lia.
Qed.

Lemma crc32_step_ref crc b : is_byte b -> crc32_step crc b = crc_ref_step crc b.
Proof.
  intros Hb. unfold crc32_step, crc_ref_step. set (c := Z.lxor crc b).
  assert (Z.shiftr crc 8 = Z.shiftr c 8) as ->.
  { unfold c. rewrite Z.shiftr_lxor. assert (Z.shiftr b 8 = 0) as ->; [|by rewrite Z.lxor_0_r].
    rewrite Z.shiftr_div_pow2 by lia. apply Z.div_small. exact Hb. }
  rewrite crc32_table_ref.
  - rewrite (low_high c) at 3. rewrite crc_iter_lxor. f_equal.
    symmetry. apply (crc_iter_shiftl 8).
  - rewrite land_ff. apply Z.mod_pos_bound. lia.
Qed.

(** The table-driven checksum of the ICV is the bitwise CRC-32. *)
Theorem getcrc32_reference buf (Hb : Forall is_byte buf) : getcrc32 buf = crc_ref buf.
Proof.
  unfold getcrc32, crc_ref. f_equal. generalize 0xffffffff as crc.
  induction Hb as [|b buf Hb _ IH]; intros crc; [done|]. cbn [foldl]. rewrite crc32_step_ref by done.
  apply IH.
Qed.

Lemma getcrc32_reference_witness : getcrc32 [0; 97; 255] = crc_ref [0; 97; 255].
Proof.
  apply (getcrc32_reference [0; 97; 255]).
  repeat (apply Forall_cons_2; [unfold is_byte; lia|]). constructor.
Defined.

(** ** Decryption undoes encryption *)

Lemma arcfour_encrypt_length c l : length (arcfour_encrypt c l).2 = length l.
Proof.
  revert c. induction l as [|b l IH]; intros c; [done|]. cbn [arcfour_encrypt].
  destruct (arcfour_byte c) as [c' k]. specialize (IH c'). by destruct (arcfour_encrypt c' l); cbn in *; rewrite IH.
Qed.

Lemma arcfour_involution c l :
  arcfour_encrypt c (arcfour_encrypt c l).2 = ((arcfour_encrypt c l).1, l).
Proof.
  revert c. induction l as [|b l IH]; intros c; [done|]. cbn [arcfour_encrypt].
  destruct (arcfour_byte c) as [c' k] eqn:Hk. specialize (IH c').
  destruct (arcfour_encrypt c' l) as [c2 d] eqn:Hd. cbn [snd fst arcfour_encrypt] in *.
  rewrite Hk, IH. by rewrite Z.lxor_assoc, Z.lxor_nilpotent, Z.lxor_0_r.
Qed.

Lemma arcfour_encrypt_app c l1 l2 :
  arcfour_encrypt c (l1 ++ l2) =
    let '(c1, d1) := arcfour_encrypt c l1 in
    let '(c2, d2) := arcfour_encrypt c1 l2 in (c2, d1 ++ d2).
Proof.
  revert c. induction l1 as [|b l1 IH]; intros c; cbn [app arcfour_encrypt].
  - by destruct (arcfour_encrypt c l2).
  - destruct (arcfour_byte c) as [c' k]. rewrite IH.
    destruct (arcfour_encrypt c' l1) as [c1 d1]. by destruct (arcfour_encrypt c1 l2).
Qed.

Lemma le32_bytes_len v : zlen (le32_bytes v) = 4.
Proof. done. Qed.

Lemma crc_of_app p s t : crc_of (p ++ s ++ t) (zlen p) (zlen s) = Ret (getcrc32 s).
Proof.
  unfold crc_of. destruct (Z.leb_spec (zlen s) 0) as [H|H].
  - pose proof (zlen_nonneg s). destruct s as [|b s]; [done|]. rewrite zlen_cons in *.
    pose proof (zlen_nonneg s). lia.
  - rewrite slice_app by done. done.
Qed.

(** What is sent: payload and ICV under the key stream. *)
Definition sealed (key : list Z) (key_len : Z) (payload : list Z) : list Z :=
  (arcfour_encrypt (arcfour_init key key_len) (payload ++ le32_bytes (getcrc32 payload))).2.

Lemma encrypt_payload_spec key key_len front payload room post p n :
  p = zlen front -> n = zlen payload -> zlen room = 4 ->
  encrypt_payload key key_len (front ++ payload ++ room ++ post) p n =
    Ret (front ++ sealed key key_len payload ++ post).
Proof.
  intros -> -> Hr. unfold encrypt_payload, sealed. rewrite crc_of_app. cbn [mbind res_bind].
  rewrite slice_app by done. cbn [mbind res_bind]. rewrite arcfour_encrypt_app.
  pose proof (arcfour_encrypt_length (arcfour_init key key_len) payload) as Hl1.
  destruct (arcfour_encrypt (arcfour_init key key_len) payload) as [c1 d1]. cbn [snd] in Hl1.
  rewrite blit_app by (done || (unfold zlen; lia)). cbn [mbind res_bind].
  pose proof (arcfour_encrypt_length c1 (le32_bytes (getcrc32 payload))) as Hl2.
  destruct (arcfour_encrypt c1 (le32_bytes (getcrc32 payload))) as [c2 d2]. cbn [snd] in Hl2 |- *.
  rewrite (app_assoc front). rewrite blit_app.
  - by rewrite <- !app_assoc.
  - rewrite zlen_app. unfold zlen. lia.
  - rewrite Hr. unfold zlen. rewrite Hl2. done.
Qed.

Lemma zlen_sealed key key_len payload : zlen (sealed key key_len payload) = zlen payload + 4.
Proof. unfold sealed, zlen. rewrite arcfour_encrypt_length, length_app. cbn. lia. Qed.

Lemma decrypt_payload_spec key key_len front payload post p n :
  p = zlen front -> n = zlen payload + 4 ->
  decrypt_payload key key_len (front ++ sealed key key_len payload ++ post) p n =
    Ret (front ++ (payload ++ le32_bytes (getcrc32 payload)) ++ post).
Proof.
  intros -> ->. unfold decrypt_payload. rewrite slice_app by (done || by rewrite zlen_sealed).
  cbn [mbind res_bind]. unfold sealed at 1.
  rewrite arcfour_involution. apply blit_app; [done|]. rewrite zlen_sealed, zlen_app. done.
Qed.

(** The key of a fragment depends on what precedes the payload only. *)
Lemma wep_key_front key keylength hdr iv s t :
  zlen iv = 4 -> wep_key (hdr ++ iv ++ s) (zlen hdr) key keylength =
                 wep_key (hdr ++ iv ++ t) (zlen hdr) key keylength.
Proof.
  intros Hiv. unfold wep_key. destruct (16 <? 3 + keylength); [done|].
  destruct iv as [|i0 [|i1 [|i2 iv]]]; try (unfold zlen in Hiv; cbn in Hiv; lia).
  change (i0 :: i1 :: i2 :: iv) with ([i0; i1; i2] ++ iv). rewrite <- !app_assoc.
  by rewrite !slice_app by done.
Qed.

Lemma wep_key_ok key keylength hdr iv s :
  zlen iv = 4 -> 0 <= keylength <= 13 -> keylength <= zlen key ->
  exists k, wep_key (hdr ++ iv ++ s) (zlen hdr) key keylength = Ret k.
Proof.
  intros Hiv Hk Hkey. unfold wep_key. destruct (Z.ltb_spec 16 (3 + keylength)); [lia|].
  destruct iv as [|i0 [|i1 [|i2 iv]]]; try (unfold zlen in Hiv; cbn in Hiv; lia).
  change (i0 :: i1 :: i2 :: iv) with ([i0; i1; i2] ++ iv). rewrite <- !app_assoc.
  rewrite slice_app by done. cbn [mbind res_bind]. rewrite slice_some by lia. by eexists.
Qed.

(** Decrypting a WEP fragment that was encrypted with the same key gives the
    payload back, followed by its checksum; header and IV are as they were. *)
Theorem wep_roundtrip key keylength hdr iv payload room
    (Hiv : zlen iv = 4) (Hroom : zlen room = 4) (Hk : 0 <= keylength <= 13) (Hkey : keylength <= zlen key) :
  let len := zlen hdr + 4 + zlen payload + 4 in
  exists f, rtw_wep_encrypt true key keylength (zlen hdr) 4 4 [(len, hdr ++ iv ++ payload ++ room)] = Ret [f] /\
    zlen f = len /\
    rtw_wep_decrypt true key keylength (zlen hdr) 4 len f =
      Ret (hdr ++ iv ++ payload ++ le32_bytes (getcrc32 payload)).
Proof.
  cbn zeta. destruct (wep_key_ok key keylength hdr iv (payload ++ room) Hiv Hk Hkey) as [k Hwk].
  exists (hdr ++ iv ++ sealed k (3 + keylength) payload). split; [|split].
  - unfold rtw_wep_encrypt, mapM_res, wep_encrypt_frag. cbn [negb]. rewrite Hwk. cbn [mbind res_bind].
    pose proof (encrypt_payload_spec k (3 + keylength) (hdr ++ iv) payload room [] (4 + zlen hdr)
      (zlen hdr + 4 + zlen payload + 4 - zlen hdr - 4 - 4)) as He.
    rewrite !app_nil_r, <- !app_assoc in He. rewrite He; [done|rewrite zlen_app; lia|lia|done].
  - rewrite !zlen_app, zlen_sealed. lia.
  - unfold rtw_wep_decrypt. cbn [negb].
    rewrite (wep_key_front _ _ _ _ _ (payload ++ room)) by done. rewrite Hwk. cbn [mbind res_bind].
    pose proof (decrypt_payload_spec k (3 + keylength) (hdr ++ iv) payload [] (4 + zlen hdr)
      (zlen hdr + 4 + zlen payload + 4 - zlen hdr - 4)) as Hd.
    rewrite !app_nil_r, <- !app_assoc in Hd. rewrite Hd by (rewrite ?zlen_app; lia). cbn [mbind res_bind].
    replace (zlen hdr + 4 + zlen payload + 4 - zlen hdr - 4 - 4) with (zlen payload) by lia.
    pose proof (crc_of_app (hdr ++ iv) payload (le32_bytes (getcrc32 payload))) as Hc.
    rewrite <- !app_assoc, zlen_app, Hiv in Hc. replace (4 + zlen hdr) with (zlen hdr + 4) by lia.
    by rewrite Hc.
Qed.

Lemma wep_roundtrip_witness : exists f,
  rtw_wep_encrypt true [1; 2; 3; 4; 5] 5 2 4 4 [(13, [8; 64] ++ [7; 7; 7; 0] ++ [65; 66; 67] ++ [0; 0; 0; 0])] =
    Ret [f] /\ zlen f = 13 /\
  rtw_wep_decrypt true [1; 2; 3; 4; 5] 5 2 4 13 f =
    Ret ([8; 64] ++ [7; 7; 7; 0] ++ [65; 66; 67] ++ le32_bytes (getcrc32 [65; 66; 67])).
Proof.
  apply (wep_roundtrip [1; 2; 3; 4; 5] 5 [8; 64] [7; 7; 7; 0] [65; 66; 67] [0; 0; 0; 0]);
    [done|done|lia|by vm_compute].
Defined.

(** A frame with any ICV is accepted. *)
Example wep_bad_icv : exists f, rtw_wep_decrypt true [1; 2; 3; 4; 5] 5 0 4 8 [9; 9; 9; 0; 1; 2; 3; 4] = Ret f.
Proof. eexists. vm_compute. reflexivity. Qed.

(** ** TKIP fragments *)

(** The RC4 key as a function of the IV's eight bytes. *)
Definition tkip_key (tk ta iv : list Z) : list Z :=
  phase2 tk (phase1 tk ta (le32_of (iv !!! 4%nat) (iv !!! 5%nat) (iv !!! 6%nat) (iv !!! 7%nat)))
    (Z.lor (iv !!! 2%nat) (Z.shiftl (iv !!! 0%nat) 8)).

Lemma tkip_rc4key_front tk ta hdr iv s : zlen iv = 8 ->
  tkip_rc4key tk ta (hdr ++ iv ++ s) (zlen hdr) = Ret (tkip_key tk ta iv).
Proof.
  intros Hiv. unfold tkip_rc4key, tkip_pn.
  rewrite (byte_at_mid hdr iv s 2) by lia. cbn [mbind res_bind].
  pose proof (byte_at_mid hdr iv s 0 ltac:(lia)) as H0. rewrite Z.add_0_r in H0.
  rewrite H0. cbn [mbind res_bind].
  rewrite (byte_at_mid hdr iv s 4) by lia. cbn [mbind res_bind].
  rewrite (byte_at_mid hdr iv s 5) by lia. cbn [mbind res_bind].
  rewrite (byte_at_mid hdr iv s 6) by lia. cbn [mbind res_bind].
  rewrite (byte_at_mid hdr iv s 7) by lia. done.
Qed.

Lemma icv_matches_app p icv s crc last : zlen icv = 4 -> last = zlen p + 3 ->
  icv_matches (p ++ icv ++ s) crc last = Ret (bool_decide (le32_bytes crc = icv)).
Proof.
  intros Hi ->. unfold icv_matches.
  replace (zlen p + 3 - 1) with (zlen p + 2) by lia. replace (zlen p + 3 - 2) with (zlen p + 1) by lia.
  replace (zlen p + 3 - 3) with (zlen p + 0) by lia.
  rewrite !(byte_at_mid p icv s) by lia. cbn [mbind res_bind]. f_equal. f_equal.
  destruct icv as [|i0 [|i1 [|i2 [|i3 [|i4 icv]]]]]; try (unfold zlen in Hi; cbn in Hi; lia). done.
Qed.

(** Decrypting a TKIP fragment gives the bytes under the key stream of its
    IV, and succeeds exactly when its last four bytes are the checksum of the
    ones before; without a station or, for a group frame, without a group key it
    fails and leaves the frame alone. *)
Theorem tkip_decrypt_spec mcast grpkey unckey ta hdr iv m icv c (Hiv : zlen iv = 8) (Hicv : zlen icv = 4)
    (Hc : (arcfour_encrypt (arcfour_init (tkip_key (if mcast : bool then grpkey else unckey) ta iv) 16) c).2
            = m ++ icv) :
  let f := hdr ++ iv ++ c in
  rtw_tkip_decrypt true true mcast true grpkey unckey ta (zlen hdr) 8 (zlen f) f =
    Ret (hdr ++ iv ++ m ++ icv, bool_decide (le32_bytes (getcrc32 m) = icv)) /\
  rtw_tkip_decrypt true false mcast true grpkey unckey ta (zlen hdr) 8 (zlen f) f = Ret (f, false) /\
  rtw_tkip_decrypt true true true false grpkey unckey ta (zlen hdr) 8 (zlen f) f = Ret (f, false).
Proof.
  cbn zeta. split; [|done]. unfold rtw_tkip_decrypt. cbn [negb]. rewrite andb_false_r.
  set (tk := if mcast then grpkey else unckey) in *.
  rewrite tkip_rc4key_front by done. cbn [mbind res_bind].
  assert (Hlc : zlen c = zlen m + 4).
  { apply (f_equal (@length Z)) in Hc. rewrite arcfour_encrypt_length, length_app in Hc.
    unfold zlen in *. lia. }
  assert (Hdec : decrypt_payload (tkip_key tk ta iv) 16 (hdr ++ iv ++ c) (8 + zlen hdr)
                   (zlen (hdr ++ iv ++ c) - zlen hdr - 8) = Ret (hdr ++ iv ++ m ++ icv)).
  { unfold decrypt_payload. pose proof (slice_app (hdr ++ iv) c [] (8 + zlen hdr)
      (zlen (hdr ++ iv ++ c) - zlen hdr - 8)) as Hs. rewrite app_nil_r, <- !app_assoc in Hs.
    rewrite Hs by (rewrite ?zlen_app; lia). cbn [mbind res_bind].
    destruct (arcfour_encrypt _ c) as [c2 d]. cbn [snd] in Hc. subst d.
    pose proof (blit_app (hdr ++ iv) c [] (m ++ icv) (8 + zlen hdr)) as Hb.
    rewrite !app_nil_r, <- !app_assoc in Hb. apply Hb; rewrite zlen_app; lia. }
  rewrite Hdec. cbn [mbind res_bind].
  pose proof (crc_of_app (hdr ++ iv) m icv) as Hcrc. rewrite <- !app_assoc, zlen_app, Hiv in Hcrc.
  replace (8 + zlen hdr) with (zlen hdr + 8) by lia.
  replace (zlen (hdr ++ iv ++ c) - zlen hdr - 8 - 4) with (zlen m) by (rewrite !zlen_app; lia).
  rewrite Hcrc. cbn [mbind res_bind].
  pose proof (icv_matches_app (hdr ++ iv ++ m) icv [] (getcrc32 m)
    (zlen hdr + 8 + (zlen (hdr ++ iv ++ c) - zlen hdr - 8) - 1) Hicv) as Hm.
  rewrite app_nil_r, <- !app_assoc in Hm. rewrite Hm; [done|]. rewrite !zlen_app. lia.
Qed.

Definition iv_sample : list Z := [0; 32; 1; 32; 0; 0; 0; 0].
Definition sealed_sample : list Z := Eval vm_compute in sealed (tkip_key tk_sample ta_sample iv_sample) 16 [65; 66].

Lemma tkip_decrypt_spec_witness :
  let f := [8; 0] ++ iv_sample ++ sealed_sample in
  rtw_tkip_decrypt true true false true [] tk_sample ta_sample 2 8 (zlen f) f =
    Ret ([8; 0] ++ iv_sample ++ [65; 66] ++ le32_bytes (getcrc32 [65; 66]), true) /\
  rtw_tkip_decrypt true false false true [] tk_sample ta_sample 2 8 (zlen f) f = Ret (f, false) /\
  rtw_tkip_decrypt true true true false [] tk_sample ta_sample 2 8 (zlen f) f = Ret (f, false).
Proof.
  apply (tkip_decrypt_spec false [] tk_sample ta_sample [8; 0] iv_sample [65; 66]
           (le32_bytes (getcrc32 [65; 66])) sealed_sample); [done|done|by vm_compute].
Defined.

(** C37: A TKIP fragment encrypted by the driver is decrypted, by the station
    with the same key and transmitter address, to its payload and checksum with
    success. *)
Theorem tkip_roundtrip tk ta hdr iv payload room (Hiv : zlen iv = 8) (Hroom : zlen room = 4) :
  let len := zlen hdr + 8 + zlen payload + 4 in
  exists f, rtw_tkip_encrypt true tk ta (zlen hdr) 8 4 [(len, hdr ++ iv ++ payload ++ room)] = Ret [f] /\
    rtw_tkip_decrypt true true false false [] tk ta (zlen hdr) 8 len f =
      Ret (hdr ++ iv ++ payload ++ le32_bytes (getcrc32 payload), true).
Proof.
  cbn zeta. set (k := tkip_key tk ta iv). exists (hdr ++ iv ++ sealed k 16 payload). split.
  - unfold rtw_tkip_encrypt, mapM_res, tkip_encrypt_frag. cbn [negb].
    rewrite tkip_rc4key_front by done. cbn [mbind res_bind]. fold k.
    pose proof (encrypt_payload_spec k 16 (hdr ++ iv) payload room [] (8 + zlen hdr)
      (zlen hdr + 8 + zlen payload + 4 - zlen hdr - 8 - 4)) as He.
    rewrite !app_nil_r, <- !app_assoc in He. rewrite He; [done|rewrite zlen_app; lia|lia|done].
  - unfold rtw_tkip_decrypt. cbn [negb andb]. rewrite tkip_rc4key_front by done. cbn [mbind res_bind].
    fold k. pose proof (decrypt_payload_spec k 16 (hdr ++ iv) payload [] (8 + zlen hdr)
      (zlen hdr + 8 + zlen payload + 4 - zlen hdr - 8)) as Hd.
    rewrite !app_nil_r, <- !app_assoc in Hd. rewrite Hd by (rewrite ?zlen_app; lia). cbn [mbind res_bind].
    replace (zlen hdr + 8 + zlen payload + 4 - zlen hdr - 8 - 4) with (zlen payload) by lia.
    pose proof (crc_of_app (hdr ++ iv) payload (le32_bytes (getcrc32 payload))) as Hc.
    rewrite <- !app_assoc, zlen_app, Hiv in Hc. replace (8 + zlen hdr) with (zlen hdr + 8) by lia.
    rewrite Hc. cbn [mbind res_bind].
    pose proof (icv_matches_app (hdr ++ iv ++ payload) (le32_bytes (getcrc32 payload)) []
      (getcrc32 payload) (zlen hdr + 8 + (zlen hdr + 8 + zlen payload + 4 - zlen hdr - 8) - 1)
      (le32_bytes_len _)) as Hm.
    rewrite app_nil_r, <- !app_assoc in Hm. rewrite Hm by (rewrite !zlen_app; lia).
    cbn [mbind res_bind]. by rewrite bool_decide_eq_true_2.
Qed.

Lemma tkip_roundtrip_witness : exists f,
  rtw_tkip_encrypt true tk_sample ta_sample 2 8 4 [(16, [8; 0] ++ iv_sample ++ [65; 66] ++ [0; 0; 0; 0])] =
    Ret [f] /\
  rtw_tkip_decrypt true true false false [] tk_sample ta_sample 2 8 16 f =
    Ret ([8; 0] ++ iv_sample ++ [65; 66] ++ le32_bytes (getcrc32 [65; 66]), true).
Proof. apply (tkip_roundtrip tk_sample ta_sample [8; 0] iv_sample [65; 66] [0; 0; 0; 0]); done. Defined.

(** ** The key mixing is one to one *)

Definition words16 (p : p1k) : Prop :=
  is_u16 (a0 p) /\ is_u16 (a1 p) /\ is_u16 (a2 p) /\ is_u16 (a3 p) /\ is_u16 (a4 p).

(** A word that gets a value added can be recovered from the sum. *)
Lemma u16_add_inj x y v : is_u16 x -> is_u16 y -> u16 (x + v) = u16 (y + v) -> x = y.
Proof.
  unfold is_u16, u16. intros Hx Hy H.
  apply (f_equal (fun t => (t - v) mod 65536)) in H. rewrite !Zminus_mod_idemp_l in H.
  replace (x + v - v) with x in H by lia. replace (y + v - v) with y in H by lia.
  by rewrite !Z.mod_small in H by lia.
Qed.

Lemma p1k_eq p q : a0 p = a0 q -> a1 p = a1 q -> a2 p = a2 q -> a3 p = a3 q -> a4 p = a4 q -> p = q.
Proof. destruct p, q. cbn. by intros -> -> -> -> ->. Qed.

Lemma phase1_round_words tk i p : words16 (phase1_round tk i p).
Proof. unfold words16, phase1_round. cbn. split_all; apply u16_range. Qed.

Lemma phase1_round_inj tk i p q :
  words16 p -> words16 q -> phase1_round tk i p = phase1_round tk i q -> p = q.
Proof.
  intros (P0 & P1 & P2 & P3 & P4) (Q0 & Q1 & Q2 & Q3 & Q4) H. unfold phase1_round in H.
  injection H as E0 E1 E2 E3 E4. apply u16_add_inj in E4; [|apply u16_range..].
  rewrite E3 in E4. apply u16_add_inj in E4; [|done..].
  rewrite E2 in E3. apply u16_add_inj in E3; [|done..].
  rewrite E1 in E2. apply u16_add_inj in E2; [|done..].
  rewrite E0 in E1. apply u16_add_inj in E1; [|done..].
  rewrite E4 in E0. apply u16_add_inj in E0; [|done..].
  by apply p1k_eq.
Qed.

Lemma rounds_words tk l p : words16 p -> words16 (foldl (fun p i => phase1_round tk i p) p l).
Proof. revert p. induction l as [|i l IH]; intros p Hp; [done|]. apply IH, phase1_round_words. Qed.

Lemma rounds_inj tk l p q : words16 p -> words16 q ->
  foldl (fun p i => phase1_round tk i p) p l = foldl (fun p i => phase1_round tk i p) q l -> p = q.
Proof.
  revert p q. induction l as [|i l IH]; intros p q Hp Hq H; [done|]. cbn [foldl] in H.
  apply IH in H; [|apply phase1_round_words..]. by apply phase1_round_inj in H.
Qed.

Lemma phase2_ppk_inj tk p q iv1 iv2 : words16 p -> words16 q -> is_u16 iv1 -> is_u16 iv2 ->
  phase2_ppk tk p iv1 = phase2_ppk tk q iv2 -> p = q /\ iv1 = iv2.
Proof.
  intros (P0 & P1 & P2 & P3 & P4) (Q0 & Q1 & Q2 & Q3 & Q4) I1 I2 H. unfold phase2_ppk in H.
  injection H as E0 E1 E2 E3 E4 E5.
  rewrite E4 in E5. apply u16_add_inj in E5; [|apply u16_range..].
  rewrite E3 in E4. apply u16_add_inj in E4; [|apply u16_range..].
  rewrite E2 in E3. apply u16_add_inj in E3; [|apply u16_range..].
  rewrite E1 in E2. apply u16_add_inj in E2; [|apply u16_range..].
  rewrite E0 in E1. apply u16_add_inj in E1; [|apply u16_range..].
  rewrite E5 in E0. apply u16_add_inj in E0; [|apply u16_range..].
  rewrite E4 in E5. apply u16_add_inj in E5; [|apply u16_range..].
  rewrite E3 in E4. apply u16_add_inj in E4; [|done..].
  rewrite E2 in E3. apply u16_add_inj in E3; [|done..].
  rewrite E1 in E2. apply u16_add_inj in E2; [|done..].
  rewrite E0 in E1. apply u16_add_inj in E1; [|done..].
  rewrite E5 in E0. apply u16_add_inj in E0; [|done..].
  split; [by apply p1k_eq|]. rewrite E4, !(Z.add_comm (a4 q)) in E5. by apply u16_add_inj in E5.
Qed.

Lemma Mk16_value hi lo : is_byte hi -> is_byte lo -> Mk16 hi lo = 256 * hi + lo.
Proof.
  unfold is_byte. intros Hh Hl. unfold Mk16.
  assert (Hland : Z.land lo (Z.shiftl hi 8) = 0).
  { apply Z.bits_inj'. intros n Hn. rewrite Z.land_spec, Z.bits_0.
    destruct (Z.lt_ge_cases n 8); [rewrite Z.shiftl_spec_low by lia; apply andb_false_r|].
    destruct (Z.eq_dec lo 0) as [->|]; [by rewrite Z.testbit_0_l|].
    rewrite (Z.bits_above_log2 lo); [done|lia|]. apply Z.lt_le_trans with 8; [|done].
    apply Z.log2_lt_pow2; [lia|]. change (2 ^ 8) with 256. lia. }
  rewrite <- Z.add_nocarry_lxor by done. rewrite Z.shiftl_mul_pow2 by lia. lia.
Qed.

Lemma Mk16_inj h1 l1 h2 l2 : is_byte h1 -> is_byte l1 -> is_byte h2 -> is_byte l2 ->
  Mk16 h1 l1 = Mk16 h2 l2 -> h1 = h2 /\ l1 = l2.
Proof. intros. unfold is_byte in *. rewrite !Mk16_value in * by done. lia. Qed.

Lemma Hi8_value v : is_u16 v -> v = 256 * Hi8 v + Lo8 v.
Proof.
  unfold is_u16, Hi8, Lo8. intros Hv. rewrite !land_ff, Z.shiftr_div_pow2 by lia.
  change (2 ^ 8) with 256. rewrite (Z.mod_small (v / 256)) by dlia. apply Z.div_mod. lia.
Qed.

Lemma u16_bytes_inj v w : is_u16 v -> is_u16 w -> Lo8 v = Lo8 w -> Hi8 v = Hi8 w -> v = w.
Proof. intros Hv Hw Hl Hh. rewrite (Hi8_value v), (Hi8_value w) by done. congruence. Qed.

Lemma u32_halves_inj v w : is_u32 v -> is_u32 w -> Lo16 v = Lo16 w -> Hi16 v = Hi16 w -> v = w.
Proof.
  unfold is_u32, Lo16, Hi16. intros Hv Hw. rewrite !land_ffff, !Z.shiftr_div_pow2 by lia.
  change (2 ^ 16) with 65536. intros Hl Hh.
  rewrite (Z.mod_small (v / 65536)), (Z.mod_small (w / 65536)) in Hh by dlia.
  rewrite (Z.div_mod v 65536), (Z.div_mod w 65536) by lia. congruence.
Qed.

Lemma land_ffff_range v : is_u16 (Z.land v 0xffff).
Proof. rewrite land_ffff. apply u16_range. Qed.

Lemma Mk16_range hi lo : is_byte hi -> is_byte lo -> is_u16 (Mk16 hi lo).
Proof. intros. rewrite Mk16_value by done. unfold is_byte, is_u16 in *. lia. Qed.

(** A transmitter address. *)
Definition is_addr (ta : list Z) : Prop := length ta = 6%nat /\ Forall is_byte ta.

Lemma addr_bytes ta : is_addr ta -> exists b0 b1 b2 b3 b4 b5, ta = [b0; b1; b2; b3; b4; b5] /\
  is_byte b0 /\ is_byte b1 /\ is_byte b2 /\ is_byte b3 /\ is_byte b4 /\ is_byte b5.
Proof.
  intros [Hl Hb]. destruct ta as [|b0 [|b1 [|b2 [|b3 [|b4 [|b5 [|b6 ta]]]]]]]; try done.
  repeat (apply Forall_cons in Hb as [? Hb]). by exists b0, b1, b2, b3, b4, b5.
Qed.

Lemma phase1_start_inj tk ta1 ta2 v1 v2 : is_addr ta1 -> is_addr ta2 -> is_u32 v1 -> is_u32 v2 ->
  phase1 tk ta1 v1 = phase1 tk ta2 v2 -> ta1 = ta2 /\ v1 = v2.
Proof.
  intros H1 H2 Hv1 Hv2 E.
  destruct (addr_bytes _ H1) as (b0 & b1 & b2 & b3 & b4 & b5 & -> & B0 & B1 & B2 & B3 & B4 & B5).
  destruct (addr_bytes _ H2) as (c0 & c1 & c2 & c3 & c4 & c5 & -> & C0 & C1 & C2 & C3 & C4 & C5).
  unfold phase1 in E. apply rounds_inj in E;
    [|unfold words16, Lo16, Hi16; cbn [a0 a1 a2 a3 a4 Nat.add];
      split_all; (apply land_ffff_range || by apply Mk16_range)..].
  injection E as E0 E1 E2 E3 E4. cbn in E2, E3, E4.
  apply Mk16_inj in E2 as [-> ->]; [|done..]. apply Mk16_inj in E3 as [-> ->]; [|done..].
  apply Mk16_inj in E4 as [-> ->]; [|done..]. split; [done|]. by apply u32_halves_inj.
Qed.

Lemma phase2_ppk_u16 tk p iv : let q := phase2_ppk tk p iv in
  is_u16 (q0 q) /\ is_u16 (q1 q) /\ is_u16 (q2 q) /\ is_u16 (q3 q) /\ is_u16 (q4 q) /\ is_u16 (q5 q).
Proof. cbn. split_all; apply u16_range. Qed.

Lemma ppk_eq p q : q0 p = q0 q -> q1 p = q1 q -> q2 p = q2 q -> q3 p = q3 q -> q4 p = q4 q ->
  q5 p = q5 q -> p = q.
Proof. destruct p, q. cbn. by intros -> -> -> -> -> ->. Qed.

Lemma phase2_inj tk p q iv1 iv2 : phase2 tk p iv1 = phase2 tk q iv2 ->
  phase2_ppk tk p iv1 = phase2_ppk tk q iv2.
Proof.
  unfold phase2. pose proof (phase2_ppk_u16 tk p iv1) as (P0 & P1 & P2 & P3 & P4 & P5).
  pose proof (phase2_ppk_u16 tk q iv2) as (Q0 & Q1 & Q2 & Q3 & Q4 & Q5).
  generalize dependent (phase2_ppk tk q iv2). generalize dependent (phase2_ppk tk p iv1).
  intros a P0 P1 P2 P3 P4 P5 b Q0 Q1 Q2 Q3 Q4 Q5 E.
  injection E as _ _ _ _ E4 E5 E6 E7 E8 E9 E10 E11 E12 E13 E14 E15.
  apply ppk_eq; by apply u16_bytes_inj.
Qed.

(** For a given temporal key the RC4 key of a packet determines its
    transmitter address and its whole packet number, so that no two packets of
    a key share an RC4 key; this is what the comments of [phase2] promise. *)
Theorem tkip_rc4_key_unique tk ta1 ta2 iv32_1 iv32_2 iv16_1 iv16_2
    (H1 : is_addr ta1) (H2 : is_addr ta2) (H3 : is_u32 iv32_1) (H4 : is_u32 iv32_2)
    (H5 : is_u16 iv16_1) (H6 : is_u16 iv16_2)
    (Heq : phase2 tk (phase1 tk ta1 iv32_1) iv16_1 = phase2 tk (phase1 tk ta2 iv32_2) iv16_2) :
  ta1 = ta2 /\ iv32_1 = iv32_2 /\ iv16_1 = iv16_2.
Proof.
  assert (Hw : forall ta v, is_addr ta -> words16 (phase1 tk ta v)).
  { intros ta v Hta. destruct (addr_bytes _ Hta) as (b0 & b1 & b2 & b3 & b4 & b5 & -> & ? & ? & ? & ? & ? & ?).
    unfold phase1. apply rounds_words. unfold words16, Lo16, Hi16. cbn [a0 a1 a2 a3 a4 Nat.add].
    split_all; (apply land_ffff_range || by apply Mk16_range). }
  apply phase2_inj, phase2_ppk_inj in Heq as [Hp Hiv]; [|by apply Hw|by apply Hw|done|done].
  apply phase1_start_inj in Hp as [-> ->]; [|done..]. by split_all.
Qed.

Lemma tkip_rc4_key_unique_witness : ta_sample = ta_sample /\ 7 = 7 /\ 9 = 9.
Proof.
  apply (tkip_rc4_key_unique tk_sample ta_sample ta_sample 7 7 9 9);
    [split; [done|repeat (apply Forall_cons_2; [unfold is_byte; lia|]); constructor]..
    |unfold is_u32; lia|unfold is_u32; lia|unfold is_u16; lia|unfold is_u16; lia|done].
Defined.

(** ** The Michael MIC *)

(** The reference definition: the message with its padding, cut into words. *)
Fixpoint mic_words (l : list Z) : list Z :=
  match l with
  | b0 :: b1 :: b2 :: b3 :: l => le32_of b0 b1 b2 b3 :: mic_words l
  | _ => []
  end.
Definition mic_padding (n : Z) : list Z :=
  0x5a :: replicate (4 + Z.to_nat ((- (n + 5)) mod 4)) 0.
Definition mic_blocks (s : Z * Z) (ws : list Z) : Z * Z := foldl (fun s w => mic_block s.1 s.2 w) s ws.
Definition michael (key msg : list Z) : list Z :=
  let k := rtw_secmicsetkey key in
  let '(l, r) := mic_blocks (K0 k, K1 k) (mic_words (msg ++ mic_padding (zlen msg))) in
  le32_bytes l ++ le32_bytes r.

Lemma u32_byte_shift b n : is_byte b -> 0 <= n <= 24 -> u32 (Z.shiftl b n) = Z.shiftl b n.
Proof.
  unfold is_byte. intros Hb Hn. apply u32_id. unfold is_u32. rewrite Z.shiftl_mul_pow2 by lia.
  assert (2 ^ n <= 2 ^ 24) by (apply Z.pow_le_mono_r; lia). change (2 ^ 24) with 16777216 in *.
  pose proof (Z.pow_pos_nonneg 2 n ltac:(lia) ltac:(lia)). nia.
Qed.

Lemma append_word k0 k1 l r b0 b1 b2 b3 :
  is_byte b0 -> is_byte b1 -> is_byte b2 -> is_byte b3 ->
  rtw_secmicappend (mk_mic k0 k1 l r 0 0) [b0; b1; b2; b3] =
    let '(l, r) := mic_block l r (le32_of b0 b1 b2 b3) in mk_mic k0 k1 l r 0 0.
Proof.
  intros H0 H1 H2 H3. unfold rtw_secmicappend, rtw_secmicappendbyte.
  cbn [foldl nBytesInM M L R K0 K1 Z.add Z.leb Z.compare Pos.compare Pos.compare_cont Pos.add Pos.succ Z.mul Pos.mul].
  rewrite !u32_byte_shift by (done || lia). by rewrite Z.shiftl_0_r, Z.lor_0_l.
Qed.

Lemma append_words k0 k1 n : forall msg l r, length msg = (4 * n)%nat -> Forall is_byte msg ->
  rtw_secmicappend (mk_mic k0 k1 l r 0 0) msg =
    let '(l, r) := mic_blocks (l, r) (mic_words msg) in mk_mic k0 k1 l r 0 0.
Proof.
  induction n as [|n IH]; intros msg l r Hn Hb.
  { by destruct msg. }
  destruct msg as [|b0 [|b1 [|b2 [|b3 msg]]]]; try (cbn in Hn; lia).
  apply Forall_cons in Hb as [? Hb]. apply Forall_cons in Hb as [? Hb].
  apply Forall_cons in Hb as [? Hb]. apply Forall_cons in Hb as [? Hb].
  change (b0 :: b1 :: b2 :: b3 :: msg) with ([b0; b1; b2; b3] ++ msg) at 1.
  unfold rtw_secmicappend at 1. rewrite foldl_app. fold (rtw_secmicappend (mk_mic k0 k1 l r 0 0) [b0; b1; b2; b3]).
  rewrite append_word by done. unfold mic_blocks. cbn [mic_words foldl].
  destruct (mic_block l r (le32_of b0 b1 b2 b3)) as [l' r'] eqn:E. cbn [fst snd]. rewrite E.
  apply IH; [cbn in Hn; lia|done].
Qed.

Lemma append_byte_count m b : 0 <= nBytesInM m < 4 ->
  nBytesInM (rtw_secmicappendbyte m b) = (nBytesInM m + 1) mod 4.
Proof.
  intros H. unfold rtw_secmicappendbyte. destruct (Z.leb_spec 4 (nBytesInM m + 1)).
  - destruct (mic_block _ _ _). cbn. replace (nBytesInM m + 1) with 4 by lia. done.
  - cbn. by rewrite Z.mod_small by lia.
Qed.

Lemma append_count msg : forall m, 0 <= nBytesInM m < 4 ->
  nBytesInM (rtw_secmicappend m msg) = (nBytesInM m + zlen msg) mod 4.
Proof.
  induction msg as [|b msg IH]; intros m Hm; cbn [rtw_secmicappend foldl].
  { rewrite zlen_nil, Z.add_0_r. by rewrite Z.mod_small. }
  fold (rtw_secmicappend (rtw_secmicappendbyte m b) msg). rewrite IH.
  - rewrite append_byte_count by done. rewrite Zplus_mod_idemp_l, zlen_cons. f_equal. lia.
  - rewrite append_byte_count by done. apply Z.mod_pos_bound. lia.
Qed.

Lemma mic_pad_spec k : forall fuel m, (k < fuel)%nat -> 0 <= nBytesInM m < 4 ->
  Z.of_nat k = (- nBytesInM m) mod 4 ->
  mic_pad fuel m = Some (rtw_secmicappend m (replicate k 0)).
Proof.
  induction k as [|k IH]; intros [|fuel] m Hf Hm Hk; try lia; cbn [mic_pad].
  - assert (nBytesInM m = 0) as ->; [|done]. dlia.
  - destruct (Z.eqb_spec (nBytesInM m) 0) as [E|_]; [rewrite E in Hk; dlia|]. cbn [negb].
    rewrite IH; [done|lia| |].
    + rewrite append_byte_count by done. apply Z.mod_pos_bound. lia.
    + rewrite append_byte_count by done. dlia.
Qed.

Lemma secmicappend_app m l1 l2 :
  rtw_secmicappend (rtw_secmicappend m l1) l2 = rtw_secmicappend m (l1 ++ l2).
Proof. unfold rtw_secmicappend. by rewrite foldl_app. Qed.

Lemma padding_bytes n : Forall is_byte (mic_padding n).
Proof. unfold mic_padding. constructor; [unfold is_byte; lia|]. apply Forall_replicate. unfold is_byte. lia. Qed.

Lemma getmic_spec key msg : Forall is_byte msg ->
  option_map snd (rtw_secgetmic (rtw_secmicappend (rtw_secmicsetkey key) msg)) = Some (michael key msg).
Proof.
  intros Hb. unfold rtw_secgetmic. rewrite secmicappend_app.
  set (z := Z.to_nat ((- (zlen msg + 5)) mod 4)).
  assert (Hz : 0 <= (- (zlen msg + 5)) mod 4 < 4) by (apply Z.mod_pos_bound; lia).
  assert (Hn : nBytesInM (rtw_secmicappend (rtw_secmicsetkey key) (msg ++ [90; 0; 0; 0; 0])) =
               (zlen msg + 5) mod 4).
  { rewrite append_count by (cbn; lia). rewrite zlen_app. f_equal. }
  rewrite (mic_pad_spec z); [|lia| |].
  - cbn [mbind option_bind option_map snd]. rewrite secmicappend_app. f_equal. unfold michael.
    assert (((msg ++ [90; 0; 0; 0; 0]) ++ replicate z 0) = msg ++ mic_padding (zlen msg)) as ->.
    { rewrite <- app_assoc. f_equal. }
    assert (exists n, length (msg ++ mic_padding (zlen msg)) = (4 * n)%nat) as [n Hlen].
    { exists (Z.to_nat ((zlen msg + 5 + (- (zlen msg + 5)) mod 4) / 4)).
      rewrite length_app. unfold mic_padding. cbn [length]. rewrite length_replicate.
      unfold zlen in *. dlia. }
    unfold rtw_secmicsetkey, secmicclear. cbn [K0 K1].
    rewrite (append_words _ _ n) by (done || (apply Forall_app; split; [done|apply padding_bytes])).
    by destruct (mic_blocks _ _) as [l r].
  - rewrite Hn. apply Z.mod_pos_bound. lia.
  - rewrite Hn. unfold z. dlia.
Qed.

(** The MIC of a frame is the Michael function, over the padded words, of
    its destination and source addresses as the DS bits select them, the
    priority and the data, however these were handed over in pieces. *)
Theorem tkip_mic_spec key header data pri h1 (Hh1 : header !! 1%nat = Some h1) (Hlen : 30 <= zlen header)
    (Hhb : Forall is_byte header) (Hdb : Forall is_byte data) (Hpri : is_byte pri) :
  let tods := Z.testbit h1 0 in
  let fromds := Z.testbit h1 1 in
  exists da sa,
    slice header (if tods then 16 else 4) 6 = Ret da /\
    slice header (if fromds then if tods then 24 else 16 else 10) 6 = Ret sa /\
    rtw_seccalctkipmic key header data pri = Ret (michael key (da ++ sa ++ [pri; 0; 0; 0] ++ data)).
Proof.
  cbn zeta. unfold rtw_seccalctkipmic.
  assert (byte_at header 1 = Ret h1) as -> by (unfold byte_at; rewrite rd_lookup by lia;
    change (Z.to_nat 1) with 1%nat; by rewrite Hh1).
  cbn [mbind res_bind].
  assert (Hbit : forall n, 0 <= n -> negb (Z.land h1 (2 ^ n) =? 0) = Z.testbit h1 n).
  { intros n Hn. pose proof (Z.shiftl_1_l n) as Hp. rewrite <- Hp.
    destruct (Z.testbit h1 n) eqn:E.
    - destruct (Z.eqb_spec (Z.land h1 (Z.shiftl 1 n)) 0) as [H0|]; [|done].
      apply (f_equal (fun z => Z.testbit z n)) in H0.
      rewrite Z.land_spec, Hp, Z.pow2_bits_true, E, Z.bits_0 in H0 by done. done.
    - destruct (Z.eqb_spec (Z.land h1 (Z.shiftl 1 n)) 0) as [|H0]; [done|]. exfalso. apply H0.
      apply Z.bits_inj'. intros k Hk. rewrite Z.land_spec, Hp, Z.pow2_bits_eqb, Z.bits_0 by done.
      destruct (Z.eqb_spec n k) as [->|]; [by rewrite E|by rewrite andb_false_r]. }
  pose proof (Hbit 0 ltac:(lia)) as B0. change (2 ^ 0) with 1 in B0. rewrite B0.
  pose proof (Hbit 1 ltac:(lia)) as B1. change (2 ^ 1) with 2 in B1. rewrite B1.
  assert (Hs : forall off, 0 <= off <= 24 -> exists s, slice header off 6 = Ret s /\ Forall is_byte s).
  { intros off Ho. rewrite slice_some by lia. eexists. split; [done|].
    apply Forall_take, Forall_drop, Hhb. }
  destruct (Hs (if Z.testbit h1 0 then 16 else 4)) as (da & -> & Hda); [by destruct (Z.testbit h1 0)|].
  destruct (Hs (if Z.testbit h1 1 then if Z.testbit h1 0 then 24 else 16 else 10)) as (sa & -> & Hsa);
    [by destruct (Z.testbit h1 1), (Z.testbit h1 0)|].
  exists da, sa. split; [done|]. split; [done|]. cbn [mbind res_bind].
  rewrite !secmicappend_app. rewrite <- ?app_assoc.
  assert (Hall : Forall is_byte (da ++ sa ++ [pri; 0; 0; 0] ++ data)).
  { repeat (apply Forall_app; split; [done|]). apply Forall_app. split; [|done].
    repeat (apply Forall_cons_2; [done || (unfold is_byte; lia)|]). constructor. }
  pose proof (getmic_spec key _ Hall) as Hg.
  destruct (rtw_secgetmic _) as [[m mic]|]; [|done]. cbn in Hg. f_equal. by apply Some_inj in Hg.
Qed.

Definition header_sample : list Z := 8 :: 1 :: seqZ 0 28.
Lemma tkip_mic_spec_witness : exists da sa,
  slice header_sample 16 6 = Ret da /\ slice header_sample 10 6 = Ret sa /\
  rtw_seccalctkipmic tk_sample header_sample [1; 2; 3] 5 =
    Ret (michael tk_sample (da ++ sa ++ [5; 0; 0; 0] ++ [1; 2; 3])).
Proof.
  apply (tkip_mic_spec tk_sample header_sample [1; 2; 3] 5 1).
  - done.
  - by vm_compute.
  - repeat (apply Forall_cons_2; [unfold is_byte; lia|]). constructor.
  - repeat (apply Forall_cons_2; [unfold is_byte; lia|]). constructor.
  - unfold is_byte. lia.
Defined.
End Wep.
