(* ===== verification/RxFrame.v ===== *)
(** * Received frames

    The receive path of the core ([core/rtw_recv.c]) passes a frame on as a
    [recv_frame]: a buffer of the network stack, three pointers into it and what
    earlier steps found out about it.  This file has the frame with the four
    operations that move its pointers ([include/rtw_recv.h]), the fields of the
    802.11 header ([include/wifi.h]) and the packet number of a protected frame
    ([include/rtw_security.h]). *)

From S2P Require Import Prelude Bytes.

Module RxFrame.

(** ** Data *)

(** What [validate_recv_frame] takes from the header. *)
Record frame_ctl := mk_fc {
  to_fr_ds : Z;
  frag_num : Z;
  seq_num : Z;
  pw_save : bool;
  mfrag : bool;
  mdata : bool;
  privacy : bool;
  order : bool;
  qos : bool
}.

Record rx_addrs := mk_addrs {
  dst : list Z;
  src : list Z;
  ta : list Z;
  ra : list Z;
  bssid : list Z
}.

(** [struct rx_pkt_attrib], the fields of the header and the addresses grouped. *)
Record rx_pkt_attrib := mk_attrib {
  fc : frame_ctl;
  addrs : rx_addrs;
  amsdu : bool;
  priority : Z;
  ack_policy : Z;
  hdrlen : Z;
  encrypt : Z;
  iv_len : Z;
  icv_len : Z;
  key_index : Z;
  bdecrypted : bool;
  crc_err : bool;
  icv_err : bool
}.

(** [struct recv_frame_hdr].  [fid] is the frame's place in the pool; [buf] the
    bytes from [rx_head] to [rx_end], [rx_data] and [rx_tail] offsets into it;
    [psta] the station the frame is from; [pkt] whether a packet of the network
    stack is attached, [has_adapter] whether [adapter] was ever set. *)
Record recv_frame := mk_frame {
  fid : Z;
  attrib : rx_pkt_attrib;
  buf : list Z;
  rx_data : Z;
  rx_tail : Z;
  len : Z;
  psta : option Z;
  keytrack : Z;
  pkt : bool;
  has_adapter : bool
}.

Definition set_fc (x : frame_ctl) (a : rx_pkt_attrib) : rx_pkt_attrib :=
  mk_attrib x (addrs a) (amsdu a) (priority a) (ack_policy a) (hdrlen a) (encrypt a) (iv_len a)
    (icv_len a) (key_index a) (bdecrypted a) (crc_err a) (icv_err a).
Definition set_addrs (x : rx_addrs) (a : rx_pkt_attrib) : rx_pkt_attrib :=
  mk_attrib (fc a) x (amsdu a) (priority a) (ack_policy a) (hdrlen a) (encrypt a) (iv_len a)
    (icv_len a) (key_index a) (bdecrypted a) (crc_err a) (icv_err a).
Definition set_amsdu (x : bool) (a : rx_pkt_attrib) : rx_pkt_attrib :=
  mk_attrib (fc a) (addrs a) x (priority a) (ack_policy a) (hdrlen a) (encrypt a) (iv_len a)
    (icv_len a) (key_index a) (bdecrypted a) (crc_err a) (icv_err a).
Definition set_qc (pr ap hl : Z) (a : rx_pkt_attrib) : rx_pkt_attrib :=
  mk_attrib (fc a) (addrs a) (amsdu a) pr ap hl (encrypt a) (iv_len a) (icv_len a) (key_index a)
    (bdecrypted a) (crc_err a) (icv_err a).
Definition set_cipher (e iv icv : Z) (a : rx_pkt_attrib) : rx_pkt_attrib :=
  mk_attrib (fc a) (addrs a) (amsdu a) (priority a) (ack_policy a) (hdrlen a) e iv icv
    (key_index a) (bdecrypted a) (crc_err a) (icv_err a).
Definition set_key_index (x : Z) (a : rx_pkt_attrib) : rx_pkt_attrib :=
  mk_attrib (fc a) (addrs a) (amsdu a) (priority a) (ack_policy a) (hdrlen a) (encrypt a)
    (iv_len a) (icv_len a) x (bdecrypted a) (crc_err a) (icv_err a).
Definition set_bdecrypted (x : bool) (a : rx_pkt_attrib) : rx_pkt_attrib :=
  mk_attrib (fc a) (addrs a) (amsdu a) (priority a) (ack_policy a) (hdrlen a) (encrypt a)
    (iv_len a) (icv_len a) (key_index a) x (crc_err a) (icv_err a).

Definition set_attrib (x : rx_pkt_attrib) (f : recv_frame) : recv_frame :=
  mk_frame (fid f) x (buf f) (rx_data f) (rx_tail f) (len f) (psta f) (keytrack f) (pkt f) (has_adapter f).
Definition map_attrib (g : rx_pkt_attrib -> rx_pkt_attrib) (f : recv_frame) : recv_frame :=
  set_attrib (g (attrib f)) f.
Definition set_buf (x : list Z) (f : recv_frame) : recv_frame :=
  mk_frame (fid f) (attrib f) x (rx_data f) (rx_tail f) (len f) (psta f) (keytrack f) (pkt f) (has_adapter f).
Definition set_ptrs (d t l : Z) (f : recv_frame) : recv_frame :=
  mk_frame (fid f) (attrib f) (buf f) d t l (psta f) (keytrack f) (pkt f) (has_adapter f).
Definition set_psta (x : option Z) (f : recv_frame) : recv_frame :=
  mk_frame (fid f) (attrib f) (buf f) (rx_data f) (rx_tail f) (len f) x (keytrack f) (pkt f) (has_adapter f).
Definition set_keytrack (x : Z) (f : recv_frame) : recv_frame :=
  mk_frame (fid f) (attrib f) (buf f) (rx_data f) (rx_tail f) (len f) (psta f) x (pkt f) (has_adapter f).
Definition set_pkt (x : bool) (f : recv_frame) : recv_frame :=
  mk_frame (fid f) (attrib f) (buf f) (rx_data f) (rx_tail f) (len f) (psta f) (keytrack f) x (has_adapter f).

Definition set_adapter (f : recv_frame) : recv_frame :=
  mk_frame (fid f) (attrib f) (buf f) (rx_data f) (rx_tail f) (len f) (psta f) (keytrack f) (pkt f) true.

Definition a_addr (p : rx_addrs -> list Z) (f : recv_frame) : list Z := p (addrs (attrib f)).
Definition rx_end (f : recv_frame) : Z := zlen (buf f).

(** ** Moving the pointers

    The result is the pointer the function returns, [None] for NULL; then the
    frame is as before. *)

Definition recvframe_push (f : recv_frame) (sz : Z) : recv_frame * option Z :=
  let d := rx_data f - sz in
  if d <? 0 then (f, None) else (set_ptrs d (rx_tail f) (u32 (len f + sz)) f, Some d).

Definition recvframe_pull (f : recv_frame) (sz : Z) : recv_frame * option Z :=
  let d := rx_data f + sz in
  if rx_tail f <? d then (f, None) else (set_ptrs d (rx_tail f) (u32 (len f - sz)) f, Some d).

Definition recvframe_put (f : recv_frame) (sz : Z) : recv_frame * option Z :=
  let t := rx_tail f + sz in
  if rx_end f <? t then (f, None) else (set_ptrs (rx_data f) t (u32 (len f + sz)) f, Some t).

Definition recvframe_pull_tail (f : recv_frame) (sz : Z) : recv_frame * option Z :=
  let t := rx_tail f - sz in
  if t <? rx_data f then (f, None) else (set_ptrs (rx_data f) t (u32 (len f - sz)) f, Some t).

(** ** The header *)

Definition ETH_ALEN : Z := 6.
Definition ETH_HLEN : Z := 14.
Definition WLAN_HDR_A3_LEN : Z := 24.
Definition WLAN_HDR_A3_QOS_LEN : Z := 26.

Definition _TO_DS_ : Z := BIT 8.
Definition _FROM_DS_ : Z := BIT 9.
Definition _MORE_FRAG_ : Z := BIT 10.
Definition _PWRMGT_ : Z := BIT 12.
Definition _MORE_DATA_ : Z := BIT 13.
Definition _PRIVACY_ : Z := BIT 14.
Definition _ORDER_ : Z := BIT 15.

Definition WIFI_MGT_TYPE : Z := 0.
Definition WIFI_CTRL_TYPE : Z := BIT 2.
Definition WIFI_DATA_TYPE : Z := BIT 3.
Definition WIFI_QOS_DATA_TYPE : Z := Z.lor (BIT 7) (BIT 3).

(** A bit of the frame control field [w]. *)
Definition flag (w m : Z) : bool := negb (Z.land w m =? 0).

Definition get_tofr_ds (w : Z) : Z :=
  Z.lor (Z.shiftl (Z.b2z (flag w _TO_DS_)) 1) (Z.b2z (flag w _FROM_DS_)).
Definition GetFrameType (w : Z) : Z := Z.land w (Z.lor (BIT 3) (BIT 2)).
Definition get_frame_sub_type (w : Z) : Z := Z.land w 0xfc.

(** The sequence control field. *)
Definition GetSequence (w : Z) : Z := Z.shiftr w 4.
Definition GetFragNum (w : Z) : Z := Z.land w 0x0f.

(** The QoS control field. *)
Definition GetPriority (w : Z) : Z := Z.land w 0xf.
Definition GetAckpolicy (w : Z) : Z := Z.land (Z.shiftr w 5) 0x3.
Definition GetAMsdu (w : Z) : bool := flag w (BIT 7).

Definition GetAddr1 (f : recv_frame) : res (list Z) := slice (buf f) (rx_data f + 4) ETH_ALEN.
Definition get_addr2 (f : recv_frame) : res (list Z) := slice (buf f) (rx_data f + 10) ETH_ALEN.
Definition GetAddr3 (f : recv_frame) : res (list Z) := slice (buf f) (rx_data f + 16) ETH_ALEN.
Definition GetAddr4 (f : recv_frame) : res (list Z) := slice (buf f) (rx_data f + 24) ETH_ALEN.

Definition IS_MCAST (a : list Z) : bool := flag (a !!! 0%nat) 1.
Definition is_broadcast_mac_addr (a : list Z) : bool := bool_decide (a = replicate 6 0xff).

(** ** Packet numbers *)

(** [le64_to_cpu] of eight bytes. *)
Definition le64 (l : list Z) : Z := foldr (fun b n => Z.lor b (Z.shiftl n 8)) 0 l.
Definition get_le64 (b : list Z) (off : Z) : res Z := x ← slice b off 8; Ret (le64 x).

Definition CCMPH_2_PN (ch : Z) : Z :=
  Z.lor (Z.land ch 0x000000000000ffff) (Z.shiftr (Z.land ch 0xffffffff00000000) 16).
Definition CCMPH_2_KEYID (ch : Z) : Z := Z.shiftr (Z.land ch 0x00000000c0000000) 30.

(** The difference of two [u64]. *)
Definition u64 (x : Z) : Z := x mod 2 ^ 64.
Definition PN_LESS_CHK (a b : Z) : bool := flag (u64 (a - b)) 0x800000000000.
Definition VALID_PN_CHK (new old : Z) : bool := (old =? 0) || PN_LESS_CHK old new.

(** ** Ciphers *)

Definition _NO_PRIVACY_ : Z := 0x00.
Definition _WEP40_ : Z := 0x01.
Definition _TKIP_ : Z := 0x02.
Definition _AES_ : Z := 0x04.
Definition _WEP104_ : Z := 0x05.
Definition _SMS4_ : Z := 0x06.
Definition _GCMP_ : Z := 0x07.
Definition _CCMP_256_ : Z := Z.lor _AES_ 0x10.
Definition _GCMP_256_ : Z := Z.lor _GCMP_ 0x10.

(** [SET_ICE_IV_LEN]: the lengths of the packet number and of the check value. *)
Definition SET_ICE_IV_LEN (encrypt : Z) : Z * Z :=
  if (encrypt =? _WEP40_) || (encrypt =? _WEP104_) then (4, 4)
  else if encrypt =? _TKIP_ then (8, 4)
  else if encrypt =? _AES_ then (8, 8)
  else if (encrypt =? _GCMP_) || (encrypt =? _GCMP_256_) then (8, 16)
  else if encrypt =? _CCMP_256_ then (8, 16)
  else if encrypt =? _SMS4_ then (18, 16)
  else (0, 0).

(** The ciphers whose packet numbers [recvframe_defrag] looks at. *)
Definition pn_cipher (e : Z) : bool :=
  (e =? _AES_) || (e =? _CCMP_256_) || (e =? _GCMP_) || (e =? _GCMP_256_).

(** The packet number of a frame. *)
Definition frame_pn (f : recv_frame) : res Z :=
  h ← get_le64 (buf f) (rx_data f + hdrlen (attrib f)); Ret (CCMPH_2_PN h).

(** ** Well-formed frames *)

Record frame_ok (f : recv_frame) : Prop := {
  fo_data : 0 <= rx_data f <= rx_tail f;
  fo_tail : rx_tail f <= rx_end f;
  fo_end : rx_end f < 2 ^ 31;
  fo_len : len f = rx_tail f - rx_data f;
  fo_bytes : Forall is_byte (buf f)
}.

#[export] Instance is_byte_dec x : Decision (is_byte x).
Proof. unfold is_byte. apply _. Defined.

#[export] Instance frame_ok_dec f : Decision (frame_ok f).
Proof.
  refine (cast_if (decide (0 <= rx_data f <= rx_tail f /\ rx_tail f <= rx_end f /\ rx_end f < 2 ^ 31 /\
    len f = rx_tail f - rx_data f /\ Forall is_byte (buf f)))).
  - abstract (split; tauto).
  - abstract (intros [? ? ? ? ?]; tauto).
Defined.

(** The bytes of the frame. *)
Definition content (f : recv_frame) : list Z :=
  ztake (rx_tail f - rx_data f) (zdrop (rx_data f) (buf f)).

(** ** Lemmas *)

Lemma res_bind_Ret {A B} (x : res A) (g : A -> res B) y :
  (x ≫= g) = Ret y -> exists a, x = Ret a /\ g a = Ret y.
Proof. destruct x; cbn; intros E; [eauto|done|done]. Qed.

(** Takes a computation that ended with a value apart at its first step. *)
Ltac bind_inv H :=
  let a := fresh "x" in let E := fresh "E" in
  apply res_bind_Ret in H as (a & E & H); cbv beta in H.

Definition sub (off n : Z) (b : list Z) : list Z := ztake n (zdrop off b).

Lemma content_sub f : content f = sub (rx_data f) (rx_tail f - rx_data f) (buf f).
Proof. done. Qed.

Lemma zlen_sub off n b : 0 <= off -> 0 <= n -> off + n <= zlen b -> zlen (sub off n b) = n.
Proof. intros. unfold sub. rewrite zlen_ztake; [done|]. rewrite zlen_zdrop by lia. lia. Qed.

Lemma zdrop_ztake {A} (b : list A) n m : 0 <= n -> zdrop n (ztake m b) = ztake (m - n) (zdrop n b).
Proof.
  intros. unfold zdrop, ztake.
  destruct (Z.le_gt_cases n m).
  - rewrite skipn_firstn_comm. f_equal. lia.
  - rewrite (drop_ge (take _ _)) by (rewrite length_take; lia).
    by replace (Z.to_nat (m - n)) with 0%nat by lia.
Qed.

Lemma ztake_ztake {A} (b : list A) n m : n <= m -> ztake n (ztake m b) = ztake n b.
Proof. intros. unfold ztake. rewrite take_take. f_equal. lia. Qed.

Lemma sub_drop off n k b : 0 <= off -> 0 <= k -> zdrop k (sub off n b) = sub (off + k) (n - k) b.
Proof. intros. unfold sub. rewrite zdrop_ztake, zdrop_zdrop by lia. done. Qed.

Lemma sub_take off n k b : k <= n -> ztake k (sub off n b) = sub off k b.
Proof. intros. unfold sub. by apply ztake_ztake. Qed.

Lemma slice_sub b off n : 0 <= off -> 0 <= n -> off + n <= zlen b -> slice b off n = Ret (sub off n b).
Proof. intros. by apply slice_some. Qed.

Lemma slice_inv b off n x : slice b off n = Ret x ->
  0 <= off /\ 0 <= n /\ off + n <= zlen b /\ x = sub off n b.
Proof.
  unfold slice. destruct (Z.leb_spec 0 off); [|done]. destruct (Z.leb_spec 0 n); [|done].
  destruct (Z.leb_spec (off + n) (zlen b)); [|done]. cbn. by intros [= <-].
Qed.

Lemma sub_bytes off n b : Forall is_byte b -> Forall is_byte (sub off n b).
Proof. intros. by apply Forall_take, Forall_drop. Qed.

(** A write and what is read elsewhere. *)
Lemma blit_ok b off s : 0 <= off -> off + zlen s <= zlen b ->
  blit b off s = Ret (ztake off b ++ s ++ zdrop (off + zlen s) b).
Proof.
  intros. unfold blit. destruct (Z.leb_spec 0 off); [|lia].
  by destruct (Z.leb_spec (off + zlen s) (zlen b)); [|lia].
Qed.

Lemma blit_inv b off s b' : blit b off s = Ret b' ->
  0 <= off /\ off + zlen s <= zlen b /\ b' = ztake off b ++ s ++ zdrop (off + zlen s) b.
Proof.
  unfold blit. destruct (Z.leb_spec 0 off); [|done].
  destruct (Z.leb_spec (off + zlen s) (zlen b)); [|done]. cbn. by intros [= <-].
Qed.

Lemma blit_len b off s b' : blit b off s = Ret b' -> zlen b' = zlen b.
Proof.
  intros (Ho & Hl & ->)%blit_inv. pose proof (zlen_nonneg s). rewrite !zlen_app, zlen_ztake, zlen_zdrop; lia.
Qed.

Lemma blit_bytes b off s b' : blit b off s = Ret b' -> Forall is_byte b -> Forall is_byte s ->
  Forall is_byte b'.
Proof.
  intros (Ho & Hl & ->)%blit_inv Hb Hs. apply Forall_app. split; [by apply Forall_take|].
  apply Forall_app. split; [done|]. by apply Forall_drop.
Qed.

(** Reading where nothing was written. *)
Lemma sub_blit_other b off s b' o n : blit b off s = Ret b' -> 0 <= o -> 0 <= n ->
  o + n <= off \/ off + zlen s <= o -> sub o n b' = sub o n b.
Proof.
  intros (Ho & Hl & ->)%blit_inv Hoo Hn Hd. pose proof (zlen_nonneg s). unfold sub. destruct Hd as [Hd|Hd].
  - assert (E : forall r, ztake n (zdrop o (ztake off b ++ r)) = ztake n (zdrop o (ztake off b))).
    { intros r. unfold ztake, zdrop, zlen in *. rewrite drop_app_le by (rewrite length_take; lia).
      rewrite take_app_le; [done|]. rewrite length_drop, length_take. lia. }
    rewrite E, zdrop_ztake by lia. rewrite ztake_ztake by lia. done.
  - f_equal. rewrite app_assoc. unfold zdrop, ztake, zlen in *.
    rewrite drop_app_ge by (rewrite length_app, length_take; lia).
    rewrite drop_drop. f_equal. rewrite length_app, length_take. lia.
Qed.

(** Reading what was written. *)
Lemma sub_blit_same b off s b' : blit b off s = Ret b' -> sub off (zlen s) b' = s.
Proof.
  intros (Ho & Hl & ->)%blit_inv. pose proof (zlen_nonneg s). unfold sub.
  rewrite zdrop_app by (rewrite zlen_ztake; lia). by rewrite ztake_app.
Qed.

(** Two pieces that follow each other. *)
Lemma sub_app off n m b : 0 <= off -> 0 <= n -> 0 <= m -> off + n + m <= zlen b ->
  sub off (n + m) b = sub off n b ++ sub (off + n) m b.
Proof.
  intros. rewrite <- (ztake_zdrop n (sub off (n + m) b)), sub_take by lia. f_equal.
  rewrite sub_drop by lia. f_equal. lia.
Qed.

Lemma zlen_content f : frame_ok f -> zlen (content f) = len f.
Proof. intros [? ? ? -> _]. rewrite content_sub. apply zlen_sub; unfold rx_end in *; lia. Qed.

Lemma frame_ok_set f d t : frame_ok f -> 0 <= d <= t -> t <= rx_end f -> frame_ok (set_ptrs d t (t - d) f).
Proof. intros [? ? ? ? ?] ? ?. split; done. Qed.

Lemma frame_len_u32 f x : frame_ok f -> 0 <= x < 2 ^ 31 -> u32 x = x.
Proof. intros. apply u32_id. unfold is_u32. lia. Qed.

Section moves.
Context (f : recv_frame) (Hf : frame_ok f) (n : Z) (Hn : 0 <= n).
Local Ltac ranges := destruct Hf as [? ? ? Hl ?]; unfold rx_end in *; pose proof (zlen_nonneg (buf f)).

Lemma pull_ret : n <= len f ->
  recvframe_pull f n = (set_ptrs (rx_data f + n) (rx_tail f) (len f - n) f, Some (rx_data f + n)).
Proof.
  intros. ranges. unfold recvframe_pull. destruct (Z.ltb_spec (rx_tail f) (rx_data f + n)); [lia|].
  by rewrite u32_id by (unfold is_u32; lia).
Qed.

Lemma pull_null : len f < n -> recvframe_pull f n = (f, None).
Proof.
  intros. ranges. unfold recvframe_pull. by destruct (Z.ltb_spec (rx_tail f) (rx_data f + n)); [|lia].
Qed.

Lemma pull_tail_ret : n <= len f ->
  recvframe_pull_tail f n = (set_ptrs (rx_data f) (rx_tail f - n) (len f - n) f, Some (rx_tail f - n)).
Proof.
  intros. ranges. unfold recvframe_pull_tail. destruct (Z.ltb_spec (rx_tail f - n) (rx_data f)); [lia|].
  by rewrite u32_id by (unfold is_u32; lia).
Qed.

Lemma pull_tail_null : len f < n -> recvframe_pull_tail f n = (f, None).
Proof.
  intros. ranges. unfold recvframe_pull_tail. by destruct (Z.ltb_spec (rx_tail f - n) (rx_data f)); [|lia].
Qed.

Lemma put_ret : rx_tail f + n <= rx_end f ->
  recvframe_put f n = (set_ptrs (rx_data f) (rx_tail f + n) (len f + n) f, Some (rx_tail f + n)).
Proof.
  intros. ranges. unfold recvframe_put, rx_end. destruct (Z.ltb_spec (zlen (buf f)) (rx_tail f + n)); [lia|].
  by rewrite u32_id by (unfold is_u32; lia).
Qed.

Lemma push_ret : n <= rx_data f ->
  recvframe_push f n = (set_ptrs (rx_data f - n) (rx_tail f) (len f + n) f, Some (rx_data f - n)).
Proof.
  intros. ranges. unfold recvframe_push. destruct (Z.ltb_spec (rx_data f - n) 0); [lia|].
  by rewrite u32_id by (unfold is_u32; lia).
Qed.

Lemma pull_frame_ok : frame_ok (fst (recvframe_pull f n)).
Proof.
  destruct (Z.le_gt_cases n (len f)).
  - rewrite pull_ret by done. ranges. cbn. rewrite Hl.
    replace (rx_tail f - rx_data f - n) with (rx_tail f - (rx_data f + n)) by lia.
    apply frame_ok_set; [done|lia|done].
  - by rewrite pull_null.
Qed.

Lemma pull_tail_frame_ok : frame_ok (fst (recvframe_pull_tail f n)).
Proof.
  destruct (Z.le_gt_cases n (len f)).
  - rewrite pull_tail_ret by done. ranges. cbn. rewrite Hl.
    replace (rx_tail f - rx_data f - n) with (rx_tail f - n - rx_data f) by lia.
    apply frame_ok_set; [done|lia|unfold rx_end; lia].
  - by rewrite pull_tail_null.
Qed.

Lemma pull_content : n <= len f -> content (fst (recvframe_pull f n)) = zdrop n (content f).
Proof.
  intros. rewrite pull_ret by done. ranges. cbn. rewrite !content_sub. cbn.
  rewrite sub_drop by lia. f_equal. lia.
Qed.

Lemma pull_tail_content : n <= len f ->
  content (fst (recvframe_pull_tail f n)) = ztake (len f - n) (content f).
Proof.
  intros. rewrite pull_tail_ret by done. ranges. cbn. rewrite !content_sub. cbn.
  rewrite sub_take by lia. f_equal. lia.
Qed.
End moves.

(** The operations leave everything but the pointers as it is. *)
Lemma pull_attrib f n : attrib (fst (recvframe_pull f n)) = attrib f.
Proof. unfold recvframe_pull. by case_match. Qed.
Lemma pull_buf f n : buf (fst (recvframe_pull f n)) = buf f.
Proof. unfold recvframe_pull. by case_match. Qed.
Lemma pull_tail_attrib f n : attrib (fst (recvframe_pull_tail f n)) = attrib f.
Proof. unfold recvframe_pull_tail. by case_match. Qed.
Lemma pull_tail_buf f n : buf (fst (recvframe_pull_tail f n)) = buf f.
Proof. unfold recvframe_pull_tail. by case_match. Qed.
Lemma pull_fid f n : fid (fst (recvframe_pull f n)) = fid f.
Proof. unfold recvframe_pull. by case_match. Qed.
Lemma pull_tail_fid f n : fid (fst (recvframe_pull_tail f n)) = fid f.
Proof. unfold recvframe_pull_tail. by case_match. Qed.
Lemma put_fid f n : fid (fst (recvframe_put f n)) = fid f.
Proof. unfold recvframe_put. by case_match. Qed.
Create Rewrite HintDb rxframe.
#[export] Hint Rewrite pull_attrib pull_buf pull_tail_attrib pull_tail_buf pull_fid pull_tail_fid put_fid : rxframe.

End RxFrame.
