(* ===== verification/RxState.v ===== *)
(** * The state of the receive path

    The stations of an interface with what the receive path remembers of them, the
    security state, the pool of frames, and the look-up of a station by address
    ([core/rtw_sta_mgt.c]).  Effects on other parts of the driver and on the
    network stack are recorded in a log of events. *)

From stdpp Require Import gmap.
From S2P Require Import Prelude Bytes RxFrame.

Module RxState.
Import RxFrame.

(** ** Data *)

(** [struct security_priv], the fields the receive path uses.  [iv_seq] has four
    [u64] the driver stores in little-endian order. *)
Record security_priv := mk_sec {
  dot11AuthAlgrthm : Z;
  dot11PrivacyAlgrthm : Z;
  dot118021XGrpPrivacy : Z;
  dot11PrivacyKeyIndex : Z;
  dot118021XGrpKeyid : Z;
  busetkipkey : bool;
  binstallGrpkey : bool;
  bcheck_grpkey : bool;
  hw_decrypted : bool;
  iv_seq : list Z;
  dot11DefKeylen : list Z;
  dot11DefKey : list (list Z);
  dot118021XGrpKey : list (list Z);
  dot118021XGrprxmickey : list (list Z)
}.
Definition set_bcheck_grpkey (x : bool) (s : security_priv) : security_priv :=
  mk_sec (dot11AuthAlgrthm s) (dot11PrivacyAlgrthm s) (dot118021XGrpPrivacy s)
    (dot11PrivacyKeyIndex s) (dot118021XGrpKeyid s) (busetkipkey s) (binstallGrpkey s) x
    (hw_decrypted s) (iv_seq s) (dot11DefKeylen s) (dot11DefKey s) (dot118021XGrpKey s)
    (dot118021XGrprxmickey s).
Definition set_hw_decrypted (x : bool) (s : security_priv) : security_priv :=
  mk_sec (dot11AuthAlgrthm s) (dot11PrivacyAlgrthm s) (dot118021XGrpPrivacy s)
    (dot11PrivacyKeyIndex s) (dot118021XGrpKeyid s) (busetkipkey s) (binstallGrpkey s)
    (bcheck_grpkey s) x (iv_seq s) (dot11DefKeylen s) (dot11DefKey s) (dot118021XGrpKey s)
    (dot118021XGrprxmickey s).
Definition set_iv_seq (x : list Z) (s : security_priv) : security_priv :=
  mk_sec (dot11AuthAlgrthm s) (dot11PrivacyAlgrthm s) (dot118021XGrpPrivacy s)
    (dot11PrivacyKeyIndex s) (dot118021XGrpKeyid s) (busetkipkey s) (binstallGrpkey s)
    (bcheck_grpkey s) (hw_decrypted s) x (dot11DefKeylen s) (dot11DefKey s) (dot118021XGrpKey s)
    (dot118021XGrprxmickey s).

(** [struct sta_recv_priv] with its [stainfo_rxcache] ([tid_rxseq], [iv],
    [last_tid]); the fragments of an MSDU in the order of the queue. *)
Record sta_recv_priv := mk_srp {
  tid_rxseq : list Z;
  iv : list (list Z);
  last_tid : Z;
  bmc_tid_rxseq : list Z;
  nonqos_rxseq : Z;
  nonqos_bmc_rxseq : Z;
  defrag_q : list recv_frame
}.
Definition set_tid_rxseq (x : list Z) (r : sta_recv_priv) : sta_recv_priv :=
  mk_srp x (iv r) (last_tid r) (bmc_tid_rxseq r) (nonqos_rxseq r) (nonqos_bmc_rxseq r)
    (defrag_q r).
Definition set_bmc_tid_rxseq (x : list Z) (r : sta_recv_priv) : sta_recv_priv :=
  mk_srp (tid_rxseq r) (iv r) (last_tid r) x (nonqos_rxseq r) (nonqos_bmc_rxseq r) (defrag_q r).
Definition set_nonqos_rxseq (x : Z) (r : sta_recv_priv) : sta_recv_priv :=
  mk_srp (tid_rxseq r) (iv r) (last_tid r) (bmc_tid_rxseq r) x (nonqos_bmc_rxseq r) (defrag_q r).
Definition set_nonqos_bmc_rxseq (x : Z) (r : sta_recv_priv) : sta_recv_priv :=
  mk_srp (tid_rxseq r) (iv r) (last_tid r) (bmc_tid_rxseq r) (nonqos_rxseq r) x (defrag_q r).
Definition set_defrag_q (x : list recv_frame) (r : sta_recv_priv) : sta_recv_priv :=
  mk_srp (tid_rxseq r) (iv r) (last_tid r) (bmc_tid_rxseq r) (nonqos_rxseq r) (nonqos_bmc_rxseq r)
    x.
Definition set_rxcache_iv (l : list (list Z)) (t : Z) (r : sta_recv_priv) : sta_recv_priv :=
  mk_srp (tid_rxseq r) l t (bmc_tid_rxseq r) (nonqos_rxseq r) (nonqos_bmc_rxseq r) (defrag_q r).

(** [struct sta_info], the fields the receive path uses.  [phl_sta] is the pointer
    to the station of phl with its address. *)
Record sta_info := mk_sta {
  phl_sta : option (Z * list Z);
  flags : Z;
  state : Z;
  ieee8021x_blocked : bool;
  dot118021XPrivacy : Z;
  sta_recvpriv : sta_recv_priv;
  sta_keytrack : Z;
  sta_hw_decrypted : bool;
  duplicate_cnt : Z;
  qos_option : bool;
  qos_info : Z;
  uapsd_bk : Z;
  uapsd_vi : Z;
  uapsd_vo : Z;
  uapsd_be : Z;
  sleepq_ac_len : Z;
  dot11tkiprxmickey : list Z;
  dot118021x_UncstKey : list Z
}.
Definition set_state (x : Z) (s : sta_info) : sta_info :=
  mk_sta (phl_sta s) (flags s) x (ieee8021x_blocked s) (dot118021XPrivacy s) (sta_recvpriv s)
    (sta_keytrack s) (sta_hw_decrypted s) (duplicate_cnt s) (qos_option s) (qos_info s)
    (uapsd_bk s) (uapsd_vi s) (uapsd_vo s) (uapsd_be s) (sleepq_ac_len s) (dot11tkiprxmickey s)
    (dot118021x_UncstKey s).
Definition set_sta_recvpriv (x : sta_recv_priv) (s : sta_info) : sta_info :=
  mk_sta (phl_sta s) (flags s) (state s) (ieee8021x_blocked s) (dot118021XPrivacy s) x
    (sta_keytrack s) (sta_hw_decrypted s) (duplicate_cnt s) (qos_option s) (qos_info s)
    (uapsd_bk s) (uapsd_vi s) (uapsd_vo s) (uapsd_be s) (sleepq_ac_len s) (dot11tkiprxmickey s)
    (dot118021x_UncstKey s).
Definition set_sta_hw_decrypted (x : bool) (s : sta_info) : sta_info :=
  mk_sta (phl_sta s) (flags s) (state s) (ieee8021x_blocked s) (dot118021XPrivacy s)
    (sta_recvpriv s) (sta_keytrack s) x (duplicate_cnt s) (qos_option s) (qos_info s) (uapsd_bk s)
    (uapsd_vi s) (uapsd_vo s) (uapsd_be s) (sleepq_ac_len s) (dot11tkiprxmickey s)
    (dot118021x_UncstKey s).
Definition set_duplicate_cnt (x : Z) (s : sta_info) : sta_info :=
  mk_sta (phl_sta s) (flags s) (state s) (ieee8021x_blocked s) (dot118021XPrivacy s)
    (sta_recvpriv s) (sta_keytrack s) (sta_hw_decrypted s) x (qos_option s) (qos_info s)
    (uapsd_bk s) (uapsd_vi s) (uapsd_vo s) (uapsd_be s) (sleepq_ac_len s) (dot11tkiprxmickey s)
    (dot118021x_UncstKey s).
Definition map_recvpriv (g : sta_recv_priv -> sta_recv_priv) (s : sta_info) : sta_info :=
  set_sta_recvpriv (g (sta_recvpriv s)) s.

(** [struct rtw_wifi_role_t]: address, type, and what [rtw_phl_get_stainfo_self]
    gives for it. *)
Record wifi_role := mk_role { mac_addr : list Z; type : Z; phl_sta_self : option Z }.

(** What the receive path does to the rest of the driver, and what it gives to the
    network stack. *)
Inductive event :=
| IssueDeauth (addr : list Z) (reason : Z)
| StopStaXmit (p : Z)
| WakeupSta (p : Z)
| DeliverEnabledFrames (p : Z)
| IssueQosNull (addr : list Z) (pr : Z)
| CountRxStats (p : option Z) (sz : Z)
| TkipMicErr (p : Z) (group : bool)
| MgntFrame (f : recv_frame)
| CtrlFrame (f : recv_frame)
| FreeNullFrame
| Indicate (packet : list Z)
| Forward (dest : list Z) (packet : list Z).

(** [struct _ADAPTER], the part the receive path uses.  [mac] is
    [adapter_mac_addr]; [now] the time in milliseconds; [deauth_time] and
    [deauth_time_legacy] the static variables [send_issue_deauth_time] of
    [rtw_sta_rx_data_validate_hdr] and [ap2sta_data_frame]; [asoc_list] the stations
    of an access point; [mem] whether the next allocations of packets succeed (they
    do when it is used up). *)
Record adapter := mk_adapter {
  mac : list Z;
  cur_bssid : list Z;
  fw_state : Z;
  phl_role : option wifi_role;
  sta_hash : list (list Z);
  stas : gmap Z sta_info;
  securitypriv : security_priv;
  mlme_key_index : Z;
  amsdu_mode : Z;
  asoc_list : list Z;
  asoc_list_cnt : Z;
  b2u_flags_ap_fwd : Z;
  wifi_spec : bool;
  free_xmitframe_cnt : Z;
  mem : list bool;
  radar_detected : bool;
  up : bool;
  now : Z;
  deauth_time_nolink : Z;
  deauth_time_legacy : Z;
  free_recv_queue : list recv_frame;
  free_recvframe_cnt : Z;
  log : list event
}.
Definition set_stas (x : gmap Z sta_info) (ad : adapter) : adapter :=
  mk_adapter (mac ad) (cur_bssid ad) (fw_state ad) (phl_role ad) (sta_hash ad) x (securitypriv ad)
    (mlme_key_index ad) (amsdu_mode ad) (asoc_list ad) (asoc_list_cnt ad) (b2u_flags_ap_fwd ad)
    (wifi_spec ad) (free_xmitframe_cnt ad) (mem ad) (radar_detected ad) (up ad) (now ad)
    (deauth_time_nolink ad) (deauth_time_legacy ad) (free_recv_queue ad) (free_recvframe_cnt ad)
    (log ad).
Definition set_securitypriv (x : security_priv) (ad : adapter) : adapter :=
  mk_adapter (mac ad) (cur_bssid ad) (fw_state ad) (phl_role ad) (sta_hash ad) (stas ad) x
    (mlme_key_index ad) (amsdu_mode ad) (asoc_list ad) (asoc_list_cnt ad) (b2u_flags_ap_fwd ad)
    (wifi_spec ad) (free_xmitframe_cnt ad) (mem ad) (radar_detected ad) (up ad) (now ad)
    (deauth_time_nolink ad) (deauth_time_legacy ad) (free_recv_queue ad) (free_recvframe_cnt ad)
    (log ad).
Definition set_free_xmitframe_cnt (x : Z) (ad : adapter) : adapter :=
  mk_adapter (mac ad) (cur_bssid ad) (fw_state ad) (phl_role ad) (sta_hash ad) (stas ad)
    (securitypriv ad) (mlme_key_index ad) (amsdu_mode ad) (asoc_list ad) (asoc_list_cnt ad)
    (b2u_flags_ap_fwd ad) (wifi_spec ad) x (mem ad) (radar_detected ad) (up ad) (now ad)
    (deauth_time_nolink ad) (deauth_time_legacy ad) (free_recv_queue ad) (free_recvframe_cnt ad)
    (log ad).
Definition set_mem (x : list bool) (ad : adapter) : adapter :=
  mk_adapter (mac ad) (cur_bssid ad) (fw_state ad) (phl_role ad) (sta_hash ad) (stas ad)
    (securitypriv ad) (mlme_key_index ad) (amsdu_mode ad) (asoc_list ad) (asoc_list_cnt ad)
    (b2u_flags_ap_fwd ad) (wifi_spec ad) (free_xmitframe_cnt ad) x (radar_detected ad) (up ad)
    (now ad) (deauth_time_nolink ad) (deauth_time_legacy ad) (free_recv_queue ad)
    (free_recvframe_cnt ad) (log ad).
Definition set_deauth_time_nolink (x : Z) (ad : adapter) : adapter :=
  mk_adapter (mac ad) (cur_bssid ad) (fw_state ad) (phl_role ad) (sta_hash ad) (stas ad)
    (securitypriv ad) (mlme_key_index ad) (amsdu_mode ad) (asoc_list ad) (asoc_list_cnt ad)
    (b2u_flags_ap_fwd ad) (wifi_spec ad) (free_xmitframe_cnt ad) (mem ad) (radar_detected ad)
    (up ad) (now ad) x (deauth_time_legacy ad) (free_recv_queue ad) (free_recvframe_cnt ad)
    (log ad).
Definition set_deauth_time_legacy (x : Z) (ad : adapter) : adapter :=
  mk_adapter (mac ad) (cur_bssid ad) (fw_state ad) (phl_role ad) (sta_hash ad) (stas ad)
    (securitypriv ad) (mlme_key_index ad) (amsdu_mode ad) (asoc_list ad) (asoc_list_cnt ad)
    (b2u_flags_ap_fwd ad) (wifi_spec ad) (free_xmitframe_cnt ad) (mem ad) (radar_detected ad)
    (up ad) (now ad) (deauth_time_nolink ad) x (free_recv_queue ad) (free_recvframe_cnt ad)
    (log ad).
Definition set_log (x : list event) (ad : adapter) : adapter :=
  mk_adapter (mac ad) (cur_bssid ad) (fw_state ad) (phl_role ad) (sta_hash ad) (stas ad)
    (securitypriv ad) (mlme_key_index ad) (amsdu_mode ad) (asoc_list ad) (asoc_list_cnt ad)
    (b2u_flags_ap_fwd ad) (wifi_spec ad) (free_xmitframe_cnt ad) (mem ad) (radar_detected ad)
    (up ad) (now ad) (deauth_time_nolink ad) (deauth_time_legacy ad) (free_recv_queue ad)
    (free_recvframe_cnt ad) x.
Definition emit (e : event) (ad : adapter) : adapter := set_log (log ad ++ [e]) ad.
Definition upd_sta (p : Z) (g : sta_info -> sta_info) (ad : adapter) : adapter :=
  set_stas (alter g p (stas ad)) ad.
Definition upd_sec (g : security_priv -> security_priv) (ad : adapter) : adapter :=
  set_securitypriv (g (securitypriv ad)) ad.

(** The outcome of an allocation. *)
Definition alloc_mem (ad : adapter) : adapter * bool :=
  match mem ad with [] => (ad, true) | b :: l => (set_mem l ad, b) end.

(** ** The state of the interface *)

Definition WIFI_ASOC_STATE : Z := 0x1.
Definition WIFI_SLEEP_STATE : Z := 0x4.
Definition WIFI_STATION_STATE : Z := 0x8.
Definition WIFI_AP_STATE : Z := 0x10.
Definition WIFI_ADHOC_STATE : Z := 0x20.
Definition WIFI_ADHOC_MASTER_STATE : Z := 0x40.
Definition WIFI_UNDER_LINKING : Z := 0x80.
Definition WIFI_MP_STATE : Z := 0x10000.
Definition WIFI_MONITOR_STATE : Z := 0x80000000.

Definition check_fwstate (ad : adapter) (st : Z) : bool :=
  (st =? 0) && (fw_state ad =? 0) || flag (fw_state ad) st.
Definition MLME_IS_STA (ad : adapter) : bool := check_fwstate ad WIFI_STATION_STATE.
Definition MLME_IS_AP (ad : adapter) : bool := check_fwstate ad WIFI_AP_STATE.

Definition dot11AuthAlgrthm_Open : Z := 0.
Definition dot11AuthAlgrthm_Shared : Z := 1.
Definition dot11AuthAlgrthm_8021X : Z := 2.
Definition dot11AuthAlgrthm_Auto : Z := 3.
Definition dot11AuthAlgrthm_WAPI : Z := 4.

(** ** Stations by address *)

Definition NUM_STA : Z := 32.

Definition wifi_mac_hash (m : list Z) : Z :=
  let x := foldl (fun x b => Z.lxor (u32 (Z.shiftl x 2)) b) (m !!! 0%nat) (take 5 (drop 1 m)) in
  Z.land (Z.lxor x (Z.shiftr x 8)) (NUM_STA - 1).

(** The roles whose stations are all in one bucket. *)
Definition PHL_RTYPE_NONE : Z := 0.
Definition PHL_RTYPE_STATION : Z := 1.
Definition PHL_RTYPE_ADHOC : Z := 4.
Definition PHL_RTYPE_P2P_DEVICE : Z := 8.
Definition PHL_RTYPE_P2P_GC : Z := 9.
Definition self_bucket (ty : Z) : bool :=
  bool_decide (ty ∈ [PHL_RTYPE_NONE; PHL_RTYPE_STATION; PHL_RTYPE_ADHOC; PHL_RTYPE_P2P_DEVICE; PHL_RTYPE_P2P_GC]).

(** The walk over a bucket. *)
Fixpoint sta_search (ad : adapter) (self : option Z) (hwaddr : list Z) (l : list Z) : option Z :=
  match l with
  | [] => None
  | p :: l =>
      match stas ad !! p with
      | None => None
      | Some s =>
          match phl_sta s with
          | None => sta_search ad self hwaddr l
          | Some (ps, a) =>
              if IS_MCAST hwaddr && bool_decide (self = Some ps) || bool_decide (a = hwaddr)
              then Some p else sta_search ad self hwaddr l
          end
      end
  end.

Definition rtw_get_stainfo (ad : adapter) (hwaddr : list Z) : option Z :=
  role ← phl_role ad;
  if IS_MCAST hwaddr then
    match phl_sta_self role with
    | None => None
    | Some self =>
        l ← rd (sta_hash ad) (wifi_mac_hash (mac_addr role)); sta_search ad (Some self) hwaddr l
    end
  else
    let index := wifi_mac_hash (if self_bucket (type role) then mac_addr role else hwaddr) in
    l ← rd (sta_hash ad) index; sta_search ad None hwaddr l.

Definition rtw_get_bcmc_stainfo (ad : adapter) : option Z := rtw_get_stainfo ad (replicate 6 0xff).

(** ** The pool of frames

    A frame that is handed out keeps the attributes of its last use. *)

Definition NR_RECVFRAME : Z := 256.

Definition set_pool (l : list recv_frame) (n : Z) (ad : adapter) : adapter :=
  mk_adapter (mac ad) (cur_bssid ad) (fw_state ad) (phl_role ad) (sta_hash ad) (stas ad)
    (securitypriv ad) (mlme_key_index ad) (amsdu_mode ad) (asoc_list ad) (asoc_list_cnt ad)
    (b2u_flags_ap_fwd ad) (wifi_spec ad) (free_xmitframe_cnt ad) (mem ad) (radar_detected ad)
    (up ad) (now ad) (deauth_time_nolink ad) (deauth_time_legacy ad) l n (log ad).

Definition rtw_alloc_recvframe (ad : adapter) : adapter * option recv_frame :=
  match free_recv_queue ad with
  | [] => (ad, None)
  | f :: l => (set_pool l (free_recvframe_cnt ad - 1) ad, Some f)
  end.

(** The packet, and with it the buffer, is freed with the frame. *)
Definition freed (f : recv_frame) : recv_frame :=
  mk_frame (fid f) (attrib f) [] 0 0 0 (psta f) (keytrack f) false (has_adapter f).

(** NULL is reported. *)
Definition rtw_free_recvframe (ad : adapter) (f : option recv_frame) : adapter :=
  match f with
  | None => emit FreeNullFrame ad
  | Some f => set_pool (free_recv_queue ad ++ [freed f]) (free_recvframe_cnt ad + 1) ad
  end.

Definition rtw_free_recvframe_queue (ad : adapter) (q : list recv_frame) : adapter :=
  foldl (fun ad f => rtw_free_recvframe ad (Some f)) ad q.

(** [rtw_init_recv_priv]: all frames are free, their memory is zero. *)
Definition frame0 (i : Z) : recv_frame :=
  mk_frame i (mk_attrib (mk_fc 0 0 0 false false false false false false)
    (mk_addrs (replicate 6 0) (replicate 6 0) (replicate 6 0) (replicate 6 0) (replicate 6 0))
    false 0 0 0 0 0 0 0 false false false) [] 0 0 0 None 0 false false.
Definition rtw_init_recv_priv (ad : adapter) : adapter :=
  set_pool (frame0 <$> seqZ 0 NR_RECVFRAME) NR_RECVFRAME ad.

(** [_rtw_init_sta_recv_priv], and what [rtw_alloc_stainfo] sets after it. *)
Definition _rtw_init_sta_recv_priv : sta_recv_priv :=
  mk_srp (replicate 16 0) (replicate 16 (replicate 8 0)) 0 (replicate 16 0) 0 0 [].
Definition init_rxcache (r : sta_recv_priv) : sta_recv_priv :=
  mk_srp (replicate 16 0xffff) (replicate 16 (replicate 8 0)) (last_tid r) (replicate 16 0xffff)
    (nonqos_rxseq r) (nonqos_bmc_rxseq r) (defrag_q r).

(** ** Sample data

    A station of a protected network with its access point as the only entry of
    its directory. *)

Definition own_mac : list Z := [0x00; 0xe0; 0x4c; 0x01; 0x02; 0x03].
Definition ap_mac : list Z := [0x00; 0x11; 0x22; 0x33; 0x44; 0x55].
Definition bcast_mac : list Z := replicate 6 0xff.

Definition sample_sec (auth privacy : Z) : security_priv :=
  mk_sec auth privacy privacy 0 1 true true false false (replicate 4 0) (replicate 6 5)
    (replicate 6 (replicate 32 0)) (replicate 6 (replicate 32 0)) (replicate 6 (replicate 32 0)).

Definition sample_sta (privacy : Z) : sta_info :=
  mk_sta (Some (100, ap_mac)) 0 WIFI_ASOC_STATE false privacy (init_rxcache _rtw_init_sta_recv_priv)
    0 false 0 true 0 0 0 0 0 0 (replicate 32 0) (replicate 32 0).

Definition sample_ad (auth privacy : Z) : adapter :=
  rtw_init_recv_priv
    (mk_adapter own_mac ap_mac (Z.lor WIFI_STATION_STATE WIFI_ASOC_STATE)
      (Some (mk_role own_mac PHL_RTYPE_STATION (Some 100)))
      (<[Z.to_nat (wifi_mac_hash own_mac) := [7]]> (replicate 32 []))
      {[ 7 := sample_sta privacy ]} (sample_sec auth privacy) 1 0 [7] 1 0 false 1256 [] false true
      1000 0 0 [] 0 []).

Example sample_lookup : rtw_get_stainfo (sample_ad 0 0) ap_mac = Some 7.
Proof. vm_compute. reflexivity. Qed.

(** A data frame from the access point: frame control, fragment number, QoS or not,
    receiver and body. *)
Definition sample_bytes (fctl seqctl : Z) (ra : list Z) (body : list Z) : list Z :=
  put_le16 fctl ++ [0; 0] ++ ra ++ ap_mac ++ ap_mac ++ put_le16 seqctl ++ body.

(** A frame of the pool, last used with the cipher [e], with these bytes received
    into it. *)
Definition sample_frame (i e : Z) (bytes : list Z) (room : nat) : recv_frame :=
  set_adapter (set_pkt true (map_attrib (set_cipher e 0 0)
    (set_ptrs 0 (zlen bytes) (zlen bytes) (set_buf (bytes ++ replicate room 0) (frame0 i))))).

(** The packet number [pn] under the key [k], with the extended-IV bit. *)
Definition ccmp_header (pn k : Z) : list Z :=
  [pn mod 256; pn / 256 mod 256; 0; 0x20 + 64 * k; pn / 65536 mod 256; pn / 2 ^ 24 mod 256;
   pn / 2 ^ 32 mod 256; pn / 2 ^ 40 mod 256].

(** An LLC header with its type, and some data. *)
Definition llc (ty : Z) : list Z := [0xaa; 0xaa; 0x03; 0x00; 0x00; 0x00] ++ put_be16 ty.

End RxState.
