(* ===== verification/RxCheck.v ===== *)
(** * Checks on received data frames

    [validate_recv_frame] and [validate_recv_data_frame] of [core/rtw_recv.c] with
    what they call: the addresses of a frame in each mode of the interface
    ([rtw_ap_rx_data_validate_hdr] is in [core/rtw_ap.c]), the detection of
    duplicates and replays, the choice of the cipher, and the rules on unprotected
    frames. *)

From Stdlib Require Import Sorting.Sorted.
From stdpp Require Import gmap.
From S2P Require Import Prelude Bytes RxFrame RxState.

Module RxCheck.
Import RxFrame RxState.

Inductive verdict := FAIL | SUCCESS | RX_HANDLED.
#[export] Instance verdict_eq_dec : EqDecision verdict.
Proof. solve_decision. Defined.

(** The station a pointer leads to. *)
Definition sta_at (ad : adapter) (o : option Z) : res (Z * sta_info) :=
  match o with
  | Some p => match stas ad !! p with Some s => Ret (p, s) | None => Oob end
  | None => Oob
  end.

Definition of_opt {A} (o : option A) : res A := match o with Some x => Ret x | None => Oob end.

(** ** Duplicates *)

(** The cache a frame is compared with. *)
Inductive rxseq := BmcTid (tid : Z) | Tid (tid : Z) | NonqosBmc | Nonqos.

Definition rxseq_get (r : sta_recv_priv) (c : rxseq) : res Z :=
  match c with
  | BmcTid t => of_opt (rd (bmc_tid_rxseq r) t)
  | Tid t => of_opt (rd (tid_rxseq r) t)
  | NonqosBmc => Ret (nonqos_bmc_rxseq r)
  | Nonqos => Ret (nonqos_rxseq r)
  end.

Definition rxseq_set (c : rxseq) (x : Z) (r : sta_recv_priv) : sta_recv_priv :=
  match c with
  | BmcTid t => set_bmc_tid_rxseq (<[Z.to_nat t := x]> (bmc_tid_rxseq r)) r
  | Tid t => set_tid_rxseq (<[Z.to_nat t := x]> (tid_rxseq r)) r
  | NonqosBmc => set_nonqos_bmc_rxseq x r
  | Nonqos => set_nonqos_rxseq x r
  end.

Definition rxseq_of (a : rx_pkt_attrib) : rxseq :=
  if qos (fc a) then
    if IS_MCAST (ra (addrs a)) then BmcTid (priority a) else Tid (priority a)
  else if IS_MCAST (ra (addrs a)) then NonqosBmc else Nonqos.

Definition seq_ctrl (a : rx_pkt_attrib) : Z :=
  u16 (Z.lor (Z.shiftl (Z.land (seq_num (fc a)) 0xffff) 4) (Z.land (frag_num (fc a)) 0xf)).

Definition recv_decache (ad : adapter) (f : recv_frame) : res (adapter * verdict) :=
  '(p, s) ← sta_at ad (psta f);
  let a := attrib f in
  if 15 <? priority a then Ret (ad, FAIL)
  else
    old ← rxseq_get (sta_recvpriv s) (rxseq_of a);
    if seq_ctrl a =? old
    then Ret (upd_sta p (fun s => set_duplicate_cnt (duplicate_cnt s + 1) s) ad, FAIL)
    else Ret (upd_sta p (map_recvpriv (rxseq_set (rxseq_of a) (seq_ctrl a))) ad, SUCCESS).

(** ** Replays *)

(** A frame with an old packet number is not refused. *)
Definition recv_ucast_pn_decache (ad : adapter) (f : recv_frame) : res (adapter * verdict) :=
  '(p, s) ← sta_at ad (psta f);
  let tid := priority (attrib f) in
  if 15 <? tid then Ret (ad, FAIL)
  else if encrypt (attrib f) =? _AES_ then
    h ← slice (buf f) (rx_data f + hdrlen (attrib f)) 8;
    cur ← of_opt (rd (iv (sta_recvpriv s)) tid);
    if VALID_PN_CHK (CCMPH_2_PN (le64 h)) (CCMPH_2_PN (le64 cur))
    then Ret (upd_sta p (map_recvpriv (fun r =>
                set_rxcache_iv (<[Z.to_nat tid := h]> (iv r)) tid r)) ad, SUCCESS)
    else Ret (ad, SUCCESS)
  else Ret (ad, SUCCESS).

Definition recv_bcast_pn_decache (ad : adapter) (f : recv_frame) : res (adapter * verdict) :=
  if (encrypt (attrib f) =? _AES_) && MLME_IS_STA ad then
    h ← get_le64 (buf f) (rx_data f + hdrlen (attrib f));
    let key_id := CCMPH_2_KEYID h in
    let pkt_pn := CCMPH_2_PN h in
    cur ← of_opt (rd (iv_seq (securitypriv ad)) key_id);
    if negb (VALID_PN_CHK pkt_pn (Z.land cur 0x0000ffffffffffff)) then Ret (ad, FAIL)
    else Ret (upd_sec (fun s => set_iv_seq (<[Z.to_nat key_id := pkt_pn]> (iv_seq s)) s) ad, SUCCESS)
  else Ret (ad, SUCCESS).

(** ** Addresses and the station

    The result is the station found, if any, and the verdict. *)

Definition WLAN_REASON_CLASS3_FRAME_FROM_NONASSOC_STA : Z := 7.
Definition deauth (a : list Z) (ad : adapter) : adapter :=
  emit (IssueDeauth a WLAN_REASON_CLASS3_FRAME_FROM_NONASSOC_STA) ad.

(** Whether more than ten seconds passed since the last time, or there was none. *)
Definition may_deauth (ad : adapter) (t : Z) : bool := (10000 <? u32 (now ad - t)) || (t =? 0).

Definition with_addrs (g : rx_addrs -> rx_addrs) (f : recv_frame) : recv_frame :=
  map_attrib (fun a => set_addrs (g (addrs a)) a) f.

(** The addresses in the order of an MP-mode frame. *)
Definition mp_addrs (f : recv_frame) : res recv_frame :=
  a1 ← GetAddr1 f; a2 ← get_addr2 f; a3 ← GetAddr3 f;
  Ret (with_addrs (fun _ => mk_addrs a1 a2 a2 a1 a3) f).

Definition zero_mac : list Z := replicate 6 0.

Definition sta2sta_data_frame (ad : adapter) (f : recv_frame)
    : res (adapter * recv_frame * option Z * verdict) :=
  let a := addrs (attrib f) in
  if check_fwstate ad WIFI_ADHOC_STATE || check_fwstate ad WIFI_ADHOC_MASTER_STATE then
    if bool_decide (mac ad = src a) then Ret (ad, f, None, FAIL)
    else if negb (bool_decide (mac ad = dst a)) && negb (IS_MCAST (dst a)) then Ret (ad, f, None, FAIL)
    else if bool_decide (bssid a = zero_mac) || bool_decide (cur_bssid ad = zero_mac)
            || negb (bool_decide (bssid a = cur_bssid ad)) then Ret (ad, f, None, FAIL)
    else
      match rtw_get_stainfo ad (ta a) with
      | None => Ret (ad, f, None, FAIL)
      | Some p => Ret (ad, f, Some p, SUCCESS)
      end
  else if check_fwstate ad WIFI_MP_STATE then
    f ← mp_addrs f;
    match rtw_get_stainfo ad (cur_bssid ad) with
    | None => Ret (ad, f, None, FAIL)
    | Some p => Ret (ad, f, Some p, SUCCESS)
    end
  else Ret (ad, f, rtw_get_stainfo ad (ta a), FAIL).

Definition ap2sta_data_frame (ad : adapter) (f : recv_frame)
    : res (adapter * recv_frame * option Z * verdict) :=
  let a := addrs (attrib f) in
  if check_fwstate ad WIFI_MP_STATE && check_fwstate ad WIFI_ASOC_STATE then
    f ← mp_addrs f;
    match rtw_get_stainfo ad (a_addr bssid f) with
    | None => Ret (ad, f, None, FAIL)
    | Some p => Ret (ad, f, Some p, SUCCESS)
    end
  else if bool_decide (mac ad = dst a) && negb (IS_MCAST (dst a)) then
    match rtw_get_stainfo ad (ta a) with
    | None =>
        let ad := if may_deauth ad (deauth_time_legacy ad)
                  then deauth (bssid a) (set_deauth_time_legacy (now ad) ad) else ad in
        Ret (ad, f, None, FAIL)
    | Some p => Ret (ad, f, Some p, FAIL)
    end
  else Ret (ad, f, None, FAIL).

Definition sta2ap_data_frame (ad : adapter) (f : recv_frame)
    : res (adapter * recv_frame * option Z * verdict) :=
  let a := addrs (attrib f) in
  if check_fwstate ad WIFI_MP_STATE && check_fwstate ad WIFI_ASOC_STATE then
    f ← mp_addrs f;
    match rtw_get_stainfo ad (a_addr bssid f) with
    | None => Ret (ad, f, None, FAIL)
    | Some p => Ret (ad, f, Some p, SUCCESS)
    end
  else if negb (bool_decide (ra a = mac ad)) then Ret (ad, f, None, RX_HANDLED)
  else Ret (deauth (src a) ad, f, None, RX_HANDLED).

(** The frame control field of a frame. *)
Definition frame_control (f : recv_frame) : res Z := get_le16 (buf f) (rx_data f).

Definition rtw_sta_rx_data_validate_hdr (ad : adapter) (f : recv_frame)
    : res (adapter * recv_frame * option Z * verdict) :=
  a1 ← GetAddr1 f;
  a2 ← get_addr2 f;
  let is_ra_bmc := IS_MCAST a1 in
  if to_fr_ds (fc (attrib f)) =? 0 then
    a3 ← GetAddr3 f;
    let f := with_addrs (fun _ => mk_addrs a1 a2 a2 a1 a3) f in
    if negb (bool_decide (a3 = a2)) then Ret (ad, f, None, FAIL)
    else match rtw_get_stainfo ad a2 with
         | None => Ret (ad, f, None, FAIL)
         | Some p => Ret (ad, f, Some p, SUCCESS)
         end
  else if negb (flag (fw_state ad) (Z.lor WIFI_ASOC_STATE WIFI_UNDER_LINKING)) then
    let ad := if negb is_ra_bmc && may_deauth ad (deauth_time_nolink ad)
              then deauth a2 (set_deauth_time_nolink (now ad) ad) else ad in
    Ret (ad, f, None, FAIL)
  else
    let f := with_addrs (fun x => mk_addrs (dst x) (src x) a2 a1 (bssid x)) f in
    let ds := to_fr_ds (fc (attrib f)) in
    if negb ((ds =? 1) || (ds =? 3)) then Ret (ad, f, None, RX_HANDLED)
    else
      a3 ← GetAddr3 f;
      a4 ← (if ds =? 3 then GetAddr4 f else Ret []);
      let f := with_addrs (fun x => if ds =? 1 then mk_addrs a1 a3 (ta x) (ra x) a2
                                    else mk_addrs a3 a4 (ta x) (ra x) a2) f in
      if negb (amsdu (attrib f)) && bool_decide (mac ad = a_addr src f) then Ret (ad, f, None, FAIL)
      else
        match rtw_get_stainfo ad a2 with
        | None =>
            let ad := if negb is_ra_bmc && negb (radar_detected ad) then deauth a2 ad else ad in
            Ret (ad, f, None, FAIL)
        | Some p =>
            w ← frame_control f;
            if flag (get_frame_sub_type w) (BIT 6)
            then Ret (emit (CountRxStats (Some p) (len f)) ad, f, Some p, RX_HANDLED)
            else Ret (ad, f, Some p, SUCCESS)
        end.

(** ** Power saving of an access point's stations

    The queues of a sleeping station belong to the transmit path; here they are
    events, and the sleep state of the station. *)

Definition sta_to_sleep (p : Z) (ad : adapter) : adapter :=
  upd_sta p (fun s => set_state (Z.lor (state s) WIFI_SLEEP_STATE) s) (emit (StopStaXmit p) ad).
Definition sta_awake (p : Z) (ad : adapter) : adapter :=
  upd_sta p (fun s => if flag (state s) WIFI_SLEEP_STATE
                      then set_state (Z.lxor (state s) WIFI_SLEEP_STATE) s else s)
    (emit (WakeupSta p) ad).

Definition process_pwrbit_data (ad : adapter) (f : recv_frame) (p : Z) : res adapter :=
  '(_, s) ← sta_at ad (Some p);
  w ← frame_control f;
  if flag w _PWRMGT_ then
    Ret (if negb (flag (state s) WIFI_SLEEP_STATE) then sta_to_sleep p ad else ad)
  else Ret (if flag (state s) WIFI_SLEEP_STATE then sta_awake p ad else ad).

(** The access category's bit for triggered frames. *)
Definition wmmps_ac (s : sta_info) (pr : Z) : Z :=
  if (pr =? 1) || (pr =? 2) then Z.land (uapsd_bk s) (BIT 1)
  else if (pr =? 4) || (pr =? 5) then Z.land (uapsd_vi s) (BIT 1)
  else if (pr =? 6) || (pr =? 7) then Z.land (uapsd_vo s) (BIT 1)
  else Z.land (uapsd_be s) (BIT 1).

Definition process_wmmps_data (ad : adapter) (f : recv_frame) (p : Z) : res adapter :=
  '(_, s) ← sta_at ad (Some p);
  if negb (qos_option s) then Ret ad
  else if Z.land (qos_info s) 0xf =? 0 then Ret ad
  else if negb (flag (state s) WIFI_SLEEP_STATE) then Ret ad
  else if wmmps_ac s (priority (attrib f)) =? 0 then Ret ad
  else if 0 <? sleepq_ac_len s then Ret (emit (DeliverEnabledFrames p) ad)
  else match phl_sta s with
       | None => Oob
       | Some (_, m) => Ret (emit (IssueQosNull m (u16 (priority (attrib f)))) ad)
       end.

Definition rtw_ap_rx_data_validate_hdr (ad : adapter) (f : recv_frame)
    : res (adapter * recv_frame * option Z * verdict) :=
  if negb (flag (fw_state ad) WIFI_ASOC_STATE) then Ret (ad, f, None, FAIL)
  else
    let ds := to_fr_ds (fc (attrib f)) in
    if negb ((ds =? 2) || (ds =? 3)) then Ret (ad, f, None, RX_HANDLED)
    else
      a1 ← GetAddr1 f;
      let is_ra_bmc := IS_MCAST a1 in
      if (ds =? 2) && is_ra_bmc then Ret (ad, f, None, FAIL)
      else
        a2 ← get_addr2 f;
        a3 ← GetAddr3 f;
        a4 ← (if ds =? 3 then GetAddr4 f else Ret []);
        let f := with_addrs (fun x =>
                   if ds =? 2 then mk_addrs a3 a2 a2 a1 a1
                   else mk_addrs a3 a4 a2 a1 (if is_ra_bmc then bssid x else a1)) f in
        let is_ra_bmc := (ds =? 3) && is_ra_bmc in
        match rtw_get_stainfo ad a2 with
        | None =>
            let ad := if negb is_ra_bmc && negb (radar_detected ad) then deauth a2 ad else ad in
            Ret (ad, f, None, RX_HANDLED)
        | Some p =>
            ad ← process_pwrbit_data ad f p;
            w ← frame_control f;
            ad ← (if Z.land (get_frame_sub_type w) WIFI_QOS_DATA_TYPE =? WIFI_QOS_DATA_TYPE
                  then process_wmmps_data ad f p else Ret ad);
            if flag (get_frame_sub_type w) (BIT 6)
            then Ret (emit (CountRxStats (Some p) (len f)) ad, f, Some p, RX_HANDLED)
            else Ret (ad, f, Some p, SUCCESS)
        end.

(** ** Data frames *)

Definition WLAN_STA_AMSDU_DISABLE : Z := BIT 18.
Definition LLC_HEADER_SIZE : Z := 6.
Definition eapol_type : Z := 0x888e.

(** [GET_ENCRY_ALGO]: the cipher of a protected frame. *)
Definition GET_ENCRY_ALGO (sec : security_priv) (s : sta_info) (old : Z) (bmcst : bool) : Z :=
  let alg := dot11AuthAlgrthm sec in
  if (alg =? dot11AuthAlgrthm_Open) || (alg =? dot11AuthAlgrthm_Shared)
     || (alg =? dot11AuthAlgrthm_Auto) then u8 (dot11PrivacyAlgrthm sec)
  else if alg =? dot11AuthAlgrthm_8021X then
    if bmcst then u8 (dot118021XGrpPrivacy sec) else u8 (dot118021XPrivacy s)
  else if alg =? dot11AuthAlgrthm_WAPI then u8 (dot11PrivacyAlgrthm sec)
  else old.

(** The addresses and the station, by the mode of the interface. *)
Definition validate_hdr (ad : adapter) (f : recv_frame)
    : res (adapter * recv_frame * option Z * verdict) :=
  if MLME_IS_AP ad then rtw_ap_rx_data_validate_hdr ad f
  else if MLME_IS_STA ad then rtw_sta_rx_data_validate_hdr ad f
  else
    let ds := to_fr_ds (fc (attrib f)) in
    if ds =? 3 then Ret (ad, f, None, FAIL)
    else
      a1 ← GetAddr1 f; a2 ← get_addr2 f; a3 ← GetAddr3 f;
      if ds =? 0 then sta2sta_data_frame ad (with_addrs (fun _ => mk_addrs a1 a2 a2 a1 a3) f)
      else if ds =? 1 then ap2sta_data_frame ad (with_addrs (fun _ => mk_addrs a1 a3 a2 a1 a2) f)
      else sta2ap_data_frame ad (with_addrs (fun _ => mk_addrs a3 a2 a2 a1 a1) f).

(** The address 4 field shifts what follows. *)
Definition a4_shift (f : recv_frame) : Z := if to_fr_ds (fc (attrib f)) =? 3 then ETH_ALEN else 0.

(** The QoS control field. *)
Definition qos_control (f : recv_frame) : res Z :=
  get_le16 (buf f) (rx_data f + WLAN_HDR_A3_LEN + a4_shift f).

(** Priority, ack policy and header length. *)
Definition parse_qc (f : recv_frame) : res recv_frame :=
  let htc := if order (fc (attrib f)) then 4 else 0 in
  if qos (fc (attrib f)) then
    w ← qos_control f;
    Ret (map_attrib (set_qc (GetPriority w) (GetAckpolicy w) (WLAN_HDR_A3_QOS_LEN + a4_shift f + htc)) f)
  else Ret (map_attrib (set_qc 0 0 (WLAN_HDR_A3_LEN + a4_shift f + htc)) f).

(** The cipher of the frame and the lengths that go with it. *)
Definition choose_cipher (ad : adapter) (s : sta_info) (f : recv_frame) : recv_frame :=
  let a := attrib f in
  if privacy (fc a) then
    let e := GET_ENCRY_ALGO (securitypriv ad) s (encrypt a) (IS_MCAST (ra (addrs a))) in
    let '(iv, icv) := SET_ICE_IV_LEN e in map_attrib (set_cipher e iv icv) f
  else map_attrib (set_cipher 0 0 0) f.

(** The type field behind the LLC header, where it is when nothing is encrypted. *)
Definition ether_type (f : recv_frame) : res Z :=
  get_be16 (buf f) (rx_data f + hdrlen (attrib f) + iv_len (attrib f) + LLC_HEADER_SIZE).

(** The rules on unprotected frames in a protected network. *)
Definition protected_check (ad : adapter) (s : sta_info) (f : recv_frame) : res verdict :=
  let a := attrib f in
  let sec := securitypriv ad in
  if dot11PrivacyAlgrthm sec =? _NO_PRIVACY_ then Ret SUCCESS
  else if IS_MCAST (ra (addrs a)) then Ret (if negb (privacy (fc a)) then FAIL else SUCCESS)
  else
    ty ← ether_type f;
    if dot11AuthAlgrthm sec =? dot11AuthAlgrthm_8021X then
      if negb (privacy (fc a)) && negb (ty =? eapol_type) then Ret FAIL
      else if negb (privacy (fc a)) && amsdu a then Ret FAIL
      else if (ty =? eapol_type) && MLME_IS_AP ad && (dot118021XPrivacy s =? _NO_PRIVACY_)
              && negb (bool_decide (mac ad = dst (addrs a))) then Ret FAIL
      else Ret SUCCESS
    else Ret (if negb (privacy (fc a)) then FAIL else SUCCESS).

(** What follows the addresses: duplicates and replays, cipher, protection. *)
Definition validate_data_body (ad : adapter) (f : recv_frame) (p : Z)
    : res (adapter * recv_frame * verdict) :=
  '(_, s) ← sta_at ad (Some p);
  if flag (flags s) WLAN_STA_AMSDU_DISABLE && amsdu (attrib f) then Ret (ad, f, FAIL)
  else
    f ← parse_qc (set_psta (Some p) f);
    '(ad, v) ← recv_decache ad f;
    if bool_decide (v = FAIL) then Ret (ad, f, FAIL)
    else
      '(ad, v) ← (if negb (IS_MCAST (a_addr ra f)) then recv_ucast_pn_decache ad f
                  else recv_bcast_pn_decache ad f);
      if bool_decide (v = FAIL) then Ret (ad, f, FAIL)
      else
        let f := choose_cipher ad s f in
        v ← protected_check ad s f;
        Ret (ad, f, v).

Definition validate_recv_data_frame (ad : adapter) (f : recv_frame)
    : res (adapter * recv_frame * verdict) :=
  am ← (if qos (fc (attrib f)) then w ← qos_control f; Ret (GetAMsdu w) else Ret false);
  let f := map_attrib (set_amsdu am) f in
  '(ad, f, o, v) ← validate_hdr ad f;
  if bool_decide (v = SUCCESS) then
    match o with
    | None => Ret (ad, f, FAIL)
    | Some p => validate_data_body ad f p
    end
  else Ret (ad, f, v).

(** ** All frames *)

(** Only a data frame goes further. *)
Definition validate_recv_frame (ad : adapter) (f : recv_frame) : res (adapter * recv_frame * verdict) :=
  w ← frame_control f;
  if negb (Z.land w 3 =? 0) then Ret (ad, f, FAIL)
  else
    sc ← get_le16 (buf f) (rx_data f + 22);
    let ty := GetFrameType w in
    let f := map_attrib (set_fc (mk_fc (get_tofr_ds w) (GetFragNum sc) (GetSequence sc)
               (flag w _PWRMGT_) (flag w _MORE_FRAG_) (flag w _MORE_DATA_) (flag w _PRIVACY_)
               (flag w _ORDER_) (qos (fc (attrib f))))) f in
    if ty =? WIFI_MGT_TYPE then Ret (emit (MgntFrame f) ad, f, FAIL)
    else if ty =? WIFI_CTRL_TYPE then Ret (emit (CtrlFrame f) ad, f, FAIL)
    else if ty =? WIFI_DATA_TYPE then
      let c := fc (attrib f) in
      let f := map_attrib (set_fc (mk_fc (to_fr_ds c) (frag_num c) (seq_num c) (pw_save c) (mfrag c)
                 (mdata c) (privacy c) (order c) (flag (get_frame_sub_type w) (BIT 7)))) f in
      validate_recv_data_frame ad f
    else Ret (ad, f, FAIL).

(** ** Lemmas

    What the checks leave as it is: the settings of the interface, and of the frame
    all but the addresses. *)

#[local] Opaque CCMPH_2_PN CCMPH_2_KEYID VALID_PN_CHK le64.

Definition settings (ad : adapter) :=
  (mac ad, fw_state ad, dot11AuthAlgrthm (securitypriv ad), dot11PrivacyAlgrthm (securitypriv ad)).

Lemma settings_sta p g ad : settings (upd_sta p g ad) = settings ad.
Proof. done. Qed.
Lemma settings_emit e ad : settings (emit e ad) = settings ad.
Proof. done. Qed.

Lemma settings_iv_seq g ad : settings (upd_sec (fun s => set_iv_seq (g s) s) ad) = settings ad.
Proof. done. Qed.

Lemma decache_settings ad f ad' v : recv_decache ad f = Ret (ad', v) -> settings ad' = settings ad.
Proof.
  unfold recv_decache. intros H. bind_inv H. destruct x as [p s]. case_match; [by injection H as <- <-|].
  bind_inv H. case_match; by injection H as <- <-.
Qed.

Lemma ucast_pn_settings ad f ad' v : recv_ucast_pn_decache ad f = Ret (ad', v) -> settings ad' = settings ad.
Proof.
  unfold recv_ucast_pn_decache. intros H. bind_inv H. destruct x as [p s].
  case_match; [by injection H as <- <-|]. case_match; [|by injection H as <- <-].
  do 2 bind_inv H. destruct (VALID_PN_CHK _ _); injection H as <- <-; [apply settings_sta|reflexivity].
Qed.

Lemma bcast_pn_settings ad f ad' v : recv_bcast_pn_decache ad f = Ret (ad', v) -> settings ad' = settings ad.
Proof.
  unfold recv_bcast_pn_decache. intros H. case_match; [|by injection H as <- <-].
  do 2 bind_inv H. destruct (negb _); injection H as <- <-; [reflexivity|apply settings_iv_seq].
Qed.

(** Only addresses change. *)
Definition addrs_only (f f' : recv_frame) : Prop := exists g, f' = with_addrs g f.

Lemma addrs_only_refl f : addrs_only f f.
Proof. exists id. by destruct f as [? []]. Qed.
Lemma addrs_only_with f g : addrs_only f (with_addrs g f).
Proof. by exists g. Qed.
Lemma addrs_only_trans f1 f2 f3 : addrs_only f1 f2 -> addrs_only f2 f3 -> addrs_only f1 f3.
Proof. intros [g ->] [h ->]. by exists (h ∘ g). Qed.
#[local] Hint Resolve addrs_only_refl addrs_only_with addrs_only_trans : wifi.

Lemma mp_addrs_only f f' : mp_addrs f = Ret f' -> addrs_only f f'.
Proof. unfold mp_addrs. intros H. do 3 bind_inv H. injection H as <-. auto with wifi. Qed.

(** The validation of a header. *)
Definition hdr_kept (ad : adapter) (f : recv_frame) (r : res (adapter * recv_frame * option Z * verdict)) : Prop :=
  forall ad' f' o v, r = Ret (ad', f', o, v) -> settings ad' = settings ad /\ addrs_only f f'.

Ltac kept := match goal with
  | H : Ret (_, _, _, _) = Ret (_, _, _, _) |- _ =>
      injection H as <- <- <- <-; split; [repeat case_match; reflexivity|eauto with wifi]
  end.

Lemma sta2sta_kept ad f : hdr_kept ad f (sta2sta_data_frame ad f).
Proof.
  intros ad' f' o v H. unfold sta2sta_data_frame in H. repeat (case_match; [try kept..|]); try kept.
  all: repeat case_match; try kept.
  all: bind_inv H; pose proof (mp_addrs_only _ _ E); repeat case_match; kept.
Qed.

Lemma ap2sta_kept ad f : hdr_kept ad f (ap2sta_data_frame ad f).
Proof.
  intros ad' f' o v H. unfold ap2sta_data_frame in H. case_match.
  - bind_inv H. pose proof (mp_addrs_only _ _ E). repeat case_match; kept.
  - repeat case_match; kept.
Qed.

Lemma sta2ap_kept ad f : hdr_kept ad f (sta2ap_data_frame ad f).
Proof.
  intros ad' f' o v H. unfold sta2ap_data_frame in H. case_match.
  - bind_inv H. pose proof (mp_addrs_only _ _ E). repeat case_match; kept.
  - repeat case_match; kept.
Qed.

Lemma sta_hdr_kept ad f : hdr_kept ad f (rtw_sta_rx_data_validate_hdr ad f).
Proof.
  intros ad' f' o v H. unfold rtw_sta_rx_data_validate_hdr in H. do 2 bind_inv H. cbv zeta in H.
  case_match; [bind_inv H; repeat case_match; kept|].
  case_match; [kept|]. case_match; [kept|]. do 2 bind_inv H.
  case_match; [kept|]. case_match; [|kept]. bind_inv H. case_match; kept.
Qed.

Lemma pwrbit_settings ad f p ad' : process_pwrbit_data ad f p = Ret ad' -> settings ad' = settings ad.
Proof.
  unfold process_pwrbit_data. intros H. bind_inv H. destruct x. bind_inv H.
  repeat case_match; injection H as <-; done.
Qed.

Lemma wmmps_settings ad f p ad' : process_wmmps_data ad f p = Ret ad' -> settings ad' = settings ad.
Proof.
  unfold process_wmmps_data. intros H. bind_inv H. destruct x.
  repeat (case_match; try done); injection H as <-; done.
Qed.

Lemma ap_hdr_kept ad f : hdr_kept ad f (rtw_ap_rx_data_validate_hdr ad f).
Proof.
  intros ad' f' o v H. unfold rtw_ap_rx_data_validate_hdr in H.
  case_match; [kept|]. cbv zeta in H. case_match; [kept|]. bind_inv H. case_match; [kept|].
  do 3 bind_inv H. case_match; [|kept]. do 3 bind_inv H.
  assert (Hs : settings x5 = settings ad).
  { rewrite <- (pwrbit_settings _ _ _ _ E3).
    destruct (_ =? WIFI_QOS_DATA_TYPE) in E5; [by eapply wmmps_settings|congruence]. }
  destruct (flag _ (BIT 6)); injection H as <- <- <- <-; (split; [exact Hs|eauto with wifi]).
Qed.

Lemma validate_hdr_kept ad f : hdr_kept ad f (validate_hdr ad f).
Proof.
  intros ad' f' o v H. unfold validate_hdr in H.
  case_match; [by eapply ap_hdr_kept|]. case_match; [by eapply sta_hdr_kept|].
  cbv zeta in H. case_match; [kept|]. do 3 bind_inv H.
  repeat case_match.
  - apply sta2sta_kept in H as [? ?]. eauto with wifi.
  - apply ap2sta_kept in H as [? ?]. eauto with wifi.
  - apply sta2ap_kept in H as [? ?]. eauto with wifi.
Qed.

Lemma parse_qc_kept f f' : parse_qc f = Ret f' ->
  fc (attrib f') = fc (attrib f) /\ addrs (attrib f') = addrs (attrib f) /\
  amsdu (attrib f') = amsdu (attrib f) /\ buf f' = buf f /\ rx_data f' = rx_data f /\
  rx_tail f' = rx_tail f /\ len f' = len f.
Proof.
  unfold parse_qc. intros H. destruct (qos _); [bind_inv H|]; injection H as <-; done.
Qed.

Lemma choose_cipher_kept ad s f :
  fc (attrib (choose_cipher ad s f)) = fc (attrib f) /\
  addrs (attrib (choose_cipher ad s f)) = addrs (attrib f) /\
  amsdu (attrib (choose_cipher ad s f)) = amsdu (attrib f) /\
  buf (choose_cipher ad s f) = buf f /\ rx_data (choose_cipher ad s f) = rx_data f /\
  rx_tail (choose_cipher ad s f) = rx_tail f /\ len (choose_cipher ad s f) = len f.
Proof.
  unfold choose_cipher. destruct (privacy _); [|done]. by destruct (SET_ICE_IV_LEN _).
Qed.

(** What an accepted frame went through. *)
Lemma data_body_success ad f p ad' f' : validate_data_body ad f p = Ret (ad', f', SUCCESS) ->
  exists s f1, stas ad !! p = Some s /\ parse_qc (set_psta (Some p) f) = Ret f1 /\
    settings ad' = settings ad /\ f' = choose_cipher ad' s f1 /\
    protected_check ad' s f' = Ret SUCCESS.
Proof.
  unfold validate_data_body. intros H. bind_inv H. destruct x as [p' s].
  unfold sta_at in E. destruct (stas ad !! p) as [s'|] eqn:Es; [|done]. injection E as -> ->.
  destruct (_ && _); [done|]. bind_inv H. rename x into f1, E into Eq.
  bind_inv H. destruct x as [ad1 v1]. rename E into Ed.
  destruct (bool_decide_reflect (v1 = FAIL)); [done|].
  bind_inv H. destruct x as [ad2 v2]. rename E into Ep.
  destruct (bool_decide_reflect (v2 = FAIL)); [done|].
  bind_inv H. injection H as -> <- ->. exists s, f1.
  assert (Hs : settings ad' = settings ad).
  { rewrite <- (decache_settings _ _ _ _ Ed).
    destruct (negb _); [by eapply ucast_pn_settings|by eapply bcast_pn_settings]. }
  split_all.
Qed.

Lemma data_frame_success ad f ad' f' : validate_recv_data_frame ad f = Ret (ad', f', SUCCESS) ->
  settings ad' = settings ad /\ fc (attrib f') = fc (attrib f) /\ buf f' = buf f /\
  exists s, protected_check ad' s f' = Ret SUCCESS.
Proof.
  unfold validate_recv_data_frame. intros H. bind_inv H. bind_inv H. destruct x0 as [[[ad1 f1] o] v].
  apply validate_hdr_kept in E0 as [Hs [g ->]].
  destruct (bool_decide_reflect (v = SUCCESS)); [|congruence].
  destruct o as [p|]; [|done]. apply data_body_success in H as (s & f2 & _ & Hq & Hs' & -> & Hp).
  apply parse_qc_kept in Hq as (Hfc & _ & _ & Hb & _).
  pose proof (choose_cipher_kept ad' s f2) as (Hfc' & _ & _ & Hb' & _).
  split_all; [congruence|by rewrite Hfc', Hfc|by rewrite Hb', Hb|by exists s].
Qed.

(** C22: In a protected network an unprotected data frame passes the checks only when it is sent to
    one station, 802.1X is in use, it is no A-MSDU, and its type is EAPOL. *)
Theorem plaintext_only_eapol ad f ad' f'
  (Hv : validate_recv_data_frame ad f = Ret (ad', f', SUCCESS))
  (Hnet : dot11PrivacyAlgrthm (securitypriv ad) <> _NO_PRIVACY_)
  (Hplain : privacy (fc (attrib f)) = false) :
  dot11AuthAlgrthm (securitypriv ad) = dot11AuthAlgrthm_8021X /\
  IS_MCAST (ra (addrs (attrib f'))) = false /\ amsdu (attrib f') = false /\
  ether_type f' = Ret eapol_type.
Proof.
  apply data_frame_success in Hv as (Hs & Hfc & _ & s & Hp). unfold settings in Hs.
  injection Hs as _ _ Ha Hpr. unfold protected_check in Hp.
  rewrite Hpr, Ha, Hfc, Hplain in Hp.
  destruct (Z.eqb_spec (dot11PrivacyAlgrthm (securitypriv ad)) _NO_PRIVACY_); [done|].
  destruct (IS_MCAST _); [done|]. bind_inv Hp.
  destruct (Z.eqb_spec (dot11AuthAlgrthm (securitypriv ad)) dot11AuthAlgrthm_8021X); [|done].
  destruct (Z.eqb_spec x eapol_type) as [->|]; [|done]. cbn in Hp.
  destruct (amsdu (attrib f')); [done|]. done.
Qed.

Definition eapol_sample : recv_frame :=
  map_attrib (set_fc (mk_fc 1 0 5 false false false false false false))
    (sample_frame 3 0 (sample_bytes 0x0208 0x50 own_mac (llc 0x888e ++ replicate 20 1)) 40).

Definition ret_or {A} (d : A) (x : res A) : A := match x with Ret a => a | _ => d end.

Lemma plaintext_only_eapol_witness :
  let ad := sample_ad dot11AuthAlgrthm_8021X _AES_ in
  let r := ret_or (ad, eapol_sample, FAIL) (validate_recv_data_frame ad eapol_sample) in
  r.2 = SUCCESS /\ ether_type r.1.2 = Ret eapol_type.
Proof.
  intros ad r. assert (E : validate_recv_data_frame ad eapol_sample = Ret (r.1.1, r.1.2, SUCCESS)).
  { vm_compute. reflexivity. }
  split; [vm_compute; reflexivity|].
  by apply (plaintext_only_eapol ad eapol_sample r.1.1 r.1.2 E).
Defined.

(** ** Replays of group frames *)

#[local] Transparent VALID_PN_CHK.

Lemma flag_bit w n : 0 <= n -> flag w (2 ^ n) = Z.testbit w n.
Proof.
  intros Hn. unfold flag. destruct (Z.eqb_spec (Z.land w (2 ^ n)) 0) as [E|E].
  - apply (f_equal (fun x => Z.testbit x n)) in E.
    rewrite Z.land_spec, Z.pow2_bits_true, Z.bits_0, andb_true_r in E by lia. by rewrite E.
  - destruct (Z.testbit w n) eqn:Ew; [done|]. exfalso. apply E, Z.bits_inj'. intros m Hm.
    rewrite Z.land_spec, Z.bits_0. destruct (decide (m = n)) as [->|]; [by rewrite Ew|].
    rewrite Z.pow2_bits_false by lia. apply andb_false_r.
Qed.

(** The comparison of packet numbers below half of their range. *)
Lemma valid_pn new old : 0 <= new < 2 ^ 47 -> 0 <= old < 2 ^ 47 ->
  VALID_PN_CHK new old = true <-> old = 0 \/ old < new.
Proof.
  intros Hn Ho. unfold VALID_PN_CHK, PN_LESS_CHK.
  change 0x800000000000 with (2 ^ 47). rewrite flag_bit by lia.
  rewrite orb_true_iff, Z.eqb_eq, Z.testbit_true by lia.
  assert (E : (u64 (old - new) / 2 ^ 47) mod 2 = 1 <-> old < new).
  { unfold u64. destruct (Z.lt_ge_cases old new) as [Hlt|Hge].
    - replace ((old - new) mod 2 ^ 64) with (2 ^ 64 + (old - new));
        [|apply Z.mod_unique_pos with (-1); lia].
      replace ((2 ^ 64 + (old - new)) / 2 ^ 47) with (2 ^ 17 - 1); [done|].
      apply Z.div_unique_pos with (2 ^ 47 + (old - new)); lia.
    - rewrite (Z.mod_small (old - new)) by lia. rewrite Z.div_small by lia. split; [done|lia]. }
  rewrite E. done.
Qed.

(** Key and packet number of a frame. *)
Definition ccmp_id (f : recv_frame) : res (Z * Z) :=
  h ← get_le64 (buf f) (rx_data f + hdrlen (attrib f)); Ret (CCMPH_2_KEYID h, CCMPH_2_PN h).

(** The cached packet number of a key. *)
Definition cached_pn (ad : adapter) (k : Z) : Z :=
  Z.land (default 0 (rd (iv_seq (securitypriv ad)) k)) 0xffffffffffff.

Lemma land_pn x : Z.land x 0xffffffffffff = x mod 2 ^ 48.
Proof. change 0xffffffffffff with (Z.ones 48). by apply Z.land_ones. Qed.

Lemma bcast_pn_spec ad f ad' v k pn : MLME_IS_STA ad = true -> encrypt (attrib f) = _AES_ ->
  ccmp_id f = Ret (k, pn) -> recv_bcast_pn_decache ad f = Ret (ad', v) ->
  0 <= pn < 2 ^ 47 -> 0 <= cached_pn ad k < 2 ^ 47 ->
  if bool_decide (v = SUCCESS)
  then (cached_pn ad k = 0 \/ cached_pn ad k < pn) /\ cached_pn ad' k = pn /\
       forall j, j <> k -> cached_pn ad' j = cached_pn ad j
  else ad' = ad /\ 0 < cached_pn ad k /\ pn <= cached_pn ad k.
Proof.
  intros Hsta He Hid H Hpn Hc. unfold recv_bcast_pn_decache in H. rewrite He, Hsta in H.
  change (_AES_ =? _AES_) with true in H. cbn [andb] in H. bind_inv H.
  unfold ccmp_id in Hid. rewrite E in Hid. cbn [mbind res_bind] in Hid. injection Hid as Hk Hp.
  rewrite Hk, Hp in H. bind_inv H. unfold of_opt in E0.
  destruct (rd (iv_seq (securitypriv ad)) k) as [cur|] eqn:Er; [|done]. injection E0 as ->.
  assert (Hcur : cached_pn ad k = Z.land x0 0xffffffffffff) by (unfold cached_pn; by rewrite Er).
  rewrite <- Hcur in H. pose proof (rd_inv _ _ _ Er) as Hkr.
  destruct (VALID_PN_CHK pn (cached_pn ad k)) eqn:Ev; cbn [negb] in H; injection H as <- <-.
  - apply valid_pn in Ev; [|done|done]. cbn [bool_decide]. split; [done|].
    unfold cached_pn. cbn. split.
    + rewrite rd_lookup, list_lookup_insert_eq by lia. cbn. rewrite land_pn. apply Z.mod_small. lia.
    + intros j Hj. unfold rd. destruct (Z.ltb_spec j 0); [done|].
      rewrite list_lookup_insert_ne by lia. done.
  - cbn. split; [done|]. assert (~ (cached_pn ad k = 0 \/ cached_pn ad k < pn)); [|lia].
    rewrite <- valid_pn by done. by rewrite Ev.
Qed.

(** The group frames of a station, one after the other; the keys and packet numbers
    of those that pass. *)
Fixpoint bcast_run (ad : adapter) (fs : list recv_frame) : res (adapter * list (Z * Z)) :=
  match fs with
  | [] => Ret (ad, [])
  | f :: fs =>
      kp ← ccmp_id f;
      '(ad, v) ← recv_bcast_pn_decache ad f;
      '(ad, acc) ← bcast_run ad fs;
      Ret (ad, if bool_decide (v = SUCCESS) then kp :: acc else acc)
  end.

Definition pns_of (k : Z) (acc : list (Z * Z)) : list Z := snd <$> filter (fun kp => kp.1 = k) acc.

Definition pn_frame (f : recv_frame) : Prop :=
  encrypt (attrib f) = _AES_ /\ forall k pn, ccmp_id f = Ret (k, pn) -> 1 <= pn < 2 ^ 47.

Lemma pn_frame_is f k pn : encrypt (attrib f) = _AES_ -> ccmp_id f = Ret (k, pn) -> 1 <= pn < 2 ^ 47 ->
  pn_frame f.
Proof. intros He Hid Hp. split; [done|]. intros k' pn' E. rewrite Hid in E. by injection E as <- <-. Qed.

Lemma bcast_run_above ad fs ad' acc k : MLME_IS_STA ad = true -> Forall pn_frame fs ->
  (forall j, 0 <= cached_pn ad j < 2 ^ 47) -> bcast_run ad fs = Ret (ad', acc) ->
  Forall (fun pn => cached_pn ad k < pn) (pns_of k acc) /\ StronglySorted Z.lt (pns_of k acc).
Proof.
  intros Hsta Hfs. revert ad acc Hsta. induction Hfs as [|f fs [He Hpn] Hfs IH];
    intros ad acc Hsta Hc H; cbn [bcast_run] in H; [injection H as _ <-; by repeat constructor|].
  bind_inv H. destruct x as [k' pn]. bind_inv H. destruct x as [ad1 v]. bind_inv H.
  destruct x as [ad2 acc2]. injection H as -> <-.
  pose proof (Hpn _ _ E) as Hp. pose proof (bcast_pn_settings _ _ _ _ E0) as Hs.
  pose proof (bcast_pn_spec ad f ad1 v k' pn Hsta He E E0 ltac:(lia) (Hc k')) as Hv.
  assert (Hsta1 : MLME_IS_STA ad1 = true).
  { unfold settings in Hs. injection Hs as _ Hfw _ _. revert Hsta. unfold MLME_IS_STA, check_fwstate.
    by rewrite Hfw. }
  destruct (bool_decide_reflect (v = SUCCESS)) as [->|Hv'].
  - destruct Hv as (Hnew & Hk & Hother).
    assert (Hc1 : forall j, 0 <= cached_pn ad1 j < 2 ^ 47).
    { intros j. destruct (decide (j = k')) as [->|]; [lia|]. by rewrite Hother. }
    destruct (IH _ _ Hsta1 Hc1 E1) as [IHf IHs]. unfold pns_of.
    destruct (decide (k' = k)) as [->|].
    + rewrite filter_cons_True by done. rewrite fmap_cons. fold (pns_of k acc2). rewrite Hk in IHf. cbn [snd].
      split; [|by constructor]. constructor; [specialize (Hc k); lia|].
      eapply Forall_impl; [exact IHf|]. cbv beta. specialize (Hc k). lia.
    + rewrite filter_cons_False by done. fold (pns_of k acc2). rewrite Hother in IHf by done. done.
  - destruct Hv as (-> & _). by apply (IH ad).
Qed.

(** C16: The replay check of group frames, [recv_bcast_pn_decache], run over group frames one
    after the other in whatever order they arrive, in station mode: among the frames of a
    key that pass, each packet number is above those before it and the one cached at the
    start, so none passes twice.  This holds of frames whose attribute says CCMP when the
    check is made and whose packet numbers are from 1 to 2^47 - 1, as are those cached
    ([pn_frame], the hypothesis on [cached_pn]); another interface mode and another cipher
    are not checked at all.  The driver makes the check before it sets the attribute from the
    frame, so that it is the one the structure had before: where that was not CCMP a
    replayed frame passes ([replay_accepted]). *)
Theorem group_frames_not_replayed ad fs ad' acc k
  (Hsta : MLME_IS_STA ad = true) (Hfs : Forall pn_frame fs)
  (Hc : forall j, 0 <= cached_pn ad j < 2 ^ 47) (Hrun : bcast_run ad fs = Ret (ad', acc)) :
  StronglySorted Z.lt (cached_pn ad k :: pns_of k acc).
Proof. destruct (bcast_run_above ad fs ad' acc k) as [? ?]; try done. by constructor. Qed.

Definition group_sample (i pn : Z) : recv_frame :=
  map_attrib (set_qc 0 0 24)
    (sample_frame i _AES_ (sample_bytes 0x4208 (16 * pn) bcast_mac (ccmp_header pn 1 ++ llc 0x0800)) 40).

Lemma group_frames_not_replayed_witness :
  let ad := sample_ad dot11AuthAlgrthm_8021X _AES_ in
  let fs := [group_sample 3 5; group_sample 4 5; group_sample 5 7; group_sample 6 5] in
  pns_of 1 (ret_or (ad, []) (bcast_run ad fs)).2 = [5; 7] /\
  StronglySorted Z.lt (cached_pn ad 1 :: pns_of 1 (ret_or (ad, []) (bcast_run ad fs)).2).
Proof.
  split; [vm_compute; reflexivity|].
  set (ad := sample_ad _ _). set (fs := [_; _; _; _]).
  assert (E : bcast_run ad fs = Ret (ret_or (ad, []) (bcast_run ad fs))) by (vm_compute; reflexivity).
  destruct (ret_or (ad, []) (bcast_run ad fs)) as [ad' acc] eqn:Er.
  apply (group_frames_not_replayed ad fs ad' acc 1); [vm_compute; reflexivity| | |exact E].
  - repeat (apply Forall_cons; split); [| | | |apply Forall_nil; exact I].
    all: eapply (pn_frame_is _ 1); [reflexivity|vm_compute; reflexivity|lia].
  - intros j. unfold cached_pn, ad, sample_ad, rtw_init_recv_priv, sample_sec.
    cbn [securitypriv set_pool iv_seq]. destruct (rd (replicate 4 0) j) as [x|] eqn:Ej; cbn [default id].
    + apply rd_replicate in Ej as ->. rewrite Z.land_0_l. lia.
    + rewrite Z.land_0_l. lia.
Defined.

(** The cipher the checks of packet numbers look at is the one of the last frame that
    used the structure: it is set after them.  The same replayed group frame is refused
    in a structure that held a CCMP frame and accepted in one that did not. *)
Definition replay_verdict (stale : Z) : verdict :=
  let ad := upd_sec (set_iv_seq [0; 9; 0; 0]) (sample_ad dot11AuthAlgrthm_8021X _AES_) in
  let f := sample_frame 3 stale (sample_bytes 0x4208 0x50 bcast_mac
             (ccmp_header 5 1 ++ llc 0x0800 ++ replicate 20 1)) 40 in
  (ret_or (ad, f, FAIL) (validate_recv_frame ad f)).2.

Example replay_refused : replay_verdict _AES_ = FAIL.
Proof. vm_compute. reflexivity. Qed.
Example replay_accepted : replay_verdict 0 = SUCCESS.
Proof. vm_compute. reflexivity. Qed.

(** The first frame of a station without QoS is taken for a duplicate when its sequence
    number is zero: only the caches of the traffic identifiers start at an impossible
    value. *)
Example first_nonqos_dropped :
  let ad := sample_ad 0 0 in
  let f := sample_frame 3 0 (sample_bytes 0x0208 0 own_mac (llc 0x888e ++ replicate 20 1)) 40 in
  (ret_or (ad, f, SUCCESS) (validate_recv_frame ad f)).2 = FAIL.
Proof. vm_compute. reflexivity. Qed.

(** The traffic identifier of a trigger frame is that of the last frame that used the
    structure. *)
Example trigger_stale_priority :
  let sleeping := mk_sta (Some (100, ap_mac)) 0 (Z.lor WIFI_ASOC_STATE WIFI_SLEEP_STATE) false 0
    (init_rxcache _rtw_init_sta_recv_priv) 0 false 0 true 0xf 0 0 2 0 0 [] [] in
  let ad := mk_adapter own_mac own_mac (Z.lor WIFI_AP_STATE WIFI_ASOC_STATE)
    (Some (mk_role own_mac 2 None))
    (<[Z.to_nat (wifi_mac_hash ap_mac) := [7]]> (replicate 32 [])) {[ 7 := sleeping ]}
    (sample_sec 0 0) 1 0 [7] 1 0 false 1256 [] false true 1000 0 0 [] 0 [] in
  let f := map_attrib (set_qc 6 0 0)
    (sample_frame 3 0 (sample_bytes 0x1188 0x10 own_mac ([1; 0] ++ llc 0x0800)) 40) in
  log (ret_or (ad, f, FAIL) (validate_recv_frame ad f)).1.1 = [IssueQosNull ap_mac 6].
Proof. vm_compute. reflexivity. Qed.

End RxCheck.
