(* ===== verification/RxSafe.v ===== *)
(** * The checks are safe

    A well-formedness invariant of stations, interface and frames, and that the
    checks of [RxCheck] keep it and end, without an access outside of an array or of
    the buffer, on every frame whose buffer has room for the longest header. *)

From stdpp Require Import gmap.
From S2P Require Import Prelude Bytes RxFrame RxState RxCheck.

Module RxSafe.
Import RxFrame RxState RxCheck.

(** ** Computations that end *)

(** [x] ends with a value that has [P]. *)
Definition ends {A} (x : res A) (P : A -> Prop) : Prop :=
  match x with Ret a => P a | _ => False end.

Lemma ends_bind {A B} (x : res A) (g : A -> res B) P Q :
  ends x P -> (forall a, P a -> ends (g a) Q) -> ends (x ≫= g) Q.
Proof. destruct x; cbn; auto. Qed.
Lemma ends_mono {A} (x : res A) (P Q : A -> Prop) : ends x P -> (forall a, P a -> Q a) -> ends x Q.
Proof. destruct x; cbn; auto. Qed.
Lemma ends_ret {A} (x : res A) P : ends x P -> exists a, x = Ret a /\ P a.
Proof. destruct x; cbn; [eauto|done|done]. Qed.

Lemma ends_slice b off n : 0 <= off -> 0 <= n -> off + n <= zlen b ->
  ends (slice b off n) (fun x => x = sub off n b).
Proof. intros. by rewrite slice_sub. Qed.

Lemma ends_byte b i : 0 <= i < zlen b -> Forall is_byte b -> ends (byte_at b i) is_byte.
Proof.
  intros Hi Hb. destruct (byte_at_some b i Hi) as (x & -> & Hx). cbn.
  rewrite rd_lookup in Hx by lia. rewrite Forall_lookup in Hb. eauto.
Qed.

Lemma ends_le16 b i : Forall is_byte b -> 0 <= i -> i + 2 <= zlen b ->
  ends (get_le16 b i) (fun w => 0 <= w < 65536).
Proof. intros. destruct (get_le16_some b i) as (w & -> & ?); done. Qed.
Lemma ends_be16 b i : Forall is_byte b -> 0 <= i -> i + 2 <= zlen b ->
  ends (get_be16 b i) (fun w => 0 <= w < 65536).
Proof. intros. destruct (get_be16_some b i) as (w & -> & ?); done. Qed.

Lemma ends_rd {A} (l : list A) i (P : A -> Prop) : 0 <= i < Z.of_nat (length l) -> Forall P l ->
  ends (of_opt (rd l i)) P.
Proof.
  intros Hi Hl. destruct (rd_some l i Hi) as [x Hx]. rewrite Hx. cbn.
  rewrite rd_lookup in Hx by lia. rewrite Forall_lookup in Hl. eauto.
Qed.

(** ** The invariant *)

Definition queued (f : recv_frame) : Prop := frame_ok f /\ pkt f = true.

Record sta_ok (s : sta_info) : Prop := {
  so_tid : length (tid_rxseq (sta_recvpriv s)) = 16%nat;
  so_bmc : length (bmc_tid_rxseq (sta_recvpriv s)) = 16%nat;
  so_iv : length (iv (sta_recvpriv s)) = 16%nat;
  so_iv8 : Forall (fun x => length x = 8%nat) (iv (sta_recvpriv s));
  so_queue : Forall queued (defrag_q (sta_recvpriv s))
}.

Record ad_ok (ad : adapter) : Prop := {
  ao_sta : forall p s, stas ad !! p = Some s -> sta_ok s;
  ao_iv : length (iv_seq (securitypriv ad)) = 4%nat
}.

(** Room for the longest header, the longest packet number, and the type field. *)
Definition header_room (f : recv_frame) : Prop := rx_data f + 62 <= rx_end f.

Definition rx_ok (f : recv_frame) : Prop := frame_ok f /\ header_room f.

Lemma ad_ok_emit ad e : ad_ok ad -> ad_ok (emit e ad).
Proof. intros [? ?]. by split. Qed.
Lemma ad_ok_deauth ad a : ad_ok ad -> ad_ok (deauth a ad).
Proof. apply ad_ok_emit. Qed.
Lemma ad_ok_nolink ad t : ad_ok ad -> ad_ok (set_deauth_time_nolink t ad).
Proof. intros [? ?]. by split. Qed.
Lemma ad_ok_legacy ad t : ad_ok ad -> ad_ok (set_deauth_time_legacy t ad).
Proof. intros [? ?]. by split. Qed.
Lemma ad_ok_upd ad p g : (forall s, sta_ok s -> sta_ok (g s)) -> ad_ok ad -> ad_ok (upd_sta p g ad).
Proof.
  intros Hg [H ?]. split; [|done]. intros q s Hq. cbn in Hq. apply lookup_alter_Some in Hq.
  destruct Hq as [(-> & s' & Hs' & ->)|(_ & Hq)]; [apply Hg|]; eauto.
Qed.
#[local] Hint Resolve ad_ok_emit ad_ok_deauth ad_ok_nolink ad_ok_legacy : wifi.

Lemma sta_ok_state x s : sta_ok s -> sta_ok (set_state x s).
Proof. by intros [? ? ? ? ?]. Qed.
Lemma sta_ok_dup x s : sta_ok s -> sta_ok (set_duplicate_cnt x s).
Proof. by intros [? ? ? ? ?]. Qed.
Lemma sta_ok_hw x s : sta_ok s -> sta_ok (set_sta_hw_decrypted x s).
Proof. by intros [? ? ? ? ?]. Qed.
#[local] Hint Resolve sta_ok_state sta_ok_dup sta_ok_hw : wifi.

(** Stations that are found exist, and have a station of phl. *)
Lemma sta_search_some ad self a l p : sta_search ad self a l = Some p ->
  exists s x, stas ad !! p = Some s /\ phl_sta s = Some x.
Proof.
  induction l as [|q l IH]; cbn [sta_search]; [done|]. destruct (stas ad !! q) as [s|] eqn:Eq; [|done].
  destruct (phl_sta s) as [[ps m]|] eqn:Es; [|done]. destruct (_ || _); [intros [= <-]; eauto|done].
Qed.

Lemma get_stainfo_some ad a p : rtw_get_stainfo ad a = Some p ->
  exists s x, stas ad !! p = Some s /\ phl_sta s = Some x.
Proof.
  unfold rtw_get_stainfo. destruct (phl_role ad) as [ro|]; [|done]. cbn [mbind option_bind].
  destruct (IS_MCAST a).
  - destruct (phl_sta_self ro); [|done]. destruct (rd _ _); [|done]. apply sta_search_some.
  - destruct (rd _ _); [|done]. apply sta_search_some.
Qed.

Definition has_sta (ad : adapter) (p : Z) : Prop := exists s x, stas ad !! p = Some s /\ phl_sta s = Some x.

Lemma has_sta_upd ad p q g : (forall s, phl_sta (g s) = phl_sta s) -> has_sta ad p -> has_sta (upd_sta q g ad) p.
Proof.
  intros Hg (s & x & Hs & Hx). destruct (decide (q = p)) as [->|].
  - exists (g s), x. cbn. rewrite lookup_alter_eq, Hs. split; [done|]. by rewrite Hg.
  - exists s, x. cbn. by rewrite lookup_alter_ne.
Qed.

Lemma ends_sta_at ad p : has_sta ad p -> ad_ok ad ->
  ends (sta_at ad (Some p)) (fun ps => ps.1 = p /\ stas ad !! p = Some ps.2 /\ sta_ok ps.2 /\
    exists x, phl_sta ps.2 = Some x).
Proof.
  intros (s & x & Hs & Hx) [H _]. unfold sta_at. rewrite Hs. cbn. split; [done|]. split; [done|].
  split; [by eapply H|by exists x].
Qed.

(** ** The header *)

Lemma rx_ok_addrs f g : rx_ok f -> rx_ok (with_addrs g f).
Proof. by intros [[? ? ? ? ?] ?]. Qed.
Lemma rx_ok_attrib f g : rx_ok f -> rx_ok (map_attrib g f).
Proof. by intros [[? ? ? ? ?] ?]. Qed.
#[local] Hint Resolve rx_ok_addrs rx_ok_attrib : wifi.

(** A field in the first 62 bytes. *)
Lemma ends_field f k n (P : list Z -> Prop) : rx_ok f -> 0 <= k -> 0 <= n -> k + n <= 62 ->
  (forall x, P x) -> ends (slice (buf f) (rx_data f + k) n) P.
Proof.
  intros [[? ? ? ? ?] Hr] ? ? ? HP. unfold header_room, rx_end in *.
  eapply ends_mono; [apply ends_slice; lia|auto].
Qed.

Lemma ends_word f k : rx_ok f -> 0 <= k -> k + 2 <= 62 ->
  ends (get_le16 (buf f) (rx_data f + k)) (fun w => 0 <= w < 65536).
Proof. intros [[? ? ? ? ?] Hr] ? ?. unfold header_room, rx_end in *. apply ends_le16; try done; lia. Qed.

Lemma ends_addr1 f : rx_ok f -> ends (GetAddr1 f) (fun _ => True).
Proof. intros. by apply ends_field. Qed.
Lemma ends_addr2 f : rx_ok f -> ends (get_addr2 f) (fun _ => True).
Proof. intros. by apply ends_field. Qed.
Lemma ends_addr3 f : rx_ok f -> ends (GetAddr3 f) (fun _ => True).
Proof. intros. by apply ends_field. Qed.
Lemma ends_addr4 f (b : bool) : rx_ok f -> ends (if b then GetAddr4 f else Ret []) (fun _ => True).
Proof. intros. destruct b; [by apply ends_field|done]. Qed.
Lemma ends_fctl f : rx_ok f -> ends (frame_control f) (fun w => 0 <= w < 65536).
Proof.
  intros H. unfold frame_control. replace (rx_data f) with (rx_data f + 0) by lia. by apply ends_word.
Qed.

Definition hdr_post (r : adapter * recv_frame * option Z * verdict) : Prop :=
  let '(ad, f, o, _) := r in ad_ok ad /\ rx_ok f /\ forall p, o = Some p -> has_sta ad p.

Ltac addr := eapply ends_bind; [eauto using ends_addr1, ends_addr2, ends_addr3, ends_addr4 with wifi|intros ? _].
Ltac found := cbn [ends]; split; [auto with wifi|]; split; [auto with wifi|];
  let H := fresh in intros ? H; first [discriminate H|injection H as <-|idtac];
  eapply get_stainfo_some; eassumption.

Lemma mp_addrs_safe f : rx_ok f -> ends (mp_addrs f) rx_ok.
Proof. intros H. unfold mp_addrs. do 3 addr. cbn [ends]. auto with wifi. Qed.

Section hdr.
Context (ad : adapter) (Had : ad_ok ad) (f : recv_frame) (Hf : rx_ok f).

(** The three branches of MP mode. *)
Lemma mp_branch_safe (g : recv_frame -> list Z) :
  ends (f ← mp_addrs f;
        match rtw_get_stainfo ad (g f) with
        | None => Ret (ad, f, None, FAIL)
        | Some p => Ret (ad, f, Some p, SUCCESS)
        end) hdr_post.
Proof.
  eapply ends_bind; [by apply mp_addrs_safe|]. intros f1 Hf1.
  destruct (rtw_get_stainfo _ _) eqn:E; found.
Qed.

Lemma sta2sta_safe : ends (sta2sta_data_frame ad f) hdr_post.
Proof.
  unfold sta2sta_data_frame. cbv zeta. destruct (check_fwstate ad _ || _).
  - repeat match goal with |- ends (if ?b then _ else _) _ => destruct b; [found|] end.
    destruct (rtw_get_stainfo _ _) eqn:E; found.
  - destruct (check_fwstate _ _); [apply (mp_branch_safe (fun _ => cur_bssid ad))|]. found.
Qed.

Lemma ap2sta_safe : ends (ap2sta_data_frame ad f) hdr_post.
Proof.
  unfold ap2sta_data_frame. destruct (_ && _); [apply (mp_branch_safe (a_addr bssid))|].
  destruct (_ && _); [|found]. destruct (rtw_get_stainfo _ _) eqn:E; [found|].
  cbn [ends]. split; [|done]. destruct (may_deauth _ _); auto with wifi.
Qed.

Lemma sta2ap_safe : ends (sta2ap_data_frame ad f) hdr_post.
Proof.
  unfold sta2ap_data_frame. destruct (_ && _); [apply (mp_branch_safe (a_addr bssid))|].
  destruct (negb _); found.
Qed.

Lemma sta_hdr_safe : ends (rtw_sta_rx_data_validate_hdr ad f) hdr_post.
Proof.
  unfold rtw_sta_rx_data_validate_hdr. do 2 addr. cbv zeta. destruct (_ =? 0).
  { addr. destruct (negb _); [found|]. destruct (rtw_get_stainfo _ _) eqn:E; found. }
  destruct (negb (flag _ _)).
  { cbn [ends]. split; [|done]. destruct (_ && _); auto with wifi. }
  destruct (negb _); [found|]. do 2 addr. destruct (_ && _); [found|].
  destruct (rtw_get_stainfo _ _) eqn:E.
  - eapply ends_bind; [apply ends_fctl; auto with wifi|]. intros w _.
    destruct (flag _ _); [|found]. cbn [ends]. split; [auto with wifi|]. split; [auto with wifi|].
    intros p [= <-]. by eapply get_stainfo_some in E.
  - cbn [ends]. split; [|split; [auto with wifi|done]]. destruct (_ && _); auto with wifi.
Qed.

Lemma pwrbit_safe p : has_sta ad p -> ends (process_pwrbit_data ad f p) (fun ad' => ad_ok ad' /\ has_sta ad' p).
Proof.
  intros Hp. unfold process_pwrbit_data. eapply ends_bind; [by apply ends_sta_at|].
  intros [q s] _. eapply ends_bind; [by apply ends_fctl|]. intros w _.
  destruct (flag w _PWRMGT_).
  - destruct (negb _); cbn [ends]; [|done]. unfold sta_to_sleep. split.
    + apply ad_ok_upd; auto with wifi.
    + by apply has_sta_upd.
  - destruct (flag _ _); cbn [ends]; [|done]. unfold sta_awake. split.
    + apply ad_ok_upd; [intros ? ?; destruct (flag _ _)|]; auto with wifi.
    + apply has_sta_upd; [|done]. intros s'. by destruct (flag _ _).
Qed.
End hdr.

Lemma wmmps_safe ad f p : ad_ok ad -> has_sta ad p ->
  ends (process_wmmps_data ad f p) (fun ad' => ad_ok ad' /\ has_sta ad' p).
Proof.
  intros Had Hp. unfold process_wmmps_data. eapply ends_bind; [by apply ends_sta_at|].
  intros [q s] (_ & _ & _ & [ps m] & Hx). cbn [snd] in Hx.
  destruct (negb _); [done|]. destruct (_ =? 0); [done|]. destruct (negb _); [done|].
  destruct (_ =? 0); [done|]. destruct (_ <? _); [split; auto with wifi|].
  rewrite Hx. split; auto with wifi.
Qed.

Lemma ap_hdr_safe ad f : ad_ok ad -> rx_ok f -> ends (rtw_ap_rx_data_validate_hdr ad f) hdr_post.
Proof.
  intros Had Hf. unfold rtw_ap_rx_data_validate_hdr. destruct (negb _); [found|]. cbv zeta.
  destruct (negb _); [found|]. addr. destruct (_ && _); [found|]. do 3 addr.
  destruct (rtw_get_stainfo _ _) as [p|] eqn:E.
  - apply get_stainfo_some in E.
    eapply ends_bind; [apply pwrbit_safe; auto with wifi|]. intros ad1 [Had1 Hp1].
    eapply ends_bind; [apply ends_fctl; auto with wifi|]. intros w _.
    eapply (ends_bind _ _ (fun ad' => ad_ok ad' /\ has_sta ad' p)).
    { destruct (_ =? _); [by apply wmmps_safe|done]. }
    intros ad2 [Had2 Hp2].
    destruct (flag _ _); cbn [ends]; (split; [auto with wifi|]; split; [auto with wifi|]);
      intros q [= <-]; done.
  - cbn [ends]. split; [|split; [auto with wifi|done]]. destruct (_ && _); auto with wifi.
Qed.

Lemma validate_hdr_safe ad f : ad_ok ad -> rx_ok f -> ends (validate_hdr ad f) hdr_post.
Proof.
  intros Had Hf. unfold validate_hdr. destruct (MLME_IS_AP ad); [by apply ap_hdr_safe|].
  destruct (MLME_IS_STA ad); [by apply sta_hdr_safe|]. cbv zeta. destruct (_ =? 3); [found|].
  do 3 addr. destruct (_ =? 0); [apply sta2sta_safe; auto with wifi|].
  destruct (_ =? 1); [apply ap2sta_safe|apply sta2ap_safe]; auto with wifi.
Qed.

(** ** Behind the header *)

Lemma le64_nonneg l : Forall is_byte l -> 0 <= le64 l.
Proof.
  induction 1 as [|b l Hb Hl IH]; [done|]. cbn [le64 foldr]. apply Z.lor_nonneg.
  split; [unfold is_byte in Hb; lia|]. by apply Z.shiftl_nonneg.
Qed.

Lemma keyid_range h : 0 <= h -> 0 <= CCMPH_2_KEYID h < 4.
Proof.
  intros Hh. unfold CCMPH_2_KEYID.
  replace (Z.land h 0xc0000000) with (Z.shiftl (Z.land (Z.shiftr h 30) 3) 30).
  2:{ change 0xc0000000 with (Z.shiftl 3 30). apply Z.bits_inj'. intros n Hn.
      rewrite Z.shiftl_spec, !Z.land_spec, Z.shiftl_spec by lia.
      destruct (Z.lt_ge_cases n 30).
      - rewrite (Z.testbit_neg_r 3 (n - 30)) by lia. by rewrite !andb_false_r.
      - rewrite Z.shiftr_spec by lia. do 2 f_equal. lia. }
  rewrite Z.shiftr_shiftl_l by lia. change (30 - 30) with 0. rewrite Z.shiftl_0_r.
  change 3 with (Z.ones 2). rewrite Z.land_ones by lia. change (2 ^ 2) with 4. dlia.
Qed.

(** After [parse_qc]. *)
Definition parsed (p : Z) (f : recv_frame) : Prop :=
  rx_ok f /\ psta f = Some p /\ 0 <= priority (attrib f) < 16 /\ 24 <= hdrlen (attrib f) <= 36.

Lemma a4_range f : a4_shift f = 0 \/ a4_shift f = 6.
Proof. unfold a4_shift. destruct (_ =? 3); [by right|by left]. Qed.

Lemma qos_control_safe f : rx_ok f -> ends (qos_control f) (fun w => 0 <= w < 65536).
Proof.
  intros Hf. unfold qos_control, WLAN_HDR_A3_LEN. rewrite <- Z.add_assoc.
  destruct (a4_range f) as [-> | ->]; by apply ends_word.
Qed.

Lemma parse_qc_safe p f : rx_ok f -> ends (parse_qc (set_psta (Some p) f)) (parsed p).
Proof.
  intros Hf. unfold parse_qc.
  assert (Hf' : rx_ok (set_psta (Some p) f)) by (destruct Hf as [[? ? ? ? ?] ?]; by split).
  set (g := set_psta (Some p) f) in *. set (htc := if order _ then 4 else 0).
  assert (Hh : 0 <= htc <= 4) by (unfold htc; destruct (order _); lia).
  assert (Hr : 0 <= a4_shift g <= 6) by (destruct (a4_range g) as [-> | ->]; lia).
  destruct (qos _).
  - eapply ends_bind; [by apply qos_control_safe|]. intros w _. cbn [ends].
    unfold parsed. split; [auto with wifi|]. cbn. unfold WLAN_HDR_A3_QOS_LEN, GetPriority.
    change 0xf with (Z.ones 4). rewrite Z.land_ones by lia. change (2 ^ 4) with 16. split_all; dlia.
  - cbn [ends]. unfold parsed. split; [auto with wifi|]. cbn. unfold WLAN_HDR_A3_LEN. split_all.
Qed.

Definition body_post (p : Z) (r : adapter * verdict) : Prop := ad_ok r.1 /\ has_sta r.1 p.

Lemma rxseq_get_safe s (a : rx_pkt_attrib) : sta_ok s -> 0 <= priority a < 16 ->
  ends (rxseq_get (sta_recvpriv s) (rxseq_of a)) (fun _ => True).
Proof.
  intros [? ? ? ? ?] Ht. unfold rxseq_of. destruct (qos _), (IS_MCAST _); cbn [rxseq_get]; try done;
    (apply ends_rd; [lia|by apply Forall_true]).
Qed.

Lemma sta_ok_rxseq c x s : sta_ok s -> sta_ok (map_recvpriv (rxseq_set c x) s).
Proof. intros [? ? ? ? ?]. destruct c; split; cbn; rewrite ?length_insert; done. Qed.

Section body.
Context (ad : adapter) (Had : ad_ok ad) (p : Z) (Hp : has_sta ad p) (f : recv_frame) (Hf : parsed p f).

Lemma decache_safe : ends (recv_decache ad f) (body_post p).
Proof.
  destruct Hf as (Hrx & Hps & Hpr & Hh). unfold recv_decache. rewrite Hps.
  eapply ends_bind; [by apply ends_sta_at|]. intros [q s] (Hq & Hs & Hok & _). cbn [fst snd] in *. subst q.
  destruct (Z.ltb_spec 15 (priority (attrib f))); [done|].
  eapply ends_bind; [by apply rxseq_get_safe|]. intros old _. destruct (_ =? _); cbn [ends].
  - split; cbn [fst]; [apply ad_ok_upd; auto with wifi|by apply has_sta_upd].
  - split; cbn [fst]; [apply ad_ok_upd; [intros; by apply sta_ok_rxseq|done]|by apply has_sta_upd].
Qed.

Lemma ends_ccmp_header : ends (slice (buf f) (rx_data f + hdrlen (attrib f)) 8)
  (fun x => length x = 8%nat /\ Forall is_byte x).
Proof.
  destruct Hf as ([[? ? ? ? ?] Hr] & _ & _ & ?). unfold header_room, rx_end in *.
  eapply ends_mono; [apply ends_slice; lia|]. cbv beta. intros x ->. split; [|by apply sub_bytes].
  enough (zlen (sub (rx_data f + hdrlen (attrib f)) 8 (buf f)) = 8) by (unfold zlen in *; lia).
  apply zlen_sub; lia.
Qed.

Lemma ucast_pn_safe : ends (recv_ucast_pn_decache ad f) (body_post p).
Proof.
  pose proof ends_ccmp_header as Hc. destruct Hf as (Hrx & Hps & Hpr & Hh).
  unfold recv_ucast_pn_decache. rewrite Hps.
  eapply ends_bind; [by apply ends_sta_at|]. intros [q s] (Hq & Hs & Hok & _). cbn [fst snd] in *. subst q.
  cbv zeta. destruct (_ <? _); [done|]. destruct (_ =? _); [|done].
  eapply ends_bind; [exact Hc|]. intros h [Hh8 _]. pose proof Hok as [_ _ Hiv Hiv8 _].
  eapply ends_bind; [apply ends_rd; [lia|exact Hiv8]|]. intros cur _.
  destruct (VALID_PN_CHK _ _); [|done].
  split; cbn [fst]; [|by apply has_sta_upd]. apply ad_ok_upd; [|done].
  intros s' [? ? ? ? ?]. split; cbn; try done; [by rewrite length_insert|].
  by apply Forall_insert.
Qed.

Lemma bcast_pn_safe : ends (recv_bcast_pn_decache ad f) (body_post p).
Proof.
  pose proof ends_ccmp_header as Hc. unfold recv_bcast_pn_decache. destruct (_ && _); [|done].
  unfold get_le64. eapply (ends_bind _ _ (fun h => 0 <= h)).
  { eapply ends_bind; [exact Hc|]. intros x [_ Hx]. cbn [ends]. by apply le64_nonneg. }
  intros h Hh. pose proof (keyid_range h Hh) as Hk.
  eapply ends_bind; [apply (ends_rd _ _ (fun _ => True)); [rewrite (ao_iv ad Had); lia|by apply Forall_true]|].
  intros cur _. destruct (negb _); [done|]. cbn [ends]. split; cbn [fst].
  - destruct Had as [H1 H2]. split; [done|]. cbn. by rewrite length_insert.
  - done.
Qed.
End body.

Lemma cipher_safe p ad s f : parsed p f ->
  parsed p (choose_cipher ad s f) /\ 0 <= iv_len (attrib (choose_cipher ad s f)) <= 18.
Proof.
  intros (Hf & Hp & Hpr & Hh). unfold choose_cipher. destruct (privacy _).
  - destruct (SET_ICE_IV_LEN _) as [ivl icvl] eqn:E. split.
    + unfold parsed. auto with wifi.
    + cbn. unfold SET_ICE_IV_LEN in E.
      repeat match type of E with (if ?b then _ else _) = _ => destruct b; [injection E as <- <-; lia|] end.
      injection E as <- <-. lia.
  - split; [unfold parsed; auto with wifi|cbn; lia].
Qed.

Lemma ether_type_safe p f : parsed p f -> 0 <= iv_len (attrib f) <= 18 ->
  ends (ether_type f) (fun _ => True).
Proof.
  intros ([[? ? ? ? ?] Hr] & _ & _ & ?) ?. unfold header_room, rx_end, ether_type, LLC_HEADER_SIZE in *.
  eapply ends_mono; [apply ends_be16; [done|lia|lia]|done].
Qed.

Lemma protected_safe p ad s f : parsed p f -> 0 <= iv_len (attrib f) <= 18 ->
  ends (protected_check ad s f) (fun _ => True).
Proof.
  intros Hf Hiv. unfold protected_check. destruct (_ =? _); [done|]. destruct (IS_MCAST _); [done|].
  eapply ends_bind; [by eapply ether_type_safe|]. intros ty _.
  destruct (_ =? _); [|done]. repeat (destruct (_ && _); [done|]). done.
Qed.

Definition frame_post (r : adapter * recv_frame * verdict) : Prop :=
  let '(ad, f, _) := r in ad_ok ad /\ rx_ok f.

Lemma data_body_safe ad f p : ad_ok ad -> has_sta ad p -> rx_ok f ->
  ends (validate_data_body ad f p) frame_post.
Proof.
  intros Had Hp Hf. unfold validate_data_body.
  eapply ends_bind; [by apply ends_sta_at|]. intros [q s] _. destruct (_ && _); [done|].
  eapply ends_bind; [by apply parse_qc_safe|]. intros f1 Hf1. pose proof Hf1 as (Hrx1 & _).
  eapply ends_bind; [by apply (decache_safe _ Had p)|]. intros [ad1 v1] [Had1 Hp1]. cbn [fst] in *.
  destruct (bool_decide _); [done|].
  eapply (ends_bind _ _ (body_post p)).
  { destruct (negb _); [by apply ucast_pn_safe|by apply bcast_pn_safe]. }
  intros [ad2 v2] [Had2 _]. cbn [fst] in *. destruct (bool_decide _); [done|]. cbv zeta.
  destruct (cipher_safe p ad2 s f1 Hf1) as [Hc Hiv].
  eapply ends_bind; [by eapply protected_safe|]. intros v _. cbn [ends]. split; [done|apply Hc].
Qed.

Lemma data_frame_safe ad f : ad_ok ad -> rx_ok f -> ends (validate_recv_data_frame ad f) frame_post.
Proof.
  intros Had Hf. unfold validate_recv_data_frame. eapply (ends_bind _ _ (fun _ => True)).
  { destruct (qos _); [|done]. eapply ends_bind; [by apply qos_control_safe|done]. }
  intros am _. eapply ends_bind; [apply validate_hdr_safe; auto with wifi|].
  intros [[[ad1 f1] o] v] (Had1 & Hf1 & Ho). destruct (bool_decide _); [|done].
  destruct o as [p|]; [|done]. by apply data_body_safe; [|apply Ho|].
Qed.

(** C8: From well-formed stations, security state and frame, whatever bytes were received, the checks
    on a frame end without reading outside of its buffer or of an array of the state, when the
    buffer has room for the longest header, and leave all of them well-formed. *)
Theorem validate_frame_safe ad f (Had : ad_ok ad) (Hf : frame_ok f) (Hroom : header_room f) :
  exists ad' f' v, validate_recv_frame ad f = Ret (ad', f', v) /\ ad_ok ad' /\ frame_ok f'.
Proof.
  assert (Hrx : rx_ok f) by done.
  assert (H : ends (validate_recv_frame ad f) frame_post).
  { unfold validate_recv_frame. eapply ends_bind; [by apply ends_fctl|]. intros w _.
    destruct (negb _); [done|]. eapply ends_bind; [by apply ends_word|]. intros sc _. cbv zeta.
    destruct (_ =? _); [split; auto with wifi|]. destruct (_ =? _); [split; auto with wifi|].
    destruct (_ =? _); [|split; auto with wifi]. apply data_frame_safe; auto with wifi. }
  destruct (ends_ret _ _ H) as ([[ad' f'] v] & E & Had' & Hf' & _). by exists ad', f', v.
Qed.

Lemma sample_ad_ok auth pr : ad_ok (sample_ad auth pr).
Proof.
  split; [|done]. intros p s Hs. cbn in Hs. apply lookup_singleton_Some in Hs as [_ <-].
  split; try done. apply (bool_decide_unpack _). vm_compute. exact I.
Qed.

Lemma validate_frame_safe_witness :
  let f := sample_frame 3 _AES_ (sample_bytes 0x4208 0x50 own_mac (ccmp_header 5 1 ++ llc 0x0800)) 40 in
  let r := ret_or (sample_ad 2 _AES_, f, FAIL) (validate_recv_frame (sample_ad 2 _AES_) f) in
  r.2 = SUCCESS /\
  exists ad' f' v, validate_recv_frame (sample_ad 2 _AES_) f = Ret (ad', f', v) /\ ad_ok ad' /\ frame_ok f'.
Proof.
  intros f r. split; [vm_compute; reflexivity|]. apply (validate_frame_safe (sample_ad 2 _AES_) f).
  - apply sample_ad_ok.
  - apply (bool_decide_unpack _). vm_compute. exact I.
  - vm_compute. discriminate.
Defined.

End RxSafe.
