(* ===== verification/Defrag.v ===== *)
(** * Defragmentation

    [recvframe_chk_defrag] and [recvframe_defrag] of [core/rtw_recv.c]: the
    fragments of an MSDU wait in a queue of their station until the last one
    arrives, which is then appended with the others to the first. *)

From stdpp Require Import gmap.
From S2P Require Import Prelude Bytes RxFrame RxState RxCheck.

Module Defrag.
Import RxFrame RxState RxCheck.

(** [enum rtw_core_rx_state]. *)
Inductive core_rx_state :=
| CORE_RX_CONTINUE
| CORE_RX_DONE
| CORE_RX_DROP
| CORE_RX_FAIL
| CORE_RX_DEFRAG.
#[export] Instance core_rx_state_eq_dec : EqDecision core_rx_state.
Proof. solve_decision. Defined.

(** ** The queue of a station *)

Definition set_queue (p : Z) (q : list recv_frame) (ad : adapter) : adapter :=
  upd_sta p (map_recvpriv (set_defrag_q q)) ad.

(** ** Joining fragments *)

(** The payload of [n] is copied behind the one of [p], over its check value.  The
    copy goes where [rx_tail] points, whatever room there is. *)
Definition append_fragment (p n : recv_frame) : res recv_frame :=
  let n := fst (recvframe_pull n (hdrlen (attrib n) + iv_len (attrib n))) in
  let p := fst (recvframe_pull_tail p (icv_len (attrib p))) in
  x ← slice (buf n) (rx_data n) (len n);
  b ← blit (buf p) (rx_tail p) x;
  let p := fst (recvframe_put (set_buf b p) (len n)) in
  Ret (map_attrib (fun a => set_cipher (encrypt a) (iv_len a) (icv_len (attrib n)) a) p).

(** The loop over the fragments that follow the first; [None] when one does not
    belong there. *)
Fixpoint defrag_loop (pr : recv_frame) (cur_pn curfragnum : Z) (l : list recv_frame)
    : res (option recv_frame) :=
  match l with
  | [] => Ret (Some pr)
  | n :: l =>
      pn ← (if pn_cipher (encrypt (attrib n)) then pn ← frame_pn n; Ret (Some pn) else Ret None);
      if match pn with Some pn => negb (pn =? u64 (cur_pn + 1)) | None => false end then Ret None
      else if negb (keytrack pr =? keytrack n) then Ret None
      else if negb (curfragnum =? frag_num (fc (attrib n))) then Ret None
      else
        pr ← append_fragment pr n;
        defrag_loop pr (default cur_pn pn) (u8 (curfragnum + 1)) l
  end.

(** All frames but the result are freed. *)
Definition recvframe_defrag (ad : adapter) (q : list recv_frame) : res (adapter * option recv_frame) :=
  match q with
  | [] => Oob
  | pr :: l =>
      cur_pn ← (if pn_cipher (encrypt (attrib pr)) then frame_pn pr else Ret 0);
      let none_left := rtw_free_recvframe_queue (rtw_free_recvframe ad (Some pr)) l in
      if negb (0 =? frag_num (fc (attrib pr))) then Ret (none_left, None)
      else
        o ← defrag_loop pr cur_pn 1 l;
        match o with
        | None => Ret (none_left, None)
        | Some pr => Ret (rtw_free_recvframe_queue ad l, Some pr)
        end
  end.

(** The station whose queue the frame goes to. *)
Definition defrag_sta (ad : adapter) (f : recv_frame) : res (option Z) :=
  match rtw_get_stainfo ad (a_addr ta f) with
  | Some p => Ret (Some p)
  | None =>
      w ← frame_control f;
      Ret (if negb (GetFrameType w =? WIFI_DATA_TYPE) then rtw_get_bcmc_stainfo ad else None)
  end.

(** The result is the frame the caller goes on with, NULL after a failure. *)
Definition recvframe_chk_defrag (ad : adapter) (f : recv_frame)
    : res (adapter * option recv_frame * core_rx_state) :=
  let ismfrag := mfrag (fc (attrib f)) in
  let fragnum := frag_num (fc (attrib f)) in
  o ← defrag_sta ad f;
  let whole := negb ismfrag && (fragnum =? 0) in
  let ret := if negb whole && IS_MCAST (a_addr ra f) then CORE_RX_DROP else CORE_RX_CONTINUE in
  f ← (match o with
       | Some p => '(_, s) ← sta_at ad (Some p);
                   Ret (if whole then f else set_keytrack (sta_keytrack s) f)
       | None => Ret f
       end);
  if ismfrag then
    match o with
    | None => Ret (ad, Some f, CORE_RX_DROP)
    | Some p =>
        '(_, s) ← sta_at ad (Some p);
        let q := defrag_q (sta_recvpriv s) in
        let '(ad, q) := if fragnum =? 0 then (rtw_free_recvframe_queue ad q, []) else (ad, q) in
        Ret (set_queue p (q ++ [f]) ad, Some f, CORE_RX_DEFRAG)
    end
  else if negb (fragnum =? 0) then
    match o with
    | None => Ret (ad, Some f, CORE_RX_DROP)
    | Some p =>
        '(_, s) ← sta_at ad (Some p);
        '(ad, o) ← recvframe_defrag (set_queue p [] ad) (defrag_q (sta_recvpriv s) ++ [f]);
        Ret (ad, o, match o with Some _ => CORE_RX_CONTINUE | None => CORE_RX_DROP end)
    end
  else Ret (ad, Some f, ret).

(** ** One fragment *)

(** The length of the header and the packet number. *)
Definition hdr_iv (f : recv_frame) : Z := hdrlen (attrib f) + iv_len (attrib f).

(** A fragment has header, packet number and check value. *)
Record fragment (f : recv_frame) : Prop := {
  fr_ok : frame_ok f;
  fr_hdr : 0 <= hdr_iv f;
  fr_icv : 0 <= icv_len (attrib f);
  fr_len : hdr_iv f + icv_len (attrib f) <= len f
}.

#[export] Instance fragment_dec f : Decision (fragment f).
Proof.
  refine (cast_if (decide (frame_ok f /\ 0 <= hdr_iv f /\ 0 <= icv_len (attrib f) /\
    hdr_iv f + icv_len (attrib f) <= len f))).
  - abstract (split; tauto).
  - abstract (intros [? ? ? ?]; tauto).
Defined.

(** The bytes the copy adds and takes away. *)
Definition growth (p n : recv_frame) : Z := len n - hdr_iv n - icv_len (attrib p).

(** [p] with these bytes, and the check value's length of [n]. *)
Definition same_but_content (p p' : recv_frame) : Prop :=
  fid p' = fid p /\ fc (attrib p') = fc (attrib p) /\ addrs (attrib p') = addrs (attrib p) /\
  amsdu (attrib p') = amsdu (attrib p) /\ priority (attrib p') = priority (attrib p) /\
  hdrlen (attrib p') = hdrlen (attrib p) /\ encrypt (attrib p') = encrypt (attrib p) /\
  iv_len (attrib p') = iv_len (attrib p) /\ rx_data p' = rx_data p /\ rx_end p' = rx_end p /\
  psta p' = psta p /\ keytrack p' = keytrack p /\ pkt p' = pkt p /\ has_adapter p' = has_adapter p.

Lemma same_but_content_refl p : same_but_content p p.
Proof. by repeat split. Qed.
Lemma same_but_content_trans p q r : same_but_content p q -> same_but_content q r -> same_but_content p r.
Proof. unfold same_but_content. intros. repeat split; intuition congruence. Qed.

Section append.
Context (p n : recv_frame) (Hp : frame_ok p) (Hn : frame_ok n).
Context (Hicv : 0 <= icv_len (attrib p) <= len p) (Hhdr : 0 <= hdr_iv n <= len n).

Lemma append_slice : append_fragment p n =
  (b ← blit (buf p) (rx_tail p - icv_len (attrib p)) (zdrop (hdr_iv n) (content n));
   let p1 := set_ptrs (rx_data p) (rx_tail p - icv_len (attrib p)) (len p - icv_len (attrib p)) p in
   let p2 := fst (recvframe_put (set_buf b p1) (len n - hdr_iv n)) in
   Ret (map_attrib (fun a => set_cipher (encrypt a) (iv_len a) (icv_len (attrib n)) a) p2)).
Proof.
  unfold append_fragment. fold (hdr_iv n). rewrite pull_ret, pull_tail_ret by (done || lia).
  cbn [fst]. cbn [buf rx_data rx_tail len set_ptrs].
  destruct Hn as [? ? ? Hl ?]. unfold rx_end in *.
  rewrite slice_sub by lia. cbn [mbind res_bind].
  rewrite content_sub, sub_drop by lia. do 2 f_equal. f_equal. lia.
Qed.

Lemma append_ok : rx_tail p + growth p n <= rx_end p ->
  exists p', append_fragment p n = Ret p' /\ frame_ok p' /\ same_but_content p p' /\
    content p' = ztake (len p - icv_len (attrib p)) (content p) ++ zdrop (hdr_iv n) (content n) /\
    icv_len (attrib p') = icv_len (attrib n) /\ rx_tail p' = rx_tail p + growth p n /\
    len p' = len p + growth p n.
Proof.
  intros Hcap. rewrite append_slice. unfold growth in *.
  set (x := zdrop (hdr_iv n) (content n)).
  assert (Hx : zlen x = len n - hdr_iv n) by (unfold x; rewrite zlen_zdrop; rewrite zlen_content; done || lia).
  set (t := rx_tail p - icv_len (attrib p)).
  pose proof Hp as [Hd Ht He Hl Hb]. pose proof Hn as [_ _ _ _ Hbn]. unfold rx_end in *.
  assert (Hbl : exists b, blit (buf p) t x = Ret b).
  { eexists. apply blit_ok; unfold t; lia. }
  destruct Hbl as [b Hbl]. rewrite Hbl. cbn [mbind res_bind]. cbv zeta.
  pose proof (blit_len _ _ _ _ Hbl) as Hlb.
  set (p1 := set_ptrs (rx_data p) t (len p - icv_len (attrib p)) p).
  assert (Hp1 : frame_ok (set_buf b p1)).
  { split; cbn; unfold rx_end; cbn; unfold t; try lia. eapply blit_bytes; [exact Hbl|done|].
    unfold x, content. by apply Forall_drop, Forall_take, Forall_drop. }
  rewrite put_ret; [|done|lia|unfold rx_end; cbn; unfold t; lia]. cbn [fst].
  eexists. split; [reflexivity|]. cbn [content rx_tail rx_data buf len attrib].
  split; [|split; [|split; [|split; [|split]]]].
  - split; cbn; unfold rx_end; cbn; unfold t; try lia. apply Hp1.
  - unfold same_but_content, rx_end. cbn. rewrite Hlb. by repeat split.
  - unfold content at 1. cbn. fold (sub (rx_data p) (t + (len n - hdr_iv n) - rx_data p) b).
    replace (t + (len n - hdr_iv n) - rx_data p) with ((t - rx_data p) + (len n - hdr_iv n)) by lia.
    rewrite sub_app by (unfold t; lia). replace (rx_data p + (t - rx_data p)) with t by lia. f_equal.
    + rewrite (sub_blit_other _ _ _ _ _ _ Hbl) by (unfold t; lia). rewrite content_sub, sub_take by (unfold t; lia).
      f_equal. unfold t. lia.
    + rewrite <- Hx. eapply sub_blit_same. exact Hbl.
  - done.
  - cbn. unfold t. lia.
  - cbn. lia.
Qed.

(** Nothing looks whether the payload fits behind the first fragment. *)
Lemma append_overflow : rx_end p < rx_tail p + growth p n -> append_fragment p n = Oob.
Proof.
  intros Hcap. rewrite append_slice. unfold growth in *.
  set (x := zdrop (hdr_iv n) (content n)).
  assert (Hx : zlen x = len n - hdr_iv n) by (unfold x; rewrite zlen_zdrop; rewrite zlen_content; done || lia).
  unfold blit. unfold rx_end in *.
  destruct (Z.leb_spec (rx_tail p - icv_len (attrib p) + zlen x) (zlen (buf p))); [lia|].
  by rewrite andb_false_r.
Qed.
End append.

(** ** A sequence of fragments *)

(** The parts of a frame: header with packet number, payload, check value. *)
Definition head (f : recv_frame) : list Z := ztake (hdr_iv f) (content f).
Definition payload (f : recv_frame) : list Z :=
  ztake (len f - hdr_iv f - icv_len (attrib f)) (zdrop (hdr_iv f) (content f)).
Definition tail (f : recv_frame) : list Z := zdrop (len f - icv_len (attrib f)) (content f).

Definition body (f : recv_frame) : list Z := ztake (len f - icv_len (attrib f)) (content f).

(** Which fragments may follow, from a number and a packet number on. *)
Fixpoint in_order (kt cur_pn num : Z) (l : list recv_frame) : Prop :=
  match l with
  | [] => True
  | n :: l =>
      frame_pn n = Ret (u64 (cur_pn + 1)) /\ keytrack n = kt /\ frag_num (fc (attrib n)) = num /\
      in_order kt (u64 (cur_pn + 1)) (num + 1) l
  end.

(** Fragments of one cipher with packet numbers. *)
Definition one_cipher (icv : Z) (f : recv_frame) : Prop :=
  fragment f /\ icv_len (attrib f) = icv /\ pn_cipher (encrypt (attrib f)) = true /\ hdr_iv f + 8 <= len f.

#[export] Instance one_cipher_dec icv f : Decision (one_cipher icv f).
Proof. unfold one_cipher. apply _. Defined.

Definition total (l : list recv_frame) : Z := foldr (fun f n => zlen (payload f) + n) 0 l.

Lemma zlen_payload f : fragment f -> zlen (payload f) = len f - hdr_iv f - icv_len (attrib f).
Proof.
  intros [Hok ? ? ?]. unfold payload. pose proof (zlen_content f Hok).
  rewrite zlen_ztake; [done|]. rewrite zlen_zdrop; lia.
Qed.

Lemma content_parts f : fragment f -> content f = head f ++ payload f ++ tail f.
Proof.
  intros [Hok ? ? ?]. pose proof (zlen_content f Hok). unfold head, payload, tail.
  rewrite <- (ztake_zdrop (hdr_iv f) (content f)) at 1. f_equal.
  rewrite <- (ztake_zdrop (len f - hdr_iv f - icv_len (attrib f)) (zdrop (hdr_iv f) (content f))) at 1.
  f_equal. rewrite zdrop_zdrop by lia. f_equal. lia.
Qed.

Lemma body_parts f : fragment f -> body f = head f ++ payload f.
Proof.
  intros Hf. pose proof Hf as [Hok ? ? ?]. pose proof (zlen_content f Hok) as Hc.
  unfold body. rewrite (content_parts f Hf) at 1. rewrite app_assoc. apply ztake_app.
  rewrite zlen_app, zlen_payload by done. unfold head. rewrite zlen_ztake; lia.
Qed.

Lemma total_nonneg l : 0 <= total l.
Proof.
  induction l as [|f l IH]; [done|]. unfold total in *. cbn [foldr]. pose proof (zlen_nonneg (payload f)). lia.
Qed.

(** The packet number of a frame with header and eight more bytes can be read. *)
Lemma frame_pn_some f : frame_ok f -> 0 <= hdrlen (attrib f) -> hdrlen (attrib f) + 8 <= len f ->
  exists pn, frame_pn f = Ret pn.
Proof.
  intros [? ? ? Hl ?] ? ?. unfold frame_pn, get_le64, rx_end in *. rewrite slice_sub by lia. cbn. eauto.
Qed.

Section loop.
Context (icv : Z) (l : list recv_frame).

(** The loop accepts exactly what is in order, and joins the payloads. *)
Lemma loop_spec pr cur_pn num : frame_ok pr -> icv_len (attrib pr) = icv -> 0 <= icv <= len pr ->
  Forall (one_cipher icv) l -> Forall (fun f => 0 <= hdrlen (attrib f) <= hdr_iv f) l ->
  0 <= num -> num + Z.of_nat (length l) < 256 -> rx_tail pr + total l <= rx_end pr ->
  exists o, defrag_loop pr cur_pn num l = Ret o /\
    match o with
    | Some p' => in_order (keytrack pr) cur_pn num l /\ frame_ok p' /\ same_but_content pr p' /\
        content p' = body pr ++ concat (payload <$> l) ++ tail (List.last l pr) /\
        icv_len (attrib p') = icv
    | None => ~ in_order (keytrack pr) cur_pn num l
    end.
Proof.
  revert pr cur_pn num. induction l as [|n m IH]; intros pr cur_pn num Hp Hi Hic Hl Hh Hn0 Hn Hfit.
  { exists (Some pr). split; [done|]. split; [done|]. split; [done|].
    split; [apply same_but_content_refl|]. split; [|done]. cbn. unfold body, tail. by rewrite ztake_zdrop. }
  apply Forall_cons in Hl as [(Hfr & Hic' & Hpc & Hlen) Hl]. apply Forall_cons in Hh as [Hh1 Hh].
  cbn [length total foldr] in *. fold (total m) in *. cbn [defrag_loop]. rewrite Hpc.
  pose proof Hfr as [Hnok ? ? Hnl]. pose proof (zlen_payload n Hfr) as Hpl.
  destruct (frame_pn_some n Hnok) as [pn Hpn]; [lia|lia|]. rewrite Hpn. cbn [mbind res_bind mret res_ret].
  destruct (Z.eqb_spec pn (u64 (cur_pn + 1))) as [->|Hne]; cbn [negb].
  2:{ exists None. split; [done|]. cbn [in_order]. rewrite Hpn. intros [[= ?] _]. done. }
  destruct (Z.eqb_spec (keytrack pr) (keytrack n)) as [Hk|Hne]; cbn [negb].
  2:{ exists None. split; [done|]. cbn [in_order]. intros (_ & ? & _). congruence. }
  destruct (Z.eqb_spec num (frag_num (fc (attrib n)))) as [Hf|Hne]; cbn [negb].
  2:{ exists None. split; [done|]. cbn [in_order]. intros (_ & _ & ? & _). congruence. }
  pose proof (total_nonneg m).
  destruct (append_ok pr n Hp Hnok) as (p' & Ha & Hok' & Hsame & Hc & Hi' & Ht & Hlp); [lia|lia|unfold growth; lia|].
  rewrite Ha. cbn [mbind res_bind]. rewrite (u8_id (num + 1)) by (unfold is_u8; lia). unfold growth in *.
  pose proof Hsame as (_ & _ & _ & _ & _ & _ & _ & _ & _ & Hend & _ & Hkp & _).
  cbn [default id].
  destruct (IH p' (u64 (cur_pn + 1)) (num + 1)) as (o & -> & Ho); try done; [lia|lia|lia|lia|lia|].
  exists o. split; [done|]. cbn [in_order]. rewrite Hpn. destruct o as [p2|].
  - destruct Ho as (Hin & Hok2 & Hs2 & Hc2 & Hi2). split; [split_all; congruence|].
    split; [done|]. split; [by eapply same_but_content_trans|]. split; [|done].
    rewrite Hc2. cbn [fmap list_fmap concat]. rewrite <- !app_assoc.
    assert (Hbt : body p' = body pr ++ payload n /\ tail p' = tail n).
    { pose proof (zlen_content pr Hp). pose proof (zlen_content n Hnok).
      assert (E : content p' = (body pr ++ payload n) ++ tail n).
      { rewrite Hc. unfold body at 1. rewrite <- app_assoc. f_equal.
        rewrite (content_parts n Hfr) at 1. apply zdrop_app. unfold head. rewrite zlen_ztake; lia. }
      assert (Hbl : zlen (body pr) = len pr - icv_len (attrib pr)) by (unfold body; rewrite zlen_ztake; lia).
      unfold body at 1, tail at 1. rewrite E, Hi', Hlp.
      split; [apply ztake_app|apply zdrop_app]; rewrite zlen_app, Hbl; lia. }
    destruct Hbt as [-> Htl]. rewrite <- !app_assoc. do 2 f_equal. f_equal.
    destruct m as [|m0 m']; [exact Htl|]. cbn [List.last]. destruct m' as [|m1 m']; [done|].
    f_equal. clear. revert m1. induction m' as [|m2 m' IHm]; intros m1; [done|]. apply IHm.
  - intros (_ & _ & _ & Hin). apply Ho. by rewrite Hkp.
Qed.
End loop.

(** ** The whole queue *)

Lemma free_queue_pool ad l :
  free_recv_queue (rtw_free_recvframe_queue ad l) = free_recv_queue ad ++ (freed <$> l) /\
  free_recvframe_cnt (rtw_free_recvframe_queue ad l) = free_recvframe_cnt ad + Z.of_nat (length l) /\
  stas (rtw_free_recvframe_queue ad l) = stas ad.
Proof.
  revert ad. induction l as [|f l IH]; intros ad; cbn [rtw_free_recvframe_queue foldl].
  - rewrite fmap_nil, app_nil_r. cbn [length]. split_all.
  - destruct (IH (rtw_free_recvframe ad (Some f))) as (E1 & E2 & E3). unfold rtw_free_recvframe_queue in *.
    rewrite E1, E2, E3. cbn [rtw_free_recvframe free_recv_queue set_pool free_recvframe_cnt stas length].
    rewrite fmap_cons, <- app_assoc. split_all.
Qed.

(** The fragments of a queue that can be joined. *)
Definition complete (q : list recv_frame) : Prop :=
  exists pr l pn, q = pr :: l /\ frag_num (fc (attrib pr)) = 0 /\ frame_pn pr = Ret pn /\
    in_order (keytrack pr) pn 1 l.

Definition queue_fits (icv : Z) (q : list recv_frame) : Prop :=
  Forall (one_cipher icv) q /\ Forall (fun f => 0 <= hdrlen (attrib f) <= hdr_iv f) q /\ (length q < 256)%nat /\
  match q with [] => False | pr :: l => rx_tail pr + total l <= rx_end pr end.

Lemma defrag_spec ad q icv (Hq : queue_fits icv q) :
  exists ad' o, recvframe_defrag ad q = Ret (ad', o) /\ (is_Some o <-> complete q) /\
    match o with
    | Some p' => content p' = head (List.hd p' q) ++ concat (payload <$> q) ++ tail (List.last q p') /\
        same_but_content (List.hd p' q) p' /\ ad' = rtw_free_recvframe_queue ad (drop 1 q)
    | None => ad' = rtw_free_recvframe_queue ad q
    end.
Proof.
  destruct q as [|pr l]; [by destruct Hq as (_ & _ & _ & [])|]. destruct Hq as (Hc & Hh & Hlen & Hfit).
  apply Forall_cons in Hc as [(Hfr & Hic & Hpc & Hl8) Hc]. apply Forall_cons in Hh as [Hh1 Hh].
  pose proof Hfr as [Hok ? Hi0 Hlp]. cbn [length] in Hlen.
  destruct (frame_pn_some pr Hok) as [pn Hpn]; [lia|lia|]. unfold recvframe_defrag. rewrite Hpc, Hpn.
  cbn [mbind res_bind]. cbv zeta.
  destruct (Z.eqb_spec 0 (frag_num (fc (attrib pr)))) as [H0|H0]; cbn [negb].
  2:{ eexists _, None. split; [reflexivity|]. split; [|done]. rewrite is_Some_alt.
      split; [done|]. intros (pr' & l' & pn' & [= <- <-] & ? & _). congruence. }
  destruct (loop_spec icv l pr pn 1) as (o & Ho & Hspec); try done; [lia|lia|].
  rewrite Ho. cbn [mbind res_bind]. destruct o as [p'|].
  - destruct Hspec as (Hin & Hok' & Hsame & Hcont & _). eexists _, (Some p'). split; [reflexivity|].
    split; [split; [intros _; by exists pr, l, pn|by eexists]|]. cbn [List.hd].
    split; [|split; [exact Hsame|reflexivity]].
    rewrite Hcont, (body_parts pr Hfr), fmap_cons. cbn [concat]. rewrite <- !app_assoc. do 4 f_equal.
    destruct l as [|n m]; [done|]. cbn [List.last]. clear. revert n.
    induction m as [|m0 m IH]; intros n; [done|apply IH].
  - eexists _, None. split; [reflexivity|]. split; [|done]. rewrite is_Some_alt.
    split; [done|]. intros (pr' & l' & pn' & [= <- <-] & _ & Hpn' & Hin). rewrite Hpn in Hpn'.
    by injection Hpn' as <-.
Qed.

(** C28: Of fragments of a cipher with packet numbers that fit into the buffer of the first one,
    [recvframe_defrag] makes a frame exactly when they are numbered from 0, have consecutive packet
    numbers and came under one key; the frame is the first one's header, all payloads and the last
    check value, and all other structures go back to the pool.  Otherwise there is no frame and all
    of them go back. *)
Theorem defrag_accepts_in_order ad q icv (Hq : queue_fits icv q) :
  exists ad' o, recvframe_defrag ad q = Ret (ad', o) /\ (is_Some o <-> complete q) /\
    match o with
    | Some p' => content p' = head (List.hd p' q) ++ concat (payload <$> q) ++ tail (List.last q p') /\
        same_but_content (List.hd p' q) p' /\ ad' = rtw_free_recvframe_queue ad (drop 1 q)
    | None => ad' = rtw_free_recvframe_queue ad q
    end.
Proof. by apply (defrag_spec ad q icv). Qed.

(** Three fragments of a station of an access point's network. *)
Definition sample_fragment (i num more pn : Z) (data : list Z) (room : nat) : recv_frame :=
  let f := sample_frame i _AES_ (sample_bytes 0x4208 num own_mac (ccmp_header pn 0 ++ data ++ replicate 8 0x99)) room in
  let a := attrib f in
  set_attrib (set_cipher _AES_ 8 8 (set_qc 0 0 24 (set_addrs (mk_addrs own_mac ap_mac ap_mac own_mac ap_mac)
    (set_fc (mk_fc 2 num 0 false (more =? 1) false true false false) a)))) f.
Definition sample_first : recv_frame := sample_fragment 1 0 1 0x10001 (llc 0x0800) 64.
Definition sample_mid : recv_frame := sample_fragment 2 1 1 0x10002 [1; 2; 3] 0.
Definition sample_last : recv_frame := sample_fragment 3 2 0 0x10003 [4; 5] 0.

#[export] Instance queue_fits_dec icv q : Decision (queue_fits icv q).
Proof. unfold queue_fits. destruct q; apply _. Defined.

Lemma defrag_accepts_in_order_witness :
  let ad := sample_ad 2 _AES_ in
  let q := [sample_first; sample_mid; sample_last] in
  queue_fits 8 q /\
  exists ad' o, recvframe_defrag ad q = Ret (ad', o) /\ (is_Some o <-> complete q) /\
    match o with
    | Some p' => content p' = head (List.hd p' q) ++ concat (payload <$> q) ++ tail (List.last q p') /\
        same_but_content (List.hd p' q) p' /\ ad' = rtw_free_recvframe_queue ad (drop 1 q)
    | None => ad' = rtw_free_recvframe_queue ad q
    end.
Proof.
  intros ad q. assert (Hq : queue_fits 8 q) by (apply (bool_decide_unpack _); vm_compute; exact I).
  split; [exact Hq|]. exact (defrag_accepts_in_order ad q 8 Hq).
Defined.

(** ** Fragments that arrive *)

(** The look-up depends on the addresses of the stations only. *)
Lemma sta_search_queue ad p q self a l : sta_search (set_queue p q ad) self a l = sta_search ad self a l.
Proof.
  induction l as [|x l IH]; [done|]. cbn [sta_search].
  destruct (decide (p = x)) as [->|Hne]; unfold set_queue, upd_sta; cbn [stas set_stas].
  - rewrite lookup_alter_eq. destruct (stas ad !! x) as [s|]; [|done]. cbn. by destruct (phl_sta s) as [[? ?]|];
      [destruct (_ || _)|].
  - rewrite lookup_alter_ne by done. destruct (stas ad !! x) as [s|]; [|done].
    by destruct (phl_sta s) as [[? ?]|]; [destruct (_ || _)|].
Qed.

Lemma get_stainfo_queue ad p q a : rtw_get_stainfo (set_queue p q ad) a = rtw_get_stainfo ad a.
Proof.
  unfold rtw_get_stainfo. cbn [phl_role set_queue upd_sta set_stas sta_hash].
  destruct (phl_role ad) as [r|]; [|done]. cbn [mbind option_bind]. destruct (IS_MCAST a).
  - destruct (phl_sta_self r); [|done]. destruct (rd _ _); [|done]. cbn [mbind option_bind].
    apply sta_search_queue.
  - destruct (rd _ _); [|done]. cbn [mbind option_bind]. apply sta_search_queue.
Qed.

Lemma get_stainfo_pool ad l n a : rtw_get_stainfo (set_pool l n ad) a = rtw_get_stainfo ad a.
Proof.
  assert (E : forall self b, sta_search (set_pool l n ad) self a b = sta_search ad self a b).
  { intros self b. induction b as [|x b IH]; [done|]. cbn [sta_search]. rewrite IH. done. }
  unfold rtw_get_stainfo. cbn [phl_role set_pool sta_hash].
  destruct (phl_role ad) as [r|]; [|done]. cbn [mbind option_bind]. destruct (IS_MCAST a).
  - destruct (phl_sta_self r); [|done]. destruct (rd _ _); [|done]. apply E.
  - destruct (rd _ _); [|done]. apply E.
Qed.

Lemma get_stainfo_free_queue ad q a : rtw_get_stainfo (rtw_free_recvframe_queue ad q) a = rtw_get_stainfo ad a.
Proof.
  revert ad. induction q as [|f q IH]; intros ad; [done|].
  cbn [rtw_free_recvframe_queue foldl]. etransitivity; [apply IH|]. apply get_stainfo_pool.
Qed.

Lemma set_queue_twice ad p q1 q2 : set_queue p q2 (set_queue p q1 ad) = set_queue p q2 ad.
Proof.
  unfold set_queue, upd_sta. destruct ad. cbn [stas set_stas]. unfold set_stas. cbn. f_equal.
  apply map_eq. intros k. destruct (decide (p = k)) as [<-|].
  - rewrite !lookup_alter_eq. by destruct (_ !! p).
  - by rewrite !lookup_alter_ne.
Qed.

Lemma stas_set_queue ad p q s : stas ad !! p = Some s ->
  stas (set_queue p q ad) !! p = Some (map_recvpriv (set_defrag_q q) s).
Proof. intros Hs. cbn. by rewrite lookup_alter_eq, Hs. Qed.

(** A run of frames through [recvframe_chk_defrag]: the verdicts, and the frame after
    the last. *)
Fixpoint feed (ad : adapter) (fs : list recv_frame)
    : res (adapter * list core_rx_state * option recv_frame) :=
  match fs with
  | [] => Ret (ad, [], None)
  | f :: fs =>
      '(ad, o, st) ← recvframe_chk_defrag ad f;
      match fs with
      | [] => Ret (ad, [st], o)
      | _ => '(ad, sts, o) ← feed ad fs; Ret (ad, st :: sts, o)
      end
  end.

(** A fragment of the station that is not the last. *)
Definition more_of (ad : adapter) (p : Z) (f : recv_frame) : Prop :=
  rtw_get_stainfo ad (a_addr ta f) = Some p /\ mfrag (fc (attrib f)) = true.

Lemma chk_defrag_first ad p s f : stas ad !! p = Some s -> more_of ad p f ->
  frag_num (fc (attrib f)) = 0 ->
  recvframe_chk_defrag ad f =
    Ret (set_queue p [set_keytrack (sta_keytrack s) f]
           (rtw_free_recvframe_queue ad (defrag_q (sta_recvpriv s))),
         Some (set_keytrack (sta_keytrack s) f), CORE_RX_DEFRAG).
Proof.
  intros Hs (Hta & Hm) Hn. unfold recvframe_chk_defrag, defrag_sta, sta_at. rewrite Hta.
  cbn [mbind res_bind]. rewrite Hs. cbn [mbind res_bind]. rewrite Hm, Hn. done.
Qed.

Lemma chk_defrag_more ad p s f : stas ad !! p = Some s -> more_of ad p f ->
  frag_num (fc (attrib f)) <> 0 ->
  recvframe_chk_defrag ad f =
    Ret (set_queue p (defrag_q (sta_recvpriv s) ++ [set_keytrack (sta_keytrack s) f]) ad,
         Some (set_keytrack (sta_keytrack s) f), CORE_RX_DEFRAG).
Proof.
  intros Hs (Hta & Hm) Hn. unfold recvframe_chk_defrag, defrag_sta, sta_at. rewrite Hta.
  cbn [mbind res_bind]. rewrite Hs. cbn [mbind res_bind]. rewrite Hm.
  destruct (Z.eqb_spec (frag_num (fc (attrib f))) 0); done.
Qed.

Lemma chk_defrag_last ad p s f : stas ad !! p = Some s -> rtw_get_stainfo ad (a_addr ta f) = Some p ->
  mfrag (fc (attrib f)) = false -> frag_num (fc (attrib f)) <> 0 ->
  recvframe_chk_defrag ad f =
    ('(ad, o) ← recvframe_defrag (set_queue p [] ad)
                  (defrag_q (sta_recvpriv s) ++ [set_keytrack (sta_keytrack s) f]);
     Ret (ad, o, match o with Some _ => CORE_RX_CONTINUE | None => CORE_RX_DROP end)).
Proof.
  intros Hs Hta Hm Hn. unfold recvframe_chk_defrag, defrag_sta, sta_at. rewrite Hta.
  cbn [mbind res_bind]. rewrite Hs. cbn [mbind res_bind]. rewrite Hm. cbn [negb andb].
  destruct (Z.eqb_spec (frag_num (fc (attrib f))) 0); done.
Qed.

(** Fragments that are not the last wait, one behind the other. *)
Lemma feed_more ad p s mid l : stas ad !! p = Some s -> l <> [] ->
  Forall (more_of ad p) mid -> Forall (fun f => frag_num (fc (attrib f)) <> 0) mid ->
  feed ad (mid ++ l) =
    ('(ad', sts, o) ← feed (set_queue p (defrag_q (sta_recvpriv s) ++
                              (set_keytrack (sta_keytrack s) <$> mid)) ad) l;
     Ret (ad', replicate (length mid) CORE_RX_DEFRAG ++ sts, o)).
Proof.
  intros Hs Hl Hm Hn. revert ad s Hs Hm. induction Hn as [|f mid Hf Hn IH]; intros ad s Hs Hm.
  - rewrite app_nil_r. cbn [app length replicate].
    assert (E : set_queue p (defrag_q (sta_recvpriv s)) ad = ad).
    { unfold set_queue, upd_sta. destruct ad. cbn [stas set_stas] in *. unfold set_stas. cbn. f_equal.
      apply map_eq. intros k. destruct (decide (p = k)) as [<-|].
      - rewrite lookup_alter_eq, Hs. cbn. f_equal. destruct s as [? ? ? ? ? [] ]. done.
      - by rewrite lookup_alter_ne. }
    rewrite E. destruct (feed ad l) as [[[? ?] ?]| |]; done.
  - apply Forall_cons in Hm as [Hf1 Hm]. cbn [app feed]. rewrite (chk_defrag_more ad p s f) by done.
    cbn [mbind res_bind].
    assert (Hne : mid ++ l <> []) by (intros [_ ?]%app_nil; done).
    destruct (mid ++ l) as [|g r] eqn:Eg; [done|].
    set (ad1 := set_queue p _ ad).
    rewrite (IH ad1 (map_recvpriv (set_defrag_q (defrag_q (sta_recvpriv s) ++
        [set_keytrack (sta_keytrack s) f])) s)).
    + unfold ad1. rewrite set_queue_twice. cbn [sta_recvpriv map_recvpriv set_sta_recvpriv defrag_q
        set_defrag_q sta_keytrack fmap list_fmap length replicate app]. rewrite <- app_assoc. cbn [app].
      by destruct (feed _ l) as [[[? ?] ?]| |].
    + by apply stas_set_queue.
    + eapply Forall_impl; [exact Hm|]. intros g' [Hg ?]. split; [|done]. unfold ad1. by rewrite get_stainfo_queue.
Qed.

Lemma in_order_intro kt cur num l :
  (forall i f, l !! i = Some f ->
    frag_num (fc (attrib f)) = num + Z.of_nat i /\ frame_pn f = Ret (cur + 1 + Z.of_nat i) /\ keytrack f = kt) ->
  0 <= cur -> cur + Z.of_nat (length l) < 2 ^ 64 -> in_order kt cur num l.
Proof.
  revert cur num. induction l as [|f l IH]; intros cur num Hl Hc Hb; [done|]. cbn [in_order length] in *.
  destruct (Hl 0%nat f eq_refl) as (Hn & Hp & Hk).
  assert (Hu : u64 (cur + 1) = cur + 1) by (apply Z.mod_small; lia). rewrite Hu.
  split; [rewrite Hp; f_equal; lia|]. split; [done|]. split; [lia|]. apply IH; [|lia|lia].
  intros i g Hg. destruct (Hl (S i) g Hg) as (Hn' & Hp' & Hk').
  split; [lia|]. split; [|done]. rewrite Hp'. f_equal. lia.
Qed.

Lemma queue_fits_kt icv k q : queue_fits icv q -> queue_fits icv (set_keytrack k <$> q).
Proof.
  intros (Hc & Hh & Hl & Hf). unfold queue_fits. rewrite length_fmap. split; [|split; [|split; [done|]]].
  - apply Forall_fmap. eapply Forall_impl; [exact Hc|]. intros f ([[? ? ? ? ?] ? ? ?] & Hr).
    split; [|exact Hr]. split; [split|..]; assumption.
  - by apply Forall_fmap.
  - destruct q as [|pr l]; [done|]. cbn [fmap list_fmap].
    assert (E : total (set_keytrack k <$> l) = total l).
    { clear. induction l as [|f l IH]; [done|]. unfold total in *. cbn [foldr fmap list_fmap]. by rewrite <- IH. }
    fold (set_keytrack k <$> l). rewrite E. exact Hf.
Qed.

Lemma payload_kt k (q : list recv_frame) : payload <$> (set_keytrack k <$> q) = payload <$> q.
Proof. rewrite <- list_fmap_compose. done. Qed.

Lemma complete_kt k pn q : q <> [] -> 0 <= pn < 2 ^ 48 -> (length q < 256)%nat ->
  (forall i f, q !! i = Some f ->
     frag_num (fc (attrib f)) = Z.of_nat i /\ frame_pn f = Ret (pn + Z.of_nat i)) ->
  complete (set_keytrack k <$> q).
Proof.
  intros Hne Hpn Hl Hq. destruct q as [|f l]; [done|]. destruct (Hq 0%nat f eq_refl) as [Hn Hp].
  exists (set_keytrack k f), (set_keytrack k <$> l), pn. split; [done|]. split; [done|].
  split; [transitivity (frame_pn f); [done|rewrite Hp; f_equal; lia]|].
  apply in_order_intro; [|lia|rewrite length_fmap; cbn in Hl; lia].
  intros i g Hg. rewrite list_lookup_fmap in Hg. destruct (l !! i) as [g'|] eqn:Eg; [|done].
  injection Hg as <-. destruct (Hq (S i) g' Eg) as [Hn' Hp']. cbn.
  split; [rewrite Hn'; lia|]. split; [|done]. transitivity (frame_pn g'); [done|].
  rewrite Hp'. f_equal. lia.
Qed.

(** The fragments of an MSDU, arriving one after the other, end up in one call of
    [recvframe_defrag] with the queue empty. *)
Lemma feed_run ad p s first mid lst :
  stas ad !! p = Some s -> more_of ad p first -> Forall (more_of ad p) mid ->
  rtw_get_stainfo ad (a_addr ta lst) = Some p /\ mfrag (fc (attrib lst)) = false ->
  (forall i f, (first :: mid ++ [lst]) !! i = Some f -> frag_num (fc (attrib f)) = Z.of_nat i) ->
  let kt := set_keytrack (sta_keytrack s) in
  feed ad (first :: mid ++ [lst]) =
    ('(ad', o) ← recvframe_defrag (set_queue p [] (rtw_free_recvframe_queue ad (defrag_q (sta_recvpriv s))))
                   (kt <$> first :: mid ++ [lst]);
     Ret (ad', replicate (S (length mid)) CORE_RX_DEFRAG ++
               [match o with Some _ => CORE_RX_CONTINUE | None => CORE_RX_DROP end], o)).
Proof.
  intros Hs Hfirst Hmid Hlst Hseq kt. destruct Hlst as [Hlta Hlm].
  pose proof (Hseq 0%nat first eq_refl) as Hn0.
  cbn [feed]. rewrite (chk_defrag_first ad p s first) by done. cbn [mbind res_bind].
  destruct (mid ++ [lst]) as [|g r] eqn:Eg; [by apply app_nil in Eg as [_ ?]|]. rewrite <- Eg in *. clear g r Eg.
  destruct (free_queue_pool ad (defrag_q (sta_recvpriv s))) as (_ & _ & Hp3).
  pose proof (get_stainfo_free_queue ad (defrag_q (sta_recvpriv s))) as Hget.
  set (ad0 := rtw_free_recvframe_queue ad _) in *. set (ad1 := set_queue p [_] ad0).
  set (s1 := map_recvpriv (set_defrag_q [kt first]) s).
  assert (Hs1 : stas ad1 !! p = Some s1) by (apply stas_set_queue; by rewrite Hp3).
  rewrite (feed_more ad1 p s1); [|done|done| |].
  2:{ eapply Forall_impl; [exact Hmid|]. intros f [Hf ?]. split; [|done]. unfold ad1. by rewrite get_stainfo_queue, Hget. }
  2:{ apply Forall_lookup. intros i f Hf. rewrite (Hseq (S i) f); [lia|].
      change ((mid ++ [lst]) !! i = Some f).
      by rewrite lookup_app_l by (by eapply lookup_lt_Some). }
  cbn [feed]. unfold ad1. rewrite set_queue_twice. set (q := defrag_q (sta_recvpriv s1) ++ _).
  assert (Hq : q ++ [kt lst] = kt <$> first :: mid ++ [lst]).
  { unfold q. cbn. by rewrite fmap_app. }
  rewrite (chk_defrag_last _ p (map_recvpriv (set_defrag_q q) s)); [|by apply stas_set_queue; rewrite Hp3| |done|].
  2:{ by rewrite get_stainfo_queue, Hget. }
  2:{ rewrite (Hseq (S (length mid)) lst); [lia|].
      change ((mid ++ [lst]) !! length mid = Some lst). by apply list_lookup_middle. }
  rewrite set_queue_twice. cbn [sta_recvpriv map_recvpriv set_sta_recvpriv defrag_q set_defrag_q sta_keytrack].
  fold kt. rewrite Hq. cbn [replicate app].
  by destruct (recvframe_defrag _ _) as [[? ?]| |].
Qed.



End Defrag.
