(* ===== verification/Msdu.v ===== *)
(** * From frames to packets

    What [core/rtw_recv.c] does with a complete MSDU: the LLC header, the exchange
    of the 802.11 header for an Ethernet header, the subframes of an A-MSDU, and,
    for an access point, forwarding to its other stations ([core/rtw_ap.c],
    [rtw_os_alloc_msdu_pkt] of [os_dep/linux/recv_linux.c]). *)

From stdpp Require Import gmap.
From S2P Require Import Prelude Bytes RxFrame RxState RxCheck Defrag.

Module Msdu.
Import RxFrame RxState RxCheck Defrag.

(** ** The LLC header *)

Definition SNAP_SIZE : Z := 6.
Definition ETH_P_AARP : Z := 0x80F3.
Definition ETH_P_IPX : Z := 0x8137.
Definition rtw_bridge_tunnel_header : list Z := [0xaa; 0xaa; 0x03; 0x00; 0x00; 0xf8].
Definition rtw_rfc1042_header : list Z := [0xaa; 0xaa; 0x03; 0x00; 0x00; 0x00].

Inductive rtw_rx_llc_hdl := RTW_RX_LLC_KEEP | RTW_RX_LLC_REMOVE.
#[export] Instance llc_hdl_eq_dec : EqDecision rtw_rx_llc_hdl.
Proof. solve_decision. Defined.

(** The MSDU is at [msdu] of the buffer. *)
Definition rtw_recv_llc_parse (b : list Z) (msdu msdu_len : Z) : res rtw_rx_llc_hdl :=
  if msdu_len <? 8 then Ret RTW_RX_LLC_KEEP
  else
    eth_type ← get_be16 b (msdu + SNAP_SIZE);
    snap ← slice b msdu SNAP_SIZE;
    if bool_decide (snap = rtw_rfc1042_header) && negb (eth_type =? ETH_P_AARP)
         && negb (eth_type =? ETH_P_IPX)
       || bool_decide (snap = rtw_bridge_tunnel_header)
    then Ret RTW_RX_LLC_REMOVE else Ret RTW_RX_LLC_KEEP.

(** ** One MSDU *)

Definition removes (h : rtw_rx_llc_hdl) : bool := bool_decide (h = RTW_RX_LLC_REMOVE).

Definition wlanhdr_to_ethhdr (f : recv_frame) (llc_hdl : rtw_rx_llc_hdl) : res (recv_frame * bool) :=
  let a := attrib f in
  let f := if negb (encrypt a =? 0) then fst (recvframe_pull_tail f (icv_len a)) else f in
  let rmv_len := hdrlen a + iv_len a + (if removes llc_hdl then SNAP_SIZE else 0) in
  let l := u16 (len f - rmv_len) in
  match recvframe_pull f (rmv_len - ETH_HLEN + (if removes llc_hdl then 2 else 0)) with
  | (f, None) => Ret (f, false)
  | (f, Some p) =>
      b ← blit (buf f) p (dst (addrs a));
      b ← blit b (p + ETH_ALEN) (src (addrs a));
      b ← (if removes llc_hdl then Ret b else blit b (p + 12) (put_be16 l));
      Ret (set_buf b f, true)
  end.

(** The packet of a frame, for the network stack ([rtw_rframe_set_os_pkt]). *)
Definition os_pkt (f : recv_frame) : res (list Z) := slice (buf f) (rx_data f) (len f).

(** ** Forwarding by an access point

    [fwd_frame] is the frame to be sent to the address in it, [b2u_list] those to
    single stations. *)

Record fwd := mk_fwd { fwd_frame : option (list Z); b2u_list : list (list Z) }.

Definition NR_XMITFRAME : Z := 1256.

Definition core_tx_alloc_xmitframe (ad : adapter) : option adapter :=
  if free_xmitframe_cnt ad =? 0 then None
  else Some (set_free_xmitframe_cnt (free_xmitframe_cnt ad - 1) ad).
Definition core_tx_free_xmitframe (ad : adapter) : adapter :=
  set_free_xmitframe_cnt (free_xmitframe_cnt ad + 1) ad.

Definition RTW_AP_B2U_ALL : Z := BIT 0.
Definition RTW_AP_B2U_GA_UCAST : Z := BIT 1.
Definition RTW_AP_B2U_BCAST : Z := BIT 2.
Definition RTW_AP_B2U_IP_MCAST : Z := BIT 3.

Definition IP_MCAST_MAC (m : list Z) : bool := bool_decide (take 3 m = [0x01; 0x00; 0x5e]).
Definition ICMPV6_MCAST_MAC (m : list Z) : bool :=
  bool_decide (take 2 m = [0x33; 0x33]) && negb (m !!! 2%nat =? 0xff).

Definition rtw_ap_fwd_b2u_policy_chk (flags : Z) (da : list Z) (gaucst : bool) : bool :=
  flag flags RTW_AP_B2U_ALL || flag flags RTW_AP_B2U_GA_UCAST && gaucst
  || flag flags RTW_AP_B2U_BCAST && is_broadcast_mac_addr da
  || flag flags RTW_AP_B2U_IP_MCAST && (IP_MCAST_MAC da || ICMPV6_MCAST_MAC da).

(** A frame for every associated station but the sender; the result says whether
    the multicast frame is needed too. *)
Fixpoint rtw_ap_data_bmc_to_uc (ad : adapter) (sa ori_ta : list Z) (l : list Z) (b2u : list (list Z))
    : res (adapter * bool * list (list Z)) :=
  match l with
  | [] => Ret (ad, false, b2u)
  | p :: l =>
      '(_, s) ← sta_at ad (Some p);
      match phl_sta s with
      | None => Oob
      | Some (_, m) =>
          if negb (flag (state s) WIFI_ASOC_STATE) || bool_decide (m = sa) || bool_decide (m = ori_ta)
             || is_broadcast_mac_addr m || bool_decide (m = zero_mac)
          then rtw_ap_data_bmc_to_uc ad sa ori_ta l b2u
          else match core_tx_alloc_xmitframe ad with
               | None => Ret (ad, true, b2u)
               | Some ad => rtw_ap_data_bmc_to_uc ad sa ori_ta l (b2u ++ [m])
               end
      end
  end.

(** The address of the station a frame is from. *)
Definition sta_mac (ad : adapter) (o : option Z) : res (list Z) :=
  '(_, s) ← sta_at ad o;
  match phl_sta s with None => Oob | Some (_, m) => Ret m end.

(** [fwd_chk] of [rtw_ap_rx_msdu_act_check]: the frames to forward with. *)
Definition ap_fwd_chk (ad : adapter) (f : recv_frame) (da sa : list Z) : res (adapter * option fwd) :=
  if asoc_list_cnt ad <=? 1 then Ret (ad, None)
  else
    let gaucst := (to_fr_ds (fc (attrib f)) =? 3) && negb (IS_MCAST (a_addr ra f)) in
    '(ad, bmc_need, b2u) ←
      (if IS_MCAST da && rtw_ap_fwd_b2u_policy_chk (b2u_flags_ap_fwd ad) da gaucst
          && negb (wifi_spec ad) && (NR_XMITFRAME / 4 <? free_xmitframe_cnt ad)
       then m ← sta_mac ad (psta f); rtw_ap_data_bmc_to_uc ad sa m (asoc_list ad) []
       else Ret (ad, true, []));
    if bmc_need : bool then
      match core_tx_alloc_xmitframe ad with
      | None => Ret (ad, None)
      | Some ad => Ret (ad, Some (mk_fwd (Some da) b2u))
      end
    else Ret (ad, Some (mk_fwd None b2u)).

(** Whether the packet goes to the network stack, and how it is forwarded. *)
Definition rtw_ap_rx_msdu_act_check (ad : adapter) (f : recv_frame) (da sa : list Z)
    : res (adapter * bool * option fwd) :=
  if bool_decide (sa = mac ad) then Ret (ad, false, None)
  else if IS_MCAST da then '(ad, w) ← ap_fwd_chk ad f da sa; Ret (ad, true, w)
  else if bool_decide (da = mac ad) then Ret (ad, true, None)
  else if is_Some_b (rtw_get_stainfo ad da) then '(ad, w) ← ap_fwd_chk ad f da sa; Ret (ad, false, w)
  else Ret (ad, true, None).

Definition recv_free_fwd_resource (ad : adapter) (w : fwd) : adapter :=
  let ad := if is_Some_b (fwd_frame w) then core_tx_free_xmitframe ad else ad in
  foldl (fun ad _ => core_tx_free_xmitframe ad) ad (b2u_list w).

(** The frames of [b2u_list] in turn; the last takes the packet itself when no
    [fwd_frame] needs it. *)
Fixpoint b2u_xmit (ad : adapter) (last : bool) (packet : list Z) (l : list (list Z)) : adapter :=
  match l with
  | [] => ad
  | m :: l =>
      let '(ad, ok) := if last && bool_decide (l = []) then (ad, true) else alloc_mem ad in
      b2u_xmit (if ok : bool then emit (Forward m packet) ad else core_tx_free_xmitframe ad) last packet l
  end.

Definition recv_fwd_pkt_hdl (ad : adapter) (packet : list Z) (indicate : bool) (w : fwd) : adapter :=
  let '(ad, ok) := if indicate then alloc_mem ad else (ad, true) in
  if negb ok then recv_free_fwd_resource ad w
  else
    let ad := b2u_xmit ad (negb (is_Some_b (fwd_frame w))) packet (b2u_list w) in
    match fwd_frame w with Some m => emit (Forward m packet) ad | None => ad end.

(** [rtw_recv_indicatepkt]: the packet goes to the network stack and the frame is
    freed; a frame without a packet is freed too, and the result is a failure. *)
Definition rtw_recv_indicatepkt (ad : adapter) (f : recv_frame) : res (adapter * bool) :=
  if negb (pkt f) then Ret (rtw_free_recvframe ad (Some f), false)
  else packet ← os_pkt f; Ret (rtw_free_recvframe (emit (Indicate packet) ad) (Some f), true).

(** The frame of the result is the one the caller frees after [CORE_RX_DROP]. *)
Definition core_rx_process_msdu (ad : adapter) (f : recv_frame)
    : res (adapter * recv_frame * core_rx_state) :=
  let a := attrib f in
  let hl := hdrlen a + iv_len a in
  let msdu_len := u16 (len f - hl - (if negb (encrypt a =? 0) then icv_len a else 0)) in
  llc_hdl ← rtw_recv_llc_parse (buf f) (rx_data f + hl) msdu_len;
  '(ad, indicate, w) ← (if MLME_IS_AP ad then rtw_ap_rx_msdu_act_check ad f (dst (addrs a)) (src (addrs a))
                        else Ret (ad, true, None));
  if negb (indicate || is_Some_b w) then Ret (ad, f, CORE_RX_DROP)
  else
    '(f, ok) ← wlanhdr_to_ethhdr f llc_hdl;
    if negb ok then
      Ret (match w with Some w => recv_free_fwd_resource ad w | None => ad end, f, CORE_RX_DROP)
    else
      ad ← match w with
           | Some w => packet ← os_pkt f; Ret (recv_fwd_pkt_hdl ad packet indicate w)
           | None => Ret ad
           end;
      if negb indicate then Ret (rtw_free_recvframe ad (Some f), f, CORE_RX_DONE)
      else
        '(ad, ok) ← rtw_recv_indicatepkt ad f;
        Ret (ad, f, if ok : bool then CORE_RX_DONE else CORE_RX_DROP).

(** ** A-MSDUs *)

Definition MAX_SUBFRAME_COUNT : Z := 64.
Definition RTW_AMSDU_MODE_NON_SPP : Z := 0.

Definition validate_amsdu_content (ad : adapter) (a : rx_pkt_attrib) (da sa : list Z) : bool :=
  if (amsdu_mode ad =? RTW_AMSDU_MODE_NON_SPP)
     && negb (dot11PrivacyAlgrthm (securitypriv ad) =? _NO_PRIVACY_)
  then
    negb ((to_fr_ds (fc a) =? 1) && negb (bool_decide (da = ra (addrs a))))
    && negb ((to_fr_ds (fc a) =? 2) && negb (bool_decide (sa = ta (addrs a))))
    && negb (bool_decide (da = rtw_rfc1042_header))
  else true.

(** A packet of the network stack: with bytes of its own, or a clone that refers to
    the buffer of the frame. *)
Inductive sk_buff := Own (bytes : list Z) | Clone (off n : Z).

Definition skb_bytes (b : list Z) (s : sk_buff) : res (list Z) :=
  match s with Own x => Ret x | Clone off n => slice b off n end.

(** A packet for the MSDU at [msdu], with [da] and [sa], which are in the buffer at
    [eth]; the headers are pushed in front of it.  The copy is tried first, then a
    clone; the result has the buffer, which a clone changes. *)
Definition rtw_os_alloc_msdu_pkt (ad : adapter) (b : list Z) (eth msdu msdu_len : Z)
    (llc_hdl : rtw_rx_llc_hdl) : res (adapter * list Z * option sk_buff) :=
  sa ← slice b (eth + ETH_ALEN) ETH_ALEN;
  da ← slice b eth ETH_ALEN;
  let '(ad, copy_ok) := alloc_mem ad in
  if copy_ok : bool then
    x ← slice b msdu msdu_len;
    Ret (ad, b, Some (Own (da ++ sa ++ if removes llc_hdl then zdrop SNAP_SIZE x
                                       else put_be16 (u16 msdu_len) ++ x)))
  else
    let '(ad, clone_ok) := alloc_mem ad in
    if negb clone_ok then Ret (ad, b, None)
    else if removes llc_hdl then
      b ← blit b (msdu + SNAP_SIZE - ETH_ALEN) sa;
      da ← slice b eth ETH_ALEN;
      b ← blit b (msdu + SNAP_SIZE - 2 * ETH_ALEN) da;
      Ret (ad, b, Some (Clone (msdu + SNAP_SIZE - 2 * ETH_ALEN) (msdu_len - SNAP_SIZE + 2 * ETH_ALEN)))
    else
      b ← blit b (msdu - 2) (put_be16 (u16 msdu_len));
      b ← blit b (msdu - 2 - ETH_ALEN) sa;
      da ← slice b eth ETH_ALEN;
      b ← blit b (msdu - 2 - 2 * ETH_ALEN) da;
      Ret (ad, b, Some (Clone (msdu - 2 - 2 * ETH_ALEN) (msdu_len + 2 + 2 * ETH_ALEN))).

(** Whether a subframe is kept, and how it is forwarded. *)
Definition subframe_act (ad : adapter) (f : recv_frame) (da sa : list Z)
    : res (adapter * bool * option fwd) :=
  if MLME_IS_AP ad then rtw_ap_rx_msdu_act_check ad f da sa else Ret (ad, true, None).

(** The state of the loop: the buffer, what is left of it, the packets so far. *)
Record amsdu_st := mk_amsdu { as_ad : adapter; as_buf : list Z; pdata : Z; a_len : Z; subframes : list sk_buff }.

(** What happens to the subframe with the headers at [pd] and an MSDU of [n] bytes;
    [false] when no packet could be made. *)
Definition amsdu_keep (ad : adapter) (b : list Z) (pd n : Z) (llc_hdl : rtw_rx_llc_hdl)
    (indicate : bool) (w : option fwd) (subs : list sk_buff)
    : res (adapter * list Z * list sk_buff * bool) :=
  if negb (indicate || is_Some_b w) then Ret (ad, b, subs, true)
  else
    '(ad, b, o) ← rtw_os_alloc_msdu_pkt ad b pd (pd + ETH_HLEN) n llc_hdl;
    match o with
    | None => Ret (match w with Some w => recv_free_fwd_resource ad w | None => ad end, b, subs, false)
    | Some s =>
        ad ← match w with
             | Some w => x ← skb_bytes b s; Ret (recv_fwd_pkt_hdl ad x indicate w)
             | None => Ret ad
             end;
        Ret (ad, b, if indicate then subs ++ [s] else subs, true)
    end.

(** From the end of a subframe to the next one: what is left after the padding. *)
Definition amsdu_skip (n pd al : Z) : option (Z * Z) :=
  if al =? 0 then Some (pd, al)
  else
    let padding_len := 4 - Z.land (n + ETH_HLEN) (4 - 1) in
    let padding_len := if padding_len =? 4 then 0 else padding_len in
    if al <? padding_len then None else Some (pd + padding_len, al - padding_len).

(** One subframe; [false] when the loop is left. *)
Definition amsdu_step (f : recv_frame) (st : amsdu_st) : res (amsdu_st * bool) :=
  let '(mk_amsdu ad b pd al subs) := st in
  n ← get_be16 b (pd + 12);
  if al <? ETH_HLEN + n then Ret (st, false)
  else
    da ← slice b pd ETH_ALEN;
    sa ← slice b (pd + ETH_ALEN) ETH_ALEN;
    if negb (validate_amsdu_content ad (attrib f) da sa) then Ret (st, false)
    else
      llc_hdl ← rtw_recv_llc_parse b (pd + ETH_HLEN) n;
      '(ad, indicate, w) ← subframe_act ad f da sa;
      '(ad, b, subs, go) ← amsdu_keep ad b pd n llc_hdl indicate w subs;
      if negb go then Ret (mk_amsdu ad b pd al subs, false)
      else if MAX_SUBFRAME_COUNT <=? Z.of_nat (length subs) then
        Ret (mk_amsdu ad b (pd + ETH_HLEN) (al - ETH_HLEN) subs, false)
      else
        match amsdu_skip n (pd + ETH_HLEN + n) (al - ETH_HLEN - n) with
        | None => Ret (mk_amsdu ad b (pd + ETH_HLEN + n) (al - ETH_HLEN - n) subs, false)
        | Some (pd, al) => Ret (mk_amsdu ad b pd al subs, true)
        end.

(** The loop ends when no subframe header is left. *)
Fixpoint amsdu_loop (fuel : nat) (f : recv_frame) (st : amsdu_st) : res amsdu_st :=
  match fuel with
  | O => Looping
  | S fuel =>
      if a_len st <=? ETH_HLEN then Ret st
      else
        '(st, go) ← amsdu_step f st;
        if go : bool then amsdu_loop fuel f st else Ret st
  end.

(** The packets go to the network stack after the loop. *)
Fixpoint indicate_all (ad : adapter) (b : list Z) (l : list sk_buff) : res adapter :=
  match l with
  | [] => Ret ad
  | s :: l => x ← skb_bytes b s; indicate_all (emit (Indicate x) ad) b l
  end.

Definition amsdu_to_msdu (ad : adapter) (f : recv_frame) : res adapter :=
  let a := attrib f in
  let f := fst (recvframe_pull f (hdrlen a)) in
  let f := if 0 <? iv_len a then fst (recvframe_pull f (iv_len a)) else f in
  let f := if negb (encrypt a =? 0) then fst (recvframe_pull_tail f (icv_len a)) else f in
  st ← amsdu_loop (Z.to_nat (len f) + 1) f (mk_amsdu ad (buf f) (rx_data f) (len f) []);
  ad ← indicate_all (as_ad st) (as_buf st) (subframes st);
  Ret (rtw_free_recvframe ad (Some f)).

Definition core_rx_process_amsdu (ad : adapter) (f : recv_frame)
    : res (adapter * recv_frame * core_rx_state) :=
  ad ← amsdu_to_msdu ad f; Ret (ad, f, CORE_RX_DONE).

Definition rtw_core_rx_data_post_process (ad : adapter) (f : recv_frame)
    : res (adapter * recv_frame * core_rx_state) :=
  if amsdu (attrib f) then core_rx_process_amsdu ad f else core_rx_process_msdu ad f.

End Msdu.
