(* ===== verification/Amsdu.v ===== *)
(** * A-MSDUs, their subframes and the packets

    A reference parser of an A-MSDU that works on the bytes alone, and that the walk
    over the buffer in [Msdu] delivers what the parser finds: within the buffer, in a
    bounded number of packets, and the same whether a packet is a copy or a clone that
    refers to the buffer. *)

From stdpp Require Import gmap.
From S2P Require Import Prelude Bytes RxFrame RxState RxCheck RxSafe Defrag Msdu.

Module Amsdu.
Import RxFrame RxState RxCheck RxSafe Defrag Msdu.

(** ** The reference *)

(** Destination, source and MSDU of a subframe. *)
Record subframe := mk_sub { sf_da : list Z; sf_sa : list Z; sf_msdu : list Z }.

(** Whether the LLC header is replaced by the type it has. *)
Definition llc_removed (x : list Z) : bool :=
  let ty := 256 * (x !!! 6%nat) + x !!! 7%nat in
  (8 <=? zlen x) &&
  (bool_decide (ztake 6 x = rtw_rfc1042_header) && negb (ty =? ETH_P_AARP) && negb (ty =? ETH_P_IPX)
   || bool_decide (ztake 6 x = rtw_bridge_tunnel_header)).

(** The Ethernet packet of a subframe. *)
Definition ethernet (s : subframe) : list Z :=
  sf_da s ++ sf_sa s ++
  (if llc_removed (sf_msdu s) then zdrop 6 (sf_msdu s) else put_be16 (zlen (sf_msdu s)) ++ sf_msdu s).

(** The bytes that fill up to a multiple of four. *)
Definition padding (n : Z) : Z := (- n) mod 4.

(** The first subframe in [l] and what follows its padding, when it is complete and not
    refused. *)
Definition next (valid : list Z -> list Z -> bool) (l : list Z) : option (subframe * list Z) :=
  let n := 256 * (l !!! 12%nat) + l !!! 13%nat in
  if (zlen l <=? 14) || (zlen l <? 14 + n) || negb (valid (ztake 6 l) (ztake 6 (zdrop 6 l))) then None
  else Some (mk_sub (ztake 6 l) (ztake 6 (zdrop 6 l)) (ztake n (zdrop 14 l)),
             zdrop (14 + n + padding (14 + n)) l).

(** The subframes in [l] up to the first that is incomplete or refused. *)
Fixpoint deaggregate (fuel : nat) (valid : list Z -> list Z -> bool) (l : list Z) : list subframe :=
  match fuel with
  | O => []
  | S fuel => match next valid l with
              | None => []
              | Some (s, rest) => s :: deaggregate fuel valid rest
              end
  end.

(** An A-MSDU; the last subframe is not padded. *)
Definition aggregate1 (s : subframe) : list Z :=
  sf_da s ++ sf_sa s ++ put_be16 (zlen (sf_msdu s)) ++ sf_msdu s.
Fixpoint aggregate (l : list subframe) : list Z :=
  match l with
  | [] => []
  | [s] => aggregate1 s
  | s :: l => aggregate1 s ++ replicate (Z.to_nat (padding (14 + zlen (sf_msdu s)))) 0 ++ aggregate l
  end.

(** What an allocation of a packet finds: a copy, else a clone. *)
Definition skb_mem (m : list bool) : bool * list bool :=
  match m with
  | [] => (true, [])
  | true :: m => (true, m)
  | false :: [] => (true, [])
  | false :: c :: m => (c, m)
  end.
Fixpoint enough_mem (n : nat) (m : list bool) : bool :=
  match n with O => true | S n => fst (skb_mem m) && enough_mem n (snd (skb_mem m)) end.

(** ** The pieces of a subframe *)

Lemma get_be16_val b i : Forall is_byte b -> 0 <= i -> i + 2 <= zlen b ->
  get_be16 b i = Ret (256 * (b !!! Z.to_nat i) + b !!! Z.to_nat (i + 1)).
Proof.
  intros Hb Hi Hl. unfold get_be16.
  destruct (byte_at_some b i) as (x & Hx & Hrx); [lia|].
  destruct (byte_at_some b (i + 1)) as (y & Hy & Hry); [lia|].
  rewrite Hx. cbn [mbind res_bind]. rewrite Hy. cbn [mbind res_bind].
  rewrite rd_lookup in Hrx, Hry by lia. rewrite Forall_lookup in Hb.
  rewrite (list_lookup_total_correct _ _ _ Hrx), (list_lookup_total_correct _ _ _ Hry).
  by rewrite le16_value by eauto.
Qed.

Lemma sub_lookup off n b i : 0 <= off -> 0 <= n -> (i < Z.to_nat n)%nat -> off + n <= zlen b ->
  sub off n b !!! i = b !!! Z.to_nat (off + Z.of_nat i).
Proof.
  intros. unfold sub, ztake, zdrop, zlen in *. rewrite !list_lookup_total_alt.
  rewrite lookup_take, lookup_drop by lia. destruct (decide (i < Z.to_nat n)%nat); [|lia].
  do 2 f_equal. lia.
Qed.

(** [rtw_recv_llc_parse] is the function of the MSDU. *)
Lemma llc_parse_spec b m n : Forall is_byte b -> 0 <= m -> 0 <= n -> m + n <= zlen b ->
  rtw_recv_llc_parse b m n =
    Ret (if llc_removed (sub m n b) then RTW_RX_LLC_REMOVE else RTW_RX_LLC_KEEP).
Proof.
  intros Hb Hm Hn Hl. unfold rtw_recv_llc_parse, llc_removed. rewrite zlen_sub by lia.
  destruct (Z.ltb_spec n 8); destruct (Z.leb_spec 8 n); try lia; [done|]. cbn [andb].
  unfold SNAP_SIZE. rewrite get_be16_val by (done || lia). cbn [mbind res_bind].
  rewrite slice_sub by lia. cbn [mbind res_bind]. rewrite !sub_lookup, sub_take by lia.
  change (Z.of_nat 6) with 6. change (Z.of_nat 7) with 7.
  replace (m + 6 + 1) with (m + 7) by lia. by case_match.
Qed.

(** ** A packet for a subframe *)

(** Two buffers agree but from [lo] to [hi]. *)
Definition same_outside (lo hi : Z) (b b' : list Z) : Prop :=
  zlen b' = zlen b /\ forall o m, 0 <= o -> 0 <= m -> o + m <= lo \/ hi <= o -> sub o m b' = sub o m b.

Lemma same_outside_refl lo hi b : same_outside lo hi b b.
Proof. done. Qed.
Lemma same_outside_trans lo hi b1 b2 b3 :
  same_outside lo hi b1 b2 -> same_outside lo hi b2 b3 -> same_outside lo hi b1 b3.
Proof. intros [E1 H1] [E2 H2]. split; [congruence|]. intros. rewrite H2, H1; done. Qed.
Lemma same_outside_blit lo hi b off s b' : blit b off s = Ret b' -> lo <= off -> off + zlen s <= hi ->
  same_outside lo hi b b'.
Proof.
  intros Hb ? ?. split; [by eapply blit_len|]. intros o m ? ? Hd. eapply sub_blit_other; [exact Hb|..]; lia.
Qed.

(** A packet within [lo] and [hi]. *)
Definition skb_in (lo hi : Z) (s : sk_buff) : Prop :=
  match s with Own _ => True | Clone off m => lo <= off /\ 0 <= m /\ off + m <= hi end.

Lemma skb_in_mono lo hi lo' hi' s : lo' <= lo -> hi <= hi' -> skb_in lo hi s -> skb_in lo' hi' s.
Proof. destruct s; cbn; [done|lia]. Qed.

Lemma skb_bytes_same lo hi lim b b' s x : same_outside lo hi b b' -> 0 <= lim <= lo -> skb_in 0 lim s ->
  skb_bytes b s = Ret x -> skb_bytes b' s = Ret x.
Proof.
  intros [El Hs] Hlim Hin. destruct s as [y|off m]; [done|]. cbn in *. intros (? & ? & ? & ->)%slice_inv.
  rewrite slice_sub by lia. rewrite Hs by lia. done.
Qed.

Lemma same_outside_app p m m' s : zlen m' = zlen m ->
  same_outside (zlen p) (zlen p + zlen m) (p ++ m ++ s) (p ++ m' ++ s).
Proof.
  intros E. split; [rewrite !zlen_app; lia|]. intros o k Ho Hk Hd. unfold sub.
  assert (Hp : forall r, o + k <= zlen p -> ztake k (zdrop o (p ++ r)) = ztake k (zdrop o p)).
  { intros r Hr. unfold ztake, zdrop, zlen in *. rewrite drop_app_le by lia.
    rewrite take_app_le by (rewrite length_drop; lia). done. }
  assert (Hs : forall r, zlen r = zlen m -> zlen p + zlen m <= o ->
            zdrop o (p ++ r ++ s) = zdrop (o - zlen p - zlen m) s).
  { intros r Hr Hle. rewrite app_assoc. unfold zdrop, zlen in *.
    rewrite drop_app_ge by (rewrite length_app; lia). f_equal. rewrite length_app. lia. }
  destruct Hd; [rewrite !Hp by done; done|rewrite !Hs by (done || lia); done].
Qed.

(** What an allocation of packets leaves as it is. *)
Definition same_net (ad ad' : adapter) : Prop :=
  mac ad' = mac ad /\ fw_state ad' = fw_state ad /\ phl_role ad' = phl_role ad /\
  sta_hash ad' = sta_hash ad /\ stas ad' = stas ad /\ securitypriv ad' = securitypriv ad /\
  amsdu_mode ad' = amsdu_mode ad /\ asoc_list ad' = asoc_list ad /\
  asoc_list_cnt ad' = asoc_list_cnt ad /\ free_recv_queue ad' = free_recv_queue ad /\
  free_recvframe_cnt ad' = free_recvframe_cnt ad.

Lemma same_net_refl ad : same_net ad ad.
Proof. by repeat split. Qed.
Lemma same_net_trans ad1 ad2 ad3 : same_net ad1 ad2 -> same_net ad2 ad3 -> same_net ad1 ad3.
Proof. unfold same_net. intros. repeat split; intuition congruence. Qed.

(** The packets for the network stack. *)
Definition indicated (ad : adapter) : list (list Z) :=
  omap (fun e => match e with Indicate x => Some x | _ => None end) (log ad).

Lemma alloc_mem_spec ad : exists ad' ok, alloc_mem ad = (ad', ok) /\ same_net ad ad' /\
  log ad' = log ad /\ mem ad' = drop 1 (mem ad) /\ ok = default true (mem ad !! 0%nat).
Proof.
  unfold alloc_mem. destruct (mem ad) as [|c m] eqn:E.
  - exists ad, true. by rewrite E.
  - exists (set_mem m ad), c. done.
Qed.

(** ** Forwarding *)

(** [ad'] differs in what forwarding uses only. *)
Definition same_io (ad ad' : adapter) : Prop := same_net ad ad' /\ indicated ad' = indicated ad.

Lemma same_io_refl ad : same_io ad ad.
Proof. by repeat split. Qed.
Lemma same_io_trans ad1 ad2 ad3 : same_io ad1 ad2 -> same_io ad2 ad3 -> same_io ad1 ad3.
Proof. intros [? ?] [? ?]. split; [by eapply same_net_trans|congruence]. Qed.
Lemma same_io_log ad ad' : same_net ad ad' -> log ad' = log ad -> same_io ad ad'.
Proof. intros ? E. split; [done|]. unfold indicated. by rewrite E. Qed.
Lemma same_io_free ad : same_io ad (core_tx_free_xmitframe ad).
Proof. by apply same_io_log. Qed.
Lemma same_io_mem ad : same_io ad (fst (alloc_mem ad)).
Proof. destruct (alloc_mem_spec ad) as (ad' & ok & -> & ? & ? & _). by apply same_io_log. Qed.
Lemma same_io_forward ad m x : same_io ad (emit (Forward m x) ad).
Proof. split; [done|]. unfold indicated. cbn. rewrite omap_app. cbn. by rewrite app_nil_r. Qed.
Lemma same_io_alloc ad ad' : core_tx_alloc_xmitframe ad = Some ad' -> same_io ad ad'.
Proof. unfold core_tx_alloc_xmitframe. case_match; [done|]. intros [= <-]. by apply same_io_log. Qed.
Create HintDb fwd.
#[export] Hint Resolve same_io_refl same_io_free same_io_forward same_io_alloc : fwd.

Lemma same_io_free_fwd ad w : same_io ad (recv_free_fwd_resource ad w).
Proof.
  unfold recv_free_fwd_resource. set (ad1 := if is_Some_b (fwd_frame w) then core_tx_free_xmitframe ad else ad).
  assert (H1 : same_io ad ad1) by (unfold ad1; case_match; auto with fwd).
  revert H1. generalize ad1. induction (b2u_list w) as [|m l IH]; intros ad2 H2; [done|].
  cbn [foldl]. apply IH. eapply same_io_trans; [exact H2|]. auto with fwd.
Qed.

Lemma same_io_b2u ad last x l : same_io ad (b2u_xmit ad last x l).
Proof.
  revert ad. induction l as [|m l IH]; intros ad; cbn [b2u_xmit]; [auto with fwd|].
  destruct (last && _).
  - eapply same_io_trans; [|apply IH]. auto with fwd.
  - pose proof (same_io_mem ad) as Hm. destruct (alloc_mem ad) as [ad1 ok]. cbn in Hm.
    eapply same_io_trans; [exact Hm|]. eapply same_io_trans; [|apply IH]. destruct ok; auto with fwd.
Qed.

Lemma same_io_fwd ad x indicate w : same_io ad (recv_fwd_pkt_hdl ad x indicate w).
Proof.
  unfold recv_fwd_pkt_hdl.
  assert (Hm : forall a, a = (if indicate then alloc_mem ad else (ad, true)) -> same_io ad (fst a)).
  { intros a ->. destruct indicate; [apply same_io_mem|auto with fwd]. }
  destruct (if indicate then alloc_mem ad else (ad, true)) as [ad1 ok]. specialize (Hm _ eq_refl). cbn in Hm.
  eapply same_io_trans; [exact Hm|]. destruct ok; cbn [negb]; [|apply same_io_free_fwd].
  destruct (fwd_frame w); [eapply same_io_trans; [|apply same_io_forward]|]; apply same_io_b2u.
Qed.

(** ** A packet of a subframe *)

(** The packets so far with their bytes, all below [lim]. *)
Definition reads (b : list Z) (lim : Z) (subs : list sk_buff) (pkts : list (list Z)) : Prop :=
  Forall2 (fun k x => skb_in 0 lim k /\ skb_bytes b k = Ret x) subs pkts.

Lemma reads_same lo hi lim lim' b b' subs pkts : same_outside lo hi b b' -> 0 <= lim <= lo -> lim <= lim' ->
  reads b lim subs pkts -> reads b' lim' subs pkts.
Proof.
  intros Hs Hlim Hle H. eapply Forall2_impl; [exact H|]. intros k x [Hin Hk].
  split; [by eapply skb_in_mono; [..|exact Hin]|]. by eapply skb_bytes_same.
Qed.

Section packet.
Context (ad : adapter) (p da sa l2 x s : list Z) (Hda : zlen da = 6) (Hsa : zlen sa = 6) (Hl2 : zlen l2 = 2).
Context (Hx : zlen x < 65536).
Let b := p ++ (da ++ sa ++ l2 ++ x) ++ s.
Let h := if llc_removed x then RTW_RX_LLC_REMOVE else RTW_RX_LLC_KEEP.

Local Ltac place := rewrite <- ?app_assoc; done.
Local Ltac len := rewrite ?zlen_app; lia.

(** Reading or writing at the end of [q]. *)
Lemma slice_at q y r b0 off n : b0 = q ++ y ++ r -> off = zlen q -> n = zlen y -> slice b0 off n = Ret y.
Proof. intros -> -> ->. by apply slice_app. Qed.
Lemma blit_at q y y' r b0 off : b0 = q ++ y ++ r -> off = zlen q -> zlen y' = zlen y ->
  blit b0 off y' = Ret (q ++ y' ++ r).
Proof. intros -> ? ?. by apply blit_app. Qed.

Lemma zlen_be16 n : zlen (put_be16 n) = 2.
Proof. done. Qed.

Lemma clone_keeps {A} (k : list Z -> res A) :
  (b ← blit b (zlen p + 14 - 2) (put_be16 (u16 (zlen x)));
   b ← blit b (zlen p + 14 - 2 - ETH_ALEN) sa;
   da ← slice b (zlen p) ETH_ALEN;
   b ← blit b (zlen p + 14 - 2 - 2 * ETH_ALEN) da;
   k b) = k (p ++ (da ++ sa ++ put_be16 (zlen x) ++ x) ++ s).
Proof.
  unfold b, ETH_ALEN. rewrite u16_id by (unfold is_u16; pose proof (zlen_nonneg x); lia).
  rewrite (blit_at (p ++ da ++ sa) l2 _ (x ++ s)) by (place || len || done). cbn [mbind res_bind].
  rewrite (blit_at (p ++ da) sa _ (put_be16 (zlen x) ++ x ++ s)) by (place || len). cbn [mbind res_bind].
  rewrite (slice_at p da (sa ++ put_be16 (zlen x) ++ x ++ s)) by (place || len). cbn [mbind res_bind].
  rewrite (blit_at p da _ (sa ++ put_be16 (zlen x) ++ x ++ s)) by (place || len). cbn [mbind res_bind].
  by rewrite <- !app_assoc.
Qed.

(** The clone without LLC header overwrites half of the source address and the length. *)
Lemma clone_removes {A} (k : list Z -> res A) y : x = ztake 6 x ++ y -> 6 <= zlen x ->
  (b ← blit b (zlen p + 14 + SNAP_SIZE - ETH_ALEN) sa;
   da ← slice b (zlen p) ETH_ALEN;
   b ← blit b (zlen p + 14 + SNAP_SIZE - 2 * ETH_ALEN) da;
   k b) = k (p ++ ((da ++ ztake 2 sa) ++ (da ++ sa ++ y)) ++ s).
Proof.
  intros Exy H6. unfold b, ETH_ALEN, SNAP_SIZE. rewrite Exy.
  assert (H6x : zlen (ztake 6 x) = 6) by (rewrite zlen_ztake; lia).
  rewrite (blit_at (p ++ da ++ sa ++ l2) (ztake 6 x) sa (y ++ s)) by (place || len). cbn [mbind res_bind].
  rewrite (slice_at p da (sa ++ l2 ++ sa ++ y ++ s)) by (place || len). cbn [mbind res_bind].
  assert (H2 : zlen (ztake 2 sa) = 2) by (rewrite zlen_ztake; lia).
  assert (H4 : zlen (zdrop 2 sa) = 4) by (rewrite zlen_zdrop; lia).
  rewrite (blit_at (p ++ da ++ ztake 2 sa) (zdrop 2 sa ++ l2) da (sa ++ y ++ s)); [|..|len|len].
  - cbn [mbind res_bind]. by rewrite <- !app_assoc.
  - rewrite <- (ztake_zdrop 2 sa) at 1. place.
Qed.

(** A packet [o] in the buffer whose subframe is now [m']. *)
Definition made (m' : list Z) (o : option sk_buff) : Prop :=
  zlen m' = 14 + zlen x /\ (Forall is_byte (da ++ sa ++ l2 ++ x) -> Forall is_byte m') /\
  match o with
  | None => True
  | Some k => skb_in 0 (zlen p + 14 + zlen x) k /\
              skb_bytes (p ++ m' ++ s) k = Ret (ethernet (mk_sub da sa x))
  end.

Lemma made_none : made (da ++ sa ++ l2 ++ x) None.
Proof. unfold made. rewrite !zlen_app. split_all. Qed.

Lemma made_copy : made (da ++ sa ++ l2 ++ x)
  (Some (Own (da ++ sa ++ (if llc_removed x then zdrop SNAP_SIZE x else put_be16 (u16 (zlen x)) ++ x)))).
Proof.
  pose proof (zlen_nonneg x). unfold made. rewrite !zlen_app. split_all. cbn. unfold ethernet. cbn.
  rewrite u16_id by (unfold is_u16; lia). by destruct (llc_removed x).
Qed.

Lemma made_removed : llc_removed x = true -> 6 <= zlen x ->
  made ((da ++ ztake 2 sa) ++ (da ++ sa ++ zdrop 6 x))
    (Some (Clone (zlen p + 14 + SNAP_SIZE - 2 * ETH_ALEN) (zlen x - SNAP_SIZE + 2 * ETH_ALEN))).
Proof.
  intros Er H6. assert (Hy : zlen (zdrop 6 x) = zlen x - 6) by (rewrite zlen_zdrop; lia).
  assert (H2 : zlen (ztake 2 sa) = 2) by (rewrite zlen_ztake; lia).
  unfold made. rewrite !zlen_app, Hda, Hsa, Hy, H2. split; [lia|]. split; [|split].
  - rewrite !Forall_app. unfold ztake, zdrop. intros (? & ? & ? & ?).
    split_all; by (apply Forall_take || apply Forall_drop || done).
  - cbn. unfold SNAP_SIZE, ETH_ALEN. pose proof (zlen_nonneg p). lia.
  - cbn. unfold ethernet. cbn. rewrite Er. unfold SNAP_SIZE, ETH_ALEN.
    apply (slice_at (p ++ da ++ ztake 2 sa) (da ++ sa ++ zdrop 6 x) s); [place|len|len].
Qed.

Lemma made_kept : llc_removed x = false ->
  made (da ++ sa ++ put_be16 (zlen x) ++ x)
    (Some (Clone (zlen p + 14 - 2 - 2 * ETH_ALEN) (zlen x + 2 + 2 * ETH_ALEN))).
Proof.
  intros Er. pose proof (zlen_nonneg x). unfold made. rewrite !zlen_app, Hda, Hsa, zlen_be16.
  split; [lia|]. split; [|split].
  - rewrite !Forall_app. intros (? & ? & ? & ?). split_all.
    destruct (put_le16_bytes (zlen x)) as (u & v & E & ? & ? & _); [lia|].
    unfold put_le16 in E. injection E as E1 E2. unfold put_be16. rewrite E1, E2. by rewrite !Forall_cons.
  - cbn. unfold ETH_ALEN. pose proof (zlen_nonneg p). lia.
  - cbn. unfold ethernet. cbn. rewrite Er. unfold ETH_ALEN.
    apply (slice_at p (da ++ sa ++ put_be16 (zlen x) ++ x) s); [place|len|rewrite !zlen_app, zlen_be16; lia].
Qed.

(** The packet is the one of the reference, whatever way it is made, and the buffer changes
    only where the subframe is. *)
Lemma alloc_pkt_spec : exists ad' m' o,
  rtw_os_alloc_msdu_pkt ad b (zlen p) (zlen p + 14) (zlen x) h = Ret (ad', p ++ m' ++ s, o) /\
  same_net ad ad' /\ log ad' = log ad /\ mem ad' = snd (skb_mem (mem ad)) /\
  is_Some_b o = fst (skb_mem (mem ad)) /\ made m' o.
Proof.
  unfold rtw_os_alloc_msdu_pkt.
  rewrite (slice_at (p ++ da) sa (l2 ++ x ++ s) b (zlen p + ETH_ALEN)) by (unfold b, ETH_ALEN; place || len).
  cbn [mbind res_bind]. rewrite (slice_at p da (sa ++ l2 ++ x ++ s) b (zlen p)) by (unfold b, ETH_ALEN; place || len).
  cbn [mbind res_bind]. destruct (alloc_mem_spec ad) as (ad1 & ok & -> & Hn1 & Hl1 & Hm1 & ->).
  assert (Hh : removes h = llc_removed x) by (unfold h; by destruct (llc_removed x)). rewrite Hh.
  assert (H6 : llc_removed x = true -> 6 <= zlen x).
  { unfold llc_removed. destruct (Z.leb_spec 8 (zlen x)); [lia|done]. }
  destruct (mem ad) as [|[] mm] eqn:Em; cbn [default lookup list_lookup]; cbn in Hm1.
  1,2: rewrite (slice_at (p ++ da ++ sa ++ l2) x s b (zlen p + 14)) by (unfold b; place || len);
    cbn [mbind res_bind]; eexists _, _, _; (split; [reflexivity|]); do 4 (split; [done|]); apply made_copy.
  rewrite drop_0 in Hm1. destruct (alloc_mem_spec ad1) as (ad2 & ok2 & -> & Hn2 & Hl2' & Hm2 & ->).
  rewrite Hm1 in *. assert (Hn : same_net ad ad2) by (by eapply same_net_trans). rewrite Hl1 in Hl2'.
  assert (Hm2' : mem ad2 = snd (skb_mem (false :: mm))) by (rewrite Hm2; by destruct mm).
  assert (Hf : default true (mm !! 0%nat) = fst (skb_mem (false :: mm))) by (by destruct mm).
  rewrite Hf. fold (skb_mem (false :: mm)). destruct (fst (skb_mem (false :: mm))); cbn [negb id].
  2:{ eexists _, _, _. split; [reflexivity|]. do 4 (split; [done|]). apply made_none. }
  destruct (llc_removed x) eqn:Er; unfold id.
  - rewrite (clone_removes _ (zdrop 6 x)); [|by rewrite ztake_zdrop|by apply H6].
    eexists _, _, _. split; [reflexivity|]. do 4 (split; [done|]). apply made_removed; auto.
  - rewrite clone_keeps. eexists _, _, _. split; [reflexivity|]. do 4 (split; [done|]). by apply made_kept.
Qed.

Lemma keep_spec indicate w subs pkts : reads b (zlen p) subs pkts ->
  exists ad' m' subs' go,
    amsdu_keep ad b (zlen p) (zlen x) h indicate w subs = Ret (ad', p ++ m' ++ s, subs', go) /\
    same_io ad ad' /\ zlen m' = 14 + zlen x /\ (Forall is_byte (da ++ sa ++ l2 ++ x) -> Forall is_byte m') /\
    reads (p ++ m' ++ s) (zlen p + 14 + zlen x) subs'
      (pkts ++ if indicate && go then [ethernet (mk_sub da sa x)] else []) /\
    (indicate = true -> w = None ->
      go = fst (skb_mem (mem ad)) /\ mem ad' = snd (skb_mem (mem ad)) /\ log ad' = log ad).
Proof.
  intros Hr. pose proof (zlen_nonneg x). pose proof (zlen_nonneg p).
  assert (Hm0 : zlen (da ++ sa ++ l2 ++ x) = 14 + zlen x) by len. unfold amsdu_keep.
  assert (Hrs : forall m', zlen m' = 14 + zlen x -> reads (p ++ m' ++ s) (zlen p + 14 + zlen x) subs pkts).
  { intros m' Hm'. eapply (reads_same _ _ (zlen p)); [apply (same_outside_app p (da ++ sa ++ l2 ++ x)); lia|lia|lia|exact Hr]. }
  destruct (indicate || is_Some_b w) eqn:Eact; cbn [negb].
  2:{ apply orb_false_iff in Eact as [-> _]. exists ad, (da ++ sa ++ l2 ++ x), subs, true.
      split; [done|]. rewrite app_nil_r. split; [auto with fwd|]. split; [done|]. split; [done|].
      split; [by apply Hrs|done]. }
  destruct alloc_pkt_spec as (ad1 & m' & o & Ha & Hn & Hl & Hm & Ho & Hml & Hmb & Hmo).
  unfold ETH_HLEN. rewrite Ha. cbn [mbind res_bind]. destruct o as [k|].
  2:{ eexists _, m', subs, false. split; [reflexivity|]. rewrite andb_false_r, app_nil_r. split.
      { eapply same_io_trans; [by apply same_io_log|]. destruct w; [apply same_io_free_fwd|auto with fwd]. }
      split; [done|]. split; [done|]. split; [by apply Hrs|]. by intros _ ->. }
  destruct Hmo as [Hin Hk].
  assert (Hfin : reads (p ++ m' ++ s) (zlen p + 14 + zlen x) (if indicate then subs ++ [k] else subs)
                   (pkts ++ (if indicate then [ethernet (mk_sub da sa x)] else []))).
  { destruct indicate; [|rewrite app_nil_r; by apply Hrs]. apply Forall2_app; [by apply Hrs|]. by repeat constructor. }
  destruct w as [w|].
  - rewrite Hk. cbn [mbind res_bind]. eexists _, m', _, true. split; [reflexivity|]. rewrite andb_true_r.
    split; [|done]. eapply same_io_trans; [by apply same_io_log|apply same_io_fwd].
  - cbn [mbind res_bind]. eexists _, m', _, true. split; [reflexivity|]. rewrite andb_true_r.
    split; [by apply same_io_log|done].
Qed.
End packet.

(** ** One step *)

(** An access point knows the sender and its stations. *)
Definition fwd_ok (ad : adapter) (f : recv_frame) : Prop :=
  MLME_IS_AP ad = true ->
  (exists p s m, psta f = Some p /\ stas ad !! p = Some s /\ phl_sta s = Some m) /\
  Forall (fun p => exists s m, stas ad !! p = Some s /\ phl_sta s = Some m) (asoc_list ad).

Lemma fwd_ok_same ad ad' f : same_net ad ad' -> fwd_ok ad f -> fwd_ok ad' f.
Proof.
  intros (_ & E1 & _ & _ & E2 & _ & _ & E3 & _) H. unfold fwd_ok, MLME_IS_AP, check_fwstate in *.
  by rewrite E1, E2, E3.
Qed.

Lemma bmc_to_uc_spec ad sa m l b2u :
  Forall (fun p => exists s m, stas ad !! p = Some s /\ phl_sta s = Some m) l ->
  exists ad' need b2u', rtw_ap_data_bmc_to_uc ad sa m l b2u = Ret (ad', need, b2u') /\ same_io ad ad'.
Proof.
  intros Hl. revert ad b2u Hl. induction l as [|p l IH]; intros ad b2u Hl; cbn [rtw_ap_data_bmc_to_uc].
  { eexists _, _, _. split; [reflexivity|]. auto with fwd. }
  apply Forall_cons in Hl as [(s & [x mm] & Hs & Hm) Hl]. unfold sta_at. rewrite Hs. cbn [mbind res_bind].
  rewrite Hm. case_match; [by apply IH|].
  destruct (core_tx_alloc_xmitframe ad) as [ad1|] eqn:Ea.
  - pose proof (same_io_alloc _ _ Ea) as H1. destruct (IH ad1 (b2u ++ [mm])) as (ad2 & need & b2u' & -> & H2).
    { destruct H1 as [(_ & _ & _ & _ & -> & _) _]. done. }
    eexists _, _, _. split; [reflexivity|]. by eapply same_io_trans.
  - eexists _, _, _. split; [reflexivity|]. auto with fwd.
Qed.

Lemma fwd_chk_spec ad f da sa : MLME_IS_AP ad = true -> fwd_ok ad f ->
  exists ad' w, ap_fwd_chk ad f da sa = Ret (ad', w) /\ same_io ad ad'.
Proof.
  intros Hap H. destruct (H Hap) as ((p & s & [x m] & Hp & Hs & Hm) & Hl). unfold ap_fwd_chk.
  destruct (_ <=? 1); [eexists _, _; split; [reflexivity|auto with fwd]|]. cbv zeta.
  assert (Hb : forall c : bool, exists ad1 need b2u,
    (if c then m ← sta_mac ad (psta f); rtw_ap_data_bmc_to_uc ad sa m (asoc_list ad) [] else Ret (ad, true, []))
      = Ret (ad1, need, b2u) /\ same_io ad ad1).
  { intros []; [|eexists _, _, _; split; [reflexivity|auto with fwd]]. unfold sta_mac, sta_at. rewrite Hp, Hs.
    cbn [mbind res_bind]. rewrite Hm. by apply bmc_to_uc_spec. }
  match goal with |- context [if ?c then _ ≫= _ else _] => destruct (Hb c) as (ad1 & need & b2u & -> & H1) end.
  cbn [mbind res_bind]. destruct need; [|by eexists _, _].
  destruct (core_tx_alloc_xmitframe ad1) as [ad2|] eqn:Ea; [|by eexists _, _].
  eexists _, _. split; [reflexivity|]. eapply same_io_trans; [exact H1|]. auto with fwd.
Qed.

Lemma act_spec ad f da sa : fwd_ok ad f ->
  exists ad' indicate w, subframe_act ad f da sa = Ret (ad', indicate, w) /\ same_io ad ad' /\
    (MLME_IS_AP ad = false -> ad' = ad /\ indicate = true /\ w = None).
Proof.
  intros H. unfold subframe_act. destruct (MLME_IS_AP ad) eqn:Hap.
  2:{ exists ad, true, None. split; [done|]. split; [auto with fwd|done]. }
  destruct (fwd_chk_spec ad f da sa Hap H) as (ad1 & w & Hw & H1). unfold rtw_ap_rx_msdu_act_check.
  repeat case_match; rewrite ?Hw; cbn [mbind res_bind]; eexists _, _, _; (split; [reflexivity|]);
    (split; [auto with fwd|done]).
Qed.

Lemma split_buffer b pd n : 0 <= pd -> 0 <= n -> pd + 14 + n <= zlen b ->
  b = ztake pd b ++ (sub pd 6 b ++ sub (pd + 6) 6 b ++ sub (pd + 12) 2 b ++ sub (pd + 14) n b) ++
      zdrop (pd + 14 + n) b.
Proof.
  intros. rewrite <- (ztake_zdrop pd b) at 1. f_equal.
  rewrite <- (ztake_zdrop (6 + (6 + (2 + n))) (zdrop pd b)) at 1. rewrite zdrop_zdrop by lia. f_equal; [|f_equal; lia].
  fold (sub pd (6 + (6 + (2 + n))) b). rewrite !sub_app by lia. do 3 f_equal; f_equal; lia.
Qed.

Lemma keep_sub ad b pd n indicate w subs pkts :
  Forall is_byte b -> 0 <= pd -> 0 <= n < 65536 -> pd + 14 + n <= zlen b -> reads b pd subs pkts ->
  let sf := mk_sub (sub pd 6 b) (sub (pd + 6) 6 b) (sub (pd + 14) n b) in
  exists ad' b' subs' go,
    amsdu_keep ad b pd n (if llc_removed (sf_msdu sf) then RTW_RX_LLC_REMOVE else RTW_RX_LLC_KEEP)
      indicate w subs = Ret (ad', b', subs', go) /\
    same_io ad ad' /\ same_outside pd (pd + 14 + n) b b' /\ Forall is_byte b' /\
    reads b' (pd + 14 + n) subs' (pkts ++ if indicate && go then [ethernet sf] else []) /\
    (indicate = true -> w = None ->
      go = fst (skb_mem (mem ad)) /\ mem ad' = snd (skb_mem (mem ad)) /\ log ad' = log ad).
Proof.
  intros Hb Hpd Hn Hl Hr. cbv zeta. cbn [sf_msdu].
  pose proof (split_buffer b pd n Hpd ltac:(lia) Hl) as Eb.
  assert (Hp : zlen (ztake pd b) = pd) by (rewrite zlen_ztake; lia).
  assert (Hx : zlen (sub (pd + 14) n b) = n) by (apply zlen_sub; lia).
  destruct (keep_spec ad (ztake pd b) (sub pd 6 b) (sub (pd + 6) 6 b) (sub (pd + 12) 2 b) (sub (pd + 14) n b)
              (zdrop (pd + 14 + n) b)) with (indicate := indicate) (w := w) (subs := subs) (pkts := pkts)
    as (ad' & m' & subs' & go & Hk & Hio & Hm & Hmb & Hrd & Hlast); [apply zlen_sub; lia ..|lia| |].
  { by rewrite <- Eb, Hp. }
  rewrite <- Eb, Hp, Hx in Hk. rewrite Hp, Hx in Hrd. rewrite Hx in Hm.
  eexists ad', _, subs', go. split; [exact Hk|]. split; [done|]. split; [|split; [|done]].
  - rewrite Eb at 1. rewrite <- Hp at 1. replace (pd + 14 + n) with (zlen (ztake pd b) +
      zlen (sub pd 6 b ++ sub (pd + 6) 6 b ++ sub (pd + 12) 2 b ++ sub (pd + 14) n b)).
    + apply same_outside_app. rewrite Hm, !zlen_app, !zlen_sub by lia. lia.
    + rewrite Hp, !zlen_app, !zlen_sub by lia. lia.
  - apply Forall_app. split; [by apply Forall_take|]. apply Forall_app. split; [|by apply Forall_drop].
    apply Hmb. rewrite !Forall_app. split_all; by apply sub_bytes.
Qed.

Lemma padding_code n : (let k := 4 - Z.land (n + ETH_HLEN) (4 - 1) in if k =? 4 then 0 else k) = padding (14 + n).
Proof.
  unfold padding, ETH_HLEN. change (4 - 1) with (Z.ones 2). rewrite Z.land_ones by lia. change (2 ^ 2) with 4. cbv zeta.
  destruct (Z.eqb_spec (4 - (n + 14) mod 4) 4); dlia.
Qed.

Lemma padding_range n : 0 <= padding n < 4.
Proof. unfold padding. apply Z.mod_pos_bound. lia. Qed.

Lemma skip_spec n pd al : 0 <= al ->
  match amsdu_skip n pd al with
  | None => al < padding (14 + n)
  | Some (pd', al') => 0 <= al' /\ pd <= pd' /\ pd' + al' = pd + al /\
      (pd' = pd + padding (14 + n) \/ al = 0 /\ pd' = pd)
  end.
Proof.
  intros Hal. unfold amsdu_skip. rewrite padding_code. pose proof (padding_range (14 + n)).
  destruct (Z.eqb_spec al 0); [lia|]. destruct (Z.ltb_spec al (padding (14 + n))); lia.
Qed.

Lemma next_spec valid b pd al : Forall is_byte b -> 0 <= pd -> 14 < al -> pd + al <= zlen b ->
  exists n, get_be16 b (pd + 12) = Ret n /\ 0 <= n < 65536 /\
    next valid (sub pd al b) =
      if (al <? 14 + n) || negb (valid (sub pd 6 b) (sub (pd + 6) 6 b)) then None
      else Some (mk_sub (sub pd 6 b) (sub (pd + 6) 6 b) (sub (pd + 14) n b),
                 zdrop (14 + n + padding (14 + n)) (sub pd al b)).
Proof.
  intros Hb Hpd Hal Hl. destruct (get_be16_some b (pd + 12)) as (n & Hn & Hr); [done|lia|lia|].
  exists n. split; [done|]. split; [done|]. rewrite get_be16_val in Hn by (done || lia). injection Hn as Hn.
  unfold next. rewrite !sub_lookup by lia. change (Z.of_nat 12) with 12. change (Z.of_nat 13) with 13.
  replace (pd + 12 + 1) with (pd + 13) in Hn by lia. rewrite Hn, zlen_sub by lia.
  destruct (Z.leb_spec al 14); [lia|]. cbn [orb].
  rewrite !sub_drop, !sub_take by lia. destruct (Z.ltb_spec al (14 + n)); [done|]. cbn [orb].
  rewrite sub_take by lia. done.
Qed.

Lemma sub_empty off n b : n <= 0 -> sub off n b = [].
Proof. intros. unfold sub, ztake. by replace (Z.to_nat n) with 0%nat by lia. Qed.

(** After a subframe: the rest in the buffer is what the reference goes on with. *)
Lemma skip_rest pd al n b b' : 0 <= pd -> 0 <= n -> 14 + n <= al -> pd + al <= zlen b ->
  same_outside pd (pd + 14 + n) b b' ->
  let r := zdrop (14 + n + padding (14 + n)) (sub pd al b) in
  match amsdu_skip n (pd + 14 + n) (al - 14 - n) with
  | None => zlen r = 0
  | Some (pd', al') => pd + 14 + n <= pd' /\ 0 <= al' /\ pd' + al' <= zlen b /\ sub pd' al' b' = r
  end.
Proof.
  intros Hpd Hn Hal Hl [El Hs]. cbv zeta. pose proof (padding_range (14 + n)).
  pose proof (skip_spec n (pd + 14 + n) (al - 14 - n) ltac:(lia)) as Hk.
  rewrite sub_drop by lia. destruct (amsdu_skip _ _ _) as [[pd' al']|].
  - destruct Hk as (? & ? & ? & Hk). split; [lia|]. split; [lia|]. split; [lia|]. rewrite Hs by lia.
    destruct Hk as [->|[? ->]]; [f_equal; lia|]. by rewrite !sub_empty by lia.
  - by rewrite sub_empty by lia.
Qed.

Section step.
Context (f : recv_frame) (valid : list Z -> list Z -> bool).

(** The reference on what is left, and the step: the packet of the subframe when it is
    delivered, and the same rest. *)
Lemma walk_step_spec ad b pd al subs pkts :
  (forall da sa, validate_amsdu_content ad (attrib f) da sa = valid da sa) -> fwd_ok ad f ->
  Forall is_byte b -> 0 <= pd -> 14 < al -> pd + al <= zlen b -> reads b pd subs pkts ->
  match next valid (sub pd al b) with
  | None => amsdu_step f (mk_amsdu ad b pd al subs) = Ret (mk_amsdu ad b pd al subs, false)
  | Some (sf, r) => exists ad' b' pd' al' subs' go made,
      amsdu_step f (mk_amsdu ad b pd al subs) = Ret (mk_amsdu ad' b' pd' al' subs', go) /\
      same_io ad ad' /\ zlen b' = zlen b /\ Forall is_byte b' /\
      reads b' (pd + 14 + zlen (sf_msdu sf)) subs' (pkts ++ if made : bool then [ethernet sf] else []) /\
      (if go : bool then pd + 14 + zlen (sf_msdu sf) <= pd' /\ 0 <= al' /\ pd' + al' <= zlen b /\
                 sub pd' al' b' = r /\ (length subs' < 64)%nat
       else made = false \/ (64 <= length subs')%nat \/ zlen r = 0) /\
      (MLME_IS_AP ad = false ->
        made = fst (skb_mem (mem ad)) /\ mem ad' = snd (skb_mem (mem ad)) /\ log ad' = log ad)
  end.
Proof.
  intros Hv Hf Hb Hpd Hal Hl Hr. destruct (next_spec valid b pd al) as (n & Hn & Hrn & ->); [done..|].
  unfold amsdu_step. rewrite Hn. cbn [mbind res_bind]. unfold ETH_HLEN, ETH_ALEN.
  destruct (Z.ltb_spec al (14 + n)) as [|Hln]; [done|]. rewrite !slice_sub by lia. cbn [mbind res_bind orb].
  rewrite Hv. destruct (valid _ _); cbn [negb]; [|done].
  rewrite llc_parse_spec by (done || lia). cbn [mbind res_bind].
  destruct (act_spec ad f (sub pd 6 b) (sub (pd + 6) 6 b) Hf) as (ad1 & ind & w & -> & H1 & Hna).
  cbn [mbind res_bind sf_msdu].
  destruct (keep_sub ad1 b pd n ind w subs pkts) as (ad2 & b' & subs' & go & Hk & H2 & Hout & Hb' & Hrd & Hlast);
    [done|lia|done|lia|done|].
  cbn [sf_msdu] in Hk. rewrite Hk. cbn [mbind res_bind].
  assert (Hx : zlen (sub (pd + 14) n b) = n) by (apply zlen_sub; lia). rewrite Hx.
  assert (Hio : same_io ad ad2) by (by eapply same_io_trans).
  assert (Hap : MLME_IS_AP ad = false ->
    ind && go = fst (skb_mem (mem ad)) /\ mem ad2 = snd (skb_mem (mem ad)) /\ log ad2 = log ad).
  { intros Hap. destruct (Hna Hap) as (-> & -> & ->). destruct (Hlast eq_refl eq_refl) as (-> & ? & ?). done. }
  pose proof (skip_rest pd al n b b' Hpd ltac:(lia) Hln Hl Hout) as Hsk. cbv zeta in Hsk.
  destruct go; cbn [negb].
  2:{ eexists ad2, b', pd, al, subs', false, (ind && false). split; [reflexivity|]. rewrite andb_false_r in *.
      split_all; try apply Hout. }
  unfold MAX_SUBFRAME_COUNT. destruct (Z.leb_spec 64 (Z.of_nat (length subs'))).
  { eexists ad2, b', _, _, subs', false, (ind && true). split; [reflexivity|].
    split_all; try apply Hout. }
  destruct (amsdu_skip _ _ _) as [[pd' al']|].
  - eexists ad2, b', _, _, subs', true, (ind && true). split; [reflexivity|]. split_all; try apply Hout; apply Hsk.
  - eexists ad2, b', _, _, subs', false, (ind && true). split; [reflexivity|]. split_all; try apply Hout.
Qed.

Lemma validate_same ad ad' a da sa : same_net ad ad' ->
  validate_amsdu_content ad' a da sa = validate_amsdu_content ad a da sa.
Proof.
  intros (_ & _ & _ & _ & _ & E1 & E2 & _). unfold validate_amsdu_content. by rewrite E1, E2.
Qed.

Lemma next_short l : zlen l <= 14 -> next valid l = None.
Proof. intros. unfold next. by destruct (Z.leb_spec (zlen l) 14); [|lia]. Qed.

Lemma deaggregate_short fuel l : zlen l <= 14 -> deaggregate fuel valid l = [].
Proof. intros. destruct fuel; [done|]. cbn. by rewrite next_short. Qed.

Lemma same_net_ap ad ad' : same_net ad ad' -> MLME_IS_AP ad' = MLME_IS_AP ad.
Proof. intros (_ & E & _). unfold MLME_IS_AP, check_fwstate. by rewrite E. Qed.

(** The subframe and the rest fit into what was left. *)
Lemma next_fits b pd al sf r : Forall is_byte b -> 0 <= pd -> 14 < al -> pd + al <= zlen b ->
  next valid (sub pd al b) = Some (sf, r) -> 0 <= zlen (sf_msdu sf) /\ zlen r + 14 + zlen (sf_msdu sf) <= al.
Proof.
  intros Hb Hpd Hal Hl. destruct (next_spec valid b pd al) as (n & _ & ? & ->); [done..|].
  destruct (Z.ltb_spec al (14 + n)); [done|]. cbn [orb]. destruct (negb _); [done|]. intros [= <- <-].
  cbn [sf_msdu]. rewrite zlen_sub by lia. split; [lia|]. pose proof (padding_range (14 + n)).
  rewrite sub_drop by lia. destruct (Z.le_gt_cases 0 (al - (14 + n + padding (14 + n)))).
  - rewrite zlen_sub by lia. lia.
  - rewrite sub_empty by lia. rewrite zlen_nil. lia.
Qed.

Definition budget (subs : list sk_buff) : nat := 64 - length subs.

(** With memory left a packet is made, and one less can follow. *)
Lemma budget_step (subs subs' : list sk_buff) (m m' : list bool) (made : bool) : (length subs < 64)%nat ->
  length subs' = (length subs + if made then 1 else 0)%nat -> made = fst (skb_mem m) -> m' = snd (skb_mem m) ->
  enough_mem (budget subs) m = true ->
  made = true /\ enough_mem (budget subs') m' = true /\ budget subs = S (budget subs').
Proof.
  unfold budget. intros Hlen Hl Hmade -> Hm.
  replace (64 - length subs)%nat with (S (63 - length subs)) in * by lia. cbn [enough_mem] in Hm.
  apply andb_true_iff in Hm as [Hfst Hm]. rewrite Hfst in Hmade. subst made. split; [done|].
  rewrite Hl. replace (64 - (length subs + 1))%nat with (63 - length subs)%nat by lia. split; [exact Hm|lia].
Qed.

(** The loop ends, and delivers what the reference finds. *)
Lemma walk_loop_spec fuel ad b pd al subs pkts :
  (forall da sa, validate_amsdu_content ad (attrib f) da sa = valid da sa) -> fwd_ok ad f ->
  Forall is_byte b -> 0 <= pd -> 0 <= al < Z.of_nat fuel -> pd + al <= zlen b -> reads b pd subs pkts ->
  (length subs < 64)%nat ->
  exists st pkts' lim, amsdu_loop fuel f (mk_amsdu ad b pd al subs) = Ret st /\ same_io ad (as_ad st) /\
    reads (as_buf st) lim (subframes st) pkts' /\ (length pkts' <= 64)%nat /\
    (MLME_IS_AP ad = false -> enough_mem (budget subs) (mem ad) = true ->
      log (as_ad st) = log ad /\
      pkts' = pkts ++ (ethernet <$> take (budget subs) (deaggregate fuel valid (sub pd al b)))).
Proof.
  revert ad b pd al subs pkts.
  induction fuel as [|fuel IH]; intros ad b pd al subs pkts Hv Hf Hb Hpd Hal Hl Hr Hlen; [lia|].
  pose proof (Forall2_length _ _ _ Hr) as Hlp.
  cbn [amsdu_loop a_len]. unfold ETH_HLEN. destruct (Z.leb_spec al 14) as [|H14].
  { eexists _, pkts, pd. split; [reflexivity|]. split; [auto with fwd|]. split; [done|]. split; [lia|].
    intros _ _. rewrite deaggregate_short by (rewrite zlen_sub; lia). by rewrite take_nil, app_nil_r. }
  pose proof (walk_step_spec ad b pd al subs pkts Hv Hf Hb Hpd H14 Hl Hr) as Hs. cbn [deaggregate].
  destruct (next valid (sub pd al b)) as [[sf r]|] eqn:En.
  2:{ rewrite Hs. eexists _, pkts, pd. split; [reflexivity|]. split; [auto with fwd|]. split; [done|]. split; [lia|].
      intros _ _. by rewrite take_nil, app_nil_r. }
  destruct (next_fits _ _ _ _ _ Hb Hpd H14 Hl En) as [Hx Hfit].
  destruct Hs as (ad' & b' & pd' & al' & subs' & go & made & -> & Hio & Hzl & Hb' & Hrd & Hgo & Hna).
  pose proof (Forall2_length _ _ _ Hrd) as Hlp'. cbn [mbind res_bind].
  assert (Hlm : length subs' = (length subs + if made then 1 else 0)%nat)
    by (rewrite Hlp', length_app, Hlp; by destruct made).
  assert (Hmade : MLME_IS_AP ad = false -> enough_mem (budget subs) (mem ad) = true ->
            (made = true /\ enough_mem (budget subs') (mem ad') = true /\ budget subs = S (budget subs')) /\
            log ad' = log ad).
  { intros Hap Hm. destruct (Hna Hap) as (H1 & H2 & ?). split; [|done]. by eapply budget_step. }
  destruct go.
  - destruct Hgo as (? & ? & Hend & Hsub & ?).
    assert (Hal' : al' = zlen r) by (rewrite <- Hsub; symmetry; apply zlen_sub; lia).
    destruct (IH ad' b' pd' al' subs' (pkts ++ (if made then [ethernet sf] else [])))
      as (st & pkts' & lim & -> & Hio2 & Hrd2 & Hl2 & Hna2); try done; try lia.
    { intros. by rewrite (validate_same ad ad') by apply Hio. }
    { eapply fwd_ok_same; [apply Hio|done]. }
    { set (lo := pd + 14 + zlen (sf_msdu sf)) in *.
      eapply (reads_same lo lo lo); [apply same_outside_refl|lia|lia|exact Hrd]. }
    eexists st, pkts', lim. split; [reflexivity|]. split; [by eapply same_io_trans|].
    split; [done|]. split; [done|]. intros Hap Hm. destruct (Hmade Hap Hm) as ((-> & Hm' & ->) & Hlog).
    rewrite <- Hsub, firstn_cons, fmap_cons. destruct Hna2 as [-> ->]; [by rewrite (same_net_ap ad) by apply Hio|done|].
    by rewrite <- app_assoc.
  - eexists _, _, _. split; [reflexivity|]. split; [done|]. split; [exact Hrd|]. split; [destruct made; lia|].
    intros Hap Hm. destruct (Hmade Hap Hm) as ((-> & Hm' & Hbud) & Hlog). split; [done|].
    rewrite Hbud, firstn_cons, fmap_cons. do 2 f_equal. destruct Hgo as [|[?|?]]; [done| |].
    + unfold budget in *. by replace (64 - length subs')%nat with 0%nat by lia.
    + rewrite deaggregate_short by lia. by rewrite take_nil.
Qed.

End step.

(** ** A whole A-MSDU *)

Lemma indicate_all_spec ad b lim subs pkts : reads b lim subs pkts ->
  exists ad', indicate_all ad b subs = Ret ad' /\ same_net ad ad' /\ log ad' = log ad ++ (Indicate <$> pkts).
Proof.
  intros Hr. revert ad. induction Hr as [|k x subs pkts [_ Hk] Hr IH]; intros ad; cbn [indicate_all].
  { exists ad. split; [done|]. split; [apply same_net_refl|]. by rewrite app_nil_r. }
  rewrite Hk. cbn [mbind res_bind]. destruct (IH (emit (Indicate x) ad)) as (ad' & -> & Hn & Hl).
  exists ad'. split; [done|]. split; [exact Hn|]. rewrite Hl. cbn. by rewrite <- app_assoc.
Qed.

(** The frame without its header, packet number and check value. *)
Definition msdu_frame (f : recv_frame) : recv_frame :=
  let a := attrib f in
  let f := fst (recvframe_pull f (hdrlen a)) in
  let f := if 0 <? iv_len a then fst (recvframe_pull f (iv_len a)) else f in
  if negb (encrypt a =? 0) then fst (recvframe_pull_tail f (icv_len a)) else f.

Lemma msdu_frame_ok f : frame_ok f -> 0 <= hdrlen (attrib f) -> 0 <= icv_len (attrib f) ->
  frame_ok (msdu_frame f) /\ attrib (msdu_frame f) = attrib f /\ fid (msdu_frame f) = fid f /\
  psta (msdu_frame f) = psta f.
Proof.
  intros Hf Hh Hi. unfold msdu_frame.
  assert (H1 : forall g n, frame_ok g -> 0 <= n -> frame_ok (fst (recvframe_pull g n)) /\
      attrib (fst (recvframe_pull g n)) = attrib g /\ fid (fst (recvframe_pull g n)) = fid g /\
      psta (fst (recvframe_pull g n)) = psta g).
  { intros g n Hg Hn. autorewrite with rxframe. split; [by apply pull_frame_ok|].
    unfold recvframe_pull. by case_match. }
  assert (H2 : forall g n, frame_ok g -> 0 <= n -> frame_ok (fst (recvframe_pull_tail g n)) /\
      attrib (fst (recvframe_pull_tail g n)) = attrib g /\ fid (fst (recvframe_pull_tail g n)) = fid g /\
      psta (fst (recvframe_pull_tail g n)) = psta g).
  { intros g n Hg Hn. autorewrite with rxframe. split; [by apply pull_tail_frame_ok|].
    unfold recvframe_pull_tail. by case_match. }
  destruct (H1 f (hdrlen (attrib f)) Hf Hh) as (Hf1 & E1 & E2 & E3). revert Hf1 E1 E2 E3.
  generalize (fst (recvframe_pull f (hdrlen (attrib f)))) as f1. intros f1 Hf1 E1 E2 E3.
  set (f2 := if 0 <? iv_len (attrib f) then _ else f1).
  assert (Hf2 : frame_ok f2 /\ attrib f2 = attrib f /\ fid f2 = fid f /\ psta f2 = psta f).
  { unfold f2. destruct (Z.ltb_spec 0 (iv_len (attrib f))); [|done].
    destruct (H1 f1 (iv_len (attrib f)) Hf1) as (? & ? & ? & ?); [lia|]. split_all; congruence. }
  clearbody f2. destruct Hf2 as (Hf2 & E4 & E5 & E6). destruct (negb _); [|done].
  destruct (H2 f2 (icv_len (attrib f)) Hf2 Hi) as (? & ? & ? & ?). split_all; congruence.
Qed.

Section whole.
Context (ad : adapter) (f : recv_frame) (Hf : frame_ok f) (Hh : 0 <= hdrlen (attrib f))
  (Hi : 0 <= icv_len (attrib f)) (Hfwd : fwd_ok ad f).
Let valid := validate_amsdu_content ad (attrib f).
Let body := content (msdu_frame f).

Lemma process_amsdu_spec : exists ad' pkts,
  core_rx_process_amsdu ad f = Ret (ad', f, CORE_RX_DONE) /\
  (length pkts <= 64)%nat /\ indicated ad' = indicated ad ++ pkts /\ stas ad' = stas ad /\
  (exists g, fid g = fid f /\ free_recv_queue ad' = free_recv_queue ad ++ [freed g] /\
     free_recvframe_cnt ad' = free_recvframe_cnt ad + 1) /\
  (MLME_IS_AP ad = false -> enough_mem 64 (mem ad) = true ->
    log ad' = log ad ++ (Indicate <$> pkts) /\
    pkts = ethernet <$> take 64 (deaggregate (S (length body)) valid body)).
Proof.
  destruct (msdu_frame_ok f Hf Hh Hi) as (Hok & Ea & Ei & Ep).
  unfold core_rx_process_amsdu, amsdu_to_msdu. cbv zeta.
  fold (msdu_frame f). change (if negb (encrypt (attrib f) =? 0) then _ else _) with (msdu_frame f).
  pose proof (zlen_content _ Hok) as Hzc. fold body in Hzc.
  pose proof Hok as [Hd Ht He Hl Hb]. unfold rx_end in *.
  replace (Z.to_nat (len (msdu_frame f)) + 1)%nat with (S (length body)) by (unfold zlen in Hzc; lia).
  destruct (walk_loop_spec (msdu_frame f) valid (S (length body)) ad (buf (msdu_frame f)) (rx_data (msdu_frame f))
              (len (msdu_frame f)) [] []) as (st & pkts & lim & Hloop & Hio & Hrd & Hlen & Hna);
    [by rewrite Ea| |done|lia|unfold zlen in Hzc; lia|lia|constructor|cbn; lia|].
  { unfold fwd_ok. by rewrite Ep. }
  rewrite Hloop. cbn [mbind res_bind].
  destruct (indicate_all_spec (as_ad st) _ _ _ _ Hrd) as (ad' & -> & Hn & Hlog). cbn [mbind res_bind].
  assert (Hnet : same_net ad ad') by (eapply same_net_trans; [apply Hio|exact Hn]).
  eexists _, pkts. split; [reflexivity|]. split; [done|]. split; [|split; [|split]].
  - destruct Hio as [_ Hind]. rewrite <- Hind. unfold indicated. cbn [log rtw_free_recvframe set_pool].
    rewrite Hlog, omap_app. f_equal. clear. induction pkts as [|x l IH]; [done|]. cbn. by rewrite IH.
  - cbn. apply Hnet.
  - exists (msdu_frame f). destruct Hnet as (_ & _ & _ & _ & _ & _ & _ & _ & _ & Hq & Hc). cbn.
    by rewrite Hq, Hc.
  - intros Hap Hm. destruct (Hna Hap Hm) as [Hl0 ->]. cbn [log rtw_free_recvframe set_pool].
    rewrite Hlog, Hl0. split; [done|]. cbn [app]. do 3 f_equal. unfold body. rewrite content_sub. f_equal. lia.
Qed.
End whole.

(** ** Aggregation and its inverse *)

Record sub_ok (valid : list Z -> list Z -> bool) (s : subframe) : Prop := {
  sk_da : zlen (sf_da s) = 6;
  sk_sa : zlen (sf_sa s) = 6;
  sk_msdu : 0 < zlen (sf_msdu s) < 65536;
  sk_valid : valid (sf_da s) (sf_sa s) = true
}.
#[export] Instance sub_ok_dec valid s : Decision (sub_ok valid s).
Proof.
  refine (cast_if (decide (zlen (sf_da s) = 6 /\ zlen (sf_sa s) = 6 /\ 0 < zlen (sf_msdu s) < 65536 /\
    valid (sf_da s) (sf_sa s) = true))).
  - abstract (split; tauto).
  - abstract (intros [? ? ? ?]; tauto).
Defined.

Lemma zlen_aggregate1 valid s : sub_ok valid s -> zlen (aggregate1 s) = 14 + zlen (sf_msdu s).
Proof. intros [? ? ? ?]. unfold aggregate1. rewrite !zlen_app, zlen_be16. lia. Qed.

(** The length field. *)
Lemma aggregate1_length valid s r : sub_ok valid s ->
  let l := aggregate1 s ++ r in 256 * (l !!! 12%nat) + l !!! 13%nat = zlen (sf_msdu s).
Proof.
  intros [Hd Hs Hx _]. cbv zeta. unfold aggregate1. rewrite <- !app_assoc.
  destruct (put_le16_bytes (zlen (sf_msdu s))) as (u & v & E & _ & _ & Hv); [lia|].
  unfold put_le16 in E. injection E as E1 E2. unfold put_be16. rewrite E1, E2.
  unfold zlen in Hd, Hs. rewrite !(app_assoc (sf_da s)), !list_lookup_total_alt.
  assert (Hn : length (sf_da s ++ sf_sa s) = 12%nat) by (rewrite length_app; lia).
  rewrite (lookup_app_r _ _ 12), (lookup_app_r _ _ 13) by lia. rewrite Hn. cbn. lia.
Qed.

Lemma next_aggregate valid s pad r : sub_ok valid s -> zlen pad = padding (14 + zlen (sf_msdu s)) \/ pad ++ r = [] ->
  next valid (aggregate1 s ++ pad ++ r) = Some (s, r).
Proof.
  intros Hok Hpad. pose proof (zlen_aggregate1 valid s Hok) as Hz. pose proof (zlen_nonneg (pad ++ r)).
  pose proof (padding_range (14 + zlen (sf_msdu s))). unfold next. rewrite (aggregate1_length valid) by done.
  destruct Hok as [Hd Hs Hx Hv]. rewrite zlen_app.
  destruct (Z.leb_spec (zlen (aggregate1 s) + zlen (pad ++ r)) 14); [lia|].
  destruct (Z.ltb_spec (zlen (aggregate1 s) + zlen (pad ++ r)) (14 + zlen (sf_msdu s))); [lia|]. cbn [orb].
  assert (E1 : ztake 6 (aggregate1 s ++ pad ++ r) = sf_da s)
    by (unfold aggregate1; rewrite <- !app_assoc; by apply ztake_app).
  assert (E2 : ztake 6 (zdrop 6 (aggregate1 s ++ pad ++ r)) = sf_sa s)
    by (unfold aggregate1; rewrite <- !app_assoc; rewrite zdrop_app by done; by apply ztake_app).
  assert (E3 : ztake (zlen (sf_msdu s)) (zdrop 14 (aggregate1 s ++ pad ++ r)) = sf_msdu s).
  { unfold aggregate1. rewrite !(app_assoc (sf_da s)), !(app_assoc (sf_da s ++ sf_sa s)), <- (app_assoc _ (sf_msdu s)).
    rewrite zdrop_app by (rewrite !zlen_app, zlen_be16; lia). by apply ztake_app. }
  rewrite E1, E2, E3, Hv. cbn [negb]. f_equal. f_equal; [by destruct s|].
  rewrite <- zdrop_zdrop, (zdrop_app (aggregate1 s)) by lia. destruct Hpad as [Hpad|Hnil].
  - by rewrite zdrop_app.
  - rewrite Hnil. apply app_nil in Hnil as [-> ->]. unfold zdrop. by rewrite drop_nil.
Qed.

Lemma deaggregate_aggregate valid l fuel : Forall (sub_ok valid) l -> (length l < fuel)%nat ->
  deaggregate fuel valid (aggregate l) = l.
Proof.
  intros Hl. revert fuel. induction Hl as [|s l Hs Hl IH]; intros fuel Hfuel.
  { by rewrite deaggregate_short. }
  destruct fuel as [|fuel]; [cbn in Hfuel; lia|]. cbn [length] in Hfuel. cbn [deaggregate].
  destruct l as [|s' l].
  - replace (aggregate [s]) with (aggregate1 s ++ [] ++ []) by (exact (app_nil_r (aggregate1 s))).
    rewrite (next_aggregate valid s [] []) by (done || by right). by rewrite deaggregate_short.
  - change (aggregate (s :: s' :: l)) with
      (aggregate1 s ++ replicate (Z.to_nat (padding (14 + zlen (sf_msdu s)))) 0 ++ aggregate (s' :: l)).
    rewrite next_aggregate; [f_equal; apply IH; lia|done|]. left.
    unfold zlen at 1. rewrite length_replicate. pose proof (padding_range (14 + zlen (sf_msdu s))). lia.
Qed.

Lemma length_aggregate valid l : Forall (sub_ok valid) l -> (length l <= length (aggregate l))%nat.
Proof.
  induction 1 as [|s l Hs Hl IH]; [done|].
  pose proof (zlen_aggregate1 valid s Hs) as Hz. destruct Hs as [_ _ ? _]. unfold zlen in *.
  destruct l as [|s' l]; [cbn [aggregate length]; lia|].
  change (aggregate (s :: s' :: l)) with
    (aggregate1 s ++ replicate (Z.to_nat (padding (14 + Z.of_nat (length (sf_msdu s))))) 0 ++ aggregate (s' :: l)).
  rewrite !length_app. cbn [length] in *. lia.
Qed.

(** What is left of a frame when header, packet number and check value are gone. *)
Lemma msdu_content f h x c : frame_ok f -> content f = h ++ x ++ c -> zlen h = hdr_iv f ->
  0 <= hdrlen (attrib f) -> 0 <= iv_len (attrib f) ->
  zlen c = (if encrypt (attrib f) =? 0 then 0 else icv_len (attrib f)) -> content (msdu_frame f) = x.
Proof.
  intros Hf Hc Hh H0 H1 Hi. pose proof (zlen_content f Hf) as Hl. rewrite Hc, !zlen_app in Hl. unfold hdr_iv in Hh.
  pose proof (zlen_nonneg x). pose proof (zlen_nonneg c). unfold msdu_frame. cbv zeta.
  set (f1 := fst (recvframe_pull f (hdrlen (attrib f)))).
  assert (Hf1 : frame_ok f1) by (by apply pull_frame_ok).
  assert (Hc1 : content f1 = zdrop (hdrlen (attrib f)) (content f)) by (apply pull_content; done || lia).
  assert (Hl1 : len f1 = len f - hdrlen (attrib f)).
  { rewrite <- (zlen_content f1 Hf1), Hc1, zlen_zdrop; rewrite zlen_content by done; lia. }
  set (f2 := if 0 <? iv_len (attrib f) then _ else f1).
  assert (Hf2 : frame_ok f2 /\ content f2 = x ++ c).
  { assert (E : zdrop (hdrlen (attrib f) + iv_len (attrib f)) (content f) = x ++ c) by (rewrite Hc; by apply zdrop_app).
    unfold f2. destruct (Z.ltb_spec 0 (iv_len (attrib f))).
    - split; [apply pull_frame_ok; done || lia|]. rewrite pull_content by (done || lia).
      by rewrite Hc1, zdrop_zdrop by lia.
    - split; [done|]. rewrite Hc1, <- E. f_equal. lia. }
  clearbody f2. destruct Hf2 as [Hf2 Hc2]. pose proof (zlen_content f2 Hf2) as Hl2. rewrite Hc2, zlen_app in Hl2.
  destruct (encrypt (attrib f) =? 0); cbn [negb].
  - rewrite Hc2. destruct c; [by rewrite app_nil_r|done].
  - rewrite pull_tail_content by (done || lia). rewrite Hc2. apply ztake_app. lia.
Qed.

(** C35: Whatever bytes an A-MSDU has, and whatever allocations of packets fail, the walk over it stays
    within the buffer and ends; at most 64 packets go to the network stack, the frame's structure
    goes back to the pool, and the stations are as before.  This includes access points that
    forward subframes to their stations. *)
Theorem amsdu_safe ad f (Hf : frame_ok f) (Hh : 0 <= hdrlen (attrib f)) (Hi : 0 <= icv_len (attrib f))
  (Hfwd : fwd_ok ad f) :
  exists ad' pkts, core_rx_process_amsdu ad f = Ret (ad', f, CORE_RX_DONE) /\
    indicated ad' = indicated ad ++ pkts /\ (length pkts <= 64)%nat /\ stas ad' = stas ad /\
    exists g, fid g = fid f /\ free_recv_queue ad' = free_recv_queue ad ++ [freed g] /\
      free_recvframe_cnt ad' = free_recvframe_cnt ad + 1.
Proof.
  destruct (process_amsdu_spec ad f Hf Hh Hi Hfwd) as (ad' & pkts & ? & ? & ? & ? & ? & _).
  by exists ad', pkts.
Qed.

(** C12: On a station, the packets that go to the network stack are the first 64 that the reference
    parser finds in the bytes of the A-MSDU, in order, whether they were copied or are clones that
    refer to the buffer, which later subframes overwrite in part. *)
Theorem amsdu_delivers ad f (Hf : frame_ok f) (Hh : 0 <= hdrlen (attrib f)) (Hi : 0 <= icv_len (attrib f))
  (Hsta : MLME_IS_AP ad = false) (Hmem : enough_mem 64 (mem ad) = true) :
  let body := content (msdu_frame f) in
  exists ad', core_rx_process_amsdu ad f = Ret (ad', f, CORE_RX_DONE) /\
    log ad' = log ad ++ (Indicate ∘ ethernet <$>
      take 64 (deaggregate (S (length body)) (validate_amsdu_content ad (attrib f)) body)).
Proof.
  intros body. destruct (process_amsdu_spec ad f Hf Hh Hi) as (ad' & pkts & ? & _ & _ & _ & _ & H).
  { by intros ?; rewrite Hsta in *. }
  destruct (H Hsta Hmem) as [Hl ->]. exists ad'. split; [done|]. by rewrite Hl, <- list_fmap_compose.
Qed.

(** C20: The subframes of an A-MSDU are delivered as they were put into it: up to 64 Ethernet packets with
    their addresses, and the type in place of the LLC header or the length in front of it. *)
Theorem amsdu_roundtrip ad f l h c
  (Hf : frame_ok f) (Hc : content f = h ++ aggregate l ++ c) (Hh : zlen h = hdr_iv f)
  (H0 : 0 <= hdrlen (attrib f)) (H1 : 0 <= iv_len (attrib f))
  (Hi : zlen c = if encrypt (attrib f) =? 0 then 0 else icv_len (attrib f)) (Hi0 : 0 <= icv_len (attrib f))
  (Hl : Forall (sub_ok (validate_amsdu_content ad (attrib f))) l)
  (Hsta : MLME_IS_AP ad = false) (Hmem : enough_mem 64 (mem ad) = true) :
  exists ad', core_rx_process_amsdu ad f = Ret (ad', f, CORE_RX_DONE) /\
    log ad' = log ad ++ (Indicate ∘ ethernet <$> take 64 l).
Proof.
  destruct (process_amsdu_spec ad f Hf H0 Hi0) as (ad' & pkts & ? & _ & _ & _ & _ & H).
  { by intros ?; rewrite Hsta in *. }
  destruct (H Hsta Hmem) as [Hlog ->]. exists ad'. split; [done|]. rewrite Hlog, <- list_fmap_compose.
  rewrite (msdu_content f h (aggregate l) c) by done. rewrite deaggregate_aggregate; [done|done|].
  pose proof (length_aggregate _ l Hl). lia.
Qed.

(** ** Samples *)

(** An access point with two stations. *)
Definition sta_a : list Z := [0x02; 0; 0; 0; 0; 0x0a].
Definition sta_b : list Z := [0x02; 0; 0; 0; 0; 0x0b].
Definition sample_ap : adapter :=
  let st x m := mk_sta (Some (x, m)) 0 WIFI_ASOC_STATE false _AES_ (init_rxcache _rtw_init_sta_recv_priv)
                  0 false 0 true 0 0 0 0 0 0 (replicate 32 0) (replicate 32 0) in
  rtw_init_recv_priv
    (mk_adapter own_mac own_mac (Z.lor WIFI_AP_STATE WIFI_ASOC_STATE) (Some (mk_role own_mac 2 (Some 100)))
      (<[Z.to_nat (wifi_mac_hash sta_b) := [9]]> (<[Z.to_nat (wifi_mac_hash sta_a) := [8]]> (replicate 32 [])))
      (<[8 := st 101 sta_a]> {[ 9 := st 102 sta_b ]}) (sample_sec 2 _AES_) 1 1 [8; 9] 2
      (Z.lor RTW_AP_B2U_BCAST RTW_AP_B2U_IP_MCAST) false 1256 [] false true 1000 0 0 [] 0 []).

Definition sample_sub (da sa : list Z) (x : list Z) : subframe := mk_sub da sa x.
Definition sample_amsdu (e : Z) (p : Z) (l : list subframe) : recv_frame :=
  let f := sample_frame 5 e (sample_bytes 0x0288 0 own_mac ([0; 0] ++ aggregate l)) 16 in
  set_psta (Some p) (map_attrib (set_cipher 0 0 0) (map_attrib (set_qc 0 0 26) f)).
Definition sample_subs (da sa : list Z) : list subframe :=
  [sample_sub own_mac sa (llc 0x0800 ++ [1; 2; 3]); sample_sub da sa (llc ETH_P_IPX ++ [4; 5]);
   sample_sub da sa [6]].

Lemma amsdu_safe_witness :
  let f := sample_amsdu 0 8 (sample_subs sta_b sta_a) in
  exists ad' pkts, core_rx_process_amsdu sample_ap f = Ret (ad', f, CORE_RX_DONE) /\
    indicated ad' = indicated sample_ap ++ pkts /\ (length pkts <= 64)%nat /\ stas ad' = stas sample_ap /\
    exists g, fid g = fid f /\ free_recv_queue ad' = free_recv_queue sample_ap ++ [freed g] /\
      free_recvframe_cnt ad' = free_recvframe_cnt sample_ap + 1.
Proof.
  intros f. apply (amsdu_safe sample_ap f).
  - apply (bool_decide_unpack _). vm_compute. exact I.
  - vm_compute. discriminate.
  - vm_compute. discriminate.
  - intros _. split; [|constructor; [|constructor; [|constructor]]]; vm_compute; eauto 10.
Defined.

Lemma amsdu_delivers_witness :
  let ad := set_mem [false; true; true; false; true] (sample_ad 0 0) in
  let f := sample_amsdu 0 7 (sample_subs own_mac ap_mac) in
  enough_mem 64 (mem ad) = true /\
  exists ad', core_rx_process_amsdu ad f = Ret (ad', f, CORE_RX_DONE) /\
    log ad' = log ad ++ (Indicate ∘ ethernet <$> sample_subs own_mac ap_mac).
Proof.
  intros ad f. split; [vm_compute; reflexivity|]. apply (amsdu_delivers ad f).
  - apply (bool_decide_unpack _). vm_compute. exact I.
  - vm_compute. discriminate.
  - vm_compute. discriminate.
  - vm_compute. reflexivity.
  - vm_compute. reflexivity.
Defined.

Lemma amsdu_roundtrip_witness :
  let ad := set_mem [false; true; true; false; true] (sample_ad 0 0) in
  let l := sample_subs own_mac ap_mac in
  let f := sample_amsdu 0 7 l in
  exists ad', core_rx_process_amsdu ad f = Ret (ad', f, CORE_RX_DONE) /\
    log ad' = log ad ++ (Indicate ∘ ethernet <$> take 64 l).
Proof.
  intros ad l f. apply (amsdu_roundtrip ad f l (ztake 26 (content f)) []).
  - apply (bool_decide_unpack _). vm_compute. exact I.
  - vm_compute. reflexivity.
  - vm_compute. reflexivity.
  - vm_compute. discriminate.
  - vm_compute. discriminate.
  - vm_compute. reflexivity.
  - vm_compute. discriminate.
  - apply (bool_decide_unpack _). vm_compute. exact I.
  - vm_compute. reflexivity.
  - vm_compute. reflexivity.
Defined.

End Amsdu.
