(* ===== verification/Deliver.v ===== *)
(** * Delivery of MSDUs

    The 802.11 header is exchanged for an Ethernet header in place; what a station
    gives to the network stack for an MSDU is the packet it would give for the same
    MSDU in an A-MSDU. *)

From stdpp Require Import gmap.
From S2P Require Import Prelude Bytes RxFrame RxState RxCheck RxSafe Defrag Msdu Amsdu.

Module Deliver.
Import RxFrame RxState RxCheck RxSafe Defrag Msdu Amsdu.

(** The Ethernet packet for the MSDU [x] of a frame. *)
Definition delivered_packet (f : recv_frame) (x : list Z) : list Z :=
  ethernet (mk_sub (dst (addrs (attrib f))) (src (addrs (attrib f))) x).

(** The buffer around the bytes of the frame. *)
Lemma buf_split f : frame_ok f ->
  buf f = ztake (rx_data f) (buf f) ++ content f ++ zdrop (rx_tail f) (buf f).
Proof.
  intros [? ? ? ? ?]. unfold rx_end in *. rewrite <- (ztake_zdrop (rx_data f) (buf f)) at 1. f_equal.
  rewrite <- (ztake_zdrop (rx_tail f - rx_data f) (zdrop (rx_data f) (buf f))) at 1. f_equal.
  rewrite zdrop_zdrop by lia. f_equal. lia.
Qed.

Lemma split_end {A} (l : list A) n : 0 <= n <= zlen l ->
  exists l1 l2, l = l1 ++ l2 /\ zlen l2 = n /\ zlen l1 = zlen l - n.
Proof.
  intros. exists (ztake (zlen l - n) l), (zdrop (zlen l - n) l). rewrite ztake_zdrop. split; [done|].
  rewrite zlen_zdrop, zlen_ztake; lia.
Qed.

Section one.
Context (f : recv_frame) (h x c : list Z).
Context (Hf : frame_ok f) (Hc : content f = h ++ x ++ c) (Hh : zlen h = hdr_iv f) (H14 : 14 <= hdr_iv f).
Context (Hicv : zlen c = if encrypt (attrib f) =? 0 then 0 else icv_len (attrib f)).
Context (Hd : zlen (dst (addrs (attrib f))) = 6) (Hs : zlen (src (addrs (attrib f))) = 6).
Context (Hx : zlen x < 65536).

Let h_llc := if llc_removed x then RTW_RX_LLC_REMOVE else RTW_RX_LLC_KEEP.
Let packet := delivered_packet f x.

Local Ltac place := rewrite <- ?app_assoc; done.
Local Ltac len := rewrite ?zlen_app; lia.

(** Without the check value. *)
Lemma tail_gone : exists g, 
  (if negb (encrypt (attrib f) =? 0) then fst (recvframe_pull_tail f (icv_len (attrib f))) else f) = g /\
  frame_ok g /\ content g = h ++ x /\ rx_data g = rx_data f /\ fid g = fid f /\ pkt g = pkt f.
Proof.
  pose proof (zlen_content f Hf) as Hl. rewrite Hc, !zlen_app in Hl.
  pose proof (zlen_nonneg h). pose proof (zlen_nonneg x). pose proof (zlen_nonneg c).
  eexists. split; [reflexivity|]. destruct (encrypt (attrib f) =? 0); cbn [negb].
  - split; [done|]. split; [|done]. rewrite Hc. destruct c; [by rewrite app_nil_r|done].
  - split; [apply pull_tail_frame_ok; [done|lia]|]. split.
    + rewrite pull_tail_content by (done || lia). rewrite Hc, app_assoc. apply ztake_app. len.
    + rewrite pull_tail_ret by (done || lia). done.
Qed.

(** The addresses in front of what remains of header and MSDU. *)
Lemma ethhdr_spec : exists g, wlanhdr_to_ethhdr f h_llc = Ret (g, true) /\ os_pkt g = Ret packet /\
  fid g = fid f /\ pkt g = pkt f.
Proof.
  destruct tail_gone as (g & Eg & Hg & Hgc & Hgd & Hgi & Hgp). unfold wlanhdr_to_ethhdr. rewrite Eg.
  pose proof (buf_split g Hg) as Hb. rewrite Hgc in Hb. pose proof (zlen_content g Hg) as Hl.
  rewrite Hgc, zlen_app in Hl. pose proof (zlen_nonneg h). pose proof (zlen_nonneg x).
  set (pre := ztake (rx_data g) (buf g)) in *. set (post := zdrop (rx_tail g) (buf g)) in *.
  assert (Hpre : zlen pre = rx_data g) by (destruct Hg; unfold rx_end in *; apply zlen_ztake; lia).
  assert (Hr : removes h_llc = llc_removed x) by (unfold h_llc; by destruct (llc_removed x)).
  assert (H6 : llc_removed x = true -> 6 <= zlen x).
  { unfold llc_removed. destruct (Z.leb_spec 8 (zlen x)); [lia|done]. }
  unfold hdr_iv in *. rewrite Hr. unfold ETH_HLEN, ETH_ALEN, SNAP_SIZE. cbv zeta.
  unfold packet, delivered_packet, ethernet. cbn [sf_da sf_sa sf_msdu].
  set (da := dst _) in *. set (sa := src _) in *. destruct (llc_removed x) eqn:Er.
  - specialize (H6 eq_refl).
    destruct (split_end h 6) as (h1 & h2 & Eh & Hh2 & Hh1); [lia|].
    assert (Ex : x = ztake 6 x ++ zdrop 6 x) by (by rewrite ztake_zdrop).
    assert (Hx6 : zlen (ztake 6 x) = 6) by (rewrite zlen_ztake; lia).
    assert (Hy : zlen (zdrop 6 x) = zlen x - 6) by (rewrite zlen_zdrop; lia).
    rewrite pull_ret by (done || lia). cbn [set_ptrs buf].
    rewrite (blit_at (pre ++ h1) h2 da (x ++ post)); [|rewrite Hb, Eh; place|len|lia]. cbn [mbind res_bind].
    rewrite (blit_at (pre ++ h1 ++ da) (ztake 6 x) sa (zdrop 6 x ++ post));
      [|rewrite Ex at 1; place|len|lia]. cbn [mbind res_bind].
    eexists. split; [reflexivity|]. unfold os_pkt. cbn [set_buf set_ptrs buf rx_data len fid pkt].
    split; [|done]. apply (slice_at (pre ++ h1) (da ++ sa ++ zdrop 6 x) post); [place|len|].
    rewrite !zlen_app. lia.
  - destruct (split_end h 14) as (h1 & h2 & Eh & Hh2 & Hh1); [lia|].
    destruct (split_end h2 2) as (h3 & h4 & E2 & Hh4 & Hh3); [lia|].
    destruct (split_end h3 6) as (h5 & h6 & E3 & Hh6 & Hh5); [lia|].
    rewrite pull_ret by (done || lia). cbn [set_ptrs buf].
    rewrite (blit_at (pre ++ h1) h5 da (h6 ++ h4 ++ x ++ post)); [|rewrite Hb, Eh, E2, E3; place|len|lia].
    cbn [mbind res_bind].
    rewrite (blit_at (pre ++ h1 ++ da) h6 sa (h4 ++ x ++ post)); [|place|len|lia]. cbn [mbind res_bind].
    rewrite u16_id by (unfold is_u16; lia).
    replace (len g - (hdrlen (attrib f) + iv_len (attrib f) + 0)) with (zlen x) by lia.
    rewrite (blit_at (pre ++ h1 ++ da ++ sa) h4 (put_be16 (zlen x)) (x ++ post)); [|place|len|done].
    cbn [mbind res_bind].
    eexists. split; [reflexivity|]. unfold os_pkt. cbn [set_buf set_ptrs buf rx_data len fid pkt].
    split; [|done]. apply (slice_at (pre ++ h1) (da ++ sa ++ put_be16 (zlen x) ++ x) post); [place|len|].
    rewrite !zlen_app, zlen_be16. lia.
Qed.

Lemma llc_of_frame : 
  rtw_recv_llc_parse (buf f) (rx_data f + hdr_iv f)
    (u16 (len f - hdr_iv f - (if negb (encrypt (attrib f) =? 0) then icv_len (attrib f) else 0))) = Ret h_llc.
Proof.
  pose proof (zlen_content f Hf) as Hl. rewrite Hc, !zlen_app in Hl. pose proof (zlen_nonneg x).
  pose proof (zlen_nonneg c). replace (len f - _ - _) with (zlen x) by (destruct (encrypt (attrib f) =? 0); cbn [negb]; lia).
  rewrite u16_id by (unfold is_u16; lia). pose proof Hf as [? ? ? ? ?]. unfold rx_end in *.
  rewrite llc_parse_spec by (done || lia). unfold h_llc.
  assert (E : sub (rx_data f + hdr_iv f) (zlen x) (buf f) = x); [|by rewrite E].
  assert (Hs' : slice (buf f) (rx_data f + hdr_iv f) (zlen x) = Ret x).
  { apply (slice_at (ztake (rx_data f) (buf f) ++ h) x (c ++ zdrop (rx_tail f) (buf f)));
      [|rewrite zlen_app, zlen_ztake; lia|done].
    rewrite (buf_split f Hf) at 1. rewrite Hc. place. }
  rewrite slice_sub in Hs' by lia. by injection Hs'.
Qed.

End one.

(** C32: A station that gets an MSDU gives one Ethernet packet to the network stack, with the addresses of
    the header and the type in place of the LLC header or the length in front of it, which is the packet
    of the same MSDU as a subframe; the frame's structure goes back to the pool. *)
Theorem msdu_delivered ad f h x c
  (Hf : frame_ok f) (Hc : content f = h ++ x ++ c) (Hh : zlen h = hdr_iv f) (H14 : 14 <= hdr_iv f)
  (Hicv : zlen c = if encrypt (attrib f) =? 0 then 0 else icv_len (attrib f))
  (Hd : zlen (dst (addrs (attrib f))) = 6) (Hs : zlen (src (addrs (attrib f))) = 6)
  (Hx : zlen x < 65536) (Hsta : MLME_IS_AP ad = false) (Hpkt : pkt f = true) :
  exists g, core_rx_process_msdu ad f =
      Ret (rtw_free_recvframe (emit (Indicate (delivered_packet f x)) ad) (Some g), g, CORE_RX_DONE) /\
    fid g = fid f.
Proof.
  unfold core_rx_process_msdu. cbv zeta. fold (hdr_iv f). rewrite (llc_of_frame f h x c) by done.
  cbn [mbind res_bind]. rewrite Hsta. cbn [mbind res_bind orb negb is_Some_b].
  destruct (ethhdr_spec f h x c Hf Hc Hh H14 Hicv Hd Hs Hx) as (g & -> & Hp & Hi & Hgp).
  cbn [mbind res_bind negb]. unfold rtw_recv_indicatepkt. rewrite Hgp, Hpkt, Hp. cbn [negb mbind res_bind].
  by exists g.
Qed.

Lemma msdu_delivered_witness :
  let x := llc 0x0800 ++ [1; 2; 3] in
  let f := set_attrib (set_addrs (mk_addrs own_mac ap_mac ap_mac own_mac ap_mac)
             (set_cipher _AES_ 8 8 (set_qc 0 0 24 (attrib (frame0 5)))))
             (sample_frame 5 _AES_ (sample_bytes 0x4208 0 own_mac (ccmp_header 5 0 ++ x ++ replicate 8 0x99)) 16) in
  exists g, core_rx_process_msdu (sample_ad 2 _AES_) f =
      Ret (rtw_free_recvframe (emit (Indicate (own_mac ++ ap_mac ++ [0x08; 0x00; 1; 2; 3])) (sample_ad 2 _AES_))
             (Some g), g, CORE_RX_DONE) /\ fid g = 5.
Proof.
  intros x f.
  apply (msdu_delivered (sample_ad 2 _AES_) f (ztake 32 (content f)) x (replicate 8 0x99)).
  - apply (bool_decide_unpack _). vm_compute. exact I.
  - vm_compute. reflexivity.
  - vm_compute. reflexivity.
  - vm_compute. discriminate.
  - vm_compute. reflexivity.
  - reflexivity.
  - reflexivity.
  - reflexivity.
  - reflexivity.
  - reflexivity.
Defined.

End Deliver.
