(* ===== verification/RxPath.v ===== *)
(** * The receive path

    The steps of [core/rtw_recv.c] between the hardware's ring and the network
    stack: the buffer of a frame, the checks of [RxCheck], decryption, [Defrag], the
    TKIP check value, the port of 802.1X, and delivery with [Msdu]; the loop
    [rtw_core_rx_process] over the received frames. *)

From stdpp Require Import gmap.
From S2P Require Import Prelude Bytes RxFrame RxState RxCheck Defrag Msdu.
From S2P Require Wep.

Module RxPath.
Import RxFrame RxState RxCheck Defrag Msdu.

(** ** Received packets *)

(** [struct rtw_recv_pkt]: the bytes received with what the hardware says of them;
    [os_priv] is a packet of the network stack that holds them already, as its
    buffer with the offset and the number of the bytes in it. *)
Record rtw_recv_pkt := mk_req {
  vir_addr : list Z;
  os_priv : option (list Z * Z * Z);
  r_qos : bool;
  more_frag : bool;
  r_frag_num : Z;
  bcmc : bool;
  sw_dec : bool;
  icverr : bool;
  crc32 : bool
}.

Section rx.

(** Packets of the network stack ([rtw_skb_alloc]): a buffer for a size, and the
    alignment of its address. *)
Variable skb_alloc : Z -> list Z.
Variable skb_align : Z.

(** The ciphers of [core/crypto]: key, header and protected bytes give the plain
    text, or none. *)
Variable ccmp_decrypt : list Z -> list Z -> list Z -> option (list Z).
Variable ccmp_256_decrypt : list Z -> list Z -> list Z -> option (list Z).
Variable gcmp_decrypt : list Z -> Z -> list Z -> list Z -> option (list Z).

(** ** The buffer *)

(** [None] when the allocation fails. *)
Definition core_alloc_recvframe_pkt (ad : adapter) (f : recv_frame) (r : rtw_recv_pkt)
    : res (adapter * option recv_frame) :=
  let length := zlen (vir_addr r) in
  let shift_sz := if r_qos r then 6 else 0 in
  let alloc_sz :=
    if more_frag r && (r_frag_num r =? 0) then if length <=? 1650 then 1664 else length + 14
    else length + 14 in
  let '(ad, ok) := alloc_mem ad in
  if negb ok then Ret (ad, None)
  else
    let d := (8 - skb_align) + shift_sz in
    b ← blit (skb_alloc alloc_sz) d (vir_addr r);
    Ret (ad, Some (set_pkt true (set_ptrs d (d + length) length (set_buf b f)))).

Definition core_update_recvframe_pkt (f : recv_frame) (b : list Z) (off n : Z) : res recv_frame :=
  if zlen b <? off + n then Oob
  else Ret (set_pkt true (set_ptrs off (off + n) n (set_buf b f))).

Definition core_update_recvframe_mdata (f : recv_frame) (r : rtw_recv_pkt) : recv_frame :=
  map_attrib (fun a => mk_attrib (fc a) (addrs a) (amsdu a) (priority a) (ack_policy a) (hdrlen a)
    (encrypt a) (iv_len a) (icv_len a) (key_index a) (negb (sw_dec r)) (crc32 r) (icverr r)) f.

(** One interface; a frame to one station must be for it.  The state of the frame's
    interface is looked at even when there was no memory for its packet, and the
    frame may then have no interface yet. *)
Definition rtw_core_update_recvframe (ad : adapter) (f : recv_frame) (r : rtw_recv_pkt)
    : res (adapter * recv_frame * core_rx_state) :=
  '(ad, o) ← match os_priv r with
             | Some (b, off, n) => f ← core_update_recvframe_pkt f b off n; Ret (ad, Some f)
             | None => core_alloc_recvframe_pkt ad f r
             end;
  match o with
  | None => if has_adapter f then Ret (ad, f, CORE_RX_FAIL) else Oob
  | Some f =>
      let f := set_adapter (core_update_recvframe_mdata f r) in
      st ← (if bcmc r then Ret CORE_RX_CONTINUE
            else a1 ← GetAddr1 f;
                 Ret (if bool_decide (a1 = mac ad) then CORE_RX_CONTINUE else CORE_RX_FAIL));
      Ret (ad, f, if check_fwstate ad WIFI_MONITOR_STATE then CORE_RX_FAIL else st)
  end.

(** ** Decryption *)

Definition WEP_KEYS : Z := 4.

(** The bytes from [rx_data] on, replaced. *)
Definition data_bytes (f : recv_frame) : list Z := zdrop (rx_data f) (buf f).
Definition set_data_bytes (x : list Z) (f : recv_frame) : recv_frame :=
  set_buf (ztake (rx_data f) (buf f) ++ x) f.

Definition of_rd {A} (l : list A) (i : Z) : res A := of_opt (rd l i).

Definition rx_wep_decrypt (ad : adapter) (f : recv_frame) : res recv_frame :=
  let a := attrib f in
  key ← of_rd (dot11DefKey (securitypriv ad)) (key_index a);
  keylen ← of_rd (dot11DefKeylen (securitypriv ad)) (key_index a);
  x ← Wep.Wep.rtw_wep_decrypt true key keylen (hdrlen a) (iv_len a) (len f) (data_bytes f);
  Ret (set_data_bytes x f).

(** The key of a group frame is the installed one of its index. *)
Definition rx_tkip_decrypt (ad : adapter) (f : recv_frame) : res (recv_frame * bool) :=
  let a := attrib f in
  let sec := securitypriv ad in
  match rtw_get_stainfo ad (ta (addrs a)) with
  | None => Ret (f, false)
  | Some p =>
      '(_, s) ← sta_at ad (Some p);
      grpkey ← (if IS_MCAST (ra (addrs a)) && binstallGrpkey sec
                then of_rd (dot118021XGrpKey sec) (key_index a) else Ret []);
      '(x, ok) ← Wep.Wep.rtw_tkip_decrypt true true (IS_MCAST (ra (addrs a))) (binstallGrpkey sec)
                   grpkey (dot118021x_UncstKey s) (ta (addrs a)) (hdrlen a) (iv_len a) (len f)
                   (data_bytes f);
      Ret (set_data_bytes x f, ok)
  end.

(** The key of CCMP and GCMP; a group frame must have the index of the key
    installed last. *)
Definition rx_aead_key (ad : adapter) (f : recv_frame) : res (option (list Z)) :=
  let a := attrib f in
  let sec := securitypriv ad in
  match rtw_get_stainfo ad (ta (addrs a)) with
  | None => Ret None
  | Some p =>
      '(_, s) ← sta_at ad (Some p);
      if IS_MCAST (ra (addrs a)) then
        if negb (binstallGrpkey sec) then Ret None
        else
          k ← of_rd (dot118021XGrpKey sec) (key_index a);
          Ret (if negb (dot118021XGrpKeyid sec =? key_index a) then None else Some k)
      else Ret (Some (dot118021x_UncstKey s))
  end.

(** [_rtw_ccmp_decrypt] and [_rtw_gcmp_decrypt]: the plain text goes behind the
    packet number. *)
Definition rx_aead_decrypt (ad : adapter) (f : recv_frame)
    (dec : list Z -> list Z -> list Z -> option (list Z)) : res (recv_frame * bool) :=
  k ← rx_aead_key ad f;
  match k with
  | None => Ret (f, false)
  | Some k =>
      let hl := hdrlen (attrib f) in
      x ← slice (buf f) (rx_data f + hl) (len f - hl);
      match dec k (data_bytes f) x with
      | None => Ret (f, false)
      | Some plain => b ← blit (buf f) (rx_data f + hl + 8) plain; Ret (set_buf b f, true)
      end
  end.

(** The cipher of the frame. *)
Definition sw_decrypt (ad : adapter) (f : recv_frame) : res (recv_frame * bool) :=
  let e := encrypt (attrib f) in
  if (e =? _WEP40_) || (e =? _WEP104_) then f ← rx_wep_decrypt ad f; Ret (f, true)
  else if e =? _TKIP_ then rx_tkip_decrypt ad f
  else if e =? _AES_ then rx_aead_decrypt ad f ccmp_decrypt
  else if e =? _CCMP_256_ then rx_aead_decrypt ad f ccmp_256_decrypt
  else if e =? _GCMP_ then rx_aead_decrypt ad f (fun k => gcmp_decrypt k 16)
  else if e =? _GCMP_256_ then rx_aead_decrypt ad f (fun k => gcmp_decrypt k 32)
  else Ret (f, true).

Definition set_sta_hw (o : option Z) (x : bool) (ad : adapter) : res adapter :=
  '(p, _) ← sta_at ad o; Ret (upd_sta p (set_sta_hw_decrypted x) ad).

(** [false] when the frame could not be decrypted. *)
Definition decryptor (ad : adapter) (f : recv_frame) : res (adapter * recv_frame * bool) :=
  let sec := securitypriv ad in
  f ← (if 0 <? encrypt (attrib f) then
         k ← byte_at (buf f) (rx_data f + hdrlen (attrib f) + 3);
         let ki := Z.land (Z.shiftr k 6) 0x3 in
         let e := encrypt (attrib f) in
         Ret (map_attrib (set_key_index
               (if WEP_KEYS <? ki then
                  if (e =? _WEP40_) || (e =? _WEP104_) then u8 (dot11PrivacyKeyIndex sec)
                  else u8 (dot118021XGrpKeyid sec)
                else ki)) f)
       else Ret f);
  let e := encrypt (attrib f) in
  '(ad, f, ok) ←
    (if negb (e =? 0) && negb (bdecrypted (attrib f)) then
       w ← frame_control f;
       ad ← (if GetFrameType w =? WIFI_DATA_TYPE then
               if IS_MCAST (a_addr ra f) then Ret (upd_sec (set_hw_decrypted false) ad)
               else set_sta_hw (psta f) false ad
             else Ret ad);
       '(f, ok) ← sw_decrypt ad f; Ret (ad, f, ok)
     else if bdecrypted (attrib f) && (0 <? e) && (busetkipkey sec || negb (e =? _TKIP_)) then
       ad ← set_sta_hw (psta f) true (upd_sec (set_hw_decrypted true) ad); Ret (ad, f, true)
     else Ret (ad, f, true));
  Ret (ad, if ok : bool then map_attrib (set_bdecrypted true) f else f, ok).

(** ** The check value of TKIP *)

Definition recvframe_chkmic (ad : adapter) (f : recv_frame) : res (adapter * recv_frame * verdict) :=
  let a := attrib f in
  let mcast := IS_MCAST (ra (addrs a)) in
  if negb (encrypt a =? _TKIP_) then Ret (ad, f, SUCCESS)
  else
    match rtw_get_stainfo ad (ta (addrs a)) with
    | None => Ret (ad, fst (recvframe_pull_tail f 8), SUCCESS)
    | Some p =>
        '(_, s) ← sta_at ad (Some p);
        if mcast && negb (binstallGrpkey (securitypriv ad)) then Ret (ad, f, FAIL)
        else
          mickey ← (if mcast then of_rd (dot118021XGrprxmickey (securitypriv ad)) (key_index a)
                    else Ret (dot11tkiprxmickey s));
          let datalen := u32 (len f - hdrlen a - iv_len a - icv_len a - 8) in
          let payload := rx_data f + hdrlen a + iv_len a in
          x ← slice (buf f) payload datalen;
          miccode ← Wep.Wep.rtw_seccalctkipmic mickey (data_bytes f) x (u8 (priority a));
          m ← slice (buf f) (payload + datalen) 8;
          let f' := fst (recvframe_pull_tail f 8) in
          if negb (bool_decide (miccode = m)) then
            let report := negb (mcast && negb (key_index a =? mlme_key_index ad)) in
            Ret (if bdecrypted a && report then emit (TkipMicErr p mcast) ad else ad, f', FAIL)
          else
            Ret (if negb (bcheck_grpkey (securitypriv ad)) && mcast
                 then upd_sec (set_bcheck_grpkey true) ad else ad, f', SUCCESS)
    end.

(** ** The port *)

(** While the port is blocked only EAPOL passes. *)
Definition portctrl (ad : adapter) (f : recv_frame) : res bool :=
  if dot11AuthAlgrthm (securitypriv ad) =? dot11AuthAlgrthm_8021X then
    match rtw_get_stainfo ad (a_addr ta f) with
    | None => Ret true
    | Some p =>
        '(_, s) ← sta_at ad (Some p);
        if ieee8021x_blocked s then ty ← ether_type f; Ret (ty =? eapol_type) else Ret true
    end
  else Ret true.

(** ** A data frame, a frame, all frames *)

(** The frame of the result is the one the caller goes on with or frees. *)
Definition rtw_core_rx_data_pre_process (ad : adapter) (f : recv_frame)
    : res (adapter * option recv_frame * core_rx_state) :=
  '(ad, f, ok) ← decryptor ad f;
  if negb ok then Ret (ad, Some f, CORE_RX_DROP)
  else
    '(ad, o, ret) ← recvframe_chk_defrag ad f;
    if negb (bool_decide (ret = CORE_RX_CONTINUE)) then Ret (ad, o, ret)
    else
      match o with
      | None => Oob
      | Some f =>
          '(ad, f, v) ← (if privacy (fc (attrib f)) then recvframe_chkmic ad f else Ret (ad, f, SUCCESS));
          if bool_decide (v = FAIL) then Ret (ad, Some f, CORE_RX_DROP)
          else
            ok ← portctrl ad f;
            if negb ok then Ret (ad, Some f, CORE_RX_DROP)
            else Ret (emit (CountRxStats (psta f) (len f)) ad, Some f, CORE_RX_CONTINUE)
      end.

(** What happens to a frame that was handed out; the frame of the result is still
    to be freed. *)
Definition rx_frame (ad : adapter) (f : recv_frame) (r : rtw_recv_pkt)
    : res (adapter * option (option recv_frame)) :=
  '(ad, f, st) ← rtw_core_update_recvframe ad f r;
  if negb (bool_decide (st = CORE_RX_CONTINUE)) then Ret (ad, Some (Some f))
  else if icv_err (attrib f) || crc_err (attrib f) then Ret (ad, Some (Some f))
  else if negb (up ad) then Ret (ad, Some (Some f))
  else
    '(ad, f, v) ← validate_recv_frame ad f;
    if negb (bool_decide (v = SUCCESS)) then Ret (ad, Some (Some f))
    else
      '(ad, o, ret) ← rtw_core_rx_data_pre_process ad f;
      if bool_decide (ret = CORE_RX_DEFRAG) then Ret (ad, None)
      else if negb (bool_decide (ret = CORE_RX_CONTINUE)) then Ret (ad, Some o)
      else
        match o with
        | None => Oob
        | Some f =>
            '(ad, f, ret) ← rtw_core_rx_data_post_process ad f;
            Ret (ad, if bool_decide (ret = CORE_RX_DONE) then None else Some (Some f))
        end.

(** The ring gives its packets in order; the loop ends with it, or when there is no
    frame left. *)
Fixpoint rtw_core_rx_process (n : nat) (ad : adapter) (ring : list rtw_recv_pkt)
    : res (adapter * list rtw_recv_pkt) :=
  match n with
  | O => Ret (ad, ring)
  | S n =>
      match rtw_alloc_recvframe ad with
      | (ad, None) => Ret (ad, ring)
      | (ad, Some f) =>
          match ring with
          | [] => Ret (rtw_free_recvframe ad (Some f), ring)
          | r :: ring =>
              '(ad, o) ← rx_frame ad f r;
              rtw_core_rx_process n
                (match o with Some f => rtw_free_recvframe ad f | None => ad end) ring
          end
      end
  end.

End rx.

End RxPath.
