(* ===== verification/RxPool.v ===== *)
(** * The pool of frames

    Where every frame structure is: no step of the receive path loses one or frees
    one twice. *)

From stdpp Require Import gmap.
From S2P Require Import Prelude Bytes RxFrame RxState RxCheck RxSafe Defrag Msdu Amsdu RxPath.

Module RxPool.
Import RxFrame RxState RxCheck RxSafe Defrag Msdu Amsdu RxPath.

(** ** Partial correctness

    If [x] ends with a value it has [P]. *)

Definition yields {A} (x : res A) (P : A -> Prop) : Prop := forall a, x = Ret a -> P a.

Lemma yields_ret {A} (a : A) (P : A -> Prop) : P a -> yields (Ret a) P.
Proof. intros H b [= <-]. exact H. Qed.
Lemma yields_oob {A} (P : A -> Prop) : yields Oob P.
Proof. intros a H. discriminate H. Qed.
Lemma yields_bind {A B} (x : res A) (g : A -> res B) P Q :
  yields x P -> (forall a, P a -> yields (g a) Q) -> yields (x ≫= g) Q.
Proof. intros Hx Hg b H. bind_inv H. exact (Hg _ (Hx _ E) _ H). Qed.
Lemma yields_bind_any {A B} (x : res A) (g : A -> res B) Q :
  (forall a, yields (g a) Q) -> yields (x ≫= g) Q.
Proof. intros Hg b H. bind_inv H. exact (Hg _ _ H). Qed.
Lemma yields_mono {A} (x : res A) (P Q : A -> Prop) : yields x P -> (forall a, P a -> Q a) -> yields x Q.
Proof. intros Hx H a E. auto. Qed.

Lemma yields_if {A} (c : bool) (x y : res A) P : yields x P -> yields y P -> yields (if c then x else y) P.
Proof. by destruct c. Qed.

Create HintDb pool.
#[export] Hint Resolve yields_if : pool.
#[export] Hint Resolve yields_ret | 5 : pool.

(** Walks through a computation: the called functions by their lemmas, what they do
    not change otherwise. *)
Ltac walk1 := lazymatch goal with
  | |- yields (Ret _) _ => apply yields_ret
  | |- yields Oob _ => apply yields_oob
  | |- yields (_ ≫= _) _ =>
      first [eapply yields_bind; [solve [eauto with pool]|] | apply yields_bind_any]
  | |- yields (if ?c then _ else _) _ => destruct c
  | |- yields (match ?x with _ => _ end) _ => destruct x
  | |- forall _, _ => intros ?
  | |- let _ := _ in _ => intros ?
  end.
Ltac walk := repeat (walk1; cbv beta).

(** ** What the pool sees of a state *)

Definition queue_of (s : sta_info) : list recv_frame := defrag_q (sta_recvpriv s).
Definition queues (ad : adapter) : gmap Z (list recv_frame) := queue_of <$> stas ad.

(** Every frame is in the same place. *)
Definition same_frames (ad ad' : adapter) : Prop :=
  free_recv_queue ad' = free_recv_queue ad /\ free_recvframe_cnt ad' = free_recvframe_cnt ad /\
  queues ad' = queues ad.
Definition same_frame (f f' : recv_frame) : Prop := fid f' = fid f /\ pkt f' = pkt f.

Lemma same_frames_refl ad : same_frames ad ad.
Proof. done. Qed.
Lemma same_frames_trans ad1 ad2 ad3 : same_frames ad1 ad2 -> same_frames ad2 ad3 -> same_frames ad1 ad3.
Proof. unfold same_frames. intuition congruence. Qed.
Lemma same_frame_refl f : same_frame f f.
Proof. done. Qed.
Lemma same_frame_trans f1 f2 f3 : same_frame f1 f2 -> same_frame f2 f3 -> same_frame f1 f3.
Proof. unfold same_frame. intuition congruence. Qed.

Lemma queues_upd ad p g : (forall s, queue_of (g s) = queue_of s) -> queues (upd_sta p g ad) = queues ad.
Proof.
  intros Hg. unfold queues, upd_sta. cbn [stas set_stas]. apply map_eq. intros k. rewrite !lookup_fmap.
  destruct (decide (p = k)) as [<-|].
  - rewrite lookup_alter_eq. destruct (stas ad !! p); [cbn; by rewrite Hg|done].
  - by rewrite lookup_alter_ne.
Qed.

Section same.
Context (ad ad1 : adapter) (H : same_frames ad ad1).

Lemma sf_emit e : same_frames ad (emit e ad1).
Proof. exact H. Qed.
Lemma sf_upd p g : (forall s, queue_of (g s) = queue_of s) -> same_frames ad (upd_sta p g ad1).
Proof. intros Hg. unfold same_frames. rewrite queues_upd by done. exact H. Qed.
Lemma sf_sec g : same_frames ad (upd_sec g ad1).
Proof. exact H. Qed.
Lemma sf_mem l : same_frames ad (set_mem l ad1).
Proof. exact H. Qed.
Lemma sf_xmit n : same_frames ad (set_free_xmitframe_cnt n ad1).
Proof. exact H. Qed.
Lemma sf_nolink t : same_frames ad (set_deauth_time_nolink t ad1).
Proof. exact H. Qed.
Lemma sf_legacy t : same_frames ad (set_deauth_time_legacy t ad1).
Proof. exact H. Qed.
Lemma sf_deauth a : same_frames ad (deauth a ad1).
Proof. exact H. Qed.
Lemma sf_if (c : bool) ad2 : same_frames ad ad2 -> same_frames ad (if c then ad1 else ad2).
Proof. by destruct c. Qed.
End same.

Lemma queue_rxseq c x s : queue_of (map_recvpriv (rxseq_set c x) s) = queue_of s.
Proof. by destruct c. Qed.

(** A frame of which other things change. *)
Lemma sfr_attrib f f1 g : same_frame f f1 -> same_frame f (map_attrib g f1).
Proof. done. Qed.
Lemma sfr_psta f f1 p : same_frame f f1 -> same_frame f (set_psta p f1).
Proof. done. Qed.
Lemma sfr_addrs f f1 g : same_frame f f1 -> same_frame f (with_addrs g f1).
Proof. done. Qed.
#[export] Hint Resolve same_frames_refl same_frame_refl sf_emit sf_sec sf_mem sf_xmit sf_nolink
  sf_legacy sf_deauth sf_if sfr_attrib sfr_psta sfr_addrs : pool.
#[export] Hint Extern 1 (same_frames _ (upd_sta _ _ _)) =>
  apply sf_upd; [|intros; first [apply queue_rxseq | case_match; reflexivity | reflexivity]] : pool.

(** A function that leaves the frames where they are. *)
Definition keeps {A} (ad : adapter) (x : res (adapter * A)) : Prop :=
  yields x (fun r => same_frames ad r.1).
Definition keeps_hdr (ad : adapter) (f : recv_frame) (x : res (adapter * recv_frame * option Z * verdict)) : Prop :=
  yields x (fun r => same_frames ad r.1.1.1 /\ same_frame f r.1.1.2).
Definition keeps_frame {A} (ad : adapter) (f : recv_frame) (x : res (adapter * recv_frame * A)) : Prop :=
  yields x (fun r => same_frames ad r.1.1 /\ same_frame f r.1.2).

Ltac pools := cbn [fst snd]; repeat case_match; split_all; eauto with pool.

(** ** The checks *)

Lemma decache_keeps ad f : keeps ad (recv_decache ad f).
Proof. unfold keeps, recv_decache. walk; pools. Qed.
Lemma ucast_pn_keeps ad f : keeps ad (recv_ucast_pn_decache ad f).
Proof. unfold keeps, recv_ucast_pn_decache. walk; pools. Qed.
Lemma bcast_pn_keeps ad f : keeps ad (recv_bcast_pn_decache ad f).
Proof. unfold keeps, recv_bcast_pn_decache. walk; pools. Qed.
Lemma mp_addrs_keeps f : yields (mp_addrs f) (same_frame f).
Proof. unfold mp_addrs. walk; pools. Qed.
#[export] Hint Resolve decache_keeps ucast_pn_keeps bcast_pn_keeps mp_addrs_keeps : pool.

Lemma sta2sta_keeps ad f : keeps_hdr ad f (sta2sta_data_frame ad f).
Proof. unfold keeps_hdr, sta2sta_data_frame. walk; pools. Qed.
Lemma ap2sta_keeps ad f : keeps_hdr ad f (ap2sta_data_frame ad f).
Proof. unfold keeps_hdr, ap2sta_data_frame. walk; pools. Qed.
Lemma sta2ap_keeps ad f : keeps_hdr ad f (sta2ap_data_frame ad f).
Proof. unfold keeps_hdr, sta2ap_data_frame. walk; pools. Qed.
Lemma sta_hdr_keeps ad f : keeps_hdr ad f (rtw_sta_rx_data_validate_hdr ad f).
Proof. unfold keeps_hdr, rtw_sta_rx_data_validate_hdr. walk; pools. Qed.
Lemma pwrbit_keeps ad f p : yields (process_pwrbit_data ad f p) (same_frames ad).
Proof. unfold process_pwrbit_data, sta_to_sleep, sta_awake. walk; pools. Qed.
Lemma wmmps_keeps ad f p : yields (process_wmmps_data ad f p) (same_frames ad).
Proof. unfold process_wmmps_data. walk; pools. Qed.
#[export] Hint Resolve sta2sta_keeps ap2sta_keeps sta2ap_keeps sta_hdr_keeps pwrbit_keeps wmmps_keeps : pool.
#[export] Hint Extern 2 (same_frames _ ?b) =>
  match goal with H : same_frames ?a b |- _ => apply (same_frames_trans _ a b); [clear H|exact H] end : pool.
#[export] Hint Extern 2 (same_frame _ ?b) =>
  match goal with H : same_frame ?a b |- _ => apply (same_frame_trans _ a b); [clear H|exact H] end : pool.
Ltac split_res := repeat match goal with
  | r : _ * _ |- _ => destruct r
  | H : _ /\ _ |- _ => destruct H
  end; cbn [fst snd] in *.
Ltac hdr := split_res; pools.

Lemma ap_hdr_keeps ad f : keeps_hdr ad f (rtw_ap_rx_data_validate_hdr ad f).
Proof. unfold keeps_hdr, rtw_ap_rx_data_validate_hdr. walk; hdr. Qed.
#[export] Hint Resolve ap_hdr_keeps : pool.

Lemma validate_hdr_keeps ad f : keeps_hdr ad f (validate_hdr ad f).
Proof.
  unfold validate_hdr. assert (E : forall g, keeps_hdr ad f (sta2sta_data_frame ad (with_addrs g f)) /\
    keeps_hdr ad f (ap2sta_data_frame ad (with_addrs g f)) /\ keeps_hdr ad f (sta2ap_data_frame ad (with_addrs g f))).
  { intros g. split; [|split]; [exact (sta2sta_keeps ad (with_addrs g f))|exact (ap2sta_keeps ad (with_addrs g f))|
      exact (sta2ap_keeps ad (with_addrs g f))]. }
  destruct (MLME_IS_AP ad); [auto with pool|]. destruct (MLME_IS_STA ad); [auto with pool|].
  unfold keeps_hdr. walk; first [apply E | hdr].
Qed.

Lemma parse_qc_keeps f : yields (parse_qc f) (same_frame f).
Proof. unfold parse_qc. walk; hdr. Qed.

Lemma choose_cipher_keeps ad s f f1 : same_frame f f1 -> same_frame f (choose_cipher ad s f1).
Proof. unfold choose_cipher. by repeat case_match. Qed.
#[export] Hint Resolve validate_hdr_keeps parse_qc_keeps choose_cipher_keeps : pool.

Lemma data_body_keeps ad f p : keeps_frame ad f (validate_data_body ad f p).
Proof.
  unfold keeps_frame, validate_data_body. 
  eapply yields_bind_any. intros [p' s]. destruct (_ && _); [walk; hdr|].
  eapply yields_bind; [apply parse_qc_keeps|]. intros f1 H1.
  eapply yields_bind; [apply decache_keeps|]. intros [ad1 v1] H2. cbn in H2. destruct (bool_decide _); [walk; hdr|].
  eapply (yields_bind _ _ (fun r => same_frames ad1 r.1)).
  { destruct (negb _); [apply ucast_pn_keeps|apply bcast_pn_keeps]. }
  intros [ad2 v2] H3. cbn in H3. walk; hdr.
Qed.
#[export] Hint Resolve data_body_keeps : pool.

Lemma data_frame_keeps ad f : keeps_frame ad f (validate_recv_data_frame ad f).
Proof.
  unfold validate_recv_data_frame. apply yields_bind_any. intros am. cbv zeta.
  eapply yields_bind; [apply validate_hdr_keeps|]. intros [[[ad1 f1] o] v] [H1 H2]. cbn in H1, H2.
  destruct (bool_decide _); [|walk; hdr]. destruct o as [p|]; [|walk; hdr].
  eapply yields_mono; [apply data_body_keeps|]. intros r H. cbv beta in *. hdr.
Qed.

Lemma validate_keeps ad f : keeps_frame ad f (validate_recv_frame ad f).
Proof.
  unfold validate_recv_frame. apply yields_bind_any. intros w. destruct (negb _); [walk; hdr|].
  apply yields_bind_any. intros sc. cbv zeta. destruct (_ =? _); [walk; hdr|].
  destruct (_ =? _); [walk; hdr|]. destruct (_ =? _); [|walk; hdr].
  eapply yields_mono; [apply data_frame_keeps|]. intros r H. cbv beta in *. hdr.
Qed.
#[export] Hint Resolve validate_keeps : pool.

(** ** The steps around the checks *)

Section rx.
Context (skb_alloc : Z -> list Z) (skb_align : Z).
Context (ccmp_decrypt ccmp_256_decrypt : list Z -> list Z -> list Z -> option (list Z)).
Context (gcmp_decrypt : list Z -> Z -> list Z -> list Z -> option (list Z)).

Lemma alloc_mem_keeps ad : same_frames ad (fst (alloc_mem ad)).
Proof. unfold alloc_mem. by destruct (mem ad). Qed.

(** The frame gets a packet, or the result is not to be gone on with. *)
Lemma update_keeps ad f r :
  yields (rtw_core_update_recvframe skb_alloc skb_align ad f r)
    (fun x => same_frames ad x.1.1 /\ fid x.1.2 = fid f /\ (x.2 = CORE_RX_CONTINUE -> pkt x.1.2 = true)).
Proof.
  unfold rtw_core_update_recvframe.
  eapply (yields_bind _ _ (fun x => same_frames ad x.1 /\ match x.2 with Some g => fid g = fid f /\ pkt g = true | None => True end)).
  { destruct (os_priv r) as [[[b off] n]|].
    - unfold core_update_recvframe_pkt. destruct (_ <? _); [apply yields_oob|]. apply yields_ret. hdr.
    - unfold core_alloc_recvframe_pkt. cbv zeta. pose proof (alloc_mem_keeps ad) as Hm.
      destruct (alloc_mem ad) as [ad1 ok]. cbn in Hm. destruct ok; cbn [negb]; walk; hdr. }
  intros [ad1 [g|]] [H1 H2]; cbn in H1, H2; [|destruct (has_adapter f); walk; hdr].
  cbv zeta. apply yields_bind_any. intros st. apply yields_ret. destruct H2. hdr.
Qed.

Lemma wep_keeps ad f : yields (rx_wep_decrypt ad f) (same_frame f).
Proof. unfold rx_wep_decrypt. walk; hdr. Qed.
Lemma tkip_keeps ad f : yields (rx_tkip_decrypt ad f) (fun r => same_frame f r.1).
Proof. unfold rx_tkip_decrypt. walk; hdr. Qed.
Lemma aead_keeps ad f dec : yields (rx_aead_decrypt ad f dec) (fun r => same_frame f r.1).
Proof. unfold rx_aead_decrypt. walk; hdr. Qed.
#[local] Hint Resolve wep_keeps tkip_keeps aead_keeps : pool.

Lemma sw_decrypt_keeps ad f :
  yields (sw_decrypt ccmp_decrypt ccmp_256_decrypt gcmp_decrypt ad f) (fun r => same_frame f r.1).
Proof. unfold sw_decrypt. repeat (destruct (_ || _) || destruct (_ =? _)); auto with pool; walk; hdr. Qed.
Lemma set_hw_keeps o x ad : yields (set_sta_hw o x ad) (same_frames ad).
Proof. unfold set_sta_hw. walk; hdr. Qed.
#[local] Hint Resolve sw_decrypt_keeps set_hw_keeps : pool.

Lemma decryptor_keeps ad f :
  keeps_frame ad f (decryptor ccmp_decrypt ccmp_256_decrypt gcmp_decrypt ad f).
Proof.
  unfold keeps_frame, decryptor. cbv zeta. eapply (yields_bind _ _ (same_frame f)); [walk; hdr|].
  intros f1 H1. eapply (yields_bind _ _ (fun r => same_frames ad r.1.1 /\ same_frame f r.1.2));
    [|intros [[ad1 f2] ok] [? ?]; apply yields_ret; hdr].
  destruct (_ && _).
  - apply yields_bind_any. intros w. eapply (yields_bind _ _ (same_frames ad)).
    { destruct (_ =? _); [destruct (IS_MCAST _)|]; [walk; hdr|auto with pool|walk; hdr]. }
    intros ad1 H2. eapply yields_bind; [apply sw_decrypt_keeps|]. intros [f2 ok] H3. walk; hdr.
  - destruct (_ && _); [|walk; hdr]. eapply (yields_bind _ _ (same_frames ad)).
    + eapply yields_mono; [apply set_hw_keeps|]. intros ad1 H. eapply same_frames_trans; [|exact H]. auto with pool.
    + intros ad1 H. walk; hdr.
Qed.

Lemma chkmic_keeps ad f : keeps_frame ad f (recvframe_chkmic ad f).
Proof.
  assert (Hp : forall n, same_frame f (fst (recvframe_pull_tail f n))).
  { intros n. unfold recvframe_pull_tail. by case_match. }
  unfold keeps_frame, recvframe_chkmic. cbv zeta. walk; hdr.
Qed.
End rx.

(** ** Where the frames are *)

(** The frames of the pool and of the queues. *)
Definition fids (l : list (Z * list recv_frame)) : list Z :=
  concat ((fun kq : Z * list recv_frame => fid <$> kq.2) <$> l).
Definition queued_fids (m : gmap Z (list recv_frame)) : list Z := fids (map_to_list m).
Definition held (ad : adapter) : list Z := (fid <$> free_recv_queue ad) ++ queued_fids (queues ad).

(** The frame a step hands on. *)
Definition owed (o : option recv_frame) : list Z := match o with Some f => [fid f] | None => [] end.

(** The counter is right, and a frame in a queue has its packet. *)
Definition packets (ad : adapter) : Prop :=
  map_Forall (fun _ q => Forall (fun f => pkt f = true) q) (queues ad).
Definition counted (ad : adapter) : Prop := free_recvframe_cnt ad = zlen (free_recv_queue ad).

Lemma same_frames_held ad ad' : same_frames ad ad' -> held ad' = held ad.
Proof. intros (E1 & _ & E2). unfold held. by rewrite E1, E2. Qed.
Lemma same_frames_packets ad ad' : same_frames ad ad' -> packets ad -> packets ad'.
Proof. intros (_ & _ & E). unfold packets. by rewrite E. Qed.
Lemma same_frames_counted ad ad' : same_frames ad ad' -> counted ad -> counted ad'.
Proof. intros (E1 & E2 & _). unfold counted. by rewrite E1, E2. Qed.

#[export] Instance fids_proper : Proper ((≡ₚ) ==> (≡ₚ)) fids.
Proof.
  intros l l' H. unfold fids. induction H as [|kq l l' _ IH|x y l|]; cbn; [done|by rewrite IH| |by etrans].
  rewrite !app_assoc. by rewrite (Permutation_app_comm (fid <$> x.2)).
Qed.

Lemma queued_fids_insert m p q : m !! p = None ->
  queued_fids (<[p := q]> m) ≡ₚ (fid <$> q) ++ queued_fids m.
Proof.
  intros Hp. unfold queued_fids. by rewrite (map_to_list_insert m p q Hp).
Qed.

Lemma queued_fids_replace m p q q' : m !! p = Some q ->
  queued_fids (<[p := q']> m) ++ (fid <$> q) ≡ₚ queued_fids m ++ (fid <$> q').
Proof.
  intros Hp. rewrite <- (insert_delete_id m p q) at 2 by done. rewrite <- (insert_delete_eq m p q').
  rewrite !queued_fids_insert by apply lookup_delete_eq. rewrite !(Permutation_app_comm (fid <$> _)).
  rewrite <- !app_assoc. by rewrite (Permutation_app_comm (fid <$> q')).
Qed.

Lemma queues_set_queue p q ad s : stas ad !! p = Some s -> queues (set_queue p q ad) = <[p := q]> (queues ad).
Proof.
  intros Hs. unfold queues, set_queue, upd_sta. cbn [stas set_stas]. apply map_eq. intros k. rewrite lookup_fmap.
  destruct (decide (p = k)) as [<-|].
  - by rewrite lookup_alter_eq, lookup_insert_eq, Hs.
  - by rewrite lookup_alter_ne, lookup_insert_ne, lookup_fmap.
Qed.

Lemma held_set_queue p q ad s : stas ad !! p = Some s ->
  held (set_queue p q ad) ++ (fid <$> queue_of s) ≡ₚ held ad ++ (fid <$> q).
Proof.
  intros Hs. unfold held. rewrite (queues_set_queue p q ad s Hs). cbn [free_recv_queue set_queue upd_sta set_stas].
  rewrite <- !app_assoc. f_equiv. apply queued_fids_replace. unfold queues. by rewrite lookup_fmap, Hs.
Qed.

Lemma packets_set_queue p q ad s : stas ad !! p = Some s -> packets ad -> Forall (fun f => pkt f = true) q ->
  packets (set_queue p q ad).
Proof.
  intros Hs Hp Hq. unfold packets. rewrite (queues_set_queue p q ad s Hs). by apply map_Forall_insert_2.
Qed.

(** Freeing. *)
Lemma held_free ad f : held (rtw_free_recvframe ad (Some f)) ≡ₚ held ad ++ [fid f].
Proof.
  unfold held. cbn. rewrite fmap_app. cbn. rewrite <- !app_assoc. f_equiv. apply Permutation_app_comm.
Qed.
Lemma held_free_owed ad o : held (rtw_free_recvframe ad o) ≡ₚ held ad ++ owed o.
Proof. destruct o; [apply held_free|]. cbn [owed]. rewrite app_nil_r. done. Qed.
Lemma held_free_queue ad q : held (rtw_free_recvframe_queue ad q) ≡ₚ held ad ++ (fid <$> q).
Proof.
  unfold rtw_free_recvframe_queue. revert ad. induction q as [|f q IH]; intros ad; cbn [foldl].
  - by rewrite app_nil_r.
  - rewrite IH, held_free, <- app_assoc. done.
Qed.
Lemma counted_free ad o : counted ad -> counted (rtw_free_recvframe ad o).
Proof. destruct o; [|done]. unfold counted. cbn. intros ->. rewrite zlen_app. done. Qed.
Lemma counted_free_queue ad q : counted ad -> counted (rtw_free_recvframe_queue ad q).
Proof.
  unfold rtw_free_recvframe_queue. revert ad. induction q as [|f q IH]; intros ad H; [done|]. cbn [foldl].
  apply IH. by apply (counted_free ad (Some f)).
Qed.
Lemma packets_free ad o : packets ad -> packets (rtw_free_recvframe ad o).
Proof. by destruct o. Qed.
Lemma packets_free_queue ad q : packets ad -> packets (rtw_free_recvframe_queue ad q).
Proof.
  unfold rtw_free_recvframe_queue. revert ad. induction q as [|f q IH]; intros ad H; [done|]. cbn [foldl].
  by apply IH.
Qed.

Definition pool_ok (ad : adapter) : Prop := packets ad /\ counted ad.

Lemma pool_ok_same ad ad' : same_frames ad ad' -> pool_ok ad -> pool_ok ad'.
Proof. intros H [? ?]. split; [by eapply same_frames_packets|by eapply same_frames_counted]. Qed.
Lemma pool_ok_free ad o : pool_ok ad -> pool_ok (rtw_free_recvframe ad o).
Proof. intros [? ?]. split; [by apply packets_free|by apply counted_free]. Qed.
Lemma pool_ok_free_queue ad q : pool_ok ad -> pool_ok (rtw_free_recvframe_queue ad q).
Proof. intros [? ?]. split; [by apply packets_free_queue|by apply counted_free_queue]. Qed.
Lemma pool_ok_set_queue p q ad s : stas ad !! p = Some s -> pool_ok ad -> Forall (fun f => pkt f = true) q ->
  pool_ok (set_queue p q ad).
Proof. intros Hs [? ?] Hq. split; [by eapply packets_set_queue|done]. Qed.

(** A step took [l] in and left [o]: nothing is lost, nothing is in two places. *)
Definition conserved (ad : adapter) (l : list Z) (ad' : adapter) (o : list Z) : Prop :=
  held ad' ++ o ≡ₚ held ad ++ l /\ pool_ok ad'.

Lemma conserved_same ad ad' l : same_frames ad ad' -> pool_ok ad -> conserved ad l ad' l.
Proof. intros H ?. split; [by rewrite (same_frames_held ad ad')|by eapply pool_ok_same]. Qed.

(** ** Fragments *)

Lemma pull_same f n : same_frame f (fst (recvframe_pull f n)).
Proof. unfold recvframe_pull. by case_match. Qed.
Lemma pull_tail_same f n : same_frame f (fst (recvframe_pull_tail f n)).
Proof. unfold recvframe_pull_tail. by case_match. Qed.
Lemma put_same f n : same_frame f (fst (recvframe_put f n)).
Proof. unfold recvframe_put. by case_match. Qed.

Lemma append_same p n : yields (append_fragment p n) (same_frame p).
Proof.
  unfold append_fragment. cbv zeta. apply yields_bind_any. intros x. apply yields_bind_any. intros b.
  apply yields_ret, sfr_attrib. pose proof (pull_tail_same p (icv_len (attrib p))) as H. revert H.
  generalize (fst (recvframe_pull_tail p (icv_len (attrib p)))) as g. intros g H.
  eapply same_frame_trans; [|apply put_same]. exact H.
Qed.

Lemma loop_same pr pn num l : yields (defrag_loop pr pn num l)
  (fun o => match o with Some p => same_frame pr p | None => True end).
Proof.
  revert pr pn num. induction l as [|n l IH]; intros pr pn num; cbn [defrag_loop]; [by apply yields_ret|].
  apply yields_bind_any. intros o. destruct (match o with Some _ => _ | None => _ end); [by apply yields_ret|].
  do 2 (destruct (negb _); [by apply yields_ret|]). eapply yields_bind; [apply append_same|]. intros p' Hp.
  eapply yields_mono; [apply IH|]. intros [p2|] H2; [by eapply same_frame_trans|done].
Qed.

Lemma defrag_pool ad q : Forall (fun f => pkt f = true) q -> pool_ok ad ->
  yields (recvframe_defrag ad q) (fun r => conserved ad (fid <$> q) r.1 (owed r.2) /\
    stas r.1 = stas ad /\ (forall g, r.2 = Some g -> pkt g = true)).
Proof.
  intros Hq Hok. destruct q as [|pr l]; [apply yields_oob|]. apply Forall_cons in Hq as [Hpr Hl].
  unfold recvframe_defrag. apply yields_bind_any. intros pn. cbv zeta.
  set (none_left := rtw_free_recvframe_queue (rtw_free_recvframe ad (Some pr)) l).
  assert (Hg : conserved ad (fid <$> pr :: l) none_left [] /\ stas none_left = stas ad).
  { split; [split|].
    - rewrite app_nil_r. unfold none_left. rewrite held_free_queue, held_free, <- app_assoc. done.
    - by apply pool_ok_free_queue, (pool_ok_free ad (Some pr)).
    - unfold none_left. by destruct (free_queue_pool (rtw_free_recvframe ad (Some pr)) l) as (_ & _ & ->). }
  destruct Hg as [Hg1 Hg2]. destruct (negb _); [apply yields_ret; by split_all|].
  eapply yields_bind; [apply loop_same|]. intros [p'|] Hp; apply yields_ret; cbn [fst snd owed]; [|by split_all].
  destruct Hp as [Hf Hpk]. split; [split|split].
  - rewrite held_free_queue, Hf, fmap_cons, <- app_assoc. f_equiv. apply Permutation_app_comm.
  - by apply pool_ok_free_queue.
  - by destruct (free_queue_pool ad l) as (_ & _ & ->).
  - intros g [= <-]. congruence.
Qed.

(** The fragment is in the queue, or the frame goes on, or it is to be freed. *)
Definition left_over (o : option recv_frame) (st : core_rx_state) : list Z :=
  if bool_decide (st = CORE_RX_DEFRAG) then [] else owed o.

Lemma sta_at_some ad p : yields (sta_at ad (Some p)) (fun ps => stas ad !! p = Some ps.2).
Proof. unfold sta_at. destruct (stas ad !! p) eqn:E; [|apply yields_oob]. by apply yields_ret. Qed.

Lemma packets_queue ad p s : stas ad !! p = Some s -> packets ad -> Forall (fun f => pkt f = true) (queue_of s).
Proof. intros Hs Hp. apply (Hp p). unfold queues. by rewrite lookup_fmap, Hs. Qed.

(** The queue starts anew with a first fragment; another one is put behind. *)
Lemma enqueue_pool ad p s f (c : bool) : stas ad !! p = Some s -> pool_ok ad -> pkt f = true ->
  let '(ad1, q) := if c then (rtw_free_recvframe_queue ad (queue_of s), []) else (ad, queue_of s) in
  conserved ad [fid f] (set_queue p (q ++ [f]) ad1) [].
Proof.
  intros Hs Hok Hf. destruct c.
  - destruct (free_queue_pool ad (queue_of s)) as (_ & _ & Hst).
    assert (Hs1 : stas (rtw_free_recvframe_queue ad (queue_of s)) !! p = Some s) by (by rewrite Hst).
    split; [|eapply pool_ok_set_queue; [exact Hs1|by apply pool_ok_free_queue|by constructor]].
    rewrite app_nil_r. apply (Permutation_app_inv_r (fid <$> queue_of s)).
    rewrite (held_set_queue _ _ _ _ Hs1), held_free_queue, <- !app_assoc. f_equiv. apply Permutation_app_comm.
  - split.
    + rewrite app_nil_r. apply (Permutation_app_inv_r (fid <$> queue_of s)).
      rewrite (held_set_queue _ _ _ _ Hs), fmap_app, <- !app_assoc. f_equiv. apply Permutation_app_comm.
    + eapply pool_ok_set_queue; [exact Hs|done|]. apply Forall_app. split; [|by constructor].
      apply (packets_queue ad p); [done|apply Hok].
Qed.

Lemma dequeue_pool ad p s f : stas ad !! p = Some s -> pool_ok ad -> pkt f = true ->
  yields (recvframe_defrag (set_queue p [] ad) (queue_of s ++ [f])) (fun r =>
    conserved ad [fid f] r.1 (owed r.2) /\ (forall g, r.2 = Some g -> pkt g = true)).
Proof.
  intros Hs Hok Hf. eapply yields_mono.
  - apply defrag_pool.
    + apply Forall_app. split; [|by constructor]. apply (packets_queue ad p); [done|apply Hok].
    + by eapply pool_ok_set_queue.
  - intros [ad1 o] ([Hh Hok1] & _ & Hg). cbn [fst snd] in *. split; [|done]. split; [|done].
    rewrite Hh, fmap_app, app_assoc, (held_set_queue _ _ _ _ Hs). cbn [fmap list_fmap]. by rewrite app_nil_r.
Qed.

Lemma chk_defrag_pool ad f : pkt f = true -> pool_ok ad ->
  yields (recvframe_chk_defrag ad f) (fun r =>
    conserved ad [fid f] r.1.1 (left_over r.1.2 r.2) /\ (forall g, r.1.2 = Some g -> pkt g = true)).
Proof.
  intros Hpk Hok. unfold recvframe_chk_defrag. cbv zeta. apply yields_bind_any. intros o.
  eapply (yields_bind _ _ (same_frame f)); [walk; hdr|]. intros f1 [Hf1 Hp1]. rewrite Hpk in Hp1.
  assert (Hsame : conserved ad [fid f] ad [fid f1]) by (rewrite Hf1; by apply conserved_same).
  assert (Hone : forall g, Some f1 = Some g -> pkt g = true) by (by intros g [= <-]).
  destruct (mfrag _); [|destruct (negb (_ =? 0))].
  - destruct o as [p|]; [|apply yields_ret; done].
    eapply yields_bind; [apply sta_at_some|]. intros [p' s] Hs. cbn [snd] in Hs.
    pose proof (enqueue_pool ad p s f1 (frag_num (fc (attrib f)) =? 0) Hs Hok Hp1) as H.
    fold (queue_of s). destruct (if _ =? 0 then _ else _) as [ad1 q]. apply yields_ret. cbn [fst snd].
    rewrite <- Hf1. done.
  - destruct o as [p|]; [|apply yields_ret; done].
    eapply yields_bind; [apply sta_at_some|]. intros [p' s] Hs. cbn [snd] in Hs.
    eapply yields_bind; [apply (dequeue_pool ad p s f1 Hs Hok Hp1)|]. intros [ad1 o1] [H1 H2].
    apply yields_ret. cbn [fst snd] in *. rewrite <- Hf1. split; [|done]. destruct o1; exact H1.
  - apply yields_ret. cbn [fst snd]. split; [|done]. destruct (_ && _); exact Hsame.
Qed.

(** ** Delivery *)

Lemma same_io_frames ad ad' : same_io ad ad' -> same_frames ad ad'.
Proof.
  intros [(_ & _ & _ & _ & E & _ & _ & _ & _ & ? & ?) _]. split; [done|]. split; [done|].
  unfold queues. by rewrite E.
Qed.
Lemma free_fwd_frames ad ad1 w : same_frames ad ad1 -> same_frames ad (recv_free_fwd_resource ad1 w).
Proof. intros H. eapply same_frames_trans; [exact H|]. apply same_io_frames, same_io_free_fwd. Qed.
Lemma fwd_frames ad ad1 x i w : same_frames ad ad1 -> same_frames ad (recv_fwd_pkt_hdl ad1 x i w).
Proof. intros H. eapply same_frames_trans; [exact H|]. apply same_io_frames, same_io_fwd. Qed.
Lemma tx_alloc_frames ad ad' : core_tx_alloc_xmitframe ad = Some ad' -> same_frames ad ad'.
Proof. intros H. by apply same_io_frames, same_io_alloc. Qed.
#[export] Hint Resolve free_fwd_frames fwd_frames tx_alloc_frames : pool.

Lemma bmc_keeps ad sa m l b2u : yields (rtw_ap_data_bmc_to_uc ad sa m l b2u) (fun r => same_frames ad r.1.1).
Proof.
  revert ad b2u. induction l as [|p l IH]; intros ad b2u; cbn [rtw_ap_data_bmc_to_uc]; [walk; hdr|].
  apply yields_bind_any. intros [p' s]. destruct (phl_sta s) as [[x mm]|]; [|apply yields_oob].
  destruct (_ || _); [apply IH|]. destruct (core_tx_alloc_xmitframe ad) as [ad1|] eqn:E; [|walk; hdr].
  eapply yields_mono; [apply IH|]. intros r H. eapply same_frames_trans; [|exact H]. auto with pool.
Qed.

Lemma fwd_chk_keeps ad f da sa : yields (ap_fwd_chk ad f da sa) (fun r => same_frames ad r.1).
Proof.
  unfold ap_fwd_chk. destruct (_ <=? 1); [walk; hdr|]. cbv zeta.
  eapply (yields_bind _ _ (fun r => same_frames ad r.1.1)).
  { destruct (_ && _); [|walk; hdr]. apply yields_bind_any. intros m. apply bmc_keeps. }
  intros [[ad1 need] b2u] H. cbn in H. destruct need; [|walk; hdr].
  destruct (core_tx_alloc_xmitframe ad1) as [ad2|] eqn:E; walk; cbn [fst snd]; [|done].
  eapply same_frames_trans; [exact H|]. auto with pool.
Qed.

Lemma act_keeps ad f da sa : yields (rtw_ap_rx_msdu_act_check ad f da sa) (fun r => same_frames ad r.1.1).
Proof.
  unfold rtw_ap_rx_msdu_act_check. pose proof (fwd_chk_keeps ad f da sa) as H.
  repeat match goal with |- yields (if ?c then _ else _) _ => destruct c end; try (walk; hdr; fail).
  all: eapply yields_bind; [exact H|]; intros [ad1 w] H1; walk; hdr.
Qed.
#[export] Hint Resolve act_keeps : pool.

Lemma ethhdr_same f h : yields (wlanhdr_to_ethhdr f h) (fun r => same_frame f r.1).
Proof.
  unfold wlanhdr_to_ethhdr. cbv zeta.
  set (f1 := if negb _ then fst (recvframe_pull_tail f _) else f).
  assert (H1 : same_frame f f1) by (unfold f1; destruct (negb _); [apply pull_tail_same|done]).
  pose proof (pull_same f1) as H2. destruct (recvframe_pull f1 _) as [f2 o] eqn:E.
  assert (H : same_frame f f2) by (eapply same_frame_trans; [exact H1|]; specialize (H2 (hdrlen (attrib f) +
    iv_len (attrib f) + (if removes h then SNAP_SIZE else 0) - ETH_HLEN + (if removes h then 2 else 0))); by rewrite E in H2).
  clear H1 H2 E. destruct o as [d|]; walk; hdr.
Qed.

(** After [CORE_RX_DONE] the frame is in the pool, else it is still to be freed. *)
Definition done_or_left (f : recv_frame) (st : core_rx_state) : list Z :=
  if bool_decide (st = CORE_RX_DONE) then [] else [fid f].

Lemma free_conserved ad ad' f g : same_frames ad ad' -> pool_ok ad -> fid g = fid f ->
  conserved ad [fid f] (rtw_free_recvframe ad' (Some g)) [].
Proof.
  intros H Hok Hg. split; [|by apply pool_ok_free, (pool_ok_same ad)].
  by rewrite app_nil_r, held_free, (same_frames_held ad ad'), Hg by done.
Qed.

Lemma msdu_pool ad f : pkt f = true -> pool_ok ad ->
  yields (core_rx_process_msdu ad f) (fun r => conserved ad [fid f] r.1.1 (done_or_left r.1.2 r.2)).
Proof.
  intros Hpk Hok. unfold core_rx_process_msdu. cbv zeta. apply yields_bind_any. intros llc_hdl.
  eapply (yields_bind _ _ (fun r => same_frames ad r.1.1)).
  { destruct (MLME_IS_AP ad); [apply act_keeps|]. walk; hdr. }
  intros [[ad1 ind] w] H1. cbn in H1. destruct (negb _); [apply yields_ret; by apply conserved_same|].
  eapply yields_bind; [apply ethhdr_same|]. intros [f1 ok] [Hf1 Hp1]. cbn in Hf1, Hp1.
  destruct (negb ok).
  { apply yields_ret. cbn. rewrite <- Hf1. apply conserved_same; [|done]. destruct w; hdr. }
  eapply (yields_bind _ _ (same_frames ad)); [destruct w; walk; hdr|].
  intros ad2 H2. destruct (negb ind); [apply yields_ret; by apply free_conserved|].
  unfold rtw_recv_indicatepkt. rewrite Hp1, Hpk. cbn [negb].
  eapply (yields_bind _ _ (fun r => conserved ad [fid f] r.1 [] /\ r.2 = true)).
  { apply yields_bind_any. intros x. apply yields_ret. split; [|done]. apply free_conserved; [|done|done].
    auto with pool. }
  intros [ad3 ok3] [H3 Hr]. cbn in Hr. subst ok3. by apply yields_ret.
Qed.

Lemma alloc_mem_frames ad ad1 o : alloc_mem ad = (ad1, o) -> same_frames ad ad1.
Proof. intros E. pose proof (alloc_mem_keeps ad) as H. by rewrite E in H. Qed.

Lemma alloc_pkt_keeps ad b e m n h : yields (rtw_os_alloc_msdu_pkt ad b e m n h) (fun r => same_frames ad r.1.1).
Proof.
  unfold rtw_os_alloc_msdu_pkt. do 2 (apply yields_bind_any; intros ?).
  destruct (alloc_mem ad) as [ad1 ok] eqn:E1. pose proof (alloc_mem_frames _ _ _ E1) as H1.
  destruct ok; [walk; hdr|]. destruct (alloc_mem ad1) as [ad2 ok2] eqn:E2.
  pose proof (alloc_mem_frames _ _ _ E2) as H2. walk; hdr.
Qed.
#[export] Hint Resolve alloc_pkt_keeps : pool.

Lemma amsdu_keep_keeps ad b pd n h ind w subs :
  yields (amsdu_keep ad b pd n h ind w subs) (fun r => same_frames ad r.1.1.1).
Proof.
  unfold amsdu_keep. destruct (negb _); [walk; hdr|].
  eapply yields_bind; [apply alloc_pkt_keeps|]. intros [[ad1 b1] [k|]] H; cbn in H.
  - eapply (yields_bind _ _ (same_frames ad)); [destruct w; walk; hdr|]. intros ad2 H2. walk; hdr.
  - walk. destruct w; hdr.
Qed.

Lemma subframe_act_keeps ad f da sa : yields (subframe_act ad f da sa) (fun r => same_frames ad r.1.1).
Proof. unfold subframe_act. destruct (MLME_IS_AP ad); [apply act_keeps|walk; hdr]. Qed.

Lemma step_keeps f st : yields (amsdu_step f st) (fun r => same_frames (as_ad st) (as_ad r.1)).
Proof.
  unfold amsdu_step. destruct st as [ad b pd al subs]. cbn [as_ad]. apply yields_bind_any. intros n.
  destruct (_ <? _); [walk; hdr|]. do 2 (apply yields_bind_any; intros ?). destruct (negb _); [walk; hdr|].
  apply yields_bind_any. intros h. eapply yields_bind; [apply subframe_act_keeps|].
  intros [[ad1 ind] w] H1. cbn in H1. eapply yields_bind; [apply amsdu_keep_keeps|].
  intros [[[ad2 b2] subs2] go] H2. cbn in H2. assert (H : same_frames ad ad2) by (by eapply same_frames_trans).
  walk; exact H.
Qed.

Lemma amsdu_loop_keeps fuel f st : yields (amsdu_loop fuel f st) (fun r => same_frames (as_ad st) (as_ad r)).
Proof.
  revert st. induction fuel as [|fuel IH]; intros st; cbn [amsdu_loop]; [by intros ? ?|].
  destruct (_ <=? _); [walk; hdr|]. eapply yields_bind; [apply step_keeps|]. intros [st1 go] H1. cbn in H1.
  destruct go; [|walk; hdr]. eapply yields_mono; [apply IH|]. intros st2 H2. by eapply same_frames_trans.
Qed.

Lemma indicate_keeps ad b l : yields (indicate_all ad b l) (same_frames ad).
Proof.
  revert ad. induction l as [|s l IH]; intros ad; cbn [indicate_all]; [walk; hdr|].
  apply yields_bind_any. intros x. eapply yields_mono; [apply IH|]. intros ad1 H. exact H.
Qed.

Lemma amsdu_pool ad f : pool_ok ad -> yields (core_rx_process_amsdu ad f)
  (fun r => conserved ad [fid f] r.1.1 (done_or_left r.1.2 r.2)).
Proof.
  intros Hok. unfold core_rx_process_amsdu. eapply (yields_bind _ _ (fun ad' => conserved ad [fid f] ad' []));
    [|intros ad1 H; by apply yields_ret].
  unfold amsdu_to_msdu. cbv zeta.
  set (f1 := if negb _ then _ else _). assert (Hf1 : fid f1 = fid f).
  { unfold f1. destruct (negb _), (0 <? iv_len (attrib f)); autorewrite with rxframe; done. }
  clearbody f1. eapply yields_bind; [apply amsdu_loop_keeps|]. intros st H1. cbn in H1.
  eapply yields_bind; [apply indicate_keeps|]. intros ad2 H2. apply yields_ret.
  apply free_conserved; [|done|done]. by eapply same_frames_trans.
Qed.

Lemma post_pool ad f : pkt f = true -> pool_ok ad -> yields (rtw_core_rx_data_post_process ad f)
  (fun r => conserved ad [fid f] r.1.1 (done_or_left r.1.2 r.2)).
Proof. intros. unfold rtw_core_rx_data_post_process. destruct (amsdu _); [by apply amsdu_pool|by apply msdu_pool]. Qed.

(** ** The whole path *)

Lemma conserved_trans ad l ad1 l1 ad2 l2 : conserved ad l ad1 l1 -> conserved ad1 l1 ad2 l2 -> conserved ad l ad2 l2.
Proof. intros [H1 _] [H2 ?]. split; [|done]. by rewrite H2. Qed.

Section path.
Context (skb_alloc : Z -> list Z) (skb_align : Z).
Context (ccmp_decrypt ccmp_256_decrypt : list Z -> list Z -> list Z -> option (list Z)).
Context (gcmp_decrypt : list Z -> Z -> list Z -> list Z -> option (list Z)).

Lemma pre_pool ad f : pkt f = true -> pool_ok ad ->
  yields (rtw_core_rx_data_pre_process ccmp_decrypt ccmp_256_decrypt gcmp_decrypt ad f) (fun r =>
    conserved ad [fid f] r.1.1 (left_over r.1.2 r.2) /\ (forall g, r.1.2 = Some g -> pkt g = true)).
Proof.
  intros Hpk Hok. unfold rtw_core_rx_data_pre_process. eapply yields_bind; [apply decryptor_keeps|].
  intros [[ad1 f1] ok] [H1 [Hf1 Hp1]]. cbn in H1, Hf1, Hp1. rewrite Hpk in Hp1.
  assert (Hok1 : pool_ok ad1) by (by eapply pool_ok_same).
  assert (H01 : conserved ad [fid f] ad1 [fid f1]) by (rewrite Hf1; by apply conserved_same).
  destruct (negb ok); [apply yields_ret; split; [exact H01|by intros g [= <-]]|].
  eapply yields_bind; [by apply chk_defrag_pool|]. intros [[ad2 o] st] [H2 Hg]. cbn in H2, Hg.
  assert (H02 : conserved ad [fid f] ad2 (left_over o st)) by (by eapply conserved_trans).
  destruct (bool_decide_reflect (st = CORE_RX_CONTINUE)) as [->|]; cbn [negb]; [|by apply yields_ret].
  destruct o as [f2|]; [|apply yields_oob]. specialize (Hg f2 eq_refl). change (left_over (Some f2) _) with [fid f2] in H02.
  eapply (yields_bind _ _ (fun r => same_frames ad2 r.1.1 /\ same_frame f2 r.1.2)).
  { destruct (privacy _); [apply chkmic_keeps|walk; hdr]. }
  intros [[ad3 f3] v] [H3 [Hf3 Hp3]]. cbn in H3, Hf3, Hp3. rewrite Hg in Hp3.
  assert (Hout : forall ad4 st4, same_frames ad3 ad4 -> st4 <> CORE_RX_DEFRAG ->
    conserved ad [fid f] ad4 (left_over (Some f3) st4) /\ (forall g, Some f3 = Some g -> pkt g = true)).
  { intros ad4 st4 H4 Hst. split; [|by intros g [= <-]]. eapply conserved_trans; [exact H02|].
    unfold left_over. rewrite bool_decide_eq_false_2 by done. cbn [owed]. rewrite Hf3.
    apply conserved_same; [by eapply same_frames_trans|apply H02]. }
  destruct (bool_decide _); [apply yields_ret; by apply Hout|]. apply yields_bind_any. intros ok3.
  destruct (negb ok3); apply yields_ret; apply Hout; first [discriminate | cbn [fst snd]; auto with pool].
Qed.

(** The frame that came in is in a queue, in the pool, or still to be freed. *)
Lemma rx_frame_pool ad f r : pool_ok ad ->
  yields (rx_frame skb_alloc skb_align ccmp_decrypt ccmp_256_decrypt gcmp_decrypt ad f r)
    (fun x => conserved ad [fid f] x.1 (match x.2 with Some o => owed o | None => [] end)).
Proof.
  intros Hok. unfold rx_frame. eapply yields_bind; [apply update_keeps|].
  intros [[ad1 f1] st] (H1 & Hf1 & Hp1). cbn in H1, Hf1, Hp1.
  assert (H01 : conserved ad [fid f] ad1 [fid f1]) by (rewrite Hf1; by apply conserved_same).
  destruct (bool_decide_reflect (st = CORE_RX_CONTINUE)) as [->|]; cbn [negb]; [|by apply yields_ret].
  specialize (Hp1 eq_refl). destruct (_ || _); [by apply yields_ret|]. destruct (negb _); [by apply yields_ret|].
  eapply yields_bind; [apply validate_keeps|]. intros [[ad2 f2] v] [H2 [Hf2 Hp2]]. cbn in H2, Hf2, Hp2.
  rewrite Hp1 in Hp2. assert (H02 : conserved ad [fid f] ad2 [fid f2]).
  { eapply conserved_trans; [exact H01|]. rewrite Hf2. apply conserved_same; [done|apply H01]. }
  destruct (negb _); [by apply yields_ret|].
  eapply yields_bind; [apply pre_pool; [done|apply H02]|]. intros [[ad3 o] st3] [H3 Hg]. cbn in H3, Hg.
  assert (H03 : conserved ad [fid f] ad3 (left_over o st3)) by (by eapply conserved_trans). unfold left_over in H03.
  destruct (bool_decide_reflect (st3 = CORE_RX_DEFRAG)); [by apply yields_ret|].
  destruct (negb _); [by apply yields_ret|]. destruct o as [f3|]; [|apply yields_oob]. cbn [owed] in H03.
  eapply yields_bind; [apply post_pool; [by apply Hg|apply H03]|]. intros [[ad4 f4] st4] H4. cbn in H4.
  apply yields_ret. cbn [fst snd]. eapply conserved_trans; [exact H03|]. unfold done_or_left in H4.
  by destruct (bool_decide _).
Qed.

Lemma process_pool n ad ring : pool_ok ad ->
  yields (rtw_core_rx_process skb_alloc skb_align ccmp_decrypt ccmp_256_decrypt gcmp_decrypt n ad ring)
    (fun r => conserved ad [] r.1 []).
Proof.
  revert ad ring. induction n as [|n IH]; intros ad ring Hok; cbn [rtw_core_rx_process]; [by apply yields_ret|].
  unfold rtw_alloc_recvframe. destruct (free_recv_queue ad) as [|f l] eqn:El; [by apply yields_ret|].
  set (ad1 := set_pool l (free_recvframe_cnt ad - 1) ad).
  assert (H1 : conserved ad [] ad1 [fid f]).
  { split; [|split; [apply Hok|]].
    - unfold held, ad1. cbn [free_recv_queue set_pool]. rewrite El, app_nil_r. cbn.
      rewrite (Permutation_app_comm _ [fid f]). done.
    - destruct Hok as [_ Hc]. unfold counted, ad1 in *. cbn. rewrite Hc, El, zlen_cons. lia. }
  destruct ring as [|r ring].
  - apply yields_ret. cbn [fst]. split; [|apply pool_ok_free, H1].
    rewrite app_nil_r, (held_free ad1 f). apply H1.
  - eapply yields_bind; [apply rx_frame_pool, H1|]. intros [ad2 o] H2. cbn [fst snd] in H2.
    assert (H02 : conserved ad [] (match o with Some f => rtw_free_recvframe ad2 f | None => ad2 end) []).
    { eapply conserved_trans; [exact H1|]. destruct o as [o|]; [|exact H2]. destruct H2 as [H2 Hok2].
      split; [|by apply pool_ok_free]. by rewrite app_nil_r, held_free_owed. }
    eapply yields_mono; [apply IH, H02|]. intros r' H. by eapply conserved_trans.
Qed.
End path.

(** ** The invariant of the pool *)

(** Each of the 256 frames is free or in the queue of one station, in one place. *)
Definition pool_inv (ad : adapter) : Prop :=
  held ad ≡ₚ seqZ 0 NR_RECVFRAME /\ pool_ok ad.

Lemma init_pool ad : map_Forall (fun _ s => defrag_q (sta_recvpriv s) = []) (stas ad) ->
  pool_inv (rtw_init_recv_priv ad).
Proof.
  intros H. assert (Hq : forall k q, queues ad !! k = Some q -> q = []).
  { intros k q Hk. unfold queues in Hk. rewrite lookup_fmap in Hk. destruct (stas ad !! k) eqn:E; [|done].
    cbn in Hk. injection Hk as <-. by apply (H k). }
  assert (Hf : queued_fids (queues ad) = []).
  { unfold queued_fids, fids. assert (Hl : Forall (fun kq : Z * list recv_frame => kq.2 = []) (map_to_list (queues ad))).
    { apply Forall_forall. intros [k q] Hin%elem_of_map_to_list. by eapply Hq. }
    induction Hl as [|[k q] l Hkq _ IH]; [done|]. cbn in *. by rewrite Hkq, IH. }
  split; [|split].
  - unfold held. change (queues (rtw_init_recv_priv ad)) with (queues ad). rewrite Hf, app_nil_r. cbn.
    rewrite <- list_fmap_compose. change (fid ∘ frame0) with (@id Z). by rewrite list_fmap_id.
  - intros k q Hk. rewrite (Hq k q Hk). constructor.
  - unfold counted, rtw_init_recv_priv. cbn. unfold zlen. by rewrite length_fmap, length_seqZ.
Qed.

(** C3: However the receive path is run, on whatever packets, and whatever allocations fail, it loses no
    frame and frees none twice: when it comes to its end each of the 256 frames is again free or in
    the fragment queue of one station, in one place, and the counter of free frames is right. *)
Theorem frames_conserved skb_alloc skb_align ccmp_decrypt ccmp_256_decrypt gcmp_decrypt n ad ring ad' rest
  (Hinv : pool_inv ad)
  (Hrun : rtw_core_rx_process skb_alloc skb_align ccmp_decrypt ccmp_256_decrypt gcmp_decrypt n ad ring =
          Ret (ad', rest)) :
  pool_inv ad'.
Proof.
  destruct Hinv as [Hheld Hok].
  pose proof (process_pool skb_alloc skb_align ccmp_decrypt ccmp_256_decrypt gcmp_decrypt n ad ring Hok _ Hrun) as [H ?].
  cbn [fst] in *. rewrite !app_nil_r in H. split; [by rewrite H|done].
Qed.

(** A first fragment, a frame to another station, a whole frame, and a last fragment that
    does not follow. *)
Definition sample_ring : list rtw_recv_pkt :=
  let pk fctl seq da pn x := mk_req (sample_bytes fctl seq da (ccmp_header pn 0 ++ x ++ replicate 8 0)) None
    false (flag fctl _MORE_FRAG_) (seq mod 16) false false false false in
  [pk 0x4608 0x10 own_mac 7 (llc 0x0800); pk 0x4208 0x20 bcast_mac 8 (llc 0x0800);
   pk 0x4208 0x30 own_mac 9 (llc 0x0800 ++ [1; 2]); pk 0x4208 0x12 own_mac 10 [3; 4]].
Definition sample_rx (n : nat) (ad : adapter) :=
  rtw_core_rx_process (fun n => replicate (Z.to_nat n + 8) 0) 0 (fun _ _ _ => None) (fun _ _ _ => None)
    (fun _ _ _ _ => None) n ad sample_ring.

Lemma frames_conserved_witness :
  let ad := sample_ad 2 _AES_ in
  let r := ret_or (ad, []) (sample_rx 6 ad) in
  indicated r.1 = [own_mac ++ ap_mac ++ [0x08; 0x00; 1; 2]] /\ log r.1 <> [] /\ pool_inv r.1.
Proof.
  intros ad r. split; [vm_compute; reflexivity|]. split; [vm_compute; discriminate|].
  apply (frames_conserved (fun n => replicate (Z.to_nat n + 8) 0) 0 (fun _ _ _ => None) (fun _ _ _ => None)
    (fun _ _ _ _ => None) 6 ad sample_ring r.1 r.2).
  - apply init_pool. apply map_Forall_singleton. reflexivity.
  - vm_compute. reflexivity.
Defined.

End RxPool.
