(* ===== verification/Tim.v ===== *)
(** * The traffic indication map (core/rtw_wlan_util.c, core/rtw_ap.c)

    An access point tells sleeping stations in its beacons which of them have
    frames waiting: a bit for each association id.  Module [Tim] models the bitmaps
    ([rtw_bmp_set] and the like), the element with the part of the bitmap that is
    not zero ([rtw_set_tim_ie]) and its place among the elements of the beacon
    ([update_BCNTIM]), and proves that a station that reads the element as IEEE
    802.11 says (9.4.2.5) finds the bitmap.  Whose bits are set is in [ApPs]. *)

From S2P Require Import Prelude Bytes Ies.

Module Tim.
Import Ies.

(** ** Bitmaps

    A bitmap is its bytes, [bmp_len] their number. *)

Definition octet (bmp : list Z) (i : Z) : Z := default 0 (bmp !! Z.to_nat i).

Definition rtw_bmp_is_set (bmp : list Z) (id : Z) : bool :=
  if zlen bmp <=? id / 8 then false
  else negb (Z.land (octet bmp (id / 8)) (BIT (id mod 8)) =? 0).

Definition rtw_bmp_set (bmp : list Z) (id : Z) : list Z :=
  if id / 8 <? zlen bmp
  then alter (fun b => u8 (Z.lor b (BIT (id mod 8)))) (Z.to_nat (id / 8)) bmp else bmp.

Definition rtw_bmp_clear (bmp : list Z) (id : Z) : list Z :=
  if id / 8 <? zlen bmp
  then alter (fun b => u8 (Z.land b (Z.lnot (BIT (id mod 8))))) (Z.to_nat (id / 8)) bmp else bmp.

Definition rtw_bmp_not_empty (bmp : list Z) : bool := existsb (fun b => negb (b =? 0)) bmp.

Definition rtw_bmp_not_empty_exclude_bit0 (bmp : list Z) : bool :=
  match bmp with
  | [] => false
  | b :: l => negb (Z.land b 0xFE =? 0) || rtw_bmp_not_empty l
  end.

(** The bitmaps of an access point have a bit for each association id; the id is
    passed as a byte. *)
Definition rtw_tim_map_is_set (map : list Z) (id : Z) : bool := rtw_bmp_is_set map (u8 id).
Definition rtw_tim_map_set (map : list Z) (id : Z) : list Z := rtw_bmp_set map (u8 id).
Definition rtw_tim_map_clear (map : list Z) (id : Z) : list Z := rtw_bmp_clear map (u8 id).
Definition rtw_tim_map_anyone_be_set (map : list Z) : bool := rtw_bmp_not_empty map.
Definition rtw_tim_map_anyone_be_set_exclude_aid0 (map : list Z) : bool :=
  rtw_bmp_not_empty_exclude_bit0 map.

(** ** The element *)

Definition WLAN_EID_TIM : Z := 5.

(** Where the loop for the first octet that is not zero stops, and the one for the
    last, which goes down to octet 0. *)
Fixpoint first_octet (l : list Z) : nat :=
  match l with
  | [] => 0
  | b :: l => if b =? 0 then S (first_octet l) else 0
  end.
Fixpoint last_octet (bmp : list Z) (i : nat) : nat :=
  match i with
  | O => O
  | S j => if octet bmp (Z.of_nat i) =? 0 then last_octet bmp j else i
  end.

(** [n1] and [bmp_len]. *)
Definition tim_part (bmp : list Z) : Z * Z :=
  if rtw_bmp_not_empty bmp then
    let n1 := Z.land (Z.of_nat (first_octet bmp)) 0xFE in
    let n2 := Z.of_nat (last_octet bmp (length bmp - 1)) in
    (n1, u8 (n2 - n1 + 1))
  else (0, 1).

(** The bytes written at [tim_ie]. *)
Definition rtw_set_tim_ie (dtim_cnt dtim_period : Z) (tim_bmp : list Z) : res (list Z) :=
  let '(n1, bmp_len) := tim_part tim_bmp in
  bits ← slice tim_bmp n1 bmp_len;
  Ret ([WLAN_EID_TIM; u8 (2 + 1 + bmp_len); dtim_cnt; dtim_period;
        Z.lor (if rtw_bmp_is_set tim_bmp 0 then BIT 0 else 0) n1] ++ bits).

(** ** The beacon *)

Definition _BEACON_IE_OFFSET_ : Z := 12.
Definition _FIXED_IE_LENGTH_ : Z := _BEACON_IE_OFFSET_.
Definition _SSID_IE_ : Z := 0.
Definition _SUPPORTEDRATES_IE_ : Z := 1.
Definition _TIM_IE_ : Z := 5.

(** Where a new TIM element goes: behind the SSID, the rates and the DS parameter
    set, which the code takes to be the first three. *)
Definition tim_offset (ies : list Z) (ielength : Z) : res Z :=
  o ← rtw_get_ie ies _BEACON_IE_OFFSET_ _SSID_IE_ (ielength - _BEACON_IE_OFFSET_);
  let ssid := match o with Some (_, l) => l + 2 | None => 0 end in
  o ← rtw_get_ie ies _BEACON_IE_OFFSET_ _SUPPORTEDRATES_IE_ (ielength - _BEACON_IE_OFFSET_);
  let rates := match o with Some (_, l) => l + 2 | None => 0 end in
  Ret (_FIXED_IE_LENGTH_ + ssid + rates + 3).

(** [dst_ie] and [premainder_ie]. *)
Definition tim_place (ies : list Z) (ielength : Z) : res (Z * Z) :=
  o ← rtw_get_ie ies _FIXED_IE_LENGTH_ _TIM_IE_ (ielength - _FIXED_IE_LENGTH_);
  match o with
  | Some (p, l) =>
      if 0 <? l then Ret (p, p + (l + 2)) else offset ← tim_offset ies ielength; Ret (offset, offset)
  | None => offset ← tim_offset ies ielength; Ret (offset, offset)
  end.

(** [ies] is the buffer, [ielength] the part of it in use; [mem] is whether the
    copy of what follows can be allocated. *)
Definition update_BCNTIM (ies : list Z) (ielength : Z) (tim_bitmap : list Z) (mem : bool)
    : res (list Z * Z) :=
  '(dst_ie, premainder_ie) ← tim_place ies ielength;
  let remainder_ielen := u32 (ielength - premainder_ie) in
  let backup := (0 <? remainder_ielen) && mem in
  x ← (if backup then slice ies premainder_ie remainder_ielen else Ret []);
  t ← rtw_set_tim_ie 0 1 tim_bitmap;
  b ← blit ies dst_ie t;
  let dst_ie := dst_ie + zlen t in
  b ← (if backup then blit b dst_ie x else Ret b);
  Ret (b, u32 (dst_ie + remainder_ielen)).

(** ** The element as a station reads it

    Bit 0 of the control octet is the group's; the others give the first octet of
    the bitmap that is there, in steps of two. *)
Definition tim_traffic (body : list Z) (aid : Z) : bool :=
  match body with
  | _ :: _ :: control :: bits =>
      if aid =? 0 then Z.testbit control 0
      else
        let k := aid / 8 - 2 * (control / 2) in
        (0 <=? k) && (k <? zlen bits) && Z.testbit (octet bits k) (aid mod 8)
  | _ => false
  end.

(** The bit of an association id. *)
Definition bmp_bit (bmp : list Z) (id : Z) : bool :=
  Z.testbit (octet bmp (id / 8)) (id mod 8).

Definition is_bmp (bmp : list Z) : Prop := Forall is_byte bmp.

(** ** Bitmaps are sets of ids *)

Lemma land_bit b i : 0 <= i -> negb (Z.land b (BIT i) =? 0) = Z.testbit b i.
Proof.
  intros Hi. unfold BIT. rewrite Z.shiftl_1_l. destruct (Z.testbit b i) eqn:E.
  - destruct (Z.eqb_spec (Z.land b (2 ^ i)) 0) as [H|]; [|done].
    apply (f_equal (fun x => Z.testbit x i)) in H.
    rewrite Z.land_spec, E, Z.pow2_bits_true, Z.bits_0 in H by done. done.
  - destruct (Z.eqb_spec (Z.land b (2 ^ i)) 0) as [|H]; [done|]. destruct H. apply Z.bits_inj'.
    intros j Hj. rewrite Z.land_spec, Z.bits_0, Z.pow2_bits_eqb by done.
    destruct (Z.eqb_spec i j) as [<-|]; [by rewrite E|]. by rewrite andb_false_r.
Qed.

Lemma octet_outside l i : zlen l <= i -> octet l i = 0.
Proof. unfold zlen, octet. intros. by rewrite lookup_ge_None_2 by lia. Qed.

Lemma is_set_bit bmp id : 0 <= id -> rtw_bmp_is_set bmp id = bmp_bit bmp id.
Proof.
  intros Hid. unfold rtw_bmp_is_set, bmp_bit. destruct (Z.leb_spec (zlen bmp) (id / 8)).
  - rewrite octet_outside by done. by rewrite Z.bits_0.
  - apply land_bit. dlia.
Qed.

Lemma zlen_alter f i (l : list Z) : zlen (alter f i l) = zlen l.
Proof. unfold zlen. by rewrite length_alter. Qed.
Lemma zlen_bmp_set bmp id : zlen (rtw_bmp_set bmp id) = zlen bmp.
Proof. unfold rtw_bmp_set. case_match; [apply zlen_alter|done]. Qed.
Lemma zlen_bmp_clear bmp id : zlen (rtw_bmp_clear bmp id) = zlen bmp.
Proof. unfold rtw_bmp_clear. case_match; [apply zlen_alter|done]. Qed.

(** Changing one bit of one octet. *)
Lemma alter_bit g bmp id j v : 0 <= id -> 0 <= j -> id / 8 < zlen bmp ->
  (forall b m, 0 <= m < 8 -> Z.testbit (g b) m = if m =? id mod 8 then v else Z.testbit b m) ->
  bmp_bit (alter g (Z.to_nat (id / 8)) bmp) j = if j =? id then v else bmp_bit bmp j.
Proof.
  intros Hid Hj Hin Hg. unfold bmp_bit, octet, zlen in *.
  destruct (Z.eqb_spec (j / 8) (id / 8)) as [E|E].
  - rewrite E, list_lookup_alter_eq.
    destruct (lookup_lt_is_Some_2 bmp (Z.to_nat (id / 8))) as [b Hb]; [dlia|].
    rewrite Hb. cbn. rewrite Hg by dlia.
    destruct (Z.eqb_spec (j mod 8) (id mod 8)), (Z.eqb_spec j id); try done; dlia.
  - rewrite list_lookup_alter_ne by dlia. by destruct (Z.eqb_spec j id); [subst|].
Qed.

Lemma bit_set bmp id j : 0 <= id -> 0 <= j -> id / 8 < zlen bmp ->
  bmp_bit (rtw_bmp_set bmp id) j = if j =? id then true else bmp_bit bmp j.
Proof.
  intros Hid Hj Hin. unfold rtw_bmp_set. destruct (Z.ltb_spec (id / 8) (zlen bmp)); [|lia].
  apply alter_bit; [done..|]. intros b m Hm. rewrite u8_testbit, Z.lor_spec by done.
  unfold BIT. rewrite Z.shiftl_1_l, Z.pow2_bits_eqb by dlia. rewrite Z.eqb_sym.
  destruct (m =? id mod 8); [apply orb_true_r|apply orb_false_r].
Qed.

Lemma bit_clear bmp id j : 0 <= id -> 0 <= j -> id / 8 < zlen bmp ->
  bmp_bit (rtw_bmp_clear bmp id) j = if j =? id then false else bmp_bit bmp j.
Proof.
  intros Hid Hj Hin. unfold rtw_bmp_clear. destruct (Z.ltb_spec (id / 8) (zlen bmp)); [|lia].
  apply alter_bit; [done..|]. intros b m Hm. rewrite u8_testbit, Z.land_spec by done.
  rewrite Z.lnot_spec by lia. unfold BIT. rewrite Z.shiftl_1_l, Z.pow2_bits_eqb by dlia.
  rewrite Z.eqb_sym. destruct (m =? id mod 8); [apply andb_false_r|apply andb_true_r].
Qed.

(** ** The octets that are not zero *)

Lemma octet_cons b l i : octet (b :: l) i = if i <=? 0 then b else octet l (i - 1).
Proof.
  unfold octet. destruct (Z.leb_spec i 0); [by replace (Z.to_nat i) with 0%nat by lia|].
  by replace (Z.to_nat i) with (S (Z.to_nat (i - 1))) by lia.
Qed.

Lemma not_empty_false bmp : rtw_bmp_not_empty bmp = false -> forall i, octet bmp i = 0.
Proof.
  unfold rtw_bmp_not_empty. induction bmp as [|b l IH]; cbn; intros H i; [done|].
  apply orb_false_iff in H as [Hb Hl]. rewrite octet_cons. case_match; [lia|auto].
Qed.

Lemma first_octet_zero bmp i : 0 <= i < Z.of_nat (first_octet bmp) -> octet bmp i = 0.
Proof.
  revert i. induction bmp as [|b l IH]; cbn [first_octet]; intros i Hi; [done|].
  rewrite octet_cons. destruct (Z.eqb_spec b 0), (Z.leb_spec i 0); try lia. apply IH. lia.
Qed.

Lemma first_octet_found bmp : rtw_bmp_not_empty bmp = true ->
  octet bmp (Z.of_nat (first_octet bmp)) <> 0 /\ Z.of_nat (first_octet bmp) < zlen bmp.
Proof.
  unfold rtw_bmp_not_empty. induction bmp as [|b l IH]; [done|]. cbn [first_octet existsb].
  rewrite octet_cons, zlen_cons. pose proof (zlen_nonneg l).
  destruct (Z.eqb_spec b 0) as [->|Hb]; cbn -[octet]; [|split; [done|lia]].
  intros H1. destruct (IH H1) as [H2 H3]. split; [|lia].
  destruct (Z.leb_spec (Z.of_nat (S (first_octet l))) 0); [lia|].
  by replace (Z.of_nat (S (first_octet l)) - 1) with (Z.of_nat (first_octet l)) by lia.
Qed.

Lemma last_octet_zero bmp i k :
  Z.of_nat (last_octet bmp i) < k <= Z.of_nat i -> octet bmp k = 0.
Proof.
  induction i as [|i IH]; cbn [last_octet]; [lia|].
  destruct (Z.eqb_spec (octet bmp (Z.of_nat (S i))) 0) as [E|]; [|lia].
  intros Hk. destruct (decide (k = Z.of_nat (S i))) as [->|]; [done|]. apply IH. lia.
Qed.

Lemma last_octet_le bmp i : (last_octet bmp i <= i)%nat.
Proof. induction i as [|i IH]; cbn [last_octet]; [done|]. case_match; lia. Qed.

Lemma land_fe_byte i : 0 <= i < 256 -> Z.land i 0xFE = i - i mod 2.
Proof.
  assert (H : Forall (fun i => Z.land i 0xFE = i - i mod 2) (seqZ 0 256))
    by (apply (bool_decide_unpack _); vm_compute; exact I).
  rewrite Forall_forall in H. intros Hi. apply H. apply elem_of_seqZ. lia.
Qed.

(** The octets [tim_part] picks are those that are not zero, but for the first. *)
Lemma tim_part_spec bmp n1 n : 1 <= zlen bmp <= 251 -> tim_part bmp = (n1, n) ->
  n1 mod 2 = 0 /\ 0 <= n1 /\ 1 <= n /\ n1 + n <= zlen bmp /\
  forall k, 0 <= k < n1 \/ n1 + n <= k -> octet bmp k = 0.
Proof.
  unfold tim_part. intros Hlen. destruct (rtw_bmp_not_empty bmp) eqn:E; intros [= <- <-].
  2:{ split_all. intros k _. by apply not_empty_false. }
  destruct (first_octet_found bmp E) as [H1 H2].
  set (n2 := last_octet bmp (length bmp - 1)).
  assert (Hn2 : Z.of_nat n2 < zlen bmp).
  { pose proof (last_octet_le bmp (length bmp - 1)). unfold zlen, n2 in *. lia. }
  assert (Z.of_nat (first_octet bmp) <= Z.of_nat n2).
  { destruct (Z.le_gt_cases (Z.of_nat (first_octet bmp)) (Z.of_nat n2)); [done|].
    destruct H1. apply (last_octet_zero bmp (length bmp - 1)). unfold zlen, n2 in *. lia. }
  rewrite land_fe_byte by lia. rewrite u8_id by (unfold is_u8; dlia). split_all; [dlia..|].
  intros k [Hk|Hk]; [apply first_octet_zero; dlia|].
  destruct (Z.lt_ge_cases k (zlen bmp)); [|by apply octet_outside].
  apply (last_octet_zero bmp (length bmp - 1)). fold n2. unfold zlen in *. lia.
Qed.

(** ** A station reads what the access point set *)

Lemma octet_part bmp n1 n k : 0 <= n1 -> 0 <= k < n ->
  octet (ztake n (zdrop n1 bmp)) k = octet bmp (n1 + k).
Proof.
  intros. unfold octet, ztake, zdrop. rewrite lookup_take_lt by lia. rewrite lookup_drop.
  do 2 f_equal. lia.
Qed.

Lemma bit0_control bmp n1 : 0 <= n1 -> n1 mod 2 = 0 ->
  let c := Z.lor (if rtw_bmp_is_set bmp 0 then BIT 0 else 0) n1 in
  Z.testbit c 0 = bmp_bit bmp 0 /\ 2 * (c / 2) = n1.
Proof.
  intros H0 H2 c. rewrite <- is_set_bit by done. subst c.
  assert (Hn : n1 = Z.shiftl (n1 / 2) 1) by (rewrite Z.shiftl_mul_pow2 by lia; dlia).
  split.
  - rewrite Z.lor_spec, Hn, Z.shiftl_spec_low, orb_false_r by lia.
    by destruct (rtw_bmp_is_set bmp 0).
  - rewrite <- Z.shiftr_div_pow2 with (n := 1) by lia. rewrite Z.shiftr_lor.
    replace (Z.shiftr (if rtw_bmp_is_set bmp 0 then BIT 0 else 0) 1) with 0
      by by destruct (rtw_bmp_is_set bmp 0).
    rewrite Z.lor_0_l, Z.shiftr_div_pow2 by lia. dlia.
Qed.

(** The element is well formed, and its bits are those of the bitmap. *)
Lemma set_tim_ie_spec cnt period bmp : 1 <= zlen bmp <= 251 ->
  exists body, rtw_set_tim_ie cnt period bmp = Ret (enc1 (WLAN_EID_TIM, cnt :: period :: body)) /\
    2 <= zlen body <= zlen bmp + 1 /\
    forall aid, 0 <= aid -> tim_traffic (cnt :: period :: body) aid = rtw_bmp_is_set bmp aid.
Proof.
  intros Hlen. unfold rtw_set_tim_ie. destruct (tim_part bmp) as [n1 n] eqn:E.
  destruct (tim_part_spec bmp n1 n Hlen E) as (H2 & H0 & Hn & Hle & Hz).
  rewrite slice_some by lia. cbn [mbind res_bind].
  set (bits := ztake n (zdrop n1 bmp)).
  set (c := Z.lor (if rtw_bmp_is_set bmp 0 then BIT 0 else 0) n1).
  assert (Hbits : zlen bits = n) by (unfold bits; rewrite zlen_ztake; [done|]; rewrite zlen_zdrop; lia).
  destruct (bit0_control bmp n1 H0 H2) as [Hc0 Hc]. fold c in Hc0, Hc.
  exists (c :: bits). split; [|split].
  - unfold enc1. cbn [fst snd]. rewrite !zlen_cons, Hbits, u8_id by (unfold is_u8; lia).
    replace (1 + (1 + (1 + n))) with (2 + 1 + n) by lia. done.
  - rewrite zlen_cons. lia.
  - intros aid Ha. rewrite is_set_bit by done. cbn [tim_traffic].
    destruct (Z.eqb_spec aid 0) as [->|]; [done|]. rewrite Hc, Hbits. unfold bmp_bit.
    destruct (Z.leb_spec 0 (aid / 8 - n1)); cbn [andb]; [|by rewrite Hz, Z.bits_0 by dlia].
    destruct (Z.ltb_spec (aid / 8 - n1) n); cbn [andb]; [|by rewrite Hz, Z.bits_0 by dlia].
    unfold bits. rewrite octet_part by lia. by replace (n1 + (aid / 8 - n1)) with (aid / 8) by lia.
Qed.

(** ** The beacon after an update

    [put_tim] is what [update_BCNTIM] does to the list of elements. *)

Definition put_tim (body : list Z) (l : list elem) : list elem :=
  match split_first (has_eid WLAN_EID_TIM) l with
  | Some (l1, _, l2) => l1 ++ (WLAN_EID_TIM, body) :: l2
  | None => take 3 l ++ (WLAN_EID_TIM, body) :: drop 3 l
  end.

(** The elements of a beacon: one for the map, if there is one, is not empty; if
    there is none, the first are the SSID, the rates and the DS parameter set. *)
Definition beacon_elems (l : list elem) : Prop :=
  match split_first (has_eid WLAN_EID_TIM) l with
  | Some (_, x, _) => 0 < zlen x.2
  | None => exists s r d l', l = (_SSID_IE_, s) :: (_SUPPORTEDRATES_IE_, r) :: (3, [d]) :: l'
  end.

Lemma tim_offset_spec pre s r d l pad : zlen pre = 12 ->
  let l0 := (_SSID_IE_, s) :: (_SUPPORTEDRATES_IE_, r) :: (3, [d]) :: l in
  tim_offset (pre ++ enc l0 ++ pad) (12 + zlen (enc l0)) =
    Ret (12 + zlen (enc (take 3 l0))).
Proof.
  intros Hpre l0. unfold tim_offset, _FIXED_IE_LENGTH_, _BEACON_IE_OFFSET_.
  rewrite !get_ie_enc by lia. cbn [mbind res_bind]. f_equal.
  change (split_first (has_eid _SSID_IE_) l0) with (Some (@nil elem, (_SSID_IE_, s), drop 1 l0)).
  change (split_first (has_eid _SUPPORTEDRATES_IE_) l0)
    with (Some ([(_SSID_IE_, s)], (_SUPPORTEDRATES_IE_, r), drop 2 l0)).
  change (take 3 l0) with [(_SSID_IE_, s); (_SUPPORTEDRATES_IE_, r); (3, [d])].
  rewrite !zlen_enc_cons. cbn [snd enc]. zlens. lia.
Qed.

(** The buffer from the place of the element on: what is replaced, what stays. *)
Lemma tim_place_spec pre l pad : zlen pre = 12 -> beacon_elems l ->
  exists l1 old l2, enc l = enc l1 ++ old ++ enc l2 /\
    (forall body, put_tim body l = l1 ++ (WLAN_EID_TIM, body) :: l2) /\
    tim_place (pre ++ enc l ++ pad) (12 + zlen (enc l)) =
      Ret (12 + zlen (enc l1), 12 + zlen (enc l1) + zlen old).
Proof.
  intros Hpre. unfold beacon_elems, put_tim, tim_place, _FIXED_IE_LENGTH_, _BEACON_IE_OFFSET_.
  rewrite get_ie_enc by lia. change _TIM_IE_ with WLAN_EID_TIM.
  destruct (split_first (has_eid WLAN_EID_TIM) l) as [[[l1 x] l2]|] eqn:E; cbn [mbind res_bind].
  - intros Hx. apply split_first_some in E as (-> & _ & _). exists l1, (enc1 x), l2.
    split; [by rewrite enc_app|]. split; [done|]. destruct (Z.ltb_spec 0 (zlen x.2)); [|lia].
    by rewrite zlen_enc1.
  - intros (s & r & d & l' & ->). rewrite tim_offset_spec by done. cbn [mbind res_bind].
    exists (take 3 ((_SSID_IE_, s) :: (_SUPPORTEDRATES_IE_, r) :: (3, [d]) :: l')), [], l'.
    split; [by rewrite app_nil_l, <- enc_app|]. split; [done|]. by rewrite (@zlen_nil Z), Z.add_0_r.
Qed.

Lemma put_tim_split body l : exists l1 l2,
  put_tim body l = l1 ++ (WLAN_EID_TIM, body) :: l2 /\
  split_first (has_eid WLAN_EID_TIM) (put_tim body l) = Some (l1, (WLAN_EID_TIM, body), l2) /\
  forall body', put_tim body' l = l1 ++ (WLAN_EID_TIM, body') :: l2.
Proof.
  unfold put_tim. destruct (split_first (has_eid WLAN_EID_TIM) l) as [[[l1 x] l2]|] eqn:E.
  - apply split_first_some in E as (-> & _ & H). exists l1, l2. split_all. by apply split_first_mid.
  - apply split_first_none in E. eexists _, _. split_all. apply split_first_mid; [|done].
    by apply Forall_take.
Qed.

Lemma put_tim_again body body' l : put_tim body' (put_tim body l) = put_tim body' l.
Proof.
  destruct (put_tim_split body l) as (l1 & l2 & _ & Hs & H). rewrite (H body').
  set (m := put_tim body l) in *. unfold put_tim. by rewrite Hs.
Qed.

Lemma put_tim_elems body l : 0 < zlen body -> beacon_elems (put_tim body l).
Proof.
  intros Hb. destruct (put_tim_split body l) as (l1 & l2 & _ & Hs & _). set (m := put_tim body l) in *.
  unfold beacon_elems. by rewrite Hs.
Qed.

Lemma zlen_put_tim body l : zlen (enc (put_tim body l)) = zlen (enc (put_tim [] l)) + zlen body.
Proof.
  destruct (put_tim_split body l) as (l1 & l2 & _ & _ & H). rewrite !H, !zlen_enc_around.
  rewrite (@zlen_nil Z). lia.
Qed.

(** With memory for the copy of the elements that follow. *)
Lemma bcntim_with_memory pre l pad tim
    (Hpre : zlen pre = 12) (Hl : beacon_elems l) (Htim : 1 <= zlen tim <= 251)
    (Hroom : zlen (enc (put_tim [] l)) + zlen tim + 3 <= zlen (enc l ++ pad))
    (Hsmall : small (zlen pre + zlen (enc l ++ pad))) :
  exists body pad',
    update_BCNTIM (pre ++ enc l ++ pad) (12 + zlen (enc l)) tim true =
      Ret (pre ++ enc (put_tim body l) ++ pad', 12 + zlen (enc (put_tim body l))) /\
    zlen (enc (put_tim body l) ++ pad') = zlen (enc l ++ pad) /\ 3 < zlen body /\
    (forall aid, 0 <= aid -> tim_traffic body aid = rtw_bmp_is_set tim aid).
Proof.
  destruct (set_tim_ie_spec 0 1 tim Htim) as (b & Ht & Hb & Hread).
  destruct (tim_place_spec pre l pad Hpre Hl) as (l1 & old & l2 & Henc & Hput & Hplace).
  exists (0 :: 1 :: b). set (t := enc1 (WLAN_EID_TIM, 0 :: 1 :: b)) in *.
  assert (Hzt : zlen t = zlen b + 4) by (unfold t; rewrite zlen_enc1; cbn [snd]; zlens; lia).
  assert (Henc' : enc (put_tim (0 :: 1 :: b) l) = enc l1 ++ t ++ enc l2) by by rewrite Hput, enc_app.
  pose proof (zlen_nonneg (enc l1)). pose proof (zlen_nonneg (enc l2)). pose proof (zlen_nonneg old).
  assert (Hzl : zlen (enc l) = zlen (enc l1) + zlen old + zlen (enc l2)) by (rewrite Henc; zlens; lia).
  rewrite Hput, zlen_enc_around in Hroom. rewrite (@zlen_nil Z) in Hroom. rewrite !zlen_app in *.
  exists (zdrop (zlen t + zlen (enc l2)) (old ++ enc l2 ++ pad)). pose proof (zlen_nonneg pad).
  split; [|split; [rewrite Henc'; zlens; rewrite zlen_zdrop; zlens; lia|split; [zlens; lia|done]]].
  unfold update_BCNTIM. rewrite Hplace. cbn [mbind res_bind].
  rewrite u32_small by (unfold small in *; lia).
  replace (12 + zlen (enc l) - _) with (zlen (enc l2)) by lia. rewrite andb_true_r.
  replace (pre ++ enc l ++ pad) with ((pre ++ enc l1) ++ old ++ enc l2 ++ pad)
    by by rewrite Henc, <- !app_assoc.
  pose proof (replace_and_move (pre ++ enc l1) old (enc l2) pad t) as E.
  assert (HP : zlen (pre ++ enc l1) = 12 + zlen (enc l1)) by (zlens; lia). rewrite HP in E.
  assert (Hx : slice ((pre ++ enc l1) ++ old ++ enc l2 ++ pad) (12 + zlen (enc l1) + zlen old)
                 (zlen (enc l2)) = Ret (enc l2)).
  { rewrite app_assoc. apply slice_app; [zlens; lia|done]. }
  rewrite Henc'. destruct (Z.ltb_spec 0 (zlen (enc l2))).
  - rewrite Hx, Ht. cbn [mbind res_bind]. rewrite <- HP in *. fold t.
    destruct (blit _ (zlen (pre ++ enc l1)) t) as [c| |]; cbn [mbind res_bind] in *;
      try (discriminate E; zlens; lia).
    rewrite E by (zlens; lia). cbn [mbind res_bind]. rewrite u32_small by (unfold small in *; zlens; lia).
    do 2 f_equal; [by rewrite <- !app_assoc|zlens; lia].
  - assert (enc l2 = []) as Hl2 by (apply nil_length_inv; unfold zlen in *; lia).
    cbn [mbind res_bind]. rewrite Ht. cbn [mbind res_bind]. fold t. rewrite Hl2. cbn [app].
    rewrite <- HP. rewrite blit_over by (zlens; lia). cbn [mbind res_bind].
    rewrite u32_small by (unfold small in *; zlens; lia).
    do 2 f_equal; [by rewrite <- !app_assoc, (@zlen_nil Z), Z.add_0_r|zlens; lia].
Qed.

(** Without: the element overwrites what was in its place and behind it. *)
Lemma bcntim_without_memory pre l pad tim
    (Hpre : zlen pre = 12) (Hl : beacon_elems l) (Htim : 1 <= zlen tim <= 251)
    (Hroom : zlen (enc (put_tim [] l)) + zlen tim + 3 <= zlen (enc l ++ pad))
    (Hsmall : small (zlen pre + zlen (enc l ++ pad))) :
  exists body l1 old l2, enc l = enc l1 ++ old ++ enc l2 /\ put_tim body l = l1 ++ (WLAN_EID_TIM, body) :: l2 /\
    update_BCNTIM (pre ++ enc l ++ pad) (12 + zlen (enc l)) tim false =
      Ret (pre ++ enc (l1 ++ [(WLAN_EID_TIM, body)]) ++ zdrop (zlen body + 2) (old ++ enc l2 ++ pad),
           12 + zlen (enc (put_tim body l))) /\
    zlen (enc (l1 ++ [(WLAN_EID_TIM, body)]) ++ zdrop (zlen body + 2) (old ++ enc l2 ++ pad)) =
      zlen (enc l ++ pad) /\ 3 < zlen body /\
    (forall aid, 0 <= aid -> tim_traffic body aid = rtw_bmp_is_set tim aid).
Proof.
  destruct (set_tim_ie_spec 0 1 tim Htim) as (b & Ht & Hb & Hread).
  destruct (tim_place_spec pre l pad Hpre Hl) as (l1 & old & l2 & Henc & Hput & Hplace).
  exists (0 :: 1 :: b), l1, old, l2. set (t := enc1 (WLAN_EID_TIM, 0 :: 1 :: b)) in *.
  assert (Hzt : zlen t = zlen b + 4) by (unfold t; rewrite zlen_enc1; cbn [snd]; zlens; lia).
  pose proof (zlen_nonneg (enc l1)). pose proof (zlen_nonneg (enc l2)). pose proof (zlen_nonneg old).
  assert (Hzl : zlen (enc l) = zlen (enc l1) + zlen old + zlen (enc l2)) by (rewrite Henc; zlens; lia).
  rewrite Hput, zlen_enc_around in Hroom. rewrite (@zlen_nil Z) in Hroom. rewrite !zlen_app in *.
  pose proof (zlen_nonneg pad). assert (Hout : enc (l1 ++ [(WLAN_EID_TIM, 0 :: 1 :: b)]) = enc l1 ++ t).
  { rewrite enc_app. cbn [enc]. fold t. by rewrite ?app_nil_r. }
  replace (zlen (0 :: 1 :: b) + 2) with (zlen t) by (zlens; lia). rewrite Hout.
  split; [done|]. split; [done|].
  split; [|split; [zlens; rewrite zlen_zdrop by (zlens; lia); zlens; lia|split; [zlens; lia|done]]].
  unfold update_BCNTIM. rewrite Hplace. cbn [mbind res_bind].
  rewrite u32_small by (unfold small in *; lia).
  replace (12 + zlen (enc l) - _) with (zlen (enc l2)) by lia. rewrite andb_false_r.
  cbn [mbind res_bind]. rewrite Ht. cbn [mbind res_bind]. fold t.
  replace (pre ++ enc l ++ pad) with ((pre ++ enc l1) ++ old ++ enc l2 ++ pad)
    by by rewrite Henc, <- !app_assoc.
  rewrite blit_over by (zlens; lia). cbn [mbind res_bind].
  rewrite Hput, zlen_enc_around, u32_small by (unfold small in *; zlens; lia).
  do 2 f_equal; [by rewrite <- !app_assoc|zlens; lia].
Qed.

(** C34: [update_BCNTIM] with a map of 1 to 251 octets, on a beacon of well formed elements
    with, if it has no element for the map, the SSID, the rates and the DS parameter set in
    front ([beacon_elems]), in a buffer with room for the longest map.  With memory for the copy of the elements that
    follow, the beacon holds the elements it held, with one element for the map in the
    place of the old one, or behind the DS parameter set.  Without, that element overwrites
    what was in its place and behind it, and the length counts the elements that followed
    all the same ([no_memory]).  Either way a station that reads the element finds exactly
    the bits of the access point's bitmap, the length returned is the same, and the buffer
    keeps its size. *)
Theorem update_bcntim_spec (mem : bool) pre l pad tim
    (Hpre : zlen pre = 12) (Hl : beacon_elems l) (Htim : 1 <= zlen tim <= 251)
    (Hroom : zlen (enc (put_tim [] l)) + zlen tim + 3 <= zlen (enc l ++ pad))
    (Hsmall : small (zlen pre + zlen (enc l ++ pad))) :
  exists body out,
    update_BCNTIM (pre ++ enc l ++ pad) (12 + zlen (enc l)) tim mem =
      Ret (pre ++ out, 12 + zlen (enc (put_tim body l))) /\
    (if mem then exists pad', out = enc (put_tim body l) ++ pad'
     else exists l1 old l2, enc l = enc l1 ++ old ++ enc l2 /\
            put_tim body l = l1 ++ (WLAN_EID_TIM, body) :: l2 /\
            out = enc (l1 ++ [(WLAN_EID_TIM, body)]) ++ zdrop (zlen body + 2) (old ++ enc l2 ++ pad)) /\
    zlen out = zlen (enc l ++ pad) /\ 3 < zlen body /\
    (forall aid, 0 <= aid -> tim_traffic body aid = rtw_bmp_is_set tim aid).
Proof.
  destruct mem.
  - destruct (bcntim_with_memory pre l pad tim Hpre Hl Htim Hroom Hsmall) as (body & pad' & E & Hz & H3 & Hr).
    eexists body, _. split; [exact E|]. split; [by exists pad'|]. done.
  - destruct (bcntim_without_memory pre l pad tim Hpre Hl Htim Hroom Hsmall)
      as (body & l1 & old & l2 & He & Hp & E & Hz & H3 & Hr).
    eexists body, _. split; [exact E|]. split; [by exists l1, old, l2|]. done.
Qed.

(** ** A beacon

    An access point with 128 association ids and traffic for stations 9 and 20. *)

Definition sample_head : list elem := [(_SSID_IE_, [97; 98]); (_SUPPORTEDRATES_IE_, [130; 132]); (3, [6])].
Definition sample_map : list Z := rtw_bmp_set (rtw_bmp_set (replicate 17 0) 9) 20.

Example sample_tim : rtw_set_tim_ie 0 1 sample_map = Ret [5; 6; 0; 1; 0; 0; 2; 16].
Proof. reflexivity. Qed.
Example sample_tim_offset :
  rtw_set_tim_ie 0 1 (rtw_bmp_set (replicate 17 0) 100) = Ret [5; 4; 0; 1; 12; 16].
Proof. reflexivity. Qed.

(** Without memory for the copy, what follows the element is overwritten, and the
    length counts bytes that were never written. *)
Example no_memory :
  update_BCNTIM (replicate 12 0 ++ enc (sample_head ++ [(42, [7])]) ++ replicate 9 0) 26 sample_map false =
    Ret (replicate 12 0 ++ enc sample_head ++ [5; 6; 0; 1; 0; 0; 2; 16] ++ replicate 4 0, 34).
Proof. vm_compute. reflexivity. Qed.

Lemma update_bcntim_spec_witness : exists body pad' body2 out,
  update_BCNTIM (replicate 12 0 ++ enc (sample_head ++ [(42, [7])]) ++ replicate 40 0) (12 + 14)
      sample_map true =
    Ret (replicate 12 0 ++ enc (put_tim body (sample_head ++ [(42, [7])])) ++ pad',
         12 + zlen (enc (put_tim body (sample_head ++ [(42, [7])])))) /\
  tim_traffic body 9 = true /\ tim_traffic body 20 = true /\ tim_traffic body 8 = false /\
  update_BCNTIM (replicate 12 0 ++ enc (sample_head ++ [(42, [7])]) ++ replicate 40 0) (12 + 14)
      sample_map false =
    Ret (replicate 12 0 ++ out, 12 + zlen (enc (put_tim body2 (sample_head ++ [(42, [7])])))) /\ zlen out = 54.
Proof.
  assert (Hl : beacon_elems (sample_head ++ [(42, [7])])) by (exists [97; 98], [130; 132], 6, [(42, [7])]; reflexivity).
  pose proof (fun mem => update_bcntim_spec mem (replicate 12 0) (sample_head ++ [(42, [7])]) (replicate 40 0)
    sample_map eq_refl Hl ltac:(vm_compute; split; discriminate) ltac:(vm_compute; discriminate)
    ltac:(vm_compute; split; [discriminate|reflexivity])) as H.
  destruct (H true) as (body & out1 & E1 & [pad' ->] & _ & _ & Hread).
  destruct (H false) as (body2 & out & E2 & _ & Hz & _).
  exists body, pad', body2, out. split; [exact E1|]. split; [rewrite Hread by discriminate; vm_compute; reflexivity|].
  split; [rewrite Hread by discriminate; vm_compute; reflexivity|].
  split; [rewrite Hread by discriminate; vm_compute; reflexivity|].
  split; [exact E2|exact Hz].
Defined.

End Tim.
