(* ===== verification/ApPs.v ===== *)
(** * Stations of an access point that save power

    A station tells the access point in its frames whether it sleeps.  While it
    does, [xmitframe_enqueue_for_sleeping_sta] keeps the frames for it in a queue
    and sets its bit in the traffic indication map ([Tim]); it gets them when it
    wakes up ([wakeup_sta_to_xmit]), one for each PS-Poll ([rtw_proccess_pspoll]), or
    those of its delivery-enabled access categories when it sends a trigger
    ([xmit_delivery_enabled_frames]).  This file models these operations
    (core/rtw_xmit.c, core/rtw_recv.c), the association ids (core/rtw_sta_mgt.c), and
    what an access point does to the queue when a station joins, is silent or leaves
    (core/rtw_ap.c, core/rtw_sta_mgt.c).  What holds in every run is in [ApPsInv].

    [BMC_ON_HIQ] is defined with [CONFIG_AP_MODE]: frames to a group are not kept. *)

From stdpp Require Import gmap.
From S2P Require Import Prelude Bytes Ies RxFrame RxState RxCheck Tim.

Module ApPs.
Import Ies RxFrame RxState RxCheck Tim.

(** ** State

    [struct xmit_frame] with the fields of its [pkt_attrib]; [xid] is the structure,
    [hiq] whether its queue is the one for after a beacon ([QSLT_HIGH_ID]). *)
Record xmit_frame := mk_xf {
  xid : Z; ra : list Z; xsta : option Z; xpriority : Z; ether_type : Z; dhcp_pkt : bool;
  triggered : bool; mdata : bool; eosp : bool; hiq : bool
}.
Definition set_triggered (b : bool) (f : xmit_frame) : xmit_frame :=
  mk_xf (xid f) (ra f) (xsta f) (xpriority f) (ether_type f) (dhcp_pkt f) b (mdata f) (eosp f) (hiq f).
Definition set_mdata (b : bool) (f : xmit_frame) : xmit_frame :=
  mk_xf (xid f) (ra f) (xsta f) (xpriority f) (ether_type f) (dhcp_pkt f) (triggered f) b (eosp f) (hiq f).
Definition set_eosp (b : bool) (f : xmit_frame) : xmit_frame :=
  mk_xf (xid f) (ra f) (xsta f) (xpriority f) (ether_type f) (dhcp_pkt f) (triggered f) (mdata f) b (hiq f).
Definition set_hiq (b : bool) (f : xmit_frame) : xmit_frame :=
  mk_xf (xid f) (ra f) (xsta f) (xpriority f) (ether_type f) (dhcp_pkt f) (triggered f) (mdata f) (eosp f) b.

(** [struct tx_servq]. *)
Record tx_servq := mk_servq { sta_pending : list xmit_frame; qcnt : Z }.

(** The fields of [struct sta_info] that saving power needs, next to those of
    [RxState.sta_info]; [aid] is in its [phl_sta], [servqs] the queues of its
    [sta_xmitpriv] in the order vo, vi, be, bk. *)
Record sta_ps := mk_ps {
  aid : Z; has_legacy_ac : bool; max_sp_len : Z; expire_to : Z;
  sleep_q : list xmit_frame; sleepq_len : Z; servqs : list tx_servq
}.
Definition set_aid (a : Z) (x : sta_ps) : sta_ps :=
  mk_ps a (has_legacy_ac x) (max_sp_len x) (expire_to x) (sleep_q x) (sleepq_len x) (servqs x).
Definition set_legacy (b : bool) (n : Z) (x : sta_ps) : sta_ps :=
  mk_ps (aid x) b n (expire_to x) (sleep_q x) (sleepq_len x) (servqs x).
Definition set_expire_to (n : Z) (x : sta_ps) : sta_ps :=
  mk_ps (aid x) (has_legacy_ac x) (max_sp_len x) n (sleep_q x) (sleepq_len x) (servqs x).
Definition set_sleepq (q : list xmit_frame) (n : Z) (x : sta_ps) : sta_ps :=
  mk_ps (aid x) (has_legacy_ac x) (max_sp_len x) (expire_to x) q n (servqs x).
Definition set_servqs (l : list tx_servq) (x : sta_ps) : sta_ps :=
  mk_ps (aid x) (has_legacy_ac x) (max_sp_len x) (expire_to x) (sleep_q x) (sleepq_len x) l.

Definition set_sleepq_ac_len (n : Z) (i : sta_info) : sta_info :=
  mk_sta (phl_sta i) (flags i) (state i) (ieee8021x_blocked i) (dot118021XPrivacy i) (sta_recvpriv i)
    (sta_keytrack i) (sta_hw_decrypted i) (duplicate_cnt i) (qos_option i) (qos_info i) (uapsd_bk i)
    (uapsd_vi i) (uapsd_vo i) (uapsd_be i) n (dot11tkiprxmickey i) (dot118021x_UncstKey i).
(** [flags], [qos_option], [qos_info] and the [uapsd_] fields. *)
Definition set_wmm (fl : Z) (opt : bool) (info bk vi vo be : Z) (i : sta_info) : sta_info :=
  mk_sta (phl_sta i) fl (state i) (ieee8021x_blocked i) (dot118021XPrivacy i) (sta_recvpriv i)
    (sta_keytrack i) (sta_hw_decrypted i) (duplicate_cnt i) opt info bk vi vo be (sleepq_ac_len i)
    (dot11tkiprxmickey i) (dot118021x_UncstKey i).

(** What leaves the host: a frame given to phl, one freed, a command to send the
    beacon, a null frame. *)
Inductive tx_event :=
| Sent (f : xmit_frame)
| Freed (f : xmit_frame)
| SetTxBeacon
| IssueNull (addr : list Z).

(** The interface of an access point.  [core] is what the receive path knows of it;
    [hw_ap] is [pmlmeinfo->state == _HW_STATE_AP_]; [qos_ap] is [qospriv.qos_option];
    [phl_ok] says which of the next frames phl takes, [bcn_mem] which of the next
    allocations of [update_BCNTIM] succeed (all do, when the list is used up);
    [bcn] is the buffer with the elements of the beacon and its [IELength]. *)
Record ap := mk_ap {
  core : adapter; sps : gmap Z sta_ps; sta_dz_bitmap : list Z; tim_bitmap : list Z;
  sta_aid : list (option Z); max_aid : Z; max_num_sta : Z; started_aid : Z; rr_aid : bool;
  accnt : list Z; ap_expire_to : Z; bstart_bss : bool; hw_ap : bool; qos_ap : bool; hiq_filter : Z;
  phl_ok : list bool; bcn : res (list Z * Z); bcn_mem : list bool; txlog : list tx_event
}.
Definition set_stations (c : adapter) (m : gmap Z sta_ps) (s : ap) : ap :=
  mk_ap c m (sta_dz_bitmap s) (tim_bitmap s) (sta_aid s) (max_aid s) (max_num_sta s) (started_aid s)
    (rr_aid s) (accnt s) (ap_expire_to s) (bstart_bss s) (hw_ap s) (qos_ap s) (hiq_filter s) (phl_ok s)
    (bcn s) (bcn_mem s) (txlog s).
Definition set_maps (dz tim : list Z) (s : ap) : ap :=
  mk_ap (core s) (sps s) dz tim (sta_aid s) (max_aid s) (max_num_sta s) (started_aid s) (rr_aid s)
    (accnt s) (ap_expire_to s) (bstart_bss s) (hw_ap s) (qos_ap s) (hiq_filter s) (phl_ok s) (bcn s)
    (bcn_mem s) (txlog s).
Definition set_aids (l : list (option Z)) (n : Z) (s : ap) : ap :=
  mk_ap (core s) (sps s) (sta_dz_bitmap s) (tim_bitmap s) l (max_aid s) (max_num_sta s) n (rr_aid s)
    (accnt s) (ap_expire_to s) (bstart_bss s) (hw_ap s) (qos_ap s) (hiq_filter s) (phl_ok s) (bcn s)
    (bcn_mem s) (txlog s).
Definition set_accnt (l : list Z) (s : ap) : ap :=
  mk_ap (core s) (sps s) (sta_dz_bitmap s) (tim_bitmap s) (sta_aid s) (max_aid s) (max_num_sta s)
    (started_aid s) (rr_aid s) l (ap_expire_to s) (bstart_bss s) (hw_ap s) (qos_ap s) (hiq_filter s)
    (phl_ok s) (bcn s) (bcn_mem s) (txlog s).
Definition set_bcn (b : res (list Z * Z)) (m : list bool) (s : ap) : ap :=
  mk_ap (core s) (sps s) (sta_dz_bitmap s) (tim_bitmap s) (sta_aid s) (max_aid s) (max_num_sta s)
    (started_aid s) (rr_aid s) (accnt s) (ap_expire_to s) (bstart_bss s) (hw_ap s) (qos_ap s)
    (hiq_filter s) (phl_ok s) b m (txlog s).
Definition set_tx (ok : list bool) (l : list tx_event) (s : ap) : ap :=
  mk_ap (core s) (sps s) (sta_dz_bitmap s) (tim_bitmap s) (sta_aid s) (max_aid s) (max_num_sta s)
    (started_aid s) (rr_aid s) (accnt s) (ap_expire_to s) (bstart_bss s) (hw_ap s) (qos_ap s)
    (hiq_filter s) ok (bcn s) (bcn_mem s) l.

Definition set_dz (m : list Z) (s : ap) : ap := set_maps m (tim_bitmap s) s.
Definition set_tim (m : list Z) (s : ap) : ap := set_maps (sta_dz_bitmap s) m s.
Definition tx (e : tx_event) (s : ap) : ap := set_tx (phl_ok s) (txlog s ++ [e]) s.

(** The station a pointer leads to. *)
Definition get_sta (s : ap) (p : Z) : res (sta_info * sta_ps) :=
  match stas (core s) !! p, sps s !! p with Some i, Some x => Ret (i, x) | _, _ => Oob end.
Definition put_sta (p : Z) (i : sta_info) (x : sta_ps) (s : ap) : ap :=
  set_stations (set_stas (<[p := i]> (stas (core s))) (core s)) (<[p := x]> (sps s)) s.

Definition WIFI_STA_ALIVE_CHK_STATE : Z := 0x400.
Definition sleeps (i : sta_info) : bool := flag (state i) WIFI_SLEEP_STATE.

(** The field of an access category, and its bit 0: frames are counted with bit 0
    when they come and with bit 1 ([RxCheck.wmmps_ac]) when they go. *)
Definition uapsd_of (i : sta_info) (pr : Z) : Z :=
  if (pr =? 1) || (pr =? 2) then uapsd_bk i
  else if (pr =? 4) || (pr =? 5) then uapsd_vi i
  else if (pr =? 6) || (pr =? 7) then uapsd_vo i
  else uapsd_be i.
Definition wmmps_ac0 (i : sta_info) (pr : Z) : bool := flag (uapsd_of i pr) (BIT 0).
Definition wmmps_ac1 (i : sta_info) (pr : Z) : bool := negb (wmmps_ac i pr =? 0).

(** ** Giving frames to phl, updating the beacon *)

Definition rtw_intf_xmitframe_enqueue (s : ap) (f : xmit_frame) : ap :=
  match phl_ok s with
  | [] => tx (Sent f) s
  | true :: l => set_tx l (txlog s ++ [Sent f]) s
  | false :: l => set_tx l (txlog s ++ [Freed f]) s
  end.

(** With [ie_id] [_TIM_IE_]. *)
Definition _update_beacon (s : ap) (do_tx : bool) : ap :=
  if negb (bstart_bss s) then s
  else
    let '(m, l) := match bcn_mem s with [] => (true, []) | m :: l => (m, l) end in
    let s := set_bcn ('(ies, n) ← bcn s; update_BCNTIM ies n (tim_bitmap s) m) l s in
    if do_tx then tx SetTxBeacon s else s.

(** ** Association *)

(** The loop over the ids: [i] and [used_cnt] when it stops. *)
Fixpoint aid_loop (fuel : nat) (s : ap) (i used_cnt : Z) : Z * Z :=
  match fuel with
  | O => (i, used_cnt)
  | S fuel =>
      if i <? max_aid s then
        let aid := (i + started_aid s - 1) mod max_aid s + 1 in
        match rd (sta_aid s) (aid - 1) with
        | Some None => (i, used_cnt)
        | _ =>
            if max_num_sta s <=? used_cnt + 1 then (i, used_cnt + 1)
            else aid_loop fuel s (i + 1) (used_cnt + 1)
        end
      else (i, used_cnt)
  end.

(** The aid, 0 if there is none. *)
Definition rtw_aid_alloc (s : ap) (p : Z) : res (ap * Z) :=
  '(st, x) ← get_sta s p;
  let '(i, used_cnt) := aid_loop (Z.to_nat (max_aid s)) s 0 0 in
  let a := if (max_aid s <=? i) || (max_num_sta s <=? used_cnt) then 0
           else (i + started_aid s - 1) mod max_aid s + 1 in
  let s := put_sta p st (set_aid a x) s in
  Ret (if a =? 0 then s
       else set_aids (<[Z.to_nat (a - 1) := Some p]> (sta_aid s))
              (if rr_aid s then a mod max_aid s + 1 else started_aid s) s, a).

Definition WLAN_STA_WME : Z := BIT 9.
Definition WMM_IE : list Z := [0x00; 0x50; 0xf2; 0x02; 0x00; 0x01].

(** The access categories that are delivery-enabled and trigger-enabled, from the
    QoS information of the association request. *)
Definition uapsd_bits (qos_info n : Z) : Z := if flag qos_info (BIT n) then Z.lor (BIT 0) (BIT 1) else 0.

Definition rtw_ap_parse_sta_wmm_ie (s : ap) (p : Z) (tlv_ies : list Z) (tlv_ies_len : Z) : res ap :=
  '(i, x) ← get_sta s p;
  let fl := Z.land (flags i) (Z.lnot WLAN_STA_WME) in
  let none := put_sta p (set_wmm fl false 0 0 0 0 0 i) (set_legacy true (max_sp_len x) x) s in
  if negb (qos_ap s) then Ret none
  else
    o ← rtw_get_ie_ex tlv_ies 0 tlv_ies_len 221 (Some WMM_IE);
    match o with
    | None => Ret none
    | Some (pos, _) =>
        info ← byte_at tlv_ies (pos + 8);
        Ret (put_sta p
          (set_wmm (Z.lor fl WLAN_STA_WME) true info (uapsd_bits info 2) (uapsd_bits info 1)
             (uapsd_bits info 0) (uapsd_bits info 3) i)
          (set_legacy (negb (Z.land info 0xf =? 0xf)) (Z.land (Z.shiftr info 5) 0x3) x) s)
    end.

(** ** Frames for a sleeping station *)

Definition RTW_HIQ_FILTER_ALLOW_ALL : Z := 0.
Definition RTW_HIQ_FILTER_ALLOW_SPECIAL : Z := 1.

Definition xmitframe_hiq_filter (s : ap) (f : xmit_frame) : bool :=
  if wifi_spec (core s) then true
  else if hiq_filter s =? RTW_HIQ_FILTER_ALLOW_SPECIAL then
    (ether_type f =? 0x0806) || (ether_type f =? 0x888e) || dhcp_pkt f
  else hiq_filter s =? RTW_HIQ_FILTER_ALLOW_ALL.

(** Whether a frame that is kept is announced in the map: those of the other access
    categories, if there are any; else all. *)
Definition announced (i : sta_info) (x : sta_ps) (f : xmit_frame) : bool :=
  has_legacy_ac x && negb (wmmps_ac0 i (xpriority f))
  || negb (has_legacy_ac x) && wmmps_ac0 i (xpriority f).

(** The frame goes to the end of the queue. *)
Definition buffer_frame (s : ap) (p : Z) (i : sta_info) (x : sta_ps) (f : xmit_frame) : ap :=
  let x := set_sleepq (sleep_q x ++ [f]) (u32 (sleepq_len x + 1)) x in
  let i := if wmmps_ac0 i (xpriority f) then set_sleepq_ac_len (u32 (sleepq_ac_len i + 1)) i else i in
  let s := put_sta p i x s in
  if announced i x f then
    let update_tim := negb (rtw_tim_map_is_set (tim_bitmap s) (aid x)) in
    let s := set_tim (rtw_tim_map_set (tim_bitmap s) (aid x)) s in
    if update_tim then _update_beacon s true else s
  else s.

(** The result says whether the frame is kept; if not, its queue may have changed. *)
Definition xmitframe_enqueue_for_sleeping_sta (s : ap) (f : xmit_frame) : res (ap * xmit_frame * bool) :=
  if negb (MLME_IS_AP (core s)) then Ret (s, f, false)
  else
    match rtw_get_stainfo (core s) (ra f) with
    | None => Ret (s, f, false)
    | Some p =>
        if bool_decide (xsta f <> Some p) then Ret (s, f, false)
        else
          '(i, x) ← get_sta s p;
          if negb (flag (state i) WIFI_ASOC_STATE) then Ret (s, f, false)
          else if triggered f then
            Ret (s, if IS_MCAST (ra f) && xmitframe_hiq_filter s f then set_hiq true f else f, false)
          else if IS_MCAST (ra f) then Ret (s, f, false)
          else if sleeps i && rtw_tim_map_is_set (sta_dz_bitmap s) (aid x)
          then Ret (buffer_frame s p i x f, f, true)
          else Ret (s, f, false)
    end.

(** The end of [core_tx_per_packet]: a frame that is not kept goes to phl. *)
Definition core_tx_per_packet (s : ap) (f : xmit_frame) : res ap :=
  '(s, f, kept) ← xmitframe_enqueue_for_sleeping_sta s f;
  Ret (if kept : bool then s else rtw_intf_xmitframe_enqueue s f).

(** ** Going to sleep *)

(** [rtw_get_sta_pending]: the queue of an access category. *)
Definition rtw_get_sta_pending (up : Z) : nat :=
  if (up =? 1) || (up =? 2) then 3%nat
  else if (up =? 4) || (up =? 5) then 1%nat
  else if (up =? 6) || (up =? 7) then 0%nat
  else 2%nat.

Definition count_down (n : nat) (s : ap) (p : Z) : res ap :=
  '(i, x) ← get_sta s p;
  Ret (set_accnt (alter (fun c => c - 1) n (accnt s))
        (put_sta p i (set_servqs (alter (fun v => mk_servq (sta_pending v) (qcnt v - 1)) n (servqs x)) x) s)).

(** Frames that are not kept stay where they are. *)
Fixpoint dequeue_loop (s : ap) (p : Z) (q stay : list xmit_frame) : res (ap * list xmit_frame) :=
  match q with
  | [] => Ret (s, stay)
  | f :: q =>
      '(s, f, kept) ← xmitframe_enqueue_for_sleeping_sta s (set_triggered false f);
      if kept : bool then
        s ← count_down (rtw_get_sta_pending (xpriority f)) s p;
        dequeue_loop s p q stay
      else dequeue_loop s p q (stay ++ [f])
  end.

Definition dequeue_xmitframes_to_sleeping_queue (s : ap) (p : Z) (n : nat) : res ap :=
  '(_, x) ← get_sta s p;
  match servqs x !! n with
  | None => Oob
  | Some v =>
      '(s, stay) ← dequeue_loop s p (sta_pending v) [];
      '(i, x) ← get_sta s p;
      Ret (put_sta p i (set_servqs (alter (fun v => mk_servq stay (qcnt v)) n (servqs x)) x) s)
  end.

Definition stop_sta_xmit (s : ap) (p : Z) : res ap :=
  '(i, x) ← get_sta s p;
  let s := put_sta p (set_state (Z.lor (state i) WIFI_SLEEP_STATE) i) x s in
  let s := set_dz (rtw_tim_map_set (sta_dz_bitmap s) (aid x)) s in
  s ← dequeue_xmitframes_to_sleeping_queue s p 0;
  s ← dequeue_xmitframes_to_sleeping_queue s p 1;
  s ← dequeue_xmitframes_to_sleeping_queue s p 2;
  dequeue_xmitframes_to_sleeping_queue s p 3.

(** ** Waking up

    The loops hold the lock of the queues: [i] and [x] are the station meanwhile. *)

(** The flags of a frame that leaves the queue, [n] frames after it. *)
Definition more_flag (n : Z) (f : xmit_frame) : xmit_frame := set_mdata (0 <? n) f.
Definition eosp_flags (ac_len : Z) (f : xmit_frame) : xmit_frame :=
  if 0 <? ac_len then set_eosp false (set_mdata true f) else set_eosp true (set_mdata false f).

Fixpoint wakeup_loop (s : ap) (i : sta_info) (x : sta_ps) (q : list xmit_frame)
    : ap * sta_info * sta_ps :=
  match q with
  | [] => (s, i, x)
  | f :: q =>
      let wmmps := wmmps_ac1 i (xpriority f) in
      let x := set_sleepq q (u32 (sleepq_len x - 1)) x in
      let f := more_flag (sleepq_len x) f in
      let i := if wmmps then set_sleepq_ac_len (u32 (sleepq_ac_len i - 1)) i else i in
      let f := if wmmps then eosp_flags (sleepq_ac_len i) f else f in
      wakeup_loop (rtw_intf_xmitframe_enqueue s (set_triggered true f)) i x q
  end.

(** The queue of the group's station. *)
Fixpoint bmc_loop (s : ap) (x : sta_ps) (q : list xmit_frame) : ap * sta_ps :=
  match q with
  | [] => (s, x)
  | f :: q =>
      let x := set_sleepq q (u32 (sleepq_len x - 1)) x in
      bmc_loop (rtw_intf_xmitframe_enqueue s (set_triggered true (more_flag (sleepq_len x) f))) x q
  end.

(** The result says whether the map has changed. *)
Definition flush_bmc (s : ap) : res (ap * bool) :=
  match rtw_get_bcmc_stainfo (core s) with
  | None => Ret (s, false)
  | Some b =>
      if rtw_tim_map_anyone_be_set_exclude_aid0 (sta_dz_bitmap s) then Ret (s, false)
      else
        '(i, x) ← get_sta s b;
        let '(s, x) := bmc_loop s x (sleep_q x) in
        let s := put_sta b i x s in
        if sleepq_len x =? 0 then
          Ret (set_maps (rtw_tim_map_clear (sta_dz_bitmap s) 0) (rtw_tim_map_clear (tim_bitmap s) 0) s,
               rtw_tim_map_is_set (tim_bitmap s) 0)
        else Ret (s, false)
  end.

Definition leave_alive_check (s : ap) (i : sta_info) (x : sta_ps) : sta_info * sta_ps :=
  if flag (state i) WIFI_STA_ALIVE_CHK_STATE
  then (set_state (Z.lxor (state i) WIFI_STA_ALIVE_CHK_STATE) i, set_expire_to (ap_expire_to s) x)
  else (i, x).

(** The queue is empty: the station is awake.  The result says whether the map has
    changed. *)
Definition awake (s : ap) (p : Z) (i : sta_info) (x : sta_ps) : ap * bool :=
  let was := rtw_tim_map_is_set (tim_bitmap s) (aid x) in
  let s := set_tim (rtw_tim_map_clear (tim_bitmap s) (aid x)) s in
  let i := if sleeps i then set_state (Z.lxor (state i) WIFI_SLEEP_STATE) i else i in
  let '(i, x) := leave_alive_check s i x in
  (put_sta p i x (set_dz (rtw_tim_map_clear (sta_dz_bitmap s) (aid x)) s), was).

Definition wakeup_sta_to_xmit (s : ap) (p : Z) : res ap :=
  '(i, x) ← get_sta s p;
  let '(s, i, x) := wakeup_loop s i x (sleep_q x) in
  let '(s, uc) := if sleepq_len x =? 0 then awake s p i x else (put_sta p i x s, false) in
  '(s, bmc) ← flush_bmc s;
  Ret (if uc || bmc then _update_beacon s true else s).

(** ** Triggers and polls *)

(** [kept] are the frames the walk has passed. *)
Fixpoint delivery_loop (s : ap) (i : sta_info) (x : sta_ps) (kept q : list xmit_frame)
    : ap * sta_info * sta_ps :=
  match q with
  | [] => (s, i, x)
  | f :: q =>
      if negb (wmmps_ac1 i (xpriority f)) then delivery_loop s i x (kept ++ [f]) q
      else
        let x := set_sleepq (kept ++ q) (u32 (sleepq_len x - 1)) x in
        let i := set_sleepq_ac_len (u32 (sleepq_ac_len i - 1)) i in
        let s := rtw_intf_xmitframe_enqueue s (set_triggered true (eosp_flags (sleepq_ac_len i) f)) in
        let s := if (sleepq_ac_len i =? 0) && negb (has_legacy_ac x)
                 then _update_beacon (set_tim (rtw_tim_map_clear (tim_bitmap s) (aid x)) s) true
                 else s in
        delivery_loop s i x kept q
  end.

Definition xmit_delivery_enabled_frames (s : ap) (p : Z) : res ap :=
  '(i, x) ← get_sta s p;
  let '(s, i, x) := delivery_loop s i x [] (sleep_q x) in
  Ret (put_sta p i x s).

Definition GetAid (b : list Z) : res Z := w ← get_le16 b 2; Ret (Z.land w 0x3fff).

(** The map bit of a station without frames is taken back. *)
Definition clear_tim (a : Z) (s : ap) : ap :=
  _update_beacon (set_tim (rtw_tim_map_clear (tim_bitmap s) a) s) true.

(** A station that sleeps gets its first frame; [addr] is its address. *)
Definition poll_frame (s : ap) (p : Z) (addr : list Z) (i : sta_info) (x : sta_ps) : ap :=
  match sleep_q x with
  | f :: q =>
      let x := set_sleepq q (u32 (sleepq_len x - 1)) x in
      let s := rtw_intf_xmitframe_enqueue (put_sta p i x s) (set_triggered true (more_flag (sleepq_len x) f)) in
      if sleepq_len x =? 0 then clear_tim (aid x) s else s
  | [] =>
      if rtw_tim_map_is_set (tim_bitmap s) (aid x) then
        clear_tim (aid x)
          (if sleepq_len x =? 0 then tx (IssueNull addr) (put_sta p i x s)
           else put_sta p i (set_sleepq [] 0 x) s)
      else put_sta p i x s
  end.

(** [pframe] is the frame, [priority] the traffic identifier in the attributes of its
    structure, which this frame has not. *)
Definition rtw_proccess_pspoll (s : ap) (pframe : list Z) (priority : Z) (p : Z) : res (ap * verdict) :=
  '(i, x) ← get_sta s p;
  a ← GetAid pframe;
  if negb (aid x =? a) then Ret (s, FAIL)
  else if wmmps_ac0 i priority then Ret (s, FAIL)
  else
    let '(i, x) := leave_alive_check s i x in
    if sleeps i && rtw_tim_map_is_set (sta_dz_bitmap s) (aid x) then
      match phl_sta i with
      | None => Oob
      | Some (_, addr) => Ret (poll_frame s p addr i x, SUCCESS)
      end
    else Ret (put_sta p i x s, SUCCESS).

(** ** Silence and leaving

    Two parts of [expire_timeout_chk]: a sleeping station that was silent is asked
    through the map whether it is there; the queue of a station is emptied when the
    frames run short. *)

Definition alive_check (s : ap) (p : Z) : res ap :=
  '(i, x) ← get_sta s p;
  if sleeps i && negb (flag (state i) WIFI_STA_ALIVE_CHK_STATE) then
    let s := put_sta p (set_state (Z.lor (state i) WIFI_STA_ALIVE_CHK_STATE) i)
               (set_expire_to (ap_expire_to s) x) s in
    Ret (_update_beacon (set_tim (rtw_tim_map_set (tim_bitmap s) (aid x)) s) true)
  else Ret s.

Definition NR_XMITFRAME : Z := 1256.

Definition digest_sleepq (s : ap) (p : Z) : res ap :=
  '(_, x) ← get_sta s p;
  let share := NR_XMITFRAME / asoc_list_cnt (core s) in
  if (share <? sleepq_len x) && (free_xmitframe_cnt (core s) <? share / 2)
  then wakeup_sta_to_xmit s p else Ret s.

(** The start of [bss_cap_update_on_sta_leave]. *)
Definition tim_on_sta_leave (s : ap) (p : Z) : res ap :=
  '(_, x) ← get_sta s p;
  Ret (if rtw_tim_map_is_set (tim_bitmap s) (aid x)
       then _update_beacon (set_tim (rtw_tim_map_clear (tim_bitmap s) (aid x)) s) false else s).

Definition rtw_free_xmitframe_queue (s : ap) (q : list xmit_frame) : ap :=
  foldl (fun s f => tx (Freed f) s) s q.

(** The queues of the access categories, with the number of frames each counted. *)
Definition free_servqs (s : ap) (x : sta_ps) : ap * sta_ps :=
  let s := foldl (fun s v => rtw_free_xmitframe_queue s (sta_pending v)) s (servqs x) in
  (set_accnt (zip_with Z.sub (accnt s) (qcnt <$> servqs x)) s,
   set_servqs ((fun _ => mk_servq [] 0) <$> servqs x) x).

Definition set_sta_hash (l : list (list Z)) (ad : adapter) : adapter :=
  mk_adapter (mac ad) (cur_bssid ad) (fw_state ad) (phl_role ad) l (stas ad) (securitypriv ad)
    (mlme_key_index ad) (amsdu_mode ad) (asoc_list ad) (asoc_list_cnt ad) (b2u_flags_ap_fwd ad)
    (wifi_spec ad) (free_xmitframe_cnt ad) (mem ad) (radar_detected ad) (up ad) (now ad)
    (deauth_time_nolink ad) (deauth_time_legacy ad) (free_recv_queue ad) (free_recvframe_cnt ad)
    (log ad).

(** The map bits and the id of a station that has left. *)
Definition release_aid (s : ap) (p : Z) (x : sta_ps) : ap * sta_ps :=
  if negb (hw_ap s) then (s, x)
  else
    let s := set_maps (rtw_tim_map_clear (sta_dz_bitmap s) (aid x))
               (rtw_tim_map_clear (tim_bitmap s) (aid x)) s in
    if (0 <? aid x) && bool_decide (rd (sta_aid s) (aid x - 1) = Some (Some p))
    then (set_aids (<[Z.to_nat (aid x - 1) := None]> (sta_aid s)) (started_aid s) s, set_aid 0 x)
    else (s, x).

(** [_rtw_free_core_stainfo], as far as it is about the directory, the queues and
    saving power. *)
Definition free_core_stainfo (s : ap) (p : Z) : res ap :=
  '(i, x) ← get_sta s p;
  let s := set_stations (set_sta_hash (filter (fun q => q <> p) <$> sta_hash (core s)) (core s)) (sps s) s in
  let i := set_state (Z.land (state i) (Z.lnot WIFI_ASOC_STATE)) i in
  let s := rtw_free_xmitframe_queue s (sleep_q x) in
  let x := set_sleepq [] 0 x in
  let '(s, x) := free_servqs s x in
  let x := set_expire_to 0 (set_legacy false 0 x) in
  let i := set_sleepq_ac_len 0 (set_wmm (flags i) (qos_option i) 0 0 0 0 0 i) in
  let '(s, x) := release_aid s p x in
  Ret (put_sta p i x s).

(** ** Frames of the station

    [process_pwrbit_data] and [process_wmmps_data] of [RxCheck], with the calls they
    stand for as events. *)

Definition run_event (s : ap) (e : event) : res ap :=
  match e with
  | StopStaXmit p => stop_sta_xmit s p
  | WakeupSta p => wakeup_sta_to_xmit s p
  | DeliverEnabledFrames p => xmit_delivery_enabled_frames s p
  | _ => Ret s
  end.

Fixpoint run_events (s : ap) (l : list event) : res ap :=
  match l with
  | [] => Ret s
  | e :: l => s ← run_event s e; run_events s l
  end.

Definition after_rx (s : ap) (r : res adapter) : res ap :=
  ad ← r;
  run_events (set_stations ad (sps s) s) (drop (length (log (core s))) (log ad)).

Definition rx_pwrbit (s : ap) (f : recv_frame) (p : Z) : res ap :=
  after_rx s (process_pwrbit_data (core s) f p).
Definition rx_trigger (s : ap) (f : recv_frame) (p : Z) : res ap :=
  after_rx s (process_wmmps_data (core s) f p).

End ApPs.
