(* ===== verification/ApPsInv.v ===== *)
(** * What holds while stations sleep and wake up

    The invariant of [ApPs] over all operations of an access point, and what follows
    from it: the queues and their counters agree, whoever has announced frames waiting
    finds its bit in the beacon, and each station gets its frames in order. *)

From stdpp Require Import gmap.
From S2P Require Import Prelude Bytes Ies RxFrame RxState RxCheck RxSafe Tim ApPs.

Module ApPsInv.
Import Ies RxFrame RxState RxCheck RxSafe Tim ApPs.

(** ** Map bits of association ids *)

(** The ids that are in use fit the maps, and a byte. *)
Definition is_aid (map : list Z) (a : Z) : Prop := 0 <= a < 256 /\ a / 8 < zlen map.

Lemma map_is_set map a : is_aid map a -> rtw_tim_map_is_set map a = bmp_bit map a.
Proof. intros [Ha _]. unfold rtw_tim_map_is_set. rewrite u8_id by done. apply is_set_bit. lia. Qed.
Lemma map_set_bit map a j : is_aid map a -> 0 <= j ->
  bmp_bit (rtw_tim_map_set map a) j = if j =? a then true else bmp_bit map j.
Proof. intros [Ha ?] ?. unfold rtw_tim_map_set. rewrite u8_id by done. apply bit_set; lia. Qed.
Lemma map_clear_bit map a j : is_aid map a -> 0 <= j ->
  bmp_bit (rtw_tim_map_clear map a) j = if j =? a then false else bmp_bit map j.
Proof. intros [Ha ?] ?. unfold rtw_tim_map_clear. rewrite u8_id by done. apply bit_clear; lia. Qed.
Lemma zlen_map_set map a : zlen (rtw_tim_map_set map a) = zlen map.
Proof. apply zlen_bmp_set. Qed.
Lemma zlen_map_clear map a : zlen (rtw_tim_map_clear map a) = zlen map.
Proof. apply zlen_bmp_clear. Qed.

(** ** The beacon *)

(** The buffer of the beacon holds elements with one for the map, and has room for
    the longest map; allocations succeed. *)
Record bcn_fits (s : ap) (pre : list Z) (l : list elem) (pad : list Z) : Prop := {
  bf_bcn : bcn s = Ret (pre ++ enc l ++ pad, 12 + zlen (enc l));
  bf_pre : zlen pre = 12;
  bf_elems : beacon_elems l;
  bf_room : zlen (enc (put_tim [] l)) + zlen (tim_bitmap s) + 3 <= zlen (enc l ++ pad);
  bf_small : small (zlen pre + zlen (enc l ++ pad));
  bf_mem : Forall (eq true) (bcn_mem s);
  bf_started : bstart_bss s = true;
}.

(** A station that reads the element for the map finds the bits of [tim]. *)
Definition announces (l : list elem) (tim : list Z) : Prop :=
  exists l1 body l2, split_first (has_eid WLAN_EID_TIM) l = Some (l1, (WLAN_EID_TIM, body), l2) /\
    forall a, 0 <= a -> tim_traffic body a = bmp_bit tim a.

Definition bcn_ok (s : ap) : Prop :=
  exists pre l pad, bcn_fits s pre l pad /\ announces l (tim_bitmap s).
Definition bcn_stale (s : ap) : Prop := exists pre l pad, bcn_fits s pre l pad.

(** Two states with the same beacon and map. *)
Definition same_bcn (s s' : ap) : Prop :=
  bcn s' = bcn s /\ bcn_mem s' = bcn_mem s /\ bstart_bss s' = bstart_bss s.
Definition same_bits (m m' : list Z) : Prop :=
  zlen m' = zlen m /\ forall a, 0 <= a -> bmp_bit m' a = bmp_bit m a.

Lemma bcn_stale_same s s' : same_bcn s s' -> zlen (tim_bitmap s') = zlen (tim_bitmap s) ->
  bcn_stale s -> bcn_stale s'.
Proof.
  intros (Hb & Hm & Hst) Hz (pre & l & pad & []). exists pre, l, pad. constructor; congruence || lia.
Qed.
Lemma bcn_ok_same s s' : same_bcn s s' -> same_bits (tim_bitmap s) (tim_bitmap s') ->
  bcn_ok s -> bcn_ok s'.
Proof.
  intros (Hb & Hm & Hst) [Hz Hbits] (pre & l & pad & [] & l1 & body & l2 & Hl & Hread).
  exists pre, l, pad. split; [constructor; congruence || lia|]. exists l1, body, l2. split; [done|].
  intros a Ha. rewrite Hread, Hbits by done. done.
Qed.
Lemma bcn_ok_stale s : bcn_ok s -> bcn_stale s.
Proof. intros (pre & l & pad & H & _). by exists pre, l, pad. Qed.

Lemma update_beacon_ok s t : 1 <= zlen (tim_bitmap s) <= 251 -> bcn_stale s -> bcn_ok (_update_beacon s t).
Proof.
  intros Htim (pre & l & pad & [Hb Hpre Hl Hroom Hsm Hmem Hst]). unfold _update_beacon. rewrite Hst.
  cbn [negb].
  destruct (bcntim_with_memory pre l pad (tim_bitmap s) Hpre Hl Htim Hroom Hsm)
    as (body & pad' & Hu & Hz & Hbody & Hread).
  assert (exists m, match bcn_mem s with [] => (true, []) | m :: l => (m, l) end = (true, m) /\
                    Forall (eq true) m) as (m & -> & Hm).
  { destruct Hmem as [|? ? <- ?]; eauto. }
  rewrite Hb. cbn [mbind res_bind]. rewrite Hu.
  assert (bcn_ok (set_bcn (Ret (pre ++ enc (put_tim body l) ++ pad', 12 + zlen (enc (put_tim body l)))) m s)).
  { exists pre, (put_tim body l), pad'. split.
    - constructor; try done; [by apply put_tim_elems; lia| |by rewrite Hz].
      rewrite put_tim_again. cbn. by rewrite Hz.
    - destruct (put_tim_split body l) as (l1 & l2 & _ & Hs & _). exists l1, body, l2. split; [done|].
      intros a Ha. cbn. by rewrite Hread, is_set_bit. }
  by destruct t; [eapply bcn_ok_same; [| |done]|].
Qed.

(** ** The invariant *)

(** A frame in the queue of station [p]: a structure of the pool, addressed to it. *)
Definition frame_for (p : Z) (f : xmit_frame) : Prop :=
  xsta f = Some p /\ IS_MCAST (ra f) = false /\ 0 <= xid f < NR_XMITFRAME.

(** Every access category is delivery-enabled. *)
Definition all_uapsd (i : sta_info) : Prop := forall pr, uapsd_of i pr = 3.

(** A station and what the interface has for it.  If all its categories are
    delivery-enabled it cannot poll, and the counter of such frames is exact.  The
    station of the group, which has [WIFI_AP_STATE], is associated without an id. *)
Record ps_ok (s : ap) (p : Z) (i : sta_info) (x : sta_ps) : Prop := {
  po_addr : is_Some (phl_sta i);
  po_aid : 0 <= aid x <= max_aid s;
  po_slot : 0 < aid x -> rd (sta_aid s) (aid x - 1) = Some (Some p);
  po_dz : 0 < aid x -> bmp_bit (sta_dz_bitmap s) (aid x) = sleeps i;
  po_len : sleepq_len x = zlen (sleep_q x);
  po_pool : NoDup (xid <$> sleep_q x);
  po_frames : Forall (frame_for p) (sleep_q x);
  po_asleep : sleep_q x <> [] -> sleeps i = true /\ 0 < aid x /\ flag (state i) WIFI_ASOC_STATE = true;
  po_asoc : flag (state i) WIFI_ASOC_STATE = true -> 0 < aid x \/ flag (state i) WIFI_AP_STATE = true;
  po_group : flag (state i) WIFI_AP_STATE = true -> sleep_q x = [];
  po_tim : Exists (fun f => announced i x f = true) (sleep_q x) -> bmp_bit (tim_bitmap s) (aid x) = true;
  po_uapsd : forall pr, uapsd_of i pr = 0 \/ uapsd_of i pr = 3;
  po_all : flag (state i) WIFI_ASOC_STATE = true -> flag (state i) WIFI_AP_STATE = false ->
    has_legacy_ac x = false ->
    all_uapsd i /\ sleepq_ac_len i = zlen (sleep_q x);
  po_servqs : length (servqs x) = 4%nat /\ Forall (fun v => sta_pending v = []) (servqs x);
}.

Record Pre (s : ap) : Prop := {
  inv_dom : forall p, is_Some (stas (core s) !! p) <-> is_Some (sps s !! p);
  inv_sta : forall p i x, stas (core s) !! p = Some i -> sps s !! p = Some x -> ps_ok s p i x;
  inv_len : zlen (sta_dz_bitmap s) = zlen (tim_bitmap s);
  inv_maps : 1 <= zlen (tim_bitmap s) <= 32;
  inv_max : 0 <= max_aid s < 8 * zlen (tim_bitmap s);
  inv_slots : zlen (sta_aid s) = max_aid s;
  inv_free : forall k, rd (sta_aid s) k = Some None -> bmp_bit (sta_dz_bitmap s) (k + 1) = false;
  inv_group : forall b i, rtw_get_bcmc_stainfo (core s) = Some b -> stas (core s) !! b = Some i ->
    flag (state i) WIFI_AP_STATE = true;
  inv_ap : MLME_IS_AP (core s) = true;
  inv_hw : hw_ap s = true;
}.

(** With the beacon. *)
Record Inv (s : ap) : Prop := { inv_pre :> Pre s; inv_bcn : bcn_ok s }.

Lemma inv_aid s a : Pre s -> 0 <= a <= max_aid s ->
  is_aid (tim_bitmap s) a /\ is_aid (sta_dz_bitmap s) a.
Proof. intros [? ? H1 H2 H3 ? ? ? ? ?] Ha. unfold is_aid. rewrite H1. split; split; dlia. Qed.

Lemma inv_get s p x : Pre s -> sps s !! p = Some x ->
  exists i, stas (core s) !! p = Some i /\ get_sta s p = Ret (i, x) /\ ps_ok s p i x.
Proof.
  intros HI Hx. destruct (proj2 (inv_dom s HI p)) as [i Hi]; [by rewrite Hx|].
  exists i. split; [done|]. split; [|by apply (inv_sta s HI)]. unfold get_sta. by rewrite Hi, Hx.
Qed.

(** Two stations have different ids. *)
Lemma aids_differ s p q i x j y : Pre s -> p <> q ->
  stas (core s) !! p = Some i -> sps s !! p = Some x ->
  stas (core s) !! q = Some j -> sps s !! q = Some y -> 0 < aid y -> aid y <> aid x.
Proof.
  intros HI Hne Hi Hx Hj Hy Ha E. pose proof (po_slot _ _ _ _ (inv_sta s HI q j y Hj Hy) Ha) as H1.
  pose proof (po_slot _ _ _ _ (inv_sta s HI p i x Hi Hx)) as H2. rewrite <- E in H2.
  rewrite H1 in H2. specialize (H2 Ha). congruence.
Qed.

(** What an operation on one station has to show. *)
Record upd_ok (s : ap) (p : Z) (i : sta_info) (x : sta_ps) (s' : ap) (i' : sta_info) : Prop := {
  uo_dir : rtw_get_bcmc_stainfo (core s') = rtw_get_bcmc_stainfo (core s);
  uo_group : flag (state i') WIFI_AP_STATE = flag (state i) WIFI_AP_STATE;
  uo_fw : fw_state (core s') = fw_state (core s);
  uo_hw : hw_ap s' = hw_ap s;
  uo_max : max_aid s' = max_aid s;
  uo_slots : zlen (sta_aid s') = zlen (sta_aid s);
  uo_other : forall q k, q <> p -> rd (sta_aid s) k = Some (Some q) -> rd (sta_aid s') k = Some (Some q);
  uo_free : forall k, rd (sta_aid s') k = Some None -> bmp_bit (sta_dz_bitmap s') (k + 1) = false;
  uo_dz : zlen (sta_dz_bitmap s') = zlen (sta_dz_bitmap s);
  uo_tim : zlen (tim_bitmap s') = zlen (tim_bitmap s);
  uo_bits : forall a, 0 < a -> a <> aid x ->
    bmp_bit (sta_dz_bitmap s') a = bmp_bit (sta_dz_bitmap s) a /\
    bmp_bit (tim_bitmap s') a = bmp_bit (tim_bitmap s) a;
}.

Lemma pre_upd s s' p i x i' x' : Pre s -> stas (core s) !! p = Some i -> sps s !! p = Some x ->
  stas (core s') = <[p := i']> (stas (core s)) -> sps s' = <[p := x']> (sps s) ->
  upd_ok s p i x s' i' -> ps_ok s' p i' x' -> Pre s'.
Proof.
  intros HI Hi Hx Hi' Hx' [] Hok. pose proof HI as []. constructor; try congruence.
  - intros q. rewrite Hi', Hx'. destruct (decide (q = p)) as [->|].
    + rewrite !lookup_insert_eq. split; eauto.
    + by rewrite !lookup_insert_ne.
  - intros q j y. rewrite Hi', Hx'. destruct (decide (q = p)) as [->|Hq].
    { rewrite !lookup_insert_eq. by intros [= <-] [= <-]. }
    rewrite !lookup_insert_ne by done. intros Hj Hy.
    pose proof (aids_differ s p q i x j y HI (not_eq_sym Hq) Hi Hx Hj Hy) as Hne.
    destruct (inv_sta0 q j y Hj Hy). constructor; try done; try congruence.
    + intros Ha. apply uo_other0; auto.
    + intros Ha. destruct (uo_bits0 (aid y)) as [-> _]; auto.
    + intros He. destruct (decide (sleep_q y = [])) as [E|E]; [rewrite E in He; by inversion He|].
      destruct (po_asleep0 E) as (_ & ? & _). destruct (uo_bits0 (aid y)) as [_ ->]; auto.
  - done.
  - intros b j. rewrite uo_dir0, Hi'. intros Hb'. destruct (decide (b = p)) as [->|].
    + rewrite lookup_insert_eq. intros [= <-]. rewrite uo_group0. eauto.
    + rewrite lookup_insert_ne by done. eauto.
  - unfold MLME_IS_AP, check_fwstate in *. by rewrite uo_fw0.
Qed.

(** The directory depends on the stations' addresses only. *)
Lemma search_ext ad ad' self a l : (forall q, phl_sta <$> stas ad' !! q = phl_sta <$> stas ad !! q) ->
  sta_search ad' self a l = sta_search ad self a l.
Proof.
  intros H. induction l as [|q l IH]; cbn; [done|]. specialize (H q).
  destruct (stas ad' !! q), (stas ad !! q); try done. cbn in H. injection H as ->. by rewrite IH.
Qed.
Lemma lookup_ext ad ad' a : phl_role ad' = phl_role ad -> sta_hash ad' = sta_hash ad ->
  (forall q, phl_sta <$> stas ad' !! q = phl_sta <$> stas ad !! q) ->
  rtw_get_stainfo ad' a = rtw_get_stainfo ad a.
Proof.
  intros Hr Hh H. unfold rtw_get_stainfo. rewrite Hr, Hh. destruct (phl_role ad); [|done].
  cbn [mbind option_bind]. destruct (IS_MCAST a).
  - destruct (phl_sta_self _); [|done]. destruct (rd _ _); [|done]. cbn. by apply search_ext.
  - destruct (rd _ _); [|done]. cbn. by apply search_ext.
Qed.
Lemma insert_phl (m : gmap Z sta_info) p i i' q : m !! p = Some i -> phl_sta i' = phl_sta i ->
  phl_sta <$> <[p := i']> m !! q = phl_sta <$> m !! q.
Proof.
  intros Hp Hi. destruct (decide (q = p)) as [->|].
  - rewrite lookup_insert_eq, Hp. cbn. by rewrite Hi.
  - by rewrite lookup_insert_ne.
Qed.

(** An operation that leaves the ids alone. *)
Record local (s : ap) (p : Z) (i : sta_info) (x : sta_ps) (s' : ap) (i' : sta_info) (x' : sta_ps)
    : Prop := {
  lo_phl : phl_sta i' = phl_sta i;
  lo_group : flag (state i') WIFI_AP_STATE = flag (state i) WIFI_AP_STATE;
  lo_role : phl_role (core s') = phl_role (core s);
  lo_hash : sta_hash (core s') = sta_hash (core s);
  lo_sta : stas (core s') = <[p := i']> (stas (core s));
  lo_ps : sps s' = <[p := x']> (sps s);
  lo_fw : fw_state (core s') = fw_state (core s);
  lo_hw : hw_ap s' = hw_ap s;
  lo_max : max_aid s' = max_aid s;
  lo_slots : sta_aid s' = sta_aid s;
  lo_dz : zlen (sta_dz_bitmap s') = zlen (sta_dz_bitmap s);
  lo_tim : zlen (tim_bitmap s') = zlen (tim_bitmap s);
  lo_bits : forall a, 0 < a -> a <> aid x ->
    bmp_bit (sta_dz_bitmap s') a = bmp_bit (sta_dz_bitmap s) a /\
    bmp_bit (tim_bitmap s') a = bmp_bit (tim_bitmap s) a;
}.

Lemma pre_local s s' p i x i' x' : Pre s -> stas (core s) !! p = Some i -> sps s !! p = Some x ->
  local s p i x s' i' x' -> ps_ok s' p i' x' -> Pre s'.
Proof.
  intros HI Hi Hx [] Hok. eapply (pre_upd s s' p i x i' x'); try done.
  constructor; try done; try congruence.
  { apply lookup_ext; [done..|]. intros q. rewrite lo_sta0. by apply insert_phl with i. }
  intros k. rewrite lo_slots0. intros Hk. pose proof (rd_inv _ _ _ Hk).
  destruct (decide (k + 1 = aid x)) as [E|E].
  - pose proof (po_slot _ _ _ _ (inv_sta s HI p i x Hi Hx)) as Hs. rewrite <- E in Hs.
    replace (k + 1 - 1) with k in Hs by lia. rewrite Hk in Hs. discriminate Hs. lia.
  - destruct (lo_bits0 (k + 1)) as [-> _]; [lia|done|]. by apply inv_free.
Qed.
Lemma inv_local s s' p i x i' x' : Inv s -> stas (core s) !! p = Some i -> sps s !! p = Some x ->
  local s p i x s' i' x' -> ps_ok s' p i' x' -> bcn_ok s' -> Inv s'.
Proof. intros [HP _] Hi Hx Hl Hok Hb. split; [by eapply (pre_local s s' p i x)|done]. Qed.

(** ** The frames that were handed over *)

Definition handed_of (e : tx_event) : option xmit_frame :=
  match e with Sent f | Freed f => Some f | _ => None end.
Definition handed (s : ap) : list xmit_frame := omap handed_of (txlog s).

(** The frames of a list with a priority. *)
Definition xids (pr : Z) (l : list xmit_frame) : list Z := xid <$> filter (fun f => xpriority f = pr) l.

Definition queue (s : ap) (p : Z) : list xmit_frame :=
  match sps s !! p with Some x => sleep_q x | None => [] end.
Definition unicast_for (p : Z) (f : xmit_frame) : Prop := xsta f = Some p /\ IS_MCAST (ra f) = false.
#[export] Instance unicast_for_dec p f : Decision (unicast_for p f).
Proof. unfold unicast_for. apply _. Defined.

(** What a station got, gets or was to get with a priority, in this order. *)
Definition flow (s : ap) (p pr : Z) : list Z :=
  xids pr (filter (unicast_for p) (handed s)) ++ xids pr (queue s p).

Lemma xids_app pr l1 l2 : xids pr (l1 ++ l2) = xids pr l1 ++ xids pr l2.
Proof. unfold xids. by rewrite filter_app, fmap_app. Qed.

(** The same frames, but for flags. *)
Definition same_frame (f g : xmit_frame) : Prop :=
  xid g = xid f /\ ra g = ra f /\ xsta g = xsta f /\ xpriority g = xpriority f.

Lemma xids_same pr l l' : Forall2 same_frame l l' -> xids pr l' = xids pr l.
Proof.
  induction 1 as [|f g l l' (Hx & Hr & Hs & Hp) _ IH]; [done|]. unfold xids in *.
  rewrite !filter_cons, Hp. case_decide; [|done]. by rewrite !fmap_cons, Hx, IH.
Qed.

(** Frames of [p] move from the queue to the log. *)
Lemma flow_moved s s' p x x' out : sps s !! p = Some x -> sps s' = <[p := x']> (sps s) ->
  handed s' = handed s ++ out -> Forall (unicast_for p) out ->
  (forall pr, xids pr out ++ xids pr (sleep_q x') = xids pr (sleep_q x)) ->
  forall q pr, flow s' q pr = flow s q pr.
Proof.
  intros Hx Hx' Hh Hout Hpr q pr. unfold flow, queue. rewrite Hx', Hh, filter_app, xids_app.
  destruct (decide (q = p)) as [->|Hq].
  - rewrite lookup_insert_eq, Hx, <- Hpr, (filter_all _ out) by done. by rewrite app_assoc.
  - rewrite lookup_insert_ne by done. rewrite (filter_none _ out), app_nil_r; [done|].
    eapply Forall_impl; [exact Hout|]. intros f [H _] [H2 _]. congruence.
Qed.

(** ** Sending and updating the beacon change nothing else *)

Record same_ps (s s' : ap) : Prop := {
  sp_core : core s' = core s;
  sp_sps : sps s' = sps s;
  sp_dz : sta_dz_bitmap s' = sta_dz_bitmap s;
  sp_tim : tim_bitmap s' = tim_bitmap s;
  sp_slots : sta_aid s' = sta_aid s;
  sp_max : max_aid s' = max_aid s;
  sp_hw : hw_ap s' = hw_ap s;
  sp_expire : ap_expire_to s' = ap_expire_to s;
}.
#[export] Instance same_ps_preorder : PreOrder same_ps.
Proof. split; [done|]. intros ? ? ? [] []. constructor; congruence. Qed.
#[export] Instance same_bcn_preorder : PreOrder same_bcn.
Proof. split; [done|]. intros ? ? ? (?&?&?) (?&?&?). repeat split; congruence. Qed.

Lemma send_same s f : same_ps s (rtw_intf_xmitframe_enqueue s f) /\
  same_bcn s (rtw_intf_xmitframe_enqueue s f) /\
  handed (rtw_intf_xmitframe_enqueue s f) = handed s ++ [f].
Proof.
  unfold rtw_intf_xmitframe_enqueue, handed. destruct (phl_ok s) as [|[] ?]; split_all;
    cbn; by rewrite omap_app.
Qed.

Lemma update_beacon_same s t : same_ps s (_update_beacon s t) /\ handed (_update_beacon s t) = handed s.
Proof.
  unfold _update_beacon, handed. destruct (negb (bstart_bss s)); [done|].
  destruct (match bcn_mem s with [] => _ | _ => _ end) as [m l]. destruct t; split_all.
  cbn. by rewrite omap_app, app_nil_r.
Qed.

Definition send_all (s : ap) (l : list xmit_frame) : ap := foldl rtw_intf_xmitframe_enqueue s l.

Lemma send_all_same l s : same_ps s (send_all s l) /\ same_bcn s (send_all s l) /\
  handed (send_all s l) = handed s ++ l.
Proof.
  revert s. induction l as [|f l IH]; intros s; cbn; [by rewrite app_nil_r|].
  destruct (IH (rtw_intf_xmitframe_enqueue s f)) as (H1 & H2 & H3).
  destruct (send_same s f) as (H4 & H5 & H6). split; [by etrans|]. split; [by etrans|].
  unfold send_all in H3. rewrite H3, H6. by rewrite <- app_assoc.
Qed.

(** ** A frame is kept *)

(** A queue holds structures of the pool, each once. *)
Lemma queue_short s p i x : ps_ok s p i x -> zlen (sleep_q x) <= NR_XMITFRAME.
Proof.
  intros H. pose proof (po_pool _ _ _ _ H) as Hnd. pose proof (po_frames _ _ _ _ H) as Hf.
  assert (Hsub : (xid <$> sleep_q x) ⊆+ seqZ 0 NR_XMITFRAME).
  { apply NoDup_submseteq; [done|]. intros k (f & -> & Hin)%list_elem_of_fmap.
    rewrite Forall_forall in Hf. destruct (Hf f Hin) as (_ & _ & ?). apply elem_of_seqZ. lia. }
  apply submseteq_length in Hsub. rewrite length_fmap, length_seqZ in Hsub. unfold zlen.
  change (Z.to_nat NR_XMITFRAME) with (Z.to_nat 1256) in Hsub. unfold NR_XMITFRAME. lia.
Qed.

(** The group's station has no queue. *)
Lemma queue_peer s p i x : ps_ok s p i x -> sleep_q x <> [] -> flag (state i) WIFI_AP_STATE = false.
Proof.
  intros Hok Hq. destruct (flag (state i) WIFI_AP_STATE) eqn:E; [|done]. by destruct (Hq (po_group _ _ _ _ Hok E)).
Qed.

(** The part of a frame that arrives in the flow of a station. *)
Definition arrives (q pr : Z) (f : xmit_frame) : list Z := xids pr (filter (unicast_for q) [f]).

Lemma flow_queued s s' p x x' f : sps s !! p = Some x -> sps s' = <[p := x']> (sps s) ->
  handed s' = handed s -> unicast_for p f -> sleep_q x' = sleep_q x ++ [f] ->
  forall q pr, flow s' q pr = flow s q pr ++ arrives q pr f.
Proof.
  intros Hx Hx' Hh Hf Hq q pr. unfold flow, queue, arrives. rewrite Hx', Hh, <- app_assoc. f_equal.
  destruct (decide (q = p)) as [->|Hne].
  - rewrite lookup_insert_eq, Hx, Hq, xids_app. f_equal. by rewrite filter_cons_True.
  - rewrite lookup_insert_ne by done. rewrite filter_cons_False, app_nil_r; [done|].
    intros [H _]. destruct Hf as [H2 _]. congruence.
Qed.

Lemma flow_sent s s' f : sps s' = sps s -> handed s' = handed s ++ [f] ->
  (forall p, unicast_for p f -> queue s p = []) ->
  forall q pr, flow s' q pr = flow s q pr ++ arrives q pr f.
Proof.
  intros Hx Hh Hq q pr. unfold flow, arrives, queue in *. rewrite Hx, Hh, filter_app, xids_app.
  destruct (decide (unicast_for q f)) as [Hf|Hf].
  - rewrite (Hq q Hf). by rewrite !app_nil_r.
  - rewrite (filter_none _ [f]) by by constructor. by rewrite !app_nil_r.
Qed.

(** The station after a frame was put into its queue. *)
Lemma buffer_ps_ok s p i x f i' x' s' : Inv s -> ps_ok s p i x -> sleeps i = true ->
  flag (state i) WIFI_ASOC_STATE = true -> flag (state i) WIFI_AP_STATE = false ->
  frame_for p f -> xid f ∉ xid <$> sleep_q x ->
  x' = set_sleepq (sleep_q x ++ [f]) (u32 (sleepq_len x + 1)) x ->
  i' = (if wmmps_ac0 i (xpriority f) then set_sleepq_ac_len (u32 (sleepq_ac_len i + 1)) i else i) ->
  sta_dz_bitmap s' = sta_dz_bitmap s -> sta_aid s' = sta_aid s -> max_aid s' = max_aid s ->
  (bmp_bit (tim_bitmap s) (aid x) = true -> bmp_bit (tim_bitmap s') (aid x) = true) ->
  (announced i x f = true -> bmp_bit (tim_bitmap s') (aid x) = true) ->
  ps_ok s' p i' x'.
Proof.
  intros HI Hok Hs Ha Hg Hf Hnew -> -> Hdz Hsl Hmax Ht1 Ht2. pose proof (queue_short _ _ _ _ Hok) as Hlen.
  unfold NR_XMITFRAME in Hlen. destruct Hok.
  set (i' := if wmmps_ac0 i (xpriority f) then _ else _).
  assert (Hi' : state i' = state i /\ phl_sta i' = phl_sta i /\ (forall pr, uapsd_of i' pr = uapsd_of i pr) /\
                (wmmps_ac0 i (xpriority f) = true -> sleepq_ac_len i' = u32 (sleepq_ac_len i + 1)))
    by (unfold i'; by destruct (wmmps_ac0 i (xpriority f))).
  destruct Hi' as (Hst & Hph & Hu & Hcnt). clearbody i'.
  assert (Han : forall g y, has_legacy_ac y = has_legacy_ac x -> announced i' y g = announced i x g)
    by (intros g y Hy; unfold announced, wmmps_ac0; by rewrite Hu, Hy).
  constructor; cbn [aid has_legacy_ac max_sp_len expire_to sleep_q sleepq_len servqs set_sleepq];
    unfold sleeps in *; rewrite ?Hst, ?Hph, ?Hdz, ?Hsl, ?Hmax; try done.
  - rewrite po_len0, zlen_app, u32_id; [done|]. pose proof (zlen_nonneg (sleep_q x)).
    unfold is_u32. lia.
  - rewrite fmap_app. apply NoDup_app. split_all; [|apply NoDup_singleton].
    intros k Hk ->%list_elem_of_singleton. done.
  - apply Forall_app. split; [done|]. by constructor.
  - intros _. destruct (po_asoc0 Ha); [done|congruence].
  - congruence.
  - rewrite Exists_app, Exists_cons, Exists_nil, Han by done. intros [H|[H|[]]]; [|auto].
    apply Ht1, po_tim0. eapply Exists_impl; [exact H|]. intros g. cbv beta. by rewrite Han by done.
  - intros pr. rewrite Hu. apply po_uapsd0.
  - intros _ _ Hl. destruct (po_all0 Ha Hg Hl) as [Hall Hac]. split; [intros pr; by rewrite Hu|].
    assert (wmmps_ac0 i (xpriority f) = true) as Hw by (unfold wmmps_ac0; by rewrite Hall).
    rewrite (Hcnt Hw), Hac, zlen_app, u32_id; [done|].
    pose proof (zlen_nonneg (sleep_q x)). unfold is_u32. lia.
Qed.

(** ** Operations in terms of [put_sta] and the maps *)

Lemma local_same s p i x s1 s2 i' x' : local s p i x s1 i' x' -> same_ps s1 s2 -> local s p i x s2 i' x'.
Proof.
  intros [] []. constructor; try congruence. intros a Ha Hne.
  destruct (lo_bits0 a Ha Hne). split; congruence.
Qed.
Lemma ps_ok_env s1 s2 p i x : ps_ok s1 p i x -> sta_dz_bitmap s2 = sta_dz_bitmap s1 ->
  tim_bitmap s2 = tim_bitmap s1 -> sta_aid s2 = sta_aid s1 -> max_aid s2 = max_aid s1 -> ps_ok s2 p i x.
Proof.
  intros [] Hd Ht Hs Hm. constructor; try done; rewrite ?Hm; try done.
  all: intros; rewrite ?Hs, ?Hd, ?Ht; auto.
Qed.
Lemma ps_ok_same s1 s2 p i x : ps_ok s1 p i x -> same_ps s1 s2 -> ps_ok s2 p i x.
Proof. intros Hok []. by apply (ps_ok_env s1). Qed.

Lemma local_put s p i x dz tim : zlen dz = zlen (sta_dz_bitmap s) -> zlen tim = zlen (tim_bitmap s) ->
  (forall a, 0 < a -> a <> aid x ->
    bmp_bit dz a = bmp_bit (sta_dz_bitmap s) a /\ bmp_bit tim a = bmp_bit (tim_bitmap s) a) ->
  forall x' i', phl_sta i' = phl_sta i -> flag (state i') WIFI_AP_STATE = flag (state i) WIFI_AP_STATE ->
    local s p i x (set_maps dz tim (put_sta p i' x' s)) i' x'.
Proof. intros. by constructor. Qed.

(** Setting or clearing the bit of the station itself. *)
Lemma other_bits_set map a b : is_aid map a -> 0 < b -> b <> a ->
  bmp_bit (rtw_tim_map_set map a) b = bmp_bit map b.
Proof. intros. rewrite map_set_bit by (done || lia). by destruct (Z.eqb_spec b a). Qed.
Lemma other_bits_clear map a b : is_aid map a -> 0 < b -> b <> a ->
  bmp_bit (rtw_tim_map_clear map a) b = bmp_bit map b.
Proof. intros. rewrite map_clear_bit by (done || lia). by destruct (Z.eqb_spec b a). Qed.

(** Setting a bit that is set, clearing one that is clear. *)
Lemma set_again map a : is_aid map a -> bmp_bit map a = true -> same_bits map (rtw_tim_map_set map a).
Proof.
  intros Ha Hb. split; [apply zlen_map_set|]. intros b Hb0. rewrite map_set_bit by done.
  by destruct (Z.eqb_spec b a) as [->|].
Qed.
Lemma clear_again map a : is_aid map a -> bmp_bit map a = false -> same_bits map (rtw_tim_map_clear map a).
Proof.
  intros Ha Hb. split; [apply zlen_map_clear|]. intros b Hb0. rewrite map_clear_bit by done.
  by destruct (Z.eqb_spec b a) as [->|].
Qed.

Lemma buffer_keeps s p i x f : Inv s -> stas (core s) !! p = Some i -> sps s !! p = Some x ->
  sleeps i = true -> flag (state i) WIFI_ASOC_STATE = true -> flag (state i) WIFI_AP_STATE = false ->
  frame_for p f -> xid f ∉ xid <$> sleep_q x ->
  Inv (buffer_frame s p i x f) /\
  forall q pr, flow (buffer_frame s p i x f) q pr = flow s q pr ++ arrives q pr f.
Proof.
  intros HI Hi Hx Hs Ha Hg Hf Hnew. pose proof (inv_sta s HI p i x Hi Hx) as Hok.
  destruct (inv_aid s (aid x) HI (po_aid _ _ _ _ Hok)) as [Haid _]. unfold buffer_frame.
  set (x' := set_sleepq _ _ x). set (i' := if wmmps_ac0 i (xpriority f) then _ else _).
  assert (Han : announced i' x' f = announced i x f) by (unfold i'; by destruct (wmmps_ac0 i (xpriority f))).
  set (s1 := put_sta p i' x' s). set (s2 := set_tim (rtw_tim_map_set (tim_bitmap s1) (aid x')) s1).
  assert (Hi' : phl_sta i' = phl_sta i /\ state i' = state i)
    by (unfold i'; by destruct (wmmps_ac0 i (xpriority f))). destruct Hi' as [Hph Hst].
  assert (Hloc : local s p i x s2 i' x').
  { apply (local_put s p i x); [done|apply zlen_map_set| |done|by rewrite Hst].
    intros. split; [done|by apply other_bits_set]. }
  assert (Hok2 : ps_ok s2 p i' x').
  { apply (buffer_ps_ok s p i x f); try done; intros; cbn; rewrite map_set_bit by (done || apply Hok);
      by rewrite Z.eqb_refl. }
  assert (Hstale : bcn_stale s2).
  { apply (bcn_stale_same s s2); [done|apply zlen_map_set|by apply bcn_ok_stale, inv_bcn]. }
  assert (Htim2 : 1 <= zlen (tim_bitmap s2) <= 251)
    by (cbn; rewrite zlen_map_set; pose proof (inv_maps s HI); lia).
  pose proof Hf as (Hf1 & Hf2 & _). rewrite Han. destruct (announced i x f) eqn:Ean.
  - rewrite map_is_set by done. destruct (bmp_bit (tim_bitmap s1) (aid x')) eqn:Eb; cbn [negb].
    + split; [|by apply (flow_queued s s2 p x x')].
      eapply (inv_local s s2 p i x i' x'); try done.
      apply (bcn_ok_same s s2); [done|by apply set_again|by apply inv_bcn].
    + destruct (update_beacon_same s2 true) as [Hsame Hh]. split.
      * eapply (inv_local s _ p i x i' x'); [done..|by eapply local_same|by eapply ps_ok_same|].
        by apply update_beacon_ok.
      * eapply (flow_queued s _ p x x'); try done. by rewrite (sp_sps _ _ Hsame).
  - split; [|by apply (flow_queued s s1 p x x')].
    eapply (inv_local s s1 p i x i' x'); try done.
    + constructor; try done. by rewrite Hst.
    + apply (buffer_ps_ok s p i x f); done || by rewrite Ean.
    + apply (bcn_ok_same s s1); [done|done|apply HI].
Qed.

(** ** Sending a frame *)

Lemma fw_ap s s' : fw_state (core s') = fw_state (core s) -> MLME_IS_AP (core s') = MLME_IS_AP (core s).
Proof. intros H. unfold MLME_IS_AP, check_fwstate. by rewrite H. Qed.

Lemma pre_same s s' : Pre s -> same_ps s s' -> Pre s'.
Proof.
  intros [] H. pose proof H as []. constructor; try done; try congruence.
  - intros p. by rewrite sp_core0, sp_sps0.
  - intros p i x. rewrite sp_core0, sp_sps0. intros Hi Hx. eapply ps_ok_same; eauto.
  - rewrite sp_slots0, sp_dz0. done.
  - by rewrite sp_core0.
Qed.
Lemma inv_same s s' : Inv s -> same_ps s s' -> bcn_ok s' -> Inv s'.
Proof. intros [HP _] Hs Hb. split; [by eapply pre_same|done]. Qed.

Lemma bcn_ok_sent s s' : same_ps s s' -> same_bcn s s' -> bcn_ok s -> bcn_ok s'.
Proof. intros [] H. apply bcn_ok_same; [done|]. by rewrite sp_tim0. Qed.

(** A frame as the transmit path makes it: a structure that is in no queue, for the
    station that has the address. *)
Record fresh (s : ap) (f : xmit_frame) : Prop := {
  fr_sta : xsta f = rtw_get_stainfo (core s) (ra f);
  fr_triggered : triggered f = false;
  fr_pool : 0 <= xid f < NR_XMITFRAME;
  fr_new : forall p, xid f ∉ xid <$> queue s p;
  fr_peer : forall p i, unicast_for p f -> stas (core s) !! p = Some i -> flag (state i) WIFI_AP_STATE = false;
}.

(** A station the interface keeps frames for is asleep; others have none. *)
Lemma awake_empty s p i x : Inv s -> ps_ok s p i x ->
  (flag (state i) WIFI_ASOC_STATE && sleeps i && rtw_tim_map_is_set (sta_dz_bitmap s) (aid x)) = false ->
  sleep_q x = [].
Proof.
  intros HI Hok Hb. destruct (decide (sleep_q x = [])) as [|Hq]; [done|].
  destruct (po_asleep _ _ _ _ Hok Hq) as (Hs & Hpos & Ha).
  destruct (inv_aid s (aid x) HI (po_aid _ _ _ _ Hok)) as [_ Haid].
  rewrite Ha, Hs, map_is_set, (po_dz _ _ _ _ Hok Hpos), Hs in Hb by done. done.
Qed.

Lemma direct_keeps s f : Inv s -> (forall p, unicast_for p f -> queue s p = []) ->
  Inv (rtw_intf_xmitframe_enqueue s f) /\
  forall q pr, flow (rtw_intf_xmitframe_enqueue s f) q pr = flow s q pr ++ arrives q pr f.
Proof.
  intros HI Hq. destruct (send_same s f) as (Hsame & Hb & Hh). split.
  - eapply inv_same; [done..|]. eapply bcn_ok_sent; [done..|]. apply HI.
  - apply flow_sent; [apply Hsame|done|done].
Qed.

Lemma tx_keeps s f : Inv s -> fresh s f ->
  ends (core_tx_per_packet s f) (fun s' =>
    Inv s' /\ forall q pr, flow s' q pr = flow s q pr ++ arrives q pr f).
Proof.
  intros HI [Hsta Htr Hpool Hnew Hpeer]. unfold core_tx_per_packet, xmitframe_enqueue_for_sleeping_sta.
  rewrite (inv_ap s HI). cbn [negb]. destruct (rtw_get_stainfo (core s) (ra f)) as [p|] eqn:El.
  2:{ cbn. apply direct_keeps; [done|]. intros p [H _]. congruence. }
  rewrite bool_decide_false by (rewrite Hsta; by intros []).
  destruct (get_stainfo_some _ _ _ El) as (i & _ & Hi & _).
  destruct (proj1 (inv_dom s HI p)) as [x Hx]; [by rewrite Hi|].
  unfold get_sta. rewrite Hi, Hx. cbn [mbind res_bind]. pose proof (inv_sta s HI p i x Hi Hx) as Hok.
  assert (Hdir : sleep_q x = [] \/ IS_MCAST (ra f) = true -> Inv (rtw_intf_xmitframe_enqueue s f) /\
    forall q pr, flow (rtw_intf_xmitframe_enqueue s f) q pr = flow s q pr ++ arrives q pr f).
  { intros Hor. apply direct_keeps; [done|]. intros q [H1 H2]. unfold queue.
    assert (q = p) as -> by congruence. rewrite Hx. destruct Hor; [done|congruence]. }
  pose proof (awake_empty s p i x HI Hok) as Hempty.
  destruct (flag (state i) WIFI_ASOC_STATE) eqn:Ea; cbn [negb]; [|apply Hdir; auto].
  rewrite Htr. destruct (IS_MCAST (ra f)) eqn:Em; [apply Hdir; auto|].
  destruct (sleeps i) eqn:Es; cbn [andb] in *; [|apply Hdir; auto].
  destruct (rtw_tim_map_is_set (sta_dz_bitmap s) (aid x)); [|apply Hdir; auto].
  cbn. apply buffer_keeps; try done; [by apply (Hpeer p)|]. specialize (Hnew p). unfold queue in Hnew. by rewrite Hx in Hnew.
Qed.

(** ** State bits *)

Lemma state_bit w k : 0 <= k -> flag w (BIT k) = Z.testbit w k.
Proof. apply land_bit. Qed.
Lemma asoc_bit w : flag w WIFI_ASOC_STATE = Z.testbit w 0.
Proof. by apply (state_bit w 0). Qed.
Lemma sleep_bit w : flag w WIFI_SLEEP_STATE = Z.testbit w 2.
Proof. by apply (state_bit w 2). Qed.
Lemma group_bit w : flag w WIFI_AP_STATE = Z.testbit w 4.
Proof. by apply (state_bit w 4). Qed.
Lemma alive_bit w : flag w WIFI_STA_ALIVE_CHK_STATE = Z.testbit w 10.
Proof. by apply (state_bit w 10). Qed.

(** The sleep and the association bit after an operation on the state. *)
Ltac state_bits := unfold sleeps; cbn [state set_state]; rewrite ?asoc_bit, ?sleep_bit, ?group_bit;
  rewrite ?Z.lor_spec, ?Z.lxor_spec, ?Z.land_spec, ?Z.lnot_spec by lia;
  repeat match goal with |- context [Z.testbit ?c ?k] =>
    let v := eval vm_compute in (Z.testbit c k) in
    lazymatch v with true => idtac | false => idtac end; change (Z.testbit c k) with v end;
  rewrite ?orb_true_r, ?orb_false_r, ?xorb_false_r, ?xorb_true_r, ?andb_true_r, ?andb_false_r.

Lemma to_sleep_bits i : let i' := set_state (Z.lor (state i) WIFI_SLEEP_STATE) i in
  sleeps i' = true /\ flag (state i') WIFI_ASOC_STATE = flag (state i) WIFI_ASOC_STATE /\
  flag (state i') WIFI_AP_STATE = flag (state i) WIFI_AP_STATE.
Proof. split_and!; by state_bits. Qed.

(** ** Going to sleep *)

Lemma get_sta_inv s p i x : get_sta s p = Ret (i, x) -> stas (core s) !! p = Some i /\ sps s !! p = Some x.
Proof.
  unfold get_sta. destruct (stas (core s) !! p), (sps s !! p); intros H; try discriminate H.
  by injection H as [= -> ->].
Qed.
Lemma get_put s p i x : get_sta (put_sta p i x s) p = Ret (i, x).
Proof. unfold get_sta. cbn. by rewrite !lookup_insert_eq. Qed.
Lemma put_sta_same s p i x : get_sta s p = Ret (i, x) -> put_sta p i x s = s.
Proof.
  intros [Hi Hx]%get_sta_inv. unfold put_sta. rewrite !insert_id by done. by destruct s as [[]].
Qed.

Lemma dequeue_empty s p n i x : get_sta s p = Ret (i, x) -> (n < length (servqs x))%nat ->
  Forall (fun v => sta_pending v = []) (servqs x) ->
  dequeue_xmitframes_to_sleeping_queue s p n = Ret s.
Proof.
  intros Hg Hn Hv. unfold dequeue_xmitframes_to_sleeping_queue. rewrite Hg. cbn [mbind res_bind].
  destruct (lookup_lt_is_Some_2 _ _ Hn) as [v Ev]. rewrite Ev.
  rewrite Forall_lookup in Hv. pose proof (Hv n v Ev) as Hp. rewrite Hp. cbn [dequeue_loop mbind res_bind].
  rewrite Hg. cbn [mbind res_bind]. f_equal.
  replace (set_servqs _ x) with x; [by apply put_sta_same|].
  assert (alter (fun v => mk_servq [] (qcnt v)) n (servqs x) = servqs x) as ->.
  { apply list_eq. intros k. rewrite list_lookup_alter. case_decide as E; [|done]. subst k.
    rewrite Ev. cbn. rewrite <- Hp. by destruct v. }
  by destruct x.
Qed.

Lemma stop_eq s p i x : get_sta s p = Ret (i, x) -> length (servqs x) = 4%nat ->
  Forall (fun v => sta_pending v = []) (servqs x) ->
  stop_sta_xmit s p = Ret (set_dz (rtw_tim_map_set (sta_dz_bitmap s) (aid x))
                            (put_sta p (set_state (Z.lor (state i) WIFI_SLEEP_STATE) i) x s)).
Proof.
  intros Hg Hn Hv. unfold stop_sta_xmit. rewrite Hg. cbn [mbind res_bind].
  set (s' := set_dz _ _). assert (Hg' : get_sta s' p = Ret (set_state (Z.lor (state i) WIFI_SLEEP_STATE) i, x))
    by apply get_put.
  assert (Hd : forall n, (n < 4)%nat -> dequeue_xmitframes_to_sleeping_queue s' p n = Ret s')
    by (intros; eapply dequeue_empty; [exact Hg'|lia|done]).
  rewrite (Hd 0%nat) by lia. cbn [mbind res_bind]. rewrite (Hd 1%nat) by lia. cbn [mbind res_bind].
  rewrite (Hd 2%nat) by lia. cbn [mbind res_bind]. apply Hd. lia.
Qed.

(** An operation keeps the invariant and the flow of every station. *)
Definition keeps (s s' : ap) : Prop := Inv s' /\ forall q pr, flow s' q pr = flow s q pr.

(** The queue and the log are as before. *)
Lemma flow_same s s' p x x' : sps s !! p = Some x -> sps s' = <[p := x']> (sps s) ->
  handed s' = handed s -> sleep_q x' = sleep_q x -> forall q pr, flow s' q pr = flow s q pr.
Proof.
  intros Hx Hx' Hh Hq. apply (flow_moved s s' p x x' []); try done; [by rewrite app_nil_r|].
  intros pr. by rewrite Hq.
Qed.

Lemma stop_keeps s p x : Inv s -> sps s !! p = Some x -> ends (stop_sta_xmit s p) (keeps s).
Proof.
  intros HI Hx. destruct (inv_get s p x HI Hx) as (i & Hi & Hg & Hok).
  destruct (po_servqs _ _ _ _ Hok) as [H4 Hv]. rewrite (stop_eq s p i x Hg H4 Hv). cbn [ends].
  destruct (inv_aid s (aid x) HI (po_aid _ _ _ _ Hok)) as [_ Haid].
  destruct (to_sleep_bits i) as (Hs & Ha & Hg'). set (i' := set_state _ i) in *. set (s' := set_dz _ _).
  split; [|by apply (flow_same s s' p x x)]. apply (inv_local s s' p i x i' x); try done.
  - apply (local_put s p i x); [apply zlen_map_set|done| |done|done].
    intros. split; [by apply other_bits_set|done].
  - destruct Hok. constructor; try done; rewrite ?Ha, ?Hs, ?Hg'; try done.
    + intros _. cbn. rewrite map_set_bit by (done || lia). by rewrite Z.eqb_refl.
    + intros Hq. split; [done|]. by apply po_asleep0.
  - apply (bcn_ok_same s s'); [done|done|apply HI].
Qed.

(** ** Waking up

    [wake_out] is what a queue gives, [wm] the frames of delivery-enabled categories,
    [n] the counter of such frames. *)
Fixpoint wake_out (wm : xmit_frame -> bool) (n : Z) (q : list xmit_frame) : list xmit_frame :=
  match q with
  | [] => []
  | f :: q =>
      let n := if wm f then u32 (n - 1) else n in
      let g := more_flag (zlen q) f in
      set_triggered true (if wm f then eosp_flags n g else g) :: wake_out wm n q
  end.
Fixpoint ac_after (wm : xmit_frame -> bool) (n : Z) (q : list xmit_frame) : Z :=
  match q with [] => n | f :: q => ac_after wm (if wm f then u32 (n - 1) else n) q end.

(** The delivery-enabled frames of a station. *)
Definition enabled (i : sta_info) (f : xmit_frame) : bool := wmmps_ac1 i (xpriority f).

Lemma wakeup_loop_eq q : forall s i x, sleep_q x = q -> sleepq_len x = zlen q -> zlen q < 4294967296 ->
  wakeup_loop s i x q =
    (send_all s (wake_out (enabled i) (sleepq_ac_len i) q),
     set_sleepq_ac_len (ac_after (enabled i) (sleepq_ac_len i) q) i, set_sleepq [] 0 x).
Proof.
  induction q as [|f q IH]; intros s i x Hq Hl Hs; cbn [wakeup_loop].
  - rewrite zlen_nil in Hl. cbn. f_equal; [by destruct i|]. destruct x. unfold set_sleepq. cbn in *. by subst.
  - rewrite zlen_cons in Hl, Hs. pose proof (zlen_nonneg q).
    assert (Hn : u32 (sleepq_len x - 1) = zlen q) by (rewrite u32_id; unfold is_u32; lia).
    rewrite IH; [|done|done|lia]. cbn [sleepq_len set_sleepq]. rewrite Hn.
    cbn [wake_out ac_after send_all foldl]. change (wmmps_ac1 i (xpriority f)) with (enabled i f).
    by destruct (enabled i f).
Qed.

Lemma more_same n f : same_frame f (more_flag n f).
Proof. done. Qed.
Lemma eosp_same n f : same_frame f (eosp_flags n f).
Proof. unfold eosp_flags. by case_match. Qed.

Lemma wake_out_same wm q : forall n, Forall2 same_frame q (wake_out wm n q).
Proof.
  induction q as [|f q IH]; intros n; cbn; [constructor|]. constructor; [|apply IH].
  destruct (wm f); [|done]. unfold eosp_flags. by case_match.
Qed.

Lemma same_unicast p l l' : Forall2 same_frame l l' -> Forall (frame_for p) l -> Forall (unicast_for p) l'.
Proof.
  induction 1 as [|f g l l' (Hx & Hr & Hs & Hp) _ IH]; intros Hl; [constructor|].
  inversion Hl as [|? ? (H1 & H2 & _) ?]. subst. constructor; [|auto]. split; congruence.
Qed.

Lemma ac_after_all wm q : Forall (fun f => wm f = true) q -> zlen q < 4294967296 ->
  ac_after wm (zlen q) q = 0.
Proof.
  induction 1 as [|f q Hf _ IH]; [done|]. rewrite zlen_cons. pose proof (zlen_nonneg q). intros Hl. cbn.
  rewrite Hf, u32_id by (unfold is_u32; lia). replace (1 + zlen q - 1) with (zlen q) by lia. apply IH. lia.
Qed.

Lemma enabled_all i : all_uapsd i -> forall f, enabled i f = true.
Proof.
  intros H f. specialize (H (xpriority f)). unfold enabled, wmmps_ac1, wmmps_ac, uapsd_of in *.
  repeat case_match; by rewrite H.
Qed.

(** The station after the alive check has ended. *)
Lemma alive_facts s i x i' x' : leave_alive_check s i x = (i', x') ->
  (phl_sta i' = phl_sta i /\ sleeps i' = sleeps i /\
   flag (state i') WIFI_ASOC_STATE = flag (state i) WIFI_ASOC_STATE /\
   flag (state i') WIFI_AP_STATE = flag (state i) WIFI_AP_STATE /\
   sleepq_ac_len i' = sleepq_ac_len i /\ (forall pr, uapsd_of i' pr = uapsd_of i pr)) /\
  aid x' = aid x /\ sleep_q x' = sleep_q x /\ sleepq_len x' = sleepq_len x /\
  has_legacy_ac x' = has_legacy_ac x /\ servqs x' = servqs x.
Proof.
  unfold leave_alive_check. destruct (flag (state i) WIFI_STA_ALIVE_CHK_STATE); intros [= <- <-]; [|done].
  split_and!; try done; by state_bits.
Qed.

Lemma wake_bits i : sleeps i = true -> let i' := set_state (Z.lxor (state i) WIFI_SLEEP_STATE) i in
  sleeps i' = false /\ flag (state i') WIFI_ASOC_STATE = flag (state i) WIFI_ASOC_STATE /\
  flag (state i') WIFI_AP_STATE = flag (state i) WIFI_AP_STATE.
Proof. unfold sleeps at 1. rewrite sleep_bit. intros H. split_and!; state_bits; by rewrite ?H. Qed.

(** A station of which the sleep bit may or may not be set. *)
Lemma clear_sleep i : let i' := if sleeps i then set_state (Z.lxor (state i) WIFI_SLEEP_STATE) i else i in
  sleeps i' = false /\ flag (state i') WIFI_ASOC_STATE = flag (state i) WIFI_ASOC_STATE /\
  flag (state i') WIFI_AP_STATE = flag (state i) WIFI_AP_STATE /\ phl_sta i' = phl_sta i /\
  sleepq_ac_len i' = sleepq_ac_len i /\ (forall pr, uapsd_of i' pr = uapsd_of i pr).
Proof. destruct (sleeps i) eqn:E; [|done]. destruct (wake_bits i E) as (? & ? & ?). by split_and!. Qed.

(** The station that has got its queue. *)
Lemma awake_ps_ok s s' p i x i' x' n : ps_ok s p i x -> is_aid (sta_dz_bitmap s) (aid x) ->
  (flag (state i) WIFI_ASOC_STATE = true -> flag (state i) WIFI_AP_STATE = false -> has_legacy_ac x = false -> n = 0) ->
  sta_dz_bitmap s' = rtw_tim_map_clear (sta_dz_bitmap s) (aid x) ->
  sta_aid s' = sta_aid s -> max_aid s' = max_aid s ->
  phl_sta i' = phl_sta i -> sleeps i' = false ->
  flag (state i') WIFI_ASOC_STATE = flag (state i) WIFI_ASOC_STATE ->
  flag (state i') WIFI_AP_STATE = flag (state i) WIFI_AP_STATE ->
  sleepq_ac_len i' = n -> (forall pr, uapsd_of i' pr = uapsd_of i pr) ->
  aid x' = aid x -> sleep_q x' = [] -> sleepq_len x' = 0 -> has_legacy_ac x' = has_legacy_ac x ->
  servqs x' = servqs x -> ps_ok s' p i' x'.
Proof.
  intros [] Haid Hn Hdz Hsl Hmax Hph Hs Ha Hg Hac Hu Hx1 Hx2 Hx3 Hx4 Hx5.
  constructor; rewrite ?Hph, ?Hx1, ?Hx2, ?Hx3, ?Hx4, ?Hx5, ?Hsl, ?Hmax, ?Ha, ?Hg, ?Hs, ?Hdz; try done.
  - intros Hpos. rewrite map_clear_bit by (done || lia). by rewrite Z.eqb_refl.
  - constructor.
  - intros He. by inversion He.
  - intros pr. by rewrite Hu.
  - intros H1 H2 H3. destruct (po_all0 H1 H2 H3) as [Hall _].
    split; [intros pr; by rewrite Hu|]. by rewrite Hac, Hn.
Qed.

Lemma awake_ok s p i x n s2 was : Pre s -> stas (core s) !! p = Some i -> sps s !! p = Some x ->
  (flag (state i) WIFI_ASOC_STATE = true -> flag (state i) WIFI_AP_STATE = false -> has_legacy_ac x = false -> n = 0) ->
  awake s p (set_sleepq_ac_len n i) (set_sleepq [] 0 x) = (s2, was) ->
  Pre s2 /\ same_bcn s s2 /\ zlen (tim_bitmap s2) = zlen (tim_bitmap s) /\
  (was = false -> same_bits (tim_bitmap s) (tim_bitmap s2)) /\
  (exists x2, sps s2 = <[p := x2]> (sps s) /\ sleep_q x2 = []) /\ handed s2 = handed s.
Proof.
  intros HP Hi Hx Hn. unfold awake. cbn [aid set_sleepq].
  pose proof (inv_sta s HP p i x Hi Hx) as Hok.
  destruct (inv_aid s (aid x) HP (po_aid _ _ _ _ Hok)) as [Ht Hd].
  set (i1 := if sleeps (set_sleepq_ac_len n i) then _ else _).
  destruct (clear_sleep (set_sleepq_ac_len n i)) as (F1 & F2 & F3 & F4 & F5 & F6).
  fold i1 in F1, F2, F3, F4, F5, F6.
  cbn [state phl_sta sleepq_ac_len set_sleepq_ac_len] in F2, F3, F4, F5.
  destruct (leave_alive_check (set_tim _ s) i1 _) as [i2 x2] eqn:Ea.
  destruct (alive_facts _ _ _ _ _ Ea) as ((G1 & G2 & G3 & G4 & G5 & G6) & X1 & X2 & X3 & X4 & X5).
  cbn [aid sleep_q sleepq_len has_legacy_ac servqs set_sleepq] in X1, X2, X3, X4, X5.
  rewrite X1. intros [= <- <-].
  match goal with |- Pre ?t /\ _ => set (s2 := t) end.
  split; [|split; [done|split; [apply zlen_map_clear|split; [|split; [by exists x2|done]]]]].
  - apply (pre_local s s2 p i x i2 x2); try done.
    + constructor; try done; try apply zlen_map_clear; [congruence|congruence|].
      intros a Ha Hne. split; by apply other_bits_clear.
    + apply (awake_ps_ok s s2 p i x i2 x2 n); try done; try congruence.
      intros pr. by rewrite G6, F6.
  - intros Hw. rewrite map_is_set in Hw by done. by apply clear_again.
Qed.

(** The group's station has no queue: at most the bits of the group are cleared. *)
Lemma flush_cases s : Pre s -> flush_bmc s = Ret (s, false) \/
  exists b i x, stas (core s) !! b = Some i /\ sps s !! b = Some x /\ flush_bmc s =
    Ret (set_maps (rtw_tim_map_clear (sta_dz_bitmap s) 0) (rtw_tim_map_clear (tim_bitmap s) 0) s,
         rtw_tim_map_is_set (tim_bitmap s) 0).
Proof.
  intros HP. unfold flush_bmc. destruct (rtw_get_bcmc_stainfo (core s)) as [b|] eqn:Eb; [|by left].
  destruct (rtw_tim_map_anyone_be_set_exclude_aid0 _); [by left|].
  destruct (get_stainfo_some (core s) (replicate 6 0xff) b Eb) as (i & _ & Hi & _).
  destruct (proj1 (inv_dom s HP b)) as [x Hx]; [by rewrite Hi|].
  pose proof (inv_sta s HP b i x Hi Hx) as Hok.
  pose proof (po_group _ _ _ _ Hok (inv_group s HP b i Eb Hi)) as Hq.
  assert (Hg : get_sta s b = Ret (i, x)) by (unfold get_sta; by rewrite Hi, Hx).
  rewrite Hg. cbn [mbind res_bind]. rewrite Hq. cbn [bmc_loop]. rewrite (put_sta_same s b i x Hg).
  rewrite (po_len _ _ _ _ Hok), Hq. right. by exists b, i, x.
Qed.

Lemma flush_ok s : Pre s -> ends (flush_bmc s) (fun r => Pre r.1 /\ same_bcn s r.1 /\
  zlen (tim_bitmap r.1) = zlen (tim_bitmap s) /\
  (r.2 = false -> same_bits (tim_bitmap s) (tim_bitmap r.1)) /\ sps r.1 = sps s /\ handed r.1 = handed s).
Proof.
  intros HP. destruct (flush_cases s HP) as [->|(b & i & x & Hi & Hx & ->)]; [done|]. cbn [ends fst snd].
  pose proof (inv_sta s HP b i x Hi Hx) as Hok.
  assert (H0 : 0 <= 0 <= max_aid s) by (pose proof (inv_max s HP); lia).
  destruct (inv_aid s 0 HP H0) as [Ht Hd].
  match goal with |- Pre ?t /\ _ => set (s3 := t) end.
  split; [|split; [done|split; [apply zlen_map_clear|split; [|done]]]].
  - apply (pre_local s s3 b i x i x); try done.
    + constructor; try done; try apply zlen_map_clear; try (by cbn; rewrite insert_id).
      intros a Ha _. split; apply other_bits_clear; done || lia.
    + destruct Hok. constructor; try done.
      * intros Hpos. cbn. rewrite map_clear_bit by (done || lia). destruct (Z.eqb_spec (aid x) 0); [lia|auto].
      * intros He. cbn. rewrite map_clear_bit by (done || lia). destruct (Z.eqb_spec (aid x) 0) as [E|]; [|auto].
        exfalso. destruct (decide (sleep_q x = [])) as [Hq|Hq]; [rewrite Hq in He; by inversion He|].
        destruct (po_asleep0 Hq) as (_ & ? & _). lia.
  - intros Hw. rewrite map_is_set in Hw by done. by apply clear_again.
Qed.

Lemma same_bits_trans m1 m2 m3 : same_bits m1 m2 -> same_bits m2 m3 -> same_bits m1 m3.
Proof. intros [H1 H2] [H3 H4]. split; [congruence|]. intros a Ha. by rewrite H4, H2. Qed.

(** What waking up does to the station itself. *)
Lemma awake_self s p i x s2 was : is_aid (tim_bitmap s) (aid x) -> is_aid (sta_dz_bitmap s) (aid x) ->
  awake s p i x = (s2, was) -> exists i' x', get_sta s2 p = Ret (i', x') /\ aid x' = aid x /\
    sleep_q x' = sleep_q x /\ sleeps i' = false /\ bmp_bit (sta_dz_bitmap s2) (aid x) = false /\
    bmp_bit (tim_bitmap s2) (aid x) = false /\ handed s2 = handed s.
Proof.
  intros Ht Hd. unfold awake. set (i1 := if sleeps i then _ else i). destruct (clear_sleep i) as (F1 & _).
  fold i1 in F1. destruct (leave_alive_check (set_tim _ s) i1 x) as [i2 x2] eqn:Ea.
  destruct (alive_facts _ _ _ _ _ Ea) as ((_ & G2 & _) & X1 & X2 & _). rewrite X1. intros [= <- <-].
  exists i2, x2. rewrite get_put. split_and!; try done; try congruence; cbn;
    rewrite map_clear_bit, Z.eqb_refl by (done || apply Ht || apply Hd); done.
Qed.

(** The steps before the group's queue. *)
Record woken (s : ap) (p : Z) (x : sta_ps) (out : list xmit_frame) (s2 : ap) (was : bool)
    (i' : sta_info) (x' : sta_ps) : Prop := {
  wo_pre : Pre s2;
  wo_bcn : same_bcn s s2;
  wo_zlen : zlen (tim_bitmap s2) = zlen (tim_bitmap s);
  wo_bits : was = false -> same_bits (tim_bitmap s) (tim_bitmap s2);
  wo_sta : get_sta s2 p = Ret (i', x');
  wo_sps : sps s2 = <[p := x']> (sps s);
  wo_aid : aid x' = aid x;
  wo_queue : sleep_q x' = [];
  wo_awake : sleeps i' = false;
  wo_dz : bmp_bit (sta_dz_bitmap s2) (aid x) = false;
  wo_tim : bmp_bit (tim_bitmap s2) (aid x) = false;
  wo_handed : handed s2 = handed s ++ out;
}.

Lemma wakeup_steps s p i x : Inv s -> get_sta s p = Ret (i, x) -> exists s2 was i' x',
  woken s p x (wake_out (enabled i) (sleepq_ac_len i) (sleep_q x)) s2 was i' x' /\
  wakeup_sta_to_xmit s p =
    ('(s3, bmc) ← flush_bmc s2; Ret (if was || bmc then _update_beacon s3 true else s3)).
Proof.
  intros HI Hg. destruct (get_sta_inv _ _ _ _ Hg) as [Hi Hx]. pose proof (inv_sta s HI p i x Hi Hx) as Hok.
  unfold wakeup_sta_to_xmit. rewrite Hg. cbn [mbind res_bind]. pose proof (queue_short _ _ _ _ Hok) as Hshort.
  unfold NR_XMITFRAME in Hshort. rewrite wakeup_loop_eq by (done || apply Hok || lia).
  set (out := wake_out _ _ _). set (n := ac_after _ _ _). destruct (send_all_same out s) as (Hs1 & Hb1 & Hh1).
  set (s1 := send_all s out) in *. cbn [sleepq_len set_sleepq Z.eqb].
  destruct (awake s1 p _ _) as [s2 was] eqn:Eaw. pose proof (pre_same s s1 HI Hs1) as HP1.
  pose proof (po_aid _ _ _ _ Hok) as Ha. rewrite <- (sp_max _ _ Hs1) in Ha.
  destruct (inv_aid s1 (aid x) HP1 Ha) as [Ht1 Hd1].
  destruct (awake_self s1 p (set_sleepq_ac_len n i) (set_sleepq [] 0 x) s2 was Ht1 Hd1 Eaw)
    as (i' & x' & Hg2 & Ha2 & Hq2 & Hsl & Hdz & Htm & Hh2).
  destruct (awake_ok s1 p i x n s2 was HP1) as (HP2 & Hb2 & Hz2 & Hbits2 & (x2 & Hsp2 & _) & _);
    [by rewrite (sp_core _ _ Hs1)|by rewrite (sp_sps _ _ Hs1)| |done|].
  { intros Has Hgr Hl. destruct (po_all _ _ _ _ Hok Has Hgr Hl) as [Hall Hac]. unfold n. rewrite Hac.
    apply ac_after_all; [|lia]. apply Forall_forall. intros f _. by apply enabled_all. }
  assert (x2 = x') as ->.
  { apply get_sta_inv in Hg2 as [_ Hx2]. rewrite Hsp2, lookup_insert_eq in Hx2. by injection Hx2. }
  exists s2, was, i', x'. split; [|done]. rewrite (sp_sps _ _ Hs1) in Hsp2. rewrite Hh1 in Hh2.
  rewrite (sp_tim _ _ Hs1) in *. constructor; try done. by etrans.
Qed.

Lemma wakeup_keeps s p x : Inv s -> sps s !! p = Some x -> ends (wakeup_sta_to_xmit s p) (keeps s).
Proof.
  intros HI Hx. destruct (inv_get s p x HI Hx) as (i & Hi & Hg & Hok).
  destruct (wakeup_steps s p i x HI Hg) as (s2 & was & i' & x' & Hw & ->).
  destruct Hw as [HP2 Hb2 Hz2 Hbits2 _ Hsp2 _ Hq2 _ _ _ Hh2].
  pose proof (flush_ok s2 HP2) as Hfl. destruct (flush_bmc s2) as [[s3 bm]| |]; try done.
  destruct Hfl as (HP3 & Hb3 & Hz3 & Hbits3 & Hsp3 & Hh3). cbn [fst snd] in *. cbn [mbind res_bind ends].
  assert (Hb : same_bcn s s3) by by etrans.
  assert (Hflow : forall q pr, flow s3 q pr = flow s q pr).
  { apply (flow_moved s s3 p x x' (wake_out (enabled i) (sleepq_ac_len i) (sleep_q x))); try done.
    - by rewrite Hsp3, Hsp2.
    - by rewrite Hh3, Hh2.
    - eapply same_unicast; [apply wake_out_same|apply Hok].
    - intros pr. rewrite Hq2, app_nil_r. apply xids_same, wake_out_same. }
  destruct (was || bm) eqn:E.
  - destruct (update_beacon_same s3 true) as [Hs4 Hh4]. split.
    + split; [by eapply pre_same|]. apply update_beacon_ok; [pose proof (inv_maps s HI); lia|].
      eapply bcn_stale_same; [exact Hb|congruence|]. apply bcn_ok_stale, HI.
    + intros q pr. rewrite <- Hflow. unfold flow, queue. by rewrite Hh4, (sp_sps _ _ Hs4).
  - apply orb_false_iff in E as [-> ->]. split; [split; [done|]|done].
    eapply bcn_ok_same; [exact Hb| |apply HI]. eapply same_bits_trans; [by apply Hbits2|by apply Hbits3].
Qed.

Lemma clear_zero map a : is_aid map 0 -> 0 <= a -> bmp_bit map a = false ->
  bmp_bit (rtw_tim_map_clear map 0) a = false.
Proof. intros H Ha Hb. rewrite map_clear_bit by done. by destruct (a =? 0). Qed.

(** The station has its frames and is awake. *)
Lemma wakeup_state s p i x : Inv s -> get_sta s p = Ret (i, x) -> exists s' i' x',
  wakeup_sta_to_xmit s p = Ret s' /\
  handed s' = handed s ++ wake_out (enabled i) (sleepq_ac_len i) (sleep_q x) /\
  get_sta s' p = Ret (i', x') /\ aid x' = aid x /\ sleep_q x' = [] /\ sleeps i' = false /\
  bmp_bit (sta_dz_bitmap s') (aid x) = false /\ bmp_bit (tim_bitmap s') (aid x) = false.
Proof.
  intros HI Hg. destruct (wakeup_steps s p i x HI Hg) as (s2 & was & i' & x' & [] & ->).
  destruct (get_sta_inv _ _ _ _ wo_sta0) as [Hi2 Hx2].
  pose proof (po_aid _ _ _ _ (inv_sta s2 wo_pre0 p i' x' Hi2 Hx2)) as Ha. rewrite wo_aid0 in Ha.
  destruct (inv_aid s2 0 wo_pre0) as [Ht0 Hd0]; [lia|].
  assert (exists s3 bm, flush_bmc s2 = Ret (s3, bm) /\ handed s3 = handed s2 /\ get_sta s3 p = get_sta s2 p /\
    bmp_bit (sta_dz_bitmap s3) (aid x) = false /\ bmp_bit (tim_bitmap s3) (aid x) = false)
    as (s3 & bm & -> & Hh3 & Hg3 & Hdz3 & Htm3).
  { destruct (flush_cases s2 wo_pre0) as [->|(? & ? & ? & _ & _ & ->)]; eexists _, _; split_and!; try done;
      apply clear_zero; done || lia. }
  cbn [mbind res_bind]. destruct (update_beacon_same s3 true) as [[] Hh4]. eexists _, i', x'. split; [done|].
  rewrite wo_handed0 in Hh3. rewrite wo_sta0 in Hg3.
  destruct (was || bm); split_and!; try done; try congruence. by rewrite <- Hg3; unfold get_sta; rewrite sp_core0, sp_sps0.
Qed.

(** ** Triggers

    [deliver_out] is what a trigger gives. *)
Fixpoint deliver_out (wm : xmit_frame -> bool) (n : Z) (q : list xmit_frame) : list xmit_frame :=
  match q with
  | [] => []
  | f :: q =>
      if wm f then set_triggered true (eosp_flags (u32 (n - 1)) f) :: deliver_out wm (u32 (n - 1)) q
      else deliver_out wm n q
  end.

(** The frames that stay. *)
Definition stays (i : sta_info) (q : list xmit_frame) : list xmit_frame := filter (fun f => enabled i f = false) q.

Lemma zlen_mid {A} (l : list A) f r : zlen (l ++ f :: r) - 1 = zlen (l ++ r).
Proof. zlens. lia. Qed.

Lemma sleepq_same x : set_sleepq (sleep_q x) (sleepq_len x) x = x.
Proof. by destruct x. Qed.

Lemma delivery_legacy q : forall s i x kept, has_legacy_ac x = true ->
  sleep_q x = kept ++ q -> sleepq_len x = zlen (kept ++ q) -> zlen (kept ++ q) < 4294967296 ->
  delivery_loop s i x kept q =
    (send_all s (deliver_out (enabled i) (sleepq_ac_len i) q),
     set_sleepq_ac_len (ac_after (enabled i) (sleepq_ac_len i) q) i,
     set_sleepq (kept ++ stays i q) (zlen (kept ++ stays i q)) x).
Proof.
  induction q as [|f q IH]; intros s i x kept Hleg Hq Hl Hs; cbn [delivery_loop deliver_out ac_after].
  - change (stays i []) with (@nil xmit_frame). rewrite <- Hl, <- Hq, sleepq_same. by destruct i.
  - change (wmmps_ac1 i (xpriority f)) with (enabled i f). pose proof (zlen_mid kept f q) as Hmid.
    pose proof (zlen_nonneg (kept ++ q)). unfold stays. rewrite filter_cons.
    destruct (enabled i f) eqn:E; cbn [negb].
    + rewrite decide_False by done. cbn [has_legacy_ac set_sleepq]. rewrite Hleg. cbn [negb].
      rewrite andb_false_r, Hl, Hmid, (u32_id (zlen (kept ++ q))) by (unfold is_u32; lia).
      rewrite IH by (done || (cbn; lia)). by cbn [sleepq_ac_len set_sleepq_ac_len send_all foldl].
    + rewrite decide_True by done. assert (Ha : kept ++ f :: q = (kept ++ [f]) ++ q) by by rewrite <- app_assoc.
      rewrite Ha in Hq, Hl, Hs. rewrite IH by done. unfold stays. by rewrite <- !app_assoc.
Qed.

(** All frames are delivery-enabled: the queue is empty after, and its bit clear. *)
Lemma delivery_all q : forall s i x, has_legacy_ac x = false -> all_uapsd i ->
  sleep_q x = q -> sleepq_len x = zlen q -> sleepq_ac_len i = zlen q -> zlen q < 4294967296 ->
  delivery_loop s i x [] q =
    (if decide (q = []) then s
     else clear_tim (aid x) (send_all s (deliver_out (enabled i) (zlen q) q)),
     set_sleepq_ac_len 0 i, set_sleepq [] 0 x).
Proof.
  induction q as [|f q IH]; intros s i x Hleg Hall Hq Hl Hac Hs; cbn [delivery_loop deliver_out].
  - rewrite decide_True by done. f_equal; [f_equal|].
    + rewrite zlen_nil in Hac. destruct i; unfold set_sleepq_ac_len; cbn in *. by subst.
    + rewrite zlen_nil in Hl. rewrite <- (sleepq_same x) at 1. by rewrite Hq, Hl.
  - rewrite zlen_cons in *. pose proof (zlen_nonneg q).
    change (wmmps_ac1 i (xpriority f)) with (enabled i f). rewrite (enabled_all i Hall f). cbn [negb app].
    rewrite Hl, Hac. replace (1 + zlen q - 1) with (zlen q) by lia. rewrite u32_id by (unfold is_u32; lia).
    cbn [sleepq_ac_len set_sleepq_ac_len has_legacy_ac set_sleepq aid]. rewrite Hleg, andb_true_r.
    rewrite IH by (done || (cbn; lia)). rewrite (decide_False (P := f :: q = [])) by done.
    cbn [send_all foldl]. destruct (decide (q = [])) as [->|Hne].
    + by rewrite zlen_nil.
    + destruct (Z.eqb_spec (zlen q) 0); [|done]. destruct q; [done|]. rewrite zlen_cons in *.
      pose proof (zlen_nonneg q). lia.
Qed.

Lemma deliver_out_same wm q : forall n, Forall2 same_frame (filter (fun f => wm f = true) q) (deliver_out wm n q).
Proof.
  induction q as [|f q IH]; intros n; [constructor|]. cbn [deliver_out]. rewrite filter_cons.
  destruct (wm f); [|rewrite decide_False by done; apply IH]. rewrite decide_True by done.
  constructor; [|apply IH]. unfold eosp_flags. by case_match.
Qed.

(** The frames of a priority all go or all stay. *)
Lemma xids_split i pr q :
  xids pr (filter (fun f => enabled i f = true) q) ++ xids pr (stays i q) = xids pr q.
Proof.
  unfold stays, xids. destruct (wmmps_ac1 i pr) eqn:E; induction q as [|f q IH]; try done;
    rewrite !filter_cons; destruct (enabled i f) eqn:Ef; rewrite ?(decide_True (P := true = true)),
    ?(decide_True (P := false = false)), ?(decide_False (P := true = false)),
    ?(decide_False (P := false = true)) by done; rewrite ?filter_cons; unfold enabled in Ef;
    destruct (decide (xpriority f = pr)) as [Hp|Hp]; rewrite ?fmap_cons, <- ?app_comm_cons, ?IH; try done;
    try (rewrite Hp in Ef; congruence).
  - rewrite <- IH. rewrite (filter_none (fun f => xpriority f = pr) (filter (fun f => enabled i f = true) q)); [done|].
    apply Forall_forall. intros g [Hg _]%list_elem_of_filter Hgp. unfold enabled in Hg. congruence.
Qed.

Lemma stays_incl i q f : f ∈ stays i q -> f ∈ q.
Proof. unfold stays. by intros [_ ?]%list_elem_of_filter. Qed.

Lemma sublist_fmap {A B} (g : A -> B) l1 l2 : l1 `sublist_of` l2 -> g <$> l1 `sublist_of` g <$> l2.
Proof. induction 1; cbn; by constructor. Qed.

(** A station of which some frames are gone. *)
Lemma fewer_ps_ok s s' p i x q n : ps_ok s p i x -> same_ps s s' -> q `sublist_of` sleep_q x ->
  (flag (state i) WIFI_ASOC_STATE = true -> flag (state i) WIFI_AP_STATE = false -> has_legacy_ac x = false -> n = zlen q) ->
  ps_ok s' p (set_sleepq_ac_len n i) (set_sleepq q (zlen q) x).
Proof.
  intros Hok Hsame Hsub Hn. destruct (ps_ok_same _ _ _ _ _ Hok Hsame).
  assert (Hq : q <> [] -> sleep_q x <> []) by (intros Hq E; rewrite E in Hsub; by apply sublist_nil_r in Hsub).
  constructor; try done.
  - eapply sublist_NoDup; [done|]. by apply sublist_fmap.
  - cbn. rewrite Forall_forall in *. intros f Hf. by apply po_frames0, (sublist_subseteq _ _ Hsub).
  - intros Hne. apply po_asleep0, Hq, Hne.
  - intros Hg. cbn. specialize (po_group0 Hg). rewrite po_group0 in Hsub. by apply sublist_nil_r in Hsub.
  - intros He. apply po_tim0. rewrite Exists_exists in *. destruct He as (f & Hf & Ha). exists f. split; [|done].
    by apply (sublist_subseteq _ _ Hsub).
  - intros Ha Hg Hl. split; [by apply po_all0|by apply Hn].
Qed.

(** After sending frames of station [p]; the queue and its bit may have changed. *)
Lemma sent_flow s s' p x x' i q out : ps_ok s p i x -> sps s !! p = Some x -> sps s' = <[p := x']> (sps s) ->
  handed s' = handed s ++ out -> Forall2 same_frame (filter (fun f => enabled i f = true) q) out ->
  q = sleep_q x -> sleep_q x' = stays i q -> forall r pr, flow s' r pr = flow s r pr.
Proof.
  intros Hok Hx Hx' Hh Hout -> Hq. apply (flow_moved s s' p x x' out); try done.
  - eapply same_unicast; [exact Hout|]. apply Forall_forall. intros f [_ Hf]%list_elem_of_filter.
    pose proof (po_frames _ _ _ _ Hok) as Hall. rewrite Forall_forall in Hall. auto.
  - intros pr. rewrite (xids_same pr _ _ Hout), Hq. apply xids_split.
Qed.

Lemma deliver_legacy_keeps s p i x : Inv s -> stas (core s) !! p = Some i -> sps s !! p = Some x ->
  has_legacy_ac x = true -> ends (xmit_delivery_enabled_frames s p) (keeps s).
Proof.
  intros HI Hi Hx Hleg. pose proof (inv_sta s HI p i x Hi Hx) as Hok.
  unfold xmit_delivery_enabled_frames, get_sta. rewrite Hi, Hx. cbn [mbind res_bind].
  pose proof (queue_short _ _ _ _ Hok) as Hshort. unfold NR_XMITFRAME in Hshort.
  rewrite (delivery_legacy _ s i x []) by (done || (cbn; lia) || apply Hok). cbn [app ends].
  set (out := deliver_out _ _ _). destruct (send_all_same out s) as (Hs1 & Hb1 & Hh1).
  set (s1 := send_all s out) in *. set (i' := set_sleepq_ac_len _ i). set (x' := set_sleepq _ _ x). split.
  - apply (inv_local s (put_sta p i' x' s1) p i x i' x'); try done.
    + destruct Hs1. constructor; cbn; congruence || done || (intros; split; congruence).
    + apply (ps_ok_env s1); [|done..]. apply (fewer_ps_ok s); [done..|apply sublist_filter|congruence].
    + apply (bcn_ok_same s); [exact Hb1| |apply HI]. cbn. by rewrite (sp_tim _ _ Hs1).
  - eapply (sent_flow s _ p x x' i (sleep_q x) out); try done; [|apply deliver_out_same].
    cbn. by rewrite (sp_sps _ _ Hs1).
Qed.

(** Taking back the bit of a station without a queue. *)
Lemma clear_tim_keeps s s1 p i x i' x' : Inv s -> stas (core s) !! p = Some i -> sps s !! p = Some x ->
  same_ps s s1 -> same_bcn s s1 -> ps_ok s p i' x' -> sleep_q x' = [] -> aid x' = aid x ->
  phl_sta i' = phl_sta i -> flag (state i') WIFI_AP_STATE = flag (state i) WIFI_AP_STATE ->
  Inv (clear_tim (aid x) (put_sta p i' x' s1)) /\
  sps (clear_tim (aid x) (put_sta p i' x' s1)) = <[p := x']> (sps s) /\
  handed (clear_tim (aid x) (put_sta p i' x' s1)) = handed s1.
Proof.
  intros HI Hi Hx Hs1 Hb1 Hok' Hq Haid Hph Hgr. pose proof (inv_sta s HI p i x Hi Hx) as Hok.
  destruct (inv_aid s (aid x) HI (po_aid _ _ _ _ Hok)) as [Ht _]. unfold clear_tim.
  set (s2 := set_tim _ _). destruct (update_beacon_same s2 true) as [Hs3 Hh3].
  assert (Hl : local s p i x s2 i' x').
  { destruct Hs1. constructor; cbn; try congruence; [rewrite zlen_map_clear; congruence|].
    intros a Ha Hne. rewrite sp_tim0, other_bits_clear by (done || lia). split; congruence. }
  split; [|split; [|by rewrite Hh3]].
  - apply (inv_local s _ p i x i' x'); try done; [by eapply local_same| |].
    + eapply ps_ok_same; [|done]. destruct Hok', Hs1. constructor; cbn; try done; try congruence.
      * intros Hp. rewrite sp_slots0. auto.
      * intros Hp. rewrite sp_dz0. auto.
      * rewrite Hq. intros He. by inversion He.
    + apply update_beacon_ok.
      * cbn. rewrite zlen_map_clear, (sp_tim _ _ Hs1). pose proof (inv_maps s HI). lia.
      * apply (bcn_stale_same s); [exact Hb1| |apply bcn_ok_stale, HI]. cbn.
        by rewrite zlen_map_clear, (sp_tim _ _ Hs1).
  - rewrite (sp_sps _ _ Hs3). cbn. by rewrite (sp_sps _ _ Hs1).
Qed.

Lemma put_clear p i x a s : put_sta p i x (clear_tim a s) = clear_tim a (put_sta p i x s).
Proof.
  unfold clear_tim, _update_beacon. destruct s as [? ? ? ? ? ? ? ? ? ? ? [] ? ? ? ? ? [|[] ?] ?]; done.
Qed.

Lemma deliver_keeps s p x : Inv s -> sps s !! p = Some x -> ends (xmit_delivery_enabled_frames s p) (keeps s).
Proof.
  intros HI Hx. destruct (inv_get s p x HI Hx) as (i & Hi & Hg & Hok).
  destruct (has_legacy_ac x) eqn:Hleg; [by apply (deliver_legacy_keeps s p i x)|].
  unfold xmit_delivery_enabled_frames. rewrite Hg. cbn [mbind res_bind].
  pose proof (queue_short _ _ _ _ Hok) as Hshort. unfold NR_XMITFRAME in Hshort.
  destruct (decide (sleep_q x = [])) as [Hq|Hq].
  { rewrite Hq. cbn [delivery_loop ends]. by rewrite (put_sta_same s p i x Hg). }
  destruct (po_asleep _ _ _ _ Hok Hq) as (_ & _ & Ha). destruct (po_all _ _ _ _ Hok Ha (queue_peer _ _ _ _ Hok Hq) Hleg) as [Hall Hac].
  rewrite delivery_all by (done || lia || apply Hok). rewrite decide_False by done. cbn [ends].
  set (out := deliver_out _ _ _). destruct (send_all_same out s) as (Hs1 & Hb1 & Hh1).
  set (i' := set_sleepq_ac_len 0 i). set (x' := set_sleepq [] 0 x). rewrite put_clear.
  destruct (clear_tim_keeps s (send_all s out) p i x i' x') as (HI' & Hsp & Hh); try done.
  - apply (fewer_ps_ok s s p i x []); [done..|apply sublist_nil_l|done].
  - split; [done|]. apply (sent_flow s _ p x x' i (sleep_q x) out); try done.
    + by rewrite Hh, Hh1.
    + apply deliver_out_same.
    + unfold stays. rewrite filter_none; [done|]. apply Forall_forall. intros f _. cbn.
      by rewrite (enabled_all i Hall).
Qed.

(** ** Polls *)

Lemma alive_ps_ok s s' p i x i' x' : ps_ok s p i x -> leave_alive_check s' i x = (i', x') -> ps_ok s p i' x'.
Proof.
  intros [] He. destruct (alive_facts _ _ _ _ _ He) as ((G1 & G2 & G3 & G4 & G5 & G6) & X1 & X2 & X3 & X4 & X5).
  constructor; rewrite ?G1, ?G2, ?G3, ?G4, ?G5, ?X1, ?X2, ?X3, ?X4, ?X5; try done.
  - rewrite !Exists_exists in *. unfold announced, wmmps_ac0. rewrite X4. setoid_rewrite G6. auto.
  - intros pr. by rewrite G6.
  - intros Ha Hg Hl. destruct (po_all0 Ha Hg Hl) as [Hall Hac]. split; [intros pr; by rewrite G6|done].
Qed.

Lemma put_send p i x f s :
  rtw_intf_xmitframe_enqueue (put_sta p i x s) f = put_sta p i x (rtw_intf_xmitframe_enqueue s f).
Proof. unfold rtw_intf_xmitframe_enqueue. by destruct s as [? ? ? ? ? ? ? ? ? ? ? ? ? ? ? [|[] ?] ? ? ?]. Qed.

Lemma put_keeps s s1 p i x i' x' : Inv s -> stas (core s) !! p = Some i -> sps s !! p = Some x ->
  same_ps s s1 -> same_bcn s s1 -> ps_ok s p i' x' -> phl_sta i' = phl_sta i ->
  flag (state i') WIFI_AP_STATE = flag (state i) WIFI_AP_STATE ->
  Inv (put_sta p i' x' s1) /\ sps (put_sta p i' x' s1) = <[p := x']> (sps s) /\
  handed (put_sta p i' x' s1) = handed s1.
Proof.
  intros HI Hi Hx Hs1 Hb1 Hok Hph Hgr. split; [|split; [cbn; by rewrite (sp_sps _ _ Hs1)|done]].
  apply (inv_local s _ p i x i' x'); try done.
  - destruct Hs1. constructor; cbn; congruence || done || (intros; split; congruence).
  - by apply (ps_ok_env s); [|apply Hs1..].
  - apply (bcn_ok_same s); [exact Hb1| |apply HI]. cbn. by rewrite (sp_tim _ _ Hs1).
Qed.

(** The first frame of the queue goes. *)
Lemma head_ps_ok s p i x f q : ps_ok s p i x -> sleep_q x = f :: q ->
  (flag (state i) WIFI_ASOC_STATE = true -> flag (state i) WIFI_AP_STATE = false -> has_legacy_ac x = true) ->
  ps_ok s p i (set_sleepq q (zlen q) x).
Proof.
  intros Hok Hq Hl.
  replace i with (set_sleepq_ac_len (sleepq_ac_len i) i) by by destruct i.
  apply (fewer_ps_ok s); [done..| |intros Ha Hg Hn; rewrite (Hl Ha Hg) in Hn; done].
  rewrite Hq. by constructor.
Qed.

Lemma poll_flow s s' p x x' f q n : sps s !! p = Some x -> sps s' = <[p := x']> (sps s) ->
  sleep_q x = f :: q -> sleep_q x' = q -> Forall (frame_for p) (sleep_q x) ->
  handed s' = handed s ++ [set_triggered true (more_flag n f)] -> forall r pr, flow s' r pr = flow s r pr.
Proof.
  intros Hx Hx' Hq Hq' Hf Hh. apply (flow_moved s s' p x x' [set_triggered true (more_flag n f)]); try done.
  - rewrite Hq in Hf. inversion Hf as [|? ? (? & ? & _) ?]. by repeat constructor.
  - intros pr. rewrite Hq, Hq'. change (f :: q) with ([f] ++ q). rewrite xids_app. f_equal.
    apply (xids_same pr [f]). repeat constructor.
Qed.

Lemma poll_frame_keeps s p addr i x i' x' : Inv s -> stas (core s) !! p = Some i -> sps s !! p = Some x ->
  ps_ok s p i' x' -> phl_sta i' = phl_sta i -> flag (state i') WIFI_AP_STATE = flag (state i) WIFI_AP_STATE ->
  aid x' = aid x -> sleep_q x' = sleep_q x ->
  (flag (state i') WIFI_ASOC_STATE = true -> flag (state i') WIFI_AP_STATE = false -> has_legacy_ac x' = true) ->
  keeps s (poll_frame s p addr i' x').
Proof.
  intros HI Hi Hx Hok Hph Hgr Haid Hsame Hleg. unfold poll_frame.
  pose proof (queue_short _ _ _ _ Hok) as Hshort. unfold NR_XMITFRAME in Hshort.
  pose proof (po_len _ _ _ _ Hok) as Hlen. destruct (sleep_q x') as [|f q] eqn:Eq.
  - destruct (rtw_tim_map_is_set (tim_bitmap s) (aid x')).
    + rewrite Hlen, zlen_nil. cbn [Z.eqb]. rewrite Haid.
      change (tx (IssueNull addr) (put_sta p i' x' s)) with (put_sta p i' x' (tx (IssueNull addr) s)).
      destruct (clear_tim_keeps s (tx (IssueNull addr) s) p i x i' x') as (HI' & Hsp & Hh); try done.
      split; [done|]. apply (flow_same s _ p x x'); try done; try congruence.
      rewrite Hh. unfold handed. cbn. by rewrite omap_app, app_nil_r.
    + destruct (put_keeps s s p i x i' x') as (HI' & Hsp & Hh); try done.
      split; [done|]. apply (flow_same s _ p x x'); congruence.
  - rewrite Hlen, zlen_cons. pose proof (zlen_nonneg q). replace (1 + zlen q - 1) with (zlen q) by lia.
    rewrite zlen_cons in Hshort. rewrite u32_id by (unfold is_u32; lia). cbn [sleepq_len set_sleepq aid].
    rewrite Haid, put_send. set (g := set_triggered true (more_flag (zlen q) f)).
    destruct (send_same s g) as (Hs1 & Hb1 & Hh1).
    pose proof (head_ps_ok s p i' x' f q Hok Eq Hleg) as Hok'. rewrite Hsame in *.
    pose proof (po_frames _ _ _ _ (inv_sta s HI p i x Hi Hx)) as Hf.
    destruct (Z.eqb_spec (zlen q) 0) as [Hz|Hz].
    + assert (q = []) as Hnil by (apply nil_length_inv; unfold zlen in Hz; lia).
      destruct (clear_tim_keeps s (rtw_intf_xmitframe_enqueue s g) p i x i' (set_sleepq q (zlen q) x'))
        as (HI' & Hsp & Hh); try done.
      split; [done|]. eapply (poll_flow s _ p x _ f q (zlen q)); try done. by rewrite Hh.
    + destruct (put_keeps s (rtw_intf_xmitframe_enqueue s g) p i x i' (set_sleepq q (zlen q) x'))
        as (HI' & Hsp & Hh); try done.
      split; [done|]. eapply (poll_flow s _ p x _ f q (zlen q)); done.
Qed.

(** A frame with the field for the id. *)
Definition poll_ok (b : list Z) : Prop := Forall is_byte b /\ 4 <= zlen b.

Lemma keeps_refl s : Inv s -> keeps s s.
Proof. done. Qed.

(** A station that may poll does not have all categories delivery-enabled. *)
Lemma poller_legacy s p i x pr : ps_ok s p i x -> wmmps_ac0 i pr = false ->
  flag (state i) WIFI_ASOC_STATE = true -> flag (state i) WIFI_AP_STATE = false -> has_legacy_ac x = true.
Proof.
  intros Hok Hw Ha Hg. destruct (has_legacy_ac x) eqn:E; [done|].
  destruct (po_all _ _ _ _ Hok Ha Hg E) as [Hall _]. unfold wmmps_ac0 in Hw. by rewrite Hall in Hw.
Qed.

Lemma poll_keeps s p x b pr : Inv s -> sps s !! p = Some x -> poll_ok b ->
  ends (rtw_proccess_pspoll s b pr p) (fun r => keeps s r.1).
Proof.
  intros HI Hx [Hb Hlen]. destruct (inv_get s p x HI Hx) as (i & Hi & Hg & Hok).
  unfold rtw_proccess_pspoll, GetAid. rewrite Hg. cbn [mbind res_bind].
  pose proof (ends_le16 b 2 Hb ltac:(lia) ltac:(lia)) as Hw.
  destruct (get_le16 b 2) as [w| |]; try done. cbn [mbind res_bind].
  destruct (negb _); [by apply keeps_refl|]. destruct (wmmps_ac0 i pr) eqn:Ew; [by apply keeps_refl|].
  pose proof (poller_legacy s p i x pr Hok Ew) as Hleg.
  destruct (leave_alive_check s i x) as [i' x'] eqn:Ea. pose proof (alive_ps_ok _ _ _ _ _ _ _ Hok Ea) as Hok'.
  destruct (alive_facts _ _ _ _ _ Ea) as ((G1 & G2 & G3 & G4 & G5 & G6) & X1 & X2 & X3 & X4 & X5).
  destruct (_ && _).
  - destruct (po_addr _ _ _ _ Hok') as [[ps addr] Hp]. rewrite Hp. cbn [ends fst].
    apply (poll_frame_keeps s p addr i x); try done. by rewrite G3, G4, X4.
  - cbn [ends fst]. destruct (put_keeps s s p i x i' x') as (HI' & Hsp & Hh); try done.
    split; [done|]. by apply (flow_same s _ p x x').
Qed.

(** ** Silence and leaving *)

Lemma alive_bits i : let i' := set_state (Z.lor (state i) WIFI_STA_ALIVE_CHK_STATE) i in
  sleeps i' = sleeps i /\ flag (state i') WIFI_ASOC_STATE = flag (state i) WIFI_ASOC_STATE /\
  flag (state i') WIFI_AP_STATE = flag (state i) WIFI_AP_STATE.
Proof. split_and!; by state_bits. Qed.

Lemma alive_check_keeps s p x : Inv s -> sps s !! p = Some x -> ends (alive_check s p) (keeps s).
Proof.
  intros HI Hx. destruct (inv_get s p x HI Hx) as (i & Hi & Hg & Hok). unfold alive_check.
  rewrite Hg. cbn [mbind res_bind]. destruct (_ && _); [|by apply keeps_refl]. cbn [ends].
  destruct (alive_bits i) as (G1 & G2 & G3). set (i' := set_state _ i) in *. set (x' := set_expire_to _ x).
  destruct (inv_aid s (aid x) HI (po_aid _ _ _ _ Hok)) as [Ht _].
  set (s2 := set_tim _ _). destruct (update_beacon_same s2 true) as [Hs3 Hh3]. split.
  - apply (inv_local s _ p i x i' x'); try done.
    + eapply local_same; [|done]. constructor; try done; [apply zlen_map_set|].
      intros a Ha Hne. split; [done|]. by apply other_bits_set.
    + eapply ps_ok_same; [|done]. destruct Hok. constructor; rewrite ?G1, ?G2, ?G3; try done.
      intros He. cbn. rewrite map_set_bit by (done || lia). by rewrite Z.eqb_refl.
    + apply update_beacon_ok; [cbn; rewrite zlen_map_set; pose proof (inv_maps s HI); lia|].
      apply (bcn_stale_same s); [done|apply zlen_map_set|apply bcn_ok_stale, HI].
  - by apply (flow_same s _ p x x'); [|rewrite (sp_sps _ _ Hs3)| |].
Qed.

Lemma digest_keeps s p x : Inv s -> sps s !! p = Some x -> ends (digest_sleepq s p) (keeps s).
Proof.
  intros HI Hx. destruct (inv_get s p x HI Hx) as (i & Hi & Hg & Hok). unfold digest_sleepq.
  rewrite Hg. cbn [mbind res_bind]. destruct (_ && _); [by eapply wakeup_keeps|by apply keeps_refl].
Qed.

(** Removing a station does not change what else is found. *)
Lemma search_without ad self a p j l : stas ad !! p = Some j -> sta_search ad self a l <> Some p ->
  sta_search ad self a (filter (fun q => q <> p) l) = sta_search ad self a l.
Proof.
  intros Hj. induction l as [|q l IH]; [done|]. cbn [sta_search]. rewrite filter_cons.
  destruct (decide (q = p)) as [->|Hq].
  - rewrite decide_False by (intros H; by apply H). rewrite Hj. destruct (phl_sta j) as [[ps m]|]; [|exact IH].
    destruct (_ || _); [done|exact IH].
  - rewrite decide_True by done. cbn [sta_search]. destruct (stas ad !! q) as [k|]; [|done].
    destruct (phl_sta k) as [[ps m]|]; [|exact IH]. by destruct (_ || _).
Qed.

Lemma rd_fmap {A B} (g : A -> B) l k : rd (g <$> l) k = g <$> rd l k.
Proof. unfold rd. destruct (k <? 0); [done|]. apply list_lookup_fmap. Qed.

Lemma lookup_without ad a p j : stas ad !! p = Some j -> rtw_get_stainfo ad a <> Some p ->
  rtw_get_stainfo (set_sta_hash (filter (fun q => q <> p) <$> sta_hash ad) ad) a = rtw_get_stainfo ad a.
Proof.
  intros Hj. unfold rtw_get_stainfo. cbn [phl_role set_sta_hash sta_hash].
  destruct (phl_role ad) as [ro|]; [|done]. cbn [mbind option_bind].
  assert (Hext : forall self l, sta_search (set_sta_hash (filter (fun q => q <> p) <$> sta_hash ad) ad) self a l =
                   sta_search ad self a l) by (intros; by apply search_ext).
  destruct (IS_MCAST a).
  - destruct (phl_sta_self ro) as [self|]; [|done]. rewrite rd_fmap. destruct (rd _ _) as [l|]; [|done]. cbn.
    rewrite Hext. by eapply search_without.
  - rewrite rd_fmap. destruct (rd _ _) as [l|]; [|done]. cbn. rewrite Hext. by eapply search_without.
Qed.

Lemma rd_update {A} (l : list A) n v k : 0 <= n -> rd (<[Z.to_nat n := v]> l) k =
  if decide (k = n) then (if decide (k < zlen l) then Some v else None) else rd l k.
Proof.
  intros Hn. unfold rd, zlen. destruct (Z.ltb_spec k 0).
  - by rewrite decide_False by lia.
  - destruct (decide (k = n)) as [->|Hk]; [|by rewrite list_lookup_insert_ne by lia].
    rewrite list_lookup_insert. destruct (decide (n < Z.of_nat (length l))).
    + by rewrite decide_True by lia.
    + by rewrite decide_False, lookup_ge_None_2 by lia.
Qed.

Lemma free_queue_same q s : same_ps s (rtw_free_xmitframe_queue s q) /\
  same_bcn s (rtw_free_xmitframe_queue s q) /\ handed (rtw_free_xmitframe_queue s q) = handed s ++ q.
Proof.
  unfold rtw_free_xmitframe_queue. revert s. induction q as [|f q IH]; intros s; cbn [foldl].
  { by rewrite app_nil_r. }
  destruct (IH (tx (Freed f) s)) as (H1 & H2 & H3).
  split; [destruct H1; by constructor|]. split; [destruct H2 as (?&?&?); by repeat split|].
  rewrite H3. unfold handed. cbn. by rewrite omap_app, <- app_assoc.
Qed.

Lemma free_servqs_empty s x : Forall (fun v => sta_pending v = []) (servqs x) ->
  free_servqs s x = (set_accnt (zip_with Z.sub (accnt s) (qcnt <$> servqs x)) s,
                     set_servqs ((fun _ => mk_servq [] 0) <$> servqs x) x).
Proof.
  intros Hv. unfold free_servqs.
  assert (foldl (fun s v => rtw_free_xmitframe_queue s (sta_pending v)) s (servqs x) = s) as ->; [|done].
  induction Hv as [|v l Hv _ IH]; cbn [foldl]; [done|]. by rewrite Hv.
Qed.

(** The interface and the station when the station has left. *)
Lemma release_ok s p x s' x' y : hw_ap s = true -> 0 <= aid x ->
  (0 < aid x -> rd (sta_aid s) (aid x - 1) = Some (Some p)) -> aid y = aid x ->
  release_aid s p y = (s', x') ->
  core s' = core s /\ sps s' = sps s /\ max_aid s' = max_aid s /\ hw_ap s' = hw_ap s /\ same_bcn s s' /\
  handed s' = handed s /\ tim_bitmap s' = rtw_tim_map_clear (tim_bitmap s) (aid x) /\
  sta_dz_bitmap s' = rtw_tim_map_clear (sta_dz_bitmap s) (aid x) /\ x' = set_aid 0 y /\
  zlen (sta_aid s') = zlen (sta_aid s) /\
  (forall k, rd (sta_aid s') k = if decide (0 < aid x /\ k = aid x - 1) then Some None else rd (sta_aid s) k).
Proof.
  intros Hhw Ha Hslot Hy. unfold release_aid. rewrite Hhw. cbn [negb]. rewrite Hy.
  cbn [set_maps sta_aid]. destruct (Z.ltb_spec 0 (aid x)) as [Hpos|Hpos]; cbn [andb].
  - pose proof (Hslot Hpos) as Hs. rewrite bool_decide_true by done. intros [= <- <-].
    split_and!; try done.
    + cbn. unfold zlen. by rewrite length_insert.
    + intros k. cbn. rewrite rd_update by lia. destruct (decide (k = aid x - 1)) as [->|].
      * rewrite !decide_True; [done|done|]. pose proof (rd_inv _ _ _ Hs). unfold zlen. lia.
      * by rewrite decide_False by tauto.
  - intros [= <- <-]. split_and!; try done.
    + replace 0 with (aid y) by lia. by destruct y.
    + intros k. cbn. by rewrite decide_False by lia.
Qed.

Lemma left_bits i : let i' := set_state (Z.land (state i) (Z.lnot WIFI_ASOC_STATE)) i in
  flag (state i') WIFI_ASOC_STATE = false /\ flag (state i') WIFI_AP_STATE = flag (state i) WIFI_AP_STATE.
Proof. split; by state_bits. Qed.

Lemma left_ps_ok s p i i' x' : is_Some (phl_sta i) -> 0 <= max_aid s -> phl_sta i' = phl_sta i ->
  flag (state i') WIFI_ASOC_STATE = false -> (forall pr, uapsd_of i' pr = 0) ->
  aid x' = 0 -> sleep_q x' = [] -> sleepq_len x' = 0 -> length (servqs x') = 4%nat ->
  Forall (fun v => sta_pending v = []) (servqs x') ->
  forall s', max_aid s' = max_aid s -> ps_ok s' p i' x'.
Proof.
  intros Hp Hmax Hph Ha Hu Hx1 Hx2 Hx3 Hx4 Hx5 s' Hm.
  constructor; rewrite ?Hph, ?Ha, ?Hx1, ?Hx2, ?Hx3, ?Hm; try done; try lia.
  - constructor.
  - intros He. by inversion He.
  - intros pr. rewrite Hu. auto.
Qed.

(** The states before and after [free_core_stainfo]; the map before it is [tim]. *)
Record has_left (s : ap) (tim : list Z) (p : Z) (i : sta_info) (x : sta_ps) (s' : ap)
    (i' : sta_info) (x' : sta_ps) : Prop := {
  le_sta : stas (core s') = <[p := i']> (stas (core s));
  le_ps : sps s' = <[p := x']> (sps s);
  le_hash : sta_hash (core s') = filter (fun q => q <> p) <$> sta_hash (core s);
  le_role : phl_role (core s') = phl_role (core s);
  le_fw : fw_state (core s') = fw_state (core s);
  le_hw : hw_ap s' = hw_ap s;
  le_max : max_aid s' = max_aid s;
  le_zslots : zlen (sta_aid s') = zlen (sta_aid s);
  le_slots : forall k, rd (sta_aid s') k =
    if decide (0 < aid x /\ k = aid x - 1) then Some None else rd (sta_aid s) k;
  le_dz : sta_dz_bitmap s' = rtw_tim_map_clear (sta_dz_bitmap s) (aid x);
  le_tim : tim_bitmap s' = rtw_tim_map_clear tim (aid x);
  le_handed : handed s' = handed s ++ sleep_q x;
  le_queue : sleep_q x' = [];
  le_phl : phl_sta i' = phl_sta i;
  le_group : flag (state i') WIFI_AP_STATE = flag (state i) WIFI_AP_STATE;
  le_ok : is_Some (phl_sta i) -> ps_ok s' p i' x';
}.

Lemma free_left s p i x : stas (core s) !! p = Some i -> sps s !! p = Some x -> hw_ap s = true ->
  0 <= aid x <= max_aid s -> (0 < aid x -> rd (sta_aid s) (aid x - 1) = Some (Some p)) ->
  length (servqs x) = 4%nat -> Forall (fun v => sta_pending v = []) (servqs x) ->
  ends (free_core_stainfo s p) (fun s' => same_bcn s s' /\
    exists i' x', has_left s (tim_bitmap s) p i x s' i' x').
Proof.
  intros Hi Hx Hhw Ha Hslot H4 Hv. unfold free_core_stainfo, get_sta. rewrite Hi, Hx. cbn [mbind res_bind].
  set (sA := set_stations _ _ s). destruct (free_queue_same (sleep_q x) sA) as (HB & Hb1 & Hh1).
  rewrite free_servqs_empty by done. set (sB := rtw_free_xmitframe_queue sA (sleep_q x)) in *.
  set (sC := set_accnt _ sB). set (i' := set_sleepq_ac_len 0 _). set (y := set_expire_to 0 _).
  destruct (release_aid sC p y) as [sD x'] eqn:Er. cbn [ends]. destruct (left_bits i) as [F1 F2].
  destruct (release_ok sC p x sD x' y) as (D1 & D2 & D3 & D4 & D5 & D6 & D7 & D8 & -> & D10 & D11); try done.
  { cbn. by rewrite (sp_hw _ _ HB). }
  { apply Ha. }
  { cbn. by rewrite (sp_slots _ _ HB). }
  cbn in D2, D3, D4, D7, D8, D10, D11. pose proof HB as [C1 C2 C3 C4 C5 C6 C7 _].
  split; [etrans; [exact Hb1|exact D5]|]. exists i', (set_aid 0 y).
  constructor; cbn; rewrite ?D1, ?D2, ?D3, ?D4, ?D7, ?D8, ?D10; cbn;
    rewrite ?C1, ?C2, ?C3, ?C4, ?C5, ?C6, ?C7; try done.
  - intros k. by rewrite D11, C5.
  - etrans; [exact D6|exact Hh1].
  - intros Hok. eapply (left_ps_ok s p i); try done; [lia| | | |].
    + intros pr. unfold uapsd_of. by repeat case_match.
    + cbn. by rewrite length_fmap.
    + cbn. apply Forall_fmap, Forall_forall. done.
    + cbn. by rewrite D3, C6.
Qed.

Lemma left_keeps s tim p i x s' i' x' : Inv s -> stas (core s) !! p = Some i -> sps s !! p = Some x ->
  flag (state i) WIFI_AP_STATE = false -> has_left s tim p i x s' i' x' -> zlen tim = zlen (tim_bitmap s) ->
  (forall a, 0 < a -> a <> aid x -> bmp_bit tim a = bmp_bit (tim_bitmap s) a) -> bcn_ok s' -> keeps s s'.
Proof.
  intros HI Hi Hx Hg [] Hz Hbits Hb. pose proof (inv_sta s HI p i x Hi Hx) as Hok.
  destruct (inv_aid s (aid x) HI (po_aid _ _ _ _ Hok)) as [Ht Hd].
  assert (Ht1 : is_aid tim (aid x)) by (unfold is_aid in *; by rewrite Hz).
  split; [split; [|done]|].
  - apply (pre_upd s s' p i x i' x'); try done; [apply HI| |by apply le_ok0; apply Hok].
    constructor; try done.
    + etrans; [|apply (lookup_without (core s) _ p i Hi)].
      * apply lookup_ext; [done|done|]. intros q. rewrite le_sta0. by apply insert_phl with i.
      * intros E. pose proof (inv_group s HI p i E Hi). congruence.
    + intros q k Hq Hk. rewrite le_slots0, decide_False; [done|]. intros [Hpos ->].
      rewrite (po_slot _ _ _ _ Hok Hpos) in Hk. congruence.
    + intros k. rewrite le_slots0, le_dz0.
      destruct (decide (0 < aid x /\ k = aid x - 1)) as [[Hpos ->]|_].
      * intros _. rewrite map_clear_bit by (done || lia).
        replace (aid x - 1 + 1) with (aid x) by lia. by rewrite Z.eqb_refl.
      * intros Hk. pose proof (rd_inv _ _ _ Hk). rewrite map_clear_bit by (done || lia).
        destruct (k + 1 =? aid x); [done|]. by apply (inv_free s HI).
    + by rewrite le_dz0, zlen_map_clear.
    + by rewrite le_tim0, zlen_map_clear.
    + intros a Ha Hne. rewrite le_dz0, le_tim0, !other_bits_clear by (done || lia). auto.
  - apply (flow_moved s s' p x x' (sleep_q x)); try done.
    + eapply Forall_impl; [apply Hok|]. by intros f (? & ? & _).
    + intros pr. by rewrite le_queue0, app_nil_r.
Qed.

Lemma leave_keeps s p i x : Inv s -> stas (core s) !! p = Some i -> sps s !! p = Some x ->
  flag (state i) WIFI_AP_STATE = false ->
  ends (s ← tim_on_sta_leave s p; free_core_stainfo s p) (keeps s).
Proof.
  intros HI Hi Hx Hg. pose proof (inv_sta s HI p i x Hi Hx) as Hok.
  destruct (inv_aid s (aid x) HI (po_aid _ _ _ _ Hok)) as [Ht _]. destruct (po_servqs _ _ _ _ Hok) as [H4 Hv].
  unfold tim_on_sta_leave, get_sta. rewrite Hi, Hx. cbn [mbind res_bind]. rewrite map_is_set by done.
  set (s1 := if bmp_bit (tim_bitmap s) (aid x) then _ else _).
  set (t1 := if bmp_bit (tim_bitmap s) (aid x) then rtw_tim_map_clear (tim_bitmap s) (aid x) else tim_bitmap s).
  assert (Hs1 : core s1 = core s /\ sps s1 = sps s /\ sta_dz_bitmap s1 = sta_dz_bitmap s /\
    sta_aid s1 = sta_aid s /\ max_aid s1 = max_aid s /\ hw_ap s1 = hw_ap s /\ tim_bitmap s1 = t1 /\
    handed s1 = handed s /\ bcn_ok s1).
  { unfold s1, t1. destruct (bmp_bit (tim_bitmap s) (aid x)) eqn:Eb; [|split_and!; try done; apply HI].
    set (s2 := set_tim _ s). destruct (update_beacon_same s2 false) as [[] Hh2]. split_and!; try done.
    apply update_beacon_ok; [cbn; rewrite zlen_map_clear; pose proof (inv_maps s HI); lia|].
    apply (bcn_stale_same s); [done|apply zlen_map_clear|apply bcn_ok_stale, HI]. }
  destruct Hs1 as (E1 & E2 & E3 & E4 & E5 & E6 & E7 & E8 & E9).
  assert (Ht1 : is_aid t1 (aid x) /\ bmp_bit t1 (aid x) = false /\ zlen t1 = zlen (tim_bitmap s) /\
    forall a, 0 < a -> a <> aid x -> bmp_bit t1 a = bmp_bit (tim_bitmap s) a).
  { unfold t1. destruct (bmp_bit (tim_bitmap s) (aid x)) eqn:Eb; [|done]. unfold is_aid.
    rewrite zlen_map_clear, map_clear_bit, Z.eqb_refl by (done || apply Hok). split_and!; try done; try apply Ht.
    intros. by apply other_bits_clear. }
  destruct Ht1 as (Ht1 & Ht2 & Ht3 & Ht4). eapply ends_mono.
  - apply (free_left s1 p i x); rewrite ?E1, ?E2, ?E4, ?E5, ?E6; try done; [apply HI|apply Hok|apply Hok].
  - intros s' (Hb & i' & x' & []). apply (left_keeps s t1 p i x s' i' x'); try done.
    + constructor; try congruence; [by rewrite <- E4|done].
    + apply (bcn_ok_same s1); [done| |done]. rewrite le_tim0, E7. by apply clear_again.
Qed.

(** ** Joining *)

Lemma uapsd_bits_cases info n : uapsd_bits info n = 0 \/ uapsd_bits info n = 3.
Proof. unfold uapsd_bits. case_match; auto. Qed.
Lemma uapsd_all info n : 0 <= n < 4 -> Z.land info 0xf = 0xf -> uapsd_bits info n = 3.
Proof.
  intros Hn H. unfold uapsd_bits. rewrite state_bit by lia.
  apply (f_equal (fun z => Z.testbit z n)) in H. rewrite Z.land_spec in H.
  assert (Z.testbit 15 n = true) as E by (change 15 with (Z.ones 4); apply Z.ones_spec_low; lia).
  rewrite E, andb_true_r in H. by rewrite H.
Qed.

Lemma uapsd_forall (P : Z -> Prop) fl opt info bk vi vo be i : Forall P [bk; vi; vo; be] ->
  forall pr, P (uapsd_of (set_wmm fl opt info bk vi vo be i) pr).
Proof.
  intros H pr. rewrite !Forall_cons in H. destruct H as (? & ? & ? & ? & _). unfold uapsd_of. cbn.
  by repeat case_match.
Qed.

(** A station without a queue, with other categories. *)
Lemma wmm_ps_ok s p i x fl opt info bk vi vo be leg n : ps_ok s p i x -> sleep_q x = [] -> sleepq_ac_len i = 0 ->
  Forall (fun u => u = 0 \/ u = 3) [bk; vi; vo; be] -> (leg = false -> Forall (eq 3) [bk; vi; vo; be]) ->
  ps_ok s p (set_wmm fl opt info bk vi vo be i) (set_legacy leg n x).
Proof.
  intros [] Hq Hac Hu Hall.
  constructor; cbn; rewrite ?Hq; try done.
  - by rewrite po_len0, Hq.
  - constructor.
  - intros He. by inversion He.
  - intros pr. by apply (uapsd_forall (fun u => u = 0 \/ u = 3)).
  - intros _ Hl. split; [|done]. intros pr. symmetry. apply (uapsd_forall (eq 3)). auto.
Qed.

Lemma wmm_keeps s p i x ies n : Inv s -> stas (core s) !! p = Some i -> sps s !! p = Some x ->
  sleep_q x = [] -> sleepq_ac_len i = 0 ->
  forall s', rtw_ap_parse_sta_wmm_ie s p ies n = Ret s' -> keeps s s' /\
    exists i' x', s' = put_sta p i' x' s /\ ps_ok s p i' x' /\ phl_sta i' = phl_sta i /\
      state i' = state i /\ sleepq_ac_len i' = 0 /\ aid x' = aid x /\ sleep_q x' = [] /\
      (has_legacy_ac x' = false -> all_uapsd i').
Proof.
  intros HI Hi Hx Hq Hac s' H. pose proof (inv_sta s HI p i x Hi Hx) as Hok.
  assert (exists fl opt info bk vi vo be leg m,
    s' = put_sta p (set_wmm fl opt info bk vi vo be i) (set_legacy leg m x) s /\
    Forall (fun u => u = 0 \/ u = 3) [bk; vi; vo; be] /\
    (leg = false -> Forall (eq 3) [bk; vi; vo; be])) as (fl & opt & info & bk & vi & vo & be & leg & m & -> & Hu & Hall).
  { unfold rtw_ap_parse_sta_wmm_ie, get_sta in H. rewrite Hi, Hx in H. cbn [mbind res_bind] in H.
    destruct (negb (qos_ap s)); [injection H as <-; do 9 eexists; split; [done|split; [rewrite !Forall_cons, Forall_nil; auto 6|done]]|].
    bind_inv H. destruct x0 as [[pos l]|];
      [|injection H as <-; do 9 eexists; split; [done|split; [rewrite !Forall_cons, Forall_nil; auto 6|done]]].
    bind_inv H. injection H as <-. do 9 eexists. split; [done|]. split.
    - rewrite !Forall_cons, Forall_nil. split_and!; done || apply uapsd_bits_cases.
    - intros Hl. apply negb_false_iff, Z.eqb_eq in Hl. rewrite !Forall_cons, Forall_nil.
      split_and!; done || (symmetry; by apply uapsd_all). }
  pose proof (wmm_ps_ok s p i x fl opt info bk vi vo be leg m Hok Hq Hac Hu Hall) as Hok'.
  destruct (put_keeps s s p i x (set_wmm fl opt info bk vi vo be i) (set_legacy leg m x)) as (HI' & Hsp & Hh); try done.
  split; [split; [done|by apply (flow_same s _ p x (set_legacy leg m x))]|].
  eexists _, _. split_and!; try done. intros Hl pr. symmetry. apply (uapsd_forall (eq 3)). auto.
Qed.

(** The loop stops at a free slot, or without one. *)
Lemma aid_loop_spec s fuel : forall i u i' u', 0 <= i -> i + Z.of_nat fuel = max_aid s ->
  aid_loop fuel s i u = (i', u') ->
  max_aid s <= i' \/ max_num_sta s <= u' \/
  (0 <= i' < max_aid s /\ rd (sta_aid s) ((i' + started_aid s - 1) mod max_aid s) = Some None).
Proof.
  induction fuel as [|fuel IH]; intros i u i' u' Hi Hf; cbn [aid_loop].
  - intros [= <- <-]. left. lia.
  - destruct (Z.ltb_spec i (max_aid s)); [|intros [= <- <-]; auto].
    replace ((i + started_aid s - 1) mod max_aid s + 1 - 1) with ((i + started_aid s - 1) mod max_aid s) by lia.
    destruct (rd (sta_aid s) _) as [[q|]|] eqn:E; [|intros [= <- <-]; auto|];
      (destruct (Z.leb_spec (max_num_sta s) (u + 1)); [intros [= <- <-]; auto|apply IH; lia]).
Qed.

(** A station gets an id nobody has. *)
Lemma aid_keeps s p i x : Inv s -> stas (core s) !! p = Some i -> sps s !! p = Some x ->
  aid x = 0 -> sleep_q x = [] -> sleeps i = false -> 
  ends (rtw_aid_alloc s p) (fun r => keeps s r.1 /\ stas (core r.1) !! p = Some i /\
    sps r.1 !! p = Some (set_aid r.2 x) /\ 0 <= r.2).
Proof.
  intros HI Hi Hx Ha Hq Hs. pose proof (inv_sta s HI p i x Hi Hx) as Hok. pose proof (inv_max s HI) as Hm.
  unfold rtw_aid_alloc, get_sta. rewrite Hi, Hx. cbn [mbind res_bind].
  destruct (aid_loop _ s 0 0) as [k u] eqn:E. apply aid_loop_spec in E; [|lia|lia].
  destruct ((max_aid s <=? k) || (max_num_sta s <=? u)) eqn:Eb; cbn [ends fst snd Z.eqb].
  { replace (set_aid 0 x) with x by (rewrite <- Ha; by destruct x).
    rewrite (put_sta_same s p i x) by (unfold get_sta; by rewrite Hi, Hx). by split_and!; try apply keeps_refl. }
  apply orb_false_iff in Eb as [E1%Z.leb_gt E2%Z.leb_gt].
  destruct E as [?|[?|[Hk Hfree]]]; [lia|lia|]. set (n := (k + started_aid s - 1) mod max_aid s) in *.
  assert (Hn : 0 <= n < max_aid s) by (apply Z.mod_pos_bound; lia).
  destruct (Z.eqb_spec (n + 1) 0); [lia|]. replace (n + 1 - 1) with n by lia.
  set (s' := set_aids _ _ _). split; [|cbn; rewrite !lookup_insert_eq; split_and!; done || lia].
  split; [|by apply (flow_same s s' p x (set_aid (n + 1) x))].
  assert (Hslots : forall j, rd (sta_aid s') j = if decide (j = n) then Some (Some p) else rd (sta_aid s) j).
  { intros j. cbn. rewrite rd_update by lia. case_decide; [|done]. subst j.
    rewrite decide_True; [done|]. pose proof (rd_inv _ _ _ Hfree). unfold zlen. lia. }
  split; [apply (pre_upd s s' p i x i (set_aid (n + 1) x)); try done; [apply HI| |]|
          apply (bcn_ok_same s s'); [done|done|apply HI]].
  - constructor; try done.
    + apply lookup_ext; [done|done|]. intros q. by apply insert_phl with i.
    + cbn. unfold zlen. by rewrite length_insert.
    + intros q j Hqp Hj. rewrite Hslots. case_decide; [subst j; congruence|done].
    + intros j. rewrite Hslots. case_decide; [done|]. apply (inv_free s HI).
  - destruct Hok. constructor; cbn [aid has_legacy_ac sleep_q sleepq_len servqs set_aid]; rewrite ?Hq; try done.
    + cbn. lia.
    + intros _. rewrite Hslots, decide_True by lia. done.
    + intros _. cbn. rewrite Hs. by apply (inv_free s HI).
    + by rewrite po_len0, Hq.
    + constructor.
    + left. lia.
    + intros He. by inversion He.
    + intros H1 H2 H3. destruct (po_all0 H1 H2 H3). by rewrite <- Hq.
Qed.

(** ** Frames of the station

    The receive path has changed the station's state and logged the call before the
    queues are handled ([RxCheck.sta_to_sleep], [RxCheck.sta_awake]).  What the calls
    do then is what they do on their own, but for the log of the receive path. *)

Definition relog (l : list event) (s : ap) : ap := set_stations (set_log l (core s)) (sps s) s.

Lemma relog_same_bcn l s : same_bcn s (relog l s).
Proof. done. Qed.
Lemma inv_relog l s : Inv s -> Inv (relog l s).
Proof.
  intros [[] Hb]. split; [|by apply (bcn_ok_same s)]. constructor; try done.
  - intros p i x Hi Hx. by apply (ps_ok_env s); [apply inv_sta0|..].
  - intros b i Hl. apply inv_group0. rewrite <- Hl. symmetry. by apply lookup_ext.
Qed.
Lemma keeps_relog l s s' : keeps s s' -> keeps s (relog l s').
Proof. intros [HI Hf]. split; [by apply inv_relog|exact Hf]. Qed.

Lemma put_put p i x i' x' s : put_sta p i' x' (put_sta p i x s) = put_sta p i' x' s.
Proof. unfold put_sta. cbn. by rewrite !insert_insert_eq. Qed.
Lemma put_relog p i x l s : put_sta p i x (relog l s) = relog l (put_sta p i x s).
Proof. done. Qed.

Lemma stop_after s p i x l : Inv s -> get_sta s p = Ret (i, x) ->
  stop_sta_xmit (put_sta p (set_state (Z.lor (state i) WIFI_SLEEP_STATE) i) x (relog l s)) p =
    (s' ← stop_sta_xmit s p; Ret (relog l s')).
Proof.
  intros HI Hg. destruct (get_sta_inv _ _ _ _ Hg) as [Hi Hx].
  destruct (po_servqs _ _ _ _ (inv_sta s HI p i x Hi Hx)) as [H4 Hv].
  rewrite (stop_eq s p i x Hg H4 Hv). cbn [mbind res_bind].
  rewrite (stop_eq _ p (set_state (Z.lor (state i) WIFI_SLEEP_STATE) i) x (get_put _ _ _ _) H4 Hv).
  rewrite put_put. cbn [state set_state]. rewrite <- Z.lor_assoc, Z.lor_diag. done.
Qed.

Lemma send_all_put p i x l q : forall s,
  send_all (put_sta p i x (relog l s)) q = put_sta p i x (relog l (send_all s q)).
Proof.
  induction q as [|f q IH]; intros s; [done|]. cbn [send_all foldl]. rewrite put_send.
  assert (rtw_intf_xmitframe_enqueue (relog l s) f = relog l (rtw_intf_xmitframe_enqueue s f)) as ->; [|apply IH].
  unfold rtw_intf_xmitframe_enqueue. cbn. by destruct (phl_ok s) as [|[] ?].
Qed.

(** The station is put back as a whole. *)
Lemma awake_put s p i x l n y : sleeps i = true -> let i0 := set_state (Z.lxor (state i) WIFI_SLEEP_STATE) i in
  awake (put_sta p i0 x (relog l s)) p (set_sleepq_ac_len n i0) y =
    (relog l (awake s p (set_sleepq_ac_len n i) y).1, (awake s p (set_sleepq_ac_len n i) y).2).
Proof.
  intros Hs i0. destruct (wake_bits i Hs) as [Hs0 _]. fold i0 in Hs0. unfold awake.
  change (sleeps (set_sleepq_ac_len n i0)) with (sleeps i0). change (sleeps (set_sleepq_ac_len n i)) with (sleeps i).
  rewrite Hs, Hs0. change (set_state (Z.lxor (state (set_sleepq_ac_len n i)) WIFI_SLEEP_STATE) (set_sleepq_ac_len n i))
    with (set_sleepq_ac_len n i0). cbv zeta.
  match goal with |- context [leave_alive_check ?t _ y] => set (t1 := t) end.
  match goal with |- context [leave_alive_check (set_tim ?m s) _ y] => set (t2 := set_tim m s) end.
  change (leave_alive_check t1 (set_sleepq_ac_len n i0) y) with (leave_alive_check t2 (set_sleepq_ac_len n i0) y).
  destruct (leave_alive_check t2 (set_sleepq_ac_len n i0) y) as [i' x']. cbn [fst snd]. f_equal.
  unfold t1, t2. unfold put_sta. cbn. unfold set_dz, set_maps, set_stations, relog. cbn. by rewrite !insert_insert_eq.
Qed.

Lemma send_relog l s f : rtw_intf_xmitframe_enqueue (relog l s) f = relog l (rtw_intf_xmitframe_enqueue s f).
Proof. unfold rtw_intf_xmitframe_enqueue. cbn. by destruct (phl_ok s) as [|[] ?]. Qed.

Lemma bmc_loop_relog l q : forall s x,
  bmc_loop (relog l s) x q = (relog l (bmc_loop s x q).1, (bmc_loop s x q).2).
Proof. induction q as [|f q IH]; intros s x; [done|]. cbn [bmc_loop]. by rewrite send_relog, IH. Qed.

Lemma flush_relog l s : flush_bmc (relog l s) = (r ← flush_bmc s; Ret (relog l r.1, r.2)).
Proof.
  unfold flush_bmc.
  assert (rtw_get_bcmc_stainfo (core (relog l s)) = rtw_get_bcmc_stainfo (core s)) as -> by by apply lookup_ext.
  destruct (rtw_get_bcmc_stainfo (core s)) as [b|]; [|done]. cbn [sta_dz_bitmap relog set_stations].
  destruct (rtw_tim_map_anyone_be_set_exclude_aid0 _); [done|].
  change (get_sta (relog l s) b) with (get_sta s b). destruct (get_sta s b) as [[i x]| |]; [|done..].
  cbn [mbind res_bind]. rewrite bmc_loop_relog. destruct (bmc_loop s x (sleep_q x)) as [s1 x1]. cbn [fst snd].
  by destruct (sleepq_len x1 =? 0).
Qed.

Lemma update_relog l s t : _update_beacon (relog l s) t = relog l (_update_beacon s t).
Proof.
  unfold _update_beacon. cbn [bstart_bss relog set_stations bcn_mem]. destruct (negb (bstart_bss s)); [done|].
  destruct (match bcn_mem s with [] => _ | _ => _ end) as [m k]. by destruct t.
Qed.

Lemma wakeup_after s p i x l : Inv s -> get_sta s p = Ret (i, x) -> sleeps i = true ->
  wakeup_sta_to_xmit (put_sta p (set_state (Z.lxor (state i) WIFI_SLEEP_STATE) i) x (relog l s)) p =
    (s' ← wakeup_sta_to_xmit s p; Ret (relog l s')).
Proof.
  intros HI Hg Hs. destruct (get_sta_inv _ _ _ _ Hg) as [Hi Hx]. pose proof (inv_sta s HI p i x Hi Hx) as Hok.
  pose proof (queue_short _ _ _ _ Hok) as Hshort. unfold NR_XMITFRAME in Hshort.
  set (i0 := set_state _ i). unfold wakeup_sta_to_xmit. rewrite get_put, Hg. cbn [mbind res_bind].
  rewrite !wakeup_loop_eq by (done || apply Hok || lia). cbn [sleepq_len set_sleepq Z.eqb].
  change (wake_out (enabled i0) (sleepq_ac_len i0)) with (wake_out (enabled i) (sleepq_ac_len i)).
  change (ac_after (enabled i0) (sleepq_ac_len i0)) with (ac_after (enabled i) (sleepq_ac_len i)).
  rewrite send_all_put. set (t := send_all s _). set (n := ac_after _ _ _).
  rewrite (awake_put t p i x l n _ Hs). destruct (awake t p _ _) as [t1 uc]. cbn [fst snd].
  rewrite flush_relog. destruct (flush_bmc t1) as [[t2 bm]| |]; [|done..]. cbn [mbind res_bind fst snd].
  destruct (uc || bm); [|done]. by rewrite update_relog.
Qed.

(** What the receive path makes of the station's state and its log. *)
Lemma rx_state s p i x g e : get_sta s p = Ret (i, x) ->
  set_stations (upd_sta p g (emit e (core s))) (sps s) s = put_sta p (g i) x (relog (log (core s) ++ [e]) s).
Proof.
  intros [Hi Hx]%get_sta_inv. unfold put_sta, relog, upd_sta. cbn. rewrite (insert_id (sps s)) by done.
  assert (alter g p (stas (core s)) = <[p := g i]> (stas (core s))) as ->; [|done].
  apply map_eq. intros q. destruct (decide (q = p)) as [->|].
  - by rewrite lookup_alter_eq, lookup_insert_eq, Hi.
  - by rewrite lookup_alter_ne, lookup_insert_ne.
Qed.

Lemma rx_events s e g p : drop (length (log (core s))) (log (upd_sta p g (emit e (core s)))) = [e].
Proof. cbn. apply drop_app_length. Qed.

(** A frame with the frame control field. *)
Definition control_ok (f : recv_frame) : Prop :=
  Forall is_byte (buf f) /\ 0 <= rx_data f /\ rx_data f + 2 <= zlen (buf f).

Lemma relogged s l x : ends x (keeps s) -> ends (s' ← x; Ret (relog l s')) (keeps s).
Proof. intros H. eapply ends_bind; [exact H|]. intros s' Hk. by apply keeps_relog. Qed.

Lemma no_event s : after_rx s (Ret (core s)) = Ret s.
Proof.
  unfold after_rx. cbn [mbind res_bind]. rewrite drop_ge by done. cbn. by destruct s.
Qed.

Lemma rx_pwrbit_keeps s f p x : Inv s -> sps s !! p = Some x -> control_ok f -> ends (rx_pwrbit s f p) (keeps s).
Proof.
  intros HI Hx (Hb & Hd & Hl). destruct (inv_get s p x HI Hx) as (i & Hi & Hg & Hok).
  unfold rx_pwrbit, process_pwrbit_data, sta_at, frame_control. rewrite Hi. cbn [mbind res_bind].
  pose proof (ends_le16 (buf f) (rx_data f) Hb Hd Hl) as Hw.
  destruct (get_le16 (buf f) (rx_data f)) as [w| |]; [|done..]. cbn [mbind res_bind].
  change (flag (state i) WIFI_SLEEP_STATE) with (sleeps i).
  destruct (flag w _PWRMGT_), (sleeps i) eqn:Es; cbn [negb]; rewrite ?no_event; try by apply keeps_refl.
  - unfold after_rx, sta_to_sleep. cbn [mbind res_bind]. rewrite rx_events. cbn [run_events run_event].
    rewrite (rx_state s p i x _ _ Hg), (stop_after s p i x _ HI Hg).
    eapply ends_bind; [apply relogged; by eapply stop_keeps|]. intros s' Hs'. exact Hs'.
  - unfold after_rx, sta_awake. cbn [mbind res_bind]. rewrite rx_events. cbn [run_events run_event].
    rewrite (rx_state s p i x _ _ Hg). cbv beta. change (flag (state i) WIFI_SLEEP_STATE) with (sleeps i). rewrite Es.
    rewrite (wakeup_after s p i x _ HI Hg Es).
    eapply ends_bind; [apply relogged; by eapply wakeup_keeps|]. intros s' Hs'. exact Hs'.
Qed.

Lemma trigger_keeps s f p x : Inv s -> sps s !! p = Some x -> ends (rx_trigger s f p) (keeps s).
Proof.
  intros HI Hx. destruct (inv_get s p x HI Hx) as (i & Hi & Hg & Hok).
  unfold rx_trigger, process_wmmps_data, sta_at. rewrite Hi. cbn [mbind res_bind].
  repeat (destruct (_ : bool); [rewrite no_event; by apply keeps_refl|]).
  assert (Hev : forall e, set_stations (emit e (core s)) (sps s) s = relog (log (core s) ++ [e]) s) by done.
  destruct (0 <? sleepq_ac_len i).
  - unfold after_rx. cbn [mbind res_bind]. rewrite Hev. cbn [log emit set_log]. rewrite drop_app_length.
    cbn [run_events run_event]. eapply ends_bind.
    + eapply (deliver_keeps (relog _ s) p x); [by apply inv_relog|done].
    + intros s' [HI' Hf]. split; [done|exact Hf].
  - destruct (po_addr _ _ _ _ Hok) as [[ps m] Hp]. rewrite Hp. unfold after_rx. cbn [mbind res_bind].
    rewrite Hev. cbn [log emit set_log]. rewrite drop_app_length. cbn. by apply keeps_relog, keeps_refl.
Qed.

End ApPsInv.
