(* ===== verification/ApPsSent.v ===== *)
(** * What became of the frames for stations that save power

    Phl answers for each frame it is given: it takes it, or refuses it, and then
    [rtw_intf_xmitframe_enqueue] frees it.  This file follows these answers through
    the operations of [ApPs]: every operation but the one that removes a station
    gives some frames to phl, in an order, and what is sent and what is freed is
    decided by the answers alone.  Nothing is assumed of the state.  Removing a
    station frees what was kept for it. *)

From stdpp Require Import gmap.
From S2P Require Import Prelude Bytes RxFrame RxState RxCheck Tim ApPs ApPsInv.

Module ApPsSent.
Import RxFrame RxState RxCheck Tim ApPs ApPsInv.

(** What was sent and freed. *)
Definition about_frame (e : tx_event) : bool := match e with Sent _ | Freed _ => true | _ => false end.
Definition frame_log (s : ap) : list tx_event := filter (fun e => about_frame e = true) (txlog s).
Definition sent_of (e : tx_event) : option xmit_frame := match e with Sent f => Some f | _ => None end.
Definition sent (s : ap) : list xmit_frame := omap sent_of (txlog s).

(** The frames [l] with the answers [ok]; phl takes all when there are no more. *)
Fixpoint answered (ok : list bool) (l : list xmit_frame) : list tx_event :=
  match l, ok with
  | [], _ => []
  | f :: l, [] => Sent f :: answered [] l
  | f :: l, b :: ok => (if b : bool then Sent f else Freed f) :: answered ok l
  end.

(** From [s] to [s'] the frames [l] were given to phl. *)
Definition given (l : list xmit_frame) (s s' : ap) : Prop :=
  frame_log s' = frame_log s ++ answered (phl_ok s) l /\ phl_ok s' = drop (length l) (phl_ok s).
Definition gives (s s' : ap) : Prop := exists l, given l s s'.

Lemma answered_app ok l1 l2 : answered ok (l1 ++ l2) = answered ok l1 ++ answered (drop (length l1) ok) l2.
Proof.
  revert ok. induction l1 as [|f l1 IH]; intros ok; [done|]. destruct ok as [|b ok]; cbn; rewrite IH; [|done].
  by rewrite drop_nil.
Qed.

Lemma given_app l1 l2 s1 s2 s3 : given l1 s1 s2 -> given l2 s2 s3 -> given (l1 ++ l2) s1 s3.
Proof.
  intros [H1 K1] [H2 K2]. split; [by rewrite H2, H1, K1, answered_app, app_assoc|].
  by rewrite K2, K1, drop_drop, length_app.
Qed.

#[export] Instance gives_preorder : PreOrder gives.
Proof.
  split; [intros s; exists []; by split; cbn; rewrite ?app_nil_r|].
  intros s1 s2 s3 [l1 H1] [l2 H2]. exists (l1 ++ l2). by eapply given_app.
Qed.

(** A state with the same log and the same answers to come. *)
Lemma gives_same s s' : frame_log s' = frame_log s -> phl_ok s' = phl_ok s -> gives s s'.
Proof. intros H1 H2. exists []. by split; cbn; rewrite ?app_nil_r. Qed.

Lemma omap_frames {A} (g : tx_event -> option A) (l : list tx_event) :
  (forall e, about_frame e = false -> g e = None) ->
  omap g (filter (fun e => about_frame e = true) l) = omap g l.
Proof.
  intros Hg. induction l as [|e l IH]; [done|]. destruct (about_frame e) eqn:E.
  - rewrite filter_cons_True by done. cbn. by rewrite IH.
  - rewrite filter_cons_False by congruence. cbn. by rewrite IH, Hg.
Qed.
Lemma handed_log s : handed s = omap handed_of (frame_log s).
Proof. symmetry. apply omap_frames. by intros []. Qed.
Lemma sent_log s : sent s = omap sent_of (frame_log s).
Proof. symmetry. apply omap_frames. by intros []. Qed.
Lemma nothing_sent s : handed s = [] -> sent s = [].
Proof. unfold handed, sent. induction (txlog s) as [|[] l IH]; cbn; [done|done|done|exact IH|exact IH]. Qed.
Lemma handed_answered ok l : omap handed_of (answered ok l) = l.
Proof. revert ok. induction l as [|f l IH]; intros ok; [done|]. destruct ok as [|[] ok]; cbn; by rewrite IH. Qed.
Lemma sent_answered l : omap sent_of (answered [] l) = l.
Proof. induction l as [|f l IH]; [done|]. cbn. by rewrite IH. Qed.

(** The frames given are those handed over. *)
Lemma given_handed s s' l : gives s s' -> handed s' = handed s ++ l -> given l s s'.
Proof.
  intros (out & H1 & H2) Hh. rewrite !handed_log, H1, omap_app, handed_answered in Hh.
  by apply app_inv_head in Hh as <-.
Qed.

(** [x] gives [P], if it has a result. *)
Definition if_ret {A} (x : res A) (P : A -> Prop) : Prop := match x with Ret a => P a | _ => True end.

Lemma if_bind {A B} (x : res A) (g : A -> res B) P : if_ret x (fun a => if_ret (g a) P) -> if_ret (x ≫= g) P.
Proof. by destruct x. Qed.
Lemma if_mono {A} (x : res A) (P Q : A -> Prop) : if_ret x P -> (forall a, P a -> Q a) -> if_ret x Q.
Proof. destruct x; cbn; auto. Qed.
Lemma if_any {A B} (x : res A) (g : A -> res B) P : (forall a, if_ret (g a) P) -> if_ret (x ≫= g) P.
Proof. destruct x; cbn; auto. Qed.
Lemma if_then {A} (x : res A) (g : A -> res ap) (st : A -> ap) s : if_ret x (fun a => gives s (st a)) ->
  (forall a, if_ret (g a) (gives (st a))) -> if_ret (x ≫= g) (gives s).
Proof.
  intros Hx Hg. apply if_bind. eapply if_mono; [exact Hx|]. intros a Ha. eapply if_mono; [apply Hg|].
  intros s' Hs'. etrans; [exact Ha|exact Hs'].
Qed.

(** ** The operations *)

Lemma enqueue_given s f : given [f] s (rtw_intf_xmitframe_enqueue s f).
Proof.
  unfold rtw_intf_xmitframe_enqueue, given, frame_log. destruct (phl_ok s) as [|[] l] eqn:E; cbn;
    (split; [by rewrite filter_app|by rewrite ?E]).
Qed.
Lemma enqueue_gives s f : gives s (rtw_intf_xmitframe_enqueue s f).
Proof. exists [f]. apply enqueue_given. Qed.

Lemma beacon_gives s t : gives s (_update_beacon s t).
Proof.
  unfold _update_beacon. destruct (negb _); [done|]. destruct (match bcn_mem s with [] => _ | _ => _ end) as [m l].
  destruct t; apply gives_same; try done. unfold frame_log. cbn. by rewrite filter_app, app_nil_r.
Qed.

Lemma null_gives s a : gives s (tx (IssueNull a) s).
Proof. apply gives_same; [|done]. unfold frame_log. cbn. by rewrite filter_app, app_nil_r. Qed.

Create HintDb gives.
#[local] Hint Resolve enqueue_gives beacon_gives null_gives : gives.

(** Steps that give a state with another station, map or table. *)
Ltac moved := (reflexivity || (apply gives_same; reflexivity) || eauto with gives).

Lemma buffer_gives s p i x f : gives s (buffer_frame s p i x f).
Proof.
  unfold buffer_frame. destruct (announced _ _ _); [|moved]. case_match; [|moved].
  etrans; [|apply beacon_gives]. moved.
Qed.

Lemma sleeping_gives s f : if_ret (xmitframe_enqueue_for_sleeping_sta s f) (fun r => gives s r.1.1).
Proof.
  unfold xmitframe_enqueue_for_sleeping_sta. destruct (negb _); [by cbn|].
  destruct (rtw_get_stainfo _ _) as [p|]; [|by cbn]. case_match; [by cbn|]. apply if_any. intros [i x].
  repeat (case_match; [by cbn|]). case_match; [cbn; apply buffer_gives|by cbn].
Qed.

Lemma core_tx_gives s f : if_ret (core_tx_per_packet s f) (gives s).
Proof.
  unfold core_tx_per_packet. apply (if_then _ _ (fun r => r.1.1)); [apply sleeping_gives|].
  intros [[s1 f1] [|]]; cbn; moved.
Qed.

Lemma count_down_gives n s p : if_ret (count_down n s p) (gives s).
Proof. unfold count_down. apply if_any. intros [i x]. cbn. moved. Qed.

Lemma dequeue_loop_gives p q : forall s st, if_ret (dequeue_loop s p q st) (fun r => gives s r.1).
Proof.
  induction q as [|f q IH]; intros s st; cbn [dequeue_loop]; [by cbn|]. apply if_bind.
  eapply if_mono; [apply sleeping_gives|]. intros [[s1 f1] [|]] H1; cbn [fst] in H1.
  - apply if_bind. eapply if_mono; [apply count_down_gives|]. intros s2 H2.
    eapply if_mono; [apply IH|]. intros r H3. etrans; [exact H1|]. by etrans; [exact H2|].
  - eapply if_mono; [apply IH|]. intros r H3. etrans; [exact H1|exact H3].
Qed.

Lemma dequeue_gives s p n : if_ret (dequeue_xmitframes_to_sleeping_queue s p n) (gives s).
Proof.
  unfold dequeue_xmitframes_to_sleeping_queue. apply if_any. intros [i x]. case_match; [|by cbn].
  apply (if_then _ _ fst); [apply dequeue_loop_gives|]. intros [s1 st]. apply if_any. intros [i1 x1]. cbn. moved.
Qed.

Lemma stop_gives s p : if_ret (stop_sta_xmit s p) (gives s).
Proof.
  unfold stop_sta_xmit. apply if_any. intros [i x]. set (s1 := set_dz _ _).
  assert (H1 : gives s s1) by moved.
  assert (H : if_ret (s ← dequeue_xmitframes_to_sleeping_queue s1 p 0;
    s ← dequeue_xmitframes_to_sleeping_queue s p 1; s ← dequeue_xmitframes_to_sleeping_queue s p 2;
    dequeue_xmitframes_to_sleeping_queue s p 3) (gives s1)).
  { do 3 (apply (if_then _ _ id); [apply dequeue_gives|]; intros ?). apply dequeue_gives. }
  eapply if_mono; [exact H|]. intros s2 H2. etrans; [exact H1|exact H2].
Qed.

Lemma wakeup_loop_gives q : forall s i x, gives s (wakeup_loop s i x q).1.1.
Proof.
  induction q as [|f q IH]; intros s i x; [by cbn|]. cbn [wakeup_loop]. etrans; [|apply IH]. moved.
Qed.
Lemma bmc_loop_gives q : forall s x, gives s (bmc_loop s x q).1.
Proof. induction q as [|f q IH]; intros s x; [by cbn|]. cbn [bmc_loop]. etrans; [|apply IH]. moved. Qed.

Lemma flush_gives s : if_ret (flush_bmc s) (fun r => gives s r.1).
Proof.
  unfold flush_bmc. destruct (rtw_get_bcmc_stainfo _) as [b|]; [|by cbn]. case_match; [by cbn|]. apply if_any.
  intros [i x]. pose proof (bmc_loop_gives (sleep_q x) s x) as Hb. destruct (bmc_loop _ _ _) as [s1 x1].
  cbn [fst] in Hb. case_match; cbn; (etrans; [exact Hb|moved]).
Qed.

Lemma awake_gives s p i x : gives s (awake s p i x).1.
Proof. unfold awake. destruct (leave_alive_check _ _ _). cbn. moved. Qed.

Lemma wakeup_gives s p : if_ret (wakeup_sta_to_xmit s p) (gives s).
Proof.
  unfold wakeup_sta_to_xmit. apply if_any. intros [i x].
  pose proof (wakeup_loop_gives (sleep_q x) s i x) as H. destruct (wakeup_loop _ _ _ _) as [[s1 i1] x1].
  cbn [fst] in H. pose proof (awake_gives s1 p i1 x1) as H1.
  assert (H2 : gives s (if sleepq_len x1 =? 0 then awake s1 p i1 x1 else (put_sta p i1 x1 s1, false)).1).
  { case_match; (etrans; [exact H|]); [exact H1|moved]. }
  destruct (if sleepq_len x1 =? 0 then _ else _) as [s2 uc]. cbn [fst] in H2. apply if_bind.
  eapply if_mono; [apply flush_gives|]. intros [s3 bm] H3. cbn in *. case_match; (etrans; [exact H2|]; etrans; [exact H3|]); moved.
Qed.

Lemma delivery_loop_gives q : forall s i x kept, gives s (delivery_loop s i x kept q).1.1.
Proof.
  induction q as [|f q IH]; intros s i x kept; [by cbn|]. cbn [delivery_loop]. case_match; [apply IH|].
  etrans; [|apply IH]. etrans; [apply enqueue_gives|]. case_match; [|by cbn]. etrans; [|apply beacon_gives]. moved.
Qed.

Lemma deliver_gives s p : if_ret (xmit_delivery_enabled_frames s p) (gives s).
Proof.
  unfold xmit_delivery_enabled_frames. apply if_any. intros [i x].
  pose proof (delivery_loop_gives (sleep_q x) s i x []) as H. destruct (delivery_loop _ _ _ _ _) as [[s1 i1] x1].
  cbn [fst] in H. cbn. etrans; [exact H|moved].
Qed.

Lemma clear_tim_gives a s : gives s (clear_tim a s).
Proof. unfold clear_tim. etrans; [|apply beacon_gives]. moved. Qed.

Lemma poll_gives s b pr p : if_ret (rtw_proccess_pspoll s b pr p) (fun r => gives s r.1).
Proof.
  unfold rtw_proccess_pspoll. apply if_any. intros [i x]. apply if_any. intros a.
  case_match; [by cbn|]. case_match; [by cbn|]. destruct (leave_alive_check _ _ _) as [i1 x1].
  case_match; [|cbn; moved]. destruct (phl_sta i1) as [[ph addr]|]; [|by cbn]. cbn. unfold poll_frame.
  assert (Hp : forall y, gives s (put_sta p i1 y s)) by (intros; moved).
  destruct (sleep_q x1) as [|f q].
  - case_match; [|apply Hp]. etrans; [|apply clear_tim_gives]. case_match; [|apply Hp].
    etrans; [apply Hp|apply null_gives].
  - case_match; [etrans; [|apply clear_tim_gives]|]; (etrans; [apply Hp|apply enqueue_gives]).
Qed.

Lemma alive_gives s p : if_ret (alive_check s p) (gives s).
Proof.
  unfold alive_check. apply if_any. intros [i x]. case_match; [|by cbn]. cbn.
  etrans; [|apply beacon_gives]. moved.
Qed.
Lemma digest_gives s p : if_ret (digest_sleepq s p) (gives s).
Proof. unfold digest_sleepq. apply if_any. intros [i x]. case_match; [apply wakeup_gives|by cbn]. Qed.

Lemma event_gives s e : if_ret (run_event s e) (gives s).
Proof. destruct e; cbn [run_event]; try by cbn. - apply stop_gives. - apply wakeup_gives. - apply deliver_gives. Qed.
Lemma events_gives l : forall s, if_ret (run_events s l) (gives s).
Proof.
  induction l as [|e l IH]; intros s; cbn [run_events]; [by cbn|].
  apply (if_then _ _ id); [apply event_gives|]. intros s1. apply IH.
Qed.
Lemma rx_gives s r : if_ret (after_rx s r) (gives s).
Proof.
  unfold after_rx. apply if_any. intros ad. eapply if_mono; [apply events_gives|]. intros s' H.
  etrans; [|exact H]. moved.
Qed.

Lemma wmm_gives s p ies n : if_ret (rtw_ap_parse_sta_wmm_ie s p ies n) (gives s).
Proof.
  unfold rtw_ap_parse_sta_wmm_ie. apply if_any. intros [i x]. case_match; [cbn; moved|]. apply if_any.
  intros [[pos l]|]; [|cbn; moved]. apply if_any. intros info. cbn. moved.
Qed.
Lemma aid_gives s p : if_ret (rtw_aid_alloc s p) (fun r => gives s r.1).
Proof.
  unfold rtw_aid_alloc. apply if_any. intros [i x]. destruct (aid_loop _ _ _ _) as [k u]. cbn.
  case_match; moved.
Qed.

(** ** Leaving *)

Lemma free_queue_log q : forall s, frame_log (rtw_free_xmitframe_queue s q) = frame_log s ++ (Freed <$> q) /\
  phl_ok (rtw_free_xmitframe_queue s q) = phl_ok s.
Proof.
  unfold rtw_free_xmitframe_queue. induction q as [|f q IH]; intros s; cbn [foldl]; [by rewrite app_nil_r|].
  destruct (IH (tx (Freed f) s)) as [H1 H2]. split; [|exact H2]. rewrite H1. unfold frame_log. cbn.
  by rewrite filter_app, <- app_assoc.
Qed.

Lemma release_log s p x : frame_log (release_aid s p x).1 = frame_log s /\ phl_ok (release_aid s p x).1 = phl_ok s.
Proof. unfold release_aid. destruct (negb (hw_ap s)); [done|]. by case_match. Qed.

(** Nothing but frames of the station is freed. *)
Definition frees (l : list xmit_frame) (s s' : ap) : Prop :=
  frame_log s' = frame_log s ++ (Freed <$> l) /\ phl_ok s' = phl_ok s.

Lemma leave_frees s p i x : get_sta s p = Ret (i, x) -> Forall (fun v => sta_pending v = []) (servqs x) ->
  if_ret (s ← tim_on_sta_leave s p; free_core_stainfo s p) (frees (sleep_q x) s).
Proof.
  intros Hg Hv. unfold tim_on_sta_leave. rewrite Hg. cbn [mbind res_bind].
  set (s1 := if rtw_tim_map_is_set _ _ then _ else _).
  assert (H1 : frame_log s1 = frame_log s /\ phl_ok s1 = phl_ok s /\ get_sta s1 p = Ret (i, x)).
  { unfold s1. destruct (rtw_tim_map_is_set _ _); [|done]. unfold _update_beacon. destruct (negb _); [done|].
    by destruct (match bcn_mem _ with [] => _ | _ => _ end). }
  clearbody s1. destruct H1 as (L1 & K1 & G1). unfold free_core_stainfo. rewrite G1. cbn [mbind res_bind].
  rewrite free_servqs_empty by done. set (sA := set_stations _ _ s1).
  destruct (free_queue_log (sleep_q x) sA) as [L2 K2]. unfold frees.
  set (sC := set_accnt _ _). set (y := set_expire_to 0 _). destruct (release_log sC p y) as [L3 K3].
  destruct (release_aid sC p y) as [sD z]. cbn [fst] in L3, K3. cbn [if_ret].
  split; [|etrans; [exact K3|]; etrans; [exact K2|exact K1]].
  etrans; [exact L3|]. etrans; [exact L2|].
  change (frame_log sA) with (frame_log s1). by rewrite L1.
Qed.
End ApPsSent.
