(* ===== verification/ApPsRun.v ===== *)
(** * Runs of an access point with sleeping stations

    The operations of [ApPs] in any order: every run keeps the invariant of
    [ApPsInv], announces what is waiting and gives each station its frames in order;
    and what a station gets when it wakes up or sends a trigger. *)

From stdpp Require Import gmap.
From S2P Require Import Prelude Bytes Ies RxFrame RxState RxCheck RxSafe Tim ApPs ApPsInv ApPsSent.

Module ApPsRun.
Import Ies RxFrame RxState RxCheck RxSafe Tim ApPs ApPsInv ApPsSent.

(** ** Operations

    A frame for a station; a data frame from one, for its power management bit and
    as a trigger; a PS-Poll; the two parts of the watchdog; a station that leaves; one
    that associates.  [pr] is the traffic identifier in the attributes of the
    structure of the PS-Poll. *)
Inductive op :=
| Tx (f : xmit_frame)
| PwrBit (f : recv_frame) (p : Z)
| Trigger (f : recv_frame) (p : Z)
| PsPoll (b : list Z) (pr p : Z)
| Silent (p : Z)
| Digest (p : Z)
| Leave (p : Z)
| Join (p : Z) (ies : list Z) (n : Z).

(** What [ap_free_sta] and [rtw_free_stainfo] do in this order. *)
Definition leave (s : ap) (p : Z) : res ap := s ← tim_on_sta_leave s p; free_core_stainfo s p.

(** The steps of [OnAssocReq] and [update_sta_info_apmode] about these fields: the
    WMM element, an id unless there is one, the state. *)
Definition join (s : ap) (p : Z) (ies : list Z) (n : Z) : res ap :=
  s ← rtw_ap_parse_sta_wmm_ie s p ies n;
  '(_, x) ← get_sta s p;
  '(s, a) ← (if 0 <? aid x then Ret (s, aid x) else rtw_aid_alloc s p);
  '(i, x) ← get_sta s p;
  Ret (if a =? 0 then s else put_sta p (set_state (Z.lor (state i) WIFI_ASOC_STATE) i) x s).

Definition exec (s : ap) (o : op) : res ap :=
  match o with
  | Tx f => core_tx_per_packet s f
  | PwrBit f p => rx_pwrbit s f p
  | Trigger f p => rx_trigger s f p
  | PsPoll b pr p => r ← rtw_proccess_pspoll s b pr p; Ret r.1
  | Silent p => alive_check s p
  | Digest p => digest_sleepq s p
  | Leave p => leave s p
  | Join p ies n => join s p ies n
  end.

Fixpoint run (s : ap) (l : list op) : res ap :=
  match l with
  | [] => Ret s
  | o :: l => s ← exec s o; run s l
  end.

(** What the rest of the driver takes care of, or should.  A frame to be sent is not in
    a queue already, its station is the one its address leads to, and it is not the
    group's ([fresh]).  The group's station stays.  Received frames have the header they
    were classified by.  A station that associates is awake, with no frames and no count
    from an earlier association: the driver does not see to that, and
    [asleep_before_association], [counter_underflow] and [asleep_again] show what comes of
    it.  Behind the elements of its request there are eight octets more in the buffer:
    the search compares six and the QoS information is the ninth of what it finds,
    whatever the length of the element. *)
Definition known (s : ap) (p : Z) : Prop := is_Some (sps s !! p).
Definition legal (s : ap) (o : op) : Prop :=
  match o with
  | Tx f => fresh s f
  | PwrBit f p => known s p /\ control_ok f
  | Trigger _ p | Silent p | Digest p => known s p
  | PsPoll b _ p => known s p /\ poll_ok b
  | Leave p => exists i x, get_sta s p = Ret (i, x) /\ flag (state i) WIFI_AP_STATE = false
  | Join p ies n => (exists i x, get_sta s p = Ret (i, x) /\ sleep_q x = [] /\ sleeps i = false /\
      sleepq_ac_len i = 0) /\ Forall is_byte ies /\ n + 8 <= zlen ies
  end.
Fixpoint legal_run (s : ap) (l : list op) : Prop :=
  match l with
  | [] => True
  | o :: l => legal s o /\ forall s', exec s o = Ret s' -> legal_run s' l
  end.

(** What the operations bring for a station, with a priority. *)
Definition arrivals (p pr : Z) (l : list op) : list Z :=
  l ≫= fun o => match o with Tx f => arrives p pr f | _ => [] end.

(** ** A station that associates *)

Lemma wmm_search b n : Forall is_byte b -> n + 8 <= zlen b -> forall fuel cnt, 0 <= cnt ->
  (Z.to_nat (n - cnt) < fuel)%nat ->
  ends (get_ie_ex_loop fuel b 0 cnt n 221 (Some WMM_IE))
    (fun o => match o with Some (pos, _) => 0 <= pos < n | None => True end).
Proof.
  intros Hb Hn. induction fuel as [|fuel IH]; intros cnt Hc Hf; [lia|]. cbn [get_ie_ex_loop].
  destruct (Z.ltb_spec cnt n); [|by cbn]. eapply ends_bind; [apply ends_byte; [lia|done]|]. intros x _.
  eapply (ends_bind _ _ (fun _ => True)).
  { destruct (221 =? x); [|done]. cbn [oui_matches].
    destruct (bytes_match_some b (0 + cnt + 2) WMM_IE) as [m ->]; [lia|change (zlen WMM_IE) with 6; lia|done]. }
  intros m _. eapply ends_bind; [apply ends_byte; [lia|done]|]. intros l Hl. unfold is_byte in Hl.
  destruct m; [cbn; lia|apply IH; lia].
Qed.

Lemma wmm_ends s p i x ies n : get_sta s p = Ret (i, x) -> Forall is_byte ies -> n + 8 <= zlen ies ->
  ends (rtw_ap_parse_sta_wmm_ie s p ies n) (fun _ => True).
Proof.
  intros Hg Hb Hn. unfold rtw_ap_parse_sta_wmm_ie. rewrite Hg. cbn [mbind res_bind].
  destruct (negb (qos_ap s)); [done|].
  eapply (ends_bind _ _ (fun o => match o with Some (pos, _) => 0 <= pos < n | None => True end)).
  - unfold rtw_get_ie_ex. destruct (n <=? 0) eqn:E; [done|]. apply wmm_search; try done. unfold ie_fuel. lia.
  - intros [[pos l]|] Hp; [|done]. eapply ends_bind; [apply ends_byte; [lia|done]|]. by intros.
Qed.

Lemma asoc_bits i : let i' := set_state (Z.lor (state i) WIFI_ASOC_STATE) i in
  sleeps i' = sleeps i /\ flag (state i') WIFI_ASOC_STATE = true /\
  flag (state i') WIFI_AP_STATE = flag (state i) WIFI_AP_STATE.
Proof. split_and!; by state_bits. Qed.

(** The bit for the association is the last change. *)
Lemma asoc_keeps s p i x : Inv s -> stas (core s) !! p = Some i -> sps s !! p = Some x -> 0 < aid x ->
  sleep_q x = [] -> sleepq_ac_len i = 0 -> (has_legacy_ac x = false -> all_uapsd i) ->
  keeps s (put_sta p (set_state (Z.lor (state i) WIFI_ASOC_STATE) i) x s).
Proof.
  intros HI Hi Hx Ha Hq Hac Hall. destruct (asoc_bits i) as (G1 & G2 & G3).
  set (i' := set_state _ i) in *.
  destruct (put_keeps s s p i x i' x) as (HI' & Hsp & Hh); try done.
  - destruct (inv_sta s HI p i x Hi Hx). constructor; rewrite ?G1, ?G2, ?G3; try done.
    + auto.
    + intros _ Hl. split; [by apply Hall|]. by rewrite Hq.
  - split; [done|]. by apply (flow_same s _ p x x).
Qed.

Lemma keeps_twice s1 s2 s3 : keeps s1 s2 -> keeps s2 s3 -> keeps s1 s3.
Proof. intros [_ H1] [HI H2]. split; [done|]. intros q pr. by rewrite H2, H1. Qed.

Lemma join_keeps s p i x ies n : Inv s -> get_sta s p = Ret (i, x) -> sleep_q x = [] -> sleeps i = false ->
  sleepq_ac_len i = 0 -> ends (rtw_ap_parse_sta_wmm_ie s p ies n) (fun _ => True) ->
  ends (join s p ies n) (keeps s).
Proof.
  intros HI Hg Hq Hs Hac Hp. destruct (get_sta_inv _ _ _ _ Hg) as [Hi Hx]. unfold join.
  destruct (rtw_ap_parse_sta_wmm_ie s p ies n) as [s1| |] eqn:E; try done. cbn [mbind res_bind].
  destruct (wmm_keeps s p i x ies n HI Hi Hx Hq Hac s1 E) as
    (Hk1 & i1 & x1 & -> & _ & _ & Hst & Hac1 & Ha1 & Hq1 & Hall). pose proof (proj1 Hk1) as HI1.
  assert (Hs1 : sleeps i1 = false) by (unfold sleeps in *; by rewrite Hst).
  set (s1 := put_sta p i1 x1 s) in *. assert (Hg1 : get_sta s1 p = Ret (i1, x1)) by apply get_put.
  rewrite Hg1. cbn [mbind res_bind].
  assert (Hi1 : stas (core s1) !! p = Some i1) by (cbn; by rewrite lookup_insert_eq).
  assert (Hx1 : sps s1 !! p = Some x1) by (cbn; by rewrite lookup_insert_eq).
  pose proof (po_aid _ _ _ _ (inv_sta s1 HI1 p i1 x1 Hi1 Hx1)) as Ha.
  destruct (Z.ltb_spec 0 (aid x1)); cbn [mbind res_bind].
  - rewrite Hg1. cbn [mbind res_bind ends]. destruct (Z.eqb_spec (aid x1) 0); [lia|].
    eapply keeps_twice; [exact Hk1|]. by apply asoc_keeps.
  - eapply ends_bind; [apply (aid_keeps s1 p i1 x1); try done; lia|].
    intros [s2 a] (Hk2 & Hi2 & Hx2 & Ha2). cbn [fst snd] in *. unfold get_sta. rewrite Hi2, Hx2.
    cbn [mbind res_bind ends]. destruct (Z.eqb_spec a 0); [by eapply keeps_twice|].
    eapply keeps_twice; [exact Hk1|]. eapply keeps_twice; [exact Hk2|].
    apply asoc_keeps; try done; [apply Hk2|cbn; lia].
Qed.

(** ** Runs *)

Lemma exec_keeps s o : Inv s -> legal s o -> ends (exec s o) (fun s' =>
  Inv s' /\ forall p pr, flow s' p pr = flow s p pr ++ arrivals p pr [o]).
Proof.
  intros HI Hl.
  assert (Hk : forall s', keeps s s' -> Inv s' /\ forall p pr, flow s' p pr = flow s p pr ++ [])
    by (intros s' [H1 H2]; split; [done|]; intros; by rewrite app_nil_r).
  destruct o as [f|f p|f p|b pr p|p|p|p|p ies n]; cbn [exec]; unfold arrivals; cbn [mbind list_bind app].
  - eapply ends_mono; [by apply tx_keeps|]. intros s' [H1 H2]. split; [done|]. intros. by rewrite app_nil_r, H2.
  - destruct Hl as [[x Hx] Hc]. eapply ends_mono; [by eapply rx_pwrbit_keeps|exact Hk].
  - destruct Hl as [x Hx]. eapply ends_mono; [by eapply trigger_keeps|exact Hk].
  - destruct Hl as [[x Hx] Hb]. eapply ends_bind; [by eapply (poll_keeps s p x b pr)|].
    intros [s' v] H. by apply Hk.
  - destruct Hl as [x Hx]. eapply ends_mono; [by eapply alive_check_keeps|exact Hk].
  - destruct Hl as [x Hx]. eapply ends_mono; [by eapply digest_keeps|exact Hk].
  - destruct Hl as (i & x & Hg & Hgr). apply get_sta_inv in Hg as [Hi Hx].
    eapply ends_mono; [by eapply leave_keeps|exact Hk].
  - destruct Hl as ((i & x & Hg & Hq & Hs & Hac) & Hb & Hn). eapply ends_mono; [|exact Hk].
    eapply join_keeps; try done. by eapply wmm_ends.
Qed.

Lemma arrivals_cons p pr o l : arrivals p pr (o :: l) = arrivals p pr [o] ++ arrivals p pr l.
Proof. unfold arrivals. cbn. by rewrite app_nil_r. Qed.

Lemma run_keeps l : forall s, Inv s -> legal_run s l -> ends (run s l) (fun s' =>
  Inv s' /\ forall p pr, flow s' p pr = flow s p pr ++ arrivals p pr l).
Proof.
  induction l as [|o l IH]; intros s HI Hl; cbn [run].
  - split; [done|]. intros. unfold arrivals. cbn. by rewrite app_nil_r.
  - destruct Hl as [Ho Hl]. pose proof (exec_keeps s o HI Ho) as He.
    destruct (exec s o) as [s1| |]; try done. destruct He as [HI1 Hf1]. cbn [mbind res_bind].
    eapply ends_mono; [apply IH; [done|by apply Hl]|]. intros s2 [HI2 Hf2]. split; [done|].
    intros p pr. by rewrite Hf2, Hf1, (arrivals_cons p pr o l), <- app_assoc.
Qed.

(** ** What became of the frames *)

(** A step gives frames to phl and writes down its answers; removing a station frees
    what was kept for it, and gives phl nothing. *)
Definition accounts (s : ap) (o : op) (s' : ap) : Prop :=
  match o with Leave p => frees (queue s p) s s' | _ => gives s s' end.

Lemma join_gives s p ies n : if_ret (join s p ies n) (gives s).
Proof.
  unfold join. apply (if_then _ _ id); [apply wmm_gives|]. intros s1. apply if_any. intros [_ x].
  apply (if_then _ _ fst); [case_match; [by cbn|apply aid_gives]|]. intros [s2 a]. apply if_any.
  intros [i x2]. cbn. by destruct (a =? 0); [|apply gives_same].
Qed.

Lemma exec_accounts s o s' : Inv s -> exec s o = Ret s' -> accounts s o s'.
Proof.
  intros HI E. assert (H : if_ret (exec s o) (accounts s o)); [|by rewrite E in H]. clear E.
  destruct o as [f|f p|f p|b pr p|p|p|p|p ies n]; cbn [exec accounts].
  - apply core_tx_gives.
  - apply rx_gives.
  - apply rx_gives.
  - apply if_bind. eapply if_mono; [apply poll_gives|]. by intros [s1 v].
  - apply alive_gives.
  - apply digest_gives.
  - change (accounts s (Leave p)) with (frees (queue s p) s). unfold leave, queue.
    destruct (sps s !! p) as [x|] eqn:Hx.
    + destruct (inv_get s p x (inv_pre s HI) Hx) as (i & _ & Hg & Hok). apply (leave_frees s p i x Hg), Hok.
    + unfold tim_on_sta_leave, get_sta. rewrite Hx. by destruct (stas (core s) !! p).
  - apply join_gives.
Qed.

(** The frames for [p] that were handed over were sent. *)
Definition all_sent (p : Z) (s : ap) : Prop :=
  phl_ok s = [] /\ filter (unicast_for p) (handed s) = filter (unicast_for p) (sent s).

Lemma accounts_sent p s o s' : Inv s -> o <> Leave p -> accounts s o s' -> all_sent p s -> all_sent p s'.
Proof.
  intros HI Ho Ha [Hok Hs]. rewrite handed_log, sent_log in Hs. unfold all_sent. rewrite handed_log, sent_log.
  assert (Hg : gives s s' -> phl_ok s' = [] /\ filter (unicast_for p) (omap handed_of (frame_log s')) =
    filter (unicast_for p) (omap sent_of (frame_log s'))).
  { intros (l & H1 & H2). rewrite Hok in H1, H2. split; [by rewrite H2, drop_nil|].
    by rewrite H1, !omap_app, handed_answered, sent_answered, !filter_app, Hs. }
  destruct o as [| | | | | |q|]; try by apply Hg. destruct Ha as [H1 H2]. split; [congruence|].
  assert (omap sent_of (Freed <$> queue s q) = [] /\ omap handed_of (Freed <$> queue s q) = queue s q) as [E1 E2].
  { clear. induction (queue s q) as [|f l [IH1 IH2]]; [done|]. cbn. by rewrite IH1, IH2. }
  rewrite H1, !omap_app, E1, E2, app_nil_r, filter_app, Hs, (filter_none _ (queue s q)); [by rewrite app_nil_r|].
  unfold queue. destruct (sps s !! q) as [x|] eqn:Hx; [|done].
  destruct (inv_get s q x (inv_pre s HI) Hx) as (i & _ & _ & Hq). eapply Forall_impl; [apply Hq|].
  intros f (Hf & _) [Hf' _]. rewrite Hf in Hf'. congruence.
Qed.

Lemma run_accounts l : forall s, Inv s -> legal_run s l -> forall l1 o l2 s1 s2, l = l1 ++ o :: l2 ->
  run s l1 = Ret s1 -> exec s1 o = Ret s2 -> accounts s1 o s2.
Proof.
  induction l as [|o l IH]; intros s HI Hl l1 o1 l2 s1 s2 E1 E2 E3; [by destruct l1|].
  destruct l1 as [|o' l1]; injection E1 as -> E1; cbn [run] in E2.
  - injection E2 as ->. by apply exec_accounts.
  - destruct Hl as [Ho Hl]. pose proof (exec_keeps s o' HI Ho) as He.
    destruct (exec s o') as [s'| |]; try done. destruct He as [HI' _]. cbn [mbind res_bind] in E2.
    exact (IH s' HI' (Hl s' eq_refl) l1 o1 l2 s1 s2 E1 E2 E3).
Qed.

Lemma run_sent p l : forall s s', Inv s -> legal_run s l -> Leave p ∉ l -> run s l = Ret s' ->
  all_sent p s -> all_sent p s'.
Proof.
  induction l as [|o l IH]; intros s s' HI Hl Hp E Ha; cbn [run] in E; [by injection E as <-|].
  destruct Hl as [Ho Hl]. pose proof (exec_keeps s o HI Ho) as He.
  destruct (exec s o) as [s1| |] eqn:E1; try done. destruct He as [HI1 _]. cbn [mbind res_bind] in E.
  apply not_elem_of_cons in Hp as [Hne Hp]. eapply (IH s1 s'); auto.
  eapply (accounts_sent p s o); auto. by apply exec_accounts.
Qed.

(** ** What holds in every run *)

(** C9: Starting with the invariant, an access point works through every legal
    sequence of frames, power management bits, triggers, polls, checks for silence,
    departures and associations without an access outside of its arrays or of the
    elements' buffer, and keeps the invariant: counters and queues agree, frames are
    only kept for stations that are associated and asleep, a station's bits in the maps
    are those of its state, ids are unique, and the beacon holds the current map.
    [legal] asks that a station which associates be awake with nothing kept or counted
    for it (the driver does not see to it; [asleep_before_association],
    [counter_underflow] and [asleep_again] are runs that break the invariant), that the
    request's buffer go on for eight octets behind the elements, that frames be new and
    received ones well formed, and that the group's station stay.  The invariant includes
    that the allocations for the beacon succeed ([Tim.no_memory] is what happens
    otherwise), that the beacon fits its buffer, and that the queues of the access
    categories, which the driver never fills, are empty. *)
Theorem ps_invariant s l (HI : Inv s) (Hl : legal_run s l) : exists s', run s l = Ret s' /\ Inv s'.
Proof.
  pose proof (run_keeps l s HI Hl) as H. destruct (run s l) as [s'| |]; try done. exists s'. by destruct H.
Qed.

(** C10: Nothing is lost, doubled or overtaken in a legal run ([legal], see C9): for each
    station and priority, the frames handed over, followed by those still kept, are the
    frames that came, in their order.  Handed over means given to phl, which takes the
    frame or refuses it, and then it is freed; or freed because the station left.  Each
    step says which ([accounts]): one that removes a station frees exactly the frames
    kept for it, any other gives frames to phl, and sends those it takes and frees those
    it refuses.  So where phl takes every frame and the station does not leave, the frames
    sent, followed by those kept, are those that came.  The run starts with nothing
    handed over and nothing kept for the station. *)
Theorem frames_in_order s l p pr (HI : Inv s) (Hl : legal_run s l)
    (Hnone : handed s = []) (Hempty : queue s p = []) :
  exists s', run s l = Ret s' /\
    xids pr (filter (unicast_for p) (handed s')) ++ xids pr (queue s' p) = arrivals p pr l /\
    (forall l1 o l2 s1 s2, l = l1 ++ o :: l2 -> run s l1 = Ret s1 -> exec s1 o = Ret s2 ->
       accounts s1 o s2) /\
    (phl_ok s = [] -> Leave p ∉ l ->
       xids pr (filter (unicast_for p) (sent s')) ++ xids pr (queue s' p) = arrivals p pr l).
Proof.
  pose proof (run_keeps l s HI Hl) as H. destruct (run s l) as [s'| |] eqn:E; try done. exists s'. split; [done|].
  destruct H as [_ H]. specialize (H p pr). unfold flow in H. rewrite Hnone, Hempty in H. cbn in H.
  split; [exact H|]. split; [by apply run_accounts|]. intros Hok Hp.
  destruct (run_sent p l s s' HI Hl Hp E) as [_ <-]; [|exact H]. split; [done|].
  by rewrite Hnone, (nothing_sent s Hnone).
Qed.

(** A station that looks for the map in the elements of the beacon. *)
Definition reads_traffic (b : list Z) (n a : Z) (t : bool) : Prop :=
  exists pos len body, rtw_get_ie b 12 _TIM_IE_ (n - 12) = Ret (Some (pos, len)) /\
    slice b (pos + 2) len = Ret body /\ tim_traffic body a = t.

Lemma reads_map s a : bcn_ok s -> 0 <= a ->
  exists b n, bcn s = Ret (b, n) /\ reads_traffic b n a (bmp_bit (tim_bitmap s) a).
Proof.
  intros (pre & l & pad & [] & l1 & body & l2 & Hl & Hread) Ha. eexists _, _. split; [done|].
  exists (12 + zlen (enc l1)), (zlen body), body. split_and!.
  - rewrite get_ie_enc by lia. change _TIM_IE_ with WLAN_EID_TIM. by rewrite Hl.
  - apply split_first_some in Hl as (-> & _ & _). rewrite enc_around.
    replace (((pre ++ enc l1) ++ [WLAN_EID_TIM]) ++ [zlen body] ++ body ++ enc l2 ++ pad)
      with ((pre ++ enc l1 ++ [WLAN_EID_TIM; zlen body]) ++ body ++ enc l2 ++ pad)
      by by rewrite <- !app_assoc.
    apply slice_app; [zlens; lia|done].
  - auto.
Qed.

(** C18: Whoever has an announced frame waiting can know it: in every state a legal run
    reaches, the beacon's element for the map, found as the parser finds it and read as
    IEEE 802.11 says, has the bit of each station for which such a frame is kept.  Legal
    ([legal], see C9) leaves out a station that associates again while it sleeps, which the
    driver lets happen: its frames may then wait unannounced ([asleep_again]).  The
    invariant the run starts with includes that the allocations for the beacon succeed:
    without memory the beacon is spoilt ([Tim.no_memory]). *)
Theorem waiting_is_announced s l p (HI : Inv s) (Hl : legal_run s l) :
  exists s', run s l = Ret s' /\
    forall i x f, get_sta s' p = Ret (i, x) -> f ∈ sleep_q x -> announced i x f = true ->
      exists b n, bcn s' = Ret (b, n) /\ reads_traffic b n (aid x) true.
Proof.
  pose proof (run_keeps l s HI Hl) as H. destruct (run s l) as [s'| |]; try done. exists s'. split; [done|].
  destruct H as [HI' _]. intros i x f [Hi Hx]%get_sta_inv Hf Ha.
  pose proof (inv_sta s' HI' p i x Hi Hx) as Hok.
  destruct (reads_map s' (aid x) (inv_bcn s' HI')) as (b & n & Hb & Hr); [apply Hok|].
  exists b, n. split; [done|]. rewrite (po_tim _ _ _ _ Hok) in Hr; [done|]. apply Exists_exists. eauto.
Qed.

(** ** What a station gets

    The last frame of a service period is marked, all others say that more follows. *)
Fixpoint service_period (q : list xmit_frame) : list xmit_frame :=
  match q with
  | [] => []
  | f :: q => set_triggered true (if q is [] then set_eosp true (set_mdata false f)
                                  else set_eosp false (set_mdata true f)) :: service_period q
  end.

(** The delivery-enabled frames of a queue, and their number. *)
Definition of_enabled (i : sta_info) (q : list xmit_frame) : list xmit_frame :=
  filter (fun f => enabled i f = true) q.
Definition count (i : sta_info) (q : list xmit_frame) : Z := zlen (of_enabled i q).

Lemma count_cons i f q : count i (f :: q) = if enabled i f then 1 + count i q else count i q.
Proof.
  unfold count, of_enabled. rewrite filter_cons. destruct (enabled i f).
  - by rewrite decide_True, zlen_cons.
  - by rewrite decide_False.
Qed.
Lemma count_bounds i q : 0 <= count i q <= zlen q.
Proof.
  split; [apply zlen_nonneg|]. induction q as [|f q IH]; [done|]. rewrite count_cons, zlen_cons.
  case_match; lia.
Qed.

Lemma deliver_out_period i q : zlen q < 4294967296 ->
  deliver_out (enabled i) (count i q) q = service_period (of_enabled i q).
Proof.
  induction q as [|f q IH]; [done|]. rewrite zlen_cons. intros Hs. pose proof (count_bounds i q) as Hc.
  cbn [deliver_out]. rewrite count_cons. unfold of_enabled. rewrite filter_cons.
  destruct (enabled i f) eqn:E; [|rewrite decide_False by done; apply IH; lia].
  rewrite decide_True by done. replace (1 + count i q - 1) with (count i q) by lia.
  rewrite u32_id by (unfold is_u32; lia). cbn [service_period]. rewrite IH by lia. f_equal. f_equal.
  unfold eosp_flags. change (filter _ q) with (of_enabled i q). unfold count.
  by destruct (of_enabled i q).
Qed.

(** A trigger starts one service period: the station gets all the frames of its
    delivery-enabled access categories, in order and no others; each but the last
    says that more follow, the last one ends the period.  The counter of such frames
    has to be exact, which it is unless the station polled for one of them. *)
Theorem trigger_delivers s p i x (HI : Inv s) (Hg : get_sta s p = Ret (i, x))
    (Hc : sleepq_ac_len i = count i (sleep_q x)) :
  exists s', xmit_delivery_enabled_frames s p = Ret s' /\
    handed s' = handed s ++ service_period (of_enabled i (sleep_q x)) /\
    queue s' p = stays i (sleep_q x).
Proof.
  destruct (get_sta_inv _ _ _ _ Hg) as [Hi Hx]. pose proof (inv_sta s HI p i x Hi Hx) as Hok.
  pose proof (queue_short _ _ _ _ Hok) as Hs. unfold NR_XMITFRAME in Hs.
  rewrite <- deliver_out_period, <- Hc by lia. unfold xmit_delivery_enabled_frames. rewrite Hg.
  cbn [mbind res_bind]. destruct (has_legacy_ac x) eqn:Hleg.
  { rewrite (delivery_legacy _ s i x []) by (done || (cbn; lia) || apply Hok). eexists. split; [done|].
    split; [by apply send_all_same|]. unfold queue. cbn. by rewrite lookup_insert_eq. }
  destruct (decide (sleep_q x = [])) as [Hq|Hq].
  { rewrite Hq. cbn [delivery_loop deliver_out]. rewrite (put_sta_same s p i x Hg), app_nil_r. exists s.
    unfold queue. by rewrite Hx. }
  destruct (po_asleep _ _ _ _ Hok Hq) as (_ & _ & Ha). destruct (po_all _ _ _ _ Hok Ha (queue_peer _ _ _ _ Hok Hq) Hleg) as [Hall Hac].
  rewrite delivery_all by (done || lia || apply Hok). rewrite decide_False by done. eexists. split; [done|].
  rewrite put_clear, Hac. unfold clear_tim. set (s2 := set_tim _ _).
  destruct (update_beacon_same s2 true) as [[] ->]. split; [by apply send_all_same|].
  unfold queue. rewrite sp_sps0. cbn. rewrite lookup_insert_eq. cbn. symmetry. apply filter_none, Forall_forall.
  intros f _. by rewrite (enabled_all i Hall).
Qed.

(** All frames, each with what follows it: of its kind for the delivery-enabled ones,
    of any kind for the others. *)
Fixpoint flushed (i : sta_info) (q : list xmit_frame) : list xmit_frame :=
  match q with
  | [] => []
  | f :: q =>
      let more := bool_decide (of_enabled i q <> []) in
      set_triggered true (if enabled i f then set_eosp (negb more) (set_mdata more f)
                          else set_mdata (bool_decide (q <> [])) f) :: flushed i q
  end.

Lemma positive_nil {A} (l : list A) : (0 <? zlen l) = bool_decide (l <> []).
Proof.
  destruct l as [|a l]; [done|]. rewrite zlen_cons. pose proof (zlen_nonneg l).
  rewrite bool_decide_true by done. by apply Z.ltb_lt; lia.
Qed.

Lemma wake_out_flushed i q : zlen q < 4294967296 -> wake_out (enabled i) (count i q) q = flushed i q.
Proof.
  induction q as [|f q IH]; [done|]. rewrite zlen_cons. intros Hs. pose proof (count_bounds i q) as Hc.
  cbn [wake_out flushed]. rewrite count_cons. unfold more_flag. rewrite positive_nil.
  destruct (enabled i f); [|rewrite IH by lia; done]. replace (1 + count i q - 1) with (count i q) by lia.
  rewrite u32_id, IH by (unfold is_u32; lia). f_equal. f_equal. unfold eosp_flags, count.
  rewrite positive_nil. by case_bool_decide.
Qed.

(** C31: When a station wakes up phl is given all its frames in order, and no others; the
    station gets those phl takes, and each frame it refuses is freed ([given], [answered]).
    The station is awake then, nothing is kept for it any more, and its bit is out of both
    maps and of the beacon.  Each frame says whether more follow, and the last one of a
    delivery-enabled category ends the period ([flushed]), as long as the counter of such
    frames is exact, which it is unless the station polled for one of them
    ([wakeup_after_poll]).  The state is one of the invariant (see C9). *)
Theorem wakeup_delivers s p i x (HI : Inv s) (Hg : get_sta s p = Ret (i, x)) :
  exists s' i' x' out, wakeup_sta_to_xmit s p = Ret s' /\
    given out s s' /\ Forall2 same_frame (sleep_q x) out /\
    (sleepq_ac_len i = count i (sleep_q x) -> out = flushed i (sleep_q x)) /\
    get_sta s' p = Ret (i', x') /\ aid x' = aid x /\ sleep_q x' = [] /\ sleeps i' = false /\
    bmp_bit (sta_dz_bitmap s') (aid x) = false /\
    exists b n, bcn s' = Ret (b, n) /\ reads_traffic b n (aid x) false.
Proof.
  destruct (get_sta_inv _ _ _ _ Hg) as [Hi Hx]. pose proof (inv_sta s HI p i x Hi Hx) as Hok.
  pose proof (wakeup_keeps s p x HI Hx) as Hk. pose proof (wakeup_gives s p) as Hgv.
  destruct (wakeup_state s p i x HI Hg) as (s' & i' & x' & E & Hh & Hg' & Ha & Hq & Hs & Hdz & Ht).
  rewrite E in Hk, Hgv. destruct Hk as [HI' _].
  exists s', i', x', (wake_out (enabled i) (sleepq_ac_len i) (sleep_q x)). split_and!; try done.
  - by apply given_handed.
  - apply wake_out_same.
  - intros Hc. rewrite Hc, wake_out_flushed; [done|].
    pose proof (queue_short _ _ _ _ Hok) as Hs'. unfold NR_XMITFRAME in Hs'. lia.
  - rewrite <- Ht. apply reads_map; [apply HI'|apply Hok].
Qed.


(** ** Deciding that a run is legal *)

Lemma fresh_iff s f : fresh s f <->
  xsta f = rtw_get_stainfo (core s) (ra f) /\ triggered f = false /\ (0 <= xid f < NR_XMITFRAME) /\
  map_Forall (fun _ x => xid f ∉ xid <$> sleep_q x) (sps s) /\
  map_Forall (fun p i => unicast_for p f -> flag (state i) WIFI_AP_STATE = false) (stas (core s)).
Proof.
  split.
  - intros [H1 H2 H3 H4 H5]. split_and!; try done; try lia.
    + intros p x Hx. specialize (H4 p). unfold queue in H4. by rewrite Hx in H4.
    + intros p i Hi Hu. by apply (H5 p).
  - intros (H1 & H2 & H3 & H4 & H5). constructor; try done.
    + intros p. unfold queue. destruct (sps s !! p) as [x|] eqn:E; [by apply (H4 p)|apply not_elem_of_nil].
    + intros p i Hu Hi. by apply (H5 p).
Qed.
#[export] Instance fresh_dec s f : Decision (fresh s f).
Proof. destruct (decide (xsta f = rtw_get_stainfo (core s) (ra f) /\ triggered f = false /\
  (0 <= xid f < NR_XMITFRAME) /\ map_Forall (fun _ x => xid f ∉ xid <$> sleep_q x) (sps s) /\
  map_Forall (fun p i => unicast_for p f -> flag (state i) WIFI_AP_STATE = false) (stas (core s)))) as [E|E];
  [left|right]; by rewrite fresh_iff. Defined.

#[export] Instance ends_true_dec {A} (x : res A) : Decision (ends x (fun _ => True)).
Proof. destruct x; [left; exact I|right; exact (fun H => H)..]. Defined.

(** A condition on what a pointer leads to. *)
#[export] Instance sta_dec s p (P : sta_info -> sta_ps -> Prop) `{!forall i x, Decision (P i x)} :
  Decision (exists i x, get_sta s p = Ret (i, x) /\ P i x).
Proof.
  destruct (get_sta s p) as [[i x]| |]; [|right; intros (i & x & E & _); discriminate E..].
  destruct (decide (P i x)) as [HP|HP]; [left; by exists i, x|right].
  intros (j & y & E & HQ). injection E as -> ->. by apply HP.
Defined.

#[export] Instance legal_dec s o : Decision (legal s o).
Proof. destruct o; cbn [legal]; unfold known, control_ok, poll_ok; apply _. Defined.
#[export] Instance legal_run_dec : forall l s, Decision (legal_run s l).
Proof.
  induction l as [|o l IH]; intros s; cbn [legal_run]; [left; exact I|].
  destruct (decide (legal s o)) as [Ho|Ho]; [|right; tauto].
  destruct (exec s o) as [s1| |]; [|left; split; [exact Ho|intros s' E; discriminate E]..].
  destruct (IH s1) as [H|H]; [left; split; [exact Ho|intros s' E; by injection E as <-]|right].
  intros [_ H2]. by apply H, H2.
Defined.

(** ** A small network

    An access point with room for 16 stations, the station of the group, and two
    stations that are about to associate. *)

Definition peer_mac (n : Z) : list Z := [0; 1; 2; 3; 4; n].
Definition sample_peer (ps st : Z) (m : list Z) : sta_info :=
  mk_sta (Some (ps, m)) 0 st false 0 (init_rxcache _rtw_init_sta_recv_priv) 0 false 0 false 0 0 0 0 0 0 [] [].
Definition sample_ps : sta_ps := mk_ps 0 false 0 0 [] 0 (replicate 4 (mk_servq [] 0)).

Definition sample_core : adapter :=
  let hash m p := <[Z.to_nat (wifi_mac_hash m) := [p]]> in
  mk_adapter own_mac own_mac (Z.lor WIFI_AP_STATE WIFI_ASOC_STATE)
    (Some (mk_role own_mac 2 (Some 100)))
    (hash own_mac 7 (hash (peer_mac 1) 8 (hash (peer_mac 2) 9 (replicate 32 []))))
    (<[7 := sample_peer 100 (Z.lor WIFI_AP_STATE WIFI_ASOC_STATE) own_mac]>
      (<[8 := sample_peer 101 0 (peer_mac 1)]> (<[9 := sample_peer 102 0 (peer_mac 2)]> ∅)))
    (sample_sec 0 0) 1 0 [8; 9] 2 0 false 1256 [] false true 1000 0 0 [] 0 [].

(** The beacon does not hold the map yet. *)
Definition silent_ap : ap :=
  mk_ap sample_core (<[7 := sample_ps]> (<[8 := sample_ps]> (<[9 := sample_ps]> ∅))) (replicate 3 0)
    (replicate 3 0) (replicate 16 None) 16 32 1 false (replicate 4 0) 3 true true true 0 []
    (Ret (replicate 12 0 ++ enc sample_head ++ replicate 60 0, 12 + zlen (enc sample_head))) [] [].
Definition sample_ap : ap := _update_beacon silent_ap false.

Lemma sample_sta_ok s p i : is_Some (phl_sta i) -> 0 <= max_aid s -> (forall pr, uapsd_of i pr = 0) ->
  flag (state i) WIFI_ASOC_STATE = flag (state i) WIFI_AP_STATE -> ps_ok s p i sample_ps.
Proof.
  intros Hph Hmax Hu Hag. constructor; try done; cbn.
  - constructor.
  - rewrite Hag. auto.
  - intros He. by inversion He.
  - auto.
  - congruence.
  - split; [done|]. by repeat constructor.
Qed.

Lemma three_stas {A} (a b c x : A) p :
  (<[7 := a]> (<[8 := b]> (<[9 := c]> ∅)) : gmap Z A) !! p = Some x ->
  p = 7 /\ x = a \/ p = 8 /\ x = b \/ p = 9 /\ x = c.
Proof.
  destruct (decide (p = 7)) as [->|]; [rewrite lookup_insert_eq; intros [= <-]; auto|rewrite lookup_insert_ne by done].
  destruct (decide (p = 8)) as [->|]; [rewrite lookup_insert_eq; intros [= <-]; auto|rewrite lookup_insert_ne by done].
  destruct (decide (p = 9)) as [->|]; [rewrite lookup_insert_eq; intros [= <-]; auto|rewrite lookup_insert_ne by done].
  by rewrite lookup_empty.
Qed.

Lemma bit_of_zeros n a : bmp_bit (replicate n 0) a = false.
Proof.
  unfold bmp_bit, octet. destruct (replicate n 0 !! _) eqn:E; cbn; [|apply Z.testbit_0_l].
  apply lookup_replicate in E as [-> _]. apply Z.testbit_0_l.
Qed.

Lemma sample_pre : Pre silent_ap.
Proof.
  constructor; try (by vm_compute); try (vm_compute; split; discriminate || reflexivity).
  - intros p. split; intros [i Hi]; apply three_stas in Hi as [[-> _]|[[-> _]|[-> _]]]; by eexists.
  - intros p i x Hi Hx. apply three_stas in Hi, Hx.
    assert (x = sample_ps) as -> by tauto. apply sample_sta_ok; try done.
    + destruct Hi as [[_ ->]|[[_ ->]|[_ ->]]]; by eexists.
    + intros pr. unfold uapsd_of. destruct Hi as [[_ ->]|[[_ ->]|[_ ->]]]; by repeat case_match.
    + by destruct Hi as [[_ ->]|[[_ ->]|[_ ->]]].
  - intros k Hk. apply bit_of_zeros.
  - intros b i Hb. vm_compute in Hb. injection Hb as <-. cbn. rewrite lookup_insert_eq. by intros [= <-].
Qed.

Lemma sample_inv : Inv sample_ap.
Proof.
  destruct (update_beacon_same silent_ap false) as [Hs _]. split; [by eapply pre_same, Hs; apply sample_pre|].
  apply update_beacon_ok; [vm_compute; split; discriminate|].
  exists (replicate 12 0), sample_head, (replicate 60 0). constructor; try done; try (vm_compute; split; discriminate || reflexivity).
  - exists [97; 98], [130; 132], 6, []. reflexivity.
Qed.

(** The elements of an association request with the delivery-enabled categories of
    [info], a data frame of peer [n] with a power management bit, a PS-Poll. *)
Definition padding : list Z := replicate 8 0.
Definition assoc_ies (info : Z) : list Z := [221; 7] ++ WMM_IE ++ [info] ++ padding.
Definition peer_frame (fctl pr n : Z) : recv_frame :=
  map_attrib (set_qc pr 0 0) (sample_frame 3 0 (put_le16 fctl ++ [0; 0] ++ own_mac ++ peer_mac n ++ own_mac) 40).
Definition sleeping (n : Z) : recv_frame := peer_frame 0x1108 0 n.
Definition woken_up (n : Z) : recv_frame := peer_frame 0x0108 0 n.
Definition ps_poll (a : Z) : list Z := put_le16 0x10a4 ++ put_le16 (Z.lor 0xc000 a) ++ own_mac.
Definition frame_to (k n pr : Z) : xmit_frame :=
  mk_xf k (peer_mac n) (Some (7 + n)) pr 0x0800 false false false false false.

(** Voice is delivery-enabled at peer 1; peer 2 has no WMM.  Both sleep, peer 1 has
    three frames waiting, peer 2 one. *)
Definition go_to_sleep : list op :=
  [Join 8 (assoc_ies 1) 9; Join 9 padding 0; PwrBit (sleeping 1) 8; PwrBit (sleeping 2) 9;
   Tx (frame_to 10 1 6); Tx (frame_to 11 1 0); Tx (frame_to 12 1 7); Tx (frame_to 13 2 0)].
(** Peer 1 gets voice with a trigger, the rest with a poll and by waking up; peer 2
    is asked whether it is there and leaves. *)
Definition and_get_frames : list op :=
  [Trigger (peer_frame 0x1188 6 1) 8; Tx (frame_to 14 1 0); PsPoll (ps_poll 1) 0 8; Silent 9;
   PwrBit (woken_up 1) 8; Leave 9; Tx (frame_to 10 1 6)].
Definition sample_run : list op := go_to_sleep ++ and_get_frames.
Definition asleep_ap : ap := ret_or sample_ap (run sample_ap go_to_sleep).

Example sample_run_map :
  (run sample_ap sample_run) ≫= (fun s => Ret (tim_bitmap s, sta_dz_bitmap s)) = Ret (replicate 3 0, replicate 3 0).
Proof. vm_compute. reflexivity. Qed.

Lemma ps_invariant_witness : exists s', run sample_ap sample_run = Ret s' /\ Inv s'.
Proof.
  apply (ps_invariant sample_ap sample_run); [exact sample_inv|].
  apply (bool_decide_unpack _). vm_compute. exact I.
Defined.

Lemma sample_legal : legal_run sample_ap sample_run.
Proof. apply (bool_decide_unpack _). vm_compute. exact I. Qed.

Lemma frames_in_order_witness : exists s', run sample_ap sample_run = Ret s' /\
  xids 0 (filter (unicast_for 8) (handed s')) ++ xids 0 (queue s' 8) = [11; 14] /\
  xids 0 (filter (unicast_for 8) (sent s')) ++ xids 0 (queue s' 8) = [11; 14].
Proof.
  destruct (frames_in_order sample_ap sample_run 8 0 sample_inv sample_legal eq_refl eq_refl)
    as (s' & E & H1 & _ & H2).
  exists s'. split; [exact E|]. split; [exact H1|]. apply H2; [reflexivity|].
  intros Hin%list_elem_of_In. cbn in Hin. repeat destruct Hin as [Hin|Hin]; try discriminate Hin. exact Hin.
Defined.

Lemma waiting_is_announced_witness : exists s' b n, run sample_ap go_to_sleep = Ret s' /\
  bcn s' = Ret (b, n) /\ reads_traffic b n 1 true.
Proof.
  destruct (waiting_is_announced sample_ap go_to_sleep 8) as (s' & E & H); [exact sample_inv| |].
  { apply (bool_decide_unpack _). vm_compute. exact I. }
  destruct (get_sta asleep_ap 8) as [[i x]| |] eqn:Hg; try (vm_compute in Hg; discriminate Hg).
  assert (s' = asleep_ap) as -> by (unfold asleep_ap; by rewrite E).
  destruct (H i x (frame_to 11 1 0)) as (b & n & Hb & Hr); [exact Hg|..].
  - apply get_sta_inv in Hg as [_ Hx]. vm_compute in Hx. injection Hx as <-.
    right. left.
  - vm_compute in Hg. injection Hg as <- <-. vm_compute. reflexivity.
  - exists asleep_ap, b, n. split; [exact E|]. split; [exact Hb|].
    vm_compute in Hg. injection Hg as _ <-. exact Hr.
Defined.

Lemma asleep_inv : Inv asleep_ap.
Proof.
  pose proof (run_keeps go_to_sleep sample_ap sample_inv) as H. unfold asleep_ap.
  assert (legal_run sample_ap go_to_sleep) as Hl by (apply (bool_decide_unpack _); vm_compute; exact I).
  specialize (H Hl). destruct (run sample_ap go_to_sleep); try done. apply H.
Qed.

Definition asleep_sta : sta_info * sta_ps := ret_or (sample_peer 0 0 [], sample_ps) (get_sta asleep_ap 8).

Lemma trigger_delivers_witness : exists s', xmit_delivery_enabled_frames asleep_ap 8 = Ret s' /\
  handed s' = handed asleep_ap ++
    [set_triggered true (set_eosp false (set_mdata true (frame_to 10 1 6)));
     set_triggered true (set_eosp true (set_mdata false (frame_to 12 1 7)))] /\
  queue s' 8 = [frame_to 11 1 0].
Proof.
  apply (trigger_delivers asleep_ap 8 asleep_sta.1 asleep_sta.2); [exact asleep_inv|vm_compute; reflexivity..].
Defined.

Lemma wakeup_delivers_witness : exists s' i' x', wakeup_sta_to_xmit asleep_ap 8 = Ret s' /\
  given
    [set_triggered true (set_eosp false (set_mdata true (frame_to 10 1 6)));
     set_triggered true (set_mdata true (frame_to 11 1 0));
     set_triggered true (set_eosp true (set_mdata false (frame_to 12 1 7)))] asleep_ap s' /\
  get_sta s' 8 = Ret (i', x') /\ aid x' = 1 /\ sleep_q x' = [] /\ sleeps i' = false /\
  bmp_bit (sta_dz_bitmap s') 1 = false /\
  exists b n, bcn s' = Ret (b, n) /\ reads_traffic b n 1 false.
Proof.
  destruct (wakeup_delivers asleep_ap 8 asleep_sta.1 asleep_sta.2 asleep_inv eq_refl)
    as (s' & i' & x' & out & E & Hgv & _ & Hf & Hr).
  exists s', i', x'. split; [exact E|]. rewrite Hf in Hgv by (vm_compute; reflexivity).
  split; [exact Hgv|exact Hr].
Defined.

(** ** What goes wrong

    A poll takes a frame of a delivery-enabled category without counting it: the
    next period is not ended, though its last frame was sent. *)
Example poll_spoils_counter :
  (run asleep_ap [PsPoll (ps_poll 1) 0 8; Trigger (peer_frame 0x1188 6 1) 8]) ≫=
    (fun s => Ret (drop 2 (txlog s), queue s 8)) =
  Ret ([Sent (set_triggered true (set_mdata true (frame_to 10 1 6)));
        Sent (set_triggered true (set_eosp false (set_mdata true (frame_to 12 1 7))))], [frame_to 11 1 0]).
Proof. vm_compute. reflexivity. Qed.

(** So it is when the station wakes up: its last frame says that more follow and does not
    end the period. *)
Example wakeup_after_poll :
  (run asleep_ap [PsPoll (ps_poll 1) 0 8; PwrBit (woken_up 1) 8]) ≫= (fun s => Ret (drop 3 (txlog s))) =
  Ret [Sent (set_triggered true (set_mdata true (frame_to 11 1 0)));
       Sent (set_triggered true (set_eosp false (set_mdata true (frame_to 12 1 7))));
       SetTxBeacon].
Proof. vm_compute. reflexivity. Qed.

(** Phl refuses the second of three frames: it is freed, the others are sent. *)
Example refused_frame :
  (run (set_tx [true; false] (txlog asleep_ap) asleep_ap) [PwrBit (woken_up 1) 8]) ≫=
    (fun s => Ret (omap (fun e => match e with Sent f => Some (xid f, true) | Freed f => Some (xid f, false)
                                  | _ => None end) (txlog s))) = Ret [(10, true); (11, false); (12, true)].
Proof. vm_compute. reflexivity. Qed.

(** A poll takes the announced frame and leaves one that is not; a trigger takes that,
    and the bit in the map stays. *)
Example stale_map_bit :
  (run sample_ap [Join 8 (assoc_ies 1) 9; PwrBit (sleeping 1) 8; Tx (frame_to 11 1 0); Tx (frame_to 10 1 6);
                  PsPoll (ps_poll 1) 0 8; Trigger (peer_frame 0x1188 6 1) 8]) ≫=
    (fun s => Ret (queue s 8, rtw_tim_map_is_set (tim_bitmap s) 1)) = Ret ([], true).
Proof. vm_compute. reflexivity. Qed.

(** The traffic identifier of a poll is that of the last frame in the structure: with
    one of voice the poll is refused. *)
Example poll_refused :
  (rtw_proccess_pspoll asleep_ap (ps_poll 1) 6 8) ≫= (fun r => Ret (queue r.1 8, r.2)) =
    Ret (queue asleep_ap 8, FAIL).
Proof. vm_compute. reflexivity. Qed.

(** A station that is known but not associated says that it sleeps: its id, zero, goes
    into the map of the stations that sleep.  Once it is associated, nothing is kept
    for it, though it is taken to be asleep. *)
Example asleep_before_association :
  (run sample_ap [PwrBit (sleeping 1) 8; Join 8 padding 0; PwrBit (sleeping 1) 8; Tx (frame_to 10 1 0)]) ≫=
    (fun s => Ret (txlog s, sleeps <$> stas (core s) !! 8, sta_dz_bitmap s)) =
  Ret ([Sent (frame_to 10 1 0)], Some true, [1; 0; 0]).
Proof. vm_compute. reflexivity. Qed.

(** A station associates again while it sleeps, without delivery-enabled categories: the
    frame of voice that is kept counts as announced now, and no bit of the map is set. *)
Example asleep_again :
  (run sample_ap [Join 8 (assoc_ies 1) 9; PwrBit (sleeping 1) 8; Tx (frame_to 10 1 6); Join 8 padding 0]) ≫=
    (fun s => '(i, x) ← get_sta s 8;
              Ret (sleeps i, announced i x <$> sleep_q x, tim_bitmap s)) =
  Ret (true, [true], [0; 0; 0]).
Proof. vm_compute. reflexivity. Qed.

(** A station that associates again with other categories while frames are kept: the
    counter goes below zero. *)
Example counter_underflow :
  (run sample_ap [Join 8 padding 0; PwrBit (sleeping 1) 8; Tx (frame_to 10 1 0); Join 8 (assoc_ies 0xf) 9;
                  PwrBit (woken_up 1) 8]) ≫=
    (fun s => Ret (sleepq_ac_len <$> stas (core s) !! 8)) = Ret (Some 4294967295).
Proof. vm_compute. reflexivity. Qed.

End ApPsRun.
