(* ===== verification/Acl.v ===== *)
(** * The list of MAC addresses that may or may not associate

    core/rtw_ap.c (rtw_macaddr_acl_init to rtw_acl_remove_sta), core/rtw_sta_mgt.c
    (rtw_access_ctrl), include/sta_info.h (wlan_acl_pool),
    os_dep/linux/ioctl_cfg80211.c (cfg80211_rtw_set_mac_acl).

    An interface has two lists, one that stays ([RTW_ACL_PERIOD_DEV]) and one that
    the network's end clears ([RTW_ACL_PERIOD_BSS]).  Each is a pool of 16 nodes and
    a queue of those in use; the queue here holds the indices of its nodes.  The
    specification is a mode and a finite set. *)

From stdpp Require Import gmap sets fin_sets.
From S2P Require Import Prelude Bytes RxFrame.

Module Acl.
Import RxFrame.

Definition NUM_ACL : Z := 16.
Definition RTW_ACL_PERIOD_DEV : Z := 0.
Definition RTW_ACL_PERIOD_BSS : Z := 1.
Definition RTW_ACL_PERIOD_NUM : Z := 2.
Definition RTW_ACL_MODE_DISABLED : Z := 0.
Definition RTW_ACL_MODE_ACCEPT_UNLESS_LISTED : Z := 1.
Definition RTW_ACL_MODE_DENY_UNLESS_LISTED : Z := 2.

Record rtw_wlan_acl_node := AclNode { addr : list Z; valid : bool }.

Record wlan_acl_pool := AclPool {
  mode : Z;
  num : Z;
  aclnode : list rtw_wlan_acl_node;
  acl_node_q : list nat;
}.

(** [stapriv->acl_list]. *)
Definition acl_list := list wlan_acl_pool.

Definition set_mode (m : Z) (p : wlan_acl_pool) : wlan_acl_pool :=
  AclPool m (num p) (aclnode p) (acl_node_q p).

(** ** Operations on a pool *)

(** A node's address is kept: the code only resets its list and [valid]. *)
Definition macaddr_acl_init (p : wlan_acl_pool) : wlan_acl_pool :=
  AclPool RTW_ACL_MODE_DISABLED 0 ((λ n, AclNode (addr n) false) <$> aclnode p) [].

(** A node leaves the queue and is free again. *)
Definition unlink (i : nat) (p : wlan_acl_pool) : wlan_acl_pool :=
  AclPool (mode p) (num p - 1)
    (alter (λ n, AclNode (addr n) false) i (aclnode p))
    (filter (λ j, j ≠ i) (acl_node_q p)).

(** The walk over the queue that takes out what [del] says; the next node is read
    before a node is taken out.  The flag is [match]. *)
Fixpoint remove_loop (del : list Z → bool) (list : list nat) (p : wlan_acl_pool)
    : wlan_acl_pool * bool :=
  match list with
  | [] => (p, false)
  | i :: list =>
      match aclnode p !! i with
      | Some n =>
          if del (addr n) && valid n then (fst (remove_loop del list (unlink i p)), true)
          else remove_loop del list p
      | None => remove_loop del list p
      end
  end.

(** Freeing the lock, which [deinit] does besides, is not state here. *)
Definition _rtw_macaddr_acl_deinit (p : wlan_acl_pool) : wlan_acl_pool :=
  set_mode RTW_ACL_MODE_DISABLED (fst (remove_loop (λ _, true) (acl_node_q p) p)).

(** The search both [rtw_acl_add_sta] and [_rtw_access_ctrl] do. *)
Fixpoint listed (a : list Z) (list : list nat) (p : wlan_acl_pool) : bool :=
  match list with
  | [] => false
  | i :: list =>
      match aclnode p !! i with
      | Some n => if bool_decide (addr n = a) && valid n then true else listed a list p
      | None => listed a list p
      end
  end.

(** The first node that is free, or [NUM_ACL]. *)
Fixpoint find_empty (l : list rtw_wlan_acl_node) : nat :=
  match l with
  | [] => 0%nat
  | n :: l => if valid n then S (find_empty l) else 0%nat
  end.

Definition acl_add_sta (a : list Z) (p : wlan_acl_pool) : wlan_acl_pool * Z :=
  if listed a (acl_node_q p) p then (p, 0)
  else if NUM_ACL <=? num p then (p, -1)
  else
    let i := find_empty (aclnode p) in
    if NUM_ACL <=? Z.of_nat i then (p, -1)
    else (AclPool (mode p) (num p + 1) (<[i := AclNode a true]> (aclnode p))
            (acl_node_q p ++ [i]), 0).

Definition acl_remove_sta (a : list Z) (p : wlan_acl_pool) : wlan_acl_pool :=
  let is_baddr := is_broadcast_mac_addr a in
  fst (remove_loop (λ b, is_baddr || bool_decide (b = a)) (acl_node_q p) p).

Definition pool_access_ctrl (p : wlan_acl_pool) (a : list Z) : bool :=
  if negb (mode p =? RTW_ACL_MODE_ACCEPT_UNLESS_LISTED)
     && negb (mode p =? RTW_ACL_MODE_DENY_UNLESS_LISTED) then true
  else
    let match_ := listed a (acl_node_q p) p in
    if mode p =? RTW_ACL_MODE_ACCEPT_UNLESS_LISTED then negb match_ else match_.

(** ** Operations on an interface *)

(** [&stapriv->acl_list[period]], where the period is in range. *)
Definition with_pool {A} (l : acl_list) (period : Z) (out : A)
    (f : wlan_acl_pool → wlan_acl_pool * A) : acl_list * A :=
  if RTW_ACL_PERIOD_NUM <=? period then (l, out)
  else
    match l !! Z.to_nat period with
    | Some p => let r := f p in (<[Z.to_nat period := fst r]> l, snd r)
    | None => (l, out)
    end.

Definition rtw_macaddr_acl_init (period : Z) (l : acl_list) : acl_list :=
  fst (with_pool l period tt (λ p, (macaddr_acl_init p, tt))).

Definition rtw_macaddr_acl_clear (period : Z) (l : acl_list) : acl_list :=
  fst (with_pool l period tt (λ p, (_rtw_macaddr_acl_deinit p, tt))).

Definition rtw_set_macaddr_acl (period mode : Z) (l : acl_list) : acl_list :=
  fst (with_pool l period tt (λ p, (set_mode mode p, tt))).

Definition rtw_acl_add_sta (period : Z) (a : list Z) (l : acl_list) : acl_list * Z :=
  with_pool l period (-1) (acl_add_sta a).

Definition rtw_acl_remove_sta (period : Z) (a : list Z) (l : acl_list) : acl_list * Z :=
  with_pool l period 0 (λ p, (acl_remove_sta a p, 0)).

Definition _rtw_access_ctrl (l : acl_list) (period : Z) (a : list Z) : bool :=
  snd (with_pool l period true (λ p, (p, pool_access_ctrl p a))).

Definition rtw_access_ctrl (l : acl_list) (a : list Z) : bool :=
  _rtw_access_ctrl l 0 a && _rtw_access_ctrl l 1 a.

(** [NL80211_ACL_POLICY_*], as the kernel numbers them. *)
Inductive acl_policy := ACCEPT_UNLESS_LISTED | DENY_UNLESS_LISTED.

Record cfg80211_acl_data := AclData { policy : acl_policy; mac_addrs : list (list Z) }.

Fixpoint add_all (period : Z) (addrs : list (list Z)) (l : acl_list) : acl_list :=
  match addrs with
  | [] => l
  | a :: addrs => add_all period addrs (fst (rtw_acl_add_sta period a l))
  end.

Definition cfg80211_rtw_set_mac_acl (params : option cfg80211_acl_data) (l : acl_list)
    : acl_list * Z :=
  match params with
  | None => (rtw_macaddr_acl_clear RTW_ACL_PERIOD_BSS l, -1)
  | Some d =>
      let acl_mode := match policy d with
                      | ACCEPT_UNLESS_LISTED => RTW_ACL_MODE_ACCEPT_UNLESS_LISTED
                      | DENY_UNLESS_LISTED => RTW_ACL_MODE_DENY_UNLESS_LISTED
                      end in
      let l := rtw_macaddr_acl_clear RTW_ACL_PERIOD_BSS l in
      let l := rtw_set_macaddr_acl RTW_ACL_PERIOD_BSS acl_mode l in
      (add_all RTW_ACL_PERIOD_BSS (mac_addrs d) l, 0)
  end.

(** ** Specification

    A list is a mode and a set of at most 16 addresses. *)

Record acl := Spec { smode : Z; saddrs : gset (list Z) }.

Definition spec_clear (_ : acl) : acl := Spec RTW_ACL_MODE_DISABLED ∅.

Definition spec_mode (m : Z) (s : acl) : acl := Spec m (saddrs s).

Definition spec_add (a : list Z) (s : acl) : acl * Z :=
  if decide (a ∈ saddrs s) then (s, 0)
  else if NUM_ACL <=? Z.of_nat (size (saddrs s)) then (s, -1)
  else (Spec (smode s) ({[a]} ∪ saddrs s), 0).

(** The broadcast address stands for all. *)
Definition spec_remove (a : list Z) (s : acl) : acl :=
  Spec (smode s) (if is_broadcast_mac_addr a then ∅ else saddrs s ∖ {[a]}).

(** A station may associate if it is not on the list of those to refuse and is on
    the list of those to accept. *)
Definition spec_access (s : acl) (a : list Z) : bool :=
  if smode s =? RTW_ACL_MODE_ACCEPT_UNLESS_LISTED then bool_decide (a ∉ saddrs s)
  else if smode s =? RTW_ACL_MODE_DENY_UNLESS_LISTED then bool_decide (a ∈ saddrs s)
  else true.

(** What can be asked of an interface, and the answer. *)
Inductive op :=
  | Clear (period : Z)
  | SetMode (period m : Z)
  | Add (period : Z) (a : list Z)
  | Remove (period : Z) (a : list Z)
  | SetMacAcl (params : option cfg80211_acl_data)
  | Access (a : list Z).

Definition b2z (b : bool) : Z := if b then 1 else 0.

Definition exec (o : op) (l : acl_list) : acl_list * Z :=
  match o with
  | Clear p => (rtw_macaddr_acl_clear p l, 0)
  | SetMode p m => (rtw_set_macaddr_acl p m l, 0)
  | Add p a => rtw_acl_add_sta p a l
  | Remove p a => rtw_acl_remove_sta p a l
  | SetMacAcl d => cfg80211_rtw_set_mac_acl d l
  | Access a => (l, b2z (rtw_access_ctrl l a))
  end.

(** The two lists of the specification. *)
Definition spec_at (s : acl * acl) (period : Z) (f : acl → acl) : acl * acl :=
  if period =? RTW_ACL_PERIOD_DEV then (f (s.1), s.2)
  else if period =? RTW_ACL_PERIOD_BSS then (s.1, f (s.2))
  else s.

Definition spec_add_ret (s : acl * acl) (period : Z) (a : list Z) : Z :=
  if period =? RTW_ACL_PERIOD_DEV then snd (spec_add a (s.1))
  else if period =? RTW_ACL_PERIOD_BSS then snd (spec_add a (s.2))
  else -1.

Definition spec_exec (o : op) (s : acl * acl) : (acl * acl) * Z :=
  match o with
  | Clear p => (spec_at s p spec_clear, 0)
  | SetMode p m => (spec_at s p (spec_mode m), 0)
  | Add p a => (spec_at s p (λ x, fst (spec_add a x)), spec_add_ret s p a)
  | Remove p a => (spec_at s p (spec_remove a), 0)
  | SetMacAcl None => (spec_at s RTW_ACL_PERIOD_BSS spec_clear, -1)
  | SetMacAcl (Some d) =>
      let m := match policy d with ACCEPT_UNLESS_LISTED => 1 | DENY_UNLESS_LISTED => 2 end in
      (s.1, fold_left (λ x a, fst (spec_add a x)) (mac_addrs d) (Spec m ∅), 0)
  | Access a => (s, b2z (spec_access (s.1) a && spec_access (s.2) a))
  end.

Fixpoint run {S} (step : op → S → S * Z) (l : list op) (s : S) : S * list Z :=
  match l with
  | [] => (s, [])
  | o :: l =>
      let r := step o s in
      let t := run step l (fst r) in
      (fst t, snd r :: snd t)
  end.

(** The periods the callers pass are of type [u8]. *)
Definition period_ok (o : op) : Prop :=
  match o with
  | Clear p | SetMode p _ | Add p _ | Remove p _ => 0 <= p < 256
  | _ => True
  end.

(** [acl_list] before [_rtw_init_sta_priv], which calls [rtw_macaddr_acl_init] for
    both periods, and after. *)
Definition init_acl (l : acl_list) : acl_list := rtw_macaddr_acl_init 1 (rtw_macaddr_acl_init 0 l).

Definition shape (l : acl_list) : Prop :=
  length l = 2%nat /\ Forall (λ p, length (aclnode p) = 16%nat) l.

(** ** A pool and its specification *)

Definition node_addr (p : wlan_acl_pool) (i : nat) : list Z :=
  default [] (addr <$> aclnode p !! i).

Definition addrs (p : wlan_acl_pool) : list (list Z) := node_addr p <$> acl_node_q p.

Record wf (p : wlan_acl_pool) : Prop := {
  wf_len : length (aclnode p) = 16%nat;
  wf_addrs : NoDup (addrs p);
  wf_in i : i ∈ acl_node_q p <-> exists n, aclnode p !! i = Some n /\ valid n = true;
  wf_num : num p = Z.of_nat (length (acl_node_q p));
}.

Record refines (p : wlan_acl_pool) (s : acl) : Prop := {
  ref_wf : wf p;
  ref_mode : mode p = smode s;
  ref_addrs a : a ∈ saddrs s <-> a ∈ addrs p;
}.

Lemma ref_size p s : refines p s -> num p = Z.of_nat (size (saddrs s)).
Proof.
  intros [W _ E]. rewrite (wf_num p W).
  assert (saddrs s = list_to_set (addrs p)) as -> by
    (apply set_eq; intros a; by rewrite E, elem_of_list_to_set).
  rewrite size_list_to_set by apply (wf_addrs p W). unfold addrs. by rewrite length_fmap.
Qed.

Lemma node_addr_at p i n : aclnode p !! i = Some n -> node_addr p i = addr n.
Proof. unfold node_addr. by intros ->. Qed.

Lemma listed_spec a l p : wf p -> (forall i, i ∈ l -> i ∈ acl_node_q p) ->
  listed a l p = bool_decide (a ∈ node_addr p <$> l).
Proof.
  intros W. induction l as [|i l IH]; intros L; [done|].
  cbn [listed]. destruct (proj1 (wf_in p W i) (L i ltac:(left))) as (n & En & V).
  rewrite En, V, andb_true_r. rewrite IH by (intros; apply L; by right).
  rewrite fmap_cons, (node_addr_at _ _ _ En). destruct (decide (addr n = a)) as [<-|N].
  - rewrite (bool_decide_true (addr n = addr n)) by done.
    symmetry. apply bool_decide_eq_true. left.
  - rewrite (bool_decide_false (addr n = a)) by done. apply bool_decide_ext.
    rewrite elem_of_cons. split; [by right|intros [->|]; done].
Qed.

Lemma wf_nodup p : wf p -> NoDup (acl_node_q p).
Proof. intros W. exact (NoDup_fmap_1 _ _ (wf_addrs p W)). Qed.

(** *** Removal *)

Lemma node_addr_unlink i j p : node_addr (unlink i p) j = node_addr p j.
Proof.
  unfold node_addr, unlink. cbn. destruct (decide (i = j)) as [->|N].
  - rewrite list_lookup_alter_eq. by destruct (aclnode p !! j).
  - by rewrite list_lookup_alter_ne.
Qed.

Lemma addrs_unlink i p :
  addrs (unlink i p) = node_addr p <$> filter (λ j, j ≠ i) (acl_node_q p).
Proof. apply list_fmap_ext. intros ? j _. apply node_addr_unlink. Qed.

Lemma filter_ne_notin (i : nat) (l : list nat) : i ∉ l -> filter (λ j, j ≠ i) l = l.
Proof.
  induction l as [|j l IH]; [done|]. intros [N E]%not_elem_of_cons.
  rewrite filter_cons_True by done. by rewrite IH.
Qed.

Lemma length_filter_out (i : nat) (l : list nat) : NoDup l -> i ∈ l ->
  length l = S (length (filter (λ j, j ≠ i) l)).
Proof.
  induction l as [|j l IH]; intros ND E; [by apply not_elem_of_nil in E|].
  apply NoDup_cons in ND as [NE ND]. rewrite filter_cons. destruct (decide (j ≠ i)) as [N|N].
  - cbn. f_equal. apply IH; [done|]. apply elem_of_cons in E as [->|]; done.
  - cbn. f_equal. apply dec_stable in N as ->. by rewrite filter_ne_notin.
Qed.

Lemma unlink_wf i p : wf p -> i ∈ acl_node_q p -> wf (unlink i p).
Proof.
  intros W E. split.
  - cbn. rewrite length_alter. apply (wf_len p W).
  - rewrite addrs_unlink. refine (sublist_NoDup _ (addrs p) (wf_addrs p W) _).
    apply fmap_sublist, sublist_filter.
  - intros j. cbn. rewrite list_elem_of_filter, (wf_in p W). destruct (decide (i = j)) as [->|N].
    + rewrite list_lookup_alter_eq. split; [by intros [? _]|]. intros (n & En & V).
      destruct (aclnode p !! j); [|done]. by injection En as <-.
    + rewrite list_lookup_alter_ne by done. split; [by intros [_ ?]|]. by split; [congruence|].
  - cbn. rewrite (wf_num p W), (length_filter_out i _ (wf_nodup p W) E). lia.
Qed.

(** What [remove_loop] leaves of a pool. *)
Lemma acl_loop_spec del l p : wf p -> NoDup l -> (forall i, i ∈ l -> i ∈ acl_node_q p) ->
  let q := fst (remove_loop del l p) in
  wf q /\ mode q = mode p /\ (forall j, node_addr q j = node_addr p j) /\
  forall j, j ∈ acl_node_q q <-> j ∈ acl_node_q p /\ (j ∈ l -> del (node_addr p j) = false).
Proof.
  revert p. induction l as [|i l IH]; intros p W ND L.
  { cbn. split_and!; try done. intros j. split; [|by intros [? _]].
    intros; split; [done|]. by intros ?%not_elem_of_nil. }
  apply NoDup_cons in ND as [NE ND].
  assert (i ∈ acl_node_q p) as Ei by (apply L; left).
  destruct (proj1 (wf_in p W i) Ei) as (n & En & V).
  cbn [remove_loop]. rewrite En, V, andb_true_r. pose proof (node_addr_at _ _ _ En) as Na.
  destruct (del (addr n)) eqn:D; cbn [fst].
  - destruct (IH (unlink i p)) as (W' & M' & A' & Q'); [by apply unlink_wf|done| |].
    { intros j Ej. cbn. apply list_elem_of_filter. split; [by intros ->|apply L; by right]. }
    split_and!; [done|done|intros; by rewrite A', node_addr_unlink|].
    intros j. rewrite Q', node_addr_unlink. cbn. rewrite list_elem_of_filter, elem_of_cons.
    split.
    + intros [[N E] R]. split; [done|]. intros [->|]; [done|by apply R].
    + intros [E R]. split; [split; [|done]|intros; apply R; by right].
      intros ->. rewrite Na, D in R. discriminate R. by left.
  - destruct (IH p) as (W' & M' & A' & Q'); [done|done|intros; apply L; by right|].
    split_and!; try done. intros j. rewrite Q', elem_of_cons. split.
    + intros [E R]. split; [done|]. intros [->|]; [congruence|by apply R].
    + intros [E R]. split; [done|]. intros; apply R; by right.
Qed.

Lemma remove_refines del p s m : refines p s ->
  refines (set_mode m (fst (remove_loop del (acl_node_q p) p)))
    (Spec m (filter (λ a, del a = false) (saddrs s))).
Proof.
  intros [W M E].
  destruct (acl_loop_spec del _ p W (wf_nodup p W)) as (W' & M' & A' & Q'); [done|].
  split; [by destruct W'; split|done|]. intros a. cbn [saddrs]. rewrite elem_of_filter, E.
  change (addrs (set_mode m ?q)) with (addrs q). unfold addrs.
  rewrite !list_elem_of_fmap. setoid_rewrite A'. setoid_rewrite Q'.
  split.
  - intros [D (j & -> & Ej)]. by exists j.
  - intros (j & -> & Ej & R). split; [by apply R|by exists j].
Qed.

(** *** Addition and the question *)

Lemma find_empty_spec l :
  (exists n, l !! find_empty l = Some n /\ valid n = false) \/
  (find_empty l = length l /\ forall i n, l !! i = Some n -> valid n = true).
Proof.
  induction l as [|n l IH]; [by right|]. cbn [find_empty]. destruct (valid n) eqn:V.
  - destruct IH as [IH|[-> IH]]; [by left|right]. split; [done|].
    intros [|i] m E; [by injection E as <-|by apply (IH i)].
  - left. by exists n.
Qed.

(** A pool with less than 16 nodes in use has a free one. *)
Lemma room p : wf p -> num p < NUM_ACL ->
  exists n, aclnode p !! find_empty (aclnode p) = Some n /\ valid n = false.
Proof.
  intros W N. destruct (find_empty_spec (aclnode p)) as [F|[_ F]]; [done|exfalso].
  assert (length (seq 0 16) <= length (acl_node_q p))%nat as L.
  { apply submseteq_length, NoDup_submseteq; [apply NoDup_seq|].
    intros i [_ Hi]%elem_of_seq. apply (wf_in p W).
    destruct (lookup_lt_is_Some_2 (aclnode p) i) as [n E]; [rewrite (wf_len p W); lia|].
    exists n. split; [done|exact (F i n E)]. }
  rewrite (wf_num p W) in N. cbn in L. unfold NUM_ACL in N. lia.
Qed.

Lemma listed_refines p s a : refines p s ->
  listed a (acl_node_q p) p = bool_decide (a ∈ saddrs s).
Proof.
  intros [W _ E]. rewrite listed_spec by done. apply bool_decide_ext. by rewrite E.
Qed.

Lemma link_refines p s a i n :
  refines p s -> a ∉ saddrs s -> aclnode p !! i = Some n -> valid n = false ->
  refines (AclPool (mode p) (num p + 1) (<[i := AclNode a true]> (aclnode p))
             (acl_node_q p ++ [i]))
    (Spec (smode s) ({[a]} ∪ saddrs s)).
Proof.
  intros [W M E] N En V. set (q := AclPool _ _ _ _).
  assert (i ∉ acl_node_q p) as Ni by (intros (m & Em & Vm)%(wf_in p W); congruence).
  assert (i < length (aclnode p))%nat as Hi by exact (lookup_lt_Some _ _ _ En).
  assert (node_addr q i = a) as Ai by (unfold node_addr; cbn; by rewrite list_lookup_insert_eq).
  assert (addrs q = addrs p ++ [a]) as Aq.
  { unfold addrs at 1. cbn [acl_node_q q]. rewrite fmap_app. f_equal; [|cbn; by rewrite Ai].
    apply list_fmap_ext. intros k j Ej. unfold node_addr. cbn.
    rewrite list_lookup_insert_ne; [done|]. intros ->. apply Ni. by eapply list_elem_of_lookup_2. }
  split; [split|done|].
  - cbn. rewrite length_insert. apply (wf_len p W).
  - rewrite Aq. apply NoDup_app. split_and!; [apply (wf_addrs p W)| |apply NoDup_singleton].
    intros x Ex ->%list_elem_of_singleton. apply N, E, Ex.
  - intros j. cbn. rewrite elem_of_app, list_elem_of_singleton, (wf_in p W).
    destruct (decide (i = j)) as [->|D].
    + rewrite list_lookup_insert_eq by done. split; [intros _; by eexists|by right].
    + rewrite list_lookup_insert_ne by done. split; [by intros [?| ->]|by left].
  - cbn. rewrite length_app, (wf_num p W). cbn. lia.
  - intros x. cbn [saddrs]. rewrite Aq, elem_of_app, list_elem_of_singleton, <- E. set_solver.
Qed.

Lemma add_refines p s a : refines p s ->
  refines (fst (acl_add_sta a p)) (fst (spec_add a s)) /\
  snd (acl_add_sta a p) = snd (spec_add a s).
Proof.
  intros R. unfold acl_add_sta, spec_add. rewrite (listed_refines p s a R), (ref_size p s R).
  case_bool_decide as I; [rewrite decide_True by done|rewrite decide_False by done]; [done|].
  destruct (Z.leb_spec NUM_ACL (Z.of_nat (size (saddrs s)))) as [G|G]; [done|].
  destruct (room p (ref_wf p s R)) as (n & En & V); [by rewrite (ref_size p s R)|].
  pose proof (lookup_lt_Some _ _ _ En) as L. rewrite (wf_len p (ref_wf p s R)) in L.
  rewrite (proj2 (Z.leb_gt NUM_ACL (Z.of_nat _))) by (unfold NUM_ACL; lia).
  cbn [fst snd]. rewrite <- (ref_size p s R). split; [|done]. by eapply link_refines.
Qed.

Lemma access_refines p s a : refines p s -> pool_access_ctrl p a = spec_access s a.
Proof.
  intros R. unfold pool_access_ctrl, spec_access.
  rewrite (listed_refines p s a R), (ref_mode p s R).
  destruct (smode s =? RTW_ACL_MODE_ACCEPT_UNLESS_LISTED); cbn.
  - by rewrite bool_decide_not.
  - by destruct (smode s =? RTW_ACL_MODE_DENY_UNLESS_LISTED).
Qed.

Lemma clear_refines p s : refines p s -> refines (_rtw_macaddr_acl_deinit p) (spec_clear s).
Proof.
  intros R. unfold _rtw_macaddr_acl_deinit, spec_clear.
  destruct (remove_refines (λ _, true) p s RTW_ACL_MODE_DISABLED R) as [W M E].
  split; [done|done|]. intros a. rewrite <- E. cbn. set_solver.
Qed.

Lemma acl_remove_refines p s a : refines p s -> refines (acl_remove_sta a p) (spec_remove a s).
Proof.
  intros R. unfold acl_remove_sta, spec_remove. rewrite <- (ref_mode p s R).
  destruct (remove_refines (λ b, is_broadcast_mac_addr a || bool_decide (b = a))
              p s (mode p) R) as [W M E].
  destruct (acl_loop_spec (λ b, is_broadcast_mac_addr a || bool_decide (b = a)) (acl_node_q p) p)
    as (W' & M' & _); [apply R|apply wf_nodup, R|done|].
  split; [done|done|]. intros b. change (addrs (set_mode ?m ?q)) with (addrs q) in E.
  rewrite <- E. cbn [saddrs]. rewrite elem_of_filter. destruct (is_broadcast_mac_addr a); cbn.
  - set_solver.
  - rewrite bool_decide_eq_false. set_solver.
Qed.

(** ** An interface and its specification *)

Definition refines2 (l : acl_list) (s : acl * acl) : Prop :=
  exists p0 p1, l = [p0; p1] /\ refines p0 (s.1) /\ refines p1 (s.2).

(** What an operation on a pool does to the pool of its period. *)
Lemma with_pool_refines {A} (f : wlan_acl_pool → wlan_acl_pool * A) (g : acl → acl * A)
    l s period out :
  (forall p x, refines p x -> refines (fst (f p)) (fst (g x)) /\ snd (f p) = snd (g x)) ->
  refines2 l s -> 0 <= period < 256 ->
  refines2 (fst (with_pool l period out f)) (spec_at s period (λ x, fst (g x))) /\
  snd (with_pool l period out f) =
    (if period =? RTW_ACL_PERIOD_DEV then snd (g (s.1))
     else if period =? RTW_ACL_PERIOD_BSS then snd (g (s.2)) else out).
Proof.
  intros F (p0 & p1 & -> & R0 & R1) B. unfold with_pool, spec_at, RTW_ACL_PERIOD_NUM.
  destruct (Z.leb_spec 2 period) as [G|G]; unfold RTW_ACL_PERIOD_DEV, RTW_ACL_PERIOD_BSS.
  - rewrite (proj2 (Z.eqb_neq period 0)), (proj2 (Z.eqb_neq period 1)) by lia.
    split; [by exists p0, p1|done].
  - destruct (decide (period = 0)) as [->|N0].
    + destruct (F p0 (s.1) R0) as [R E]. split; [by eexists _, p1|exact E].
    + assert (period = 1) as -> by lia.
      destruct (F p1 (s.2) R1) as [R E]. split; [by eexists p0, _|exact E].
Qed.

(** The same for an operation without an answer. *)
Lemma with_pool_refines_tt (f : wlan_acl_pool → wlan_acl_pool) (g : acl → acl) l s period :
  (forall p x, refines p x -> refines (f p) (g x)) -> refines2 l s -> 0 <= period < 256 ->
  refines2 (fst (with_pool l period tt (λ p, (f p, tt)))) (spec_at s period g).
Proof.
  intros F R B. apply (with_pool_refines (λ p, (f p, tt)) (λ x, (g x, tt)) l s period tt); try done.
  intros p x Rx. split; [by apply F|done].
Qed.

Lemma set_mode_refines m p s : refines p s -> refines (set_mode m p) (spec_mode m s).
Proof. intros [[] M E]. by split; [split|done|]. Qed.

Lemma add_sta_refines period a l s : refines2 l s -> 0 <= period < 256 ->
  refines2 (fst (rtw_acl_add_sta period a l)) (spec_at s period (λ x, fst (spec_add a x))) /\
  snd (rtw_acl_add_sta period a l) = spec_add_ret s period a.
Proof. intros R B. apply (with_pool_refines (acl_add_sta a) (spec_add a) l s period (-1));
    [intros; by apply add_refines|done|done].
 Qed.

Lemma add_all_refines l' l s0 s1 : refines2 l (s0, s1) ->
  refines2 (add_all RTW_ACL_PERIOD_BSS l' l)
    (s0, fold_left (λ x a, fst (spec_add a x)) l' s1).
Proof.
  revert l s1. induction l' as [|a l' IH]; intros l s1 R; [done|].
  cbn [add_all fold_left]. apply IH.
  exact (proj1 (add_sta_refines RTW_ACL_PERIOD_BSS a l (s0, s1) R ltac:(done))).
Qed.

Lemma access_ctrl_refines l s a : refines2 l s ->
  rtw_access_ctrl l a = spec_access (s.1) a && spec_access (s.2) a.
Proof.
  intros (p0 & p1 & -> & R0 & R1).
  change (rtw_access_ctrl _ a) with (pool_access_ctrl p0 a && pool_access_ctrl p1 a).
  by rewrite (access_refines p0 (s.1)), (access_refines p1 (s.2)).
Qed.

Lemma set_mac_acl_refines d l s : refines2 l s ->
  refines2 (fst (cfg80211_rtw_set_mac_acl d l)) (fst (spec_exec (SetMacAcl d) s)) /\
  snd (cfg80211_rtw_set_mac_acl d l) = snd (spec_exec (SetMacAcl d) s).
Proof.
  intros R.
  pose proof (with_pool_refines_tt _ _ l s RTW_ACL_PERIOD_BSS clear_refines R ltac:(done)) as C.
  destruct d as [[pol d]|]; [|by split]. split; [|done].
  cbn [cfg80211_rtw_set_mac_acl spec_exec fst policy mac_addrs]. apply add_all_refines.
  destruct pol; exact (with_pool_refines_tt _ _ _ _ RTW_ACL_PERIOD_BSS
    (set_mode_refines _) C ltac:(done)).
Qed.

Lemma exec_refines o l s : refines2 l s -> period_ok o ->
  refines2 (fst (exec o l)) (fst (spec_exec o s)) /\ snd (exec o l) = snd (spec_exec o s).
Proof.
  intros R B. destruct o as [p|p m|p a|p a|d|a]; cbn [exec period_ok] in *.
  - split; [|done]. by apply with_pool_refines_tt; [apply clear_refines|..].
  - split; [|done]. apply with_pool_refines_tt; [apply set_mode_refines|done|done].
  - by apply add_sta_refines.
  - destruct (with_pool_refines (λ p, (acl_remove_sta a p, 0)) (λ x, (spec_remove a x, 0))
      l s p 0) as [X Y]; [|done|exact B|split; [exact X|]].
    + intros q x Rx. split; [by apply acl_remove_refines|done].
    + unfold rtw_acl_remove_sta. cbn [fst snd spec_exec]. etransitivity; [exact Y|].
      by repeat case_match.
  - by apply set_mac_acl_refines.
  - split; [done|]. cbn. by rewrite (access_ctrl_refines l s).
Qed.

Lemma init_pool_refines p : length (aclnode p) = 16%nat ->
  refines (macaddr_acl_init p) (Spec RTW_ACL_MODE_DISABLED ∅).
Proof.
  intros L. split; [split|done|].
  - cbn. by rewrite length_fmap.
  - apply NoDup_nil_2.
  - intros i. cbn. split; [by intros ?%not_elem_of_nil|]. intros (n & En & V).
    rewrite list_lookup_fmap in En. destruct (aclnode p !! i); [|done].
    injection En as <-. discriminate V.
  - done.
  - intros a. split; [by intros ?%not_elem_of_empty|by intros ?%not_elem_of_nil].
Qed.

Lemma init_refines l : shape l ->
  refines2 (init_acl l) (Spec RTW_ACL_MODE_DISABLED ∅, Spec RTW_ACL_MODE_DISABLED ∅).
Proof.
  intros [L F]. destruct l as [|p0 [|p1 [|]]]; try done.
  apply Forall_cons in F as [L0 F]. apply Forall_cons in F as [L1 _].
  eexists _, _. split; [done|split; by apply init_pool_refines].
Qed.

Lemma run_refines ops : forall l s, refines2 l s -> Forall period_ok ops ->
  refines2 (fst (run exec ops l)) (fst (run spec_exec ops s)) /\
  snd (run exec ops l) = snd (run spec_exec ops s).
Proof.
  induction ops as [|o ops IH]; intros l s R B; [done|].
  apply Forall_cons in B as [Bo B]. destruct (exec_refines o l s R Bo) as [R' E].
  destruct (IH _ _ R' B) as [R'' E']. cbn [run fst snd]. by rewrite E, E'.
Qed.

(** ** Theorems *)

(** C38: Whatever is done with an interface's access lists from its initialisation
    on (addresses added and removed, lists cleared, modes set, lists given by
    cfg80211, stations checked), each answer is the one of two finite sets of
    at most 16 addresses, each with a mode: adding an address that is there changes
    nothing, the seventeenth is refused, the broadcast address removes all, and a
    station is let in when no set in mode accept-unless-listed has it and each set
    in mode deny-unless-listed has it.  A period that does not exist is refused. *)
Theorem acl_refines l ops :
  shape l -> Forall period_ok ops ->
  snd (run exec ops (init_acl l)) =
  snd (run spec_exec ops (Spec RTW_ACL_MODE_DISABLED ∅, Spec RTW_ACL_MODE_DISABLED ∅)).
Proof. intros S B. exact (proj2 (run_refines ops _ _ (init_refines l S) B)). Qed.

Definition sample_acl : acl_list :=
  let p := AclPool 0 0 (replicate 16 (AclNode [0; 0; 0; 0; 0; 0] false)) [] in [p; p].
Definition peer (i : Z) : list Z := [0; 0x11; 0x22; 0x33; 0x44; i].
Definition sample_ops : list op :=
  [Add 1 (peer 1); SetMode 1 1; Access (peer 1); Access (peer 2);
   SetMacAcl (Some (AclData DENY_UNLESS_LISTED [peer 2; peer 3])); Access (peer 1);
   Access (peer 2); Add 2 (peer 4)].

Lemma acl_refines_witness :
  snd (run exec sample_ops (init_acl sample_acl)) =
  snd (run spec_exec sample_ops (Spec RTW_ACL_MODE_DISABLED ∅, Spec RTW_ACL_MODE_DISABLED ∅)) /\
  snd (run exec sample_ops (init_acl sample_acl)) = [0; 0; 0; 1; 0; 0; 1; -1].
Proof.
  split; [|vm_compute; reflexivity]. apply acl_refines.
  - split; [done|]. repeat constructor.
  - repeat constructor; done.
Defined.

(** An access list of cfg80211 has at most 16 addresses; of 17 the last would be
    left out without an error. *)
Example seventeenth_refused :
  snd (run exec [SetMacAcl (Some (AclData ACCEPT_UNLESS_LISTED (peer <$> seqZ 0 17)));
                 Access (peer 15); Access (peer 16)] (init_acl sample_acl)) = [0; 0; 1].
Proof. vm_compute. reflexivity. Qed.
End Acl.
