(* ===== verification/Join.v ===== *)
(** * A station joins a network

    core/rtw_mlme_ext.c: start_clnt_join, start_clnt_auth, start_clnt_assoc,
    OnBeacon (its start of authentication), OnAuthClient, OnAssocRsp, OnDeAuth and
    OnDisassoc (of a station), receive_disconnect, issue_auth (of a station),
    link_timer_hdl, report_join_res; core/rtw_mlme.c: rtw_joinbss_event_prehandle,
    rtw_join_timeout_handler, the two halves of a connection's abort and
    rtw_join_abort_timeout; cfg80211_rtw_set_pmksa and the end of an external
    authentication (os_dep/linux/ioctl_cfg80211.c).

    The machine waits for a beacon, authenticates, associates, and reports a result;
    two timers watch it.  What it does is in [log], the latest first.  The texts of
    the log, the choice among networks, FT roaming (802.11r is off), the test hooks
    of rtw_debug.c and the elements of beacons and association responses, which
    other parts read, are left out.  What holds in every run is in [JoinInv]. *)

From S2P Require Import Prelude Bytes Ies Wep RxFrame RxState.

Module Join.
Import Ies RxFrame RxState.

(** ** Constants *)

Definition REAUTH_TO : Z := 300.
Definition REASSOC_TO : Z := 300.
Definition REAUTH_LIMIT : Z := 4.
Definition REASSOC_LIMIT : Z := 4.
Definition WAIT_FOR_BCN_TO_MIN : Z := 6000.
Definition WAIT_FOR_BCN_TO_MAX : Z := 20000.

Definition WIFI_FW_NULL_STATE : Z := 0x00.
Definition WIFI_FW_ADHOC_STATE : Z := 0x01.
Definition WIFI_FW_STATION_STATE : Z := 0x02.
Definition WIFI_FW_AUTH_NULL : Z := 0x100.
Definition WIFI_FW_AUTH_STATE : Z := 0x200.
Definition WIFI_FW_AUTH_SUCCESS : Z := 0x400.
Definition WIFI_FW_ASSOC_STATE : Z := 0x2000.
Definition WIFI_FW_ASSOC_SUCCESS : Z := 0x4000.
Definition WIFI_FW_LINKING_STATE : Z :=
  Z.lor (Z.lor (Z.lor WIFI_FW_AUTH_NULL WIFI_FW_AUTH_STATE) WIFI_FW_AUTH_SUCCESS) WIFI_FW_ASSOC_STATE.

Definition WLAN_HDR_A3_LEN : Z := 24.
Definition _AUTH_IE_OFFSET_ : Z := 6.
Definition _CHLGETXT_IE_ : Z := 16.
Definition cap_ESS : Z := 1.
Definition cap_IBSS : Z := 2.
Definition WLAN_STATUS_SUCCESS : Z := 0.
Definition WLAN_STATUS_UNSPECIFIED_FAILURE : Z := 1.
Definition WLAN_REASON_PREV_AUTH_NOT_VALID : Z := 2.
Definition WLAN_REASON_CLASS2_FRAME_FROM_NONAUTH_STA : Z := 6.

(** ** State *)

(** What the machine does. *)
Inductive event :=
  | Started                          (** [start_clnt_join] in an infrastructure network *)
  | StartedIbss
  | TxAuth (body : list Z) (wep : bool)  (** an authentication frame's body; [wep]: encrypted *)
  | TxAssocReq
  | ExternalAuth                     (** [rtw_cfg80211_external_auth_request] *)
  | RxMframe                         (** [rtw_cfg80211_rx_mframe] *)
  | Authenticated                    (** [start_clnt_assoc] begins *)
  | JoinRes (aid_res status : Z)     (** a result that was queued *)
  | LostRes (aid_res status : Z)     (** a result that could not be queued *)
  | DelSta (reason : Z)
  | Reset                            (** a disconnection from above *)
  | Connected                        (** [rtw_indicate_connect] *)
  | Disconnected (status : Z).       (** [rtw_indicate_disconnect] of a timeout *)

(** [struct mlme_ext_info] and the fields of [mlme_ext_priv] and [mlme_priv] the
    machine has; [bssid] is [network.MacAddress], [under_linking] the bit
    [WIFI_UNDER_LINKING] of [fw_state]; a timer that is set has its time. *)
Record mlme := mk_mlme {
  state : Z; reauth_count : Z; reassoc_count : Z; link_count : Z;
  auth_seq : Z; auth_algo : Z; auth_status : Z; iv : Z; chg_txt : list Z;
  bssid : list Z; capability : Z; slotTime : Z;
  join_abort : bool; link_timer : option Z; assoc_timer : option Z;
  under_linking : bool; join_status : Z; extauth_status : Z; log : list event
}.

Definition set_state (x : Z) (m : mlme) : mlme :=
  mk_mlme x (reauth_count m) (reassoc_count m) (link_count m) (auth_seq m) (auth_algo m) (auth_status m) (iv m) (chg_txt m) (bssid m) (capability m) (slotTime m) (join_abort m) (link_timer m) (assoc_timer m) (under_linking m) (join_status m) (extauth_status m) (log m).
Definition set_counts (ra rs lc : Z) (m : mlme) : mlme :=
  mk_mlme (state m) ra rs lc (auth_seq m) (auth_algo m) (auth_status m) (iv m) (chg_txt m) (bssid m) (capability m) (slotTime m) (join_abort m) (link_timer m) (assoc_timer m) (under_linking m) (join_status m) (extauth_status m) (log m).
Definition set_auth (seq algo st : Z) (m : mlme) : mlme :=
  mk_mlme (state m) (reauth_count m) (reassoc_count m) (link_count m) seq algo st (iv m) (chg_txt m) (bssid m) (capability m) (slotTime m) (join_abort m) (link_timer m) (assoc_timer m) (under_linking m) (join_status m) (extauth_status m) (log m).
Definition set_iv (x : Z) (m : mlme) : mlme :=
  mk_mlme (state m) (reauth_count m) (reassoc_count m) (link_count m) (auth_seq m) (auth_algo m) (auth_status m) x (chg_txt m) (bssid m) (capability m) (slotTime m) (join_abort m) (link_timer m) (assoc_timer m) (under_linking m) (join_status m) (extauth_status m) (log m).
Definition set_chg_txt (x : list Z) (m : mlme) : mlme :=
  mk_mlme (state m) (reauth_count m) (reassoc_count m) (link_count m) (auth_seq m) (auth_algo m) (auth_status m) (iv m) x (bssid m) (capability m) (slotTime m) (join_abort m) (link_timer m) (assoc_timer m) (under_linking m) (join_status m) (extauth_status m) (log m).
Definition set_network (b : list Z) (m : mlme) : mlme :=
  mk_mlme (state m) (reauth_count m) (reassoc_count m) (link_count m) (auth_seq m) (auth_algo m) (auth_status m) (iv m) (chg_txt m) b (capability m) (slotTime m) (join_abort m) (link_timer m) (assoc_timer m) (under_linking m) (join_status m) (extauth_status m) (log m).
Definition set_capability (c s : Z) (m : mlme) : mlme :=
  mk_mlme (state m) (reauth_count m) (reassoc_count m) (link_count m) (auth_seq m) (auth_algo m) (auth_status m) (iv m) (chg_txt m) (bssid m) c s (join_abort m) (link_timer m) (assoc_timer m) (under_linking m) (join_status m) (extauth_status m) (log m).
Definition set_abort (b : bool) (m : mlme) : mlme :=
  mk_mlme (state m) (reauth_count m) (reassoc_count m) (link_count m) (auth_seq m) (auth_algo m) (auth_status m) (iv m) (chg_txt m) (bssid m) (capability m) (slotTime m) b (link_timer m) (assoc_timer m) (under_linking m) (join_status m) (extauth_status m) (log m).
Definition set_timers (l a : option Z) (m : mlme) : mlme :=
  mk_mlme (state m) (reauth_count m) (reassoc_count m) (link_count m) (auth_seq m) (auth_algo m) (auth_status m) (iv m) (chg_txt m) (bssid m) (capability m) (slotTime m) (join_abort m) l a (under_linking m) (join_status m) (extauth_status m) (log m).
Definition set_linking (b : bool) (st : Z) (m : mlme) : mlme :=
  mk_mlme (state m) (reauth_count m) (reassoc_count m) (link_count m) (auth_seq m) (auth_algo m) (auth_status m) (iv m) (chg_txt m) (bssid m) (capability m) (slotTime m) (join_abort m) (link_timer m) (assoc_timer m) b st (extauth_status m) (log m).
Definition set_extauth (x : Z) (m : mlme) : mlme :=
  mk_mlme (state m) (reauth_count m) (reassoc_count m) (link_count m) (auth_seq m) (auth_algo m) (auth_status m) (iv m) (chg_txt m) (bssid m) (capability m) (slotTime m) (join_abort m) (link_timer m) (assoc_timer m) (under_linking m) (join_status m) x (log m).
Definition emit (e : event) (m : mlme) : mlme :=
  mk_mlme (state m) (reauth_count m) (reassoc_count m) (link_count m) (auth_seq m) (auth_algo m) (auth_status m) (iv m) (chg_txt m) (bssid m) (capability m) (slotTime m) (join_abort m) (link_timer m) (assoc_timer m) (under_linking m) (join_status m) (extauth_status m) (e :: log m).

Definition set_link_timer (ms : Z) (m : mlme) : mlme := set_timers (Some ms) (assoc_timer m) m.
Definition cancel_link_timer (m : mlme) : mlme := set_timers None (assoc_timer m) m.
Definition set_assoc_timer (ms : Z) (m : mlme) : mlme := set_timers (link_timer m) (Some ms) m.
Definition cancel_assoc_timer (m : mlme) : mlme := set_timers (link_timer m) None m.

(** What the rest of the driver is like when the machine runs: its address, the
    configuration of security, whether allocations and queueing a command succeed,
    and whether the network of a result is found with its station. *)
Inductive report := Queued | NoQueue | NoMemory.

Record env := mk_env {
  mac : list Z;
  sae : bool;            (** [rtw_sec_chk_auth_type(padapter, MLME_AUTHTYPE_SAE)] *)
  report_mgmt : bool;    (** [GET_CFG80211_REPORT_MGMT(..., IEEE80211_STYPE_AUTH)] *)
  cached_pmkid : bool;
  key_index : Z;         (** [dot11PrivacyKeyIndex] *)
  mgnt_frame : bool;     (** a frame can be had and the channel may be used *)
  result : report;
  del_sta : bool;        (** [report_del_sta_event] succeeds *)
  found : bool
}.

(** A received management frame: the bytes from its header on, and its length. *)
Record mframe := mk_mframe { pframe : list Z; pkt_len : Z }.

Definition decide_wait_for_beacon_timeout (bcn_interval : Z) : Z :=
  if u32 (Z.shiftl bcn_interval 2) <? WAIT_FOR_BCN_TO_MIN then WAIT_FOR_BCN_TO_MIN
  else if WAIT_FOR_BCN_TO_MAX <? u32 (Z.shiftl bcn_interval 2) then WAIT_FOR_BCN_TO_MAX
  else u32 (Z.shiftl bcn_interval 2).

(** ** Reporting a result *)

(** Of a success: the network and its station are found, or it is ignored. *)
Definition rtw_joinbss_event_prehandle (e : env) (join_res status : Z) (m : mlme) : mlme :=
  if 0 <? join_res then
    if under_linking m && found e then cancel_assoc_timer (emit Connected m) else m
  else set_linking false status (set_assoc_timer 1 m).

(** The flag is [ret != _FAIL]. *)
Definition report_join_res (e : env) (aid_res status : Z) (m : mlme) : mlme * bool :=
  match result e with
  | NoMemory => (emit (LostRes aid_res status) m, false)
  | NoQueue => (emit (LostRes aid_res status) (rtw_joinbss_event_prehandle e aid_res status m), false)
  | Queued => (emit (JoinRes aid_res status) (rtw_joinbss_event_prehandle e aid_res status m), true)
  end.

(** ** Sending *)

(** The body of the authentication frame of a station, and whether it is encrypted;
    [iv] is counted up when it is sent in the frame. *)
Definition auth_third (m : mlme) : bool :=
  (auth_seq m =? 3) && flag (state m) WIFI_FW_AUTH_STATE
  && (auth_algo m =? dot11AuthAlgrthm_Shared).

Definition auth_iv (e : env) (m : mlme) : list Z :=
  Wep.le32_bytes (Z.lor (iv m) (u32 (Z.shiftl (key_index e) 30))).

Definition auth_body (e : env) (m : mlme) (status : Z) : list Z :=
  let alg := if auth_algo m =? dot11AuthAlgrthm_Shared then 1 else 0 in
  (if auth_third m then auth_iv e m else [])
  ++ put_le16 alg ++ put_le16 (u16 (auth_seq m)) ++ put_le16 status
  ++ (if auth_third m then [_CHLGETXT_IE_; 128] ++ chg_txt m else []).

Definition issue_auth (e : env) (status : Z) (m : mlme) : mlme :=
  if negb (mgnt_frame e) then m
  else
    let m' := emit (TxAuth (auth_body e m status) (auth_third m)) m in
    if auth_third m then set_iv (u32 (iv m + 1)) m' else m'.

Definition issue_assocreq (m : mlme) : mlme := emit TxAssocReq m.

(** ** Starting *)

(** [caps] are the network's capabilities, [bcn_interval] its beacon interval. *)
Definition start_clnt_join (e : env) (caps bcn_interval : Z) (m : mlme) : mlme :=
  if flag caps cap_ESS then
    let beacon_timeout := decide_wait_for_beacon_timeout bcn_interval in
    let m := set_link_timer beacon_timeout m in
    let m := set_assoc_timer (REAUTH_TO * REAUTH_LIMIT + REASSOC_TO * REASSOC_LIMIT + beacon_timeout) m in
    emit Started (set_state (Z.lor WIFI_FW_AUTH_NULL WIFI_FW_STATION_STATE) m)
  else if flag caps cap_IBSS then
    fst (report_join_res e 1 WLAN_STATUS_SUCCESS (emit StartedIbss (set_state WIFI_FW_ADHOC_STATE m)))
  else m.

Definition start_clnt_auth (e : env) (m : mlme) : mlme :=
  let m := cancel_link_timer m in
  let m := set_state (Z.lor (Z.ldiff (state m) WIFI_FW_AUTH_NULL) WIFI_FW_AUTH_STATE) m in
  let m := set_auth 1 (auth_algo m) (auth_status m) m in
  let m := set_counts 0 0 0 m in
  if sae e && negb (cached_pmkid e) then emit ExternalAuth m
  else set_link_timer REAUTH_TO (issue_auth e 0 m).

Definition start_clnt_assoc (m : mlme) : mlme :=
  let m := cancel_link_timer (emit Authenticated m) in
  let m := set_state (Z.lor (Z.ldiff (state m) (Z.lor WIFI_FW_AUTH_NULL WIFI_FW_AUTH_STATE))
                            (Z.lor WIFI_FW_AUTH_SUCCESS WIFI_FW_ASSOC_STATE)) m in
  set_link_timer REASSOC_TO (issue_assocreq m).

Definition receive_disconnect (e : env) (addr : list Z) (reason : Z) (m : mlme) : mlme :=
  if negb (bool_decide (addr = bssid m)) then m
  else if Z.land (state m) 3 =? WIFI_FW_STATION_STATE then
    if flag (state m) WIFI_FW_ASSOC_SUCCESS then
      if del_sta e then set_state WIFI_FW_NULL_STATE (emit (DelSta reason) m) else m
    else if flag (state m) WIFI_FW_LINKING_STATE then
      let r := report_join_res e (-2) reason m in
      if snd r then set_state WIFI_FW_NULL_STATE (fst r) else fst r
    else m
  else m.

(** ** Frames *)

Definition hdr_addr (f : mframe) (off : Z) : res (list Z) := slice (pframe f) off ETH_ALEN.

(** [To DS] and [From DS] are bits 0 and 1 of the second octet. *)
Definition get_da (f : mframe) : res (list Z) :=
  b ← byte_at (pframe f) 1;
  if Z.testbit b 0 then hdr_addr f 16 else hdr_addr f 4.

Definition GetPrivacy (f : mframe) : res bool :=
  b ← byte_at (pframe f) 1; Ret (Z.testbit b 6).

(** The part of [OnBeacon] that starts authentication. *)
Definition OnBeacon (e : env) (f : mframe) (m : mlme) : res mlme :=
  a3 ← hdr_addr f 16;
  if bool_decide (a3 = bssid m) && flag (state m) WIFI_FW_AUTH_NULL then
    Ret (if join_abort m then set_link_timer 1 m else start_clnt_auth e m)
  else Ret m.

(** The end of [OnAuthClient]: the frame's status is 0. *)
Definition auth_answer (e : env) (f : mframe) (seq : Z) (m : mlme) : res mlme :=
  if seq =? 2 then
    if auth_algo m =? dot11AuthAlgrthm_Shared then
      o ← rtw_get_ie (pframe f) (WLAN_HDR_A3_LEN + _AUTH_IE_OFFSET_) _CHLGETXT_IE_
            (pkt_len f - WLAN_HDR_A3_LEN - _AUTH_IE_OFFSET_);
      match o with
      | None => Ret m
      | Some (p, len) =>
          c ← slice (pframe f) (p + 2) len;
          t ← blit (chg_txt m) 0 c;
          let m := set_auth 3 (auth_algo m) (auth_status m) (set_chg_txt t m) in
          Ret (set_link_timer REAUTH_TO (issue_auth e 0 m))
      end
    else Ret (start_clnt_assoc m)
  else if seq =? 4 then
    Ret (if auth_algo m =? dot11AuthAlgrthm_Shared then start_clnt_assoc m else m)
  else Ret m.

Definition OnAuthClient (e : env) (f : mframe) (m : mlme) : res mlme :=
  if report_mgmt e && sae e && negb (cached_pmkid e) then Ret (emit RxMframe m)
  else
    da ← get_da f;
    if negb (bool_decide (mac e = da)) then Ret m
    else if negb (flag (state m) WIFI_FW_AUTH_STATE) || join_abort m then Ret m
    else
      privacy ← GetPrivacy f;
      let offset := if privacy : bool then 4 else 0 in
      algthm ← get_le16 (pframe f) (WLAN_HDR_A3_LEN + offset);
      seq ← get_le16 (pframe f) (WLAN_HDR_A3_LEN + offset + 2);
      status ← get_le16 (pframe f) (WLAN_HDR_A3_LEN + offset + 4);
      if negb (status =? 0) then
        let algo :=
          if status =? 13 then
            if auth_algo m =? dot11AuthAlgrthm_Shared then dot11AuthAlgrthm_Open
            else dot11AuthAlgrthm_Shared
          else auth_algo m in
        Ret (set_link_timer 1 (set_auth (auth_seq m) algo status m))
      else auth_answer e f seq m.

(** The elements of the response, which [rtw_ie_handler] reads, are not modelled. *)
Definition OnAssocRsp (e : env) (f : mframe) (m : mlme) : res mlme :=
  da ← get_da f;
  if negb (bool_decide (mac e = da)) then Ret m
  else if negb (flag (state m) (Z.lor WIFI_FW_AUTH_SUCCESS WIFI_FW_ASSOC_STATE)) || join_abort m then Ret m
  else if flag (state m) WIFI_FW_ASSOC_SUCCESS then Ret m
  else
    let m := cancel_link_timer m in
    status ← get_le16 (pframe f) (WLAN_HDR_A3_LEN + 2);
    if 0 <? status then
      Ret (fst (report_join_res e (-4) status (set_state WIFI_FW_NULL_STATE m)))
    else
      cap ← get_le16 (pframe f) WLAN_HDR_A3_LEN;
      let m := set_capability cap (if Z.testbit cap 10 then 9 else 20) m in
      aid ← get_le16 (pframe f) (WLAN_HDR_A3_LEN + 4);
      let res := Z.land aid 0x3fff in
      if (res <? 1) || (2007 <? res) then
        Ret (fst (report_join_res e (-4) status (set_state WIFI_FW_NULL_STATE m)))
      else
        let m := set_state (Z.lor (Z.ldiff (state m) WIFI_FW_ASSOC_STATE) WIFI_FW_ASSOC_SUCCESS) m in
        Ret (fst (report_join_res e res status m)).

Definition OnDeAuth (e : env) (f : mframe) (m : mlme) : res mlme :=
  a3 ← hdr_addr f 16;
  if negb (bool_decide (a3 = bssid m)) then Ret m
  else
    reason ← get_le16 (pframe f) WLAN_HDR_A3_LEN;
    a2 ← hdr_addr f 10;
    let ignore_received_deauth :=
      (flag (state m) WIFI_FW_AUTH_STATE || flag (state m) WIFI_FW_ASSOC_STATE)
      && ((reason =? WLAN_REASON_CLASS2_FRAME_FROM_NONAUTH_STA)
          || (reason =? WLAN_REASON_PREV_AUTH_NOT_VALID)) in
    Ret (if ignore_received_deauth then m else receive_disconnect e a2 reason m).

Definition OnDisassoc (e : env) (f : mframe) (m : mlme) : res mlme :=
  a3 ← hdr_addr f 16;
  if negb (bool_decide (a3 = bssid m)) then Ret m
  else
    reason ← get_le16 (pframe f) WLAN_HDR_A3_LEN;
    a2 ← hdr_addr f 10;
    Ret (receive_disconnect e a2 reason m).

(** ** Timers *)

Definition link_timer_hdl (e : env) (m : mlme) : mlme :=
  if join_abort m && negb (state m =? WIFI_FW_NULL_STATE) then
    fst (report_join_res e (-4) WLAN_STATUS_UNSPECIFIED_FAILURE (set_state WIFI_FW_NULL_STATE m))
  else if flag (state m) WIFI_FW_AUTH_NULL then
    fst (report_join_res e (-3) WLAN_STATUS_UNSPECIFIED_FAILURE (set_state WIFI_FW_NULL_STATE m))
  else if flag (state m) WIFI_FW_AUTH_STATE then
    if sae e then m
    else
      let m := set_counts (u32 (reauth_count m + 1)) (reassoc_count m) (link_count m) m in
      if REAUTH_LIMIT <? reauth_count m then
        let m := set_state 0 m in
        if negb (auth_status m =? 0) then
          let m := fst (report_join_res e (-1) (auth_status m) m) in
          set_auth (auth_seq m) (auth_algo m) 0 m
        else fst (report_join_res e (-1) WLAN_STATUS_UNSPECIFIED_FAILURE m)
      else
        let m := set_auth 1 (auth_algo m) (auth_status m) m in
        set_link_timer REAUTH_TO (issue_auth e 0 m)
  else if flag (state m) WIFI_FW_ASSOC_STATE then
    let m := set_counts (reauth_count m) (u32 (reassoc_count m + 1)) (link_count m) m in
    if REASSOC_LIMIT <? reassoc_count m then
      fst (report_join_res e (-2) WLAN_STATUS_UNSPECIFIED_FAILURE (set_state WIFI_FW_NULL_STATE m))
    else set_link_timer REASSOC_TO (issue_assocreq m)
  else m.

(** The two halves of a connection's abort, [_connect_abort_sw_top_half] and
    [_connect_abort_sw_bottom_half]; the dispatcher's thread runs them. *)
Definition connect_abort_top_half (m : mlme) : mlme := set_abort true (set_timers None None m).
Definition connect_abort_bottom_half (m : mlme) : mlme :=
  set_abort false (set_linking false (join_status m) m).

(** Without roaming.  The request to abort the connection is a step of its own. *)
Definition rtw_join_timeout_handler (m : mlme) : mlme :=
  set_linking (under_linking m) 0 (emit (Disconnected (join_status m)) m).

(** [rtw_join_abort_timeout] before it waits, and after. *)
Definition join_abort_begin (m : mlme) : mlme := set_link_timer 1 (set_abort true m).
Definition join_abort_end (m : mlme) : mlme := set_abort false m.

(** ** Requests *)

(** The end of [rtw_connect_cmd]'s work: [update_join_info] copies the network, the
    callers set [WIFI_UNDER_LINKING], and [MSG_EVT_SWCH_DONE] starts the join. *)
Definition join_cmd (e : env) (addr : list Z) (algo caps bcn_interval : Z) (m : mlme) : mlme :=
  let m := set_auth (auth_seq m) algo (auth_status m) (set_network addr m) in
  let m := set_linking true (join_status m) m in
  start_clnt_join e caps bcn_interval (cancel_link_timer m).

(** [rtw_cfg80211_external_auth_status] of a station. *)
Definition external_auth_status (status : Z) (m : mlme) : mlme := set_extauth status m.

Definition cfg80211_rtw_set_pmksa (e : env) (m : mlme) : mlme :=
  if sae e && (extauth_status m =? WLAN_STATUS_SUCCESS) then start_clnt_assoc m else m.

(** What [mlmeext_sta_del_event_callback] and [disconnect_hdl] leave of the machine. *)
Definition mlmeext_disconnect (m : mlme) : mlme :=
  cancel_link_timer (set_state WIFI_FW_NULL_STATE (emit Reset m)).

(** ** Runs *)

Inductive input :=
  | Join (addr : list Z) (algo caps bcn_interval : Z)
  | Beacon (f : mframe)
  | Auth (f : mframe)
  | AssocRsp (f : mframe)
  | DeAuth (f : mframe)
  | Disassoc (f : mframe)
  | ReceiveDisconnect (reason : Z)  (* SA query, a changed beacon *)
  | LinkTimer
  | AssocTimer
  | ConnectAbortTop
  | ConnectAbortBottom
  | AbortBegin
  | AbortEnd
  | ExtAuthStatus (status : Z)
  | SetPmksa
  | Disconnect.

(** A timer that is not set does not run its handler; one that does is not set any
    more. *)
Definition step (e : env) (i : input) (m : mlme) : res mlme :=
  match i with
  | Join addr algo caps bcn_interval => Ret (join_cmd e addr algo caps bcn_interval m)
  | Beacon f => OnBeacon e f m
  | Auth f => OnAuthClient e f m
  | AssocRsp f => OnAssocRsp e f m
  | DeAuth f => OnDeAuth e f m
  | Disassoc f => OnDisassoc e f m
  | ReceiveDisconnect reason => Ret (receive_disconnect e (bssid m) reason m)
  | LinkTimer =>
      Ret (match link_timer m with
           | Some _ => link_timer_hdl e (cancel_link_timer m)
           | None => m
           end)
  | AssocTimer =>
      Ret (match assoc_timer m with
           | Some _ => rtw_join_timeout_handler (cancel_assoc_timer m)
           | None => m
           end)
  | ConnectAbortTop => Ret (connect_abort_top_half m)
  | ConnectAbortBottom => Ret (connect_abort_bottom_half m)
  | AbortBegin => Ret (join_abort_begin m)
  | AbortEnd => Ret (join_abort_end m)
  | ExtAuthStatus status => Ret (external_auth_status status m)
  | SetPmksa => Ret (cfg80211_rtw_set_pmksa e m)
  | Disconnect => Ret (mlmeext_disconnect m)
  end.

Fixpoint run (l : list (env * input)) (m : mlme) : res mlme :=
  match l with
  | [] => Ret m
  | (e, i) :: l => m ← step e i m; run l m
  end.

(** [init_mlme_ext_priv_value]; the text of the challenge is what was there. *)
Definition init_mlme : mlme :=
  mk_mlme WIFI_FW_NULL_STATE 0 0 0 0 0 0 0 (replicate 128 0) [] 0 0 false None None false 0
    WLAN_STATUS_UNSPECIFIED_FAILURE [].
End Join.
