(* ===== verification/JoinInv.v ===== *)
(** * What holds of every join

    [spec_event] is what a station has to do when it joins: wait for a beacon, send
    at most five authentication requests, then at most five association requests,
    and report one result, which fits what came before.  The log of every run of
    [Join] is one of it, and a join that is under way ends when its timer runs. *)

From S2P Require Import Prelude Bytes Ies RxFrame RxState Join.

Module JoinInv.
Import Ies RxFrame RxState Join.

(** ** The protocol *)

(** [Authing n] and [Associng n]: [n] requests were sent. *)
Inductive phase := Idle | Waiting | Authing (n : Z) | Authed | Associng (n : Z) | Linked.

#[export] Instance phase_eq_dec : EqDecision phase.
Proof. solve_decision. Defined.

Definition MAX_REQUESTS : Z := 5.

(** [s]: the network uses SAE, and another program authenticates. *)
Definition spec_event (s : bool) (p : phase) (e : event) : option phase :=
  match e, p with
  | Started, _ => Some Waiting
  | TxAuth _ false, Waiting => Some (Authing 1)
  | TxAuth _ false, Authing n =>
      if negb s && (n <? MAX_REQUESTS) then Some (Authing (n + 1)) else None
  | TxAuth _ true, Authing n => Some (Authing n)
  | ExternalAuth, Waiting => if s then Some (Authing 0) else None
  | RxMframe, p => if s then Some p else None
  | Authenticated, Authing _ => Some Authed
  | TxAssocReq, Authed => Some (Associng 1)
  | TxAssocReq, Associng n => if n <? MAX_REQUESTS then Some (Associng (n + 1)) else None
  | Connected, Associng n => Some (Associng n)
  | JoinRes r _, Associng n =>
      if 0 <? r then Some Linked
      else if (r =? -2) || (r =? -4) then Some Idle else None
  | JoinRes r _, Waiting => if (r =? -3) || (r =? -2) || (r =? -4) then Some Idle else None
  | JoinRes r _, Authing n =>
      if (r =? -1) && negb s && (n =? MAX_REQUESTS) || (r =? -2) || (r =? -4)
      then Some Idle else None
  | DelSta _, Linked => Some Idle
  | Reset, _ => Some Idle
  | Disconnected _, p => Some p
  | _, _ => None
  end.

(** The phase a log ends in; the latest event comes first. *)
Fixpoint phase_of (s : bool) (l : list event) : option phase :=
  match l with
  | [] => Some Idle
  | e :: l => match phase_of s l with Some p => spec_event s p e | None => None end
  end.

(** ** Runs *)

(** The bytes a handler reads of the header and of the fixed fields are there, and
    one behind the frame. *)
Definition frame_ok (f : mframe) : bool :=
  (36 <=? zlen (pframe f)) && (pkt_len f + 1 <=? zlen (pframe f))
  && forallb (λ x, (0 <=? x) && (x <? 256)) (pframe f).

(** The challenge is in the buffer, and [chg_txt] has room for it. *)
Definition challenge_fits (f : mframe) : bool :=
  match rtw_get_ie (pframe f) (WLAN_HDR_A3_LEN + _AUTH_IE_OFFSET_) _CHLGETXT_IE_
          (pkt_len f - WLAN_HDR_A3_LEN - _AUTH_IE_OFFSET_) with
  | Ret (Some (p, l)) => (l <=? 128) && (p + 2 + l <=? zlen (pframe f))
  | Ret None => true
  | _ => false
  end.

(** No allocation fails. *)
Definition env_ok (s : bool) (e : env) : bool :=
  eqb (sae e) s && match result e with Queued => true | _ => false end && del_sta e && mgnt_frame e.

Definition input_ok (i : input) (m : mlme) : bool :=
  match i with
  | Join _ _ caps _ => flag caps cap_ESS
  | Beacon f | AssocRsp f | DeAuth f | Disassoc f => frame_ok f
  | Auth f => frame_ok f && challenge_fits f
  | LinkTimer => negb (join_abort m && flag (state m) WIFI_FW_ASSOC_SUCCESS)
  | SetPmksa => flag (state m) WIFI_FW_AUTH_STATE
  | _ => true
  end.

Fixpoint legal (s : bool) (l : list (env * input)) (m : mlme) : bool :=
  match l with
  | [] => true
  | (e, i) :: l =>
      env_ok s e && input_ok i m && match step e i m with Ret m => legal s l m | _ => true end
  end.

(** ** The machine follows the protocol *)

Definition sim (s : bool) (m : mlme) (p : phase) : Prop :=
  match p with
  | Idle => state m = 0
  | Waiting => state m = 0x102
  | Authing n =>
      state m = 0x202 /\ reassoc_count m = 0 /\ 0 <= reauth_count m <= 4 /\
      (s = false -> n = reauth_count m + 1)
  | Authed => False
  | Associng n => state m = 0x2402 /\ 0 <= reassoc_count m <= 4 /\ n = reassoc_count m + 1
  | Linked => state m = 0x4402
  end.

(** The phases a timer has to end. *)
Definition pending (p : phase) : bool :=
  match p with Waiting | Authing _ | Associng _ => true | _ => false end.

(** [t]: the link timer is known to be set while a join is under way. *)
Record inv (s t : bool) (m : mlme) (p : phase) : Prop := {
  inv_phase : phase_of s (log m) = Some p;
  inv_sim : sim s m p;
  inv_chg : zlen (chg_txt m) = 128;
  inv_timer : t = true -> pending p = true -> link_timer m <> None;
}.

Lemma env_ok_inv s e : env_ok s e = true ->
  sae e = s /\ result e = Queued /\ del_sta e = true /\ mgnt_frame e = true.
Proof.
  unfold env_ok. intros [[[->%eqb_prop R]%andb_prop D]%andb_prop M]%andb_prop.
  split_and!; try done. by destruct (result e).
Qed.

(** A result that is a failure, reported from state 0. *)
Lemma report_fail s t e r st m p :
  result e = Queued -> r <= 0 -> state m = 0 -> zlen (chg_txt m) = 128 ->
  phase_of s (log m) = Some p -> spec_event s p (JoinRes r st) = Some Idle ->
  inv s t (fst (report_join_res e r st m)) Idle.
Proof.
  intros Q R S C P E. unfold report_join_res, rtw_joinbss_event_prehandle. rewrite Q.
  rewrite (proj2 (Z.ltb_ge 0 r)) by lia. by split; cbn; [rewrite P|..].
Qed.

(** What does not touch the log, the state, the counters and the challenge, and
    does not cancel the timer. *)
Definition alike (m m' : mlme) : Prop :=
  log m' = log m /\ state m' = state m /\ reauth_count m' = reauth_count m /\
  reassoc_count m' = reassoc_count m /\ chg_txt m' = chg_txt m /\
  (link_timer m <> None -> link_timer m' <> None).

Lemma inv_alike s t m m' p : alike m m' -> inv s t m p -> inv s t m' p.
Proof.
  intros (L & S & RA & RS & C & LT) [P Sm Ch T].
  split; [by rewrite L| |by rewrite C|intros X Y; by apply LT, T].
  destruct p; cbn in *; rewrite ?S, ?RA, ?RS; done.
Qed.

Lemma inv_cancel s t m p : inv s t m p -> inv s false (cancel_link_timer m) p.
Proof. intros [P S C T]. split; [done| |done|done]. by destruct p. Qed.

Lemma emit_same s t m ev p : (forall q, spec_event s q ev = Some q) -> inv s t m p -> inv s t (emit ev m) p.
Proof. intros E [P S C T]. split; [cbn; by rewrite P, E|by destruct p|done|done]. Qed.

(** Computes the tests of a state that is known. *)
Ltac flags :=
  repeat match goal with
    | |- context [flag ?x ?y] =>
        let b := eval vm_compute in (flag x y) in
        match b with true => idtac | false => idtac end; change (flag x y) with b
    | |- context [Z.land ?x 3 =? ?y] =>
        let b := eval vm_compute in (Z.land x 3 =? y) in
        match b with true => idtac | false => idtac end; change (Z.land x 3 =? y) with b
    end; cbv beta iota.

(** *** Starting *)

Lemma start_join_ok s t e addr algo caps bi m p :
  flag caps cap_ESS = true -> inv s t m p ->
  inv s t (join_cmd e addr algo caps bi m) Waiting.
Proof.
  intros F [P S C T]. unfold join_cmd, start_clnt_join. rewrite F.
  by split; cbn; [rewrite P|..].
Qed.

Lemma start_auth_ok s t e m : (t = true -> s = false) -> env_ok s e = true -> inv s t m Waiting ->
  exists p, inv s t (start_clnt_auth e m) p.
Proof.
  intros TS (Hs & _ & _ & M)%env_ok_inv [P S C T]. cbn in S. unfold start_clnt_auth.
  destruct (sae e && negb (cached_pmkid e)) eqn:X.
  - apply andb_prop in X as [X _]. exists (Authing 0). split; cbn; [|rewrite S|done|intros Y; specialize (TS Y); congruence].
    + rewrite P. cbn. by replace s with true by congruence.
    + split_and!; try done. intros ->. congruence.
  - exists (Authing 1). unfold issue_auth, auth_third. rewrite M. split; cbn; [by rewrite P| |done|done].
    rewrite S. by split_and!.
Qed.

Lemma start_assoc_ok s t m n : inv s t m (Authing n) -> inv s t (start_clnt_assoc m) (Associng 1).
Proof.
  intros [P (S & R & _) C T]. split; cbn; [by rewrite P| |done|done]. by rewrite S, R.
Qed.

(** *** Leaving *)

Lemma receive_disconnect_ok s t e a reason m p : env_ok s e = true -> inv s t m p ->
  exists q, inv s t (receive_disconnect e a reason m) q.
Proof.
  intros (_ & Q & D & _)%env_ok_inv I. unfold receive_disconnect.
  destruct (negb _); [by exists p|]. destruct I as [P S C T].
  assert (forall q, phase_of s (log m) = Some q -> spec_event s q (JoinRes (-2) reason) = Some Idle ->
    exists q, inv s t (let r := report_join_res e (-2) reason m in
      if snd r then set_state WIFI_FW_NULL_STATE (fst r) else fst r) q) as X.
  { intros q Pq E. exists Idle. unfold report_join_res, rtw_joinbss_event_prehandle. rewrite Q.
    by split; cbn; [rewrite Pq|..]. }
  destruct p as [| |n| |n|]; cbn in S; try done; destruct_and?.
  - rewrite S. by exists Idle.
  - rewrite S. flags. by apply (X Waiting).
  - rewrite H. flags. apply (X (Authing n)); [done|]. cbn. by destruct s, (n =? MAX_REQUESTS).
  - rewrite H. flags. by apply (X (Associng n)).
  - rewrite S. flags. rewrite D. exists Idle. by split; cbn; [rewrite P|..].
Qed.

(** *** Frames *)

Lemma frame_ok_inv f : frame_ok f = true ->
  36 <= zlen (pframe f) /\ pkt_len f + 1 <= zlen (pframe f) /\ Forall is_byte (pframe f).
Proof.
  intros [[A B]%andb_prop C]%andb_prop. split_and!; [lia|lia|].
  apply Forall_forall. intros x Hx. apply forallb_forall with (x := x) in C.
  - unfold is_byte. lia.
  - by apply list_elem_of_In.
Qed.

Lemma hdr_addr_ok f off : frame_ok f = true -> 0 <= off <= 16 -> exists a, hdr_addr f off = Ret a.
Proof.
  intros (L & _ & _)%frame_ok_inv B. unfold hdr_addr, slice, ETH_ALEN.
  rewrite (proj2 (Z.leb_le 0 off)), (proj2 (Z.leb_le (off + 6) _)) by lia. by eexists.
Qed.

Lemma byte_ok f i : frame_ok f = true -> 0 <= i < 36 -> exists b, byte_at (pframe f) i = Ret b.
Proof.
  intros (L & _ & _)%frame_ok_inv B. destruct (byte_at_some (pframe f) i) as (b & E & _); [lia|].
  by exists b.
Qed.

Lemma le16_ok f i : frame_ok f = true -> 0 <= i < 35 -> exists v, get_le16 (pframe f) i = Ret v.
Proof.
  intros F B. unfold get_le16.
  destruct (byte_ok f i F ltac:(lia)) as [x ->], (byte_ok f (i + 1) F ltac:(lia)) as [y ->].
  by eexists.
Qed.

Lemma get_da_ok f : frame_ok f = true -> exists a, get_da f = Ret a.
Proof.
  intros F. unfold get_da. destruct (byte_ok f 1 F ltac:(lia)) as [b ->]. cbn [mbind res_bind].
  destruct (Z.testbit b 0); by apply hdr_addr_ok.
Qed.

(** The state of a phase. *)
Definition phase_state (p : phase) : Z :=
  match p with
  | Idle => 0 | Waiting => 0x102 | Authing _ => 0x202 | Authed => 0x602
  | Associng _ => 0x2402 | Linked => 0x4402
  end.

Lemma inv_state s t m p : inv s t m p -> state m = phase_state p.
Proof. intros [_ S _]. destruct p; cbn in S; destruct_and?; done. Qed.

Lemma inv_not_authed s t m : ~ inv s t m Authed.
Proof. by intros [_ []]. Qed.

Lemma link_timer_alike ms m : alike m (set_link_timer ms m).
Proof. unfold alike. by split_and!. Qed.

Lemma on_beacon_ok s t e f m p : (t = true -> s = false) -> env_ok s e = true -> frame_ok f = true -> inv s t m p ->
  exists m' q, OnBeacon e f m = Ret m' /\ inv s t m' q.
Proof.
  intros TS E F I. unfold OnBeacon. destruct (hdr_addr_ok f 16 F) as [a ->]; [lia|].
  cbn [mbind res_bind]. destruct (bool_decide _); cbn [andb]; [|by eauto].
  rewrite (inv_state _ _ _ _ I).
  destruct (decide (p = Waiting)) as [->|N]; [|by destruct p; cbn [phase_state]; flags; eauto].
  cbn [phase_state]. flags. destruct (join_abort m).
  - eexists _, Waiting. split; [done|]. exact (inv_alike _ _ _ _ _ (link_timer_alike 1 m) I).
  - destruct (start_auth_ok s t e m TS E I) as [q Q]. by eexists _, q.
Qed.

(** The answer with a challenge: the third frame. *)
Lemma third_ok s t e m n x : mgnt_frame e = true -> zlen x = 128 -> inv s t m (Authing n) ->
  inv s t (set_link_timer REAUTH_TO (issue_auth e 0
    (set_auth 3 (auth_algo m) (auth_status m) (set_chg_txt x m)))) (Authing n) \/
  auth_algo m <> dot11AuthAlgrthm_Shared.
Proof.
  intros M X [P S C T]. destruct (decide (auth_algo m = dot11AuthAlgrthm_Shared)) as [A|]; [left|by right].
  unfold issue_auth, auth_third. rewrite M. cbn [negb].
  cbn [auth_seq set_auth state set_chg_txt auth_algo]. rewrite A. destruct S as (S & S').
  rewrite S. flags. by split; cbn; [rewrite P|..].
Qed.

Lemma zlen_blit b c : zlen c <= zlen b -> exists t, blit b 0 c = Ret t /\ zlen t = zlen b.
Proof.
  intros L. unfold blit. rewrite (proj2 (Z.leb_le 0 0)), (proj2 (Z.leb_le (0 + zlen c) _)) by lia.
  eexists. split; [done|]. unfold zlen, ztake, zdrop in *.
  rewrite !length_app, length_take, length_drop. lia.
Qed.

Lemma zlen_slice b o n : 0 <= o -> 0 <= n -> o + n <= zlen b ->
  exists c, slice b o n = Ret c /\ zlen c = n.
Proof.
  intros O N L. unfold slice.
  rewrite (proj2 (Z.leb_le 0 o)), (proj2 (Z.leb_le 0 n)), (proj2 (Z.leb_le (o + n) _)) by lia.
  eexists. split; [done|]. unfold zlen, ztake, zdrop in *. rewrite length_take, length_drop. lia.
Qed.

Lemma auth_answer_ok s t e f seq m n :
  env_ok s e = true -> frame_ok f = true -> challenge_fits f = true -> inv s t m (Authing n) ->
  exists m' q, auth_answer e f seq m = Ret m' /\ inv s t m' q.
Proof.
  intros E F CF I. unfold auth_answer.
  pose proof (start_assoc_ok s t m n I) as A.
  destruct (seq =? 2); [|destruct (seq =? 4); [destruct (_ =? _)|]; by eauto].
  destruct (auth_algo m =? dot11AuthAlgrthm_Shared) eqn:Sh; [|by eauto].
  destruct (frame_ok_inv f F) as (L & L' & B). unfold challenge_fits in CF.
  destruct (get_ie_total (pframe f) (WLAN_HDR_A3_LEN + _AUTH_IE_OFFSET_) _CHLGETXT_IE_
    (pkt_len f - WLAN_HDR_A3_LEN - _AUTH_IE_OFFSET_) B) as (o & G & O);
    [done|unfold WLAN_HDR_A3_LEN, _AUTH_IE_OFFSET_; lia|].
  rewrite G in CF |- *. cbn [mbind res_bind]. destruct o as [[q k]|]; [|by eauto].
  apply andb_prop in CF as [K1 K2]. destruct (O q k eq_refl) as (Q & _ & Bk).
  pose proof (is_byte_at _ _ _ B Bk) as Kb. unfold is_byte in Kb.
  unfold WLAN_HDR_A3_LEN, _AUTH_IE_OFFSET_ in Q.
  destruct (zlen_slice (pframe f) (q + 2) k) as (c & -> & Zc); [lia..|]. cbn [mbind res_bind].
  destruct (zlen_blit (chg_txt m) c) as (x & -> & Zt); [rewrite (inv_chg _ _ _ _ I); lia|].
  cbn [mbind res_bind]. apply env_ok_inv in E as (_ & _ & _ & M).
  destruct (third_ok s t e m n x M) as [T|T]; [by rewrite Zt, (inv_chg _ _ _ _ I)|done|by eauto|].
  by apply Z.eqb_eq in Sh.
Qed.

Lemma on_auth_ok s t e f m p :
  env_ok s e = true -> frame_ok f = true -> challenge_fits f = true -> inv s t m p ->
  exists m' q, OnAuthClient e f m = Ret m' /\ inv s t m' q.
Proof.
  intros E F CF I. unfold OnAuthClient. pose proof (env_ok_inv _ _ E) as (Hs & _).
  destruct (report_mgmt e && sae e && negb (cached_pmkid e)) eqn:X.
  { apply andb_prop in X as [[_ X]%andb_prop _]. eexists _, p. split; [done|].
    apply emit_same; [|done]. intros q. cbn. by replace s with true by congruence. }
  destruct (get_da_ok f F) as [a ->]. cbn [mbind res_bind].
  destruct (negb (bool_decide _)); [by eauto|].
  destruct (negb (flag (state m) WIFI_FW_AUTH_STATE) || join_abort m) eqn:Y; [by eauto|].
  apply orb_false_iff in Y as [Y _]. apply negb_false_iff in Y. rewrite (inv_state _ _ _ _ I) in Y.
  destruct p as [| |n| |n|]; try discriminate Y; [|by apply inv_not_authed in I].
  unfold GetPrivacy. destruct (byte_ok f 1 F ltac:(lia)) as [b ->]. cbn [mbind res_bind].
  set (off := if Z.testbit b 6 then 4 else 0).
  assert (0 <= off <= 4) by (unfold off; destruct (Z.testbit b 6); lia).
  destruct (le16_ok f (24 + off) F ltac:(lia)) as [alg Ha].
  destruct (le16_ok f (24 + off + 2) F ltac:(lia)) as [sq Hq].
  destruct (le16_ok f (24 + off + 4) F ltac:(lia)) as [st Ht].
  change WLAN_HDR_A3_LEN with 24. rewrite Ha, Hq, Ht. cbn [mbind res_bind].
  destruct (negb (st =? 0)); [|by eapply auth_answer_ok].
  eexists _, (Authing n). split; [done|]. refine (inv_alike s t m _ _ _ I). unfold alike. by split_and!.
Qed.

(** An association response in phase [Associng]: its result. *)
Lemma assoc_fail_ok s t e st m n : result e = Queued -> inv s false m (Associng n) ->
  inv s t (fst (report_join_res e (-4) st (set_state WIFI_FW_NULL_STATE m))) Idle.
Proof. intros Q [P _ C _]. by apply report_fail with (p := Associng n). Qed.

Lemma assoc_done_ok s t e r st m n : result e = Queued -> 0 < r -> inv s false m (Associng n) ->
  inv s t (fst (report_join_res e r st
    (set_state (Z.lor (Z.ldiff (state m) WIFI_FW_ASSOC_STATE) WIFI_FW_ASSOC_SUCCESS) m))) Linked.
Proof.
  intros Q R [P (S & _) C _]. unfold report_join_res, rtw_joinbss_event_prehandle. rewrite Q.
  rewrite (proj2 (Z.ltb_lt 0 r)) by done. rewrite S.
  destruct (under_linking _ && found e); split; cbn; rewrite ?P; cbn; try done;
    by rewrite (proj2 (Z.ltb_lt 0 r)).
Qed.

Lemma on_assoc_rsp_ok s t e f m p : env_ok s e = true -> frame_ok f = true -> inv s t m p ->
  exists m' q, OnAssocRsp e f m = Ret m' /\ inv s t m' q.
Proof.
  intros (_ & Qu & _)%env_ok_inv F I. unfold OnAssocRsp.
  destruct (get_da_ok f F) as [a ->]. cbn [mbind res_bind].
  destruct (negb (bool_decide _)); [by eauto|].
  destruct (negb _ || join_abort m) eqn:Y; [by eauto|].
  destruct (flag (state m) WIFI_FW_ASSOC_SUCCESS) eqn:Z; [by eauto|].
  apply orb_false_iff in Y as [Y _]. apply negb_false_iff in Y.
  rewrite (inv_state _ _ _ _ I) in Y, Z.
  destruct p as [| |n| |n|]; try discriminate; [by apply inv_not_authed in I|].
  pose proof (inv_cancel _ _ _ _ I) as J.
  change WLAN_HDR_A3_LEN with 24. destruct (le16_ok f (24 + 2) F ltac:(lia)) as [st ->].
  cbn [mbind res_bind]. destruct (0 <? st).
  { eexists _, Idle. split; [done|]. by eapply assoc_fail_ok. }
  destruct (le16_ok f 24 F ltac:(lia)) as [cap ->], (le16_ok f (24 + 4) F ltac:(lia)) as [aid ->].
  cbn [mbind res_bind]. set (m2 := set_capability _ _ _).
  assert (inv s false m2 (Associng n)) as J2 by (eapply inv_alike; [|exact J]; unfold alike; by split_and!).
  destruct ((Z.land aid 16383 <? 1) || (2007 <? Z.land aid 16383)) eqn:X.
  - eexists _, Idle. split; [done|]. by eapply assoc_fail_ok.
  - apply orb_false_iff in X as [X _]. eexists _, Linked. split; [done|].
    eapply assoc_done_ok; [done|lia|exact J2].
Qed.

Lemma on_deauth_ok s t e f m p : env_ok s e = true -> frame_ok f = true -> inv s t m p ->
  exists m' q, OnDeAuth e f m = Ret m' /\ inv s t m' q.
Proof.
  intros E F I. unfold OnDeAuth. destruct (hdr_addr_ok f 16 F) as [a3 ->]; [lia|].
  cbn [mbind res_bind]. destruct (negb _); [by eauto|]. change WLAN_HDR_A3_LEN with 24.
  destruct (le16_ok f 24 F ltac:(lia)) as [r ->], (hdr_addr_ok f 10 F ltac:(lia)) as [a2 ->].
  cbn [mbind res_bind]. destruct (_ && _); [by eauto|].
  destruct (receive_disconnect_ok s t e a2 r m p E I) as [q Q]. by eauto.
Qed.

Lemma on_disassoc_ok s t e f m p : env_ok s e = true -> frame_ok f = true -> inv s t m p ->
  exists m' q, OnDisassoc e f m = Ret m' /\ inv s t m' q.
Proof.
  intros E F I. unfold OnDisassoc. destruct (hdr_addr_ok f 16 F) as [a3 ->]; [lia|].
  cbn [mbind res_bind]. destruct (negb _); [by eauto|]. change WLAN_HDR_A3_LEN with 24.
  destruct (le16_ok f 24 F ltac:(lia)) as [r ->], (hdr_addr_ok f 10 F ltac:(lia)) as [a2 ->].
  cbn [mbind res_bind]. destruct (receive_disconnect_ok s t e a2 r m p E I) as [q Q]. by eauto.
Qed.

(** *** The link timer *)

(** A retransmission of the authentication request, and the end of retrying. *)
Lemma reauth_ok t e m n : env_ok false e = true -> inv false false m (Authing n) -> join_abort m = false ->
  inv false t (link_timer_hdl e m) (if n <? MAX_REQUESTS then Authing (n + 1) else Idle).
Proof.
  intros (Hs & Q & _ & M)%env_ok_inv [P (S & R & B & N) C _] A. unfold link_timer_hdl.
  rewrite A, S, Hs. cbn [andb]. flags. specialize (N eq_refl).
  rewrite (u32_id (reauth_count m + 1)) by (unfold is_u32; lia). cbn [reauth_count set_counts].
  unfold REAUTH_LIMIT, MAX_REQUESTS. destruct (Z.ltb_spec n 5), (Z.ltb_spec 4 (reauth_count m + 1)); try lia.
  - unfold issue_auth, auth_third. rewrite M. split; cbn.
    + rewrite P. cbn. by rewrite (proj2 (Z.ltb_lt n MAX_REQUESTS)) by (unfold MAX_REQUESTS; lia).
    + rewrite S, R. split_and!; [done|done|lia|lia|lia].
    + done.
    + done.
  - assert (forall st, inv false t (fst (report_join_res e (-1) st (set_state 0
      (set_counts (reauth_count m + 1) (reassoc_count m) (link_count m) m)))) Idle) as X.
    { intros st. apply report_fail with (p := Authing n); try done.
      cbn. by rewrite (proj2 (Z.eqb_eq n MAX_REQUESTS)) by (unfold MAX_REQUESTS; lia). }
    destruct (negb _); [|apply X]. destruct (X (auth_status m)) as [PX SX CX TX]. split; [exact PX|exact SX|exact CX|done].
Qed.

Lemma reassoc_ok s t e m n : env_ok s e = true -> inv s false m (Associng n) -> join_abort m = false ->
  inv s t (link_timer_hdl e m) (if n <? MAX_REQUESTS then Associng (n + 1) else Idle).
Proof.
  intros (Hs & Q & _ & _)%env_ok_inv [P (S & B & N) C _] A. unfold link_timer_hdl.
  rewrite A, S. cbn [andb]. flags.
  rewrite (u32_id (reassoc_count m + 1)) by (unfold is_u32; lia). cbn [reassoc_count set_counts].
  unfold REASSOC_LIMIT, MAX_REQUESTS. destruct (Z.ltb_spec n 5), (Z.ltb_spec 4 (reassoc_count m + 1)); try lia.
  - split; cbn.
    + rewrite P. cbn. by rewrite (proj2 (Z.ltb_lt n MAX_REQUESTS)) by (unfold MAX_REQUESTS; lia).
    + rewrite S. split_and!; [done|lia|lia|lia].
    + done.
    + done.
  - by apply report_fail with (p := Associng n).
Qed.

Lemma no_beacon_ok s t e m : env_ok s e = true -> inv s false m Waiting -> join_abort m = false ->
  inv s t (link_timer_hdl e m) Idle.
Proof.
  intros (Hs & Q & _ & _)%env_ok_inv [P S C T] A. unfold link_timer_hdl. cbn in S.
  rewrite A, S. cbn [andb]. flags. by apply report_fail with (p := Waiting).
Qed.

(** A join that is aborted. *)
Lemma abort_ok s t e m p : env_ok s e = true -> inv s false m p -> join_abort m = true ->
  p <> Linked -> p <> Idle -> inv s t (link_timer_hdl e m) Idle.
Proof.
  intros (Hs & Q & _ & _)%env_ok_inv I A N1 N2. pose proof (inv_state _ _ _ _ I) as S.
  destruct I as [P Sm C _]. unfold link_timer_hdl. rewrite A.
  assert (negb (state m =? WIFI_FW_NULL_STATE) = true) as -> by (rewrite S; by destruct p).
  cbn [andb]. apply report_fail with (p := p); try done.
  by destruct p.
Qed.

Lemma link_timer_ok s t e m p : (t = true -> s = false) -> env_ok s e = true -> inv s false m p ->
  negb (join_abort m && flag (state m) WIFI_FW_ASSOC_SUCCESS) = true ->
  exists q, inv s t (link_timer_hdl e m) q.
Proof.
  intros TS E I L. destruct (join_abort m) eqn:A.
  - destruct (decide (p = Idle)) as [->|N2].
    { exists Idle. pose proof (inv_state _ _ _ _ I) as S. unfold link_timer_hdl. rewrite A, S. flags.
      destruct I as [P Sm C _]. by split. }
    exists Idle. apply (abort_ok s t e m p); try done. intros ->.
    by rewrite (inv_state _ _ _ _ I) in L.
  - pose proof (inv_state _ _ _ _ I) as S. destruct p as [| |n| |n|].
    + exists Idle. unfold link_timer_hdl. rewrite A, S. flags. destruct I as [P Sm C _]. by split.
    + exists Idle. by apply no_beacon_ok.
    + destruct s; [|eexists; by eapply reauth_ok].
      exists (Authing n). unfold link_timer_hdl. rewrite A, S.
      apply env_ok_inv in E as (-> & _). flags. destruct I as [P Sm C _].
      split; try done. intros X. discriminate (TS X).
    + by apply inv_not_authed in I.
    + eexists. by eapply reassoc_ok.
    + exists Linked. unfold link_timer_hdl. rewrite A, S. flags. destruct I as [P Sm C _]. by split.
Qed.

(** *** Steps and runs *)

Lemma step_ok s t e i m p :
  (t = true -> s = false) -> (t = true -> i <> ConnectAbortTop) ->
  env_ok s e = true -> input_ok i m = true -> inv s t m p ->
  exists m' q, step e i m = Ret m' /\ inv s t m' q.
Proof.
  intros TS TA E L I. destruct i; cbn [step input_ok] in *.
  - eexists _, Waiting. split; [done|]. by eapply start_join_ok.
  - by eapply on_beacon_ok.
  - apply andb_prop in L as [L1 L2]. by eapply on_auth_ok.
  - by eapply on_assoc_rsp_ok.
  - by eapply on_deauth_ok.
  - by eapply on_disassoc_ok.
  - destruct (receive_disconnect_ok s t e (bssid m) reason m p E I) as [q Q]. by eauto.
  - destruct (link_timer m); [|by eauto].
    destruct (link_timer_ok s t e _ p TS E (inv_cancel _ _ _ _ I) L) as [q Q]. by eauto.
  - destruct (assoc_timer m); [|by eauto]. eexists _, p. split; [done|].
    refine (inv_alike s t (emit (Disconnected (join_status m)) m) _ p _ _);
      [unfold alike; by split_and!|by apply emit_same].
  - eexists _, p. split; [done|]. destruct I as [P S C T].
    split; [done|by destruct p|done|]. intros X. by destruct (TA X).
  - eexists _, p. split; [done|]. refine (inv_alike s t m _ p _ I). unfold alike. by split_and!.
  - eexists _, p. split; [done|]. refine (inv_alike s t m _ p _ I). unfold alike. by split_and!.
  - eexists _, p. split; [done|]. refine (inv_alike s t m _ p _ I). unfold alike. by split_and!.
  - eexists _, p. split; [done|]. refine (inv_alike s t m _ p _ I). unfold alike. by split_and!.
  - unfold cfg80211_rtw_set_pmksa. destruct (_ && _); [|by eauto].
    rewrite (inv_state _ _ _ _ I) in L. destruct p as [| |n| |n|]; try discriminate L.
    + eexists _, (Associng 1). split; [done|]. by eapply start_assoc_ok.
    + by apply inv_not_authed in I.
  - eexists _, Idle. split; [done|]. destruct I as [P S C T]. by split; cbn; [rewrite P|..].
Qed.

Definition no_abort (l : list (env * input)) : bool :=
  forallb (λ x, match x.2 with ConnectAbortTop => false | _ => true end) l.

Lemma run_ok s t l : forall m p,
  (t = true -> s = false /\ no_abort l = true) -> legal s l m = true -> inv s t m p ->
  exists m' q, run l m = Ret m' /\ inv s t m' q.
Proof.
  induction l as [|[e i] l IH]; intros m p T L I; [by eauto|].
  cbn [legal] in L. apply andb_prop in L as [[E Ii]%andb_prop L].
  destruct (step_ok s t e i m p) as (m' & q & S & I'); try done.
  - intros X. by apply T.
  - intros X ->. by destruct (T X).
  - cbn [run]. rewrite S in L |- *. apply (IH m' q); [|done|done].
    intros X. destruct (T X) as [-> N]. split; [done|]. by apply andb_prop in N as [_ N].
Qed.

Lemma start_inv s t : inv s t init_mlme Idle.
Proof. by split. Qed.

(** *** The end of a join *)

Lemma report_log e r st m : result e = Queued -> r <= 0 ->
  log (fst (report_join_res e r st m)) = JoinRes r st :: log m.
Proof.
  intros Q R. unfold report_join_res, rtw_joinbss_event_prehandle. rewrite Q.
  by rewrite (proj2 (Z.ltb_ge 0 r)) by lia.
Qed.

Lemma issue_auth_state e st m : state (issue_auth e st m) = state m.
Proof. unfold issue_auth. destruct (negb _); [done|]. by destruct (auth_third m). Qed.

(** The timer leaves state 0 behind with a result that is a failure. *)
Lemma link_timer_result e m : result e = Queued -> state m <> 0 ->
  state (link_timer_hdl e m) = 0 ->
  exists r st, r < 0 /\ log (link_timer_hdl e m) = JoinRes r st :: log m.
Proof.
  intros Q N. unfold link_timer_hdl.
  destruct (_ && negb _); [intros _; eexists (-4), _; by rewrite report_log|].
  destruct (flag _ WIFI_FW_AUTH_NULL); [intros _; eexists (-3), _; by rewrite report_log|].
  destruct (flag _ WIFI_FW_AUTH_STATE).
  { destruct (sae e); [done|]. destruct (REAUTH_LIMIT <? _).
    - intros _. destruct (negb _); [|eexists (-1), _; by rewrite report_log].
      eexists (-1), _. split; [done|]. cbn [log set_auth]. by rewrite report_log.
    - cbn [state set_link_timer set_timers]. by rewrite issue_auth_state. }
  destruct (flag _ WIFI_FW_ASSOC_STATE); [|done]. destruct (REASSOC_LIMIT <? _); [|done].
  intros _. eexists (-2), _. by rewrite report_log.
Qed.

(** How often the timer runs at most until the join is over. *)
Definition turns (p : phase) : Z :=
  match p with Waiting => 1 | Authing n | Associng n => MAX_REQUESTS + 1 - n | _ => 0 end.

Lemma turns_bounds m p : inv false true m p -> pending p = true -> 1 <= turns p <= 5.
Proof.
  intros [_ S _ _] P. destruct p; try discriminate P; cbn in *; unfold MAX_REQUESTS; [lia| |lia].
  destruct S as (_ & _ & B & N). specialize (N eq_refl). lia.
Qed.

(** One turn: the join is over or has one turn less. *)
Lemma turn_ok e m p : env_ok false e = true -> inv false true m p -> pending p = true ->
  exists m' q, step e LinkTimer m = Ret m' /\ inv false true m' q /\
    ((state m' = 0 /\ exists r st, r < 0 /\ log m' = JoinRes r st :: log m) \/
     (pending q = true /\ turns q = turns p - 1)).
Proof.
  intros E I P. cbn [step]. destruct (link_timer m) eqn:T; [|by destruct (inv_timer _ _ _ _ I eq_refl P)].
  pose proof (inv_cancel _ _ _ _ I) as J. set (c := cancel_link_timer m) in *.
  assert (state c <> 0) as N0 by (rewrite (inv_state _ _ _ _ J); by destruct p).
  assert (result e = Queued) as Q by (by apply env_ok_inv in E as (_ & ? & _)).
  assert (inv false true (link_timer_hdl e c) Idle -> exists m' q,
    Ret (link_timer_hdl e c) = Ret m' /\ inv false true m' q /\
    ((state m' = 0 /\ exists r st, r < 0 /\ log m' = JoinRes r st :: log m) \/
     (pending q = true /\ turns q = turns p - 1))) as X.
  { intros K. eexists _, Idle. split; [done|]. split; [done|left].
    pose proof (inv_state _ _ _ _ K) as S0. split; [done|]. exact (link_timer_result e c Q N0 S0). }
  destruct (join_abort c) eqn:A.
  { apply X. apply (abort_ok false true e c p); try done; by intros ->. }
  destruct p as [| |n| |n|]; try discriminate P.
  - apply X. by apply no_beacon_ok.
  - pose proof (reauth_ok true e c n E J A) as K. destruct (n <? MAX_REQUESTS); [|by apply X].
    eexists _, _. split; [done|]. split; [exact K|right]. cbn. lia.
  - pose proof (reassoc_ok false true e c n E J A) as K. destruct (n <? MAX_REQUESTS); [|by apply X].
    eexists _, _. split; [done|]. split; [exact K|right]. cbn. lia.
Qed.

Lemma join_turns e : env_ok false e = true -> forall k m p,
  inv false true m p -> pending p = true -> turns p <= Z.of_nat k ->
  exists j m', (j <= k)%nat /\ run (replicate j (e, LinkTimer)) m = Ret m' /\
    state m' = WIFI_FW_NULL_STATE /\ exists r st, r < 0 /\ head (log m') = Some (JoinRes r st).
Proof.
  intros E. induction k as [|k IH]; intros m p I P T; [pose proof (turns_bounds m p I P); lia|].
  destruct (turn_ok e m p E I P) as (m' & q & St & I' & [[S0 (r & st & R & L)]|[Q TQ]]).
  - exists 1%nat, m'. cbn [replicate run]. rewrite St. split_and!; [lia|done|done|].
    exists r, st. by rewrite L.
  - destruct (IH m' q I' Q) as (j & m2 & J & R & X); [lia|]. exists (S j), m2.
    cbn [replicate run]. rewrite St. split_and!; [lia|exact R|apply X|apply X].
Qed.

(** ** Theorems *)

(** C13: Whatever frames a station receives, whenever its timers run, it is told to
    join, to abort or to disconnect, what it does follows the protocol: it reads
    nothing outside of a frame, authenticates only after a beacon, sends at most
    five authentication and then at most five association requests in a join, the
    latter only after authentication, and reports one result, a success only after
    an association request, a timeout only when its requests are used up.  With
    [s] another program authenticates (SAE).  The state is the one of the phase.
    What is assumed of the run ([legal]): no allocation fails, the fixed part of a
    frame is in its buffer, challenges have 128 bytes at most, the PMK is given
    while the station authenticates, and a join is not aborted after its success. *)
Theorem join_protocol s l (L : legal s l init_mlme = true) :
  exists m p, run l init_mlme = Ret m /\ phase_of s (log m) = Some p /\ state m = phase_state p.
Proof.
  destruct (run_ok s false l init_mlme Idle) as (m & p & R & I); [done|done|apply start_inv|].
  exists m, p. split_and!; [done|apply I|by eapply inv_state].
Qed.

(** C26: A join ends: while a station waits for a beacon, authenticates or associates
    (without SAE and without a connection's abort from above), its link timer is
    set, and if nothing else comes the timer runs at most five times until the
    state is [WIFI_FW_NULL_STATE] and a failure was reported. *)
Theorem join_ends l m e :
  legal false l init_mlme = true -> no_abort l = true -> run l init_mlme = Ret m ->
  flag (state m) (Z.lor (Z.lor WIFI_FW_AUTH_NULL WIFI_FW_AUTH_STATE) WIFI_FW_ASSOC_STATE) = true ->
  env_ok false e = true ->
  exists j m', (j <= 5)%nat /\ run (replicate j (e, LinkTimer)) m = Ret m' /\
    state m' = WIFI_FW_NULL_STATE /\ exists r st, r < 0 /\ head (log m') = Some (JoinRes r st).
Proof.
  intros L N R F E.
  destruct (run_ok false true l init_mlme Idle) as (m2 & p & R2 & I); [done|done|apply start_inv|].
  rewrite R in R2. injection R2 as <-. rewrite (inv_state _ _ _ _ I) in F.
  assert (pending p = true) as P
    by (destruct p; try discriminate F; [done|done|by apply inv_not_authed in I|done]).
  apply (join_turns e E 5 m p I P). pose proof (turns_bounds m p I P). lia.
Qed.

(** ** A station, a network, and their frames *)

Definition ap_addr : list Z := [0; 1; 2; 3; 4; 5].
Definition my_addr : list Z := [0; 9; 9; 9; 9; 9].
Definition sample_env : env := mk_env my_addr false false false 0 true Queued true true.
Definition sae_env (pmk : bool) : env := mk_env my_addr true true pmk 0 true Queued true true.

Definition mgnt (fc : Z) (a1 a2 body : list Z) : mframe :=
  let b := [fc; 0; 0; 0] ++ a1 ++ a2 ++ a2 ++ [0; 0] ++ body in
  mk_mframe (b ++ replicate 300 0) (zlen b).
Definition beacon : mframe := mgnt 0x80 (replicate 6 255) ap_addr (replicate 12 0).
Definition auth_from (ta : list Z) (alg seq status : Z) (ies : list Z) : mframe :=
  mgnt 0xb0 my_addr ta (put_le16 alg ++ put_le16 seq ++ put_le16 status ++ ies).
Definition auth_rsp : Z → Z → Z → list Z → mframe := auth_from ap_addr.
Definition assoc_rsp (status aid : Z) : mframe :=
  mgnt 0x10 my_addr ap_addr (put_le16 0x401 ++ put_le16 status ++ put_le16 aid).

Definition go (e : env) (l : list input) : list (env * input) := (λ i, (e, i)) <$> l.

(** What was done, the first event first, and the state. *)
Definition story (l : list (env * input)) : option (list event * Z) :=
  match run l init_mlme with Ret m => Some (rev (log m), state m) | _ => None end.

Definition open_join : list input :=
  [Join ap_addr 0 1 100; Beacon beacon; LinkTimer; Auth (auth_rsp 0 2 0 []);
   AssocRsp (assoc_rsp 0 0xc005)].

Lemma join_protocol_witness :
  (exists m p, run (go sample_env open_join) init_mlme = Ret m /\
     phase_of false (log m) = Some p /\ state m = phase_state p) /\
  story (go sample_env open_join) =
    Some ([Started; TxAuth [0; 0; 1; 0; 0; 0] false; TxAuth [0; 0; 1; 0; 0; 0] false;
           Authenticated; TxAssocReq; Connected; JoinRes 5 0], 0x4402).
Proof. split; [|vm_compute; reflexivity]. apply join_protocol. vm_compute. reflexivity. Defined.

(** Two requests were answered by nobody; four turns of the timer are left. *)
Lemma join_ends_witness :
  let l := go sample_env [Join ap_addr 1 1 100; Beacon beacon; LinkTimer] in
  match run l init_mlme with
  | Ret m => exists j m', (j <= 5)%nat /\ run (replicate j (sample_env, LinkTimer)) m = Ret m' /\
      state m' = WIFI_FW_NULL_STATE /\ exists r st, r < 0 /\ head (log m') = Some (JoinRes r st)
  | _ => False
  end.
Proof.
  intros l. destruct (run l init_mlme) as [m| |] eqn:R; [|vm_compute in R; discriminate R..].
  apply (join_ends l m sample_env);
    [vm_compute; reflexivity|vm_compute; reflexivity|exact R| |vm_compute; reflexivity].
  vm_compute in R. injection R as <-. vm_compute. reflexivity.
Defined.

(** ** What the code does besides *)

(** A challenge of 129 bytes is copied to [chg_txt[128]]. *)
Example challenge_overflow :
  run (go sample_env [Join ap_addr 1 1 100; Beacon beacon;
         Auth (auth_rsp 1 2 0 ([16; 129] ++ replicate 129 78))]) init_mlme = Oob.
Proof. vm_compute. reflexivity. Qed.

(** Frames of any transmitter are taken for the access point's. *)
Example any_transmitter :
  story (go sample_env [Join ap_addr 0 1 100; Beacon beacon;
           Auth (auth_from (replicate 6 0xee) 0 2 0 [])]) =
  Some ([Started; TxAuth [0; 0; 1; 0; 0; 0] false; Authenticated; TxAssocReq], 0x2402).
Proof. vm_compute. reflexivity. Qed.

(** A connection that is aborted from above (a timeout) leaves the machine where it
    was: it goes on to associate, and its result is not taken. *)
Example goes_on_after_abort :
  story (go sample_env [Join ap_addr 0 1 100; Beacon beacon; AssocTimer; ConnectAbortTop;
           ConnectAbortBottom; Auth (auth_rsp 0 2 0 []); AssocRsp (assoc_rsp 0 0xc005)]) =
  Some ([Started; TxAuth [0; 0; 1; 0; 0; 0] false; Disconnected 0;
         Authenticated; TxAssocReq; JoinRes 5 0], 0x4402).
Proof. vm_compute. reflexivity. Qed.

(** An abort that comes after the success reports a second result. *)
Example second_result :
  story (go sample_env [Join ap_addr 0 1 100; Beacon beacon; Auth (auth_rsp 0 2 0 []);
           AssocRsp (assoc_rsp 0 0xc005); AbortBegin; LinkTimer]) =
  Some ([Started; TxAuth [0; 0; 1; 0; 0; 0] false; Authenticated; TxAssocReq; Connected;
         JoinRes 5 0; JoinRes (-4) 1], 0).
Proof. vm_compute. reflexivity. Qed.

(** The status of an authentication that was refused is reported of a later join in
    which the access point did not answer at all. *)
Example stale_status :
  story (go sample_env ([Join ap_addr 0 1 100; Beacon beacon; Auth (auth_rsp 0 2 17 []);
           LinkTimer; Auth (auth_rsp 0 2 0 []); AssocRsp (assoc_rsp 0 0xc005); Disconnect;
           Join ap_addr 0 1 100; Beacon beacon] ++ replicate 5 LinkTimer)) =
  Some ([Started; TxAuth [0; 0; 1; 0; 0; 0] false; TxAuth [0; 0; 1; 0; 0; 0] false;
         Authenticated; TxAssocReq; Connected; JoinRes 5 0; Reset; Started]
        ++ replicate 5 (TxAuth [0; 0; 1; 0; 0; 0] false) ++ [JoinRes (-1) 17], 0).
Proof. vm_compute. reflexivity. Qed.

(** With SAE and a cached PMK the station authenticates itself, and does not send a
    request again when the first is lost: only the timer of the association ends
    the join. *)
Example no_retry_with_cached_pmk :
  story (go (sae_env true) [Join ap_addr 0 1 100; Beacon beacon; LinkTimer; LinkTimer]) =
  Some ([Started; TxAuth [0; 0; 1; 0; 0; 0] false], 0x202).
Proof. vm_compute. reflexivity. Qed.

(** The timer of the association may run before the last requests were sent: it is
    set for four requests of each kind, and five are sent. *)
Example assoc_timer_too_short :
  match run (go sample_env [Join ap_addr 0 1 100]) init_mlme with
  | Ret m => assoc_timer m = Some (6000 + 4 * 300 + 4 * 300)
  | _ => False
  end.
Proof. vm_compute. reflexivity. Qed.
End JoinInv.
