(* ===== verification/ApSec.v ===== *)
(** * What an access point takes over from an association request

    core/rtw_ap.c: rtw_ap_parse_sta_capability, rtw_ap_parse_sta_supported_rates,
    rtw_ap_parse_sta_security_ie and the flags of rtw_ap_parse_sta_ht_ie, _vht_ie and
    _he_ie; core/rtw_wlan_util.c: rtw_ies_get_supported_rate, UpdateBrateTblForSoftAP.
    The elements are those [Elems.rtw_ieee802_11_parse_elems] found in the frame [b];
    OnAssocReq of core/rtw_mlme_ext.c calls these functions in turn.  The interface is an access
    point's ([MLME_IS_AP]). *)

From S2P Require Import Prelude Bytes Ies Rsn Attr Elems RxFrame.

Module ApSec.
Import Ies RxFrame.

(** ** State *)

Definition MFP_NO : Z := 0.
Definition MFP_OPTIONAL : Z := 2.
Definition MFP_REQUIRED : Z := 3.
Definition WLAN_AKM_TYPE_SAE : Z := BIT 7.
Definition WLAN_AUTH_OPEN : Z := 0.
Definition WLAN_AUTH_SAE : Z := 3.
Definition _NO_PRIVACY_ : Z := 0.
Definition _BIP_CMAC_128_ : Z := 0x20.
Definition _BIP_GMAC_128_ : Z := 0x21.
Definition _BIP_GMAC_256_ : Z := 0x22.
Definition _BIP_CMAC_256_ : Z := 0x23.

Definition WLAN_STA_SHORT_PREAMBLE : Z := BIT 7.
Definition WLAN_STA_MFP : Z := BIT 10.
Definition WLAN_STA_HT : Z := BIT 11.
Definition WLAN_STA_WPS : Z := BIT 12.
Definition WLAN_STA_MAYBE_WPS : Z := BIT 13.
Definition WLAN_STA_VHT : Z := BIT 14.
Definition WLAN_STA_HE : Z := BIT 15.
Definition WLAN_STA_WME : Z := BIT 9.
Definition WLAN_STA_AMSDU_DISABLE : Z := BIT 18.
Definition WLAN_STA_NONERP : Z := BIT 31.

Definition _STATS_SUCCESSFUL_ : Z := 0.
Definition _STATS_FAILURE_ : Z := 1.
Definition _STATS_UNABLE_HANDLE_STA_ : Z := 17.
Definition WLAN_STATUS_ROBUST_MGMT_FRAME_POLICY_VIOLATION : Z := 31.
Definition WLAN_STATUS_INVALID_IE : Z := 40.
Definition WLAN_STATUS_GROUP_CIPHER_NOT_VALID : Z := 41.
Definition WLAN_STATUS_PAIRWISE_CIPHER_NOT_VALID : Z := 42.
Definition WLAN_STATUS_AKMP_NOT_VALID : Z := 43.
Definition WLAN_STATUS_CIPHER_REJECTED_PER_POLICY : Z := 46.
Definition WLAN_STATUS_INVALID_PMKID : Z := 53.

(** The policy of the access point, of [struct security_priv], [registry_priv] and
    [mlme_priv]; [sec_sae] is [auth_type == MLME_AUTHTYPE_SAE]. *)
Record policy := mk_policy {
  sec_wpa_psk : Z; sec_wpa_group : Z; sec_wpa2_group : Z; sec_wpa_pairwise : Z;
  sec_wpa2_pairwise : Z; sec_akmp : Z; sec_mfp_opt : Z; dot11wCipher : Z;
  sec_privacy : Z; sec_sae : bool; amsdu_mode : Z; wps_beacon_ie : option (list Z);
  ht_option : bool; vht_option : bool; he_option : bool
}.

(** What a station's [struct sta_info] has from its request. *)
Record sta_sec := mk_sta_sec {
  flags : Z; capability : Z; dot8021xalg : Z; wpa_psk : Z;
  wpa_group_cipher : Z; wpa2_group_cipher : Z; wpa_pairwise_cipher : Z;
  wpa2_pairwise_cipher : Z; akm_suite_type : Z; wpa_ie : list Z; bssrateset : list Z
}.

Definition set_flags (f : Z) (x : sta_sec) : sta_sec :=
  mk_sta_sec f (capability x) (dot8021xalg x) (wpa_psk x) (wpa_group_cipher x) (wpa2_group_cipher x) (wpa_pairwise_cipher x) (wpa2_pairwise_cipher x) (akm_suite_type x) (wpa_ie x) (bssrateset x).
Definition set_wpa (alg psk g p : Z) (x : sta_sec) : sta_sec :=
  mk_sta_sec (flags x) (capability x) alg psk g (wpa2_group_cipher x) p (wpa2_pairwise_cipher x) (akm_suite_type x) (wpa_ie x) (bssrateset x).
Definition set_wpa2 (alg psk g p akm : Z) (x : sta_sec) : sta_sec :=
  mk_sta_sec (flags x) (capability x) alg psk (wpa_group_cipher x) g (wpa_pairwise_cipher x) p akm (wpa_ie x) (bssrateset x).
Definition set_wpa_ie (l : list Z) (x : sta_sec) : sta_sec :=
  mk_sta_sec (flags x) (capability x) (dot8021xalg x) (wpa_psk x) (wpa_group_cipher x) (wpa2_group_cipher x) (wpa_pairwise_cipher x) (wpa2_pairwise_cipher x) (akm_suite_type x) l (bssrateset x).
Definition set_capability (c : Z) (x : sta_sec) : sta_sec :=
  mk_sta_sec (flags x) c (dot8021xalg x) (wpa_psk x) (wpa_group_cipher x) (wpa2_group_cipher x) (wpa_pairwise_cipher x) (wpa2_pairwise_cipher x) (akm_suite_type x) (wpa_ie x) (bssrateset x).
Definition set_bssrateset (l : list Z) (x : sta_sec) : sta_sec :=
  mk_sta_sec (flags x) (capability x) (dot8021xalg x) (wpa_psk x) (wpa_group_cipher x) (wpa2_group_cipher x) (wpa_pairwise_cipher x) (wpa2_pairwise_cipher x) (akm_suite_type x) (wpa_ie x) l.

Definition add_flag (f : Z) (x : sta_sec) : sta_sec := set_flags (Z.lor (flags x) f) x.
Definition del_flag (f : Z) (x : sta_sec) : sta_sec := set_flags (Z.ldiff (flags x) f) x.

(** ** Capability and rates *)

Definition rtw_ap_parse_sta_capability (b : list Z) (cap : Z) (x : sta_sec) : res sta_sec :=
  c ← get_le16 b cap;
  let x := set_capability c x in
  Ret (if Z.testbit c 5 then add_flag WLAN_STA_SHORT_PREAMBLE x else del_flag WLAN_STA_SHORT_PREAMBLE x).

Definition support_rate_tbl : list Z :=
  [0x02; 0x04; 0x0B; 0x16; 0x0C; 0x12; 0x18; 0x24; 0x30; 0x48; 0x60; 0x6C].

(** Whether a rate is in an element's content, and as a basic rate. *)
Definition rate_found (c : list Z) (rate : Z) : bool :=
  existsb (λ x, Z.ldiff x 0x80 =? rate) c.
Definition rate_basic (c : list Z) (rate : Z) : bool :=
  existsb (λ x, (Z.ldiff x 0x80 =? rate) && Z.testbit x 7) c.

Definition ie_content (b : list Z) (off index len : Z) : res (list Z) :=
  o ← rtw_get_ie b off index len;
  match o with Some (p, n) => slice b (p + 2) n | None => Ret [] end.

(** The rates of both elements, in the table's order. *)
Definition rtw_ies_get_supported_rate (b : list Z) (off ies_len : Z) : res (list Z) :=
  c ← ie_content b off 1 ies_len;
  d ← ie_content b off 50 ies_len;
  Ret (omap (λ r, if rate_found (c ++ d) r
                  then Some (if rate_basic (c ++ d) r then Z.lor r 0x80 else r) else None)
         support_rate_tbl).

Definition UpdateBrateTblForSoftAP (bssrateset : list Z) : list Z :=
  (λ r, if bool_decide (Z.land r 0x7f ∈ [0x02; 0x04; 0x0B; 0x16]) then Z.lor r 0x80 else r)
  <$> bssrateset.

Definition rtw_ap_parse_sta_supported_rates (b : list Z) (off len : Z) (x : sta_sec)
    : res (sta_sec * Z) :=
  r ← rtw_ies_get_supported_rate b off len;
  if bool_decide (r = []) then Ret (x, _STATS_FAILURE_)
  else
    let r := UpdateBrateTblForSoftAP r in
    let x := add_flag WLAN_STA_NONERP (set_bssrateset r x) in
    Ret (if existsb (λ y, 22 <? Z.land y 0x7f) r then del_flag WLAN_STA_NONERP x else x,
         _STATS_SUCCESSFUL_).

(** ** Security *)

Definition security_type_bip_to_gmcs (t : Z) : Z :=
  if t =? _BIP_CMAC_128_ then Rsn.WPA_CIPHER_BIP_CMAC_128
  else if t =? _BIP_GMAC_128_ then Rsn.WPA_CIPHER_BIP_GMAC_128
  else if t =? _BIP_GMAC_256_ then Rsn.WPA_CIPHER_BIP_GMAC_256
  else if t =? _BIP_CMAC_256_ then Rsn.WPA_CIPHER_BIP_CMAC_256
  else 0.

Definition CHECK_BIT (a b : Z) : bool := negb (Z.land a b =? 0).

(** What the first part of the parse leaves: the element the station was taken by,
    its MFP, SPP and group management cipher. *)
Record choice := mk_choice { c_ie : option (Z * Z); c_mfp : Z; c_spp : Z; c_gmcs : Z }.

(** A value the element does not have is the access point's. *)
Definition or_default (x d : Z) : Z := if x =? 0 then d else x.

Definition parse_rsn (s : policy) (b : list Z) (p n : Z) (x : sta_sec)
    : res (sta_sec * choice * Z) :=
  o ← Rsn.rtw_parse_wpa2_ie (zdrop (p - 2) b) (n + 2);
  match o with
  | None => Ret (x, mk_choice (Some (p, n)) MFP_NO 0 0, WLAN_STATUS_INVALID_IE)
  | Some w =>
      let group := or_default (Rsn.group_cipher w) (sec_wpa2_group s) in
      let pairwise := or_default (Rsn.pairwise_cipher w) (sec_wpa2_pairwise s) in
      let akm := or_default (Rsn.key_mgmt w) (sec_akmp s) in
      let x := set_wpa2 1 (BIT 1) (Z.land group (sec_wpa2_group s))
                 (Z.land pairwise (sec_wpa2_pairwise s)) akm x in
      let c := mk_choice (Some (p, n)) (Rsn.mfp_opt w) (Rsn.spp_opt w) (Rsn.mgmt_cipher w) in
      Ret (x, c,
        if CHECK_BIT WLAN_AKM_TYPE_SAE akm && (Rsn.mfp_opt w =? MFP_NO)
        then WLAN_STATUS_ROBUST_MGMT_FRAME_POLICY_VIOLATION
        else if wpa2_group_cipher x =? 0 then WLAN_STATUS_GROUP_CIPHER_NOT_VALID
        else if wpa2_pairwise_cipher x =? 0 then WLAN_STATUS_PAIRWISE_CIPHER_NOT_VALID
        else if negb (CHECK_BIT (sec_akmp s) akm) then WLAN_STATUS_AKMP_NOT_VALID
        else _STATS_SUCCESSFUL_)
  end.

Definition parse_wpa (s : policy) (b : list Z) (p n : Z) (x : sta_sec)
    : res (sta_sec * choice * Z) :=
  o ← Rsn.rtw_parse_wpa_ie (zdrop (p - 2) b) (n + 2) 0 0 0;
  match o with
  | None => Ret (x, mk_choice (Some (p, n)) MFP_NO 0 0, WLAN_STATUS_INVALID_IE)
  | Some (group, pairwise, _) =>
      let x := set_wpa 1 (BIT 0) (Z.land group (sec_wpa_group s))
                 (Z.land pairwise (sec_wpa_pairwise s)) x in
      Ret (x, mk_choice (Some (p, n)) MFP_NO 0 0,
        if wpa_group_cipher x =? 0 then WLAN_STATUS_GROUP_CIPHER_NOT_VALID
        else if wpa_pairwise_cipher x =? 0 then WLAN_STATUS_PAIRWISE_CIPHER_NOT_VALID
        else _STATS_SUCCESSFUL_)
  end.

Definition parse_wpa_or_rsn (s : policy) (b : list Z) (e : Elems.elems) (x : sta_sec)
    : res (sta_sec * choice * Z) :=
  let none := Ret (x, mk_choice None MFP_NO 0 0, _STATS_SUCCESSFUL_) in
  match (if flag (sec_wpa_psk s) (BIT 1) then e Elems.rsn_ie else None),
        (if flag (sec_wpa_psk s) (BIT 0) then e Elems.wpa_ie else None) with
  | Some (p, n), _ => parse_rsn s b p n x
  | None, Some (p, n) => parse_wpa s b p n x
  | None, None => none
  end.

(** [pmkid]: a PMK of the station is cached; [authalg] is how it authenticated. *)
Definition check_mfp (s : policy) (pmkid : bool) (authalg : Z) (c : choice) (x : sta_sec)
    : sta_sec * Z :=
  let x := if negb (sec_privacy s =? _NO_PRIVACY_) && Rsn.rtw_check_amsdu_disable (amsdu_mode s) (c_spp c)
           then add_flag WLAN_STA_AMSDU_DISABLE x else x in
  if ((sec_mfp_opt s =? MFP_REQUIRED) && (c_mfp c <? MFP_OPTIONAL))
     || ((c_mfp c =? MFP_REQUIRED) && (sec_mfp_opt s <? MFP_OPTIONAL))
  then (x, WLAN_STATUS_ROBUST_MGMT_FRAME_POLICY_VIOLATION)
  else
    let both := (MFP_OPTIONAL <=? sec_mfp_opt s) && (MFP_OPTIONAL <=? c_mfp c) in
    let x := if both then add_flag WLAN_STA_MFP x else x in
    if flag (flags x) WLAN_STA_MFP && both
       && negb (security_type_bip_to_gmcs (dot11wCipher s) =? c_gmcs c)
    then (x, WLAN_STATUS_CIPHER_REJECTED_PER_POLICY)
    else if sec_sae s && CHECK_BIT WLAN_AKM_TYPE_SAE (akm_suite_type x)
            && (authalg =? WLAN_AUTH_OPEN) && negb pmkid
    then (x, WLAN_STATUS_INVALID_PMKID)
    else (x, _STATS_SUCCESSFUL_).

(** [selected_registrar] of the access point's WPS element; the attribute is copied
    to one byte. *)
Definition selected_registrar (ie : list Z) : res Z :=
  o ← Attr.rtw_get_wps_attr_content (S (length ie)) ie 0 (zlen ie) 0x1041;
  match o with
  | None => Ret 0
  | Some (p, n) => if 1 <? n then Oob else byte_at ie p
  end.

Definition has (e : Elems.elems) (f : Elems.field) : bool :=
  match e f with Some _ => true | None => false end.

Definition check_wps (s : policy) (b : list Z) (e : Elems.elems) (c : choice) (x : sta_sec)
    : res (sta_sec * Z) :=
  let x := del_flag (Z.lor WLAN_STA_WPS WLAN_STA_MAYBE_WPS) x in
  match c_ie c with
  | None =>
      let x := add_flag (if has e Elems.wps_ie then WLAN_STA_WPS else WLAN_STA_MAYBE_WPS) x in
      match wps_beacon_ie s with
      | Some ie =>
          if 0 <? sec_wpa_psk s then
            r ← selected_registrar ie;
            Ret (x, if r =? 0 then _STATS_UNABLE_HANDLE_STA_ else _STATS_SUCCESSFUL_)
          else Ret (x, _STATS_SUCCESSFUL_)
      | None => Ret (x, _STATS_SUCCESSFUL_)
      end
  | Some (p, n) =>
      if sec_wpa_psk s =? 0 then Ret (x, WLAN_STATUS_INVALID_IE)
      else if has e Elems.wps_ie then Ret (add_flag WLAN_STA_WPS x, _STATS_SUCCESSFUL_)
      else
        let copy_len := if 32 <? n + 2 then 32 else n + 2 in
        w ← slice b (p - 2) copy_len;
        Ret (set_wpa_ie (w ++ drop (length w) (wpa_ie x)) x, _STATS_SUCCESSFUL_)
  end.

Definition rtw_ap_parse_sta_security_ie (s : policy) (b : list Z) (e : Elems.elems)
    (pmkid : bool) (authalg : Z) (x : sta_sec) : res (sta_sec * Z) :=
  let x := set_wpa_ie (replicate 32 0) (set_wpa 0 0 0 0 (set_wpa2 0 0 0 0 0 x)) in
  '(x, c, status) ← parse_wpa_or_rsn s b e x;
  if negb (status =? _STATS_SUCCESSFUL_) then Ret (x, status)
  else
    let '(x, status) := check_mfp s pmkid authalg c x in
    if negb (status =? _STATS_SUCCESSFUL_) then Ret (x, status) else check_wps s b e c x.

(** ** Capabilities of later standards *)

Definition HT_CAP_LEN : Z := 26.
Definition VHT_CAP_IE_LEN : Z := 12.
Definition HE_CAP_ELE_MAX_LEN : Z := 55.

Definition rtw_ap_parse_sta_ht_ie (s : policy) (e : Elems.elems) (x : sta_sec) : sta_sec :=
  let x := del_flag WLAN_STA_HT x in
  match e Elems.ht_capabilities with
  | Some (_, n) =>
      if ht_option s && (HT_CAP_LEN <=? n) then add_flag WLAN_STA_WME (add_flag WLAN_STA_HT x) else x
  | None => x
  end.

Definition rtw_ap_parse_sta_vht_ie (s : policy) (e : Elems.elems) (x : sta_sec) : sta_sec :=
  let x := del_flag WLAN_STA_VHT x in
  match e Elems.vht_capabilities with
  | Some (_, n) => if vht_option s && (n =? VHT_CAP_IE_LEN) then add_flag WLAN_STA_VHT x else x
  | None => x
  end.

Definition rtw_ap_parse_sta_he_ie (s : policy) (e : Elems.elems) (x : sta_sec) : sta_sec :=
  let x := del_flag WLAN_STA_HE x in
  match e Elems.he_capabilities with
  | Some (_, n) => if he_option s && (n <=? HE_CAP_ELE_MAX_LEN) then add_flag WLAN_STA_HE x else x
  | None => x
  end.

(** ** What is negotiated *)

(** The elements are inside the frame; a WPA element has its OUI. *)
Definition elems_in (b : list Z) (e : Elems.elems) : Prop :=
  forall f p n, e f = Some (p, n) ->
    2 <= p /\ 0 <= n < 256 /\ p + n <= zlen b /\ (f = Elems.wpa_ie -> 4 <= n).

(** The access point's WPS element can be read. *)
Definition wps_ok (s : policy) : Prop :=
  match wps_beacon_ie s with Some ie => exists v, selected_registrar ie = Ret v | None => True end.

(** A cipher that was agreed on: some of those of the policy and no others. *)
Definition agreed (x policy : Z) : Prop := x <> 0 /\ Z.land x policy = x.

(** The element that counts: RSN where the policy has it, else WPA. *)
Inductive security_element := NoElement | RsnElement (p n : Z) | WpaElement (p n : Z).
Definition element_of (s : policy) (e : Elems.elems) : security_element :=
  match (if flag (sec_wpa_psk s) (BIT 1) then e Elems.rsn_ie else None),
        (if flag (sec_wpa_psk s) (BIT 0) then e Elems.wpa_ie else None) with
  | Some (p, n), _ => RsnElement p n
  | None, Some (p, n) => WpaElement p n
  | None, None => NoElement
  end.

(** What both sides have, and that is something. *)
Definition common (offered policy got : Z) : Prop := got = Z.land offered policy /\ got <> 0.

(** The suites of a station are what its element names, as far as the policy has it
    too; what an RSN element leaves out is the policy's. *)
Definition suites_of (s : policy) (b : list Z) (e : Elems.elems) (x : sta_sec) : Prop :=
  match element_of s e with
  | NoElement => wpa_psk x = 0 /\ dot8021xalg x = 0 /\ wpa2_group_cipher x = 0 /\
      wpa2_pairwise_cipher x = 0 /\ wpa_group_cipher x = 0 /\ wpa_pairwise_cipher x = 0
  | RsnElement p n => wpa_psk x = BIT 1 /\ dot8021xalg x = 1 /\
      exists w, Rsn.rtw_parse_wpa2_ie (zdrop (p - 2) b) (n + 2) = Ret (Some w) /\
        common (or_default (Rsn.group_cipher w) (sec_wpa2_group s)) (sec_wpa2_group s) (wpa2_group_cipher x) /\
        common (or_default (Rsn.pairwise_cipher w) (sec_wpa2_pairwise s)) (sec_wpa2_pairwise s)
          (wpa2_pairwise_cipher x) /\
        akm_suite_type x = or_default (Rsn.key_mgmt w) (sec_akmp s) /\
        CHECK_BIT (sec_akmp s) (akm_suite_type x) = true /\
        (CHECK_BIT WLAN_AKM_TYPE_SAE (akm_suite_type x) = true -> Rsn.mfp_opt w <> MFP_NO)
  | WpaElement p n => wpa_psk x = BIT 0 /\ dot8021xalg x = 1 /\
      exists group pairwise akm, Rsn.rtw_parse_wpa_ie (zdrop (p - 2) b) (n + 2) 0 0 0 =
          Ret (Some (group, pairwise, akm)) /\
        common group (sec_wpa_group s) (wpa_group_cipher x) /\
        common pairwise (sec_wpa_pairwise s) (wpa_pairwise_cipher x)
  end.

(** What a station that is accepted has: the suites of its element, and protected
    management frames as both sides' settings say. *)
Record negotiated (s : policy) (b : list Z) (e : Elems.elems) (pmkid : bool) (authalg : Z)
    (x0 x : sta_sec) : Prop := {
  neg_suite : suites_of s b e x;
  neg_mfp_required : sec_mfp_opt s = MFP_REQUIRED -> flag (flags x) WLAN_STA_MFP = true;
  neg_mfp_off : sec_mfp_opt s < MFP_OPTIONAL ->
    flag (flags x) WLAN_STA_MFP = flag (flags x0) WLAN_STA_MFP;
  neg_pmkid : sec_sae s = true -> CHECK_BIT WLAN_AKM_TYPE_SAE (akm_suite_type x) = true ->
    authalg = WLAN_AUTH_OPEN -> pmkid = true;
}.

(** The suites of the station of a table, whose request is gone. *)
Definition suite_ok (s : policy) (x : sta_sec) : Prop :=
  (wpa_psk x = 0 /\ dot8021xalg x = 0) \/
  (wpa_psk x = BIT 1 /\ flag (sec_wpa_psk s) (BIT 1) = true /\
   agreed (wpa2_group_cipher x) (sec_wpa2_group s) /\
   agreed (wpa2_pairwise_cipher x) (sec_wpa2_pairwise s) /\
   CHECK_BIT (sec_akmp s) (akm_suite_type x) = true) \/
  (wpa_psk x = BIT 0 /\ flag (sec_wpa_psk s) (BIT 0) = true /\
   agreed (wpa_group_cipher x) (sec_wpa_group s) /\
   agreed (wpa_pairwise_cipher x) (sec_wpa_pairwise s)).

Lemma agreed_land g p : (Z.land g p =? 0) = false -> agreed (Z.land g p) p.
Proof. intros N%Z.eqb_neq. split; [done|]. by rewrite <- Z.land_assoc, Z.land_diag. Qed.

Lemma zlen_zdrop_sub {A} (b : list A) p n : 2 <= p -> p + n <= zlen b -> n + 2 <= zlen (zdrop (p - 2) b).
Proof. intros P L. unfold zlen, zdrop in *. rewrite length_drop. lia. Qed.

Lemma bytes_zdrop p b : Forall is_byte b -> Forall is_byte (zdrop p b).
Proof. apply Forall_drop. Qed.

Lemma parse_rsn_ok s b p n x : Forall is_byte b -> 2 <= p -> p + n <= zlen b ->
  flag (sec_wpa_psk s) (BIT 1) = true ->
  exists x' c st, parse_rsn s b p n x = Ret (x', c, st) /\ flags x' = flags x /\
    (st = 0 -> suite_ok s x' /\ c_ie c = Some (p, n)).
Proof.
  intros B P L F. unfold parse_rsn.
  destruct (Rsn.parse_wpa2_total (zdrop (p - 2) b) (n + 2)) as [o ->];
    [by apply bytes_zdrop|by apply zlen_zdrop_sub|]. cbn [mbind res_bind].
  destruct o as [w|]; [|by eexists _, _, _].
  eexists _, _, _. split; [done|]. split; [done|]. cbn [wpa2_group_cipher wpa2_pairwise_cipher set_wpa2].
  destruct (_ && _); [done|].
  destruct (Z.land _ (sec_wpa2_group s) =? 0) eqn:G; [done|].
  destruct (Z.land _ (sec_wpa2_pairwise s) =? 0) eqn:Q; [done|].
  destruct (CHECK_BIT (sec_akmp s) _) eqn:K; [|done]. intros _. split; [|done].
  right; left. cbn. split_and!; try done; by apply agreed_land.
Qed.

Lemma le16_nonneg b i : Forall is_byte b -> 0 <= i -> i + 2 <= zlen b ->
  exists v, get_le16 b i = Ret v /\ 0 <= v.
Proof.
  intros B I L. unfold get_le16.
  destruct (byte_at_some b i) as (x & X & _); [lia|]. destruct (byte_at_some b (i + 1)) as (y & Y & _); [lia|].
  rewrite X, Y. eexists. split; [done|].
  pose proof (is_byte_at _ _ _ B X) as BX. pose proof (is_byte_at _ _ _ B Y) as BY. unfold is_byte in *.
  apply Z.lor_nonneg. split; [apply Z.shiftl_nonneg|]; lia.
Qed.

Lemma parse_wpa_total ie len : Forall is_byte ie -> 6 <= zlen ie -> 6 <= len <= zlen ie ->
  exists r, Rsn.rtw_parse_wpa_ie ie len 0 0 0 = Ret r.
Proof.
  intros B Z6 L. unfold Rsn.rtw_parse_wpa_ie. destruct (len <=? 0); [by eexists|].
  destruct (byte_at_some ie 0) as (x & -> & _); [lia|]. cbn [mbind res_bind].
  destruct (negb _); [by eexists|].
  destruct (byte_at_some ie 1) as (l & -> & _); [lia|]. cbn [mbind res_bind].
  destruct (negb _); [by eexists|].
  assert (forall o, 0 <= o -> o + 4 <= zlen ie ->
    exists m, bytes_match ie o Rsn.RTW_WPA_OUI_TYPE = Ret m) as M.
  { intros o O1 O2. unfold bytes_match, slice. change (zlen Rsn.RTW_WPA_OUI_TYPE) with 4.
    rewrite (proj2 (Z.leb_le 0 o)), (proj2 (Z.leb_le (o + 4) _)) by lia. by eexists. }
  destruct (M 2) as [m ->]; [lia..|]. cbn [mbind res_bind]. destruct (negb m); [by eexists|].
  set (g := if 4 <=? len - 8 then _ else _).
  assert (g = Ret None \/ exists v pos rem, g = Ret (Some (v, pos, rem)) /\ 0 <= pos /\ pos + rem = len)
    as [->|(v & pos & rem & -> & P0 & PR)]; [|by eexists|].
  { unfold g. destruct (Z.leb_spec 4 (len - 8)).
    - destruct (Rsn.suite_at_some ie Rsn.wpa_ciphers 8) as [v E]; [lia..|].
      change (Rsn.rtw_get_wpa_cipher_suite ie 8) with (Rsn.suite_at Rsn.wpa_ciphers ie 8).
      rewrite E. right. eexists _, _, _. split; [done|lia].
    - destruct (0 <? len - 8); [by left|]. right. eexists _, _, _. split; [done|lia]. }
  cbn [mbind res_bind]. set (p := if 2 <=? rem then _ else _).
  assert (p = Ret None \/ exists v pos rem, p = Ret (Some (v, pos, rem)) /\ 0 <= pos /\ pos + rem = len)
    as [->|(v' & pos' & rem' & -> & P0' & PR')]; [|by eexists|].
  { unfold p. destruct (Z.leb_spec 2 rem).
    - destruct (le16_nonneg ie pos) as (count & -> & Cn); [done|lia..|]. cbn [mbind res_bind].
      destruct ((count =? 0) || (rem - 2 <? count * 4)) eqn:C; [by left|].
      apply orb_false_iff in C as [_ C%Z.ltb_ge]. right.
      destruct (Rsn.suites_or_some ie Rsn.wpa_ciphers (Z.to_nat count) (pos + 2) 0) as [w E]; [lia..|].
      change (Rsn.suites_or Rsn.rtw_get_wpa_cipher_suite)
        with (Rsn.suites_or (Rsn.suite_at Rsn.wpa_ciphers)).
      rewrite E. eexists _, _, _. split; [done|lia].
    - destruct (rem =? 1); [by left|]. right. eexists _, _, _. split; [done|lia]. }
  cbn [mbind res_bind]. destruct (Z.leb_spec 6 rem'); [|by eexists].
  destruct (M (pos' + 2)) as [m' ->]; [lia..|]. by eexists.
Qed.

Lemma parse_wpa_ok s b p n x : Forall is_byte b -> 2 <= p -> 4 <= n -> p + n <= zlen b ->
  flag (sec_wpa_psk s) (BIT 0) = true ->
  exists x' c st, parse_wpa s b p n x = Ret (x', c, st) /\ flags x' = flags x /\
    (st = 0 -> suite_ok s x' /\ c_ie c = Some (p, n)).
Proof.
  intros B P N L F. unfold parse_wpa. pose proof (zlen_zdrop_sub b p n P L).
  destruct (parse_wpa_total (zdrop (p - 2) b) (n + 2)) as [o ->];
    [by apply bytes_zdrop|lia..|]. cbn [mbind res_bind].
  destruct o as [[[g q] a]|]; [|by eexists _, _, _].
  eexists _, _, _. split; [done|]. split; [done|]. cbn [wpa_group_cipher wpa_pairwise_cipher set_wpa].
  destruct (Z.land g _ =? 0) eqn:G; [done|]. destruct (Z.land q _ =? 0) eqn:Q; [done|].
  intros _. split; [|done]. right; right. cbn. split_and!; try done; by apply agreed_land.
Qed.

Lemma wpa_or_rsn_ok s b e x : Forall is_byte b -> elems_in b e ->
  wpa_psk x = 0 -> dot8021xalg x = 0 ->
  exists x' c st, parse_wpa_or_rsn s b e x = Ret (x', c, st) /\ flags x' = flags x /\
    (st = 0 -> suite_ok s x' /\
       match c_ie c with Some (p, n) => 2 <= p /\ 0 <= n < 256 /\ p + n <= zlen b | None => True end).
Proof.
  intros B E W D. unfold parse_wpa_or_rsn.
  destruct (if flag (sec_wpa_psk s) (BIT 1) then _ else _) as [[p n]|] eqn:R.
  { destruct (flag (sec_wpa_psk s) (BIT 1)) eqn:F1; [|done]. destruct (E _ _ _ R) as (P & N & L & _).
    destruct (parse_rsn_ok s b p n x B P L F1) as (x' & c & st & -> & Fl & K).
    eexists _, _, _. split; [done|]. split; [done|]. intros S. by destruct (K S) as [SO ->]. }
  destruct (if flag (sec_wpa_psk s) (BIT 0) then _ else _) as [[p n]|] eqn:Q.
  - destruct (flag (sec_wpa_psk s) (BIT 0)) eqn:F0; [|done]. destruct (E _ _ _ Q) as (P & N & L & N4).
    destruct (parse_wpa_ok s b p n x B P (N4 eq_refl) L F0) as (x' & c & st & -> & Fl & K).
    eexists _, _, _. split; [done|]. split; [done|]. intros S. by destruct (K S) as [SO ->].
  - eexists _, _, _. split; [done|]. split; [done|]. intros _. split; [by left|done].
Qed.

(** *** The second and the third step *)

Lemma flag_add f g y : flag (Z.lor f g) y = flag f y || flag g y.
Proof.
  unfold flag. rewrite Z.land_lor_distr_l.
  destruct (Z.eqb_spec (Z.land f y) 0) as [->|N]; [done|].
  destruct (Z.eqb_spec (Z.lor (Z.land f y) (Z.land g y)) 0) as [[Z _]%Z.lor_eq_0_iff|]; [done|].
  by destruct (Z.land g y =? 0).
Qed.

(** A flag among others is not touched. *)
Lemma flag_ldiff f g y : Z.land g y = 0 -> flag (Z.ldiff f g) y = flag f y.
Proof.
  intros G. unfold flag. f_equal. f_equal. apply Z.bits_inj'. intros i I.
  rewrite !Z.land_spec, Z.ldiff_spec. pose proof (f_equal (λ z, Z.testbit z i) G) as Gi.
  cbv beta in Gi. rewrite Z.land_spec, Z.bits_0 in Gi.
  by destruct (Z.testbit f i), (Z.testbit g i), (Z.testbit y i).
Qed.

Lemma check_mfp_ok s pmkid alg c x : forall x' st, check_mfp s pmkid alg c x = (x', st) -> st = 0 ->
  (suite_ok s x -> suite_ok s x') /\
  (sec_mfp_opt s = MFP_REQUIRED -> flag (flags x') WLAN_STA_MFP = true) /\
  (sec_mfp_opt s < MFP_OPTIONAL -> flag (flags x') WLAN_STA_MFP = flag (flags x) WLAN_STA_MFP) /\
  (sec_sae s = true -> CHECK_BIT WLAN_AKM_TYPE_SAE (akm_suite_type x') = true ->
    alg = WLAN_AUTH_OPEN -> pmkid = true).
Proof.
  intros x' st. unfold check_mfp. set (y := if _ && _ then add_flag _ x else x).
  assert (flag (flags y) WLAN_STA_MFP = flag (flags x) WLAN_STA_MFP /\ (suite_ok s x -> suite_ok s y))
    as [Fy Sy].
  { unfold y. destruct (_ && _); [|done]. cbn [flags add_flag set_flags]. rewrite flag_add, orb_false_r.
    done. }
  clearbody y. destruct (_ || _) eqn:V; [by intros [= <- <-]|].
  apply orb_false_iff in V as [V1 V2]. destruct ((MFP_OPTIONAL <=? sec_mfp_opt s) && _) eqn:Both.
  - destruct (flag _ WLAN_STA_MFP && _ && _) eqn:Cr; [by intros [= <- <-]|].
    destruct (sec_sae s && _ && _ && _) eqn:Sae; [by intros [= <- <-]|].
    intros [= <- <-] _. cbn [flags add_flag set_flags akm_suite_type] in *.
    rewrite flag_add, orb_true_r. split_and!; [done|done| |].
    + apply andb_prop in Both as [Bo _]. unfold MFP_OPTIONAL in *. lia.
    + intros S1 A1 ->. rewrite S1, A1 in Sae. by destruct pmkid.
  - rewrite andb_false_r. cbn [andb].
    destruct (sec_sae s && _ && _ && _) eqn:Sae; [by intros [= <- <-]|].
    intros [= <- <-] _. split_and!; [done| | |].
    + intros R. rewrite R in V1, Both. unfold MFP_REQUIRED, MFP_OPTIONAL in *. cbn in V1, Both. lia.
    + done.
    + intros S1 A1 ->. rewrite S1, A1 in Sae. by destruct pmkid.
Qed.

Lemma check_wps_ok s b e c x : wps_ok s ->
  match c_ie c with Some (p, n) => 2 <= p /\ 0 <= n < 256 /\ p + n <= zlen b | None => True end ->
  exists x' st, check_wps s b e c x = Ret (x', st) /\
    flag (flags x') WLAN_STA_MFP = flag (flags x) WLAN_STA_MFP /\
    akm_suite_type x' = akm_suite_type x /\ (suite_ok s x -> suite_ok s x').
Proof.
  intros W C. unfold check_wps.
  assert (forall f, Z.land f WLAN_STA_MFP = 0 ->
    flag (flags (add_flag f (del_flag (Z.lor WLAN_STA_WPS WLAN_STA_MAYBE_WPS) x))) WLAN_STA_MFP =
    flag (flags x) WLAN_STA_MFP) as Fl.
  { intros f Hf. cbn [flags add_flag del_flag set_flags]. rewrite flag_add, flag_ldiff by done.
    unfold flag at 2. rewrite Hf. by rewrite orb_false_r. }
  assert (flag (flags (del_flag (Z.lor WLAN_STA_WPS WLAN_STA_MAYBE_WPS) x)) WLAN_STA_MFP =
    flag (flags x) WLAN_STA_MFP) as Fd by (by apply flag_ldiff).
  destruct (c_ie c) as [[p n]|].
  - destruct (_ =? 0); [by eexists _, _|]. destruct (has e _); [eexists _, _; split; [done|]; by rewrite Fl|].
    destruct C as (P & N & L). unfold slice. rewrite (proj2 (Z.leb_le 0 (p - 2))) by lia.
    destruct (32 <? n + 2) eqn:X.
    + rewrite (proj2 (Z.leb_le (p - 2 + 32) _)) by lia. by eexists _, _.
    + rewrite (proj2 (Z.leb_le 0 (n + 2))), (proj2 (Z.leb_le (p - 2 + (n + 2)) _)) by lia. by eexists _, _.
  - assert (forall st : Z, exists x' st', Ret (add_flag (if has e Elems.wps_ie then WLAN_STA_WPS else WLAN_STA_MAYBE_WPS)
        (del_flag (Z.lor WLAN_STA_WPS WLAN_STA_MAYBE_WPS) x), st) = Ret (x', st') /\
      flag (flags x') WLAN_STA_MFP = flag (flags x) WLAN_STA_MFP /\
      akm_suite_type x' = akm_suite_type x /\ (suite_ok s x -> suite_ok s x')) as R.
    { intros st. eexists _, _. split; [done|]. rewrite Fl by (by destruct (has e _)). done. }
    unfold wps_ok in W. destruct (wps_beacon_ie s) as [ie|]; [|apply R].
    destruct (0 <? _); [|apply R]. destruct W as [v ->]. apply R.
Qed.

(** *** The suites

    The second and the third step leave them alone. *)

Definition suites (x : sta_sec) : Z * Z * Z * Z * Z * Z * Z :=
  (wpa_psk x, dot8021xalg x, wpa2_group_cipher x, wpa2_pairwise_cipher x, wpa_group_cipher x,
   wpa_pairwise_cipher x, akm_suite_type x).

Lemma suites_of_same s b e x x' : suites x' = suites x -> suites_of s b e x -> suites_of s b e x'.
Proof. unfold suites, suites_of. intros [= -> -> -> -> -> -> ->]. done. Qed.

Lemma check_mfp_suites s pmkid alg c x : suites (check_mfp s pmkid alg c x).1 = suites x.
Proof. unfold check_mfp. by repeat case_match. Qed.

Lemma check_wps_suites s b e c x x' st : check_wps s b e c x = Ret (x', st) -> suites x' = suites x.
Proof.
  unfold check_wps. intros H. destruct (c_ie c) as [[p n]|].
  - destruct (_ =? 0); [by injection H as <- <-|]. destruct (has e _); [by injection H as <- <-|].
    destruct (slice b _ _); try done. by injection H as <- <-.
  - destruct (wps_beacon_ie s) as [ie|]; [|by injection H as <- <-].
    destruct (0 <? _); [|by injection H as <- <-]. destruct (selected_registrar ie); try done.
    by injection H as <- <-.
Qed.

Lemma rsn_suites s b e p n x x' c : element_of s e = RsnElement p n ->
  parse_rsn s b p n x = Ret (x', c, 0) -> suites_of s b e x'.
Proof.
  unfold parse_rsn, suites_of. intros ->.
  destruct (Rsn.rtw_parse_wpa2_ie _ _) as [[w|]| |]; try done. cbn [mbind res_bind]. intros [= <- _ H].
  cbn [wpa2_group_cipher wpa2_pairwise_cipher akm_suite_type wpa_psk dot8021xalg set_wpa2] in *.
  destruct (_ && _) eqn:S1; [done|]. destruct (Z.land _ (sec_wpa2_group s) =? 0) eqn:G; [done|].
  destruct (Z.land _ (sec_wpa2_pairwise s) =? 0) eqn:Q; [done|]. destruct (CHECK_BIT (sec_akmp s) _) eqn:K; [|done].
  apply Z.eqb_neq in G, Q. split; [done|]. split; [done|]. exists w. split_and!; try done.
  intros SA Hm. by rewrite SA, Hm in S1.
Qed.

Lemma wpa_suites s b e p n x x' c : element_of s e = WpaElement p n ->
  parse_wpa s b p n x = Ret (x', c, 0) -> suites_of s b e x'.
Proof.
  unfold parse_wpa, suites_of. intros ->.
  destruct (Rsn.rtw_parse_wpa_ie _ _ _ _ _) as [[[[g q] a]|]| |]; try done. cbn [mbind res_bind]. intros [= <- _ H].
  cbn [wpa_group_cipher wpa_pairwise_cipher wpa_psk dot8021xalg set_wpa] in *.
  destruct (Z.land g _ =? 0) eqn:G; [done|]. destruct (Z.land q _ =? 0) eqn:Q; [done|].
  apply Z.eqb_neq in G, Q. split; [done|]. split; [done|]. by exists g, q, a.
Qed.

Lemma security_suites s b e pmkid authalg x x' :
  rtw_ap_parse_sta_security_ie s b e pmkid authalg x = Ret (x', _STATS_SUCCESSFUL_) -> suites_of s b e x'.
Proof.
  unfold rtw_ap_parse_sta_security_ie. set (x0 := set_wpa_ie _ _).
  destruct (parse_wpa_or_rsn s b e x0) as [[[x1 c] st]| |] eqn:E; try done. cbn [mbind res_bind].
  destruct (st =? _STATS_SUCCESSFUL_) eqn:S1; cbn [negb]; [|intros [= _ ->]; discriminate S1].
  apply Z.eqb_eq in S1 as ->. assert (K : suites_of s b e x1).
  { unfold parse_wpa_or_rsn in E. unfold suites_of, element_of.
    destruct (if flag (sec_wpa_psk s) (BIT 1) then _ else _) as [[p n]|] eqn:R1;
      [|destruct (if flag (sec_wpa_psk s) (BIT 0) then _ else _) as [[p n]|] eqn:R2].
    - pose proof (rsn_suites s b e p n x0 x1 c) as K. unfold suites_of, element_of in K. rewrite R1 in K. by apply K.
    - pose proof (wpa_suites s b e p n x0 x1 c) as K. unfold suites_of, element_of in K. rewrite R1, R2 in K. by apply K.
    - by injection E as <- _. }
  pose proof (check_mfp_suites s pmkid authalg c x1) as M.
  destruct (check_mfp s pmkid authalg c x1) as [x2 st2]. cbn [fst] in M.
  destruct (st2 =? _STATS_SUCCESSFUL_) eqn:S2; cbn [negb]; [|intros [= _ ->]; discriminate S2].
  intros H%check_wps_suites. eapply suites_of_same; [|exact K]. congruence.
Qed.

(** *** Rates and flags *)

Lemma ie_content_total b off index len : Forall is_byte b -> 0 <= off -> off + len + 260 <= zlen b ->
  exists c, ie_content b off index len = Ret c.
Proof.
  intros B O L. unfold ie_content, rtw_get_ie. destruct (Z.ltb_spec len 1); [by eexists|].
  destruct (get_ie_loop_total b index len B (ie_fuel len) off 0 off) as (o & E & In); [lia..|unfold ie_fuel; lia|].
  rewrite E. cbn [mbind res_bind]. destruct o as [[p n]|]; [|by eexists].
  destruct (In p n eq_refl) as (P & _ & N). pose proof (is_byte_at _ _ _ B N) as R. unfold is_byte in R.
  rewrite slice_some by lia. by eexists.
Qed.

Lemma supported_rates_total b off len x : Forall is_byte b -> 0 <= off -> off + len + 260 <= zlen b ->
  exists x' st, rtw_ap_parse_sta_supported_rates b off len x = Ret (x', st).
Proof.
  intros B O L. unfold rtw_ap_parse_sta_supported_rates, rtw_ies_get_supported_rate.
  destruct (ie_content_total b off 1 len B O L) as [c ->]. cbn [mbind res_bind].
  destruct (ie_content_total b off 50 len B O L) as [d ->]. cbn [mbind res_bind].
  case_bool_decide; by eexists _, _.
Qed.

Lemma suite_ok_flags s f x : suite_ok s x -> suite_ok s (set_flags f x).
Proof. done. Qed.

Lemma security_ie_ok s b e pmkid authalg x : Forall is_byte b -> elems_in b e -> wps_ok s ->
  exists x' st, rtw_ap_parse_sta_security_ie s b e pmkid authalg x = Ret (x', st) /\
    (st = _STATS_SUCCESSFUL_ ->
      suite_ok s x' /\
      (sec_mfp_opt s = MFP_REQUIRED -> flag (flags x') WLAN_STA_MFP = true) /\
      (sec_mfp_opt s < MFP_OPTIONAL -> flag (flags x') WLAN_STA_MFP = flag (flags x) WLAN_STA_MFP) /\
      (sec_sae s = true -> CHECK_BIT WLAN_AKM_TYPE_SAE (akm_suite_type x') = true ->
        authalg = WLAN_AUTH_OPEN -> pmkid = true)).
Proof.
  intros B E W. unfold rtw_ap_parse_sta_security_ie.
  set (x0 := set_wpa_ie _ _).
  destruct (wpa_or_rsn_ok s b e x0 B E) as (x1 & c & st & -> & F1 & K1); [done|done|].
  cbn [mbind res_bind]. destruct (st =? _STATS_SUCCESSFUL_) eqn:S1; cbn [negb]; [|eexists _, _; split; [done|]; lia].
  apply Z.eqb_eq in S1. destruct (K1 S1) as [SO C].
  destruct (check_mfp s pmkid authalg c x1) as [x2 st2] eqn:M.
  destruct (st2 =? _STATS_SUCCESSFUL_) eqn:S2; cbn [negb]; [|eexists _, _; split; [done|]; lia].
  apply Z.eqb_eq in S2. destruct (check_mfp_ok _ _ _ _ _ _ _ M S2) as (SO2 & MR & MO & PM).
  destruct (check_wps_ok s b e c x2 W C) as (x3 & st3 & -> & F3 & A3 & SO3).
  eexists _, _. split; [done|]. intros _. rewrite F3, A3. split_and!; [by apply SO3, SO2|done| |done].
  intros O. by rewrite (MO O), F1.
Qed.


(** ** A WPA2 network *)

Definition wpa2_policy (mfp : Z) : policy :=
  mk_policy (BIT 1) 0 Rsn.WPA_CIPHER_CCMP 0 Rsn.WPA_CIPHER_CCMP (BIT 1) mfp _BIP_CMAC_128_ 4 false 2 None
    true true true.

Definition sta_sec0 : sta_sec := mk_sta_sec 0 0 0 0 0 0 0 0 0 (replicate 32 0) [].

(** CCMP, a pre-shared key, and the capability [cap]. *)
Definition rsn_request (cap : Z) : list Z :=
  [48; 20; 1; 0; 0; 15; 172; 4; 1; 0; 0; 15; 172; 4; 1; 0; 0; 15; 172; 2; cap; 0].
Definition rsn_elems : Elems.elems := Elems.set_field Elems.elems0 Elems.rsn_ie 2 20.

Lemma rsn_elems_in cap : elems_in (rsn_request cap) rsn_elems.
Proof.
  intros f p n. unfold rsn_elems, Elems.set_field. case_decide as F; [|done].
  intros [= <- <-]. split_and!; [done|done|done|done|]. intros ->. discriminate F.
Qed.


(** A station without an RSN element is accepted in a WPA2 network whose beacon has
    no WPS element, also when protected management frames are optional. *)
Example accepted_without_rsn :
  (match rtw_ap_parse_sta_security_ie (wpa2_policy 2) [] Elems.elems0 false 0 sta_sec0 with
   | Ret (x, st) => st = 0 /\ wpa_psk x = 0 /\ flag (flags x) WLAN_STA_MAYBE_WPS = true
   | _ => False
   end).
Proof. vm_compute. split_and!; reflexivity. Qed.

(** A station that comes back without protection of management frames keeps the mark
    of its last association. *)
Example mfp_mark_stays :
  (match rtw_ap_parse_sta_security_ie (wpa2_policy 2) (rsn_request 0) rsn_elems false 0
           (set_flags WLAN_STA_MFP sta_sec0) with
   | Ret (x, st) => st = 0 /\ flag (flags x) WLAN_STA_MFP = true
   | _ => False
   end).
Proof. vm_compute. split_and!; reflexivity. Qed.
End ApSec.
