(* ===== verification/ApSta.v ===== *)
(** * The stations of an access point

    core/rtw_sta_mgt.c: the pool of [sta_info], their hash table, and the two lists
    of the stations that authenticate and that are associated, which are linked
    through the entries (os_dep/linux/osdep_service_linux.c).  The lists are a heap of
    pointers, so that an entry that is freed or initialised while it is linked does to
    them what it does in the driver. *)

From stdpp Require Import functions sets list.
From S2P Require Import Prelude Bytes RxFrame RxState ApSec.

Module ApSta.
Import RxFrame RxState ApSec.

(** ** Linked lists *)

Section links.
Local Open Scope nat_scope.

(** The pointers of a list: those of an entry's node by the entry's index, the
    head's under [HEAD]. *)
Record links := mk_links { next : nat -> nat; prev : nat -> nat }.

Definition HEAD : nat := Z.to_nat NUM_STA.

Definition set_next (x y : nat) (L : links) : links := mk_links (<[x := y]> (next L)) (prev L).
Definition set_prev (x y : nat) (L : links) : links := mk_links (next L) (<[x := y]> (prev L)).

Definition rtw_init_listhead (x : nat) (L : links) : links := set_prev x x (set_next x x L).

(** [list_add_tail], at the end of the list of [HEAD]. *)
Definition rtw_list_insert_tail (x : nat) (L : links) : links :=
  let p := prev L HEAD in
  set_next p x (set_prev x p (set_next x HEAD (set_prev HEAD x L))).

(** [list_del_init]. *)
Definition rtw_list_delete (x : nat) (L : links) : links :=
  let p := prev L x in
  let n := next L x in
  rtw_init_listhead x (set_next p n (set_prev n p L)).

Definition rtw_is_list_empty (x : nat) (L : links) : bool := next L x =? x.

Definition no_links : links := mk_links id id.

(** The nodes of the list from [x] on, as a loop over it visits them. *)
Fixpoint walk (fuel : nat) (L : links) (x : nat) : res (list nat) :=
  match fuel with
  | O => Looping
  | S fuel =>
      if x =? HEAD then Ret []
      else l ← walk fuel L (next L x); Ret (x :: l)
  end.

Definition nodes (L : links) : res (list nat) := walk (S HEAD) L (next L HEAD).
End links.

(** ** Entries *)

(** [struct sta_info]; [phl_sta] has the address of phl's part of it. *)
Record sta_info := mk_sta_info {
  phl_sta : option (list Z); state : Z; auth_seq : Z; authalg : Z; chg_txt : list Z;
  sec : sta_sec; bpairwise_key_installed : bool; expire_to : Z; aid : Z
}.

Definition set_phl_sta (a : option (list Z)) (x : sta_info) : sta_info :=
  mk_sta_info a (state x) (auth_seq x) (authalg x) (chg_txt x) (sec x) (bpairwise_key_installed x) (expire_to x) (aid x).
Definition set_state (v : Z) (x : sta_info) : sta_info :=
  mk_sta_info (phl_sta x) v (auth_seq x) (authalg x) (chg_txt x) (sec x) (bpairwise_key_installed x) (expire_to x) (aid x).
Definition set_auth_seq (v : Z) (x : sta_info) : sta_info :=
  mk_sta_info (phl_sta x) (state x) v (authalg x) (chg_txt x) (sec x) (bpairwise_key_installed x) (expire_to x) (aid x).
Definition set_authalg (v : Z) (x : sta_info) : sta_info :=
  mk_sta_info (phl_sta x) (state x) (auth_seq x) v (chg_txt x) (sec x) (bpairwise_key_installed x) (expire_to x) (aid x).
Definition set_chg_txt (v : list Z) (x : sta_info) : sta_info :=
  mk_sta_info (phl_sta x) (state x) (auth_seq x) (authalg x) v (sec x) (bpairwise_key_installed x) (expire_to x) (aid x).
Definition set_sec (v : sta_sec) (x : sta_info) : sta_info :=
  mk_sta_info (phl_sta x) (state x) (auth_seq x) (authalg x) (chg_txt x) v (bpairwise_key_installed x) (expire_to x) (aid x).
Definition set_key (v : bool) (x : sta_info) : sta_info :=
  mk_sta_info (phl_sta x) (state x) (auth_seq x) (authalg x) (chg_txt x) (sec x) v (expire_to x) (aid x).
Definition set_expire_to (v : Z) (x : sta_info) : sta_info :=
  mk_sta_info (phl_sta x) (state x) (auth_seq x) (authalg x) (chg_txt x) (sec x) (bpairwise_key_installed x) v (aid x).
Definition set_aid (v : Z) (x : sta_info) : sta_info :=
  mk_sta_info (phl_sta x) (state x) (auth_seq x) (authalg x) (chg_txt x) (sec x) (bpairwise_key_installed x) (expire_to x) v.

(** All zero. *)
Definition sta0 : sta_info :=
  mk_sta_info None 0 0 0 (replicate 128 0) (mk_sta_sec 0 0 0 0 0 0 0 0 0 (replicate 32 0) []) false 0 0.

(** ** The table *)

(** [struct sta_priv]; the buckets of [sta_hash] are one list, as an address has its
    entries in one bucket only. *)
Record sta_priv := mk_sta_priv {
  pstainfo_buf : list sta_info; free_sta_queue : list nat; sta_hash : list nat;
  auth_list : links; auth_list_cnt : Z; asoc_list : links; asoc_list_cnt : Z
}.

Definition set_buf (b : list sta_info) (t : sta_priv) : sta_priv :=
  mk_sta_priv b (free_sta_queue t) (sta_hash t) (auth_list t) (auth_list_cnt t) (asoc_list t) (asoc_list_cnt t).
Definition set_queues (f h : list nat) (t : sta_priv) : sta_priv :=
  mk_sta_priv (pstainfo_buf t) f h (auth_list t) (auth_list_cnt t) (asoc_list t) (asoc_list_cnt t).
Definition set_auth_list (L : links) (n : Z) (t : sta_priv) : sta_priv :=
  mk_sta_priv (pstainfo_buf t) (free_sta_queue t) (sta_hash t) L n (asoc_list t) (asoc_list_cnt t).
Definition set_asoc_list (L : links) (n : Z) (t : sta_priv) : sta_priv :=
  mk_sta_priv (pstainfo_buf t) (free_sta_queue t) (sta_hash t) (auth_list t) (auth_list_cnt t) L n.

Definition sta_at (t : sta_priv) (p : nat) : sta_info := default sta0 (pstainfo_buf t !! p).

Definition upd (p : nat) (f : sta_info -> sta_info) (t : sta_priv) : sta_priv :=
  set_buf (alter f p (pstainfo_buf t)) t.

Definition auth_insert (p : nat) (t : sta_priv) : sta_priv :=
  if rtw_is_list_empty p (auth_list t)
  then set_auth_list (rtw_list_insert_tail p (auth_list t)) (u8 (auth_list_cnt t + 1)) t else t.
Definition auth_delete (p : nat) (t : sta_priv) : sta_priv :=
  if rtw_is_list_empty p (auth_list t) then t
  else set_auth_list (rtw_list_delete p (auth_list t)) (u8 (auth_list_cnt t - 1)) t.
Definition asoc_delete (p : nat) (t : sta_priv) : sta_priv :=
  if rtw_is_list_empty p (asoc_list t) then t
  else set_asoc_list (rtw_list_delete p (asoc_list t)) (u8 (asoc_list_cnt t - 1)) t.

(** A group address stands for the interface's own entry. *)
Definition rtw_get_stainfo (own : list Z) (t : sta_priv) (hwaddr : list Z) : option nat :=
  let a := if IS_MCAST hwaddr then own else hwaddr in
  list_find (λ p, phl_sta (sta_at t p) = Some a) (sta_hash t) ≫= λ r, Some r.2.

Definition _rtw_init_stainfo (p : nat) (t : sta_priv) : sta_priv :=
  let t := upd p (λ _, sta0) t in
  set_auth_list (rtw_init_listhead p (auth_list t)) (auth_list_cnt t)
    (set_asoc_list (rtw_init_listhead p (asoc_list t)) (asoc_list_cnt t) t).

Definition _rtw_alloc_core_stainfo (t : sta_priv) : option (nat * sta_priv) :=
  match free_sta_queue t with
  | [] => None
  | p :: q => Some (p, _rtw_init_stainfo p (set_queues q (sta_hash t ++ [p]) t))
  end.

(** [phl]: phl has an entry for the station. *)
Definition rtw_alloc_stainfo_sw (phl : bool) (hwaddr : list Z) (t : sta_priv) : option (nat * sta_priv) :=
  '(p, t) ← _rtw_alloc_core_stainfo t;
  Some (p, if phl then upd p (set_phl_sta (Some hwaddr)) t else t).

Definition _rtw_free_core_stainfo (p : nat) (t : sta_priv) : sta_priv :=
  let t := set_queues (free_sta_queue t) (filter (.≠ p) (sta_hash t)) t in
  let t := upd p (λ x, set_state (Z.ldiff (state x) WIFI_ASOC_STATE) x) t in
  let t := upd p (λ x, set_aid 0 (set_expire_to 0 x)) (auth_delete p t) in
  set_queues (free_sta_queue t ++ [p]) (sta_hash t) t.

(** [rtw_free_stainfo] frees phl's entry with the hardware's, [rtw_free_stainfo_sw]
    without. *)
Definition rtw_free_stainfo (p : nat) (t : sta_priv) : sta_priv :=
  upd p (set_phl_sta None) (_rtw_free_core_stainfo p t).

(** [_rtw_init_sta_priv], and [rtw_init_self_stainfo]. *)
Definition _rtw_init_sta_priv : sta_priv :=
  mk_sta_priv (replicate HEAD sta0) (seq 0 HEAD) [] no_links 0 no_links 0.

Definition rtw_init_self_stainfo (own : list Z) (t : sta_priv) : sta_priv :=
  match rtw_get_stainfo own t own with
  | Some _ => t
  | None => match rtw_alloc_stainfo_sw true own t with Some (_, t) => t | None => t end
  end.

(** ** Well-formed lists *)

Section linked.
Local Open Scope nat_scope.

(** Each node of [x :: l] is linked with the next one. *)
Fixpoint segment (L : links) (x : nat) (l : list nat) : Prop :=
  match l with
  | [] => True
  | y :: l => next L x = y /\ prev L y = x /\ segment L y l
  end.

(** The list of [HEAD] is [l], and other nodes point to themselves. *)
Record linked (L : links) (l : list nat) : Prop := {
  ring : segment L HEAD (l ++ [HEAD]);
  ring_nodup : NoDup (HEAD :: l);
  ring_out : forall x, x ∉ HEAD :: l -> next L x = x
}.

Lemma segment_app L x l1 y l2 :
  segment L x (l1 ++ y :: l2) <-> segment L x (l1 ++ [y]) /\ segment L y l2.
Proof. revert x. induction l1 as [|z l1 IH]; intros x; cbn; [naive_solver|]. rewrite IH. naive_solver. Qed.

Lemma segment_ext L L' x l e :
  (forall y, y ∈ x :: l -> next L' y = next L y) ->
  (forall y, y ∈ l ++ [e] -> prev L' y = prev L y) ->
  segment L x (l ++ [e]) -> segment L' x (l ++ [e]).
Proof.
  revert x. induction l as [|z l IH]; intros x N P; cbn.
  - intros (Nx & Pe & _). rewrite N, P by (by rewrite ?elem_of_cons; auto || set_solver). done.
  - intros (Nx & Pz & S). rewrite N, P by set_solver. split_and!; [done..|].
    apply IH; [|set_solver|done]. intros y Y. apply N. set_solver.
Qed.

Lemma nodup_snoc (l : list nat) x : NoDup (l ++ [x]) <-> NoDup l /\ x ∉ l.
Proof. rewrite NoDup_app. split; [|intros [N X]; split_and!; [done|set_solver|apply NoDup_singleton]].
  intros (N & D & _). split; [done|]. intros X. by apply (D x X), list_elem_of_singleton. Qed.

Lemma linked_nil : linked no_links [].
Proof. split; [done|apply NoDup_singleton|done]. Qed.

(** Reading a pointer that was or was not written. *)
Ltac ptr := cbn -[HEAD]; unfold insert, fn_insert; repeat case_decide; subst; try done; try set_solver.

Lemma insert_tail_linked L l x : linked L l -> x ∉ HEAD :: l ->
  linked (rtw_list_insert_tail x L) (l ++ [x]).
Proof.
  intros [R D O] X. apply not_elem_of_cons in X as [XH Xl]. apply NoDup_cons in D as [DH D].
  split; [|rewrite app_comm_cons; apply nodup_snoc; rewrite NoDup_cons; set_solver|].
  - unfold rtw_list_insert_tail. destruct l as [|p l _] using rev_ind.
    + destruct R as (_ & P & _). rewrite P. ptr.
    + rewrite <- app_assoc in R. apply segment_app in R as [R (N & P & _)]. rewrite P.
      apply nodup_snoc in D as [D Dp]. rewrite <- !app_assoc. apply segment_app. split.
      * revert R. apply segment_ext; intros y Y; ptr.
      * ptr.
  - assert (prev L HEAD ∈ HEAD :: l) as PH.
    { destruct l as [|p l _] using rev_ind; [destruct R as (_ & P & _); rewrite P; by left|].
      rewrite <- app_assoc in R. apply segment_app in R as [_ (_ & P & _)]. rewrite P. set_solver. }
    intros y Y. unfold rtw_list_insert_tail. ptr.
Qed.

Lemma segment_prev_in L a l1 x : segment L a (l1 ++ [x]) -> prev L x ∈ a :: l1.
Proof.
  destruct l1 as [|p l1 _] using rev_ind; [intros (_ & -> & _); by left|].
  rewrite <- app_assoc. intros [_ (_ & -> & _)]%segment_app. rewrite app_comm_cons. apply elem_of_app. right. by left.
Qed.

(** What unlinking writes. *)
Definition unlink (x p n : nat) (L : links) : links :=
  set_prev x x (set_next x x (set_next p n (set_prev n p L))).

Lemma unlink_next x p n L y : y <> x -> y <> p -> next (unlink x p n L) y = next L y.
Proof. intros. cbn. unfold insert, fn_insert. by rewrite !decide_False by congruence. Qed.
Lemma unlink_prev x p n L y : y <> x -> y <> n -> prev (unlink x p n L) y = prev L y.
Proof. intros. cbn. unfold insert, fn_insert. by rewrite !decide_False by congruence. Qed.
Lemma unlink_at x p n L : p <> x -> n <> x ->
  next (unlink x p n L) p = n /\ prev (unlink x p n L) n = p.
Proof.
  intros. cbn. unfold insert, fn_insert. rewrite (decide_False (P := x = p)), (decide_False (P := x = n)) by congruence.
  by rewrite !decide_True by done.
Qed.

Lemma delete_segment L x e l2 l1 : forall a,
  NoDup (a :: l1 ++ x :: l2) -> NoDup (l1 ++ x :: l2 ++ [e]) ->
  segment L a (l1 ++ x :: l2 ++ [e]) -> segment (rtw_list_delete x L) a (l1 ++ l2 ++ [e]).
Proof.
  intros a D1 D2 S. apply (segment_app L a l1 x) in S as [S1 S2]. pose proof (segment_prev_in L a l1 x S1) as Px.
  assert (exists n l3, l2 ++ [e] = n :: l3 /\ next L x = n /\ segment L n l3) as (n & l3 & E & Nx & S3).
  { destruct (l2 ++ [e]) as [|n l3] eqn:E; [by destruct l2|]. exists n, l3. by destruct S2 as (? & ? & ?). }
  apply NoDup_cons in D1 as [Da D1]. apply NoDup_app in D1 as (_ & D1 & _).
  rewrite E in *. change (rtw_list_delete x L) with (unlink x (prev L x) (next L x) L). rewrite Nx.
  apply NoDup_app in D2 as (D2 & D12 & D3). apply NoDup_cons in D3 as [Xn D3]. apply NoDup_cons in D3 as [Nl D3].
  assert (n <> x /\ x ∉ l3) as [Nx' Xl] by (split; [intros ->|intros ?]; apply Xn; [left|by right]).
  assert (segment (unlink x (prev L x) n L) n l3) as T.
  { destruct l2 as [|m l2]; injection E as <- <-; [done|]. revert S3. apply segment_ext; intros y Y.
    - apply unlink_next; [intros ->; apply Xn; rewrite app_comm_cons; apply elem_of_app; by left|]. intros ->.
      apply elem_of_cons in Px as [Px|Px]; [apply Da; rewrite <- Px; apply elem_of_app; right; by right|].
      apply (D1 _ Px). by right.
    - apply unlink_prev; intros ->; done. }
  destruct l1 as [|p l1 _] using rev_ind.
  - destruct S1 as (_ & P & _). rewrite P in *. destruct (unlink_at x a n L) as [A1 A2]; [set_solver|done|]. done.
  - rewrite <- app_assoc in S1 |- *. apply segment_app in S1 as [S1 (_ & P & _)]. rewrite P in *.
    apply nodup_snoc in D2 as [D2 Dp]. assert (p ∈ l1 ++ [p]) as Pi by (apply elem_of_app; right; by left).
    destruct (unlink_at x p n L) as [A1 A2]; [intros ->; apply (D12 _ Pi); by left|done|].
    apply segment_app. split; [|done]. revert S1. apply segment_ext; intros y Y.
    + apply unlink_next; intros ->; (apply elem_of_cons in Y as [Y|Y]; [|try done]); [set_solver| |set_solver].
      apply (D12 x); [apply elem_of_app; by left|by left].
    + apply unlink_prev; intros ->; apply (D12 _ Y); [by left|right; by left].
Qed.

Lemma delete_linked L l1 x l2 : linked L (l1 ++ x :: l2) -> linked (rtw_list_delete x L) (l1 ++ l2).
Proof.
  intros [R D O]. rewrite <- app_assoc in R. split.
  - rewrite <- app_assoc. apply delete_segment; [done| |done].
    rewrite app_comm_cons, app_assoc. apply nodup_snoc. apply NoDup_cons in D as [? ?]. done.
  - assert (HEAD :: l1 ++ x :: l2 ≡ₚ x :: HEAD :: l1 ++ l2) as P by solve_Permutation.
    rewrite P, NoDup_cons in D. by destruct D.
  - intros y Y. change (rtw_list_delete x L) with (unlink x (prev L x) (next L x) L).
    destruct (decide (y = x)) as [->|N]; [cbn; unfold insert, fn_insert; by rewrite decide_True|].
    apply segment_app in R as [R _]. apply segment_prev_in in R.
    rewrite unlink_next; [apply O; set_solver|done|intros ->; set_solver].
Qed.

(** A node is empty when it is not in the list. *)
Lemma empty_linked L l x : linked L l -> x <> HEAD -> rtw_is_list_empty x L = negb (bool_decide (x ∈ l)).
Proof.
  intros [R D O] XH. unfold rtw_is_list_empty. case_bool_decide as X; cbn.
  - apply Nat.eqb_neq. apply list_elem_of_split in X as (l1 & l2 & ->).
    rewrite <- app_assoc in R. apply segment_app in R as [_ S].
    rewrite NoDup_cons, NoDup_app, NoDup_cons in D.
    destruct l2 as [|n l2]; destruct S as (-> & _); set_solver.
  - apply Nat.eqb_eq, O. set_solver.
Qed.

Lemma init_linked L l x : linked L l -> x ∉ HEAD :: l -> linked (rtw_init_listhead x L) l.
Proof.
  intros [R D O] X. split; [|done|].
  - revert R. apply segment_ext; intros y Y; unfold rtw_init_listhead; ptr.
  - intros y Y. unfold rtw_init_listhead. ptr.
Qed.

Lemma walk_segment L x l fuel : segment L x (l ++ [HEAD]) -> (length l < fuel) ->
  HEAD ∉ l -> walk fuel L (next L x) = Ret l.
Proof.
  revert x fuel. induction l as [|y l IH]; intros x fuel S F H; (destruct fuel as [|fuel]; [cbn in F; lia|]).
  - destruct S as (-> & _). cbn -[HEAD]. by rewrite Nat.eqb_refl.
  - destruct S as (-> & _ & S). cbn -[HEAD]. rewrite (proj2 (Nat.eqb_neq _ _)) by set_solver.
    rewrite (IH y fuel S); [done|cbn in F; lia|set_solver].
Qed.

Lemma nodes_linked L l : linked L l -> Forall (λ x, x < HEAD) l -> nodes L = Ret l.
Proof.
  intros [R D O] F. apply NoDup_cons in D as [DH D]. apply walk_segment; [done| |done].
  assert (l ⊆+ seq 0 HEAD) as S.
  { apply NoDup_submseteq; [done|]. intros x X. apply elem_of_seq. rewrite Forall_forall in F. specialize (F x X). lia. }
  apply submseteq_length in S. rewrite length_seq in S. lia.
Qed.
End linked.

(** ** Well-formed tables *)

(** Every entry is free or in the hash table, with an address of its own; [la] are the
    stations that authenticate. *)
Record table_ok (t : sta_priv) (la : list nat) : Prop := {
  ok_len : length (pstainfo_buf t) = HEAD;
  ok_parts : free_sta_queue t ++ sta_hash t ≡ₚ seq 0 HEAD;
  ok_addr : forall p, p ∈ sta_hash t -> is_Some (phl_sta (sta_at t p));
  ok_uniq : forall p q, p ∈ sta_hash t -> q ∈ sta_hash t ->
    phl_sta (sta_at t p) = phl_sta (sta_at t q) -> p = q;
  ok_auth : linked (auth_list t) la;
  ok_auth_cnt : auth_list_cnt t = Z.of_nat (length la);
  ok_auth_in : forall p, p ∈ la -> p ∈ sta_hash t
}.

(** [ls] are the associated stations. *)
Record asoc_ok (t : sta_priv) (la ls : list nat) : Prop := {
  ok_asoc : linked (asoc_list t) ls;
  ok_asoc_cnt : asoc_list_cnt t = Z.of_nat (length ls);
  ok_asoc_lt : forall p, p ∈ ls -> (p < HEAD)%nat;
  ok_apart : forall p, p ∈ la -> p ∉ ls
}.

Lemma hash_lt t la p : table_ok t la -> p ∈ sta_hash t -> (p < HEAD)%nat.
Proof.
  intros K P. assert (p ∈ seq 0 HEAD) as Q%elem_of_seq; [|lia].
  rewrite <- (ok_parts _ _ K). apply elem_of_app. by right.
Qed.

Lemma free_lt t la p : table_ok t la -> p ∈ free_sta_queue t -> (p < HEAD)%nat /\ p ∉ sta_hash t.
Proof.
  intros K P. pose proof (ok_parts _ _ K) as E. split.
  - assert (p ∈ seq 0 HEAD) as Q%elem_of_seq; [|lia]. rewrite <- E. apply elem_of_app. by left.
  - assert (NoDup (free_sta_queue t ++ sta_hash t)) as D by (rewrite E; apply NoDup_seq).
    apply NoDup_app in D as (_ & D & _). by apply D.
Qed.

Lemma hash_nodup t la : table_ok t la -> NoDup (sta_hash t).
Proof.
  intros K. assert (NoDup (free_sta_queue t ++ sta_hash t)) as D by (rewrite (ok_parts _ _ K); apply NoDup_seq).
  by apply NoDup_app in D as (_ & _ & D).
Qed.

Lemma not_head p : (p < HEAD)%nat -> p <> HEAD.
Proof. lia. Qed.

(** Nodes of a list, fewer than there are entries. *)
Lemma linked_short L l : linked L l -> (forall p, p ∈ l -> (p < HEAD)%nat) -> (length l <= HEAD)%nat.
Proof.
  intros K F. destruct K as [_ D _]. apply NoDup_cons in D as [_ D].
  assert (l ⊆+ seq 0 HEAD) as S.
  { apply NoDup_submseteq; [done|]. intros x X. apply elem_of_seq. specialize (F x X). lia. }
  apply submseteq_length in S. by rewrite length_seq in S.
Qed.

Lemma sta_at_upd t la p q f : table_ok t la -> (p < HEAD)%nat ->
  sta_at (upd p f t) q = if decide (p = q) then f (sta_at t q) else sta_at t q.
Proof.
  intros K P. unfold sta_at, upd. cbn. case_decide as E.
  - subst. rewrite list_lookup_alter_eq.
    destruct (lookup_lt_is_Some_2 (pstainfo_buf t) q) as [x ->]; [by rewrite (ok_len _ _ K)|done].
  - by rewrite list_lookup_alter_ne.
Qed.

Lemma upd_ok t la p f : table_ok t la -> (p < HEAD)%nat -> phl_sta (f (sta_at t p)) = phl_sta (sta_at t p) ->
  table_ok (upd p f t) la.
Proof.
  intros K P F.
  assert (forall q, phl_sta (sta_at (upd p f t) q) = phl_sta (sta_at t q)) as E.
  { intros q. rewrite (sta_at_upd _ _ _ _ _ K P). case_decide; by subst. }
  destruct K. split; cbn [upd set_buf pstainfo_buf free_sta_queue sta_hash auth_list auth_list_cnt]; try done.
  - by rewrite length_alter.
  - intros q. rewrite E. auto.
  - intros q r. rewrite !E. auto.
Qed.

Lemma upd_asoc t la ls p f : asoc_ok t la ls -> asoc_ok (upd p f t) la ls.
Proof. by intros []. Qed.

(** The list of a delete, as a set. *)
Definition without (p : nat) (l : list nat) : list nat := filter (.≠ p) l.

Lemma without_out p l : p ∉ l -> without p l = l.
Proof.
  induction l as [|x l IH]; intros P; [done|]. apply not_elem_of_cons in P as [N P].
  unfold without in *. rewrite filter_cons_True by congruence. by rewrite IH.
Qed.

Lemma without_split l1 p l2 : NoDup (l1 ++ p :: l2) -> without p (l1 ++ p :: l2) = l1 ++ l2.
Proof.
  intros D. apply NoDup_app in D as (_ & D1 & D2). apply NoDup_cons in D2 as [D2 _].
  unfold without. rewrite filter_app, filter_cons_False by (intros N; by apply N).
  f_equal; apply without_out; [|done]. intros X. apply (D1 p X). by left.
Qed.

Lemma elem_of_without p q l : q ∈ without p l <-> q <> p /\ q ∈ l.
Proof. unfold without. by rewrite list_elem_of_filter. Qed.

Lemma delete_without L l p : linked L l -> p ∈ l ->
  linked (rtw_list_delete p L) (without p l) /\ (length l = S (length (without p l)))%nat.
Proof.
  intros K P. apply list_elem_of_split in P as (l1 & l2 & ->).
  assert (NoDup (l1 ++ p :: l2)) as D by (destruct K as [_ D _]; by apply NoDup_cons in D as [_ D]).
  rewrite without_split by done. split; [by apply delete_linked|]. rewrite !length_app. cbn. lia.
Qed.

Lemma u8_count n : (n <= HEAD)%nat -> u8 (Z.of_nat n) = Z.of_nat n.
Proof. intros H. apply u8_id. change HEAD with 32%nat in H. unfold is_u8. lia. Qed.

Lemma auth_insert_ok t la p : table_ok t la -> p ∈ sta_hash t ->
  table_ok (auth_insert p t) (if bool_decide (p ∈ la) then la else la ++ [p]).
Proof.
  intros K P. pose proof (hash_lt _ _ _ K P) as L. unfold auth_insert.
  rewrite (empty_linked _ _ _ (ok_auth _ _ K) (not_head _ L)). case_bool_decide as I; cbn [negb]; [done|].
  assert (p ∉ HEAD :: la) as N by (intros [->|?]%elem_of_cons; [lia|done]).
  pose proof (insert_tail_linked _ _ _ (ok_auth _ _ K) N) as K'.
  destruct K. split; cbn [set_auth_list pstainfo_buf free_sta_queue sta_hash auth_list auth_list_cnt]; try done.
  - rewrite ok_auth_cnt0, length_app. cbn [length].
    replace (Z.of_nat (length la) + 1) with (Z.of_nat (length la + 1)) by lia. apply u8_count.
    replace (length la + 1)%nat with (length (la ++ [p])) by by rewrite length_app.
    eapply linked_short; [done|]. intros q [Q| ->%list_elem_of_singleton]%elem_of_app; [|done].
    eapply hash_lt; [by split|]. by apply ok_auth_in0.
  - intros q [Q| ->%list_elem_of_singleton]%elem_of_app; [by apply ok_auth_in0|done].
Qed.

Lemma auth_delete_ok t la p : table_ok t la -> (p < HEAD)%nat -> table_ok (auth_delete p t) (without p la).
Proof.
  intros K L. unfold auth_delete. rewrite (empty_linked _ _ _ (ok_auth _ _ K) (not_head _ L)).
  case_bool_decide as I; cbn [negb]; [|by rewrite without_out].
  destruct (delete_without _ _ _ (ok_auth _ _ K) I) as [K' N].
  destruct K. split; cbn [set_auth_list pstainfo_buf free_sta_queue sta_hash auth_list auth_list_cnt]; try done.
  - rewrite ok_auth_cnt0, N. replace (Z.of_nat (S (length (without p la))) - 1) with (Z.of_nat (length (without p la))) by lia.
    apply u8_count. assert (length la <= HEAD)%nat; [|lia]. eapply linked_short; [done|].
    intros q Q. eapply hash_lt; [by split|]. by apply ok_auth_in0.
  - intros q [_ Q]%elem_of_without. by apply ok_auth_in0.
Qed.

Lemma asoc_delete_ok t la ls p : asoc_ok t la ls -> (p < HEAD)%nat -> asoc_ok (asoc_delete p t) la (without p ls).
Proof.
  intros K L. unfold asoc_delete. rewrite (empty_linked _ _ _ (ok_asoc _ _ _ K) (not_head _ L)).
  case_bool_decide as I; cbn [negb]; [|by rewrite without_out].
  destruct (delete_without _ _ _ (ok_asoc _ _ _ K) I) as [K' N].
  destruct K. split; cbn [set_asoc_list asoc_list asoc_list_cnt]; try done.
  - rewrite ok_asoc_cnt0, N. replace (Z.of_nat (S (length (without p ls))) - 1) with (Z.of_nat (length (without p ls))) by lia.
    apply u8_count. pose proof (linked_short _ _ ok_asoc0 ok_asoc_lt0). lia.
  - intros q [_ Q]%elem_of_without. auto.
  - intros q Q [_ I']%elem_of_without. by apply (ok_apart0 q).
Qed.

Lemma asoc_insert_ok t la ls p : asoc_ok t la ls -> (p < HEAD)%nat -> p ∉ ls -> p ∉ la ->
  asoc_ok (set_asoc_list (rtw_list_insert_tail p (asoc_list t)) (u8 (asoc_list_cnt t + 1)) t) la (ls ++ [p]).
Proof.
  intros K L N A. assert (p ∉ HEAD :: ls) as N' by (intros [->|?]%elem_of_cons; [lia|done]).
  pose proof (insert_tail_linked _ _ _ (ok_asoc _ _ _ K) N') as K'. destruct K.
  assert (forall q, q ∈ ls ++ [p] -> (q < HEAD)%nat) as F.
  { intros q [Q| ->%list_elem_of_singleton]%elem_of_app; auto. }
  split; cbn [set_asoc_list asoc_list asoc_list_cnt]; try done.
  - pose proof (linked_short _ _ K' F) as S. rewrite ok_asoc_cnt0, length_app in *. cbn [length] in *.
    replace (Z.of_nat (length ls) + 1) with (Z.of_nat (length ls + 1)) by lia. by apply u8_count.
  - intros q Q [Q'| ->%list_elem_of_singleton]%elem_of_app; [by apply (ok_apart0 q)|done].
Qed.

(** ** Look-up, allocation and release *)

Lemma stainfo_found own t la a p : table_ok t la -> rtw_get_stainfo own t a = Some p ->
  p ∈ sta_hash t /\ phl_sta (sta_at t p) = Some (if IS_MCAST a then own else a).
Proof.
  intros K. unfold rtw_get_stainfo. destruct (list_find _ _) as [[i q]|] eqn:E; [|done].
  intros [= <-]. apply list_find_Some in E as (E & P & _). split; [|done]. by eapply list_elem_of_lookup_2.
Qed.

Lemma get_stainfo_none own t a p : rtw_get_stainfo own t a = None -> p ∈ sta_hash t ->
  phl_sta (sta_at t p) <> Some (if IS_MCAST a then own else a).
Proof.
  unfold rtw_get_stainfo. destruct (list_find _ _) as [[i q]|] eqn:E; [done|].
  intros _ P. apply list_find_None in E. rewrite Forall_forall in E. by apply E.
Qed.

Lemma auth_delete_fields p t : pstainfo_buf (auth_delete p t) = pstainfo_buf t /\
  free_sta_queue (auth_delete p t) = free_sta_queue t /\ sta_hash (auth_delete p t) = sta_hash t /\
  asoc_list (auth_delete p t) = asoc_list t /\ asoc_list_cnt (auth_delete p t) = asoc_list_cnt t.
Proof. unfold auth_delete. by destruct (rtw_is_list_empty p (auth_list t)). Qed.

Lemma auth_delete_links p t t' : auth_list t' = auth_list t -> auth_list_cnt t' = auth_list_cnt t ->
  auth_list (auth_delete p t') = auth_list (auth_delete p t) /\
  auth_list_cnt (auth_delete p t') = auth_list_cnt (auth_delete p t).
Proof. intros E F. unfold auth_delete. rewrite E, F. by destruct (rtw_is_list_empty p (auth_list t)). Qed.

Lemma sta_at_alter t b p q f : pstainfo_buf t = alter f p b -> q <> p ->
  sta_at t q = default sta0 (b !! q).
Proof. intros E N. unfold sta_at. by rewrite E, list_lookup_alter_ne by congruence. Qed.

Lemma alter_alter {A} (f g : A -> A) i (l : list A) : alter f i (alter g i l) = alter (λ x, f (g x)) i l.
Proof. revert i. induction l as [|x l IH]; intros [|i]; [done..|]. cbn. f_equal. apply IH. Qed.

(** The table without [p]. *)
Lemma free_fields p t : exists f,
  pstainfo_buf (rtw_free_stainfo p t) = alter f p (pstainfo_buf t) /\
  free_sta_queue (rtw_free_stainfo p t) = free_sta_queue t ++ [p] /\
  sta_hash (rtw_free_stainfo p t) = without p (sta_hash t) /\
  auth_list (rtw_free_stainfo p t) = auth_list (auth_delete p t) /\
  auth_list_cnt (rtw_free_stainfo p t) = auth_list_cnt (auth_delete p t) /\
  asoc_list (rtw_free_stainfo p t) = asoc_list t /\ asoc_list_cnt (rtw_free_stainfo p t) = asoc_list_cnt t.
Proof.
  unfold rtw_free_stainfo, _rtw_free_core_stainfo.
  set (t1 := upd p _ (set_queues _ _ t)).
  destruct (auth_delete_fields p t1) as (B & F & H & A & C).
  destruct (auth_delete_links p t t1) as [L N]; [done..|].
  cbn [upd set_buf set_queues pstainfo_buf free_sta_queue sta_hash auth_list auth_list_cnt asoc_list asoc_list_cnt].
  rewrite B, F, H, A, C, L, N. cbn [t1 upd set_buf set_queues pstainfo_buf free_sta_queue sta_hash asoc_list asoc_list_cnt].
  rewrite !alter_alter. by eexists.
Qed.

Lemma free_table_ok t la p : table_ok t la -> p ∈ sta_hash t -> table_ok (rtw_free_stainfo p t) (without p la).
Proof.
  intros K P. pose proof (hash_lt _ _ _ K P) as L. pose proof (hash_nodup _ _ K) as D.
  pose proof (auth_delete_ok _ _ _ K L) as K'. destruct (free_fields p t) as (f & B & F & H & A & C & _).
  assert (forall q, q ∈ without p (sta_hash t) -> sta_at (rtw_free_stainfo p t) q = sta_at t q /\ q ∈ sta_hash t) as E.
  { intros q [N Q]%elem_of_without. by rewrite (sta_at_alter _ _ _ _ _ B N). }
  split; rewrite ?B, ?F, ?H, ?A, ?C; [by rewrite length_alter, (ok_len _ _ K)| | | |apply K'|apply K'|].
  - rewrite <- (ok_parts _ _ K). rewrite <- app_assoc. f_equiv. cbn. clear -P D.
    apply list_elem_of_split in P as (l1 & l2 & E). rewrite E in *. rewrite without_split by done. solve_Permutation.
  - intros q Q. destruct (E q Q) as [-> Q']. by apply (ok_addr _ _ K).
  - intros q r Q R. destruct (E q Q) as [-> Q'], (E r R) as [-> R']. by apply (ok_uniq _ _ K).
  - intros q [N Q]%elem_of_without. apply elem_of_without. split; [done|]. by apply (ok_auth_in _ _ K).
Qed.

Lemma free_asoc t la ls p : asoc_ok t la ls -> asoc_ok (rtw_free_stainfo p t) (without p la) ls.
Proof.
  intros []. destruct (free_fields p t) as (f & _ & _ & _ & _ & _ & A & C).
  split; rewrite ?A, ?C; [done..|]. intros q [_ Q]%elem_of_without. auto.
Qed.

(** A new entry, which no list has. *)
Lemma alloc_ok t la a p t' : table_ok t la -> rtw_alloc_stainfo_sw true a t = Some (p, t') ->
  (forall q, q ∈ sta_hash t -> phl_sta (sta_at t q) <> Some a) ->
  table_ok t' la /\ p ∈ free_sta_queue t /\ sta_hash t' = sta_hash t ++ [p] /\
  sta_at t' p = set_phl_sta (Some a) sta0 /\ (forall q, q <> p -> sta_at t' q = sta_at t q).
Proof.
  intros K. unfold rtw_alloc_stainfo_sw, _rtw_alloc_core_stainfo.
  destruct (free_sta_queue t) as [|x q] eqn:F; [done|]. cbn [mbind option_bind]. intros [= -> <-] U.
  assert (p ∈ free_sta_queue t) as Pf by (rewrite F; by left). destruct (free_lt _ _ _ K Pf) as [L Ph].
  set (t1 := upd p (set_phl_sta (Some a)) _).
  assert (sta_hash t1 = sta_hash t ++ [p]) as H1 by done.
  assert (pstainfo_buf t1 = alter (set_phl_sta (Some a)) p (alter (λ _, sta0) p (pstainfo_buf t))) as B1 by done.
  assert (sta_at t1 p = set_phl_sta (Some a) sta0) as Ap.
  { unfold sta_at. rewrite B1, !list_lookup_alter_eq.
    destruct (lookup_lt_is_Some_2 (pstainfo_buf t) p) as [y ->]; [by rewrite (ok_len _ _ K)|done]. }
  assert (forall q, q <> p -> sta_at t1 q = sta_at t q) as Aq.
  { intros r N. rewrite (sta_at_alter _ _ _ _ _ B1 N). by rewrite list_lookup_alter_ne by congruence. }
  assert (p ∉ HEAD :: la) as N.
  { intros [->|Q]%elem_of_cons; [lia|]. by apply Ph, (ok_auth_in _ _ K). }
  split; [|split_and!; [by left|done..]]. split; rewrite ?H1.
  - by rewrite B1, !length_alter, (ok_len _ _ K).
  - rewrite <- (ok_parts _ _ K), F. cbn. solve_Permutation.
  - intros r [R| ->%list_elem_of_singleton]%elem_of_app; [|by rewrite Ap].
    rewrite Aq by (intros ->; done). by apply (ok_addr _ _ K).
  - assert (forall r, r ∈ sta_hash t -> phl_sta (sta_at t1 r) <> Some a) as U'.
    { intros r R. rewrite Aq by (intros ->; done). by apply U. }
    intros r s [R| ->%list_elem_of_singleton]%elem_of_app [S| ->%list_elem_of_singleton]%elem_of_app.
    + rewrite !Aq by (intros ->; done). by apply (ok_uniq _ _ K).
    + rewrite Ap. intros E. by destruct (U' r R).
    + rewrite Ap. intros E. by destruct (U' s S).
    + done.
  - apply init_linked; [apply K|done].
  - apply K.
  - intros r R. apply elem_of_app. left. by apply (ok_auth_in _ _ K).
Qed.

Lemma alloc_asoc t la ls a p t' : asoc_ok t la ls -> rtw_alloc_stainfo_sw true a t = Some (p, t') ->
  p ∉ ls -> (p < HEAD)%nat -> asoc_ok t' la ls.
Proof.
  intros K. unfold rtw_alloc_stainfo_sw, _rtw_alloc_core_stainfo.
  destruct (free_sta_queue t) as [|x q]; [done|]. cbn [mbind option_bind]. intros [= -> <-] N L.
  destruct K. split; try done. apply init_linked; [done|]. intros [->|?]%elem_of_cons; [lia|done].
Qed.

Lemma init_ok : table_ok _rtw_init_sta_priv [] /\ asoc_ok _rtw_init_sta_priv [] [].
Proof.
  split; split; try done; try apply linked_nil; try (intros ? []%elem_of_nil); intros ?? []%elem_of_nil.
Qed.

(** At the start there is the interface's own entry. *)
Lemma init_self own : let t := rtw_init_self_stainfo own _rtw_init_sta_priv in
  table_ok t [] /\ asoc_ok t [] [] /\ sta_hash t = [0%nat] /\ sta_at t 0 = set_phl_sta (Some own) sta0.
Proof.
  destruct init_ok as [K A]. unfold rtw_init_self_stainfo.
  change (rtw_get_stainfo own _rtw_init_sta_priv own) with (@None nat).
  destruct (rtw_alloc_stainfo_sw true own _rtw_init_sta_priv) as [[p t]|] eqn:E; [|done].
  destruct (alloc_ok _ _ _ _ _ K E) as (K' & F & H & P & _); [by intros q Q%elem_of_nil|].
  assert (p = 0%nat) as -> by (by injection E). split_and!; try done.
  eapply alloc_asoc; [done..|by intros ?%elem_of_nil|]. change HEAD with 32%nat. lia.
Qed.
End ApSta.
