(* ===== verification/ApAuth.v ===== *)
(** * Authentication and association at an access point

    core/rtw_mlme_ext.c: OnAuth with rtw_defs_attack_chk and rtw_get_sta_num_by_state,
    issue_auth and issue_asocrsp (of an access point, their fixed fields), OnAssocReq,
    OnDeAuth and OnDisassoc (of an access point); core/rtw_ap.c: the first half of
    expire_timeout_chk, the software's part of ap_free_sta; core/rtw_mlme.c:
    rtw_stadel_event_callback; os_dep/linux/ioctl_cfg80211.c: the end of an external
    authentication, the mark of an installed pairwise key.

    The table of the stations is [ApSta.sta_priv].  Left out are the test hooks of
    rtw_debug.c, meshes, P2P group owners, MBO and the denial of legacy stations, the
    WMM and Multi-AP elements, what the hardware is told, and the allocation of an aid,
    which is [ApPs.rtw_aid_alloc].  What holds in every run is in [ApAuthInv]. *)

From S2P Require Import Prelude Bytes Ies Wep RxFrame RxState RxPath Elems Acl ApSec ApSta Join.

Module ApAuth.
Import Ies RxFrame RxState ApSec ApSta.

Definition WLAN_HDR_A3_LEN : Z := 24.
Definition IEEE80211_3ADDR_LEN : Z := 24.
Definition _ASOCREQ_IE_OFFSET_ : Z := 4.
Definition _REASOCREQ_IE_OFFSET_ : Z := 10.
Definition _STATS_NO_SUPP_ALG_ : Z := 13.
Definition _STATS_OUT_OF_AUTH_SEQ_ : Z := 14.
Definition _STATS_CHALLENGE_FAIL_ : Z := 15.
Definition _STATS_REFUSED_TEMPORARILY_ : Z := 30.
Definition WLAN_STATUS_AP_UNABLE_TO_HANDLE_NEW_STA : Z := 17.
Definition _RSON_CLS2_ : Z := 6.
Definition WIFI_UNDER_KEY_HANDSHAKE : Z := 0x01000000.
(** The times of [_rtw_init_sta_priv], in passes of the watchdog. *)
Definition auth_to : Z := 3.
Definition assoc_to : Z := 3.
Definition asoc_expire_to : Z := 60.

(** ** State *)

Inductive event :=
  | NewSta (a : list Z)                       (** an entry is made *)
  | FreeSta (a : list Z)                      (** an entry is freed *)
  | TxAuth (a body : list Z)
  | Authenticated (a : list Z)                (** [WIFI_FW_AUTH_SUCCESS] is set *)
  | TxAssocRsp (a : list Z) (reassoc : bool) (body : list Z)
  | TxDeauth (a : list Z) (reason : Z)
  | RxMframe (a : list Z)                     (** [rtw_cfg80211_rx_mframe] *)
  | SaQuery (a : list Z)
  | AddSta (a : list Z) (x : sta_sec)         (** [report_add_sta_event] *)
  | DelSta (a : list Z) (reason : Z).         (** [report_del_sta_event] *)

Record ap := mk_ap { stapriv : sta_priv; ptime : Z; log : list event }.

Definition on_tab (f : sta_priv -> sta_priv) (s : ap) : ap := mk_ap (f (stapriv s)) (ptime s) (log s).
Definition set_ptime (x : Z) (s : ap) : ap := mk_ap (stapriv s) x (log s).
Definition emit (ev : event) (s : ap) : ap := mk_ap (stapriv s) (ptime s) (ev :: log s).

(** What the rest of the driver is like when a handler runs; [aid_free] is the answer
    of [rtw_aid_alloc], [stime] the time in ms. *)
Record env := mk_env {
  mac : list Z; asoc : bool; dot11AuthAlgrthm : Z; pol : policy;
  dot11DefKey : list (list Z); dot11DefKeylen : list Z;
  acl : Acl.acl_list; report_mgmt : bool; pmkid : list Z -> bool;
  mgnt_frame : bool; phl_room : bool; aid_free : Z;
  stime : Z; defs_lmt_time : Z; defs_lmt_sta : Z; ssid : list Z; net_cap : Z
}.

Definition sta_of (s : ap) (p : nat) : sta_info := sta_at (stapriv s) p.

(** Management frames of a station with a pairwise key that protects them are not
    trusted without protection. *)
Definition sta_open (x : sta_info) : bool :=
  negb (bpairwise_key_installed x && flag (flags (sec x)) WLAN_STA_MFP).

Definition sta_addr (s : ap) (p : nat) : list Z := default [] (phl_sta (sta_of s p)).

(** The bits of the entry's aid are cleared in the maps, through [phl_sta]. *)
Definition free_sta (p : nat) (s : ap) : res ap :=
  match phl_sta (sta_of s p) with
  | None => Oob
  | Some a => Ret (on_tab (rtw_free_stainfo p) (emit (FreeSta a) s))
  end.

(** ** Sending *)

Definition auth_chal (x : sta_info) (status : Z) : bool :=
  (auth_seq x =? 2) && flag (state x) Join.Join.WIFI_FW_AUTH_STATE
  && (status =? 0) && negb (u16 (authalg x) =? 0).

Definition auth_body (x : sta_info) (status : Z) : list Z :=
  put_le16 (if status =? 0 then u16 (authalg x) else 0)
  ++ put_le16 (u16 (auth_seq x)) ++ put_le16 status
  ++ (if auth_chal x status then [Join.Join._CHLGETXT_IE_; 128] ++ chg_txt x else []).

Definition issue_auth (e : env) (x : sta_info) (status : Z) (s : ap) : res ap :=
  if negb (mgnt_frame e) then Ret s
  else match phl_sta x with
       | None => Oob
       | Some a => Ret (emit (TxAuth a (auth_body x status)) s)
       end.

Definition asocrsp_body (e : env) (x : sta_info) (status : Z) : list Z :=
  put_le16 (net_cap e) ++ put_le16 status ++ put_le16 (Z.lor (aid x) (Z.lor (BIT 14) (BIT 15))).

Definition issue_asocrsp (e : env) (x : sta_info) (status : Z) (reassoc : bool) (s : ap) : res ap :=
  if negb (mgnt_frame e) then Ret s
  else match phl_sta x with
       | None => Oob
       | Some a => Ret (emit (TxAssocRsp a reassoc (asocrsp_body e x status)) s)
       end.

Definition issue_deauth (e : env) (a : list Z) (reason : Z) (s : ap) : ap :=
  if mgnt_frame e then emit (TxDeauth a reason) s else s.

(** ** Authentication *)

Definition rtw_check_invalid_mac_address (a : list Z) (check_local_bit : bool) : bool :=
  bool_decide (a = [0; 0; 0; 0; 0; 0]) || bool_decide (a = [255; 255; 255; 255; 255; 255])
  || flag (a !!! 0%nat) (BIT 0) || check_local_bit && flag (a !!! 0%nat) (BIT 1).

Definition rtw_get_sta_num_by_state (s : ap) (st : Z) : Z :=
  Z.of_nat (length (filter (λ p, flag (state (sta_of s p)) st = true) (sta_hash (stapriv s)))).

Definition rtw_defs_attack_chk (e : env) (s : ap) : bool * ap :=
  ((0 <? ptime s) && (u32 (stime e - ptime s) <? defs_lmt_time e)
   && (defs_lmt_sta e <=? rtw_get_sta_num_by_state s Join.Join.WIFI_FW_LINKING_STATE),
   set_ptime (stime e) s).

(** The frame, decrypted in place if it is protected, and how far the fields are
    moved by the initialisation vector. *)
Definition auth_frame (e : env) (f : Join.Join.mframe) : res (list Z * Z) :=
  privacy ← Join.Join.GetPrivacy f;
  if privacy : bool then
    x ← byte_at (Join.Join.pframe f) (WLAN_HDR_A3_LEN + 3);
    let key_index := Z.land (Z.shiftr x 6) 0x3 in
    key ← RxPath.RxPath.of_rd (dot11DefKey e) key_index;
    keylen ← RxPath.RxPath.of_rd (dot11DefKeylen e) key_index;
    b ← Wep.Wep.rtw_wep_decrypt true key keylen WLAN_HDR_A3_LEN 4 (Join.Join.pkt_len f) (Join.Join.pframe f);
    Ret (b, 4)
  else Ret (Join.Join.pframe f, 0).

(** [auth_mode]: shared keys are for WEP only. *)
Definition auth_mode (e : env) (algorithm : Z) : Z :=
  if (dot11AuthAlgrthm e =? 2) && negb (algorithm =? WLAN_AUTH_SAE)
     && negb (sec_privacy (pol e) =? _WEP40_) && negb (sec_privacy (pol e) =? _WEP104_)
  then 0 else dot11AuthAlgrthm e.

Definition bad_alg (mode algorithm : Z) : bool :=
  (0 <? algorithm) && (mode =? 0) || (algorithm =? 0) && (mode =? 1).

Definition auth_fail (e : env) (sa : list Z) (status : Z) (pstat : option nat) (s : ap) : res ap :=
  s ← match pstat with Some p => free_sta p s | None => Ret s end;
  issue_auth e (set_auth_seq 2 (set_phl_sta (Some sa) sta0)) status s.

(** The station's entry, made if there is none.  An associated one leaves the list of
    the associated stations. *)
Definition auth_entry (e : env) (sa : list Z) (s : ap) : option (nat * ap) :=
  match rtw_get_stainfo (mac e) (stapriv s) sa with
  | Some p => Some (p, if sta_open (sta_of s p) then on_tab (asoc_delete p) s else s)
  | None =>
      '(p, t) ← rtw_alloc_stainfo_sw (phl_room e) sa (stapriv s);
      Some (p, on_tab (λ _, upd p (λ x, set_auth_seq 0 (set_state Join.Join.WIFI_FW_AUTH_NULL x)) t)
                 (emit (NewSta sa) s))
  end.

Definition grant (p : nat) (from : Z) (s : ap) : ap :=
  if sta_open (sta_of s p) then
    emit (Authenticated (sta_addr s p))
      (on_tab (upd p (λ x, set_expire_to assoc_to
         (set_state (Z.lor (Z.ldiff (state x) from) Join.Join.WIFI_FW_AUTH_SUCCESS) x))) s)
  else s.

(** The answer to the frame [b] of an entry; an error is the status of a refusal. *)
Definition auth_answer (b : list Z) (len mode algorithm sq : Z) (p : nat) (s : ap)
    : res (ap + Z) :=
  if (algorithm =? 0) && ((mode =? 0) || (mode =? 2) || (mode =? 3)) then
    Ret (if sq =? 1
         then inl (on_tab (upd p (set_authalg algorithm)) (grant p Join.Join.WIFI_FW_AUTH_NULL s))
         else inr _STATS_OUT_OF_AUTH_SEQ_)
  else if sq =? 1 then
    let s := on_tab (upd p (set_chg_txt (replicate 128 78))) s in
    let s := if sta_open (sta_of s p) then
               on_tab (upd p (λ x, set_state (Z.lor (Z.ldiff (state x) Join.Join.WIFI_FW_AUTH_NULL)
                                                    Join.Join.WIFI_FW_AUTH_STATE) x)) s
             else s in
    Ret (inl (on_tab (upd p (λ x, set_auth_seq 2 (set_authalg algorithm x))) s))
  else if sq =? 3 then
    o ← rtw_get_ie b (WLAN_HDR_A3_LEN + 4 + Join.Join._AUTH_IE_OFFSET_) Join.Join._CHLGETXT_IE_
          (len - WLAN_HDR_A3_LEN - Join.Join._AUTH_IE_OFFSET_ - 4);
    match o with
    | None => Ret (inr _STATS_CHALLENGE_FAIL_)
    | Some (q, ie_len) =>
        if ie_len <=? 0 then Ret (inr _STATS_CHALLENGE_FAIL_)
        else
          c ← slice b (q + 2) 128;
          Ret (if bool_decide (c = chg_txt (sta_of s p)) then inl (grant p Join.Join.WIFI_FW_AUTH_STATE s)
               else inr _STATS_CHALLENGE_FAIL_)
    end
  else Ret (inr _STATS_OUT_OF_AUTH_SEQ_).

(** From the station's entry on. *)
Definition auth_sta (e : env) (b : list Z) (len : Z) (sa : list Z) (mode algorithm sq : Z) (p : nat) (s : ap)
    : res ap :=
  let s := if sta_open (sta_of s p) then on_tab (auth_insert p) s else s in
  let s := if auth_seq (sta_of s p) =? 0 then on_tab (upd p (set_expire_to auth_to)) s else s in
  if report_mgmt e && (algorithm =? WLAN_AUTH_SAE) && (mode =? 2) then
    Ret (emit (RxMframe sa) (on_tab (upd p (set_authalg algorithm)) s))
  else if negb (u32 (auth_seq (sta_of s p) + 1) =? sq) then
    auth_fail e sa _STATS_OUT_OF_AUTH_SEQ_ (Some p) s
  else
    r ← auth_answer b len mode algorithm sq p s;
    match r with
    | inr status => auth_fail e sa status (Some p) s
    | inl s =>
        let s := on_tab (upd p (set_auth_seq (u32 (sq + 1)))) s in
        s ← issue_auth e (sta_of s p) 0 s;
        Ret (if flag (state (sta_of s p)) Join.Join.WIFI_FW_AUTH_SUCCESS
                || flag (state (sta_of s p)) Join.Join.WIFI_FW_ASSOC_SUCCESS
             then on_tab (upd p (set_auth_seq 0)) s else s)
    end.

Definition OnAuth (e : env) (f : Join.Join.mframe) (s : ap) : res ap :=
  if negb (asoc e) then Ret s
  else
    sa ← Join.Join.hdr_addr f 10;
    '(b, offset) ← auth_frame e f;
    algorithm ← get_le16 b (WLAN_HDR_A3_LEN + offset);
    sq ← get_le16 b (WLAN_HDR_A3_LEN + offset + 2);
    if rtw_check_invalid_mac_address sa false then Ret s
    else
      let '(is_reject, s) := rtw_defs_attack_chk e s in
      let linked := match rtw_get_stainfo (mac e) (stapriv s) sa with
                    | Some p => flag (state (sta_of s p)) Join.Join.WIFI_FW_ASSOC_SUCCESS
                    | None => false
                    end in
      let mode := auth_mode e algorithm in
      if is_reject && negb linked then auth_fail e sa _STATS_REFUSED_TEMPORARILY_ None s
      else if bad_alg mode algorithm then auth_fail e sa _STATS_NO_SUPP_ALG_ None s
      else if negb (Acl.rtw_access_ctrl (acl e) sa) then auth_fail e sa _STATS_UNABLE_HANDLE_STA_ None s
      else match auth_entry e sa s with
           | None => auth_fail e sa _STATS_UNABLE_HANDLE_STA_ None s
           | Some (p, s) => auth_sta e b (Join.Join.pkt_len f) sa mode algorithm sq p s
           end.

(** [rtw_cfg80211_external_auth_status], without the PMK's cache and the frame that
    was kept. *)
Definition external_auth_status (e : env) (a : list Z) (status : Z) (s : ap) : ap :=
  match rtw_get_stainfo (mac e) (stapriv s) a with
  | Some p =>
      if status =? Join.Join.WLAN_STATUS_SUCCESS then
        emit (Authenticated (sta_addr s p))
          (on_tab (upd p (λ x, set_expire_to assoc_to
             (set_state (Z.lor (Z.ldiff (state x) Join.Join.WIFI_FW_AUTH_NULL)
                               Join.Join.WIFI_FW_AUTH_SUCCESS) x))) s)
      else s
  | None => s
  end.

(** ** Association *)

Definition get_frame_sub_type (f : Join.Join.mframe) : res Z :=
  x ← byte_at (Join.Join.pframe f) 0; Ret (Z.land x 0xfc).
Definition WIFI_ASSOCREQ : Z := 0.

Definition on_sec (p : nat) (g : sta_sec -> sta_sec) (s : ap) : ap :=
  on_tab (upd p (λ x, set_sec (g (sec x)) x)) s.

(** An HT, VHT or HE station does not use TKIP. *)
Definition no_ht_tkip (x : sta_sec) : sta_sec :=
  if flag (flags x) (Z.lor WLAN_STA_HT (Z.lor WLAN_STA_VHT WLAN_STA_HE))
     && (flag (wpa2_pairwise_cipher x) Rsn.Rsn.WPA_CIPHER_TKIP || flag (wpa_pairwise_cipher x) Rsn.Rsn.WPA_CIPHER_TKIP)
  then del_flag WLAN_STA_HT (del_flag WLAN_STA_VHT (del_flag WLAN_STA_HE x)) else x.

Definition ssid_ok (e : env) (b : list Z) (el : Elems.Elems.elems) : res bool :=
  match el Elems.Elems.ssid with
  | None => Ret false
  | Some (p, n) =>
      if (n =? 0) || negb (n =? zlen (ssid e)) then Ret false else bytes_match b p (ssid e)
  end.

(** The checks of the elements [el] of the request, which are in the frame from [ies]
    on; the status. *)
Definition assoc_checks (e : env) (b : list Z) (ies left : Z) (a : list Z) (authalg : Z)
    (el : Elems.Elems.elems) (x : sta_sec) : res (sta_sec * Z) :=
  x ← rtw_ap_parse_sta_capability b WLAN_HDR_A3_LEN x;
  _ ← get_le16 b (WLAN_HDR_A3_LEN + 2);
  same ← ssid_ok e b el;
  if negb same then Ret (x, _STATS_FAILURE_)
  else
    '(x, status) ← rtw_ap_parse_sta_supported_rates b ies left x;
    if negb (status =? _STATS_SUCCESSFUL_) then Ret (x, status)
    else
      '(x, status) ← rtw_ap_parse_sta_security_ie (pol e) b el (pmkid e a) authalg x;
      if negb (status =? _STATS_SUCCESSFUL_) then Ret (x, status)
      else
        let x := rtw_ap_parse_sta_ht_ie (pol e) el x in
        let x := rtw_ap_parse_sta_vht_ie (pol e) el x in
        let x := rtw_ap_parse_sta_he_ie (pol e) el x in
        Ret (no_ht_tkip x, _STATS_SUCCESSFUL_).

Definition assoc_elems (e : env) (f : Join.Join.mframe) (ies : Z) (a : list Z) (authalg : Z) (x : sta_sec)
    : res (sta_sec * Z) :=
  let b := Join.Join.pframe f in
  let left := Join.Join.pkt_len f - ies in
  '(el, r) ← Elems.Elems.rtw_ieee802_11_parse_elems b ies left;
  match r with
  | Elems.Elems.ParseFailed => Ret (x, _STATS_FAILURE_)
  | _ => assoc_checks e b ies left a authalg el x
  end.

Definition OnAssocReqFail (e : env) (p : nat) (reassoc : bool) (status : Z) (s : ap) : res ap :=
  s ← issue_asocrsp e (sta_of s p) status reassoc s;
  free_sta p s.

(** The station is associated. *)
Definition asoc_join (p : nat) (s : ap) : ap :=
  let s := on_tab (auth_delete p) s in
  if rtw_is_list_empty p (asoc_list (stapriv s)) then
    on_tab (λ t, set_asoc_list (rtw_list_insert_tail p (asoc_list t)) (u8 (asoc_list_cnt t + 1))
                   (upd p (set_expire_to asoc_expire_to) t)) s
  else s.

Definition assoc_done (e : env) (p : nat) (reassoc : bool) (s : ap) : res ap :=
  let s := on_tab (upd p (λ x, set_state (Z.lor (Z.ldiff (state x) Join.Join.WIFI_FW_ASSOC_STATE)
                                                Join.Join.WIFI_FW_ASSOC_SUCCESS) x)) s in
  let opened := sta_open (sta_of s p) in
  let s := if opened then asoc_join p s else s in
  let status := if opened then _STATS_SUCCESSFUL_ else _STATS_REFUSED_TEMPORARILY_ in
  s ← issue_asocrsp e (sta_of s p) status reassoc s;
  Ret (if opened then emit (AddSta (sta_addr s p) (sec (sta_of s p))) s
       else emit (SaQuery (sta_addr s p)) s).

(** From the checks of the station's state on. *)
Definition assoc_sta (e : env) (f : Join.Join.mframe) (reassoc : bool) (ies : Z) (p : nat) (s : ap) : res ap :=
  let x := sta_of s p in
  let s := on_tab (upd p (λ x, set_state (Z.lor (Z.ldiff (state x)
             (if flag (state x) Join.Join.WIFI_FW_AUTH_SUCCESS then Join.Join.WIFI_FW_AUTH_SUCCESS
              else Join.Join.WIFI_FW_ASSOC_SUCCESS)) Join.Join.WIFI_FW_ASSOC_STATE) x)) s in
  '(y, status) ← assoc_elems e f ies (sta_addr s p) (authalg x) (sec x);
  let s := on_sec p (λ _, y) s in
  if negb (status =? _STATS_SUCCESSFUL_) then OnAssocReqFail e p reassoc status s
  else if 0 <? aid x then assoc_done e p reassoc s
  else
    let s := on_tab (upd p (set_aid (aid_free e))) s in
    if aid_free e =? 0 then OnAssocReqFail e p reassoc WLAN_STATUS_AP_UNABLE_TO_HANDLE_NEW_STA s
    else assoc_done e p reassoc s.

Definition OnAssocReq (e : env) (f : Join.Join.mframe) (s : ap) : res ap :=
  sa ← Join.Join.hdr_addr f 10;
  if rtw_check_invalid_mac_address sa false then Ret s
  else
    frame_type ← get_frame_sub_type f;
    let reassoc := negb (frame_type =? WIFI_ASSOCREQ) in
    let ie_offset := if reassoc then _REASOCREQ_IE_OFFSET_ else _ASOCREQ_IE_OFFSET_ in
    if Join.Join.pkt_len f <? IEEE80211_3ADDR_LEN + ie_offset then Ret s
    else
      match rtw_get_stainfo (mac e) (stapriv s) sa with
      | None => Ret (issue_deauth e sa _RSON_CLS2_ s)
      | Some p =>
          let x := sta_of s p in
          if (authalg x =? WLAN_AUTH_SAE) && flag (state x) Join.Join.WIFI_FW_AUTH_NULL then Ret s
          else if negb (flag (state x) Join.Join.WIFI_FW_AUTH_SUCCESS)
                  && negb (flag (state x) Join.Join.WIFI_FW_ASSOC_SUCCESS)
          then Ret (issue_deauth e sa _RSON_CLS2_ s)
          else assoc_sta e f reassoc (IEEE80211_3ADDR_LEN + ie_offset) p s
      end.

(** ** Leaving *)

(** Without the block-ack sessions, the keys and the frames that were kept. *)
Definition ap_free_sta (e : env) (p : nat) (active : bool) (reason : Z) (s : ap) : ap :=
  let a := sta_addr s p in
  let s := if active then issue_deauth e a reason s else s in
  emit (DelSta a reason)
    (on_tab (upd p (λ x, set_state (Z.ldiff (state x) (Z.lor WIFI_ASOC_STATE WIFI_UNDER_KEY_HANDSHAKE)) x)) s).

(** [OnDeAuth] and [OnDisassoc] of an access point. *)
Definition OnDeAuth (e : env) (f : Join.Join.mframe) (s : ap) : res ap :=
  a3 ← Join.Join.hdr_addr f 16;
  if negb (bool_decide (a3 = mac e)) then Ret s
  else
    reason ← get_le16 (Join.Join.pframe f) WLAN_HDR_A3_LEN;
    a2 ← Join.Join.hdr_addr f 10;
    match rtw_get_stainfo (mac e) (stapriv s) a2 with
    | None => Ret s
    | Some p =>
        if rtw_is_list_empty p (asoc_list (stapriv s)) then Ret s
        else
          let mfp := flag (flags (sec (sta_of s p))) WLAN_STA_MFP in
          let s := on_tab (asoc_delete p) s in
          let s := if mfp then on_sec p (del_flag WLAN_STA_MFP) s else s in
          Ret (ap_free_sta e p mfp (if mfp then _RSON_CLS2_ else reason) s)
    end.

(** The command that [report_del_sta_event] queued. *)
Definition rtw_stadel_event_callback (e : env) (a : list Z) (s : ap) : res ap :=
  match rtw_get_stainfo (mac e) (stapriv s) a with
  | Some p => free_sta p s
  | None => Ret s
  end.

(** A pairwise key is installed. *)
Definition set_pairwise_key (e : env) (a : list Z) (s : ap) : ap :=
  match rtw_get_stainfo (mac e) (stapriv s) a with
  | Some p => on_tab (upd p (set_key true)) s
  | None => s
  end.

(** ** The watchdog *)

(** The stations whose time is up, in [flush_list]. *)
Fixpoint expire_auth (l : list nat) (t : sta_priv) : sta_priv * list nat :=
  match l with
  | [] => (t, [])
  | p :: l =>
      let x := expire_to (sta_at t p) in
      if 0 <? x then
        let '(t, fl) := expire_auth l (upd p (set_expire_to (x - 1)) t) in
        (t, if x - 1 =? 0 then p :: fl else fl)
      else expire_auth l t
  end.

Fixpoint free_all (l : list nat) (s : ap) : res ap :=
  match l with
  | [] => Ret s
  | p :: l => s ← free_sta p s; free_all l s
  end.

(** The half of [expire_timeout_chk] for the stations that authenticate. *)
Definition expire_timeout_chk (s : ap) : res ap :=
  l ← nodes (auth_list (stapriv s));
  let '(t, flush_list) := expire_auth l (stapriv s) in
  free_all flush_list (on_tab (λ _, t) s).

(** ** Runs *)

Inductive input :=
  | Auth (f : Join.Join.mframe)
  | AssocReq (f : Join.Join.mframe)
  | DeAuth (f : Join.Join.mframe)
  | ExtAuth (a : list Z) (status : Z)
  | SetKey (a : list Z)
  | StaDel (a : list Z)
  | Watchdog.

Definition step (e : env) (i : input) (s : ap) : res ap :=
  match i with
  | Auth f => OnAuth e f s
  | AssocReq f => OnAssocReq e f s
  | DeAuth f => OnDeAuth e f s
  | ExtAuth a status => Ret (external_auth_status e a status s)
  | SetKey a => Ret (set_pairwise_key e a s)
  | StaDel a => rtw_stadel_event_callback e a s
  | Watchdog => expire_timeout_chk s
  end.

(** The steps of a run with their events, the first one first. *)
Fixpoint run (l : list (env * input)) (s : ap) : res (list (env * input * list event) * ap) :=
  match l with
  | [] => Ret ([], s)
  | (e, i) :: l =>
      s ← step e i (mk_ap (stapriv s) (ptime s) []);
      '(tr, s') ← run l s;
      Ret ((e, i, rev (log s)) :: tr, s')
  end.

Definition init_ap (own : list Z) : ap := mk_ap (rtw_init_self_stainfo own _rtw_init_sta_priv) 0 [].
End ApAuth.
