(* ===== verification/ApAuthInv.v ===== *)
(** * What holds of every run of an access point

    [spec_step] says what an access point may do with one station: give it an entry when
    the access lists permit it, take it as authenticated on grounds that are in the
    frame (or when the host says so), answer association requests and report the station
    to the host only after that, within its security policy.  Every run of [ApAuth]
    follows it; the table of the stations is well formed throughout; and a station that
    does not associate is gone after some passes of the watchdog. *)

From stdpp Require Import functions sets list.
From S2P Require Import Prelude Bytes Ies Wep RxFrame RxState RxCheck RxPath Elems Acl ApSec ApSta Join ApAuth.

Module ApAuthInv.
Import Ies RxFrame RxState ApSec ApSta ApAuth.

(** ** The protocol *)

Inductive phase := Absent | Known | Authed.

Definition CHALLENGE : list Z := replicate 128 78.

(** A frame of the station [a], which may have an entry. *)
Definition permitted (e : env) (i : input) (a : list Z) : Prop :=
  match i with
  | Auth f =>
      Join.Join.hdr_addr f 10 = Ret a /\ rtw_check_invalid_mac_address a false = false /\
      Acl.rtw_access_ctrl (acl e) a = true
  | _ => False
  end.

(** The frame asks for open authentication, and that is not switched off; or it is
    the third of the shared key's with the challenge, under the key if it is protected. *)
Definition auth_ground (e : env) (f : Join.Join.mframe) : Prop :=
  exists b off algorithm sq,
    auth_frame e f = Ret (b, off) /\
    get_le16 b (WLAN_HDR_A3_LEN + off) = Ret algorithm /\
    get_le16 b (WLAN_HDR_A3_LEN + off + 2) = Ret sq /\
    ((algorithm = WLAN_AUTH_OPEN /\ sq = 1 /\ dot11AuthAlgrthm e <> 1) \/
     (sq = 3 /\ (algorithm = 0 -> dot11AuthAlgrthm e ∉ [0; 1; 2; 3]) /\ (0 < algorithm -> auth_mode e algorithm <> 0) /\
      exists p, slice b p 128 = Ret CHALLENGE)).

Definition granted (e : env) (i : input) (a : list Z) : Prop :=
  match i with
  | Auth f => permitted e i a /\ auth_ground e f
  | ExtAuth a' status => (if IS_MCAST a' then mac e else a') = a /\ status = Join.Join.WLAN_STATUS_SUCCESS
  | _ => False
  end.

(** What a station that is reported to the host has agreed on. *)
Definition within (s : policy) (x : sta_sec) : Prop :=
  suite_ok s x /\ (sec_mfp_opt s = MFP_REQUIRED -> flag (flags x) WLAN_STA_MFP = true).

Definition event_addr (ev : event) : list Z :=
  match ev with
  | NewSta a | FreeSta a | TxAuth a _ | Authenticated a | TxAssocRsp a _ _ | TxDeauth a _
  | RxMframe a | SaQuery a | AddSta a _ | DelSta a _ => a
  end.

Inductive spec_step (e : env) (i : input) (a : list Z) : event -> phase -> phase -> Prop :=
  | spec_other ev ph : event_addr ev <> a -> spec_step e i a ev ph ph
  | spec_new : permitted e i a -> spec_step e i a (NewSta a) Absent Known
  | spec_free ph : ph <> Absent -> spec_step e i a (FreeSta a) ph Absent
  | spec_authenticated ph : ph <> Absent -> granted e i a -> spec_step e i a (Authenticated a) ph Authed
  | spec_refuse ph body status : status <> 0 -> body = put_le16 0 ++ put_le16 2 ++ put_le16 status ->
      spec_step e i a (TxAuth a body) ph ph
  | spec_answer ph body : ph <> Absent -> permitted e i a -> spec_step e i a (TxAuth a body) ph ph
  | spec_assoc_rsp reassoc body : spec_step e i a (TxAssocRsp a reassoc body) Authed Authed
  | spec_add x : within (pol e) x -> spec_step e i a (AddSta a x) Authed Authed
  | spec_sa_query : spec_step e i a (SaQuery a) Authed Authed
  | spec_del ph reason : ph <> Absent -> spec_step e i a (DelSta a reason) ph ph
  | spec_deauth ph reason : spec_step e i a (TxDeauth a reason) ph ph
  | spec_mframe ph : ph <> Absent -> permitted e i a -> spec_step e i a (RxMframe a) ph ph.

Inductive path (e : env) (i : input) (a : list Z) : phase -> list event -> phase -> Prop :=
  | path_nil ph : path e i a ph [] ph
  | path_cons ph ev l ph1 ph2 : spec_step e i a ev ph ph1 -> path e i a ph1 l ph2 ->
      path e i a ph (ev :: l) ph2.

(** The steps of a run follow the protocol with the station [a]. *)
Inductive follows (a : list Z) : phase -> list (env * input * list event) -> phase -> Prop :=
  | follows_nil ph : follows a ph [] ph
  | follows_cons ph e i evs tr ph1 ph2 : path e i a ph evs ph1 -> follows a ph1 tr ph2 ->
      follows a ph ((e, i, evs) :: tr) ph2.

Lemma path_app e i a ph l1 ph1 l2 ph2 : path e i a ph l1 ph1 -> path e i a ph1 l2 ph2 -> path e i a ph (l1 ++ l2) ph2.
Proof. induction 1; [done|]. intros P. econstructor; [done|auto]. Qed.

Lemma path_snoc e i a ph l ph1 ev ph2 : path e i a ph l ph1 -> spec_step e i a ev ph1 ph2 ->
  path e i a ph (l ++ [ev]) ph2.
Proof. intros P S. eapply path_app; [done|]. by econstructor; [|constructor]. Qed.

(** ** The invariant *)

Definition authed (x : sta_info) : bool :=
  flag (state x) (Z.lor Join.Join.WIFI_FW_AUTH_SUCCESS (Z.lor Join.Join.WIFI_FW_ASSOC_STATE Join.Join.WIFI_FW_ASSOC_SUCCESS)).

Definition done_with (x : sta_info) : bool :=
  flag (state x) Join.Join.WIFI_FW_AUTH_SUCCESS || flag (state x) Join.Join.WIFI_FW_ASSOC_SUCCESS.

Definition MAX_TIME : Z := 60.

(** An entry between two steps; [auth] says that it is in the list of those that
    authenticate. *)
Record sta_ok (auth : bool) (x : sta_info) : Prop := {
  so_chg : u32 (auth_seq x + 1) = 3 -> chg_txt x = CHALLENGE;
  so_time : auth = true \/ auth_seq x <> 0 -> 1 <= expire_to x <= MAX_TIME;
  so_mfp : flag (flags (sec x)) WLAN_STA_MFP = true -> done_with x = true
}.

Lemma sta_ok_mono b b' x : sta_ok b x -> (b' = true -> b = true) -> sta_ok b' x.
Proof. intros [C T M] H. split; [done| |done]. intros [B|B]; apply T; [left; auto|by right]. Qed.

Definition hash (s : ap) : list nat := sta_hash (stapriv s).

Section inv.
(** In a step [i] in [e] that the station [a] enters in [ph0]; [td]: no entry was freed
    while it was in the list of the associated stations. *)
Context (e : env) (i : input) (a : list Z) (ph0 : phase) (td : bool).

(** The entries of [busy] are being changed. *)
Record inv (busy la ls : list nat) (ph : phase) (s : ap) : Prop := {
  i_tab : table_ok (stapriv s) la;
  i_sta : forall p, p ∈ hash s -> p ∉ busy -> sta_ok (bool_decide (p ∈ la)) (sta_of s p);
  i_known : forall p, p ∈ hash s -> phl_sta (sta_of s p) = Some a ->
    ph <> Absent /\ (authed (sta_of s p) = true -> ph = Authed);
  i_absent : ph <> Absent -> exists p, p ∈ hash s /\ phl_sta (sta_of s p) = Some a;
  i_asoc : td = true -> asoc_ok (stapriv s) la ls;
  i_path : path e i a ph0 (rev (log s)) ph
}.

Lemma inv_busy busy busy' la ls ph s : inv busy la ls ph s -> (forall p, p ∈ busy -> p ∈ busy') -> inv busy' la ls ph s.
Proof. intros [] B. split; auto. Qed.

Lemma inv_settle p busy la ls ph s : inv (p :: busy) la ls ph s -> sta_ok (bool_decide (p ∈ la)) (sta_of s p) ->
  inv busy la ls ph s.
Proof.
  intros [T S K A L P] O. split; try done. intros q Q B. destruct (decide (q = p)) as [->|N]; [done|].
  apply S; [done|]. intros [->|?]%elem_of_cons; done.
Qed.

Lemma inv_change p f busy la ls ph s : inv busy la ls ph s -> p ∈ hash s -> p ∈ busy ->
  phl_sta (f (sta_of s p)) = phl_sta (sta_of s p) ->
  (phl_sta (sta_of s p) = Some a -> authed (f (sta_of s p)) = true -> ph = Authed) ->
  inv busy la ls ph (on_tab (upd p f) s) /\ sta_of (on_tab (upd p f) s) p = f (sta_of s p).
Proof.
  intros I P B F U. destruct I as [T S K A L Pa]. pose proof (hash_lt _ _ _ T P) as Lt.
  assert (forall q, sta_of (on_tab (upd p f) s) q = if decide (p = q) then f (sta_of s q) else sta_of s q) as E.
  { intros q. apply (sta_at_upd _ _ _ _ _ T Lt). }
  assert (forall q, phl_sta (sta_of (on_tab (upd p f) s) q) = phl_sta (sta_of s q)) as Ea.
  { intros q. rewrite E. case_decide; by subst. }
  split; [split; try done|rewrite E; by rewrite decide_True].
  - by apply upd_ok.
  - intros q Q N. rewrite E. rewrite decide_False by congruence. by apply S.
  - intros q Q. rewrite Ea. intros X. destruct (K q Q X) as [K1 K2]. split; [done|].
    rewrite E. case_decide; [subst|]; auto.
  - intros N. destruct (A N) as (q & Q & X). exists q. by rewrite Ea.
  - intros D. by apply upd_asoc, L.
Qed.

Lemma inv_emit ev busy la ls ph s : inv busy la ls ph s -> spec_step e i a ev ph ph ->
  inv busy la ls ph (emit ev s).
Proof. intros [] S. split; try done. cbn. by eapply path_snoc. Qed.

(** The phase of the station of an entry. *)
Lemma inv_ph busy la ls ph s p : inv busy la ls ph s -> p ∈ hash s -> phl_sta (sta_of s p) = Some a ->
  ph <> Absent /\ (authed (sta_of s p) = true -> ph = Authed).
Proof. intros I. apply (i_known _ _ _ _ _ I). Qed.

Lemma inv_emit_of ev b busy la ls ph s p : inv busy la ls ph s -> p ∈ hash s ->
  phl_sta (sta_of s p) = Some b -> event_addr ev = b ->
  (b = a -> ph <> Absent -> (authed (sta_of s p) = true -> ph = Authed) -> spec_step e i a ev ph ph) ->
  inv busy la ls ph (emit ev s).
Proof.
  intros I P B E H. apply inv_emit; [done|]. destruct (decide (b = a)) as [->|N].
  - destruct (inv_ph _ _ _ _ _ _ I P B). auto.
  - constructor. by rewrite E.
Qed.

Lemma inv_authenticated b busy la ls ph s p : inv busy la ls ph s -> p ∈ hash s ->
  phl_sta (sta_of s p) = Some b -> (b = a -> granted e i a) ->
  exists ph', inv busy la ls ph' (emit (Authenticated b) s) /\ (b = a -> ph' = Authed).
Proof.
  intros I P B G. destruct (decide (b = a)) as [->|N].
  - destruct (inv_ph _ _ _ _ _ _ I P B) as [K _]. exists Authed. split; [|done].
    destruct I as [T S Kn A L Pa]. split; try done.
    + intros _. by exists p.
    + cbn. eapply path_snoc; [done|]. by constructor; [|apply G].
  - exists ph. split; [|done]. apply inv_emit; [done|]. by constructor.
Qed.

Lemma inv_auth_insert p busy la ls ph s : inv busy la ls ph s -> p ∈ hash s -> p ∈ busy ->
  (td = true -> p ∉ ls) ->
  inv busy (if bool_decide (p ∈ la) then la else la ++ [p]) ls ph (on_tab (auth_insert p) s).
Proof.
  intros I P B N. destruct I as [T S K A L Pa]. pose proof (auth_insert_ok _ _ _ T P) as T'.
  assert (pstainfo_buf (auth_insert p (stapriv s)) = pstainfo_buf (stapriv s) /\
    sta_hash (auth_insert p (stapriv s)) = sta_hash (stapriv s) /\
    asoc_list (auth_insert p (stapriv s)) = asoc_list (stapriv s) /\
    asoc_list_cnt (auth_insert p (stapriv s)) = asoc_list_cnt (stapriv s)) as (Eb & Eh & El & Ec).
  { unfold auth_insert. by destruct (rtw_is_list_empty _ _). }
  assert (forall q, sta_of (on_tab (auth_insert p) s) q = sta_of s q) as E.
  { intros q. unfold sta_of, sta_at. cbn. by rewrite Eb. }
  assert (hash (on_tab (auth_insert p) s) = hash s) as H by apply Eh.
  split; rewrite ?H; try done.
  - intros q Q Nq. rewrite E. apply (sta_ok_mono _ _ _ (S q Q Nq)). rewrite !bool_decide_eq_true.
    case_bool_decide; [done|]. intros [X| ->%list_elem_of_singleton]%elem_of_app; done.
  - intros q. rewrite E. auto.
  - intros X. destruct (A X) as (q & Q & Y). exists q. by rewrite E.
  - intros D. destruct (L D). split; rewrite ?El, ?Ec; cbn; rewrite ?El, ?Ec; try done.
    intros q Q. case_bool_decide; [auto|]. apply elem_of_app in Q as [Q| ->%list_elem_of_singleton]; auto.
Qed.

Lemma inv_auth_delete p busy la ls ph s : inv busy la ls ph s -> p ∈ hash s ->
  inv busy (without p la) ls ph (on_tab (auth_delete p) s).
Proof.
  intros [T S K A L Pa] P. pose proof (hash_lt _ _ _ T P) as Lt.
  destruct (auth_delete_fields p (stapriv s)) as (Eb & Ef & Eh & El & Ec).
  assert (forall q, sta_of (on_tab (auth_delete p) s) q = sta_of s q) as E.
  { intros q. unfold sta_of, sta_at. cbn. by rewrite Eb. }
  assert (hash (on_tab (auth_delete p) s) = hash s) as H by apply Eh.
  split; rewrite ?H; try done.
  - by apply auth_delete_ok.
  - intros q Q Nq. rewrite E. apply (sta_ok_mono _ _ _ (S q Q Nq)). rewrite !bool_decide_eq_true.
    by intros [_ ?]%elem_of_without.
  - intros q. rewrite E. auto.
  - intros X. destruct (A X) as (q & Q & Y). exists q. by rewrite E.
  - intros D. destruct (L D). split; cbn; rewrite ?El, ?Ec; try done. intros q [_ Q]%elem_of_without. auto.
Qed.

(** Changes of the list of the associated stations only. *)
Lemma inv_asoc_only busy la ls ls' ph s t : inv busy la ls ph s ->
  pstainfo_buf t = pstainfo_buf (stapriv s) -> free_sta_queue t = free_sta_queue (stapriv s) ->
  sta_hash t = sta_hash (stapriv s) -> auth_list t = auth_list (stapriv s) ->
  auth_list_cnt t = auth_list_cnt (stapriv s) -> (td = true -> asoc_ok t la ls') ->
  inv busy la ls' ph (on_tab (λ _, t) s).
Proof.
  intros [T S K A L Pa] Eb Ef Eh El Ec O.
  assert (forall q, sta_of (on_tab (λ _, t) s) q = sta_of s q) as E.
  { intros q. unfold sta_of, sta_at. cbn. by rewrite Eb. }
  assert (hash (on_tab (λ _, t) s) = hash s) as H by apply Eh.
  split; rewrite ?H; try done.
  - destruct T. split; cbn; unfold sta_at in *; rewrite ?Eb, ?Ef, ?Eh, ?El, ?Ec; done.
  - intros q Q Nq. rewrite E. by apply S.
  - intros q. rewrite E. auto.
  - intros X. destruct (A X) as (q & Q & Y). exists q. by rewrite E.
Qed.

Lemma inv_asoc_delete p busy la ls ph s : inv busy la ls ph s -> p ∈ hash s ->
  inv busy la (without p ls) ph (on_tab (asoc_delete p) s).
Proof.
  intros I P. pose proof (hash_lt _ _ _ (i_tab _ _ _ _ _ I) P) as Lt.
  apply (inv_asoc_only busy la ls (without p ls) ph s (asoc_delete p (stapriv s)) I);
    try (unfold asoc_delete; by destruct (rtw_is_list_empty _ _)).
  intros D. apply asoc_delete_ok; [|done]. by apply (i_asoc _ _ _ _ _ I).
Qed.

Definition tail_asoc (p : nat) (t : sta_priv) : sta_priv :=
  set_asoc_list (rtw_list_insert_tail p (asoc_list t)) (u8 (asoc_list_cnt t + 1)) t.

Lemma inv_asoc_insert p busy la ls ph s : inv busy la ls ph s -> p ∈ hash s -> (td = true -> p ∉ ls) -> p ∉ la ->
  inv busy la (ls ++ [p]) ph (on_tab (tail_asoc p) s).
Proof.
  intros I P N Na. pose proof (hash_lt _ _ _ (i_tab _ _ _ _ _ I) P) as Lt.
  apply (inv_asoc_only busy la ls (ls ++ [p]) ph s (tail_asoc p (stapriv s)) I); try done.
  intros D. apply asoc_insert_ok; [by apply (i_asoc _ _ _ _ _ I)|done|auto|done].
Qed.

(** A freed entry is in no list of entries any more. *)
Lemma inv_free p busy la ls ph s : inv (p :: busy) la ls ph s -> p ∈ hash s ->
  exists s' ph', free_sta p s = Ret s' /\ inv busy (without p la) ls ph' s' /\ hash s' = without p (hash s) /\
    (forall q, q ∈ hash s' -> sta_of s' q = sta_of s q).
Proof.
  intros I P. pose proof I as [T S K A L Pa]. destruct (ok_addr _ _ T p P) as [b B].
  unfold free_sta. rewrite (B : phl_sta (sta_of s p) = Some b).
  destruct (free_fields p (stapriv s)) as (f & Eb & _ & Eh & _).
  set (s' := on_tab _ _). assert (hash s' = without p (hash s)) as H by apply Eh.
  assert (forall q, q ∈ hash s' -> sta_of s' q = sta_of s q /\ q ∈ hash s /\ q <> p) as E.
  { intros q. rewrite H. intros [N Q]%elem_of_without. split; [|done].
    unfold s', sta_of. cbn. by rewrite (sta_at_alter _ _ _ _ _ Eb N). }
  assert (exists ph', path e i a ph0 (rev (log s')) ph' /\
    ((b = a /\ ph' = Absent) \/ (b <> a /\ ph' = ph))) as (ph' & Pa' & C).
  { unfold s'. cbn. destruct (decide (b = a)) as [->|N].
    - exists Absent. split; [|by left]. eapply path_snoc; [done|]. constructor. by apply (K p P).
    - exists ph. split; [|by right]. eapply path_snoc; [done|]. by constructor. }
  exists s', ph'. split; [done|]. split; [|split; [done|by intros q Q; apply E]]. split; try done.
  - by apply free_table_ok.
  - intros q Q Nq. destruct (E q Q) as (-> & Q' & N).
    apply (sta_ok_mono (bool_decide (q ∈ la))); [apply S; [done|]|].
    + intros [->|?]%elem_of_cons; done.
    + rewrite !bool_decide_eq_true. by intros [_ ?]%elem_of_without.
  - intros q Q. destruct (E q Q) as (-> & Q' & N). intros X. destruct C as [[-> ->]|[Nb ->]]; [|by apply K].
    destruct N. apply (ok_uniq _ _ T); [done..|]. etransitivity; [exact X|]. by rewrite <- B.
  - intros X. destruct C as [[_ ->]|[Nb ->]]; [done|]. destruct (A X) as (q & Q & Y).
    assert (q ∈ hash s') as Q'.
    { rewrite H. apply elem_of_without. split; [|done]. intros ->. unfold sta_of in Y. congruence. }
    exists q. destruct (E q Q') as (-> & _). done.
  - intros D. by apply free_asoc, L.
Qed.

(** A new entry. *)
Lemma inv_new b p t busy la ls ph s : inv busy la ls ph s ->
  rtw_alloc_stainfo_sw true b (stapriv s) = Some (p, t) ->
  (forall q, q ∈ hash s -> phl_sta (sta_of s q) <> Some b) ->
  (td = true -> p ∈ free_sta_queue (stapriv s) -> p ∉ ls) ->
  permitted e i b ->
  let s' := on_tab (λ _, t) (emit (NewSta b) s) in
  p ∈ hash s' /\ p ∉ la /\ phl_sta (sta_of s' p) = Some b /\ sta_of s' p = set_phl_sta (Some b) sta0 /\
  exists ph', inv (p :: busy) la ls ph' s'.
Proof.
  intros [T S K A L Pa] Al U Nls Pm s'.
  destruct (alloc_ok _ _ _ _ _ T Al U) as (T' & F & H & Ep & Eq). destruct (free_lt _ _ _ T F) as [Lt Np].
  assert (hash s' = hash s ++ [p]) as H' by apply H.
  assert (sta_of s' p = set_phl_sta (Some b) sta0) as Ep' by apply Ep.
  assert (forall q, q ∈ hash s -> sta_of s' q = sta_of s q) as E.
  { intros q Q. apply Eq. intros ->. done. }
  split_and!; [rewrite H'; apply elem_of_app; right; by left| |by rewrite Ep'|done|].
  { intros Q. by apply Np, (ok_auth_in _ _ T). }
  assert (exists ph', path e i a ph0 (rev (log s')) ph' /\ ((b = a /\ ph' = Known) \/ (b <> a /\ ph' = ph)))
    as (ph' & Pa' & C).
  { unfold s'. cbn. destruct (decide (b = a)) as [->|N].
    - exists Known. split; [|by left]. eapply path_snoc; [done|].
      destruct ph; [by constructor|..]; (destruct A as (q & Q & Y); [done|by destruct (U q Q)]).
    - exists ph. split; [|by right]. eapply path_snoc; [done|]. by constructor. }
  exists ph'. split; try done.
  - intros q Q Nq. rewrite H' in Q. apply elem_of_app in Q as [Q| ->%list_elem_of_singleton]; [|by destruct Nq; left].
    rewrite E by done. apply S; [done|]. intros ?. apply Nq. by right.
  - intros q Q X. rewrite H' in Q. apply elem_of_app in Q as [Q| ->%list_elem_of_singleton].
    + rewrite E in X |- * by done. destruct C as [[-> ->]|[Nb ->]]; [by destruct (U q Q)|by apply K].
    + rewrite Ep' in *. destruct C as [[_ ->]|[Nb ->]]; [done|]. injection X as X. congruence.
  - intros X. destruct C as [[-> _]|[Nb ->]].
    + exists p. split; [rewrite H'; apply elem_of_app; right; by left|by rewrite Ep'].
    + destruct (A X) as (q & Q & Y). exists q. rewrite H', E by done. split; [apply elem_of_app; by left|done].
  - intros D. eapply alloc_asoc; [by apply L|done|by apply Nls|done].
Qed.

Lemma inv_upd_quiet p f busy la ls ph s : inv busy la ls ph s -> p ∈ hash s -> p ∈ busy ->
  phl_sta (f (sta_of s p)) = phl_sta (sta_of s p) -> authed (f (sta_of s p)) = authed (sta_of s p) ->
  inv busy la ls ph (on_tab (upd p f) s) /\ sta_of (on_tab (upd p f) s) p = f (sta_of s p).
Proof.
  intros I P B F U. apply inv_change; try done. intros X. rewrite U. by apply (inv_ph _ _ _ _ _ _ I P X).
Qed.

(** A change that keeps an entry in order. *)
Lemma inv_upd_ok p f la ls ph s : inv [] la ls ph s -> p ∈ hash s ->
  phl_sta (f (sta_of s p)) = phl_sta (sta_of s p) -> authed (f (sta_of s p)) = authed (sta_of s p) ->
  (sta_ok (bool_decide (p ∈ la)) (sta_of s p) -> sta_ok (bool_decide (p ∈ la)) (f (sta_of s p))) ->
  inv [] la ls ph (on_tab (upd p f) s) /\ sta_of (on_tab (upd p f) s) p = f (sta_of s p).
Proof.
  intros I P F U O. destruct (inv_upd_quiet p f [p] la ls ph s) as [I' E]; try done; [|by left|].
  { eapply inv_busy; [done|]. intros q Q%elem_of_nil. done. }
  split; [|done]. eapply inv_settle; [done|]. rewrite E. apply O. apply (i_sta _ _ _ _ _ I); [done|].
  by intros ?%elem_of_nil.
Qed.

Lemma inv_tx_refuse b status busy la ls ph s : inv busy la ls ph s -> status <> 0 ->
  exists s', issue_auth e (set_auth_seq 2 (set_phl_sta (Some b) sta0)) status s = Ret s' /\ inv busy la ls ph s'.
Proof.
  intros I N. unfold issue_auth. destruct (mgnt_frame e); cbn [negb]; [|by exists s].
  cbn [phl_sta set_auth_seq set_phl_sta]. eexists. split; [done|]. apply inv_emit; [done|].
  destruct (decide (b = a)) as [->|Nb]; [|by constructor]. apply (spec_refuse _ _ _ ph _ status); [done|].
  unfold auth_body, auth_chal. cbn [auth_seq state authalg set_auth_seq set_phl_sta sta0].
  by rewrite (proj2 (Z.eqb_neq status 0)), andb_false_r by done.
Qed.

Definition ends_ok (r : res ap) : Prop := exists s' la ls ph, r = Ret s' /\ inv [] la ls ph s'.

Lemma auth_fail_ok b status op la ls ph s : inv [] la ls ph s -> status <> 0 ->
  (forall p, op = Some p -> p ∈ hash s) -> ends_ok (auth_fail e b status op s).
Proof.
  intros I N P. unfold auth_fail. destruct op as [p|]; cbn [mbind res_bind].
  - destruct (inv_free p [] la ls ph s) as (s' & ph' & -> & I' & _); [|by apply P|].
    { eapply inv_busy; [done|]. intros q Q%elem_of_nil. done. }
    cbn [mbind res_bind]. destruct (inv_tx_refuse b status [] _ _ _ _ I' N) as (s2 & -> & I2).
    by eexists _, _, _, _.
  - destruct (inv_tx_refuse b status [] _ _ _ _ I N) as (s2 & -> & I2). by eexists _, _, _, _.
Qed.

(** ** Authentication *)

(** What [auth_answer] leaves of an entry it does not refuse. *)
Record answered (sa : list Z) (sq : Z) (p : nat) (la ls : list nat) (ph : phase) (s : ap) : Prop := {
  an_inv : inv [p] la ls ph s;
  an_hash : p ∈ hash s;
  an_addr : phl_sta (sta_of s p) = Some sa;
  an_time : p ∈ la -> 1 <= expire_to (sta_of s p) <= MAX_TIME;
  an_seq : sq = 1 \/ sq = 3;
  an_chg : sq = 1 -> done_with (sta_of s p) = true \/ chg_txt (sta_of s p) = CHALLENGE;
  an_mfp : flag (flags (sec (sta_of s p))) WLAN_STA_MFP = true -> done_with (sta_of s p) = true;
  an_la : done_with (sta_of s p) = false -> p ∈ la
}.

Lemma done_authed x : done_with x = true -> authed x = true.
Proof.
  unfold done_with, authed, flag. rewrite !Z.land_lor_distr_r. intros H.
  apply negb_true_iff, Z.eqb_neq. intros [Z1 [_ Z3]%Z.lor_eq_0_iff]%Z.lor_eq_0_iff.
  by rewrite Z1, Z3 in H.
Qed.

(** Taking the station as authenticated, on the ground of the frame. *)
Lemma grant_ok sa sq p from la ls ph s : inv [] la ls ph s -> p ∈ hash s -> phl_sta (sta_of s p) = Some sa ->
  (sa = a -> granted e i a) -> (sta_open (sta_of s p) = true -> p ∈ la) ->
  sq = 1 \/ sq = 3 ->
  exists ph', answered sa sq p la ls ph' (grant p from s) /\ done_with (sta_of (grant p from s) p) = true.
Proof.
  intros I P X G O Q. assert (sta_ok (bool_decide (p ∈ la)) (sta_of s p)) as SO.
  { apply (i_sta _ _ _ _ _ I p P). by intros ?%elem_of_nil. }
  assert (inv [p] la ls ph s) as I1 by (eapply inv_busy; [done|]; by intros q ?%elem_of_nil).
  unfold grant. destruct (sta_open (sta_of s p)) eqn:So.
  - destruct (inv_authenticated sa _ _ _ _ _ _ I1 P X G) as (ph' & I2 & A2).
    set (f := λ x, set_expire_to assoc_to
      (set_state (Z.lor (Z.ldiff (state x) from) Join.Join.WIFI_FW_AUTH_SUCCESS) x)).
    destruct (inv_change p f _ _ _ _ _ I2 P) as [I3 E3]; [by left|done| |].
    { intros Y _. apply A2. change (phl_sta (sta_of s p) = Some a) in Y. congruence. }
    assert (sta_addr s p = sa) as Ad by (unfold sta_addr; by rewrite X).
    rewrite Ad. change (emit (Authenticated sa) (on_tab (upd p f) s)) with (on_tab (upd p f) (emit (Authenticated sa) s)).
    assert (done_with (sta_of (on_tab (upd p f) (emit (Authenticated sa) s)) p) = true) as D.
    { rewrite E3. unfold done_with, f. cbn [state set_expire_to set_state]. rewrite flag_add.
      change (flag Join.Join.WIFI_FW_AUTH_SUCCESS Join.Join.WIFI_FW_AUTH_SUCCESS) with true. by rewrite orb_true_r. }
    exists ph'. split; [|done]. split; try done.
    + by rewrite E3.
    + intros _. rewrite E3. unfold f, MAX_TIME, assoc_to. cbn. lia.
    + by left.
    + rewrite D. done.
  - assert (done_with (sta_of s p) = true) as D.
    { apply (so_mfp _ _ SO). unfold sta_open in So. apply negb_false_iff, andb_prop in So. by destruct So. }
    exists ph. split; [|done]. split; try done.
    + intros L. apply (so_time _ _ SO). left. by apply bool_decide_eq_true.
    + by left.
    + rewrite D. done.
Qed.

Definition open_mode (mode algorithm : Z) : bool := (algorithm =? 0) && ((mode =? 0) || (mode =? 2) || (mode =? 3)).

Lemma answered_authalg v sa sq p la ls ph s : answered sa sq p la ls ph s ->
  answered sa sq p la ls ph (on_tab (upd p (set_authalg v)) s).
Proof.
  intros [I H X T Q C M L]. destruct (inv_upd_quiet p (set_authalg v) [p] la ls ph s) as [I' E]; try done; [by left|].
  by split; rewrite ?E.
Qed.

(** The challenge is sent. *)
Lemma challenge_ok algorithm p sa la ls ph s : inv [] la ls ph s -> p ∈ hash s -> phl_sta (sta_of s p) = Some sa ->
  (sta_open (sta_of s p) = true -> p ∈ la) ->
  let s1 := on_tab (upd p (set_chg_txt (replicate 128 78))) s in
  let s2 := if sta_open (sta_of s1 p) then
              on_tab (upd p (λ x, set_state (Z.lor (Z.ldiff (state x) Join.Join.WIFI_FW_AUTH_NULL)
                                                   Join.Join.WIFI_FW_AUTH_STATE) x)) s1
            else s1 in
  answered sa 1 p la ls ph (on_tab (upd p (λ x, set_auth_seq 2 (set_authalg algorithm x))) s2).
Proof.
  intros I P X O. assert (sta_ok (bool_decide (p ∈ la)) (sta_of s p)) as SO.
  { apply (i_sta _ _ _ _ _ I p P). by intros ?%elem_of_nil. }
  assert (inv [p] la ls ph s) as I0 by (eapply inv_busy; [done|]; by intros q ?%elem_of_nil).
  cbv zeta. set (s1 := on_tab _ s).
  destruct (inv_upd_quiet p (set_chg_txt (replicate 128 78)) [p] la ls ph s) as [I1 E1]; try done; [by left|].
  fold s1 in I1, E1. set (s2 := if sta_open _ then _ else _).
  assert (inv [p] la ls ph s2 /\ hash s2 = hash s /\ phl_sta (sta_of s2 p) = Some sa /\
    expire_to (sta_of s2 p) = expire_to (sta_of s p) /\ chg_txt (sta_of s2 p) = CHALLENGE /\
    sec (sta_of s2 p) = sec (sta_of s p) /\ done_with (sta_of s2 p) = done_with (sta_of s p))
    as (I2 & H2 & X2 & T2 & C2 & S2 & D2).
  { unfold s2. destruct (sta_open (sta_of s1 p)); [|rewrite E1; done].
    set (f := λ x, set_state _ x).
    destruct (inv_upd_quiet p f [p] la ls ph s1) as [I2 E2]; try done; [by left| |].
    - unfold authed, f. cbn [state set_state]. by rewrite flag_add, flag_ldiff, orb_false_r by done.
    - rewrite E2. unfold f. rewrite E1. split_and!; try done. unfold done_with. cbn [state set_state set_chg_txt].
      by rewrite !flag_add, !flag_ldiff, !orb_false_r by done. }
  clearbody s2. assert (p ∈ hash s2) as P2 by by rewrite H2.
  destruct (inv_upd_quiet p (λ x, set_auth_seq 2 (set_authalg algorithm x)) [p] la ls ph s2) as [I3 E3]; try done; [by left|].
  assert (flag (flags (sec (sta_of s p))) WLAN_STA_MFP = true -> done_with (sta_of s p) = true) as M by apply SO.
  split; try done; rewrite ?E3.
  - done.
  - intros L. change (1 <= expire_to (sta_of s2 p) <= MAX_TIME). rewrite T2. apply (so_time _ _ SO). left.
    by apply bool_decide_eq_true.
  - by left.
  - intros _. right. exact C2.
  - change (flag (flags (sec (sta_of s2 p))) WLAN_STA_MFP = true -> done_with (sta_of s2 p) = true). by rewrite S2, D2.
  - change (done_with (sta_of s2 p) = false -> p ∈ la). rewrite D2. intros D. apply O. unfold sta_open.
    destruct (flag (flags _) _); [by rewrite M in D|]. by rewrite andb_false_r.
Qed.

Lemma ap_auth_answer_ok b len mode algorithm sq p sa la ls ph s :
  inv [] la ls ph s -> p ∈ hash s -> phl_sta (sta_of s p) = Some sa ->
  (sta_open (sta_of s p) = true -> p ∈ la) ->
  u32 (auth_seq (sta_of s p) + 1) = sq ->
  Forall is_byte b -> len + 130 <= zlen b ->
  (sa = a -> open_mode mode algorithm = true -> sq = 1 -> granted e i a) ->
  (sa = a -> open_mode mode algorithm = false -> sq = 3 ->
    (exists q, slice b q 128 = Ret CHALLENGE) -> granted e i a) ->
  exists r, auth_answer b len mode algorithm sq p s = Ret r /\
    match r with
    | inr status => status <> 0
    | inl s' => exists ph', answered sa sq p la ls ph' s'
    end.
Proof.
  intros I P X O Sq By Len G1 G3. assert (sta_ok (bool_decide (p ∈ la)) (sta_of s p)) as SO.
  { apply (i_sta _ _ _ _ _ I p P). by intros ?%elem_of_nil. }
  unfold auth_answer. fold (open_mode mode algorithm). destruct (open_mode mode algorithm) eqn:Om.
  { eexists. split; [done|]. destruct (Z.eqb_spec sq 1) as [->|N]; [|done].
    destruct (grant_ok sa 1 p Join.Join.WIFI_FW_AUTH_NULL la ls ph s) as (ph' & An & D); auto.
    exists ph'. by apply answered_authalg. }
  destruct (Z.eqb_spec sq 1) as [E1|N1].
  { eexists. split; [done|]. exists ph. rewrite E1. by apply challenge_ok. }
  destruct (Z.eqb_spec sq 3) as [E3|N3]; [|by eexists].
  destruct (get_ie_total b (WLAN_HDR_A3_LEN + 4 + Join.Join._AUTH_IE_OFFSET_) Join.Join._CHLGETXT_IE_
    (len - WLAN_HDR_A3_LEN - Join.Join._AUTH_IE_OFFSET_ - 4)) as (o & -> & Hq); [done| |..];
    unfold WLAN_HDR_A3_LEN, Join.Join._AUTH_IE_OFFSET_ in *; [lia..|]. cbn [mbind res_bind].
  destruct o as [[q n]|]; [|by eexists]. destruct (n <=? 0); [by eexists|].
  destruct (Hq q n eq_refl) as [Q _]. rewrite slice_some by lia. cbn [mbind res_bind].
  eexists. split; [done|]. destruct (bool_decide (ztake _ _ = _)) eqn:Ec; [|done].
  apply bool_decide_eq_true in Ec.
  destruct (grant_ok sa sq p Join.Join.WIFI_FW_AUTH_STATE la ls ph s) as (ph' & An & D); auto; [|by exists ph'].
  intros Ea. apply G3; try done. exists (q + 2). rewrite slice_some by lia. f_equal. rewrite Ec.
  apply (so_chg _ _ SO). congruence.
Qed.

Lemma inv_issue_auth p sa busy la ls ph s : inv busy la ls ph s -> p ∈ hash s -> phl_sta (sta_of s p) = Some sa ->
  (sa = a -> permitted e i a) ->
  exists s', issue_auth e (sta_of s p) 0 s = Ret s' /\ inv busy la ls ph s' /\ stapriv s' = stapriv s.
Proof.
  intros I P X Pm. unfold issue_auth. destruct (mgnt_frame e); cbn [negb]; [|by exists s].
  rewrite X. eexists. split; [done|]. split; [|done].
  eapply (inv_emit_of _ sa); try done. intros Ea N _. rewrite Ea in *. apply spec_answer; auto.
Qed.

Lemma auth_end_ok sq p sa la ls ph s : answered sa sq p la ls ph s -> (sa = a -> permitted e i a) ->
  ends_ok (let s := on_tab (upd p (set_auth_seq (u32 (sq + 1)))) s in
           s ← issue_auth e (sta_of s p) 0 s;
           Ret (if flag (state (sta_of s p)) Join.Join.WIFI_FW_AUTH_SUCCESS
                   || flag (state (sta_of s p)) Join.Join.WIFI_FW_ASSOC_SUCCESS
                then on_tab (upd p (set_auth_seq 0)) s else s)).
Proof.
  intros [I H X T Q C M L] Pm. cbv zeta.
  destruct (inv_upd_quiet p (set_auth_seq (u32 (sq + 1))) [p] la ls ph s) as [I1 E1]; try done; [by left|].
  set (s1 := on_tab _ s) in *.
  destruct (inv_issue_auth p sa [p] la ls ph s1) as (s2 & -> & I2 & E2); try done; [by rewrite E1|].
  cbn [mbind res_bind].
  assert (sta_of s2 p = set_auth_seq (u32 (sq + 1)) (sta_of s p)) as E by (unfold sta_of; by rewrite E2).
  assert (p ∈ hash s2) as P2 by (unfold hash; by rewrite E2).
  change (_ || _) with (done_with (sta_of s2 p)). rewrite E.
  change (done_with (set_auth_seq _ _)) with (done_with (sta_of s p)).
  destruct (done_with (sta_of s p)) eqn:D.
  - destruct (inv_upd_quiet p (set_auth_seq 0) [p] la ls ph s2) as [I3 E3]; try done; [by left|].
    eexists _, _, _, _. split; [done|]. eapply inv_settle; [done|]. rewrite E3, E. split.
    + intros U. by vm_compute in U.
    + intros [B|B]; [apply T; by apply bool_decide_eq_true in B|done].
    + done.
  - eexists _, _, _, _. split; [done|]. eapply inv_settle; [done|]. rewrite E. split.
    + intros U. destruct C as [C|C]; [|congruence|exact C].
      destruct Q as [->| ->]; [done|]. by vm_compute in U.
    + intros _. by apply T, L.
    + intros F. change (flag (flags (sec (sta_of s p))) WLAN_STA_MFP = true) in F. by rewrite M in D.
Qed.

(** The entry's place in the list, and its time. *)
Lemma auth_listed p sa la ls ph s : inv [] la ls ph s -> p ∈ hash s -> phl_sta (sta_of s p) = Some sa ->
  (td = true -> sta_open (sta_of s p) = true -> p ∉ ls) ->
  let s1 := if sta_open (sta_of s p) then on_tab (auth_insert p) s else s in
  let s2 := if auth_seq (sta_of s1 p) =? 0 then on_tab (upd p (set_expire_to auth_to)) s1 else s1 in
  exists la', inv [] la' ls ph s2 /\ p ∈ hash s2 /\ phl_sta (sta_of s2 p) = Some sa /\
    (sta_open (sta_of s2 p) = true -> p ∈ la').
Proof.
  intros I P X Nls. assert (sta_ok (bool_decide (p ∈ la)) (sta_of s p)) as SO.
  { apply (i_sta _ _ _ _ _ I p P). by intros ?%elem_of_nil. }
  assert (inv [p] la ls ph s) as I0 by (eapply inv_busy; [done|]; by intros q ?%elem_of_nil).
  cbv zeta. set (s1 := if sta_open _ then _ else _).
  assert (exists la', inv [p] la' ls ph s1 /\ sta_of s1 p = sta_of s p /\ p ∈ hash s1 /\
    (sta_open (sta_of s p) = true -> p ∈ la') /\ (sta_open (sta_of s p) = false -> la' = la))
    as (la' & I1 & E1 & P1 & O1 & N1).
  { unfold s1. destruct (sta_open (sta_of s p)) eqn:So; [|by exists la].
    exists (if bool_decide (p ∈ la) then la else la ++ [p]). split; [apply inv_auth_insert; auto; by left|].
    assert (pstainfo_buf (auth_insert p (stapriv s)) = pstainfo_buf (stapriv s) /\
      sta_hash (auth_insert p (stapriv s)) = sta_hash (stapriv s)) as [Eb Eh].
    { unfold auth_insert. by destruct (rtw_is_list_empty _ _). }
    split_and!; [unfold sta_of, sta_at; cbn; by rewrite Eb|unfold hash; cbn; by rewrite Eh| |done].
    intros _. case_bool_decide; [done|]. apply elem_of_app. right. by left. }
  clearbody s1. exists la'. rewrite E1. destruct (Z.eqb_spec (auth_seq (sta_of s p)) 0) as [Z0|Z0].
  - destruct (inv_upd_quiet p (set_expire_to auth_to) [p] la' ls ph s1) as [I2 E2]; try done; [by left|].
    rewrite E2, E1. split_and!; try done. eapply inv_settle; [done|]. rewrite E2, E1. destruct SO as [C T M].
    split; [done| |done]. intros _. unfold auth_to, MAX_TIME. cbn. lia.
  - rewrite E1. split_and!; try done. eapply inv_settle; [done|]. rewrite E1. destruct SO as [C T M].
    split; [done| |done]. intros _. apply T. by right.
Qed.

Lemma open_ground algorithm : open_mode (auth_mode e algorithm) algorithm = true ->
  bad_alg (auth_mode e algorithm) algorithm = false -> algorithm = WLAN_AUTH_OPEN /\ dot11AuthAlgrthm e <> 1.
Proof.
  unfold open_mode, bad_alg. intros [A M]%andb_prop [_ B]%orb_false_iff. apply Z.eqb_eq in A. subst.
  split; [done|]. intros D. unfold auth_mode in B. by rewrite D in B.
Qed.

Lemma shared_ground algorithm : open_mode (auth_mode e algorithm) algorithm = false ->
  bad_alg (auth_mode e algorithm) algorithm = false ->
  (algorithm = 0 -> dot11AuthAlgrthm e ∉ [0; 1; 2; 3]) /\ (0 < algorithm -> auth_mode e algorithm <> 0).
Proof.
  unfold open_mode, bad_alg. intros O [B1 B2]%orb_false_iff. split.
  - intros -> I. cbn in B2, O. apply orb_false_iff in O as [[O1 O2]%orb_false_iff O3]. unfold auth_mode in *.
    destruct (Z.eqb_spec (dot11AuthAlgrthm e) 2) as [E|N].
    + destruct (_ && _); [done|]. by rewrite E in O2.
    + cbn in *. rewrite !elem_of_cons, elem_of_nil in I. lia.
  - intros A E. by rewrite (proj2 (Z.ltb_lt _ _) A), E in B1.
Qed.

Lemma auth_sta_ok b off len mode algorithm sq p sa la ls ph s f : i = Auth f ->
  auth_frame e f = Ret (b, off) ->
  get_le16 b (WLAN_HDR_A3_LEN + off) = Ret algorithm -> get_le16 b (WLAN_HDR_A3_LEN + off + 2) = Ret sq ->
  mode = auth_mode e algorithm -> bad_alg mode algorithm = false ->
  inv [] la ls ph s -> p ∈ hash s -> phl_sta (sta_of s p) = Some sa ->
  (td = true -> sta_open (sta_of s p) = true -> p ∉ ls) ->
  Forall is_byte b -> len + 130 <= zlen b -> permitted e i sa ->
  ends_ok (auth_sta e b len sa mode algorithm sq p s).
Proof.
  intros Ei Ef Ea Eq Em Bad I P X Nls By Len Pm. unfold auth_sta.
  destruct (auth_listed p sa la ls ph s I P X Nls) as (la' & I2 & P2 & X2 & O2).
  set (s1 := if sta_open _ then _ else _) in *. cbv zeta in I2, P2, X2, O2.
  set (s2 := if auth_seq _ =? 0 then _ else _) in *. clearbody s2.
  destruct (report_mgmt e && _ && _).
  { destruct (inv_upd_ok p (set_authalg algorithm) la' ls ph s2 I2 P2) as [I3 E3]; try done.
    { by intros []. }
    eexists _, _, _, _. split; [done|].
    eapply (inv_emit_of _ sa _ _ _ _ _ p); [exact I3|done|by rewrite E3|done|]. intros Es N _. subst sa. by apply spec_mframe. }
  destruct (Z.eqb_spec (u32 (auth_seq (sta_of s2 p) + 1)) sq) as [Sq|Sq]; cbn [negb].
  2:{ apply (auth_fail_ok _ _ _ la' ls ph); [done|done|]. by intros q [= <-]. }
  destruct (ap_auth_answer_ok b len mode algorithm sq p sa la' ls ph s2) as (r & -> & R); try done.
  - intros Es Om S1. subst sa mode. rewrite Ei in *. split; [done|]. exists b, off, algorithm, sq. split_and!; try done. left.
    by destruct (open_ground algorithm Om Bad).
  - intros Es Om S3 C. subst sa mode. rewrite Ei in *. split; [done|]. exists b, off, algorithm, sq. split_and!; try done. right.
    destruct (shared_ground algorithm Om Bad). done.
  - cbn [mbind res_bind]. destruct r as [s3|status]; [destruct R as (ph' & An); apply (auth_end_ok sq p sa la' ls ph' s3 An); by intros <-|].
    apply (auth_fail_ok _ _ _ la' ls ph); [done|done|]. by intros q [= <-].
Qed.

Lemma inv_ptime v busy la ls ph s : inv busy la ls ph s -> inv busy la ls ph (set_ptime v s).
Proof. by intros []. Qed.

Lemma valid_unicast sa : rtw_check_invalid_mac_address sa false = false -> IS_MCAST sa = false.
Proof. unfold rtw_check_invalid_mac_address. intros [[_ H]%orb_false_iff _]%orb_false_iff. exact H. Qed.

(** The entry [OnAuth] goes on with. *)
Lemma auth_entry_ok sa la ls ph s : inv [] la ls ph s -> (td = true -> forall p, p ∈ ls -> p ∈ hash s) ->
  phl_room e = true -> IS_MCAST sa = false -> permitted e i sa ->
  match auth_entry e sa s with
  | None => True
  | Some (p, s') => exists la' ls' ph', inv [] la' ls' ph' s' /\ p ∈ hash s' /\ phl_sta (sta_of s' p) = Some sa /\
      (td = true -> sta_open (sta_of s' p) = true -> p ∉ ls')
  end.
Proof.
  intros I Ls R U Pm. unfold auth_entry.
  destruct (rtw_get_stainfo (mac e) (stapriv s) sa) as [p|] eqn:G.
  { destruct (stainfo_found _ _ _ _ _ (i_tab _ _ _ _ _ I) G) as [P X]. rewrite U in X.
    destruct (sta_open (sta_of s p)) eqn:So.
    - exists la, (without p ls), ph. split; [by apply inv_asoc_delete|].
      assert (pstainfo_buf (asoc_delete p (stapriv s)) = pstainfo_buf (stapriv s) /\
        sta_hash (asoc_delete p (stapriv s)) = sta_hash (stapriv s)) as [Eb Eh].
      { unfold asoc_delete. by destruct (rtw_is_list_empty _ _). }
      split_and!; [unfold hash; cbn; by rewrite Eh|unfold sta_of, sta_at; cbn; by rewrite Eb|].
      intros _ _ [N _]%elem_of_without. done.
    - exists la, ls, ph. split_and!; try done. intros _. by rewrite So. }
  rewrite R. destruct (rtw_alloc_stainfo_sw true sa (stapriv s)) as [[p t]|] eqn:Al; [|done].
  assert (forall q, q ∈ hash s -> phl_sta (sta_of s q) <> Some sa) as Un.
  { intros q Q. pose proof (get_stainfo_none _ _ _ _ G Q) as N. by rewrite U in N. }
  assert (td = true -> p ∈ free_sta_queue (stapriv s) -> p ∉ ls) as Nl.
  { intros D F L. destruct (free_lt _ _ _ (i_tab _ _ _ _ _ I) F) as [_ N]. by apply N, Ls. }
  destruct (inv_new sa p t [] la ls ph s I Al Un Nl Pm) as (P & Na & X & E & ph' & I').
  set (s1 := on_tab _ _) in *. set (f := λ x, set_auth_seq 0 (set_state Join.Join.WIFI_FW_AUTH_NULL x)).
  destruct (inv_upd_quiet p f [p] la ls ph' s1) as [I2 E2]; [done|done|by left|done|by rewrite E|].
  cbn [mbind option_bind]. exists la, ls, ph'.
  change (on_tab (λ _, upd p f t) (emit (NewSta sa) s)) with (on_tab (upd p f) s1).
  rewrite E2, E. split_and!; try done.
  - eapply inv_settle; [done|]. rewrite E2, E. split; try done.
    intros [B|B]; [by apply bool_decide_eq_true in B|done].
  - intros D _ L. assert (p ∈ free_sta_queue (stapriv s)) as F.
    { destruct (alloc_ok _ _ _ _ _ (i_tab _ _ _ _ _ I) Al Un) as (_ & F & _). done. }
    by apply (Nl D F).
Qed.

Lemma OnAuth_ok f sa b off algorithm sq la ls ph s : i = Auth f ->
  inv [] la ls ph s -> (td = true -> forall p, p ∈ ls -> p ∈ hash s) -> phl_room e = true ->
  Join.Join.hdr_addr f 10 = Ret sa -> auth_frame e f = Ret (b, off) ->
  get_le16 b (WLAN_HDR_A3_LEN + off) = Ret algorithm -> get_le16 b (WLAN_HDR_A3_LEN + off + 2) = Ret sq ->
  Forall is_byte b -> Join.Join.pkt_len f + 130 <= zlen b ->
  ends_ok (OnAuth e f s).
Proof.
  intros Ei I Ls R Sa Ef Ea Eq By Len. unfold OnAuth.
  destruct (asoc e); cbn [negb]; [|by eexists _, _, _, _].
  rewrite Sa. cbn [mbind res_bind]. rewrite Ef. cbn [mbind res_bind]. rewrite Ea. cbn [mbind res_bind].
  rewrite Eq. cbn [mbind res_bind].
  destruct (rtw_check_invalid_mac_address sa false) eqn:V; [by eexists _, _, _, _|].
  unfold rtw_defs_attack_chk. apply (inv_ptime (stime e)) in I. set (s1 := set_ptime _ s) in *.
  assert (td = true -> forall p, p ∈ ls -> p ∈ hash s1) as Ls1 by exact Ls. clearbody s1.
  destruct (_ && negb _); [by eapply auth_fail_ok|].
  destruct (bad_alg _ _) eqn:Bad; [by eapply auth_fail_ok|].
  destruct (Acl.rtw_access_ctrl (acl e) sa) eqn:Ac; cbn [negb]; [|by eapply auth_fail_ok].
  assert (permitted e i sa) as Pm by (by rewrite Ei).
  pose proof (auth_entry_ok sa la ls ph s1 I Ls1 R (valid_unicast _ V) Pm) as En.
  destruct (auth_entry e sa s1) as [[p s2]|]; [|by eapply auth_fail_ok].
  destruct En as (la' & ls' & ph' & I2 & P2 & X2 & N2). by eapply auth_sta_ok.
Qed.

(** ** Association *)

Lemma parse_wpa_long b : forall fuel pos left_ el unknown el' r,
  (forall p n, el Elems.Elems.wpa_ie = Some (p, n) -> 4 <= n) ->
  Elems.Elems.parse_loop fuel b pos left_ el unknown = Ret (el', r) ->
  forall p n, el' Elems.Elems.wpa_ie = Some (p, n) -> 4 <= n.
Proof.
  induction fuel as [|fuel IH]; intros pos left_ el unknown el' r H; [done|]. cbn [Elems.Elems.parse_loop].
  destruct (2 <=? left_); [|intros [= <- _]; done].
  destruct (byte_at b pos) as [id| |]; [|done..]. cbn [mbind res_bind].
  destruct (byte_at b (pos + 1)) as [elen| |]; [|done..]. cbn [mbind res_bind].
  destruct (left_ - 2 <? elen); [intros [= <- _]; done|].
  destruct (Elems.Elems.parse_one b id (pos + 2) elen) as [[fo unk]| |] eqn:E; [|done..]. cbn [mbind res_bind].
  apply IH. destruct fo as [fd|]; [|done]. intros p n. unfold Elems.Elems.set_field. case_decide as D; [|apply H].
  intros [= <- <-]. subst fd. unfold Elems.Elems.parse_one in E.
  destruct (Elems.Elems.field_of_id id) eqn:F.
  { injection E as -> _. unfold Elems.Elems.field_of_id in F. repeat (destruct (_ =? _); [discriminate F|]). discriminate F. }
  destruct (id =? 221).
  - unfold Elems.Elems.rtw_ieee802_11_parse_vendor_specific in E. destruct (Z.ltb_spec elen 4); [discriminate E|lia].
  - destruct (id =? 255); [|discriminate E]. unfold Elems.Elems.rtw_ieee802_11_parse_ext_elems in E.
    destruct (byte_at b (pos + 2)); [|discriminate E..]. cbn [mbind res_bind] in E.
    repeat (destruct (_ =? _); [discriminate E|]). discriminate E.
Qed.

Lemma parse_elems_in b start len : Forall is_byte b -> 0 <= start -> 0 <= len -> start + len + 1 <= zlen b ->
  exists el r, Elems.Elems.rtw_ieee802_11_parse_elems b start len = Ret (el, r) /\ elems_in b el.
Proof.
  intros B S L Z. unfold Elems.Elems.rtw_ieee802_11_parse_elems.
  destruct (Elems.Elems.parse_loop_total b start (start + len) B S ltac:(lia) (ie_fuel len) start len
    Elems.Elems.elems0 0) as (el & r & E & In); [unfold ie_fuel; lia|lia|lia|lia|done|].
  exists el, r. split; [done|]. intros f p n F. destruct (In f p n F) as (P & N & H).
  split_and!; [lia|lia|lia|lia|]. intros ->. by refine (parse_wpa_long b _ _ _ _ _ _ _ _ E p n F).
Qed.

Lemma within_flags s f x : within s x -> flag f WLAN_STA_MFP = flag (flags x) WLAN_STA_MFP -> within s (set_flags f x).
Proof. intros [S M] F. split; [done|]. intros R. cbn. rewrite F. auto. Qed.

Lemma within_add s f x : within s x -> Z.land f WLAN_STA_MFP = 0 -> within s (add_flag f x).
Proof. intros W F. apply within_flags; [done|]. rewrite flag_add. unfold flag at 2. by rewrite F, orb_false_r. Qed.

Lemma within_del s f x : within s x -> Z.land f WLAN_STA_MFP = 0 -> within s (del_flag f x).
Proof. intros W F. apply within_flags; [done|]. by apply flag_ldiff. Qed.

Lemma within_caps s el x : within s x ->
  within s (no_ht_tkip (rtw_ap_parse_sta_he_ie s el (rtw_ap_parse_sta_vht_ie s el (rtw_ap_parse_sta_ht_ie s el x)))).
Proof.
  intros W. assert (within s (rtw_ap_parse_sta_ht_ie s el x)) as W1.
  { unfold rtw_ap_parse_sta_ht_ie. destruct (el _) as [[? ?]|]; [destruct (_ && _)|]; by repeat (apply within_add || apply within_del). }
  assert (within s (rtw_ap_parse_sta_vht_ie s el (rtw_ap_parse_sta_ht_ie s el x))) as W2.
  { unfold rtw_ap_parse_sta_vht_ie. destruct (el _) as [[? ?]|]; [destruct (_ && _)|]; by repeat (apply within_add || apply within_del). }
  set (y := rtw_ap_parse_sta_vht_ie _ _ _) in *. assert (within s (rtw_ap_parse_sta_he_ie s el y)) as W3.
  { unfold rtw_ap_parse_sta_he_ie. destruct (el _) as [[? ?]|]; [destruct (_ && _)|]; by repeat (apply within_add || apply within_del). }
  unfold no_ht_tkip. destruct (_ && _); [|done]. by repeat apply within_del.
Qed.

Definition checked (r : res (sta_sec * Z)) : Prop :=
  exists y st, r = Ret (y, st) /\ (st = _STATS_SUCCESSFUL_ -> within (pol e) y).

Lemma checked_bad y st : st <> _STATS_SUCCESSFUL_ -> checked (Ret (y, st)).
Proof. intros N. by exists y, st. Qed.

Lemma assoc_checks_ok b ies left c alg el x : Forall is_byte b -> elems_in b el -> 28 <= ies ->
  0 <= left -> ies + left + 260 <= zlen b -> wps_ok (pol e) -> checked (assoc_checks e b ies left c alg el x).
Proof.
  intros B In I L Z W. unfold assoc_checks, rtw_ap_parse_sta_capability, WLAN_HDR_A3_LEN.
  destruct (le16_nonneg b 24) as (v & -> & _); [done|lia..|]. cbn [mbind res_bind].
  destruct (le16_nonneg b (24 + 2)) as (v' & -> & _); [done|lia..|]. cbn [mbind res_bind].
  set (x1 := if Z.testbit v 5 then _ else _).
  assert (exists same, ssid_ok e b el = Ret same) as [same ->].
  { unfold ssid_ok. destruct (el Elems.Elems.ssid) as [[p n]|] eqn:Es; [|by eexists].
    destruct (_ || _) eqn:N; [by eexists|]. apply orb_false_iff in N as [_ N%negb_false_iff%Z.eqb_eq].
    destruct (In _ _ _ Es) as (P & N' & H & _). apply bytes_match_some; lia. }
  cbn [mbind res_bind]. destruct same; cbn [negb]; [|by apply checked_bad].
  destruct (supported_rates_total b ies left x1) as (x2 & st & ->); [done|lia..|].
  cbn [mbind res_bind]. destruct (Z.eqb_spec st _STATS_SUCCESSFUL_) as [Es|N]; cbn [negb]; [|by apply checked_bad].
  destruct (security_ie_ok (pol e) b el (pmkid e c) alg x2 B In W) as (x3 & st3 & -> & K).
  cbn [mbind res_bind]. destruct (Z.eqb_spec st3 _STATS_SUCCESSFUL_) as [E3|N]; cbn [negb]; [|by apply checked_bad].
  eexists _, _. split; [done|]. intros _. apply within_caps. destruct (K E3) as (S & M & _). by split.
Qed.

Lemma assoc_elems_ok f ies c alg x : Forall is_byte (Join.Join.pframe f) ->
  Join.Join.pkt_len f + 260 <= zlen (Join.Join.pframe f) -> 28 <= ies <= Join.Join.pkt_len f -> wps_ok (pol e) ->
  checked (assoc_elems e f ies c alg x).
Proof.
  intros B L I W. unfold assoc_elems.
  destruct (parse_elems_in (Join.Join.pframe f) ies (Join.Join.pkt_len f - ies)) as (el & r & -> & In); [done|lia..|].
  cbn [mbind res_bind]. destruct r; [apply assoc_checks_ok..|by apply checked_bad]; (done || lia).
Qed.

(** The entry of an association request, while it is being handled. *)
Record requesting (b : list Z) (p : nat) (la ls : list nat) (ph : phase) (s : ap) : Prop := {
  rq_inv : inv [p] la ls ph s;
  rq_hash : p ∈ hash s;
  rq_addr : phl_sta (sta_of s p) = Some b;
  rq_ph : b = a -> ph = Authed;
  rq_chg : u32 (auth_seq (sta_of s p) + 1) = 3 -> chg_txt (sta_of s p) = CHALLENGE;
  rq_time : p ∈ la \/ auth_seq (sta_of s p) <> 0 -> 1 <= expire_to (sta_of s p) <= MAX_TIME
}.

Lemma requesting_upd b p f la ls ph s : requesting b p la ls ph s ->
  (forall x, phl_sta (f x) = phl_sta x /\ auth_seq (f x) = auth_seq x /\ chg_txt (f x) = chg_txt x /\
     expire_to (f x) = expire_to x) ->
  requesting b p la ls ph (on_tab (upd p f) s) /\ sta_of (on_tab (upd p f) s) p = f (sta_of s p).
Proof.
  intros [I P X Ph C T] F. destruct (F (sta_of s p)) as (F1 & F2 & F3 & F4).
  destruct (inv_change p f [p] la ls ph s I P) as [I' E]; [by left|done|intros Y _; apply Ph; congruence|].
  split; [|done]. split; rewrite ?E, ?F1, ?F2, ?F3, ?F4; done.
Qed.

Lemma requesting_rsp b p la ls ph s status reassoc : requesting b p la ls ph s ->
  exists s', issue_asocrsp e (sta_of s p) status reassoc s = Ret s' /\ requesting b p la ls ph s' /\
    stapriv s' = stapriv s.
Proof.
  intros [I P X Ph C T]. unfold issue_asocrsp. destruct (mgnt_frame e); cbn [negb]; [|by exists s].
  rewrite X. eexists. split; [done|]. split; [|done]. split; try done.
  eapply (inv_emit_of _ b); try done. intros Eb _ _. subst b. rewrite (Ph eq_refl). apply spec_assoc_rsp.
Qed.

Lemma ap_assoc_fail_ok b p la ls ph s status reassoc : requesting b p la ls ph s ->
  ends_ok (OnAssocReqFail e p reassoc status s).
Proof.
  intros R. unfold OnAssocReqFail. destruct (requesting_rsp b p la ls ph s status reassoc R) as (s' & -> & R' & _).
  cbn [mbind res_bind]. destruct (inv_free p [] la ls ph s' (rq_inv _ _ _ _ _ _ R') (rq_hash _ _ _ _ _ _ R'))
    as (s2 & ph' & -> & I & _). by eexists _, _, _, _.
Qed.

(** Joining the list of the associated stations. *)
Lemma asoc_join_ok b p la ls ph s : requesting b p la ls ph s ->
  exists la' ls', requesting b p la' ls' ph (asoc_join p s) /\
    state (sta_of (asoc_join p s) p) = state (sta_of s p) /\ sec (sta_of (asoc_join p s) p) = sec (sta_of s p).
Proof.
  intros [I P X Ph C T]. unfold asoc_join. set (s1 := on_tab (auth_delete p) s).
  pose proof (inv_auth_delete p _ _ _ _ _ I P) as I1. fold s1 in I1.
  destruct (auth_delete_fields p (stapriv s)) as (Eb & _ & Eh & El & _).
  assert (sta_of s1 p = sta_of s p) as E1 by (unfold sta_of, sta_at; cbn; by rewrite Eb).
  assert (p ∈ hash s1) as P1 by (unfold hash; cbn; by rewrite Eh).
  assert (p ∉ without p la) as Np by (by intros [? _]%elem_of_without).
  exists (without p la). destruct (rtw_is_list_empty p (asoc_list (stapriv s1))) eqn:Em.
  - change (on_tab _ s1) with (on_tab (tail_asoc p) (on_tab (upd p (set_expire_to asoc_expire_to)) s1)).
    destruct (inv_upd_quiet p (set_expire_to asoc_expire_to) [p] (without p la) ls ph s1) as [I2 E2]; try done; [by left|].
    set (s2 := on_tab (upd p _) s1) in *. exists (ls ++ [p]).
    assert (sta_of (on_tab (tail_asoc p) s2) p = set_expire_to asoc_expire_to (sta_of s p)) as E3.
    { change (sta_of s2 p = set_expire_to asoc_expire_to (sta_of s p)). by rewrite E2, E1. }
    rewrite E3. split; [|done]. split; rewrite ?E3; try done.
    apply inv_asoc_insert; try done. intros D L. pose proof (hash_lt _ _ _ (i_tab _ _ _ _ _ I1) P1) as Lt.
    rewrite (empty_linked _ _ _ (ok_asoc _ _ _ (i_asoc _ _ _ _ _ I1 D)) (not_head _ Lt)) in Em.
    by rewrite bool_decide_true in Em.
  - exists ls. rewrite E1. split; [|done]. split; rewrite ?E1; try done. intros [L|L]; [done|]. apply T. by right.
Qed.

Lemma requesting_end b p la ls ph s ev : requesting b p la ls ph s -> done_with (sta_of s p) = true ->
  event_addr ev = b -> (b = a -> spec_step e i a ev Authed Authed) -> ends_ok (Ret (emit ev s)).
Proof.
  intros [I P X Ph C T] D E S. eexists _, _, _, _. split; [done|]. eapply inv_settle.
  - eapply (inv_emit_of _ b); try done. intros Eb _ _. rewrite (Ph Eb). auto.
  - split; [exact C| |done]. intros [L|L]; apply T; [left; by apply bool_decide_eq_true in L|by right].
Qed.

Lemma ap_assoc_done_ok b p la ls ph s reassoc : requesting b p la ls ph s -> within (pol e) (sec (sta_of s p)) ->
  ends_ok (assoc_done e p reassoc s).
Proof.
  intros R W. unfold assoc_done. cbv zeta.
  set (f := λ x, set_state (Z.lor (Z.ldiff (state x) Join.Join.WIFI_FW_ASSOC_STATE) Join.Join.WIFI_FW_ASSOC_SUCCESS) x).
  destruct (requesting_upd b p f la ls ph s R) as [R1 E1]; [done|]. set (s1 := on_tab (upd p f) s) in *.
  assert (done_with (sta_of s1 p) = true) as D1.
  { rewrite E1. unfold done_with, f. cbn [state set_state]. rewrite !flag_add.
    change (flag Join.Join.WIFI_FW_ASSOC_SUCCESS Join.Join.WIFI_FW_ASSOC_SUCCESS) with true. by rewrite !orb_true_r. }
  assert (sec (sta_of s1 p) = sec (sta_of s p)) as S1 by by rewrite E1. clearbody s1.
  destruct (sta_open (sta_of s1 p)) eqn:So.
  - destruct (asoc_join_ok b p la ls ph s1 R1) as (la' & ls' & R2 & D2 & S2). set (s2 := asoc_join p s1) in *. clearbody s2.
    destruct (requesting_rsp b p la' ls' ph s2 _STATS_SUCCESSFUL_ reassoc R2) as (s3 & -> & R3 & E3).
    cbn [mbind res_bind]. assert (sta_of s3 p = sta_of s2 p) as E by (unfold sta_of; by rewrite E3).
    eapply (requesting_end b); [exact R3| | |].
    + rewrite E. unfold done_with. by rewrite D2.
    + unfold sta_addr. cbn. by rewrite (rq_addr _ _ _ _ _ _ R3).
    + intros Eb. unfold sta_addr. rewrite (rq_addr _ _ _ _ _ _ R3), Eb. cbn. apply spec_add. by rewrite E, S2, S1.
  - destruct (requesting_rsp b p la ls ph s1 _STATS_REFUSED_TEMPORARILY_ reassoc R1) as (s3 & -> & R3 & E3).
    cbn [mbind res_bind]. assert (sta_of s3 p = sta_of s1 p) as E by (unfold sta_of; by rewrite E3).
    eapply (requesting_end b); [exact R3|by rewrite E| |].
    + unfold sta_addr. cbn. by rewrite (rq_addr _ _ _ _ _ _ R3).
    + intros Eb. unfold sta_addr. rewrite (rq_addr _ _ _ _ _ _ R3), Eb. cbn. apply spec_sa_query.
Qed.

Lemma assoc_sta_ok f reassoc ies p b la ls ph s : inv [] la ls ph s -> p ∈ hash s ->
  phl_sta (sta_of s p) = Some b -> done_with (sta_of s p) = true ->
  Forall is_byte (Join.Join.pframe f) -> Join.Join.pkt_len f + 260 <= zlen (Join.Join.pframe f) ->
  28 <= ies <= Join.Join.pkt_len f -> wps_ok (pol e) ->
  ends_ok (assoc_sta e f reassoc ies p s).
Proof.
  intros I P X D By Len Ies W. unfold assoc_sta.
  destruct (i_sta _ _ _ _ _ I p P) as [C T M]; [by intros ?%elem_of_nil|].
  assert (requesting b p la ls ph s) as R.
  { split; try done; [eapply inv_busy; [done|]; by intros q ?%elem_of_nil| |].
    - intros Eb. rewrite Eb in X. destruct (inv_ph _ _ _ _ _ _ I P X) as [_ A]. by apply A, done_authed.
    - intros [L|L]; apply T; [left; by apply bool_decide_eq_true|by right]. }
  set (f1 := λ x, set_state _ x).
  destruct (requesting_upd b p f1 la ls ph s R) as [R1 E1]; [done|]. set (s1 := on_tab (upd p f1) s) in *. clearbody s1.
  destruct (assoc_elems_ok f ies (sta_addr s1 p) (authalg (sta_of s p)) (sec (sta_of s p)) By Len Ies W)
    as (y & st & -> & Wi). cbn [mbind res_bind]. unfold on_sec.
  destruct (requesting_upd b p (λ x, set_sec y x) la ls ph s1 R1) as [R2 E2]; [done|].
  set (s2 := on_tab _ s1) in *. destruct (Z.eqb_spec st _STATS_SUCCESSFUL_) as [Es|N]; cbn [negb];
    [|by eapply ap_assoc_fail_ok].
  destruct (0 <? aid (sta_of s p)); [eapply ap_assoc_done_ok; [done|rewrite E2; by apply Wi]|].
  destruct (requesting_upd b p (set_aid (aid_free e)) la ls ph s2 R2) as [R3 E3]; [done|].
  destruct (aid_free e =? 0); [by eapply ap_assoc_fail_ok|].
  eapply ap_assoc_done_ok; [done|]. rewrite E3, E2. by apply Wi.
Qed.

(** [f] is in a buffer that is longer by an element, and has the fixed fields. *)
Definition frame_ok (f : Join.Join.mframe) : bool :=
  (26 <=? zlen (Join.Join.pframe f)) && (32 <=? zlen (Join.Join.pframe f))
  && (Join.Join.pkt_len f + 260 <=? zlen (Join.Join.pframe f))
  && forallb (λ x, (0 <=? x) && (x <? 256)) (Join.Join.pframe f).

Lemma inv_deauth b reason busy la ls ph s : inv busy la ls ph s -> inv busy la ls ph (issue_deauth e b reason s).
Proof.
  intros I. unfold issue_deauth. destruct (mgnt_frame e); [|done]. apply inv_emit; [done|].
  destruct (decide (b = a)) as [->|N]; [apply spec_deauth|by apply spec_other].
Qed.

Lemma OnAssocReq_ok f sa ft la ls ph s : inv [] la ls ph s ->
  Join.Join.hdr_addr f 10 = Ret sa -> get_frame_sub_type f = Ret ft ->
  Forall is_byte (Join.Join.pframe f) -> Join.Join.pkt_len f + 260 <= zlen (Join.Join.pframe f) -> wps_ok (pol e) ->
  ends_ok (OnAssocReq e f s).
Proof.
  intros I Sa Ft By Len W. unfold OnAssocReq. rewrite Sa. cbn [mbind res_bind].
  destruct (rtw_check_invalid_mac_address sa false) eqn:V; [by eexists _, _, _, _|].
  rewrite Ft. cbn [mbind res_bind]. set (ie := if negb (ft =? WIFI_ASSOCREQ) then _ else _).
  assert (4 <= ie) as Ie by (unfold ie, _REASOCREQ_IE_OFFSET_, _ASOCREQ_IE_OFFSET_; destruct (negb _); lia).
  destruct (Z.ltb_spec (Join.Join.pkt_len f) (IEEE80211_3ADDR_LEN + ie)) as [Sh|Lo]; [by eexists _, _, _, _|].
  destruct (rtw_get_stainfo (mac e) (stapriv s) sa) as [p|] eqn:G;
    [|eexists _, _, _, _; split; [done|by apply inv_deauth]].
  destruct (stainfo_found _ _ _ _ _ (i_tab _ _ _ _ _ I) G) as [P X]. rewrite (valid_unicast _ V) in X.
  destruct (_ && flag _ Join.Join.WIFI_FW_AUTH_NULL); [by eexists _, _, _, _|].
  destruct (negb _ && negb _) eqn:Nd; [eexists _, _, _, _; split; [done|by apply inv_deauth]|].
  eapply assoc_sta_ok; try done; unfold IEEE80211_3ADDR_LEN in *; [|lia].
  unfold done_with. by rewrite <- negb_orb in Nd; apply negb_false_iff in Nd.
Qed.

Lemma flag_deleted f g : flag (Z.ldiff f g) g = false.
Proof.
  unfold flag. replace (Z.land (Z.ldiff f g) g) with 0; [done|]. symmetry. apply Z.bits_inj'. intros n N.
  rewrite Z.land_spec, Z.ldiff_spec, Z.bits_0. by destruct (Z.testbit f n), (Z.testbit g n).
Qed.

Lemma OnDeAuth_ok f a3 sa reason la ls ph s : inv [] la ls ph s ->
  Join.Join.hdr_addr f 16 = Ret a3 -> Join.Join.hdr_addr f 10 = Ret sa ->
  get_le16 (Join.Join.pframe f) WLAN_HDR_A3_LEN = Ret reason ->
  ends_ok (OnDeAuth e f s).
Proof.
  intros I A3 Sa Rs. unfold OnDeAuth. rewrite A3. cbn [mbind res_bind].
  destruct (negb _); [by eexists _, _, _, _|]. rewrite Rs. cbn [mbind res_bind]. rewrite Sa. cbn [mbind res_bind].
  destruct (rtw_get_stainfo (mac e) (stapriv s) sa) as [p|] eqn:G; [|by eexists _, _, _, _].
  destruct (stainfo_found _ _ _ _ _ (i_tab _ _ _ _ _ I) G) as [P X].
  change (phl_sta (sta_of s p) = Some (if IS_MCAST sa then mac e else sa)) in X.
  destruct (rtw_is_list_empty _ _); [by eexists _, _, _, _|].
  assert (pstainfo_buf (asoc_delete p (stapriv s)) = pstainfo_buf (stapriv s) /\
    sta_hash (asoc_delete p (stapriv s)) = sta_hash (stapriv s)) as [Eb Eh].
  { unfold asoc_delete. by destruct (rtw_is_list_empty _ _). }
  pose proof (inv_asoc_delete p _ _ _ _ _ I P) as I1. set (s1 := on_tab (asoc_delete p) s) in *.
  assert (p ∈ hash s1) as P1 by (unfold hash; cbn; by rewrite Eh).
  assert (sta_of s1 p = sta_of s p) as E1 by (unfold sta_of, sta_at; cbn; by rewrite Eb).
  set (mfp := flag (flags _) _). set (s2 := if mfp then _ else s1).
  assert (inv [] la (without p ls) ph s2 /\ p ∈ hash s2 /\ is_Some (phl_sta (sta_of s2 p))) as (I2 & P2 & X2).
  { unfold s2, on_sec. destruct mfp; [|by rewrite E1, X].
    destruct (inv_upd_ok p (λ x, set_sec (del_flag WLAN_STA_MFP (sec x)) x) la (without p ls) ph s1 I1 P1) as [I2 E2]; try done.
    - intros [C T M]. split; try done. cbn [flags del_flag set_flags sec set_sec]. intros F. by rewrite flag_deleted in F.
    - split_and!; [done|done|]. rewrite E2. cbn [phl_sta set_sec]. by rewrite E1, X. }
  destruct X2 as [b X2]. unfold ap_free_sta. set (s3 := if mfp then issue_deauth e _ _ s2 else s2).
  assert (inv [] la (without p ls) ph s3 /\ stapriv s3 = stapriv s2) as [I3 E3].
  { unfold s3. destruct mfp; [|done]. split; [by apply inv_deauth|]. unfold issue_deauth. by destruct (mgnt_frame e). }
  clearbody s3. set (f1 := λ x, set_state _ x).
  assert (sta_of s3 p = sta_of s2 p) as E4 by (unfold sta_of; by rewrite E3).
  destruct (inv_upd_ok p f1 la (without p ls) ph s3 I3) as [I4 E5]; try done; [by unfold hash; rewrite E3| | |].
  - unfold authed, f1. cbn [state set_state]. by rewrite flag_ldiff.
  - intros [C T M]. split; try done. unfold done_with, f1. cbn [state set_state sec]. by rewrite !flag_ldiff.
  - eexists _, _, _, _. split; [done|]. eapply (inv_emit_of _ b _ _ _ _ _ p); [done|by unfold hash; cbn; rewrite E3| | |].
    + by rewrite E5, E4.
    + unfold sta_addr. cbn. by rewrite X2.
    + intros Eb' N _. unfold sta_addr. rewrite X2. cbn. rewrite Eb'. by apply spec_del.
Qed.

(** ** Requests of the host, and the watchdog *)

Lemma external_auth_ok b status la ls ph s : i = ExtAuth b status -> inv [] la ls ph s ->
  ends_ok (Ret (external_auth_status e b status s)).
Proof.
  intros Ei I. unfold external_auth_status.
  destruct (rtw_get_stainfo (mac e) (stapriv s) b) as [p|] eqn:G; [|by eexists _, _, _, _].
  destruct (stainfo_found _ _ _ _ _ (i_tab _ _ _ _ _ I) G) as [P X]. set (c := if IS_MCAST b then _ else _) in X.
  change (phl_sta (sta_of s p) = Some c) in X.
  destruct (Z.eqb_spec status Join.Join.WLAN_STATUS_SUCCESS) as [Es|N]; [|by eexists _, _, _, _].
  destruct (i_sta _ _ _ _ _ I p P) as [C T M]; [by intros ?%elem_of_nil|].
  assert (inv [p] la ls ph s) as I0 by (eapply inv_busy; [done|]; by intros q ?%elem_of_nil).
  destruct (inv_authenticated c _ _ _ _ _ _ I0 P X) as (ph' & I1 & A1); [intros Ec; by rewrite Ei|].
  set (f := λ x, set_expire_to _ (set_state _ x)). unfold sta_addr. rewrite X. cbn [default].
  change (emit _ (on_tab (upd p f) s)) with (on_tab (upd p f) (emit (Authenticated c) s)).
  destruct (inv_change p f _ _ _ _ _ I1 P) as [I2 E2]; [by left|done| |].
  { intros Y _. apply A1. change (phl_sta (sta_of s p) = Some a) in Y. congruence. }
  eexists _, _, _, _. split; [done|]. eapply inv_settle; [done|]. rewrite E2. split.
  - exact C.
  - intros _. unfold f, MAX_TIME, assoc_to. cbn. lia.
  - intros _. unfold done_with, f. cbn [state set_expire_to set_state]. rewrite flag_add.
    change (flag Join.Join.WIFI_FW_AUTH_SUCCESS Join.Join.WIFI_FW_AUTH_SUCCESS) with true. by rewrite orb_true_r.
Qed.

Lemma set_key_ok b la ls ph s : inv [] la ls ph s -> ends_ok (Ret (set_pairwise_key e b s)).
Proof.
  intros I. unfold set_pairwise_key.
  destruct (rtw_get_stainfo (mac e) (stapriv s) b) as [p|] eqn:G; [|by eexists _, _, _, _].
  destruct (stainfo_found _ _ _ _ _ (i_tab _ _ _ _ _ I) G) as [P _].
  destruct (inv_upd_ok p (set_key true) la ls ph s I P) as [I' _]; try done; [by intros []|]. by eexists _, _, _, _.
Qed.

Lemma stadel_ok b la ls ph s : inv [] la ls ph s -> ends_ok (rtw_stadel_event_callback e b s).
Proof.
  intros I. unfold rtw_stadel_event_callback.
  destruct (rtw_get_stainfo (mac e) (stapriv s) b) as [p|] eqn:G; [|by eexists _, _, _, _].
  destruct (stainfo_found _ _ _ _ _ (i_tab _ _ _ _ _ I) G) as [P _].
  destruct (inv_free p [] la ls ph s) as (s' & ph' & -> & I' & _); [|done|by eexists _, _, _, _].
  eapply inv_busy; [done|]. by intros q ?%elem_of_nil.
Qed.

(** The stations [l] are older in [t] than in [s]; those whose time is up are [fl]. *)
Record aged (l fl : list nat) (s : ap) (t : sta_priv) : Prop := {
  ag_nodup : NoDup fl;
  ag_in : forall p, p ∈ fl -> p ∈ l;
  ag_hash : sta_hash t = hash s;
  ag_old : forall p, p ∈ l -> expire_to (sta_at t p) = expire_to (sta_of s p) - 1;
  ag_up : forall p, p ∈ l -> p ∈ fl <-> expire_to (sta_of s p) = 1;
  ag_other : forall p, p ∉ l -> sta_at t p = sta_of s p
}.

Lemma aged_cons p l fl s f t : p ∉ l -> aged l fl (on_tab (upd p f) s) t ->
  (forall q, q <> p -> sta_of (on_tab (upd p f) s) q = sta_of s q) ->
  expire_to (sta_of (on_tab (upd p f) s) p) = expire_to (sta_of s p) - 1 ->
  aged (p :: l) (if expire_to (sta_of s p) - 1 =? 0 then p :: fl else fl) s t.
Proof.
  intros Np [D I H O U R] E Ep.
  assert (p ∉ fl) as Nf by (intros Q; by apply Np, I).
  split; [|..|done| | |].
  - destruct (_ =? 0); [by apply NoDup_cons|done].
  - intros q. destruct (_ =? 0); rewrite !elem_of_cons; naive_solver.
  - intros q [->|Q]%elem_of_cons; [by rewrite R|]. rewrite O, E by (done || by intros ->). done.
  - intros q [->|Q]%elem_of_cons.
    + destruct (Z.eqb_spec (expire_to (sta_of s p) - 1) 0); [|split; [done|lia]]. rewrite elem_of_cons. split; [lia|by left].
    + assert (q <> p) as N by (by intros ->). rewrite <- (E q N), <- (U q Q).
      destruct (_ =? 0); [|done]. rewrite elem_of_cons. naive_solver.
  - intros q [N Q]%not_elem_of_cons. by rewrite R, E.
Qed.

Lemma expire_auth_ok la ls ph l : forall busy s, inv busy la ls ph s -> NoDup l ->
  (forall p, p ∈ l -> p ∈ la /\ p ∉ busy) ->
  let '(t, fl) := expire_auth l (stapriv s) in
  inv (fl ++ busy) la ls ph (on_tab (λ _, t) s) /\ aged l fl s t.
Proof.
  induction l as [|p l IH]; intros busy s I D B.
  - cbn. split; [by destruct I|].
    split; [constructor| |done| | |done]; by intros p P; apply not_elem_of_nil in P.
  - apply NoDup_cons in D as [Np D]. destruct (B p) as [L Nb]; [by left|].
    pose proof (ok_auth_in _ _ (i_tab _ _ _ _ _ I) p L) as P. pose proof (hash_lt _ _ _ (i_tab _ _ _ _ _ I) P) as Lt.
    destruct (i_sta _ _ _ _ _ I p P Nb) as [C T M]. assert (1 <= expire_to (sta_of s p) <= MAX_TIME) as R.
    { apply T. left. by apply bool_decide_eq_true. }
    cbn [expire_auth]. fold (sta_of s p). rewrite (proj2 (Z.ltb_lt 0 _)) by lia.
    set (f := set_expire_to (expire_to (sta_of s p) - 1)).
    assert (inv (p :: busy) la ls ph s) as I0 by (eapply inv_busy; [done|]; intros q Q; by right).
    destruct (inv_upd_quiet p f _ la ls ph s I0 P) as [I1 E1]; [by left|done..|].
    assert (forall q, q <> p -> sta_of (on_tab (upd p f) s) q = sta_of s q) as Eq.
    { intros q N. unfold sta_of. cbn. rewrite (sta_at_upd _ _ _ _ _ (i_tab _ _ _ _ _ I) Lt). by rewrite decide_False by congruence. }
    set (busy' := if expire_to (sta_of s p) - 1 =? 0 then p :: busy else busy).
    assert (inv busy' la ls ph (on_tab (upd p f) s)) as I2.
    { unfold busy'. destruct (Z.eqb_spec (expire_to (sta_of s p) - 1) 0); [done|]. eapply inv_settle; [done|].
      rewrite E1. split; try done. intros _. unfold f. cbn. lia. }
    specialize (IH busy' _ I2 D). change (stapriv (on_tab (upd p f) s)) with (upd p f (stapriv s)) in IH.
    destruct (expire_auth l (upd p f (stapriv s))) as [t fl]. destruct IH as [I3 A].
    { intros q Q. destruct (B q) as [B1 B2]; [by right|]. split; [done|]. unfold busy'.
      destruct (_ =? 0); [|done]. intros [->|?]%elem_of_cons; done. }
    split; [|by apply (aged_cons p l fl s f); rewrite ?E1].
    eapply inv_busy; [exact I3|]. intros q. unfold busy'. destruct (_ =? 0); [|done].
    rewrite <- app_comm_cons, !elem_of_app, !elem_of_cons, !elem_of_app. naive_solver.
Qed.

(** Freeing the entries that are being changed. *)
Lemma free_all_ok ls fl : forall la ph s, inv fl la ls ph s -> NoDup fl -> (forall p, p ∈ fl -> p ∈ hash s) ->
  exists s' la' ph', free_all fl s = Ret s' /\ inv [] la' ls ph' s' /\
    (forall p, p ∈ la' <-> p ∈ la /\ p ∉ fl) /\ (forall p, p ∈ hash s' <-> p ∈ hash s /\ p ∉ fl) /\
    (forall p, p ∈ hash s' -> sta_of s' p = sta_of s p).
Proof.
  induction fl as [|p fl IH]; intros la ph s I D H.
  - exists s, la, ph. split_and!; try done; intros p; split; [|by intros []| |by intros []]; intros ?; split; try done; by intros ?%elem_of_nil.
  - apply NoDup_cons in D as [Np D].
    destruct (inv_free p fl la ls ph s I) as (s1 & ph1 & E1 & I1 & H1 & S1); [apply H; by left|].
    cbn [free_all]. rewrite E1. cbn [mbind res_bind].
    destruct (IH _ _ s1 I1 D) as (s2 & la' & ph2 & E2 & I2 & L2 & H2 & S2).
    { intros q Q. rewrite H1. apply elem_of_without. split; [by intros ->|]. apply H. by right. }
    exists s2, la', ph2. split_and!; [done|done| | |].
    + intros q. rewrite L2, elem_of_without, not_elem_of_cons. naive_solver.
    + intros q. rewrite H2, H1, elem_of_without, not_elem_of_cons. naive_solver.
    + intros q Q. rewrite S2 by done. apply S1. by apply H2.
Qed.

Lemma watchdog_ok la ls ph s : inv [] la ls ph s ->
  exists s' la' ph', expire_timeout_chk s = Ret s' /\ inv [] la' ls ph' s' /\
    (forall p, p ∈ la' -> p ∈ la /\ expire_to (sta_of s' p) = expire_to (sta_of s p) - 1) /\
    (forall p, p ∈ la -> p ∉ la' -> p ∉ hash s') /\ (forall p, p ∈ hash s' -> p ∈ hash s).
Proof.
  intros I. pose proof (i_tab _ _ _ _ _ I) as T. unfold expire_timeout_chk.
  assert (Forall (λ x, (x < HEAD)%nat) la) as F.
  { apply Forall_forall. intros p P. eapply hash_lt; [done|]. by apply (ok_auth_in _ _ T). }
  rewrite (nodes_linked _ _ (ok_auth _ _ T) F). cbn [mbind res_bind].
  assert (NoDup la) as D by (destruct (ok_auth _ _ T) as [_ D _]; by apply NoDup_cons in D as [_ D]).
  pose proof (expire_auth_ok la ls ph la [] s I D) as E.
  destruct (expire_auth la (stapriv s)) as [t fl]. destruct E as [I1 A].
  { intros p P. split; [done|]. by intros ?%elem_of_nil. }
  rewrite app_nil_r in I1. set (s1 := on_tab (λ _, t) s) in *.
  assert (hash s1 = hash s) as H1 by apply (ag_hash _ _ _ _ A).
  destruct (free_all_ok ls fl la ph s1 I1) as (s2 & la' & ph' & E2 & I2 & L2 & H2 & S2); [apply A| |].
  { intros p P. rewrite H1. apply (ok_auth_in _ _ T). by apply (ag_in _ _ _ _ A). }
  exists s2, la', ph'. split_and!; [done|done| | |].
  - intros p P. pose proof (ok_auth_in _ _ (i_tab _ _ _ _ _ I2) p P) as Q. apply L2 in P as [P N].
    split; [done|]. rewrite S2 by done. by apply (ag_old _ _ _ _ A).
  - intros p P N Q. apply N, L2. split; [done|]. by apply H2 in Q as [_ Q].
  - intros p Q. apply H2 in Q as [Q _]. by rewrite H1 in Q.
Qed.

(** ** One step *)

(** The group keys of WEP are in their buffers. *)
Definition keys_ok (e : env) : bool :=
  forallb (λ k, match rd (dot11DefKey e) k, rd (dot11DefKeylen e) k with
                | Some key, Some n => (0 <=? n) && (n <=? 13) && (n <=? zlen key)
                | _, _ => false
                end) (seqZ 0 4).

Record env_ok : Prop := {
  eo_room : phl_room e = true;
  eo_wps : wps_ok (pol e);
  eo_keys : keys_ok e = true
}.

(** A protected frame has its initialisation vector. *)
Definition input_ok : Prop :=
  match i with
  | Auth f => frame_ok f = true /\ (Join.Join.GetPrivacy f = Ret true -> 28 <= Join.Join.pkt_len f)
  | AssocReq f | DeAuth f => frame_ok f = true
  | _ => True
  end.

Lemma ap_frame_inv f : frame_ok f = true ->
  32 <= zlen (Join.Join.pframe f) /\ Join.Join.pkt_len f + 260 <= zlen (Join.Join.pframe f) /\
  Forall is_byte (Join.Join.pframe f) /\
  (forall off, 0 <= off <= 26 -> exists x, Join.Join.hdr_addr f off = Ret x) /\
  exists ft, get_frame_sub_type f = Ret ft.
Proof.
  intros H. unfold frame_ok in H. rewrite !andb_true_iff, !Z.leb_le in H. destruct H as [[[_ L] P] B].
  split_and!; try done.
  - apply Forall_forall. intros x X. apply list_elem_of_In in X.
    pose proof (proj1 (forallb_forall _ _) B x X) as Y. cbn beta in Y. unfold is_byte. lia.
  - intros off O. unfold Join.Join.hdr_addr. rewrite slice_some; [by eexists|lia|done|].
    change ETH_ALEN with 6. lia.
  - unfold get_frame_sub_type. destruct (byte_at_some (Join.Join.pframe f) 0) as (x & -> & _); [lia|]. by eexists.
Qed.

Lemma lxor_byte x k : is_byte x -> is_byte (Z.lxor x (u8 k)).
Proof.
  intros X. unfold is_byte in *. assert (0 <= u8 k < 256) as K by (unfold u8; lia || (apply Z.mod_pos_bound; lia)).
  split; [apply Z.lxor_nonneg; lia|]. change 256 with (2 ^ 8).
  destruct (Z.eq_dec (Z.lxor x (u8 k)) 0) as [->|N]; [lia|].
  apply Z.log2_lt_pow2; [assert (0 <= Z.lxor x (u8 k)) by (apply Z.lxor_nonneg; lia); lia|].
  eapply Z.le_lt_trans; [apply Z.log2_lxor; lia|]. apply Z.max_lub_lt.
  - destruct (Z.eq_dec x 0) as [->|]; [done|]. apply Z.log2_lt_pow2; lia.
  - destruct (Z.eq_dec (u8 k) 0) as [->|]; [done|]. apply Z.log2_lt_pow2; lia.
Qed.

Lemma arcfour_bytes l : forall c, Forall is_byte l -> Forall is_byte (Wep.Wep.arcfour_encrypt c l).2.
Proof.
  induction l as [|x l IH]; intros c B; [done|]. apply Forall_cons in B as [X B]. cbn [Wep.Wep.arcfour_encrypt].
  destruct (Wep.Wep.arcfour_byte c) as [c1 k]. specialize (IH c1 B).
  destruct (Wep.Wep.arcfour_encrypt c1 l) as [c2 d]. apply Forall_cons. split; [by apply lxor_byte|done].
Qed.

Lemma wep_decrypt_total key n hdrlen len b : Forall is_byte b -> 0 <= n <= 13 -> n <= zlen key ->
  0 <= hdrlen -> hdrlen + 4 <= len <= zlen b ->
  exists b', Wep.Wep.rtw_wep_decrypt true key n hdrlen 4 len b = Ret b' /\ Forall is_byte b' /\ zlen b' = zlen b.
Proof.
  intros B N K H L. unfold Wep.Wep.rtw_wep_decrypt, Wep.Wep.wep_key. cbn [negb].
  destruct (Z.ltb_spec 16 (3 + n)) as [?|_]; [lia|].
  rewrite slice_some by lia. cbn [mbind res_bind]. rewrite slice_some by lia. cbn [mbind res_bind].
  unfold Wep.Wep.decrypt_payload. rewrite slice_sub by lia. cbn [mbind res_bind].
  set (m := sub _ _ b). assert (zlen m = len - hdrlen - 4) as Lm.
  { unfold m, sub. rewrite zlen_ztake; [done|]. rewrite zlen_zdrop; lia. }
  match goal with |- context [Wep.Wep.arcfour_encrypt ?c m] => 
    pose proof (arcfour_bytes m c (sub_bytes _ _ _ B)) as D; pose proof (Wep.Wep.arcfour_encrypt_length c m) as Ld;
    destruct (Wep.Wep.arcfour_encrypt c m) as [c' d] end.
  cbn [snd] in *. assert (zlen d = zlen m) as Zd by (unfold zlen; by rewrite Ld).
  destruct (blit b (4 + hdrlen) d) as [b'| |] eqn:Bl; cycle 1.
  { rewrite blit_ok in Bl by lia. done. }
  { rewrite blit_ok in Bl by lia. done. }
  pose proof (blit_len _ _ _ _ Bl) as Lb. pose proof (blit_bytes _ _ _ _ Bl B D) as Bb.
  exists b'. cbn [mbind res_bind]. split; [|done]. unfold Wep.Wep.crc_of.
  destruct (_ <=? 0) eqn:Z0; [done|]. apply Z.leb_gt in Z0. by rewrite slice_some by lia.
Qed.

Lemma auth_frame_total f : keys_ok e = true -> frame_ok f = true ->
  (Join.Join.GetPrivacy f = Ret true -> 28 <= Join.Join.pkt_len f) ->
  exists b off, auth_frame e f = Ret (b, off) /\ Forall is_byte b /\ zlen b = zlen (Join.Join.pframe f) /\
    (off = 0 \/ off = 4).
Proof.
  intros K F P. destruct (ap_frame_inv f F) as (L & Len & B & _ & _). unfold auth_frame.
  assert (exists v, Join.Join.GetPrivacy f = Ret v) as [v V].
  { unfold Join.Join.GetPrivacy. destruct (byte_at_some (Join.Join.pframe f) 1) as (x & -> & _); [lia|]. by eexists. }
  rewrite V in P |- *. cbn [mbind res_bind].
  destruct v; [|eexists _, _; split; [done|]; by split_and!; [..|left]]. specialize (P eq_refl).
  destruct (byte_at_some (Join.Join.pframe f) (WLAN_HDR_A3_LEN + 3)) as (x & -> & _); [unfold WLAN_HDR_A3_LEN; lia|].
  cbn [mbind res_bind]. set (k := Z.land _ 3). assert (0 <= k < 4) as Rk.
  { unfold k. change 3 with (Z.ones 2). rewrite Z.land_ones by lia. apply Z.mod_pos_bound. lia. }
  assert (In k (seqZ 0 4)) as Ik by (apply list_elem_of_In, elem_of_seqZ; lia).
  pose proof (proj1 (forallb_forall _ _) K k Ik) as Kk. cbn beta in Kk. unfold RxPath.RxPath.of_rd.
  destruct (rd (dot11DefKey e) k) as [key|]; [|done]. destruct (rd (dot11DefKeylen e) k) as [n|]; [|done].
  cbn [RxCheck.RxCheck.of_opt mbind res_bind]. rewrite !andb_true_iff, !Z.leb_le in Kk.
  destruct (wep_decrypt_total key n WLAN_HDR_A3_LEN (Join.Join.pkt_len f) (Join.Join.pframe f) B) as (b' & -> & B' & L');
    [lia..|unfold WLAN_HDR_A3_LEN; lia|unfold WLAN_HDR_A3_LEN; lia|].
  eexists _, _. split; [done|]. by split_and!; [..|right].
Qed.

Lemma ap_step_ok la ls ph s : env_ok -> input_ok -> inv [] la ls ph s ->
  (td = true -> forall p, p ∈ ls -> p ∈ hash s) -> ends_ok (step e i s).
Proof.
  intros [R W K] Io I Ls. unfold input_ok in Io. unfold step.
  destruct i as [f|f|f|b st|b|b|] eqn:Ei.
  - destruct Io as [F P]. destruct (ap_frame_inv f F) as (L & Len & B & Ad & _).
    destruct (Ad 10) as [sa Sa]; [lia|].
    destruct (auth_frame_total f K F P) as (b & off & Ef & Bb & Lb & Off).
    assert (0 <= WLAN_HDR_A3_LEN + off /\ WLAN_HDR_A3_LEN + off + 2 + 2 <= zlen b) as [O1 O2].
    { unfold WLAN_HDR_A3_LEN. lia. }
    destruct (get_le16_some b (WLAN_HDR_A3_LEN + off)) as (alg & Ea & _); [done|lia|lia|].
    destruct (get_le16_some b (WLAN_HDR_A3_LEN + off + 2)) as (sq & Es & _); [done|lia|lia|].
    eapply OnAuth_ok; try done. lia.
  - destruct (ap_frame_inv f Io) as (L & Len & B & Ad & [ft Ft]). destruct (Ad 10) as [sa Sa]; [lia|].
    by eapply OnAssocReq_ok.
  - destruct (ap_frame_inv f Io) as (L & Len & B & Ad & _). destruct (Ad 10) as [sa Sa]; [lia|].
    destruct (Ad 16) as [a3 A3]; [lia|].
    destruct (get_le16_some (Join.Join.pframe f) WLAN_HDR_A3_LEN) as (r & Er & _); [done|by vm_compute|unfold WLAN_HDR_A3_LEN; lia|].
    by eapply OnDeAuth_ok.
  - by eapply external_auth_ok.
  - by eapply set_key_ok.
  - by eapply stadel_ok.
  - destruct (watchdog_ok _ _ _ _ I) as (s' & la' & ph' & E & I' & _). by eexists _, _, _, _.
Qed.
End inv.

(** ** Runs *)

Definition legal (l : list (env * input)) : Prop := Forall (λ x, env_ok x.1 /\ input_ok x.2) l.

(** No free entry is in the list of the associated stations. *)
Definition tidy (s : ap) : bool :=
  forallb (λ p, rtw_is_list_empty p (asoc_list (stapriv s))) (free_sta_queue (stapriv s)).

(** It is so before each step and at the end. *)
Fixpoint tidy_run (l : list (env * input)) (s : ap) : bool :=
  tidy s && match l with
            | [] => true
            | (e, i) :: l => match step e i (mk_ap (stapriv s) (ptime s) []) with Ret s => tidy_run l s | _ => false end
            end.

Section runs.
Context (a : list Z) (td : bool).

(** What holds between the steps. *)
Definition between (la ls : list nat) (ph : phase) (s : ap) : Prop :=
  exists e i ph0, inv e i a ph0 td [] la ls ph s.

Lemma between_start e i la ls ph s : between la ls ph s ->
  inv e i a ph td [] la ls ph (mk_ap (stapriv s) (ptime s) []).
Proof. intros (e' & i' & ph0 & [T S K A L P]). split; try done. constructor. Qed.

Lemma tidy_hash la ls ph s : between la ls ph s -> td = true -> tidy s = true -> forall p, p ∈ ls -> p ∈ hash s.
Proof.
  intros (e & i & ph0 & I) D Ti p P. destruct (i_asoc _ _ _ _ _ _ _ _ _ _ I D) as [Ln _ Lt _].
  destruct (decide (p ∈ hash s)) as [|N]; [done|].
  assert (p ∈ free_sta_queue (stapriv s)) as F.
  { pose proof (ok_parts _ _ (i_tab _ _ _ _ _ _ _ _ _ _ I)) as Q.
    assert (p ∈ free_sta_queue (stapriv s) ++ sta_hash (stapriv s)) as X.
    { rewrite Q. apply elem_of_seq. specialize (Lt p P). lia. }
    by apply elem_of_app in X as [X|X]. }
  pose proof (proj1 (forallb_forall _ _) Ti p (proj1 (list_elem_of_In _ _) F)) as E. cbn beta in E.
  rewrite (empty_linked _ _ _ Ln) in E by (apply not_head; auto). by rewrite bool_decide_eq_true_2 in E.
Qed.

Lemma ap_runs_ok l : forall la ls ph s, legal l -> between la ls ph s -> (td = true -> tidy_run l s = true) ->
  exists tr s' la' ls' ph', run l s = Ret (tr, s') /\ fst <$> tr = l /\ follows a ph tr ph' /\
    between la' ls' ph' s' /\ (td = true -> tidy s' = true).
Proof.
  induction l as [|[e i] l IH]; intros la ls ph s Lg B T.
  - eexists [], s, la, ls, ph. split_and!; try done; [constructor|]. intros D. specialize (T D).
    by apply andb_true_iff in T as [T _].
  - apply Forall_cons in Lg as [[Eo Io] Lg]. cbn [fst snd] in Eo, Io.
    destruct (ap_step_ok e i a ph td la ls ph (mk_ap (stapriv s) (ptime s) [])) as (s1 & la1 & ls1 & ph1 & E1 & I1);
      [done|done|by apply between_start| |].
    { intros D. specialize (T D). apply andb_true_iff in T as [T _]. exact (tidy_hash la ls ph s B D T). }
    cbn [run]. rewrite E1. cbn [mbind res_bind].
    destruct (IH la1 ls1 ph1 s1) as (tr & s' & la' & ls' & ph' & E2 & F & Fo & B' & T').
    + done.
    + by eexists e, i, ph.
    + intros D. specialize (T D). cbn [tidy_run] in T. rewrite E1 in T. by apply andb_true_iff in T as [_ T].
    + rewrite E2. cbn [mbind res_bind]. eexists _, s', la', ls', ph'. split; [done|]. split; [cbn; by rewrite F|].
      split_and!; try done. econstructor; [by apply (i_path _ _ _ _ _ _ _ _ _ _ I1)|done].
Qed.

(** Passes of the watchdog. *)
Lemma watchdogs_ok es : forall la ls ph s, between la ls ph s ->
  (forall p, p ∈ la -> expire_to (sta_of s p) <= Z.of_nat (length es)) ->
  exists tr s', run ((λ e, (e, Watchdog)) <$> es) s = Ret (tr, s') /\ nodes (auth_list (stapriv s')) = Ret [] /\
    auth_list_cnt (stapriv s') = 0 /\ (forall p, p ∈ la -> p ∉ hash s') /\ (forall p, p ∈ hash s' -> p ∈ hash s).
Proof.
  induction es as [|e es IH]; intros la ls ph s B Ti.
  - assert (la = []) as ->.
    { destruct la as [|p la]; [done|]. destruct B as (e & i & ph0 & I).
      assert (p ∈ hash s) as P by (apply (ok_auth_in _ _ (i_tab _ _ _ _ _ _ _ _ _ _ I)); by left).
      destruct (i_sta _ _ _ _ _ _ _ _ _ _ I p P) as [_ T _]; [by intros ?%elem_of_nil|].
      rewrite bool_decide_eq_true_2 in T by by left. specialize (T (or_introl eq_refl)).
      specialize (Ti p). cbn in Ti. rewrite elem_of_cons in Ti. specialize (Ti (or_introl eq_refl)). lia. }
    destruct B as (e & i & ph0 & I). pose proof (i_tab _ _ _ _ _ _ _ _ _ _ I) as T.
    eexists [], s. split_and!; [done| |apply (ok_auth_cnt _ _ T)| |done].
    + apply nodes_linked; [by apply (ok_auth _ _ T)|by constructor].
    + by intros p ?%elem_of_nil.
  - pose proof (between_start e Watchdog la ls ph s B) as I.
    destruct (watchdog_ok _ _ _ _ _ _ _ _ _ I) as (s1 & la1 & ph1 & E1 & I1 & Old & Gone & Sub).
    cbn [fmap list_fmap run step]. rewrite E1. cbn [mbind res_bind].
    destruct (IH la1 ls ph1 s1) as (tr & s' & -> & N & C & G & H).
    + by eexists e, Watchdog, ph.
    + intros p P. destruct (Old p P) as [P' ->]. specialize (Ti p P'). cbn [length] in Ti. unfold sta_of in *. cbn [stapriv]. lia.
    + cbn [mbind res_bind]. eexists _, s'. split_and!; [done..| |].
      * intros p P Q. destruct (decide (p ∈ la1)) as [|X]; [by apply (G p)|]. apply (Gone p P X). by apply H.
      * intros p Q. apply (Sub p). by apply H.
Qed.
End runs.

Definition phase0 (own a : list Z) : phase := if decide (a = own) then Known else Absent.

Lemma between_init own a td : between a td [] [] (phase0 own a) (init_ap own).
Proof.
  destruct (init_self own) as (T & A & H & E). set (t := rtw_init_self_stainfo _ _) in *.
  assert (forall q, q ∈ hash (init_ap own) -> q = 0%nat) as H0.
  { intros q Q. unfold hash, init_ap in Q. cbn [stapriv] in Q. fold t in Q. rewrite H in Q. by apply list_elem_of_singleton in Q. }
  assert (sta_of (init_ap own) 0 = set_phl_sta (Some own) sta0) as E0 by exact E.
  exists (mk_env own false 0 (mk_policy 0 0 0 0 0 0 0 0 0 false 0 None false false false) [] [] [] false (λ _, false)
    false true 0 0 0 0 [] 0), Watchdog, (phase0 own a).
  split; try done.
  - intros q Q _. rewrite (H0 q Q), E0. split; try done. by intros [?|?].
  - intros q Q. rewrite (H0 q Q), E0. cbn. intros [= ->]. unfold phase0. by rewrite decide_True.
  - unfold phase0. destruct (decide (a = own)) as [->|]; [|done]. intros _. exists 0%nat. rewrite E0. split; [|done].
    unfold hash, init_ap. cbn [stapriv]. fold t. rewrite H. by left.
  - constructor.
Qed.

(** ** What holds in every run *)

(** C11: An access point that starts with its own entry only answers every legal
    sequence of frames, requests and passes of the watchdog without reading outside a
    frame or using a station without an address, and keeps to the protocol with every
    address: an entry is made for stations that the access lists permit only and after
    the last one was freed; [Authenticated] has a ground in the frame (the first open
    frame, or the third one with the challenge) or the host's word; association
    responses and reports to the host go to authenticated stations only, and the
    reports are within the security policy. *)
Theorem auth_protocol own l (Lg : legal l) :
  exists tr s, run l (init_ap own) = Ret (tr, s) /\ fst <$> tr = l /\
    forall a, exists ph, follows a (phase0 own a) tr ph.
Proof.
  destruct (ap_runs_ok [] false l [] [] _ (init_ap own) Lg (between_init own [] false)) as (tr & s & _ & _ & _ & E & F & _);
    [done|].
  exists tr, s. split_and!; [done..|]. intros a.
  destruct (ap_runs_ok a false l [] [] _ (init_ap own) Lg (between_init own a false)) as (tr' & s' & _ & _ & ph & E' & _ & Fo & _);
    [done|].
  rewrite E in E'. injection E' as <- _. by exists ph.
Qed.

Lemma nodes_auth t la : table_ok t la -> nodes (auth_list t) = Ret la.
Proof.
  intros T. apply nodes_linked; [apply T|]. apply Forall_forall. intros p P. eapply hash_lt; [done|].
  by apply (ok_auth_in _ _ T).
Qed.

(** C19: The table is well formed after every legal run: the free entries and those of
    the hash table are the pool, each of the latter with an address of its own; the
    list of the stations that authenticate is a proper ring of entries of the hash
    table and its counter is its length.  As long as no entry is freed while it is in
    the list of the associated stations, that list is such a ring too, and the two have
    no entry in common. *)
Theorem table_invariant own l tr s (Lg : legal l) (R : run l (init_ap own) = Ret (tr, s)) :
  exists la, table_ok (stapriv s) la /\ nodes (auth_list (stapriv s)) = Ret la /\
    (tidy_run l (init_ap own) = true ->
     exists ls, asoc_ok (stapriv s) la ls /\ nodes (asoc_list (stapriv s)) = Ret ls /\
       forall p, p ∈ ls -> p ∈ sta_hash (stapriv s)).
Proof.
  destruct (ap_runs_ok [] false l [] [] _ (init_ap own) Lg (between_init own [] false))
    as (tr1 & s1 & la & ls & ph & E & _ & _ & (e & i & ph0 & I) & _); [done|].
  rewrite R in E. injection E as _ <-. pose proof (i_tab _ _ _ _ _ _ _ _ _ _ I) as T.
  exists la. split_and!; [done|by apply nodes_auth|]. intros Ti.
  destruct (ap_runs_ok [] true l [] [] _ (init_ap own) Lg (between_init own [] true))
    as (tr2 & s2 & la2 & ls2 & ph2 & E & _ & _ & B & Ti'); [done|].
  rewrite R in E. injection E as _ <-. pose proof (tidy_hash _ _ _ _ _ _ B eq_refl (Ti' eq_refl)) as H.
  destruct B as (e2 & i2 & ph3 & I2). pose proof (i_asoc _ _ _ _ _ _ _ _ _ _ I2 eq_refl) as A.
  assert (la2 = la) as ->.
  { pose proof (nodes_auth _ _ (i_tab _ _ _ _ _ _ _ _ _ _ I2)) as N. rewrite (nodes_auth _ _ T) in N. by injection N. }
  exists ls2. split_and!; [done| |done]. apply nodes_linked; [apply A|]. apply Forall_forall. intros p P.
  by apply (ok_asoc_lt _ _ _ A).
Qed.

(** C29: No station stays half way: after a legal run, sixty passes of the watchdog
    without other steps empty the list of the stations that authenticate, and the
    entries that were in it are freed; no entry is made by them. *)
Theorem auth_expires own l tr s la es (Lg : legal l) (R : run l (init_ap own) = Ret (tr, s))
    (La : nodes (auth_list (stapriv s)) = Ret la) (N : Z.of_nat (length es) = MAX_TIME) :
  exists tr' s', run ((λ e, (e, Watchdog)) <$> es) s = Ret (tr', s') /\
    nodes (auth_list (stapriv s')) = Ret [] /\ auth_list_cnt (stapriv s') = 0 /\
    (forall p, p ∈ la -> p ∉ sta_hash (stapriv s')) /\
    (forall p, p ∈ sta_hash (stapriv s') -> p ∈ sta_hash (stapriv s)).
Proof.
  destruct (ap_runs_ok [] false l [] [] _ (init_ap own) Lg (between_init own [] false))
    as (tr1 & s1 & la1 & ls & ph & E & _ & _ & B & _); [done|].
  rewrite R in E. injection E as _ <-. assert (la1 = la) as ->.
  { destruct B as (e & i & ph0 & I). pose proof (nodes_auth _ _ (i_tab _ _ _ _ _ _ _ _ _ _ I)) as X. congruence. }
  apply (watchdogs_ok [] false es la ls ph s B). intros p P. destruct B as (e & i & ph0 & I).
  pose proof (ok_auth_in _ _ (i_tab _ _ _ _ _ _ _ _ _ _ I) p P) as Q.
  destruct (i_sta _ _ _ _ _ _ _ _ _ _ I p Q) as [_ T _]; [by intros ?%elem_of_nil|].
  rewrite N. apply T. left. by apply bool_decide_eq_true.
Qed.

(** ** Examples *)

Definition demo_own : list Z := [2; 0; 0; 0; 0; 1].
Definition demo_sta : list Z := [2; 0; 0; 0; 0; 9].
Definition wep_policy : policy := mk_policy 0 0 0 0 0 0 0 0 _WEP40_ false 0 None false false false.
(** An access point for RSN with open authentication ([alg] 0), or for WEP (1). *)
Definition demo_env (alg mfp : Z) : env :=
  mk_env demo_own true alg (if alg =? 0 then wpa2_policy mfp else wep_policy)
    (replicate 4 (replicate 16 1)) (replicate 4 5) [] false (λ _, false) true true 1 1000 5 2 [65; 66] 0x11.
Definition demo_frame (st flags : Z) (sa body : list Z) : Join.Join.mframe :=
  let b := [st; flags; 0; 0] ++ demo_own ++ sa ++ demo_own ++ [0; 0] ++ body in
  Join.Join.mk_mframe (b ++ replicate 300 0) (zlen b).
Definition demo_auth (sa : list Z) (alg sq : Z) (ies : list Z) : input :=
  Auth (demo_frame 0xb0 0 sa (put_le16 alg ++ put_le16 sq ++ [0; 0] ++ ies)).
Definition demo_assoc (ies : list Z) : input := AssocReq (demo_frame 0 0 demo_sta ([0x11; 0; 1; 0] ++ ies)).
Definition demo_ies : list Z :=
  [0; 2; 65; 66; 1; 4; 0x82; 0x84; 0x0b; 0x16; 48; 20; 1; 0; 0; 15; 172; 4; 1; 0; 0; 15; 172; 4; 1; 0; 0; 15; 172; 2; 0x80; 0].
Definition demo_deauth : input := DeAuth (demo_frame 0xc0 0 demo_sta [3; 0]).

(** The events of the steps, the two lists, the second one's counter and the hash table. *)
Definition demo_run (e : env) (l : list input)
    : option (list (list event) * res (list nat) * res (list nat) * Z * list nat) :=
  match run ((λ i, (e, i)) <$> l) (init_ap demo_own) with
  | Ret (tr, s) => Some (snd <$> tr, nodes (auth_list (stapriv s)), nodes (asoc_list (stapriv s)),
                         asoc_list_cnt (stapriv s), sta_hash (stapriv s))
  | _ => None
  end.

Lemma demo_env_ok alg mfp : env_ok (demo_env alg mfp).
Proof. split; [done| |by vm_compute]. unfold demo_env. cbn. by destruct (alg =? 0). Qed.

(** A station joins with open authentication and leaves; another one with a shared key;
    then an address that the first step of the shared key only reaches. *)
Definition demo_open : list (env * input) :=
  (λ i, (demo_env 0 2, i)) <$> [demo_auth demo_sta 0 1 []; demo_assoc demo_ies; SetKey demo_sta; demo_deauth; StaDel demo_sta].
Definition demo_shared : list (env * input) :=
  (λ i, (demo_env 1 0, i)) <$>
    [demo_auth demo_sta 1 1 []; demo_auth demo_sta 1 3 ([0; 0; 0; 0; 16; 128] ++ CHALLENGE); Watchdog; demo_auth [2; 0; 0; 0; 0; 10] 1 1 []].

Lemma demo_open_legal : legal demo_open.
Proof.
  unfold legal, demo_open. cbn [fmap list_fmap].
  repeat (apply Forall_cons; split; [split; [apply demo_env_ok|cbn [snd input_ok demo_auth demo_assoc demo_deauth]]|]);
    try done.
Qed.

Lemma demo_shared_legal : legal demo_shared.
Proof.
  unfold legal, demo_shared. cbn [fmap list_fmap].
  repeat (apply Forall_cons; split; [split; [apply demo_env_ok|cbn [snd input_ok demo_auth]]|]);
    try done; (split; [by vm_compute|by vm_compute]).
Qed.

Lemma auth_protocol_witness : exists tr s,
  run (demo_open ++ demo_shared) (init_ap demo_own) = Ret (tr, s) /\ fst <$> tr = demo_open ++ demo_shared /\
  forall a, exists ph, follows a (phase0 demo_own a) tr ph.
Proof. apply auth_protocol. apply Forall_app. split; [apply demo_open_legal|apply demo_shared_legal]. Defined.

Lemma table_invariant_witness : exists tr s ls,
  run (take 3 demo_open) (init_ap demo_own) = Ret (tr, s) /\
  asoc_ok (stapriv s) [] ls /\ nodes (asoc_list (stapriv s)) = Ret ls /\ ls = [1%nat].
Proof.
  destruct (run (take 3 demo_open) (init_ap demo_own)) as [[tr s]| |] eqn:R; [|by vm_compute in R..].
  destruct (table_invariant demo_own (take 3 demo_open) tr s) as (la & T & N & A);
    [apply Forall_take, demo_open_legal|done|].
  destruct (A ltac:(by vm_compute)) as (ls & O & L & _). vm_compute in R. injection R as <- <-.
  assert (la = []) as -> by (vm_compute in N; by injection N).
  eexists _, _, ls. split; [done|]. split; [done|]. split; [done|]. vm_compute in L. by injection L.
Defined.

Lemma auth_expires_witness : exists tr s tr' s',
  run demo_shared (init_ap demo_own) = Ret (tr, s) /\ nodes (auth_list (stapriv s)) = Ret [1%nat; 2%nat] /\
  run ((λ e, (e, Watchdog)) <$> replicate 60 (demo_env 1 0)) s = Ret (tr', s') /\
  nodes (auth_list (stapriv s')) = Ret [] /\ (1%nat ∉ sta_hash (stapriv s')).
Proof.
  destruct (run demo_shared (init_ap demo_own)) as [[tr s]| |] eqn:R; [|by vm_compute in R..].
  assert (nodes (auth_list (stapriv s)) = Ret [1%nat; 2%nat]) as N.
  { vm_compute in R. injection R as _ <-. by vm_compute. }
  destruct (auth_expires demo_own demo_shared tr s [1%nat; 2%nat] (replicate 60 (demo_env 1 0)))
    as (tr' & s' & E & L & _ & G & _); [apply demo_shared_legal|done|done|done|].
  exists tr, s, tr', s'. split; [done|]. split; [done|]. split; [done|]. split; [done|]. apply G. by left.
Defined.

(** ** Where the code is weaker than it means to be *)

(** The challenge is always the same, and its answer is taken without encryption, four
    bytes further than where it is then, with any length of the element. *)
Example challenge_in_plaintext : exists ev1 ev2,
  demo_run (demo_env 1 0) [demo_auth demo_sta 1 1 []; demo_auth demo_sta 1 3 ([0; 0; 0; 0; 16; 1] ++ CHALLENGE)]
    = Some ([ev1; [Authenticated demo_sta; ev2]], Ret [1%nat], Ret [], 0, [0%nat; 1%nat]).
Proof. eexists _, _. by vm_compute. Qed.

Example challenge_where_it_is : exists evs,
  demo_run (demo_env 1 0) [demo_auth demo_sta 1 1 []; demo_auth demo_sta 1 3 ([16; 128] ++ CHALLENGE)]
    = Some (evs, Ret [], Ret [], 0, [0%nat]).
Proof. eexists. by vm_compute. Qed.

(** A protected frame without a whole initialisation vector: the length of the payload
    is negative. *)
Example short_protected_auth : step (demo_env 1 0) (Auth (demo_frame 0xb0 64 demo_sta [1; 0])) (init_ap demo_own) = Oob.
Proof. by vm_compute. Qed.

(** A frame with the access point's own address as its source frees its own entry. *)
Example own_entry_freed : exists evs,
  demo_run (demo_env 0 2) [demo_auth demo_own 0 2 []] = Some (evs, Ret [], Ret [], 0, []).
Proof. eexists. by vm_compute. Qed.

(** An associated station that sends a bad request is freed while it is in the list of
    the associated stations: entry 1 stays there and is counted. *)
Example freed_while_associated : exists evs,
  demo_run (demo_env 0 2) [demo_auth demo_sta 0 1 []; demo_assoc demo_ies; demo_assoc []]
    = Some (evs, Ret [], Ret [1%nat], 1, [0%nat]).
Proof. eexists. by vm_compute. Qed.

(** A station that restarts the shared key's authentication fails at its third frame. *)
Example shared_key_again : exists evs,
  demo_run (demo_env 1 0)
    (let a := [demo_auth demo_sta 1 1 []; demo_auth demo_sta 1 3 ([0; 0; 0; 0; 16; 128] ++ CHALLENGE)] in a ++ a)
    = Some (evs, Ret [], Ret [], 0, [0%nat]).
Proof. eexists. by vm_compute. Qed.

(** After a deauthentication a station is associated without authentication, until the
    queued command frees its entry, in the list. *)
Example associated_after_deauth : exists ev1 ev2 x ev4 ev5,
  demo_run (demo_env 0 2) [demo_auth demo_sta 0 1 []; demo_assoc demo_ies; demo_deauth; demo_assoc demo_ies; StaDel demo_sta]
    = Some ([ev1; ev2; [TxDeauth demo_sta _RSON_CLS2_; DelSta demo_sta _RSON_CLS2_]; [ev4; AddSta demo_sta x]; ev5],
            Ret [], Ret [1%nat], 1, [0%nat]).
Proof. eexists _, _, _, _, _. by vm_compute. Qed.
End ApAuthInv.
