(* ===== verification/Chan.v ===== *)
(** * Channels, bandwidths and operating classes (core/rtw_rf.c, phl/phl_chan.c)

    A channel setting is a primary 20 MHz channel, a bandwidth and the side on
    which a 40 MHz channel extends.  Module [Chan] has the tables of centre
    channels with the 20 MHz channels they cover, the arithmetic that finds a
    centre channel and its frequencies, and the global operating classes, and
    proves that tables and arithmetic agree.  Channel numbers are [u8]; the
    theorems over all of them are decided by evaluation. *)

From S2P Require Import Prelude.

(** ** Finite ranges of integers *)

(** A property of the integers of a range is decided by evaluation. *)
Lemma Forall_seqZ (P : Z -> Prop) lo n :
  Forall P (seqZ lo n) <-> forall x, lo <= x < lo + n -> P x.
Proof. rewrite Forall_forall. setoid_rewrite elem_of_seqZ. naive_solver. Qed.

Module Chan.

(** ** Enumerations (phl/rtw_general_def.h, include/rtw_rf.h) *)

Definition CHANNEL_WIDTH_20 : Z := 0.
Definition CHANNEL_WIDTH_40 : Z := 1.
Definition CHANNEL_WIDTH_80 : Z := 2.
Definition CHANNEL_WIDTH_160 : Z := 3.
Definition CHANNEL_WIDTH_80_80 : Z := 4.
Definition CHANNEL_WIDTH_5 : Z := 5.
Definition CHANNEL_WIDTH_10 : Z := 6.
Definition CHANNEL_WIDTH_MAX : Z := 7.

Definition CHAN_OFFSET_NO_EXT : Z := 0.
Definition CHAN_OFFSET_UPPER : Z := 1.
Definition CHAN_OFFSET_NO_DEF : Z := 2.
Definition CHAN_OFFSET_LOWER : Z := 3.

Definition BAND_ON_24G : Z := 0.
Definition BAND_ON_5G : Z := 1.
Definition BAND_ON_6G : Z := 2.
Definition BAND_MAX : Z := 3.

Definition OPC_BW20 : Z := 0.
Definition OPC_BW40PLUS : Z := 1.
Definition OPC_BW40MINUS : Z := 2.
Definition OPC_BW80 : Z := 3.
Definition OPC_BW160 : Z := 4.
Definition OPC_BW80P80 : Z := 5.
Definition OPC_BW_NUM : Z := 6.

(** [x >= lo && x <= hi]. *)
Definition within (lo x hi : Z) : bool := (lo <=? x) && (x <=? hi).

Definition rtw_is_2g_ch (ch : Z) : bool := within 1 ch 14.
Definition rtw_is_5g_ch (ch : Z) : bool := within 36 ch 177.
Definition rtw_is_same_band (a b : Z) : bool :=
  (rtw_is_2g_ch a && rtw_is_2g_ch b) || (rtw_is_5g_ch a && rtw_is_5g_ch b).

(** ** Tables of centre channels and the 20 MHz channels below them *)

Definition center_ch_2g : list Z := [1; 2; 3; 4; 5; 6; 7; 8; 9; 10; 11; 12; 13; 14].

Definition center_ch_2g_40m : list Z := [3; 4; 5; 6; 7; 8; 9; 10; 11].

Definition op_chs_of_cch_2g_40m : list Z :=
  [1; 5; 2; 6; 3; 7; 4; 8; 5; 9; 6; 10; 7; 11; 8; 12; 9; 13].

Definition center_ch_5g_all : list Z :=
  [36; 38; 40; 42; 44; 46; 48; 52; 54; 56; 58; 60; 62; 64;
   100; 102; 104; 106; 108; 110; 112; 116; 118; 120; 122; 124; 126; 128;
   132; 134; 136; 138; 140; 142; 144; 149; 151; 153; 155; 157; 159; 161;
   165; 167; 169; 171; 173; 175; 177].

Definition center_ch_5g_20m : list Z :=
  [36; 40; 44; 48; 52; 56; 60; 64; 100; 104; 108; 112; 116; 120; 124; 128;
   132; 136; 140; 144; 149; 153; 157; 161; 165; 169; 173; 177].

Definition ch_to_cch_5g_20m_idx (ch : Z) : Z :=
  if within 36 ch 64 then Z.shiftr (ch - 36) 2
  else if within 100 ch 144 then 8 + Z.shiftr (ch - 100) 2
  else if within 149 ch 177 then 20 + Z.shiftr (ch - 149) 2 else 255.

Definition center_ch_5g_40m : list Z :=
  [38; 46; 54; 62; 102; 110; 118; 126; 134; 142; 151; 159; 167; 175].

Definition center_ch_5g_20m_40m : list Z :=
  [36; 38; 40; 44; 46; 48; 52; 54; 56; 60; 62; 64; 100; 102; 104; 108; 110; 112;
   116; 118; 120; 124; 126; 128; 132; 134; 136; 140; 142; 144; 149; 151; 153;
   157; 159; 161; 165; 167; 169; 173; 175; 177].

Definition op_chs_of_cch_5g_40m : list Z :=
  [36; 40; 44; 48; 52; 56; 60; 64; 100; 104; 108; 112; 116; 120; 124; 128;
   132; 136; 140; 144; 149; 153; 157; 161; 165; 169; 173; 177].

Definition center_ch_5g_80m : list Z := [42; 58; 106; 122; 138; 155; 171].

Definition op_chs_of_cch_5g_80m : list Z :=
  [36; 40; 44; 48; 52; 56; 60; 64; 100; 104; 108; 112; 116; 120; 124; 128;
   132; 136; 140; 144; 149; 153; 157; 161; 165; 169; 173; 177].

Definition center_ch_5g_160m : list Z := [50; 114; 163].

Definition op_chs_of_cch_5g_160m : list Z :=
  [36; 40; 44; 48; 52; 56; 60; 64; 100; 104; 108; 112; 116; 120; 124; 128;
   149; 153; 157; 161; 165; 169; 173; 177].

(** [struct center_chs_ent_t] is the list itself: [ch_num] is its length. *)
Definition center_chs_2g_by_bw : list (list Z) := [center_ch_2g; center_ch_2g_40m].
Definition center_chs_5g_by_bw : list (list Z) :=
  [center_ch_5g_20m; center_ch_5g_40m; center_ch_5g_80m; center_ch_5g_160m].

(** [struct op_chs_ent_t]. *)
Record op_chs_ent_t := OpChs { op_ch_num : Z; op_chs_chs : list Z }.

Definition op_chs_of_cch_2g_by_bw : list op_chs_ent_t :=
  [OpChs 1 center_ch_2g; OpChs 2 op_chs_of_cch_2g_40m].
Definition op_chs_of_cch_5g_by_bw : list op_chs_ent_t :=
  [OpChs 1 center_ch_5g_20m; OpChs 2 op_chs_of_cch_5g_40m;
   OpChs 4 op_chs_of_cch_5g_80m; OpChs 8 op_chs_of_cch_5g_160m].

(** ** Centre channels *)

Definition rtw_get_scch_by_cch_offset (cch bw offset : Z) : Z :=
  let side d := if offset =? CHAN_OFFSET_LOWER then u8 (cch + d) else u8 (cch - d) in
  if bw =? CHANNEL_WIDTH_20 then cch
  else if offset =? CHAN_OFFSET_NO_EXT then 0
  else if within 3 cch 11 && (bw =? CHANNEL_WIDTH_40) then side 2
  else if within 50 cch 163 && (bw =? CHANNEL_WIDTH_160) then side 8
  else if within 42 cch 171 && (bw =? CHANNEL_WIDTH_80) then side 4
  else if within 38 cch 175 && (bw =? CHANNEL_WIDTH_40) then side 2
  else 0.

(** [t[i]] of a table of lists. *)
Definition tbl {A} (t : list (list A)) (i : Z) : list A := nth (Z.to_nat i) t [].

Definition center_chs_2g_num (bw : Z) : Z :=
  if bw >? CHANNEL_WIDTH_40 then 0 else Z.of_nat (length (tbl center_chs_2g_by_bw bw)).
Definition center_chs_2g (bw id : Z) : option Z :=
  if bw >? CHANNEL_WIDTH_40 then Some 0
  else if id >=? center_chs_2g_num bw then Some 0
  else rd (tbl center_chs_2g_by_bw bw) id.
Definition center_chs_5g_num (bw : Z) : Z :=
  if bw >? CHANNEL_WIDTH_160 then 0 else Z.of_nat (length (tbl center_chs_5g_by_bw bw)).
Definition center_chs_5g (bw id : Z) : option Z :=
  if bw >? CHANNEL_WIDTH_160 then Some 0
  else if id >=? center_chs_5g_num bw then Some 0
  else rd (tbl center_chs_5g_by_bw bw) id.

(** The loop over the centre channels, and the slice of the flat table that
    the index selects. *)
Definition op_chs_in (c_chs : list Z) (e : op_chs_ent_t) (cch : Z) : option (list Z) :=
  match list_find (cch =.) c_chs with
  | None => None
  | Some (i, _) =>
      Some (take (Z.to_nat (op_ch_num e)) (drop (Z.to_nat (op_ch_num e) * i) (op_chs_chs e)))
  end.

(** [None] is the return value 0: [*op_chs] and [*op_ch_num] are not written. *)
Definition rtw_get_op_chs_by_cch_bw (cch bw : Z) : option (list Z) :=
  if (cch <=? 14) && (bw <=? CHANNEL_WIDTH_40)
  then op_chs_in (tbl center_chs_2g_by_bw bw)
         (nth (Z.to_nat bw) op_chs_of_cch_2g_by_bw (OpChs 0 [])) cch
  else if within 36 cch 177 && (bw <=? CHANNEL_WIDTH_160)
  then op_chs_in (tbl center_chs_5g_by_bw bw)
         (nth (Z.to_nat bw) op_chs_of_cch_5g_by_bw (OpChs 0 [])) cch
  else None.

Definition one_of (ch : Z) (l : list Z) : bool := existsb (Z.eqb ch) l.

(** The return value and what [*r_offset] holds afterwards; it is written when
    the setting is valid. *)
Definition rtw_get_offset_by_chbw (ch bw r_offset : Z) : bool * Z :=
  let valid offset := (true, offset) in
  let invalid := (false, r_offset) in
  if bw =? CHANNEL_WIDTH_20 then valid CHAN_OFFSET_NO_EXT
  else if (bw >=? CHANNEL_WIDTH_80) && (ch <=? 14) then invalid
  else if within 1 ch 4 then valid CHAN_OFFSET_UPPER
  else if within 5 ch 9 then
    if (r_offset =? CHAN_OFFSET_UPPER) || (r_offset =? CHAN_OFFSET_LOWER)
    then valid r_offset else valid CHAN_OFFSET_LOWER
  else if within 10 ch 13 then valid CHAN_OFFSET_LOWER
  else if ch =? 14 then invalid
  else if within 36 ch 177 then
    if one_of ch [36; 44; 52; 60; 100; 108; 116; 124; 132; 140; 149; 157; 165; 173]
    then valid CHAN_OFFSET_UPPER
    else if one_of ch [40; 48; 56; 64; 104; 112; 120; 128; 136; 144; 153; 161; 169; 177]
    then valid CHAN_OFFSET_LOWER
    else invalid
  else invalid.

Definition rtw_phl_get_band_type (chan : Z) : Z :=
  if chan >? 14 then BAND_ON_5G else BAND_ON_24G.

Definition rtw_phl_get_center_ch (ch bw offset : Z) : Z :=
  if bw =? CHANNEL_WIDTH_160 then
    if ch mod 4 =? 0 then
      if within 36 ch 64 then 50
      else if within 100 ch 128 then 114 else ch
    else if ch mod 4 =? 1 then
      if within 149 ch 177 then 163 else ch
    else ch
  else if bw =? CHANNEL_WIDTH_80 then
    if ch <=? 14 then 7
    else if ch mod 4 =? 0 then
      if within 36 ch 48 then 42
      else if within 52 ch 64 then 58
      else if within 100 ch 112 then 106
      else if within 116 ch 128 then 122
      else if within 132 ch 144 then 138 else ch
    else if ch mod 4 =? 1 then
      if within 149 ch 161 then 155
      else if within 165 ch 177 then 171 else ch
    else ch
  else if bw =? CHANNEL_WIDTH_40 then
    if offset =? CHAN_OFFSET_UPPER then u8 (ch + 2)
    else if offset =? CHAN_OFFSET_LOWER then u8 (ch - 2) else ch
  else ch.

Definition rtw_get_center_ch (ch bw offset : Z) : Z := rtw_phl_get_center_ch ch bw offset.

(** The band, and the groups when [*group] and [*cck_group] are written. *)
Definition rtw_get_ch_group (ch : Z) : Z * option Z * option Z :=
  if ch <=? 14 then
    let gp :=
      if within 1 ch 2 then 0 else if within 3 ch 5 then 1 else if within 6 ch 8 then 2
      else if within 9 ch 11 then 3 else if within 12 ch 14 then 4 else -1 in
    let cck_gp := if ch =? 14 then 5 else gp in
    if gp =? -1 then (BAND_MAX, None, None) else (BAND_ON_24G, Some gp, Some cck_gp)
  else
    let gp :=
      if within 36 ch 42 then 0 else if within 44 ch 48 then 1 else if within 50 ch 58 then 2
      else if within 60 ch 64 then 3 else if within 100 ch 106 then 4
      else if within 108 ch 114 then 5 else if within 116 ch 122 then 6
      else if within 124 ch 130 then 7 else if within 132 ch 138 then 8
      else if within 140 ch 144 then 9 else if within 149 ch 155 then 10
      else if within 157 ch 161 then 11 else if within 165 ch 171 then 12
      else if within 173 ch 177 then 13 else -1 in
    if gp =? -1 then (BAND_MAX, None, None) else (BAND_ON_5G, Some gp, None).

(** ** Frequencies *)

Definition rtw_ch2freq (chan : Z) : Z :=
  if within 1 chan 14 then if chan =? 14 then 2484 else 2407 + chan * 5
  else if within 36 chan 177 then 5000 + chan * 5
  else 0.

Definition rtw_freq2ch (freq : Z) : Z :=
  if freq =? 2484 then 14
  else if freq <? 2484 then Z.quot (freq - 2407) 5
  else if within 4910 freq 4980 then Z.quot (freq - 4000) 5
  else if freq <=? 45000 then Z.quot (freq - 5000) 5
  else if within 58320 freq 64800 then Z.quot (freq - 56160) 2160
  else 0.

(** The return value with [*hi] and [*lo]. *)
Definition rtw_chbw_to_freq_range (ch bw offset : Z) : bool * Z * Z :=
  let freq := rtw_ch2freq (rtw_phl_get_center_ch ch bw offset) in
  let range d := (true, u32 (freq + d), u32 (freq - d)) in
  if freq =? 0 then (false, 0, 0)
  else if bw =? CHANNEL_WIDTH_160 then range 80
  else if bw =? CHANNEL_WIDTH_80 then range 40
  else if bw =? CHANNEL_WIDTH_40 then range 20
  else if bw =? CHANNEL_WIDTH_20 then range 10
  else (true, 0, 0).

(** ** Capabilities of the chip *)

Definition _band_to_band_cap : list Z := [BIT 0; BIT 1; BIT 2; 0].
Definition band_to_band_cap (band : Z) : Z :=
  if band >=? BAND_MAX then nth 3 _band_to_band_cap 0 else nth (Z.to_nat band) _band_to_band_cap 0.
Definition _ch_width_to_bw_cap : list Z :=
  [BIT 0; BIT 1; BIT 2; BIT 3; BIT 4; BIT 5; BIT 6].
Definition ch_width_to_bw_cap (bw : Z) : Z :=
  if bw <? CHANNEL_WIDTH_MAX then nth (Z.to_nat bw) _ch_width_to_bw_cap 0 else 0.

(** The fields of [struct hal_spec_t] used here. *)
Record hal_spec_t := HalSpec { band_cap : Z; bw_cap : Z }.

Definition rtw_hw_is_band_support (d : hal_spec_t) (band : Z) : bool :=
  negb (Z.land (band_cap d) (band_to_band_cap band) =? 0).
Definition rtw_hw_is_bw_support (d : hal_spec_t) (bw : Z) : bool :=
  negb (Z.land (bw_cap d) (ch_width_to_bw_cap bw) =? 0).

(** The loop counts down from [in_bw], at most 255. *)
Fixpoint largest_bw (fuel : nat) (d : hal_spec_t) (in_bw : Z) : Z :=
  match fuel with
  | O => in_bw
  | S fuel =>
      if in_bw >? CHANNEL_WIDTH_20
      then if rtw_hw_is_bw_support d in_bw then in_bw else largest_bw fuel d (in_bw - 1)
      else in_bw
  end.
Definition rtw_hw_largest_bw (d : hal_spec_t) (in_bw : Z) : Z :=
  largest_bw (Z.to_nat in_bw) d in_bw.

(** ** Global operating classes *)

Definition _opc_bw_to_ch_width : list Z :=
  [CHANNEL_WIDTH_20; CHANNEL_WIDTH_40; CHANNEL_WIDTH_40; CHANNEL_WIDTH_80;
   CHANNEL_WIDTH_160; CHANNEL_WIDTH_80_80].
Definition opc_bw_to_ch_width (bw : Z) : Z :=
  if bw <? OPC_BW_NUM then nth (Z.to_nat bw) _opc_bw_to_ch_width 0 else CHANNEL_WIDTH_MAX.

Record op_class_t := mk_op_class {
  class_id : Z;
  opc_band : Z;
  opc_bw : Z;
  len_ch_attr : list Z
}.

Definition OPC_CH_LIST_LEN (o : op_class_t) : Z := nth 0 (len_ch_attr o) 0.
Definition OPC_CH_LIST_CH (o : op_class_t) (i : Z) : Z := nth (Z.to_nat (i + 1)) (len_ch_attr o) 0.

Definition OP_CLASS_ENT (class band bw len : Z) (arg : list Z) : op_class_t :=
  mk_op_class class band bw (len :: arg).

Definition global_op_class : list op_class_t := [
  OP_CLASS_ENT 81 BAND_ON_24G OPC_BW20 13 [1; 2; 3; 4; 5; 6; 7; 8; 9; 10; 11; 12; 13];
  OP_CLASS_ENT 82 BAND_ON_24G OPC_BW20 1 [14];
  OP_CLASS_ENT 83 BAND_ON_24G OPC_BW40PLUS 9 [1; 2; 3; 4; 5; 6; 7; 8; 9];
  OP_CLASS_ENT 84 BAND_ON_24G OPC_BW40MINUS 9 [5; 6; 7; 8; 9; 10; 11; 12; 13];
  OP_CLASS_ENT 115 BAND_ON_5G OPC_BW20 4 [36; 40; 44; 48];
  OP_CLASS_ENT 116 BAND_ON_5G OPC_BW40PLUS 2 [36; 44];
  OP_CLASS_ENT 117 BAND_ON_5G OPC_BW40MINUS 2 [40; 48];
  OP_CLASS_ENT 118 BAND_ON_5G OPC_BW20 4 [52; 56; 60; 64];
  OP_CLASS_ENT 119 BAND_ON_5G OPC_BW40PLUS 2 [52; 60];
  OP_CLASS_ENT 120 BAND_ON_5G OPC_BW40MINUS 2 [56; 64];
  OP_CLASS_ENT 121 BAND_ON_5G OPC_BW20 12
    [100; 104; 108; 112; 116; 120; 124; 128; 132; 136; 140; 144];
  OP_CLASS_ENT 122 BAND_ON_5G OPC_BW40PLUS 6 [100; 108; 116; 124; 132; 140];
  OP_CLASS_ENT 123 BAND_ON_5G OPC_BW40MINUS 6 [104; 112; 120; 128; 136; 144];
  OP_CLASS_ENT 124 BAND_ON_5G OPC_BW20 4 [149; 153; 157; 161];
  OP_CLASS_ENT 125 BAND_ON_5G OPC_BW20 6 [149; 153; 157; 161; 165; 169];
  OP_CLASS_ENT 126 BAND_ON_5G OPC_BW40PLUS 2 [149; 157];
  OP_CLASS_ENT 127 BAND_ON_5G OPC_BW40MINUS 2 [153; 161];
  OP_CLASS_ENT 128 BAND_ON_5G OPC_BW80 24
    [36; 40; 44; 48; 52; 56; 60; 64; 100; 104; 108; 112; 116; 120; 124; 128;
     132; 136; 140; 144; 149; 153; 157; 161];
  OP_CLASS_ENT 129 BAND_ON_5G OPC_BW160 16
    [36; 40; 44; 48; 52; 56; 60; 64; 100; 104; 108; 112; 116; 120; 124; 128] ].

(** A pointer into the table is the entry. *)
Definition get_global_op_class_by_id (gid : Z) : option op_class_t :=
  find (fun o => class_id o =? gid) global_op_class.
Definition is_valid_global_op_class_id (gid : Z) : bool :=
  is_Some_b (get_global_op_class_by_id gid).
Definition is_valid_global_op_class_ch (opc : op_class_t) (ch : Z) : bool :=
  existsb (fun i => OPC_CH_LIST_CH opc i =? ch) (seqZ 0 (OPC_CH_LIST_LEN opc)).
Definition get_global_opc_bw_by_id (gid : Z) : Z :=
  match get_global_op_class_by_id gid with Some o => opc_bw o | None => OPC_BW_NUM end.

Definition get_sub_op_class (gid ch : Z) : Z :=
  match get_global_op_class_by_id gid with
  | None => -1
  | Some opc =>
      if negb (is_valid_global_op_class_ch opc ch) then -1
      else if opc_bw opc =? OPC_BW20 then 0
      else
        let bw := opc_bw_to_ch_width (opc_bw opc) in
        match find (fun o => (bw =? opc_bw_to_ch_width (opc_bw o) + 1)
                             && is_valid_global_op_class_ch o ch) global_op_class with
        | Some o => class_id o
        | None => -2
        end
  end.

(** The self-check of a table entry ([gid] is its index, here the entry). *)
Definition dbg_global_op_class_validate (o : op_class_t) : bool :=
  let check bw offset :=
    forallb (fun i =>
      let ch := OPC_CH_LIST_CH o i in
      let cch := rtw_get_center_ch ch bw offset in
      if cch =? 0 then false
      else match rtw_get_op_chs_by_cch_bw cch bw with
           | None => false
           | Some op_chs => one_of ch op_chs
           end) (seqZ 0 (OPC_CH_LIST_LEN o)) in
  if opc_bw o =? OPC_BW20 then check CHANNEL_WIDTH_20 CHAN_OFFSET_NO_EXT
  else if opc_bw o =? OPC_BW40PLUS then check CHANNEL_WIDTH_40 CHAN_OFFSET_UPPER
  else if opc_bw o =? OPC_BW40MINUS then check CHANNEL_WIDTH_40 CHAN_OFFSET_LOWER
  else if opc_bw o =? OPC_BW80 then check CHANNEL_WIDTH_80 CHAN_OFFSET_NO_EXT
  else if opc_bw o =? OPC_BW160 then check CHANNEL_WIDTH_160 CHAN_OFFSET_NO_EXT
  else false.

Definition rtw_get_op_class_by_chbw (ch bw offset : Z) : Z :=
  let band := if rtw_is_2g_ch ch then BAND_ON_24G
              else if rtw_is_5g_ch ch then BAND_ON_5G else BAND_MAX in
  if band =? BAND_MAX then 0
  else if negb (within CHANNEL_WIDTH_20 bw CHANNEL_WIDTH_160) then 0
  else
    match find (fun o =>
        (band =? opc_band o) && (opc_bw_to_ch_width (opc_bw o) =? bw)
        && negb (((opc_bw o =? OPC_BW40PLUS) && negb (offset =? CHAN_OFFSET_UPPER))
                 || ((opc_bw o =? OPC_BW40MINUS) && negb (offset =? CHAN_OFFSET_LOWER)))
        && is_valid_global_op_class_ch o ch) global_op_class with
    | Some o => class_id o
    | None => 0
    end.

(** The return value with [*bw] and [*offset]. *)
Definition rtw_get_bw_offset_by_op_class_ch (gid ch bw offset : Z) : bool * Z * Z :=
  let opc_bw := get_global_opc_bw_by_id gid in
  if opc_bw =? OPC_BW_NUM then (false, bw, offset)
  else
    let bw := opc_bw_to_ch_width opc_bw in
    let offset := if opc_bw =? OPC_BW40PLUS then CHAN_OFFSET_UPPER
                  else if opc_bw =? OPC_BW40MINUS then CHAN_OFFSET_LOWER else offset in
    let '(valid, offset) := rtw_get_offset_by_chbw ch bw offset in
    (valid, bw, offset).

(** ** Operating classes of the phl layer (phl/phl_chan.c) *)

(** The fields of [struct rtw_chan_def] the driver computes with. *)
Record rtw_chan_def := mk_chan_def {
  band : Z;
  bw : Z;
  offset : Z;
  chan : Z;
  center_ch : Z
}.

Definition rtw_phl_get_operating_class (d : rtw_chan_def) : Z :=
  if bw d =? CHANNEL_WIDTH_20 then
    if chan d <=? 13 then 81
    else if chan d =? 14 then 82
    else if within 36 (chan d) 48 then 115
    else if within 52 (chan d) 64 then 118
    else if within 100 (chan d) 144 then 121
    else if within 149 (chan d) 169 then 125
    else 0
  else if bw d =? CHANNEL_WIDTH_40 then
    if offset d =? CHAN_OFFSET_UPPER then
      if within 1 (chan d) 9 then 83
      else if one_of (chan d) [36; 44] then 116
      else if one_of (chan d) [52; 60] then 119
      else if one_of (chan d) [100; 108; 116; 124; 132; 140] then 122
      else if one_of (chan d) [149; 157] then 126
      else 0
    else if offset d =? CHAN_OFFSET_LOWER then
      if within 5 (chan d) 13 then 84
      else if one_of (chan d) [40; 48] then 117
      else if one_of (chan d) [56; 64] then 120
      else if one_of (chan d) [104; 112; 120; 128; 136; 144] then 123
      else if one_of (chan d) [153; 161] then 127
      else 0
    else 0
  else if bw d =? CHANNEL_WIDTH_80 then
    if one_of (center_ch d) [42; 58; 106; 122; 138; 155] then 128 else 0
  else if bw d =? CHANNEL_WIDTH_160 then
    if one_of (center_ch d) [50; 114] then 129 else 0
  else 0.

(** The return value with [*chan_def]; the last case asks for the centre of a
    40 MHz channel, as the code does. *)
Definition rtw_phl_get_chandef_from_operating_class (channel operating_class : Z)
    (d : rtw_chan_def) : bool * rtw_chan_def :=
  let fill bw' offset' width :=
    (true, {| band := band d; bw := bw'; offset := offset'; chan := channel;
              center_ch := rtw_phl_get_center_ch channel width offset' |}) in
  if one_of operating_class [81; 82; 115; 118; 121; 125]
  then fill CHANNEL_WIDTH_20 CHAN_OFFSET_NO_EXT CHANNEL_WIDTH_20
  else if one_of operating_class [83; 116; 119; 122; 126]
  then fill CHANNEL_WIDTH_40 CHAN_OFFSET_UPPER CHANNEL_WIDTH_40
  else if one_of operating_class [84; 117; 120; 123; 127]
  then fill CHANNEL_WIDTH_40 CHAN_OFFSET_LOWER CHANNEL_WIDTH_40
  else if operating_class =? 128
  then fill CHANNEL_WIDTH_80 CHAN_OFFSET_NO_DEF CHANNEL_WIDTH_80
  else if operating_class =? 129
  then fill CHANNEL_WIDTH_160 CHAN_OFFSET_NO_DEF CHANNEL_WIDTH_40
  else (false, d).

(** ** Theorems *)

(** [by_evaluation] proves a decidable closed proposition. *)
Ltac by_evaluation := apply (bool_decide_unpack _); vm_compute; exact I.

(** The channels of 20 MHz. *)
Definition primary_chs : list Z := center_ch_2g ++ center_ch_5g_20m.

Definition range_in (a b : bool * Z * Z) : Prop :=
  let '(va, hi_a, lo_a) := a in
  let '(vb, hi_b, lo_b) := b in
  va = true /\ vb = true /\ hi_a <= hi_b /\ lo_b <= lo_a.
#[export] Instance range_in_dec a b : Decision (range_in a b).
Proof. destruct a as [[??]?], b as [[??]?]. simpl. apply _. Defined.

(** A bonded channel: the width and the side are ones the channel has. *)
Definition setting_ok (ch bw offset : Z) : Prop :=
  ch ∈ primary_chs /\ 0 <= bw <= CHANNEL_WIDTH_160 /\
  rtw_get_offset_by_chbw ch bw offset = (true, offset) /\
  (bw = CHANNEL_WIDTH_160 -> ~ 132 <= ch <= 144).
#[export] Instance setting_ok_dec ch bw offset : Decision (setting_ok ch bw offset).
Proof. unfold setting_ok. apply _. Defined.

Lemma setting_ok_offset ch bw offset : setting_ok ch bw offset -> 0 <= offset < 4.
Proof.
  intros (_ & _ & E & _). revert E. unfold rtw_get_offset_by_chbw.
  repeat case_match; intros; simplify_eq; unfold CHAN_OFFSET_NO_EXT, CHAN_OFFSET_UPPER, CHAN_OFFSET_LOWER in *; try lia.
  all: match goal with H : _ || _ = true |- _ => apply orb_true_iff in H as [?%Z.eqb_eq|?%Z.eqb_eq]; lia end.
Qed.

(** What holds of every setting holds if it holds of the finitely many. *)
Lemma all_settings (P : Z -> Z -> Z -> Prop) :
  Forall (fun ch => Forall (fun bw => Forall (fun offset =>
    setting_ok ch bw offset -> P ch bw offset) (seqZ 0 4)) (seqZ 0 4)) primary_chs ->
  forall ch bw offset, setting_ok ch bw offset -> P ch bw offset.
Proof.
  intros F ch bw offset H.
  pose proof (setting_ok_offset _ _ _ H) as Ho. pose proof H as (Hc & Hb & _ & _).
  rewrite Forall_forall in F. specialize (F ch Hc).
  rewrite Forall_seqZ in F. unfold CHANNEL_WIDTH_160 in Hb. specialize (F bw ltac:(lia)).
  rewrite Forall_seqZ in F. apply F; [lia|done].
Qed.

Definition covered_chs (ch bw offset : Z) : option (list Z) :=
  rtw_get_op_chs_by_cch_bw (rtw_get_center_ch ch bw offset) bw.

(** What the table has for a setting; for 5 GHz the frequencies decide it. *)
Definition covered_ok (ch bw offset : Z) : Prop :=
  match covered_chs ch bw offset with
  | None => False
  | Some l =>
      ch ∈ l /\ NoDup l /\ Forall (fun c => c ∈ primary_chs) l /\
      (14 < ch -> Forall (fun c => c ∈ l <->
        range_in (rtw_chbw_to_freq_range c CHANNEL_WIDTH_20 0)
                 (rtw_chbw_to_freq_range ch bw offset)) primary_chs)
  end.
#[export] Instance covered_ok_dec ch bw offset : Decision (covered_ok ch bw offset).
Proof. unfold covered_ok. destruct (covered_chs ch bw offset); apply _. Defined.

Lemma covered_chs_ok ch bw offset : setting_ok ch bw offset -> covered_ok ch bw offset.
Proof. apply all_settings. by_evaluation. Qed.

(** The table of 20 MHz channels agrees with the arithmetic: for a channel
    setting the driver accepts, the look-up of the setting's centre channel
    succeeds, contains the primary channel and no channel twice, and in the
    5 GHz band lists exactly the channels whose 20 MHz lie between the lowest
    and the highest frequency of the setting. *)
Theorem op_channels_spec ch bw offset :
  setting_ok ch bw offset ->
  exists l, rtw_get_op_chs_by_cch_bw (rtw_get_center_ch ch bw offset) bw = Some l /\
    ch ∈ l /\ NoDup l /\
    (14 < ch -> forall c, c ∈ l <-> c ∈ primary_chs /\
       range_in (rtw_chbw_to_freq_range c CHANNEL_WIDTH_20 0)
                (rtw_chbw_to_freq_range ch bw offset)).
Proof.
  intros E%covered_chs_ok. revert E. unfold covered_ok, covered_chs.
  destruct (rtw_get_op_chs_by_cch_bw _ _) as [l|]; [|done].
  rewrite Forall_forall. intros (Hin & Hnd & Hsub & Hf). exists l. split; [done|split; [done|split; [done|]]].
  intros H5 c. specialize (Hf H5). rewrite Forall_forall in Hf.
  split; [intros Hc; split; [auto|by apply Hf; [apply Hsub|]]|intros []; by apply Hf].
Qed.

Lemma op_channels_spec_witness :
  exists l, rtw_get_op_chs_by_cch_bw (rtw_get_center_ch 108 CHANNEL_WIDTH_80 1) CHANNEL_WIDTH_80 = Some l /\
    108 ∈ l /\ NoDup l /\
    (14 < 108 -> forall c, c ∈ l <-> c ∈ primary_chs /\
       range_in (rtw_chbw_to_freq_range c CHANNEL_WIDTH_20 0)
                (rtw_chbw_to_freq_range 108 CHANNEL_WIDTH_80 1)).
Proof. apply (op_channels_spec 108 CHANNEL_WIDTH_80 1). by_evaluation. Defined.

(** A width and a channel for which [rtw_get_center_ch] has no centre: it
    returns the channel, and the frequency range is reported as valid. *)
Example no_center_of_160 :
  rtw_get_center_ch 132 CHANNEL_WIDTH_160 CHAN_OFFSET_UPPER = 132 /\
  rtw_get_op_chs_by_cch_bw 132 CHANNEL_WIDTH_160 = None /\
  rtw_chbw_to_freq_range 132 CHANNEL_WIDTH_160 CHAN_OFFSET_UPPER = (true, 5740, 5580).
Proof. done. Qed.

(** Channel numbers and frequencies. *)
Lemma freq_roundtrip ch : 0 < ch -> rtw_ch2freq ch <> 0 -> rtw_freq2ch (rtw_ch2freq ch) = ch.
Proof.
  unfold rtw_ch2freq, within. intros ?.
  destruct (Z.leb_spec 1 ch), (Z.leb_spec ch 14), (Z.leb_spec 36 ch), (Z.leb_spec ch 177);
    cbn [andb]; try lia; intros _.
  - destruct (Z.eqb_spec ch 14) as [->|]; [done|]. unfold rtw_freq2ch.
    destruct (Z.eqb_spec (2407 + ch * 5) 2484); [lia|].
    destruct (Z.ltb_spec (2407 + ch * 5) 2484); [|lia].
    replace (2407 + ch * 5 - 2407) with (ch * 5) by lia. apply Z.quot_mul. lia.
  - unfold rtw_freq2ch, within.
    destruct (Z.eqb_spec (5000 + ch * 5) 2484); [lia|].
    destruct (Z.ltb_spec (5000 + ch * 5) 2484); [lia|].
    destruct (Z.leb_spec (5000 + ch * 5) 4980); [lia|]. rewrite andb_false_r.
    destruct (Z.leb_spec (5000 + ch * 5) 45000); [|lia].
    replace (5000 + ch * 5 - 5000) with (ch * 5) by lia. apply Z.quot_mul. lia.
Qed.

(** The channel groups of the 5 GHz table of centre channels. *)
Lemma ch_group_total :
  Forall (fun ch => exists g, rtw_get_ch_group ch = (BAND_ON_5G, Some g, None) /\ 0 <= g <= 13)
    center_ch_5g_all.
Proof.
  unfold center_ch_5g_all.
  repeat (apply Forall_cons; split; [eexists; split; [vm_compute; reflexivity|lia]|]). by apply Forall_nil.
Qed.

(** *** Operating classes *)

Definition op_class_ok (ch bw offset off0 : Z) : bool :=
  let gid := rtw_get_op_class_by_chbw ch bw offset in
  if gid =? 0 then true
  else
    let '(valid, bw', offset') := rtw_get_bw_offset_by_op_class_ch gid ch 0 off0 in
    valid && (bw' =? bw)
    && (offset' =? if bw =? CHANNEL_WIDTH_40 then offset
                   else snd (rtw_get_offset_by_chbw ch bw off0))
    && (0 <=? get_sub_op_class gid ch).

Lemma op_class_ok_all ch bw offset off0 :
  is_u8 ch -> 0 <= bw < 7 -> 0 <= offset < 4 -> 0 <= off0 < 4 ->
  op_class_ok ch bw offset off0 = true.
Proof.
  assert (F : Forall (fun ch => Forall (fun bw => Forall (fun offset => Forall (fun off0 =>
    op_class_ok ch bw offset off0 = true) (seqZ 0 4)) (seqZ 0 4)) (seqZ 0 7)) (seqZ 0 256)).
  { by_evaluation. }
  unfold is_u8. intros ????.
  rewrite Forall_seqZ in F. specialize (F ch ltac:(lia)).
  rewrite Forall_seqZ in F. specialize (F bw ltac:(lia)).
  rewrite Forall_seqZ in F. specialize (F offset ltac:(lia)).
  rewrite Forall_seqZ in F. apply F. lia.
Qed.

(** The operating class of a channel setting determines it: asked for the
    class it chose and the channel, the driver answers with the bandwidth, for
    40 MHz with the side it started from and otherwise with the side the channel
    has; and the class of half the bandwidth, which it looks up for the same
    channel, always exists. *)
Theorem op_class_roundtrip ch bw offset off0 :
  is_u8 ch -> 0 <= bw < CHANNEL_WIDTH_MAX -> 0 <= offset < 4 -> 0 <= off0 < 4 ->
  let gid := rtw_get_op_class_by_chbw ch bw offset in
  gid <> 0 ->
  rtw_get_bw_offset_by_op_class_ch gid ch 0 off0 =
    (true, bw, if bw =? CHANNEL_WIDTH_40 then offset
               else snd (rtw_get_offset_by_chbw ch bw off0)) /\
  0 <= get_sub_op_class gid ch.
Proof.
  intros Hc Hb Ho Ho0 gid Hg.
  pose proof (op_class_ok_all ch bw offset off0 Hc Hb Ho Ho0) as E.
  revert E. unfold op_class_ok. fold gid.
  destruct (Z.eqb_spec gid 0); [done|].
  destruct (rtw_get_bw_offset_by_op_class_ch gid ch 0 off0) as [[[] bw'] offset']; [|done].
  intros [[->%Z.eqb_eq ->%Z.eqb_eq]%andb_true_iff ?%Z.leb_le]%andb_true_iff. done.
Qed.

Lemma op_class_roundtrip_witness :
  let gid := rtw_get_op_class_by_chbw 7 CHANNEL_WIDTH_40 CHAN_OFFSET_LOWER in
  rtw_get_bw_offset_by_op_class_ch gid 7 0 0 =
    (true, CHANNEL_WIDTH_40, if CHANNEL_WIDTH_40 =? CHANNEL_WIDTH_40 then CHAN_OFFSET_LOWER
               else snd (rtw_get_offset_by_chbw 7 CHANNEL_WIDTH_40 0)) /\
  0 <= get_sub_op_class gid 7.
Proof.
  apply (op_class_roundtrip 7 CHANNEL_WIDTH_40 CHAN_OFFSET_LOWER 0);
    unfold is_u8, CHANNEL_WIDTH_40, CHANNEL_WIDTH_MAX, CHAN_OFFSET_LOWER; try lia.
  by_evaluation.
Defined.

(** The self-check of the debug build accepts the table. *)
Lemma op_class_table_valid :
  Forall (fun o => dbg_global_op_class_validate o = true) global_op_class.
Proof. by_evaluation. Qed.

(** The definition of a setting as the phl layer stores it. *)
Definition chan_def_of (ch bw offset : Z) : rtw_chan_def :=
  mk_chan_def (rtw_phl_get_band_type ch) bw offset ch (rtw_phl_get_center_ch ch bw offset).

(** The two layers compute the operating class of a setting independently,
    one with a table and one with comparisons.  They agree on every setting,
    except for the 20 MHz channels 149 to 161, which are in two classes: there
    the core says 124 and the phl layer 125. *)
Theorem op_class_agree ch bw offset :
  setting_ok ch bw offset ->
  rtw_phl_get_operating_class (chan_def_of ch bw offset) =
    if (bw =? CHANNEL_WIDTH_20) && one_of ch [149; 153; 157; 161] then 125
    else rtw_get_op_class_by_chbw ch bw offset.
Proof. revert ch bw offset. apply all_settings. by_evaluation. Qed.

Lemma op_class_agree_witness :
  rtw_phl_get_operating_class (chan_def_of 44 CHANNEL_WIDTH_80 CHAN_OFFSET_UPPER) =
    if (CHANNEL_WIDTH_80 =? CHANNEL_WIDTH_20) && one_of 44 [149; 153; 157; 161] then 125
    else rtw_get_op_class_by_chbw 44 CHANNEL_WIDTH_80 CHAN_OFFSET_UPPER.
Proof. apply (op_class_agree 44 CHANNEL_WIDTH_80 CHAN_OFFSET_UPPER). by_evaluation. Defined.

Definition class_chs : list (Z * Z) :=
  flat_map (fun o => map (fun i => (class_id o, OPC_CH_LIST_CH o i)) (seqZ 0 (OPC_CH_LIST_LEN o)))
    global_op_class.

(** The phl layer's two routines are inverse to each other on the channels
    of every operating class it knows, but for class 129 (160 MHz), where the
    routine that fills the channel definition asks for the centre of a 40 MHz
    channel and stores the primary channel, from which the other one finds no
    class; class 124 is unknown to it. *)
Theorem phl_op_class_roundtrip c ch d :
  (c, ch) ∈ class_chs ->
  let '(valid, d') := rtw_phl_get_chandef_from_operating_class ch c d in
  valid = negb (c =? 124) /\
  (c <> 124 -> chan d' = ch /\
     rtw_phl_get_operating_class d' = if c =? 129 then 0 else c).
Proof.
  revert c ch.
  enough (A : Forall (fun cc => let '(valid, d') :=
      rtw_phl_get_chandef_from_operating_class (snd cc) (fst cc) d in
      valid = negb (fst cc =? 124) /\ (fst cc <> 124 -> chan d' = snd cc /\
        rtw_phl_get_operating_class d' = if fst cc =? 129 then 0 else fst cc)) class_chs).
  { intros c ch. rewrite Forall_forall in A. apply (A (c, ch)). }
  unfold class_chs. cbn [flat_map map global_op_class].
  vm_compute seqZ. cbn [map app].
  repeat (apply Forall_cons; split; [vm_compute; done|]). by apply Forall_nil.
Qed.

Lemma phl_op_class_roundtrip_witness :
  let '(valid, d') := rtw_phl_get_chandef_from_operating_class 36 116 (chan_def_of 0 0 0) in
  valid = negb (116 =? 124) /\
  (116 <> 124 -> chan d' = 36 /\
     rtw_phl_get_operating_class d' = if 116 =? 129 then 0 else 116).
Proof. apply (phl_op_class_roundtrip 116 36 (chan_def_of 0 0 0)). by_evaluation. Defined.

End Chan.
