(* ===== verification/ChanGroup.v ===== *)
(** * Grouping channel settings (core/rtw_ieee80211.c, core/rtw_mi.c, phl/phl_chan.c)

    Interfaces that share the radio must share its channel.  A setting joins a
    group when it has the group's primary channel and does not ask for the other
    side of a 40 MHz channel; the group's setting then grows to cover it.
    Module [ChanGroup] has the test and the adjustment, which exist in the core
    and again in the phl layer, and the union of the settings of the linked
    interfaces.  [covers] is their specification. *)

From S2P Require Import Prelude Chan.
Import Chan.

Module ChanGroup.

(** The three variables [ch], [bw], [offset] the routines pass around. *)
Record chbw := mk_chbw { c_ch : Z; c_bw : Z; c_offset : Z }.

#[export] Instance chbw_eq_dec : EqDecision chbw.
Proof. solve_decision. Defined.

(** ** The core's routines *)

Definition is_40_or_80 (bw : Z) : bool := (bw =? CHANNEL_WIDTH_40) || (bw =? CHANNEL_WIDTH_80).

Definition rtw_is_chbw_grouped (a b : chbw) : bool :=
  if negb (c_ch a =? c_ch b) then false
  else if is_40_or_80 (c_bw a) && is_40_or_80 (c_bw b)
  then c_offset a =? c_offset b
  else true.

(** One of the two cases of the switch that are alike: the request takes the
    offset of a group that has one, or looks for the one of its channel; without
    an offset it falls back to 20 MHz. *)
Definition sync_wide (req g : chbw) : chbw :=
  let offset :=
    if is_40_or_80 (c_bw g) then c_offset g
    else if c_bw g =? CHANNEL_WIDTH_20
    then snd (rtw_get_offset_by_chbw (c_ch req) (c_bw req) (c_offset req))
    else c_offset req in
  if offset =? CHAN_OFFSET_NO_EXT
  then mk_chbw (c_ch req) CHANNEL_WIDTH_20 offset
  else mk_chbw (c_ch req) (c_bw req) offset.

(** The request and the group afterwards. *)
Definition rtw_sync_chbw (req g : chbw) : chbw * chbw :=
  let bw := if (c_bw req =? CHANNEL_WIDTH_80) && (c_ch g <=? 14)
            then CHANNEL_WIDTH_40 else c_bw req in
  let req := mk_chbw (c_ch g) bw (c_offset req) in
  let req :=
    if c_bw req =? CHANNEL_WIDTH_80 then sync_wide req g
    else if c_bw req =? CHANNEL_WIDTH_40 then sync_wide req g
    else if c_bw req =? CHANNEL_WIDTH_20
    then mk_chbw (c_ch req) (c_bw req) CHAN_OFFSET_NO_EXT
    else req in
  let g := if c_bw req >? c_bw g then mk_chbw (c_ch g) (c_bw req) (c_offset req) else g in
  (req, g).

(** ** The phl layer's copies *)

Definition _phl_is_chbw_grouped (a b : chbw) : bool :=
  if negb (c_ch a =? c_ch b) then false
  else if ((c_bw a =? CHANNEL_WIDTH_40) || (c_bw a =? CHANNEL_WIDTH_80))
       && ((c_bw b =? CHANNEL_WIDTH_40) || (c_bw b =? CHANNEL_WIDTH_80))
       && negb (c_offset a =? c_offset b)
  then false
  else true.

Definition _phl_get_offset_by_chbw (ch bw r_offset : Z) : bool * Z :=
  let exit (valid : bool) offset := (valid, if valid then offset else r_offset) in
  if bw =? CHANNEL_WIDTH_20 then exit true CHAN_OFFSET_NO_EXT
  else if (bw >=? CHANNEL_WIDTH_80) && (ch <=? 14) then exit false CHAN_OFFSET_NO_EXT
  else if within 1 ch 4 then exit true CHAN_OFFSET_UPPER
  else if within 5 ch 9 then
    exit true (if (r_offset =? CHAN_OFFSET_UPPER) || (r_offset =? CHAN_OFFSET_LOWER)
               then r_offset else CHAN_OFFSET_LOWER)
  else if within 10 ch 13 then exit true CHAN_OFFSET_LOWER
  else if ch =? 14 then exit false CHAN_OFFSET_NO_EXT
  else if within 36 ch 177 then
    if one_of ch [36; 44; 52; 60; 100; 108; 116; 124; 132; 140; 149; 157; 165; 173]
    then exit true CHAN_OFFSET_UPPER
    else if one_of ch [40; 48; 56; 64; 104; 112; 120; 128; 136; 144; 153; 161; 169; 177]
    then exit true CHAN_OFFSET_LOWER
    else exit false CHAN_OFFSET_NO_EXT
  else exit false CHAN_OFFSET_NO_EXT.

Definition _phl_adjust_chandef (req g : chbw) : chbw * chbw :=
  let wide bw offset :=
    let offset :=
      if (c_bw g =? CHANNEL_WIDTH_40) || (c_bw g =? CHANNEL_WIDTH_80) then c_offset g
      else if c_bw g =? CHANNEL_WIDTH_20
      then snd (_phl_get_offset_by_chbw (c_ch g) bw offset)
      else offset in
    (if offset =? CHAN_OFFSET_NO_EXT then CHANNEL_WIDTH_20 else bw, offset) in
  let bw := if (c_bw req =? CHANNEL_WIDTH_80) && (c_ch g <=? 14)
            then CHANNEL_WIDTH_40 else c_bw req in
  let '(bw, offset) :=
    if bw =? CHANNEL_WIDTH_80 then wide bw (c_offset req)
    else if bw =? CHANNEL_WIDTH_40 then wide bw (c_offset req)
    else if bw =? CHANNEL_WIDTH_20 then (bw, CHAN_OFFSET_NO_EXT)
    else (bw, c_offset req) in
  (mk_chbw (c_ch g) bw offset,
   if bw >? c_bw g then mk_chbw (c_ch g) bw offset else g).

(** ** The union over the interfaces (core/rtw_mi.c) *)

Definition WIFI_ASOC_STATE : Z := 0x1.
Definition WIFI_UNDER_LINKING : Z := 0x80.
Definition WIFI_OP_CH_SWITCHING : Z := 0x800000.
Definition WIFI_NULL_STATE : Z := 0.

(** What the union reads of an adapter. *)
Record adapter := mk_adapter { iface_id : Z; fw_state : Z; mlme_chandef : chbw }.

Definition check_fwstate (a : adapter) (state : Z) : bool :=
  if (state =? WIFI_NULL_STATE) && (fw_state a =? WIFI_NULL_STATE) then true
  else negb (Z.land (fw_state a) state =? 0).

(** The adapters the loop does not [continue] past. *)
Definition in_union (ifbmp : Z) (a : adapter) : bool :=
  negb (Z.land ifbmp (BIT (iface_id a)) =? 0)
  && check_fwstate a (Z.lor WIFI_ASOC_STATE WIFI_UNDER_LINKING)
  && negb (check_fwstate a WIFI_OP_CH_SWITCHING).

(** The loop with [num] and the setting collected so far. *)
Fixpoint union_loop (ifbmp : Z) (l : list (option adapter)) (num : Z) (r : chbw) : Z * chbw :=
  match l with
  | [] => (num, r)
  | None :: l => union_loop ifbmp l num r
  | Some a :: l =>
      if negb (in_union ifbmp a) then union_loop ifbmp l num r
      else
        let c := mlme_chandef a in
        if num =? 0 then union_loop ifbmp l 1 c
        else if negb (c_ch r =? c_ch c) then (0, r)
        else if c_bw r <? c_bw c
        then union_loop ifbmp l (num + 1) (mk_chbw (c_ch r) (c_bw c) (c_offset c))
        else if (c_bw r =? c_bw c) && negb (c_offset r =? c_offset c) then (0, r)
        else union_loop ifbmp l (num + 1) r
  end.

Definition no_setting : chbw := mk_chbw 0 CHANNEL_WIDTH_20 CHAN_OFFSET_NO_EXT.

(** The number of interfaces, and [*ch], [*bw], [*offset]. *)
Definition rtw_mi_get_ch_setting_union_by_ifbmp (ifbmp : Z) (padapters : list (option adapter))
    : Z * chbw :=
  let '(num, r) := union_loop ifbmp padapters 0 no_setting in
  (num, if num =? 0 then no_setting else r).
Definition rtw_mi_get_ch_setting_union (padapters : list (option adapter)) : Z * chbw :=
  rtw_mi_get_ch_setting_union_by_ifbmp 0xFF padapters.
Definition rtw_mi_get_ch_setting_union_no_self (a : adapter) (padapters : list (option adapter))
    : Z * chbw :=
  rtw_mi_get_ch_setting_union_by_ifbmp (Z.land 0xFF (Z.lnot (BIT (iface_id a)))) padapters.

(** ** The union that is reported (core/rtw_mlme_ext.c)

    The first loop of [rtw_rfctl_update_op_mode]: an interface of [ifbmp_mod] is
    taken when [if_op], another one when it is associated and not switching.
    [cls] collects [if_op_class] and [if_op_ch]; [u] is the union, with channel 0
    while there is none. *)
Definition in_op_mode (ifbmp_mod : Z) (if_op : bool) (i : Z) (a : adapter) : bool :=
  if negb (Z.land ifbmp_mod (BIT i) =? 0) then if_op
  else check_fwstate a WIFI_ASOC_STATE && negb (check_fwstate a WIFI_OP_CH_SWITCHING).

Fixpoint op_mode_loop (ifbmp_mod : Z) (if_op : bool) (i : Z) (l : list (option adapter))
    (u : chbw) : list (Z * Z) * chbw :=
  match l with
  | [] => ([], u)
  | None :: l =>
      let '(cls, u) := op_mode_loop ifbmp_mod if_op (i + 1) l u in ((0, 0) :: cls, u)
  | Some a :: l =>
      if negb (in_op_mode ifbmp_mod if_op i a)
      then let '(cls, u) := op_mode_loop ifbmp_mod if_op (i + 1) l u in ((0, 0) :: cls, u)
      else
        let c := mlme_chandef a in
        let if_op_class := rtw_get_op_class_by_chbw (c_ch c) (c_bw c) (c_offset c) in
        let if_op_ch := if if_op_class =? 0 then 0 else c_ch c in
        let u := if c_ch u =? 0 then c else snd (rtw_sync_chbw c u) in
        let '(cls, u) := op_mode_loop ifbmp_mod if_op (i + 1) l u in
        ((if_op_class, if_op_ch) :: cls, u)
  end.

(** The operating class and channel that are reported, with those of the
    interfaces. *)
Definition update_op_mode (ifbmp_mod : Z) (if_op : bool) (l : list (option adapter))
    : Z * Z * list (Z * Z) :=
  let '(cls, u) := op_mode_loop ifbmp_mod if_op 0 l no_setting in
  let op_class := rtw_get_op_class_by_chbw (c_ch u) (c_bw u) (c_offset u) in
  (op_class, if op_class =? 0 then 0 else c_ch u, cls).

(** [rtw_adjust_chbw] (core/rtw_mlme.c); [bw_mode] is the registry's. *)
Definition BW_MODE_2G (bw_mode : Z) : Z := Z.land bw_mode 0x0F.
Definition BW_MODE_5G (bw_mode : Z) : Z := Z.shiftr bw_mode 4.

Definition rtw_adjust_chbw (d : hal_spec_t) (bw_mode req_ch req_bw req_offset : Z)
    : bool * Z * Z :=
  let allowed_bw := if req_ch <? 14 then BW_MODE_2G bw_mode
                    else if req_ch =? 14 then CHANNEL_WIDTH_20 else BW_MODE_5G bw_mode in
  let allowed_bw := rtw_hw_largest_bw d allowed_bw in
  if (allowed_bw =? CHANNEL_WIDTH_80) && (req_bw >? CHANNEL_WIDTH_80)
  then (true, CHANNEL_WIDTH_80, req_offset)
  else if (allowed_bw =? CHANNEL_WIDTH_40) && (req_bw >? CHANNEL_WIDTH_40)
  then (true, CHANNEL_WIDTH_40, req_offset)
  else if (allowed_bw =? CHANNEL_WIDTH_20) && (req_bw >? CHANNEL_WIDTH_20)
  then (true, CHANNEL_WIDTH_20, CHAN_OFFSET_NO_EXT)
  else (false, req_bw, req_offset).

(** ** The two layers compute the same *)

(** The phl layer's copies of the three routines (the grouping test, the
    side of a 40 MHz channel, the adjustment of a request and its group) return
    what the core's routines return, on all inputs. *)
Theorem layers_agree :
  (forall a b, _phl_is_chbw_grouped a b = rtw_is_chbw_grouped a b) /\
  (forall ch bw r, _phl_get_offset_by_chbw ch bw r = rtw_get_offset_by_chbw ch bw r) /\
  (forall req g, _phl_adjust_chandef req g = rtw_sync_chbw req g).
Proof.
  assert (O : forall ch bw r, _phl_get_offset_by_chbw ch bw r = rtw_get_offset_by_chbw ch bw r).
  { intros. unfold _phl_get_offset_by_chbw, rtw_get_offset_by_chbw.
    repeat (case_match; try done). }
  split; [|split; [exact O|]].
  - intros a b. unfold _phl_is_chbw_grouped, rtw_is_chbw_grouped, is_40_or_80.
    destruct (c_ch a =? c_ch b); [|done]. cbn [negb].
    destruct (_ || _); [|done]. destruct (_ || _); [|done].
    by destruct (c_offset a =? c_offset b).
  - intros req g. unfold _phl_adjust_chandef, rtw_sync_chbw, sync_wide, is_40_or_80.
    cbn [c_ch c_bw c_offset]. rewrite !O.
    set (bw := if (c_bw req =? CHANNEL_WIDTH_80) && (c_ch g <=? 14) then _ else _).
    destruct (bw =? CHANNEL_WIDTH_80), (bw =? CHANNEL_WIDTH_40), (bw =? CHANNEL_WIDTH_20); cbn;
      try done.
    all: set (o := if _ : bool then c_offset g else _); by destruct (o =? CHAN_OFFSET_NO_EXT).
Qed.

(** ** Groups *)

(** The setting [g] of a group covers the setting [m] of a member. *)
Definition covers (g m : chbw) : Prop :=
  c_ch g = c_ch m /\ c_bw m <= c_bw g /\
  (CHANNEL_WIDTH_40 <= c_bw m -> c_offset m = c_offset g).

(** The widths the routines handle. *)
Definition simple (c : chbw) : Prop := CHANNEL_WIDTH_20 <= c_bw c <= CHANNEL_WIDTH_80.

Ltac unfold_widths :=
  unfold simple, covers, is_40_or_80, CHANNEL_WIDTH_20, CHANNEL_WIDTH_40, CHANNEL_WIDTH_80,
    CHANNEL_WIDTH_160, CHAN_OFFSET_NO_EXT in *.

(** Case analysis on the comparisons of integers in the goal. *)
Ltac z_cases :=
  repeat match goal with
  | |- context [?a =? ?b] => destruct (Z.eqb_spec a b)
  | |- context [?a <=? ?b] => destruct (Z.leb_spec a b)
  | |- context [?a <? ?b] => destruct (Z.ltb_spec a b)
  | |- context [?a >? ?b] => rewrite (Z.gtb_ltb a b)
  end; cbn [andb orb negb].

#[export] Instance covers_preorder : PreOrder covers.
Proof.
  split; [intros c|intros a b c]; unfold_widths; [split_all|].
  intros (Hc1 & Hw1 & Ho1) (Hc2 & Hw2 & Ho2).
  split; [congruence|]. split; [lia|]. intros. rewrite Ho2, Ho1 by lia. done.
Qed.

Lemma covers_grouped g m : simple g -> simple m -> covers g m -> rtw_is_chbw_grouped g m = true.
Proof.
  unfold rtw_is_chbw_grouped. unfold_widths. intros ? ? (-> & ? & E).
  rewrite Z.eqb_refl. cbn [negb]. z_cases; try done; exfalso; auto with lia.
Qed.

Lemma simple_cases c : simple c -> c_bw c = 0 \/ c_bw c = 1 \/ c_bw c = 2.
Proof. unfold_widths. lia. Qed.

Ltac destruct_simple H :=
  apply simple_cases in H; cbn [c_bw] in H; destruct H as [->|[->| ->]].

(** What [rtw_sync_chbw] does: the request gets the channel of the group, keeps
    its width or loses it, and becomes the group's setting if it is wider. *)
Lemma sync_chbw_cases req g :
  simple g -> simple req ->
  let '(req', g') := rtw_sync_chbw req g in
  c_ch req' = c_ch g /\ simple req' /\ c_bw req' <= c_bw req /\
  (CHANNEL_WIDTH_40 <= c_bw req' -> CHANNEL_WIDTH_40 <= c_bw g -> c_offset req' = c_offset g) /\
  g' = if c_bw req' >? c_bw g then req' else g.
Proof.
  destruct req as [rc rb ro], g as [gc gb go]. intros Hg Hr.
  unfold rtw_sync_chbw, sync_wide, is_40_or_80, simple. cbn [c_ch c_bw c_offset].
  destruct_simple Hr; destruct_simple Hg; cbn.
  all: try destruct (gc <=? 14); cbn;
    repeat match goal with |- context [?o =? CHAN_OFFSET_NO_EXT] => destruct (o =? CHAN_OFFSET_NO_EXT) end;
    cbn; unfold_widths; split_all.
Qed.

(** Adjusting a request to a group gives a request the group covers, which
    is not wider than it was, on the group's channel; the group's new setting
    still covers everything the old one covered, and so every member still
    passes the grouping test. *)
Theorem sync_chbw_covers req g :
  simple g -> simple req ->
  let '(req', g') := rtw_sync_chbw req g in
  covers g' req' /\ c_bw req' <= c_bw req /\ simple g' /\ covers g' g /\
  (forall m, simple m -> covers g m -> covers g' m /\ rtw_is_chbw_grouped g' m = true).
Proof.
  intros Hg Hr. pose proof (sync_chbw_cases req g Hg Hr) as E.
  destruct (rtw_sync_chbw req g) as [req' g']. destruct E as (Hc & Hs & Hw & Ho & ->).
  assert (C : covers (if c_bw req' >? c_bw g then req' else g) req' /\
              covers (if c_bw req' >? c_bw g then req' else g) g).
  { z_cases; unfold_widths; split_all. }
  assert (S : simple (if c_bw req' >? c_bw g then req' else g)) by (by case_match).
  destruct C as [C1 C2]. split_all. intros m Hm Cm.
  assert (covers (if c_bw req' >? c_bw g then req' else g) m) by (by etrans).
  split; [done|]. by apply covers_grouped.
Qed.

Lemma sync_chbw_covers_witness :
  let '(req', g') := rtw_sync_chbw (mk_chbw 36 CHANNEL_WIDTH_80 1) (mk_chbw 36 CHANNEL_WIDTH_40 1) in
  covers g' req' /\ c_bw req' <= CHANNEL_WIDTH_80 /\ simple g' /\
  covers g' (mk_chbw 36 CHANNEL_WIDTH_40 1) /\
  (forall m, simple m -> covers (mk_chbw 36 CHANNEL_WIDTH_40 1) m ->
     covers g' m /\ rtw_is_chbw_grouped g' m = true).
Proof.
  apply (sync_chbw_covers (mk_chbw 36 CHANNEL_WIDTH_80 1) (mk_chbw 36 CHANNEL_WIDTH_40 1));
    unfold_widths; cbn; lia.
Defined.

(** A request that fits is not changed. *)
Definition valid_setting (c : chbw) : Prop :=
  setting_ok (c_ch c) (c_bw c) (c_offset c) /\ c_bw c <= CHANNEL_WIDTH_80.

Lemma valid_simple c : valid_setting c -> simple c.
Proof. unfold valid_setting, setting_ok. unfold_widths. lia. Qed.

Definition no_offset_ok (ch bw offset : Z) : Prop :=
  (offset = CHAN_OFFSET_NO_EXT <-> bw = CHANNEL_WIDTH_20) /\
  (bw = CHANNEL_WIDTH_80 -> 14 < ch).
#[export] Instance no_offset_ok_dec ch bw offset : Decision (no_offset_ok ch bw offset).
Proof. unfold no_offset_ok. apply _. Defined.

Lemma setting_offset ch bw offset : setting_ok ch bw offset -> no_offset_ok ch bw offset.
Proof. apply all_settings. by_evaluation. Qed.

Ltac not_2g := match goal with
  | |- context [?rc <=? 14] => destruct (Z.leb_spec rc 14); [unfold CHANNEL_WIDTH_80 in *; lia|]
  | _ => idtac
  end.

Lemma sync_chbw_fits req g :
  valid_setting req -> simple g -> rtw_is_chbw_grouped g req = true ->
  rtw_sync_chbw req g = (req, if c_bw req >? c_bw g then req else g).
Proof.
  intros V Hg G. pose proof (valid_simple _ V) as Hr. destruct V as [V _].
  pose proof (setting_offset _ _ _ V) as [Hn H80]. destruct V as (_ & _ & E & _).
  revert Hg Hr G Hn H80 E. destruct req as [rc rb ro], g as [gc gb go].
  unfold rtw_sync_chbw, sync_wide, is_40_or_80, rtw_is_chbw_grouped, is_40_or_80.
  cbn [c_ch c_bw c_offset]. intros Hg Hr.
  destruct (Z.eqb_spec gc rc) as [->|]; [|done]. cbn [negb].
  destruct_simple Hr; destruct_simple Hg; cbn; intros G Hn H80 E; cbn;
    not_2g; cbn;
    try apply Z.eqb_eq in G as ->; rewrite ?E; cbn;
    not_2g; cbn;
    try (destruct (Z.eqb_spec ro CHAN_OFFSET_NO_EXT) as [->|]; [unfold_widths; lia|]);
    cbn; try done.
  all: by rewrite (proj2 Hn) by done.
Qed.

(** *** Covering is inclusion of frequencies *)

Definition freqs (c : chbw) : bool * Z * Z :=
  rtw_chbw_to_freq_range (c_ch c) (c_bw c) (c_offset c).

Definition narrower_in (ch bw offset : Z) : Prop :=
  bw <= CHANNEL_WIDTH_80 ->
  Forall (fun w => w <= bw -> range_in
    (rtw_chbw_to_freq_range ch w (if w =? CHANNEL_WIDTH_20 then 0 else offset))
    (rtw_chbw_to_freq_range ch bw offset)) (seqZ 0 3).
#[export] Instance narrower_in_dec ch bw offset : Decision (narrower_in ch bw offset).
Proof. unfold narrower_in. apply _. Defined.

Lemma narrower_in_all ch bw offset : setting_ok ch bw offset -> narrower_in ch bw offset.
Proof. apply all_settings. by_evaluation. Qed.

(** A group's setting that covers a member's setting, both ones the driver
    accepts, contains its frequencies: what the radio is tuned to for the group
    includes what each member needs. *)
Lemma covers_freqs g m :
  valid_setting g -> valid_setting m -> covers g m -> range_in (freqs m) (freqs g).
Proof.
  intros [Hg Hg80] [Hm Hm80] (Hc & Hw & Ho).
  pose proof (narrower_in_all _ _ _ Hg Hg80) as F.
  pose proof (setting_offset _ _ _ Hm) as [Hn _].
  destruct Hm as (_ & Hb & _). unfold CHANNEL_WIDTH_80 in *.
  rewrite Forall_seqZ in F. specialize (F (c_bw m) ltac:(lia) Hw).
  unfold freqs. rewrite <- Hc. revert F.
  destruct (Z.eqb_spec (c_bw m) CHANNEL_WIDTH_20) as [E|]; unfold CHANNEL_WIDTH_20, CHANNEL_WIDTH_40 in *.
  - by rewrite (proj2 Hn E).
  - by rewrite Ho by lia.
Qed.

Lemma covers_freqs_witness :
  range_in (freqs (mk_chbw 44 CHANNEL_WIDTH_40 1)) (freqs (mk_chbw 44 CHANNEL_WIDTH_80 1)).
Proof.
  apply (covers_freqs (mk_chbw 44 CHANNEL_WIDTH_80 1) (mk_chbw 44 CHANNEL_WIDTH_40 1)).
  - split; [by_evaluation|unfold_widths; cbn; lia].
  - split; [by_evaluation|unfold_widths; cbn; lia].
  - unfold covers. cbn. unfold_widths. split_all.
Defined.

(** ** The unions *)

(** The settings of the interfaces the loop looks at. *)
Definition union_members (ifbmp : Z) (l : list (option adapter)) : list chbw :=
  omap (fun o => a ← o; if in_union ifbmp a then Some (mlme_chandef a) else None) l.

(** The same loop over the settings. *)
Fixpoint union_chandefs (l : list chbw) (num : Z) (r : chbw) : Z * chbw :=
  match l with
  | [] => (num, r)
  | c :: l =>
      if num =? 0 then union_chandefs l 1 c
      else if negb (c_ch r =? c_ch c) then (0, r)
      else if c_bw r <? c_bw c
      then union_chandefs l (num + 1) (mk_chbw (c_ch r) (c_bw c) (c_offset c))
      else if (c_bw r =? c_bw c) && negb (c_offset r =? c_offset c) then (0, r)
      else union_chandefs l (num + 1) r
  end.

Lemma union_loop_members ifbmp l num r :
  union_loop ifbmp l num r = union_chandefs (union_members ifbmp l) num r.
Proof.
  revert num r. induction l as [|[a|] l IH]; intros num r; [done| |apply IH].
  unfold union_members. csimpl. destruct (in_union ifbmp a); csimpl; [|apply IH].
  by repeat case_match; rewrite ?IH.
Qed.

(** What the union has to be: a member's setting, as wide as any, and the
    widest agree on the offset. *)
Definition is_union (l : list chbw) (r : chbw) : Prop :=
  r ∈ l /\
  forall m, m ∈ l -> c_ch m = c_ch r /\ c_bw m <= c_bw r /\
    (c_bw m = c_bw r -> c_offset m = c_offset r).

Lemma union_chandefs_sound seen l num r :
  num = Z.of_nat (length seen) -> (num <> 0 -> is_union seen r) ->
  let '(num', r') := union_chandefs l num r in
  num' <> 0 -> num' = Z.of_nat (length (seen ++ l)) /\ is_union (seen ++ l) r'.
Proof.
  revert seen num r. induction l as [|c l IH]; intros seen num r En I; cbn [union_chandefs].
  { rewrite app_nil_r. auto. }
  replace (seen ++ c :: l) with ((seen ++ [c]) ++ l) by by rewrite <- app_assoc.
  destruct (Z.eqb_spec num 0) as [E0|E0].
  { apply (IH (seen ++ [c])); [rewrite length_app; cbn; lia|]. intros _.
    destruct seen; [|cbn in *; lia]. cbn. split; [apply list_elem_of_here|].
    intros m ->%list_elem_of_singleton. split_all. }
  destruct (I E0) as [Hr Hall].
  destruct (Z.eqb_spec (c_ch r) (c_ch c)) as [Ec|]; cbn [negb]; [|done].
  destruct (Z.ltb_spec (c_bw r) (c_bw c)) as [Hlt|Hge].
  { apply (IH (seen ++ [c])); [rewrite length_app; cbn; lia|]. intros _.
    replace (mk_chbw _ _ _) with c by (rewrite Ec; by destruct c).
    split; [apply elem_of_app; right; apply list_elem_of_here|].
    intros m [Hm| ->%list_elem_of_singleton]%elem_of_app; [|split_all].
    destruct (Hall m Hm) as (? & ? & ?). split_all. }
  destruct (Z.eqb_spec (c_bw r) (c_bw c)) as [Ew|]; cbn [andb].
  - destruct (Z.eqb_spec (c_offset r) (c_offset c)); cbn [negb]; [|done].
    apply (IH (seen ++ [c])); [rewrite length_app; cbn; lia|]. intros _.
    split; [apply elem_of_app; by left|].
    intros m [Hm| ->%list_elem_of_singleton]%elem_of_app; [auto|split_all].
  - apply (IH (seen ++ [c])); [rewrite length_app; cbn; lia|]. intros _.
    split; [apply elem_of_app; by left|].
    intros m [Hm| ->%list_elem_of_singleton]%elem_of_app; [auto|split_all].
Qed.

Lemma union_chandefs_complete l num r :
  0 <= num ->
  (forall a b, a ∈ l -> b ∈ l -> c_ch a = c_ch b /\ (c_bw a = c_bw b -> c_offset a = c_offset b)) ->
  (num <> 0 -> forall a, a ∈ l -> c_ch a = c_ch r /\ (c_bw a = c_bw r -> c_offset a = c_offset r)) ->
  l <> [] \/ num <> 0 -> fst (union_chandefs l num r) <> 0.
Proof.
  revert num r. induction l as [|c l IH]; intros num r Hn Hl Hr Hne; cbn [union_chandefs].
  { by destruct Hne. }
  assert (Hl' : forall a b, a ∈ l -> b ∈ l ->
            c_ch a = c_ch b /\ (c_bw a = c_bw b -> c_offset a = c_offset b)).
  { intros. apply Hl; by right. }
  assert (Hc : forall a, a ∈ l -> c_ch a = c_ch c /\ (c_bw a = c_bw c -> c_offset a = c_offset c)).
  { intros. apply Hl; [by right|by left]. }
  destruct (Z.eqb_spec num 0) as [E0|E0]; [apply IH; auto with lia|].
  destruct (Hr E0 c ltac:(by left)) as [Ec Eo].
  rewrite <- Ec, Z.eqb_refl. cbn [negb].
  destruct (Z.ltb_spec (c_bw r) (c_bw c)).
  { apply IH; [lia|done| |right; lia]. intros _ a Ha. cbn. apply (Hc a Ha). }
  destruct (Z.eqb_spec (c_bw r) (c_bw c)) as [Ew|]; cbn [andb].
  - rewrite Eo, Z.eqb_refl by done. cbn [negb].
    apply IH; [lia|done| |right; lia]. intros _ a Ha. apply Hr; [done|by right].
  - apply IH; [lia|done| |right; lia]. intros _ a Ha. apply Hr; [done|by right].
Qed.

Definition conflict (a b : chbw) : Prop :=
  c_ch a <> c_ch b \/ (c_bw a = c_bw b /\ c_offset a <> c_offset b).

Lemma union_by_ifbmp ifbmp l :
  let '(num, r) := rtw_mi_get_ch_setting_union_by_ifbmp ifbmp l in
  let ms := union_members ifbmp l in
  (num <> 0 -> num = Z.of_nat (length ms) /\ is_union ms r) /\
  (num = 0 -> r = no_setting /\
     (ms = [] \/ exists a b, a ∈ ms /\ b ∈ ms /\ conflict a b)).
Proof.
  unfold rtw_mi_get_ch_setting_union_by_ifbmp. rewrite union_loop_members.
  set (ms := union_members ifbmp l).
  pose proof (union_chandefs_sound [] ms 0 no_setting) as Hs.
  pose proof (union_chandefs_complete ms 0 no_setting ltac:(lia)) as Hc.
  destruct (union_chandefs ms 0 no_setting) as [num r]. split.
  { intros Hn. destruct (Z.eqb_spec num 0); [done|]. by apply Hs. }
  intros ->. cbn in *. split; [done|].
  destruct (decide (ms = [])) as [|Hne]; [by left|right].
  destruct (decide (Exists (fun a => Exists (fun b => conflict a b) ms) ms)) as [E|N].
  { apply Exists_exists in E as (a & ? & (b & ? & ?)%Exists_exists). eauto. }
  exfalso. apply Hc; [|lia|by left|done]. intros a b Ha Hb.
  assert (~ conflict a b).
  { intros C. apply N, Exists_exists. exists a. split; [done|].
    apply Exists_exists. eauto. }
  unfold conflict in *. destruct (decide (c_ch a = c_ch b)); [|tauto].
  destruct (decide (c_offset a = c_offset b)); tauto.
Qed.

(** The union of the settings of the linked interfaces.  Unless it is 0, the
    count is the number of those interfaces and the setting is one of theirs,
    on everyone's channel, the widest, and with the offset of all that are as
    wide.  It is 0, with channel 0, exactly when there is no such interface or
    the loop met two that conflict. *)
Theorem mi_union_spec ifbmp l :
  let '(num, r) := rtw_mi_get_ch_setting_union_by_ifbmp ifbmp l in
  let ms := union_members ifbmp l in
  (num <> 0 -> num = Z.of_nat (length ms) /\ is_union ms r) /\
  (num = 0 -> r = no_setting /\
     (ms = [] \/ exists a b, a ∈ ms /\ b ∈ ms /\ conflict a b)).
Proof. apply union_by_ifbmp. Qed.

(** The union depends on the order of the interfaces, and accepts a setting on
    the other side of a narrower bandwidth, which the grouping test refuses. *)
Example union_depends_on_order :
  let a := mk_chbw 36 CHANNEL_WIDTH_40 1 in
  let b := mk_chbw 36 CHANNEL_WIDTH_40 3 in
  let c := mk_chbw 36 CHANNEL_WIDTH_80 1 in
  let on s := Some (mk_adapter 0 WIFI_ASOC_STATE s) in
  rtw_mi_get_ch_setting_union [on a; on b; on c] = (0, no_setting) /\
  rtw_mi_get_ch_setting_union [on c; on b; on a] = (3, c) /\
  rtw_is_chbw_grouped c b = false.
Proof. split_and!; vm_compute; reflexivity. Qed.

(** The settings the reported union is made of. *)
Fixpoint op_mode_members (ifbmp_mod : Z) (if_op : bool) (i : Z) (l : list (option adapter))
    : list chbw :=
  match l with
  | [] => []
  | None :: l => op_mode_members ifbmp_mod if_op (i + 1) l
  | Some a :: l =>
      (if in_op_mode ifbmp_mod if_op i a then [mlme_chandef a] else [])
      ++ op_mode_members ifbmp_mod if_op (i + 1) l
  end.

Definition grouped_set (l : list chbw) : Prop :=
  forall a b, a ∈ l -> b ∈ l -> rtw_is_chbw_grouped a b = true.

Lemma valid_nonzero c : valid_setting c -> c_ch c <> 0.
Proof.
  intros [(H & _) _] E. rewrite E in H. revert H.
  apply (bool_decide_unpack _). vm_compute. exact I.
Qed.

(** Settings of the same group and width have the same offset. *)
Lemma grouped_offset a b :
  valid_setting a -> valid_setting b -> rtw_is_chbw_grouped a b = true ->
  c_ch a = c_ch b /\ (c_bw a = c_bw b -> c_offset a = c_offset b).
Proof.
  intros Va Vb. pose proof (valid_simple _ Va) as Sa.
  destruct Va as [[Na _]%setting_offset _], Vb as [[Nb _]%setting_offset _].
  unfold rtw_is_chbw_grouped. destruct (Z.eqb_spec (c_ch a) (c_ch b)) as [E|]; [|done]. cbn [negb].
  intros G. split; [done|]. intros Ew. revert G. rewrite <- Ew.
  unfold simple, is_40_or_80 in *.
  destruct (decide (c_bw a = CHANNEL_WIDTH_20)) as [E2|].
  - intros _. rewrite (proj2 Na) by done. by rewrite (proj2 Nb) by congruence.
  - destruct (Z.eqb_spec (c_bw a) CHANNEL_WIDTH_40), (Z.eqb_spec (c_bw a) CHANNEL_WIDTH_80);
      cbn [orb andb]; try (intros ?%Z.eqb_eq; done).
    unfold_widths. lia.
Qed.

Lemma is_union_sync seen u c :
  (forall m, m ∈ seen ++ [c] -> valid_setting m) -> grouped_set (seen ++ [c]) ->
  is_union seen u -> is_union (seen ++ [c]) (snd (rtw_sync_chbw c u)).
Proof.
  intros V G [Hu Hall].
  assert (Hu' : u ∈ seen ++ [c]) by (apply elem_of_app; by left).
  assert (Hc : c ∈ seen ++ [c]) by (apply elem_of_app; right; by left).
  pose proof (grouped_offset u c (V u Hu') (V c Hc) (G u c Hu' Hc)) as [Ec Eo].
  rewrite sync_chbw_fits; auto using valid_simple. cbn [snd].
  rewrite Z.gtb_ltb. destruct (Z.ltb_spec (c_bw u) (c_bw c)); (split; [done|]);
    intros m [Hm| ->%list_elem_of_singleton]%elem_of_app; split_all;
    destruct (Hall m Hm) as (? & ? & ?); split_all.
Qed.

Lemma op_mode_loop_union ifbmp_mod if_op l : forall i u seen,
  (forall m, m ∈ seen ++ op_mode_members ifbmp_mod if_op i l -> valid_setting m) ->
  grouped_set (seen ++ op_mode_members ifbmp_mod if_op i l) ->
  seen = [] /\ u = no_setting \/ is_union seen u ->
  let u' := snd (op_mode_loop ifbmp_mod if_op i l u) in
  let ms := seen ++ op_mode_members ifbmp_mod if_op i l in
  ms = [] /\ u' = no_setting \/ is_union ms u'.
Proof.
  induction l as [|[a|] l IH]; intros i u seen V G I; cbn [op_mode_loop op_mode_members] in *.
  - by rewrite app_nil_r.
  - destruct (in_op_mode ifbmp_mod if_op i a) eqn:Ein; cbn [negb app] in *.
    + set (c := mlme_chandef a) in *.
      set (u1 := if c_ch u =? 0 then c else snd (rtw_sync_chbw c u)).
      assert (I1 : is_union (seen ++ [c]) u1).
      { change (c :: op_mode_members ifbmp_mod if_op (i + 1) l)
          with ([c] ++ op_mode_members ifbmp_mod if_op (i + 1) l) in V, G.
        rewrite app_assoc in V, G.
        assert (V1 : forall m, m ∈ seen ++ [c] -> valid_setting m).
        { intros. apply V, elem_of_app. by left. }
        assert (G1 : grouped_set (seen ++ [c])).
        { intros x y ??. apply G; apply elem_of_app; by left. }
        unfold u1. destruct I as [[-> ->]|I].
        - cbn. split; [by left|]. intros m ->%list_elem_of_singleton. split_all.
        - destruct (Z.eqb_spec (c_ch u) 0) as [E|].
          + exfalso. apply (valid_nonzero u); [|done]. apply V1, elem_of_app. left. apply I.
          + by apply is_union_sync. }
      specialize (IH (i + 1) u1 (seen ++ [c])). rewrite <- app_assoc in IH. cbn [app] in IH.
      specialize (IH V G (or_intror I1)).
      by destruct (op_mode_loop ifbmp_mod if_op (i + 1) l u1).
    + specialize (IH (i + 1) u seen V G I).
      by destruct (op_mode_loop ifbmp_mod if_op (i + 1) l u).
  - specialize (IH (i + 1) u seen V G I).
    by destruct (op_mode_loop ifbmp_mod if_op (i + 1) l u).
Qed.

Lemma is_union_covers l u :
  (forall m, m ∈ l -> valid_setting m) -> grouped_set l -> is_union l u ->
  forall m, m ∈ l -> covers u m.
Proof.
  intros V G [Hu Hall] m Hm. destruct (Hall m Hm) as (Ec & Hw & Eo).
  split; [done|]. split; [done|]. intros H40.
  pose proof (G u m Hu Hm) as Gm. revert Gm.
  pose proof (valid_simple _ (V _ Hu)) as Su. pose proof (valid_simple _ (V _ Hm)) as Sm.
  unfold rtw_is_chbw_grouped, is_40_or_80. rewrite Ec, Z.eqb_refl. cbn [negb].
  unfold_widths. z_cases; lia.
Qed.

Lemma is_union_unique l u v : is_union l u -> is_union l v -> u = v.
Proof.
  intros [Hu U] [Hv W]. destruct (U v Hv) as (? & ? & E), (W u Hu) as (? & ? & ?).
  assert (c_bw v = c_bw u) by lia. destruct u, v; cbn in *. f_equal; auto.
Qed.

(** The driver computes the setting of the radio twice: a loop that
    compares ([rtw_mi_get_ch_setting_union]) and one that adjusts a group
    ([rtw_rfctl_update_op_mode]).  For interfaces whose settings are valid and
    pass the grouping test pairwise both find the same setting, and it covers
    every interface; in particular the frequencies of each are within it. *)
Theorem unions_agree ifbmp ifbmp_mod if_op l :
  let ms := union_members ifbmp l in
  op_mode_members ifbmp_mod if_op 0 l = ms ->
  (forall m, m ∈ ms -> valid_setting m) -> grouped_set ms ->
  let '(num, r) := rtw_mi_get_ch_setting_union_by_ifbmp ifbmp l in
  num = Z.of_nat (length ms) /\
  snd (op_mode_loop ifbmp_mod if_op 0 l no_setting) = r /\
  forall m, m ∈ ms -> covers r m /\ range_in (freqs m) (freqs r).
Proof.
  intros ms Em V G. pose proof (union_by_ifbmp ifbmp l) as S. revert S.
  destruct (rtw_mi_get_ch_setting_union_by_ifbmp ifbmp l) as [num r]. fold ms.
  intros [S1 S0].
  pose proof (op_mode_loop_union ifbmp_mod if_op l 0 no_setting []) as O. cbn [app] in O.
  rewrite Em in O. specialize (O V G (or_introl (conj eq_refl eq_refl))).
  destruct (decide (num = 0)) as [->|Hn].
  - destruct (S0 eq_refl) as [-> [E|(a & b & Ha & Hb & C)]].
    + rewrite E in *. destruct O as [[_ ->]|[H%elem_of_nil _]]; [|done].
      split; [done|]. split; [done|]. intros m Hm%elem_of_nil. done.
    + exfalso. destruct (grouped_offset a b) as [? ?]; auto. unfold conflict in C. tauto.
  - destruct (S1 Hn) as [-> Hr]. split; [done|].
    destruct O as [[-> _]|O]; [by destruct Hr as [?%elem_of_nil _]|].
    split; [by eapply is_union_unique|]. intros m Hm.
    assert (covers r m) by (by eapply is_union_covers).
    split; [done|]. apply covers_freqs; auto. apply V, Hr.
Qed.

Lemma unions_agree_witness :
  let on s := Some (mk_adapter 0 WIFI_ASOC_STATE s) in
  let l := [on (mk_chbw 36 CHANNEL_WIDTH_20 0); None; on (mk_chbw 36 CHANNEL_WIDTH_80 1)] in
  let ms := union_members 0xFF l in
  let '(num, r) := rtw_mi_get_ch_setting_union_by_ifbmp 0xFF l in
  num = Z.of_nat (length ms) /\
  snd (op_mode_loop 0 false 0 l no_setting) = r /\
  forall m, m ∈ ms -> covers r m /\ range_in (freqs m) (freqs r).
Proof.
  apply (unions_agree 0xFF 0 false).
  - vm_compute. reflexivity.
  - intros m Hm. vm_compute in Hm.
    apply elem_of_cons in Hm as [->|Hm%list_elem_of_singleton];
      [|rewrite Hm]; split; try by_evaluation; unfold_widths; cbn; lia.
  - intros a b Ha Hb. vm_compute in Ha, Hb.
    apply elem_of_cons in Ha as [->|Ha%list_elem_of_singleton];
      apply elem_of_cons in Hb as [->|Hb%list_elem_of_singleton];
      try rewrite Ha; try rewrite Hb; reflexivity.
Defined.

(** A bandwidth the chip or the registry does not allow is lowered. *)
Lemma adjust_chbw_allowed d bw_mode ch bw offset :
  let '(changed, bw', offset') := rtw_adjust_chbw d bw_mode ch bw offset in
  bw' <= bw /\ (changed = false -> bw' = bw /\ offset' = offset) /\
  (changed = true -> bw' = rtw_hw_largest_bw d
     (if ch <? 14 then BW_MODE_2G bw_mode
      else if ch =? 14 then CHANNEL_WIDTH_20 else BW_MODE_5G bw_mode)).
Proof.
  unfold rtw_adjust_chbw. set (a := rtw_hw_largest_bw d _).
  destruct (Z.eqb_spec a CHANNEL_WIDTH_80), (Z.gtb_spec bw CHANNEL_WIDTH_80),
    (Z.eqb_spec a CHANNEL_WIDTH_40), (Z.gtb_spec bw CHANNEL_WIDTH_40),
    (Z.eqb_spec a CHANNEL_WIDTH_20), (Z.gtb_spec bw CHANNEL_WIDTH_20);
    cbn [andb]; split_all.
Qed.

End ChanGroup.
