(* ===== verification/ChanPlan.v ===== *)
(** * The channel plan and radar (core/rtw_mlme_ext.c, rtw_chplan.c, rtw_ap.c)

    The channels the regulation allows are the driver's channel set: passive
    ones must not be used to start a transmission, DFS ones only after listening
    for radar (channel availability check, CAC), and after radar was seen a
    channel must not be used for half an hour (non-occupancy).  Module [ChanPlan]
    models the set, the tests on a setting, the timers, and how the access point
    chooses its setting.

    The kernel's conversions between milliseconds and jiffies are arguments; the
    time is an argument of each operation, which reads it once. *)

From S2P Require Import Prelude Chan ChanGroup.
Import Chan ChanGroup.

Module ChanPlan.

(** ** Data *)

Definition RTW_CHF_NO_IR : Z := BIT 0.
Definition RTW_CHF_DFS : Z := BIT 1.
Definition RTW_CHF_LONG_CAC : Z := BIT 2.
Definition RTW_CHF_NON_OCP : Z := BIT 3.

Definition MAX_CHANNEL_NUM : Z := 42.
Definition CAC_TIME_MS : Z := 60 * 1000.
Definition CAC_TIME_CE_MS : Z := 10 * 60 * 1000.
Definition NON_OCP_TIME_MS : Z := 30 * 60 * 1000.

Definition RTW_DFS_REGD_NONE : Z := 0.
Definition RTW_DFS_REGD_ETSI : Z := 3.
Definition RTW_CAC_STOPPED : Z := 0.

(** [RT_CHANNEL_INFO]. *)
Record RT_CHANNEL_INFO := mk_channel {
  ChannelNum : Z;
  flags : Z;
  non_ocp_end_time : Z
}.

#[export] Instance RT_CHANNEL_INFO_eq_dec : EqDecision RT_CHANNEL_INFO.
Proof. solve_decision. Defined.

(** The fields of [struct rf_ctl_t] the modelled functions use. *)
Record rf_ctl_t := mk_rf_ctl {
  max_chan_nums : Z;
  channel_set : list RT_CHANNEL_INFO;
  ch_sel_within_same_band : bool;
  dfs_region_domain : Z;
  radar_detect_by_others : bool;
  radar_detect_enabled : bool;
  radar_detected : bool;
  radar_detect_ch : Z;
  radar_detect_bw : Z;
  radar_detect_offset : Z;
  cac_start_time : Z;
  cac_end_time : Z;
  dfs_ch_sel_e_flags : Z;
  dfs_ch_sel_d_flags : Z;
  dbg_dfs_choose_dfs_ch_first : bool
}.

Definition flag (e : RT_CHANNEL_INFO) (f : Z) : bool := negb (Z.land (flags e) f =? 0).

(** [i < MAX_CHANNEL_NUM && ch_set[i].ChannelNum != 0]: the entries a loop sees. *)
Fixpoint until_zero (l : list RT_CHANNEL_INFO) : list RT_CHANNEL_INFO :=
  match l with
  | [] => []
  | e :: l => if ChannelNum e =? 0 then [] else e :: until_zero l
  end.
Definition entries (ch_set : list RT_CHANNEL_INFO) : list RT_CHANNEL_INFO :=
  until_zero (take (Z.to_nat MAX_CHANNEL_NUM) ch_set).

(** ** Time: [systime] is an [unsigned long] of 64 bits *)

Definition u64 (x : Z) : Z := x mod 2 ^ 64.
(** [time_after(a, b)]: [(long)(b - a) < 0]. *)
Definition rtw_time_after (a b : Z) : bool := 2 ^ 63 <=? u64 (b - a).

Definition CH_IS_NON_OCP (now : Z) (e : RT_CHANNEL_INFO) : bool :=
  rtw_time_after (non_ocp_end_time e) now.

(** ** Look-up and validity *)

(** The index of the first entry with [ch]. *)
Fixpoint search_from (i : Z) (l : list RT_CHANNEL_INFO) (ch : Z) : Z :=
  match l with
  | [] => -1
  | e :: l => if ch =? ChannelNum e then i else search_from (i + 1) l ch
  end.
Definition rtw_chset_search_ch (ch_set : list RT_CHANNEL_INFO) (ch : Z) : Z :=
  if ch =? 0 then -1 else search_from 0 (entries ch_set) ch.

(** The entry [ch_set[rtw_chset_search_ch(ch_set, ch)]]. *)
Definition ch_entry (ch_set : list RT_CHANNEL_INFO) (ch : Z) : option RT_CHANNEL_INFO :=
  let ch_idx := rtw_chset_search_ch ch_set ch in
  if ch_idx =? -1 then None else rd ch_set ch_idx.

(** The loop over the 20 MHz channels does not break at [c]. *)
Definition op_ch_permitted (ch_set : list RT_CHANNEL_INFO) (ch : Z)
    (allow_primary_passive allow_passive : bool) (c : Z) : bool :=
  match ch_entry ch_set c with
  | None => false
  | Some e =>
      negb (flag e RTW_CHF_NO_IR
            && ((negb allow_primary_passive && (ChannelNum e =? ch))
                || (negb allow_passive && negb (ChannelNum e =? ch))))
  end.

Definition rtw_chset_is_chbw_valid (ch_set : list RT_CHANNEL_INFO) (ch bw offset : Z)
    (allow_primary_passive allow_passive : bool) : bool :=
  let cch := rtw_phl_get_center_ch ch bw offset in
  match rtw_get_op_chs_by_cch_bw cch bw with
  | None => false
  | Some op_chs =>
      negb (Z.of_nat (length op_chs) =? 0)
      && forallb (op_ch_permitted ch_set ch allow_primary_passive allow_passive) op_chs
  end.

(** The loop of [rtw_chset_sync_chbw]: [cur_bw] counts down to 20 MHz. *)
Fixpoint chset_sync_loop (fuel : nat) (ch_set : list RT_CHANNEL_INFO) (req g : chbw)
    (cur_bw : Z) (allow_primary_passive allow_passive : bool) : option (chbw * chbw) :=
  match fuel with
  | O => None
  | S fuel =>
      let '(r, u) := rtw_sync_chbw (mk_chbw (c_ch req) cur_bw (c_offset req)) g in
      if rtw_chset_is_chbw_valid ch_set (c_ch r) (c_bw r) (c_offset r)
           allow_primary_passive allow_passive then Some (r, u)
      else if cur_bw =? CHANNEL_WIDTH_20 then Some (r, u)
      else chset_sync_loop fuel ch_set req g (u8 (cur_bw - 1)) allow_primary_passive allow_passive
  end.
Definition rtw_chset_sync_chbw (ch_set : list RT_CHANNEL_INFO) (req g : chbw)
    (allow_primary_passive allow_passive : bool) : option (chbw * chbw) :=
  chset_sync_loop (Z.to_nat (c_bw req) + 1) ch_set req g (c_bw req)
    allow_primary_passive allow_passive.

(** ** DFS channels *)

Definition rtw_chset_is_dfs_range (chset : list RT_CHANNEL_INFO) (hi lo : Z) : bool :=
  let hi_ch := u8 (rtw_freq2ch hi) in
  let lo_ch := u8 (rtw_freq2ch lo) in
  existsb (fun e => flag e RTW_CHF_DFS && (hi_ch >? ChannelNum e) && (lo_ch <? ChannelNum e))
    (entries chset).

Definition rtw_chset_is_dfs_ch (chset : list RT_CHANNEL_INFO) (ch : Z) : bool :=
  match find (fun e => ChannelNum e =? ch) (entries chset) with
  | Some e => flag e RTW_CHF_DFS
  | None => false
  end.

Definition rtw_chset_is_dfs_chbw (chset : list RT_CHANNEL_INFO) (ch bw offset : Z) : bool :=
  let '(valid, hi, lo) := rtw_chbw_to_freq_range ch bw offset in
  valid && rtw_chset_is_dfs_range chset hi lo.

Definition rtw_is_range_a_in_b (hi_a lo_a hi_b lo_b : Z) : bool := (hi_a <=? hi_b) && (lo_b <=? lo_a).
Definition rtw_is_range_overlap (hi_a lo_a hi_b lo_b : Z) : bool := (lo_b <? hi_a) && (lo_a <? hi_b).

Definition rtw_is_long_cac_range (hi lo dfs_region : Z) : bool :=
  (dfs_region =? RTW_DFS_REGD_ETSI) && rtw_is_range_overlap hi lo 5650 5600.
Definition rtw_is_long_cac_ch (ch bw offset dfs_region : Z) : bool :=
  let '(valid, hi, lo) := rtw_chbw_to_freq_range ch bw offset in
  valid && rtw_is_long_cac_range hi lo dfs_region.

Definition rtw_rfctl_get_dfs_domain (rfctl : rf_ctl_t) : Z := dfs_region_domain rfctl.
Definition rtw_rfctl_dfs_domain_unknown (rfctl : rf_ctl_t) : bool :=
  rtw_rfctl_get_dfs_domain rfctl =? RTW_DFS_REGD_NONE.

(** ** Non-occupancy *)

(** The entries in the frequency range of a setting. *)
Definition ch_in_range (hi lo : Z) (e : RT_CHANNEL_INFO) : bool :=
  let f := rtw_ch2freq (ChannelNum e) in
  negb (f =? 0) && (lo <=? f) && (f <=? hi).

Definition rtw_chset_is_chbw_non_ocp (now : Z) (ch_set : list RT_CHANNEL_INFO) (ch bw offset : Z)
    : bool :=
  let '(valid, hi, lo) := rtw_chbw_to_freq_range ch bw offset in
  valid && existsb (fun e => CH_IS_NON_OCP now e && ch_in_range hi lo e) (entries ch_set).
Definition rtw_chset_is_ch_non_ocp (now : Z) (ch_set : list RT_CHANNEL_INFO) (ch : Z) : bool :=
  rtw_chset_is_chbw_non_ocp now ch_set ch CHANNEL_WIDTH_20 CHAN_OFFSET_NO_EXT.

(** The loop's effect on the entries it sees; the others keep their place. *)
Fixpoint map_entries (n : nat) (f : RT_CHANNEL_INFO -> RT_CHANNEL_INFO)
    (l : list RT_CHANNEL_INFO) : list RT_CHANNEL_INFO :=
  match n, l with
  | S n, e :: l => if ChannelNum e =? 0 then e :: l else f e :: map_entries n f l
  | _, _ => l
  end.

Section time.
Context (ms_to_systime systime_to_ms : Z -> Z).

Definition rtw_chset_get_ch_non_ocp_ms (now : Z) (ch_set : list RT_CHANNEL_INFO)
      (ch bw offset : Z) : Z :=
    let '(valid, hi, lo) := rtw_chbw_to_freq_range ch bw offset in
    if negb valid then 0
    else foldl (fun ms e =>
      if CH_IS_NON_OCP now e && ch_in_range hi lo e
      then let m := u32 (systime_to_ms (u64 (non_ocp_end_time e - now))) in
           if m >? ms then m else ms
      else ms) 0 (entries ch_set).

Definition mark_non_ocp (now ms hi lo : Z) (e : RT_CHANNEL_INFO) : RT_CHANNEL_INFO :=
    if ch_in_range hi lo e
    then {| ChannelNum := ChannelNum e;
            flags := u8 (Z.lor (flags e) RTW_CHF_NON_OCP);
            non_ocp_end_time :=
              u64 (now + ms_to_systime (if ms >=? 0 then ms else NON_OCP_TIME_MS)) |}
    else e.

(** The array afterwards, and whether an entry was updated. *)
Definition _rtw_chset_update_non_ocp (now : Z) (ch_set : list RT_CHANNEL_INFO)
      (ch bw offset ms : Z) : list RT_CHANNEL_INFO * bool :=
    let '(valid, hi, lo) := rtw_chbw_to_freq_range ch bw offset in
    if negb valid then (ch_set, false)
    else (map_entries (Z.to_nat MAX_CHANNEL_NUM) (mark_non_ocp now ms hi lo) ch_set,
          existsb (ch_in_range hi lo) (entries ch_set)).
Definition rtw_chset_update_non_ocp (now : Z) (ch_set : list RT_CHANNEL_INFO) (ch bw offset : Z) :=
    _rtw_chset_update_non_ocp now ch_set ch bw offset (-1).
Definition rtw_chset_update_non_ocp_ms (now : Z) (ch_set : list RT_CHANNEL_INFO)
      (ch bw offset ms : Z) :=
    _rtw_chset_update_non_ocp now ch_set ch bw offset ms.

(** ** Channel availability check *)

Definition IS_CAC_STOPPED (rfctl : rf_ctl_t) : bool := cac_end_time rfctl =? RTW_CAC_STOPPED.
Definition IS_CH_WAITING (now : Z) (rfctl : rf_ctl_t) : bool :=
    negb (IS_CAC_STOPPED rfctl) && rtw_time_after (cac_end_time rfctl) now.
Definition IS_UNDER_CAC (now : Z) (rfctl : rf_ctl_t) : bool :=
    IS_CH_WAITING now rfctl && rtw_time_after now (cac_start_time rfctl).

(** The sum, [*r_non_ocp_ms] and [*r_cac_ms].  When a range is not valid the
    code goes on with the zeros [rtw_chbw_to_freq_range] stored. *)
Definition rtw_get_ch_waiting_ms (now : Z) (rfctl : rf_ctl_t) (ch bw offset : Z) : Z * Z * Z :=
    let non_ocp_ms :=
      if rtw_chset_is_chbw_non_ocp now (channel_set rfctl) ch bw offset
      then rtw_chset_get_ch_non_ocp_ms now (channel_set rfctl) ch bw offset else 0 in
    let in_rd_range :=
      radar_detect_enabled rfctl &&
      (let '(_, hi, lo) := rtw_chbw_to_freq_range ch bw offset in
       let '(_, cur_hi, cur_lo) := rtw_chbw_to_freq_range (radar_detect_ch rfctl)
             (radar_detect_bw rfctl) (radar_detect_offset rfctl) in
       rtw_is_range_a_in_b hi lo cur_hi cur_lo) in
    let cac_ms :=
      if negb (rtw_chset_is_dfs_chbw (channel_set rfctl) ch bw offset) then 0
      else if in_rd_range && (non_ocp_ms =? 0) then
        if IS_CH_WAITING now rfctl
        then u32 (systime_to_ms (u64 (cac_end_time rfctl - now))) else 0
      else if rtw_is_long_cac_ch ch bw offset (rtw_rfctl_get_dfs_domain rfctl)
      then CAC_TIME_CE_MS else CAC_TIME_MS in
    (u32 (non_ocp_ms + cac_ms), non_ocp_ms, cac_ms).

(** [cac_start_time] and [cac_end_time] afterwards. *)
Definition rtw_reset_cac (now : Z) (rfctl : rf_ctl_t) (ch bw offset : Z) : Z * Z :=
    let '(_, non_ocp_ms, cac_ms) := rtw_get_ch_waiting_ms now rfctl ch bw offset in
    let start := u64 (now + ms_to_systime non_ocp_ms) in
    let stop := u64 (start + ms_to_systime cac_ms) in
    let '(start, stop) :=
      if start =? RTW_CAC_STOPPED then (u64 (start + 1), u64 (stop + 1)) else (start, stop) in
    (start, if stop =? RTW_CAC_STOPPED then u64 (stop + 1) else stop).
End time.

Definition rtw_is_cac_reset_needed (rfctl : rf_ctl_t) (ch bw offset : Z) : bool :=
  if radar_detected rfctl then true
  else if radar_detect_ch rfctl =? 0 then true
  else
    let '(_, hi, lo) := rtw_chbw_to_freq_range ch bw offset in
    let '(_, cur_hi, cur_lo) := rtw_chbw_to_freq_range (radar_detect_ch rfctl)
          (radar_detect_bw rfctl) (radar_detect_offset rfctl) in
    let dfs := rtw_chset_is_dfs_range (channel_set rfctl) in
    if rtw_is_range_a_in_b hi lo cur_hi cur_lo then false
    else if negb (rtw_is_range_overlap hi lo cur_hi cur_lo) then true
    else if rtw_is_range_a_in_b cur_hi cur_lo hi lo
    then (negb (hi =? cur_hi) && dfs hi cur_hi) || (negb (lo =? cur_lo) && dfs cur_lo lo)
    else ((lo <? cur_lo) && dfs cur_lo lo) || ((hi >? cur_hi) && dfs hi cur_hi).

Definition _rtw_rfctl_overlap_radar_detect_ch (rfctl : rf_ctl_t) (ch bw offset : Z) : bool :=
  if radar_detect_by_others rfctl then false
  else if radar_detect_ch rfctl =? 0 then false
  else
    let '(valid, hi, lo) := rtw_chbw_to_freq_range ch bw offset in
    if negb valid then false
    else
      let '(valid, r_hi, r_lo) := rtw_chbw_to_freq_range (radar_detect_ch rfctl)
            (radar_detect_bw rfctl) (radar_detect_offset rfctl) in
      valid && rtw_is_range_overlap hi lo r_hi r_lo.

(** ** The watchdog: channels whose non-occupancy is over *)

Definition with_flags (e : RT_CHANNEL_INFO) (f : Z) : RT_CHANNEL_INFO :=
  {| ChannelNum := ChannelNum e; flags := f; non_ocp_end_time := non_ocp_end_time e |}.

Definition clear_non_ocp_flag (e : RT_CHANNEL_INFO) : RT_CHANNEL_INFO :=
  with_flags e (Z.land (flags e) (Z.lnot RTW_CHF_NON_OCP)).

(** [ch_set[rtw_chset_search_ch(ch_set, c)].flags &= ~RTW_CHF_NON_OCP] *)
Definition clear_ch (ch_set : list RT_CHANNEL_INFO) (c : Z) : list RT_CHANNEL_INFO :=
  alter clear_non_ocp_flag (Z.to_nat (rtw_chset_search_ch ch_set c)) ch_set.

Definition op_ch_finished (now : Z) (ch_set : list RT_CHANNEL_INFO) (c : Z) : bool :=
  match ch_entry ch_set c with
  | None => false
  | Some e => flag e RTW_CHF_NON_OCP && negb (CH_IS_NON_OCP now e)
  end.

(** The set afterwards and the event that is reported, if any. *)
Definition rtw_chset_chk_non_ocp_finish_for_chbw (now : Z) (ch_set : list RT_CHANNEL_INFO)
    (ch bw offset : Z) : list RT_CHANNEL_INFO * option (Z * Z) :=
  let cch := rtw_get_center_ch ch bw offset in
  match rtw_get_op_chs_by_cch_bw cch bw with
  | None => (ch_set, None)
  | Some op_chs =>
      if negb (Z.of_nat (length op_chs) =? 0) && forallb (op_ch_finished now ch_set) op_chs
      then (foldl clear_ch ch_set op_chs, Some (cch, bw))
      else (ch_set, None)
  end.

(** The set, the variable [offset], and the events so far. *)
Definition finish_state : Type := list RT_CHANNEL_INFO * Z * list (Z * Z).

(** The body of the loop over the channels; [None] is an access outside of the
    array. *)
Definition finish_step (now bw : Z) (st : finish_state) (i : Z) : option finish_state :=
  let '(cs, offset, evs) := st in
  e ← rd cs i;
  if negb (flag e RTW_CHF_NON_OCP) then Some st
  else
    let '(valid, offset) := rtw_get_offset_by_chbw (ChannelNum e) bw offset in
    if negb valid then Some (cs, offset, evs)
    else
      let '(cs, ev) := rtw_chset_chk_non_ocp_finish_for_chbw now cs (ChannelNum e) bw offset in
      Some (cs, offset, evs ++ option_list ev).

Fixpoint foldM {A B} (f : A -> B -> option A) (a : A) (l : list B) : option A :=
  match l with
  | [] => Some a
  | b :: l => a ← f a b; foldM f a l
  end.

Definition finish_bw (now max : Z) (st : finish_state) (bw : Z) : option finish_state :=
  foldM (finish_step now bw) st (seqZ 0 max).

(** [while (1) { ...; if (bw-- == CHANNEL_WIDTH_20) break; }] from 160 MHz;
    [offset] is not initialised. *)
Definition rtw_chset_chk_non_ocp_finish (now : Z) (rfctl : rf_ctl_t) (offset : Z)
    : option finish_state :=
  foldM (finish_bw now (max_chan_nums rfctl)) (channel_set rfctl, offset, [])
    [CHANNEL_WIDTH_160; CHANNEL_WIDTH_80; CHANNEL_WIDTH_40; CHANNEL_WIDTH_20].

(** ** Choosing a setting *)

(** The registry's bandwidths, as [rtw_choose_shortest_waiting_ch] and
    [rtw_adjust_chbw] read them. *)
Record environment := mk_env { env_hal : hal_spec_t; env_bw_mode : Z; env_now : Z }.

Section choose.
Context (systime_to_ms : Z -> Z) (env : environment) (rfctl : rf_ctl_t).
Context (sel_ch max_bw e_flags d_flags cur_ch : Z) (mesh_only : bool).

(** A test with one of the flags: the setting must have the property if
    [e_flags] asks for it and must not have it if [d_flags] does. *)
Definition flag_excludes (f : Z) (has : bool) : bool :=
    (negb (Z.land e_flags f =? 0) && negb has) || (negb (Z.land d_flags f =? 0) && has).

(** The tests before the offset is known. *)
Definition ch_selected (bw ch : Z) : bool :=
    (if negb (sel_ch =? 0) then ch =? sel_ch
     else negb (ch_sel_within_same_band rfctl && negb (rtw_is_same_band cur_ch ch)))
    && (bw <=? if ch >? 14 then BW_MODE_5G (env_bw_mode env) else BW_MODE_2G (env_bw_mode env))
    && negb (mesh_only && within 5 ch 9 && (bw >? CHANNEL_WIDTH_20)).

(** The tests with the offset. *)
Definition setting_allowed (ch bw offset : Z) : bool :=
    rtw_chset_is_chbw_valid (channel_set rfctl) ch bw offset false false
    && negb (flag_excludes RTW_CHF_DFS (rtw_chset_is_dfs_chbw (channel_set rfctl) ch bw offset))
    && negb (flag_excludes RTW_CHF_LONG_CAC
               (rtw_is_long_cac_ch ch bw offset (rtw_rfctl_get_dfs_domain rfctl)))
    && negb (flag_excludes RTW_CHF_NON_OCP
               (rtw_chset_is_chbw_non_ocp (env_now env) (channel_set rfctl) ch bw offset)).

(** The best setting so far with its waiting time; channel 0 is none. *)
Record choice := mk_choice { ch_c : Z; bw_c : Z; offset_c : Z; min_waiting_ms : Z }.
Definition no_choice : choice := mk_choice 0 0 0 0.

(** The condition of the assignment; the interference factors are all 0. *)
Definition better (c n : choice) : bool :=
    (ch_c c =? 0)
    || (min_waiting_ms c >? min_waiting_ms n)
    || ((min_waiting_ms c =? min_waiting_ms n) && (bw_c n >? bw_c c))
    || ((min_waiting_ms c =? min_waiting_ms n) && (bw_c n =? bw_c c)
        && ((negb (cur_ch =? ch_c c) && (cur_ch =? ch_c n))
            || (negb (rtw_is_same_band cur_ch (ch_c c)) && rtw_is_same_band cur_ch (ch_c n)))).

(** One iteration of the inner loop: the choice and the variable [offset],
    which [rtw_get_offset_by_chbw] reads and writes. *)
Definition choose_step (bw : Z) (st : choice * Z) (e : RT_CHANNEL_INFO) : choice * Z :=
    let '(c, offset) := st in
    let ch := ChannelNum e in
    if negb (ch_selected bw ch) then st
    else
      let '(valid, offset) := rtw_get_offset_by_chbw ch bw offset in
      if negb valid then (c, offset)
      else if negb (setting_allowed ch bw offset) then (c, offset)
      else
        let '(waiting_ms, _, _) :=
          rtw_get_ch_waiting_ms systime_to_ms (env_now env) rfctl ch bw offset in
        let n := mk_choice ch bw offset waiting_ms in
        (if better c n then n else c, offset).

Definition choose_bw (st : choice * Z) (bw : Z) : choice * Z :=
    if negb (rtw_hw_is_band_support (env_hal env) bw) then st
    else foldl (choose_step bw) st (take (Z.to_nat (max_chan_nums rfctl)) (channel_set rfctl)).

(** [None] is the return value [_FALSE]; [offset] is not initialised. *)
Definition rtw_choose_shortest_waiting_ch (offset : Z) : option (Z * Z * Z) :=
    let '(c, _) := foldl choose_bw (no_choice, offset) (seqZ 0 (max_bw + 1)) in
    if negb (ch_c c =? 0) then Some (ch_c c, bw_c c, offset_c c) else None.
End choose.

(** *** The access point (core/rtw_ap.c) *)

(** The [while] of [rtw_ap_ch_specific_chk]; the bandwidth goes down to 20 MHz. *)
Fixpoint ap_narrow (fuel : nat) (rfctl : rf_ctl_t) (ch bw offset : Z) : option (Z * Z) :=
  match fuel with
  | O => None
  | S fuel =>
      if negb (rtw_chset_is_chbw_valid (channel_set rfctl) ch bw offset false false)
         || (rtw_rfctl_dfs_domain_unknown rfctl
             && rtw_chset_is_dfs_chbw (channel_set rfctl) ch bw offset)
      then
        let bw := if bw >? CHANNEL_WIDTH_20 then bw - 1 else bw in
        if bw =? CHANNEL_WIDTH_20 then Some (bw, CHAN_OFFSET_NO_EXT)
        else ap_narrow fuel rfctl ch bw offset
      else Some (bw, offset)
  end.

(** [_SUCCESS] or [_FAIL] with [*bw] and [*offset]. *)
Definition rtw_ap_ch_specific_chk (env : environment) (rfctl : rf_ctl_t) (ch bw offset : Z)
    : option (bool * Z * Z) :=
  match ch_entry (channel_set rfctl) ch with
  | None => Some (false, bw, offset)
  | Some e =>
      if flag e RTW_CHF_NO_IR then Some (false, bw, offset)
      else
        let '(_, bw, offset) := rtw_adjust_chbw (env_hal env) (env_bw_mode env) ch bw offset in
        let '(valid, offset) := rtw_get_offset_by_chbw ch bw offset in
        if negb valid then Some (false, bw, offset)
        else
          '(bw, offset) ← ap_narrow (Z.to_nat bw + 1) rfctl ch bw offset;
          if rtw_rfctl_dfs_domain_unknown rfctl
             && rtw_chset_is_dfs_chbw (channel_set rfctl) ch bw offset
          then Some (false, bw, offset) else Some (true, bw, offset)
  end.

(** [rtw_ap_choose_chbw]; each call starts with its own [offset]. *)
Definition rtw_ap_choose_chbw (systime_to_ms : Z -> Z) (env : environment) (rfctl : rf_ctl_t)
    (sel_ch max_bw cur_ch : Z) (mesh_only : bool) (offset : Z) : option (Z * Z * Z) :=
  let choose e_flags d_flags :=
    rtw_choose_shortest_waiting_ch systime_to_ms env rfctl sel_ch max_bw e_flags d_flags
      cur_ch mesh_only offset in
  let fall_back cond first second := if cond : bool then
      match first with Some r => Some r | None => second end else second in
  if negb (rtw_rfctl_dfs_domain_unknown rfctl) then
    fall_back (radar_detected rfctl && dbg_dfs_choose_dfs_ch_first rfctl) (choose RTW_CHF_DFS 0)
      (fall_back (radar_detected rfctl
                  && (negb (dfs_ch_sel_e_flags rfctl =? 0) || negb (dfs_ch_sel_d_flags rfctl =? 0)))
         (choose (dfs_ch_sel_e_flags rfctl) (dfs_ch_sel_d_flags rfctl))
         (choose 0 0))
  else choose 0 RTW_CHF_DFS.

(** ** Building the set (core/rtw_chplan.c) *)

(** [struct rtw_regulation_channel]: number and property bits. *)
Record regulation_channel := mk_reg_channel { reg_channel : Z; reg_property : Z }.
Definition CH_PASSIVE : Z := BIT 0.
Definition CH_DFS : Z := BIT 1.

(** [excl_chs] ends at its first 0 or at [MAX_CHANNEL_NUM] entries. *)
Fixpoint is_excl (excl_chs : list Z) (ch : Z) : bool :=
  match excl_chs with
  | [] => false
  | x :: l => if x =? 0 then false else if x =? ch then true else is_excl l ch
  end.
Definition rtw_regsty_is_excl_chs (excl_chs : list Z) (ch : Z) : bool :=
  is_excl (take (Z.to_nat MAX_CHANNEL_NUM) excl_chs) ch.

Definition plan_entry (now : Z) (p : regulation_channel) : RT_CHANNEL_INFO :=
  {| ChannelNum := reg_channel p;
     flags := Z.lor (if Z.land (reg_property p) CH_DFS =? 0 then 0 else RTW_CHF_DFS)
                    (if Z.land (reg_property p) CH_PASSIVE =? 0 then 0 else RTW_CHF_NO_IR);
     non_ocp_end_time := now |}.

(** The set and its size for the plan the phl layer returns ([plan]), on a
    device with a band; [None] when the plan has more channels than the array. *)
Definition init_channel_set (now : Z) (excl_chs : list Z) (band_ok : bool)
    (plan : list regulation_channel) : option (list RT_CHANNEL_INFO * Z) :=
  let zero := replicate (Z.to_nat MAX_CHANNEL_NUM) (mk_channel 0 0 0) in
  if negb band_ok then Some (zero, 0)
  else
    let l := map (plan_entry now)
               (List.filter (fun p => negb (rtw_regsty_is_excl_chs excl_chs (reg_channel p))) plan) in
    if Z.of_nat (length l) >? MAX_CHANNEL_NUM then None
    else Some (l ++ drop (length l) zero, Z.of_nat (length l)).

(** [rtw_process_beacon_hint]: a beacon on a passive channel of a world-wide
    plan makes it active; the set and the number of changes. *)
Definition rtw_process_beacon_hint (ch_set : list RT_CHANNEL_INFO) (country_ent : bool) (ch : Z)
    : list RT_CHANNEL_INFO * Z :=
  match ch_entry ch_set ch with
  | None => (ch_set, 0)
  | Some e =>
      if flag e RTW_CHF_NO_IR && negb country_ent && negb (ch <=? 11)
         && negb (flag e RTW_CHF_DFS)
      then (alter (fun e => with_flags e (Z.land (flags e) (Z.lnot RTW_CHF_NO_IR)))
              (Z.to_nat (rtw_chset_search_ch ch_set ch)) ch_set, 1)
      else (ch_set, 0)
  end.

(** ** The entries of a set *)

Lemma until_zero_prefix l : until_zero l `prefix_of` l.
Proof.
  induction l as [|e l IH]; [done|]. cbn. case_match; [apply prefix_nil|by apply prefix_cons].
Qed.

Lemma entries_prefix cs : entries cs `prefix_of` cs.
Proof.
  etrans; [apply until_zero_prefix|]. exists (drop (Z.to_nat MAX_CHANNEL_NUM) cs).
  by rewrite take_drop.
Qed.

Lemma until_zero_nonzero l e : e ∈ until_zero l -> ChannelNum e <> 0.
Proof.
  induction l as [|x l IH]; cbn; [by intros ?%elem_of_nil|].
  destruct (Z.eqb_spec (ChannelNum x) 0); [by intros ?%elem_of_nil|].
  by intros [->|]%elem_of_cons; auto.
Qed.

(** The search finds the first entry of a channel. *)
Lemma search_from_find i l ch :
  0 <= i ->
  match find (fun e => ch =? ChannelNum e) l with
  | None => search_from i l ch = -1
  | Some e => exists k : nat, search_from i l ch = i + Z.of_nat k /\ l !! k = Some e
  end.
Proof.
  revert i. induction l as [|x l IH]; intros i Hi; cbn [find search_from]; [done|].
  destruct (ch =? ChannelNum x); [exists 0%nat; split; [lia|done]|].
  specialize (IH (i + 1) ltac:(lia)). destruct (find _ l); [|done].
  destruct IH as (k & -> & ?). exists (S k). split; [lia|done].
Qed.

Lemma ch_entry_find cs ch :
  ch <> 0 -> ch_entry cs ch = find (fun e => ch =? ChannelNum e) (entries cs).
Proof.
  intros Hc. unfold ch_entry, rtw_chset_search_ch.
  destruct (Z.eqb_spec ch 0); [done|].
  pose proof (search_from_find 0 (entries cs) ch ltac:(lia)) as H.
  destruct (find _ (entries cs)) as [e|].
  - destruct H as (k & -> & Hk). destruct (Z.eqb_spec (0 + Z.of_nat k) (-1)); [lia|].
    rewrite rd_lookup by lia. replace (Z.to_nat (0 + Z.of_nat k)) with k by lia.
    eapply prefix_lookup_Some; [done|apply entries_prefix].
  - by rewrite H.
Qed.

Lemma ch_entry_num cs ch e : ch <> 0 -> ch_entry cs ch = Some e -> ChannelNum e = ch /\ e ∈ entries cs.
Proof.
  intros Hc. rewrite ch_entry_find by done. intros [Hin E]%find_some.
  apply Z.eqb_eq in E. split; [done|]. by apply list_elem_of_In.
Qed.

Lemma primary_nonzero c : c ∈ primary_chs -> c <> 0.
Proof.
  intros H ->. revert H. apply (bool_decide_unpack _). vm_compute. exact I.
Qed.

(** ** Theorems: the tests on a setting *)

(** What a 20 MHz channel must be for a transmission on it. *)
Definition usable (cs : list RT_CHANNEL_INFO) (c : Z) : Prop :=
  exists e, ch_entry cs c = Some e /\ flag e RTW_CHF_NO_IR = false.

Lemma op_ch_permitted_usable cs ch c :
  op_ch_permitted cs ch false false c = true <-> usable cs c.
Proof.
  unfold op_ch_permitted, usable. destruct (ch_entry cs c) as [e|].
  - cbn [negb]. rewrite !andb_true_l.
    assert (E : (ChannelNum e =? ch) || negb (ChannelNum e =? ch) = true) by by destruct (_ =? _).
    rewrite E, andb_true_r, negb_true_iff. split; [eauto|]. by intros (? & [= ->] & ?).
  - split; [done|]. by intros (? & ? & _).
Qed.

(** A 5 GHz setting is valid for the channel set exactly when the plan has
    every 20 MHz channel whose frequencies lie in the setting's, none of them
    passive. *)
Theorem chbw_valid_spec cs ch bw offset :
  setting_ok ch bw offset -> 14 < ch ->
  rtw_chset_is_chbw_valid cs ch bw offset false false = true <->
  forall c, c ∈ primary_chs ->
    range_in (rtw_chbw_to_freq_range c CHANNEL_WIDTH_20 0) (rtw_chbw_to_freq_range ch bw offset) ->
    usable cs c.
Proof.
  intros H H5. apply covered_chs_ok in H. revert H. unfold covered_ok, covered_chs, rtw_get_center_ch.
  unfold rtw_chset_is_chbw_valid.
  destruct (rtw_get_op_chs_by_cch_bw _ _) as [l|]; [|done].
  intros (Hin & _ & Hsub & Hf). specialize (Hf H5). rewrite Forall_forall in Hf, Hsub.
  assert (Hl : Z.of_nat (length l) <> 0) by (destruct l; [by apply elem_of_nil in Hin|cbn; lia]).
  destruct (Z.eqb_spec (Z.of_nat (length l)) 0); [done|]. cbn [negb andb].
  rewrite forallb_forall. setoid_rewrite <- list_elem_of_In. split.
  - intros A c Hc Hr. apply (op_ch_permitted_usable cs ch). apply A. by apply Hf.
  - intros A c Hc. apply op_ch_permitted_usable. apply A; [by apply Hsub|]. apply Hf; [by apply Hsub|done].
Qed.

Definition plan_2_5 : list RT_CHANNEL_INFO :=
  map (fun c => mk_channel c (if within 52 c 144 then RTW_CHF_DFS else 0) 0)
    (center_ch_2g ++ take 24 center_ch_5g_20m).

Lemma chbw_valid_spec_witness :
  rtw_chset_is_chbw_valid plan_2_5 44 CHANNEL_WIDTH_80 CHAN_OFFSET_UPPER false false = true <->
  forall c, c ∈ primary_chs ->
    range_in (rtw_chbw_to_freq_range c CHANNEL_WIDTH_20 0)
             (rtw_chbw_to_freq_range 44 CHANNEL_WIDTH_80 CHAN_OFFSET_UPPER) -> usable plan_2_5 c.
Proof. apply (chbw_valid_spec plan_2_5 44 CHANNEL_WIDTH_80 CHAN_OFFSET_UPPER); by_evaluation. Defined.

(** *** DFS *)

(** The channels of the DFS entries are ones of the 5 GHz table. *)
Definition dfs_in_5g (cs : list RT_CHANNEL_INFO) : Prop :=
  Forall (fun e => flag e RTW_CHF_DFS = true -> ChannelNum e ∈ center_ch_5g_20m) (entries cs).

Definition dfs_edges (ch bw offset : Z) : Prop :=
  14 < ch ->
  let '(valid, hi, lo) := rtw_chbw_to_freq_range ch bw offset in
  valid = true /\
  Forall (fun c => (u8 (rtw_freq2ch lo) < c < u8 (rtw_freq2ch hi)) <->
    range_in (rtw_chbw_to_freq_range c CHANNEL_WIDTH_20 0)
             (rtw_chbw_to_freq_range ch bw offset)) center_ch_5g_20m.
#[export] Instance dfs_edges_dec ch bw offset : Decision (dfs_edges ch bw offset).
Proof. unfold dfs_edges. destruct (rtw_chbw_to_freq_range _ _ _) as [[??]?]. apply _. Defined.

Lemma dfs_edges_all ch bw offset : setting_ok ch bw offset -> dfs_edges ch bw offset.
Proof. apply all_settings. by_evaluation. Qed.

(** A 5 GHz setting is a DFS setting exactly when the plan has a DFS channel
    whose 20 MHz lie in the setting's frequencies. *)
Theorem dfs_chbw_spec cs ch bw offset :
  setting_ok ch bw offset -> 14 < ch -> dfs_in_5g cs ->
  rtw_chset_is_dfs_chbw cs ch bw offset = true <->
  exists e, e ∈ entries cs /\ flag e RTW_CHF_DFS = true /\
    range_in (rtw_chbw_to_freq_range (ChannelNum e) CHANNEL_WIDTH_20 0)
             (rtw_chbw_to_freq_range ch bw offset).
Proof.
  intros H%dfs_edges_all H5 D. specialize (H H5). unfold rtw_chset_is_dfs_chbw.
  destruct (rtw_chbw_to_freq_range ch bw offset) as [[v hi] lo]. destruct H as [-> F].
  unfold dfs_in_5g in D. rewrite Forall_forall in D. rewrite Forall_forall in F. cbn [andb].
  unfold rtw_chset_is_dfs_range. rewrite existsb_exists. setoid_rewrite <- list_elem_of_In.
  split; intros (e & He & R); exists e.
  - apply andb_true_iff in R as [[Hd Hhi]%andb_true_iff Hlo].
    apply Z.gtb_lt in Hhi. apply Z.ltb_lt in Hlo.
    split; [done|]. split; [done|]. apply F; [by apply D|lia].
  - destruct R as [Hd R]. apply F in R; [|by apply D].
    split; [done|]. rewrite Hd, Z.gtb_ltb. cbn [andb].
    apply andb_true_iff. split; apply Z.ltb_lt; lia.
Qed.

Lemma dfs_chbw_spec_witness :
  rtw_chset_is_dfs_chbw plan_2_5 60 CHANNEL_WIDTH_80 CHAN_OFFSET_UPPER = true <->
  exists e, e ∈ entries plan_2_5 /\ flag e RTW_CHF_DFS = true /\
    range_in (rtw_chbw_to_freq_range (ChannelNum e) CHANNEL_WIDTH_20 0)
             (rtw_chbw_to_freq_range 60 CHANNEL_WIDTH_80 CHAN_OFFSET_UPPER).
Proof. apply (dfs_chbw_spec plan_2_5 60 CHANNEL_WIDTH_80 CHAN_OFFSET_UPPER); by_evaluation. Defined.

(** *** Radar *)

Lemma entries_map f cs :
  (forall e, ChannelNum (f e) = ChannelNum e) ->
  entries (map_entries (Z.to_nat MAX_CHANNEL_NUM) f cs) = map f (entries cs).
Proof.
  intros Hf. unfold entries. generalize (Z.to_nat MAX_CHANNEL_NUM) as n.
  intros n. revert n. induction cs as [|e cs IH]; intros [|n]; cbn; [done..|].
  destruct (ChannelNum e =? 0) eqn:E; cbn; rewrite ?Hf, E; cbn; [done|]. by rewrite IH.
Qed.

Lemma mark_non_ocp_num j now ms hi lo e : ChannelNum (mark_non_ocp j now ms hi lo e) = ChannelNum e.
Proof. unfold mark_non_ocp. by case_match. Qed.

(** The end of a period of [J] jiffies that began at [now] lies ahead for the
    next [J] jiffies, and behind for half the range of the counter. *)
Lemma time_after_period now J k :
  0 <= J <= 2 ^ 63 -> 0 <= k < 2 ^ 63 ->
  rtw_time_after (u64 (now + J)) (u64 (now + k)) = (k <? J).
Proof.
  intros HJ Hk. unfold rtw_time_after, u64. rewrite <- Zminus_mod.
  replace (now + k - (now + J)) with (k - J) by lia.
  destruct (Z.ltb_spec k J); [apply Z.leb_le|apply Z.leb_gt]; dlia.
Qed.

Lemma primary_freq :
  Forall (fun c => 2412 <= rtw_ch2freq c <= 5885 /\
    rtw_chbw_to_freq_range c CHANNEL_WIDTH_20 0 =
      (true, rtw_ch2freq c + 10, rtw_ch2freq c - 10)) primary_chs.
Proof. by_evaluation. Qed.

Lemma covered_in_range c hi lo v e :
  c ∈ primary_chs -> ChannelNum e = c ->
  range_in (rtw_chbw_to_freq_range c CHANNEL_WIDTH_20 0) (v, hi, lo) -> ch_in_range hi lo e = true.
Proof.
  intros Hc <-. pose proof primary_freq as F. rewrite Forall_forall in F.
  destruct (F _ Hc) as [Hf ->]. intros (_ & _ & ? & ?). unfold ch_in_range.
  rewrite !andb_true_iff. split; [split|]; [apply negb_true_iff, Z.eqb_neq|apply Z.leb_le..]; lia.
Qed.

Section radar.
Context (ms_to_systime : Z -> Z) (now ms : Z).
(** The kernel's conversion of the period, a number of jiffies below half the
    range of the counter. *)
Definition nop_jiffies : Z := ms_to_systime (if ms >=? 0 then ms else NON_OCP_TIME_MS).

(** C33: When radar is seen on a setting, every setting that shares one of its
    20 MHz channels (of the plan) is refused for the whole non-occupancy period,
    whatever the value of the jiffies counter; and a setting whose channels of
    the plan are all ones the radar was seen on is accepted again when it is
    over.  The entries outside of the radar's frequencies are not changed. *)
Theorem radar_blocks cs ch bw offset ch2 bw2 offset2 :
  0 <= nop_jiffies <= 2 ^ 63 ->
  setting_ok ch bw offset -> setting_ok ch2 bw2 offset2 -> 14 < ch -> 14 < ch2 ->
  let '(cs', _) := _rtw_chset_update_non_ocp ms_to_systime now cs ch bw offset ms in
  let '(_, hi, lo) := rtw_chbw_to_freq_range ch bw offset in
  let '(_, hi2, lo2) := rtw_chbw_to_freq_range ch2 bw2 offset2 in
  (forall e c k, e ∈ entries cs -> ChannelNum e = c -> c ∈ primary_chs ->
     range_in (rtw_chbw_to_freq_range c CHANNEL_WIDTH_20 0) (true, hi, lo) ->
     range_in (rtw_chbw_to_freq_range c CHANNEL_WIDTH_20 0) (true, hi2, lo2) ->
     0 <= k < nop_jiffies ->
     rtw_chset_is_chbw_non_ocp (u64 (now + k)) cs' ch2 bw2 offset2 = true) /\
  ((forall e, e ∈ entries cs -> ch_in_range hi2 lo2 e = true -> ch_in_range hi lo e = true) ->
   forall k, nop_jiffies <= k < 2 ^ 63 ->
     rtw_chset_is_chbw_non_ocp (u64 (now + k)) cs' ch2 bw2 offset2 = false) /\
  (forall i e, entries cs !! i = Some e -> ch_in_range hi lo e = false -> entries cs' !! i = Some e).
Proof.
  intros HJ H1%dfs_edges_all H2%dfs_edges_all C1 C2. specialize (H1 C1). specialize (H2 C2).
  revert H1 H2. unfold _rtw_chset_update_non_ocp, rtw_chset_is_chbw_non_ocp.
  destruct (rtw_chbw_to_freq_range ch bw offset) as [[v hi] lo].
  destruct (rtw_chbw_to_freq_range ch2 bw2 offset2) as [[v2 hi2] lo2].
  intros [-> _] [-> _]. cbn [negb andb].
  rewrite entries_map by (intros; apply mark_non_ocp_num).
  set (mark := mark_non_ocp ms_to_systime now ms hi lo).
  assert (M : forall e k, ch_in_range hi lo e = true -> 0 <= k < 2 ^ 63 ->
            CH_IS_NON_OCP (u64 (now + k)) (mark e) = (k <? nop_jiffies)).
  { intros e k R Hk. unfold mark, mark_non_ocp. rewrite R. apply time_after_period; [done|lia]. }
  assert (N : forall e, ch_in_range hi2 lo2 (mark e) = ch_in_range hi2 lo2 e).
  { intros e. unfold ch_in_range, mark. by rewrite mark_non_ocp_num. }
  split_and!.
  - intros e c k He Hc Hp R1 R2 Hk. apply existsb_exists. exists (mark e).
    assert (I1 := covered_in_range _ _ _ _ _ Hp Hc R1).
    assert (I2 := covered_in_range _ _ _ _ _ Hp Hc R2).
    rewrite N, I2, andb_true_r, M by (done || lia).
    split; [|apply Z.ltb_lt; lia]. apply in_map. by apply list_elem_of_In.
  - intros All k Hk. apply not_true_iff_false. intros (e' & He' & T)%existsb_exists.
    apply in_map_iff in He' as (e & <- & He%list_elem_of_In).
    apply andb_true_iff in T as [T R]. rewrite N in R.
    rewrite M in T by (auto with lia). apply Z.ltb_lt in T. lia.
  - intros i e He R. rewrite list_lookup_fmap, He. cbn. unfold mark, mark_non_ocp. by rewrite R.
Qed.
End radar.

(** A counter about to wrap, radar on channels 52 to 64, and channel 56. *)
Lemma radar_blocks_witness :
  let ms_to_systime ms := ms / 4 in
  let now := 2 ^ 64 - 1000 in
  0 <= nop_jiffies ms_to_systime (-1) <= 2 ^ 63 /\
  let '(cs', _) :=
    _rtw_chset_update_non_ocp ms_to_systime now plan_2_5 52 CHANNEL_WIDTH_80 CHAN_OFFSET_UPPER (-1) in
  let '(_, hi, lo) := rtw_chbw_to_freq_range 52 CHANNEL_WIDTH_80 CHAN_OFFSET_UPPER in
  let '(_, hi2, lo2) := rtw_chbw_to_freq_range 56 CHANNEL_WIDTH_20 CHAN_OFFSET_NO_EXT in
  (forall e c k, e ∈ entries plan_2_5 -> ChannelNum e = c -> c ∈ primary_chs ->
     range_in (rtw_chbw_to_freq_range c CHANNEL_WIDTH_20 0) (true, hi, lo) ->
     range_in (rtw_chbw_to_freq_range c CHANNEL_WIDTH_20 0) (true, hi2, lo2) ->
     0 <= k < nop_jiffies ms_to_systime (-1) ->
     rtw_chset_is_chbw_non_ocp (u64 (now + k)) cs' 56 CHANNEL_WIDTH_20 CHAN_OFFSET_NO_EXT = true) /\
  ((forall e, e ∈ entries plan_2_5 -> ch_in_range hi2 lo2 e = true -> ch_in_range hi lo e = true) ->
   forall k, nop_jiffies ms_to_systime (-1) <= k < 2 ^ 63 ->
     rtw_chset_is_chbw_non_ocp (u64 (now + k)) cs' 56 CHANNEL_WIDTH_20 CHAN_OFFSET_NO_EXT = false) /\
  (forall i e, entries plan_2_5 !! i = Some e -> ch_in_range hi lo e = false -> entries cs' !! i = Some e).
Proof.
  split; [by_evaluation|].
  apply (radar_blocks (fun ms => ms / 4) (2 ^ 64 - 1000) (-1) plan_2_5
           52 CHANNEL_WIDTH_80 CHAN_OFFSET_UPPER 56 CHANNEL_WIDTH_20 CHAN_OFFSET_NO_EXT);
    by_evaluation.
Defined.

(** *** The shortest waiting time *)

Section choose_spec.
Context (systime_to_ms : Z -> Z) (env : environment) (rfctl : rf_ctl_t).
Context (sel_ch max_bw e_flags d_flags cur_ch : Z) (mesh_only : bool).

Abbreviation ch_selected := (ch_selected env rfctl sel_ch cur_ch mesh_only).
Abbreviation setting_allowed := (setting_allowed env rfctl e_flags d_flags).
Abbreviation choose_step := (choose_step systime_to_ms env rfctl sel_ch e_flags d_flags cur_ch mesh_only).
Abbreviation choose_bw := (choose_bw systime_to_ms env rfctl sel_ch e_flags d_flags cur_ch mesh_only).
Abbreviation better := (better cur_ch).

(** How long a setting has to be waited for. *)
Definition waiting_ms (ch bw offset : Z) : Z :=
  (rtw_get_ch_waiting_ms systime_to_ms (env_now env) rfctl ch bw offset).1.1.

(** The settings the loops consider, in their order: what an iteration adds,
    and the variable [offset] after it. *)
Definition step_cand (bw offset : Z) (e : RT_CHANNEL_INFO) : option choice * Z :=
  let ch := ChannelNum e in
  if negb (ch_selected bw ch) then (None, offset)
  else
    let '(valid, offset) := rtw_get_offset_by_chbw ch bw offset in
    if negb valid then (None, offset)
    else if negb (setting_allowed ch bw offset) then (None, offset)
    else (Some (mk_choice ch bw offset (waiting_ms ch bw offset)), offset).

Fixpoint cands_l (bw offset : Z) (l : list RT_CHANNEL_INFO) : list choice * Z :=
  match l with
  | [] => ([], offset)
  | e :: l =>
      let '(o, offset) := step_cand bw offset e in
      let '(r, offset) := cands_l bw offset l in (option_list o ++ r, offset)
  end.

Definition searched : list RT_CHANNEL_INFO :=
  take (Z.to_nat (max_chan_nums rfctl)) (channel_set rfctl).

Fixpoint cands (offset : Z) (bws : list Z) : list choice * Z :=
  match bws with
  | [] => ([], offset)
  | bw :: bws =>
      let '(r, offset) := if rtw_hw_is_band_support (env_hal env) bw
                          then cands_l bw offset searched else ([], offset) in
      let '(r', offset) := cands offset bws in (r ++ r', offset)
  end.

Definition pick (c n : choice) : choice := if better c n then n else c.

Lemma choose_step_cand bw c offset e :
  choose_step bw (c, offset) e =
    let '(o, offset) := step_cand bw offset e in (foldl pick c (option_list o), offset).
Proof.
  unfold ChanPlan.choose_step, step_cand, waiting_ms, pick.
  destruct (negb (ch_selected bw (ChannelNum e))); [done|].
  destruct (rtw_get_offset_by_chbw _ _ _) as [v o]. destruct (negb v); [done|].
  destruct (negb (setting_allowed _ _ _)); [done|].
  by destruct (rtw_get_ch_waiting_ms _ _ _ _ _ _) as [[??]?].
Qed.

Lemma foldl_cands_l bw l : forall c offset,
  foldl (choose_step bw) (c, offset) l =
    let '(r, offset) := cands_l bw offset l in (foldl pick c r, offset).
Proof.
  induction l as [|e l IH]; intros c offset; [done|]. cbn [foldl cands_l].
  rewrite choose_step_cand. destruct (step_cand bw offset e) as [o offset'].
  rewrite IH. destruct (cands_l bw offset' l). by rewrite foldl_app.
Qed.

Lemma foldl_cands bws : forall c offset,
  foldl choose_bw (c, offset) bws =
    let '(r, offset) := cands offset bws in (foldl pick c r, offset).
Proof.
  induction bws as [|bw bws IH]; intros c offset; [done|]. cbn [foldl cands].
  unfold ChanPlan.choose_bw at 2.
  destruct (rtw_hw_is_band_support (env_hal env) bw); cbn [negb].
  - fold searched. rewrite foldl_cands_l. destruct (cands_l bw offset searched) as [r o].
    rewrite IH. destruct (cands o bws). by rewrite foldl_app.
  - rewrite IH. by destruct (cands offset bws).
Qed.

(** A setting the loops may choose, and one they consider whatever the variable
    [offset] holds when they reach it. *)
Definition eligible_with (off : (Z -> Prop) -> Prop) (ch bw offset : Z) : Prop :=
  (exists e, e ∈ searched /\ ChannelNum e = ch) /\
  0 <= bw <= max_bw /\ rtw_hw_is_band_support (env_hal env) bw = true /\
  ch_selected bw ch = true /\
  off (fun o => rtw_get_offset_by_chbw ch bw o = (true, offset)) /\
  setting_allowed ch bw offset = true.
Definition eligible := eligible_with (fun P => exists o, P o).
Definition surely_eligible := eligible_with (fun P => forall o, P o).

Definition is_cand (c : choice) : Prop :=
  min_waiting_ms c = waiting_ms (ch_c c) (bw_c c) (offset_c c) /\
  (exists e, e ∈ searched /\ ChannelNum e = ch_c c) /\
  rtw_hw_is_band_support (env_hal env) (bw_c c) = true /\
  ch_selected (bw_c c) (ch_c c) = true /\
  (exists o, rtw_get_offset_by_chbw (ch_c c) (bw_c c) o = (true, offset_c c)) /\
  setting_allowed (ch_c c) (bw_c c) (offset_c c) = true.

Lemma step_cand_sound bw offset e c :
  rtw_hw_is_band_support (env_hal env) bw = true -> e ∈ searched ->
  (step_cand bw offset e).1 = Some c -> bw_c c = bw /\ is_cand c.
Proof.
  intros Hs He. unfold step_cand, is_cand.
  destruct (ch_selected bw (ChannelNum e)) eqn:E1; [|done]. cbn [negb].
  destruct (rtw_get_offset_by_chbw _ _ _) as [v o] eqn:E2. destruct v; [|done]. cbn [negb].
  destruct (setting_allowed _ _ _) eqn:E3; [|done]. cbn. intros [= <-]. cbn. eauto 10.
Qed.

Lemma cands_l_sound bw l : forall offset c,
  rtw_hw_is_band_support (env_hal env) bw = true -> l ⊆ searched ->
  c ∈ (cands_l bw offset l).1 -> bw_c c = bw /\ is_cand c.
Proof.
  induction l as [|e l IH]; intros offset c Hs Hl; cbn [cands_l]; [by intros ?%elem_of_nil|].
  pose proof (step_cand_sound bw offset e c Hs ltac:(apply Hl; by left)) as S.
  destruct (step_cand bw offset e) as [o offset'].
  specialize (IH offset' c Hs). destruct (cands_l bw offset' l) as [r o'].
  cbn in *. intros [Hc|Hc]%elem_of_app.
  - destruct o; cbn in Hc; [|by apply elem_of_nil in Hc].
    apply list_elem_of_singleton in Hc as ->. by apply S.
  - apply IH; [|done]. intros x Hx. apply Hl. by right.
Qed.

Lemma cands_sound bws : forall offset c,
  c ∈ (cands offset bws).1 -> bw_c c ∈ bws /\ is_cand c.
Proof.
  induction bws as [|bw bws IH]; intros offset c; cbn [cands]; [by intros ?%elem_of_nil|].
  pose proof (cands_l_sound bw searched offset c) as S.
  destruct (rtw_hw_is_band_support (env_hal env) bw) eqn:Hs.
  - destruct (cands_l bw offset searched) as [r o]. specialize (IH o c).
    destruct (cands o bws) as [r' o']. cbn in *.
    intros [Hc|Hc]%elem_of_app; [destruct (S eq_refl ltac:(done) Hc) as [-> ?]; split; [by left|done]|].
    destruct (IH Hc). split; [by right|done].
  - specialize (IH offset c). destruct (cands offset bws) as [r' o']. cbn in *.
    intros Hc. destruct (IH Hc). split; [by right|done].
Qed.

Lemma cands_l_complete bw l : forall offset e o,
  e ∈ l -> ch_selected bw (ChannelNum e) = true ->
  (forall o', rtw_get_offset_by_chbw (ChannelNum e) bw o' = (true, o)) ->
  setting_allowed (ChannelNum e) bw o = true ->
  mk_choice (ChannelNum e) bw o (waiting_ms (ChannelNum e) bw o) ∈ (cands_l bw offset l).1.
Proof.
  induction l as [|x l IH]; intros offset e o He Hs Ho Ha; [by apply elem_of_nil in He|].
  cbn [cands_l]. apply elem_of_cons in He as [<-|He].
  - unfold step_cand. rewrite Hs, Ho, Ha. cbn [negb].
    destruct (cands_l bw o l). cbn. by left.
  - destruct (step_cand bw offset x) as [ox offset']. specialize (IH offset' e o He Hs Ho Ha).
    destruct (cands_l bw offset' l). cbn in *. apply elem_of_app. by right.
Qed.

Lemma cands_complete bws : forall offset ch bw o,
  bw ∈ bws -> surely_eligible ch bw o ->
  mk_choice ch bw o (waiting_ms ch bw o) ∈ (cands offset bws).1.
Proof.
  induction bws as [|b bws IH]; intros offset ch bw o Hb S; [by apply elem_of_nil in Hb|].
  cbn [cands]. pose proof S as ((e & He & <-) & _ & Hs & Hsel & Ho & Ha).
  destruct (decide (bw = b)) as [->|].
  - rewrite Hs. pose proof (cands_l_complete b searched offset e o He Hsel Ho Ha) as C.
    destruct (cands_l b offset searched) as [r o1]. destruct (cands o1 bws).
    cbn in *. apply elem_of_app. by left.
  - apply elem_of_cons in Hb as [|Hb]; [done|].
    destruct (if rtw_hw_is_band_support (env_hal env) b then _ else _) as [r o1].
    specialize (IH o1 (ChannelNum e) bw o Hb S). destruct (cands o1 bws).
    cbn in *. apply elem_of_app. by right.
Qed.

(** The best of a list: shortest wait, then widest. *)
Definition best_of (l : list choice) (c : choice) : Prop :=
  c ∈ l /\ forall n, n ∈ l ->
    min_waiting_ms c <= min_waiting_ms n /\
    (min_waiting_ms n = min_waiting_ms c -> bw_c n <= bw_c c).

Lemma foldl_pick l : forall seen c,
  (forall n, n ∈ seen ++ l -> ch_c n <> 0) ->
  seen = [] /\ c = no_choice \/ best_of seen c ->
  seen ++ l = [] /\ foldl pick c l = no_choice \/ best_of (seen ++ l) (foldl pick c l).
Proof.
  induction l as [|n l IH]; intros seen c Hn Hc; [by rewrite app_nil_r|].
  cbn [foldl]. replace (seen ++ n :: l) with ((seen ++ [n]) ++ l) in * by by rewrite <- app_assoc.
  apply IH; [done|]. right. unfold pick, ChanPlan.better.
  destruct Hc as [[-> ->]|[Hc Hall]].
  { cbn. split; [by left|]. intros m ->%list_elem_of_singleton. split_all. }
  assert (ch_c c <> 0).
  { apply Hn. rewrite !elem_of_app. auto. }
  destruct (Z.eqb_spec (ch_c c) 0); [done|]. cbn [orb]. rewrite !Z.gtb_ltb.
  destruct (Z.ltb_spec (min_waiting_ms n) (min_waiting_ms c)); cbn [orb].
  { split; [apply elem_of_app; right; by left|].
    intros m [Hm| ->%list_elem_of_singleton]%elem_of_app; [|split_all].
    destruct (Hall m Hm). split_all. }
  destruct (Z.eqb_spec (min_waiting_ms c) (min_waiting_ms n)) as [Ew|]; cbn [andb orb].
  - destruct (Z.ltb_spec (bw_c c) (bw_c n)); cbn [orb].
    { split; [apply elem_of_app; right; by left|].
      intros m [Hm| ->%list_elem_of_singleton]%elem_of_app; [|split_all].
      destruct (Hall m Hm). split_all. }
    match goal with |- context [if ?b then _ else _] => destruct b eqn:T end.
    + apply andb_true_iff in T as [T%Z.eqb_eq _].
      split; [apply elem_of_app; right; by left|].
      intros m [Hm| ->%list_elem_of_singleton]%elem_of_app; [|split_all].
      destruct (Hall m Hm). rewrite T, <- Ew. split_all.
    + split; [apply elem_of_app; by left|].
      intros m [Hm| ->%list_elem_of_singleton]%elem_of_app; [auto|split_all].
  - split; [apply elem_of_app; by left|].
    intros m [Hm| ->%list_elem_of_singleton]%elem_of_app; [auto|split_all].
Qed.

(** A valid setting is one of a channel of the plan, which has a number. *)
Lemma allowed_nonzero ch bw offset o :
  rtw_get_offset_by_chbw ch bw o = (true, offset) -> setting_allowed ch bw offset = true -> ch <> 0.
Proof.
  unfold ChanPlan.setting_allowed. intros E A. rewrite !andb_true_iff in A. intros ->.
  destruct A as [[[A _] _] _]. revert E A. unfold rtw_get_offset_by_chbw.
  unfold rtw_chset_is_chbw_valid.
  destruct (Z.eqb_spec bw CHANNEL_WIDTH_20) as [->|].
  { intros _. done. }
  by destruct (bw >=? CHANNEL_WIDTH_80).
Qed.

(** C36: The setting chosen for the access point is one the loops may choose (a
    channel of the plan on which nothing is passive, not excluded by the flags,
    within the bandwidths allowed), and no eligible setting can be used earlier,
    nor as early with more bandwidth; without an answer there is no eligible
    setting.  ([surely_eligible]: for the 2.4 GHz channels 5 to 9 at 40 MHz the
    side depends on the channel tried before, as the variable is shared.) *)
Theorem choose_optimal offset :
  match rtw_choose_shortest_waiting_ch systime_to_ms env rfctl sel_ch max_bw e_flags d_flags
          cur_ch mesh_only offset with
  | None => forall ch bw o, ~ surely_eligible ch bw o
  | Some (ch, bw, o) =>
      eligible ch bw o /\
      forall ch' bw' o', surely_eligible ch' bw' o' ->
        waiting_ms ch bw o <= waiting_ms ch' bw' o' /\
        (waiting_ms ch' bw' o' = waiting_ms ch bw o -> bw' <= bw)
  end.
Proof.
  unfold rtw_choose_shortest_waiting_ch. rewrite foldl_cands.
  pose proof (cands_sound (seqZ 0 (max_bw + 1)) offset) as S.
  pose proof (cands_complete (seqZ 0 (max_bw + 1)) offset) as C.
  destruct (cands offset (seqZ 0 (max_bw + 1))) as [l o1]. cbn [fst] in *.
  assert (Hn : forall n, n ∈ l -> ch_c n <> 0).
  { intros n Hl. destruct (S n Hl) as (_ & _ & _ & _ & _ & (o & Ho) & Ha).
    by eapply allowed_nonzero. }
  pose proof (foldl_pick l [] no_choice Hn (or_introl (conj eq_refl eq_refl))) as B. cbn [app] in B.
  set (c := foldl pick no_choice l) in *.
  assert (Cm : forall ch bw o, surely_eligible ch bw o ->
            mk_choice ch bw o (waiting_ms ch bw o) ∈ l).
  { intros ch bw o H. apply C; [|done]. destruct H as (_ & Hb & _). apply elem_of_seqZ. lia. }
  destruct B as [[El ->]|[Hc Hall]].
  { cbn. intros ch bw o H%Cm. rewrite El in H. by apply elem_of_nil in H. }
  destruct (Z.eqb_spec (ch_c c) 0); [by destruct (Hn c Hc)|]. cbn [negb].
  destruct (S c Hc) as (Hb & Hw & He & Hs & Hsel & Ho & Ha). apply elem_of_seqZ in Hb.
  split; [unfold eligible, eligible_with; split_all|].
  intros ch' bw' o' H%Cm. destruct (Hall _ H) as [H1 H2]. cbn in *. rewrite <- Hw. done.
Qed.

End choose_spec.

(** A device of the driver ([band_cap] and [bw_cap] of the 8852A), all
    bandwidths enabled, and a plan with one channel of it passive. *)
Definition hal_8852a : hal_spec_t := HalSpec 7 7.
Definition env_8852a : environment := mk_env hal_8852a 0x21 1000.

Definition rf_of (cs : list RT_CHANNEL_INFO) : rf_ctl_t :=
  {| max_chan_nums := Z.of_nat (length cs); channel_set := cs; ch_sel_within_same_band := false;
     dfs_region_domain := RTW_DFS_REGD_NONE; radar_detect_by_others := false;
     radar_detect_enabled := false; radar_detected := false; radar_detect_ch := 0;
     radar_detect_bw := 0; radar_detect_offset := 0; cac_start_time := 0; cac_end_time := 0;
     dfs_ch_sel_e_flags := 0; dfs_ch_sel_d_flags := 0; dbg_dfs_choose_dfs_ch_first := false |}.

Example choose_widest :
  rtw_choose_shortest_waiting_ch (Z.mul 4) env_8852a (rf_of plan_2_5) 0 CHANNEL_WIDTH_80
    0 RTW_CHF_DFS 6 false 0 = Some (36, CHANNEL_WIDTH_80, CHAN_OFFSET_UPPER).
Proof. vm_compute. reflexivity. Qed.

(** [rtw_choose_shortest_waiting_ch] asks [rtw_hw_is_band_support] whether the
    chip has the {e band} whose number is the bandwidth's: a chip with 80 MHz but
    without the 6 GHz band is never given an 80 MHz channel. *)
Example choose_asks_for_band :
  rtw_choose_shortest_waiting_ch (Z.mul 4) (mk_env (HalSpec 3 7) 0x21 1000) (rf_of plan_2_5) 0
    CHANNEL_WIDTH_80 0 RTW_CHF_DFS 6 false 0 = Some (6, CHANNEL_WIDTH_40, CHAN_OFFSET_UPPER) /\
  rtw_hw_is_bw_support (HalSpec 3 7) CHANNEL_WIDTH_80 = true.
Proof. vm_compute. done. Qed.

(** *** The access point's own channel *)

(** The loop's test: a setting that must be narrowed. *)
Definition must_narrow (rfctl : rf_ctl_t) (ch bw offset : Z) : bool :=
  negb (rtw_chset_is_chbw_valid (channel_set rfctl) ch bw offset false false)
  || (rtw_rfctl_dfs_domain_unknown rfctl && rtw_chset_is_dfs_chbw (channel_set rfctl) ch bw offset).

Lemma ap_narrow_spec rfctl ch offset : forall fuel bw,
  0 <= bw -> (Z.to_nat bw < fuel)%nat ->
  exists bw' offset', ap_narrow fuel rfctl ch bw offset = Some (bw', offset') /\ 0 <= bw' <= bw /\
    (bw' = CHANNEL_WIDTH_20 /\ offset' = CHAN_OFFSET_NO_EXT \/
     offset' = offset /\ must_narrow rfctl ch bw' offset = false) /\
    forall w, bw' < w <= bw -> must_narrow rfctl ch w offset = true.
Proof.
  induction fuel as [|fuel IH]; intros bw Hb Hf; [lia|]. cbn [ap_narrow].
  fold (must_narrow rfctl ch bw offset).
  destruct (must_narrow rfctl ch bw offset) eqn:M.
  2: { exists bw, offset. split; [done|]. split; [lia|]. split; [by right|lia]. }
  rewrite Z.gtb_ltb. unfold CHANNEL_WIDTH_20.
  destruct (Z.ltb_spec 0 bw).
  - destruct (Z.eqb_spec (bw - 1) 0).
    + exists (bw - 1), CHAN_OFFSET_NO_EXT.
      split; [done|]. split; [lia|]. split; [by left|].
      intros w Hw. by replace w with bw by lia.
    + destruct (IH (bw - 1)) as (bw' & o' & E & Hw & R & Hall); [lia..|].
      exists bw', o'. split; [done|]. split; [lia|]. split; [done|]. intros w Hw'.
      destruct (decide (w = bw)) as [->|]; [done|]. apply Hall. lia.
  - replace bw with 0 in * by lia. cbn. exists 0, CHAN_OFFSET_NO_EXT.
    split; [done|]. split; [lia|]. split; [by left|lia].
Qed.

Lemma valid_20 cs ch e :
  ch ∈ primary_chs -> ch_entry cs ch = Some e -> flag e RTW_CHF_NO_IR = false ->
  rtw_chset_is_chbw_valid cs ch CHANNEL_WIDTH_20 CHAN_OFFSET_NO_EXT false false = true.
Proof.
  intros Hc He Hf.
  assert (F : Forall (fun c => rtw_get_op_chs_by_cch_bw c CHANNEL_WIDTH_20 = Some [c]) primary_chs)
    by by_evaluation.
  rewrite Forall_forall in F. unfold rtw_chset_is_chbw_valid.
  replace (rtw_phl_get_center_ch ch CHANNEL_WIDTH_20 CHAN_OFFSET_NO_EXT) with ch by done.
  rewrite F by done. cbn [length forallb]. rewrite andb_true_r.
  change (op_ch_permitted cs ch false false ch = true).
  apply op_ch_permitted_usable. by exists e.
Qed.

(** A refusal has nothing to prove. *)
Ltac refuse := eexists _, _, _; split; [reflexivity|discriminate].

(** The check of the channel an access point is told to use always ends
    with an answer.  If it is yes, the setting it leaves is valid for the channel
    plan and needs no radar detection when the driver cannot do any; it is not
    wider than what was asked for, and every wider one up to that was invalid or
    a DFS setting. *)
Theorem ap_check_sound env rfctl ch bw offset :
  ch ∈ primary_chs -> 0 <= bw ->
  exists ok bw' offset', rtw_ap_ch_specific_chk env rfctl ch bw offset = Some (ok, bw', offset') /\
    (ok = true ->
       rtw_chset_is_chbw_valid (channel_set rfctl) ch bw' offset' false false = true /\
       (rtw_rfctl_dfs_domain_unknown rfctl = true ->
        rtw_chset_is_dfs_chbw (channel_set rfctl) ch bw' offset' = false) /\
       bw' <= bw /\
       exists bw1 offset1, bw1 <= bw /\
         (bw1, offset1) = ((rtw_adjust_chbw (env_hal env) (env_bw_mode env) ch bw offset).1.2,
           snd (rtw_get_offset_by_chbw ch bw1
             (snd (rtw_adjust_chbw (env_hal env) (env_bw_mode env) ch bw offset)))) /\
         forall w, bw' < w <= bw1 -> must_narrow rfctl ch w offset1 = true).
Proof.
  intros Hc Hb. unfold rtw_ap_ch_specific_chk.
  destruct (ch_entry (channel_set rfctl) ch) as [e|] eqn:He; [|by refuse].
  destruct (flag e RTW_CHF_NO_IR) eqn:Hf; [by refuse|].
  pose proof (adjust_chbw_allowed (env_hal env) (env_bw_mode env) ch bw offset) as A.
  assert (A0 : 0 <= (rtw_adjust_chbw (env_hal env) (env_bw_mode env) ch bw offset).1.2).
  { unfold rtw_adjust_chbw, CHANNEL_WIDTH_20, CHANNEL_WIDTH_40, CHANNEL_WIDTH_80.
    repeat (case_match; cbn; try lia). }
  destruct (rtw_adjust_chbw _ _ ch bw offset) as [[chg bw1] o1]. destruct A as (Hw & _ & _).
  cbn [fst snd] in *.
  destruct (rtw_get_offset_by_chbw ch bw1 o1) as [v o2] eqn:Eo. destruct v; [|by refuse]. cbn [negb].
  destruct (ap_narrow_spec rfctl ch o2 (Z.to_nat bw1 + 1) bw1 A0 ltac:(lia))
    as (bw' & o' & -> & Hw' & R & Hall). cbn [mbind option_bind].
  match goal with |- context [if ?b then _ else _] => destruct b eqn:D end; [by refuse|].
  exists true, bw', o'. split; [done|]. intros _. split; [|split; [|split; [lia|]]].
  - destruct R as [[-> ->]|[-> M]]; [by eapply valid_20|].
    unfold must_narrow in M. apply orb_false_iff in M as [M _]. by apply negb_false_iff.
  - intros U. by rewrite U in D.
  - exists bw1, o2. split; [done|]. split; [by rewrite Eo|done].
Qed.

Lemma ap_check_sound_witness :
  exists ok bw' offset',
    rtw_ap_ch_specific_chk env_8852a (rf_of plan_2_5) 44 CHANNEL_WIDTH_160 0 = Some (ok, bw', offset') /\
    (ok = true ->
       rtw_chset_is_chbw_valid (channel_set (rf_of plan_2_5)) 44 bw' offset' false false = true /\
       (rtw_rfctl_dfs_domain_unknown (rf_of plan_2_5) = true ->
        rtw_chset_is_dfs_chbw (channel_set (rf_of plan_2_5)) 44 bw' offset' = false) /\
       bw' <= CHANNEL_WIDTH_160 /\
       exists bw1 offset1, bw1 <= CHANNEL_WIDTH_160 /\
         (bw1, offset1) = ((rtw_adjust_chbw (env_hal env_8852a) (env_bw_mode env_8852a) 44 CHANNEL_WIDTH_160 0).1.2,
           snd (rtw_get_offset_by_chbw 44 bw1
             (snd (rtw_adjust_chbw (env_hal env_8852a) (env_bw_mode env_8852a) 44 CHANNEL_WIDTH_160 0)))) /\
         forall w, bw' < w <= bw1 -> must_narrow (rf_of plan_2_5) 44 w offset1 = true).
Proof.
  apply (ap_check_sound env_8852a (rf_of plan_2_5) 44 CHANNEL_WIDTH_160 0); [by_evaluation|].
  unfold CHANNEL_WIDTH_160. lia.
Defined.

(** *** The end of non-occupancy *)

Lemma entries_alter f k cs :
  (forall e, ChannelNum (f e) = ChannelNum e) -> entries (alter f k cs) = alter f k (entries cs).
Proof.
  intros Hf. unfold entries. generalize (Z.to_nat MAX_CHANNEL_NUM) as n. intros n.
  revert n k. induction cs as [|e cs IH]; intros [|n] [|k]; try done; cbn.
  - rewrite Hf. by destruct (ChannelNum e =? 0).
  - destruct (ChannelNum e =? 0); [done|]. cbn. by rewrite <- IH.
Qed.

Lemma search_nums l1 : forall l2 i ch,
  ChannelNum <$> l1 = ChannelNum <$> l2 -> search_from i l1 ch = search_from i l2 ch.
Proof.
  induction l1 as [|e1 l1 IH]; intros [|e2 l2] i ch; try done. cbn. intros [= E1 E2].
  rewrite E1. case_match; [done|by apply IH].
Qed.

Section finish_spec.
Context (now : Z).

(** An entry whose period is over but not yet reported. *)
Definition finished (e : RT_CHANNEL_INFO) : bool :=
  flag e RTW_CHF_NON_OCP && negb (CH_IS_NON_OCP now e).

Definition report (e : RT_CHANNEL_INFO) : RT_CHANNEL_INFO :=
  if finished e then clear_non_ocp_flag e else e.

(** What a step may do to an entry. *)
Definition progress (e e' : RT_CHANNEL_INFO) : Prop := e' = e \/ e' = report e.

Lemma clear_flag e : flag (clear_non_ocp_flag e) RTW_CHF_NON_OCP = false.
Proof.
  unfold flag, clear_non_ocp_flag, with_flags. cbn [flags].
  rewrite <- Z.land_assoc, (Z.land_comm (Z.lnot _)), Z.land_lnot_diag, Z.land_0_r. done.
Qed.

Lemma report_done e : finished (report e) = false.
Proof.
  unfold report. destruct (finished e) eqn:E; [|done].
  unfold finished. by rewrite clear_flag.
Qed.

Lemma progress_done e e' : progress e e' -> finished e = false -> e' = e.
Proof. intros [->| ->]; [done|]. unfold report. by intros ->. Qed.

#[export] Instance progress_preorder : PreOrder progress.
Proof.
  split; [by left|]. intros e1 e2 e3 [->| ->] [->| ->]; [by left|by right|by right|].
  right. unfold report at 1. by rewrite report_done.
Qed.

Abbreviation cs_progress := (fun cs cs' => Forall2 progress (entries cs) (entries cs')).

Lemma progress_nums l l' : Forall2 progress l l' -> ChannelNum <$> l' = ChannelNum <$> l.
Proof.
  induction 1 as [|e e' l l' H _ IH]; [done|]. rewrite !fmap_cons, IH. f_equal.
  destruct H as [->| ->]; [done|]. unfold report. by case_match.
Qed.

(** The index of a channel that is finished. *)
Lemma op_ch_finished_index cs c :
  c <> 0 -> op_ch_finished now cs c = true ->
  exists k e, rtw_chset_search_ch cs c = Z.of_nat k /\ entries cs !! k = Some e /\ finished e = true.
Proof.
  intros Hc. unfold op_ch_finished. rewrite ch_entry_find by done. unfold rtw_chset_search_ch.
  destruct (Z.eqb_spec c 0); [done|].
  pose proof (search_from_find 0 (entries cs) c ltac:(lia)) as H.
  destruct (find _ _) as [e|]; [|done]. destruct H as (k & -> & Hk). intros. by exists k, e.
Qed.

Lemma clear_ch_progress cs cs1 c :
  cs_progress cs cs1 -> c <> 0 -> op_ch_finished now cs c = true -> cs_progress cs (clear_ch cs1 c).
Proof.
  intros P Hc (k & e & Hs & Hk & Hf)%op_ch_finished_index; [|done].
  unfold clear_ch. rewrite entries_alter by done.
  unfold rtw_chset_search_ch in *. destruct (Z.eqb_spec c 0); [done|].
  rewrite (search_nums _ (entries cs)) by by apply progress_nums.
  rewrite Hs, Nat2Z.id. apply Forall2_same_length_lookup in P as [Hl P].
  apply Forall2_same_length_lookup. split; [by rewrite length_alter|].
  intros j x y Hx Hy. destruct (decide (j = k)) as [->|].
  - rewrite list_lookup_alter_eq in Hy. destruct (entries cs1 !! k) as [z|] eqn:Hz; [|done].
    injection Hy as <-. specialize (P k x z Hx Hz).
    replace x with e in * by congruence. right. unfold report in *. rewrite Hf.
    destruct P as [->| ->]; [done|]. unfold report. rewrite Hf.
    unfold clear_non_ocp_flag, with_flags. cbn. by rewrite <- Z.land_assoc, Z.land_diag.
  - rewrite list_lookup_alter_ne in Hy by done. by eapply P.
Qed.

Lemma chk_finish_progress cs ch bw offset :
  Forall (fun c => c <> 0) (default [] (rtw_get_op_chs_by_cch_bw (rtw_get_center_ch ch bw offset) bw)) ->
  cs_progress cs (rtw_chset_chk_non_ocp_finish_for_chbw now cs ch bw offset).1.
Proof.
  unfold rtw_chset_chk_non_ocp_finish_for_chbw.
  destruct (rtw_get_op_chs_by_cch_bw _ _) as [l|]; [|done]. cbn [default]. intros Hl.
  destruct (negb _ && _) eqn:E; [|done]. apply andb_true_iff in E as [_ E]. cbn [fst].
  rewrite forallb_forall in E. setoid_rewrite <- list_elem_of_In in E.
  assert (P : cs_progress cs cs) by done. revert P. generalize cs at 2 4 as cs1.
  revert E. induction l as [|c l IH]; intros E cs1 P; [done|]. cbn [foldl].
  apply Forall_cons in Hl as [Hc Hl]. apply IH; [done|intros; apply E; by right|].
  apply clear_ch_progress; [done..|apply E; by left].
Qed.

Lemma op_chs_nonzero cch bw : Forall (fun c => c <> 0) (default [] (rtw_get_op_chs_by_cch_bw cch bw)).
Proof.
  assert (T : forall t n, Forall (fun e => Forall (fun c => c <> 0) (op_chs_chs e)) t ->
    forall c_chs, Forall (fun c => c <> 0) (default [] (op_chs_in c_chs (nth n t (OpChs 0 [])) cch))).
  { intros t n Ht c_chs. unfold op_chs_in. destruct (list_find _ _) as [[i ?]|]; [|by apply Forall_nil].
    cbn [default]. apply Forall_take, Forall_drop. destruct (nth_in_or_default n t (OpChs 0 [])) as [H| ->].
    - rewrite Forall_forall in Ht. apply Ht. by apply list_elem_of_In.
    - by apply Forall_nil. }
  unfold rtw_get_op_chs_by_cch_bw. destruct (_ && _); [apply T; by_evaluation|].
  destruct (_ && _); [apply T; by_evaluation|by apply Forall_nil].
Qed.

(** A channel that is finished after some steps was finished before. *)
Lemma op_ch_finished_back cs cs1 c :
  cs_progress cs cs1 -> c <> 0 -> op_ch_finished now cs1 c = true -> op_ch_finished now cs c = true.
Proof.
  intros P Hc (k & e & Hs & Hk & Hf)%op_ch_finished_index; [|done].
  destruct (Forall2_lookup_r _ _ _ _ _ P Hk) as (e0 & H0 & [->| ->]); [|by rewrite report_done in Hf].
  unfold op_ch_finished, ch_entry. unfold rtw_chset_search_ch in *.
  destruct (Z.eqb_spec c 0); [done|].
  rewrite <- (search_nums (entries cs1)) by by apply progress_nums.
  rewrite Hs. destruct (Z.eqb_spec (Z.of_nat k) (-1)); [lia|].
  rewrite rd_lookup, Nat2Z.id by lia.
  by rewrite (prefix_lookup_Some _ _ _ _ H0 (entries_prefix cs)).
Qed.

(** An event is about channels that were all finished. *)
Definition event_ok (cs : list RT_CHANNEL_INFO) (ev : Z * Z) : Prop :=
  exists l, rtw_get_op_chs_by_cch_bw ev.1 ev.2 = Some l /\
    Forall (fun c => op_ch_finished now cs c = true) l.

Lemma event_ok_back cs cs1 ev : cs_progress cs cs1 -> event_ok cs1 ev -> event_ok cs ev.
Proof.
  intros P (l & E & F). exists l. split; [done|].
  pose proof (op_chs_nonzero ev.1 ev.2) as N. rewrite E in N. cbn [default] in N.
  apply Forall_forall. intros c Hc.
  exact (op_ch_finished_back cs cs1 c P (proj1 (Forall_forall _ _) N c Hc)
           (proj1 (Forall_forall _ _) F c Hc)).
Qed.

(** One iteration, at an index of the set. *)
Lemma finish_step_ok bw cs offset evs i :
  0 <= i < Z.of_nat (length (entries cs)) ->
  exists cs' offset' evs', finish_step now bw (cs, offset, evs) i = Some (cs', offset', evs ++ evs') /\
    cs_progress cs cs' /\ Forall (event_ok cs) evs'.
Proof.
  intros Hi. destruct (lookup_lt_is_Some_2 (entries cs) (Z.to_nat i)) as [e He]; [lia|].
  unfold finish_step. rewrite rd_lookup by lia.
  rewrite (prefix_lookup_Some _ _ _ _ He (entries_prefix cs)). cbn [mbind option_bind].
  assert (same : forall o, exists (cs' : list RT_CHANNEL_INFO) (offset' : Z) (evs' : list (Z * Z)),
    Some (cs, o, evs) = Some (cs', offset', evs ++ evs') /\ cs_progress cs cs' /\
    Forall (event_ok cs) evs').
  { intros o. exists cs, o, []. rewrite app_nil_r. split; [done|]. split; [done|by apply Forall_nil]. }
  destruct (flag e RTW_CHF_NON_OCP); cbn [negb]; [|by apply same].
  destruct (rtw_get_offset_by_chbw _ _ _) as [[] o]; cbn [negb];
    [|by apply same].
  pose proof (chk_finish_progress cs (ChannelNum e) bw o (op_chs_nonzero _ _)) as P.
  revert P. unfold rtw_chset_chk_non_ocp_finish_for_chbw.
  destruct (rtw_get_op_chs_by_cch_bw _ _) as [l|] eqn:El; cbn [fst];
    [|intros _; cbn; rewrite app_nil_r; by apply same].
  destruct (negb _ && _) eqn:E; cbn [fst]; [|intros _; cbn; rewrite app_nil_r; by apply same].
  intros P. eexists _, o, [_]. split; [reflexivity|]. split; [done|].
  apply Forall_singleton. exists l. split; [done|]. apply andb_true_iff in E as [_ E].
  apply Forall_forall. intros c Hc. rewrite forallb_forall in E. apply E. by apply list_elem_of_In.
Qed.

Lemma Forall2_progress_length l l' : Forall2 progress l l' -> length l' = length l.
Proof. intros H. symmetry. by eapply Forall2_length. Qed.

(** The indices of a pass, with a property every step keeps and establishes at
    its own index. *)
Lemma finish_pass_ok bw (Q : Z -> list RT_CHANNEL_INFO -> Prop) l : forall cs offset evs,
  (forall cs0 cs1 offset evs0 evs1 offset1 i, i ∈ l -> cs_progress cs cs0 ->
     finish_step now bw (cs0, offset, evs0) i = Some (cs1, offset1, evs1) -> Q i cs1) ->
  (forall cs0 cs1 i, Q i cs0 -> cs_progress cs0 cs1 -> Q i cs1) ->
  (forall i, i ∈ l -> 0 <= i < Z.of_nat (length (entries cs))) ->
  exists cs' offset' evs', foldM (finish_step now bw) (cs, offset, evs) l = Some (cs', offset', evs ++ evs') /\
    cs_progress cs cs' /\ Forall (event_ok cs) evs' /\ forall i, i ∈ l -> Q i cs'.
Proof.
  induction l as [|i l IH]; intros cs offset evs HQ HP Hl; cbn [foldM].
  { exists cs, offset, []. rewrite app_nil_r. split_and!; try done. by intros i ?%elem_of_nil. }
  destruct (finish_step_ok bw cs offset evs i) as (cs1 & o1 & ev1 & E1 & P1 & F1); [apply Hl; by left|].
  rewrite E1. cbn [mbind option_bind].
  destruct (IH cs1 o1 (evs ++ ev1)) as (cs2 & o2 & ev2 & E2 & P2 & F2 & Q2).
  - intros ??????? Hin Hp. eapply HQ; [by right|]. by etrans.
  - done.
  - intros j Hj. rewrite (Forall2_progress_length _ _ P1). apply Hl. by right.
  - exists cs2, o2, (ev1 ++ ev2). rewrite E2, app_assoc. split; [done|].
    split; [by etrans|]. split.
    + apply Forall_app. split; [done|]. eapply Forall_impl; [done|]. intros. by eapply event_ok_back.
    + intros j [->|Hj]%elem_of_cons; [|by apply Q2]. eapply HP; [|done].
      eapply HQ; [by left|reflexivity|done].
Qed.

(** The channels of the set are 20 MHz channels, none of them twice. *)
Definition plan_ok (cs : list RT_CHANNEL_INFO) : Prop :=
  NoDup (ChannelNum <$> entries cs) /\ Forall (fun c => c ∈ primary_chs) (ChannelNum <$> entries cs).

Lemma plan_ok_progress cs cs1 : cs_progress cs cs1 -> plan_ok cs -> plan_ok cs1.
Proof. intros P. unfold plan_ok. by rewrite (progress_nums _ _ P). Qed.

(** In such a set the search finds the entry itself. *)
Lemma search_own l : forall i k e,
  NoDup (ChannelNum <$> l) -> l !! k = Some e -> search_from i l (ChannelNum e) = i + Z.of_nat k.
Proof.
  induction l as [|x l IH]; intros i [|k] e N Hk; try done; cbn in *.
  - injection Hk as ->. rewrite Z.eqb_refl. lia.
  - apply NoDup_cons in N as [Hx N].
    destruct (Z.eqb_spec (ChannelNum e) (ChannelNum x)) as [E|].
    { destruct Hx. rewrite <- E. apply list_elem_of_fmap. exists e. split; [done|].
      by eapply list_elem_of_lookup_2. }
    rewrite (IH (i + 1) k e) by done. lia.
Qed.

Lemma finish_step_20 cs offset evs i cs' offset' evs' e :
  plan_ok cs -> 0 <= i < Z.of_nat (length (entries cs)) ->
  finish_step now CHANNEL_WIDTH_20 (cs, offset, evs) i = Some (cs', offset', evs') ->
  entries cs' !! Z.to_nat i = Some e -> finished e = false.
Proof.
  intros [N F] Hi. destruct (lookup_lt_is_Some_2 (entries cs) (Z.to_nat i)) as [e0 He0]; [lia|].
  assert (Hc : ChannelNum e0 ∈ primary_chs).
  { rewrite Forall_forall in F. apply F, list_elem_of_fmap. exists e0. split; [done|].
    by eapply list_elem_of_lookup_2. }
  unfold finish_step. rewrite rd_lookup by lia.
  rewrite (prefix_lookup_Some _ _ _ _ He0 (entries_prefix cs)). cbn [mbind option_bind].
  destruct (flag e0 RTW_CHF_NON_OCP) eqn:Ef; cbn [negb].
  2: { intros [= <- <- <-]. rewrite He0. intros [= <-]. unfold finished. by rewrite Ef. }
  change (rtw_get_offset_by_chbw (ChannelNum e0) CHANNEL_WIDTH_20 offset) with (true, CHAN_OFFSET_NO_EXT).
  cbn [negb]. unfold rtw_chset_chk_non_ocp_finish_for_chbw.
  assert (T : Forall (fun c => rtw_get_op_chs_by_cch_bw c CHANNEL_WIDTH_20 = Some [c]) primary_chs)
    by by_evaluation.
  rewrite Forall_forall in T.
  change (rtw_get_center_ch (ChannelNum e0) CHANNEL_WIDTH_20 CHAN_OFFSET_NO_EXT) with (ChannelNum e0).
  rewrite T by done. cbn [length forallb foldl]. rewrite andb_true_r.
  assert (S : rtw_chset_search_ch cs (ChannelNum e0) = i).
  { unfold rtw_chset_search_ch. destruct (Z.eqb_spec (ChannelNum e0) 0); [by apply primary_nonzero in Hc|].
    rewrite (search_own _ 0 (Z.to_nat i)) by done. lia. }
  change (negb (Z.of_nat 1 =? 0)) with true. cbn [andb].
  assert (O : op_ch_finished now cs (ChannelNum e0) = finished e0).
  { unfold op_ch_finished, ch_entry. rewrite S. destruct (Z.eqb_spec i (-1)); [lia|].
    rewrite rd_lookup by lia.
    by rewrite (prefix_lookup_Some _ _ _ _ He0 (entries_prefix cs)). }
  rewrite O. destruct (finished e0) eqn:Efin; cbn.
  - intros [= <- <- <-]. unfold clear_ch. rewrite S, entries_alter, list_lookup_alter_eq, He0 by done.
    cbn. intros [= <-]. unfold finished. by rewrite clear_flag.
  - intros [= <- <- <-]. rewrite He0. by intros [= <-].
Qed.

(** One bandwidth's pass over all entries. *)
Lemma bw_pass cs bw (Q : Z -> list RT_CHANNEL_INFO -> Prop) cs1 o evs :
  let n := Z.of_nat (length (entries cs)) in
  cs_progress cs cs1 ->
  (forall a b o1 e1 o2 e2 i, i ∈ seqZ 0 n -> cs_progress cs1 a ->
     finish_step now bw (a, o1, e1) i = Some (b, o2, e2) -> Q i b) ->
  (forall a b i, Q i a -> cs_progress a b -> Q i b) ->
  exists cs2 o2 ev2, finish_bw now n (cs1, o, evs) bw = Some (cs2, o2, evs ++ ev2) /\
    cs_progress cs cs2 /\ Forall (event_ok cs) ev2 /\ forall i, 0 <= i < n -> Q i cs2.
Proof.
  intros n P HQ HP. cbv beta in P.
  destruct (finish_pass_ok bw Q (seqZ 0 n) cs1 o evs) as (cs2 & o2 & ev2 & E & P2 & F2 & Q2).
  - intros a b o1 o3 e1 e2 i. apply HQ.
  - done.
  - intros i Hi%elem_of_seqZ. rewrite (Forall2_progress_length _ _ P). unfold n in Hi. lia.
  - exists cs2, o2, ev2. split; [done|]. split; [by etrans|]. split.
    + eapply Forall_impl; [done|]. intros. by eapply event_ok_back.
    + intros i Hi. apply Q2, elem_of_seqZ. lia.
Qed.

(** A set that has got on as far as it can. *)
Lemma all_reported cs cs' : cs_progress cs cs' ->
  (forall k e, entries cs' !! k = Some e -> finished e = false) ->
  entries cs' = report <$> entries cs.
Proof.
  intros P Q. cbv beta in P. apply list_eq. intros k. rewrite list_lookup_fmap.
  pose proof P as L. apply Forall2_progress_length in L.
  destruct (entries cs !! k) as [e|] eqn:Ek; cbn [fmap option_fmap option_map].
  - destruct (Forall2_lookup_l _ _ _ _ _ P Ek) as (e' & He' & Pe). rewrite He'. f_equal.
    destruct Pe as [->| ->]; [|done]. unfold report. by rewrite (Q _ _ He').
  - apply lookup_ge_None. apply lookup_ge_None in Ek. lia.
Qed.

(** The watchdog's pass over the channel set ends, stays inside the array,
    and leaves the set with the mark of exactly the channels removed whose
    non-occupancy is over; every event it reports (a centre channel and a
    bandwidth) is about channels that were all over. *)
Theorem nop_finish_spec rfctl offset :
  let cs := channel_set rfctl in
  plan_ok cs -> max_chan_nums rfctl = Z.of_nat (length (entries cs)) ->
  exists cs' offset' evs,
    rtw_chset_chk_non_ocp_finish now rfctl offset = Some (cs', offset', evs) /\
    entries cs' = report <$> entries cs /\ Forall (event_ok cs) evs.
Proof.
  intros cs Hok Hmax. unfold rtw_chset_chk_non_ocp_finish. fold cs. rewrite Hmax. cbn [foldM].
  destruct (bw_pass cs CHANNEL_WIDTH_160 (fun _ _ => True) cs offset [])
    as (c1 & o1 & v1 & -> & P1 & F1 & _); [done..|]. cbn [mbind option_bind].
  destruct (bw_pass cs CHANNEL_WIDTH_80 (fun _ _ => True) c1 o1 ([] ++ v1))
    as (c2 & o2 & v2 & -> & P2 & F2 & _); [done..|]. cbn [mbind option_bind].
  destruct (bw_pass cs CHANNEL_WIDTH_40 (fun _ _ => True) c2 o2 (([] ++ v1) ++ v2))
    as (c3 & o3 & v3 & -> & P3 & F3 & _); [done..|]. cbn [mbind option_bind].
  destruct (bw_pass cs CHANNEL_WIDTH_20
      (fun i c => forall e, entries c !! Z.to_nat i = Some e -> finished e = false)
      c3 o3 ((([] ++ v1) ++ v2) ++ v3)) as (c4 & o4 & v4 & -> & P4 & F4 & Q4).
  { done. }
  { intros a b x1 e1 x2 e2 i Hi%elem_of_seqZ Pa Hs e He. assert (Pc : cs_progress cs a) by by etrans.
    eapply finish_step_20; [exact (plan_ok_progress cs a Pc Hok)| |done|done].
    rewrite (Forall2_progress_length _ _ Pc). lia. }
  { intros a b i Ha P e He. destruct (Forall2_lookup_r _ _ _ _ _ P He) as (e0 & H0 & Pe).
    pose proof (Ha e0 H0) as Hf. by rewrite (progress_done _ _ Pe Hf). }
  cbn [mbind option_bind]. exists c4, o4, (v1 ++ v2 ++ v3 ++ v4). split; [by rewrite <- !app_assoc|].
  split; [|by rewrite !Forall_app]. apply all_reported; [done|]. intros k e He.
  apply (Q4 (Z.of_nat k)); [|by rewrite Nat2Z.id].
  pose proof (Forall2_progress_length _ _ P4). apply lookup_lt_Some in He. lia.
Qed.

End finish_spec.

(** Radar on channels 52 to 64 at time 0, and the watchdog much later. *)
Definition plan_radar : list RT_CHANNEL_INFO :=
  (_rtw_chset_update_non_ocp (fun ms => ms / 4) 0 plan_2_5 52 CHANNEL_WIDTH_80 CHAN_OFFSET_UPPER (-1)).1.

Lemma nop_finish_spec_witness :
  exists cs' offset' evs,
    rtw_chset_chk_non_ocp_finish 1000000 (rf_of plan_radar) 0 = Some (cs', offset', evs) /\
    entries cs' = report 1000000 <$> entries plan_radar /\
    Forall (event_ok 1000000 plan_radar) evs.
Proof.
  apply (nop_finish_spec 1000000 (rf_of plan_radar) 0); [|vm_compute; reflexivity].
  split; by_evaluation.
Defined.

(** One event, for the 80 MHz channel; before the period is over nothing. *)
Example one_event :
  snd <$> rtw_chset_chk_non_ocp_finish 1000000 (rf_of plan_radar) 0 = Some [(58, CHANNEL_WIDTH_80)] /\
  snd <$> rtw_chset_chk_non_ocp_finish 449999 (rf_of plan_radar) 0 = Some [].
Proof. vm_compute. done. Qed.

End ChanPlan.
