(* ===== verification/ChanCtx.v ===== *)
(** * Channel contexts (phl/phl_chan.c, phl/phl_mr.c)

    A channel context is a setting of the radio with the roles that share it.
    The contexts of a hardware band are allocated and kept on a queue, at most
    two of them (two make the radio switch between channels); a role points to
    its context, and a context has a bitmap of its roles.  Module [ChanCtx]
    models the store, so that a pointer to a freed context is an error ([None]),
    and the operations that add a role, remove it, recompute a context's setting
    and free everything.

    The operations run one at a time here: each holds the queue's lock around
    its accesses.  [MAX_WIFI_ROLE_NUMBER], and whether the build and the chip
    support several channels ([mcc_sup]) and two bands ([dbcc_sup]), are
    arguments. *)

From stdpp Require Import gmap relations.
From S2P Require Import Prelude Bitmap Chan ChanGroup.
Import Chan ChanGroup.

Module ChanCtx.

(** ** Data (phl/phl_def.h) *)

Inductive mr_op_mode := MR_OP_NON | MR_OP_SCC | MR_OP_MCC.
#[export] Instance mr_op_mode_eq_dec : EqDecision mr_op_mode.
Proof. solve_decision. Defined.
#[export] Instance rtw_chan_def_eq_dec : EqDecision rtw_chan_def.
Proof. solve_decision. Defined.

Record rtw_chan_ctx := mk_ctx { chan_def : rtw_chan_def; role_map : Z }.

(** The fields of [struct rtw_wifi_role_t] used here; its [id] is its index. *)
Record rtw_wifi_role_t := mk_role {
  hw_band : Z;
  chandef : rtw_chan_def;
  chanctx : option nat
}.

Record hw_band_ctl_t := mk_band {
  chan_ctx_queue : list nat;
  cnt : Z;
  op_mode : mr_op_mode
}.

(** The store of contexts, the roles, the bands, [mr_ctl->is_sb]. *)
Record mr_state := mk_mr {
  heap : gmap nat rtw_chan_ctx;
  wifi_roles : list rtw_wifi_role_t;
  band_ctrl : list hw_band_ctl_t;
  is_sb : bool
}.

Definition with_heap (st : mr_state) (h : gmap nat rtw_chan_ctx) : mr_state :=
  mk_mr h (wifi_roles st) (band_ctrl st) (is_sb st).
Definition with_roles (st : mr_state) (l : list rtw_wifi_role_t) : mr_state :=
  mk_mr (heap st) l (band_ctrl st) (is_sb st).
Definition with_bands (st : mr_state) (l : list hw_band_ctl_t) : mr_state :=
  mk_mr (heap st) (wifi_roles st) l (is_sb st).

(** [&mr_ctl->band_ctrl[idx]] is read, and written. *)
Definition upd_band (st : mr_state) (idx : Z) (f : hw_band_ctl_t -> hw_band_ctl_t)
    : option mr_state :=
  b ← rd (band_ctrl st) idx;
  l ← wr (band_ctrl st) idx (f b);
  Some (with_bands st l).

Definition set_mode (m : mr_op_mode) (b : hw_band_ctl_t) : hw_band_ctl_t :=
  mk_band (chan_ctx_queue b) (cnt b) m.

Definition chbw_of (d : rtw_chan_def) : chbw := mk_chbw (chan d) (bw d) (offset d).
(** The setting of a definition is changed; band and centre channel stay. *)
Definition set_chbw (d : rtw_chan_def) (c : chbw) : rtw_chan_def :=
  mk_chan_def (band d) (c_bw c) (c_offset c) (c_ch c) (center_ch d).

(** [role_map & BIT(ridx)] *)
Definition has_role (map ridx : Z) : bool := word_test map ridx.

Section ops.
Context (MAX_WIFI_ROLE_NUMBER : Z) (mcc_sup dbcc_sup : bool).

(** ** The queue and the bitmaps *)

Definition phl_mr_get_chanctx_num (b : hw_band_ctl_t) : Z := cnt b.

Definition _phl_chanctx_add (a : nat) (b : hw_band_ctl_t) : hw_band_ctl_t :=
    mk_band (chan_ctx_queue b ++ [a]) (cnt b + 1) (op_mode b).

Definition _phl_chanctx_del (a : nat) (b : hw_band_ctl_t) : hw_band_ctl_t :=
    if cnt b =? 0 then b
    else mk_band (filter (fun x => x <> a) (chan_ctx_queue b)) (cnt b - 1) (op_mode b).

(** [role_map] of the context and [chanctx] of the role. *)
Definition rmap_upd (st : mr_state) (ridx : Z) (a : nat) (f : Z -> Z) (p : option nat)
      : option mr_state :=
    role ← rd (wifi_roles st) ridx;
    ctx ← heap st !! a;
    l ← wr (wifi_roles st) ridx (mk_role (hw_band role) (chandef role) p);
    Some (with_roles (with_heap st (<[a := mk_ctx (chan_def ctx) (f (role_map ctx))]> (heap st))) l).
Definition _phl_chanctx_rmap_set (st : mr_state) (ridx : Z) (a : nat) : option mr_state :=
    rmap_upd st ridx a (fun m => u8 (word_set m ridx)) (Some a).
Definition _phl_chanctx_rmap_clr (st : mr_state) (ridx : Z) (a : nat) : option mr_state :=
    rmap_upd st ridx a (fun m => u8 (word_clr m ridx)) None.

Definition phl_chanctx_get_rnum (ctx : rtw_chan_ctx) : Z :=
    Z.of_nat (length (List.filter (has_role (role_map ctx)) (seqZ 0 MAX_WIFI_ROLE_NUMBER))).

(** ** Adding a role *)

(** [mem] is the address the allocator returns; [false] is a failed status. *)
Definition _phl_chanctx_create (st : mr_state) (ridx band : Z) (c : chbw) (mem : option nat)
      : option (bool * mr_state) :=
    match mem with
    | None => Some (false, st)
    | Some a =>
        role ← rd (wifi_roles st) ridx;
        let d := mk_chan_def band (c_bw c) (c_offset c) (c_ch c)
                   (rtw_phl_get_center_ch (c_ch c) (c_bw c) (c_offset c)) in
        st ← upd_band (with_heap st (<[a := mk_ctx d 0]> (heap st))) (hw_band role) (_phl_chanctx_add a);
        st ← _phl_chanctx_rmap_set st ridx a;
        Some (true, st)
    end.

(** The loop over the queue: the first context the request can join, or the
    last one looked at. *)
Fixpoint find_group (h : gmap nat rtw_chan_ctx) (l : list nat) (req : chbw) (last : option nat)
      : option (bool * option nat) :=
    match l with
    | [] => Some (false, last)
    | a :: l =>
        ctx ← h !! a;
        if _phl_is_chbw_grouped (chbw_of (chan_def ctx)) req then Some (true, Some a)
        else find_group h l req (Some a)
    end.

(** Whether the role has a context now, and [*chan], [*bw], [*offset]. *)
Definition phl_chanctx_add (st : mr_state) (ridx : Z) (req : chbw) (mem : option nat)
      : option (bool * chbw * mr_state) :=
    role ← rd (wifi_roles st) ridx;
    b ← rd (band_ctrl st) (hw_band role);
    let band' := if c_ch req >? 14 then BAND_ON_5G else BAND_ON_24G in
    let chanctx_num := phl_mr_get_chanctx_num b in
    let create :=
      '(ok, st) ← _phl_chanctx_create st ridx band' req mem;
      Some (ok, req, st) in
    if chanctx_num =? 0 then create
    else
      '(found, p) ← find_group (heap st) (chan_ctx_queue b) req None;
      if found : bool then
        a ← p;
        ctx ← heap st !! a;
        let '(_, g) := _phl_adjust_chandef req (chbw_of (chan_def ctx)) in
        st ← _phl_chanctx_rmap_set
               (with_heap st (<[a := mk_ctx (set_chbw (chan_def ctx) g) (role_map ctx)]> (heap st)))
               ridx a;
        Some (true, g, st)
      else if negb mcc_sup then Some (false, req, st)
      else if chanctx_num >=? 2 then Some (false, req, st)
      else
        a ← p;
        ctx ← heap st !! a;
        if band' =? band (chan_def ctx) then create
        else if dbcc_sup then Some (false, req, st)
        else create.

(** The mode that goes with the contexts of a band. *)
Definition mode_after (st : mr_state) (b : hw_band_ctl_t) : option mr_op_mode :=
    if phl_mr_get_chanctx_num b =? 2 then Some MR_OP_MCC
    else if phl_mr_get_chanctx_num b =? 1 then
      a ← head (chan_ctx_queue b);
      ctx ← heap st !! a;
      Some (if phl_chanctx_get_rnum ctx >=? 2 then MR_OP_SCC else MR_OP_NON)
    else Some (op_mode b).

Definition rtw_phl_chanctx_add (st : mr_state) (ridx : Z) (req : chbw) (mem : option nat)
      : option (bool * chbw * mr_state) :=
    role ← rd (wifi_roles st) ridx;
    if c_ch req =? 0 then Some (false, req, st)
    else if is_sb st && (hw_band role =? 1) then Some (false, req, st)
    else
      '(is_ch_grouped, req, st) ← phl_chanctx_add st ridx req mem;
      if is_ch_grouped : bool then
        b ← rd (band_ctrl st) (hw_band role);
        m ← mode_after st b;
        st ← upd_band st (hw_band role) (set_mode m);
        Some (true, req, st)
      else Some (false, req, st).

(** Whether the request could be added. *)
Definition rtw_phl_chanctx_chk (st : mr_state) (ridx : Z) (req : chbw) : option bool :=
    role ← rd (wifi_roles st) ridx;
    if c_ch req =? 0 then Some false
    else if is_sb st && (hw_band role =? 1) then Some false
    else
      b ← rd (band_ctrl st) (hw_band role);
      if phl_mr_get_chanctx_num b >? 0 then
        '(found, _) ← find_group (heap st) (chan_ctx_queue b) req None;
        Some (if mcc_sup && negb found && (phl_mr_get_chanctx_num b <? 2) then true else found)
      else Some true.

(** ** The setting of a context from the settings of its roles (phl/phl_mr.c) *)

(** The loop of [phl_mr_chandef_sync]: the number of roles and the setting
    collected so far. *)
Fixpoint sync_loop (st : mr_state) (map : Z) (l : list Z) (role_num : Z) (r : rtw_chan_def)
      : option (Z * rtw_chan_def) :=
    match l with
    | [] => Some (role_num, r)
    | ridx :: l =>
        if negb (has_role map ridx) then sync_loop st map l role_num r
        else
          wrole ← rd (wifi_roles st) ridx;
          let c := chandef wrole in
          if role_num =? 0 then sync_loop st map l 1 c
          else if negb (band r =? band c) then Some (0, r)
          else if negb (chan r =? chan c) then Some (0, r)
          else if bw r <? bw c then
            sync_loop st map l (role_num + 1)
              (mk_chan_def (band r) (bw c) (offset c) (chan r) (center_ch r))
          else if (bw r =? bw c) && negb (offset r =? offset c) then Some (0, r)
          else sync_loop st map l (role_num + 1) r
    end.

(** The status and [*chandef]; its centre channel is not written. *)
Definition phl_mr_chandef_sync (st : mr_state) (ctx : rtw_chan_ctx) (d : rtw_chan_def)
      : option (bool * rtw_chan_def) :=
    let init := mk_chan_def BAND_MAX CHANNEL_WIDTH_20 CHAN_OFFSET_NO_EXT 0 0 in
    '(role_num, r) ← sync_loop st (role_map ctx) (seqZ 0 MAX_WIFI_ROLE_NUMBER) 0 init;
    if role_num =? 0 then Some (false, d)
    else Some (true, mk_chan_def (band r) (bw r) (offset r) (chan r) (center_ch d)).

Definition phl_mr_chandef_upt (st : mr_state) (a : nat) : option (bool * mr_state) :=
    ctx ← heap st !! a;
    '(ok, d) ← phl_mr_chandef_sync st ctx (chan_def ctx);
    Some (ok, with_heap st (<[a := mk_ctx d (role_map ctx)]> (heap st))).

Definition rtw_phl_mr_upt_chandef (st : mr_state) (ridx : Z) : option (bool * mr_state) :=
    role ← rd (wifi_roles st) ridx;
    match chanctx role with
    | None => Some (false, st)
    | Some a => phl_mr_chandef_upt st a
    end.

(** ** Removing a role *)

(** The number of contexts left and [*chan_def]; [None] there: only [chan] was
    set to 0, or the pointer was null. *)
Definition rtw_phl_chanctx_del (st : mr_state) (ridx : Z)
      : option (Z * option rtw_chan_def * mr_state) :=
    role ← rd (wifi_roles st) ridx;
    b ← rd (band_ctrl st) (hw_band role);
    match chanctx role with
    | None => Some (0, None, st)
    | Some a =>
        ctx ← heap st !! a;
        let chctx_num := phl_mr_get_chanctx_num b in
        let chctx_role_num := phl_chanctx_get_rnum ctx in
        if (chctx_num =? 0) || (chctx_role_num =? 0) then Some (chctx_num, None, st)
        else if chctx_num >? 2 then Some (chctx_num, None, st)
        else
          '(ok, st) ←
            (if chctx_role_num =? 1 then
               st ← _phl_chanctx_rmap_clr st ridx a;
               st ← upd_band st (hw_band role) (_phl_chanctx_del a);
               Some (true, with_heap st (delete a (heap st)))
             else
               st ← _phl_chanctx_rmap_clr st ridx a;
               phl_mr_chandef_upt st a);
          if negb ok then Some (chctx_num, None, st)
          else
            b ← rd (band_ctrl st) (hw_band role);
            let chctx_num := phl_mr_get_chanctx_num b in
            if chctx_num =? 0 then
              st ← upd_band st (hw_band role) (set_mode MR_OP_NON);
              Some (chctx_num, None, st)
            else if chctx_num =? 1 then
              first ← head (chan_ctx_queue b);
              ctx ← heap st !! first;
              st ← upd_band st (hw_band role)
                     (set_mode (if phl_chanctx_get_rnum ctx =? 1 then MR_OP_NON else MR_OP_SCC));
              Some (chctx_num, Some (chan_def ctx), st)
            else if chctx_num =? 2 then
              ctx ← heap st !! a;
              st ← upd_band st (hw_band role) (set_mode MR_OP_MCC);
              Some (chctx_num, Some (chan_def ctx), st)
            else Some (chctx_num, None, st)
    end.

(** The only context of the band is freed; roles that point to it keep their
    pointers. *)
Definition rtw_phl_chanctx_del_no_self (st : mr_state) (ridx : Z) : option (bool * mr_state) :=
    role ← rd (wifi_roles st) ridx;
    b ← rd (band_ctrl st) (hw_band role);
    let chctx_num := phl_mr_get_chanctx_num b in
    if chctx_num >? 2 then Some (false, st)
    else if chctx_num =? 0 then Some (true, st)
    else if chctx_num =? 1 then
      match head (chan_ctx_queue b) with
      | None => Some (false, st)
      | Some a =>
          st ← upd_band st (hw_band role) (_phl_chanctx_del a);
          Some (true, with_heap st (delete a (heap st)))
      end
    else Some (false, st).

(** [phl_chanctx_free] of a band, when the driver is unloaded. *)
Definition phl_chanctx_free (st : mr_state) (idx : Z) : option mr_state :=
    b ← rd (band_ctrl st) idx;
    if phl_mr_get_chanctx_num b =? 0 then Some st
    else
      let st' := with_heap st (foldl (fun h a => delete a h) (heap st) (chan_ctx_queue b)) in
      upd_band st' idx (fun b =>
        mk_band [] (cnt b - Z.of_nat (length (chan_ctx_queue b))) (op_mode b)).

(** ** What a role reads *)

(** The status and [*chandef], which [d] holds before. *)
Definition phl_mr_get_chandef (st : mr_state) (ridx : Z) (sync : bool) (d : rtw_chan_def)
      : option (bool * rtw_chan_def) :=
    role ← rd (wifi_roles st) ridx;
    b ← rd (band_ctrl st) (hw_band role);
    let d := mk_chan_def (band d) (bw d) (offset d) 0 (center_ch d) in
    let of_ctx ctx :=
      if sync && (phl_chanctx_get_rnum ctx >=? 2) then phl_mr_chandef_sync st ctx d
      else Some (true, chan_def ctx) in
    match chanctx role with
    | Some a => ctx ← heap st !! a; of_ctx ctx
    | None =>
        if phl_mr_get_chanctx_num b =? 0 then Some (true, chandef role)
        else if phl_mr_get_chanctx_num b =? 1 then
          a ← head (chan_ctx_queue b);
          ctx ← heap st !! a;
          of_ctx ctx
        else Some (true, d)
    end.

(** [rtw_hw_update_chan_def] (core/rtw_phl.c): the core's setting of a role. *)
Definition rtw_hw_update_chan_def (st : mr_state) (ridx : Z) (c : chbw) : option mr_state :=
    role ← rd (wifi_roles st) ridx;
    l ← wr (wifi_roles st) ridx
          (mk_role (hw_band role)
             (mk_chan_def (if c_ch c >? 14 then BAND_ON_5G else BAND_ON_24G)
                (c_bw c) (c_offset c) (c_ch c)
                (rtw_phl_get_center_ch (c_ch c) (c_bw c) (c_offset c)))
             (chanctx role));
    Some (with_roles st l).
End ops.

(** [_phl_band_ctrl_init] and the loop of [phl_mr_ctrl_init]: empty queues, roles
    without a context. *)
Definition no_def : rtw_chan_def := mk_chan_def 0 0 0 0 0.
Definition phl_mr_ctrl_init (MAX_WIFI_ROLE_NUMBER : Z) : mr_state :=
  mk_mr ∅ (replicate (Z.to_nat MAX_WIFI_ROLE_NUMBER) (mk_role 0 no_def None))
    (replicate 2 (mk_band [] 0 MR_OP_NON)) true.

End ChanCtx.
