(* ===== verification/ChanCtxInv.v ===== *)
(** * The invariant of the channel contexts

    Module [ChanCtxInv] proves of the model in [ChanCtx]: the queues, the
    pointers of the roles and the bitmaps of the contexts always describe the
    same sharing, no operation follows a pointer to a freed context, the mode of
    a band is the one its contexts ask for, and the operations are those of a
    simple specification in which a band is a list of settings with the sets of
    roles that share them. *)

From stdpp Require Import gmap relations.
From S2P Require Import Prelude Bitmap Chan ChanGroup ChanCtx.
Import Chan ChanGroup ChanCtx.

Module ChanCtxInv.

(** ** Bitmaps of roles *)

Section proofs.
Context (MAX_WIFI_ROLE_NUMBER : Z) (mcc_sup dbcc_sup : bool).
Hypothesis max_range : 0 < MAX_WIFI_ROLE_NUMBER <= 8.

Abbreviation MAX := MAX_WIFI_ROLE_NUMBER.

Lemma has_role_set m r k :
  0 <= r < 8 -> 0 <= k < 8 -> has_role (u8 (word_set m r)) k = (k =? r) || has_role m k.
Proof.
  intros. unfold has_role.
  rewrite !word_test_spec, u8_testbit, word_set_spec by lia. done.
Qed.

Lemma has_role_clr m r k :
  0 <= r < 8 -> 0 <= k < 8 -> has_role (u8 (word_clr m r)) k = negb (k =? r) && has_role m k.
Proof.
  intros. unfold has_role.
  rewrite !word_test_spec, u8_testbit, word_clr_spec by lia. done.
Qed.

Lemma has_role_0 k : 0 <= k -> has_role 0 k = false.
Proof. intros. unfold has_role. by rewrite word_test_spec, Z.bits_0 by lia. Qed.

(** The roles of a bitmap, as a list and as a set. *)
Definition roles_of (map : Z) : list Z := List.filter (has_role map) (seqZ 0 MAX).
Definition role_set (map : Z) : gset Z := list_to_set (roles_of map).

Lemma elem_of_roles m r : r ∈ roles_of m <-> 0 <= r < MAX /\ has_role m r = true.
Proof.
  unfold roles_of. rewrite list_elem_of_In, filter_In, <- list_elem_of_In, elem_of_seqZ.
  rewrite Z.add_0_l. done.
Qed.

Lemma elem_of_role_set m r : r ∈ role_set m <-> 0 <= r < MAX /\ has_role m r = true.
Proof. unfold role_set. by rewrite elem_of_list_to_set, elem_of_roles. Qed.

Lemma NoDup_roles m : NoDup (roles_of m).
Proof. apply NoDup_ListNoDup, List.NoDup_filter, NoDup_ListNoDup, NoDup_seqZ. Qed.

Lemma rnum_size ctx : phl_chanctx_get_rnum MAX ctx = Z.of_nat (size (role_set (role_map ctx))).
Proof.
  unfold phl_chanctx_get_rnum, role_set. rewrite size_list_to_set by apply NoDup_roles. done.
Qed.

Lemma role_set_add m r :
  0 <= r < MAX -> role_set (u8 (word_set m r)) = {[r]} ∪ role_set m.
Proof.
  intros Hr. apply set_eq. intros k. rewrite elem_of_union, elem_of_singleton, !elem_of_role_set.
  split.
  - intros [Hk H]. rewrite has_role_set in H by lia. apply orb_true_iff in H as [?%Z.eqb_eq|]; auto.
  - intros [->|[Hk H]]; (split; [lia|]); rewrite has_role_set by lia; [by rewrite Z.eqb_refl|].
    by rewrite H, orb_true_r.
Qed.

Lemma role_set_del m r :
  0 <= r < MAX -> role_set (u8 (word_clr m r)) = role_set m ∖ {[r]}.
Proof.
  intros Hr. apply set_eq. intros k. rewrite elem_of_difference, elem_of_singleton, !elem_of_role_set.
  split.
  - intros [Hk H]. rewrite has_role_clr in H by lia.
    apply andb_true_iff in H as [?%negb_true_iff%Z.eqb_neq ?]. auto.
  - intros [[Hk H] Hn]. split; [lia|]. rewrite has_role_clr, H by lia.
    by apply Z.eqb_neq in Hn as ->.
Qed.

Lemma role_set_0 : role_set 0 = ∅.
Proof.
  apply set_eq. intros k. rewrite elem_of_role_set, elem_of_empty.
  split; [|done]. intros [? H]. by rewrite has_role_0 in H by lia.
Qed.

Lemma diff_empty (s : gset Z) r : r ∈ s -> s ∖ {[r]} = ∅ -> s = {[r]}.
Proof.
  intros Hr E. apply set_eq. intros k. rewrite elem_of_singleton. split; [|by intros ->].
  intros Hk. destruct (decide (k = r)); [done|]. set_solver.
Qed.

(** ** The invariant *)

Definition queued (st : mr_state) (bi : Z) (a : nat) : Prop :=
  exists b, rd (band_ctrl st) bi = Some b /\ a ∈ chan_ctx_queue b.

(** Contexts, queues, pointers and bitmaps describe the same sharing. *)
Record Links (st : mr_state) : Prop := {
  l_roles : Z.of_nat (length (wifi_roles st)) = MAX;
  l_bands : length (band_ctrl st) = 2%nat;
  l_hw r role : rd (wifi_roles st) r = Some role -> 0 <= hw_band role < 2;
  l_queue bi b : rd (band_ctrl st) bi = Some b ->
    NoDup (chan_ctx_queue b) /\ cnt b = Z.of_nat (length (chan_ctx_queue b)) /\ cnt b <= 2;
  l_where a : is_Some (heap st !! a) <-> exists bi, queued st bi a;
  l_disj a bi bj : queued st bi a -> queued st bj a -> bi = bj;
  l_member a ctx r : heap st !! a = Some ctx -> 0 <= r < MAX ->
    has_role (role_map ctx) r = true <->
    exists role, rd (wifi_roles st) r = Some role /\ chanctx role = Some a;
  l_used a ctx : heap st !! a = Some ctx -> role_set (role_map ctx) <> ∅;
  l_band r role a : rd (wifi_roles st) r = Some role -> chanctx role = Some a ->
    queued st (hw_band role) a
}.

(** The settings of a band with the roles that share them. *)
Definition share : Type := rtw_chan_def * gset Z.
Definition view (h : gmap nat rtw_chan_ctx) (q : list nat) : list share :=
  omap (fun a => (fun ctx => (chan_def ctx, role_set (role_map ctx))) <$> h !! a) q.
#[local] Arguments view : simpl never.

(** The mode that belongs to the contexts of a band. *)
Definition mode_spec (l : list share) : mr_op_mode :=
  match l with
  | [] => MR_OP_NON
  | [(_, s)] => if (2 <=? size s)%nat then MR_OP_SCC else MR_OP_NON
  | _ => MR_OP_MCC
  end.
Definition mode_of (st : mr_state) (b : hw_band_ctl_t) : mr_op_mode :=
  mode_spec (view (heap st) (chan_ctx_queue b)).

Definition Modes (st : mr_state) : Prop :=
  forall bi b, rd (band_ctrl st) bi = Some b -> op_mode b = mode_of st b.

Record Inv (st : mr_state) : Prop := { i_links : Links st; i_modes : Modes st }.

(** *** Changing one entry of an array *)

Lemma length_filter_ne (a : nat) l : NoDup l -> a ∈ l ->
  length l = S (length (filter (fun x => x <> a) l)).
Proof.
  induction 1 as [|x l Hx _ IH]; [by intros ?%elem_of_nil|].
  intros [->|Ha]%elem_of_cons; rewrite filter_cons; case_decide; try done; cbn.
  - f_equal. clear IH H. induction l as [|y l IH]; [done|]. apply not_elem_of_cons in Hx as [? ?].
    rewrite filter_cons, decide_True by congruence. cbn. auto.
  - by rewrite <- IH.
  - congruence.
Qed.

Lemma init_inv : Inv (phl_mr_ctrl_init MAX).
Proof.
  assert (Q : forall bi a, ~ queued (phl_mr_ctrl_init MAX) bi a).
  { intros bi a (b & Hb & Ha). cbn in Hb. apply (rd_replicate 2) in Hb as ->.
    by apply elem_of_nil in Ha. }
  split; [split|]; cbn.
  - rewrite length_replicate. lia.
  - done.
  - intros r role ->%rd_replicate. cbn. lia.
  - intros bi b Hb. apply (rd_replicate 2) in Hb as ->. cbn. split_all. apply NoDup_nil_2.
  - intros a. split; [by intros [? ?]|]. intros [bi H]. by apply Q in H.
  - intros a bi bj H. by apply Q in H.
  - intros a ctx r H. done.
  - intros a ctx H. done.
  - intros r role a H. apply rd_replicate in H as ->. done.
  - intros bi b Hb. apply (rd_replicate 2) in Hb as ->. done.
Qed.

(** The state with one band changed. *)
Lemma upd_band_some st bi b f :
  rd (band_ctrl st) bi = Some b ->
  exists st', upd_band st bi f = Some st' /\ heap st' = heap st /\ wifi_roles st' = wifi_roles st /\
    is_sb st' = is_sb st /\ length (band_ctrl st') = length (band_ctrl st) /\
    forall bj, rd (band_ctrl st') bj = if bj =? bi then Some (f b) else rd (band_ctrl st) bj.
Proof.
  intros Hb. unfold upd_band. rewrite Hb. cbn [mbind option_bind].
  destruct (rd_is_wr _ _ _ (f b) Hb) as [l Hl]. rewrite Hl. cbn [mbind option_bind].
  eexists. split; [reflexivity|]. cbn. split_and!; try done; [by eapply wr_length|].
  intros bj. by eapply rd_wr.
Qed.

(** The state with a role's pointer and a context's bitmap changed. *)
Lemma rmap_upd_some st r role a ctx f p :
  rd (wifi_roles st) r = Some role -> heap st !! a = Some ctx ->
  exists st', rmap_upd st r a f p = Some st' /\
    heap st' = <[a := mk_ctx (chan_def ctx) (f (role_map ctx))]> (heap st) /\
    band_ctrl st' = band_ctrl st /\ is_sb st' = is_sb st /\
    length (wifi_roles st') = length (wifi_roles st) /\
    forall k, rd (wifi_roles st') k =
      if k =? r then Some (mk_role (hw_band role) (chandef role) p) else rd (wifi_roles st) k.
Proof.
  intros Hr Ha. unfold rmap_upd. rewrite Hr, Ha. cbn [mbind option_bind].
  destruct (rd_is_wr _ _ _ (mk_role (hw_band role) (chandef role) p) Hr) as [l Hl].
  rewrite Hl. cbn [mbind option_bind]. eexists. split; [reflexivity|]. cbn.
  split_and!; try done; [by eapply wr_length|]. intros k. by eapply rd_wr.
Qed.

Lemma queued_bands st st' bi a : band_ctrl st' = band_ctrl st -> queued st' bi a <-> queued st bi a.
Proof. unfold queued. by intros ->. Qed.

Lemma role_range st r role : Links st -> rd (wifi_roles st) r = Some role -> 0 <= r < MAX.
Proof. intros L H%rd_inv. rewrite (l_roles st L) in H. done. Qed.

(** *** Links under the four changes *)

(** The parts of the state the links speak of. *)
Record Same (st st' : mr_state) : Prop := {
  s_heap a : role_map <$> heap st' !! a = role_map <$> heap st !! a;
  s_rlen : length (wifi_roles st') = length (wifi_roles st);
  s_roles r : (fun x => (hw_band x, chanctx x)) <$> rd (wifi_roles st') r =
              (fun x => (hw_band x, chanctx x)) <$> rd (wifi_roles st) r;
  s_blen : length (band_ctrl st') = length (band_ctrl st);
  s_bands i : (fun b => (chan_ctx_queue b, cnt b)) <$> rd (band_ctrl st') i =
              (fun b => (chan_ctx_queue b, cnt b)) <$> rd (band_ctrl st) i
}.

Lemma fmap_eq_some {A B} (f : A -> B) o o' x :
  f <$> o' = f <$> o -> o' = Some x -> exists y, o = Some y /\ f y = f x.
Proof. intros H ->. destruct o as [y|]; [|done]. exists y. by injection H as <-. Qed.

Lemma Same_sym st st' : Same st st' -> Same st' st.
Proof. by intros []; split. Qed.

Lemma Same_queued st st' bi a : Same st st' -> queued st bi a -> queued st' bi a.
Proof.
  intros S (b & Hb & Ha). destruct (fmap_eq_some _ _ _ _ (eq_sym (s_bands _ _ S bi)) Hb) as (b' & Hb' & E).
  injection E as E _. exists b'. by rewrite E.
Qed.

Lemma Same_member st st' r a : Same st st' ->
  (exists role, rd (wifi_roles st) r = Some role /\ chanctx role = Some a) ->
  exists role, rd (wifi_roles st') r = Some role /\ chanctx role = Some a.
Proof.
  intros S (x & Hx & Ha). destruct (fmap_eq_some _ _ _ _ (eq_sym (s_roles _ _ S r)) Hx) as (y & Hy & E).
  injection E as _ E. exists y. by rewrite E.
Qed.

Lemma links_same st st' : Same st st' -> Links st -> Links st'.
Proof.
  intros S L. pose proof (Same_sym _ _ S) as S'.
  assert (HR : forall r x, rd (wifi_roles st') r = Some x -> exists y, rd (wifi_roles st) r = Some y /\
    hw_band y = hw_band x /\ chanctx y = chanctx x).
  { intros r x Hx. destruct (fmap_eq_some _ _ _ _ (s_roles _ _ S r) Hx) as (y & Hy & E).
    injection E as ??. eauto. }
  assert (HH : forall a x, heap st' !! a = Some x -> exists y, heap st !! a = Some y /\ role_map y = role_map x).
  { intros a x Hx. apply (fmap_eq_some _ _ _ _ (s_heap _ _ S a) Hx). }
  destruct L as [L1 L2 L3 L4 L5 L6 L7 L8 L9]. split.
  - by rewrite (s_rlen _ _ S).
  - by rewrite (s_blen _ _ S).
  - intros r x (y & Hy & <- & _)%HR. eauto.
  - intros bi b Hb. destruct (fmap_eq_some _ _ _ _ (s_bands _ _ S bi) Hb) as (b' & Hb' & E).
    injection E as <- <-. eauto.
  - intros a. rewrite <- (fmap_is_Some role_map), (s_heap _ _ S), fmap_is_Some, L5.
    split; intros [bi Hq]; exists bi; eapply Same_queued; eauto.
  - intros a bi bj H1 H2. eapply L6; eapply Same_queued; eauto.
  - intros a x r (y & Hy & <-)%HH Hr. rewrite (L7 a y r Hy Hr).
    split; intros H; (eapply Same_member; [|exact H]); eauto.
  - intros a x (y & Hy & <-)%HH. eauto.
  - intros r x a (y & Hy & <- & <-)%HR Ha. eapply Same_queued; eauto.
Qed.

(** The role [r] gets the pointer [p]. *)
Record Repoint (st st' : mr_state) (r : Z) (role : rtw_wifi_role_t) (p : option nat) : Prop := {
  rp_at : rd (wifi_roles st) r = Some role;
  rp_len : length (wifi_roles st') = length (wifi_roles st);
  rp_get k : rd (wifi_roles st') k =
    if k =? r then Some (mk_role (hw_band role) (chandef role) p) else rd (wifi_roles st) k
}.

Lemma repoint_inv st st' r role p k x : Repoint st st' r role p -> rd (wifi_roles st') k = Some x ->
  exists y, rd (wifi_roles st) k = Some y /\ hw_band x = hw_band y /\
    chanctx x = if k =? r then p else chanctx y.
Proof.
  intros R. rewrite (rp_get _ _ _ _ _ R). destruct (Z.eqb_spec k r) as [->|].
  - intros [= <-]. exists role. split; [apply (rp_at _ _ _ _ _ R)|done].
  - intros H. by exists x.
Qed.

Lemma repoint_eq st st' st'' r role p :
  Repoint st st' r role p -> wifi_roles st'' = wifi_roles st' -> Repoint st st'' r role p.
Proof. intros [] E. split; rewrite ?E; done. Qed.

Lemma repoint_member st st' r role p k a : Repoint st st' r role p ->
  (exists x, rd (wifi_roles st') k = Some x /\ chanctx x = Some a) <->
  (if k =? r then p = Some a else exists x, rd (wifi_roles st) k = Some x /\ chanctx x = Some a).
Proof.
  intros R. rewrite (rp_get _ _ _ _ _ R). destruct (Z.eqb_spec k r) as [->|]; [|done].
  split; [by intros (x & [= <-] & H)|]. intros H. eexists. split; [reflexivity|done].
Qed.

Lemma queued_mono st st' bi a :
  (forall b, rd (band_ctrl st) bi = Some b ->
     exists b', rd (band_ctrl st') bi = Some b' /\ chan_ctx_queue b ⊆ chan_ctx_queue b') ->
  queued st bi a -> queued st' bi a.
Proof. intros H (b & Hb & Ha). destruct (H b Hb) as (b' & Hb' & I). exists b'. auto. Qed.

(** The bitmaps after [r] has joined [a]. *)
Lemma member_join st st' r role a m d :
  Links st -> Repoint st st' r role (Some a) -> chanctx role = None ->
  heap st' = <[a := mk_ctx d (u8 (word_set m r))]> (heap st) ->
  (forall k, 0 <= k < MAX -> has_role m k = true <->
     exists x, rd (wifi_roles st) k = Some x /\ chanctx x = Some a) ->
  forall x ctx k, heap st' !! x = Some ctx -> 0 <= k < MAX ->
    has_role (role_map ctx) k = true <->
    exists y, rd (wifi_roles st') k = Some y /\ chanctx y = Some x.
Proof.
  intros L R Hn Hh Hm x ctx k Hx Hk. pose proof (role_range _ _ _ L (rp_at _ _ _ _ _ R)) as Hr.
  rewrite (repoint_member _ _ _ _ _ _ _ R). rewrite Hh in Hx.
  destruct (decide (x = a)) as [->|Hne].
  - rewrite lookup_insert_eq in Hx. injection Hx as <-. cbn [role_map].
    rewrite has_role_set by lia. destruct (k =? r); cbn [orb]; [done|auto].
  - rewrite lookup_insert_ne in Hx by congruence. rewrite (l_member _ L _ _ _ Hx Hk).
    destruct (Z.eqb_spec k r) as [->|]; [|done]. rewrite (rp_at _ _ _ _ _ R).
    split; [intros (y & [= <-] & Hy); congruence|congruence].
Qed.

Lemma used_join m r : 0 <= r < MAX -> role_set (u8 (word_set m r)) <> ∅.
Proof. intros Hr. rewrite role_set_add by done. set_solver. Qed.

(** A role joins a context of its band. *)
Lemma links_join st st' r role a ctx d :
  Links st -> Repoint st st' r role (Some a) -> chanctx role = None ->
  heap st !! a = Some ctx -> queued st (hw_band role) a ->
  heap st' = <[a := mk_ctx d (u8 (word_set (role_map ctx) r))]> (heap st) ->
  band_ctrl st' = band_ctrl st -> Links st'.
Proof.
  intros L R Hn Ha Hq Hh Hb. pose proof (role_range _ _ _ L (rp_at _ _ _ _ _ R)) as Hr.
  assert (Q : forall bi x, queued st' bi x <-> queued st bi x) by (intros; by apply queued_bands).
  split.
  - rewrite (rp_len _ _ _ _ _ R). apply (l_roles _ L).
  - rewrite Hb. apply (l_bands _ L).
  - intros k x (y & Hy & -> & _)%(repoint_inv _ _ _ _ _ _ _ R). by eapply l_hw.
  - rewrite Hb. apply (l_queue _ L).
  - intros x. setoid_rewrite Q. rewrite <- (l_where _ L x), Hh. destruct (decide (x = a)) as [->|].
    + rewrite lookup_insert_eq, Ha. split; intros; eauto.
    + by rewrite lookup_insert_ne by congruence.
  - intros x bi bj. rewrite !Q. apply (l_disj _ L).
  - eapply member_join; eauto. intros k Hk. by apply (l_member _ L).
  - intros x c. rewrite Hh. destruct (decide (x = a)) as [->|].
    + rewrite lookup_insert_eq. intros [= <-]. by apply used_join.
    + rewrite lookup_insert_ne by congruence. apply (l_used _ L).
  - intros k y x (z & Hz & -> & E)%(repoint_inv _ _ _ _ _ _ _ R) Hy. apply Q.
    rewrite E in Hy. destruct (Z.eqb_spec k r) as [->|]; [|by eapply l_band].
    injection Hy as <-. rewrite (rp_at _ _ _ _ _ R) in Hz. by injection Hz as <-.
Qed.

(** A role gets a new context at the end of the queue of its band. *)
Lemma links_create st st' r role a d b :
  Links st -> Repoint st st' r role (Some a) -> chanctx role = None -> heap st !! a = None ->
  rd (band_ctrl st) (hw_band role) = Some b -> cnt b < 2 ->
  heap st' = <[a := mk_ctx d (u8 (word_set 0 r))]> (heap st) ->
  length (band_ctrl st') = length (band_ctrl st) ->
  (forall i, rd (band_ctrl st') i = if i =? hw_band role then Some (_phl_chanctx_add a b)
                                   else rd (band_ctrl st) i) ->
  Links st'.
Proof.
  intros L R Hn Ha Hb Hc Hh Hl HB. pose proof (role_range _ _ _ L (rp_at _ _ _ _ _ R)) as Hr.
  assert (N : forall bi, ~ queued st bi a).
  { intros bi H. assert (is_Some (heap st !! a)) as [? ?] by (apply (l_where _ L); eauto). congruence. }
  assert (Q : forall bi x, queued st' bi x <-> queued st bi x \/ (x = a /\ bi = hw_band role)).
  { intros bi x. unfold queued. rewrite HB. destruct (Z.eqb_spec bi (hw_band role)) as [->|]; [|naive_solver].
    rewrite Hb. split.
    - intros (b' & [= <-] & H). apply elem_of_app in H as [H|H%list_elem_of_singleton]; eauto.
    - intros [(b' & [= <-] & H)|[-> _]]; eexists; (split; [reflexivity|]); apply elem_of_app;
        [by left|right; by apply list_elem_of_singleton]. }
  split.
  - rewrite (rp_len _ _ _ _ _ R). apply (l_roles _ L).
  - rewrite Hl. apply (l_bands _ L).
  - intros k x (y & Hy & -> & _)%(repoint_inv _ _ _ _ _ _ _ R). by eapply l_hw.
  - intros bi b'. rewrite HB. destruct (bi =? hw_band role); [|apply (l_queue _ L)].
    intros [= <-]. destruct (l_queue _ L _ _ Hb) as (ND & E & _). cbn. rewrite length_app. cbn.
    split_and!; [|lia|lia]. apply NoDup_app. split_and!; [done| |apply NoDup_singleton].
    intros x Hx ->%list_elem_of_singleton. apply (N (hw_band role)). by exists b.
  - intros x. setoid_rewrite Q. rewrite Hh. destruct (decide (x = a)) as [->|].
    + rewrite lookup_insert_eq. split; intros; eauto.
    + rewrite lookup_insert_ne, (l_where _ L x) by congruence. naive_solver.
  - intros x bi bj. rewrite !Q. intros [H1|[-> ->]] [H2|[E ->]]; subst; [|by apply N in H1|by apply N in H2|done].
    by eapply (l_disj _ L).
  - eapply member_join; eauto. intros k Hk. rewrite has_role_0 by lia. split; [done|].
    intros (x & Hx & E). exfalso. apply (N (hw_band x)). by eapply l_band.
  - intros x c. rewrite Hh. destruct (decide (x = a)) as [->|].
    + rewrite lookup_insert_eq. intros [= <-]. by apply used_join.
    + rewrite lookup_insert_ne by congruence. apply (l_used _ L).
  - intros k y x (z & Hz & -> & E)%(repoint_inv _ _ _ _ _ _ _ R) Hy. apply Q.
    rewrite E in Hy. destruct (Z.eqb_spec k r) as [->|]; [|left; by eapply l_band].
    injection Hy as <-. rewrite (rp_at _ _ _ _ _ R) in Hz. injection Hz as <-. by right.
Qed.

(** The bitmaps after [r] has left [a]. *)
Lemma member_leave st st' r role a ctx :
  Links st -> Repoint st st' r role None -> chanctx role = Some a -> heap st !! a = Some ctx ->
  forall x c k, 0 <= k < MAX ->
    (x = a /\ role_map c = u8 (word_clr (role_map ctx) r) \/ x <> a /\ heap st !! x = Some c) ->
    has_role (role_map c) k = true <->
    exists y, rd (wifi_roles st') k = Some y /\ chanctx y = Some x.
Proof.
  intros L R Hp Ha x c k Hk H. pose proof (role_range _ _ _ L (rp_at _ _ _ _ _ R)) as Hr.
  rewrite (repoint_member _ _ _ _ _ _ _ R). destruct H as [[-> ->]|[Hne Hx]].
  - rewrite has_role_clr by lia. destruct (k =? r); cbn [negb andb]; [done|].
    by apply (l_member _ L).
  - rewrite (l_member _ L _ _ _ Hx Hk). destruct (Z.eqb_spec k r) as [->|]; [|done].
    rewrite (rp_at _ _ _ _ _ R). split; [intros (y & [= <-] & Hy); congruence|done].
Qed.

(** A role leaves a context that others share. *)
Lemma links_leave st st' r role a ctx d :
  Links st -> Repoint st st' r role None -> chanctx role = Some a ->
  heap st !! a = Some ctx -> role_set (role_map ctx) <> {[r]} ->
  heap st' = <[a := mk_ctx d (u8 (word_clr (role_map ctx) r))]> (heap st) ->
  band_ctrl st' = band_ctrl st -> Links st'.
Proof.
  intros L R Hp Ha Hs Hh Hb. pose proof (role_range _ _ _ L (rp_at _ _ _ _ _ R)) as Hr.
  assert (Q : forall bi x, queued st' bi x <-> queued st bi x) by (intros; by apply queued_bands).
  split.
  - rewrite (rp_len _ _ _ _ _ R). apply (l_roles _ L).
  - rewrite Hb. apply (l_bands _ L).
  - intros k x (y & Hy & -> & _)%(repoint_inv _ _ _ _ _ _ _ R). by eapply l_hw.
  - rewrite Hb. apply (l_queue _ L).
  - intros x. setoid_rewrite Q. rewrite <- (l_where _ L x), Hh. destruct (decide (x = a)) as [->|].
    + rewrite lookup_insert_eq, Ha. split; intros; eauto.
    + by rewrite lookup_insert_ne by congruence.
  - intros x bi bj. rewrite !Q. apply (l_disj _ L).
  - intros x c k Hx Hk. apply (member_leave _ _ _ _ _ _ L R Hp Ha _ _ _ Hk). rewrite Hh in Hx.
    destruct (decide (x = a)) as [->|].
    + rewrite lookup_insert_eq in Hx. injection Hx as <-. by left.
    + rewrite lookup_insert_ne in Hx by congruence. by right.
  - intros x c. rewrite Hh. destruct (decide (x = a)) as [->|].
    + rewrite lookup_insert_eq. intros [= <-]. cbn [role_map]. rewrite role_set_del by lia.
      intros E. apply Hs, diff_empty; [|done]. apply elem_of_role_set. split; [done|].
      apply (l_member _ L _ _ _ Ha Hr). exists role. split; [apply (rp_at _ _ _ _ _ R)|done].
    + rewrite lookup_insert_ne by congruence. apply (l_used _ L).
  - intros k y x (z & Hz & -> & E)%(repoint_inv _ _ _ _ _ _ _ R) Hy. apply Q.
    rewrite E in Hy. destruct (Z.eqb_spec k r) as [->|]; [done|]. by eapply l_band.
Qed.

(** The last role of a context leaves it, and the context is freed. *)
Lemma links_free st st' r role a ctx b :
  Links st -> Repoint st st' r role None -> chanctx role = Some a ->
  heap st !! a = Some ctx -> role_set (role_map ctx) = {[r]} ->
  rd (band_ctrl st) (hw_band role) = Some b ->
  heap st' = delete a (heap st) ->
  length (band_ctrl st') = length (band_ctrl st) ->
  (forall i, rd (band_ctrl st') i = if i =? hw_band role then Some (_phl_chanctx_del a b)
                                   else rd (band_ctrl st) i) ->
  Links st'.
Proof.
  intros L R Hp Ha Hs Hb Hh Hl HB. pose proof (role_range _ _ _ L (rp_at _ _ _ _ _ R)) as Hr.
  assert (Hq : queued st (hw_band role) a) by (eapply l_band; [exact L|apply (rp_at _ _ _ _ _ R)|done]).
  assert (Ia : a ∈ chan_ctx_queue b) by (destruct Hq as (b' & E & I); congruence).
  destruct (l_queue _ L _ _ Hb) as (ND & Ec & _).
  assert (Hc : cnt b <> 0) by (destruct (chan_ctx_queue b); [by apply elem_of_nil in Ia|cbn in Ec; lia]).
  assert (Hd : _phl_chanctx_del a b = mk_band (filter (fun x => x <> a) (chan_ctx_queue b)) (cnt b - 1) (op_mode b)).
  { unfold _phl_chanctx_del. by apply Z.eqb_neq in Hc as ->. }
  assert (Q : forall bi x, queued st' bi x <-> queued st bi x /\ x <> a).
  { intros bi x. unfold queued. rewrite HB, Hd. destruct (Z.eqb_spec bi (hw_band role)) as [->|].
    - rewrite Hb. split; [intros (b' & [= <-] & H)|intros [(b' & [= <-] & H) Hx]].
      + apply list_elem_of_filter in H as [? ?]. eauto.
      + eexists. split; [reflexivity|]. by apply list_elem_of_filter.
    - split; [|by intros [? _]]. intros H. split; [done|]. intros ->. by apply (l_disj _ L _ _ _ H) in Hq. }
  split.
  - rewrite (rp_len _ _ _ _ _ R). apply (l_roles _ L).
  - rewrite Hl. apply (l_bands _ L).
  - intros k x (y & Hy & -> & _)%(repoint_inv _ _ _ _ _ _ _ R). by eapply l_hw.
  - intros bi b'. rewrite HB. destruct (bi =? hw_band role); [|apply (l_queue _ L)].
    intros [= <-]. rewrite Hd. cbn. destruct (l_queue _ L _ _ Hb) as (_ & _ & ?).
    pose proof (length_filter_ne a _ ND Ia). split_and!; [by apply NoDup_filter|lia|lia].
  - intros x. setoid_rewrite Q. rewrite Hh. destruct (decide (x = a)) as [->|].
    + rewrite lookup_delete_eq. split; [by intros []|]. by intros (? & _ & ?).
    + rewrite lookup_delete_ne, (l_where _ L x) by congruence. naive_solver.
  - intros x bi bj. rewrite !Q. intros [? _] [? _]. by eapply (l_disj _ L).
  - intros x c k Hx Hk. rewrite Hh in Hx. apply lookup_delete_Some in Hx as [Hne Hx].
    apply (member_leave _ _ _ _ _ _ L R Hp Ha _ _ _ Hk). by right.
  - intros x c. rewrite Hh. intros [_ Hx]%lookup_delete_Some. by eapply l_used.
  - intros k y x (z & Hz & -> & E)%(repoint_inv _ _ _ _ _ _ _ R) Hy. apply Q.
    rewrite E in Hy. destruct (Z.eqb_spec k r) as [->|Hk]; [done|]. split; [by eapply l_band|].
    intros ->. assert (Ik : k ∈ role_set (role_map ctx)).
    { apply elem_of_role_set. pose proof (role_range _ _ _ L Hz). split; [done|].
      apply (proj2 (l_member _ L a ctx k Ha ltac:(lia))); eauto. }
    rewrite Hs in Ik. set_solver.
Qed.

(** *** The views *)

Lemma view_ext h h' q : (forall a, a ∈ q -> h' !! a = h !! a) -> view h' q = view h q.
Proof.
  unfold view. induction q as [|a q IH]; intros H; [done|]. cbn.
  rewrite (H a) by apply list_elem_of_here. rewrite IH; [done|]. intros. apply H. by right.
Qed.

Lemma view_app h q q' : view h (q ++ q') = view h q ++ view h q'.
Proof. apply omap_app. Qed.

Lemma mode_one h d s :
  mode_spec ((d, s) :: view h []) = if (2 <=? size s)%nat then MR_OP_SCC else MR_OP_NON.
Proof. done. Qed.

Lemma view_length h q : Forall (fun a => is_Some (h !! a)) q -> length (view h q) = length q.
Proof. unfold view. induction 1 as [|a q [c Hc] _ IH]; [done|]. cbn. rewrite Hc. cbn. by rewrite IH. Qed.

Lemma queue_heap st bi b : Links st -> rd (band_ctrl st) bi = Some b ->
  Forall (fun a => is_Some (heap st !! a)) (chan_ctx_queue b).
Proof.
  intros L Hb. apply Forall_forall. intros a Ha. apply (l_where _ L). exists bi. by exists b.
Qed.

Lemma view_cnt st bi b : Links st -> rd (band_ctrl st) bi = Some b ->
  cnt b = Z.of_nat (length (view (heap st) (chan_ctx_queue b))).
Proof.
  intros L Hb. rewrite view_length by (by eapply queue_heap). apply (l_queue _ L _ _ Hb).
Qed.

Lemma view_members st bi b d s : Links st -> rd (band_ctrl st) bi = Some b ->
  (d, s) ∈ view (heap st) (chan_ctx_queue b) -> s <> ∅.
Proof.
  intros L Hb H. apply list_elem_of_omap in H as (a & _ & H).
  destruct (heap st !! a) eqn:Ha; [|done]. injection H as _ <-. by eapply l_used.
Qed.

Lemma geb_2 n : (Z.of_nat n >=? 2) = (2 <=? n)%nat.
Proof. apply eq_true_iff_eq. rewrite Z.geb_le, Nat.leb_le. lia. Qed.

(** [mode_after] gives the mode of the view, when there is a context. *)
Lemma mode_after_spec st bi b : Links st -> rd (band_ctrl st) bi = Some b -> cnt b <> 0 ->
  mode_after MAX st b = Some (mode_of st b).
Proof.
  intros L Hb Hc. destruct (l_queue _ L _ _ Hb) as (_ & E & Hle).
  pose proof (queue_heap _ _ _ L Hb) as F.
  unfold mode_after, mode_of, phl_mr_get_chanctx_num.
  destruct (chan_ctx_queue b) as [|a [|a' [|]]]; cbn in E; try lia; rewrite E; cbn.
  - apply Forall_cons_1 in F as [[ctx Ha] _]. rewrite Ha. unfold view. cbn. rewrite Ha. cbn. by rewrite rnum_size, geb_2.
  - apply Forall_cons_1 in F as [[ctx Ha] F]. apply Forall_cons_1 in F as [[ctx' Ha'] _].
    unfold view. cbn. by rewrite Ha, Ha'.
Qed.

(** What an operation on one band leaves alone. *)
Record Local (st st' : mr_state) (bi : Z) (b' : hw_band_ctl_t) : Prop := {
  c_links : Links st';
  c_sb : is_sb st' = is_sb st;
  c_blen : length (band_ctrl st') = length (band_ctrl st);
  c_band : rd (band_ctrl st') bi = Some b';
  c_bands i : i <> bi -> rd (band_ctrl st') i = rd (band_ctrl st) i;
  c_views i b : i <> bi -> rd (band_ctrl st) i = Some b ->
    view (heap st') (chan_ctx_queue b) = view (heap st) (chan_ctx_queue b);
  c_roles r : (fun x => (hw_band x, chandef x)) <$> rd (wifi_roles st') r =
              (fun x => (hw_band x, chandef x)) <$> rd (wifi_roles st) r
}.

Lemma repoint_roles st st' r role p k : Repoint st st' r role p ->
  (fun x => (hw_band x, chandef x)) <$> rd (wifi_roles st') k =
  (fun x => (hw_band x, chandef x)) <$> rd (wifi_roles st) k.
Proof.
  intros R. rewrite (rp_get _ _ _ _ _ R). destruct (Z.eqb_spec k r) as [->|]; [|done].
  by rewrite (rp_at _ _ _ _ _ R).
Qed.

(** The views of the other bands do not depend on a context of this one. *)
Lemma other_views st h' a bi i b :
  Links st -> (forall x, x <> a -> h' !! x = heap st !! x) ->
  (forall j, queued st j a -> j = bi) -> i <> bi -> rd (band_ctrl st) i = Some b ->
  view h' (chan_ctx_queue b) = view (heap st) (chan_ctx_queue b).
Proof.
  intros L H Hq Hi Hb. apply view_ext. intros x Hx. apply H. intros ->. apply Hi, Hq. by exists b.
Qed.

(** The mode is set at the end. *)
Lemma local_mode st st' bi b' m :
  Inv st -> Local st st' bi b' -> m = mode_of st' b' ->
  exists st'', upd_band st' bi (set_mode m) = Some st'' /\ Inv st'' /\
    Local st st'' bi (set_mode m b') /\ heap st'' = heap st' /\ wifi_roles st'' = wifi_roles st'.
Proof.
  intros [L M] C ->. destruct C as [L' C1 C2 C3 C4 C5 C6].
  destruct (upd_band_some _ _ _ (set_mode (mode_of st' b')) C3) as (st'' & E & Hh & Hr & Hs & Hl & HB).
  exists st''. assert (L'' : Links st'').
  { apply (links_same st'); [|done]. split; try congruence. intros i. rewrite HB.
    destruct (Z.eqb_spec i bi) as [->|]; [|done]. by rewrite C3. }
  split_and!; try done; [split; [done|]|split].
  - intros i b. rewrite HB. destruct (Z.eqb_spec i bi) as [->|Hi].
    + intros [= <-]. unfold mode_of. by rewrite Hh.
    + rewrite C4 by done. intros Hb. unfold mode_of. rewrite Hh, (C5 _ _ Hi Hb). by apply (M i).
  - done.
  - congruence.
  - congruence.
  - rewrite HB. by rewrite Z.eqb_refl.
  - intros i Hi. rewrite HB. apply Z.eqb_neq in Hi as Hi'. rewrite Hi'. by apply C4.
  - rewrite Hh. done.
  - by rewrite Hr.
Qed.

(** *** Adding a role *)

(** The specification: the role joins the first context it can share. *)
Fixpoint spec_join (r : Z) (req : chbw) (l : list share) : option (chbw * list share) :=
  match l with
  | [] => None
  | (d, s) :: l =>
      if _phl_is_chbw_grouped (chbw_of d) req then
        let g := snd (_phl_adjust_chandef req (chbw_of d)) in
        Some (g, (set_chbw d g, {[r]} ∪ s) :: l)
      else '(g, l) ← spec_join r req l; Some (g, (d, s) :: l)
  end.

Definition new_def (req : chbw) : rtw_chan_def :=
  mk_chan_def (if c_ch req >? 14 then BAND_ON_5G else BAND_ON_24G) (c_bw req) (c_offset req) (c_ch req)
    (rtw_phl_get_center_ch (c_ch req) (c_bw req) (c_offset req)).

(** ... or gets one of its own: the first of the band, or a second one when the
    driver can switch channels. *)
Definition spec_add (l : list share) (r : Z) (req : chbw) (alloc : bool) : option (chbw * list share) :=
  let create := if alloc then Some (req, l ++ [(new_def req, {[r]})]) else None in
  match spec_join r req l, last l with
  | Some x, _ => Some x
  | None, None => create
  | None, Some (d, _) =>
      if mcc_sup && (length l <? 2)%nat && ((band (new_def req) =? band d) || negb dbcc_sup)
      then create else None
  end.

Lemma view_cons h a ctx q : h !! a = Some ctx ->
  view h (a :: q) = (chan_def ctx, role_set (role_map ctx)) :: view h q.
Proof. unfold view. cbn. by intros ->. Qed.

Lemma find_group_spec r req h q lst : NoDup q -> Forall (fun a => is_Some (h !! a)) q ->
  match spec_join r req (view h q) with
  | Some (g, l') => exists a ctx, find_group h q req lst = Some (true, Some a) /\ a ∈ q /\
      h !! a = Some ctx /\ g = snd (_phl_adjust_chandef req (chbw_of (chan_def ctx))) /\
      forall m, role_set m = {[r]} ∪ role_set (role_map ctx) ->
        view (<[a := mk_ctx (set_chbw (chan_def ctx) g) m]> h) q = l'
  | None => find_group h q req lst = Some (false, from_option Some lst (last q))
  end.
Proof.
  intros ND F. revert ND lst. induction F as [|a q [ctx Ha] F IH]; intros ND lst; [done|].
  apply NoDup_cons in ND as [Hn ND]. rewrite (view_cons _ _ _ _ Ha). cbn. rewrite Ha. cbn.
  destruct (_phl_is_chbw_grouped (chbw_of (chan_def ctx)) req) eqn:G.
  - exists a, ctx. split_and!; try done; [by left|]. intros m Hm.
    erewrite view_cons by apply lookup_insert_eq. cbn. rewrite Hm. f_equal. apply view_ext.
    intros x Hx. apply lookup_insert_ne. by intros ->.
  - specialize (IH ND (Some a)). destruct (spec_join r req (view h q)) as [[g l']|]; cbn.
    + destruct IH as (x & cx & E & Hx & Hhx & Hg & Hv). exists x, cx. split_and!; try done; [by right|].
      intros m Hm. assert (x <> a) by (by intros ->).
      erewrite view_cons by (by rewrite lookup_insert_ne). by rewrite Hv.
    + rewrite IH. destruct q; [done|]. cbn. by destruct (last (n :: q)) eqn:E; [|by apply last_None in E].
Qed.

Lemma last_view h q : Forall (fun a => is_Some (h !! a)) q ->
  last (view h q) = (a ← last q; ctx ← h !! a; Some (chan_def ctx, role_set (role_map ctx))).
Proof.
  intros F. destruct q as [|b q _] using rev_ind; [done|]. apply Forall_app in F as [_ [[c Hc] _]%Forall_cons_1].
  rewrite view_app, (view_cons _ _ _ _ Hc), last_snoc. cbn. rewrite Hc. apply last_snoc.
Qed.

Lemma create_ok st r role b req a :
  Links st -> rd (wifi_roles st) r = Some role -> chanctx role = None -> heap st !! a = None ->
  rd (band_ctrl st) (hw_band role) = Some b -> cnt b < 2 ->
  exists st' b', _phl_chanctx_create st r (band (new_def req)) req (Some a) = Some (true, st') /\
    Local st st' (hw_band role) b' /\
    view (heap st') (chan_ctx_queue b') = view (heap st) (chan_ctx_queue b) ++ [(new_def req, {[r]})].
Proof.
  intros L Hr Hn Ha Hb Hc. pose proof (role_range _ _ _ L Hr) as Hrr.
  pose proof (queue_heap _ _ _ L Hb) as F.
  set (st0 := with_heap st (<[a := mk_ctx (new_def req) 0]> (heap st))).
  destruct (upd_band_some st0 (hw_band role) b (_phl_chanctx_add a) Hb) as (st1 & E1 & Hh1 & Hr1 & Hs1 & Hl1 & HB1).
  destruct (rmap_upd_some st1 r role a (mk_ctx (new_def req) 0) (fun m => u8 (word_set m r)) (Some a))
    as (st2 & E2 & Hh2 & Hb2 & Hs2 & Hl2 & HR2).
  { by rewrite Hr1. } { rewrite Hh1. apply lookup_insert_eq. }
  rewrite Hh1 in Hh2. cbn in Hh2. rewrite insert_insert_eq in Hh2.
  assert (R : Repoint st st2 r role (Some a)).
  { split; [done|by rewrite Hl2, Hr1|]. intros k. by rewrite HR2, Hr1. }
  assert (Nq : forall x, x ∈ chan_ctx_queue b -> x <> a).
  { intros x Hx ->. rewrite Forall_forall in F. destruct (F _ Hx). congruence. }
  exists st2, (_phl_chanctx_add a b). split_and!.
  - unfold _phl_chanctx_create. rewrite Hr. cbn [mbind option_bind].
    change (mk_chan_def _ _ _ _ _) with (new_def req). fold st0. rewrite E1. cbn [mbind option_bind].
    unfold _phl_chanctx_rmap_set. by rewrite E2.
  - split.
    + eapply (links_create st st2); eauto; [by rewrite Hb2, Hl1|]. intros i. by rewrite Hb2, HB1.
    + by rewrite Hs2, Hs1.
    + by rewrite Hb2, Hl1.
    + by rewrite Hb2, HB1, Z.eqb_refl.
    + intros i Hi. rewrite Hb2, HB1. by apply Z.eqb_neq in Hi as ->.
    + intros i b0 Hi Hb0. rewrite Hh2. apply view_ext. intros x Hx. apply lookup_insert_ne. intros <-.
      pose proof (queue_heap _ _ _ L Hb0) as F'. rewrite Forall_forall in F'. destruct (F' _ Hx). congruence.
    + intros k. by eapply repoint_roles.
  - cbn. rewrite view_app, Hh2. f_equal.
    + apply view_ext. intros x Hx. apply lookup_insert_ne. apply not_eq_sym. auto.
    + erewrite view_cons by apply lookup_insert_eq. cbn.
      by rewrite role_set_add, role_set_0, union_empty_r_L by done.
Qed.

(** An operation that only touches a context of the band. *)
Lemma local_heap st st' bi b a :
  Links st -> Links st' -> rd (band_ctrl st) bi = Some b -> a ∈ chan_ctx_queue b ->
  (forall x, x <> a -> heap st' !! x = heap st !! x) ->
  band_ctrl st' = band_ctrl st -> is_sb st' = is_sb st ->
  (forall k, (fun x => (hw_band x, chandef x)) <$> rd (wifi_roles st') k =
             (fun x => (hw_band x, chandef x)) <$> rd (wifi_roles st) k) ->
  Local st st' bi b.
Proof.
  intros L L' Hb Ha Hh HB Hs HR. split; try done; try congruence.
  intros i b' Hi Hb'. eapply (other_views st _ a bi); eauto.
  intros j Hj. apply (l_disj _ L _ _ _ Hj). by exists b.
Qed.

Lemma join_ok st r role b a ctx d :
  Links st -> rd (wifi_roles st) r = Some role -> chanctx role = None ->
  rd (band_ctrl st) (hw_band role) = Some b -> a ∈ chan_ctx_queue b -> heap st !! a = Some ctx ->
  exists st', _phl_chanctx_rmap_set
                (with_heap st (<[a := mk_ctx d (role_map ctx)]> (heap st))) r a = Some st' /\
    Local st st' (hw_band role) b /\
    heap st' = <[a := mk_ctx d (u8 (word_set (role_map ctx) r))]> (heap st).
Proof.
  intros L Hr Hn Hb Hq Ha.
  set (st0 := with_heap st (<[a := mk_ctx d (role_map ctx)]> (heap st))).
  destruct (rmap_upd_some st0 r role a (mk_ctx d (role_map ctx)) (fun m => u8 (word_set m r)) (Some a))
    as (st1 & E & Hh & HB & Hs & Hl & HR); [done|apply lookup_insert_eq|].
  cbn in Hh. rewrite insert_insert_eq in Hh.
  assert (R : Repoint st st1 r role (Some a)) by done.
  exists st1. split_and!; [done| |done]. apply (local_heap _ _ _ _ a); try done.
  - eapply (links_join st st1); eauto. by exists b.
  - intros x Hx. rewrite Hh. apply lookup_insert_ne. congruence.
  - intros k. by eapply repoint_roles.
Qed.

Lemma phl_add_spec st r role b req mem :
  Links st -> rd (wifi_roles st) r = Some role -> chanctx role = None ->
  (forall a, mem = Some a -> heap st !! a = None) -> rd (band_ctrl st) (hw_band role) = Some b ->
  match spec_add (view (heap st) (chan_ctx_queue b)) r req (bool_decide (is_Some mem)) with
  | Some (g, l') => exists st' b', phl_chanctx_add mcc_sup dbcc_sup st r req mem = Some (true, g, st') /\
      Local st st' (hw_band role) b' /\ view (heap st') (chan_ctx_queue b') = l'
  | None => phl_chanctx_add mcc_sup dbcc_sup st r req mem = Some (false, req, st)
  end.
Proof.
  intros L Hr Hn Hm Hb. destruct (l_queue _ L _ _ Hb) as (ND & Ec & _).
  pose proof (queue_heap _ _ _ L Hb) as F.
  pose proof (find_group_spec r req (heap st) _ None ND F) as G.
  pose proof (last_view _ _ F) as Lv. pose proof (view_length _ _ F) as Lc.
  set (l := view (heap st) (chan_ctx_queue b)) in *.
  assert (C : cnt b < 2 ->
    match (if bool_decide (is_Some mem) then Some (req, l ++ [(new_def req, {[r]})]) else None) with
    | Some (g, l') => exists st' b', ('(ok, st) ← _phl_chanctx_create st r (band (new_def req)) req mem;
          Some (ok, req, st)) = Some (true, g, st') /\
        Local st st' (hw_band role) b' /\ view (heap st') (chan_ctx_queue b') = l'
    | None => ('(ok, st) ← _phl_chanctx_create st r (band (new_def req)) req mem;
          Some (ok, req, st)) = Some (false, req, st)
    end).
  { intros Hc. destruct mem as [a|]; [|done]. rewrite bool_decide_true by eauto.
    destruct (create_ok st r role b req a) as (st' & b' & E & HL & Hv); auto.
    exists st', b'. by rewrite E. }
  unfold phl_chanctx_add. rewrite Hr. cbn [mbind option_bind]. rewrite Hb. cbn [mbind option_bind].
  change (if c_ch req >? 14 then BAND_ON_5G else BAND_ON_24G) with (band (new_def req)).
  unfold phl_mr_get_chanctx_num, spec_add.
  destruct (spec_join r req l) as [[g l']|].
  - destruct G as (a & ctx & E & Hq & Ha & Hg & Hv).
    assert (Hc : cnt b =? 0 = false).
    { apply Z.eqb_neq. rewrite Ec. destruct (chan_ctx_queue b); [by apply elem_of_nil in Hq|cbn; lia]. }
    rewrite Hc, E. cbn [mbind option_bind]. rewrite Ha. cbn [mbind option_bind].
    destruct (_phl_adjust_chandef req (chbw_of (chan_def ctx))) as [o g'] eqn:A. cbn in Hg. subst g'.
    destruct (join_ok st r role b a ctx (set_chbw (chan_def ctx) g)) as (st' & E' & HL & Hh); auto.
    rewrite E'. cbn. exists st', b. split_and!; [done|done|]. rewrite Hh. apply Hv.
    apply role_set_add. by eapply role_range.
  - destruct (last l) as [[d s]|] eqn:El.
    + destruct (last (chan_ctx_queue b)) as [a|] eqn:Eq; [|done]. cbn [mbind option_bind] in Lv.
      destruct (heap st !! a) as [ctx|] eqn:Ha; [|done]. cbn [mbind option_bind] in Lv. injection Lv as -> ->.
      assert (Hc : cnt b =? 0 = false).
      { apply Z.eqb_neq. rewrite Ec. destruct (chan_ctx_queue b); [done|cbn; lia]. }
      rewrite Hc, G. cbn [mbind option_bind from_option].
      destruct mcc_sup; cbn [negb andb]; [|done].
      replace (cnt b >=? 2) with (negb (length l <? 2)%nat) by
        (rewrite Lc; apply eq_true_iff_eq; rewrite Z.geb_le, negb_true_iff, Nat.ltb_ge; lia).
      destruct (Nat.ltb_spec (length l) 2); cbn [negb andb]; [|done].
      rewrite Ha. cbn [mbind option_bind].
      destruct (band (new_def req) =? band (chan_def ctx)); cbn [orb]; [apply C; lia|].
      destruct dbcc_sup; cbn [negb]; [done|apply C; lia].
    + apply last_None in El. rewrite El in Lc. cbn in Lc.
      replace (cnt b =? 0) with true by (symmetry; apply Z.eqb_eq; lia). apply C. lia.
Qed.

Definition refused (sb : bool) (bi : Z) (req : chbw) : bool :=
  (c_ch req =? 0) || (sb && (bi =? 1)).

Lemma spec_add_nonempty l r req alloc g l' : spec_add l r req alloc = Some (g, l') -> l' <> [].
Proof.
  unfold spec_add. destruct (spec_join r req l) as [[g0 l0]|] eqn:E.
  - intros [= <- <-]. destruct l as [|[d s] l]; [done|]. cbn in E.
    destruct (_phl_is_chbw_grouped _ _); [by injection E as _ <-|].
    destruct (spec_join r req l) as [[]|]; [by injection E as _ <-|done].
  - intros H ->. destruct (last l) as [[d s]|], alloc; try done.
    + destruct (_ && _); [injection H as _ H; by apply app_eq_nil in H as [_ ?]|done].
    + by destruct (_ && _).
    + injection H as _ H; by apply app_eq_nil in H as [_ ?].
Qed.

Lemma add_spec st r role b req mem :
  Inv st -> rd (wifi_roles st) r = Some role -> chanctx role = None ->
  (forall a, mem = Some a -> heap st !! a = None) -> rd (band_ctrl st) (hw_band role) = Some b ->
  match (if refused (is_sb st) (hw_band role) req then None
         else spec_add (view (heap st) (chan_ctx_queue b)) r req (bool_decide (is_Some mem))) with
  | Some (g, l') => exists st' b', rtw_phl_chanctx_add MAX mcc_sup dbcc_sup st r req mem = Some (true, g, st') /\
      Inv st' /\ Local st st' (hw_band role) b' /\ view (heap st') (chan_ctx_queue b') = l'
  | None => rtw_phl_chanctx_add MAX mcc_sup dbcc_sup st r req mem = Some (false, req, st)
  end.
Proof.
  intros I Hr Hn Hm Hb. pose proof (i_links _ I) as L.
  unfold rtw_phl_chanctx_add, refused. rewrite Hr. cbn [mbind option_bind].
  destruct (c_ch req =? 0); cbn [orb]; [done|]. destruct (is_sb st && (hw_band role =? 1)); [done|].
  pose proof (phl_add_spec st r role b req mem L Hr Hn Hm Hb) as H.
  destruct (spec_add _ _ _ _) as [[g l']|] eqn:E; [|by rewrite H].
  destruct H as (st1 & b1 & E1 & C & Hv). rewrite E1. cbn [mbind option_bind].
  rewrite (c_band _ _ _ _ C). cbn [mbind option_bind].
  assert (Hc : cnt b1 <> 0).
  { rewrite (view_cnt _ _ _ (c_links _ _ _ _ C) (c_band _ _ _ _ C)), Hv.
    apply spec_add_nonempty in E. destruct l'; [done|cbn; lia]. }
  rewrite (mode_after_spec _ _ _ (c_links _ _ _ _ C) (c_band _ _ _ _ C) Hc). cbn [mbind option_bind].
  destruct (local_mode st st1 _ b1 _ I C eq_refl) as (st2 & E2 & I2 & C2 & Hh & _).
  rewrite E2. cbn. exists st2, (set_mode (mode_of st1 b1) b1). by rewrite Hh.
Qed.

(** *** The setting of a context from its roles *)

(** One more role: the wider setting, when the two agree. *)
Definition merge (r c : rtw_chan_def) : option rtw_chan_def :=
  if negb ((band r =? band c) && (chan r =? chan c)) then None
  else if bw r <? bw c then Some (mk_chan_def (band r) (bw c) (offset c) (chan r) (center_ch r))
  else if (bw r =? bw c) && negb (offset r =? offset c) then None
  else Some r.
Definition merge_all (r : rtw_chan_def) (l : list rtw_chan_def) : option rtw_chan_def :=
  foldl (fun o c => r ← o; merge r c) (Some r) l.
Definition collect (l : list rtw_chan_def) : option rtw_chan_def :=
  match l with [] => None | c :: l => merge_all c l end.

Lemma merge_none l : foldl (fun o c => r ← o; merge r c) None l = None.
Proof. by induction l. Qed.

Lemma sync_loop_started st map l n r cs :
  Forall2 (fun k c => chandef <$> rd (wifi_roles st) k = Some c) (List.filter (has_role map) l) cs ->
  0 < n -> exists n' r', sync_loop st map l n r = Some (n', r') /\
    match merge_all r cs with Some d => r' = d /\ 0 < n' | None => n' = 0 end.
Proof.
  revert n r cs. induction l as [|k l IH]; intros n r cs F Hn; cbn [sync_loop].
  - apply Forall2_nil_inv_l in F as ->. exists n, r. done.
  - cbn in F. destruct (has_role map k) eqn:Hk; cbn [negb]; [|by apply IH].
    apply Forall2_cons_inv_l in F as (c & cs' & Hc & F & ->).
    apply fmap_Some in Hc as (role & Hc & ->). rewrite Hc. cbn [mbind option_bind].
    replace (n =? 0) with false by lia. unfold merge_all. cbn [foldl mbind option_bind]. unfold merge.
    destruct (band r =? band (chandef role)); cbn [negb andb];
      [|rewrite merge_none; by exists 0, r].
    destruct (chan r =? chan (chandef role)); cbn [negb andb]; [|rewrite merge_none; by exists 0, r].
    destruct (bw r <? bw (chandef role)); [apply IH; [done|lia]|].
    destruct (bw r =? bw (chandef role)); cbn [andb]; [|apply IH; [done|lia]].
    destruct (offset r =? offset (chandef role)); cbn [negb]; [apply IH; [done|lia]|].
    rewrite merge_none. by exists 0, r.
Qed.

Lemma sync_loop_spec st map l r cs :
  Forall2 (fun k c => chandef <$> rd (wifi_roles st) k = Some c) (List.filter (has_role map) l) cs ->
  exists n' r', sync_loop st map l 0 r = Some (n', r') /\
    match collect cs with Some d => r' = d /\ 0 < n' | None => n' = 0 end.
Proof.
  revert cs. induction l as [|k l IH]; intros cs F; cbn [sync_loop].
  - apply Forall2_nil_inv_l in F as ->. by exists 0, r.
  - cbn in F. destruct (has_role map k) eqn:Hk; cbn [negb]; [|by apply IH].
    apply Forall2_cons_inv_l in F as (c & cs' & Hc & F & ->).
    apply fmap_Some in Hc as (role & Hc & ->). rewrite Hc. cbn [mbind option_bind].
    change (0 =? 0) with true. cbn. apply sync_loop_started; [done|lia].
Qed.

Definition members (s : gset Z) : list Z := filter (fun k => k ∈ s) (seqZ 0 MAX).
Definition defs (st : mr_state) (k : Z) : option rtw_chan_def := chandef <$> rd (wifi_roles st) k.
Definition spec_sync (df : Z -> option rtw_chan_def) (s : gset Z) (d : rtw_chan_def) : rtw_chan_def :=
  match collect (omap df (members s)) with
  | Some c => mk_chan_def (band c) (bw c) (offset c) (chan c) (center_ch d)
  | None => d
  end.

Lemma roles_of_members m : roles_of m = members (role_set m).
Proof.
  unfold roles_of, members.
  assert (G : forall l, (forall k, k ∈ l -> 0 <= k < MAX) ->
    List.filter (has_role m) l = filter (fun k => k ∈ role_set m) l).
  { induction l as [|k l IH]; intros H; [done|]. rewrite filter_cons. cbn [List.filter].
    rewrite IH by (intros; apply H; by right). pose proof (H k (list_elem_of_here _ _)).
    destruct (has_role m k) eqn:Hk; case_decide as Hd; try done.
    - destruct Hd. by apply elem_of_role_set.
    - apply elem_of_role_set in Hd as [_ Hd]. congruence. }
  apply G. intros k Hk. apply elem_of_seqZ in Hk. lia.
Qed.

Lemma sync_spec st ctx d :
  Z.of_nat (length (wifi_roles st)) = MAX ->
  phl_mr_chandef_sync MAX st ctx d =
    Some (bool_decide (is_Some (collect (omap (defs st) (members (role_set (role_map ctx)))))),
          spec_sync (defs st) (role_set (role_map ctx)) d).
Proof.
  intros HL. unfold phl_mr_chandef_sync, spec_sync. rewrite <- roles_of_members.
  destruct (sync_loop_spec st (role_map ctx) (seqZ 0 MAX)
    (mk_chan_def BAND_MAX CHANNEL_WIDTH_20 CHAN_OFFSET_NO_EXT 0 0)
    (omap (defs st) (roles_of (role_map ctx)))) as (n & r & E & H).
  { assert (G : forall l, (forall k, k ∈ l -> 0 <= k < MAX) ->
      Forall2 (fun k c => defs st k = Some c) l (omap (defs st) l)).
    { induction l as [|k l IH]; intros Hl; [constructor|]. cbn. unfold defs at 2.
      destruct (rd_some (wifi_roles st) k) as [x Hx]; [rewrite HL; apply Hl; by left|].
      rewrite Hx. cbn. constructor; [by unfold defs; rewrite Hx|]. apply IH. intros. apply Hl. by right. }
    apply G. intros k Hk. by apply elem_of_roles in Hk as [? _]. }
  rewrite E. cbn [mbind option_bind].
  destruct (collect _) as [c|] eqn:Ec.
  - destruct H as [-> H]. replace (n =? 0) with false by lia. done.
  - subst n. done.
Qed.

(** The setting of a single role is always taken. *)
Lemma collect_none s df : (forall k, 0 <= k < MAX -> is_Some (df k)) -> s <> ∅ ->
  (forall k, k ∈ s -> 0 <= k < MAX) -> collect (omap df (members s)) = None -> (2 <= size s)%nat.
Proof.
  intros Hd Hs Hr E.
  assert (Hlen : length (members s) = size s).
  { unfold size, set_size. cbn. apply Permutation_length, NoDup_Permutation.
    - apply NoDup_filter, NoDup_seqZ. - apply NoDup_elements.
    - intros k. rewrite elem_of_elements. unfold members. rewrite list_elem_of_filter, elem_of_seqZ.
      split; [by intros []|]. intros Hk. split; [done|]. specialize (Hr _ Hk). lia. }
  assert (Hsome : length (omap df (members s)) = length (members s)).
  { assert (G : forall l, (forall k, k ∈ l -> 0 <= k < MAX) -> length (omap df l) = length l).
    { induction l as [|k l IH]; intros Hl; [done|]. cbn. destruct (Hd k) as [x Hx]; [apply Hl; by left|].
      rewrite Hx. cbn. f_equal. apply IH. intros. apply Hl. by right. }
    apply G. intros k [_ ?%elem_of_seqZ]%list_elem_of_filter. lia. }
  assert (size s <> 0%nat) by (intros ?%size_empty_inv%leibniz_equiv; done). clear Hs.
  rewrite <- Hsome in Hlen.
  destruct (omap df (members s)) as [|c [|c' l]]; cbn in *; [lia|done|lia].
Qed.

(** *** Removing a role *)

Fixpoint spec_leave (df : Z -> option rtw_chan_def) (r : Z) (l : list share) : list share :=
  match l with
  | [] => []
  | (d, s) :: l =>
      if decide (r ∈ s) then
        if decide (s = {[r]}) then l else (spec_sync df (s ∖ {[r]}) d, s ∖ {[r]}) :: l
      else (d, s) :: spec_leave df r l
  end.

Lemma view_leave df r h q a ctx :
  NoDup q -> Forall (fun a => is_Some (h !! a)) q -> a ∈ q -> h !! a = Some ctx ->
  r ∈ role_set (role_map ctx) ->
  (forall x c, x <> a -> h !! x = Some c -> r ∉ role_set (role_map c)) ->
  spec_leave df r (view h q) =
    if decide (role_set (role_map ctx) = {[r]}) then view (delete a h) (filter (fun x => x <> a) q)
    else view (<[a := mk_ctx (spec_sync df (role_set (role_map ctx) ∖ {[r]}) (chan_def ctx))
                             (u8 (word_clr (role_map ctx) r))]> h) q.
Proof.
  intros ND F Ia Ha Hr Ho.
  assert (Hrr : 0 <= r < MAX) by (by apply elem_of_role_set in Hr as [? _]).
  induction F as [|x q [c Hx] F IH]; [by apply elem_of_nil in Ia|].
  apply NoDup_cons in ND as [Hn ND]. rewrite (view_cons _ _ _ _ Hx). cbn [spec_leave].
  destruct (decide (x = a)) as [->|Hne].
  - rewrite Ha in Hx. injection Hx as <-. rewrite decide_True by done.
    assert (Hq : forall y, y ∈ q -> y <> a) by (by intros y Hy ->).
    destruct (decide (role_set (role_map ctx) = {[r]})).
    + rewrite filter_cons, decide_False by (intros []; done).
      assert (E : filter (fun x => x <> a) q = q).
      { clear -Hq. induction q as [|y q IH]; [done|]. rewrite filter_cons, decide_True by (apply Hq; by left).
        f_equal. apply IH. intros. apply Hq. by right. }
      rewrite E. symmetry. apply view_ext. intros y Hy. apply lookup_delete_ne, not_eq_sym. auto.
    + erewrite (view_cons (<[a := _]> h)) by apply lookup_insert_eq. cbn. rewrite role_set_del by done.
      f_equal. symmetry. apply view_ext. intros y Hy. apply lookup_insert_ne, not_eq_sym. auto.
  - apply elem_of_cons in Ia as [->|Ia]; [done|]. rewrite decide_False by (by eapply Ho).
    rewrite (IH ND Ia). destruct (decide (role_set (role_map ctx) = {[r]})).
    + rewrite filter_cons, decide_True by done.
      by erewrite (view_cons (delete a h)) by (by rewrite lookup_delete_ne).
    + by erewrite (view_cons (<[a := _]> h)) by (by rewrite lookup_insert_ne).
Qed.

(** A context that a role points to. *)
Lemma pointed st r role a b : Links st -> rd (wifi_roles st) r = Some role -> chanctx role = Some a ->
  rd (band_ctrl st) (hw_band role) = Some b ->
  exists ctx, heap st !! a = Some ctx /\ a ∈ chan_ctx_queue b /\ r ∈ role_set (role_map ctx) /\
    forall x c, x <> a -> heap st !! x = Some c -> r ∉ role_set (role_map c).
Proof.
  intros L Hr Hp Hb. pose proof (role_range _ _ _ L Hr) as Hrr.
  destruct (l_band _ L _ _ _ Hr Hp) as (b' & Hb' & Ia). rewrite Hb in Hb'. injection Hb' as <-.
  pose proof (queue_heap _ _ _ L Hb) as F. rewrite Forall_forall in F. destruct (F _ Ia) as [ctx Ha].
  exists ctx. split_and!; [done|done| |].
  - apply elem_of_role_set. split; [done|]. apply (l_member _ L _ _ _ Ha Hrr). eauto.
  - intros x c Hx Hc [_ H]%elem_of_role_set. apply (l_member _ L _ _ _ Hc Hrr) in H as (role' & H & Hp').
    rewrite Hr in H. injection H as <-. congruence.
Qed.

Lemma upt_spec st a ctx :
  Z.of_nat (length (wifi_roles st)) = MAX -> heap st !! a = Some ctx ->
  phl_mr_chandef_upt MAX st a =
    Some (bool_decide (is_Some (collect (omap (defs st) (members (role_set (role_map ctx)))))),
          with_heap st (<[a := mk_ctx (spec_sync (defs st) (role_set (role_map ctx)) (chan_def ctx))
                                      (role_map ctx)]> (heap st))).
Proof. intros L Ha. unfold phl_mr_chandef_upt. rewrite Ha. cbn. rewrite sync_spec by done. done. Qed.

Lemma defs_repoint st st' r role p : Repoint st st' r role p -> forall k, defs st' k = defs st k.
Proof.
  intros R k. unfold defs. rewrite (rp_get _ _ _ _ _ R). destruct (Z.eqb_spec k r) as [->|]; [|done].
  by rewrite (rp_at _ _ _ _ _ R).
Qed.

Lemma omap_ext' {A B} (f g : A -> option B) (l : list A) : (forall x, f x = g x) -> omap f l = omap g l.
Proof. intros E. induction l as [|x l IH]; [done|]. cbn. by rewrite E, IH. Qed.

Lemma spec_sync_ext df df' s d : (forall k, df k = df' k) -> spec_sync df s d = spec_sync df' s d.
Proof. intros E. unfold spec_sync. by rewrite (omap_ext' _ _ _ E). Qed.

Lemma leave_ok st r role a ctx b :
  Links st -> rd (wifi_roles st) r = Some role -> chanctx role = Some a ->
  rd (band_ctrl st) (hw_band role) = Some b -> heap st !! a = Some ctx -> a ∈ chan_ctx_queue b ->
  role_set (role_map ctx) <> {[r]} ->
  let s := role_set (role_map ctx) ∖ {[r]} in
  exists st', (st ← _phl_chanctx_rmap_clr st r a; phl_mr_chandef_upt MAX st a) =
      Some (bool_decide (is_Some (collect (omap (defs st) (members s)))), st') /\
    Local st st' (hw_band role) b /\ Repoint st st' r role None /\
    heap st' = <[a := mk_ctx (spec_sync (defs st) s (chan_def ctx)) (u8 (word_clr (role_map ctx) r))]> (heap st).
Proof.
  intros L Hr Hp Hb Ha Ia Hs s. pose proof (role_range _ _ _ L Hr) as Hrr.
  destruct (rmap_upd_some st r role a ctx (fun m => u8 (word_clr m r)) None Hr Ha)
    as (st1 & E1 & Hh1 & HB1 & Hs1 & Hl1 & HR1).
  assert (R : Repoint st st1 r role None) by done.
  unfold _phl_chanctx_rmap_clr. rewrite E1. cbn [mbind option_bind].
  rewrite (upt_spec st1 a (mk_ctx (chan_def ctx) (u8 (word_clr (role_map ctx) r)))); cycle 1.
  { rewrite Hl1. apply (l_roles _ L). } { rewrite Hh1. apply lookup_insert_eq. }
  cbn [role_map chan_def]. rewrite role_set_del by done. fold s.
  rewrite (omap_ext' _ _ _ (defs_repoint _ _ _ _ _ R)).
  rewrite (spec_sync_ext _ _ _ _ (defs_repoint _ _ _ _ _ R)), Hh1, insert_insert_eq. eexists. split; [reflexivity|].
  match goal with |- Local _ ?x _ _ /\ _ => set (st' := x) end.
  assert (R' : Repoint st st' r role None) by done. split_and!; [|done|done].
  apply (local_heap _ _ _ _ a); try done.
  - by apply (links_leave st st' r role a ctx (spec_sync (defs st) s (chan_def ctx))).
  - intros x Hx. apply lookup_insert_ne. congruence.
  - intros k. by eapply repoint_roles.
Qed.

Lemma free_ok st r role a ctx b :
  Links st -> rd (wifi_roles st) r = Some role -> chanctx role = Some a ->
  rd (band_ctrl st) (hw_band role) = Some b -> heap st !! a = Some ctx -> a ∈ chan_ctx_queue b ->
  role_set (role_map ctx) = {[r]} ->
  exists st', (st ← _phl_chanctx_rmap_clr st r a;
               st ← upd_band st (hw_band role) (_phl_chanctx_del a);
               Some (true, with_heap st (delete a (heap st)))) = Some (true, st') /\
    Local st st' (hw_band role) (_phl_chanctx_del a b) /\ Repoint st st' r role None /\
    heap st' = delete a (heap st).
Proof.
  intros L Hr Hp Hb Ha Ia Hs.
  destruct (rmap_upd_some st r role a ctx (fun m => u8 (word_clr m r)) None Hr Ha)
    as (st1 & E1 & Hh1 & HB1 & Hs1 & Hl1 & HR1).
  unfold _phl_chanctx_rmap_clr. rewrite E1. cbn [mbind option_bind].
  destruct (upd_band_some st1 (hw_band role) b (_phl_chanctx_del a)) as (st2 & E2 & Hh2 & Hr2 & Hs2 & Hl2 & HB2);
    [by rewrite HB1|].
  rewrite E2. cbn [mbind option_bind]. eexists. split; [reflexivity|].
  rewrite Hh2, Hh1, delete_insert_eq.
  match goal with |- Local _ ?x _ _ /\ _ => set (st' := x) end.
  assert (R : Repoint st st' r role None).
  { split; [done|cbn; by rewrite Hr2|]. intros k. cbn. by rewrite Hr2, HR1. }
  assert (HB : forall i, rd (band_ctrl st') i =
    if i =? hw_band role then Some (_phl_chanctx_del a b) else rd (band_ctrl st) i).
  { intros i. cbn. by rewrite HB2, HB1. }
  assert (Hl : length (band_ctrl st') = length (band_ctrl st)) by (cbn; by rewrite Hl2, HB1).
  split_and!; [|done|done]. split.
  - by apply (links_free st st' r role a ctx b).
  - cbn. by rewrite Hs2.
  - done.
  - by rewrite HB, Z.eqb_refl.
  - intros i Hi. rewrite HB. by apply Z.eqb_neq in Hi as ->.
  - intros i b' Hi Hb'. apply (other_views st _ a (hw_band role) i b' L); try done.
    + intros x Hx. cbn. by apply lookup_delete_ne.
    + intros j Hj. apply (l_disj _ L _ _ _ Hj). by exists b.
  - intros k. by eapply repoint_roles.
Qed.

Lemma scc_mode n : n <> 0%nat ->
  (if Z.of_nat n =? 1 then MR_OP_NON else MR_OP_SCC) = if (2 <=? n)%nat then MR_OP_SCC else MR_OP_NON.
Proof. intros. destruct (Z.eqb_spec (Z.of_nat n) 1), (Nat.leb_spec 2 n); done || lia. Qed.

(** The mode after a removal. *)
Lemma del_tail st st' bi a b' :
  Inv st -> Local st st' bi b' -> (cnt b' = 2 -> is_Some (heap st' !! a)) ->
  exists od st'', 
    (if cnt b' =? 0 then
       st ← upd_band st' bi (set_mode MR_OP_NON);
       Some (cnt b', None, st)
     else if cnt b' =? 1 then
       first ← head (chan_ctx_queue b');
       ctx ← heap st' !! first;
       st ← upd_band st' bi
              (set_mode (if phl_chanctx_get_rnum MAX ctx =? 1 then MR_OP_NON else MR_OP_SCC));
       Some (cnt b', Some (chan_def ctx), st)
     else if cnt b' =? 2 then
       ctx ← heap st' !! a;
       st ← upd_band st' bi (set_mode MR_OP_MCC);
       Some (cnt b', Some (chan_def ctx), st)
     else Some (cnt b', None, st')) = Some (cnt b', od, st'') /\
    Inv st'' /\ Local st st'' bi (set_mode (mode_of st' b') b') /\
    heap st'' = heap st' /\ wifi_roles st'' = wifi_roles st'.
Proof.
  intros I C Ha. pose proof (c_links _ _ _ _ C) as L. pose proof (c_band _ _ _ _ C) as Hb.
  destruct (l_queue _ L _ _ Hb) as (_ & Ec & Hle). pose proof (queue_heap _ _ _ L Hb) as F.
  assert (M : forall m, m = mode_of st' b' -> exists st'', upd_band st' bi (set_mode m) = Some st'' /\
    Inv st'' /\ Local st st'' bi (set_mode (mode_of st' b') b') /\ heap st'' = heap st' /\
    wifi_roles st'' = wifi_roles st').
  { intros m ->. by apply (local_mode _ _ _ _ _ I C). }
  assert (Hv := view_length _ _ F). unfold mode_of in *.
  destruct (chan_ctx_queue b') as [|x [|y [|]]]; cbn in Ec; try lia; rewrite Ec in *.
  - destruct (M MR_OP_NON) as (st'' & E & ?); [done|]. cbn [Z.of_nat Z.eqb]. rewrite E. by exists None, st''.
  - apply Forall_cons_1 in F as [[ctx Hx] _]. change (Z.of_nat 1 =? 0) with false.
    change (Z.of_nat 1 =? 1) with true. cbn [head mbind option_bind]. rewrite Hx. cbn [mbind option_bind].
    destruct (M (if phl_chanctx_get_rnum MAX ctx =? 1 then MR_OP_NON else MR_OP_SCC)) as (st'' & E & ?).
    { rewrite (view_cons _ _ _ _ Hx), mode_one, rnum_size. pose proof (l_used _ L _ _ Hx) as U.
      assert (size (role_set (role_map ctx)) <> 0%nat) by (intros ?%size_empty_inv%leibniz_equiv; done).
      by apply scc_mode. }
    rewrite E. by eexists _, st''.
  - change (Z.of_nat 2 =? 0) with false. change (Z.of_nat 2 =? 1) with false.
    change (Z.of_nat 2 =? 2) with true. cbn [head mbind option_bind].
    destruct (Ha eq_refl) as [ctx Hx]. rewrite Hx. cbn [mbind option_bind].
    destruct (M MR_OP_MCC) as (st'' & E & ?).
    { apply Forall_cons_1 in F as [[c1 H1] [[c2 H2] _]%Forall_cons_1].
      by rewrite (view_cons _ _ _ _ H1), (view_cons _ _ _ _ H2). }
    rewrite E. by eexists _, st''.
Qed.

Lemma rnum_one ctx r : r ∈ role_set (role_map ctx) ->
  (phl_chanctx_get_rnum MAX ctx =? 0) = false /\
  (phl_chanctx_get_rnum MAX ctx =? 1) = bool_decide (role_set (role_map ctx) = {[r]}).
Proof.
  intros Hr. rewrite rnum_size.
  assert (size (role_set (role_map ctx)) <> 0%nat) by (intros H%size_empty_inv%leibniz_equiv; set_solver).
  split; [lia|]. case_bool_decide as Hs.
  - by rewrite Hs, size_singleton.
  - apply Z.eqb_neq. intros E. apply Hs. assert (E1 : size (role_set (role_map ctx)) = 1%nat) by lia.
    apply size_1_elem_of in E1 as [x Hx%leibniz_equiv]. rewrite Hx in *. set_solver.
Qed.

(** A context that is still shared: the mode stays. *)
Lemma shared_mode h q a ctx d r :
  Forall (fun a => is_Some (h !! a)) q -> a ∈ q -> h !! a = Some ctx -> 0 <= r < MAX ->
  (2 <= size (role_set (role_map ctx) ∖ {[r]}))%nat ->
  mode_spec (view (<[a := mk_ctx d (u8 (word_clr (role_map ctx) r))]> h) q) = mode_spec (view h q).
Proof.
  intros F Ia Ha Hr Hs.
  pose proof (subseteq_size (role_set (role_map ctx) ∖ {[r]}) (role_set (role_map ctx)) ltac:(set_solver)).
  destruct q as [|x [|y q]]; [by apply elem_of_nil in Ia| |].
  - apply list_elem_of_singleton in Ia as <-. rewrite (view_cons _ _ _ _ Ha).
    erewrite view_cons by apply lookup_insert_eq. rewrite !mode_one. cbn [role_map].
    rewrite role_set_del by done. by rewrite !(proj2 (Nat.leb_le _ _)) by lia.
  - apply Forall_cons_1 in F as [[c1 H1] [[c2 H2] F]%Forall_cons_1].
    set (c := mk_ctx d _).
    destruct (lookup_insert_is_Some' h a x c) as [_ G1], (lookup_insert_is_Some' h a y c) as [_ G2].
    destruct G1 as [d1 G1]; [eauto|]. destruct G2 as [d2 G2]; [eauto|].
    by rewrite (view_cons _ _ _ _ H1), (view_cons _ _ _ _ H2), (view_cons _ _ _ _ G1), (view_cons _ _ _ _ G2).
Qed.

Lemma del_spec st r role a b :
  Inv st -> rd (wifi_roles st) r = Some role -> chanctx role = Some a ->
  rd (band_ctrl st) (hw_band role) = Some b ->
  exists od st' b', rtw_phl_chanctx_del MAX st r = Some (cnt b', od, st') /\ Inv st' /\
    Local st st' (hw_band role) b' /\ Repoint st st' r role None /\
    view (heap st') (chan_ctx_queue b') = spec_leave (defs st) r (view (heap st) (chan_ctx_queue b)).
Proof.
  intros I Hr Hp Hb. pose proof (i_links _ I) as L. pose proof (role_range _ _ _ L Hr) as Hrr.
  destruct (pointed _ _ _ _ _ L Hr Hp Hb) as (ctx & Ha & Ia & Ir & Ho).
  destruct (l_queue _ L _ _ Hb) as (ND & Ec & Hle). pose proof (queue_heap _ _ _ L Hb) as F.
  rewrite (view_leave _ _ _ _ _ _ ND F Ia Ha Ir Ho).
  unfold rtw_phl_chanctx_del. rewrite Hr. cbn [mbind option_bind]. rewrite Hb. cbn [mbind option_bind].
  rewrite Hp, Ha. cbn [mbind option_bind]. unfold phl_mr_get_chanctx_num.
  destruct (rnum_one _ _ Ir) as [-> ->].
  assert (Hc0 : cnt b <> 0) by (rewrite Ec; destruct (chan_ctx_queue b); [by apply elem_of_nil in Ia|cbn; lia]).
  replace (cnt b =? 0) with false by lia. replace (cnt b >? 2) with false by lia. cbn [orb].
  case_bool_decide as Hs; [rewrite decide_True by done|rewrite decide_False by done].
  - destruct (free_ok st r role a ctx b L Hr Hp Hb Ha Ia Hs) as (st1 & E1 & C1 & R1 & Hh1).
    rewrite E1. cbn [mbind option_bind negb]. rewrite (c_band _ _ _ _ C1). cbn [mbind option_bind].
    assert (Ed : _phl_chanctx_del a b = mk_band (filter (fun x => x <> a) (chan_ctx_queue b)) (cnt b - 1) (op_mode b))
      by (unfold _phl_chanctx_del; by replace (cnt b =? 0) with false by lia).
    destruct (del_tail st st1 _ a _ I C1) as (od & st2 & E2 & I2 & C2 & Hh & Hw); [rewrite Ed; cbn; lia|].
    exists od, st2. eexists (set_mode _ _). split_and!; [exact E2|done|exact C2|by eapply repoint_eq|]. cbn. by rewrite Hh, Hh1, Ed.
  - destruct (leave_ok st r role a ctx b L Hr Hp Hb Ha Ia Hs) as (st1 & E1 & C1 & R1 & Hh1).
    rewrite E1. cbn [mbind option_bind]. case_bool_decide as Ho'; cbn [negb].
    + rewrite (c_band _ _ _ _ C1). cbn [mbind option_bind].
      destruct (del_tail st st1 _ a _ I C1) as (od & st2 & E2 & I2 & C2 & Hh & Hw).
      { intros _. rewrite Hh1, lookup_insert_eq. eauto. }
      exists od, st2. eexists (set_mode _ _). split_and!; [exact E2|done|exact C2|by eapply repoint_eq|]. cbn. by rewrite Hh, Hh1.
    + exists None, st1, b. split_and!; [done| |done|done|by rewrite Hh1]. split; [apply C1|].
      intros i b0 Hb0. destruct (decide (i = hw_band role)) as [->|Hi].
      * rewrite (c_band _ _ _ _ C1) in Hb0. injection Hb0 as <-. rewrite (i_modes _ I _ _ Hb).
        apply eq_None_not_Some in Ho'. apply collect_none in Ho'; cycle 1.
        { intros k Hk. unfold defs. destruct (rd_some (wifi_roles st) k) as [x Hx]; [by rewrite (l_roles _ L)|].
          rewrite Hx. by eexists. }
        { intros E. by apply Hs, diff_empty. }
        { intros k [Hk _]%elem_of_difference. by apply elem_of_role_set in Hk as [? _]. }
        unfold mode_of. rewrite Hh1. symmetry. by apply shared_mode.
      * rewrite (c_bands _ _ _ _ C1) in Hb0 by done. unfold mode_of.
        rewrite (c_views _ _ _ _ C1 _ _ Hi Hb0). by apply (i_modes _ I i).
Qed.

(** *** Recomputing a setting *)

Definition spec_resync (df : Z -> option rtw_chan_def) (r : Z) (l : list share) : list share :=
  map (fun '(d, s) => if decide (r ∈ s) then (spec_sync df s d, s) else (d, s)) l.

Lemma spec_leave_ext df df' r l : (forall k, df k = df' k) -> spec_leave df r l = spec_leave df' r l.
Proof.
  intros E. induction l as [|[d s] l IH]; [done|]. cbn. by rewrite IH, (spec_sync_ext _ _ _ _ E).
Qed.

Lemma spec_resync_ext df df' r l : (forall k, df k = df' k) -> spec_resync df r l = spec_resync df' r l.
Proof.
  intros E. apply map_ext. intros [d s]. by rewrite (spec_sync_ext _ _ _ _ E).
Qed.

Lemma view_map h q (f : share -> share) :
  map f (view h q) = omap (fun a => (fun ctx => f (chan_def ctx, role_set (role_map ctx))) <$> h !! a) q.
Proof.
  unfold view. induction q as [|a q IH]; [done|]. cbn. destruct (h !! a); cbn; by rewrite <- IH.
Qed.

Lemma resync_spec st r role a b :
  Inv st -> rd (wifi_roles st) r = Some role -> chanctx role = Some a ->
  rd (band_ctrl st) (hw_band role) = Some b ->
  exists ok st', rtw_phl_mr_upt_chandef MAX st r = Some (ok, st') /\ Inv st' /\
    Local st st' (hw_band role) b /\ wifi_roles st' = wifi_roles st /\
    view (heap st') (chan_ctx_queue b) = spec_resync (defs st) r (view (heap st) (chan_ctx_queue b)).
Proof.
  intros I Hr Hp Hb. pose proof (i_links _ I) as L.
  destruct (pointed _ _ _ _ _ L Hr Hp Hb) as (ctx & Ha & Ia & Ir & Ho).
  unfold rtw_phl_mr_upt_chandef. rewrite Hr. cbn [mbind option_bind]. rewrite Hp.
  rewrite (upt_spec st a ctx (l_roles _ L) Ha). eexists _, _. split; [reflexivity|].
  match goal with |- Inv ?x /\ _ => set (st' := x) end.
  assert (Hh : heap st' = <[a := mk_ctx (spec_sync (defs st) (role_set (role_map ctx)) (chan_def ctx))
                                        (role_map ctx)]> (heap st)) by done.
  assert (L' : Links st').
  { apply (links_same st); [|done]. split; try done. intros x. rewrite Hh.
    destruct (decide (x = a)) as [->|]; [by rewrite lookup_insert_eq, Ha|by rewrite lookup_insert_ne by congruence]. }
  assert (C : Local st st' (hw_band role) b).
  { apply (local_heap _ _ _ _ a); try done. intros x Hx. rewrite Hh. by apply lookup_insert_ne. }
  assert (V : forall q, view (heap st') q = map (fun '(d, s) =>
      if decide (r ∈ s) then (spec_sync (defs st) s d, s) else (d, s)) (view (heap st) q)).
  { intros q. rewrite view_map. apply omap_ext'. intros x. rewrite Hh. destruct (decide (x = a)) as [->|Hx].
    - rewrite lookup_insert_eq, Ha. cbn. by rewrite decide_True.
    - rewrite lookup_insert_ne by done. destruct (heap st !! x) as [c|] eqn:E; [|done]. cbn.
      by rewrite decide_False by (by eapply Ho). }
  split_and!; try done. split; [done|]. intros i b0 Hb0. rewrite (i_modes _ I _ _ Hb0).
  unfold mode_of. rewrite V. destruct (view (heap st) (chan_ctx_queue b0)) as [|[d s] [|[]]]; cbn; [done| |].
  - by destruct (decide (r ∈ s)).
  - repeat case_decide; done.
Qed.

(** *** The specification of the whole *)

(** Roles with their bands and settings, and the contexts of each band. *)
Record mr_spec := mk_spec {
  sp_roles : list (Z * rtw_chan_def);
  sp_bands : list (list share);
  sp_sb : bool
}.

Definition abs (st : mr_state) : mr_spec :=
  mk_spec (map (fun x => (hw_band x, chandef x)) (wifi_roles st))
    (map (fun b => view (heap st) (chan_ctx_queue b)) (band_ctrl st)) (is_sb st).

Inductive event :=
  | Add (ridx : Z) (req : chbw) (mem : option nat)
  | Del (ridx : Z)
  | SetDef (ridx : Z) (c : chbw)
  | Sync (ridx : Z).

Definition step (st : mr_state) (e : event) : option mr_state :=
  match e with
  | Add r req mem => '(_, _, st) ← rtw_phl_chanctx_add MAX mcc_sup dbcc_sup st r req mem; Some st
  | Del r => '(_, _, st) ← rtw_phl_chanctx_del MAX st r; Some st
  | SetDef r c => rtw_hw_update_chan_def st r c
  | Sync r => '(_, st) ← rtw_phl_mr_upt_chandef MAX st r; Some st
  end.

(** The caller adds a role that has no context, and the allocator returns memory
    that is not in use. *)
Definition legal (st : mr_state) (e : event) : Prop :=
  match e with
  | Add r _ mem => 0 <= r < MAX /\ (forall role, rd (wifi_roles st) r = Some role -> chanctx role = None) /\
      forall a, mem = Some a -> heap st !! a = None
  | Del r | SetDef r _ | Sync r => 0 <= r < MAX
  end.

Definition on_band (sp : mr_spec) (r : Z) (f : Z -> list share -> option (list share)) : mr_spec :=
  match rd (sp_roles sp) r with
  | Some (bi, _) =>
      match l ← rd (sp_bands sp) bi; f bi l with
      | Some l => mk_spec (sp_roles sp) (<[Z.to_nat bi := l]> (sp_bands sp)) (sp_sb sp)
      | None => sp
      end
  | None => sp
  end.

Definition spec_step (sp : mr_spec) (e : event) : mr_spec :=
  let df k := snd <$> rd (sp_roles sp) k in
  match e with
  | Add r req mem => on_band sp r (fun bi l =>
      if refused (sp_sb sp) bi req then None
      else snd <$> spec_add l r req (bool_decide (is_Some mem)))
  | Del r => on_band sp r (fun _ l => Some (spec_leave df r l))
  | Sync r => on_band sp r (fun _ l => Some (spec_resync df r l))
  | SetDef r c => mk_spec (alter (fun x => (fst x, new_def c)) (Z.to_nat r) (sp_roles sp)) (sp_bands sp) (sp_sb sp)
  end.

Lemma rd_map {A B} (f : A -> B) l i : rd (map f l) i = f <$> rd l i.
Proof. unfold rd. case_match; [done|]. apply list_lookup_fmap. Qed.

Lemma rd_ext {A} (l l' : list A) : (forall i, 0 <= i -> rd l i = rd l' i) -> l = l'.
Proof.
  intros H. apply list_eq. intros i. specialize (H (Z.of_nat i) ltac:(lia)).
  by rewrite !rd_lookup, !Nat2Z.id in H by lia.
Qed.

Lemma rd_insert {A} (l : list A) i x y j : rd l i = Some y -> 0 <= j ->
  rd (<[Z.to_nat i := x]> l) j = if j =? i then Some x else rd l j.
Proof.
  intros H Hj. pose proof (rd_inv _ _ _ H). rewrite !rd_lookup by lia.
  destruct (Z.eqb_spec j i) as [->|].
  - apply list_lookup_insert_eq. lia.
  - apply list_lookup_insert_ne. lia.
Qed.

Lemma on_band_abs st r role b f :
  rd (wifi_roles st) r = Some role -> rd (band_ctrl st) (hw_band role) = Some b ->
  on_band (abs st) r f =
    match f (hw_band role) (view (heap st) (chan_ctx_queue b)) with
    | Some l => mk_spec (sp_roles (abs st)) (<[Z.to_nat (hw_band role) := l]> (sp_bands (abs st))) (is_sb st)
    | None => abs st
    end.
Proof.
  intros Hr Hb. unfold on_band. cbn [abs sp_roles sp_bands]. rewrite rd_map, Hr. cbn.
  by rewrite rd_map, Hb.
Qed.

Lemma abs_local st st' bi b b' :
  Local st st' bi b' -> rd (band_ctrl st) bi = Some b ->
  abs st' = mk_spec (sp_roles (abs st))
    (<[Z.to_nat bi := view (heap st') (chan_ctx_queue b')]> (sp_bands (abs st))) (is_sb st).
Proof.
  intros C Hb. unfold abs. cbn [sp_roles sp_bands]. rewrite (c_sb _ _ _ _ C). f_equal.
  - apply rd_ext. intros k _. rewrite !rd_map. apply (c_roles _ _ _ _ C).
  - apply rd_ext. intros i Hi. erewrite rd_insert by (try rewrite rd_map, Hb; done). rewrite rd_map.
    destruct (Z.eqb_spec i bi) as [->|Hne]; [by rewrite (c_band _ _ _ _ C)|].
    rewrite (c_bands _ _ _ _ C) by done. rewrite rd_map. destruct (rd (band_ctrl st) i) eqn:E; [|done].
    cbn. by rewrite (c_views _ _ _ _ C _ _ Hne E).
Qed.

Lemma insert_abs st bi b l : rd (band_ctrl st) bi = Some b ->
  l = view (heap st) (chan_ctx_queue b) ->
  mk_spec (sp_roles (abs st)) (<[Z.to_nat bi := l]> (sp_bands (abs st))) (is_sb st) = abs st.
Proof.
  intros Hb ->. unfold abs at 3. cbn [sp_roles sp_bands]. f_equal.
  apply rd_ext. intros i Hi. cbn [abs sp_bands]. erewrite rd_insert by (try rewrite rd_map, Hb; done).
  rewrite rd_map. destruct (Z.eqb_spec i bi) as [->|]; [by rewrite Hb|done].
Qed.

Lemma role_and_band st r : Links st -> 0 <= r < MAX ->
  exists role b, rd (wifi_roles st) r = Some role /\ rd (band_ctrl st) (hw_band role) = Some b.
Proof.
  intros L Hr. destruct (rd_some (wifi_roles st) r) as [role Hr']; [by rewrite (l_roles _ L)|].
  pose proof (l_hw _ L _ _ Hr').
  destruct (rd_some (band_ctrl st) (hw_band role)) as [b Hb]; [rewrite (l_bands _ L); lia|]. eauto.
Qed.

(** A role without a context is in none. *)
Lemma no_context st r role b d s : Links st -> rd (wifi_roles st) r = Some role -> chanctx role = None ->
  (d, s) ∈ view (heap st) (chan_ctx_queue b) -> r ∉ s.
Proof.
  intros L Hr Hn H. apply list_elem_of_omap in H as (a & _ & H).
  destruct (heap st !! a) as [ctx|] eqn:Ha; [|done]. injection H as <- <-.
  intros [Hrr Hm]%elem_of_role_set. apply (l_member _ L _ _ _ Ha Hrr) in Hm as (x & Hx & Hp). congruence.
Qed.

Lemma leave_absent df r l : (forall d s, (d, s) ∈ l -> r ∉ s) -> spec_leave df r l = l.
Proof.
  induction l as [|[d s] l IH]; intros H; [done|]. cbn.
  rewrite decide_False by (eapply H; by left). f_equal. apply IH. intros. eapply H. by right.
Qed.

Lemma resync_absent df r l : (forall d s, (d, s) ∈ l -> r ∉ s) -> spec_resync df r l = l.
Proof.
  intros H. unfold spec_resync. rewrite <- (List.map_id l) at 2. apply map_ext_in.
  intros [d s] Hs%list_elem_of_In. by rewrite decide_False by (by eapply H).
Qed.

Lemma set_def_spec st r c : Inv st -> 0 <= r < MAX ->
  exists st', rtw_hw_update_chan_def st r c = Some st' /\ Inv st' /\
    abs st' = spec_step (abs st) (SetDef r c).
Proof.
  intros I Hr. pose proof (i_links _ I) as L. destruct (role_and_band _ _ L Hr) as (role & b & Hr' & Hb).
  unfold rtw_hw_update_chan_def. rewrite Hr'. cbn [mbind option_bind].
  change (mk_chan_def _ _ _ _ _) with (new_def c).
  destruct (rd_is_wr _ _ _ (mk_role (hw_band role) (new_def c) (chanctx role)) Hr') as [l Hl].
  rewrite Hl. cbn [mbind option_bind]. eexists. split; [reflexivity|]. split; [split|].
  - apply (links_same st); [|done]. split; try done; [by eapply wr_length|].
    intros k. cbn. rewrite (rd_wr _ _ _ _ k Hl). destruct (Z.eqb_spec k r) as [->|]; [|done]. by rewrite Hr'.
  - apply (i_modes _ I).
  - unfold abs, spec_step. cbn. f_equal. apply rd_ext. intros k Hk. rewrite rd_map, (rd_wr _ _ _ _ k Hl).
    rewrite rd_lookup in Hr' by lia. rewrite !rd_lookup by lia. destruct (Z.eqb_spec k r) as [->|].
    + rewrite list_lookup_alter_eq, list_lookup_fmap, Hr'. done.
    + rewrite list_lookup_alter_ne, list_lookup_fmap by lia. done.
Qed.

(** One operation: it does not follow a dangling pointer, keeps the invariant,
    and does what the specification says. *)
Lemma step_spec st e : Inv st -> legal st e ->
  exists st', step st e = Some st' /\ Inv st' /\ abs st' = spec_step (abs st) e.
Proof.
  intros I H. pose proof (i_links _ I) as L.
  assert (Hr : 0 <= match e with Add r _ _ | Del r | SetDef r _ | Sync r => r end < MAX)
    by (destruct e; cbn in H; naive_solver).
  destruct (role_and_band _ _ L Hr) as (role & b & Hr' & Hb).
  destruct e as [r req mem|r|r c|r]; cbn [step spec_step].
  - destruct H as (_ & Hn & Hm). specialize (Hn _ Hr').
    rewrite (on_band_abs _ _ _ _ _ Hr' Hb). cbn [abs sp_sb].
    pose proof (add_spec st r role b req mem I Hr' Hn Hm Hb) as A.
    destruct (refused (is_sb st) (hw_band role) req); [rewrite A; by exists st|].
    destruct (spec_add _ _ _ _) as [[g l']|]; [|rewrite A; by exists st].
    destruct A as (st' & b' & E & I' & C & Hv). rewrite E. exists st'. split_and!; [done..|].
    cbn. by rewrite (abs_local _ _ _ _ _ C Hb), Hv.
  - rewrite (on_band_abs _ _ _ _ _ Hr' Hb).
    assert (Ed : forall k, snd <$> rd (sp_roles (abs st)) k = defs st k)
      by (intros k; cbn; rewrite rd_map; unfold defs; destruct (rd (wifi_roles st) k); done).
    destruct (chanctx role) as [a|] eqn:Hp.
    + destruct (del_spec st r role a b I Hr' Hp Hb) as (od & st' & b' & E & I' & C & _ & Hv).
      rewrite E. exists st'. split_and!; [done..|]. rewrite (abs_local _ _ _ _ _ C Hb), Hv.
      by rewrite <- (spec_leave_ext _ (defs st) _ _ Ed).
    + exists st. unfold rtw_phl_chanctx_del. rewrite Hr'. cbn [mbind option_bind]. rewrite Hb.
      cbn [mbind option_bind]. rewrite Hp. split_and!; [done..|]. symmetry. apply (insert_abs _ _ _ _ Hb).
      apply leave_absent. intros d s. by apply (no_context _ _ _ _ _ _ L Hr').
  - by apply set_def_spec.
  - rewrite (on_band_abs _ _ _ _ _ Hr' Hb).
    assert (Ed : forall k, snd <$> rd (sp_roles (abs st)) k = defs st k)
      by (intros k; cbn; rewrite rd_map; unfold defs; destruct (rd (wifi_roles st) k); done).
    destruct (chanctx role) as [a|] eqn:Hp.
    + destruct (resync_spec st r role a b I Hr' Hp Hb) as (ok & st' & E & I' & C & _ & Hv).
      rewrite E. exists st'. split_and!; [done..|]. rewrite (abs_local _ _ _ _ _ C Hb), Hv.
      by rewrite <- (spec_resync_ext _ (defs st) _ _ Ed).
    + exists st. unfold rtw_phl_mr_upt_chandef. rewrite Hr'. cbn [mbind option_bind]. rewrite Hp.
      split_and!; [done..|]. symmetry. apply (insert_abs _ _ _ _ Hb).
      apply resync_absent. intros d s. by apply (no_context _ _ _ _ _ _ L Hr').
Qed.

(** ** Runs *)

Fixpoint run (st : mr_state) (es : list event) : option mr_state :=
  match es with [] => Some st | e :: es => st ← step st e; run st es end.

Fixpoint legal_run (st : mr_state) (es : list event) : Prop :=
  match es with
  | [] => True
  | e :: es => legal st e /\ forall st', step st e = Some st' -> legal_run st' es
  end.

(** Removing a role clears its pointer and no other. *)
Lemma del_pointers st r : Inv st -> 0 <= r < MAX ->
  exists st', step st (Del r) = Some st' /\ Inv st' /\
    forall k x, rd (wifi_roles st') k = Some x ->
      if k =? r then chanctx x = None
      else exists y, rd (wifi_roles st) k = Some y /\ chanctx x = chanctx y.
Proof.
  intros I Hr. pose proof (i_links _ I) as L. destruct (role_and_band _ _ L Hr) as (role & b & Hr' & Hb).
  destruct (chanctx role) as [a|] eqn:Hp.
  - destruct (del_spec st r role a b I Hr' Hp Hb) as (od & st' & b' & E & I' & C & R & _).
    exists st'. cbn. rewrite E. split_and!; [done..|].
    intros k x (y & Hy & _ & Ep)%(repoint_inv _ _ _ _ _ _ _ R). destruct (k =? r); [done|eauto].
  - destruct (step_spec st (Del r) I Hr) as (st' & E & I' & _). exists st'. split_and!; [done..|].
    cbn in E. unfold rtw_phl_chanctx_del in E. rewrite Hr' in E. cbn [mbind option_bind] in E.
    rewrite Hb in E. cbn [mbind option_bind] in E. rewrite Hp in E. injection E as <-.
    intros k x Hx. destruct (Z.eqb_spec k r) as [->|]; [congruence|eauto].
Qed.

Lemma no_roles_no_heap st : Links st ->
  (forall r role, rd (wifi_roles st) r = Some role -> chanctx role = None) -> heap st = ∅.
Proof.
  intros L Hn. apply map_empty. intros a. destruct (heap st !! a) as [ctx|] eqn:Ha; [|done].
  exfalso. pose proof (l_used _ L _ _ Ha) as [r [Hr Hm]%elem_of_role_set]%set_choose_L.
  apply (l_member _ L _ _ _ Ha Hr) in Hm as (x & Hx & Hp). by rewrite (Hn _ _ Hx) in Hp.
Qed.

(** Removing every role of a list. *)
Lemma del_list l st : Inv st -> (forall r, r ∈ l -> 0 <= r < MAX) ->
  exists st', run st (map Del l) = Some st' /\ Inv st' /\
    forall k x, rd (wifi_roles st') k = Some x -> chanctx x = None \/
      (k ∉ l /\ exists y, rd (wifi_roles st) k = Some y /\ chanctx x = chanctx y).
Proof.
  revert st. induction l as [|r l IH]; intros st I Hl.
  - exists st. split_and!; [done..|]. intros k x Hx. right. split; [by apply not_elem_of_nil|eauto].
  - destruct (del_pointers st r I (Hl r (list_elem_of_here _ _))) as (s1 & E & I1 & H1).
    destruct (IH s1 I1) as (s2 & E2 & I2 & H2); [intros; apply Hl; by right|].
    exists s2. cbn [map run]. rewrite E. split_and!; [done..|]. intros k x Hx.
    destruct (H2 _ _ Hx) as [|(Hk & y & Hy & Ep)]; [by left|]. specialize (H1 _ _ Hy).
    destruct (Z.eqb_spec k r) as [->|Hne]; [left; congruence|].
    destruct H1 as (z & Hz & Ez). right. split; [by apply not_elem_of_cons|]. exists z. by rewrite Ep.
Qed.

(** C14: the operations on channel contexts refine the specification.  From a
    state that satisfies the invariant (the initial state does), any sequence of
    additions of roles without a context, removals, new settings of roles and
    recomputations runs to the end without following a pointer to a freed
    context; the final state satisfies the invariant (every context is on the
    queue of one band and has a role, a role points to a context exactly when
    its bit is set there, at most two contexts a band, the mode fits); and the
    settings and the sets of roles that share them are those the specification
    computes. *)
Theorem chanctx_refines es st : Inv st -> legal_run st es ->
  exists st', run st es = Some st' /\ Inv st' /\ abs st' = foldl spec_step (abs st) es.
Proof.
  revert st. induction es as [|e es IH]; intros st I H; [by exists st|].
  destruct H as [He H]. destruct (step_spec _ _ I He) as (st1 & E & I1 & A1).
  destruct (IH st1 I1 (H _ E)) as (st2 & E2 & I2 & A2).
  exists st2. cbn. rewrite E. cbn. by rewrite <- A1.
Qed.

(** no context outlives its roles.  From a state that satisfies the
    invariant, removing the roles one after the other frees every context: the
    store is empty, both queues are, and no band is left in a mode of several
    roles. *)
Theorem remove_all st : Inv st ->
  exists st', run st (map Del (seqZ 0 MAX)) = Some st' /\ Inv st' /\ heap st' = ∅ /\
    forall bi b, rd (band_ctrl st') bi = Some b ->
      chan_ctx_queue b = [] /\ cnt b = 0 /\ op_mode b = MR_OP_NON.
Proof.
  intros I. destruct (del_list (seqZ 0 MAX) st I) as (st' & E & I' & H).
  { intros r Hr%elem_of_seqZ. lia. }
  assert (Hn : forall r role, rd (wifi_roles st') r = Some role -> chanctx role = None).
  { intros r role Hr. destruct (H _ _ Hr) as [|[Hnr _]]; [done|]. destruct Hnr.
    apply elem_of_seqZ. pose proof (role_range _ _ _ (i_links _ I') Hr). lia. }
  pose proof (no_roles_no_heap _ (i_links _ I') Hn) as E0.
  exists st'. split_and!; [done..|].
  intros bi b Hb. pose proof (queue_heap _ _ _ (i_links _ I') Hb) as F. rewrite (i_modes _ I' _ _ Hb).
    destruct (l_queue _ (i_links _ I') _ _ Hb) as (_ & Ec & _). unfold mode_of.
    destruct (chan_ctx_queue b) as [|a q]; [done|]. rewrite E0 in F. by apply Forall_cons_1 in F as [[] _].
Qed.

(** ** Asking before adding *)

Lemma chk_spec st r role b req :
  Links st -> rd (wifi_roles st) r = Some role -> rd (band_ctrl st) (hw_band role) = Some b ->
  let l := view (heap st) (chan_ctx_queue b) in
  rtw_phl_chanctx_chk mcc_sup st r req =
    Some (negb (refused (is_sb st) (hw_band role) req) &&
          (bool_decide (l = []) || bool_decide (is_Some (spec_join r req l)) || (mcc_sup && (length l <? 2)%nat))).
Proof.
  intros L Hr Hb l. destruct (l_queue _ L _ _ Hb) as (ND & Ec & _).
  pose proof (queue_heap _ _ _ L Hb) as F.
  pose proof (find_group_spec r req (heap st) _ None ND F) as G.
  pose proof (view_cnt _ _ _ L Hb) as Hc. fold l in G, Hc.
  unfold rtw_phl_chanctx_chk, refused. rewrite Hr. cbn [mbind option_bind].
  destruct (c_ch req =? 0); cbn [orb negb andb]; [done|].
  destruct (is_sb st && (hw_band role =? 1)); cbn [negb andb]; [done|].
  rewrite Hb. cbn [mbind option_bind]. unfold phl_mr_get_chanctx_num.
  replace (cnt b >? 0) with (negb (bool_decide (l = []))).
  2:{ rewrite Hc. case_bool_decide as E; [by rewrite E|]. cbn [negb].
      destruct l; [done|]. symmetry. apply Z.gtb_lt. cbn. lia. }
  case_bool_decide as E; cbn [negb orb]; [done|].
  replace (cnt b <? 2) with (length l <? 2)%nat by
    (rewrite Hc; apply eq_true_iff_eq; rewrite Z.ltb_lt, Nat.ltb_lt; lia).
  destruct (spec_join r req l) as [[g l']|].
  - destruct G as (a & ctx & -> & _). cbn [mbind option_bind negb]. rewrite andb_false_r. cbn [andb].
    by rewrite bool_decide_true by eauto.
  - rewrite G. cbn [mbind option_bind negb]. rewrite andb_true_r, bool_decide_false by (by intros []).
    cbn [orb]. by destruct (mcc_sup && (length l <? 2)%nat).
Qed.

(** [rtw_phl_chanctx_chk] predicts [rtw_phl_chanctx_add].  For a role without
    a context, when the allocation succeeds, an addition that succeeds was
    announced by the check; and in a build or on a chip without two bands the
    addition succeeds exactly when the check says so. *)
Theorem chk_predicts_add st r role req a :
  Inv st -> rd (wifi_roles st) r = Some role -> chanctx role = None -> heap st !! a = None ->
  exists can did g st', rtw_phl_chanctx_chk mcc_sup st r req = Some can /\
    rtw_phl_chanctx_add MAX mcc_sup dbcc_sup st r req (Some a) = Some (did, g, st') /\
    (did = true -> can = true) /\ (dbcc_sup = false -> can = did).
Proof.
  intros I Hr Hn Ha. pose proof (i_links _ I) as L.
  destruct (role_and_band _ _ L (role_range _ _ _ L Hr)) as (role' & b & Hr' & Hb).
  rewrite Hr in Hr'. injection Hr' as <-.
  pose proof (add_spec st r role b req (Some a) I Hr Hn ltac:(by intros ? [= <-]) Hb) as A.
  rewrite (chk_spec _ _ _ _ _ L Hr Hb). set (l := view (heap st) (chan_ctx_queue b)) in *.
  match goal with |- exists can did g st', Some ?x = Some can /\ _ => exists x end.
  rewrite bool_decide_true in A by eauto.
  destruct (refused (is_sb st) (hw_band role) req); cbn [negb andb].
  { exists false, req, st. by rewrite A. }
  unfold spec_add in A. destruct (spec_join r req l) as [[g l']|].
  { destruct A as (st' & b' & A & _). exists true, g, st'. rewrite A.
    rewrite (bool_decide_true (is_Some _)) by eauto.
    by rewrite orb_true_r. }
  rewrite (bool_decide_false (is_Some _)) by (by intros []).
  destruct (last l) as [[d s]|] eqn:El.
  - rewrite (bool_decide_false (l = [])) by (intros E; by rewrite E in El). cbn [orb].
    destruct (mcc_sup && (length l <? 2)%nat); cbn [andb] in *; [|by exists false, req, st].
    destruct ((band (new_def req) =? band d) || negb dbcc_sup) eqn:D.
    + destruct A as (st' & b' & A & _). by exists true, req, st'.
    + exists false, req, st. rewrite A. split_and!; try done. intros ->. by rewrite orb_true_r in D.
  - apply last_None in El. rewrite (bool_decide_true (l = [])) by done.
    destruct A as (st' & b' & A & _). by exists true, req, st'.
Qed.

(** ** The setting collected from the roles *)

Lemma merge_spec r c r' : merge r c = Some r' ->
  band r' = band r /\ chan r' = chan r /\ band c = band r /\ chan c = chan r /\
  bw r' = Z.max (bw r) (bw c) /\ (bw r' = bw r -> offset r' = offset r) /\ (bw r' = bw c -> offset r' = offset c).
Proof.
  unfold merge. destruct (Z.eqb_spec (band r) (band c)); cbn [negb andb]; [|done].
  destruct (Z.eqb_spec (chan r) (chan c)); cbn [negb]; [|done].
  destruct (Z.ltb_spec (bw r) (bw c)).
  { intros [= <-]. cbn. split_and!; try done; lia. }
  destruct (Z.eqb_spec (bw r) (bw c)) as [E|], (Z.eqb_spec (offset r) (offset c)); cbn [negb andb];
    try done; intros [= <-]; split_and!; try done; lia.
Qed.

Lemma merge_all_spec l r c : merge_all r l = Some c ->
  band c = band r /\ chan c = chan r /\ bw r <= bw c /\
  (forall x, x ∈ l -> band x = band c /\ chan x = chan c /\ bw x <= bw c) /\
  (forall x, x ∈ r :: l -> bw x = bw c -> offset x = offset c) /\
  exists x, x ∈ r :: l /\ bw x = bw c.
Proof.
  revert r. induction l as [|y l IH]; intros r H.
  - injection H as ->. split_and!; try done; try lia.
    + intros x ?%elem_of_nil. done.
    + by intros x ->%list_elem_of_singleton.
    + exists c. split; [by left|done].
  - unfold merge_all in H. cbn in H. destruct (merge r y) as [r'|] eqn:M; [|by rewrite merge_none in H].
    apply merge_spec in M as (B & C & B' & C' & W & O1 & O2).
    destruct (IH r' H) as (Hb & Hc & Hw & Hall & Ho & x & Hx & Ex).
    split_and!; try congruence; try lia.
    + intros z [->|Hz]%elem_of_cons; [|auto]. split_and!; [congruence..|lia].
    + intros z [->|[->|Hz]%elem_of_cons]%elem_of_cons Ez.
      * rewrite <- O1 by lia. apply Ho; [by left|lia].
      * rewrite <- O2 by lia. apply Ho; [by left|lia].
      * apply Ho; [by right|done].
    + apply elem_of_cons in Hx as [->|Hx]; [|exists x; split; [by do 2 right|done]].
      destruct (Z.max_spec (bw r) (bw y)) as [[? E]|[? E]].
      * exists y. split; [right; by left|lia].
      * exists r. split; [by left|lia].
Qed.

(** the setting [phl_mr_chandef_sync] gives a context is the widest of the
    settings of its roles.  When it reports success, every role of the context
    has the same band and primary channel and at most that bandwidth, some role
    has exactly that bandwidth, and every role of that bandwidth has that offset;
    when it reports a failure, the setting is unchanged.  The centre channel is
    never written. *)
Theorem sync_widest st a ctx d :
  Inv st -> heap st !! a = Some ctx ->
  exists ok d', phl_mr_chandef_sync MAX st ctx d = Some (ok, d') /\ center_ch d' = center_ch d /\
    if ok : bool then
      (forall r role, rd (wifi_roles st) r = Some role -> has_role (role_map ctx) r = true ->
         band (chandef role) = band d' /\ chan (chandef role) = chan d' /\ bw (chandef role) <= bw d' /\
         (bw (chandef role) = bw d' -> offset (chandef role) = offset d')) /\
      exists r role, rd (wifi_roles st) r = Some role /\ has_role (role_map ctx) r = true /\
        bw (chandef role) = bw d'
    else d' = d.
Proof.
  intros I Ha. pose proof (i_links _ I) as L. rewrite (sync_spec st ctx d (l_roles _ L)).
  eexists _, _. split; [reflexivity|]. unfold spec_sync.
  set (cs := omap (defs st) (members (role_set (role_map ctx)))).
  assert (Hin : forall x, x ∈ cs <-> exists r role, rd (wifi_roles st) r = Some role /\
    has_role (role_map ctx) r = true /\ chandef role = x).
  { intros x. unfold cs. rewrite list_elem_of_omap. setoid_rewrite list_elem_of_filter. split.
    - intros (r & [Hr _] & Hx). apply fmap_Some in Hx as (role & Hx & ->).
      apply elem_of_role_set in Hr as [_ Hr]. by exists r, role.
    - intros (r & role & Hr & Hm & <-). pose proof (role_range _ _ _ L Hr). exists r.
      rewrite elem_of_role_set, elem_of_seqZ. unfold defs. rewrite Hr. split_and!; try done; lia. }
  destruct (collect cs) as [c|] eqn:E; [|done]. split; [done|]. rewrite bool_decide_true by eauto. cbn.
  unfold collect in E. destruct cs as [|c0 cs']; [done|].
  apply merge_all_spec in E as (B & C & W & Hall & Ho & x & Hx & Ex). split.
  - intros r role Hr Hm. assert (Hi : chandef role ∈ c0 :: cs') by (apply Hin; eauto).
    split_and!; [| | |by apply Ho]; apply elem_of_cons in Hi as [->|Hi]; try (by apply Hall); auto.
  - apply Hin in Hx as (r & role & Hr & Hm & <-). eauto.
Qed.

(** ** Unloading *)

Lemma foldl_delete (h : gmap nat rtw_chan_ctx) q a :
  foldl (fun h a => delete a h) h q !! a = if decide (a ∈ q) then None else h !! a.
Proof.
  revert h. induction q as [|x q IH]; intros h; cbn [foldl].
  - by rewrite decide_False by apply not_elem_of_nil.
  - rewrite IH. case_decide; case_decide as D; rewrite elem_of_cons in D; try done; try naive_solver.
    + destruct D as [->|]; [apply lookup_delete_eq|done].
    + apply lookup_delete_ne. naive_solver.
Qed.

Lemma free_band st bi b : Links st -> rd (band_ctrl st) bi = Some b ->
  exists st', phl_chanctx_free st bi = Some st' /\
    heap st' = foldl (fun h a => delete a h) (heap st) (chan_ctx_queue b) /\
    forall j, j <> bi -> rd (band_ctrl st') j = rd (band_ctrl st) j.
Proof.
  intros L Hb. destruct (l_queue _ L _ _ Hb) as (_ & Ec & _).
  unfold phl_chanctx_free, phl_mr_get_chanctx_num. rewrite Hb. cbn [mbind option_bind].
  destruct (Z.eqb_spec (cnt b) 0) as [E|].
  { exists st. destruct (chan_ctx_queue b); [done|cbn in Ec; lia]. }
  destruct (upd_band_some (with_heap st (foldl (fun h a => delete a h) (heap st) (chan_ctx_queue b))) bi b
    (fun b => mk_band [] (cnt b - Z.of_nat (length (chan_ctx_queue b))) (op_mode b)) Hb)
    as (st' & E & Hh & _ & _ & _ & HB).
  exists st'. split_and!; [done|done|]. intros j Hj. rewrite HB. by apply Z.eqb_neq in Hj as ->.
Qed.

(** Freeing both bands when the driver is unloaded frees every context. *)
Lemma unload_frees st : Inv st ->
  exists st', (st ← phl_chanctx_free st 0; phl_chanctx_free st 1) = Some st' /\ heap st' = ∅.
Proof.
  intros I. pose proof (i_links _ I) as L.
  destruct (rd_some (band_ctrl st) 0) as [b0 H0]; [rewrite (l_bands _ L); lia|].
  destruct (rd_some (band_ctrl st) 1) as [b1 H1]; [rewrite (l_bands _ L); lia|].
  destruct (free_band _ _ _ L H0) as (s0 & E0 & Hh0 & HB0). rewrite E0. cbn [mbind option_bind].
  unfold phl_chanctx_free, phl_mr_get_chanctx_num.
  assert (H1' : rd (band_ctrl s0) 1 = Some b1) by (by rewrite HB0 by lia).
  rewrite H1'. cbn [mbind option_bind]. destruct (l_queue _ L _ _ H1) as (_ & Ec & _).
  assert (V : forall a, heap st !! a = None \/ a ∈ chan_ctx_queue b0 \/ a ∈ chan_ctx_queue b1).
  { intros a. destruct (heap st !! a) as [c|] eqn:Ha; [right|by left].
    assert (is_Some (heap st !! a)) as [bi (b & Hb & Hi)]%(l_where _ L) by eauto.
    pose proof (rd_inv _ _ _ Hb) as Hr. rewrite (l_bands _ L) in Hr.
    destruct (decide (bi = 0)) as [->|]; [left; congruence|].
    replace bi with 1 in Hb by lia. right; congruence. }
  destruct (Z.eqb_spec (cnt b1) 0) as [E|].
  - exists s0. split; [done|]. apply map_empty. intros a. rewrite Hh0, foldl_delete. case_decide; [done|].
    destruct (V a) as [|[|Hi]]; try done. destruct (chan_ctx_queue b1); [by apply elem_of_nil in Hi|cbn in Ec; lia].
  - destruct (upd_band_some (with_heap s0 (foldl (fun h a => delete a h) (heap s0) (chan_ctx_queue b1))) 1 b1
      (fun b => mk_band [] (cnt b - Z.of_nat (length (chan_ctx_queue b))) (op_mode b)) H1')
      as (s1 & E1 & Hh1 & _).
    exists s1. split; [done|]. rewrite Hh1. apply map_empty. intros a. cbn.
    rewrite foldl_delete, Hh0, foldl_delete. repeat case_decide; try done.
    by destruct (V a) as [|[|]].
Qed.

End proofs.

(** ** Witnesses and examples *)

(** 80 MHz on channels 36 to 48, 40 MHz on 36 and 40, 20 MHz on 36, 149 and 6. *)
Definition wide : chbw := mk_chbw 36 CHANNEL_WIDTH_80 CHAN_OFFSET_UPPER.
Definition narrow : chbw := mk_chbw 36 CHANNEL_WIDTH_40 CHAN_OFFSET_UPPER.
Definition on20 (ch : Z) : chbw := mk_chbw ch CHANNEL_WIDTH_20 CHAN_OFFSET_NO_EXT.

Definition some_events : list event :=
  [SetDef 0 wide; Add 0 wide (Some 1%nat); SetDef 1 narrow; Add 1 narrow (Some 2%nat);
   Add 2 (on20 149) (Some 2%nat); Del 0; Sync 1; Del 2; Del 1].
Definition five : mr_state := phl_mr_ctrl_init 5.
Definition after (es : list event) : mr_state := default five (run 5 true false five es).

Ltac legal_evt :=
  split; [cbn; repeat split; try (intros ? [= <-]; reflexivity); try lia |
          let s := fresh "s" in let E := fresh "E" in
          intros s E; vm_compute in E; injection E as <-].

Lemma five_inv : Inv 5 five.
Proof. apply init_inv. lia. Qed.

Lemma chanctx_refines_witness :
  exists st', run 5 true false five some_events = Some st' /\ Inv 5 st' /\
    abs 5 st' = foldl (spec_step 5 true false) (abs 5 five) some_events.
Proof.
  apply (chanctx_refines 5 true false ltac:(lia) some_events five five_inv).
  repeat legal_evt. exact I.
Defined.

(** Two roles share a context that is 80 MHz wide, a third has its own; when the
    first role has left, the shared context is 40 MHz wide. *)
Example shared_then_narrowed :
  map (fun '(d, s) => (chbw_of d, members 5 s)) (view 5 (heap (after (take 5 some_events))) [1%nat; 2%nat]) =
    [(wide, [0; 1]); (on20 149, [2])] /\
  map (fun '(d, s) => (chbw_of d, members 5 s)) (view 5 (heap (after (take 6 some_events))) [1%nat; 2%nat]) =
    [(narrow, [1]); (on20 149, [2])] /\
  map op_mode (band_ctrl (after (take 4 some_events))) = [MR_OP_SCC; MR_OP_NON] /\
  map op_mode (band_ctrl (after (take 5 some_events))) = [MR_OP_MCC; MR_OP_NON] /\
  heap (after some_events) = ∅.
Proof. vm_compute. repeat split. Qed.

(** A state with one context of one role. *)
Definition one_role : mr_state := after (take 2 some_events).
Lemma one_role_inv : Inv 5 one_role.
Proof.
  destruct (step_spec 5 true false ltac:(lia) five (SetDef 0 wide) five_inv ltac:(cbn; lia)) as (s1 & E1 & I1 & _).
  vm_compute in E1. injection E1 as <-.
  destruct (step_spec 5 true false ltac:(lia) _ (Add 0 wide (Some 1%nat)) I1) as (s2 & E2 & I2 & _).
  { cbn. repeat split; try (intros ? [= <-]; reflexivity); try lia. }
  vm_compute in E2. injection E2 as <-. exact I2.
Qed.

Lemma remove_all_witness :
  exists st', run 5 true false one_role (map Del (seqZ 0 5)) = Some st' /\ Inv 5 st' /\ heap st' = ∅ /\
    forall bi b, rd (band_ctrl st') bi = Some b ->
      chan_ctx_queue b = [] /\ cnt b = 0 /\ op_mode b = MR_OP_NON.
Proof. apply (remove_all 5 true false ltac:(lia) one_role one_role_inv). Defined.

Lemma chk_predicts_add_witness :
  exists can did g st', rtw_phl_chanctx_chk true one_role 1 narrow = Some can /\
    rtw_phl_chanctx_add 5 true false one_role 1 narrow (Some 7%nat) = Some (did, g, st') /\
    (did = true -> can = true) /\ (false = false -> can = did).
Proof.
  apply (chk_predicts_add 5 true false ltac:(lia) one_role 1 (mk_role 0 no_def None) narrow 7 one_role_inv);
    reflexivity.
Defined.

Lemma sync_widest_witness :
  let ctx := mk_ctx (new_def wide) 1 in
  exists ok d', phl_mr_chandef_sync 5 one_role ctx no_def = Some (ok, d') /\ center_ch d' = center_ch no_def /\
    if ok : bool then
      (forall r role, rd (wifi_roles one_role) r = Some role -> has_role (role_map ctx) r = true ->
         band (chandef role) = band d' /\ chan (chandef role) = chan d' /\ bw (chandef role) <= bw d' /\
         (bw (chandef role) = bw d' -> offset (chandef role) = offset d')) /\
      exists r role, rd (wifi_roles one_role) r = Some role /\ has_role (role_map ctx) r = true /\
        bw (chandef role) = bw d'
    else d' = no_def.
Proof.
  apply (sync_widest 5 one_role 1 (mk_ctx (new_def wide) 1) no_def one_role_inv). reflexivity.
Defined.

(** *** What the callers must respect *)

(** A role that is added again on another channel keeps its bit in the first
    context: removing the role frees the second context only. *)
Example added_twice :
  let st := after [Add 0 wide (Some 1%nat); Add 0 (on20 149) (Some 2%nat); Del 0] in
  (role_map <$> heap st !! 1%nat) = Some 1 /\ heap st !! 2%nat = None /\
  (chanctx <$> rd (wifi_roles st) 0) = Some None.
Proof. vm_compute. repeat split. Qed.

(** [rtw_phl_chanctx_del_no_self] frees the context and leaves the pointer of its
    role: the next removal of the role reads freed memory. *)
Example no_self_dangles :
  let o := rtw_phl_chanctx_del_no_self one_role 1 in
  (fst <$> o) = Some true /\
  ('(_, st) ← o; role ← rd (wifi_roles st) 0; chanctx role) = Some 1%nat /\
  ('(_, st) ← o; heap st !! 1%nat) = None /\
  ('(_, st) ← o; rtw_phl_chanctx_del 5 st 0) = None.
Proof. vm_compute. repeat split. Qed.

(** A context that becomes wider keeps its old centre channel: 36 and not 42. *)
Example center_is_stale :
  let st := after [Add 0 (on20 36) (Some 1%nat); Add 1 wide (Some 2%nat)] in
  (chan_def <$> heap st !! 1%nat) =
    Some (mk_chan_def BAND_ON_5G CHANNEL_WIDTH_80 CHAN_OFFSET_UPPER 36 36) /\
  rtw_phl_get_center_ch 36 CHANNEL_WIDTH_80 CHAN_OFFSET_UPPER = 42.
Proof. vm_compute. repeat split. Qed.

(** With two bands the check promises an addition that is refused. *)
Example chk_with_two_bands :
  let st := default five (run 5 true true five [Add 0 wide (Some 1%nat)]) in
  rtw_phl_chanctx_chk true st 1 (on20 6) = Some true /\
  (fst ∘ fst <$> rtw_phl_chanctx_add 5 true true st 1 (on20 6) (Some 2%nat)) = Some false.
Proof. vm_compute. repeat split. Qed.

(** The setting collected depends on the order of the roles: 40 MHz to either
    side after 80 MHz is accepted, before it is not. *)
Example sync_depends_on_order :
  let d w o := mk_chan_def BAND_ON_5G w o 36 0 in
  let w80 := d CHANNEL_WIDTH_80 CHAN_OFFSET_UPPER in
  let up := d CHANNEL_WIDTH_40 CHAN_OFFSET_UPPER in
  let low := d CHANNEL_WIDTH_40 CHAN_OFFSET_LOWER in
  collect [w80; up; low] = Some w80 /\ collect [up; low; w80] = None.
Proof. split; reflexivity. Qed.

End ChanCtxInv.
