(* ===== verification/Dispr.v ===== *)
(** * The command dispatcher (phl/phl_cmd_dispatcher.c)

    Module [Dispr] models the message and token queues of a command dispatcher,
    the calls other threads make on it and the loop of its background thread.
    The callbacks of the registered modules and of the command requests are a
    parameter: a function of everything that happened before, whose result says
    what the callback returns and which calls on the dispatcher are made while
    it runs.  A computation is [Oob] when it links a list node that is linked
    already, clears one that is linked, or follows a freed module; [Looping] when
    its fuel is used up. *)

From S2P Require Import Prelude Bytes Bitmap.

Module Dispr.
#[local] Open Scope Z_scope.

(** ** Constants *)

Definition MAX_PHL_MSG_NUM : nat := 24.
Definition MAX_CMD_REQ_NUM : nat := 8.

Definition MSG_STATUS_ENQ : Z := BIT 0.
Definition MSG_STATUS_RUN : Z := BIT 1.
Definition MSG_STATUS_NOTIFY_COMPLETE : Z := BIT 2.
Definition MSG_STATUS_CANCEL : Z := BIT 3.
Definition MSG_STATUS_PRE_PHASE : Z := BIT 4.
Definition MSG_STATUS_FAIL : Z := BIT 5.
Definition MSG_STATUS_OWNER_BK_MDL : Z := BIT 6.
Definition MSG_STATUS_OWNER_REQ : Z := BIT 7.
Definition MSG_STATUS_CLR_SNDR_MSG_IF_PENDING : Z := BIT 8.
Definition MSG_STATUS_PENDING : Z := BIT 9.
Definition MSG_STATUS_FOR_ABORT : Z := BIT 10.
Definition MSG_STATUS_PENDING_DURING_CANNOT_IO : Z := BIT 11.

Definition REQ_STATUS_ENQ : Z := BIT 0.
Definition REQ_STATUS_RUN : Z := BIT 1.
Definition REQ_STATUS_CANCEL : Z := BIT 2.
Definition REQ_STATUS_LAST_PERMIT : Z := BIT 3.
Definition REQ_STATUS_PREPARE : Z := BIT 4.

Definition MDL_INIT : Z := BIT 0.
Definition MDL_STARTED : Z := BIT 1.

Definition DISPR_INIT : Z := BIT 0.
Definition DISPR_STARTED : Z := BIT 1.
Definition DISPR_SHALL_STOP : Z := BIT 2.
Definition DISPR_MSGQ_INIT : Z := BIT 3.
Definition DISPR_REQ_INIT : Z := BIT 4.
Definition DISPR_NOTIFY_IDLE : Z := BIT 5.
Definition DISPR_CLR_PEND_MSG : Z := BIT 6.
Definition DISPR_CTRL_PRESENT : Z := BIT 7.
Definition DISPR_WAIT_ABORT_MSG_DONE : Z := BIT 8.
Definition DISPR_CANNOT_IO : Z := BIT 9.

Definition TOKEN_OP_ADD_CMD_REQ : Z := 1.
Definition TOKEN_OP_FREE_CMD_REQ : Z := 2.
Definition TOKEN_OP_CANCEL_CMD_REQ : Z := 3.
Definition TOKEN_OP_RENEW_CMD_REQ : Z := 4.

Definition MSG_INDC_PRE_PHASE : Z := BIT 0.
Definition MSG_INDC_FAIL : Z := BIT 1.
Definition MSG_INDC_CANCEL : Z := BIT 2.
Definition MSG_INDC_CANNOT_IO : Z := BIT 3.

Definition MSG_OPT_SKIP_NOTIFY_OPT_MDL : Z := BIT 0.
Definition MSG_OPT_BLIST_PRESENT : Z := BIT 1.
Definition MSG_OPT_CLR_SNDR_MSG_IF_PENDING : Z := BIT 2.
Definition MSG_OPT_SEND_IN_ABORT : Z := BIT 3.
Definition MSG_OPT_PENDING_DURING_CANNOT_IO : Z := BIT 4.

Definition PHL_MDL_PHY_MGNT : Z := 1.
Definition PHL_BK_MDL_ROLE_START : Z := 10.
Definition PHL_BK_MDL_ROLE_END : Z := 40.
Definition PHL_MDL_POWER_MGNT : Z := 41.
Definition PHL_BK_MDL_MDRY_END : Z := 70.
Definition PHL_BK_MDL_OPT_END : Z := 127.
Definition PHL_BK_MDL_END : Z := 128.
Definition PHL_FG_MDL_START : Z := 129.
Definition PHL_MDL_ID_MAX : Z := 255.

Definition MSG_EVT_PHY_ON : Z := 1.
Definition MSG_EVT_PHY_IDLE : Z := 2.
Definition MSG_EVT_DEV_CANNOT_IO : Z := 59.
Definition MSG_EVT_DEV_RESUME_IO : Z := 60.
Definition MSG_EVT_MAX : Z := 0x7fff.

Definition PHL_MDL_PRI_ROLE : nat := 0.
Definition PHL_MDL_PRI_OPTIONAL : nat := 1.
Definition PHL_MDL_PRI_MANDATORY : nat := 2.
Definition PHL_MDL_PRI_MAX : nat := 3.

(** ** Flags, identifiers and handles *)

Definition SET_STATUS_FLAG (status flags : Z) : Z := Z.lor status flags.
Definition TEST_STATUS_FLAG (status flags : Z) : bool := Z.land status flags =? flags.
Definition CLEAR_STATUS_FLAG (status flags : Z) : Z := Z.land status (Z.lnot flags).

Definition MSG_MDL_ID_FIELD (id : Z) : Z := Z.land (Z.shiftr id 16) 0xff.
Definition MSG_EVT_ID_FIELD (id : Z) : Z := Z.land id 0xffff.
Definition MSG_INDC_FIELD (id : Z) : Z := Z.land (Z.shiftr id 24) 0xff.
Definition SET_MSG_MDL_ID_FIELD (id m : Z) : Z := Z.lor (Z.land id 0xff00ffff) (Z.shiftl m 16).
Definition SET_MSG_EVT_ID_FIELD (id e : Z) : Z := Z.lor (Z.land id 0xffff0000) e.
Definition SET_MSG_INDC_FIELD (id i : Z) : Z := Z.lor (Z.land id (Z.lnot (Z.shiftl i 24))) (Z.shiftl i 24).
Definition CLEAR_MSG_INDC_FIELD (id i : Z) : Z := Z.land id (Z.lnot (Z.shiftl i 24)).

Definition IS_DISPR_CTRL (mdl_id : Z) : bool := mdl_id <? PHL_BK_MDL_ROLE_START.

Definition GEN_VALID_HDL (idx : nat) : Z := Z.lor (BIT 31) (Z.of_nat idx).
Definition IS_HDL_VALID (hdl : Z) : bool := negb (Z.land hdl (BIT 31) =? 0).
Definition GET_IDX_FROM_HDL (hdl : Z) : Z := Z.land hdl 0xff.

(** The bitmaps of module ids: sixteen bytes, bit [id % 8] of byte [id / 8] being
    bit [id] of the number the bytes stand for.  Bit 128, which [_chk_bitmap_bit]
    lets through, is the lowest bit of what lies behind and is never set. *)
Definition _chk_bitmap_bit (bm id : Z) : bool :=
  if 8 * 16 <? id then false else word_test bm id.
Definition in_bitmap (id : Z) : bool := id <? 128.
Definition _add_bitmap_bit (bm : Z) (arr : list Z) : res Z :=
  if forallb in_bitmap arr then Ret (foldl word_set bm arr) else Oob.
Definition _clr_bitmap_bit (bm : Z) (arr : list Z) : res Z :=
  if forallb in_bitmap arr then Ret (foldl word_clr bm arr) else Oob.

Definition _get_mdl_priority (id : Z) : nat :=
  if id <? PHL_BK_MDL_ROLE_START then PHL_MDL_PRI_MAX
  else if id <=? PHL_BK_MDL_ROLE_END then PHL_MDL_PRI_ROLE
  else if id <=? PHL_BK_MDL_MDRY_END then PHL_MDL_PRI_MANDATORY
  else if id <=? PHL_BK_MDL_OPT_END then PHL_MDL_PRI_OPTIONAL
  else PHL_MDL_PRI_MAX.

(** ** State *)

Inductive phl_mdl_ret_code :=
| MDL_RET_SUCCESS | MDL_RET_FAIL | MDL_RET_IGNORE | MDL_RET_PENDING | MDL_RET_CANNOT_IO.

Inductive rtw_phl_status :=
| STATUS_SUCCESS | STATUS_FAILURE | STATUS_RESOURCE | STATUS_PENDING | STATUS_INVALID_PARAM
| STATUS_UNEXPECTED_ERROR.

#[export] Instance ret_eq_dec : EqDecision phl_mdl_ret_code.
Proof. solve_decision. Defined.
#[export] Instance status_eq_dec : EqDecision rtw_phl_status.
Proof. solve_decision. Defined.

Definition STOP_DISPATCH_MSG (ret : phl_mdl_ret_code) : bool :=
  match ret with MDL_RET_SUCCESS | MDL_RET_IGNORE => false | _ => true end.

(** [struct phl_dispr_msg_ex]; the message is its identifier, its buffers pass
    through.  [m_module] is the identifier of the module pointed to. *)
Record phl_dispr_msg_ex := mk_msg {
  m_status : Z; msg_id : Z; premap : Z; postmap : Z; completion : bool; m_module : option Z
}.

Record phl_token_op_info := mk_op { used : bool; type : Z; data : Z }.

(** [struct phl_cmd_token_req]; [priv] tells requests of a module apart and
    [ops_ok] whether all of its functions are given. *)
Record phl_cmd_token_req := mk_token_req { module_id : Z; priv : Z; ops_ok : bool }.

Record phl_cmd_token_req_ex := mk_req {
  r_status : Z; req : phl_cmd_token_req;
  add_req_info : phl_token_op_info; free_req_info : phl_token_op_info
}.

Record phl_bk_module := mk_mdl { mdl_id : Z; mdl_status : Z }.

(** The nodes [token_op_q] links. *)
Inductive op_node := AddInfo (i : nat) | FreeInfo (i : nat) | RenewInfo.
#[export] Instance op_node_eq_dec : EqDecision op_node.
Proof. solve_decision. Defined.

(** The messages: the pool and the three queues of indices into it. *)
Record msgs := mk_msgs {
  msg_ex_pool : list phl_dispr_msg_ex; msg_idle_q : list nat; msg_wait_q : list nat;
  msg_pend_q : list nat
}.

(** The command requests. *)
Record rqs := mk_rqs {
  token_req_ex_pool : list phl_cmd_token_req_ex; token_req_wait_q : list nat;
  token_req_idle_q : list nat; token_op_q : list op_node; renew_req_info : phl_token_op_info;
  token_cnt : Z; cur_cmd_req : option nat
}.

(** The modules; [pending_evt_id] is the column of [mdl_info]. *)
Record mdls := mk_mdls {
  module_q : list (list phl_bk_module); bitmap : Z; basemap : Z; controller : phl_bk_module;
  exclusive_mdl : Z; pending_evt_id : Z -> Z
}.

(** What happens, latest first: the thread takes a message from the queue, a
    module or the current request gets it, its completion routine runs; a request
    is queued, taken from the front of the queue or withdrawn from it, gets the
    token or is told to abort, the token is released, a slot is idle. *)
Inductive event :=
| EvQueue (slot : nat)
| EvPop (slot : nat)
| EvDrop (slot : nat)
| EvTake (idx : nat)
| EvMsg (mdl : Z) (idx : nat) (id : Z)
| EvReqMsg (r : phl_cmd_token_req) (idx : nat) (id : Z)
| EvComplete (idx : nat) (id : Z)
| EvAcquired (slot : nat) (r : phl_cmd_token_req)
| EvAbort (slot : nat) (r : phl_cmd_token_req)
| EvReleased (slot : nat)
| EvIdleReq (slot : nat).

(** [msg_q_sema] is the count of the semaphore the thread waits for. *)
Record cmd_dispatcher := mk_disp {
  status : Z; msg_q_sema : Z; M : msgs; R : rqs; E : mdls; log : list event
}.

Definition set_status (x : Z) (d : cmd_dispatcher) : cmd_dispatcher :=
  mk_disp x (msg_q_sema d) (M d) (R d) (E d) (log d).
Definition set_sema (x : Z) (d : cmd_dispatcher) : cmd_dispatcher :=
  mk_disp (status d) x (M d) (R d) (E d) (log d).
Definition set_M (x : msgs) (d : cmd_dispatcher) : cmd_dispatcher :=
  mk_disp (status d) (msg_q_sema d) x (R d) (E d) (log d).
Definition set_R (x : rqs) (d : cmd_dispatcher) : cmd_dispatcher :=
  mk_disp (status d) (msg_q_sema d) (M d) x (E d) (log d).
Definition set_E (x : mdls) (d : cmd_dispatcher) : cmd_dispatcher :=
  mk_disp (status d) (msg_q_sema d) (M d) (R d) x (log d).
Definition emit (e : event) (d : cmd_dispatcher) : cmd_dispatcher :=
  mk_disp (status d) (msg_q_sema d) (M d) (R d) (E d) (e :: log d).

Definition set_pool x (m : msgs) := mk_msgs x (msg_idle_q m) (msg_wait_q m) (msg_pend_q m).
Definition set_idle x (m : msgs) := mk_msgs (msg_ex_pool m) x (msg_wait_q m) (msg_pend_q m).
Definition set_wait x (m : msgs) := mk_msgs (msg_ex_pool m) (msg_idle_q m) x (msg_pend_q m).
Definition set_pend x (m : msgs) := mk_msgs (msg_ex_pool m) (msg_idle_q m) (msg_wait_q m) x.

Definition set_reqs x (r : rqs) := mk_rqs x (token_req_wait_q r) (token_req_idle_q r)
  (token_op_q r) (renew_req_info r) (token_cnt r) (cur_cmd_req r).
Definition set_rwait x (r : rqs) := mk_rqs (token_req_ex_pool r) x (token_req_idle_q r)
  (token_op_q r) (renew_req_info r) (token_cnt r) (cur_cmd_req r).
Definition set_ridle x (r : rqs) := mk_rqs (token_req_ex_pool r) (token_req_wait_q r) x
  (token_op_q r) (renew_req_info r) (token_cnt r) (cur_cmd_req r).
Definition set_opq x (r : rqs) := mk_rqs (token_req_ex_pool r) (token_req_wait_q r)
  (token_req_idle_q r) x (renew_req_info r) (token_cnt r) (cur_cmd_req r).
Definition set_renew x (r : rqs) := mk_rqs (token_req_ex_pool r) (token_req_wait_q r)
  (token_req_idle_q r) (token_op_q r) x (token_cnt r) (cur_cmd_req r).
Definition set_token x y (r : rqs) := mk_rqs (token_req_ex_pool r) (token_req_wait_q r)
  (token_req_idle_q r) (token_op_q r) (renew_req_info r) x y.

Definition SET_CUR_PENDING_EVT (mdl evt : Z) (d : cmd_dispatcher) : cmd_dispatcher :=
  set_E (mk_mdls (module_q (E d)) (bitmap (E d)) (basemap (E d)) (controller (E d))
    (exclusive_mdl (E d)) (fun m => if m =? mdl then evt else pending_evt_id (E d) m)) d.
Definition SET_EXCL_MDL (mdl : Z) (d : cmd_dispatcher) : cmd_dispatcher :=
  set_E (mk_mdls (module_q (E d)) (bitmap (E d)) (basemap (E d)) (controller (E d)) mdl
    (pending_evt_id (E d))) d.

Definition test_disp (d : cmd_dispatcher) (f : Z) : bool := TEST_STATUS_FLAG (status d) f.
Definition set_disp (f : Z) (d : cmd_dispatcher) := set_status (SET_STATUS_FLAG (status d) f) d.
Definition clear_disp (f : Z) (d : cmd_dispatcher) := set_status (CLEAR_STATUS_FLAG (status d) f) d.

(** ** Queues

    Pushing a node that is linked already corrupts both lists. *)

Definition notify_bk_thread (d : cmd_dispatcher) : cmd_dispatcher := set_sema (msg_q_sema d + 1) d.

Definition msg_linked (m : msgs) (i : nat) : bool :=
  bool_decide (i ∈ msg_idle_q m ++ msg_wait_q m ++ msg_pend_q m).
Definition req_linked (r : rqs) (i : nat) : bool :=
  bool_decide (i ∈ token_req_idle_q r ++ token_req_wait_q r).

Definition get_msg (m : msgs) (i : nat) : res phl_dispr_msg_ex :=
  match msg_ex_pool m !! i with Some ex => Ret ex | None => Oob end.
Definition put_msg (i : nat) (ex : phl_dispr_msg_ex) (d : cmd_dispatcher) : cmd_dispatcher :=
  set_M (set_pool (<[i := ex]> (msg_ex_pool (M d))) (M d)) d.
Definition with_status (f : Z -> Z) (ex : phl_dispr_msg_ex) : phl_dispr_msg_ex :=
  mk_msg (f (m_status ex)) (msg_id ex) (premap ex) (postmap ex) (completion ex) (m_module ex).
Definition with_id (f : Z -> Z) (ex : phl_dispr_msg_ex) : phl_dispr_msg_ex :=
  mk_msg (m_status ex) (f (msg_id ex)) (premap ex) (postmap ex) (completion ex) (m_module ex).
Definition set_flag (f : Z) := with_status (fun s => SET_STATUS_FLAG s f).
Definition clear_flag (f : Z) := with_status (fun s => CLEAR_STATUS_FLAG s f).
Definition test_msg (ex : phl_dispr_msg_ex) (f : Z) : bool := TEST_STATUS_FLAG (m_status ex) f.

Definition get_req (r : rqs) (i : nat) : res phl_cmd_token_req_ex :=
  match token_req_ex_pool r !! i with Some x => Ret x | None => Oob end.
Definition put_req (i : nat) (x : phl_cmd_token_req_ex) (d : cmd_dispatcher) : cmd_dispatcher :=
  set_R (set_reqs (<[i := x]> (token_req_ex_pool (R d))) (R d)) d.
Definition req_status (f : Z -> Z) (x : phl_cmd_token_req_ex) : phl_cmd_token_req_ex :=
  mk_req (f (r_status x)) (req x) (add_req_info x) (free_req_info x).
Definition req_set (f : Z) := req_status (fun s => SET_STATUS_FLAG s f).
Definition req_clear (f : Z) := req_status (fun s => CLEAR_STATUS_FLAG s f).
Definition test_req (x : phl_cmd_token_req_ex) (f : Z) : bool := TEST_STATUS_FLAG (r_status x) f.

Definition get_op (n : op_node) (r : rqs) : res phl_token_op_info :=
  match n with
  | AddInfo i => x ← get_req r i; Ret (add_req_info x)
  | FreeInfo i => x ← get_req r i; Ret (free_req_info x)
  | RenewInfo => Ret (renew_req_info r)
  end.
Definition put_op (n : op_node) (o : phl_token_op_info) (r : rqs) : res rqs :=
  match n with
  | AddInfo i =>
      x ← get_req r i;
      Ret (set_reqs (<[i := mk_req (r_status x) (req x) o (free_req_info x)]> (token_req_ex_pool r)) r)
  | FreeInfo i =>
      x ← get_req r i;
      Ret (set_reqs (<[i := mk_req (r_status x) (req x) (add_req_info x) o]> (token_req_ex_pool r)) r)
  | RenewInfo => Ret (set_renew o r)
  end.

(** ** Token operations *)

Definition push_back_token_op_info (n : op_node) (ty dat : Z) (d : cmd_dispatcher)
    : res (cmd_dispatcher * bool) :=
  o ← get_op n (R d);
  if used o then Ret (d, false)
  else
    r ← put_op n (mk_op true ty dat) (R d);
    if decide (n ∈ token_op_q r) then Oob
    else Ret (notify_bk_thread (set_R (set_opq (token_op_q r ++ [n]) r) d), true).

Definition dispr_enqueue_token_op_info := push_back_token_op_info.

Definition on_abort_msg_complete (d : cmd_dispatcher) : res cmd_dispatcher :=
  '(d, _) ← dispr_enqueue_token_op_info RenewInfo TOKEN_OP_RENEW_CMD_REQ 0xff
              (clear_disp DISPR_WAIT_ABORT_MSG_DONE d);
  Ret d.

Definition pop_front_token_op_info (d : cmd_dispatcher) : option (op_node * cmd_dispatcher) :=
  match token_op_q (R d) with
  | [] => None
  | n :: l => Some (n, set_R (set_opq l (R d)) d)
  end.

(** ** Messages *)

Definition pop_front_idle_msg (d : cmd_dispatcher) : option (nat * cmd_dispatcher) :=
  match msg_idle_q (M d) with
  | [] => None
  | i :: l => Some (i, put_msg i (mk_msg 0 0 0 0 false None) (set_M (set_idle l (M d)) d))
  end.

Definition push_back_idle_msg (i : nat) (d : cmd_dispatcher) : res cmd_dispatcher :=
  ex ← get_msg (M d) i;
  let notify := test_msg ex MSG_STATUS_NOTIFY_COMPLETE && completion ex in
  let ex := if notify && test_msg ex MSG_STATUS_CANCEL
            then with_id (fun m => SET_MSG_INDC_FIELD m MSG_INDC_CANCEL) ex else ex in
  let d := if notify then emit (EvComplete i (msg_id ex)) d else d in
  let ex := if notify then clear_flag MSG_STATUS_NOTIFY_COMPLETE ex else ex in
  d ← (if test_msg ex MSG_STATUS_FOR_ABORT then on_abort_msg_complete d else Ret d);
  let mdl := MSG_MDL_ID_FIELD (msg_id ex) in
  let d := if pending_evt_id (E d) mdl =? MSG_EVT_ID_FIELD (msg_id ex)
           then SET_CUR_PENDING_EVT mdl MSG_EVT_MAX d else d in
  let d := put_msg i (with_id (fun _ => 0) (with_status (fun _ => 0) ex)) d in
  if msg_linked (M d) i then Oob
  else Ret (set_M (set_idle (msg_idle_q (M d) ++ [i]) (M d)) d).

Definition pop_front_wait_msg (d : cmd_dispatcher) : res (option (nat * cmd_dispatcher)) :=
  match msg_wait_q (M d) with
  | [] => Ret None
  | i :: l =>
      ex ← get_msg (M d) i;
      let ex := clear_flag MSG_STATUS_PENDING (clear_flag MSG_STATUS_ENQ (set_flag MSG_STATUS_RUN ex)) in
      Ret (Some (i, put_msg i ex (set_M (set_wait l (M d)) d)))
  end.

(** Both ways to queue a message mark it first and wake the thread. *)
Definition enq_msg (i : nat) (d : cmd_dispatcher) : res cmd_dispatcher :=
  ex ← get_msg (M d) i;
  if msg_linked (M d) i then Oob
  else Ret (put_msg i (clear_flag MSG_STATUS_RUN (set_flag MSG_STATUS_ENQ ex)) d).

Definition push_back_wait_msg (i : nat) (d : cmd_dispatcher) : res cmd_dispatcher :=
  d ← enq_msg i d;
  Ret (notify_bk_thread (set_M (set_wait (msg_wait_q (M d) ++ [i]) (M d)) d)).

Definition is_higher_priority (m : msgs) (input obj : nat) : bool :=
  match msg_ex_pool m !! input, msg_ex_pool m !! obj with
  | Some a, Some b => IS_DISPR_CTRL (MSG_MDL_ID_FIELD (msg_id a)) &&
                      negb (IS_DISPR_CTRL (MSG_MDL_ID_FIELD (msg_id b)))
  | _, _ => false
  end.

(** [pq_insert]: before the first node the predicate holds for. *)
Fixpoint pq_insert (p : nat -> bool) (i : nat) (q : list nat) : list nat :=
  match q with
  | [] => [i]
  | j :: q => if p j then i :: j :: q else j :: pq_insert p i q
  end.

Definition insert_msg_by_priority (i : nat) (d : cmd_dispatcher) : res cmd_dispatcher :=
  d ← enq_msg i d;
  Ret (notify_bk_thread
    (set_M (set_wait (pq_insert (is_higher_priority (M d) i) i (msg_wait_q (M d))) (M d)) d)).

Definition pop_front_pending_msg (d : cmd_dispatcher) : option (nat * cmd_dispatcher) :=
  match msg_pend_q (M d) with
  | [] => None
  | i :: l => Some (i, set_M (set_pend l (M d)) d)
  end.

Definition push_back_pending_msg (i : nat) (d : cmd_dispatcher) : res cmd_dispatcher :=
  d ← enq_msg i d;
  ex ← get_msg (M d) i;
  let d := if test_msg ex MSG_STATUS_CLR_SNDR_MSG_IF_PENDING
           then SET_CUR_PENDING_EVT (MSG_MDL_ID_FIELD (msg_id ex)) (MSG_EVT_ID_FIELD (msg_id ex)) d
           else d in
  Ret (set_M (set_pend (msg_pend_q (M d) ++ [i]) (M d)) d).

(** The test of the source asks the event, not the module, for a controller. *)
Fixpoint requeue_pending (n : nat) (d : cmd_dispatcher) : res cmd_dispatcher :=
  match n with
  | O => Ret d
  | S n =>
      match pop_front_pending_msg d with
      | None => Ret d
      | Some (i, d) =>
          ex ← get_msg (M d) i;
          d ← (if IS_DISPR_CTRL (MSG_EVT_ID_FIELD (msg_id ex))
               then insert_msg_by_priority i d else push_back_wait_msg i d);
          requeue_pending n d
      end
  end.

Definition clear_pending_msg (d : cmd_dispatcher) : res cmd_dispatcher :=
  if negb (test_disp d DISPR_CLR_PEND_MSG) then Ret d
  else requeue_pending (length (msg_pend_q (M d))) (clear_disp DISPR_CLR_PEND_MSG d).

Definition IS_EXCL_MDL (d : cmd_dispatcher) (mdl : Z) : bool := exclusive_mdl (E d) =? mdl.

Definition is_special_msg (d : cmd_dispatcher) (ex : phl_dispr_msg_ex) : bool :=
  let evt := MSG_EVT_ID_FIELD (msg_id ex) in
  test_disp d DISPR_CANNOT_IO &&
  (IS_EXCL_MDL d (MSG_MDL_ID_FIELD (msg_id ex)) || (evt =? MSG_EVT_DEV_CANNOT_IO) ||
   (evt =? MSG_EVT_DEV_RESUME_IO) || (evt =? MSG_EVT_PHY_ON) || (evt =? MSG_EVT_PHY_IDLE)).

(** The message with its new flags and whether it is cancelled. *)
Definition is_msg_canceled (d : cmd_dispatcher) (ex : phl_dispr_msg_ex) : phl_dispr_msg_ex * bool :=
  let pending_evt := pending_evt_id (E d) (MSG_MDL_ID_FIELD (msg_id ex)) in
  let cannot_io := with_id (fun m => SET_MSG_INDC_FIELD m MSG_INDC_CANNOT_IO) in
  if negb (test_disp d DISPR_STARTED) || test_msg ex MSG_STATUS_CANCEL then (ex, true)
  else if negb (pending_evt =? MSG_EVT_MAX) && negb (pending_evt =? MSG_EVT_ID_FIELD (msg_id ex))
  then (set_flag MSG_STATUS_CANCEL ex, true)
  else if test_disp d DISPR_SHALL_STOP then (set_flag MSG_STATUS_CANCEL (cannot_io ex), true)
  else if test_disp d DISPR_CANNOT_IO then
    if is_special_msg d ex then (cannot_io ex, false)
    else if negb (test_msg ex MSG_STATUS_PENDING_DURING_CANNOT_IO)
    then (cannot_io (set_flag MSG_STATUS_CANCEL ex), true)
    else (set_flag MSG_STATUS_PENDING ex, false)
  else (ex, false).

Definition cancel_msg (ex : phl_dispr_msg_ex) : phl_dispr_msg_ex :=
  set_flag MSG_STATUS_CANCEL (mk_msg (m_status ex) (msg_id ex) 0 0 (completion ex) (m_module ex)).

Definition cancel_running_msg (d : cmd_dispatcher) : cmd_dispatcher :=
  set_M (set_pool ((fun ex => if test_msg ex MSG_STATUS_RUN then cancel_msg ex else ex)
                     <$> msg_ex_pool (M d)) (M d)) d.

Definition set_msg_bitmap (bm mdl : Z) (ex : phl_dispr_msg_ex) : phl_dispr_msg_ex :=
  let m := if _chk_bitmap_bit bm mdl then word_set bm mdl else bm in
  mk_msg (m_status ex) (msg_id ex) m m (completion ex) (m_module ex).

Definition set_msg_custom_bitmap (d : cmd_dispatcher) (opt : Z) (id_arr : list Z) (mdl : Z)
    (ex : phl_dispr_msg_ex) : res phl_dispr_msg_ex :=
  let custom m :=
    let m := if negb (Z.land opt MSG_OPT_SKIP_NOTIFY_OPT_MDL =? 0) then basemap (E d) else m in
    m ← (if negb (Z.land opt MSG_OPT_BLIST_PRESENT =? 0)
         then _clr_bitmap_bit m id_arr else _add_bitmap_bit m id_arr);
    Ret (if _chk_bitmap_bit (bitmap (E d)) mdl then word_set m mdl else m) in
  pre ← custom (premap ex); post ← custom (postmap ex);
  Ret (mk_msg (m_status ex) (msg_id ex) pre post (completion ex) (m_module ex)).

(** The message with the phase in its indication; the map is [phase_map] of it. *)
Definition get_msg_bitmap (ex : phl_dispr_msg_ex) : phl_dispr_msg_ex :=
  if test_msg ex MSG_STATUS_PRE_PHASE
  then with_id (fun m => SET_MSG_INDC_FIELD m MSG_INDC_PRE_PHASE) ex
  else with_id (fun m => CLEAR_MSG_INDC_FIELD m MSG_INDC_PRE_PHASE) ex.
Definition phase_map (ex : phl_dispr_msg_ex) : Z :=
  if test_msg ex MSG_STATUS_PRE_PHASE then premap ex else postmap ex.

(** ** Command requests *)

Definition no_op : phl_token_op_info := mk_op false 0 0.
Definition no_req : phl_cmd_token_req := mk_token_req 0 0 false.

(** The slot is cleared with both of its token operations; one that is still
    linked is a corrupted list. *)
Definition pop_front_idle_req (d : cmd_dispatcher) : res (option (nat * cmd_dispatcher)) :=
  match token_req_idle_q (R d) with
  | [] => Ret None
  | i :: l =>
      if decide (AddInfo i ∈ token_op_q (R d)) then Oob
      else if decide (FreeInfo i ∈ token_op_q (R d)) then Oob
      else Ret (Some (i, put_req i (mk_req 0 no_req no_op no_op) (set_R (set_ridle l (R d)) d)))
  end.

Definition push_back_idle_req (i : nat) (d : cmd_dispatcher) : res cmd_dispatcher :=
  x ← get_req (R d) i;
  let d := SET_CUR_PENDING_EVT (module_id (req x)) MSG_EVT_MAX (put_req i (req_status (fun _ => 0) x) d) in
  if req_linked (R d) i then Oob
  else Ret (emit (EvIdleReq i) (set_R (set_ridle (token_req_idle_q (R d) ++ [i]) (R d)) d)).

Definition pop_front_wait_req (d : cmd_dispatcher) : res (option (nat * cmd_dispatcher)) :=
  match token_req_wait_q (R d) with
  | [] => Ret None
  | i :: l =>
      x ← get_req (R d) i;
      Ret (Some (i, emit (EvPop i) (put_req i (req_clear REQ_STATUS_ENQ (req_set REQ_STATUS_PREPARE x))
                      (set_R (set_rwait l (R d)) d))))
  end.

Definition push_back_wait_req (i : nat) (d : cmd_dispatcher) : res cmd_dispatcher :=
  x ← get_req (R d) i;
  if req_linked (R d) i then Oob
  else Ret (emit (EvQueue i) (put_req i (req_set REQ_STATUS_ENQ x)
              (set_R (set_rwait (token_req_wait_q (R d) ++ [i]) (R d)) d))).

(** [pq_del_node] of a node that must be in the queue. *)
Definition pq_del_node (i : nat) (q : list nat) : res (list nat) :=
  if decide (i ∈ q) then Ret (filter (fun j => j <> i) q) else Oob.

(** ** The calls of other threads and of callbacks *)

Record phl_msg_attribute := mk_attr {
  opt : Z; id_arr : option (list Z); id_len : Z; has_completion : bool
}.

Inductive call :=
| SendMsg (id : Z) (a : option phl_msg_attribute)
| CancelMsg (hdl : Z)
| ClrPendingMsg
| AddTokenReq (r : phl_cmd_token_req)
| CancelTokenReq (hdl : Z)
| FreeToken (hdl : Z)
| NotifyDevIo (mdl : Z) (allow : bool)
| NotifyShallStop.

Definition mdl_in_queues (e : mdls) (id : Z) : bool :=
  existsb (existsb (fun m => mdl_id m =? id)) (module_q e).

(** The identifier of the module found. *)
Definition get_module_by_id (d : cmd_dispatcher) (id : Z) : option Z :=
  if IS_DISPR_CTRL id then
    if test_disp d DISPR_CTRL_PRESENT then Some (mdl_id (controller (E d))) else None
  else if negb (_chk_bitmap_bit (bitmap (E d)) id) then None
  else if mdl_in_queues (E d) id then Some id else None.

(** The owner of the token and its status; [0] stands for no status asked for. *)
Definition get_cur_cmd_req_id (r : rqs) : res (Z * Z) :=
  match cur_cmd_req r with
  | None => Ret (PHL_MDL_ID_MAX, 0)
  | Some i =>
      x ← get_req r i;
      Ret (if negb (test_req x REQ_STATUS_RUN) || test_req x REQ_STATUS_CANCEL
           then PHL_MDL_ID_MAX else module_id (req x), r_status x)
  end.

(** Whether a sender is refused: it is no controller, no loaded background module
    and not the owner of the token (or one that is about to lose it). *)
Definition sender_refused (d : cmd_dispatcher) (mdl cur_id req_st : Z) : bool :=
  negb (IS_DISPR_CTRL mdl) && negb (_chk_bitmap_bit (bitmap (E d)) mdl) &&
  ((negb (cur_id =? PHL_MDL_ID_MAX) && negb (cur_id =? mdl)) ||
   ((cur_id =? PHL_MDL_ID_MAX) && (req_st =? 0)) ||
   ((cur_id =? PHL_MDL_ID_MAX) && negb (TEST_STATUS_FLAG req_st REQ_STATUS_LAST_PERMIT))).

Definition apply_attr (d : cmd_dispatcher) (mdl : Z) (a : phl_msg_attribute) (ex : phl_dispr_msg_ex)
    : res phl_dispr_msg_ex :=
  ex ← set_msg_custom_bitmap d (opt a) (ztake (id_len a) (default [] (id_arr a))) mdl ex;
  let ex := if has_completion a
            then mk_msg (SET_STATUS_FLAG (m_status ex) MSG_STATUS_NOTIFY_COMPLETE) (msg_id ex)
                   (premap ex) (postmap ex) true (m_module ex) else ex in
  let ex := if TEST_STATUS_FLAG (opt a) MSG_OPT_CLR_SNDR_MSG_IF_PENDING
            then set_flag MSG_STATUS_CLR_SNDR_MSG_IF_PENDING ex else ex in
  Ret (if TEST_STATUS_FLAG (opt a) MSG_OPT_PENDING_DURING_CANNOT_IO
       then set_flag MSG_STATUS_PENDING_DURING_CANNOT_IO ex else ex).

(** The owner of a message: a loaded module or the current request. *)
Definition set_owner (d : cmd_dispatcher) (mdl cur_id req_st : Z) (ex : phl_dispr_msg_ex)
    : phl_dispr_msg_ex :=
  match get_module_by_id d mdl with
  | Some m =>
      mk_msg (SET_STATUS_FLAG (m_status ex) MSG_STATUS_OWNER_BK_MDL) (msg_id ex) (premap ex)
        (postmap ex) (completion ex) (Some m)
  | None =>
      if (cur_id =? mdl) ||
         ((cur_id =? PHL_MDL_ID_MAX) && TEST_STATUS_FLAG req_st REQ_STATUS_LAST_PERMIT)
      then set_flag MSG_STATUS_OWNER_REQ ex else ex
  end.

Definition dispr_send_msg (id : Z) (a : option phl_msg_attribute) (d : cmd_dispatcher)
    : res (cmd_dispatcher * rtw_phl_status * option Z) :=
  let mdl := MSG_MDL_ID_FIELD id in
  '(cur_id, req_st) ← get_cur_cmd_req_id (R d);
  if negb (test_disp d DISPR_STARTED) then Ret (d, STATUS_UNEXPECTED_ERROR, None)
  else if match a with
          | Some a => negb (is_Some_b (id_arr a)) && negb (id_len a =? 0)
          | None => false
          end then Ret (d, STATUS_INVALID_PARAM, None)
  else if sender_refused d mdl cur_id req_st then Ret (d, STATUS_INVALID_PARAM, None)
  else
    match pop_front_idle_msg d with
    | None => Ret (d, STATUS_RESOURCE, None)
    | Some (i, d) =>
        let ex := set_msg_bitmap (bitmap (E d)) mdl (mk_msg 0 id 0 0 false None) in
        ex ← match a with Some a => apply_attr d mdl a ex | None => Ret ex end;
        let ex := set_owner d mdl cur_id req_st ex in
        let abort := test_msg ex MSG_STATUS_OWNER_REQ && TEST_STATUS_FLAG req_st REQ_STATUS_LAST_PERMIT in
        if abort && match a with
                    | Some a => negb (TEST_STATUS_FLAG (opt a) MSG_OPT_SEND_IN_ABORT)
                    | None => true
                    end
        then
          d ← push_back_idle_msg i (put_msg i (with_id (fun m => SET_MSG_INDC_FIELD m MSG_INDC_FAIL) ex) d);
          Ret (d, STATUS_FAILURE, None)
        else
          let ex := if abort then set_flag MSG_STATUS_FOR_ABORT ex else ex in
          let d := if abort then set_disp DISPR_WAIT_ABORT_MSG_DONE d else d in
          let d := put_msg i (set_flag MSG_STATUS_PRE_PHASE ex) d in
          d ← (if IS_DISPR_CTRL mdl then insert_msg_by_priority i d else push_back_wait_msg i d);
          Ret (d, STATUS_SUCCESS, Some (GEN_VALID_HDL i))
    end.

Definition dispr_cancel_msg (hdl : Z) (d : cmd_dispatcher) : res (cmd_dispatcher * rtw_phl_status) :=
  if negb (test_disp d DISPR_STARTED) then Ret (d, STATUS_UNEXPECTED_ERROR)
  else if negb (IS_HDL_VALID hdl) || (Z.of_nat MAX_PHL_MSG_NUM <=? GET_IDX_FROM_HDL hdl)
  then Ret (d, STATUS_FAILURE)
  else
    let i := Z.to_nat (GET_IDX_FROM_HDL hdl) in
    ex ← get_msg (M d) i;
    if negb (test_msg ex MSG_STATUS_ENQ) && negb (test_msg ex MSG_STATUS_RUN)
    then Ret (d, STATUS_FAILURE)
    else Ret (put_msg i (cancel_msg ex) d, STATUS_SUCCESS).

Definition dispr_clr_pending_msg (d : cmd_dispatcher) : cmd_dispatcher :=
  notify_bk_thread (set_disp DISPR_CLR_PEND_MSG d).

Definition chk_cmd_req_ops (r : phl_cmd_token_req) : bool :=
  negb (module_id r <? PHL_FG_MDL_START) && ops_ok r.

Definition dispr_add_token_req (r : phl_cmd_token_req) (d : cmd_dispatcher)
    : res (cmd_dispatcher * rtw_phl_status * option Z) :=
  if negb (test_disp d DISPR_STARTED) || negb (chk_cmd_req_ops r)
  then Ret (d, STATUS_UNEXPECTED_ERROR, None)
  else
    o ← pop_front_idle_req d;
    match o with
    | None => Ret (d, STATUS_RESOURCE, None)
    | Some (i, d) =>
        d ← push_back_wait_req i (put_req i (mk_req 0 r no_op no_op) d);
        let st := if bool_decide (token_op_q (R d) = []) && (token_cnt (R d) =? 0)
                  then STATUS_SUCCESS else STATUS_PENDING in
        '(d, _) ← dispr_enqueue_token_op_info (AddInfo i) TOKEN_OP_ADD_CMD_REQ (Z.of_nat i) d;
        Ret (d, st, Some (GEN_VALID_HDL i))
    end.

(** Both marks a request as cancelled and queues its second token operation. *)
Definition cancel_and_enqueue (i : nat) (ty : Z) (d : cmd_dispatcher)
    : res (cmd_dispatcher * rtw_phl_status) :=
  x ← get_req (R d) i;
  '(d, ok) ← dispr_enqueue_token_op_info (FreeInfo i) ty (Z.of_nat i)
               (put_req i (req_set REQ_STATUS_CANCEL x) d);
  Ret (d, if ok : bool then STATUS_SUCCESS else STATUS_FAILURE).

Definition dispr_cancel_token_req (hdl : Z) (d : cmd_dispatcher) : res (cmd_dispatcher * rtw_phl_status) :=
  if negb (test_disp d DISPR_STARTED) then Ret (d, STATUS_UNEXPECTED_ERROR)
  else if negb (IS_HDL_VALID hdl) || (Z.of_nat MAX_CMD_REQ_NUM <=? GET_IDX_FROM_HDL hdl)
  then Ret (d, STATUS_FAILURE)
  else
    let i := Z.to_nat (GET_IDX_FROM_HDL hdl) in
    x ← get_req (R d) i;
    if negb (test_req x REQ_STATUS_ENQ) && negb (test_req x REQ_STATUS_RUN) &&
       negb (test_req x REQ_STATUS_PREPARE) then Ret (d, STATUS_FAILURE)
    else cancel_and_enqueue i TOKEN_OP_CANCEL_CMD_REQ d.

Definition dispr_free_token (hdl : Z) (d : cmd_dispatcher) : res (cmd_dispatcher * rtw_phl_status) :=
  if negb (test_disp d DISPR_STARTED) then Ret (d, STATUS_UNEXPECTED_ERROR)
  else if negb (is_Some_b (cur_cmd_req (R d))) || (token_cnt (R d) =? 0) ||
          negb (IS_HDL_VALID hdl) || (Z.of_nat MAX_CMD_REQ_NUM <=? GET_IDX_FROM_HDL hdl)
  then Ret (d, STATUS_FAILURE)
  else
    let i := Z.to_nat (GET_IDX_FROM_HDL hdl) in
    x ← get_req (R d) i;
    if negb (test_req x REQ_STATUS_RUN) && negb (test_req x REQ_STATUS_PREPARE)
    then Ret (d, STATUS_FAILURE)
    else cancel_and_enqueue i TOKEN_OP_FREE_CMD_REQ d.

Definition no_attr : phl_msg_attribute := mk_attr 0 None 0 false.
Definition bk_msg_id (mdl evt : Z) : Z := SET_MSG_EVT_ID_FIELD (SET_MSG_MDL_ID_FIELD 0 mdl) evt.

Definition send_bk_msg_phy_on (d : cmd_dispatcher) : res cmd_dispatcher :=
  '(d, _, _) ← dispr_send_msg (bk_msg_id PHL_MDL_POWER_MGNT MSG_EVT_PHY_ON) (Some no_attr) d; Ret d.
Definition send_bk_msg_phy_idle (d : cmd_dispatcher) : res cmd_dispatcher :=
  '(d, _, _) ← dispr_send_msg (bk_msg_id PHL_MDL_POWER_MGNT MSG_EVT_PHY_IDLE) (Some no_attr) d; Ret d.
Definition send_dev_io_status_change (allow : bool) (d : cmd_dispatcher)
    : res (cmd_dispatcher * rtw_phl_status) :=
  let evt := if allow then MSG_EVT_DEV_RESUME_IO else MSG_EVT_DEV_CANNOT_IO in
  '(d, st, _) ← dispr_send_msg (bk_msg_id PHL_MDL_PHY_MGNT evt) (Some no_attr) d; Ret (d, st).

Definition dispr_notify_dev_io_status (mdl : Z) (allow : bool) (d : cmd_dispatcher)
    : res (cmd_dispatcher * rtw_phl_status) :=
  if negb allow then
    if negb (test_disp d DISPR_CANNOT_IO)
    then send_dev_io_status_change false (SET_EXCL_MDL mdl (set_disp DISPR_CANNOT_IO d))
    else Ret (d, STATUS_SUCCESS)
  else if test_disp d DISPR_CANNOT_IO then
    '(d, st) ← send_dev_io_status_change true
                 (SET_EXCL_MDL PHL_MDL_ID_MAX (clear_disp DISPR_CANNOT_IO d));
    Ret (dispr_clr_pending_msg d, st)
  else Ret (d, STATUS_SUCCESS).

Definition dispr_notify_shall_stop (d : cmd_dispatcher) : cmd_dispatcher :=
  if negb (test_disp d DISPR_SHALL_STOP)
  then dispr_clr_pending_msg (set_disp DISPR_SHALL_STOP d) else d.

Definition dispr_is_fg_empty (d : cmd_dispatcher) : bool :=
  bool_decide (token_req_wait_q (R d) = []) &&
  bool_decide (token_op_q (R d) = []) && negb (0 <? token_cnt (R d)).

Definition exec_call (c : call) (d : cmd_dispatcher) : res cmd_dispatcher :=
  match c with
  | SendMsg id a => '(d, _, _) ← dispr_send_msg id a d; Ret d
  | CancelMsg h => '(d, _) ← dispr_cancel_msg h d; Ret d
  | ClrPendingMsg => Ret (dispr_clr_pending_msg d)
  | AddTokenReq r => '(d, _, _) ← dispr_add_token_req r d; Ret d
  | CancelTokenReq h => '(d, _) ← dispr_cancel_token_req h d; Ret d
  | FreeToken h => '(d, _) ← dispr_free_token h d; Ret d
  | NotifyDevIo m b => '(d, _) ← dispr_notify_dev_io_status m b d; Ret d
  | NotifyShallStop => Ret (dispr_notify_shall_stop d)
  end.

Fixpoint exec_calls (l : list call) (d : cmd_dispatcher) : res cmd_dispatcher :=
  match l with [] => Ret d | c :: l => d ← exec_call c d; exec_calls l d end.

(** ** The background thread *)

(** The callbacks: what happened before, what they are called with, what they
    return and the calls made while they run. *)
Record handlers := mk_handlers {
  msg_hdlr : list event -> Z -> Z -> phl_mdl_ret_code * list call;
  req_hdlr : list event -> phl_cmd_token_req -> Z -> list call;
  acquired : list event -> phl_cmd_token_req -> phl_mdl_ret_code * list call;
  abort : list event -> phl_cmd_token_req -> list call
}.

Section thread.
(** The callbacks, and a bound on the two loops that the source leaves unbounded,
    as callbacks can queue operations and requests without end. *)
Variable H : handlers.
Variable loop_fuel : nat.

(** *** Messages *)

(** [ex->module], if it is still there. *)
Definition owner_module (d : cmd_dispatcher) (ex : phl_dispr_msg_ex) : res (option Z) :=
  match m_module ex with
  | None => Ret None
  | Some m =>
      if (m =? mdl_id (controller (E d))) || mdl_in_queues (E d) m then Ret (Some m) else Oob
  end.

(** [mdl->ops.msg_hdlr(obj, mdl->priv, &(ex->msg))]. *)
Definition call_module (mdl : Z) (i : nat) (d : cmd_dispatcher)
    : res (cmd_dispatcher * phl_mdl_ret_code) :=
  ex ← get_msg (M d) i;
  let '(ret, calls) := msg_hdlr H (log d) mdl (msg_id ex) in
  d ← exec_calls calls (emit (EvMsg mdl i (msg_id ex)) d);
  Ret (d, ret).

Definition cur_req_hdl (i : nat) (d : cmd_dispatcher) : res cmd_dispatcher :=
  match cur_cmd_req (R d) with
  | None => Ret d
  | Some s =>
      x ← get_req (R d) s;
      ex ← get_msg (M d) i;
      if negb (test_req x REQ_STATUS_RUN) || test_req x REQ_STATUS_CANCEL then Ret d
      else if test_msg ex MSG_STATUS_FOR_ABORT then Ret d
      else exec_calls (req_hdlr H (log d) (req x) (msg_id ex))
             (emit (EvReqMsg (req x) i (msg_id ex)) d)
  end.

Definition upd_msg (i : nat) (f : phl_dispr_msg_ex -> phl_dispr_msg_ex) (d : cmd_dispatcher)
    : res cmd_dispatcher :=
  ex ← get_msg (M d) i; Ret (put_msg i (f ex) d).

Definition notify_msg_fail (i : nat) (ret : phl_mdl_ret_code) (d : cmd_dispatcher)
    : res cmd_dispatcher :=
  d ← upd_msg i (fun ex =>
        let ex := with_id (fun m => SET_MSG_INDC_FIELD m MSG_INDC_FAIL) (set_flag MSG_STATUS_FAIL ex) in
        if decide (ret = MDL_RET_CANNOT_IO)
        then with_id (fun m => SET_MSG_INDC_FIELD m MSG_INDC_CANNOT_IO) ex else ex) d;
  ex ← get_msg (M d) i;
  d ← (if test_msg ex MSG_STATUS_OWNER_BK_MDL then
         o ← owner_module d ex;
         match o with
         | None => Oob
         | Some m =>
             if IS_DISPR_CTRL (MSG_MDL_ID_FIELD (msg_id ex)) || _chk_bitmap_bit (bitmap (E d)) m
             then '(d, _) ← call_module m i d; Ret d else Ret d
         end
       else Ret d);
  ex ← get_msg (M d) i;
  if test_msg ex MSG_STATUS_OWNER_REQ then cur_req_hdl i d else Ret d.

Definition feed_mdl_msg (mdl : Z) (i : nat) (d : cmd_dispatcher)
    : res (cmd_dispatcher * phl_mdl_ret_code) :=
  '(d, ret) ← call_module mdl i d;
  d ← match ret with
      | MDL_RET_FAIL | MDL_RET_CANNOT_IO => notify_msg_fail i ret d
      | MDL_RET_PENDING => upd_msg i (set_flag MSG_STATUS_PENDING) d
      | _ =>
          ex ← get_msg (M d) i;
          if negb (Z.land (MSG_INDC_FIELD (msg_id ex)) MSG_INDC_PRE_PHASE =? 0) then
            m ← _clr_bitmap_bit (premap ex) [mdl];
            Ret (put_msg i (mk_msg (m_status ex) (msg_id ex) m (postmap ex) (completion ex)
                   (m_module ex)) d)
          else
            m ← _clr_bitmap_bit (postmap ex) [mdl];
            Ret (put_msg i (mk_msg (m_status ex) (msg_id ex) (premap ex) m (completion ex)
                   (m_module ex)) d)
      end;
  Ret (d, ret).

(** The modules of one queue; the result says whether dispatching stops. *)
Fixpoint feed_queue (pre : bool) (q : list phl_bk_module) (i : nat) (d : cmd_dispatcher)
    : res (cmd_dispatcher * bool) :=
  match q with
  | [] => Ret (d, false)
  | m :: q =>
      ex ← get_msg (M d) i;
      if negb (_chk_bitmap_bit (if pre then premap ex else postmap ex) (mdl_id m)) ||
         negb (TEST_STATUS_FLAG (mdl_status m) MDL_STARTED)
      then feed_queue pre q i d
      else
        '(d, ret) ← feed_mdl_msg (mdl_id m) i d;
        if STOP_DISPATCH_MSG ret then Ret (d, true) else feed_queue pre q i d
  end.

(** One priority: the owner of the message, then the modules in order. *)
Definition feed_priority (pre : bool) (owner_id : Z) (owner_prio prio : nat) (i : nat)
    (d : cmd_dispatcher) : res (cmd_dispatcher * bool) :=
  ex ← get_msg (M d) i;
  '(d, stop) ←
    (if bool_decide (owner_prio = prio) &&
        _chk_bitmap_bit (if pre then premap ex else postmap ex) owner_id
     then '(d, ret) ← feed_mdl_msg owner_id i d; Ret (d, STOP_DISPATCH_MSG ret)
     else Ret (d, false));
  if stop : bool then Ret (d, true)
  else
    let q := nth prio (module_q (E d)) [] in
    feed_queue pre (if pre then q else reverse q) i d.

Fixpoint feed_priorities (pre : bool) (owner_id : Z) (owner_prio : nat) (prios : list nat) (i : nat)
    (d : cmd_dispatcher) : res cmd_dispatcher :=
  match prios with
  | [] => Ret d
  | p :: prios =>
      '(d, stop) ← feed_priority pre owner_id owner_prio p i d;
      if stop : bool then Ret d else feed_priorities pre owner_id owner_prio prios i d
  end.

Definition phase_hdl (pre : bool) (prios : list nat) (i : nat) (d : cmd_dispatcher)
    : res cmd_dispatcher :=
  ex ← get_msg (M d) i;
  o ← owner_module d ex;
  let owner_id := default PHL_MDL_ID_MAX o in
  let prio := if owner_id <=? PHL_BK_MDL_END then _get_mdl_priority owner_id else PHL_MDL_PRI_MAX in
  feed_priorities pre owner_id prio prios i d.

Definition msg_pre_phase_hdl : nat -> cmd_dispatcher -> res cmd_dispatcher :=
  phase_hdl true [PHL_MDL_PRI_MANDATORY; PHL_MDL_PRI_OPTIONAL; PHL_MDL_PRI_ROLE].
Definition msg_post_phase_hdl : nat -> cmd_dispatcher -> res cmd_dispatcher :=
  phase_hdl false [PHL_MDL_PRI_ROLE; PHL_MDL_PRI_OPTIONAL; PHL_MDL_PRI_MANDATORY].

Definition _notify_dispr_controller (i : nat) (d : cmd_dispatcher) : res cmd_dispatcher :=
  if negb (test_disp d DISPR_CTRL_PRESENT) then Ret d
  else '(d, _) ← feed_mdl_msg (mdl_id (controller (E d))) i d; Ret d.

Definition reschedule (i : nat) (d : cmd_dispatcher) : res cmd_dispatcher :=
  ex ← get_msg (M d) i;
  if test_msg ex MSG_STATUS_PENDING then push_back_pending_msg i d else push_back_wait_msg i d.

(** [MSG_REDIRECT_CHK]. *)
Definition redirect_chk (i : nat) (d : cmd_dispatcher) (k : cmd_dispatcher -> res cmd_dispatcher)
    : res cmd_dispatcher :=
  ex ← get_msg (M d) i;
  if test_msg ex MSG_STATUS_FAIL || test_msg ex MSG_STATUS_CANCEL then push_back_idle_msg i d
  else if test_msg ex MSG_STATUS_PENDING then reschedule i d
  else k d.

(** A map that is not empty when its phase ends is an error. *)
Definition invalid_bitmap (i : nat) (d : cmd_dispatcher) : res cmd_dispatcher :=
  d ← upd_msg i (set_flag MSG_STATUS_CANCEL) d; push_back_idle_msg i d.

(** The rest of the dispatch, once the map [bitmap] of the first phase is done. *)
Definition post_phase (i : nat) (d : cmd_dispatcher) : res cmd_dispatcher :=
  d ← upd_msg i (fun ex => get_msg_bitmap (clear_flag MSG_STATUS_PRE_PHASE ex)) d;
  ex ← get_msg (M d) i;
  d ← (if negb (postmap ex =? 0) then msg_post_phase_hdl i d else Ret d);
  redirect_chk i d (fun d =>
    ex ← get_msg (M d) i;
    if postmap ex =? 0 then d ← cur_req_hdl i d; push_back_idle_msg i d
    else invalid_bitmap i d).

Definition msg_dispatch (i : nat) (d : cmd_dispatcher) : res cmd_dispatcher :=
  d ← upd_msg i get_msg_bitmap d;
  ex ← get_msg (M d) i;
  let pre := test_msg ex MSG_STATUS_PRE_PHASE in
  let map ex := if pre then premap ex else postmap ex in
  redirect_chk i d (fun d =>
  d ← _notify_dispr_controller i d;
  redirect_chk i d (fun d =>
  ex ← get_msg (M d) i;
  d ← (if negb (Z.land (MSG_INDC_FIELD (msg_id ex)) MSG_INDC_PRE_PHASE =? 0) && negb (map ex =? 0)
       then msg_pre_phase_hdl i d else Ret d);
  redirect_chk i d (fun d =>
  ex ← get_msg (M d) i;
  if map ex =? 0 then post_phase i d else invalid_bitmap i d))).

(** *** Tokens *)

Fixpoint cancel_owned (n : nat) (i : nat) (mdl : Z) (d : cmd_dispatcher) : res cmd_dispatcher :=
  match n with
  | O => Ret d
  | S n =>
      ex ← get_msg (M d) i;
      if negb (mdl =? MSG_MDL_ID_FIELD (msg_id ex)) then cancel_owned n (S i) mdl d
      else
        let ex := cancel_msg (clear_flag MSG_STATUS_OWNER_REQ ex) in
        let d := put_msg i ex d in
        d ← (if test_msg ex MSG_STATUS_PENDING then clear_pending_msg (dispr_clr_pending_msg d) else Ret d);
        cancel_owned n (S i) mdl d
  end.

Definition upd_req (s : nat) (f : phl_cmd_token_req_ex -> phl_cmd_token_req_ex) (d : cmd_dispatcher)
    : res cmd_dispatcher :=
  x ← get_req (R d) s; Ret (put_req s (f x) d).

(** [req->abort(obj, req->priv)]. *)
Definition call_abort (s : nat) (d : cmd_dispatcher) : res cmd_dispatcher :=
  x ← get_req (R d) s;
  exec_calls (abort H (log d) (req x)) (emit (EvAbort s (req x)) d).

Definition deregister_cur_cmd_req (notify : bool) (d : cmd_dispatcher) : res cmd_dispatcher :=
  match cur_cmd_req (R d) with
  | None => Ret d
  | Some s =>
      d ← upd_req s (req_clear REQ_STATUS_RUN) d;
      x ← get_req (R d) s;
      d ← cancel_owned MAX_PHL_MSG_NUM 0 (module_id (req x)) d;
      d ← (if notify then
             d ← upd_req s (req_set REQ_STATUS_LAST_PERMIT) d;
             d ← call_abort s d;
             upd_req s (req_clear REQ_STATUS_LAST_PERMIT) d
           else Ret d);
      d ← push_back_idle_req s (emit (EvReleased s) d);
      Ret (set_R (set_token (token_cnt (R d) - 1) None (R d)) d)
  end.

Definition register_cur_cmd_req (s : nat) (d : cmd_dispatcher) : res (cmd_dispatcher * bool) :=
  d ← upd_req s (fun x => req_clear REQ_STATUS_PREPARE (req_set REQ_STATUS_RUN x)) d;
  let d := set_R (set_token (token_cnt (R d) + 1) (Some s) (R d)) d in
  x ← get_req (R d) s;
  let '(ret, calls) := acquired H (log d) (req x) in
  d ← exec_calls calls (emit (EvAcquired s (req x)) d);
  if decide (ret = MDL_RET_FAIL) then d ← deregister_cur_cmd_req false d; Ret (d, false)
  else Ret (d, true).

Fixpoint dispr_process_token_req (fuel : nat) (d : cmd_dispatcher)
    : res (cmd_dispatcher * rtw_phl_status) :=
  match fuel with
  | O => Looping
  | S fuel =>
      if negb (test_disp d DISPR_STARTED) then Ret (d, STATUS_UNEXPECTED_ERROR)
      else if test_disp d DISPR_SHALL_STOP then Ret (d, STATUS_FAILURE)
      else if 0 <? token_cnt (R d) then Ret (d, STATUS_FAILURE)
      else if test_disp d DISPR_WAIT_ABORT_MSG_DONE then Ret (d, STATUS_FAILURE)
      else
        o ← pop_front_wait_req d;
        match o with
        | None =>
            if negb (test_disp d DISPR_NOTIFY_IDLE)
            then d ← send_bk_msg_phy_idle (set_disp DISPR_NOTIFY_IDLE d); Ret (d, STATUS_SUCCESS)
            else Ret (d, STATUS_SUCCESS)
        | Some (s, d) =>
            d ← (if test_disp d DISPR_NOTIFY_IDLE
                 then send_bk_msg_phy_on (clear_disp DISPR_NOTIFY_IDLE d) else Ret d);
            '(d, ok) ← register_cur_cmd_req s d;
            if ok : bool then Ret (d, STATUS_SUCCESS) else dispr_process_token_req fuel d
        end
  end.

(** The callbacks of a turn can queue requests and operations without bound; the
    fuel is for both loops. *)
Definition process_token_req (fuel : nat) (d : cmd_dispatcher) : res cmd_dispatcher :=
  '(d, _) ← dispr_process_token_req fuel d; Ret d.

Definition _handle_token_op_info (fuel : nat) (o : phl_token_op_info) (d : cmd_dispatcher)
    : res cmd_dispatcher :=
  let ty := type o in
  let s := Z.to_nat (data o) in
  if (ty =? TOKEN_OP_RENEW_CMD_REQ) || (ty =? TOKEN_OP_ADD_CMD_REQ) then process_token_req fuel d
  else if ty =? TOKEN_OP_FREE_CMD_REQ then
    if Z.of_nat MAX_CMD_REQ_NUM <=? data o then Ret d
    else
      x ← get_req (R d) s;
      if negb (test_req x REQ_STATUS_RUN) then Ret d
      else d ← deregister_cur_cmd_req false d; process_token_req fuel d
  else if ty =? TOKEN_OP_CANCEL_CMD_REQ then
    if Z.of_nat MAX_CMD_REQ_NUM <=? data o then Ret d
    else
      x ← get_req (R d) s;
      if test_req x REQ_STATUS_ENQ then
        q ← pq_del_node s (token_req_wait_q (R d));
        d ← call_abort s (emit (EvDrop s) (set_R (set_rwait q (R d)) d));
        push_back_idle_req s d
      else if test_req x REQ_STATUS_RUN then
        d ← deregister_cur_cmd_req true d; process_token_req fuel d
      else Ret d
  else Ret d.

Fixpoint token_op_hanler (fuel : nat) (d : cmd_dispatcher) : res cmd_dispatcher :=
  match fuel with
  | O => Looping
  | S fuel' =>
      match pop_front_token_op_info d with
      | None => Ret d
      | Some (n, d) =>
          o ← get_op n (R d);
          d ← _handle_token_op_info fuel o d;
          o ← get_op n (R d);
          r ← put_op n (mk_op false (type o) (data o)) (R d);
          token_op_hanler fuel' (set_R r d)
      end
  end.

(** One turn of the thread, without the wait for the semaphore. *)
Definition dispr_thread_loop_hdl (d : cmd_dispatcher) : res cmd_dispatcher :=
  d ← clear_pending_msg d;
  d ← token_op_hanler loop_fuel d;
  o ← pop_front_wait_msg d;
  match o with
  | None => Ret d
  | Some (i, d) =>
      let d := emit (EvTake i) d in
      ex ← get_msg (M d) i;
      let '(ex, canceled) := is_msg_canceled d ex in
      if canceled : bool then push_back_idle_msg i (put_msg i ex d)
      else
        let bm := bitmap (E d) in
        msg_dispatch i (put_msg i (mk_msg (m_status ex) (msg_id ex) (Z.land bm (premap ex))
          (Z.land bm (postmap ex)) (completion ex) (m_module ex)) d)
  end.

(** *** Leaving the thread *)

Fixpoint drain_pending (n : nat) (d : cmd_dispatcher) : res cmd_dispatcher :=
  match n with
  | O => Ret d
  | S n =>
      match pop_front_pending_msg d with
      | None => Ret d
      | Some (i, d) => d ← push_back_wait_msg i d; drain_pending n d
      end
  end.

Fixpoint drain_waiting (n : nat) (d : cmd_dispatcher) : res cmd_dispatcher :=
  match n with
  | O => Ret d
  | S n =>
      o ← pop_front_wait_msg d;
      match o with
      | None => Ret d
      | Some (i, d) => d ← push_back_idle_msg i d; drain_waiting n d
      end
  end.

(** Turns until every message is idle; with a message anywhere else the loop of
    the source does not end. *)
Fixpoint clear_waiting_msg (fuel : nat) (d : cmd_dispatcher) : res cmd_dispatcher :=
  match fuel with
  | O => Looping
  | S fuel =>
      if decide (length (msg_idle_q (M d)) = MAX_PHL_MSG_NUM) then Ret d
      else
        d ← drain_pending (length (msg_pend_q (M d))) d;
        d ← drain_waiting (length (msg_wait_q (M d))) d;
        clear_waiting_msg fuel d
  end.

Fixpoint drain_requests (fuel : nat) (d : cmd_dispatcher) : res cmd_dispatcher :=
  match fuel with
  | O => Looping
  | S fuel =>
      o ← pop_front_wait_req d;
      match o with
      | None => Ret d
      | Some (s, d) => d ← call_abort s d; d ← push_back_idle_req s d; drain_requests fuel d
      end
  end.

Fixpoint clear_wating_req (fuel : nat) (d : cmd_dispatcher) : res cmd_dispatcher :=
  match fuel with
  | O => Looping
  | S fuel =>
      if decide (length (token_req_idle_q (R d)) = MAX_CMD_REQ_NUM) then Ret d
      else d ← drain_requests loop_fuel d; clear_wating_req fuel d
  end.

Definition dispr_thread_leave_hdl (d : cmd_dispatcher) : res cmd_dispatcher :=
  d ← deregister_cur_cmd_req true d;
  d ← clear_waiting_msg 2 d;
  clear_wating_req 2 d.
End thread.

(** ** Start and stop *)

Definition init_dispr_msg_pool (d : cmd_dispatcher) : cmd_dispatcher :=
  if test_disp d DISPR_MSGQ_INIT then d
  else set_disp DISPR_MSGQ_INIT
    (set_M (mk_msgs (replicate MAX_PHL_MSG_NUM (mk_msg 0 0 0 0 false None)) (seq 0 MAX_PHL_MSG_NUM) [] []) d).

Definition init_cmd_req_pool (d : cmd_dispatcher) : cmd_dispatcher :=
  if test_disp d DISPR_REQ_INIT then d
  else set_disp DISPR_REQ_INIT
    (set_R (mk_rqs (replicate MAX_CMD_REQ_NUM (mk_req 0 no_req no_op no_op)) [] (seq 0 MAX_CMD_REQ_NUM)
       [] (renew_req_info (R d)) (token_cnt (R d)) (cur_cmd_req (R d))) d).

Definition init_dispr_mdl_mgnt_info (d : cmd_dispatcher) : cmd_dispatcher :=
  set_E (mk_mdls (module_q (E d)) (bitmap (E d)) (basemap (E d)) (controller (E d))
    (exclusive_mdl (E d)) (fun _ => MSG_EVT_MAX)) d.

(** The start of the controller; [ok] is the result of its [start]. *)
Definition _start_dispr_controller (ok : bool) (d : cmd_dispatcher) : cmd_dispatcher :=
  let c := controller (E d) in
  if negb (TEST_STATUS_FLAG (mdl_status c) MDL_INIT) || TEST_STATUS_FLAG (mdl_status c) MDL_STARTED ||
     negb ok then d
  else set_disp DISPR_CTRL_PRESENT
    (set_E (mk_mdls (module_q (E d)) (bitmap (E d)) (basemap (E d))
       (mk_mdl (mdl_id c) (SET_STATUS_FLAG (mdl_status c) MDL_STARTED)) (exclusive_mdl (E d))
       (pending_evt_id (E d))) d).

Definition dispr_start (ctrl_ok : bool) (d : cmd_dispatcher) : cmd_dispatcher * rtw_phl_status :=
  if test_disp d DISPR_STARTED then (d, STATUS_UNEXPECTED_ERROR)
  else
    let d := init_dispr_mdl_mgnt_info (init_cmd_req_pool (init_dispr_msg_pool d)) in
    let d := set_sema 0 (set_R (set_renew no_op (R d)) d) in
    let d := set_disp DISPR_STARTED (SET_EXCL_MDL PHL_MDL_ID_MAX d) in
    (_start_dispr_controller ctrl_ok d, STATUS_SUCCESS).

Definition cancel_all_cmd_req (d : cmd_dispatcher) : cmd_dispatcher :=
  set_R (set_reqs ((fun x => if r_status x =? 0 then x else req_set REQ_STATUS_CANCEL x)
                     <$> token_req_ex_pool (R d)) (R d)) d.

Definition _stop_dispr_controller (d : cmd_dispatcher) : cmd_dispatcher :=
  let d := clear_disp DISPR_CTRL_PRESENT d in
  let c := controller (E d) in
  if negb (TEST_STATUS_FLAG (mdl_status c) MDL_STARTED) then d
  else set_E (mk_mdls (module_q (E d)) (bitmap (E d)) (basemap (E d))
    (mk_mdl (mdl_id c) (CLEAR_STATUS_FLAG (mdl_status c) MDL_STARTED)) (exclusive_mdl (E d))
    (pending_evt_id (E d))) d.

Definition dispr_thread_stop_prior_hdl (d : cmd_dispatcher) : cmd_dispatcher :=
  cancel_running_msg (cancel_all_cmd_req (_stop_dispr_controller (clear_disp DISPR_STARTED d))).

Definition dispr_thread_stop_post_hdl (d : cmd_dispatcher) : cmd_dispatcher :=
  let d := clear_disp DISPR_REQ_INIT (clear_disp DISPR_MSGQ_INIT d) in
  set_R (set_token 0 (cur_cmd_req (R d)) (R d)) d.

(** [dispr_stop]: the thread leaves between the two parts. *)
Definition dispr_stop (H : handlers) (loop_fuel : nat) (d : cmd_dispatcher) : res (cmd_dispatcher * rtw_phl_status) :=
  if negb (test_disp d DISPR_STARTED) then Ret (d, STATUS_UNEXPECTED_ERROR)
  else
    d ← dispr_thread_leave_hdl H loop_fuel (dispr_thread_stop_prior_hdl d);
    Ret (dispr_thread_stop_post_hdl d, STATUS_SUCCESS).

End Dispr.
