(* ===== verification/DisprInv.v ===== *)
(** * Invariants of the command dispatcher

    What holds of a dispatcher ([Dispr]) under every interleaving of calls and
    turns of its thread: the queues partition the pools, the token has one owner,
    no wake-up is lost, and, for callbacks that behave, no list is corrupted and
    every turn ends. *)

From S2P Require Import Prelude Bytes Bitmap Dispr.

Module DisprInv.
Import Dispr.
#[local] Open Scope Z_scope.

(** ** Flags *)

Lemma test_bit s j : 0 <= j -> TEST_STATUS_FLAG s (BIT j) = Z.testbit s j.
Proof.
  intros Hj. rewrite <- word_test_spec by done. unfold TEST_STATUS_FLAG, word_test.
  assert (E : Z.land s (BIT j) = if Z.testbit s j then BIT j else 0).
  { apply Z.bits_inj'. intros k Hk. rewrite Z.land_spec, BIT_bit by done.
    destruct (Z.eqb_spec j k) as [->|N].
    - destruct (Z.testbit s k) eqn:B; [by rewrite BIT_bit, Z.eqb_refl|by rewrite Z.bits_0].
    - rewrite andb_false_r. destruct (Z.testbit s j); [|by rewrite Z.bits_0].
      rewrite BIT_bit by done. by destruct (Z.eqb_spec j k). }
  assert (BIT j <> 0).
  { intros B. apply (f_equal (fun z => Z.testbit z j)) in B.
    by rewrite BIT_bit, Z.eqb_refl, Z.bits_0 in B. }
  rewrite E. destruct (Z.testbit s j).
  - destruct (Z.eqb_spec (BIT j) (BIT j)), (Z.eqb_spec (BIT j) 0); done.
  - destruct (Z.eqb_spec 0 (BIT j)); [lia|done].
Qed.

Lemma test_set s i j : 0 <= i -> 0 <= j ->
  TEST_STATUS_FLAG (SET_STATUS_FLAG s (BIT i)) (BIT j) = (j =? i) || TEST_STATUS_FLAG s (BIT j).
Proof.
  intros. rewrite !test_bit by done. by apply (word_set_spec s i j).
Qed.

Lemma test_clear s i j : 0 <= i -> 0 <= j ->
  TEST_STATUS_FLAG (CLEAR_STATUS_FLAG s (BIT i)) (BIT j) = negb (j =? i) && TEST_STATUS_FLAG s (BIT j).
Proof.
  intros. rewrite !test_bit by done. by apply (word_clr_spec s i j).
Qed.

Lemma test_0 j : 0 <= j -> TEST_STATUS_FLAG 0 (BIT j) = false.
Proof. intros. by rewrite test_bit, Z.bits_0. Qed.

(** All flags are single bits. *)
Ltac unfold_flags := unfold dispr_clr_pending_msg, notify_bk_thread, set_sema, SET_EXCL_MDL, set_E,
  cancel_msg, test_msg, test_req, test_disp, set_flag, clear_flag, with_status, with_id,
  req_set, req_clear, req_status, set_disp, clear_disp, set_status,
  MSG_STATUS_ENQ, MSG_STATUS_RUN, MSG_STATUS_NOTIFY_COMPLETE, MSG_STATUS_CANCEL,
  MSG_STATUS_PRE_PHASE, MSG_STATUS_FAIL, MSG_STATUS_OWNER_BK_MDL, MSG_STATUS_OWNER_REQ,
  MSG_STATUS_CLR_SNDR_MSG_IF_PENDING, MSG_STATUS_PENDING, MSG_STATUS_FOR_ABORT,
  MSG_STATUS_PENDING_DURING_CANNOT_IO, REQ_STATUS_ENQ, REQ_STATUS_RUN, REQ_STATUS_CANCEL,
  REQ_STATUS_LAST_PERMIT, REQ_STATUS_PREPARE, DISPR_INIT, DISPR_STARTED, DISPR_SHALL_STOP,
  DISPR_MSGQ_INIT, DISPR_REQ_INIT, DISPR_NOTIFY_IDLE, DISPR_CLR_PEND_MSG, DISPR_CTRL_PRESENT,
  DISPR_WAIT_ABORT_MSG_DONE, DISPR_CANNOT_IO in *.
Ltac flags := unfold_flags; cbn [m_status r_status status] in *;
  repeat first [rewrite test_set in * by lia | rewrite test_clear in * by lia
               | rewrite test_0 in * by lia];
  cbn [Z.eqb Pos.eqb negb andb orb] in *.

(** The identifier's fields when its indication changes. *)
Lemma field_bits id n w k : 0 <= n -> 0 <= k -> 0 <= w ->
  Z.testbit (Z.land (Z.shiftr id n) (Z.ones w)) k = (k <? w) && Z.testbit id (k + n).
Proof.
  intros. rewrite Z.land_spec, Z.shiftr_spec, Z.testbit_ones_nonneg by done. apply andb_comm.
Qed.

Lemma mdl_field_set_indc id i : 0 <= i -> MSG_MDL_ID_FIELD (SET_MSG_INDC_FIELD id i) = MSG_MDL_ID_FIELD id.
Proof.
  intros Hi. unfold MSG_MDL_ID_FIELD, SET_MSG_INDC_FIELD. change 0xff with (Z.ones 8).
  apply Z.bits_inj'. intros k Hk. rewrite !field_bits by lia.
  destruct (Z.ltb_spec k 8); [|done]. cbn [andb].
  rewrite Z.lor_spec, Z.land_spec, Z.lnot_spec, Z.shiftl_spec_low by lia.
  by rewrite andb_true_r, orb_false_r.
Qed.

Lemma mdl_field_clear_indc id i : 0 <= i -> MSG_MDL_ID_FIELD (CLEAR_MSG_INDC_FIELD id i) = MSG_MDL_ID_FIELD id.
Proof.
  intros Hi. unfold MSG_MDL_ID_FIELD, CLEAR_MSG_INDC_FIELD. change 0xff with (Z.ones 8).
  apply Z.bits_inj'. intros k Hk. rewrite !field_bits by lia.
  destruct (Z.ltb_spec k 8); [|done]. cbn [andb].
  rewrite Z.land_spec, Z.lnot_spec, Z.shiftl_spec_low by lia. by rewrite andb_true_r.
Qed.

(** ** Counting *)

Definition cnt (x : nat) (l : list nat) : Z := Z.of_nat (count_occ Nat.eq_dec l x).
Definition one (x i : nat) : Z := if Nat.eqb x i then 1 else 0.

Lemma cnt_nil x : cnt x [] = 0.
Proof. done. Qed.
Lemma cnt_cons x i l : cnt x (i :: l) = one x i + cnt x l.
Proof.
  unfold cnt, one. cbn. destruct (Nat.eq_dec i x) as [->|N]; [rewrite Nat.eqb_refl; lia|].
  destruct (Nat.eqb_spec x i); [congruence|lia].
Qed.
Lemma cnt_app x l1 l2 : cnt x (l1 ++ l2) = cnt x l1 + cnt x l2.
Proof. unfold cnt. rewrite count_occ_app. lia. Qed.
Lemma cnt_nonneg x l : 0 <= cnt x l.
Proof. unfold cnt. lia. Qed.
Lemma cnt_elem x l : x ∈ l <-> 0 < cnt x l.
Proof.
  rewrite list_elem_of_In, (count_occ_In Nat.eq_dec). unfold cnt. lia.
Qed.
Lemma cnt_insert x p i q : cnt x (pq_insert p i q) = one x i + cnt x q.
Proof.
  induction q as [|j q IH]; cbn [pq_insert]; [by rewrite cnt_cons|].
  destruct (p j); rewrite !cnt_cons; [done|]. rewrite IH. lia.
Qed.
Lemma one_same x : one x x = 1.
Proof. unfold one. by rewrite Nat.eqb_refl. Qed.
Lemma cnt_filter x i q : cnt x (filter (fun j => j <> i) q) = if Nat.eqb x i then 0 else cnt x q.
Proof.
  induction q as [|j q IH]; [by destruct (Nat.eqb x i)|]. rewrite filter_cons.
  destruct (decide (j <> i)) as [N|N]; rewrite ?cnt_cons, IH; unfold one.
  - destruct (Nat.eqb_spec x i), (Nat.eqb_spec x j); try lia.
  - assert (j = i) as -> by (destruct (Nat.eq_dec j i); [done|by destruct N]).
    destruct (Nat.eqb_spec x i); lia.
Qed.
Create Rewrite HintDb cnt.
#[export] Hint Rewrite cnt_nil cnt_cons cnt_app cnt_insert : cnt.

(** The lists share out the first [n] numbers. *)
Definition shares (n : nat) (ls : list (list nat)) : Prop :=
  forall x, cnt x (concat ls) = if Nat.ltb x n then 1 else 0.

Lemma cnt_seq x n m : cnt x (seq m n) = if Nat.leb m x && Nat.ltb x (m + n) then 1 else 0.
Proof.
  revert m. induction n as [|n IH]; intros m; cbn [seq].
  - rewrite cnt_nil. destruct (Nat.leb_spec m x), (Nat.ltb_spec x (m + 0)); cbn [andb]; lia.
  - rewrite cnt_cons, IH. unfold one.
    destruct (Nat.eqb_spec x m), (Nat.leb_spec (S m) x), (Nat.leb_spec m x),
      (Nat.ltb_spec x (S m + n)), (Nat.ltb_spec x (m + S n)); cbn [andb]; lia.
Qed.

Lemma shares_perm n ls : shares n ls <-> concat ls ≡ₚ seq 0 n.
Proof.
  unfold shares. rewrite (Permutation_count_occ Nat.eq_dec). split; intros E x.
  - specialize (E x). pose proof (cnt_seq x n 0) as E'. unfold cnt in *. cbn [Nat.leb andb Nat.add] in E'.
    lia.
  - specialize (E x). pose proof (cnt_seq x n 0) as E'. unfold cnt in *. cbn [Nat.leb andb Nat.add] in E'.
    lia.
Qed.

(** ** The arbiter of the token

    What the dispatcher promises of its requests, as a machine that reads the log:
    a queue that is served in order, the requests that have left it and are neither
    granted nor idle again, and the owner.  It gets stuck on an event that breaks
    the rules. *)

Record arbiter := mk_arb { waiting : list nat; leaving : list nat; owner : option nat }.

Definition arb_event (e : event) (a : arbiter) : option arbiter :=
  match e with
  | EvQueue s =>
      if decide (s ∈ waiting a ++ leaving a ++ option_list (owner a)) then None
      else Some (mk_arb (waiting a ++ [s]) (leaving a) (owner a))
  | EvPop s =>
      match waiting a with
      | s' :: q => if decide (s' = s) then Some (mk_arb q (s :: leaving a) (owner a)) else None
      | [] => None
      end
  | EvDrop s =>
      if decide (s ∈ waiting a)
      then Some (mk_arb (filter (fun j => j <> s) (waiting a)) (s :: leaving a) (owner a)) else None
  | EvAcquired s _ =>
      match leaving a, owner a with
      | s' :: h, None => if decide (s' = s) then Some (mk_arb (waiting a) h (Some s)) else None
      | _, _ => None
      end
  | EvReleased s =>
      if decide (owner a = Some s) then Some (mk_arb (waiting a) (s :: leaving a) None) else None
  | EvIdleReq s =>
      match leaving a with
      | s' :: h => if decide (s' = s) then Some (mk_arb (waiting a) h (owner a)) else None
      | [] => None
      end
  | EvAbort s _ =>
      if decide (head (leaving a) = Some s \/ owner a = Some s) then Some a else None
  | EvReqMsg _ _ _ => match owner a with Some _ => Some a | None => None end
  | EvTake _ | EvMsg _ _ _ | EvComplete _ _ => Some a
  end.

Fixpoint replay (l : list event) : option arbiter :=
  match l with [] => Some (mk_arb [] [] None) | e :: l => replay l ≫= arb_event e end.

Definition arb_of (hand : list nat) (d : cmd_dispatcher) : arbiter :=
  mk_arb (token_req_wait_q (R d)) hand (cur_cmd_req (R d)).

Lemma replay_cons e l a a' : replay l = Some a -> arb_event e a = Some a' -> replay (e :: l) = Some a'.
Proof. intros E1 E2. cbn [replay]. by rewrite E1. Qed.

Lemma arb_queue s q h o : s ∉ q ++ h ++ option_list o ->
  arb_event (EvQueue s) (mk_arb q h o) = Some (mk_arb (q ++ [s]) h o).
Proof. intros Hs. unfold arb_event. cbn [waiting leaving owner]. by rewrite decide_False. Qed.
Lemma arb_pop s q h o : arb_event (EvPop s) (mk_arb (s :: q) h o) = Some (mk_arb q (s :: h) o).
Proof. unfold arb_event. cbn [waiting leaving owner]. by rewrite decide_True. Qed.
Lemma arb_drop s q h o : s ∈ q ->
  arb_event (EvDrop s) (mk_arb q h o) = Some (mk_arb (filter (fun j => j <> s) q) (s :: h) o).
Proof. intros Hs. unfold arb_event. cbn [waiting leaving owner]. by rewrite decide_True. Qed.
Lemma arb_acquired s r q h : arb_event (EvAcquired s r) (mk_arb q (s :: h) None) = Some (mk_arb q h (Some s)).
Proof. unfold arb_event. cbn [waiting leaving owner]. by rewrite decide_True. Qed.
Lemma arb_released s q h : arb_event (EvReleased s) (mk_arb q h (Some s)) = Some (mk_arb q (s :: h) None).
Proof. unfold arb_event. cbn [waiting leaving owner]. by rewrite decide_True. Qed.
Lemma arb_idle s q h o : arb_event (EvIdleReq s) (mk_arb q (s :: h) o) = Some (mk_arb q h o).
Proof. unfold arb_event. cbn [waiting leaving owner]. by rewrite decide_True. Qed.
Lemma arb_abort s r a : head (leaving a) = Some s \/ owner a = Some s -> arb_event (EvAbort s r) a = Some a.
Proof. intros Ha. unfold arb_event. by rewrite decide_True. Qed.

Definition emits (l : list event) (d : cmd_dispatcher) : cmd_dispatcher :=
  mk_disp (status d) (msg_q_sema d) (M d) (R d) (E d) (l ++ log d).

(** ** The invariant

    [S] is the assumption under which nothing goes wrong, [C] the one under which
    no controller sends; the invariant and the steps are proved for any, so that
    the theorems can choose. *)

Section inv.
Variables S C : Prop.

(** A result that satisfies [Q]; under [S] there is one. *)
Definition wp {A} (Q : A -> Prop) (m : res A) : Prop :=
  match m with Ret a => Q a | Oob => ~ S | Looping => ~ S end.

Lemma wp_bind {A B} (Q : B -> Prop) (m : res A) (f : A -> res B) :
  wp (fun a => wp Q (f a)) m -> wp Q (m ≫= f).
Proof. by destruct m. Qed.
Lemma wp_mono {A} (P Q : A -> Prop) m : wp P m -> (forall a, P a -> Q a) -> wp Q m.
Proof. destruct m; cbn; auto. Qed.
Lemma wp_ret {A} (Q : A -> Prop) a : Q a -> wp Q (Ret a).
Proof. done. Qed.
Lemma wp_inv {A} (Q : A -> Prop) m a : wp Q m -> m = Ret a -> Q a.
Proof. by intros W ->. Qed.

Definition live (e : mdls) (m : Z) : Prop :=
  m = mdl_id (controller e) \/ mdl_in_queues e m = true.

Record mods_ok (e : mdls) : Prop := {
  ctrl_id : mdl_id (controller e) = PHL_MDL_PHY_MGNT;
  queue_ids m : mdl_in_queues e m = true -> 0 <= m < 128
}.

(** The owner of a message is there. *)
Definition msg_ok (e : mdls) (ex : phl_dispr_msg_ex) : Prop :=
  (forall m, m_module ex = Some m -> live e m) /\
  (test_msg ex MSG_STATUS_OWNER_BK_MDL = true -> m_module ex <> None).

(** A request that is cancelled or freed is not announced after that. *)
Fixpoint ordered (l : list op_node) : Prop :=
  match l with
  | [] => True
  | n :: l => match n with FreeInfo i => AddInfo i ∉ l | _ => True end /\ ordered l
  end.

Definition op_fits (n : op_node) (o : phl_token_op_info) : Prop :=
  match n with
  | AddInfo i => type o = TOKEN_OP_ADD_CMD_REQ
  | FreeInfo i => (type o = TOKEN_OP_FREE_CMD_REQ \/ type o = TOKEN_OP_CANCEL_CMD_REQ) /\ data o = Z.of_nat i
  | RenewInfo => type o = TOKEN_OP_RENEW_CMD_REQ
  end.

(** [busy] is the operation the thread works on. *)
Record ops_ok (busy : option op_node) (r : rqs) : Prop := {
  op_nodup : NoDup (token_op_q r);
  op_used n : (n ∈ token_op_q r) -> exists o, (get_op n r = Ret o) /\ used o = true /\ op_fits n o;
  op_order : ordered (token_op_q r);
  op_busy n : busy = Some n ->
    (exists o, (get_op n r = Ret o) /\ used o = true) /\ (n ∉ token_op_q r) /\
    (forall i, n = FreeInfo i -> AddInfo i ∉ token_op_q r)
}.

(** No queued operation names the slot. *)
Definition unnamed (r : rqs) (s : nat) : Prop :=
  (AddInfo s ∉ token_op_q r) /\ (FreeInfo s ∉ token_op_q r).
Definition started (d : cmd_dispatcher) : bool := test_disp d DISPR_STARTED.

Definition cur_list (r : rqs) : list nat := option_list (cur_cmd_req r).

Record slot_ok (hand : list nat) (r : rqs) (i : nat) (x : phl_cmd_token_req_ex) : Prop := {
  st_idle : 0 < cnt i (token_req_idle_q r) -> r_status x = 0;
  st_enq : test_req x REQ_STATUS_ENQ = true -> 0 < cnt i (token_req_wait_q r) + cnt i hand;
  st_run : test_req x REQ_STATUS_RUN = true -> cur_cmd_req r = Some i
}.

(** [run] are the messages the thread has in hand, [hand] the requests, [slack]
    the wake-ups it has taken and not yet answered. *)
Record Inv (run hand : list nat) (busy : option op_node) (slack : Z) (d : cmd_dispatcher) : Prop := {
  i_pool : length (msg_ex_pool (M d)) = MAX_PHL_MSG_NUM;
  i_msgs x : cnt x (msg_idle_q (M d)) + cnt x (msg_wait_q (M d)) + cnt x (msg_pend_q (M d)) + cnt x run =
             if Nat.ltb x MAX_PHL_MSG_NUM then 1 else 0;
  i_mod i ex : msg_ex_pool (M d) !! i = Some ex -> msg_ok (E d) ex;
  i_ctl : C -> forall i ex, msg_ex_pool (M d) !! i = Some ex -> cnt i (msg_idle_q (M d)) = 0 ->
    IS_DISPR_CTRL (MSG_MDL_ID_FIELD (msg_id ex)) = false;
  i_reqs : length (token_req_ex_pool (R d)) = MAX_CMD_REQ_NUM;
  i_slots x : cnt x (token_req_idle_q (R d)) + cnt x (token_req_wait_q (R d)) + cnt x hand +
              cnt x (cur_list (R d)) = if Nat.ltb x MAX_CMD_REQ_NUM then 1 else 0;
  i_cnt : token_cnt (R d) = zlen (cur_list (R d));
  i_st i x : token_req_ex_pool (R d) !! i = Some x -> slot_ok hand (R d) i x;
  i_op : S -> ops_ok busy (R d);
  i_idle : S -> started d = true -> forall s, 0 < cnt s (token_req_idle_q (R d)) -> unnamed (R d) s;
  i_arb : replay (log d) = Some (arb_of hand d);
  i_sema : 0 <= msg_q_sema d /\ zlen (msg_wait_q (M d)) + zlen (token_op_q (R d)) <= msg_q_sema d + slack;
  i_mods : mods_ok (E d)
}.

Definition same_mods (e e' : mdls) : Prop :=
  module_q e' = module_q e /\ mdl_id (controller e') = mdl_id (controller e).

(** What every step does: it only adds to the log and, without controllers, to
    the end of the queue, and leaves the modules. *)
Record Ext (d d' : cmd_dispatcher) : Prop := {
  e_log : exists new, log d' = (new ++ log d);
  e_wait : C -> exists l, msg_wait_q (M d') = (msg_wait_q (M d) ++ l);
  e_mods : same_mods (E d) (E d');
  e_started : started d' = started d
}.

Lemma Ext_refl d : Ext d d.
Proof. split; [by exists []|by exists []; rewrite app_nil_r|done|done]. Qed.
Lemma Ext_trans d1 d2 d3 : Ext d1 d2 -> Ext d2 d3 -> Ext d1 d3.
Proof.
  intros [[n1 L1] W1 [M1 N1] T1] [[n2 L2] W2 [M2 N2] T2]. split.
  - exists (n2 ++ n1). by rewrite L2, L1, app_assoc.
  - intros HC. destruct (W1 HC) as [l1 E1], (W2 HC) as [l2 E2]. exists (l1 ++ l2).
    by rewrite E2, E1, app_assoc.
  - split; congruence.
  - congruence.
Qed.

(** The steps that may follow each other. *)
Definition keeps run hand busy slack (d d' : cmd_dispatcher) : Prop :=
  Inv run hand busy slack d' /\ Ext d d'.

Lemma keeps_trans run hand busy slack d1 d2 d3 :
  Ext d1 d2 -> keeps run hand busy slack d2 d3 -> keeps run hand busy slack d1 d3.
Proof. intros E12 [I3 E23]. split; [done|by eapply Ext_trans]. Qed.

(** The requests' queues are left alone. *)
Definition req_same (d d' : cmd_dispatcher) : Prop :=
  token_req_wait_q (R d') = token_req_wait_q (R d) /\ token_req_idle_q (R d') = token_req_idle_q (R d) /\
  cur_cmd_req (R d') = cur_cmd_req (R d) /\ token_cnt (R d') = token_cnt (R d).

Lemma req_same_eq d d' : R d' = R d -> req_same d d'.
Proof. unfold req_same. by intros ->. Qed.
Lemma req_same_refl d : req_same d d.
Proof. done. Qed.
Lemma req_same_trans d1 d2 d3 : req_same d1 d2 -> req_same d2 d3 -> req_same d1 d3.
Proof. unfold req_same. intuition congruence. Qed.

(** *** Framing *)

Lemma mods_same_ok e e' : same_mods e e' -> mods_ok e -> mods_ok e'.
Proof.
  intros [Hq Hc] [I1 I2]. split; [by rewrite Hc|]. intros m. unfold mdl_in_queues. rewrite Hq. apply I2.
Qed.
Lemma msg_same_ok e e' ex : same_mods e e' -> msg_ok e ex -> msg_ok e' ex.
Proof.
  intros [Hq Hc] [I1 I2]. split; [|done]. intros m Hm. destruct (I1 m Hm) as [L|L].
  - left. by rewrite Hc.
  - right. unfold mdl_in_queues in *. by rewrite Hq.
Qed.

(** Whatever touches neither messages nor requests. *)
Lemma Inv_frame run hand busy slack d d' :
  Inv run hand busy slack d -> M d' = M d -> R d' = R d -> same_mods (E d) (E d') ->
  msg_q_sema d <= msg_q_sema d' -> started d' = started d -> replay (log d') = replay (log d) ->
  Inv run hand busy slack d'.
Proof.
  intros [] EM ER HE Hs Ht HL. split; rewrite ?EM, ?ER, ?Ht; try done.
  - intros i ex Hi. eapply msg_same_ok; eauto.
  - rewrite HL. unfold arb_of. by rewrite ER.
  - lia.
  - by eapply mods_same_ok.
Qed.
Lemma keeps_frame run hand busy slack d d' :
  Inv run hand busy slack d -> M d' = M d -> R d' = R d -> same_mods (E d) (E d') ->
  msg_q_sema d <= msg_q_sema d' -> (exists new, log d' = new ++ log d) -> started d' = started d ->
  replay (log d') = replay (log d) -> keeps run hand busy slack d d'.
Proof.
  intros I EM ER HE Hs HL Ht Hr. split; [by eapply Inv_frame|]. split; [done| |done|done].
  rewrite EM. intros _. exists []. by rewrite app_nil_r.
Qed.

(** Whatever changes a message and keeps its sender and owner. *)
Lemma Inv_put_msg run hand busy slack d i ex :
  Inv run hand busy slack d -> msg_ok (E d) ex ->
  (C -> cnt i (msg_idle_q (M d)) = 0 -> IS_DISPR_CTRL (MSG_MDL_ID_FIELD (msg_id ex)) = false) ->
  Inv run hand busy slack (put_msg i ex d).
Proof.
  intros [] Hok Hc. split; cbn; try done.
  - by rewrite length_insert.
  - intros j ex' [(-> & -> & _)|[_ Hj]]%list_lookup_insert_Some; eauto.
  - intros HC j ex' [(-> & -> & _)|[_ Hj]]%list_lookup_insert_Some; eauto.
Qed.

Lemma Ext_same_M d d' : log d' = log d -> msg_wait_q (M d') = msg_wait_q (M d) ->
  same_mods (E d) (E d') -> started d' = started d -> Ext d d'.
Proof. intros El Ew Em Et. split; [by exists []|intros _; exists []; by rewrite app_nil_r|done|done]. Qed.

Lemma get_msg_some m i ex : get_msg m i = Ret ex <-> msg_ex_pool m !! i = Some ex.
Proof. unfold get_msg. destruct (msg_ex_pool m !! i); naive_solver. Qed.
Lemma get_req_some r i x : get_req r i = Ret x <-> token_req_ex_pool r !! i = Some x.
Proof. unfold get_req. destruct (token_req_ex_pool r !! i); naive_solver. Qed.

Lemma wp_get_msg run hand busy slack d i (Q : phl_dispr_msg_ex -> Prop) :
  Inv run hand busy slack d -> (i < MAX_PHL_MSG_NUM)%nat ->
  (forall ex, msg_ex_pool (M d) !! i = Some ex -> msg_ok (E d) ex -> Q ex) -> wp Q (get_msg (M d) i).
Proof.
  intros I Hi HQ. unfold get_msg.
  destruct (lookup_lt_is_Some_2 (msg_ex_pool (M d)) i) as [ex E]; [by rewrite (i_pool _ _ _ _ _ I)|].
  rewrite E. cbn. apply HQ; [done|]. by eapply i_mod.
Qed.
Lemma wp_get_req run hand busy slack d i (Q : phl_cmd_token_req_ex -> Prop) :
  Inv run hand busy slack d -> (i < MAX_CMD_REQ_NUM)%nat ->
  (forall x, token_req_ex_pool (R d) !! i = Some x -> slot_ok hand (R d) i x -> Q x) ->
  wp Q (get_req (R d) i).
Proof.
  intros I Hi HQ. unfold get_req.
  destruct (lookup_lt_is_Some_2 (token_req_ex_pool (R d)) i) as [x E]; [by rewrite (i_reqs _ _ _ _ _ I)|].
  rewrite E. cbn. apply HQ; [done|]. by eapply i_st.
Qed.

(** *** Token operations *)

Definition op_valid (n : op_node) : Prop :=
  match n with AddInfo i | FreeInfo i => (i < MAX_CMD_REQ_NUM)%nat | RenewInfo => True end.

(** A request pool that differs in its token operations only. *)
Record ops_only (r r' : rqs) : Prop := {
  oo_wait : token_req_wait_q r' = token_req_wait_q r;
  oo_idle : token_req_idle_q r' = token_req_idle_q r;
  oo_q : token_op_q r' = token_op_q r;
  oo_cnt : token_cnt r' = token_cnt r;
  oo_cur : cur_cmd_req r' = cur_cmd_req r;
  oo_len : length (token_req_ex_pool r') = length (token_req_ex_pool r);
  oo_st i x : token_req_ex_pool r' !! i = Some x ->
    exists y, token_req_ex_pool r !! i = Some y /\ r_status x = r_status y
}.

Lemma put_op_spec n o r : length (token_req_ex_pool r) = MAX_CMD_REQ_NUM -> op_valid n ->
  exists r', put_op n o r = Ret r' /\ ops_only r r' /\ get_op n r' = Ret o /\
    (forall n', n' <> n -> get_op n' r' = get_op n' r) /\ (exists o0, get_op n r = Ret o0).
Proof.
  intros Hl Hv.
  assert (Hs : forall i, (i < MAX_CMD_REQ_NUM)%nat -> exists x, token_req_ex_pool r !! i = Some x).
  { intros i Hi. apply lookup_lt_is_Some_2. by rewrite Hl. }
  assert (Hg : forall i x' (j : nat) l, (exists x, l !! i = Some x) ->
    (<[i := x']> l : list phl_cmd_token_req_ex) !! j = if Nat.eqb i j then Some x' else l !! j).
  { intros i x' j l [x Hx]. destruct (Nat.eqb_spec i j) as [->|];
      [apply list_lookup_insert_eq; by apply lookup_lt_Some in Hx|by apply list_lookup_insert_ne]. }
  destruct n as [i|i|]; cbn in Hv |- *; unfold get_req.
  1,2: destruct (Hs i Hv) as [x E]; rewrite E; cbn; eexists; split; [done|]; split;
    [split; cbn; try done; [by rewrite length_insert|
       intros j y [(-> & <- & _)|[_ Hj]]%list_lookup_insert_Some; eauto]|];
    unfold set_reqs; cbn; rewrite Hg, Nat.eqb_refl by eauto; (split; [done|]); (split; [|eauto]);
    intros [j|j|] Hne; cbn; try done; unfold get_req; cbn; rewrite Hg by eauto;
    destruct (Nat.eqb_spec i j) as [->|]; rewrite ?E; done || congruence.
  eexists. split; [done|]. split; [split; cbn; eauto|]. split; [done|]. split; [|eauto].
  intros [j|j|] Hne; cbn; done.
Qed.

Lemma ordered_snoc l n : ordered l -> (forall i, n = AddInfo i -> FreeInfo i ∉ l) -> ordered (l ++ [n]).
Proof.
  induction l as [|m l IH]; cbn; [by destruct n; repeat split; try apply not_elem_of_nil|]. intros [Hm Hl] Hn. split.
  - destruct m; try done. rewrite not_elem_of_app, list_elem_of_singleton. split; [done|].
    intros <-. apply (Hn i); [done|]. rewrite elem_of_cons. auto.
  - apply IH; [done|]. intros i E Hi. apply (Hn i E). rewrite elem_of_cons. auto.
Qed.

(** Queueing an operation whose slot is in use. *)
Lemma wp_enqueue run hand busy slack d n ty dat :
  Inv run hand busy slack d -> op_valid n -> op_fits n (mk_op true ty dat) ->
  (S -> forall i, n = AddInfo i \/ n = FreeInfo i -> cnt i (token_req_idle_q (R d)) = 0) ->
  (S -> forall i, n = AddInfo i -> (FreeInfo i ∉ token_op_q (R d)) /\ busy <> Some (FreeInfo i)) ->
  wp (fun p => keeps run hand busy slack d p.1 /\ req_same d p.1 /\ M p.1 = M d)
    (push_back_token_op_info n ty dat d).
Proof.
  intros I Hv Hf Hidle Hord. unfold push_back_token_op_info.
  destruct (put_op_spec n (mk_op true ty dat) (R d) (i_reqs _ _ _ _ _ I) Hv)
    as (r' & Ep & [Ow Oi Oq Oc Ou Ol Os] & Eg & Eo & (o & Ego)).
  rewrite Ego. cbn [mbind res_bind]. destruct (used o) eqn:Hu.
  { cbn. split; [|done]. split; [done|apply Ext_refl]. }
  rewrite Ep. cbn [mbind res_bind]. rewrite Oq. destruct (decide _) as [Hin|Hni].
  { cbn. intros HS. destruct (op_used _ _ (i_op _ _ _ _ _ I HS) _ Hin) as (o' & E & U & _).
    congruence. }
  cbn. split; [|unfold req_same; by rewrite <- Ow, <- Oi, <- Ou, <- Oc]. split.
  - destruct I. split; cbn; rewrite ?Ow, ?Oi, ?Ou, ?Oc; try done.
    + by rewrite Ol.
    + intros x. unfold cur_list in *. cbn. rewrite Ou. done.
    + unfold cur_list in *. cbn. by rewrite Ou.
    + intros i x Hx. destruct (Os i x Hx) as (y & Hy & Est). destruct (i_st0 i y Hy).
      split; cbn; unfold test_req in *; rewrite ?Ow, ?Oi, ?Ou, ?Est; done.
    + intros HS. destruct (i_op0 HS) as [ND US OD BU]. split; cbn.
      * apply NoDup_app. split; [done|]. split; [|apply NoDup_singleton].
        intros x Hx ->%list_elem_of_singleton. done.
      * intros m [Hm| ->%list_elem_of_singleton]%elem_of_app; [|eauto].
        destruct (US m Hm) as (om & Em & Um & Fm). exists om. split; [|done].
        assert (m <> n) by congruence.
        rewrite <- Em, <- (Eo m) by done. by destruct m.
      * apply ordered_snoc; [done|]. intros i ->. by apply Hord.
      * intros m Em. destruct (BU m Em) as ((om & Eom & Um) & Hm & Ha).
        assert (m <> n). { intros ->. rewrite Ego in Eom. congruence. }
        split; [exists om; split; [|done]; rewrite <- Eom, <- (Eo m) by done; by destruct m|].
        split; [rewrite not_elem_of_app, list_elem_of_singleton; split; [done|congruence]|].
        intros i ->. rewrite not_elem_of_app, list_elem_of_singleton. split; [by apply Ha|].
        intros <-. by destruct (Hord HS i eq_refl).
    + intros HS Ht s Hi. destruct (i_idle0 HS Ht s Hi).
      split; cbn; rewrite not_elem_of_app, list_elem_of_singleton; (split; [done|]);
        intros E; specialize (Hidle HS s); rewrite Hidle in Hi by auto; lia.
    + rewrite i_arb0. unfold arb_of. cbn. by rewrite Ow, Ou.
    + destruct i_sema0 as [I1 I2]. rewrite zlen_app. change (zlen [n]) with 1. lia.
  - by apply Ext_same_M.
Qed.
(** *** Message queues *)

Lemma cnt_zero_linked m i : cnt i (msg_idle_q m) + cnt i (msg_wait_q m) + cnt i (msg_pend_q m) = 0 ->
  msg_linked m i = false.
Proof.
  intros E. unfold msg_linked. apply bool_decide_eq_false. rewrite cnt_elem, !cnt_app. lia.
Qed.

Lemma run_range run hand busy slack d i : Inv (i :: run) hand busy slack d ->
  (i < MAX_PHL_MSG_NUM)%nat /\ cnt i (msg_idle_q (M d)) = 0 /\ cnt i (msg_wait_q (M d)) = 0 /\
  cnt i (msg_pend_q (M d)) = 0.
Proof.
  intros I. pose proof (i_msgs _ _ _ _ _ I i) as E. rewrite cnt_cons, one_same in E.
  pose proof (cnt_nonneg i (msg_idle_q (M d))). pose proof (cnt_nonneg i (msg_wait_q (M d))).
  pose proof (cnt_nonneg i (msg_pend_q (M d))). pose proof (cnt_nonneg i run).
  destruct (Nat.ltb_spec i MAX_PHL_MSG_NUM); lia.
Qed.

Lemma run_linked run hand busy slack d i : Inv (i :: run) hand busy slack d -> msg_linked (M d) i = false.
Proof. intros I. destruct (run_range _ _ _ _ _ _ I) as (_ & ? & ? & ?). apply cnt_zero_linked. lia. Qed.

(** A new arrangement of the queues. *)
Lemma Inv_queues run hand busy slack d run' slack' s' idle' wait' pend' :
  Inv run hand busy slack d ->
  (forall x, cnt x idle' + cnt x wait' + cnt x pend' + cnt x run' =
             cnt x (msg_idle_q (M d)) + cnt x (msg_wait_q (M d)) + cnt x (msg_pend_q (M d)) + cnt x run) ->
  (C -> forall i ex, msg_ex_pool (M d) !! i = Some ex -> cnt i idle' = 0 ->
    IS_DISPR_CTRL (MSG_MDL_ID_FIELD (msg_id ex)) = false) ->
  0 <= s' -> zlen wait' + zlen (token_op_q (R d)) <= s' + slack' ->
  Inv run' hand busy slack' (set_sema s' (set_M (mk_msgs (msg_ex_pool (M d)) idle' wait' pend') d)).
Proof.
  intros [] Hc Hctl Hs Hsl. split; cbn; try done. intros x. rewrite Hc. apply i_msgs0.
Qed.

Lemma set_sema_same d : set_sema (msg_q_sema d) d = d.
Proof. by destruct d. Qed.

Lemma wp_on_abort run hand busy slack d : Inv run hand busy slack d ->
  wp (fun d' => keeps run hand busy slack d d' /\ req_same d d' /\ M d' = M d) (on_abort_msg_complete d).
Proof.
  intros I. unfold on_abort_msg_complete. apply wp_bind.
  destruct (keeps_frame run hand busy slack d (clear_disp DISPR_WAIT_ABORT_MSG_DONE d) I)
    as [I1 X1]; [done|done|done|cbn; lia|by exists []|unfold started; clear; flags; done|done|].
  eapply wp_mono; [apply (wp_enqueue _ _ _ _ _ RenewInfo _ _ I1); try done; by intros _ i []|].
  intros [d' b] (K & Rs & EM). cbn in K, Rs, EM |- *.
  split; [by eapply keeps_trans|]. split; [exact Rs|exact EM].
Qed.

Lemma SET_CUR_PENDING_keeps run hand busy slack d m e : Inv run hand busy slack d ->
  Inv run hand busy slack (SET_CUR_PENDING_EVT m e d).
Proof. intros I. by eapply Inv_frame. Qed.

(** A message that goes back to the idle queue. *)
Lemma Inv_recycle run hand busy slack d i ex :
  Inv (i :: run) hand busy slack d -> msg_ok (E d) ex ->
  let d' := put_msg i ex d in
  Inv run hand busy slack (set_M (set_idle (msg_idle_q (M d') ++ [i]) (M d')) d').
Proof.
  intros [] Hok. split; cbn; try done.
  - by rewrite length_insert.
  - intros x. etransitivity; [|apply (i_msgs0 x)]. autorewrite with cnt. lia.
  - intros j ex' [(-> & -> & _)|[_ Hj]]%list_lookup_insert_Some; eauto.
  - intros HC j ex' [(-> & -> & _)|[_ Hj]]%list_lookup_insert_Some;
      autorewrite with cnt; rewrite ?one_same; pose proof (cnt_nonneg j (msg_idle_q (M d))).
    + intros. exfalso. lia.
    + intros. apply (i_ctl0 HC j); [done|]. unfold one in *. destruct (Nat.eqb j i); lia.
Qed.

Lemma wp_push_idle run hand busy slack d i : Inv (i :: run) hand busy slack d ->
  wp (fun d' => keeps run hand busy slack d d' /\ req_same d d' /\
        (forall ex, msg_ex_pool (M d) !! i = Some ex -> test_msg ex MSG_STATUS_FOR_ABORT = false -> R d' = R d))
    (push_back_idle_msg i d).
Proof.
  intros I. destruct (run_range _ _ _ _ _ _ I) as (Hi & Hz1 & Hz2 & Hz3).
  unfold push_back_idle_msg. apply wp_bind. eapply wp_get_msg; [done|done|]. intros ex Hex Hok.
  set (notify := test_msg ex MSG_STATUS_NOTIFY_COMPLETE && completion ex).
  set (ex1 := if notify && test_msg ex MSG_STATUS_CANCEL then _ else ex).
  set (d1 := if notify then emit _ d else d).
  set (ex2 := if notify then _ else ex1).
  assert (I1 : Inv (i :: run) hand busy slack d1 /\ Ext d d1 /\ R d1 = R d).
  { unfold d1. destruct notify; [|split; [done|split; [apply Ext_refl|done]]].
    assert (K : keeps (i :: run) hand busy slack d (emit (EvComplete i (msg_id ex1)) d)).
    { eapply keeps_frame; [done|done|done|done|cbn; lia|by exists [EvComplete i (msg_id ex1)]|done|].
      cbn [log emit replay]. by rewrite (i_arb _ _ _ _ _ I). }
    by destruct K. }
  destruct I1 as (I1 & X1 & R1). apply wp_bind.
  eapply wp_mono with (P := fun d2 => keeps (i :: run) hand busy slack d d2 /\ req_same d d2 /\
    (test_msg ex2 MSG_STATUS_FOR_ABORT = false -> R d2 = R d)).
  { destruct (test_msg ex2 MSG_STATUS_FOR_ABORT).
    - eapply wp_mono; [by apply wp_on_abort|]. cbn. intros d2 ([I2 X2] & R2 & _).
      split; [split; [done|by eapply Ext_trans]|]. split; [|done].
      eapply req_same_trans; [by apply req_same_eq|done].
    - apply wp_ret. split; [by split|]. split; [by apply req_same_eq|done]. }
  clear d1 I1 X1 R1. intros d2 ([I2 X2] & R2 & P2).
  set (d3 := if pending_evt_id (E d2) _ =? _ then _ else d2).
  assert (I3 : Inv (i :: run) hand busy slack d3 /\ Ext d2 d3 /\ R d3 = R d2).
  { unfold d3. destruct (_ =? _); [|split; [done|split; [apply Ext_refl|done]]].
    split; [by apply SET_CUR_PENDING_keeps|]. split; [by apply Ext_same_M|done]. }
  destruct I3 as (I3 & X3 & R3).
  assert (Hok' : msg_ok (E d3) (with_id (fun _ => 0) (with_status (fun _ => 0) ex2))).
  { assert (Hok3 : msg_ok (E d3) ex).
    { eapply msg_same_ok; [|done]. eapply e_mods. by eapply Ext_trans. }
    destruct Hok3 as [L _].
    split; [unfold ex2, ex1; by destruct notify, (test_msg ex MSG_STATUS_CANCEL)|].
    intros T. exfalso. by flags. }
  assert (Hl : msg_linked (M (put_msg i (with_id (fun _ => 0) (with_status (fun _ => 0) ex2)) d3)) i = false).
  { apply (run_linked _ _ _ _ _ _ I3). }
  rewrite Hl. apply wp_ret. split.
  { split; [by apply Inv_recycle|]. eapply Ext_trans; [by eapply Ext_trans|]. by apply Ext_same_M. }
  split; [eapply req_same_trans; [exact R2|by apply req_same_eq]|].
  intros ex' Hex' Hfa. rewrite Hex in Hex'. injection Hex' as <-. cbn. rewrite R3. apply P2.
  unfold ex2, ex1. revert Hfa. clear. intros Hfa.
  destruct notify, (test_msg ex MSG_STATUS_CANCEL); cbn [andb]; flags; done.
Qed.

Definition fixed_flags (ex ex' : phl_dispr_msg_ex) : Prop :=
  m_module ex' = m_module ex /\ msg_id ex' = msg_id ex /\
  test_msg ex' MSG_STATUS_OWNER_BK_MDL = test_msg ex MSG_STATUS_OWNER_BK_MDL.

Lemma fixed_ok e ex ex' : fixed_flags ex ex' -> msg_ok e ex -> msg_ok e ex'.
Proof. intros (Em & _ & Ef) [L O]. split; rewrite Em; [done|by rewrite Ef]. Qed.

(** A message that keeps its identifier and owner. *)
Lemma keeps_put run hand busy slack d i ex ex' :
  Inv run hand busy slack d -> msg_ex_pool (M d) !! i = Some ex -> msg_ok (E d) ex' ->
  MSG_MDL_ID_FIELD (msg_id ex') = MSG_MDL_ID_FIELD (msg_id ex) ->
  keeps run hand busy slack d (put_msg i ex' d).
Proof.
  intros I Hi Hok Em. split; [|by apply Ext_same_M]. apply Inv_put_msg; [done|done|].
  intros HC Hz. rewrite Em. by eapply i_ctl.
Qed.

Lemma wp_enq run hand busy slack d i : Inv (i :: run) hand busy slack d ->
  wp (fun d' => keeps (i :: run) hand busy slack d d' /\ R d' = R d /\
        msg_q_sema d' = msg_q_sema d /\ msg_wait_q (M d') = msg_wait_q (M d)) (enq_msg i d).
Proof.
  intros I. destruct (run_range _ _ _ _ _ _ I) as (Hi & _). unfold enq_msg. apply wp_bind.
  eapply wp_get_msg; [done|done|]. intros ex Hex Hok. rewrite (run_linked _ _ _ _ _ _ I).
  apply wp_ret. split; [|done]. eapply keeps_put; [done|done| |done].
  eapply fixed_ok; [|done]. split; [done|]. split; [done|]. by flags.
Qed.

Lemma wp_push_wait run hand busy slack d i : Inv (i :: run) hand busy slack d ->
  wp (fun d' => keeps run hand busy slack d d' /\ R d' = R d) (push_back_wait_msg i d).
Proof.
  intros I. unfold push_back_wait_msg. apply wp_bind. eapply wp_mono; [by apply wp_enq|].
  intros d1 ([I1 X1] & R1 & Es & Ew). apply wp_ret. split; [|done]. split.
  - apply (Inv_queues _ _ _ _ _ run slack (msg_q_sema d1 + 1) (msg_idle_q (M d1))
             (msg_wait_q (M d1) ++ [i]) (msg_pend_q (M d1)) I1).
    + intros x. autorewrite with cnt. lia.
    + by eapply i_ctl.
    + destruct (i_sema _ _ _ _ _ I1). lia.
    + destruct (i_sema _ _ _ _ _ I1). zlens. lia.
  - eapply Ext_trans; [exact X1|]. split; [by exists []|intros _; by exists [i]|done|done].
Qed.

Lemma pq_insert_last p i q : (forall j, p j = false) -> pq_insert p i q = q ++ [i].
Proof. intros Hp. induction q as [|j q IH]; cbn; [done|]. by rewrite Hp, IH. Qed.

Lemma zlen_pq_insert p i q : zlen (pq_insert p i q) = zlen q + 1.
Proof. induction q as [|j q IH]; cbn; [done|]. destruct (p j); zlens; lia. Qed.

Lemma wp_insert run hand busy slack d i : Inv (i :: run) hand busy slack d ->
  wp (fun d' => keeps run hand busy slack d d' /\ R d' = R d) (insert_msg_by_priority i d).
Proof.
  intros I. unfold insert_msg_by_priority. apply wp_bind. eapply wp_mono; [by apply wp_enq|].
  intros d1 ([I1 X1] & R1 & Es & Ew). apply wp_ret. split; [|done]. split.
  - apply (Inv_queues _ _ _ _ _ run slack (msg_q_sema d1 + 1) (msg_idle_q (M d1)) _
             (msg_pend_q (M d1)) I1).
    + intros x. autorewrite with cnt. lia.
    + by eapply i_ctl.
    + destruct (i_sema _ _ _ _ _ I1). lia.
    + destruct (i_sema _ _ _ _ _ I1). rewrite zlen_pq_insert. lia.
  - eapply Ext_trans; [exact X1|]. split; [by exists []| |done|done]. intros HC. exists [i]. cbn.
    apply pq_insert_last. intros j. unfold is_higher_priority.
    destruct (run_range _ _ _ _ _ _ I1) as (Hi & Hz & _).
    destruct (msg_ex_pool (M d1) !! i) as [ex|] eqn:Ei; [|done].
    destruct (msg_ex_pool (M d1) !! j); [|done]. by rewrite (i_ctl _ _ _ _ _ I1 HC i ex Ei Hz).
Qed.

Lemma wp_push_pending run hand busy slack d i : Inv (i :: run) hand busy slack d ->
  wp (fun d' => keeps run hand busy slack d d' /\ R d' = R d) (push_back_pending_msg i d).
Proof.
  intros I. unfold push_back_pending_msg. apply wp_bind. eapply wp_mono; [by apply wp_enq|].
  intros d1 ([I1 X1] & R1 & Es & Ew). destruct (run_range _ _ _ _ _ _ I1) as (Hi & _).
  apply wp_bind. eapply wp_get_msg; [done|done|]. intros ex Hex Hok.
  set (d2 := if test_msg ex _ then _ else d1).
  assert (K2 : keeps (i :: run) hand busy slack d1 d2 /\ R d2 = R d1 /\ msg_q_sema d2 = msg_q_sema d1).
  { unfold d2. destruct (test_msg ex _); [|split; [split; [done|apply Ext_refl]|done]].
    split; [|done]. split; [by apply SET_CUR_PENDING_keeps|by apply Ext_same_M]. }
  destruct K2 as ([I2 X2] & R2 & E2). apply wp_ret. split; [|cbn; congruence]. split.
  - rewrite <- (set_sema_same (set_M _ d2)). destruct (i_sema _ _ _ _ _ I2).
    apply (Inv_queues _ _ _ _ _ run slack (msg_q_sema d2) (msg_idle_q (M d2)) (msg_wait_q (M d2)) _ I2).
    + intros x. autorewrite with cnt. lia.
    + by eapply i_ctl.
    + done.
    + done.
  - eapply Ext_trans; [exact X1|]. eapply Ext_trans; [exact X2|]. by apply Ext_same_M.
Qed.

Lemma pop_pending_keeps run hand busy slack d i d' : Inv run hand busy slack d ->
  pop_front_pending_msg d = Some (i, d') -> keeps (i :: run) hand busy slack d d' /\ R d' = R d.
Proof.
  intros I. unfold pop_front_pending_msg. destruct (msg_pend_q (M d)) as [|j l] eqn:Eq; [done|].
  intros [= <- <-]. split; [|done]. split; [|by apply Ext_same_M].
  rewrite <- (set_sema_same (set_M _ d)). destruct (i_sema _ _ _ _ _ I).
  apply (Inv_queues _ _ _ _ _ (j :: run) slack (msg_q_sema d) (msg_idle_q (M d)) (msg_wait_q (M d)) l I).
  - intros x. rewrite Eq. autorewrite with cnt. lia.
  - by eapply i_ctl.
  - done.
  - done.
Qed.

Lemma wp_requeue run hand busy slack n d : Inv run hand busy slack d ->
  wp (fun d' => keeps run hand busy slack d d' /\ R d' = R d) (requeue_pending n d).
Proof.
  revert d. induction n as [|n IH]; intros d I; cbn [requeue_pending].
  { split; [split; [done|apply Ext_refl]|done]. }
  destruct (pop_front_pending_msg d) as [[i d1]|] eqn:Ep.
  2: { split; [split; [done|apply Ext_refl]|done]. }
  destruct (pop_pending_keeps _ _ _ _ _ _ _ I Ep) as [[I1 X1] R1].
  destruct (run_range _ _ _ _ _ _ I1) as (Hi & _).
  apply wp_bind. eapply wp_get_msg; [done|done|]. intros ex Hex Hok. apply wp_bind.
  eapply wp_mono with (P := fun d' => keeps run hand busy slack d1 d' /\ R d' = R d1).
  { destruct (IS_DISPR_CTRL _); [by apply wp_insert|by apply wp_push_wait]. }
  intros d2 [[I2 X2] R2]. eapply wp_mono; [by apply IH|]. intros d3 [K3 R3]. split.
  - eapply keeps_trans; [exact X1|]. by eapply keeps_trans.
  - congruence.
Qed.

Lemma status_keeps run hand busy slack d x : Inv run hand busy slack d ->
  TEST_STATUS_FLAG x DISPR_STARTED = started d ->
  keeps run hand busy slack d (set_status x d).
Proof. intros I Ht. eapply keeps_frame; [done|done|done|done|cbn; lia|by exists []|done|done]. Qed.

Lemma wp_clear_pending run hand busy slack d : Inv run hand busy slack d ->
  wp (fun d' => keeps run hand busy slack d d' /\ R d' = R d) (clear_pending_msg d).
Proof.
  intros I. unfold clear_pending_msg. destruct (negb _).
  { split; [split; [done|apply Ext_refl]|done]. }
  destruct (status_keeps _ _ _ _ _ (CLEAR_STATUS_FLAG (status d) DISPR_CLR_PEND_MSG) I) as [I1 X1].
  { unfold started. clear. flags. done. }
  eapply wp_mono; [by apply wp_requeue|]. intros d2 [K2 R2]. split; [by eapply keeps_trans|done].
Qed.

Lemma clr_pending_keeps run hand busy slack d : Inv run hand busy slack d ->
  keeps run hand busy slack d (dispr_clr_pending_msg d).
Proof. intros I. eapply keeps_frame; [done|done|done|done|cbn; lia|by exists []|unfold started; clear; flags; done|done]. Qed.

(** *** Sending *)

Definition attr_ok (a : option phl_msg_attribute) : Prop :=
  match a with
  | Some a => forallb in_bitmap (ztake (id_len a) (default [] (id_arr a))) = true
  | None => True
  end.

(** A message that has no owner yet. *)
Definition fresh (id : Z) (ex : phl_dispr_msg_ex) : Prop :=
  m_module ex = None /\ msg_id ex = id /\ test_msg ex MSG_STATUS_OWNER_BK_MDL = false /\
  test_msg ex MSG_STATUS_FOR_ABORT = false.

Lemma wp_apply_attr d mdl a id ex : fresh id ex -> (S -> attr_ok (Some a)) ->
  wp (fresh id) (apply_attr d mdl a ex).
Proof.
  intros Hf Ha. unfold apply_attr, set_msg_custom_bitmap, _clr_bitmap_bit, _add_bitmap_bit.
  cbn [attr_ok] in Ha. destruct (forallb in_bitmap _).
  2: { destruct (negb (Z.land (opt a) MSG_OPT_BLIST_PRESENT =? 0)); cbn; intros HS; by specialize (Ha HS). }
  apply wp_bind.
  eapply wp_mono with (P := fresh id).
  { destruct (negb (Z.land (opt a) MSG_OPT_BLIST_PRESENT =? 0)); cbn; exact Hf. }
  intros ex1 (F1 & F2 & F3 & F4). apply wp_ret.
  destruct (has_completion a), (TEST_STATUS_FLAG _ MSG_OPT_CLR_SNDR_MSG_IF_PENDING),
    (TEST_STATUS_FLAG _ MSG_OPT_PENDING_DURING_CANNOT_IO); (split; [done|]); (split; [done|]);
    revert F3 F4; clear; intros F3 F4; flags; done.
Qed.

Lemma set_owner_ok d mdl c st ex id : mods_ok (E d) -> fresh id ex ->
  msg_ok (E d) (set_owner d mdl c st ex) /\ msg_id (set_owner d mdl c st ex) = id /\
  test_msg (set_owner d mdl c st ex) MSG_STATUS_FOR_ABORT = false.
Proof.
  intros Hm (F1 & F2 & F3 & F4). unfold set_owner, get_module_by_id, live.
  assert (Hno : forall e, msg_ok e ex).
  { intros e. split; rewrite F1; [done|by rewrite F3]. }
  assert (Hreq : forall e, msg_ok e (set_flag MSG_STATUS_OWNER_REQ ex)).
  { intros e. split; cbn; rewrite F1; [done|]. revert F3. clear. intros F3. flags. by rewrite F3. }
  assert (Hab : test_msg (set_flag MSG_STATUS_OWNER_REQ ex) MSG_STATUS_FOR_ABORT = false).
  { revert F4. clear. intros F4. flags. done. }
  destruct (IS_DISPR_CTRL mdl).
  { destruct (test_disp d DISPR_CTRL_PRESENT).
    - split; [split; cbn; [|done]; intros m [= <-]; by left|]. split; [done|].
      revert F4. clear. intros F4. flags. done.
    - destruct (_ || _); (split; [apply Hreq || apply Hno|]; by split). }
  destruct (negb _).
  { destruct (_ || _); (split; [apply Hreq || apply Hno|]; by split). }
  destruct (mdl_in_queues (E d) mdl) eqn:Hq.
  - split; [split; cbn; [|done]; intros m [= <-]; by right|]. split; [done|].
    revert F4. clear. intros F4. flags. done.
  - destruct (_ || _); (split; [apply Hreq || apply Hno|]; by split).
Qed.

Lemma pop_idle_put run hand busy slack d i d1 ex : Inv run hand busy slack d ->
  pop_front_idle_msg d = Some (i, d1) -> msg_ok (E d) ex ->
  (C -> IS_DISPR_CTRL (MSG_MDL_ID_FIELD (msg_id ex)) = false) ->
  keeps (i :: run) hand busy slack d (put_msg i ex d1) /\ R (put_msg i ex d1) = R d.
Proof.
  intros I. unfold pop_front_idle_msg. destruct (msg_idle_q (M d)) as [|j l] eqn:Eq; [done|].
  intros [= -> <-] Hok Hc. split; [|done]. split; [|by apply Ext_same_M]. destruct I.
  split; cbn; try done.
  - by rewrite !length_insert.
  - intros x. etransitivity; [|apply (i_msgs0 x)]. rewrite Eq. autorewrite with cnt. lia.
  - rewrite list_insert_insert_eq.
    intros j ex' [(-> & -> & _)|[_ Hj]]%list_lookup_insert_Some; eauto.
  - rewrite list_insert_insert_eq.
    intros HC j ex' [(-> & -> & _)|[Hne Hj]]%list_lookup_insert_Some Hz; [by apply Hc|].
    apply (i_ctl0 HC j); [done|]. rewrite Eq, cnt_cons, Hz. unfold one.
    destruct (Nat.eqb_spec j i); [congruence|lia].
Qed.

Lemma cur_range run hand busy slack d s : Inv run hand busy slack d -> cur_cmd_req (R d) = Some s ->
  (s < MAX_CMD_REQ_NUM)%nat /\ cnt s (token_req_idle_q (R d)) = 0 /\
  cnt s (token_req_wait_q (R d)) = 0 /\ cnt s hand = 0.
Proof.
  intros I E. pose proof (i_slots _ _ _ _ _ I s) as Hs. unfold cur_list in Hs. rewrite E in Hs.
  change (option_list (Some s)) with [s] in Hs. rewrite cnt_cons, one_same in Hs.
  pose proof (cnt_nonneg s (token_req_idle_q (R d))). pose proof (cnt_nonneg s (token_req_wait_q (R d))).
  pose proof (cnt_nonneg s hand). rewrite cnt_nil in Hs.
  destruct (Nat.ltb_spec s MAX_CMD_REQ_NUM); lia.
Qed.

Lemma wp_send run hand busy slack d id a : Inv run hand busy slack d ->
  (S -> attr_ok a) -> (C -> IS_DISPR_CTRL (MSG_MDL_ID_FIELD id) = false) ->
  wp (fun p => keeps run hand busy slack d p.1.1 /\ R p.1.1 = R d) (dispr_send_msg id a d).
Proof.
  intros I Ha Hc.
  assert (Hstay : forall st (h : option Z), wp (fun p : cmd_dispatcher * rtw_phl_status * option Z =>
            keeps run hand busy slack d p.1.1 /\ R p.1.1 = R d) (Ret (d, st, h))).
  { intros. split; [|done]. split; [done|apply Ext_refl]. }
  unfold dispr_send_msg. apply wp_bind.
  assert (Hcur : wp (fun _ => True) (get_cur_cmd_req_id (R d))).
  { unfold get_cur_cmd_req_id. destruct (cur_cmd_req (R d)) as [s|] eqn:Ec; [|done].
    destruct (cur_range _ _ _ _ _ _ I Ec) as (Hs & _). apply wp_bind.
    by eapply wp_get_req. }
  eapply wp_mono; [exact Hcur|]. intros [c st] _.
  destruct (negb _); [apply Hstay|]. destruct (match a with Some a => _ | None => false end); [apply Hstay|].
  destruct (sender_refused _ _ _ _); [apply Hstay|].
  destruct (pop_front_idle_msg d) as [[i d1]|] eqn:Ep; [|apply Hstay]. clear Hstay.
  assert (E1 : E d1 = E d).
  { revert Ep. unfold pop_front_idle_msg. destruct (msg_idle_q (M d)); [done|]. by intros [= _ <-]. }
  apply wp_bind. eapply wp_mono with (P := fresh id).
  { assert (F : fresh id (set_msg_bitmap (bitmap (E d1)) (MSG_MDL_ID_FIELD id) (mk_msg 0 id 0 0 false None))).
    { split; [done|]. split; [done|]. split; flags; done. }
    destruct a; [by apply wp_apply_attr|done]. }
  intros ex F. destruct (set_owner_ok d1 (MSG_MDL_ID_FIELD id) c st ex id) as (Hok & Hid & Hfa); [|done|].
  { rewrite E1. apply I. }
  rewrite E1 in Hok. revert Hok Hid Hfa. generalize (set_owner d1 (MSG_MDL_ID_FIELD id) c st ex). clear ex F.
  intros ex Hok Hid Hfa. set (ab := test_msg ex MSG_STATUS_OWNER_REQ && _).
  destruct (ab && _) eqn:Hab.
  - apply wp_bind.
    destruct (pop_idle_put run hand busy slack d i d1
                (with_id (fun m => SET_MSG_INDC_FIELD m MSG_INDC_FAIL) ex) I Ep) as [[I2 X2] R2].
    + destruct Hok as [L O]. split; [done|]. intros T. apply O. revert T. clear. intros T. flags. done.
    + cbn. rewrite mdl_field_set_indc, Hid by done. done.
    + eapply wp_mono; [by apply wp_push_idle|]. intros d3 ([I3 X3] & R3 & P3). cbn [fst]. split.
      * split; [done|by eapply Ext_trans].
      * etransitivity; [|exact R2]. eapply P3; [|].
        -- cbn. apply list_lookup_insert_eq.
           destruct (run_range _ _ _ _ _ _ I2) as (Hi & _).
           revert Hi. rewrite <- (i_pool _ _ _ _ _ I2). cbn. rewrite length_insert. done.
        -- revert Hfa. clear. intros T. flags. done.
  - set (ex2 := if ab then _ else ex). set (d2 := if ab then _ else d1).
    destruct (pop_idle_put run hand busy slack d i d1 (set_flag MSG_STATUS_PRE_PHASE ex2) I Ep)
      as [[I2 X2] R2].
    + eapply fixed_ok; [|exact Hok]. unfold ex2. destruct ab; (split; [done|]); (split; [done|]);
        clear; flags; done.
    + intros HC. unfold ex2. destruct ab; cbn; rewrite Hid; by apply Hc.
    + assert (K2 : keeps (i :: run) hand busy slack d (put_msg i (set_flag MSG_STATUS_PRE_PHASE ex2) d2) /\
                 R (put_msg i (set_flag MSG_STATUS_PRE_PHASE ex2) d2) = R d).
      { unfold d2. destruct ab; [|by split]. split; [|done].
        eapply keeps_trans; [exact X2|].
        apply (status_keeps _ _ _ _ _ (SET_STATUS_FLAG (status d1) DISPR_WAIT_ABORT_MSG_DONE) I2).
        unfold started. clear. flags. done. }
      destruct K2 as [[I3 X3] R3]. apply wp_bind.
      eapply wp_mono with (P := fun d' => keeps run hand busy slack
                (put_msg i (set_flag MSG_STATUS_PRE_PHASE ex2) d2) d' /\
                R d' = R (put_msg i (set_flag MSG_STATUS_PRE_PHASE ex2) d2)).
      { destruct (IS_DISPR_CTRL _); [by apply wp_insert|by apply wp_push_wait]. }
      intros d4 [K4 R4]. cbn [fst]. split; [by eapply keeps_trans|etransitivity; [exact R4|exact R3]].
Qed.

(** *** The calls *)

Definition call_ok (c : call) : Prop :=
  match c with SendMsg _ a => attr_ok a | _ => True end.
(** Calls that make no controller send. *)
Definition plain_call (c : call) : Prop :=
  match c with
  | SendMsg id _ => IS_DISPR_CTRL (MSG_MDL_ID_FIELD id) = false
  | NotifyDevIo _ _ => False
  | _ => True
  end.
Definition no_add (c : call) : Prop := match c with AddTokenReq _ => False | _ => True end.

Lemma wp_cancel_msg run hand busy slack d h : Inv run hand busy slack d ->
  wp (fun p => keeps run hand busy slack d p.1 /\ req_same d p.1) (dispr_cancel_msg h d).
Proof.
  intros I. unfold dispr_cancel_msg.
  assert (Hstay : forall st, wp (fun p : cmd_dispatcher * rtw_phl_status =>
            keeps run hand busy slack d p.1 /\ req_same d p.1) (Ret (d, st))).
  { intros. split; [|done]. split; [done|apply Ext_refl]. }
  destruct (negb _); [apply Hstay|].
  destruct (Z.leb_spec (Z.of_nat MAX_PHL_MSG_NUM) (GET_IDX_FROM_HDL h)) as [|Hr];
    [rewrite orb_true_r; apply Hstay|].
  destruct (negb _ || _); [apply Hstay|]. apply wp_bind. eapply wp_get_msg; [done|unfold MAX_PHL_MSG_NUM in *; lia|].
  intros ex Hex Hok. destruct (_ && _); [apply Hstay|]. apply wp_ret. split; [|done].
  eapply keeps_put; [done|done| |done]. eapply fixed_ok; [|exact Hok]. split; [done|]. split; [done|].
  clear. flags. done.
Qed.

(** A slot whose status changes without leaving its queue. *)
Lemma Inv_put_req run hand busy slack d s x x' : Inv run hand busy slack d ->
  token_req_ex_pool (R d) !! s = Some x -> slot_ok hand (R d) s x' ->
  add_req_info x' = add_req_info x -> free_req_info x' = free_req_info x ->
  Inv run hand busy slack (put_req s x' d).
Proof.
  intros [] Hx Hs Ea Ef.
  assert (Eg : forall n, get_op n (R (put_req s x' d)) = get_op n (R d)).
  { intros [i|i|]; cbn; unfold get_req; cbn; try done.
    all: destruct (decide (s = i)) as [->|]; [|by rewrite list_lookup_insert_ne by done].
    all: rewrite list_lookup_insert_eq by (by apply lookup_lt_Some in Hx); rewrite Hx; cbn; congruence. }
  split; cbn; try done.
  - by rewrite length_insert.
  - intros i y [(-> & -> & _)|[_ Hi]]%list_lookup_insert_Some.
    + destruct Hs. by split.
    + destruct (i_st0 i y Hi). by split.
  - intros HS. destruct (i_op0 HS) as [ND US OD BU]. split; cbn; try done.
    + intros n Hn. rewrite Eg. by apply US.
    + intros n Hn. rewrite Eg. by apply BU.
Qed.

Lemma put_req_keeps run hand busy slack d s x x' : Inv run hand busy slack d ->
  token_req_ex_pool (R d) !! s = Some x -> slot_ok hand (R d) s x' ->
  add_req_info x' = add_req_info x -> free_req_info x' = free_req_info x ->
  keeps run hand busy slack d (put_req s x' d).
Proof. intros. split; [by eapply Inv_put_req|by apply Ext_same_M]. Qed.

Lemma wp_cancel_and_enqueue run hand busy slack d s ty : Inv run hand busy slack d ->
  (s < MAX_CMD_REQ_NUM)%nat -> (ty = TOKEN_OP_FREE_CMD_REQ \/ ty = TOKEN_OP_CANCEL_CMD_REQ) ->
  cnt s (token_req_idle_q (R d)) = 0 ->
  wp (fun p => keeps run hand busy slack d p.1 /\ req_same d p.1) (cancel_and_enqueue s ty d).
Proof.
  intros I Hs Hty Hidle. unfold cancel_and_enqueue. apply wp_bind. eapply wp_get_req; [done|done|].
  intros x Hx [S1 S2 S3].
  destruct (put_req_keeps run hand busy slack d s x (req_set REQ_STATUS_CANCEL x) I Hx) as [I1 X1]; [|done|done|].
  { split; [lia| |].
    - intros T. apply S2. revert T. clear. flags. done.
    - intros T. apply S3. revert T. clear. flags. done. }
  apply wp_bind. eapply wp_mono; [apply (wp_enqueue _ _ _ _ _ (FreeInfo s) ty (Z.of_nat s) I1)|].
  - done.
  - by split.
  - intros _ i [|[= <-]]; done.
  - done.
  - intros [d2 b] (K2 & R2 & _). cbn in K2, R2 |- *. split; [by eapply keeps_trans|].
    eapply req_same_trans; [|exact R2]. done.
Qed.

(** A request whose status shows that it is not idle. *)
Lemma not_idle run hand busy slack d s x f : Inv run hand busy slack d ->
  token_req_ex_pool (R d) !! s = Some x -> 0 <= f -> test_req x (BIT f) = true ->
  cnt s (token_req_idle_q (R d)) = 0.
Proof.
  intros I Hx Hf T. destruct (i_st _ _ _ _ _ I s x Hx) as [S1 _ _].
  pose proof (cnt_nonneg s (token_req_idle_q (R d))). destruct (decide (cnt s (token_req_idle_q (R d)) = 0));
    [done|]. unfold test_req in T. rewrite S1, test_0 in T by lia. done.
Qed.

Lemma wp_cancel_req run hand busy slack d h : Inv run hand busy slack d ->
  wp (fun p => keeps run hand busy slack d p.1 /\ req_same d p.1) (dispr_cancel_token_req h d).
Proof.
  intros I. unfold dispr_cancel_token_req.
  assert (Hstay : forall st, wp (fun p : cmd_dispatcher * rtw_phl_status =>
            keeps run hand busy slack d p.1 /\ req_same d p.1) (Ret (d, st))).
  { intros. split; [|done]. split; [done|apply Ext_refl]. }
  destruct (negb _); [apply Hstay|].
  destruct (Z.leb_spec (Z.of_nat MAX_CMD_REQ_NUM) (GET_IDX_FROM_HDL h)) as [|Hr];
    [rewrite orb_true_r; apply Hstay|].
  destruct (negb _ || _); [apply Hstay|]. apply wp_bind. eapply wp_get_req; [done|unfold MAX_CMD_REQ_NUM in *; lia|].
  intros x Hx Hok. destruct (negb _ && _ && _) eqn:T; [apply Hstay|].
  apply wp_cancel_and_enqueue; [done|unfold MAX_CMD_REQ_NUM in *; lia|by right|].
  destruct (test_req x REQ_STATUS_ENQ) eqn:T1; [by eapply (not_idle _ _ _ _ _ _ _ 0)|].
  destruct (test_req x REQ_STATUS_RUN) eqn:T2; [by eapply (not_idle _ _ _ _ _ _ _ 1)|].
  destruct (test_req x REQ_STATUS_PREPARE) eqn:T3; [by eapply (not_idle _ _ _ _ _ _ _ 4)|]. done.
Qed.

Lemma wp_free run hand busy slack d h : Inv run hand busy slack d ->
  wp (fun p => keeps run hand busy slack d p.1 /\ req_same d p.1) (dispr_free_token h d).
Proof.
  intros I. unfold dispr_free_token.
  assert (Hstay : forall st, wp (fun p : cmd_dispatcher * rtw_phl_status =>
            keeps run hand busy slack d p.1 /\ req_same d p.1) (Ret (d, st))).
  { intros. split; [|done]. split; [done|apply Ext_refl]. }
  destruct (negb _); [apply Hstay|].
  destruct (Z.leb_spec (Z.of_nat MAX_CMD_REQ_NUM) (GET_IDX_FROM_HDL h)) as [|Hr];
    [rewrite orb_true_r; apply Hstay|].
  destruct (_ || _); [apply Hstay|]. apply wp_bind. eapply wp_get_req; [done|unfold MAX_CMD_REQ_NUM in *; lia|].
  intros x Hx Hok. destruct (negb _ && _) eqn:T; [apply Hstay|].
  apply wp_cancel_and_enqueue; [done|unfold MAX_CMD_REQ_NUM in *; lia|by left|].
  destruct (test_req x REQ_STATUS_RUN) eqn:T2; [by eapply (not_idle _ _ _ _ _ _ _ 1)|].
  destruct (test_req x REQ_STATUS_PREPARE) eqn:T3; [by eapply (not_idle _ _ _ _ _ _ _ 4)|]. done.
Qed.

Lemma wp_notify_io run hand busy slack d m b : Inv run hand busy slack d -> (C -> False) ->
  wp (fun p => keeps run hand busy slack d p.1 /\ req_same d p.1) (dispr_notify_dev_io_status m b d).
Proof.
  intros I HC.
  assert (Hsend : forall d1 b, keeps run hand busy slack d d1 -> req_same d d1 ->
    wp (fun p => keeps run hand busy slack d p.1 /\ req_same d p.1) (send_dev_io_status_change b d1)).
  { intros d1 b1 [I1 X1] R1. unfold send_dev_io_status_change. apply wp_bind.
    eapply wp_mono; [by apply wp_send|]. intros [[d2 st] h] [K2 R2]. cbn in K2, R2 |- *.
    split; [by eapply keeps_trans|].
    eapply req_same_trans; [exact R1|by apply req_same_eq]. }
  unfold dispr_notify_dev_io_status. destruct b; cbn [negb].
  - destruct (test_disp d _); [|split; [split; [done|apply Ext_refl]|done]].
    apply wp_bind. eapply wp_mono; [apply Hsend|].
    + eapply keeps_frame; [done|done|done|done|cbn; lia|by exists []|unfold started; clear; flags; done|done].
    + done.
    + intros [d2 st] [[I2 X2] R2]. cbn in *. split; [|done].
      eapply keeps_trans; [exact X2|]. by apply clr_pending_keeps.
  - destruct (negb _); [|split; [split; [done|apply Ext_refl]|done]].
    apply Hsend; [|done]. eapply keeps_frame; [done|done|done|done|cbn; lia|by exists []|unfold started; clear; flags; done|done].
Qed.

(** A new request takes a slot that no operation names. *)
Lemma wp_add_req run hand busy slack d r : Inv run hand busy slack d -> (S -> busy = None) ->
  wp (fun p => keeps run hand busy slack d p.1.1 /\ cur_cmd_req (R p.1.1) = cur_cmd_req (R d))
     (dispr_add_token_req r d).
Proof.
  intros I HB. unfold dispr_add_token_req.
  destruct (started d) eqn:Hst; unfold started in Hst; rewrite Hst; cbn [negb orb];
    [|split; [split; [done|apply Ext_refl]|done]].
  destruct (negb _); [split; [split; [done|apply Ext_refl]|done]|]. unfold pop_front_idle_req.
  destruct (token_req_idle_q (R d)) as [|s l] eqn:Eq; [split; [split; [done|apply Ext_refl]|done]|].
  assert (Hidle : 0 < cnt s (token_req_idle_q (R d))).
  { rewrite Eq, cnt_cons, one_same. pose proof (cnt_nonneg s l). lia. }
  assert (Hop : S -> (AddInfo s ∉ token_op_q (R d)) /\ (FreeInfo s ∉ token_op_q (R d))).
  { intros HS. by apply (i_idle _ _ _ _ _ I HS). }
  destruct (decide _); [by intros HS; destruct (Hop HS)|].
  destruct (decide _); [by intros HS; destruct (Hop HS)|]. cbn [mbind res_bind].
  assert (Hs : (s < MAX_CMD_REQ_NUM)%nat /\ cnt s l = 0 /\ cnt s (token_req_wait_q (R d)) = 0 /\
     cnt s hand = 0 /\ cnt s (cur_list (R d)) = 0).
  { pose proof (i_slots _ _ _ _ _ I s) as E. rewrite Eq, cnt_cons, one_same in E.
    pose proof (cnt_nonneg s l). pose proof (cnt_nonneg s (token_req_wait_q (R d))).
    pose proof (cnt_nonneg s hand). pose proof (cnt_nonneg s (cur_list (R d))).
    destruct (Nat.ltb_spec s MAX_CMD_REQ_NUM); lia. }
  destruct Hs as (Hs & Hl & Hw & Hh & Hcur).
  destruct (lookup_lt_is_Some_2 (token_req_ex_pool (R d)) s) as [x0 Hx0]; [by rewrite (i_reqs _ _ _ _ _ I)|].
  assert (Hlen : (s < length (token_req_ex_pool (R d)))%nat) by (by apply lookup_lt_Some in Hx0).
  unfold push_back_wait_req, get_req. cbn.
  rewrite !list_lookup_insert_eq by (rewrite ?length_insert; done). cbn.
  assert (Hlk : forall R0, token_req_idle_q R0 = l -> token_req_wait_q R0 = token_req_wait_q (R d) ->
    req_linked R0 s = false).
  { intros R0 E1 E2. unfold req_linked. apply bool_decide_eq_false. rewrite cnt_elem, cnt_app, E1, E2. lia. }
  rewrite Hlk by done. cbn. rewrite !list_insert_insert_eq. unfold emit, put_req, set_R, set_reqs, set_rwait, set_ridle. cbn. rewrite ?list_insert_insert_eq.
  set (x := req_set REQ_STATUS_ENQ (mk_req 0 r no_op no_op)).
  set (d2 := mk_disp _ _ _ _ _ _).
  assert (I2 : Inv run hand busy slack d2).
  { destruct I. split; cbn; try done.
    - by rewrite length_insert.
    - intros y. etransitivity; [|apply (i_slots0 y)]. rewrite Eq. autorewrite with cnt.
      unfold cur_list. cbn. lia.
    - intros i y [(-> & <- & _)|[Hne Hi]]%list_lookup_insert_Some.
      + split; cbn; [lia| |].
        * intros _. rewrite cnt_app, cnt_cons, one_same, cnt_nil. pose proof (cnt_nonneg i hand).
          pose proof (cnt_nonneg i (token_req_wait_q (R d))). lia.
        * intros T. exfalso. revert T. unfold x. clear. flags. done.
      + destruct (i_st0 i y Hi) as [S1 S2 S3]. split; cbn.
        * intros Hc. apply S1. rewrite Eq, cnt_cons. unfold one. destruct (Nat.eqb i s); lia.
        * intros T. specialize (S2 T). rewrite cnt_app. pose proof (cnt_nonneg i [s]). lia.
        * done.
    - intros HS. destruct (i_op0 HS) as [ND US OD BU]. split; cbn; try done.
      + intros [i|i|] Hn; (destruct (US _ Hn) as (o & Eo & Uo)); exists o; (split; [|done]);
          revert Eo; cbn; unfold get_req; cbn; try done;
          rewrite list_lookup_insert_ne by (intros ->; by destruct (Hop HS)); done.
      + intros m Hm. rewrite (HB HS) in Hm. done.
    - intros HS Ht i Hi. apply (i_idle0 HS Ht). rewrite Eq, cnt_cons. unfold one.
      destruct (Nat.eqb i s); lia.
    - change (replay (EvQueue s :: log d) = Some (arb_of hand d2)).
      eapply replay_cons; [exact i_arb0|]. apply arb_queue.
      change (s ∉ token_req_wait_q (R d) ++ hand ++ cur_list (R d)).
      rewrite cnt_elem, !cnt_app. lia. }
  unfold dispr_enqueue_token_op_info. set (st := if _ && _ then _ else _). clearbody st.
  apply wp_bind. eapply wp_mono; [apply (wp_enqueue _ _ _ _ _ (AddInfo s) _ _ I2)|].
  - done.
  - done.
  - intros _ i [[= <-]|]; [|done]. done.
  - intros HS i [= <-]. rewrite (HB HS). split; [|done]. by apply Hop.
  - intros [d3 b] (K3 & (_ & _ & Ec & _) & _). cbn [fst] in K3, Ec |- *. split; [|exact Ec].
    eapply keeps_trans; [|exact K3].
    split; [by exists [EvQueue s]|intros _; exists []; by rewrite app_nil_r|done|done].
Qed.

Lemma wp_call run hand busy slack d c : Inv run hand busy slack d ->
  (S -> call_ok c) -> (C -> plain_call c) -> (S -> busy <> None -> no_add c) ->
  wp (fun d' => keeps run hand busy slack d d' /\ cur_cmd_req (R d') = cur_cmd_req (R d) /\
        (no_add c -> req_same d d')) (exec_call c d).
Proof.
  intros I Hok Hpl Hadd.
  assert (Hcur : forall d', keeps run hand busy slack d d' /\ req_same d d' ->
    keeps run hand busy slack d d' /\ cur_cmd_req (R d') = cur_cmd_req (R d) /\ (no_add c -> req_same d d')).
  { intros d' [K' R']. split; [done|]. split; [apply R'|done]. }
  destruct c; cbn [exec_call call_ok plain_call] in *.
  - apply wp_bind. eapply wp_mono; [by apply wp_send|]. intros [[d1 st] h] [K1 R1].
    apply Hcur. split; [done|by apply req_same_eq].
  - apply wp_bind. eapply wp_mono; [by apply wp_cancel_msg|]. intros [d1 st] K1. by apply Hcur.
  - apply Hcur. split; [by apply clr_pending_keeps|done].
  - apply wp_bind. eapply wp_mono; [apply wp_add_req; [exact I|]|by intros [[d1 st] h] [K1 E1]].
    intros HS. destruct busy; [|done]. by destruct (Hadd HS).
  - apply wp_bind. eapply wp_mono; [by apply wp_cancel_req|]. intros [d1 st] K1. by apply Hcur.
  - apply wp_bind. eapply wp_mono; [by apply wp_free|]. intros [d1 st] K1. by apply Hcur.
  - apply wp_bind. eapply wp_mono; [by apply wp_notify_io|]. intros [d1 st] K1. by apply Hcur.
  - apply wp_ret, Hcur. unfold dispr_notify_shall_stop. destruct (negb _).
    + split; [|done]. eapply keeps_frame; [done|done|done|done|cbn; lia|by exists []|unfold started; clear; flags; done|done].
    + split; [split; [done|apply Ext_refl]|done].
Qed.

Lemma wp_calls run hand busy slack l : forall d, Inv run hand busy slack d ->
  (S -> Forall call_ok l) -> (C -> Forall plain_call l) -> (S -> busy <> None -> Forall no_add l) ->
  wp (fun d' => keeps run hand busy slack d d' /\ cur_cmd_req (R d') = cur_cmd_req (R d) /\
        (Forall no_add l -> req_same d d')) (exec_calls l d).
Proof.
  induction l as [|c l IH]; intros d I Hok Hpl Hadd; cbn [exec_calls].
  { split; [split; [done|apply Ext_refl]|done]. }
  apply wp_bind. eapply wp_mono; [apply wp_call; [exact I|..]|].
  - intros HS. specialize (Hok HS). by inversion Hok.
  - intros HC. specialize (Hpl HC). by inversion Hpl.
  - intros HS HB. specialize (Hadd HS HB). by inversion Hadd.
  - intros d1 ([I1 X1] & C1 & R1). eapply wp_mono; [apply IH; [exact I1|..]|].
    + intros HS. specialize (Hok HS). by inversion Hok.
    + intros HC. specialize (Hpl HC). by inversion Hpl.
    + intros HS HB. specialize (Hadd HS HB). by inversion Hadd.
    + intros d2 (K2 & C2 & R2). split; [by eapply keeps_trans|]. split; [by etransitivity|].
      intros Hn. inversion Hn; subst. eapply req_same_trans; [by apply R1|by apply R2].
Qed.

(** *** The thread and its callbacks *)

(** What the loops of a turn need at most with such callbacks: the operations
    weigh at most 18 * 16 + 17 in all. *)
Definition calm_fuel : nat := 400.

(** Callbacks under which nothing goes wrong: they name module ids that exist,
    [acquired] does not refuse the token it asked for, and neither [acquired] nor
    [abort] asks for another. *)
Record calm (H : handlers) : Prop := {
  c_msg l m id : Forall call_ok (msg_hdlr H l m id).2;
  c_req l r id : Forall call_ok (req_hdlr H l r id);
  c_acq l r : (acquired H l r).1 <> MDL_RET_FAIL /\ Forall call_ok (acquired H l r).2 /\
              Forall no_add (acquired H l r).2;
  c_abort l r : Forall call_ok (abort H l r) /\ Forall no_add (abort H l r)
}.

Record plain (H : handlers) : Prop := {
  p_msg l m id : Forall plain_call (msg_hdlr H l m id).2;
  p_req l r id : Forall plain_call (req_hdlr H l r id);
  p_acq l r : Forall plain_call (acquired H l r).2;
  p_abort l r : Forall plain_call (abort H l r)
}.

Variable H : handlers.
Variable loop_fuel : nat.
Hypothesis HF : S -> (calm_fuel <= loop_fuel)%nat.
Hypothesis HS : S -> calm H.
Hypothesis HC : C -> plain H.

Lemma emit_keeps run hand busy slack d e : Inv run hand busy slack d ->
  arb_event e (arb_of hand d) = Some (arb_of hand d) ->
  keeps run hand busy slack d (emit e d) /\ req_same d (emit e d).
Proof.
  intros I Ha. split; [|done]. eapply keeps_frame; [done|done|done|done|cbn; lia|by exists [e]|done|].
  rewrite (i_arb _ _ _ _ _ I). eapply replay_cons; [apply (i_arb _ _ _ _ _ I)|done].
Qed.

(** Running a callback's calls after the event it begins with. *)
Lemma wp_callback run hand busy slack d e l : Inv run hand busy slack d ->
  arb_event e (arb_of hand d) = Some (arb_of hand d) ->
  (S -> Forall call_ok l) -> (C -> Forall plain_call l) -> (S -> busy <> None -> Forall no_add l) ->
  wp (fun d' => keeps run hand busy slack d d' /\ cur_cmd_req (R d') = cur_cmd_req (R d) /\
        (Forall no_add l -> req_same d d')) (exec_calls l (emit e d)).
Proof.
  intros I Ha H1 H2 H3. destruct (emit_keeps run hand busy slack d e I Ha) as [[I1 X1] R1].
  eapply wp_mono; [by apply (wp_calls _ _ _ _ l _ I1)|]. intros d2 (K2 & C2 & R2).
  split; [by eapply keeps_trans|]. split; [exact C2|]. intros Hn. eapply req_same_trans; [exact R1|by apply R2].
Qed.

Section dispatch.
Variables (run hand : list nat) (busy : option op_node) (slack : Z) (i : nat).
Hypothesis Hbusy : S -> busy = None.
Abbreviation K := (keeps (i :: run) hand busy slack).
Abbreviation I := (Inv (i :: run) hand busy slack).

Lemma not_busy l : S -> busy <> None -> Forall no_add l.
Proof. intros Hs Hb. by destruct Hb, (Hbusy Hs). Qed.

Lemma wp_call_module d mdl : I d -> wp (fun p => K d p.1) (call_module H mdl i d).
Proof.
  intros Id. destruct (run_range _ _ _ _ _ _ Id) as (Hi & _). unfold call_module. apply wp_bind.
  eapply wp_get_msg; [done|done|]. intros ex Hex Hok.
  pose proof (fun hs => c_msg _ (HS hs) (log d) mdl (msg_id ex)) as Hc.
  pose proof (fun hc => p_msg _ (HC hc) (log d) mdl (msg_id ex)) as Hp.
  destruct (msg_hdlr H (log d) mdl (msg_id ex)) as [ret calls]. apply wp_bind.
  eapply wp_mono; [apply wp_callback; [done|done|done|done|by apply not_busy]|]. by intros d2 [K2 _].
Qed.

Lemma wp_upd_msg d f : I d ->
  (forall ex, msg_ok (E d) ex -> msg_ok (E d) (f ex)) ->
  (forall ex, MSG_MDL_ID_FIELD (msg_id (f ex)) = MSG_MDL_ID_FIELD (msg_id ex)) ->
  wp (fun d' => K d d' /\ exists ex, msg_ex_pool (M d) !! i = Some ex /\ d' = put_msg i (f ex) d)
     (upd_msg i f d).
Proof.
  intros Id Hf Hm. destruct (run_range _ _ _ _ _ _ Id) as (Hi & _). unfold upd_msg. apply wp_bind.
  eapply wp_get_msg; [done|done|]. intros ex Hex Hok. apply wp_ret. split; [|by exists ex].
  eapply keeps_put; [done|done|by apply Hf|by apply Hm].
Qed.

Lemma wp_cur_req_hdl d : I d -> wp (K d) (cur_req_hdl H i d).
Proof.
  intros Id. destruct (run_range _ _ _ _ _ _ Id) as (Hi & _). unfold cur_req_hdl.
  destruct (cur_cmd_req (R d)) as [s|] eqn:Ec; [|by split; [|apply Ext_refl]].
  destruct (cur_range _ _ _ _ _ _ Id Ec) as (Hs & _). apply wp_bind.
  eapply wp_get_req; [done|done|]. intros x Hx _. apply wp_bind.
  eapply wp_get_msg; [done|done|]. intros ex Hex Hok.
  destruct (_ || _); [by split; [|apply Ext_refl]|].
  destruct (test_msg ex _); [by split; [|apply Ext_refl]|].
  eapply wp_mono; [apply wp_callback; [done|cbn; by rewrite Ec|intros hs|intros hc|by apply not_busy]|].
  - apply (c_req _ (HS hs)).
  - apply (p_req _ (HC hc)).
  - by intros d2 [K2 _].
Qed.

Lemma owner_live d ex : msg_ok (E d) ex -> exists o, owner_module d ex = Ret o /\ o = m_module ex.
Proof.
  intros [L _]. unfold owner_module. destruct (m_module ex) as [m|]; [|by eexists].
  destruct (L m eq_refl) as [->| ->].
  - rewrite Z.eqb_refl. by eexists.
  - rewrite orb_true_r. by eexists.
Qed.

Lemma wp_notify_fail d ret : I d -> wp (K d) (notify_msg_fail H i ret d).
Proof.
  intros Id. destruct (run_range _ _ _ _ _ _ Id) as (Hi & _). unfold notify_msg_fail. apply wp_bind.
  eapply wp_mono; [apply wp_upd_msg; [done|..]|].
  - intros ex [L O]. destruct (decide _); (split; [done|]); intros T; apply O; revert T; clear;
      intros T; flags; done.
  - intros ex. destruct (decide _); cbn; by rewrite !mdl_field_set_indc.
  - intros d1 [[I1 X1] _]. apply wp_bind. eapply wp_get_msg; [done|done|]. intros ex Hex Hok.
    apply wp_bind. eapply wp_mono with (P := K d1).
    { destruct (test_msg ex MSG_STATUS_OWNER_BK_MDL) eqn:T; [|by split; [|apply Ext_refl]].
      destruct (owner_live d1 ex Hok) as (o & Eo & Em). rewrite Eo. cbn [mbind res_bind].
      destruct o as [m|]; [|intros _; by apply (proj2 Hok)].
      destruct (_ || _); [|by split; [|apply Ext_refl]]. apply wp_bind.
      eapply wp_mono; [by apply wp_call_module|]. by intros [d2 r]. }
    intros d2 [I2 X2]. apply wp_bind. eapply wp_get_msg; [done|done|]. intros ex2 Hex2 Hok2.
    destruct (test_msg ex2 _).
    + eapply wp_mono; [by apply wp_cur_req_hdl|]. intros d3 K3.
      eapply keeps_trans; [exact X1|]. by eapply keeps_trans.
    + apply wp_ret. split; [done|]. by eapply Ext_trans.
Qed.

Lemma wp_feed_mdl d mdl : I d -> (S -> mdl < 128) -> wp (fun p => K d p.1) (feed_mdl_msg H mdl i d).
Proof.
  intros Id Hm. destruct (run_range _ _ _ _ _ _ Id) as (Hi & _). unfold feed_mdl_msg. apply wp_bind.
  eapply wp_mono; [by apply wp_call_module|]. intros [d1 ret] [I1 X1]. cbn [fst] in I1, X1.
  apply wp_bind. eapply wp_mono with (P := K d1).
  - assert (Hclr : forall g : Z -> phl_dispr_msg_ex -> phl_dispr_msg_ex, forall bm ex,
      msg_ex_pool (M d1) !! i = Some ex -> (forall m, fixed_flags ex (g m ex)) ->
      wp (K d1) (m ← _clr_bitmap_bit bm [mdl]; Ret (put_msg i (g m ex) d1))).
    { intros g bm ex Hex Hg. unfold _clr_bitmap_bit. cbn [forallb]. unfold in_bitmap.
      destruct (Z.ltb_spec mdl 128); cbn [andb mbind res_bind]; [|intros hs; specialize (Hm hs); lia].
      apply wp_ret. eapply keeps_put; [done|done| |].
      - eapply fixed_ok; [apply Hg|]. by eapply i_mod.
      - destruct (Hg (foldl word_clr bm [mdl])) as (_ & -> & _). done. }
    assert (Hok : wp (K d1) (ex ← get_msg (M d1) i;
        if negb (Z.land (MSG_INDC_FIELD (msg_id ex)) MSG_INDC_PRE_PHASE =? 0) then
            m ← _clr_bitmap_bit (premap ex) [mdl];
            Ret (put_msg i (mk_msg (m_status ex) (msg_id ex) m (postmap ex) (completion ex)
                   (m_module ex)) d1)
          else
            m ← _clr_bitmap_bit (postmap ex) [mdl];
            Ret (put_msg i (mk_msg (m_status ex) (msg_id ex) (premap ex) m (completion ex)
                   (m_module ex)) d1))).
    { apply wp_bind. eapply wp_get_msg; [done|done|]. intros ex Hex _. destruct (negb _).
      - by apply (Hclr (fun m ex => mk_msg (m_status ex) (msg_id ex) m (postmap ex) (completion ex) (m_module ex))).
      - by apply (Hclr (fun m ex => mk_msg (m_status ex) (msg_id ex) (premap ex) m (completion ex) (m_module ex))). }
    destruct ret; [exact Hok|by apply wp_notify_fail|exact Hok| |by apply wp_notify_fail].
    eapply wp_mono; [apply wp_upd_msg; [done|..]|by intros d2 []].
    + intros ex Hex. eapply fixed_ok; [|exact Hex]. split; [done|]. split; [done|]. clear. flags. done.
    + done.
  - intros d2 K2. apply wp_ret. by eapply keeps_trans.
Qed.

Lemma wp_feed_queue pre q : forall d, I d -> (S -> Forall (fun m => mdl_id m < 128) q) ->
  wp (fun p => K d p.1) (feed_queue H pre q i d).
Proof.
  induction q as [|m q IH]; intros d Id Hq; cbn [feed_queue].
  { split; [done|apply Ext_refl]. }
  destruct (run_range _ _ _ _ _ _ Id) as (Hi & _).
  assert (Hq' : S -> Forall (fun m => mdl_id m < 128) q).
  { intros hs. specialize (Hq hs). by inversion Hq. }
  apply wp_bind. eapply wp_get_msg; [done|done|]. intros ex Hex Hok. destruct (_ || _).
  - by apply IH.
  - apply wp_bind. eapply wp_mono; [apply wp_feed_mdl; [done|]|].
    + intros hs. specialize (Hq hs). by inversion Hq.
    + intros [d1 ret] [I1 X1]. cbn [fst] in *. destruct (STOP_DISPATCH_MSG ret); [by split|].
      eapply wp_mono; [by apply IH|]. intros p K2. by eapply keeps_trans.
Qed.

Lemma queue_ids_ok d prio : I d -> Forall (fun m => mdl_id m < 128) (nth prio (module_q (E d)) []).
Proof.
  intros Id. apply Forall_forall. intros m Hm. apply (queue_ids _ (i_mods _ _ _ _ _ Id)).
  unfold mdl_in_queues. apply existsb_exists. exists (nth prio (module_q (E d)) []). split.
  - destruct (nth_in_or_default prio (module_q (E d)) []) as [|E0]; [done|]. rewrite E0 in Hm.
    by apply not_elem_of_nil in Hm.
  - apply existsb_exists. exists m. split; [by apply list_elem_of_In|by apply Z.eqb_refl].
Qed.

Lemma wp_feed_priority pre owner prio0 prio d : I d -> (prio0 <> prio \/ owner < 128) ->
  wp (fun p => K d p.1) (feed_priority H pre owner prio0 prio i d).
Proof.
  intros Id Ho. destruct (run_range _ _ _ _ _ _ Id) as (Hi & _). unfold feed_priority. apply wp_bind.
  eapply wp_get_msg; [done|done|]. intros ex Hex Hok. apply wp_bind.
  eapply wp_mono with (P := fun p => K d p.1).
  { destruct (bool_decide_reflect (prio0 = prio)) as [E0|]; cbn [andb]; [|by split; [|apply Ext_refl]].
    destruct (_chk_bitmap_bit _ _); [|by split; [|apply Ext_refl]]. apply wp_bind.
    eapply wp_mono; [apply wp_feed_mdl; [done|by destruct Ho]|]. by intros [d1 r] K1. }
  intros [d1 stop] [I1 X1]. cbn [fst] in *. destruct stop; [by split|].
  eapply wp_mono; [apply wp_feed_queue; [done|]|].
  - intros _. destruct pre; [by apply queue_ids_ok|]. apply Forall_reverse. by apply queue_ids_ok.
  - intros p K2. by eapply keeps_trans.
Qed.

Lemma wp_feed_priorities pre owner prio0 prios : (prio0 ∉ prios \/ owner < 128) ->
  forall d, I d -> wp (K d) (feed_priorities H pre owner prio0 prios i d).
Proof.
  induction prios as [|p prios IH]; intros Ho d Id; cbn [feed_priorities].
  { split; [done|apply Ext_refl]. }
  apply wp_bind. eapply wp_mono; [apply wp_feed_priority; [done|]|].
  - destruct Ho as [Ho|]; [left|by right]. intros ->. apply Ho. rewrite elem_of_cons. auto.
  - intros [d1 stop] [I1 X1]. cbn [fst] in *. destruct stop; [by split|].
    eapply wp_mono; [apply IH; [|done]|].
    + destruct Ho as [Ho|]; [left|by right]. intros Hin. apply Ho. rewrite elem_of_cons. auto.
    + intros d2 K2. by eapply keeps_trans.
Qed.

Lemma wp_phase pre prios d : PHL_MDL_PRI_MAX ∉ prios -> I d -> wp (K d) (phase_hdl H pre prios i d).
Proof.
  intros Hp Id. destruct (run_range _ _ _ _ _ _ Id) as (Hi & _). unfold phase_hdl. apply wp_bind.
  eapply wp_get_msg; [done|done|]. intros ex Hex Hok.
  destruct (owner_live d ex Hok) as (o & -> & Eo). cbn [mbind res_bind].
  apply wp_feed_priorities; [|done].
  destruct o as [m|]; cbn [default].
  - destruct (proj1 Hok m (eq_sym Eo)) as [L|L].
    + right. rewrite L, (ctrl_id _ (i_mods _ _ _ _ _ Id)). unfold PHL_MDL_PHY_MGNT. cbn. lia.
    + right. cbn. by apply (queue_ids _ (i_mods _ _ _ _ _ Id)).
  - left. done.
Qed.
End dispatch.

(** *** Dispatching a message *)

Section message.
Variables (run hand : list nat) (busy : option op_node) (slack : Z) (i : nat).
Hypothesis Hbusy : S -> busy = None.
Abbreviation J := (Inv (i :: run) hand busy slack).

(** The end of a dispatch hands the message back. *)
Definition done_with (d : cmd_dispatcher) (m : res cmd_dispatcher) : Prop :=
  wp (keeps run hand busy slack d) m.

Lemma done_push_idle d : J d -> done_with d (push_back_idle_msg i d).
Proof. intros Jd. eapply wp_mono; [by apply wp_push_idle|]. by intros d' [K _]. Qed.

Lemma done_redirect d k : J d -> (J d -> done_with d (k d)) -> done_with d (redirect_chk i d k).
Proof.
  intros Jd Hk. destruct (run_range _ _ _ _ _ _ Jd) as (Hi & _). unfold redirect_chk. apply wp_bind.
  eapply wp_get_msg; [done|done|]. intros ex Hex Hok.
  destruct (_ || _); [by apply done_push_idle|]. destruct (test_msg ex _); [|by apply Hk].
  unfold reschedule. apply wp_bind. eapply wp_get_msg; [done|done|]. intros ex2 _ _.
  destruct (test_msg ex2 _).
  - eapply wp_mono; [by apply wp_push_pending|]. by intros d' [K _].
  - eapply wp_mono; [by apply wp_push_wait|]. by intros d' [K _].
Qed.

Lemma done_after d d1 m : Ext d d1 -> done_with d1 m -> done_with d m.
Proof. intros X W. eapply wp_mono; [exact W|]. intros d2 K2. by eapply keeps_trans. Qed.

(** A step that keeps the message in hand and then goes on. *)
Lemma done_bind (m : res cmd_dispatcher) k d : wp (keeps (i :: run) hand busy slack d) m ->
  (forall d1, J d1 -> done_with d1 (k d1)) -> done_with d (m ≫= k).
Proof.
  intros W Hk. apply wp_bind. eapply wp_mono; [exact W|]. intros d1 [J1 X1].
  eapply done_after; [exact X1|by apply Hk].
Qed.

Lemma upd_keeps d f : J d -> (forall ex, msg_ok (E d) ex -> msg_ok (E d) (f ex)) ->
  (forall ex, MSG_MDL_ID_FIELD (msg_id (f ex)) = MSG_MDL_ID_FIELD (msg_id ex)) ->
  wp (keeps (i :: run) hand busy slack d) (upd_msg i f d).
Proof. intros Jd H1 H2. eapply wp_mono; [by apply wp_upd_msg|]. by intros d' [K _]. Qed.

Lemma done_invalid d : J d -> done_with d (invalid_bitmap i d).
Proof.
  intros Jd. unfold invalid_bitmap. apply done_bind; [apply upd_keeps; [done|..]|].
  - intros ex Hok. eapply fixed_ok; [|exact Hok]. split; [done|]. split; [done|]. clear. flags. done.
  - done.
  - intros d1 J1. by apply done_push_idle.
Qed.

Lemma bitmap_ok e ex f : (forall m, MSG_MDL_ID_FIELD (f m) = MSG_MDL_ID_FIELD m) ->
  msg_ok e ex -> msg_ok e (with_id f ex).
Proof. intros _ [L O]. by split. Qed.

Lemma get_bitmap_ok e ex : msg_ok e ex -> msg_ok e (get_msg_bitmap ex) .
Proof.
  unfold get_msg_bitmap. intros [L O]. by destruct (test_msg ex MSG_STATUS_PRE_PHASE).
Qed.
Lemma get_bitmap_mdl ex : MSG_MDL_ID_FIELD (msg_id (get_msg_bitmap ex)) = MSG_MDL_ID_FIELD (msg_id ex).
Proof.
  unfold get_msg_bitmap. destruct (test_msg ex _); cbn;
    [by rewrite mdl_field_set_indc|by rewrite mdl_field_clear_indc].
Qed.

Lemma done_post d : J d -> done_with d (post_phase H i d).
Proof.
  intros Jd. unfold post_phase. apply done_bind; [apply upd_keeps; [done|..]|].
  - intros ex Hok. apply get_bitmap_ok. eapply fixed_ok; [|exact Hok].
    split; [done|]. split; [done|]. clear. flags. done.
  - intros ex. by rewrite get_bitmap_mdl.
  - intros d1 J1. destruct (run_range _ _ _ _ _ _ J1) as (Hi & _). apply wp_bind.
    eapply wp_get_msg; [done|done|]. intros ex _ _. apply done_bind.
    + destruct (negb _); [|by split; [|apply Ext_refl]]. apply wp_phase; [done|by apply (bool_decide_eq_false_1 _); vm_compute|done].
    + intros d2 J2. apply done_redirect; [done|]. intros _. apply wp_bind.
      eapply wp_get_msg; [done|done|]. intros ex2 _ _. destruct (_ =? _); [|by apply done_invalid].
      apply done_bind; [by apply wp_cur_req_hdl|]. intros d3 J3. by apply done_push_idle.
Qed.

Lemma wp_dispatch d : J d -> done_with d (msg_dispatch H i d).
Proof.
  intros Jd. unfold msg_dispatch. apply done_bind; [apply upd_keeps; [done|..]|].
  - intros ex. apply get_bitmap_ok.
  - apply get_bitmap_mdl.
  - intros d1 J1. destruct (run_range _ _ _ _ _ _ J1) as (Hi & _). apply wp_bind.
    eapply wp_get_msg; [done|done|]. intros ex _ _. apply done_redirect; [done|]. intros _.
    apply done_bind.
    { unfold _notify_dispr_controller. destruct (negb _); [by split; [|apply Ext_refl]|].
      apply wp_bind. eapply wp_mono; [apply wp_feed_mdl; [done|done|]|by intros [d2 r] K2].
      intros _. rewrite (ctrl_id _ (i_mods _ _ _ _ _ J1)). unfold PHL_MDL_PHY_MGNT. lia. }
    intros d2 J2. apply done_redirect; [done|]. intros _. apply wp_bind.
    eapply wp_get_msg; [done|done|]. intros ex2 _ _. apply done_bind.
    { destruct (_ && _); [|by split; [|apply Ext_refl]]. apply wp_phase; [done|by apply (bool_decide_eq_false_1 _); vm_compute|done]. }
    intros d3 J3. apply done_redirect; [done|]. intros _. apply wp_bind.
    eapply wp_get_msg; [done|done|]. intros ex3 _ _. destruct (_ =? _); [by apply done_post|by apply done_invalid].
Qed.
End message.

(** *** Tokens *)

Lemma hand_range run hand busy slack d s : Inv run (s :: hand) busy slack d ->
  (s < MAX_CMD_REQ_NUM)%nat /\ cnt s (token_req_idle_q (R d)) = 0 /\
  cnt s (token_req_wait_q (R d)) = 0 /\ cnt s (cur_list (R d)) = 0.
Proof.
  intros I. pose proof (i_slots _ _ _ _ _ I s) as E. rewrite cnt_cons, one_same in E.
  pose proof (cnt_nonneg s (token_req_idle_q (R d))). pose proof (cnt_nonneg s (token_req_wait_q (R d))).
  pose proof (cnt_nonneg s hand). pose proof (cnt_nonneg s (cur_list (R d))).
  destruct (Nat.ltb_spec s MAX_CMD_REQ_NUM); lia.
Qed.

(** A slot leaves the thread's hand or the token and becomes idle. *)
Lemma Inv_slot_idle run hand busy slack d s x hand' tok cur evs :
  Inv run hand busy slack d -> token_req_ex_pool (R d) !! s = Some x ->
  (forall y, cnt y hand' + cnt y (option_list cur) + one y s = cnt y hand + cnt y (cur_list (R d))) ->
  tok = zlen (option_list cur) ->
  (forall y, y <> s -> cur_cmd_req (R d) = Some y -> cur = Some y) ->
  (forall y, y <> s -> cnt y hand <= cnt y hand') ->
  (S -> started d = true -> unnamed (R d) s) ->
  replay (evs ++ log d) = Some (mk_arb (token_req_wait_q (R d)) hand' cur) ->
  Inv run hand' busy slack
    (emits evs (set_R (mk_rqs (<[s := req_status (fun _ => 0) x]> (token_req_ex_pool (R d)))
              (token_req_wait_q (R d)) (token_req_idle_q (R d) ++ [s]) (token_op_q (R d))
              (renew_req_info (R d)) tok cur) d)).
Proof.
  intros I Hx Hc Ht Hcur Hle Hn Hev.
  assert (Eg : forall n, get_op n (mk_rqs (<[s := req_status (fun _ => 0) x]> (token_req_ex_pool (R d)))
              (token_req_wait_q (R d)) (token_req_idle_q (R d) ++ [s]) (token_op_q (R d))
              (renew_req_info (R d)) tok cur) = get_op n (R d)).
  { intros [i|i|]; cbn; unfold get_req; cbn; try done.
    all: destruct (decide (s = i)) as [->|]; [|by rewrite list_lookup_insert_ne by done].
    all: rewrite list_lookup_insert_eq by (by apply lookup_lt_Some in Hx); by rewrite Hx. }
  destruct I. split; cbn; try done.
  - by rewrite length_insert.
  - intros y. etransitivity; [|apply (i_slots0 y)]. specialize (Hc y). unfold cur_list in *. cbn.
    autorewrite with cnt. lia.
  - intros i y [(-> & <- & _)|[Hne Hi]]%list_lookup_insert_Some.
    + split; cbn; [done| |]; intros T; exfalso; revert T; clear; flags; done.
    + destruct (i_st0 i y Hi) as [S1 S2 S3]. split; cbn.
      * rewrite cnt_app, cnt_cons, cnt_nil. unfold one. destruct (Nat.eqb_spec i s); [congruence|].
        intros ?. apply S1. lia.
      * intros T. specialize (S2 T). specialize (Hle i ltac:(congruence)). lia.
      * intros T. apply Hcur; [congruence|by apply S3].
  - intros HS0. destruct (i_op0 HS0) as [ND US OD BU]. split; cbn; try done.
    + intros n Hin. rewrite Eg. by apply US.
    + intros n Hin. rewrite Eg. by apply BU.
  - intros HS0 Hst i. rewrite cnt_app, cnt_cons, cnt_nil. unfold one.
    destruct (Nat.eqb_spec i s) as [->|]; intros Hi; [by apply Hn|]. apply (i_idle0 HS0 Hst). lia.
Qed.

(** The part of the requests a measure is taken of. *)
Definition queue_same (d d' : cmd_dispatcher) : Prop :=
  token_req_wait_q (R d') = token_req_wait_q (R d) /\ cur_cmd_req (R d') = cur_cmd_req (R d).

Lemma wp_push_idle_req run hand busy slack d s : Inv run (s :: hand) busy slack d ->
  (S -> started d = true -> unnamed (R d) s) ->
  wp (fun d' => keeps run hand busy slack d d' /\ queue_same d d' /\
        token_req_idle_q (R d') = token_req_idle_q (R d) ++ [s]) (push_back_idle_req s d).
Proof.
  intros I Hn. destruct (hand_range _ _ _ _ _ _ I) as (Hs & Hz1 & Hz2 & Hz3).
  unfold push_back_idle_req. apply wp_bind. eapply wp_get_req; [done|done|]. intros x Hx _.
  match goal with |- wp _ (if ?b then _ else _) => assert (b = false) as ->; [|] end.
  { unfold req_linked. apply bool_decide_eq_false. rewrite cnt_elem, cnt_app. cbn. lia. }
  apply wp_ret. split; [|done].
  pose proof (Inv_slot_idle run (s :: hand) busy slack d s x hand (token_cnt (R d)) (cur_cmd_req (R d))
    [EvIdleReq s] I Hx) as I2. specialize (I2 ltac:(intros y; rewrite cnt_cons; unfold cur_list; lia) (i_cnt _ _ _ _ _ I)
      ltac:(done) ltac:(intros y Hy; rewrite cnt_cons; unfold one; destruct (Nat.eqb_spec y s); [congruence|lia]) Hn
      ltac:(eapply replay_cons; [apply (i_arb _ _ _ _ _ I)|apply arb_idle])).
  split.
  - by eapply Inv_frame; [exact I2|..].
  - split; [by exists [EvIdleReq s]|intros _; exists []; by rewrite app_nil_r|done|done].
Qed.

Lemma wp_call_abort run hand busy slack d s : Inv run hand busy slack d -> (s < MAX_CMD_REQ_NUM)%nat ->
  head hand = Some s \/ cur_cmd_req (R d) = Some s ->
  wp (fun d' => keeps run hand busy slack d d' /\ cur_cmd_req (R d') = cur_cmd_req (R d) /\
        (S -> req_same d d')) (call_abort H s d).
Proof.
  intros I Hs Ha. unfold call_abort. apply wp_bind. eapply wp_get_req; [done|done|]. intros x Hx _.
  eapply wp_mono; [apply wp_callback; [done|by apply arb_abort|..]|].
  - intros hs. apply (c_abort _ (HS hs)).
  - intros hc. apply (p_abort _ (HC hc)).
  - intros hs _. apply (c_abort _ (HS hs)).
  - intros d' (K' & C' & R'). split; [done|]. split; [done|]. intros hs. apply R', (c_abort _ (HS hs)).
Qed.

Lemma wp_cancel_owned run hand busy slack mdl n : forall j d, Inv run hand busy slack d ->
  (j + n <= MAX_PHL_MSG_NUM)%nat ->
  wp (fun d' => keeps run hand busy slack d d' /\ R d' = R d) (cancel_owned n j mdl d).
Proof.
  induction n as [|n IH]; intros j d I Hj; cbn [cancel_owned].
  { split; [split; [done|apply Ext_refl]|done]. }
  apply wp_bind. eapply wp_get_msg; [done|lia|]. intros ex Hex Hok.
  destruct (negb _); [apply IH; [done|lia]|].
  set (ex' := cancel_msg _). set (d1 := put_msg j ex' d).
  assert (K1 : keeps run hand busy slack d d1).
  { eapply keeps_put; [done|done| |done]. eapply fixed_ok; [|exact Hok].
    split; [done|]. split; [done|]. unfold ex'. clear. flags. done. }
  destruct K1 as [I1 X1]. apply wp_bind.
  eapply wp_mono with (P := fun d2 => keeps run hand busy slack d1 d2 /\ R d2 = R d1).
  { destruct (test_msg ex' _); [|split; [split; [done|apply Ext_refl]|done]].
    destruct (clr_pending_keeps _ _ _ _ _ I1) as [I2 X2].
    eapply wp_mono; [by apply wp_clear_pending|]. intros d3 [K3 R3]. split; [by eapply keeps_trans|done]. }
  intros d2 [[I2 X2] R2]. eapply wp_mono; [apply IH; [done|lia]|]. intros d3 [K3 R3]. split.
  - eapply keeps_trans; [exact X1|]. by eapply keeps_trans.
  - rewrite R3, R2. done.
Qed.

Lemma wp_upd_req run hand busy slack d s f : Inv run hand busy slack d -> (s < MAX_CMD_REQ_NUM)%nat ->
  (forall x, slot_ok hand (R d) s x -> slot_ok hand (R d) s (f x)) ->
  (forall x, add_req_info (f x) = add_req_info x /\ free_req_info (f x) = free_req_info x) ->
  wp (fun d' => keeps run hand busy slack d d' /\ req_same d d' /\ token_op_q (R d') = token_op_q (R d))
     (upd_req s f d).
Proof.
  intros I Hs Hf Ho. unfold upd_req. apply wp_bind. eapply wp_get_req; [done|done|]. intros x Hx Hok.
  apply wp_ret. split; [|done]. destruct (Ho x). by eapply put_req_keeps; [| |apply Hf| |].
Qed.

(** A slot moves between the waiting queue, the thread's hand and the token. *)
Lemma Inv_slot_move run hand busy slack d s x x' wait' hand' tok cur evs :
  Inv run hand busy slack d -> token_req_ex_pool (R d) !! s = Some x ->
  add_req_info x' = add_req_info x -> free_req_info x' = free_req_info x ->
  (forall y, cnt y wait' + cnt y hand' + cnt y (option_list cur) =
             cnt y (token_req_wait_q (R d)) + cnt y hand + cnt y (cur_list (R d))) ->
  tok = zlen (option_list cur) -> cnt s (token_req_idle_q (R d)) = 0 ->
  (test_req x' REQ_STATUS_ENQ = true -> 0 < cnt s wait' + cnt s hand') ->
  (test_req x' REQ_STATUS_RUN = true -> cur = Some s) ->
  (forall y, y <> s -> cnt y (token_req_wait_q (R d)) + cnt y hand <= cnt y wait' + cnt y hand') ->
  (forall y, y <> s -> cur_cmd_req (R d) = Some y -> cur = Some y) ->
  replay (evs ++ log d) = Some (mk_arb wait' hand' cur) ->
  Inv run hand' busy slack
    (emits evs (set_R (mk_rqs (<[s := x']> (token_req_ex_pool (R d))) wait' (token_req_idle_q (R d))
              (token_op_q (R d)) (renew_req_info (R d)) tok cur) d)).
Proof.
  intros I Hx Ea Ef Hc Ht Hz Henq Hrun Hle Hcur Hev.
  assert (Eg : forall n, get_op n (mk_rqs (<[s := x']> (token_req_ex_pool (R d))) wait'
              (token_req_idle_q (R d)) (token_op_q (R d)) (renew_req_info (R d)) tok cur) = get_op n (R d)).
  { intros [i|i|]; cbn; unfold get_req; cbn; try done.
    all: destruct (decide (s = i)) as [->|]; [|by rewrite list_lookup_insert_ne by done].
    all: rewrite list_lookup_insert_eq by (by apply lookup_lt_Some in Hx); rewrite Hx; cbn; congruence. }
  destruct I. split; cbn; try done.
  - by rewrite length_insert.
  - intros y. etransitivity; [|apply (i_slots0 y)]. specialize (Hc y). unfold cur_list in *. cbn. lia.
  - intros i y [(-> & <- & _)|[Hne Hi]]%list_lookup_insert_Some.
    + split; cbn; [lia|done|done].
    + destruct (i_st0 i y Hi) as [S1 S2 S3]. split; cbn; [done| |].
      * intros T. specialize (S2 T). specialize (Hle i ltac:(congruence)). lia.
      * intros T. apply Hcur; [congruence|by apply S3].
  - intros hs. destruct (i_op0 hs) as [ND US OD BU]. split; cbn; try done.
    + intros n Hin. rewrite Eg. by apply US.
    + intros n Hin. rewrite Eg. by apply BU.
Qed.

Lemma wp_pop_wait_req run hand busy slack d : Inv run hand busy slack d ->
  wp (fun o => match o with
               | None => token_req_wait_q (R d) = []
               | Some (s, d') =>
                   keeps run (s :: hand) busy slack d d' /\
                   token_req_wait_q (R d) = s :: token_req_wait_q (R d') /\
                   cur_cmd_req (R d') = cur_cmd_req (R d) /\ token_op_q (R d') = token_op_q (R d) /\
                   (forall x, token_req_ex_pool (R d') !! s = Some x -> test_req x REQ_STATUS_ENQ = false)
               end) (pop_front_wait_req d).
Proof.
  intros I. unfold pop_front_wait_req. destruct (token_req_wait_q (R d)) as [|s l] eqn:Eq; [done|].
  assert (Hs : (s < MAX_CMD_REQ_NUM)%nat /\ cnt s (token_req_idle_q (R d)) = 0 /\ cnt s (cur_list (R d)) = 0).
  { pose proof (i_slots _ _ _ _ _ I s) as Es. rewrite Eq, cnt_cons, one_same in Es.
    pose proof (cnt_nonneg s (token_req_idle_q (R d))). pose proof (cnt_nonneg s l).
    pose proof (cnt_nonneg s hand). pose proof (cnt_nonneg s (cur_list (R d))).
    destruct (Nat.ltb_spec s MAX_CMD_REQ_NUM); lia. }
  destruct Hs as (Hs & Hz & Hc). apply wp_bind. eapply wp_get_req; [done|done|]. intros x Hx [S1 S2 S3].
  apply wp_ret. split; [split|].
  - apply (Inv_slot_move run hand busy slack d s x
             (req_clear REQ_STATUS_ENQ (req_set REQ_STATUS_PREPARE x)) l (s :: hand)
             (token_cnt (R d)) (cur_cmd_req (R d)) [EvPop s] I Hx); try done.
    + intros y. rewrite Eq, !cnt_cons. unfold cur_list. lia.
    + apply (i_cnt _ _ _ _ _ I).
    + intros _. rewrite cnt_cons, one_same. pose proof (cnt_nonneg s l). pose proof (cnt_nonneg s hand). lia.
    + intros T. apply S3. revert T. clear. flags. done.
    + intros y _. rewrite Eq, !cnt_cons. lia.
    + eapply replay_cons; [apply (i_arb _ _ _ _ _ I)|]. unfold arb_of. rewrite Eq. apply arb_pop.
  - split; [by exists [EvPop s]|intros _; exists []; by rewrite app_nil_r|done|done].
  - split; [done|]. split; [done|]. split; [done|]. cbn. intros y.
    rewrite list_lookup_insert_eq by (by apply lookup_lt_Some in Hx).
    intros [= <-]. clear. flags. done.
Qed.

Lemma no_token run hand busy slack d : Inv run hand busy slack d -> token_cnt (R d) <= 0 ->
  cur_cmd_req (R d) = None.
Proof.
  intros I. rewrite (i_cnt _ _ _ _ _ I). unfold cur_list. destruct (cur_cmd_req (R d)); [|done].
  cbn. unfold zlen. cbn. lia.
Qed.

(** What a request's release may assume: the operation that asked for it. *)
Definition releasable (busy : option op_node) (d : cmd_dispatcher) : Prop :=
  S -> started d = true -> forall s, cur_cmd_req (R d) = Some s -> busy = Some (FreeInfo s).

Lemma busy_unnamed run hand busy slack d d' s : Inv run hand busy slack d' -> Ext d d' ->
  (S -> started d = true -> busy = Some (FreeInfo s)) -> S -> started d' = true -> unnamed (R d') s.
Proof.
  intros I X Hb hs Hst. rewrite (e_started _ _ X) in Hst.
  destruct (op_busy _ _ (i_op _ _ _ _ _ I hs) _ (Hb hs Hst)) as (_ & N1 & N2).
  split; [by apply N2|done].
Qed.

Lemma wp_deregister run hand busy slack d notify : Inv run hand busy slack d -> releasable busy d ->
  wp (fun d' => keeps run hand busy slack d d' /\ cur_cmd_req (R d') = None /\
        (S -> token_req_wait_q (R d') = token_req_wait_q (R d))) (deregister_cur_cmd_req H notify d).
Proof.
  intros I Hr. unfold deregister_cur_cmd_req. destruct (cur_cmd_req (R d)) as [s|] eqn:Ec.
  2: { split; [split; [done|apply Ext_refl]|done]. }
  destruct (cur_range _ _ _ _ _ _ I Ec) as (Hs & _).
  set (P := fun d' => keeps run hand busy slack d d' /\ cur_cmd_req (R d') = Some s /\
    (S -> token_req_wait_q (R d') = token_req_wait_q (R d))).
  assert (Hup : forall f d1, P d1 ->
    (forall x, slot_ok hand (R d1) s x -> slot_ok hand (R d1) s (req_status f x)) ->
    wp P (upd_req s (req_status f) d1)).
  { intros f d1 ([I1 X1] & C1 & W1) Hf. eapply wp_mono; [apply wp_upd_req; [exact I1|done|done|done]|].
    intros d2 (K2 & (E2 & _ & E3 & _) & _). split; [by eapply keeps_trans|].
    split; [congruence|]. intros hs. rewrite E2. by apply W1. }
  apply wp_bind. eapply wp_mono; [apply (Hup _ d)|].
  { split; [split; [done|apply Ext_refl]|done]. }
  { intros x [S1 S2 S3]. split; [intros Hi; cbn; rewrite (S1 Hi); done| |].
    - intros T. apply S2. revert T. clear. flags. done.
    - intros T. exfalso. revert T. clear. flags. done. }
  intros d1 P1. destruct (P1) as ([I1 X1] & C1 & W1). apply wp_bind. eapply wp_get_req; [done|done|]. intros x Hx _.
  apply wp_bind. eapply wp_mono; [by apply wp_cancel_owned|]. intros d2 [K2 R2].
  assert (P2 : P d2).
  { split; [by eapply keeps_trans|]. rewrite R2. by destruct P1 as (_ & ?). }
  clear d1 P1 I1 X1 C1 W1 x Hx K2 R2. apply wp_bind. eapply wp_mono with (P := P).
  { destruct notify; [|done]. apply wp_bind. eapply wp_mono; [apply Hup; [done|]|].
    { intros x [S1 S2 S3]. split.
      - intros Hi. exfalso. destruct P2 as ([I2 X2] & C2 & _).
        destruct (cur_range _ _ _ _ _ _ I2 C2) as (_ & ? & _). lia.
      - intros T. apply S2. revert T. clear. flags. done.
      - intros T. apply S3. revert T. clear. flags. done. }
    intros d3 ([I3 X3] & C3 & W3). apply wp_bind.
    eapply wp_mono; [apply wp_call_abort; [done|done|by right]|]. intros d4 (K4 & C4 & R4).
    apply Hup.
    - split; [by eapply keeps_trans|]. split; [congruence|]. intros hs. destruct (R4 hs) as (-> & _). by apply W3.
    - intros x [S1 S2 S3]. split.
      + intros Hi. cbn. rewrite (S1 Hi). done.
      + intros T. apply S2. revert T. clear. flags. done.
      + intros T. apply S3. revert T. clear. flags. done. }
  clear d2 P2. intros d2 ([I2 X2] & C2 & W2).
  destruct (cur_range _ _ _ _ _ _ I2 C2) as (_ & Hz1 & Hz2 & Hz3).
  unfold push_back_idle_req. apply wp_bind. apply wp_bind.
  apply (wp_get_req run hand busy slack d2 s _ I2 Hs). cbn [R emit]. intros x Hx _.
  match goal with |- wp _ (if ?b then _ else _) => assert (b = false) as ->; [|] end.
  { unfold req_linked. apply bool_decide_eq_false. rewrite cnt_elem, cnt_app. cbn. lia. }
  apply wp_ret. apply wp_ret.
  pose proof (Inv_slot_idle run hand busy slack d2 s x hand (token_cnt (R d2) - 1) None
    [EvIdleReq s; EvReleased s] I2 Hx) as I3.
  specialize (I3 ltac:(intros y; unfold cur_list; rewrite C2; change (option_list (Some s)) with [s];
                       cbn [option_list]; rewrite cnt_cons, !cnt_nil; lia)
    ltac:(rewrite (i_cnt _ _ _ _ _ I2); unfold cur_list; by rewrite C2)
    ltac:(intros y Hy E0; congruence) ltac:(done)
    (busy_unnamed run hand busy slack d d2 s I2 X2 (fun hs ht => Hr hs ht s Ec))
    ltac:(eapply replay_cons; [eapply replay_cons; [apply (i_arb _ _ _ _ _ I2)|]|];
          unfold arb_of; [rewrite C2; apply arb_released|apply arb_idle])).
  split; [split|].
  - by eapply Inv_frame; [exact I3|..].
  - eapply Ext_trans; [exact X2|]. split; [|intros _; exists []; by rewrite app_nil_r|done|done].
    by exists [EvIdleReq s; EvReleased s].
  - split; [done|exact W2].
Qed.

Lemma wp_register run hand busy slack d s : Inv run (s :: hand) busy slack d -> cur_cmd_req (R d) = None ->
  (forall x, token_req_ex_pool (R d) !! s = Some x -> test_req x REQ_STATUS_ENQ = false) ->
  wp (fun p => keeps run hand busy slack d p.1 /\
        (S -> p.2 = true /\ cur_cmd_req (R p.1) = Some s /\
              token_req_wait_q (R p.1) = token_req_wait_q (R d))) (register_cur_cmd_req H s d).
Proof.
  intros I Ec He. destruct (hand_range _ _ _ _ _ _ I) as (Hs & Hz1 & Hz2 & Hz3).
  unfold register_cur_cmd_req, upd_req. apply wp_bind. apply wp_bind.
  eapply wp_get_req; [done|done|]. intros x Hx [S1 S2 S3]. apply wp_ret.
  set (x' := req_clear _ _).
  pose proof (Inv_slot_move run (s :: hand) busy slack d s x x' (token_req_wait_q (R d)) hand
                (token_cnt (R d) + 1) (Some s) [EvAcquired s (req x')] I Hx) as I1.
  specialize (I1 ltac:(done) ltac:(done)
    ltac:(intros y; unfold cur_list; rewrite Ec; change (option_list (Some s)) with [s]; change (option_list None) with (@nil nat); rewrite !cnt_cons, !cnt_nil; lia)
    ltac:(rewrite (i_cnt _ _ _ _ _ I); unfold cur_list; by rewrite Ec) ltac:(done)
    ltac:(intros T; specialize (He x Hx); exfalso; revert T He; unfold x'; clear; intros T He; flags; congruence)
    ltac:(done)
    ltac:(intros y Hy; rewrite cnt_cons; unfold one; destruct (Nat.eqb_spec y s); [congruence|lia])
    ltac:(intros y Hy E0; congruence)
    ltac:(eapply replay_cons; [apply (i_arb _ _ _ _ _ I)|unfold arb_of; rewrite Ec; apply arb_acquired])).
  cbv beta zeta. set (d1 := set_R (set_token _ _ _) _).
  change (Inv run hand busy slack (emit (EvAcquired s (req x')) d1)) in I1.
  assert (X1 : Ext d (emit (EvAcquired s (req x')) d1)).
  { split; [by exists [EvAcquired s (req x')]|intros _; exists []; by rewrite app_nil_r|done|done]. }
  apply wp_bind. unfold get_req at 1. cbn [R d1 set_R set_token token_req_ex_pool put_req set_reqs].
  rewrite list_lookup_insert_eq by (by apply lookup_lt_Some in Hx). cbn [wp]. set (y := x') in *.
  pose proof (fun hs => c_acq _ (HS hs) (log d1) (req y)) as Ha.
  pose proof (fun hc => p_acq _ (HC hc) (log d1) (req y)) as Hp.
  destruct (acquired H (log d1) (req y)) as [ret calls]. cbn [fst snd] in Ha, Hp. apply wp_bind.
  eapply wp_mono; [apply wp_calls; [exact I1|..]|].
  - intros hs. apply (Ha hs).
  - intros hc. apply (Hp hc).
  - intros hs _. apply (Ha hs).
  - intros d2 ([I2 X2] & C2 & R2). destruct (decide (ret = MDL_RET_FAIL)) as [Ef|].
    + assert (nS : ~ S) by (intros hs; by destruct (Ha hs)).
      apply wp_bind. eapply wp_mono; [apply wp_deregister; [done|by intros hs]|].
      intros d3 (K3 & _). cbn. split; [|by intros hs].
      eapply keeps_trans; [exact X1|]. by eapply keeps_trans.
    + cbn. split; [by eapply keeps_trans|].
      intros hs. split; [done|]. split; [by rewrite C2|].
      destruct (R2 (proj2 (proj2 (Ha hs)))) as (-> & _). done.
Qed.

(** What the turns on the requests are measured by: waiting requests are granted
    once and released once. *)
Definition weight (d : cmd_dispatcher) : nat :=
  2 * length (token_req_wait_q (R d)) + length (cur_list (R d)).

Lemma weight_same d d' : token_req_wait_q (R d') = token_req_wait_q (R d) ->
  cur_cmd_req (R d') = cur_cmd_req (R d) -> weight d' = weight d.
Proof. unfold weight, cur_list. by intros -> ->. Qed.

(** A step that leaves the requests or makes progress on them. *)
Definition goes (d d' : cmd_dispatcher) : Prop :=
  (weight d' = weight d /\ token_op_q (R d') = token_op_q (R d)) \/ (weight d' < weight d)%nat.

Lemma goes_refl d : goes d d.
Proof. by left. Qed.
Lemma goes_trans d1 d2 d3 : goes d1 d2 -> goes d2 d3 -> goes d1 d3.
Proof. unfold goes. intros [[E1 Q1]|L1] [[E2 Q2]|L2]; [left; split; congruence|right..]; lia. Qed.
Lemma goes_R d d' : R d' = R d -> goes d d'.
Proof. intros E0. left. unfold weight, cur_list. by rewrite E0. Qed.

Lemma bk_mdl_no_ctrl : IS_DISPR_CTRL (MSG_MDL_ID_FIELD (bk_msg_id PHL_MDL_POWER_MGNT MSG_EVT_PHY_ON)) = false /\
  IS_DISPR_CTRL (MSG_MDL_ID_FIELD (bk_msg_id PHL_MDL_POWER_MGNT MSG_EVT_PHY_IDLE)) = false.
Proof. by vm_compute. Qed.

Lemma wp_phy_msg run hand busy slack d (on : bool) : Inv run hand busy slack d ->
  wp (fun d' => keeps run hand busy slack d d' /\ R d' = R d)
     (if on then send_bk_msg_phy_on d else send_bk_msg_phy_idle d).
Proof.
  intros I. destruct bk_mdl_no_ctrl as [B1 B2].
  destruct on; unfold send_bk_msg_phy_on, send_bk_msg_phy_idle; apply wp_bind;
    (eapply wp_mono; [apply wp_send; [exact I|done|done]|]); by intros [[d1 st] h] [K1 R1].
Qed.

Lemma wp_process run hand busy slack fuel : (S -> (1 <= fuel)%nat) -> forall d, Inv run hand busy slack d ->
  wp (fun p => keeps run hand busy slack d p.1 /\ (S -> goes d p.1)) (dispr_process_token_req H fuel d).
Proof.
  intros Hf. induction fuel as [|fuel IH]; intros d I; [intros hs; specialize (Hf hs); lia|].
  assert (Hstay : forall st, wp (fun p : cmd_dispatcher * rtw_phl_status =>
            keeps run hand busy slack d p.1 /\ (S -> goes d p.1)) (Ret (d, st))).
  { intros. split; [split; [done|apply Ext_refl]|intros _; apply goes_refl]. }
  cbn [dispr_process_token_req]. destruct (negb _); [apply Hstay|]. destruct (test_disp d _); [apply Hstay|].
  destruct (Z.ltb_spec 0 (token_cnt (R d))) as [|Ht]; [apply Hstay|]. destruct (test_disp d _); [apply Hstay|].
  pose proof (no_token _ _ _ _ _ I Ht) as Ec. apply wp_bind.
  eapply wp_mono; [by apply wp_pop_wait_req|]. intros [[s d1]|] Ho.
  - destruct Ho as ([I1 X1] & Ew & C1 & Q1 & Henq). apply wp_bind.
    eapply wp_mono with (P := fun d2 => keeps run (s :: hand) busy slack d1 d2 /\ R d2 = R d1).
    { destruct (test_disp d1 _); [|split; [split; [done|apply Ext_refl]|done]].
      destruct (status_keeps _ _ _ _ _ (CLEAR_STATUS_FLAG (status d1) DISPR_NOTIFY_IDLE) I1) as [I2 X2].
      { unfold started. clear. flags. done. }
      eapply wp_mono; [apply (wp_phy_msg _ _ _ _ _ true I2)|]. intros d2 [K2 R2].
      split; [by eapply keeps_trans|done]. }
    intros d2 [[I2 X2] R2]. apply wp_bind. eapply wp_mono; [apply wp_register; [exact I2|..]|].
    + congruence.
    + by rewrite R2.
    + intros [d3 ok] [[I3 X3] W3]. cbn [fst snd] in *.
      assert (X : Ext d d3) by (eapply Ext_trans; [exact X1|]; by eapply Ext_trans).
      assert (G : S -> goes d d3).
      { intros hs. destruct (W3 hs) as (_ & C3 & W). right. unfold weight, cur_list.
        rewrite C3, Ec, W, R2, Ew. cbn. lia. }
      destruct ok; [by split; [split|]|].
      eapply wp_mono; [apply IH; [|exact I3]|].
      * intros hs. by destruct (W3 hs).
      * intros p [K4 G4]. split; [by eapply keeps_trans|]. intros hs. by destruct (W3 hs).
  - destruct (negb _); [|apply Hstay].
    destruct (status_keeps _ _ _ _ _ (SET_STATUS_FLAG (status d) DISPR_NOTIFY_IDLE) I) as [I2 X2].
    { unfold started. clear. flags. done. }
    apply wp_bind. eapply wp_mono; [apply (wp_phy_msg _ _ _ _ _ false I2)|]. intros d2 [K2 R2].
    apply wp_ret. split; [by eapply keeps_trans|]. intros _. by apply goes_R.
Qed.

Lemma wp_process_token run hand busy slack fuel d : (S -> (1 <= fuel)%nat) -> Inv run hand busy slack d ->
  wp (fun d' => keeps run hand busy slack d d' /\ (S -> goes d d')) (process_token_req H fuel d).
Proof.
  intros Hf I. unfold process_token_req. apply wp_bind.
  eapply wp_mono; [by apply wp_process|]. by intros [d1 st] K1.
Qed.

Lemma op_length busy r : length (token_req_ex_pool r) = MAX_CMD_REQ_NUM -> ops_ok busy r ->
  (length (token_op_q r) <= 17)%nat.
Proof.
  intros Hl [ND US _ _].
  set (all := RenewInfo :: map AddInfo (seq 0 MAX_CMD_REQ_NUM) ++ map FreeInfo (seq 0 MAX_CMD_REQ_NUM)).
  change 17%nat with (length all). apply List.NoDup_incl_length; [by apply NoDup_ListNoDup|].
  intros n Hn%list_elem_of_In. destruct (US n Hn) as (o & Eo & _). apply list_elem_of_In.
  assert (Hr : forall i x, get_req r i = Ret x -> i ∈ seq 0 MAX_CMD_REQ_NUM).
  { intros i x E0. rewrite elem_of_seq, <- Hl. apply get_req_some, lookup_lt_Some in E0. lia. }
  unfold all. rewrite elem_of_cons, elem_of_app, !list_elem_of_fmap. destruct n as [i|i|]; cbn in Eo; [| |by left].
  - destruct (get_req r i) eqn:E0; [|done|done]. right. left. exists i. by split; [|eapply Hr].
  - destruct (get_req r i) eqn:E0; [|done|done]. right. right. exists i. by split; [|eapply Hr].
Qed.

Lemma cnt_length l n : (forall x, cnt x l <= if Nat.ltb x n then 1 else 0) -> (length l <= n)%nat.
Proof.
  intros Hl. rewrite <- (length_seq n 0). apply List.NoDup_incl_length.
  - apply (NoDup_count_occ Nat.eq_dec). intros x. specialize (Hl x). unfold cnt in Hl.
    destruct (Nat.ltb x n); lia.
  - intros x Hx%list_elem_of_In%cnt_elem. apply list_elem_of_In, elem_of_seq. specialize (Hl x).
    destruct (Nat.ltb_spec x n); lia.
Qed.

Lemma weight_bound run hand busy slack d : Inv run hand busy slack d -> (weight d <= 16)%nat.
Proof.
  intros I. assert ((length (token_req_wait_q (R d) ++ cur_list (R d)) <= MAX_CMD_REQ_NUM)%nat) as L.
  { apply cnt_length. intros x. pose proof (i_slots _ _ _ _ _ I x) as E0. rewrite cnt_app.
    pose proof (cnt_nonneg x hand). pose proof (cnt_nonneg x (token_req_idle_q (R d))).
    destruct (Nat.ltb x MAX_CMD_REQ_NUM); lia. }
  rewrite length_app in L. unfold weight, MAX_CMD_REQ_NUM in *. lia.
Qed.

Lemma filter_shorter (s : nat) q : s ∈ q -> (length (filter (fun j => j <> s) q) < length q)%nat.
Proof.
  intros Hs. induction q as [|j q IH]; [by apply not_elem_of_nil in Hs|].
  pose proof (length_filter (fun j => j <> s) q).
  rewrite filter_cons. destruct (decide (j <> s)) as [N|N]; cbn; [|lia].
  apply elem_of_cons in Hs as [->|Hs]; [done|]. specialize (IH Hs). lia.
Qed.

Lemma wp_cancel_waiting run busy slack d s x : Inv run [] busy slack d ->
  token_req_ex_pool (R d) !! s = Some x -> test_req x REQ_STATUS_ENQ = true ->
  (S -> busy = Some (FreeInfo s)) ->
  wp (fun d' => keeps run [] busy slack d d' /\ (S -> goes d d'))
     (q ← pq_del_node s (token_req_wait_q (R d));
      d ← call_abort H s (emit (EvDrop s) (set_R (set_rwait q (R d)) d)); push_back_idle_req s d).
Proof.
  intros I Hx T Hb. destruct (i_st _ _ _ _ _ I s x Hx) as [S1 S2 S3].
  specialize (S2 T). rewrite cnt_nil, Z.add_0_r in S2.
  assert (Hin : s ∈ token_req_wait_q (R d)) by by apply cnt_elem.
  pose proof (i_slots _ _ _ _ _ I s) as Es. rewrite cnt_nil in Es.
  pose proof (cnt_nonneg s (token_req_idle_q (R d))). pose proof (cnt_nonneg s (cur_list (R d))).
  assert (Hs : (s < MAX_CMD_REQ_NUM)%nat).
  { destruct (Nat.ltb_spec s MAX_CMD_REQ_NUM); [done|lia]. }
  destruct (Nat.ltb_spec s MAX_CMD_REQ_NUM); [|lia].
  unfold pq_del_node. destruct (decide _); [|done]. cbn [mbind res_bind].
  set (q := filter _ _).
  pose proof (Inv_slot_move run [] busy slack d s x x q [s] (token_cnt (R d)) (cur_cmd_req (R d))
    [EvDrop s] I Hx) as I1.
  specialize (I1 ltac:(done) ltac:(done)
    ltac:(intros y; unfold q; rewrite cnt_filter, cnt_cons, !cnt_nil; unfold cur_list, one;
          destruct (Nat.eqb_spec y s) as [->|]; lia)
    (i_cnt _ _ _ _ _ I) ltac:(lia)
    ltac:(intros _; rewrite cnt_cons, one_same, cnt_nil; pose proof (cnt_nonneg s q); lia)
    S3
    ltac:(intros y Hy; unfold q; rewrite cnt_filter, cnt_cons, !cnt_nil; unfold one;
          destruct (Nat.eqb_spec y s); [congruence|lia]) ltac:(done)
    ltac:(eapply replay_cons; [apply (i_arb _ _ _ _ _ I)|by apply arb_drop])).
  rewrite list_insert_id in I1 by done.
  change (Inv run [s] busy slack (emit (EvDrop s) (set_R (set_rwait q (R d)) d))) in I1.
  set (d1 := emit (EvDrop s) (set_R (set_rwait q (R d)) d)) in *.
  assert (X1 : Ext d d1).
  { split; [by exists [EvDrop s]|intros _; exists []; by rewrite app_nil_r|done|done]. }
  apply wp_bind. eapply wp_mono; [apply wp_call_abort; [done|done|by left]|]. intros d2 ([I2 X2] & C2 & R2).
  eapply wp_mono; [apply wp_push_idle_req; [exact I2|]|].
  { eapply (busy_unnamed _ _ _ _ d d2); [exact I2|by eapply Ext_trans|by intros hs _; apply Hb]. }
  intros d3 (K3 & (W3 & C3) & _). split.
  { eapply keeps_trans; [exact X1|]. by eapply keeps_trans. }
  intros hs. destruct (R2 hs) as (W2 & _). right. unfold weight, cur_list. rewrite W3, W2, C3, C2.
  unfold d1. cbn [R emit set_R token_req_wait_q set_rwait cur_cmd_req].
  pose proof (filter_shorter s _ Hin) as Hfs. fold q in Hfs. lia.
Qed.

Lemma wp_release run busy slack d s x notify fuel : Inv run [] busy slack d ->
  token_req_ex_pool (R d) !! s = Some x -> test_req x REQ_STATUS_RUN = true ->
  (S -> busy = Some (FreeInfo s)) -> (S -> (1 <= fuel)%nat) ->
  wp (fun d' => keeps run [] busy slack d d' /\ (S -> goes d d'))
     (d ← deregister_cur_cmd_req H notify d; process_token_req H fuel d).
Proof.
  intros I Hx T Hb Hf. destruct (i_st _ _ _ _ _ I s x Hx) as [_ _ S3]. specialize (S3 T).
  apply wp_bind. eapply wp_mono; [apply wp_deregister; [exact I|]|].
  { intros hs _ s' Es. rewrite S3 in Es. injection Es as <-. by apply Hb. }
  intros d1 ([I1 X1] & C1 & W1). eapply wp_mono; [by apply wp_process_token|]. intros d2 [K2 G2].
  split; [by eapply keeps_trans|]. intros hs. specialize (G2 hs). specialize (W1 hs).
  assert (weight d1 < weight d)%nat.
  { unfold weight, cur_list. rewrite W1, C1, S3. change (length (option_list (Some s))) with 1%nat.
    change (length (option_list (@None nat))) with 0%nat. lia. }
  right. destruct G2 as [[? _]|?]; lia.
Qed.

Lemma wp_handle run n slack d o fuel : Inv run [] (Some n) slack d -> (S -> op_fits n o) ->
  (S -> (1 <= fuel)%nat) ->
  wp (fun d' => keeps run [] (Some n) slack d d' /\ (S -> goes d d')) (_handle_token_op_info H fuel o d).
Proof.
  intros I Hfit Hf.
  assert (Hstay : wp (fun d' => keeps run [] (Some n) slack d d' /\ (S -> goes d d')) (Ret d)).
  { split; [split; [done|apply Ext_refl]|intros _; apply goes_refl]. }
  unfold _handle_token_op_info. destruct (_ || _) eqn:Ety; [by apply wp_process_token|].
  assert (Hb : S -> exists i, n = FreeInfo i /\ data o = Z.of_nat i).
  { intros hs. specialize (Hfit hs). apply orb_false_iff in Ety as [E1%Z.eqb_neq E2%Z.eqb_neq].
    destruct n as [i|i|]; cbn in Hfit; [done| |done]. exists i. by destruct Hfit. }
  assert (Hb' : S -> Some n = Some (FreeInfo (Z.to_nat (data o)))).
  { intros hs. destruct (Hb hs) as (i & -> & ->). by rewrite Nat2Z.id. }
  destruct (type o =? TOKEN_OP_FREE_CMD_REQ).
  - destruct (Z.leb_spec (Z.of_nat MAX_CMD_REQ_NUM) (data o)) as [|Hr]; [apply Hstay|].
    apply wp_bind. eapply wp_get_req; [exact I|unfold MAX_CMD_REQ_NUM in *; lia|]. intros x Hx _.
    destruct (test_req x REQ_STATUS_RUN) eqn:T; cbn [negb]; [|apply Hstay].
    by eapply wp_release.
  - destruct (type o =? TOKEN_OP_CANCEL_CMD_REQ); [|apply Hstay].
    destruct (Z.leb_spec (Z.of_nat MAX_CMD_REQ_NUM) (data o)) as [|Hr]; [apply Hstay|].
    apply wp_bind. eapply wp_get_req; [exact I|unfold MAX_CMD_REQ_NUM in *; lia|]. intros x Hx _.
    destruct (test_req x REQ_STATUS_ENQ) eqn:T1; [by eapply wp_cancel_waiting|].
    destruct (test_req x REQ_STATUS_RUN) eqn:T2; [by eapply wp_release|apply Hstay].
Qed.

Lemma get_op_valid run hand busy slack d n o : Inv run hand busy slack d -> get_op n (R d) = Ret o -> op_valid n.
Proof.
  intros I E0. destruct n as [i|i|]; cbn in E0 |- *; [| |done].
  all: destruct (get_req (R d) i) eqn:E1; [|done|done]; apply get_req_some, lookup_lt_Some in E1;
    by rewrite <- (i_reqs _ _ _ _ _ I).
Qed.

(** The thread takes an operation and gives it back. *)
Lemma Inv_take_op run hand slack d n l : Inv run hand None slack d -> token_op_q (R d) = n :: l ->
  let d' := set_R (set_opq l (R d)) d in
  keeps run hand (Some n) slack d d' /\ weight d' = weight d /\
  (S -> exists o, get_op n (R d') = Ret o /\ op_fits n o).
Proof.
  intros I Eq. split; [split; [|by apply Ext_same_M]|split; [done|]].
  - destruct I. split; cbn; try done.
    + intros i x Hx. destruct (i_st0 i x Hx) as [S1 S2 S3]. by split.
    + intros hs. destruct (i_op0 hs) as [ND US OD _]. rewrite Eq in ND, US, OD. inversion ND; subst.
      destruct OD as [On OD]. split; cbn; try done.
      * intros m Hm. destruct (US m) as (o & Eo & Uo); [rewrite elem_of_cons; auto|]. by exists o; destruct m.
      * intros m [= <-]. destruct (US n) as (o & Eo & Uo & _); [rewrite elem_of_cons; auto|].
        split; [exists o; by destruct n|]. split; [done|]. intros i ->. done.
    + intros hs Ht s Hs. destruct (i_idle0 hs Ht s Hs) as [N1 N2]. rewrite Eq in N1, N2.
      apply not_elem_of_cons in N1 as [_ N1]. apply not_elem_of_cons in N2 as [_ N2]. by split.
    + destruct i_sema0. rewrite Eq, zlen_cons in *. pose proof (zlen_nonneg l). lia.
  - intros hs. destruct (op_used _ _ (i_op _ _ _ _ _ I hs) n) as (o & Eo & _ & Hf).
    { rewrite Eq, elem_of_cons. auto. }
    exists o. split; [by destruct n|done].
Qed.

Lemma wp_done_op run hand slack d n : Inv run hand (Some n) slack d ->
  wp (fun d' => keeps run hand None slack d d' /\ weight d' = weight d /\ token_op_q (R d') = token_op_q (R d))
     (o ← get_op n (R d); r ← put_op n (mk_op false (type o) (data o)) (R d); Ret (set_R r d)).
Proof.
  intros I. assert (Hg : S -> exists o, get_op n (R d) = Ret o).
  { intros hs. destruct (op_busy _ _ (i_op _ _ _ _ _ I hs) n eq_refl) as ((o & Eo & _) & _). by exists o. }
  apply wp_bind. destruct (get_op n (R d)) as [o| |] eqn:Eo; [|by intros hs; destruct (Hg hs)..].
  cbn [wp]. destruct (put_op_spec n (mk_op false (type o) (data o)) (R d) (i_reqs _ _ _ _ _ I)
    (get_op_valid _ _ _ _ _ _ _ I Eo)) as (r' & -> & [Ow Oi Oq Oc Ou Ol Os] & _ & Eg & _).
  cbn. split; [split; [|by apply Ext_same_M]|split; [|by rewrite Oq]].
  - destruct I. split; cbn; rewrite ?Ow, ?Oi, ?Oq, ?Oc; try done.
    + by rewrite Ol.
    + intros x. unfold cur_list in *. cbn. rewrite Ou. done.
    + unfold cur_list in *. cbn. by rewrite Ou.
    + intros i x Hx. destruct (Os i x Hx) as (y & Hy & Est). destruct (i_st0 i y Hy).
      split; cbn; unfold test_req in *; rewrite ?Ow, ?Oi, ?Ou, ?Est; done.
    + intros hs. destruct (i_op0 hs) as [ND US OD BU]. destruct (BU n eq_refl) as (_ & Hn & _).
      split; rewrite ?Oq; try done.
      intros m Hm. rewrite Eg by congruence. by apply US.
    + intros hs Ht s Hs. destruct (i_idle0 hs Ht s Hs). by split; rewrite Oq.
    + rewrite i_arb0. unfold arb_of. cbn. by rewrite Ow, Ou.
  - unfold weight, cur_list. cbn. by rewrite Ow, Ou.
Qed.

Lemma wp_token_ops run slack fuel : forall d, Inv run [] None slack d ->
  (S -> (18 * weight d + length (token_op_q (R d)) < fuel)%nat) ->
  wp (fun d' => keeps run [] None slack d d' /\ token_op_q (R d') = []) (token_op_hanler H fuel d).
Proof.
  induction fuel as [|fuel IH]; intros d I Hf; [intros hs; specialize (Hf hs); lia|].
  cbn [token_op_hanler]. unfold pop_front_token_op_info.
  destruct (token_op_q (R d)) as [|n l] eqn:Eq; [split; [split; [done|apply Ext_refl]|done]|].
  destruct (Inv_take_op _ _ _ _ _ _ I Eq) as ([I1 X1] & W1 & O1).
  set (d1 := set_R (set_opq l (R d)) d) in *. apply wp_bind.
  destruct (get_op n (R d1)) as [o| |] eqn:Eo; [|by intros hs; destruct (O1 hs) as (? & ? & _)..]. cbn [wp].
  apply wp_bind. eapply wp_mono; [apply wp_handle; [exact I1| |lia]|].
  { intros hs. destruct (O1 hs) as (o' & E' & ?). congruence. }
  intros d2 ([I2 X2] & G2). pose proof (wp_done_op _ _ _ _ _ I2) as W.
  destruct (get_op n (R d2)) as [o2| |]; [|exact W|exact W]. cbn [mbind res_bind] in W |- *.
  destruct (put_op n _ (R d2)) as [r| |]; [|exact W|exact W]. cbn [mbind res_bind wp] in W |- *.
  destruct W as ([I3 X3] & W3 & Q3). set (d3 := set_R r d2) in *.
  eapply wp_mono; [apply IH; [exact I3|]|].
  - intros hs. specialize (G2 hs). specialize (Hf hs). cbn [length] in Hf.
    pose proof (op_length _ _ (i_reqs _ _ _ _ _ I3) (i_op _ _ _ _ _ I3 hs)) as L3. rewrite W3, Q3 in *.
    destruct G2 as [[G2 Q2]|G2].
    + rewrite G2, W1, Q2. unfold d1. cbn [R set_R set_opq token_op_q]. lia.
    + lia.
  - intros d4 [K4 Q4]. split; [|done].
    eapply keeps_trans; [exact X1|]. eapply keeps_trans; [exact X2|]. by eapply keeps_trans.
Qed.

(** *** A turn *)

(** What a turn does to the waiting messages: the first one is taken. *)
Record turned (d d' : cmd_dispatcher) : Prop := {
  t_log : exists new, log d' = new ++ log d /\
            match msg_wait_q (M d) with i :: _ => C -> EvTake i ∈ new | [] => True end;
  t_wait : C -> exists l, msg_wait_q (M d') = (tail (msg_wait_q (M d)) ++ l);
  t_mods : same_mods (E d) (E d');
  t_started : started d' = started d
}.

Lemma wp_pop_wait run hand busy slack slack' d : Inv run hand busy slack d -> slack <= slack' + 1 ->
  wp (fun o => match o with
               | None => msg_wait_q (M d) = []
               | Some (i, d') => Inv (i :: run) hand busy slack' d' /\ R d' = R d /\ log d' = log d /\
                   same_mods (E d) (E d') /\ started d' = started d /\
                   msg_wait_q (M d) = i :: msg_wait_q (M d') /\ msg_pend_q (M d') = msg_pend_q (M d)
               end) (pop_front_wait_msg d).
Proof.
  intros I Hsl. unfold pop_front_wait_msg. destruct (msg_wait_q (M d)) as [|i l] eqn:Eq; [done|].
  assert (Hi : (i < MAX_PHL_MSG_NUM)%nat /\ cnt i (msg_idle_q (M d)) = 0).
  { pose proof (i_msgs _ _ _ _ _ I i) as E0. rewrite Eq, cnt_cons, one_same in E0.
    pose proof (cnt_nonneg i (msg_idle_q (M d))). pose proof (cnt_nonneg i l).
    pose proof (cnt_nonneg i (msg_pend_q (M d))). pose proof (cnt_nonneg i run).
    destruct (Nat.ltb_spec i MAX_PHL_MSG_NUM); lia. }
  destruct Hi as [Hi Hz]. apply wp_bind. eapply wp_get_msg; [exact I|done|]. intros ex Hex Hok.
  apply wp_ret. split; [|done].
  assert (I1 : Inv (i :: run) hand busy slack' (set_M (set_wait l (M d)) d)).
  { rewrite <- (set_sema_same (set_M _ d)). destruct (i_sema _ _ _ _ _ I) as [Hs1 Hs2].
    apply (Inv_queues _ _ _ _ _ (i :: run) slack' (msg_q_sema d) (msg_idle_q (M d)) l (msg_pend_q (M d)) I).
    - intros x. rewrite Eq. autorewrite with cnt. lia.
    - by eapply i_ctl.
    - done.
    - rewrite Eq in Hs2. zlens. lia. }
  apply Inv_put_msg; [exact I1| |].
  - eapply fixed_ok; [|exact Hok]. split; [done|]. split; [done|]. clear. flags. done.
  - intros hc _. cbn. by eapply i_ctl.
Qed.

Lemma canceled_fixed d ex : MSG_MDL_ID_FIELD (msg_id (is_msg_canceled d ex).1) = MSG_MDL_ID_FIELD (msg_id ex) /\
  forall e, msg_ok e ex -> msg_ok e (is_msg_canceled d ex).1.
Proof.
  unfold is_msg_canceled. split.
  - repeat first [case_match|progress cbn [fst with_id set_flag with_status msg_id]];
      rewrite ?mdl_field_set_indc by done; done.
  - intros e [L O].
    repeat first [case_match|progress cbn [fst]]; (split; [exact L|]); intros T; apply O; revert T; clear;
      intros T; flags; done.
Qed.

Lemma wp_turn d : Inv [] [] None 1 d ->
  wp (fun d' => Inv [] [] None 0 d' /\ turned d d') (dispr_thread_loop_hdl H loop_fuel d).
Proof.
  intros I. unfold dispr_thread_loop_hdl. apply wp_bind. eapply wp_mono; [by apply wp_clear_pending|].
  intros d1 [[I1 X1] R1]. apply wp_bind. eapply wp_mono; [apply wp_token_ops; [exact I1|]|].
  { intros hs. pose proof (weight_bound _ _ _ _ _ I1).
    pose proof (op_length _ _ (i_reqs _ _ _ _ _ I1) (i_op _ _ _ _ _ I1 hs)). specialize (HF hs). unfold calm_fuel in HF. lia. }
  intros d2 [[I2 X2] Q2]. apply wp_bind. eapply wp_mono; [by apply (wp_pop_wait [] [] None 1 0)|].
  assert (X : Ext d d2) by by eapply Ext_trans.
  intros [[i d3]|] Ho.
  - destruct Ho as (I3 & R3 & L3 & M3 & T3 & W3 & _). destruct (run_range _ _ _ _ _ _ I3) as (Hi & Hz & _).
    set (d4 := emit (EvTake i) d3).
    assert (I4 : Inv [i] [] None 0 d4).
    { eapply Inv_frame; [exact I3|done|done|done|cbn; lia|done|]. cbn [log d4 emit replay].
      by rewrite (i_arb _ _ _ _ _ I3). }
    apply wp_bind. eapply wp_get_msg; [exact I4|done|]. intros ex Hex Hok.
    destruct (canceled_fixed d4 ex) as [Hm Hf].
    destruct (is_msg_canceled d4 ex) as [ex' canceled]. cbn [fst] in Hm, Hf.
    assert (Hput : forall f, fixed_flags ex' (f ex') -> keeps [i] [] None 0 d4 (put_msg i (f ex') d4)).
    { intros f Hff. eapply keeps_put; [done|exact Hex| |].
      - eapply fixed_ok; [exact Hff|by apply Hf].
      - destruct Hff as (_ & -> & _). done. }
    assert (Hend : forall d' m, Ext d4 d' -> wp (keeps [] [] None 0 d') m ->
      wp (fun d' => Inv [] [] None 0 d' /\ turned d d') m).
    { intros d' m X' W. eapply wp_mono; [exact W|]. intros d5 [I5 X5]. split; [done|].
      destruct (Ext_trans _ _ _ X' X5) as [[n5 L5] E5 M5 T5]. destruct X as [[n2 L2] E2 M2 T2].
      split.
      - exists (n5 ++ [EvTake i] ++ n2). rewrite L5. cbn [log d4 emit]. rewrite L3, L2, <- !app_assoc.
        split; [done|]. destruct (msg_wait_q (M d)) as [|j w] eqn:Ew; [done|]. intros hc.
        destruct (E2 hc) as [l El]. rewrite W3 in El. injection El as -> _.
        rewrite !elem_of_app, list_elem_of_singleton. auto.
      - intros hc. destruct (E5 hc) as [l5 ->]. destruct (E2 hc) as [l2 E2']. cbn [M d4 emit].
        rewrite W3 in E2'. destruct (msg_wait_q (M d)) as [|j w].
        + by eexists.
        + injection E2' as _ ->. exists (l2 ++ l5). cbn. by rewrite app_assoc.
      - destruct M2 as [M2 M2'], M3 as [M3 M3'], M5 as [M5 M5']. cbn in M5, M5'. split; congruence.
      - rewrite T5. change (started d4) with (started d3). congruence. }
    destruct canceled.
    + destruct (Hput id) as [I5 X5]; [done|]. eapply Hend; [exact X5|]. by apply done_push_idle.
    + destruct (Hput (fun ex => mk_msg (m_status ex) (msg_id ex) (Z.land (bitmap (E d4)) (premap ex))
          (Z.land (bitmap (E d4)) (postmap ex)) (completion ex) (m_module ex))) as [I5 X5]; [done|].
      eapply Hend; [exact X5|]. by apply wp_dispatch.
  - apply wp_ret. split.
    + destruct I2. split; try done. rewrite Ho, Q2 in *. cbn in *. unfold zlen in *. cbn in *. lia.
    + destruct X as [[n2 L2] E2 M2 T2]. split; [|intros hc|done|done].
      * exists n2. split; [done|]. destruct (msg_wait_q (M d)) as [|j w]; [done|]. intros hc.
        destruct (E2 hc) as [l El]. rewrite Ho in El. done.
      * destruct (E2 hc) as [l El]. rewrite Ho in El. destruct (msg_wait_q (M d)); [|done].
        exists l. rewrite Ho. done.
Qed.

(** *** Stopping *)

Lemma wp_and {A} (P Q : A -> Prop) m : wp P m -> (forall a, m = Ret a -> Q a) -> wp (fun a => P a /\ Q a) m.
Proof. destruct m; cbn; auto. Qed.

Lemma push_wait_pend i d d' : push_back_wait_msg i d = Ret d' -> msg_pend_q (M d') = msg_pend_q (M d).
Proof.
  unfold push_back_wait_msg, enq_msg. destruct (get_msg (M d) i); [|done|done]. cbn [mbind res_bind].
  destruct (msg_linked (M d) i); [done|]. by intros [= <-].
Qed.

Lemma enqueue_M n ty dat d p : push_back_token_op_info n ty dat d = Ret p -> M p.1 = M d.
Proof.
  unfold push_back_token_op_info. destruct (get_op n (R d)) as [o| |]; [|done|done]. cbn [mbind res_bind].
  destruct (used o); [by intros [= <-]|]. destruct (put_op n _ (R d)); [|done|done]. cbn [mbind res_bind].
  destruct (decide _); [done|]. by intros [= <-].
Qed.

Lemma push_idle_queues i d d' : push_back_idle_msg i d = Ret d' ->
  msg_pend_q (M d') = msg_pend_q (M d) /\ msg_wait_q (M d') = msg_wait_q (M d).
Proof.
  unfold push_back_idle_msg. destruct (get_msg (M d) i) as [ex| |]; [|done|done]. cbn [mbind res_bind].
  set (d1 := if _ && _ then emit _ d else d). assert (E1 : M d1 = M d) by (unfold d1; by destruct (_ && _)).
  revert E1. generalize d1. clear d1. intros d1 E1. cbv zeta.
  match goal with |- context [if test_msg ?x MSG_STATUS_FOR_ABORT then _ else _] => set (fa := test_msg x MSG_STATUS_FOR_ABORT) end.
  assert (E2 : forall d2, (if fa then on_abort_msg_complete d1 else Ret d1) = Ret d2 -> M d2 = M d1).
  { intros d2. destruct fa; [|by intros [= <-]]. unfold on_abort_msg_complete, dispr_enqueue_token_op_info.
    destruct (push_back_token_op_info _ _ _ _) as [p| |] eqn:Ep; [|done|done].
    apply enqueue_M in Ep. destruct p. cbn. intros [= <-]. exact Ep. }
  destruct (if fa then on_abort_msg_complete d1 else Ret d1) as [d2| |]; [|done|done].
  specialize (E2 d2 eq_refl). cbn [mbind res_bind]. destruct (msg_linked _ _); [done|]. intros [= <-].
  cbn. destruct (_ =? _); cbn; rewrite E2, E1; done.
Qed.

Lemma wp_drain_pending run hand busy slack n : forall d, Inv run hand busy slack d ->
  length (msg_pend_q (M d)) = n ->
  wp (fun d' => keeps run hand busy slack d d' /\ R d' = R d /\ msg_pend_q (M d') = []) (drain_pending n d).
Proof.
  induction n as [|n IH]; intros d I Hn; cbn [drain_pending].
  { apply wp_ret. split; [split; [done|apply Ext_refl]|]. split; [done|]. by apply length_zero_iff_nil. }
  destruct (pop_front_pending_msg d) as [[i d1]|] eqn:Ep.
  2: { unfold pop_front_pending_msg in Ep. by destruct (msg_pend_q (M d)). }
  destruct (pop_pending_keeps _ _ _ _ _ _ _ I Ep) as [[I1 X1] R1]. apply wp_bind.
  eapply wp_mono; [apply wp_and; [by apply wp_push_wait|apply push_wait_pend]|].
  intros d2 [[[I2 X2] R2] P2]. eapply wp_mono; [apply IH; [exact I2|]|].
  - rewrite P2. unfold pop_front_pending_msg in Ep. destruct (msg_pend_q (M d)); [done|].
    injection Ep as _ <-. cbn in *. lia.
  - intros d3 (K3 & R3 & P3). split; [|split; [congruence|done]].
    eapply keeps_trans; [exact X1|]. by eapply keeps_trans.
Qed.

Lemma wp_drain_waiting run hand busy slack n : forall d, Inv run hand busy slack d ->
  length (msg_wait_q (M d)) = n ->
  wp (fun d' => Inv run hand busy slack d' /\ started d' = started d /\ msg_wait_q (M d') = [] /\
        msg_pend_q (M d') = msg_pend_q (M d) /\ req_same d d') (drain_waiting n d).
Proof.
  induction n as [|n IH]; intros d I Hn; cbn [drain_waiting].
  { apply wp_ret. split; [done|]. split; [done|]. split; [by apply length_zero_iff_nil|done]. }
  apply wp_bind. eapply wp_mono; [apply (wp_pop_wait run hand busy slack slack d I); lia|]. intros [[i d1]|] Ho.
  2: { rewrite Ho in Hn. done. }
  destruct Ho as (I1 & R1 & _ & _ & T1 & W1 & P1). apply wp_bind.
  eapply wp_mono; [apply wp_and; [by apply wp_push_idle|apply push_idle_queues]|].
  intros d2 (([I2 X2] & R2 & _) & P2 & W2). eapply wp_mono; [apply IH; [exact I2|]|].
  - rewrite W2. rewrite W1 in Hn. cbn in Hn. lia.
  - intros d3 (I3 & T3 & W3 & P3 & R3). split; [done|]. split; [by rewrite T3, (e_started _ _ X2)|].
    split; [done|]. split; [congruence|]. eapply req_same_trans; [|exact R3].
    eapply req_same_trans; [by apply req_same_eq|exact R2].
Qed.

Lemma all_idle_msgs hand busy slack d : Inv [] hand busy slack d -> msg_wait_q (M d) = [] ->
  msg_pend_q (M d) = [] -> msg_idle_q (M d) ≡ₚ seq 0 MAX_PHL_MSG_NUM.
Proof.
  intros I Ew Ep. pose proof (shares_perm MAX_PHL_MSG_NUM [msg_idle_q (M d)]) as E0. cbn [concat] in E0.
  rewrite app_nil_r in E0. apply E0. intros x. cbn [concat]. rewrite app_nil_r.
  rewrite <- (i_msgs _ _ _ _ _ I x), Ew, Ep, !cnt_nil. lia.
Qed.

Lemma pop_req_M d o : pop_front_wait_req d = Ret o -> match o with Some (_, d') => M d' = M d | None => M d = M d end.
Proof.
  unfold pop_front_wait_req. destruct (token_req_wait_q (R d)) as [|s l]; [by intros [= <-]|].
  destruct (get_req (R d) s); [|done|done]. cbn. by intros [= <-].
Qed.

Lemma push_idle_req_M s d d' : push_back_idle_req s d = Ret d' -> M d' = M d.
Proof.
  unfold push_back_idle_req. destruct (get_req (R d) s); [|done|done]. cbn [mbind res_bind].
  destruct (req_linked _ s); [done|]. by intros [= <-].
Qed.

Definition msgs_idle (d : cmd_dispatcher) : Prop :=
  msg_wait_q (M d) = [] /\ msg_pend_q (M d) = [] /\ msg_idle_q (M d) ≡ₚ seq 0 MAX_PHL_MSG_NUM.

Lemma wp_clear_waiting hand busy slack d : Inv [] hand busy slack d ->
  wp (fun d' => Inv [] hand busy slack d' /\ started d' = started d /\ msgs_idle d' /\ req_same d d')
     (clear_waiting_msg 2 d).
Proof.
  intros I. cbn [clear_waiting_msg]. destruct (decide _) as [El|_].
  { apply wp_ret. split; [done|]. split; [done|]. split; [|done].
    assert (Hle : (length (msg_idle_q (M d) ++ msg_wait_q (M d) ++ msg_pend_q (M d)) <= MAX_PHL_MSG_NUM)%nat).
    { apply cnt_length. intros x. rewrite !cnt_app. pose proof (i_msgs _ _ _ _ _ I x) as E0.
      rewrite cnt_nil in E0. destruct (Nat.ltb x MAX_PHL_MSG_NUM); lia. }
    rewrite !length_app, El in Hle.
    assert (Ew : msg_wait_q (M d) = []) by (apply length_zero_iff_nil; lia).
    assert (Ep : msg_pend_q (M d) = []) by (apply length_zero_iff_nil; lia).
    split; [done|]. split; [done|]. by eapply all_idle_msgs. }
  apply wp_bind. eapply wp_mono; [by apply wp_drain_pending|].
  intros d1 ([I1 X1] & R1 & P1).
  apply wp_bind. eapply wp_mono; [by apply wp_drain_waiting|]. intros d2 (I2 & T2 & W2 & P2 & R2).
  assert (Hi : msgs_idle d2).
  { split; [done|]. split; [congruence|]. eapply all_idle_msgs; [exact I2|done|congruence]. }
  destruct (decide _) as [|Hn].
  - apply wp_ret. split; [done|]. split; [by rewrite T2, (e_started _ _ X1)|]. split; [done|].
    eapply req_same_trans; [by apply req_same_eq|exact R2].
  - destruct Hn. destruct Hi as (_ & _ & ->). apply length_seq.
Qed.

Definition reqs_idle (d : cmd_dispatcher) : Prop :=
  token_req_wait_q (R d) = [] /\ token_req_idle_q (R d) ≡ₚ seq 0 MAX_CMD_REQ_NUM /\
  cur_cmd_req (R d) = None /\ token_cnt (R d) = 0.

Lemma all_idle_reqs run busy slack d : Inv run [] busy slack d -> token_req_wait_q (R d) = [] ->
  cur_cmd_req (R d) = None -> reqs_idle d.
Proof.
  intros I Ew Ec. split; [done|]. split; [|split; [done|]].
  - pose proof (shares_perm MAX_CMD_REQ_NUM [token_req_idle_q (R d)]) as E0. cbn [concat] in E0.
    rewrite app_nil_r in E0. apply E0. intros x. cbn [concat]. rewrite app_nil_r.
    rewrite <- (i_slots _ _ _ _ _ I x), Ew. unfold cur_list. rewrite Ec, !cnt_nil.
    lia.
  - rewrite (i_cnt _ _ _ _ _ I). unfold cur_list. by rewrite Ec.
Qed.

(** A stopped dispatcher refuses every call. *)
Definition refuses (d d' : cmd_dispatcher) : Prop := M d' = M d /\ R d' = R d /\ started d' = false.

Lemma stopped_send id a d p : started d = false -> dispr_send_msg id a d = Ret p -> p.1.1 = d.
Proof.
  unfold started, dispr_send_msg. intros T. destruct (get_cur_cmd_req_id (R d)) as [[c st]| |]; [|done|done].
  cbn [mbind res_bind]. rewrite T. by intros [= <-].
Qed.

Lemma stopped_call c d d' : started d = false -> exec_call c d = Ret d' -> refuses d d'.
Proof.
  intros T. pose proof T as T'. unfold started in T'.
  assert (Hio : forall b d1 p, refuses d d1 -> send_dev_io_status_change b d1 = Ret p -> p.1 = d1).
  { intros b d1 p (_ & _ & T1). unfold send_dev_io_status_change.
    destruct (dispr_send_msg _ _ d1) as [[[d2 st] h]| |] eqn:Es; [|done|done]. apply stopped_send in Es; [|done].
    cbn in *. by intros [= <-]. }
  destruct c; cbn [exec_call].
  - destruct (dispr_send_msg id a d) as [[[d1 st] h]| |] eqn:Es; [|done|done].
    apply stopped_send in Es; [|done]. cbn in *. intros [= <-]. by rewrite Es.
  - unfold dispr_cancel_msg. rewrite T'. cbn. by intros [= <-].
  - intros [= <-]. split; [done|]. split; [done|]. revert T. unfold started. clear. intros T. flags. done.
  - unfold dispr_add_token_req. rewrite T'. cbn. by intros [= <-].
  - unfold dispr_cancel_token_req. rewrite T'. cbn. by intros [= <-].
  - unfold dispr_free_token. rewrite T'. cbn. by intros [= <-].
  - unfold dispr_notify_dev_io_status. destruct allow; cbn [negb]; cbv iota.
    + destruct (test_disp d DISPR_CANNOT_IO); [|cbn; by intros [= <-]].
      match goal with |- context [send_dev_io_status_change true ?x] => set (d1 := x) end.
      assert (F1 : refuses d d1).
      { split; [done|]. split; [done|]. revert T. unfold d1, started. clear. intros T. flags. done. }
      destruct (send_dev_io_status_change true d1) as [p| |] eqn:Es; [|done|done].
      specialize (Hio _ _ _ F1 Es). destruct p as [d2 st]. cbn in Hio. subst d2. cbn. intros [= <-].
      destruct F1 as (? & ? & T1). split; [done|]. split; [done|]. revert T1. unfold started. clear. intros T. flags. done.
    + destruct (negb (test_disp d DISPR_CANNOT_IO)); [|cbn; by intros [= <-]].
      match goal with |- context [send_dev_io_status_change false ?x] => set (d1 := x) end.
      assert (F1 : refuses d d1).
      { split; [done|]. split; [done|]. revert T. unfold d1, started. clear. intros T. flags. done. }
      destruct (send_dev_io_status_change false d1) as [p| |] eqn:Es; [|done|done].
      specialize (Hio _ _ _ F1 Es). destruct p as [d2 st]. cbn in Hio. subst d2. cbn. by intros [= <-].
  - intros [= <-]. unfold dispr_notify_shall_stop. destruct (negb (test_disp d DISPR_SHALL_STOP)); [|by split].
    split; [done|]. split; [done|]. revert T. unfold started. clear. intros T. flags. done.
Qed.

Lemma stopped_calls l : forall d d', started d = false -> exec_calls l d = Ret d' -> refuses d d'.
Proof.
  induction l as [|c l IH]; intros d d' T; cbn [exec_calls]; [by intros [= <-]|].
  destruct (exec_call c d) as [d1| |] eqn:E1; [|done|done]. destruct (stopped_call c d d1 T E1) as (EM & ER & T1).
  intros E2. destruct (IH d1 d' T1 E2) as (EM2 & ER2 & T2). split; [congruence|]. split; [congruence|done].
Qed.

Lemma stopped_abort s d d' : started d = false -> call_abort H s d = Ret d' -> refuses d d'.
Proof.
  intros T. unfold call_abort. destruct (get_req (R d) s) as [x| |]; [|done|done]. cbn [mbind res_bind].
  intros E0. by apply (stopped_calls _ (emit _ d) d' T E0).
Qed.

Lemma wp_drain_requests run busy slack fuel : forall d, Inv run [] busy slack d -> started d = false ->
  (S -> (length (token_req_wait_q (R d)) < fuel)%nat) ->
  wp (fun d' => Inv run [] busy slack d' /\ started d' = false /\ M d' = M d /\
        token_req_wait_q (R d') = [] /\ cur_cmd_req (R d') = cur_cmd_req (R d)) (drain_requests H fuel d).
Proof.
  induction fuel as [|fuel IH]; intros d I T Hf; [intros hs; specialize (Hf hs); lia|].
  cbn [drain_requests]. apply wp_bind.
  eapply wp_mono; [apply wp_and; [by apply wp_pop_wait_req|apply pop_req_M]|].
  intros [[s d1]|] [Ho Em]; [|done].
  destruct Ho as ([I1 X1] & Ew & C1 & _). cbn in Em.
  assert (T1 : started d1 = false) by by rewrite (e_started _ _ X1).
  apply wp_bind. eapply wp_mono; [apply wp_and|].
  { apply (wp_call_abort run [s] busy slack d1 s I1); [|by left]. by apply (hand_range _ _ _ _ _ _ I1). }
  { intros d2. by apply stopped_abort. }
  intros d2 (([I2 X2] & _ & _) & (EM & ER & T2)). apply wp_bind.
  eapply wp_mono; [apply wp_and; [apply (wp_push_idle_req _ _ _ _ _ _ I2)|apply push_idle_req_M]|].
  { intros _ T3. congruence. }
  intros d3 (([I3 X3] & (W3 & C3) & _) & EM3). eapply wp_mono; [apply IH; [exact I3|..]|].
  - by rewrite (e_started _ _ X3).
  - intros hs. specialize (Hf hs). rewrite W3, ER. rewrite Ew in Hf. cbn in Hf. lia.
  - intros d4 (I4 & T4 & M4 & W4 & C4). split; [done|]. split; [done|].
    split; [congruence|]. split; [done|congruence].
Qed.

Lemma wp_clear_req run busy slack d : Inv run [] busy slack d -> started d = false ->
  cur_cmd_req (R d) = None ->
  wp (fun d' => Inv run [] busy slack d' /\ started d' = false /\ M d' = M d /\ reqs_idle d')
     (clear_wating_req H loop_fuel 2 d).
Proof.
  intros I T Ec. cbn [clear_wating_req].
  assert (Hle : (length (token_req_idle_q (R d) ++ token_req_wait_q (R d)) <= MAX_CMD_REQ_NUM)%nat).
  { apply cnt_length. intros x. rewrite !cnt_app. pose proof (i_slots _ _ _ _ _ I x) as E0.
    rewrite cnt_nil in E0. pose proof (cnt_nonneg x (cur_list (R d))).
    destruct (Nat.ltb x MAX_CMD_REQ_NUM); lia. }
  rewrite length_app in Hle. destruct (decide _) as [El|_].
  { apply wp_ret. split; [done|]. split; [done|]. split; [done|]. eapply all_idle_reqs; [exact I| |done].
    apply length_zero_iff_nil. lia. }
  apply wp_bind. eapply wp_mono; [apply wp_drain_requests; [exact I|done|]|].
  { intros hs. specialize (HF hs). unfold calm_fuel, MAX_CMD_REQ_NUM in *. lia. }
  intros d1 (I1 & T1 & M1 & W1 & C1).
  assert (Hi : reqs_idle d1) by (eapply all_idle_reqs; [exact I1|done|congruence]).
  destruct (decide _) as [|Hn]; [by apply wp_ret|].
  destruct Hn. destruct Hi as (_ & -> & _). apply length_seq.
Qed.

Lemma wp_leave d : Inv [] [] None 0 d -> started d = false ->
  wp (fun d' => Inv [] [] None 0 d' /\ started d' = false /\ msgs_idle d' /\ reqs_idle d')
     (dispr_thread_leave_hdl H loop_fuel d).
Proof.
  intros I T. unfold dispr_thread_leave_hdl. apply wp_bind.
  eapply wp_mono; [apply wp_deregister; [exact I|intros _ T'; congruence]|].
  intros d1 ([I1 X1] & C1 & _). apply wp_bind. eapply wp_mono; [by apply wp_clear_waiting|].
  intros d2 (I2 & T2 & Hm & (_ & _ & C2 & _)). eapply wp_mono; [apply wp_clear_req; [exact I2|..]|].
  - by rewrite T2, (e_started _ _ X1).
  - congruence.
  - intros d3 (I3 & T3 & M3 & Hr). split; [done|]. split; [done|]. split; [|done].
    unfold msgs_idle in *. by rewrite M3.
Qed.

End inv.
End DisprInv.
