(* ===== verification/DisprRun.v ===== *)
(** * Runs of the command dispatcher

    A run interleaves calls of other threads with turns of the dispatcher's
    thread.  The theorems hold of every run from a started dispatcher: the requests
    follow the arbiter of [DisprInv], the queues partition their pools, no wake-up
    is lost; with callbacks that behave no run fails, every message is taken in
    turn and stopping leaves everything idle. *)

From S2P Require Import Prelude Bytes Bitmap Dispr DisprInv.

Module DisprRun.
Import Dispr DisprInv.
#[local] Open Scope Z_scope.

(** ** Runs *)

(** A call, a turn of the thread for this dispatcher, or one that another
    dispatcher of the engine woke the shared thread for. *)
Inductive label := Call (c : call) | Turn | OtherTurn.

(** The thread waits for its semaphore before each turn. *)
Definition background_thread_turn (H : handlers) (loop_fuel : nat) (d : cmd_dispatcher) : res cmd_dispatcher :=
  if 0 <? msg_q_sema d then dispr_thread_loop_hdl H loop_fuel (set_sema (msg_q_sema d - 1) d) else Ret d.

Definition run_label (H : handlers) (loop_fuel : nat) (l : label) (d : cmd_dispatcher) : res cmd_dispatcher :=
  match l with
  | Call c => exec_call c d
  | Turn => background_thread_turn H loop_fuel d
  | OtherTurn => dispr_thread_loop_hdl H loop_fuel d
  end.

Fixpoint run (H : handlers) (loop_fuel : nat) (ls : list label) (d : cmd_dispatcher)
    : res cmd_dispatcher :=
  match ls with [] => Ret d | l :: ls => d ← run_label H loop_fuel l d; run H loop_fuel ls d end.

(** A dispatcher that [dispr_init] made and the modules [e] were registered with. *)
Definition initialised (e : mdls) : cmd_dispatcher :=
  mk_disp (SET_STATUS_FLAG DISPR_INIT DISPR_NOTIFY_IDLE) 0 (mk_msgs [] [] [] [])
    (mk_rqs [] [] [] [] no_op 0 None) e [].

Definition boot (ctrl_ok : bool) (e : mdls) : cmd_dispatcher := (dispr_start ctrl_ok (initialised e)).1.

Definition label_ok (l : label) : Prop := match l with Call c => call_ok c | _ => True end.
Definition label_plain (l : label) : Prop := match l with Call c => plain_call c | _ => True end.

(** When nothing can go wrong: the callbacks and the calls behave, and the bound
    on the loops is what they can need then. *)
Definition behaved (H : handlers) (loop_fuel : nat) (ls : list label) : Prop :=
  (calm_fuel <= loop_fuel)%nat /\ calm H /\ Forall label_ok ls.

(** ** What a state is like between the steps of a run *)

Record wf (d : cmd_dispatcher) : Prop := {
  wf_msgs : msg_idle_q (M d) ++ msg_wait_q (M d) ++ msg_pend_q (M d) ≡ₚ seq 0 MAX_PHL_MSG_NUM;
  wf_reqs : token_req_idle_q (R d) ++ token_req_wait_q (R d) ++ option_list (cur_cmd_req (R d))
              ≡ₚ seq 0 MAX_CMD_REQ_NUM;
  wf_token : token_cnt (R d) = match cur_cmd_req (R d) with Some _ => 1 | None => 0 end;
  wf_idle i x : (i ∈ token_req_idle_q (R d)) -> token_req_ex_pool (R d) !! i = Some x -> r_status x = 0;
  wf_enq i x : token_req_ex_pool (R d) !! i = Some x -> test_req x REQ_STATUS_ENQ = true ->
    i ∈ token_req_wait_q (R d);
  wf_run i x : token_req_ex_pool (R d) !! i = Some x -> test_req x REQ_STATUS_RUN = true ->
    cur_cmd_req (R d) = Some i;
  wf_sema : zlen (msg_wait_q (M d)) + zlen (token_op_q (R d)) <= msg_q_sema d
}.

Lemma Inv_wf S C d : Inv S C [] [] None 0 d -> wf d.
Proof.
  intros I. split.
  - pose proof (shares_perm MAX_PHL_MSG_NUM [msg_idle_q (M d); msg_wait_q (M d); msg_pend_q (M d)]) as P.
    cbn [concat] in P. rewrite app_nil_r in P. apply P. intros x. cbn [concat].
    rewrite !cnt_app, cnt_nil, <- (i_msgs _ _ _ _ _ _ _ I x), cnt_nil. lia.
  - pose proof (shares_perm MAX_CMD_REQ_NUM
      [token_req_idle_q (R d); token_req_wait_q (R d); cur_list (R d)]) as P.
    cbn [concat] in P. rewrite app_nil_r in P. apply P. intros x. cbn [concat].
    rewrite !cnt_app, cnt_nil, <- (i_slots _ _ _ _ _ _ _ I x), cnt_nil. lia.
  - rewrite (i_cnt _ _ _ _ _ _ _ I). unfold cur_list. by destruct (cur_cmd_req (R d)).
  - intros i x Hi Hx. destruct (i_st _ _ _ _ _ _ _ I i x Hx) as [S1 _ _]. apply S1. by apply cnt_elem.
  - intros i x Hx T. destruct (i_st _ _ _ _ _ _ _ I i x Hx) as [_ S2 _]. specialize (S2 T).
    rewrite cnt_nil in S2. apply cnt_elem. lia.
  - intros i x Hx. apply (i_st _ _ _ _ _ _ _ I i x Hx).
  - destruct (i_sema _ _ _ _ _ _ _ I). lia.
Qed.

Lemma ready_Inv S C e st : mods_ok e -> TEST_STATUS_FLAG st DISPR_STARTED = true ->
  Inv S C [] [] None 0
    (mk_disp st 0
       (mk_msgs (replicate MAX_PHL_MSG_NUM (mk_msg 0 0 0 0 false None)) (seq 0 MAX_PHL_MSG_NUM) [] [])
       (mk_rqs (replicate MAX_CMD_REQ_NUM (mk_req 0 no_req no_op no_op)) [] (seq 0 MAX_CMD_REQ_NUM) []
          no_op 0 None) e []).
Proof.
  intros He Hst.
  assert (Hm : forall i ex, replicate MAX_PHL_MSG_NUM (mk_msg 0 0 0 0 false None) !! i = Some ex ->
    ex = mk_msg 0 0 0 0 false None /\ (i < MAX_PHL_MSG_NUM)%nat).
  { intros i ex Hi. by apply lookup_replicate in Hi. }
  assert (Hr : forall i x, replicate MAX_CMD_REQ_NUM (mk_req 0 no_req no_op no_op) !! i = Some x ->
    x = mk_req 0 no_req no_op no_op).
  { intros i ex Hi. by apply lookup_replicate in Hi as [-> _]. }
  remember MAX_PHL_MSG_NUM as n eqn:En. remember MAX_CMD_REQ_NUM as k eqn:Ek.
  split; cbn [M R E log msg_q_sema msg_ex_pool msg_idle_q msg_wait_q msg_pend_q token_req_ex_pool
              token_req_wait_q token_req_idle_q token_op_q token_cnt cur_cmd_req]; try done.
  - by rewrite length_replicate.
  - intros x. rewrite cnt_seq, !cnt_nil, <- En. cbn [Nat.leb andb Nat.add]. destruct (Nat.ltb x n); lia.
  - intros i ex [-> _]%Hm. split; cbn; [done|]. clear. flags. done.
  - intros _ i ex [-> Hi]%Hm. rewrite cnt_seq. destruct (Nat.leb_spec 0 i), (Nat.ltb_spec i (0 + n));
      cbn [andb]; lia.
  - by rewrite length_replicate.
  - intros x. unfold cur_list. cbn [R cur_cmd_req option_list]. rewrite cnt_seq, <- Ek.
    change (cnt x (option_list None)) with 0. rewrite !cnt_nil.
    cbn [Nat.leb andb Nat.add]. destruct (Nat.ltb x k); lia.
  - intros i x ->%Hr. split; cbn; [done|..]; clear; flags; done.
  - intros _. split; cbn; try done; [apply NoDup_nil_2|intros n' []%not_elem_of_nil].
  - intros _ _ s _. split; apply not_elem_of_nil.
Qed.

Lemma boot_Inv S C ok e : mods_ok e -> Inv S C [] [] None 0 (boot ok e) /\ started (boot ok e) = true.
Proof.
  intros He. unfold boot, dispr_start.
  assert (T0 : test_disp (initialised e) DISPR_STARTED = false) by (vm_compute; done).
  rewrite T0. cbn [fst].
  set (e' := mk_mdls (module_q e) (bitmap e) (basemap e) (controller e) PHL_MDL_ID_MAX (fun _ => MSG_EVT_MAX)).
  match goal with |- Inv _ _ _ _ _ _ (_start_dispr_controller ok ?d) /\ _ => set (d0 := d) end.
  assert (I0 : Inv S C [] [] None 0 d0).
  { apply (ready_Inv S C e' (status d0)); [by destruct He|]. vm_compute. done. }
  assert (S0 : started d0 = true) by (vm_compute; done).
  unfold _start_dispr_controller. destruct (_ || _); [by split|]. split.
  - eapply Inv_frame; [exact I0|done|done|done|done| |done]. unfold started. clear. flags. done.
  - revert S0. generalize d0. clear. intros d0 S0. unfold started in *. flags. done.
Qed.

(** ** Steps *)

Section steps.
Variables S C : Prop.
Variable H : handlers.
Variable loop_fuel : nat.
Hypothesis HF : S -> (calm_fuel <= loop_fuel)%nat.
Hypothesis HS : S -> calm H.
Hypothesis HC : C -> plain H.
Abbreviation J := (Inv S C [] [] None 0).

(** A call leaves the log and the front of the queue, a turn takes from it. *)
Definition stepped (l : label) (d d' : cmd_dispatcher) : Prop :=
  match l with
  | Call _ => Ext C d d'
  | Turn => 0 < msg_q_sema d -> turned C d d'
  | OtherTurn => turned C d d'
  end.

Lemma wp_label l d : J d -> (S -> label_ok l) -> (C -> label_plain l) ->
  wp S (fun d' => J d' /\ stepped l d d' /\ started d' = started d /\ exists new, log d' = new ++ log d)
     (run_label H loop_fuel l d).
Proof.
  intros Jd Hok Hpl. destruct l as [c| |]; cbn [run_label label_ok label_plain stepped] in *.
  - eapply wp_mono; [apply (wp_call S C [] [] None 0 d c Jd Hok Hpl); done|].
    intros d' [[J' X] _]. split; [done|]. split; [done|]. split; [apply X|apply X].
  - unfold background_thread_turn. destruct (Z.ltb_spec 0 (msg_q_sema d)) as [Hs|].
    + assert (J1 : Inv S C [] [] None 1 (set_sema (msg_q_sema d - 1) d)).
      { destruct Jd. split; try done. cbn. lia. }
      eapply wp_mono; [by apply (wp_turn S C H loop_fuel HF HS HC)|]. intros d' [J' [L W Mo St]].
      split; [done|]. split; [done|]. split; [done|]. destruct L as (new & L & _). by exists new.
    + apply wp_ret. split; [done|]. split; [lia|]. split; [done|by exists []].
  - assert (J1 : Inv S C [] [] None 1 d) by (destruct Jd; split; try done; lia).
    eapply wp_mono; [by apply (wp_turn S C H loop_fuel HF HS HC)|]. intros d' [J' T].
    split; [done|]. split; [done|]. destruct T as [L W Mo St]. split; [done|].
    destruct L as (new & L & _). by exists new.
Qed.

Lemma wp_run ls : forall d, J d -> (S -> Forall label_ok ls) -> (C -> Forall label_plain ls) ->
  wp S (fun d' => J d' /\ started d' = started d /\ exists new, log d' = new ++ log d) (run H loop_fuel ls d).
Proof.
  induction ls as [|l ls IH]; intros d Jd Hok Hpl; cbn [run].
  { apply wp_ret. split; [done|]. split; [done|by exists []]. }
  apply wp_bind. eapply wp_mono; [apply wp_label; [done|..]|].
  - intros hs. specialize (Hok hs). by inversion Hok.
  - intros hc. specialize (Hpl hc). by inversion Hpl.
  - intros d1 (J1 & _ & T1 & (n1 & L1)). eapply wp_mono; [apply IH; [exact J1|..]|].
    + intros hs. specialize (Hok hs). by inversion Hok.
    + intros hc. specialize (Hpl hc). by inversion Hpl.
    + intros d2 (J2 & T2 & (n2 & L2)). split; [done|]. split; [congruence|].
      exists (n2 ++ n1). by rewrite L2, L1, app_assoc.
Qed.

(** The message at a position of the queue is taken once as many turns as that
    have run. *)
Fixpoint turns (ls : list label) : nat :=
  match ls with [] => 0%nat | Turn :: ls => Datatypes.S (turns ls) | _ :: ls => turns ls end.

Lemma wp_taken (hc : C) ls : forall p i d, J d -> (S -> Forall label_ok ls) -> Forall label_plain ls ->
  msg_wait_q (M d) !! p = Some i -> (p < turns ls)%nat ->
  wp S (fun d' => exists new, log d' = new ++ log d /\ EvTake i ∈ new) (run H loop_fuel ls d).
Proof.
  induction ls as [|l ls IH]; intros p i d Jd Hok Hpl Hp Ht; cbn [run turns] in *; [lia|].
  assert (Hok' : S -> Forall label_ok ls) by (intros hs; specialize (Hok hs); by inversion Hok).
  assert (Hpl' : Forall label_plain ls) by by inversion Hpl.
  apply wp_bind. eapply wp_mono; [apply (wp_label l d Jd)|].
  - intros hs. specialize (Hok hs). by inversion Hok.
  - intros _. by inversion Hpl.
  - intros d1 (J1 & X1 & _ & L1).
    assert (Hturn : turned C d d1 -> (forall p', p = Datatypes.S p' -> (p' < turns ls)%nat) ->
      wp S (fun d' => exists new, log d' = new ++ log d /\ EvTake i ∈ new) (run H loop_fuel ls d1)).
    { intros [(n1 & L1' & Hin) W1 _ _] Hlt.
      destruct (msg_wait_q (M d)) as [|j w] eqn:Ew; [done|]. destruct p as [|p]; cbn in Hp.
      - injection Hp as ->. eapply wp_mono; [apply wp_run; [exact J1|done|done]|].
        intros d2 (_ & _ & (n2 & L2)). exists (n2 ++ n1). rewrite L2, L1', app_assoc. split; [done|].
        apply elem_of_app. right. by apply Hin.
      - destruct (W1 hc) as [w1 Ew1]. eapply wp_mono; [apply (IH p i d1); try done|].
        + rewrite Ew1. cbn. by apply lookup_app_l_Some.
        + by apply Hlt.
        + intros d2 (n2 & L2 & Hi). exists (n2 ++ n1). rewrite L2, L1', app_assoc. split; [done|].
          apply elem_of_app. by left. }
    destruct l as [c| |]; cbn [stepped] in X1.
    + destruct (e_wait _ _ _ X1 hc) as [w Ew], L1 as [n1 L1].
      eapply wp_mono; [apply (IH p i d1); try done|].
      * rewrite Ew. by apply lookup_app_l_Some.
      * intros d2 (n2 & L2 & Hi). exists (n2 ++ n1). rewrite L2, L1, app_assoc. split; [done|].
        apply elem_of_app. by left.
    + assert (Hs : 0 < msg_q_sema d).
      { destruct (i_sema _ _ _ _ _ _ _ Jd) as [_ Hs]. apply lookup_lt_Some in Hp.
        pose proof (zlen_nonneg (token_op_q (R d))). unfold zlen in *. lia. }
      apply (Hturn (X1 Hs)). intros p' ->. lia.
    + apply (Hturn X1). intros p' ->. lia.
Qed.
End steps.

(** ** Stopping *)

Lemma Inv_cleared S d x : Inv S False [] [] None 0 d -> TEST_STATUS_FLAG x DISPR_STARTED = false ->
  Inv S False [] [] None 0 (set_status x d).
Proof.
  intros [] Hx. split; try done. intros hs Ht. exfalso. unfold started, test_disp in Ht. cbn in Ht. congruence.
Qed.

Lemma Inv_cancel_all S d : Inv S False [] [] None 0 d -> Inv S False [] [] None 0 (cancel_all_cmd_req d).
Proof.
  intros []. unfold cancel_all_cmd_req.
  set (f := fun x : phl_cmd_token_req_ex => if r_status x =? 0 then x else req_set REQ_STATUS_CANCEL x).
  assert (Hf : forall x, add_req_info (f x) = add_req_info x /\ free_req_info (f x) = free_req_info x).
  { intros x. unfold f. by destruct (_ =? _). }
  assert (Eg : forall n, get_op n (set_reqs (f <$> token_req_ex_pool (R d)) (R d)) = get_op n (R d)).
  { intros [i|i|]; cbn; unfold get_req; cbn; try done; rewrite list_lookup_fmap;
      (destruct (token_req_ex_pool (R d) !! i) as [x|]; [|done]); cbn; destruct (Hf x); congruence. }
  split; cbn [M R E log msg_q_sema set_R]; try done.
  - cbn. by rewrite length_fmap.
  - intros i x Hx. cbn in Hx. rewrite list_lookup_fmap in Hx.
    destruct (token_req_ex_pool (R d) !! i) as [y|] eqn:Ey; [|done]. injection Hx as <-.
    destruct (i_st0 i y Ey) as [S1 S2 S3].
    assert (Ht : forall j, 0 <= j -> j <> 2 -> test_req (f y) (BIT j) = test_req y (BIT j)).
    { intros j Hj N. unfold f. destruct (_ =? _); [done|]. unfold test_req, req_set, req_status. cbn.
      change REQ_STATUS_CANCEL with (BIT 2). rewrite test_set by lia.
      by destruct (Z.eqb_spec j 2). }
    split; cbn.
    + intros Hi. unfold f. rewrite (S1 Hi). cbn. by apply S1.
    + intros T. apply S2. exact (eq_trans (eq_sym (Ht 0 ltac:(lia) ltac:(lia))) T).
    + intros T. apply S3. exact (eq_trans (eq_sym (Ht 1 ltac:(lia) ltac:(lia))) T).
  - intros hs. destruct (i_op0 hs) as [ND US OD BU]. split; cbn; try done.
    intros n Hn. rewrite Eg. by apply US.
Qed.

Lemma Inv_cancel_running S d : Inv S False [] [] None 0 d -> Inv S False [] [] None 0 (cancel_running_msg d).
Proof.
  intros []. unfold cancel_running_msg. split; cbn [M R E log msg_q_sema set_M]; try done.
  - cbn. by rewrite length_fmap.
  - intros i ex Hi. cbn in Hi. rewrite list_lookup_fmap in Hi.
    destruct (msg_ex_pool (M d) !! i) as [ex0|] eqn:E0; [|done]. injection Hi as <-.
    specialize (i_mod0 i ex0 E0). destruct (test_msg ex0 MSG_STATUS_RUN); [|done].
    eapply fixed_ok; [|exact i_mod0]. split; [done|]. split; [done|]. clear. flags. done.
Qed.

Lemma prior_Inv S d : Inv S False [] [] None 0 d ->
  Inv S False [] [] None 0 (dispr_thread_stop_prior_hdl d) /\
  started (dispr_thread_stop_prior_hdl d) = false.
Proof.
  intros I. unfold dispr_thread_stop_prior_hdl.
  assert (T1 : test_disp (clear_disp DISPR_STARTED d) DISPR_STARTED = false) by (clear; flags; done).
  assert (I1 : Inv S False [] [] None 0 (clear_disp DISPR_STARTED d)) by by apply Inv_cleared.
  revert T1 I1. generalize (clear_disp DISPR_STARTED d). clear. intros d T I.
  assert (T2 : started (_stop_dispr_controller d) = false).
  { unfold _stop_dispr_controller, started. destruct (negb _); revert T; clear; intros T; flags; done. }
  assert (I2 : Inv S False [] [] None 0 (_stop_dispr_controller d)).
  { unfold _stop_dispr_controller. destruct (negb _);
      (eapply Inv_frame; [exact I|done|done|done|done| |done]); unfold started; clear; flags; done. }
  split; [by apply Inv_cancel_running, Inv_cancel_all|done].
Qed.

(** ** The theorems *)

(** A run from a started dispatcher ends in a state of the invariant; it has no
    result only where something did not behave. *)
Lemma run_from_boot (C : Prop) H loop_fuel ctrl_ok e ls : mods_ok e -> (C -> plain H) ->
  (C -> Forall label_plain ls) ->
  wp (behaved H loop_fuel ls) (fun d => Inv (behaved H loop_fuel ls) C [] [] None 0 d /\ started d = true)
    (run H loop_fuel ls (boot ctrl_ok e)).
Proof.
  intros He HC Hpl. destruct (boot_Inv (behaved H loop_fuel ls) C ctrl_ok e He) as [I0 S0].
  assert (HF : behaved H loop_fuel ls -> (calm_fuel <= loop_fuel)%nat) by by intros [].
  assert (HS : behaved H loop_fuel ls -> calm H) by by intros (_ & ? & _).
  assert (Hl : behaved H loop_fuel ls -> Forall label_ok ls) by by intros (_ & _ & ?).
  eapply wp_mono; [exact (wp_run _ C H loop_fuel HF HS HC ls _ I0 Hl Hpl)|].
  { intros d (I1 & T1 & _). by rewrite T1. }
Qed.

(** C5: the requests of every run follow the arbiter, whatever the callbacks do and
    whatever bound the loops of a turn are given: each slot is queued when it is
    free, served in the order of the queue, given the token only when nobody has
    it, told to abort only as the owner or when it has been withdrawn, and the
    queue and the owner the dispatcher keeps are those the arbiter computes from
    the log.  A run has no final state, and nothing is said of the step that fails,
    only where a callback does not behave ([behaved]: [acquired] refuses the token,
    it or [abort] asks for another, an unknown module is named) or the bound is
    below what a turn can need: [refused_requests_corrupt_the_queue] is such a run
    in which a list is corrupted, [endless_aborts] one whose turn never ends.
    The modules start out in their queues, under known ids ([mods_ok]). *)
Theorem requests_follow_arbiter H loop_fuel ctrl_ok e ls : mods_ok e ->
  match run H loop_fuel ls (boot ctrl_ok e) with
  | Ret d => replay (log d) = Some (mk_arb (token_req_wait_q (R d)) [] (cur_cmd_req (R d)))
  | Oob | Looping => ~ behaved H loop_fuel ls
  end.
Proof.
  intros He. pose proof (run_from_boot False H loop_fuel ctrl_ok e ls He ltac:(done) ltac:(done)) as W.
  destruct (run _ _ _ _); [|exact W|exact W]. apply (i_arb _ _ _ _ _ _ _ (proj1 W)).
Qed.

(** C7: between the steps of every run, whatever the callbacks do and whatever bound
    the loops of a turn are given, each message and each request slot is in exactly
    one of its queues (a request may instead own the token, which is counted), an
    idle request has a clear status, only the owner of the token is marked running,
    and the semaphore is up at least once for every waiting message and token
    operation: no wake-up is lost.  A step fails, so that there is no state to speak
    of, only where a callback does not behave ([behaved], see C5) or the bound is
    below what a turn can need.  The modules start out in their queues, under known
    ids ([mods_ok]). *)
Theorem run_well_formed H loop_fuel ctrl_ok e ls : mods_ok e ->
  match run H loop_fuel ls (boot ctrl_ok e) with
  | Ret d => wf d
  | Oob | Looping => ~ behaved H loop_fuel ls
  end.
Proof.
  intros He. pose proof (run_from_boot False H loop_fuel ctrl_ok e ls He ltac:(done) ltac:(done)) as W.
  destruct (run _ _ _ _); [|exact W|exact W]. eapply Inv_wf. exact (proj1 W).
Qed.

Lemma calm_run H loop_fuel ctrl_ok e ls : mods_ok e -> behaved H loop_fuel ls ->
  exists d, run H loop_fuel ls (boot ctrl_ok e) = Ret d /\
    Inv (behaved H loop_fuel ls) False [] [] None 0 d /\ started d = true.
Proof.
  intros He Hb. pose proof (run_from_boot False H loop_fuel ctrl_ok e ls He ltac:(done) ltac:(done)) as W.
  destruct (run H loop_fuel ls (boot ctrl_ok e)) as [d| |]; [by exists d|by destruct W..].
Qed.

(** C15: with callbacks that behave (a request's [acquired] does not refuse the
    token, neither it nor [abort] asks for another, module lists name real
    modules), every run succeeds: no list is corrupted, no freed module is used
    and every turn of the thread ends, after [calm_fuel] rounds of a loop at most. *)
Theorem calm_run_succeeds H loop_fuel ctrl_ok e ls : (calm_fuel <= loop_fuel)%nat ->
  calm H -> mods_ok e -> Forall label_ok ls ->
  exists d, run H loop_fuel ls (boot ctrl_ok e) = Ret d.
Proof.
  intros Hn Hc He Hl. destruct (calm_run H loop_fuel ctrl_ok e ls He) as (d & E0 & _);
    [by split|].
  by exists d.
Qed.

(** C17: while no controller sends, neither in a call nor from a callback ([plain]),
    the message at position [p] of the waiting queue is taken by the thread within
    [p + 1] turns, whatever calls come in between.  Only a run that fails on the way
    does not get there: a turn that corrupts a list or does not end, which takes a
    callback that does not behave ([behaved]: it refuses the token or asks for one
    from [acquired] or [abort], or names an unknown module) or a bound on the loops
    below what a turn can need.  The modules start out in their queues, under known
    ids ([mods_ok]). *)
Theorem message_taken H loop_fuel ctrl_ok e ls0 d ls p i :
  plain H -> mods_ok e -> Forall label_plain (ls0 ++ ls) ->
  run H loop_fuel ls0 (boot ctrl_ok e) = Ret d -> msg_wait_q (M d) !! p = Some i -> (p < turns ls)%nat ->
  match run H loop_fuel ls d with
  | Ret d' => exists new, log d' = new ++ log d /\ EvTake i ∈ new
  | Oob | Looping => ~ behaved H loop_fuel (ls0 ++ ls)
  end.
Proof.
  intros Hp He [Hpl0 Hpl]%Forall_app E0 Hi Ht.
  set (S := behaved H loop_fuel (ls0 ++ ls)). set (C := plain H).
  assert (HF : S -> (calm_fuel <= loop_fuel)%nat) by by intros [].
  assert (HS : S -> calm H) by by intros (_ & ? & _).
  assert (Hl : S -> Forall label_ok ls0 /\ Forall label_ok ls) by (intros (_ & _ & ?); by apply Forall_app).
  destruct (boot_Inv S C ctrl_ok e He) as [I0 S0].
  pose proof (wp_run S C H loop_fuel HF HS ltac:(done) ls0 _ I0 (fun hs => proj1 (Hl hs)) ltac:(done)) as W.
  rewrite E0 in W. destruct W as (I1 & _).
  exact (wp_taken S C H loop_fuel HF HS ltac:(done) Hp ls p i d I1 (fun hs => proj2 (Hl hs)) Hpl Hi Ht).
Qed.

(** C27: with callbacks that behave, [dispr_stop] of a running dispatcher ends and
    leaves it stopped, with every message and every request slot idle, nothing
    waiting and no owner of the token. *)
Theorem stop_leaves_all_idle H loop_fuel ctrl_ok e ls d : (calm_fuel <= loop_fuel)%nat ->
  calm H -> mods_ok e -> Forall label_ok ls ->
  run H loop_fuel ls (boot ctrl_ok e) = Ret d ->
  exists d', dispr_stop H loop_fuel d = Ret (d', STATUS_SUCCESS) /\ started d' = false /\
    msgs_idle d' /\ reqs_idle d'.
Proof.
  intros Hn Hc He Hl E0. destruct (calm_run H loop_fuel ctrl_ok e ls He) as (d0 & E1 & I & T);
    [by split|].
  rewrite E0 in E1. injection E1 as <-. unfold dispr_stop. unfold started in T. rewrite T. cbn [negb].
  destruct (prior_Inv _ _ I) as [I1 T1].
  pose proof (wp_leave (behaved H loop_fuel ls) False H loop_fuel ltac:(by intros [])
                ltac:(by intros (_ & ? & _)) ltac:(done) _ I1 T1) as W.
  destruct (dispr_thread_leave_hdl H loop_fuel (dispr_thread_stop_prior_hdl d)) as [d2| |];
    [|by destruct W; split..].
  destruct W as (I2 & T2 & Hm & Hr). eexists. split; [done|]. split.
  - change (started (clear_disp DISPR_REQ_INIT (clear_disp DISPR_MSGQ_INIT d2)) = false).
    revert T2. unfold started. clear. intros T. flags. done.
  - split; [exact Hm|]. destruct Hr as (Hr1 & Hr2 & Hr3 & _). by split.
Qed.

(** ** A dispatcher to try it on *)

Definition demo_mdl (id : Z) : phl_bk_module := mk_mdl id (SET_STATUS_FLAG MDL_INIT MDL_STARTED).
Definition demo_mdls : mdls :=
  mk_mdls [[demo_mdl 10; demo_mdl 11]; [demo_mdl 71]; [demo_mdl 41; demo_mdl 42]]
    (foldl word_set 0 [10; 11; 71; 41; 42]) (foldl word_set 0 [10; 11; 41; 42])
    (mk_mdl PHL_MDL_PHY_MGNT MDL_INIT) PHL_MDL_ID_MAX (fun _ => MSG_EVT_MAX).

Definition demo_req (p : Z) : phl_cmd_token_req := mk_token_req PHL_FG_MDL_START p true.

(** Everything is accepted; the request that gets the token sends a message. *)
Definition demo_handlers : handlers :=
  mk_handlers (fun _ _ _ => (MDL_RET_SUCCESS, [])) (fun _ _ _ => [])
    (fun _ _ => (MDL_RET_SUCCESS, [SendMsg (bk_msg_id PHL_FG_MDL_START 100) None])) (fun _ _ => []).

Definition demo_labels : list label :=
  [Call (AddTokenReq (demo_req 1)); Call (AddTokenReq (demo_req 2)); Call (SendMsg (bk_msg_id 10 5) None);
   Call (SendMsg (bk_msg_id 42 6) None); Turn; Call (CancelTokenReq (GEN_VALID_HDL 1))].

Lemma demo_mods_ok : mods_ok demo_mdls.
Proof.
  split; [done|]. intros m. unfold mdl_in_queues, demo_mdls. cbn [module_q existsb mdl_id demo_mdl].
  rewrite !orb_true_iff, !Z.eqb_eq. intuition (lia || done).
Qed.

Lemma demo_labels_ok ls : forallb (fun l => match l with Call (SendMsg _ (Some _)) => false | _ => true end) ls = true ->
  Forall label_ok ls.
Proof.
  induction ls as [|l ls IH]; [done|]. cbn [forallb]. intros [Hl Hls]%andb_true_iff.
  constructor; [|by apply IH]. destruct l as [[]| |]; try done. by destruct a.
Qed.

Lemma demo_calm : calm demo_handlers.
Proof.
  split; cbn; try done. intros _ _. split; [done|]. by split; repeat constructor.
Qed.
Lemma demo_plain : plain demo_handlers.
Proof. split; cbn; try done. intros _ _. by repeat constructor. Qed.

Definition demo_state : cmd_dispatcher :=
  match run demo_handlers calm_fuel demo_labels (boot true demo_mdls) with Ret d => d | _ => boot true demo_mdls end.

Lemma demo_run : run demo_handlers calm_fuel demo_labels (boot true demo_mdls) = Ret demo_state.
Proof. vm_compute. reflexivity. Qed.

Lemma demo_behaved ls : forallb (fun l => match l with Call (SendMsg _ (Some _)) => false | _ => true end) ls = true ->
  behaved demo_handlers calm_fuel ls.
Proof. intros Hl. split; [done|]. split; [apply demo_calm|by apply demo_labels_ok]. Qed.

Lemma requests_follow_arbiter_witness :
  replay (log demo_state) = Some (mk_arb (token_req_wait_q (R demo_state)) [] (cur_cmd_req (R demo_state))) /\
  token_req_wait_q (R demo_state) = [1%nat] /\ cur_cmd_req (R demo_state) = Some 0%nat.
Proof.
  split; [|by vm_compute].
  pose proof (requests_follow_arbiter demo_handlers calm_fuel true demo_mdls demo_labels demo_mods_ok) as W.
  rewrite demo_run in W. exact W.
Defined.

Lemma run_well_formed_witness : wf demo_state.
Proof.
  pose proof (run_well_formed demo_handlers calm_fuel true demo_mdls demo_labels demo_mods_ok) as W.
  rewrite demo_run in W. exact W.
Defined.

Lemma calm_run_succeeds_witness : exists d, run demo_handlers calm_fuel demo_labels (boot true demo_mdls) = Ret d.
Proof.
  apply (calm_run_succeeds demo_handlers calm_fuel true demo_mdls demo_labels);
    [done|apply demo_calm|apply demo_mods_ok|by apply demo_labels_ok].
Defined.

Lemma message_taken_witness : msg_wait_q (M demo_state) !! 1%nat = Some 2%nat /\
  exists d' new, run demo_handlers calm_fuel [Turn; Call ClrPendingMsg; Turn] demo_state = Ret d' /\
    log d' = new ++ log demo_state /\ EvTake 2 ∈ new.
Proof.
  split; [by vm_compute|].
  pose proof (message_taken demo_handlers calm_fuel true demo_mdls demo_labels demo_state
    [Turn; Call ClrPendingMsg; Turn] 1 2 demo_plain demo_mods_ok ltac:(by repeat constructor) demo_run
    ltac:(by vm_compute) ltac:(cbn; lia)) as W.
  destruct (run _ _ _ _) as [d'| |]; [|by destruct W; apply demo_behaved..].
  destruct W as (new & L & Hin). by exists d', new.
Defined.

Lemma stop_leaves_all_idle_witness :
  exists d', dispr_stop demo_handlers calm_fuel demo_state = Ret (d', STATUS_SUCCESS) /\
    started d' = false /\ msgs_idle d' /\ reqs_idle d'.
Proof.
  apply (stop_leaves_all_idle demo_handlers calm_fuel true demo_mdls demo_labels demo_state ltac:(done)
           demo_calm demo_mods_ok).
  - by apply demo_labels_ok.
  - exact demo_run.
Defined.

(** ** What goes wrong *)

(** A request slot is cleared for a new request while its old operation is still
    linked: three requests refuse the token in one turn, and while the last one
    does so new requests use the slots up to the second again. *)
Definition refusing_handlers : handlers :=
  mk_handlers (fun _ _ _ => (MDL_RET_SUCCESS, [])) (fun _ _ _ => [])
    (fun _ r => (MDL_RET_FAIL, if priv r =? 3 then replicate 7 (AddTokenReq (demo_req 9)) else []))
    (fun _ _ => []).

Example refused_requests_corrupt_the_queue :
  run refusing_handlers calm_fuel (Turn :: map (fun p => Call (AddTokenReq (demo_req p))) [1; 2; 3] ++ [Turn])
    (boot true demo_mdls) = Oob.
Proof. vm_compute. reflexivity. Qed.

(** A turn that does not end: whoever is told to abort asks for the token again and
    gives up every request there is; each bound on the loop is reached. *)
Definition restless_handlers : handlers :=
  mk_handlers (fun _ _ _ => (MDL_RET_SUCCESS, [])) (fun _ _ _ => []) (fun _ _ => (MDL_RET_SUCCESS, []))
    (fun _ _ => AddTokenReq (demo_req 1) ::
                map (fun i => CancelTokenReq (GEN_VALID_HDL i)) (seq 0 MAX_CMD_REQ_NUM)).

Example endless_aborts :
  run restless_handlers 2000 [Call (AddTokenReq (demo_req 1)); Call (CancelTokenReq (GEN_VALID_HDL 0)); Turn; Turn]
    (boot true demo_mdls) = Looping.
Proof. vm_compute. reflexivity. Qed.

(** A message a module makes pending in the second phase never gets through: when
    it is resumed its first map is not looked at, but its second, which is not
    empty, and it is recycled as cancelled. *)
Definition pending_handlers : handlers :=
  mk_handlers
    (fun l m id => (if (m =? 10) && (Z.land (MSG_INDC_FIELD id) MSG_INDC_PRE_PHASE =? 0) &&
                       (length l <? 20)%nat then MDL_RET_PENDING else MDL_RET_SUCCESS, []))
    (fun _ _ _ => []) (fun _ _ => (MDL_RET_SUCCESS, [])) (fun _ _ => []).

Definition completions (l : list event) : list Z :=
  flat_map (fun e => match e with EvComplete _ id => [MSG_INDC_FIELD id] | _ => [] end) l.

Example pending_in_second_phase_is_cancelled :
  match run pending_handlers calm_fuel
          [Call (SendMsg (bk_msg_id 42 6) (Some (mk_attr 0 None 0 true))); Turn; Call ClrPendingMsg; Turn]
          (boot true demo_mdls) with
  | Ret d => completions (log d) = [MSG_INDC_CANCEL]
  | _ => False
  end.
Proof. vm_compute. reflexivity. Qed.
End DisprRun.
