(* ===== verification/DisprOrder.v ===== *)
(** * The order of dispatch

    A message whose receivers all accept it visits, in its first phase, the
    mandatory, the optional and the role modules, in its second phase the same
    queues backwards, its owner before the others of its priority; each module it
    is meant for gets it once in each phase, and then it is idle again. *)

From S2P Require Import Prelude Bytes Bitmap Dispr DisprInv DisprRun.

Module DisprOrder.
Import Dispr DisprRun.
#[local] Open Scope Z_scope.

(** ** What one phase does *)

(** The modules of a queue a map names that are started. *)
Definition targets (bm : Z) (q : list phl_bk_module) : list Z :=
  mdl_id <$> filter (fun m => _chk_bitmap_bit bm (mdl_id m) = true /\
                              TEST_STATUS_FLAG (mdl_status m) MDL_STARTED = true) q.

(** One priority: the owner, then the others. *)
Definition plan_prio (pre : bool) (bm : Z) (owner : Z) (prio0 : nat) (e : mdls) (prio : nat) : list Z :=
  let q := nth prio (module_q e) [] in
  let own := if bool_decide (prio0 = prio) && _chk_bitmap_bit bm owner then [owner] else [] in
  own ++ filter (fun m => m ∉ own) (targets bm (if pre then q else reverse q)).

Definition plan (pre : bool) (bm owner : Z) (prio0 : nat) (e : mdls) (prios : list nat) : list Z :=
  prios ≫= plan_prio pre bm owner prio0 e.

(** Every module is in the queue of its priority, once. *)
Record registered (e : mdls) : Prop := {
  reg_prio p m : (m ∈ nth p (module_q e) []) -> _get_mdl_priority (mdl_id m) = p;
  reg_range p m : (m ∈ nth p (module_q e) []) -> 0 <= mdl_id m < 128;
  reg_once p : NoDup (mdl_id <$> nth p (module_q e) [])
}.

Section quiet.
Variable H : handlers.
(** Every receiver accepts and calls nothing. *)
Hypothesis Hquiet : forall l m id, msg_hdlr H l m id = (MDL_RET_SUCCESS, []).
Variable i : nat.

Definition clr_map (pre : bool) (ids : list Z) (ex : phl_dispr_msg_ex) : phl_dispr_msg_ex :=
  if pre then mk_msg (m_status ex) (msg_id ex) (foldl word_clr (premap ex) ids) (postmap ex)
                (completion ex) (m_module ex)
  else mk_msg (m_status ex) (msg_id ex) (premap ex) (foldl word_clr (postmap ex) ids)
                (completion ex) (m_module ex).

Definition map_of (pre : bool) (ex : phl_dispr_msg_ex) : Z := if pre then premap ex else postmap ex.

(** The message in its phase is given to the modules [ids]. *)
Definition delivered (pre : bool) (ids : list Z) (ex : phl_dispr_msg_ex) (d : cmd_dispatcher)
    : cmd_dispatcher :=
  mk_disp (status d) (msg_q_sema d)
    (set_pool (<[i := clr_map pre ids ex]> (msg_ex_pool (M d))) (M d)) (R d) (E d)
    (rev (map (fun m => EvMsg m i (msg_id ex)) ids) ++ log d).

(** The message's indication names its phase. *)
Definition in_phase (pre : bool) (ex : phl_dispr_msg_ex) : Prop :=
  negb (Z.land (MSG_INDC_FIELD (msg_id ex)) MSG_INDC_PRE_PHASE =? 0) = pre.

Definition has (ex : phl_dispr_msg_ex) (d : cmd_dispatcher) : Prop := msg_ex_pool (M d) !! i = Some ex.

Lemma has_get ex d : has ex d -> get_msg (M d) i = Ret ex.
Proof. unfold has, get_msg. by intros ->. Qed.

Lemma clr_map_app pre l1 l2 ex : clr_map pre l2 (clr_map pre l1 ex) = clr_map pre (l1 ++ l2) ex.
Proof. unfold clr_map. destruct pre; cbn; by rewrite foldl_app. Qed.
Lemma clr_map_nil pre ex : clr_map pre [] ex = ex.
Proof. unfold clr_map. by destruct pre, ex. Qed.
Lemma clr_map_of pre l ex : map_of pre (clr_map pre l ex) = foldl word_clr (map_of pre ex) l.
Proof. by destruct pre. Qed.
Lemma clr_map_phase pre pre' l ex : in_phase pre' (clr_map pre l ex) <-> in_phase pre' ex.
Proof. by destruct pre. Qed.

Lemma has_delivered pre l ex d : has ex d -> has (clr_map pre l ex) (delivered pre l ex d).
Proof. unfold has. cbn. intros Hx. apply list_lookup_insert_eq. by apply lookup_lt_Some in Hx. Qed.

Lemma delivered_nil pre ex d : has ex d -> delivered pre [] ex d = d.
Proof.
  unfold has, delivered. intros Hx. rewrite clr_map_nil, list_insert_id by done.
  by destruct d as [s n [p q1 q2 q3] r e l].
Qed.

Lemma delivered_app pre l1 l2 ex d :
  delivered pre l2 (clr_map pre l1 ex) (delivered pre l1 ex d) = delivered pre (l1 ++ l2) ex d.
Proof.
  unfold delivered. cbn. rewrite list_insert_insert_eq, clr_map_app, map_app, rev_app_distr, <- app_assoc.
  by destruct pre.
Qed.

Lemma feed_one pre m ex d : has ex d -> in_phase pre ex -> m < 128 ->
  feed_mdl_msg H m i d = Ret (delivered pre [m] ex d, MDL_RET_SUCCESS).
Proof.
  intros Hx Hp Hm. unfold feed_mdl_msg, call_module. rewrite (has_get ex d Hx). cbn [mbind res_bind].
  rewrite Hquiet. cbn [exec_calls mbind res_bind].
  change (M (emit (EvMsg m i (msg_id ex)) d)) with (M d). rewrite (has_get ex d Hx). cbn [mbind res_bind].
  unfold in_phase in Hp. rewrite Hp. unfold _clr_bitmap_bit, in_bitmap. cbn [forallb].
  destruct (Z.ltb_spec m 128); [|lia]. cbn [andb mbind res_bind]. by destruct pre.
Qed.

Lemma clrs_bit l bm k : 0 <= k -> Forall (fun x => 0 <= x) l ->
  Z.testbit (foldl word_clr bm l) k = bool_decide (k ∉ l) && Z.testbit bm k.
Proof.
  intros Hk Hl. revert bm. induction Hl as [|x l Hx Hl IH]; intros bm; cbn [foldl].
  { by rewrite bool_decide_eq_true_2 by apply not_elem_of_nil. }
  rewrite IH, word_clr_spec by done.
  destruct (Z.eqb_spec k x) as [->|N]; cbn [negb andb].
  - rewrite andb_false_r, bool_decide_eq_false_2; [done|]. rewrite not_elem_of_cons. intros [? _]. congruence.
  - f_equal. apply bool_decide_ext. rewrite not_elem_of_cons. tauto.
Qed.

Lemma chk_clrs l bm m : 0 <= m -> Forall (fun x => 0 <= x) l ->
  _chk_bitmap_bit (foldl word_clr bm l) m = bool_decide (m ∉ l) && _chk_bitmap_bit bm m.
Proof.
  intros Hm Hl. unfold _chk_bitmap_bit. destruct (_ <? _); [by rewrite andb_false_r|].
  rewrite !word_test_spec by done. by apply clrs_bit.
Qed.

(** A map is empty once every module it names is served. *)
Lemma clr_all bm l : Forall (fun x => 0 <= x) l -> (forall k, 0 <= k -> Z.testbit bm k = true -> k ∈ l) ->
  foldl word_clr bm l = 0.
Proof.
  intros Hl Hall. apply Z.bits_inj'. intros k Hk. rewrite Z.bits_0, clrs_bit by done.
  destruct (Z.testbit bm k) eqn:B; [|by rewrite andb_false_r].
  rewrite bool_decide_eq_false_2; [done|]. intros Hn. by apply Hn, Hall.
Qed.

(** ** Queues *)

Lemma targets_ext bm bm' q :
  (forall m, m ∈ q -> _chk_bitmap_bit bm (mdl_id m) = _chk_bitmap_bit bm' (mdl_id m)) ->
  targets bm q = targets bm' q.
Proof.
  unfold targets. induction q as [|m q IH]; intros Hq; [done|]. rewrite !filter_cons.
  rewrite (Hq m) by (rewrite elem_of_cons; auto).
  assert (E0 : mdl_id <$> filter (fun m => _chk_bitmap_bit bm (mdl_id m) = true /\
            TEST_STATUS_FLAG (mdl_status m) MDL_STARTED = true) q =
          mdl_id <$> filter (fun m => _chk_bitmap_bit bm' (mdl_id m) = true /\
            TEST_STATUS_FLAG (mdl_status m) MDL_STARTED = true) q).
  { apply IH. intros m' Hm'. apply Hq. rewrite elem_of_cons. auto. }
  destruct (decide _); [|done]. by rewrite !fmap_cons, E0.
Qed.

Lemma targets_elem bm q m : m ∈ targets bm q <-> exists x, (x ∈ q) /\ mdl_id x = m /\
  _chk_bitmap_bit bm m = true /\ TEST_STATUS_FLAG (mdl_status x) MDL_STARTED = true.
Proof.
  unfold targets. rewrite list_elem_of_fmap. split.
  - intros (x & -> & [[H1 H2] Hx]%list_elem_of_filter). by exists x.
  - intros (x & Hx & <- & H1 & H2). exists x. split; [done|]. by apply list_elem_of_filter.
Qed.

Definition in_range (m : phl_bk_module) : Prop := 0 <= mdl_id m < 128.

Lemma targets_clr own bm q : Forall in_range q -> Forall (fun x => 0 <= x) own ->
  targets (foldl word_clr bm own) q = filter (fun m => m ∉ own) (targets bm q).
Proof.
  unfold targets. induction 1 as [|m q Hm Hq IH]; intros Hown; [done|]. rewrite !filter_cons.
  rewrite chk_clrs by (done || apply Hm). specialize (IH Hown).
  destruct (_chk_bitmap_bit bm (mdl_id m)); rewrite ?andb_true_r, ?andb_false_r.
  2: { rewrite !decide_False by (by intros []). exact IH. }
  destruct (TEST_STATUS_FLAG (mdl_status m) MDL_STARTED).
  2: { rewrite !decide_False by (by intros []). exact IH. }
  rewrite (decide_True (P := true = true /\ true = true)), fmap_cons, filter_cons by done.
  destruct (decide (mdl_id m ∉ own)) as [Hin|Hin].
  - rewrite decide_True, fmap_cons by (by rewrite bool_decide_eq_true_2). by rewrite IH.
  - rewrite decide_False by (by rewrite bool_decide_eq_false_2 by done; intros []). exact IH.
Qed.

Lemma feed_queue_all pre q : forall ex d, has ex d -> in_phase pre ex -> Forall in_range q ->
  NoDup (mdl_id <$> q) ->
  feed_queue H pre q i d = Ret (delivered pre (targets (map_of pre ex) q) ex d, false).
Proof.
  induction q as [|m q IH]; intros ex d Hx Hp Hr Hd; cbn [feed_queue].
  { by rewrite delivered_nil. }
  rewrite (has_get ex d Hx). cbn [mbind res_bind]. inversion Hr as [|? ? Hm Hr']; subst.
  rewrite fmap_cons in Hd. inversion Hd as [|? ? Hn Hd']; subst.
  change (if pre then premap ex else postmap ex) with (map_of pre ex).
  unfold targets at 1. rewrite filter_cons.
  destruct (_chk_bitmap_bit (map_of pre ex) (mdl_id m)) eqn:B1,
    (TEST_STATUS_FLAG (mdl_status m) MDL_STARTED) eqn:B2; cbn [negb orb];
    [|rewrite decide_False by (intros []; done); by apply IH..].
  rewrite decide_True by done. rewrite fmap_cons.
  rewrite (feed_one pre (mdl_id m) ex d Hx Hp) by apply Hm. cbn [mbind res_bind STOP_DISPATCH_MSG].
  rewrite (IH (clr_map pre [mdl_id m] ex)); [|by apply has_delivered|by apply clr_map_phase|done|done].
  rewrite delivered_app. do 3 f_equal. rewrite clr_map_of. cbn [app]. f_equal.
  apply targets_ext. intros m' Hm'. rewrite chk_clrs.
  - rewrite bool_decide_eq_true_2; [done|]. rewrite list_elem_of_singleton. intros E0. apply Hn.
    rewrite <- E0. by apply list_elem_of_fmap_2.
  - rewrite Forall_forall in Hr'. apply (Hr' m' Hm').
  - apply Forall_singleton, Hm.
Qed.

(** ** Phases *)

Definition owner_ok (owner : Z) (prio0 : nat) : Prop :=
  prio0 <> PHL_MDL_PRI_MAX -> 0 <= owner < 128 /\ _get_mdl_priority owner = prio0.

Lemma queue_ok pre e p : registered e ->
  let q := nth p (module_q e) [] in
  Forall in_range (if pre : bool then q else reverse q) /\ NoDup (mdl_id <$> (if pre then q else reverse q)).
Proof.
  intros [R1 R2 R3] q. assert (Forall in_range q) by (apply Forall_forall; intros m Hm; by eapply R2).
  destruct pre; [by split; [|apply R3]|]. split; [by apply Forall_reverse|].
  rewrite fmap_reverse, reverse_Permutation. apply R3.
Qed.

Lemma filter_not_nil (l : list Z) : filter (fun m => m ∉ []) l = l.
Proof. induction l as [|x l IH]; [done|]. rewrite filter_cons_True by apply not_elem_of_nil. by rewrite IH. Qed.

Lemma feed_priority_all pre owner prio0 prio ex d : has ex d -> in_phase pre ex -> registered (E d) ->
  owner_ok owner prio0 -> prio <> PHL_MDL_PRI_MAX ->
  feed_priority H pre owner prio0 prio i d =
  Ret (delivered pre (plan_prio pre (map_of pre ex) owner prio0 (E d) prio) ex d, false).
Proof.
  intros Hx Hp He Ho Hmax. unfold feed_priority, plan_prio. rewrite (has_get ex d Hx). cbn [mbind res_bind].
  change (if pre then premap ex else postmap ex) with (map_of pre ex).
  destruct (queue_ok pre (E d) prio He) as [Q1 Q2].
  destruct (bool_decide_reflect (prio0 = prio)) as [->|N]; cbn [andb].
  - destruct (Ho Hmax) as [Hr _]. destruct (_chk_bitmap_bit (map_of pre ex) owner) eqn:B.
    + rewrite (feed_one pre owner ex d Hx Hp) by lia. cbn [mbind res_bind STOP_DISPATCH_MSG].
      change (E (delivered pre [owner] ex d)) with (E d).
      rewrite (feed_queue_all pre _ (clr_map pre [owner] ex)); [|by apply has_delivered|by apply clr_map_phase|done|done].
      rewrite delivered_app, clr_map_of. do 3 f_equal. f_equal. apply targets_clr; [done|].
      apply Forall_singleton. lia.
    + cbn [mbind res_bind]. rewrite (feed_queue_all pre _ ex) by done. by rewrite filter_not_nil.
  - cbn [mbind res_bind]. rewrite (feed_queue_all pre _ ex) by done. by rewrite filter_not_nil.
Qed.

Lemma plan_prio_ids pre bm owner prio0 e prio : registered e -> owner_ok owner prio0 ->
  prio <> PHL_MDL_PRI_MAX ->
  Forall (fun m => 0 <= m /\ _get_mdl_priority m = prio) (plan_prio pre bm owner prio0 e prio).
Proof.
  intros He Ho Hmax. apply Forall_app. split.
  - destruct (bool_decide_reflect (prio0 = prio)) as [->|]; cbn [andb]; [|done].
    destruct (_chk_bitmap_bit bm owner); [|done]. apply Forall_singleton. destruct (Ho Hmax). split; [lia|done].
  - apply Forall_forall. intros m [_ (x & Hx & <- & _)%targets_elem]%list_elem_of_filter.
    assert (Hx' : x ∈ nth prio (module_q e) []) by (destruct pre; [done|by apply elem_of_reverse]).
    split; [apply (reg_range e He prio x Hx')|by apply (reg_prio e He)].
Qed.

Lemma plan_prio_ext pre bm bm' owner prio0 e prio : registered e -> owner_ok owner prio0 ->
  prio <> PHL_MDL_PRI_MAX ->
  (forall m, 0 <= m -> _get_mdl_priority m = prio -> _chk_bitmap_bit bm m = _chk_bitmap_bit bm' m) ->
  plan_prio pre bm owner prio0 e prio = plan_prio pre bm' owner prio0 e prio.
Proof.
  intros He Ho Hmax Hc. unfold plan_prio.
  assert (E1 : bool_decide (prio0 = prio) && _chk_bitmap_bit bm owner =
               bool_decide (prio0 = prio) && _chk_bitmap_bit bm' owner).
  { destruct (bool_decide_reflect (prio0 = prio)) as [->|]; [|done]. cbn [andb].
    destruct (Ho Hmax). apply Hc; [lia|done]. }
  rewrite E1. f_equal. f_equal. apply targets_ext. intros m Hm.
  assert (Hm' : m ∈ nth prio (module_q e) []) by (destruct pre; [done|by apply elem_of_reverse]).
  apply Hc; [apply (reg_range e He prio m Hm')|by apply (reg_prio e He)].
Qed.

Lemma feed_priorities_all pre owner prio0 prios : PHL_MDL_PRI_MAX ∉ prios -> NoDup prios ->
  forall ex d, has ex d -> in_phase pre ex -> registered (E d) -> owner_ok owner prio0 ->
  feed_priorities H pre owner prio0 prios i d =
  Ret (delivered pre (plan pre (map_of pre ex) owner prio0 (E d) prios) ex d).
Proof.
  intros Hmax Hnd. induction prios as [|p prios IH]; intros ex d Hx Hp He Ho; cbn [feed_priorities].
  { cbn. by rewrite delivered_nil. }
  apply not_elem_of_cons in Hmax as [Hmp Hmax]. apply NoDup_cons in Hnd as [Hn Hnd].
  rewrite (feed_priority_all pre owner prio0 p ex d) by done. cbn [mbind res_bind].
  set (ids := plan_prio pre (map_of pre ex) owner prio0 (E d) p).
  rewrite (IH Hmax Hnd (clr_map pre ids ex)); [|by apply has_delivered|by apply clr_map_phase|done|done].
  rewrite delivered_app, clr_map_of. change (E (delivered pre ids ex d)) with (E d).
  do 2 f_equal. unfold plan. rewrite bind_cons. fold ids. f_equal.
  pose proof (plan_prio_ids pre (map_of pre ex) owner prio0 (E d) p He Ho ltac:(done)) as Hids.
  fold ids in Hids. clear -Hids Hn Hmax He Ho.
  induction prios as [|p' prios IH]; [done|]. rewrite !bind_cons.
  apply not_elem_of_cons in Hn as [Hpp Hn]. apply not_elem_of_cons in Hmax as [Hmp Hmax].
  rewrite IH by done. f_equal. apply plan_prio_ext; [done|done|done|]. intros m Hm Hpm.
  rewrite chk_clrs; [|done|eapply Forall_impl; [exact Hids|by intros ? []]].
  rewrite bool_decide_eq_true_2; [done|]. intros Hin. rewrite Forall_forall in Hids.
  destruct (Hids m Hin) as [_ E0]. congruence.
Qed.

(** ** A whole dispatch *)

Definition owner_of (ex : phl_dispr_msg_ex) : Z := default PHL_MDL_ID_MAX (m_module ex).
Definition owner_prio (ex : phl_dispr_msg_ex) : nat :=
  if owner_of ex <=? PHL_BK_MDL_END then _get_mdl_priority (owner_of ex) else PHL_MDL_PRI_MAX.

Definition pre_prios : list nat := [PHL_MDL_PRI_MANDATORY; PHL_MDL_PRI_OPTIONAL; PHL_MDL_PRI_ROLE].
Definition post_prios : list nat := [PHL_MDL_PRI_ROLE; PHL_MDL_PRI_OPTIONAL; PHL_MDL_PRI_MANDATORY].

Lemma owner_prio_ok ex : owner_ok (owner_of ex) (owner_prio ex).
Proof.
  intros Hp. unfold owner_prio in *. destruct (owner_of ex <=? PHL_BK_MDL_END); [|done]. split; [|done].
  unfold _get_mdl_priority, PHL_BK_MDL_ROLE_START, PHL_BK_MDL_ROLE_END, PHL_BK_MDL_MDRY_END, PHL_BK_MDL_OPT_END in Hp.
  destruct (Z.ltb_spec (owner_of ex) 10); [done|].
  destruct (Z.leb_spec (owner_of ex) 40); [lia|]. destruct (Z.leb_spec (owner_of ex) 70); [lia|].
  destruct (Z.leb_spec (owner_of ex) 127); [lia|done].
Qed.

Lemma phase_all (pre : bool) ex d : has ex d -> in_phase pre ex -> registered (E d) ->
  owner_module d ex = Ret (m_module ex) ->
  (if negb (map_of pre ex =? 0)
   then (if pre then msg_pre_phase_hdl H i d else msg_post_phase_hdl H i d) else Ret d) =
  Ret (delivered pre (plan pre (map_of pre ex) (owner_of ex) (owner_prio ex) (E d)
                        (if pre then pre_prios else post_prios)) ex d).
Proof.
  intros Hx Hp He Ho. destruct (Z.eqb_spec (map_of pre ex) 0) as [E0|_]; cbn [negb].
  - assert (Hnone : forall m, _chk_bitmap_bit 0 m = false).
    { intros m. unfold _chk_bitmap_bit, word_test. by destruct (_ <? _). }
    rewrite E0. replace (plan _ _ _ _ _ _) with (@nil Z); [by rewrite delivered_nil|].
    unfold plan. assert (Hp0 : forall p, plan_prio pre 0 (owner_of ex) (owner_prio ex) (E d) p = []).
    { intros p. unfold plan_prio. rewrite Hnone, andb_false_r. cbn [app]. rewrite filter_not_nil.
      destruct (targets 0 _) as [|m l] eqn:Et; [done|].
      assert (Hin : m ∈ targets 0 (if pre then nth p (module_q (E d)) [] else reverse (nth p (module_q (E d)) []))).
      { rewrite Et. rewrite elem_of_cons. auto. }
      apply targets_elem in Hin as (x & _ & _ & B & _). by rewrite Hnone in B. }
    generalize (if pre then pre_prios else post_prios). intros l. induction l as [|p l IH]; [done|].
    by rewrite bind_cons, Hp0, <- IH.
  - assert (Hph : forall prios, PHL_MDL_PRI_MAX ∉ prios -> NoDup prios ->
      phase_hdl H pre prios i d =
      Ret (delivered pre (plan pre (map_of pre ex) (owner_of ex) (owner_prio ex) (E d) prios) ex d)).
    { intros prios H1 H2. unfold phase_hdl. rewrite (has_get ex d Hx). cbn [mbind res_bind].
      rewrite Ho. cbn [mbind res_bind]. apply feed_priorities_all; try done. apply owner_prio_ok. }
    destruct pre; apply Hph; apply (bool_decide_unpack _); vm_compute; done.
Qed.


Definition clear_flags (ex : phl_dispr_msg_ex) : Prop :=
  test_msg ex MSG_STATUS_FAIL = false /\ test_msg ex MSG_STATUS_CANCEL = false /\
  test_msg ex MSG_STATUS_PENDING = false /\ test_msg ex MSG_STATUS_FOR_ABORT = false.

Lemma redirect_go ex d k : has ex d -> clear_flags ex -> redirect_chk i d k = k d.
Proof.
  intros Hx (F1 & F2 & F3 & _). unfold redirect_chk. rewrite (has_get ex d Hx). cbn [mbind res_bind].
  by rewrite F1, F2, F3.
Qed.

Lemma clr_map_flags pre l ex : clear_flags (clr_map pre l ex) <-> clear_flags ex.
Proof. by destruct pre. Qed.
Lemma clr_map_owner pre l ex : m_module (clr_map pre l ex) = m_module ex.
Proof. by destruct pre. Qed.
Lemma clr_map_id pre l ex : msg_id (clr_map pre l ex) = msg_id ex.
Proof. by destruct pre. Qed.
Lemma clr_map_status pre l ex : m_status (clr_map pre l ex) = m_status ex.
Proof. by destruct pre. Qed.

(** The indication of the phase. *)
Lemma indc_pre id : negb (Z.land (MSG_INDC_FIELD (SET_MSG_INDC_FIELD id MSG_INDC_PRE_PHASE)) MSG_INDC_PRE_PHASE =? 0) = true.
Proof.
  unfold MSG_INDC_FIELD, SET_MSG_INDC_FIELD, MSG_INDC_PRE_PHASE.
  destruct (Z.eqb_spec (Z.land (Z.land (Z.shiftr (Z.lor (Z.land id (Z.lnot (Z.shiftl (BIT 0) 24))) (Z.shiftl (BIT 0) 24)) 24) 255) (BIT 0)) 0) as [E0|]; [|done].
  exfalso. apply (f_equal (fun z => Z.testbit z 0)) in E0.
  rewrite !Z.land_spec, Z.shiftr_spec, Z.lor_spec, Z.bits_0 in E0 by lia.
  change (Z.testbit (Z.shiftl (BIT 0) 24) (0 + 24)) with true in E0.
  change (Z.testbit 255 0) with true in E0. change (Z.testbit (BIT 0) 0) with true in E0.
  by rewrite orb_true_r in E0.
Qed.
Lemma indc_post id : negb (Z.land (MSG_INDC_FIELD (CLEAR_MSG_INDC_FIELD id MSG_INDC_PRE_PHASE)) MSG_INDC_PRE_PHASE =? 0) = false.
Proof.
  unfold MSG_INDC_FIELD, CLEAR_MSG_INDC_FIELD, MSG_INDC_PRE_PHASE.
  apply negb_false_iff, Z.eqb_eq, Z.bits_inj'. intros k Hk.
  rewrite !Z.land_spec, Z.shiftr_spec, Z.land_spec, Z.bits_0 by lia.
  destruct (decide (k = 0)) as [->|N].
  - change (Z.testbit (Z.lnot (Z.shiftl (BIT 0) 24)) (0 + 24)) with false. by rewrite andb_false_r.
  - change (BIT 0) with (2 ^ 0). rewrite Z.pow2_bits_false by lia. by rewrite andb_false_r.
Qed.

(** What the end of a dispatch adds to the log. *)
Definition is_delivery (e : event) : bool := match e with EvMsg _ _ _ => true | _ => false end.

Hypothesis Hreq : forall l r id, req_hdlr H l r id = [].

Definition deliveries (l : list event) : list event := rev (List.filter is_delivery l).

Lemma deliveries_app l1 l2 : deliveries (l1 ++ l2) = deliveries l2 ++ deliveries l1.
Proof. unfold deliveries. by rewrite List.filter_app, rev_app_distr. Qed.
Lemma deliveries_msgs id l : deliveries (rev (map (fun m => EvMsg m i id) l)) = map (fun m => EvMsg m i id) l.
Proof.
  unfold deliveries. rewrite <- (rev_involutive (map (fun m => EvMsg m i id) l)) at 2. f_equal.
  generalize l. clear. intros l. rewrite <- map_rev. induction (rev l) as [|x l' IH]; [done|].
  cbn. by rewrite IH.
Qed.

(** A step that delivers nothing and leaves messages and modules. *)
Definition silent (d d' : cmd_dispatcher) : Prop :=
  M d' = M d /\ E d' = E d /\ exists l, log d' = l ++ log d /\ deliveries l = [].

Lemma cur_req_quiet ex d : has ex d ->
  (forall s, cur_cmd_req (R d) = Some s -> is_Some (token_req_ex_pool (R d) !! s)) ->
  exists d', cur_req_hdl H i d = Ret d' /\ silent d d'.
Proof.
  intros Hx Hc. assert (Hstay : silent d d) by (split; [done|split; [done|by exists []]]).
  unfold cur_req_hdl. destruct (cur_cmd_req (R d)) as [s|] eqn:Ec; [|by exists d].
  destruct (Hc s eq_refl) as [x Ex]. unfold get_req. rewrite Ex, (has_get ex d Hx). cbn [mbind res_bind].
  destruct (_ || _); [by exists d|]. destruct (test_msg ex _); [by exists d|].
  rewrite Hreq. eexists. split; [done|]. split; [done|]. split; [done|].
  by exists [EvReqMsg (req x) i (msg_id ex)].
Qed.

Lemma push_idle_quiet ex d : has ex d -> clear_flags ex -> msg_linked (M d) i = false ->
  exists d' l, push_back_idle_msg i d = Ret d' /\ log d' = l ++ log d /\ deliveries l = [] /\
    msg_idle_q (M d') = msg_idle_q (M d) ++ [i].
Proof.
  intros Hx (F1 & F2 & F3 & F4) Hl. unfold push_back_idle_msg. rewrite (has_get ex d Hx). cbn [mbind res_bind].
  rewrite F2, andb_false_r. destruct (test_msg ex MSG_STATUS_NOTIFY_COMPLETE && completion ex) eqn:N.
  - assert (F5 : test_msg (clear_flag MSG_STATUS_NOTIFY_COMPLETE ex) MSG_STATUS_FOR_ABORT = false).
    { unfold test_msg, clear_flag, with_status, TEST_STATUS_FLAG, CLEAR_STATUS_FLAG in *. cbn.
      apply Z.eqb_neq in F4. apply Z.eqb_neq. intros E0. apply F4.
      change MSG_STATUS_FOR_ABORT with (BIT 10) in *. rewrite <- E0 at 2.
      rewrite <- Z.land_assoc. f_equal. }
    rewrite F5. cbn [mbind res_bind].
    match goal with |- context [msg_linked ?m i] => replace (msg_linked m i) with (msg_linked (M d) i) end.
    2: { by destruct (_ =? _). }
    rewrite Hl. eexists. exists [EvComplete i (msg_id ex)]. split; [done|].
    split; [by destruct (_ =? _)|]. split; [done|]. by destruct (_ =? _).
  - rewrite F4. cbn [mbind res_bind].
    match goal with |- context [msg_linked ?m i] => replace (msg_linked m i) with (msg_linked (M d) i) end.
    2: { by destruct (_ =? _). }
    rewrite Hl. eexists. exists []. split; [done|].
    split; [by destruct (_ =? _)|]. split; [done|]. by destruct (_ =? _).
Qed.

Lemma flags_pre ex : clear_flags ex -> clear_flags (get_msg_bitmap ex).
Proof. unfold get_msg_bitmap. by destruct (test_msg ex _). Qed.

Definition ctl_of (d : cmd_dispatcher) : list Z :=
  if test_disp d DISPR_CTRL_PRESENT then [mdl_id (controller (E d))] else [].
Definition first_plan (ex : phl_dispr_msg_ex) (d : cmd_dispatcher) : list Z :=
  plan true (foldl word_clr (premap ex) (ctl_of d)) (owner_of ex) (owner_prio ex) (E d) pre_prios.
Definition second_plan (ex : phl_dispr_msg_ex) (d : cmd_dispatcher) : list Z :=
  plan false (postmap ex) (owner_of ex) (owner_prio ex) (E d) post_prios.

(** A fresh message that names only modules that are there. *)
Record ready (ex : phl_dispr_msg_ex) (d : cmd_dispatcher) : Prop := {
  rd_has : has ex d;
  rd_flags : clear_flags ex;
  rd_pre : test_msg ex MSG_STATUS_PRE_PHASE = true;
  rd_reg : registered (E d);
  rd_ctl : 0 <= mdl_id (controller (E d)) < 128;
  rd_owner : owner_module d ex = Ret (m_module ex);
  rd_free : msg_linked (M d) i = false;
  rd_cur s : cur_cmd_req (R d) = Some s -> is_Some (token_req_ex_pool (R d) !! s);
  rd_first k : 0 <= k -> Z.testbit (premap ex) k = true -> k ∈ ctl_of d ++ first_plan ex d;
  rd_second k : 0 <= k -> Z.testbit (postmap ex) k = true -> k ∈ second_plan ex d
}.

Lemma plan_ids pre bm owner prio0 e prios : registered e -> owner_ok owner prio0 ->
  PHL_MDL_PRI_MAX ∉ prios -> Forall (fun m => 0 <= m) (plan pre bm owner prio0 e prios).
Proof.
  intros He Ho. unfold plan. induction prios as [|p prios IH]; [done|].
  intros [Hp Hps]%not_elem_of_cons. rewrite bind_cons. apply Forall_app. split; [|by apply IH].
  eapply Forall_impl; [by apply plan_prio_ids|]. by intros m [].
Qed.

Lemma prios_ok : (PHL_MDL_PRI_MAX ∉ pre_prios) /\ (PHL_MDL_PRI_MAX ∉ post_prios).
Proof. split; apply (bool_decide_unpack _); vm_compute; done. Qed.

(** The controller gets the message first. *)
Lemma controller_first ex d : has ex d -> in_phase true ex -> 0 <= mdl_id (controller (E d)) < 128 ->
  _notify_dispr_controller H i d = Ret (delivered true (ctl_of d) ex d).
Proof.
  intros Hx Hp Hc. unfold _notify_dispr_controller, ctl_of.
  destruct (test_disp d DISPR_CTRL_PRESENT); cbn [negb]; [|by rewrite delivered_nil].
  rewrite (feed_one true _ ex d Hx Hp) by lia. done.
Qed.

Lemma upd_has f ex d : has ex d -> upd_msg i f d = Ret (put_msg i (f ex) d) /\ has (f ex) (put_msg i (f ex) d).
Proof.
  intros Hx. unfold upd_msg. rewrite (has_get ex d Hx). split; [done|].
  unfold has. cbn. apply list_lookup_insert_eq. by apply lookup_lt_Some in Hx.
Qed.

(** The second phase and the end. *)
Lemma post_phase_all ex d : has ex d -> clear_flags ex -> registered (E d) ->
  owner_module d ex = Ret (m_module ex) -> msg_linked (M d) i = false ->
  (forall s, cur_cmd_req (R d) = Some s -> is_Some (token_req_ex_pool (R d) !! s)) ->
  (forall k, 0 <= k -> Z.testbit (postmap ex) k = true -> k ∈ second_plan ex d) ->
  exists d' new, post_phase H i d = Ret d' /\ log d' = new ++ log d /\
    msg_idle_q (M d') = msg_idle_q (M d) ++ [i] /\
    deliveries new = map (fun m => EvMsg m i (CLEAR_MSG_INDC_FIELD (msg_id ex) MSG_INDC_PRE_PHASE)) (second_plan ex d).
Proof.
  intros Hx Hf He Ho Hl Hc Hall. unfold post_phase.
  set (f := fun ex => get_msg_bitmap (clear_flag MSG_STATUS_PRE_PHASE ex)).
  destruct (upd_has f ex d Hx) as [-> Hx1]. cbn [mbind res_bind].
  set (ex1 := f ex) in *. set (d1 := put_msg i ex1 d) in *.
  assert (P0 : test_msg (clear_flag MSG_STATUS_PRE_PHASE ex) MSG_STATUS_PRE_PHASE = false).
  { unfold test_msg, clear_flag, with_status, TEST_STATUS_FLAG, CLEAR_STATUS_FLAG. cbn [m_status].
    apply Z.eqb_neq. rewrite <- Z.land_assoc. change (Z.land (Z.lnot MSG_STATUS_PRE_PHASE) MSG_STATUS_PRE_PHASE) with 0.
    rewrite Z.land_0_r. discriminate. }
  assert (Eid : msg_id ex1 = CLEAR_MSG_INDC_FIELD (msg_id ex) MSG_INDC_PRE_PHASE).
  { unfold ex1, f, get_msg_bitmap. rewrite P0. done. }
  assert (Epm : postmap ex1 = postmap ex /\ m_module ex1 = m_module ex).
  { unfold ex1, f, get_msg_bitmap. rewrite P0. done. }
  assert (Hf1 : clear_flags ex1).
  { unfold ex1, f. apply flags_pre. destruct Hf as (F1 & F2 & F3 & F4).
    assert (G : forall j, 0 <= j -> test_msg ex (BIT j) = false -> test_msg (clear_flag MSG_STATUS_PRE_PHASE ex) (BIT j) = false).
    { intros j Hj Fj. unfold test_msg, clear_flag, with_status, TEST_STATUS_FLAG, CLEAR_STATUS_FLAG in *.
      cbn [m_status]. apply Z.eqb_neq in Fj. apply Z.eqb_neq. intros E0. apply Fj.
      apply Z.bits_inj'. intros k Hk. apply (f_equal (fun z => Z.testbit z k)) in E0.
      rewrite !Z.land_spec in E0. rewrite Z.land_spec.
      destruct (Z.testbit (BIT j) k); rewrite ?andb_true_r, ?andb_false_r in *; [|done].
      by destruct (Z.testbit (m_status ex) k). }
    split; [by apply (G 5)|]. split; [by apply (G 3)|]. split; [by apply (G 9)|by apply (G 10)]. }
  assert (Hph : in_phase false ex1) by (unfold in_phase; rewrite Eid; apply indc_post).
  destruct Epm as [Epm Emod]. rewrite (has_get ex1 d1 Hx1). cbn [mbind res_bind].
  assert (Ho1 : owner_module d1 ex1 = Ret (m_module ex1)).
  { revert Ho. unfold owner_module. rewrite Emod. done. }
  pose proof (phase_all false ex1 d1 Hx1 Hph He Ho1) as Eph. cbn [map_of] in Eph. rewrite Eph. clear Eph.
  cbn [mbind res_bind].
  assert (Eplan : plan false (postmap ex1) (owner_of ex1) (owner_prio ex1) (E d1) post_prios = second_plan ex d).
  { unfold second_plan, owner_of, owner_prio, owner_of. by rewrite Epm, Emod. }
  rewrite Eplan. set (ids := second_plan ex d) in *.
  set (ex2 := clr_map false ids ex1). set (d2 := delivered false ids ex1 d1).
  assert (Hx2 : has ex2 d2) by by apply has_delivered.
  rewrite (redirect_go ex2 d2) by (done || by apply clr_map_flags).
  rewrite (has_get ex2 d2 Hx2). cbn [mbind res_bind].
  assert (E0 : postmap ex2 = 0).
  { change (postmap ex2) with (foldl word_clr (postmap ex1) ids). rewrite Epm. apply clr_all; [|done].
    apply plan_ids; [done|apply owner_prio_ok|apply (proj2 prios_ok)]. }
  rewrite E0. cbn [Z.eqb].
  destruct (cur_req_quiet ex2 d2 Hx2 Hc) as (d3 & -> & EM & EE & (l3 & L3 & D3)). cbn [mbind res_bind].
  destruct (push_idle_quiet ex2 d3) as (d4 & l4 & E4 & L4 & D4 & I4).
  { unfold has in *. by rewrite EM. }
  { by apply clr_map_flags. }
  { rewrite EM. exact Hl. }
  exists d4, (l4 ++ l3 ++ rev (map (fun m => EvMsg m i (msg_id ex1)) ids)). split; [done|].
  split; [|split].
  - rewrite L4, L3. cbn [log d2 delivered]. by rewrite <- !app_assoc.
  - rewrite I4, EM. done.
  - by rewrite !deliveries_app, D3, D4, deliveries_msgs, Eid, !app_nil_r.
Qed.

Lemma dispatch_all ex d : ready ex d ->
  exists d' new, msg_dispatch H i d = Ret d' /\ log d' = new ++ log d /\
    msg_idle_q (M d') = msg_idle_q (M d) ++ [i] /\
    deliveries new =
      map (fun m => EvMsg m i (SET_MSG_INDC_FIELD (msg_id ex) MSG_INDC_PRE_PHASE)) (ctl_of d ++ first_plan ex d) ++
      map (fun m => EvMsg m i (CLEAR_MSG_INDC_FIELD (SET_MSG_INDC_FIELD (msg_id ex) MSG_INDC_PRE_PHASE)
                                 MSG_INDC_PRE_PHASE)) (second_plan ex d).
Proof.
  intros []. unfold msg_dispatch. destruct (upd_has get_msg_bitmap ex d rd_has0) as [-> Hx1]. cbn [mbind res_bind].
  assert (Eex : get_msg_bitmap ex = with_id (fun m => SET_MSG_INDC_FIELD m MSG_INDC_PRE_PHASE) ex).
  { unfold get_msg_bitmap. by rewrite rd_pre0. }
  rewrite Eex in *. set (ex1 := with_id _ ex) in *. set (d1 := put_msg i ex1 d) in *.
  assert (Hf1 : clear_flags ex1) by done.
  assert (Hph : in_phase true ex1) by apply indc_pre.
  rewrite (has_get ex1 d1 Hx1). cbn [mbind res_bind].
  change (test_msg ex1 MSG_STATUS_PRE_PHASE) with (test_msg ex MSG_STATUS_PRE_PHASE). rewrite rd_pre0.
  rewrite (redirect_go ex1 d1) by done. rewrite (controller_first ex1 d1) by done. cbn [mbind res_bind].
  change (ctl_of d1) with (ctl_of d). set (ctl := ctl_of d) in *.
  set (ex2 := clr_map true ctl ex1). set (d2 := delivered true ctl ex1 d1).
  assert (Hx2 : has ex2 d2) by by apply has_delivered.
  rewrite (redirect_go ex2 d2) by done. rewrite (has_get ex2 d2 Hx2). cbn [mbind res_bind].
  change (msg_id ex2) with (msg_id ex1). rewrite Hph. cbn [andb].
  pose proof (phase_all true ex2 d2 Hx2 Hph rd_reg0 rd_owner0) as Eph. cbn [map_of] in Eph. rewrite Eph. clear Eph.
  cbn [mbind res_bind].
  change (plan true (premap ex2) (owner_of ex2) (owner_prio ex2) (E d2) pre_prios) with (first_plan ex d).
  set (ids := first_plan ex d) in *. set (ex3 := clr_map true ids ex2). set (d3 := delivered true ids ex2 d2).
  assert (Hx3 : has ex3 d3) by by apply has_delivered.
  rewrite (redirect_go ex3 d3) by done. rewrite (has_get ex3 d3 Hx3). cbn [mbind res_bind].
  assert (E0 : premap ex3 = 0).
  { change (premap ex3) with (foldl word_clr (foldl word_clr (premap ex) ctl) ids). rewrite <- foldl_app.
    apply clr_all; [|done]. apply Forall_app. split.
    - unfold ctl, ctl_of. destruct (test_disp d _); [|done]. apply Forall_singleton. lia.
    - apply plan_ids; [done|apply owner_prio_ok|apply (proj1 prios_ok)]. }
  rewrite E0. cbn [Z.eqb].
  destruct (post_phase_all ex3 d3 Hx3) as (d4 & new & E4 & L4 & I4 & D4); try done.
  exists d4, (new ++ rev (map (fun m => EvMsg m i (msg_id ex1)) (ctl ++ ids))).
  split; [exact E4|]. split; [|split].
  - rewrite L4, <- app_assoc. f_equal. cbn [log d3 d2 delivered d1 put_msg set_M].
    rewrite map_app, rev_app_distr, <- app_assoc. done.
  - exact I4.
  - rewrite deliveries_app, deliveries_msgs, D4. done.
Qed.
End quiet.

(** C21: a new message whose receivers accept it is given, in this order and each
    time once, to the controller, to the mandatory, the optional and the role
    modules it names in the order they were registered, with the first phase in
    its indication, and then to the role, the optional and the mandatory modules
    in the reverse order, without it; the owner comes before the others of its
    priority.  Nobody else gets it and it ends in the idle queue. *)
Theorem dispatch_in_order H i ex d :
  (forall l m id, msg_hdlr H l m id = (MDL_RET_SUCCESS, [])) -> (forall l r id, req_hdlr H l r id = []) ->
  ready i ex d ->
  exists d' new, msg_dispatch H i d = Ret d' /\ log d' = new ++ log d /\
    msg_idle_q (M d') = msg_idle_q (M d) ++ [i] /\
    deliveries new =
      map (fun m => EvMsg m i (SET_MSG_INDC_FIELD (msg_id ex) MSG_INDC_PRE_PHASE)) (ctl_of d ++ first_plan ex d) ++
      map (fun m => EvMsg m i (CLEAR_MSG_INDC_FIELD (SET_MSG_INDC_FIELD (msg_id ex) MSG_INDC_PRE_PHASE)
                                 MSG_INDC_PRE_PHASE)) (second_plan ex d).
Proof. intros Hq Hr Hd. by apply dispatch_all. Qed.

(** The message with which the mandatory module 42 starts. *)
Definition order_start : cmd_dispatcher * phl_dispr_msg_ex :=
  match (d ← exec_call (SendMsg (bk_msg_id 42 6) None) (boot true demo_mdls); pop_front_wait_msg d) with
  | Ret (Some (i, d)) => (d, nth i (msg_ex_pool (M d)) (mk_msg 0 0 0 0 false None))
  | _ => (boot true demo_mdls, mk_msg 0 0 0 0 false None)
  end.

Lemma bits_among bm (l : list Z) : 0 <= bm < 2 ^ 128 ->
  forallb (fun k => negb (Z.testbit bm (Z.of_nat k)) || bool_decide (Z.of_nat k ∈ l)) (seq 0 128) = true ->
  forall k, 0 <= k -> Z.testbit bm k = true -> k ∈ l.
Proof.
  intros Hb Hall k Hk B. destruct (decide (k < 128)) as [Hlt|].
  - rewrite forallb_forall in Hall. specialize (Hall (Z.to_nat k)).
    rewrite Z2Nat.id in Hall by done. rewrite B in Hall. cbn [negb orb] in Hall.
    apply (bool_decide_eq_true_1 _), Hall. apply in_seq. lia.
  - exfalso. destruct (decide (bm = 0)) as [->|]; [by rewrite Z.bits_0 in B|].
    rewrite Z.bits_above_log2 in B; [done|lia|]. apply Z.log2_lt_pow2; [lia|].
    eapply Z.lt_le_trans; [apply Hb|]. apply Z.pow_le_mono_r; lia.
Qed.

Lemma demo_registered e : module_q e = module_q demo_mdls -> registered e.
Proof.
  intros E0. split; rewrite E0; intros p.
  - intros m. destruct p as [|[|[|p]]]; cbn; rewrite ?elem_of_cons, ?elem_of_nil; [..|by destruct p; intros ?%elem_of_nil];
      intros Hm; destruct_or?; subst; done.
  - intros m. destruct p as [|[|[|p]]]; cbn; rewrite ?elem_of_cons, ?elem_of_nil; [..|by destruct p; intros ?%elem_of_nil];
      intros Hm; destruct_or?; subst; done.
  - destruct p as [|[|[|p]]]; cbn; [..|by destruct p; apply NoDup_nil_2];
      apply (bool_decide_unpack _); vm_compute; done.
Qed.

Lemma order_ready : ready 0 order_start.2 order_start.1.
Proof.
  split; try (vm_compute; done).
  - by apply demo_registered.
  - apply bits_among; vm_compute; done.
  - apply bits_among; vm_compute; done.
Qed.

Lemma dispatch_in_order_witness :
  first_plan order_start.2 order_start.1 = [42; 41; 71; 10; 11] /\
  exists d' new, msg_dispatch demo_handlers 0 order_start.1 = Ret d' /\
    log d' = new ++ log order_start.1 /\
    msg_idle_q (M d') = msg_idle_q (M order_start.1) ++ [0%nat] /\
    deliveries new =
      map (fun m => EvMsg m 0 (SET_MSG_INDC_FIELD (msg_id order_start.2) MSG_INDC_PRE_PHASE))
        (ctl_of order_start.1 ++ first_plan order_start.2 order_start.1) ++
      map (fun m => EvMsg m 0 (CLEAR_MSG_INDC_FIELD (SET_MSG_INDC_FIELD (msg_id order_start.2)
                                 MSG_INDC_PRE_PHASE) MSG_INDC_PRE_PHASE))
        (second_plan order_start.2 order_start.1).
Proof.
  split; [by vm_compute|].
  exact (dispatch_in_order demo_handlers 0 order_start.2 order_start.1
           (fun _ _ _ => eq_refl) (fun _ _ _ => eq_refl) order_ready).
Defined.
End DisprOrder.
