(* ===== verification/DisprMdl.v ===== *)
(** * The modules of a command dispatcher (phl/phl_cmd_dispatcher.c)

    Module [DisprMdl] models the registry a dispatcher keeps: registering,
    starting, stopping and removing modules, with the results of their callbacks
    as arguments.  Its invariant is what [DisprRun] assumes of the modules. *)

From S2P Require Import Prelude Bytes Bitmap Dispr DisprInv.

Module DisprMdl.
Import Dispr.
#[local] Open Scope Z_scope.

(** ** One module *)

Definition bk_module_init (ok : bool) (m : phl_bk_module) : phl_bk_module * bool :=
  if TEST_STATUS_FLAG (mdl_status m) MDL_INIT then (m, false)
  else if ok then (mk_mdl (mdl_id m) (SET_STATUS_FLAG (mdl_status m) MDL_INIT), true)
  else (m, false).

Definition bk_module_deinit (m : phl_bk_module) : phl_bk_module :=
  mk_mdl (mdl_id m) (CLEAR_STATUS_FLAG (mdl_status m) MDL_INIT).

Definition bk_module_start (ok : bool) (m : phl_bk_module) : phl_bk_module * bool :=
  if negb (TEST_STATUS_FLAG (mdl_status m) MDL_INIT) || TEST_STATUS_FLAG (mdl_status m) MDL_STARTED
  then (m, false)
  else if ok then (mk_mdl (mdl_id m) (SET_STATUS_FLAG (mdl_status m) MDL_STARTED), true)
  else (m, false).

Definition bk_module_stop (ok : bool) (m : phl_bk_module) : phl_bk_module * bool :=
  if negb (TEST_STATUS_FLAG (mdl_status m) MDL_STARTED) then (m, false)
  else (mk_mdl (mdl_id m) (CLEAR_STATUS_FLAG (mdl_status m) MDL_STARTED), ok).

(** ** The registry *)

Definition set_mdls (q : list (list phl_bk_module)) (bm base : Z) (d : cmd_dispatcher) : cmd_dispatcher :=
  set_E (mk_mdls q bm base (controller (E d)) (exclusive_mdl (E d)) (pending_evt_id (E d))) d.

(** [None] when there is no memory. *)
Definition dispr_init (alloc ctrl_ok : bool) : option cmd_dispatcher :=
  if alloc then
    Some (mk_disp (SET_STATUS_FLAG (SET_STATUS_FLAG 0 DISPR_INIT) DISPR_NOTIFY_IDLE) 0 (mk_msgs [] [] [] [])
            (mk_rqs [] [] [] [] no_op 0 None)
            (mk_mdls (replicate PHL_MDL_PRI_MAX []) 0 0
               (bk_module_init ctrl_ok (mk_mdl PHL_MDL_PHY_MGNT 0)).1 0 (fun _ => 0)) [])
  else None.

(** The bits of a module that has started. *)
Definition started_bits (prio : nat) (id : Z) (bm base : Z) : Z * Z :=
  (word_set bm id, if bool_decide (prio <> PHL_MDL_PRI_OPTIONAL) then word_set base id else base).

(** A module whose [init] or [start] fails is freed while its node stays in the
    queue: the queue is corrupted. *)
Definition dispr_register_module (alloc ops_ok init_ok start_ok : bool) (id : Z) (d : cmd_dispatcher)
    : res (cmd_dispatcher * rtw_phl_status) :=
  let prio := _get_mdl_priority id in
  if negb (test_disp d DISPR_INIT) || bool_decide (prio = PHL_MDL_PRI_MAX) || negb ops_ok ||
     _chk_bitmap_bit (bitmap (E d)) id then Ret (d, STATUS_FAILURE)
  else if negb alloc then Ret (d, STATUS_FAILURE)
  else
    let q := nth prio (module_q (E d)) [] in
    let '(m, ret) := bk_module_init init_ok (mk_mdl id 0) in
    let bits := (bitmap (E d), basemap (E d)) in
    let '(m, ret, (bm, base)) :=
      (if ret && test_disp d DISPR_STARTED then
         let '(m, ret) := bk_module_start start_ok m in
         (m, ret, if ret : bool then started_bits prio id (bitmap (E d)) (basemap (E d)) else bits)
       else (m, ret, bits)) in
    if ret : bool
    then Ret (set_mdls (<[prio := q ++ [m]]> (module_q (E d))) bm base d, STATUS_SUCCESS)
    else Oob.

(** The first module with the identifier, and the queue without it. *)
Fixpoint pq_take_mdl (id : Z) (q : list phl_bk_module) : option (phl_bk_module * list phl_bk_module) :=
  match q with
  | [] => None
  | m :: q =>
      if mdl_id m =? id then Some (m, q)
      else match pq_take_mdl id q with Some (x, q') => Some (x, m :: q') | None => None end
  end.

Definition dispr_deregister_module (id : Z) (d : cmd_dispatcher) : cmd_dispatcher * rtw_phl_status :=
  let prio := _get_mdl_priority id in
  if negb (test_disp d DISPR_INIT) || bool_decide (prio = PHL_MDL_PRI_MAX) then (d, STATUS_FAILURE)
  else match pq_take_mdl id (nth prio (module_q (E d)) []) with
       | None => (d, STATUS_FAILURE)
       | Some (m, q) =>
           (set_mdls (<[prio := q]> (module_q (E d))) (word_clr (bitmap (E d)) (mdl_id m))
              (word_clr (basemap (E d)) (mdl_id m)) d, STATUS_SUCCESS)
       end.

Definition dispr_module_init (init_ok : Z -> bool) (d : cmd_dispatcher) : cmd_dispatcher * rtw_phl_status :=
  if negb (test_disp d DISPR_INIT) then (d, STATUS_FAILURE)
  else (set_mdls (map (map (fun m => (bk_module_init (init_ok (mdl_id m)) m).1)) (module_q (E d)))
          (bitmap (E d)) (basemap (E d)) d, STATUS_SUCCESS).

Definition dispr_module_deinit (d : cmd_dispatcher) : cmd_dispatcher * rtw_phl_status :=
  if negb (test_disp d DISPR_INIT) then (d, STATUS_FAILURE)
  else (set_mdls (map (fun _ => []) (module_q (E d))) (bitmap (E d)) (basemap (E d)) d, STATUS_SUCCESS).

(** The modules of one queue one after the other. *)
Fixpoint start_queue (start_ok : Z -> bool) (prio : nat) (q : list phl_bk_module) (bm base : Z)
    : list phl_bk_module * (Z * Z) :=
  match q with
  | [] => ([], (bm, base))
  | m :: q =>
      let '(m', ret) := bk_module_start (start_ok (mdl_id m)) m in
      let '(bm, base) := if ret : bool then started_bits prio (mdl_id m) bm base else (bm, base) in
      let '(q', b) := start_queue start_ok prio q bm base in (m' :: q', b)
  end.

Fixpoint start_queues (start_ok : Z -> bool) (prio : nat) (qs : list (list phl_bk_module)) (bm base : Z)
    : list (list phl_bk_module) * (Z * Z) :=
  match qs with
  | [] => ([], (bm, base))
  | q :: qs =>
      let '(q', (bm, base)) := start_queue start_ok prio q bm base in
      let '(qs', b) := start_queues start_ok (S prio) qs bm base in (q' :: qs', b)
  end.

Definition dispr_module_start (start_ok : Z -> bool) (d : cmd_dispatcher) : cmd_dispatcher * rtw_phl_status :=
  if negb (test_disp d DISPR_STARTED) then (d, STATUS_UNEXPECTED_ERROR)
  else
    let '(qs, (bm, base)) := start_queues start_ok 0 (module_q (E d)) (bitmap (E d)) (basemap (E d)) in
    (set_mdls qs bm base d, STATUS_SUCCESS).

Definition dispr_module_stop (stop_ok : Z -> bool) (d : cmd_dispatcher) : cmd_dispatcher * rtw_phl_status :=
  if negb (test_disp d DISPR_STARTED) then (d, STATUS_UNEXPECTED_ERROR)
  else
    let ids := mdl_id <$> concat (module_q (E d)) in
    (set_mdls (map (map (fun m => (bk_module_stop (stop_ok (mdl_id m)) m).1)) (module_q (E d)))
       (foldl word_clr (bitmap (E d)) ids) (foldl word_clr (basemap (E d)) ids) d, STATUS_SUCCESS).

Definition dispr_get_bk_module_handle (id : Z) (d : cmd_dispatcher) : option phl_bk_module :=
  let prio := _get_mdl_priority id in
  if negb (test_disp d DISPR_INIT) || bool_decide (prio = PHL_MDL_PRI_MAX) ||
     negb (_chk_bitmap_bit (bitmap (E d)) id) then None
  else fst <$> pq_take_mdl id (nth prio (module_q (E d)) []).

(** ** Histories *)

Inductive mgmt :=
| Register (alloc ops_ok init_ok start_ok : bool) (id : Z)
| Deregister (id : Z)
| InitAll (init_ok : Z -> bool)
| StartAll (start_ok : Z -> bool)
| StopAll (stop_ok : Z -> bool)
| DeinitAll
| StartDispr (ctrl_ok : bool).

Definition manage (m : mgmt) (d : cmd_dispatcher) : res cmd_dispatcher :=
  match m with
  | Register a o i s id => '(d, _) ← dispr_register_module a o i s id d; Ret d
  | Deregister id => Ret (dispr_deregister_module id d).1
  | InitAll f => Ret (dispr_module_init f d).1
  | StartAll f => Ret (dispr_module_start f d).1
  | StopAll f => Ret (dispr_module_stop f d).1
  | DeinitAll => Ret (dispr_module_deinit d).1
  | StartDispr ok => Ret (dispr_start ok d).1
  end.

(** What a dispatcher can go through; the engine removes all modules only when
    they are stopped. *)
Inductive history : cmd_dispatcher -> Prop :=
| history_init ok d : dispr_init true ok = Some d -> history d
| history_step m d d' : history d -> (m = DeinitAll -> bitmap (E d) = 0) -> manage m d = Ret d' -> history d'.

(** ** The invariant *)

Definition has_mdl (e : mdls) (m : phl_bk_module) : Prop := exists p, m ∈ nth p (module_q e) [].
Definition is_started (m : phl_bk_module) : Prop := TEST_STATUS_FLAG (mdl_status m) MDL_STARTED = true.

Record reg_wf (e : mdls) : Prop := {
  rw_len : length (module_q e) = PHL_MDL_PRI_MAX;
  rw_prio p m : (m ∈ nth p (module_q e) []) -> _get_mdl_priority (mdl_id m) = p;
  rw_bit k : 0 <= k -> Z.testbit (bitmap e) k = true -> exists m, has_mdl e m /\ mdl_id m = k /\ is_started m;
  rw_base k : 0 <= k -> Z.testbit (basemap e) k =
    Z.testbit (bitmap e) k && bool_decide (_get_mdl_priority k <> PHL_MDL_PRI_OPTIONAL);
  rw_ctrl : mdl_id (controller e) = PHL_MDL_PHY_MGNT
}.

Lemma prio_range k : _get_mdl_priority k <> PHL_MDL_PRI_MAX -> PHL_BK_MDL_ROLE_START <= k <= PHL_BK_MDL_OPT_END.
Proof.
  unfold _get_mdl_priority. intros Hk.
  destruct (Z.ltb_spec k PHL_BK_MDL_ROLE_START); [done|]. split; [done|].
  destruct (Z.leb_spec k PHL_BK_MDL_ROLE_END); [unfold PHL_BK_MDL_ROLE_END, PHL_BK_MDL_OPT_END in *; lia|].
  destruct (Z.leb_spec k PHL_BK_MDL_MDRY_END); [unfold PHL_BK_MDL_MDRY_END, PHL_BK_MDL_OPT_END in *; lia|].
  destruct (Z.leb_spec k PHL_BK_MDL_OPT_END); [done|done].
Qed.

Lemma in_queue_lt e p m : length (module_q e) = PHL_MDL_PRI_MAX -> (m ∈ nth p (module_q e) []) ->
  (p < PHL_MDL_PRI_MAX)%nat.
Proof.
  intros Hl Hm. destruct (Nat.lt_ge_cases p PHL_MDL_PRI_MAX) as [|Hp]; [done|].
  rewrite nth_overflow in Hm by lia. by apply not_elem_of_nil in Hm.
Qed.

Lemma reg_range e p m : reg_wf e -> (m ∈ nth p (module_q e) []) -> 10 <= mdl_id m <= 127.
Proof.
  intros [Hl Hp _ _ _] Hm. pose proof (in_queue_lt e p m Hl Hm). apply prio_range.
  rewrite (Hp p m Hm). unfold PHL_MDL_PRI_MAX in *. lia.
Qed.

(** The registry is what a run of the dispatcher assumes. *)
Lemma reg_mods_ok e : reg_wf e -> DisprInv.mods_ok e.
Proof.
  intros W. split; [apply W|]. intros m. unfold mdl_in_queues. intros Hm.
  apply existsb_exists in Hm as (q & Hq & Hm). apply existsb_exists in Hm as (x & Hx & <-%Z.eqb_eq).
  apply In_nth with (d := []) in Hq as (p & _ & <-).
  pose proof (reg_range e p x W ltac:(by apply list_elem_of_In)). lia.
Qed.

Lemma reg_same e e' : module_q e' = module_q e -> bitmap e' = bitmap e -> basemap e' = basemap e ->
  mdl_id (controller e') = mdl_id (controller e) -> reg_wf e -> reg_wf e'.
Proof.
  intros Eq Eb Es Ec [Hl Hp Hb Hs Hc]. split; rewrite ?Eq, ?Eb, ?Es, ?Ec; try done.
  intros k Hk B. destruct (Hb k Hk B) as (m & (p & Hm) & ?). exists m. split; [exists p; by rewrite Eq|done].
Qed.

Lemma nth_insert {A} (l : list A) i x p d : (i < length l)%nat ->
  nth p (<[i := x]> l) d = if decide (p = i) then x else nth p l d.
Proof.
  intros Hi. rewrite !nth_lookup. destruct (decide (p = i)) as [->|N].
  - by rewrite list_lookup_insert_eq.
  - by rewrite list_lookup_insert_ne.
Qed.

Definition base_ok (bm base : Z) : Prop := forall k, 0 <= k ->
  Z.testbit base k = Z.testbit bm k && bool_decide (_get_mdl_priority k <> PHL_MDL_PRI_OPTIONAL).

Lemma started_bit prio id bm base k : 0 <= id -> 0 <= k ->
  Z.testbit (started_bits prio id bm base).1 k = (k =? id) || Z.testbit bm k.
Proof. intros. by apply word_set_spec. Qed.

Lemma started_base prio id bm base : _get_mdl_priority id = prio -> 0 <= id -> base_ok bm base ->
  base_ok (started_bits prio id bm base).1 (started_bits prio id bm base).2.
Proof.
  intros Hp Hid Hb k Hk. cbn [started_bits fst snd]. rewrite word_set_spec by done.
  destruct (bool_decide_reflect (prio <> PHL_MDL_PRI_OPTIONAL)) as [N|N]; rewrite ?word_set_spec, Hb by done.
  - destruct (Z.eqb_spec k id) as [->|]; [|done]. cbn [orb andb]. by rewrite bool_decide_eq_true_2 by by rewrite Hp.
  - destruct (Z.eqb_spec k id) as [->|]; [|done]. cbn [orb andb].
    rewrite Hp, (bool_decide_eq_false_2 _ N). by rewrite andb_false_r.
Qed.

(** What starting a list of modules does. *)
Record starts (q q' : list phl_bk_module) (bm bm' base base' : Z) : Prop := {
  ss_ids : map mdl_id q' = map mdl_id q;
  ss_kept m : (m ∈ q) -> is_started m -> m ∈ q';
  ss_bits k : 0 <= k -> Z.testbit bm' k = true ->
    Z.testbit bm k = true \/ exists m, (m ∈ q') /\ mdl_id m = k /\ is_started m;
  ss_base : base_ok bm base -> base_ok bm' base'
}.

Lemma set_started st : TEST_STATUS_FLAG (SET_STATUS_FLAG st MDL_STARTED) MDL_STARTED = true.
Proof. change MDL_STARTED with (BIT 1). by rewrite DisprInv.test_set. Qed.

Lemma start_one ok prio m bm base : _get_mdl_priority (mdl_id m) = prio -> 0 <= mdl_id m ->
  let r := bk_module_start ok m in
  let b := if r.2 then started_bits prio (mdl_id m) bm base else (bm, base) in
  starts [m] [r.1] bm b.1 base b.2.
Proof.
  intros Hp Hid. unfold bk_module_start. destruct (negb _ || TEST_STATUS_FLAG (mdl_status m) MDL_STARTED) eqn:T.
  { split; cbn; auto. }
  destruct ok; [|split; cbn; auto].
  apply orb_false_iff in T as [_ T]. cbn [fst snd]. split.
  - done.
  - intros x ->%list_elem_of_singleton. unfold is_started. congruence.
  - intros k Hk. rewrite started_bit by done. destruct (Z.eqb_spec k (mdl_id m)) as [->|]; [|auto].
    intros _. right. eexists. split; [by apply list_elem_of_singleton|]. split; [done|apply set_started].
  - intros Hb. by apply started_base.
Qed.

Lemma starts_nil bm base : starts [] [] bm bm base base.
Proof. split; auto. Qed.

Lemma starts_app q1 q1' q2 q2' bm bm1 bm2 base base1 base2 :
  starts q1 q1' bm bm1 base base1 -> starts q2 q2' bm1 bm2 base1 base2 ->
  starts (q1 ++ q2) (q1' ++ q2') bm bm2 base base2.
Proof.
  intros [I1 K1 B1 S1] [I2 K2 B2 S2]. split.
  - by rewrite !map_app, I1, I2.
  - intros m. rewrite !elem_of_app. intuition.
  - intros k Hk B. destruct (B2 k Hk B) as [B'|(m & Hm & ?)].
    + destruct (B1 k Hk B') as [|(m & Hm & ?)]; [by left|]. right. exists m. by rewrite elem_of_app; auto.
    + right. exists m. by rewrite elem_of_app; auto.
  - auto.
Qed.

Lemma start_queue_spec ok prio q : Forall (fun m => _get_mdl_priority (mdl_id m) = prio /\ 0 <= mdl_id m) q ->
  forall bm base, let r := start_queue ok prio q bm base in starts q r.1 bm r.2.1 base r.2.2.
Proof.
  induction 1 as [|m q [Hp Hid] Hq IH]; intros bm base; cbn [start_queue]; [apply starts_nil|].
  pose proof (start_one (ok (mdl_id m)) prio m bm base Hp Hid) as S1. cbn zeta in S1.
  destruct (bk_module_start (ok (mdl_id m)) m) as [m' ret]. cbn [fst snd] in S1.
  destruct (if ret then started_bits prio (mdl_id m) bm base else (bm, base)) as [bm1 base1].
  specialize (IH bm1 base1). cbn zeta in IH. destruct (start_queue ok prio q bm1 base1) as [q' [bm2 base2]].
  cbn [fst snd] in *. exact (starts_app [m] [m'] q q' _ _ _ _ _ _ S1 IH).
Qed.

Lemma start_queues_spec ok qs : forall prio,
  (forall p, Forall (fun m => _get_mdl_priority (mdl_id m) = (prio + p)%nat /\ 0 <= mdl_id m) (nth p qs [])) ->
  forall bm base, let r := start_queues ok prio qs bm base in
  length r.1 = length qs /\ (forall p, map mdl_id (nth p r.1 []) = map mdl_id (nth p qs [])) /\
  starts (concat qs) (concat r.1) bm r.2.1 base r.2.2.
Proof.
  induction qs as [|q qs IH]; intros prio Hqs bm base; cbn [start_queues].
  { split; [done|]. split; [done|apply starts_nil]. }
  pose proof (start_queue_spec ok prio q) as S1.
  specialize (S1 ltac:(specialize (Hqs 0%nat); rewrite Nat.add_0_r in Hqs; exact Hqs) bm base). cbn zeta in S1.
  destruct (start_queue ok prio q bm base) as [q' [bm1 base1]].
  specialize (IH (S prio) ltac:(intros p; specialize (Hqs (S p)); by rewrite Nat.add_succ_r in Hqs) bm1 base1).
  cbn zeta in IH. destruct (start_queues ok (S prio) qs bm1 base1) as [qs' [bm2 base2]]. cbn [fst snd] in *.
  destruct IH as (L & I & S2). split; [cbn; congruence|]. split.
  - intros [|p]; [apply S1|apply I].
  - cbn [concat]. by eapply starts_app.
Qed.

Lemma concat_nth (qs : list (list phl_bk_module)) m : m ∈ concat qs <-> exists p, m ∈ nth p qs [].
Proof.
  rewrite list_elem_of_In, in_concat. split.
  - intros (q & Hq & Hm). apply In_nth with (d := []) in Hq as (p & _ & <-). exists p. by apply list_elem_of_In.
  - intros (p & Hm). destruct (nth_in_or_default p qs []) as [Hin|E0].
    + exists (nth p qs []). split; [done|by apply list_elem_of_In].
    + rewrite E0 in Hm. by apply not_elem_of_nil in Hm.
Qed.

Lemma has_concat e m : has_mdl e m <-> m ∈ concat (module_q e).
Proof. by rewrite concat_nth. Qed.

(** Queues with the same identifiers have the same priorities. *)
Lemma prio_ids (qs qs' : list (list phl_bk_module)) :
  (forall p, map mdl_id (nth p qs' []) = map mdl_id (nth p qs [])) ->
  (forall p m, (m ∈ nth p qs []) -> _get_mdl_priority (mdl_id m) = p) ->
  forall p m, (m ∈ nth p qs' []) -> _get_mdl_priority (mdl_id m) = p.
Proof.
  intros Hi Hp p m Hm. assert (Hin : mdl_id m ∈ map mdl_id (nth p qs' [])) by by apply list_elem_of_fmap_2.
  rewrite Hi in Hin. apply list_elem_of_fmap in Hin as (x & -> & Hx). by apply Hp.
Qed.

(** ** The invariant is kept *)

Lemma register_wf a o i s id d d' st : reg_wf (E d) ->
  dispr_register_module a o i s id d = Ret (d', st) -> reg_wf (E d').
Proof.
  intros W. unfold dispr_register_module. destruct (negb (test_disp d DISPR_INIT)); [by intros [= <- _]|].
  destruct (bool_decide_reflect (_get_mdl_priority id = PHL_MDL_PRI_MAX)) as [|Hp]; [by intros [= <- _]|].
  destruct (_ || _); [by intros [= <- _]|]. destruct (negb a); [by intros [= <- _]|].
  pose proof (prio_range id Hp) as Hid. unfold PHL_BK_MDL_ROLE_START, PHL_BK_MDL_OPT_END in Hid.
  set (prio := _get_mdl_priority id) in *.
  assert (Hlt : (prio < length (module_q (E d)))%nat).
  { rewrite (rw_len _ W). unfold prio, _get_mdl_priority, PHL_MDL_PRI_MAX, PHL_MDL_PRI_ROLE, PHL_MDL_PRI_OPTIONAL,
      PHL_MDL_PRI_MANDATORY in *. repeat case_match; lia. }
  unfold bk_module_init. cbn [mdl_status mdl_id]. change (TEST_STATUS_FLAG 0 MDL_INIT) with false. cbv iota.
  destruct i; [|done]. set (m := mk_mdl id _).
  (* the queue has one module more, which may be started *)
  assert (Hpush : forall m' bm base, mdl_id m' = id -> base_ok bm base ->
    (forall k, 0 <= k -> Z.testbit bm k = true -> Z.testbit (bitmap (E d)) k = true \/ (k = id /\ is_started m')) ->
    reg_wf (mk_mdls (<[prio := nth prio (module_q (E d)) [] ++ [m']]> (module_q (E d))) bm base
              (controller (E d)) (exclusive_mdl (E d)) (pending_evt_id (E d)))).
  { intros m' bm base Hm' Hbase Hbits. split; cbn [module_q bitmap basemap controller].
    - rewrite length_insert. apply W.
    - intros p x. rewrite nth_insert by done. destruct (decide (p = prio)) as [->|]; [|by apply W].
      intros [Hx| ->%list_elem_of_singleton]%elem_of_app; [by apply W|by rewrite Hm'].
    - intros k Hk B. destruct (Hbits k Hk B) as [B'|[-> Hs]].
      + destruct (rw_bit _ W k Hk B') as (x & (p & Hx) & ?). exists x. split; [|done]. exists p. cbn.
        rewrite nth_insert by done. destruct (decide (p = prio)) as [->|]; [|done]. apply elem_of_app. by left.
      + exists m'. split; [|done]. exists prio. cbn. rewrite nth_insert, decide_True by done.
        apply elem_of_app. right. by apply list_elem_of_singleton.
    - exact Hbase.
    - apply W. }
  destruct (true && test_disp d DISPR_STARTED) eqn:T.
  - unfold bk_module_start. cbn [mdl_status m].
    change (negb (TEST_STATUS_FLAG (SET_STATUS_FLAG 0 MDL_INIT) MDL_INIT) ||
            TEST_STATUS_FLAG (SET_STATUS_FLAG 0 MDL_INIT) MDL_STARTED) with false. cbv iota.
    destruct s; [|done]. cbn [fst snd]. destruct (started_bits _ _ _ _) as [bm base] eqn:Eb.
    intros [= <- _]. cbn [E set_mdls set_E].
    assert (Ebm : bm = (started_bits prio id (bitmap (E d)) (basemap (E d))).1) by by rewrite Eb.
    assert (Ebs : base = (started_bits prio id (bitmap (E d)) (basemap (E d))).2) by by rewrite Eb.
    apply Hpush; [done| |].
    + rewrite Ebm, Ebs. apply started_base; [done|lia|exact (rw_base _ W)].
    + intros k Hk. rewrite Ebm, started_bit by lia. destruct (Z.eqb_spec k id) as [->|]; [|auto].
      intros _. right. split; [done|apply set_started].
  - intros [= <- _]. cbn [E set_mdls set_E]. apply Hpush; [done|exact (rw_base _ W)|auto].
Qed.

Lemma take_mdl_spec id q m q' : pq_take_mdl id q = Some (m, q') ->
  mdl_id m = id /\ (m ∈ q) /\ (forall x, x ∈ q' -> x ∈ q) /\ (forall x, (x ∈ q) -> mdl_id x <> id -> x ∈ q').
Proof.
  revert m q'. induction q as [|y q IH]; intros m q'; cbn [pq_take_mdl]; [done|].
  destruct (Z.eqb_spec (mdl_id y) id) as [Ey|Ny].
  - intros [= <- <-]. split; [done|]. rewrite elem_of_cons. split; [auto|].
    split; intros x; rewrite elem_of_cons; [auto|]. by intros [->|].
  - destruct (pq_take_mdl id q) as [[z q'']|]; [|done]. intros [= <- <-].
    destruct (IH z q'' eq_refl) as (Hz & Hin & H1 & H2). split; [done|]. rewrite elem_of_cons. split; [auto|].
    split; intros x; rewrite !elem_of_cons; [|intros [->|]; auto]. intros [->|]; auto.
Qed.

Lemma deregister_wf id d : reg_wf (E d) -> reg_wf (E (dispr_deregister_module id d).1).
Proof.
  intros W. unfold dispr_deregister_module. destruct (negb _); [done|].
  destruct (bool_decide_reflect (_get_mdl_priority id = PHL_MDL_PRI_MAX)) as [|Hp]; [done|]. cbn [orb].
  set (prio := _get_mdl_priority id). destruct (pq_take_mdl id _) as [[m q]|] eqn:Et; [|done].
  apply take_mdl_spec in Et as (Em & Hin & H1 & H2). cbn [E set_mdls set_E fst].
  pose proof (prio_range id Hp) as Hid. unfold PHL_BK_MDL_ROLE_START, PHL_BK_MDL_OPT_END in Hid.
  assert (Hlt : (prio < length (module_q (E d)))%nat).
  { rewrite (rw_len _ W). eapply in_queue_lt; [apply W|exact Hin]. }
  split; cbn [module_q bitmap basemap controller].
  - rewrite length_insert. apply W.
  - intros p x. rewrite nth_insert by done. destruct (decide (p = prio)) as [->|]; [|by apply W].
    intros Hx. apply W. by apply H1.
  - intros k Hk. rewrite Em, word_clr_spec by lia. intros [Nk%negb_true_iff%Z.eqb_neq B]%andb_true_iff.
    destruct (rw_bit _ W k Hk B) as (x & (p & Hx) & Ex & Sx). exists x. split; [|done]. exists p. cbn.
    rewrite nth_insert by done. destruct (decide (p = prio)) as [->|]; [|done]. apply H2; [done|congruence].
  - intros k Hk. rewrite Em, !word_clr_spec, (rw_base _ W) by lia. by rewrite andb_assoc.
  - apply W.
Qed.

(** Changing each module where it is. *)
Lemma map_wf f d bm base : reg_wf (E d) -> (forall m, mdl_id (f m) = mdl_id m) -> base_ok bm base ->
  (forall k m, 0 <= k -> Z.testbit bm k = true -> Z.testbit (bitmap (E d)) k = true /\
     ((m ∈ concat (module_q (E d))) -> mdl_id m = k -> is_started m -> is_started (f m))) ->
  reg_wf (E (set_mdls (map (map f) (module_q (E d))) bm base d)).
Proof.
  intros W Hf Hb Hk. assert (En : forall p, nth p (map (map f) (module_q (E d))) [] = map f (nth p (module_q (E d)) [])).
  { intros p. change (@nil phl_bk_module) with (map f []) at 1. apply map_nth. }
  split; cbn [E set_mdls set_E module_q bitmap basemap controller].
  - rewrite length_map. apply W.
  - apply (prio_ids (module_q (E d))); [|apply W]. intros p. rewrite En, map_map. by apply map_ext.
  - intros k Hk0 B. destruct (Hk k (mk_mdl 0 0) Hk0 B) as [B' _].
    destruct (rw_bit _ W k Hk0 B') as (m & Hm & Em & Sm). exists (f m). split; [|split].
    + destruct Hm as [p Hm]. exists p. cbn. rewrite En. by apply list_elem_of_fmap_2.
    + by rewrite Hf.
    + apply (Hk k m Hk0 B); [by apply has_concat|done|done].
  - exact Hb.
  - apply W.
Qed.

Lemma init_started ok m : is_started m -> is_started (bk_module_init ok m).1.
Proof.
  unfold bk_module_init, is_started. destruct (TEST_STATUS_FLAG (mdl_status m) MDL_INIT); [done|].
  destruct ok; [|done]. cbn [fst mdl_status]. change MDL_STARTED with (BIT 1). change MDL_INIT with (BIT 0).
  by rewrite DisprInv.test_set.
Qed.
Lemma init_id ok m : mdl_id (bk_module_init ok m).1 = mdl_id m.
Proof. unfold bk_module_init. destruct (TEST_STATUS_FLAG _ _); [done|by destruct ok]. Qed.
Lemma stop_id ok m : mdl_id (bk_module_stop ok m).1 = mdl_id m.
Proof. unfold bk_module_stop. by destruct (negb _). Qed.

Lemma init_wf ok d : reg_wf (E d) -> reg_wf (E (dispr_module_init ok d).1).
Proof.
  intros W. unfold dispr_module_init. destruct (negb _); [done|]. cbn [fst].
  apply (map_wf (fun m => (bk_module_init (ok (mdl_id m)) m).1)); [done|intros m; apply init_id|exact (rw_base _ W)|].
  intros k m _ B. split; [done|]. intros _ _. apply init_started.
Qed.

Lemma start_wf ok d : reg_wf (E d) -> reg_wf (E (dispr_module_start ok d).1).
Proof.
  intros W. unfold dispr_module_start. destruct (negb _); [done|].
  destruct (start_queues_spec ok (module_q (E d)) 0) with (bm := bitmap (E d)) (base := basemap (E d)) as (L & I & [_ K B Bs]).
  { intros p. apply Forall_forall. intros m Hm. split; [by apply W|].
    pose proof (reg_range (E d) p m W Hm). lia. }
  destruct (start_queues ok 0 (module_q (E d)) (bitmap (E d)) (basemap (E d))) as [qs [bm base]].
  cbn [fst snd] in *. split; cbn [E set_mdls set_E module_q bitmap basemap controller].
  - rewrite L. apply W.
  - apply (prio_ids (module_q (E d))); [exact I|apply W].
  - intros k Hk Bk. destruct (B k Hk Bk) as [B'|(m & Hm & ?)].
    + destruct (rw_bit _ W k Hk B') as (m & Hm & Em & Sm). exists m. split; [|done].
      apply has_concat. cbn. apply K; [by apply has_concat|done].
    + exists m. split; [by apply has_concat|done].
  - exact (Bs (rw_base _ W)).
  - apply W.
Qed.

(** Stopping clears the bit of every module there is, hence every bit. *)
Lemma stop_bits bm e : Forall (fun x => 0 <= x) (mdl_id <$> concat (module_q e)) ->
  (forall k, 0 <= k -> Z.testbit bm k = true -> exists m, has_mdl e m /\ mdl_id m = k) ->
  foldl word_clr bm (mdl_id <$> concat (module_q e)) = 0.
Proof.
  intros Hr Hb. apply Z.bits_inj'. intros k Hk. rewrite Z.bits_0.
  assert (Hc : forall l bm0, Forall (fun x => 0 <= x) l ->
    Z.testbit (foldl word_clr bm0 l) k = true -> (k ∉ l) /\ Z.testbit bm0 k = true).
  { clear -Hk. induction l as [|x l IH]; intros bm0 Hl; cbn [foldl].
    - intros ->. split; [apply not_elem_of_nil|done].
    - inversion Hl; subst. intros [Hn B]%IH; [|done]. rewrite word_clr_spec in B by done.
      apply andb_true_iff in B as [Hx%negb_true_iff%Z.eqb_neq B]. split; [|done].
      by rewrite not_elem_of_cons. }
  destruct (Z.testbit _ k) eqn:B; [|done]. exfalso. destruct (Hc _ _ Hr B) as [Hn B'].
  destruct (Hb k Hk B') as (m & Hm & <-). apply Hn. apply list_elem_of_fmap_2. by apply has_concat.
Qed.

Lemma stop_clears ok d : reg_wf (E d) -> test_disp d DISPR_STARTED = true ->
  let d' := (dispr_module_stop ok d).1 in
  bitmap (E d') = 0 /\ basemap (E d') = 0 /\ (forall m, has_mdl (E d') m -> ~ is_started m) /\
  reg_wf (E d').
Proof.
  intros W T. unfold dispr_module_stop. rewrite T. cbn [negb fst].
  assert (Hr : Forall (fun x => 0 <= x) (mdl_id <$> concat (module_q (E d)))).
  { apply Forall_fmap, Forall_forall. intros m [p Hm]%has_concat. pose proof (reg_range (E d) p m W Hm).
    cbn. lia. }
  assert (Eb : foldl word_clr (bitmap (E d)) (mdl_id <$> concat (module_q (E d))) = 0).
  { apply stop_bits; [done|]. intros k Hk B. destruct (rw_bit _ W k Hk B) as (m & ? & ? & _). by exists m. }
  assert (Es : foldl word_clr (basemap (E d)) (mdl_id <$> concat (module_q (E d))) = 0).
  { apply stop_bits; [done|]. intros k Hk B. rewrite (rw_base _ W) in B by done.
    apply andb_true_iff in B as [B _]. destruct (rw_bit _ W k Hk B) as (m & ? & ? & _). by exists m. }
  rewrite Eb, Es. split; [done|]. split; [done|].
  assert (En : forall p, nth p (map (map (fun m => (bk_module_stop (ok (mdl_id m)) m).1)) (module_q (E d))) [] =
                 map (fun m => (bk_module_stop (ok (mdl_id m)) m).1) (nth p (module_q (E d)) [])).
  { intros p. change (@nil phl_bk_module) with (map (fun m => (bk_module_stop (ok (mdl_id m)) m).1) []) at 1.
    apply map_nth. }
  split.
  - intros m [p Hm]. cbn [E set_mdls set_E module_q] in Hm. rewrite En in Hm.
    apply list_elem_of_fmap in Hm as (x & -> & _). unfold bk_module_stop, is_started.
    destruct (TEST_STATUS_FLAG (mdl_status x) MDL_STARTED) eqn:Tx; cbn [negb fst mdl_status]; [|by rewrite Tx].
    change MDL_STARTED with (BIT 1). by rewrite DisprInv.test_clear.
  - apply map_wf; [done|intros m; apply stop_id| |].
    + intros k Hk. by rewrite Z.bits_0.
    + intros k m Hk B. by rewrite Z.bits_0 in B.
Qed.

Lemma manage_wf m d d' : reg_wf (E d) -> (m = DeinitAll -> bitmap (E d) = 0) -> manage m d = Ret d' ->
  reg_wf (E d').
Proof.
  intros W Hm. destruct m as [a o i s id|id|f|f|f| |ok]; cbn [manage].
  - destruct (dispr_register_module a o i s id d) as [[d1 st]| |] eqn:Er; [|done|done].
    cbn [mbind res_bind]. intros [= <-]. by eapply register_wf.
  - intros [= <-]. by apply deregister_wf.
  - intros [= <-]. by apply init_wf.
  - intros [= <-]. by apply start_wf.
  - intros [= <-]. destruct (test_disp d DISPR_STARTED) eqn:T; [by apply stop_clears|].
    unfold dispr_module_stop. by rewrite T.
  - intros [= <-]. specialize (Hm eq_refl). unfold dispr_module_deinit. destruct (negb _); [done|]. cbn [fst].
    assert (En : forall p, nth p (map (fun _ => []) (module_q (E d))) ([] : list phl_bk_module) = []).
    { intros p. generalize (module_q (E d)). clear. intros l. revert p.
      induction l as [|q l IH]; intros [|p]; [done..|apply IH]. }
    split; cbn [E set_mdls set_E module_q bitmap basemap controller].
    + rewrite length_map. apply W.
    + intros p x. rewrite En. by intros ?%not_elem_of_nil.
    + intros k _. rewrite Hm. by rewrite Z.bits_0.
    + apply W.
    + apply W.
  - intros [= <-]. unfold dispr_start. destruct (test_disp d DISPR_STARTED); [done|]. cbn [fst].
    unfold _start_dispr_controller, init_dispr_mdl_mgnt_info, init_cmd_req_pool, init_dispr_msg_pool.
    eapply reg_same; [..|exact W];
      repeat match goal with |- context [if ?b then _ else _] => destruct b end; done.
Qed.

Lemma init_reg_wf ok d : dispr_init true ok = Some d -> reg_wf (E d).
Proof.
  intros [= <-]. split; cbn [E module_q bitmap basemap controller]; try done.
  - intros p m. destruct p as [|[|[|[]]]]; by intros ?%not_elem_of_nil.
  - intros k _. by rewrite Z.bits_0.
  - intros k Hk. by rewrite Z.bits_0.
  - by destruct ok.
Qed.

(** whatever modules are registered, started, stopped and removed, in any
    order, and whatever their callbacks answer: every module is in the queue of
    the priority of its identifier, the bitmap of a dispatcher names only modules
    that are registered and started, and the base map is the bitmap without the
    optional modules.  This is what a run of the dispatcher relies on. *)
Theorem registry_invariant d : history d -> reg_wf (E d) /\ DisprInv.mods_ok (E d).
Proof.
  intros Hd. assert (W : reg_wf (E d)); [|split; [done|by apply reg_mods_ok]].
  induction Hd as [ok d Hi|m d d' _ IH Hm Hs]; [by eapply init_reg_wf|by eapply manage_wf].
Qed.

(** after [dispr_module_stop] of a started dispatcher both bitmaps are empty
    and no module is started, whatever the modules' [stop] answered. *)
Theorem module_stop_clears ok d : history d -> test_disp d DISPR_STARTED = true ->
  let d' := (dispr_module_stop ok d).1 in
  bitmap (E d') = 0 /\ basemap (E d') = 0 /\ (forall m, has_mdl (E d') m -> ~ is_started m).
Proof.
  intros Hd T. destruct (stop_clears ok d) as (? & ? & ? & _); [by apply registry_invariant|done|done].
Qed.

Definition demo_history : res cmd_dispatcher :=
  match dispr_init true true with
  | Some d =>
      d ← manage (Register true true true true 10) d;
      d ← manage (Register true true true true 71) d;
      d ← manage (StartDispr true) d;
      d ← manage (StartAll (fun id => negb (id =? 71))) d;
      manage (Register true true true true 42) d
  | None => Oob
  end.

Lemma demo_history_ok d : demo_history = Ret d -> history d.
Proof.
  unfold demo_history. destruct (dispr_init true true) as [d0|] eqn:E0; [|done].
  pose proof (history_init true d0 E0) as H0. revert d0 H0 E0. intros d0 H0 _.
  assert (Hb : forall m d1 k, history d1 -> m <> DeinitAll ->
    (forall d2, history d2 -> k d2 = Ret d -> history d) -> (manage m d1 ≫= k) = Ret d -> history d).
  { intros m d1 k H1 Hm Hk. destruct (manage m d1) as [d2| |] eqn:E1; [|done|done]. cbn [mbind res_bind].
    apply Hk. by eapply history_step; [exact H1| |exact E1]. }
  revert H0. revert d0. intros d0 H0.
  apply Hb; [done|done|]. intros d1 H1. apply Hb; [done|done|]. intros d2 H2.
  apply Hb; [done|done|]. intros d3 H3. apply Hb; [done|done|]. intros d4 H4 E5.
  by eapply history_step; [exact H4| |exact E5].
Qed.

Definition demo_reg : cmd_dispatcher :=
  match demo_history with Ret d => d | _ => mk_disp 0 0 (mk_msgs [] [] [] []) (mk_rqs [] [] [] [] no_op 0 None)
     (mk_mdls [] 0 0 (mk_mdl 0 0) 0 (fun _ => 0)) [] end.

Lemma demo_reg_history : history demo_reg.
Proof. apply demo_history_ok. vm_compute. reflexivity. Qed.

Lemma registry_invariant_witness : bitmap (E demo_reg) = foldl word_set 0 [10; 42] /\
  reg_wf (E demo_reg) /\ DisprInv.mods_ok (E demo_reg).
Proof. split; [by vm_compute|]. exact (registry_invariant demo_reg demo_reg_history). Defined.

Lemma module_stop_clears_witness :
  let d' := (dispr_module_stop (fun _ => false) demo_reg).1 in
  bitmap (E d') = 0 /\ basemap (E d') = 0 /\ (forall m, has_mdl (E d') m -> ~ is_started m).
Proof. exact (module_stop_clears (fun _ => false) demo_reg demo_reg_history eq_refl). Defined.

(** Before the dispatcher is started nothing keeps an identifier from being
    registered twice: the check asks the bitmap, which is still empty. *)
Example registered_twice :
  match dispr_init true true with
  | Some d =>
      match (d ← manage (Register true true true true 10) d; manage (Register true true true true 10) d) with
      | Ret d => map mdl_id (nth PHL_MDL_PRI_ROLE (module_q (E d)) []) = [10; 10]
      | _ => False
      end
  | None => False
  end.
Proof. vm_compute. reflexivity. Qed.

(** A module whose [init] fails leaves a freed node in its queue. *)
Example failed_registration_corrupts :
  match dispr_init true true with
  | Some d => manage (Register true true false true 10) d = Oob
  | None => False
  end.
Proof. vm_compute. reflexivity. Qed.
End DisprMdl.
