(* ===== verification/TxDesc.v ===== *)
(** * Descriptors of frames to send

    phl/hal_g6/mac/mac_ax/trx_desc.c: [mac_build_txdesc] turns the meta data of a request
    into the descriptor in front of the frame, 24 bytes or 48 with the part that
    [wdinfo_en] asks for; phl/hal_g6/mac/txdesc.h: the places of the fields.

    [parse_wd] reads a descriptor, and [txdesc_roundtrip] says what it finds: each field,
    reduced to the width of its place, so no two fields share a bit. *)

From S2P Require Import Prelude Bytes.

Module TxDesc.

Definition RTW_PHL_PKT_TYPE_DATA : Z := 0.
Definition RTW_PHL_PKT_TYPE_MGNT : Z := 1.
Definition RTW_PHL_PKT_TYPE_H2C : Z := 2.
Definition RTW_PHL_PKT_TYPE_FWDL : Z := 4.
Definition WD_BODY_LEN : Z := 24.
Definition WD_INFO_LEN : Z := 24.
Definition TID_MAX_NUM : Z := 8.
Definition MAC_AX_DATA_HIQ : Z := 9.
Definition MAC_AX_DMA_B0MG : Z := 8.
Definition MAC_AX_DMA_B0HI : Z := 9.
Definition MAC_AX_DMA_B1MG : Z := 10.
Definition MAC_AX_DMA_B1HI : Z := 11.
Definition MAC_AX_DMA_H2C : Z := 12.
Definition MAC_AX_HI0_SEL : Z := 17.
Definition MAC_AX_MG0_SEL : Z := 18.
Definition MAC_AX_HI1_SEL : Z := 25.
Definition MAC_AX_MG1_SEL : Z := 26.
Definition MACBUFSZ : Z := 10.
Definition MACNOITEM : Z := 11.
Definition MACINTF : Z := 17.
Definition MACTXCHDMA : Z := 32.
Definition MACFUNCINPUT : Z := 46.

(** [rtw_t_meta_data], the fields that descriptors are made of. *)
Record t_meta_data := mk_mdata {
  m_type : Z; m_band : Z; m_wmm : Z; m_tid : Z; m_bc : Z; m_mc : Z; m_pktlen : Z; m_hw_seq_mode : Z;
  m_hw_ssn_sel : Z; m_smh_en : Z; m_hw_amsdu : Z; m_hw_aes_iv : Z; m_wd_page_size : Z; m_hdr_len : Z;
  m_dma_ch : Z; m_usb_pkt_ofst : Z; m_wdinfo_en : Z; m_wp_offset : Z; m_shcut_camid : Z; m_macid : Z;
  m_sw_seq : Z; m_ampdu_en : Z; m_bk : Z; m_mbssid : Z; m_hal_port : Z; m_data_bw_er : Z;
  m_dis_rts_rate_fb : Z; m_dis_data_rate_fb : Z; m_f_ldpc : Z; m_f_stbc : Z; m_f_dcm : Z; m_f_er : Z;
  m_f_rate : Z; m_f_gi_ltf : Z; m_f_bw : Z; m_userate_sel : Z; m_ack_ch_info : Z; m_max_agg_num : Z;
  m_nav_use_hdr : Z; m_a_ctrl_uph : Z; m_a_ctrl_bsr : Z; m_a_ctrl_cas : Z; m_data_rty_lowest_rate : Z;
  m_data_tx_cnt_lmt : Z; m_data_tx_cnt_lmt_en : Z; m_sec_cam_idx : Z; m_sec_hw_enc : Z; m_sec_type : Z;
  m_life_time_sel : Z; m_ampdu_density : Z; m_ndpa : Z; m_snd_pkt_sel : Z; m_sifs_tx : Z; m_rtt_en : Z;
  m_spe_rpt : Z; m_sw_define : Z; m_rts_en : Z; m_cts2self : Z; m_rts_cca_mode : Z; m_hw_rts_en : Z
}.

(** What phl fills in for a ring. *)
Definition set_ring_fields (macid band wmm port tid dma_ch pktlen : Z) (m : t_meta_data) : t_meta_data :=
  {|
    m_type := m_type m; m_band := band; m_wmm := wmm; m_tid := tid; m_bc := m_bc m; m_mc := m_mc m;
    m_pktlen := pktlen; m_hw_seq_mode := m_hw_seq_mode m; m_hw_ssn_sel := m_hw_ssn_sel m;
    m_smh_en := m_smh_en m; m_hw_amsdu := m_hw_amsdu m; m_hw_aes_iv := m_hw_aes_iv m;
    m_wd_page_size := m_wd_page_size m; m_hdr_len := m_hdr_len m; m_dma_ch := dma_ch;
    m_usb_pkt_ofst := m_usb_pkt_ofst m; m_wdinfo_en := m_wdinfo_en m; m_wp_offset := m_wp_offset m;
    m_shcut_camid := m_shcut_camid m; m_macid := macid; m_sw_seq := m_sw_seq m; m_ampdu_en := m_ampdu_en m;
    m_bk := m_bk m; m_mbssid := m_mbssid m; m_hal_port := port; m_data_bw_er := m_data_bw_er m;
    m_dis_rts_rate_fb := m_dis_rts_rate_fb m; m_dis_data_rate_fb := m_dis_data_rate_fb m;
    m_f_ldpc := m_f_ldpc m; m_f_stbc := m_f_stbc m; m_f_dcm := m_f_dcm m; m_f_er := m_f_er m;
    m_f_rate := m_f_rate m; m_f_gi_ltf := m_f_gi_ltf m; m_f_bw := m_f_bw m; m_userate_sel := m_userate_sel m;
    m_ack_ch_info := m_ack_ch_info m; m_max_agg_num := m_max_agg_num m; m_nav_use_hdr := m_nav_use_hdr m;
    m_a_ctrl_uph := m_a_ctrl_uph m; m_a_ctrl_bsr := m_a_ctrl_bsr m; m_a_ctrl_cas := m_a_ctrl_cas m;
    m_data_rty_lowest_rate := m_data_rty_lowest_rate m; m_data_tx_cnt_lmt := m_data_tx_cnt_lmt m;
    m_data_tx_cnt_lmt_en := m_data_tx_cnt_lmt_en m; m_sec_cam_idx := m_sec_cam_idx m;
    m_sec_hw_enc := m_sec_hw_enc m; m_sec_type := m_sec_type m; m_life_time_sel := m_life_time_sel m;
    m_ampdu_density := m_ampdu_density m; m_ndpa := m_ndpa m; m_snd_pkt_sel := m_snd_pkt_sel m;
    m_sifs_tx := m_sifs_tx m; m_rtt_en := m_rtt_en m; m_spe_rpt := m_spe_rpt m; m_sw_define := m_sw_define m;
    m_rts_en := m_rts_en m; m_cts2self := m_cts2self m; m_rts_cca_mode := m_rts_cca_mode m;
    m_hw_rts_en := m_hw_rts_en m
  |}.

(** ** Fields: a shift with a mask, or a bit *)

Definition AX_TXD_WP_OFFSET : Z * Z := (24, 0xff).
Definition AX_TXD_WDINFO_EN : Z := BIT 22.
Definition AX_TXD_PKT_OFFSET : Z := BIT 21.
Definition AX_TXD_FWDL_EN : Z := BIT 20.
Definition AX_TXD_CH_DMA : Z * Z := (16, 0xf).
Definition AX_TXD_HDR_LLC_LEN : Z * Z := (11, 0x1f).
Definition AX_TXD_STF_MODE : Z := BIT 10.
Definition AX_TXD_WD_PAGE : Z := BIT 7.
Definition AX_TXD_HW_AES_IV : Z := BIT 6.
Definition AX_TXD_HWAMSDU : Z := BIT 5.
Definition AX_TXD_SMH_EN : Z := BIT 4.
Definition AX_TXD_HW_SSN_SEL : Z * Z := (2, 0x3).
Definition AX_TXD_EN_HWSEQ_MODE : Z * Z := (0, 0x3).
Definition AX_TXD_DMA_TXAGG_NUM : Z * Z := (8, 0xff).
Definition AX_TXD_SHCUT_CAMID : Z * Z := (0, 0xff).
Definition AX_TXD_MACID : Z * Z := (24, 0x7f).
Definition AX_TXD_TID_IND : Z := BIT 23.
Definition AX_TXD_QSEL : Z * Z := (17, 0x3f).
Definition AX_TXD_TXPKTSIZE : Z * Z := (0, 0x3fff).
Definition AX_TXD_BK : Z := BIT 13.
Definition AX_TXD_AGG_EN : Z := BIT 12.
Definition AX_TXD_WIFI_SEQ : Z * Z := (0, 0xfff).
Definition AX_TXD_TXDESC_CHECKSUM : Z * Z := (0, 0xffff).
Definition AX_TXD_ACK_CH_INFO : Z := BIT 31.
Definition AX_TXD_USERATE_SEL : Z := BIT 30.
Definition AX_TXD_DATA_BW : Z * Z := (28, 0x3).
Definition AX_TXD_GI_LTF : Z * Z := (25, 0x7).
Definition AX_TXD_DATARATE : Z * Z := (16, 0x1ff).
Definition AX_TXD_DATA_ER : Z := BIT 15.
Definition AX_TXD_DATA_DCM : Z := BIT 14.
Definition AX_TXD_DATA_STBC : Z := BIT 12.
Definition AX_TXD_DATA_LDPC : Z := BIT 11.
Definition AX_TXD_DISDATAFB : Z := BIT 10.
Definition AX_TXD_DISRTSFB : Z := BIT 9.
Definition AX_TXD_DATA_BW_ER : Z := BIT 8.
Definition AX_TXD_MULTIPORT_ID : Z * Z := (4, 0x7).
Definition AX_TXD_MBSSID : Z * Z := (0, 0xf).
Definition AX_TXD_DATA_TXCNT_LMT_SEL : Z := BIT 31.
Definition AX_TXD_DATA_TXCNT_LMT : Z * Z := (25, 0x3f).
Definition AX_TXD_DATA_RTY_LOWEST_RATE : Z * Z := (16, 0x1ff).
Definition AX_TXD_A_CTRL_CAS : Z := BIT 15.
Definition AX_TXD_A_CTRL_BSR : Z := BIT 14.
Definition AX_TXD_A_CTRL_UPH : Z := BIT 13.
Definition AX_TXD_BMC : Z := BIT 11.
Definition AX_TXD_NAVUSEHDR : Z := BIT 10.
Definition AX_TXD_MAX_AGG_NUM : Z * Z := (0, 0xff).
Definition AX_TXD_AMPDU_DENSITY : Z * Z := (18, 0x7).
Definition AX_TXD_LIFETIME_SEL : Z * Z := (13, 0x7).
Definition AX_TXD_SECTYPE : Z * Z := (9, 0xf).
Definition AX_TXD_SEC_HW_ENC : Z := BIT 8.
Definition AX_TXD_SEC_CAM_IDX : Z * Z := (0, 0xff).
Definition AX_TXD_SPE_RPT : Z := BIT 10.
Definition AX_TXD_RTT_EN : Z := BIT 9.
Definition AX_TXD_SIFS_TX : Z := BIT 6.
Definition AX_TXD_SND_PKT_SEL : Z * Z := (3, 0x7).
Definition AX_TXD_NDPA : Z * Z := (1, 0x3).
Definition AX_TXD_HW_RTS_EN : Z := BIT 31.
Definition AX_TXD_CCA_RTS : Z * Z := (29, 0x3).
Definition AX_TXD_CTS2SELF : Z := BIT 28.
Definition AX_TXD_RTS_EN : Z := BIT 27.
Definition AX_TXD_SW_DEFINE : Z * Z := (0, 0xf).

Definition SET_WORD (v : Z) (f : Z * Z) : Z := Z.shiftl (Z.land v f.2) f.1.
Definition GET_FIELD (w : Z) (f : Z * Z) : Z := Z.land (Z.shiftr w f.1) f.2.
Definition SET_CLR_WORD (w v : Z) (f : Z * Z) : Z :=
  Z.lor (Z.land w (u32 (Z.lnot (Z.shiftl f.2 f.1)))) (Z.shiftl (Z.land v f.2) f.1).

(** [x ? ... : 0]. *)
Definition tr (x : Z) : bool := negb (x =? 0).

(** What a descriptor word is or'ed from: [SET_WORD(v, f)] or [c ? b : 0]. *)
Inductive item := W (v : Z) (f : Z * Z) | B (c : bool) (b : Z).
Definition den (i : item) : Z :=
  match i with W v f => SET_WORD v f | B c b => if c then b else 0 end.
Definition or_all (l : list item) : Z := foldr (λ i n, Z.lor (den i) n) 0 l.

Definition put_le32 (x : Z) : list Z :=
  [Z.land x 0xff; Z.land (Z.shiftr x 8) 0xff; Z.land (Z.shiftr x 16) 0xff; Z.land (Z.shiftr x 24) 0xff].
Definition le32_at (b : list Z) (k : nat) : Z :=
  b !!! k + 256 * b !!! S k + 65536 * b !!! S (S k) + 16777216 * b !!! S (S (S k)).

(** ** Building *)

Inductive mac_ax_intf := MAC_AX_INTF_USB | MAC_AX_INTF_SDIO | MAC_AX_INTF_PCIE | MAC_AX_INTF_INVALID.

(** [mac_ax_adapter]: the interface, whether the memory is in store-and-forward mode
    ([qta_mode]) and [wd_checksum_en]. *)
Record adapter := mk_adapter { intf : mac_ax_intf; stf : bool; wd_checksum_en : Z }.

Definition mac_txdesc_len (m : t_meta_data) : Z :=
  if negb (m_type m =? RTW_PHL_PKT_TYPE_H2C) && negb (m_type m =? RTW_PHL_PKT_TYPE_FWDL) && negb (m_wdinfo_en m =? 0)
  then WD_BODY_LEN + WD_INFO_LEN else WD_BODY_LEN.

Definition qsel_l : list Z := [0; 1; 1; 0; 2; 2; 3; 3].
Definition tid_ind : list Z := [0; 0; 1; 1; 0; 1; 0; 1].

(** The exclusive or of all 16-bit words. *)
Fixpoint xor16 (l : list Z) : Z :=
  match l with x :: y :: l => Z.lxor (x + 256 * y) (xor16 l) | _ => 0 end.

Definition mac_wd_checksum (m : t_meta_data) (wd : list Z) : list Z :=
  let dw4 := le32_at wd 16 in
  let wd0 := take 16 wd ++ put_le32 (SET_CLR_WORD dw4 0 AX_TXD_TXDESC_CHECKSUM) ++ drop 20 wd in
  let chksum := xor16 (take (4 * Z.to_nat (Z.shiftr (mac_txdesc_len m) 2)) wd0) in
  take 16 wd ++ put_le32 (SET_CLR_WORD dw4 chksum AX_TXD_TXDESC_CHECKSUM) ++ drop 20 wd.

(** The end of both: the second part and the checksum. *)
Definition finish (ad : adapter) (m : t_meta_data) (wdb wdi : list Z) : list Z :=
  let wd := wdb ++ (if tr (m_wdinfo_en m) then wdi else []) in
  if tr (wd_checksum_en ad) then mac_wd_checksum m wd else wd.

(** The first bits of [dword0]; [None] for an unknown interface. *)
Definition intf_bits (ad : adapter) (m : t_meta_data) : option (list item) :=
  match intf ad with
  | MAC_AX_INTF_SDIO => Some [B true AX_TXD_STF_MODE]
  | MAC_AX_INTF_USB => Some [B true AX_TXD_STF_MODE; B (tr (m_usb_pkt_ofst m)) AX_TXD_PKT_OFFSET]
  | MAC_AX_INTF_PCIE => Some [B (tr (m_wd_page_size m)) AX_TXD_WD_PAGE; B (stf ad) AX_TXD_STF_MODE]
  | MAC_AX_INTF_INVALID => None
  end.

Definition txdes_proc_h2c_fwdl (m : t_meta_data) (len : Z) : Z + list Z :=
  if negb (len =? mac_txdesc_len m) then inl MACBUFSZ
  else if (AX_TXD_TXPKTSIZE.2 <? m_pktlen m) || (m_pktlen m =? 0) then inl MACFUNCINPUT
  else
    inr (concat (put_le32 <$>
      [or_all [W MAC_AX_DMA_H2C AX_TXD_CH_DMA; B (m_type m =? RTW_PHL_PKT_TYPE_FWDL) AX_TXD_FWDL_EN]; 0;
       or_all [W (m_pktlen m) AX_TXD_TXPKTSIZE]; 0; 0; 0])).

(** [ch]. *)
Definition chan_of (ad : adapter) (m : t_meta_data) : Z :=
  if (m_dma_ch m =? MAC_AX_DATA_HIQ) && (match intf ad with MAC_AX_INTF_USB => true | _ => false end)
  then if tr (m_band m) then MAC_AX_DMA_B1MG else MAC_AX_DMA_B0MG
  else if m_dma_ch m =? MAC_AX_DATA_HIQ then if tr (m_band m) then MAC_AX_DMA_B1HI else MAC_AX_DMA_B0HI
  else m_dma_ch m.

(** [qsel]; the table is read before the traffic identifier is checked. *)
Definition qsel_of (m : t_meta_data) : res Z :=
  if m_dma_ch m =? MAC_AX_DATA_HIQ then Ret (if tr (m_band m) then MAC_AX_HI1_SEL else MAC_AX_HI0_SEL)
  else x ← byte_at qsel_l (m_tid m); Ret (u8 (Z.lor (Z.shiftl (m_wmm m) 2) x)).

Definition clamp_tid (m : t_meta_data) : Z := if TID_MAX_NUM <=? m_tid m then TID_MAX_NUM - 1 else m_tid m.

(** [dword0] to [dword5] of the second part; [ack_ch] and [a_ctrl] are what a data frame has
    besides (there the code has [AX_TXD_BMC] twice). *)
Definition wd_info (m : t_meta_data) (ack_ch a_ctrl : list item) : list Z :=
  concat (put_le32 <$>
    [or_all ([B (tr (m_userate_sel m)) AX_TXD_USERATE_SEL; W (m_f_rate m) AX_TXD_DATARATE;
              W (m_f_bw m) AX_TXD_DATA_BW; B (tr (m_data_bw_er m)) AX_TXD_DATA_BW_ER; W (m_f_gi_ltf m) AX_TXD_GI_LTF;
              B (tr (m_f_er m)) AX_TXD_DATA_ER; B (tr (m_f_dcm m)) AX_TXD_DATA_DCM; B (tr (m_f_stbc m)) AX_TXD_DATA_STBC;
              B (tr (m_f_ldpc m)) AX_TXD_DATA_LDPC; B (tr (m_dis_data_rate_fb m)) AX_TXD_DISDATAFB;
              B (tr (m_dis_rts_rate_fb m)) AX_TXD_DISRTSFB; W (m_hal_port m) AX_TXD_MULTIPORT_ID;
              W (m_mbssid m) AX_TXD_MBSSID] ++ ack_ch);
     or_all ([W (m_max_agg_num m) AX_TXD_MAX_AGG_NUM; W (m_data_tx_cnt_lmt m) AX_TXD_DATA_TXCNT_LMT;
              B (tr (m_data_tx_cnt_lmt_en m)) AX_TXD_DATA_TXCNT_LMT_SEL; B (tr (m_bc m) || tr (m_mc m)) AX_TXD_BMC;
              B (tr (m_nav_use_hdr m)) AX_TXD_NAVUSEHDR] ++ a_ctrl);
     or_all [W (m_life_time_sel m) AX_TXD_LIFETIME_SEL; W (m_sec_type m) AX_TXD_SECTYPE;
             B (tr (m_sec_hw_enc m)) AX_TXD_SEC_HW_ENC; W (m_sec_cam_idx m) AX_TXD_SEC_CAM_IDX;
             W (m_ampdu_density m) AX_TXD_AMPDU_DENSITY];
     or_all [B (tr (m_sifs_tx m)) AX_TXD_SIFS_TX; W (m_ndpa m) AX_TXD_NDPA; W (m_snd_pkt_sel m) AX_TXD_SND_PKT_SEL;
             B (tr (m_rtt_en m)) AX_TXD_RTT_EN; B (tr (m_spe_rpt m)) AX_TXD_SPE_RPT];
     or_all [B (tr (m_rts_en m)) AX_TXD_RTS_EN; B (tr (m_cts2self m)) AX_TXD_CTS2SELF;
             W (m_rts_cca_mode m) AX_TXD_CCA_RTS; B (tr (m_hw_rts_en m)) AX_TXD_HW_RTS_EN;
             W (m_sw_define m) AX_TXD_SW_DEFINE]; 0]).

Definition txdes_proc_data (ad : adapter) (m : t_meta_data) (len : Z) : res (Z + list Z) :=
  if negb (len =? mac_txdesc_len m) then Ret (inl MACBUFSZ)
  else if MAC_AX_DATA_HIQ <? m_dma_ch m then Ret (inl MACTXCHDMA)
  else if (AX_TXD_TXPKTSIZE.2 <? m_pktlen m) || (m_pktlen m =? 0) then Ret (inl MACFUNCINPUT)
  else match intf_bits ad m with
  | None => Ret (inl MACINTF)
  | Some b0 =>
      let dw0 := or_all (b0 ++
        [W (m_hw_seq_mode m) AX_TXD_EN_HWSEQ_MODE; W (m_hw_ssn_sel m) AX_TXD_HW_SSN_SEL;
         W (m_hdr_len m) AX_TXD_HDR_LLC_LEN; W (chan_of ad m) AX_TXD_CH_DMA; B (tr (m_hw_amsdu m)) AX_TXD_HWAMSDU;
         B (tr (m_smh_en m)) AX_TXD_SMH_EN; B (tr (m_hw_aes_iv m)) AX_TXD_HW_AES_IV;
         B (tr (m_wdinfo_en m)) AX_TXD_WDINFO_EN; W (m_wp_offset m) AX_TXD_WP_OFFSET]) in
      let dw1 := or_all [W (m_shcut_camid m) AX_TXD_SHCUT_CAMID] in
      qsel ← qsel_of m;
      ind ← byte_at tid_ind (clamp_tid m);
      let dw2 := or_all [W (m_pktlen m) AX_TXD_TXPKTSIZE; W qsel AX_TXD_QSEL; B (tr ind) AX_TXD_TID_IND;
                         W (m_macid m) AX_TXD_MACID] in
      let dw3 := or_all [W (m_sw_seq m) AX_TXD_WIFI_SEQ; B (tr (m_ampdu_en m)) AX_TXD_AGG_EN;
                         B (tr (m_bk m) || tr (m_ack_ch_info m)) AX_TXD_BK] in
      Ret (inr (finish ad m (concat (put_le32 <$> [dw0; dw1; dw2; dw3; 0; 0]))
        (wd_info m [B (tr (m_ack_ch_info m)) AX_TXD_ACK_CH_INFO]
           [B (tr (m_a_ctrl_uph m)) AX_TXD_A_CTRL_UPH; B (tr (m_a_ctrl_bsr m)) AX_TXD_A_CTRL_BSR;
            B (tr (m_a_ctrl_cas m)) AX_TXD_A_CTRL_CAS; W (m_data_rty_lowest_rate m) AX_TXD_DATA_RTY_LOWEST_RATE])))
  end.

Definition txdes_proc_mgnt (ad : adapter) (m : t_meta_data) (len : Z) : Z + list Z :=
  if negb (len =? mac_txdesc_len m) then inl MACBUFSZ
  else if (AX_TXD_TXPKTSIZE.2 <? m_pktlen m) || (m_pktlen m =? 0) then inl MACFUNCINPUT
  else match intf_bits ad m with
  | None => inl MACINTF
  | Some b0 =>
      let dw0 := or_all (b0 ++
        [W (m_hw_seq_mode m) AX_TXD_EN_HWSEQ_MODE; W (m_hw_ssn_sel m) AX_TXD_HW_SSN_SEL;
         W (m_hdr_len m) AX_TXD_HDR_LLC_LEN; B (tr (m_wdinfo_en m)) AX_TXD_WDINFO_EN;
         W (if tr (m_band m) then MAC_AX_DMA_B1MG else MAC_AX_DMA_B0MG) AX_TXD_CH_DMA]) in
      let dw2 := or_all [W (m_pktlen m) AX_TXD_TXPKTSIZE;
                         W (if tr (m_band m) then MAC_AX_MG1_SEL else MAC_AX_MG0_SEL) AX_TXD_QSEL;
                         W (m_macid m) AX_TXD_MACID] in
      let dw3 := or_all [W (m_sw_seq m) AX_TXD_WIFI_SEQ; B (tr (m_bk m)) AX_TXD_BK] in
      inr (finish ad m (concat (put_le32 <$> [dw0; 0; dw2; dw3; 0; 0])) (wd_info m [] []))
  end.

(** The error, or the bytes. *)
Definition mac_build_txdesc (ad : adapter) (m : t_meta_data) (len : Z) : res (Z + list Z) :=
  if (m_type m =? RTW_PHL_PKT_TYPE_H2C) || (m_type m =? RTW_PHL_PKT_TYPE_FWDL) then Ret (txdes_proc_h2c_fwdl m len)
  else if m_type m =? RTW_PHL_PKT_TYPE_DATA then txdes_proc_data ad m len
  else if m_type m =? RTW_PHL_PKT_TYPE_MGNT then Ret (txdes_proc_mgnt ad m len)
  else Ret (inl MACNOITEM).

(** The length with it. *)
Definition rtw_hal_mac_ax_fill_txdesc (ad : adapter) (m : t_meta_data) : res (Z + list Z) :=
  mac_build_txdesc ad m (mac_txdesc_len m).

(** How many frames a transfer holds, in its first descriptor. *)
Definition usb_tx_agg_cfg_8852a (wd : list Z) (agg_num : Z) : res (list Z) :=
  if zlen wd <? 8 then Oob
  else Ret (take 4 wd ++ put_le32 (SET_CLR_WORD (le32_at wd 4) agg_num AX_TXD_DMA_TXAGG_NUM) ++ drop 8 wd).

(** ** Reading *)

Definition get_flag (w b : Z) : Z := Z.b2z (negb (Z.land w b =? 0)).

Definition parse_wd (wd : list Z) : t_meta_data :=
  {|
    m_type := 0; m_band := 0; m_wmm := 0; m_tid := 0; m_bc := get_flag (le32_at wd 28) AX_TXD_BMC; m_mc := 0;
    m_pktlen := GET_FIELD (le32_at wd 8) AX_TXD_TXPKTSIZE;
    m_hw_seq_mode := GET_FIELD (le32_at wd 0) AX_TXD_EN_HWSEQ_MODE;
    m_hw_ssn_sel := GET_FIELD (le32_at wd 0) AX_TXD_HW_SSN_SEL;
    m_smh_en := get_flag (le32_at wd 0) AX_TXD_SMH_EN; m_hw_amsdu := get_flag (le32_at wd 0) AX_TXD_HWAMSDU;
    m_hw_aes_iv := get_flag (le32_at wd 0) AX_TXD_HW_AES_IV; m_wd_page_size := 0;
    m_hdr_len := GET_FIELD (le32_at wd 0) AX_TXD_HDR_LLC_LEN;
    m_dma_ch := GET_FIELD (le32_at wd 0) AX_TXD_CH_DMA;
    m_usb_pkt_ofst := get_flag (le32_at wd 0) AX_TXD_PKT_OFFSET;
    m_wdinfo_en := get_flag (le32_at wd 0) AX_TXD_WDINFO_EN;
    m_wp_offset := GET_FIELD (le32_at wd 0) AX_TXD_WP_OFFSET;
    m_shcut_camid := GET_FIELD (le32_at wd 4) AX_TXD_SHCUT_CAMID;
    m_macid := GET_FIELD (le32_at wd 8) AX_TXD_MACID; m_sw_seq := GET_FIELD (le32_at wd 12) AX_TXD_WIFI_SEQ;
    m_ampdu_en := get_flag (le32_at wd 12) AX_TXD_AGG_EN; m_bk := get_flag (le32_at wd 12) AX_TXD_BK;
    m_mbssid := GET_FIELD (le32_at wd 24) AX_TXD_MBSSID;
    m_hal_port := GET_FIELD (le32_at wd 24) AX_TXD_MULTIPORT_ID;
    m_data_bw_er := get_flag (le32_at wd 24) AX_TXD_DATA_BW_ER;
    m_dis_rts_rate_fb := get_flag (le32_at wd 24) AX_TXD_DISRTSFB;
    m_dis_data_rate_fb := get_flag (le32_at wd 24) AX_TXD_DISDATAFB;
    m_f_ldpc := get_flag (le32_at wd 24) AX_TXD_DATA_LDPC;
    m_f_stbc := get_flag (le32_at wd 24) AX_TXD_DATA_STBC;
    m_f_dcm := get_flag (le32_at wd 24) AX_TXD_DATA_DCM; m_f_er := get_flag (le32_at wd 24) AX_TXD_DATA_ER;
    m_f_rate := GET_FIELD (le32_at wd 24) AX_TXD_DATARATE;
    m_f_gi_ltf := GET_FIELD (le32_at wd 24) AX_TXD_GI_LTF;
    m_f_bw := GET_FIELD (le32_at wd 24) AX_TXD_DATA_BW;
    m_userate_sel := get_flag (le32_at wd 24) AX_TXD_USERATE_SEL;
    m_ack_ch_info := get_flag (le32_at wd 24) AX_TXD_ACK_CH_INFO;
    m_max_agg_num := GET_FIELD (le32_at wd 28) AX_TXD_MAX_AGG_NUM;
    m_nav_use_hdr := get_flag (le32_at wd 28) AX_TXD_NAVUSEHDR;
    m_a_ctrl_uph := get_flag (le32_at wd 28) AX_TXD_A_CTRL_UPH;
    m_a_ctrl_bsr := get_flag (le32_at wd 28) AX_TXD_A_CTRL_BSR;
    m_a_ctrl_cas := get_flag (le32_at wd 28) AX_TXD_A_CTRL_CAS;
    m_data_rty_lowest_rate := GET_FIELD (le32_at wd 28) AX_TXD_DATA_RTY_LOWEST_RATE;
    m_data_tx_cnt_lmt := GET_FIELD (le32_at wd 28) AX_TXD_DATA_TXCNT_LMT;
    m_data_tx_cnt_lmt_en := get_flag (le32_at wd 28) AX_TXD_DATA_TXCNT_LMT_SEL;
    m_sec_cam_idx := GET_FIELD (le32_at wd 32) AX_TXD_SEC_CAM_IDX;
    m_sec_hw_enc := get_flag (le32_at wd 32) AX_TXD_SEC_HW_ENC;
    m_sec_type := GET_FIELD (le32_at wd 32) AX_TXD_SECTYPE;
    m_life_time_sel := GET_FIELD (le32_at wd 32) AX_TXD_LIFETIME_SEL;
    m_ampdu_density := GET_FIELD (le32_at wd 32) AX_TXD_AMPDU_DENSITY;
    m_ndpa := GET_FIELD (le32_at wd 36) AX_TXD_NDPA;
    m_snd_pkt_sel := GET_FIELD (le32_at wd 36) AX_TXD_SND_PKT_SEL;
    m_sifs_tx := get_flag (le32_at wd 36) AX_TXD_SIFS_TX; m_rtt_en := get_flag (le32_at wd 36) AX_TXD_RTT_EN;
    m_spe_rpt := get_flag (le32_at wd 36) AX_TXD_SPE_RPT;
    m_sw_define := GET_FIELD (le32_at wd 40) AX_TXD_SW_DEFINE;
    m_rts_en := get_flag (le32_at wd 40) AX_TXD_RTS_EN;
    m_cts2self := get_flag (le32_at wd 40) AX_TXD_CTS2SELF;
    m_rts_cca_mode := GET_FIELD (le32_at wd 40) AX_TXD_CCA_RTS;
    m_hw_rts_en := get_flag (le32_at wd 40) AX_TXD_HW_RTS_EN
  |}.

(** The traffic identifier that [qsel] and [AX_TXD_TID_IND] stand for. *)
Definition tid_of (qsel ind : Z) : Z :=
  match Z.land qsel 3, ind with
  | 0, 0 => 0 | 0, _ => 3 | 1, 0 => 1 | 1, _ => 2 | 2, 0 => 4 | 2, _ => 5 | _, 0 => 6 | _, _ => 7
  end.

(** What of the meta data of a data frame is in its descriptor. *)
Definition data_view (ad : adapter) (m : t_meta_data) : t_meta_data :=
  {|
    m_type := 0; m_band := 0; m_wmm := 0; m_tid := 0; m_bc := (Z.b2z (tr (m_bc m) || tr (m_mc m)));
    m_mc := 0; m_pktlen := Z.land (m_pktlen m) AX_TXD_TXPKTSIZE.2;
    m_hw_seq_mode := Z.land (m_hw_seq_mode m) AX_TXD_EN_HWSEQ_MODE.2;
    m_hw_ssn_sel := Z.land (m_hw_ssn_sel m) AX_TXD_HW_SSN_SEL.2; m_smh_en := Z.b2z (tr (m_smh_en m));
    m_hw_amsdu := Z.b2z (tr (m_hw_amsdu m)); m_hw_aes_iv := Z.b2z (tr (m_hw_aes_iv m));
    m_wd_page_size := 0; m_hdr_len := Z.land (m_hdr_len m) AX_TXD_HDR_LLC_LEN.2;
    m_dma_ch := Z.land (chan_of ad m) 15; m_usb_pkt_ofst := Z.b2z (tr (m_usb_pkt_ofst m));
    m_wdinfo_en := Z.b2z (tr (m_wdinfo_en m)); m_wp_offset := Z.land (m_wp_offset m) AX_TXD_WP_OFFSET.2;
    m_shcut_camid := Z.land (m_shcut_camid m) AX_TXD_SHCUT_CAMID.2;
    m_macid := Z.land (m_macid m) AX_TXD_MACID.2; m_sw_seq := Z.land (m_sw_seq m) AX_TXD_WIFI_SEQ.2;
    m_ampdu_en := Z.b2z (tr (m_ampdu_en m)); m_bk := (Z.b2z (tr (m_bk m) || tr (m_ack_ch_info m)));
    m_mbssid := Z.land (m_mbssid m) AX_TXD_MBSSID.2;
    m_hal_port := Z.land (m_hal_port m) AX_TXD_MULTIPORT_ID.2;
    m_data_bw_er := Z.b2z (tr (m_data_bw_er m)); m_dis_rts_rate_fb := Z.b2z (tr (m_dis_rts_rate_fb m));
    m_dis_data_rate_fb := Z.b2z (tr (m_dis_data_rate_fb m)); m_f_ldpc := Z.b2z (tr (m_f_ldpc m));
    m_f_stbc := Z.b2z (tr (m_f_stbc m)); m_f_dcm := Z.b2z (tr (m_f_dcm m));
    m_f_er := Z.b2z (tr (m_f_er m)); m_f_rate := Z.land (m_f_rate m) AX_TXD_DATARATE.2;
    m_f_gi_ltf := Z.land (m_f_gi_ltf m) AX_TXD_GI_LTF.2; m_f_bw := Z.land (m_f_bw m) AX_TXD_DATA_BW.2;
    m_userate_sel := Z.b2z (tr (m_userate_sel m)); m_ack_ch_info := Z.b2z (tr (m_ack_ch_info m));
    m_max_agg_num := Z.land (m_max_agg_num m) AX_TXD_MAX_AGG_NUM.2;
    m_nav_use_hdr := Z.b2z (tr (m_nav_use_hdr m)); m_a_ctrl_uph := Z.b2z (tr (m_a_ctrl_uph m));
    m_a_ctrl_bsr := Z.b2z (tr (m_a_ctrl_bsr m)); m_a_ctrl_cas := Z.b2z (tr (m_a_ctrl_cas m));
    m_data_rty_lowest_rate := Z.land (m_data_rty_lowest_rate m) AX_TXD_DATA_RTY_LOWEST_RATE.2;
    m_data_tx_cnt_lmt := Z.land (m_data_tx_cnt_lmt m) AX_TXD_DATA_TXCNT_LMT.2;
    m_data_tx_cnt_lmt_en := Z.b2z (tr (m_data_tx_cnt_lmt_en m));
    m_sec_cam_idx := Z.land (m_sec_cam_idx m) AX_TXD_SEC_CAM_IDX.2;
    m_sec_hw_enc := Z.b2z (tr (m_sec_hw_enc m)); m_sec_type := Z.land (m_sec_type m) AX_TXD_SECTYPE.2;
    m_life_time_sel := Z.land (m_life_time_sel m) AX_TXD_LIFETIME_SEL.2;
    m_ampdu_density := Z.land (m_ampdu_density m) AX_TXD_AMPDU_DENSITY.2;
    m_ndpa := Z.land (m_ndpa m) AX_TXD_NDPA.2;
    m_snd_pkt_sel := Z.land (m_snd_pkt_sel m) AX_TXD_SND_PKT_SEL.2;
    m_sifs_tx := Z.b2z (tr (m_sifs_tx m)); m_rtt_en := Z.b2z (tr (m_rtt_en m));
    m_spe_rpt := Z.b2z (tr (m_spe_rpt m)); m_sw_define := Z.land (m_sw_define m) AX_TXD_SW_DEFINE.2;
    m_rts_en := Z.b2z (tr (m_rts_en m)); m_cts2self := Z.b2z (tr (m_cts2self m));
    m_rts_cca_mode := Z.land (m_rts_cca_mode m) AX_TXD_CCA_RTS.2;
    m_hw_rts_en := Z.b2z (tr (m_hw_rts_en m))
  |}.

(** The same for a management frame. *)
Definition mgnt_view (m : t_meta_data) : t_meta_data :=
  {|
    m_type := 0; m_band := 0; m_wmm := 0; m_tid := 0; m_bc := (Z.b2z (tr (m_bc m) || tr (m_mc m)));
    m_mc := 0; m_pktlen := Z.land (m_pktlen m) AX_TXD_TXPKTSIZE.2;
    m_hw_seq_mode := Z.land (m_hw_seq_mode m) AX_TXD_EN_HWSEQ_MODE.2;
    m_hw_ssn_sel := Z.land (m_hw_ssn_sel m) AX_TXD_HW_SSN_SEL.2; m_smh_en := 0; m_hw_amsdu := 0;
    m_hw_aes_iv := 0; m_wd_page_size := 0; m_hdr_len := Z.land (m_hdr_len m) AX_TXD_HDR_LLC_LEN.2;
    m_dma_ch := if tr (m_band m) then MAC_AX_DMA_B1MG else MAC_AX_DMA_B0MG;
    m_usb_pkt_ofst := Z.b2z (tr (m_usb_pkt_ofst m)); m_wdinfo_en := Z.b2z (tr (m_wdinfo_en m));
    m_wp_offset := 0; m_shcut_camid := 0; m_macid := Z.land (m_macid m) AX_TXD_MACID.2;
    m_sw_seq := Z.land (m_sw_seq m) AX_TXD_WIFI_SEQ.2; m_ampdu_en := 0; m_bk := Z.b2z (tr (m_bk m));
    m_mbssid := Z.land (m_mbssid m) AX_TXD_MBSSID.2;
    m_hal_port := Z.land (m_hal_port m) AX_TXD_MULTIPORT_ID.2;
    m_data_bw_er := Z.b2z (tr (m_data_bw_er m)); m_dis_rts_rate_fb := Z.b2z (tr (m_dis_rts_rate_fb m));
    m_dis_data_rate_fb := Z.b2z (tr (m_dis_data_rate_fb m)); m_f_ldpc := Z.b2z (tr (m_f_ldpc m));
    m_f_stbc := Z.b2z (tr (m_f_stbc m)); m_f_dcm := Z.b2z (tr (m_f_dcm m));
    m_f_er := Z.b2z (tr (m_f_er m)); m_f_rate := Z.land (m_f_rate m) AX_TXD_DATARATE.2;
    m_f_gi_ltf := Z.land (m_f_gi_ltf m) AX_TXD_GI_LTF.2; m_f_bw := Z.land (m_f_bw m) AX_TXD_DATA_BW.2;
    m_userate_sel := Z.b2z (tr (m_userate_sel m)); m_ack_ch_info := 0;
    m_max_agg_num := Z.land (m_max_agg_num m) AX_TXD_MAX_AGG_NUM.2;
    m_nav_use_hdr := Z.b2z (tr (m_nav_use_hdr m)); m_a_ctrl_uph := 0; m_a_ctrl_bsr := 0; m_a_ctrl_cas := 0;
    m_data_rty_lowest_rate := 0; m_data_tx_cnt_lmt := Z.land (m_data_tx_cnt_lmt m) AX_TXD_DATA_TXCNT_LMT.2;
    m_data_tx_cnt_lmt_en := Z.b2z (tr (m_data_tx_cnt_lmt_en m));
    m_sec_cam_idx := Z.land (m_sec_cam_idx m) AX_TXD_SEC_CAM_IDX.2;
    m_sec_hw_enc := Z.b2z (tr (m_sec_hw_enc m)); m_sec_type := Z.land (m_sec_type m) AX_TXD_SECTYPE.2;
    m_life_time_sel := Z.land (m_life_time_sel m) AX_TXD_LIFETIME_SEL.2;
    m_ampdu_density := Z.land (m_ampdu_density m) AX_TXD_AMPDU_DENSITY.2;
    m_ndpa := Z.land (m_ndpa m) AX_TXD_NDPA.2;
    m_snd_pkt_sel := Z.land (m_snd_pkt_sel m) AX_TXD_SND_PKT_SEL.2;
    m_sifs_tx := Z.b2z (tr (m_sifs_tx m)); m_rtt_en := Z.b2z (tr (m_rtt_en m));
    m_spe_rpt := Z.b2z (tr (m_spe_rpt m)); m_sw_define := Z.land (m_sw_define m) AX_TXD_SW_DEFINE.2;
    m_rts_en := Z.b2z (tr (m_rts_en m)); m_cts2self := Z.b2z (tr (m_cts2self m));
    m_rts_cca_mode := Z.land (m_rts_cca_mode m) AX_TXD_CCA_RTS.2;
    m_hw_rts_en := Z.b2z (tr (m_hw_rts_en m))
  |}.

(** ** Fields of a word *)

Definition fmask (i : item) : Z := match i with W _ f => Z.shiftl f.2 f.1 | B _ b => b end.

Fixpoint disjoint_fields (l : list item) : bool :=
  match l with
  | [] => true
  | i :: l => forallb (λ j, Z.land (fmask i) (fmask j) =? 0) l && disjoint_fields l
  end.

(** All masks within 32 bits, no shift negative. *)
Definition fields_ok (l : list item) : bool :=
  disjoint_fields l
  && forallb (λ i, (0 <=? fmask i) && (fmask i <? 2 ^ 32) && match i with W _ f => 0 <=? f.1 | _ => true end) l.

Lemma den_mask i : Z.land (den i) (fmask i) = den i.
Proof.
  destruct i as [v [sh m]|[] b]; cbn; [unfold SET_WORD; cbn|by rewrite Z.land_diag|done].
  destruct (Z.le_gt_cases 0 sh) as [Hs|Hs].
  - apply Z.bits_inj'; intros k Hk. rewrite Z.land_spec, !Z.shiftl_spec, Z.land_spec by done.
    by rewrite <- andb_assoc, andb_diag.
  - rewrite <- (Z.opp_involutive sh), !Z.shiftl_opp_r. apply Z.bits_inj'; intros k Hk.
    rewrite Z.land_spec, !Z.shiftr_spec, Z.land_spec by done. by rewrite <- andb_assoc, andb_diag.
Qed.

Lemma den_other i j : Z.land (fmask i) (fmask j) = 0 -> Z.land (den i) (fmask j) = 0.
Proof. intros E. by rewrite <- den_mask, <- Z.land_assoc, E, Z.land_0_r. Qed.

Lemma or_all_cons i l : or_all (i :: l) = Z.lor (den i) (or_all l).
Proof. done. Qed.

Lemma or_all_other l i :
  forallb (λ j, Z.land (fmask i) (fmask j) =? 0) l = true -> Z.land (or_all l) (fmask i) = 0.
Proof.
  induction l as [|j l IH]; [done|]. cbn [forallb]. intros [E%Z.eqb_eq E']%andb_prop.
  rewrite or_all_cons, Z.land_lor_distr_l, IH by done. by rewrite den_other by (by rewrite Z.land_comm).
Qed.

Lemma or_all_get l i : disjoint_fields l = true -> i ∈ l -> Z.land (or_all l) (fmask i) = den i.
Proof.
  induction l as [|j l IH]; [by intros _ ?%elem_of_nil|]. cbn [disjoint_fields].
  intros [E D]%andb_prop Hi. rewrite or_all_cons, Z.land_lor_distr_l. apply elem_of_cons in Hi as [<-|Hi].
  - rewrite den_mask, or_all_other by done. apply Z.lor_0_r.
  - rewrite IH by done. apply List.forallb_forall with (x := i) in E; [|by apply list_elem_of_In].
    apply Z.eqb_eq in E. by rewrite den_other.
Qed.

Lemma land_range x m : 0 <= m -> 0 <= Z.land x m <= m.
Proof.
  intros Hm. split; [apply Z.land_nonneg; lia|].
  assert (E : Z.land x m + Z.ldiff m x = m).
  { rewrite Z.add_nocarry_lxor, Z.lxor_lor.
    - apply Z.bits_inj'; intros k Hk. rewrite Z.lor_spec, Z.land_spec, Z.ldiff_spec.
      by destruct (Z.testbit x k), (Z.testbit m k).
    - apply Z.bits_inj'; intros k Hk. rewrite Z.bits_0, !Z.land_spec, Z.ldiff_spec.
      by destruct (Z.testbit x k), (Z.testbit m k).
    - apply Z.bits_inj'; intros k Hk. rewrite Z.bits_0, !Z.land_spec, Z.ldiff_spec.
      by destruct (Z.testbit x k), (Z.testbit m k). }
  assert (0 <= Z.ldiff m x) by (apply Z.ldiff_nonneg; lia). lia.
Qed.

Lemma or_all_u32 l : fields_ok l = true -> 0 <= or_all l < 2 ^ 32.
Proof.
  unfold fields_ok. intros [_ H]%andb_prop. induction l as [|i l IH]; [done|].
  cbn [forallb] in H. apply andb_prop in H as [Hi H]. apply andb_prop in Hi as [Hi _].
  apply andb_prop in Hi as [H0 H1]. apply Z.leb_le in H0. apply Z.ltb_lt in H1. specialize (IH H).
  assert (R : 0 <= den i < 2 ^ 32) by (rewrite <- den_mask; pose proof (land_range (den i) (fmask i) H0); lia).
  rewrite or_all_cons. split; [apply Z.lor_nonneg; lia|].
  destruct (Z.eq_dec (Z.lor (den i) (or_all l)) 0) as [->|Hn]; [lia|].
  apply Z.log2_lt_pow2; [pose proof (Z.lor_nonneg (den i) (or_all l)); lia|].
  rewrite Z.log2_lor by lia. apply Z.max_lub_lt.
  - destruct (Z.eq_dec (den i) 0) as [->|]; [done|]. apply Z.log2_lt_pow2; lia.
  - destruct (Z.eq_dec (or_all l) 0) as [->|]; [done|]. apply Z.log2_lt_pow2; lia.
Qed.

Lemma get_word l v f : fields_ok l = true -> W v f ∈ l -> GET_FIELD (or_all l) f = Z.land v f.2.
Proof.
  unfold fields_ok. intros [D H]%andb_prop Hi. pose proof (or_all_get l (W v f) D Hi) as G.
  assert (Hs : 0 <= f.1).
  { apply List.forallb_forall with (x := W v f) in H; [|by apply list_elem_of_In].
    apply andb_prop in H as [_ H]. by apply Z.leb_le in H. }
  unfold GET_FIELD. cbn in G. unfold SET_WORD in G.
  apply (f_equal (λ x, Z.shiftr x f.1)) in G. rewrite Z.shiftr_land, !Z.shiftr_shiftl_l, Z.sub_diag, !Z.shiftl_0_r in G by lia.
  done.
Qed.

Lemma get_flag_word l c b : fields_ok l = true -> B c b ∈ l -> b <> 0 -> get_flag (or_all l) b = Z.b2z c.
Proof.
  unfold fields_ok. intros [D _]%andb_prop Hi Hb. pose proof (or_all_get l (B c b) D Hi) as G. cbn in G.
  unfold get_flag. rewrite G. destruct c; [|done]. by destruct (Z.eqb_spec b 0).
Qed.

Lemma get_absent l f : forallb (λ i, Z.land (Z.shiftl f.2 f.1) (fmask i) =? 0) l = true -> 0 <= f.1 ->
  GET_FIELD (or_all l) f = 0.
Proof.
  intros H Hs. pose proof (or_all_other l (W 0 f) H) as G. cbn in G. unfold GET_FIELD.
  apply (f_equal (λ x, Z.shiftr x f.1)) in G.
  by rewrite Z.shiftr_land, Z.shiftr_shiftl_l, Z.sub_diag, Z.shiftl_0_r, Z.shiftr_0_l in G by lia.
Qed.

Lemma flag_absent l b : forallb (λ i, Z.land b (fmask i) =? 0) l = true -> get_flag (or_all l) b = 0.
Proof. intros H. pose proof (or_all_other l (B true b) H) as G. cbn [fmask] in G. unfold get_flag. by rewrite G. Qed.

(** ** Words and bytes *)

Lemma le32_put x s : 0 <= x < 2 ^ 32 -> le32_at (put_le32 x ++ s) 0 = x.
Proof.
  intros Hx. unfold le32_at, put_le32. cbn [app lookup_total list_lookup_total].
  rewrite !land_ff, !Z.shiftr_div_pow2 by lia. change (2 ^ 8) with 256. change (2 ^ 16) with 65536.
  change (2 ^ 24) with 16777216. change (2 ^ 32) with 4294967296 in Hx. dlia.
Qed.

Lemma le32_drop n b k : le32_at b (n + k) = le32_at (drop n b) k.
Proof. unfold le32_at. by rewrite !lookup_total_drop, !Nat.add_succ_r. Qed.

Lemma le32_concat ws k x :
  ws !! k = Some x -> 0 <= x < 2 ^ 32 -> le32_at (concat (put_le32 <$> ws)) (4 * k) = x.
Proof.
  revert k; induction ws as [|y ws IH]; intros [|k] E Hx; [done..| |]; cbn in E |- *.
  - injection E as ->. by apply le32_put.
  - replace (S (k + S (k + S (k + S (k + 0))))) with (4 + 4 * k)%nat by lia. rewrite le32_drop. by apply IH.
Qed.

(** ** The round trip *)

(** The checksum is in the word that the fields leave alone. *)
Lemma finish_words ad m b0 b1 b2 b3 ws : tr (m_wdinfo_en m) = true ->
  exists x, finish ad m (concat (put_le32 <$> [b0; b1; b2; b3; 0; 0])) (concat (put_le32 <$> ws)) =
    concat (put_le32 <$> ([b0; b1; b2; b3; x; 0] ++ ws)).
Proof.
  intros Hw. unfold finish. rewrite Hw. destruct (tr (wd_checksum_en ad)); eexists; rewrite fmap_app, concat_app; reflexivity.
Qed.

Ltac in_list := repeat first [apply list_elem_of_here | apply list_elem_of_further].

Ltac field := lazymatch goal with
  | |- GET_FIELD (or_all ?l) ?f = 0 => apply get_absent; [vm_compute; reflexivity|vm_compute; discriminate]
  | |- get_flag (or_all ?l) ?b = 0 => apply flag_absent; vm_compute; reflexivity
  | |- GET_FIELD (or_all ?l) ?f = Z.land ?v _ => apply (get_word l v f); [vm_compute; reflexivity|in_list]
  | |- GET_FIELD (or_all ?l) ?f = _ => etransitivity; [eapply (get_word l _ f); [vm_compute; reflexivity|in_list]|reflexivity]
  | |- get_flag (or_all ?l) ?b = Z.b2z ?c => apply (get_flag_word l c b); [vm_compute; reflexivity|in_list|discriminate]
  end.

(** Reads the word [k] of the list [ws]. *)
Ltac read_words ws k :=
  let E := fresh in
  eassert (E : le32_at (concat (put_le32 <$> ws)) (4 * k) = _)
    by (apply le32_concat; [reflexivity|first [apply or_all_u32; vm_compute; reflexivity|lia]]);
  cbn [Nat.mul Nat.add] in E; rewrite ?E; clear E.

Lemma tid_of_table m q : 0 <= m_tid m < 8 -> m_dma_ch m <> MAC_AX_DATA_HIQ -> 0 <= m_wmm m < 16 ->
  qsel_of m = Ret q -> clamp_tid m = m_tid m /\
  exists ind, byte_at tid_ind (m_tid m) = Ret ind /\
  tid_of (Z.land q 63) (Z.b2z (tr ind)) = m_tid m /\ Z.shiftr (Z.land q 63) 2 = m_wmm m.
Proof.
  intros Ht Hd Hw Hq. unfold qsel_of in Hq. apply Z.eqb_neq in Hd as E. rewrite E in Hq.
  unfold clamp_tid. destruct (Z.leb_spec TID_MAX_NUM (m_tid m)); [unfold TID_MAX_NUM in *; lia|]. split; [done|].
  assert (Ct : m_tid m = 0 \/ m_tid m = 1 \/ m_tid m = 2 \/ m_tid m = 3 \/ m_tid m = 4 \/ m_tid m = 5
               \/ m_tid m = 6 \/ m_tid m = 7) by lia.
  assert (Cw : exists w : nat, (w < 16)%nat /\ m_wmm m = Z.of_nat w) by (exists (Z.to_nat (m_wmm m)); lia).
  destruct Cw as (w & Lw & Ew). rewrite Ew in Hq |- *.
  do 16 (destruct w as [|w]; [destruct Ct as [T|[T|[T|[T|[T|[T|[T|T]]]]]]]; rewrite T in Hq |- *;
    vm_compute in Hq; injection Hq as <-; eexists; by repeat split|]). lia.
Qed.

Lemma ret_inr (x y : list Z) : @Ret (Z + list Z) (inr x) = Ret (inr y) -> x = y.
Proof. by intros [=]. Qed.

Lemma data_words ad m wd :
  intf ad = MAC_AX_INTF_USB -> tr (m_wdinfo_en m) = true -> txdes_proc_data ad m (mac_txdesc_len m) = Ret (inr wd) ->
  parse_wd wd = data_view ad m /\
  (0 <= m_tid m < 8 -> m_dma_ch m <> MAC_AX_DATA_HIQ -> 0 <= m_wmm m < 16 ->
   let qsel := GET_FIELD (le32_at wd 8) AX_TXD_QSEL in
   tid_of qsel (get_flag (le32_at wd 8) AX_TXD_TID_IND) = m_tid m /\ Z.shiftr qsel 2 = m_wmm m) /\
  (m_dma_ch m = MAC_AX_DATA_HIQ ->
   GET_FIELD (le32_at wd 8) AX_TXD_QSEL = if tr (m_band m) then MAC_AX_HI1_SEL else MAC_AX_HI0_SEL).
Proof.
  intros Hi Hw. unfold txdes_proc_data. rewrite Z.eqb_refl. cbn [negb].
  destruct (MAC_AX_DATA_HIQ <? m_dma_ch m); [done|]. destruct (_ || _); [done|].
  unfold intf_bits. rewrite Hi. destruct (qsel_of m) as [q| |] eqn:Eq; [|done..]. cbn [mbind res_bind].
  destruct (byte_at tid_ind (clamp_tid m)) as [ind| |] eqn:Ei; [|done..]. cbn [mbind res_bind].
  intros <-%ret_inr. unfold wd_info.
  edestruct finish_words as [x ->]; [done|]. cbn [app].
  match goal with |- context [concat (put_le32 <$> ?l)] => set (ws := l) end. unfold parse_wd.
  read_words ws 0%nat. read_words ws 1%nat. read_words ws 2%nat. read_words ws 3%nat. read_words ws 6%nat.
  read_words ws 7%nat. read_words ws 8%nat. read_words ws 9%nat. read_words ws 10%nat.
  split; [|split].
  - unfold data_view. f_equal; first [reflexivity|field].
  - intros Ht Hd Hm. cbv zeta.
    destruct (tid_of_table m q Ht Hd Hm Eq) as (Ec & ind' & Ei' & E1 & E2). rewrite Ec, Ei' in Ei. injection Ei as ->.
    match goal with |- context [GET_FIELD (or_all ?l) AX_TXD_QSEL] =>
      rewrite (get_word l q AX_TXD_QSEL), (get_flag_word l (tr ind) AX_TXD_TID_IND);
        [done|vm_compute; reflexivity|in_list|discriminate|vm_compute; reflexivity|in_list] end.
  - intros Hd. unfold qsel_of in Eq. rewrite Hd in Eq. change (_ =? _) with true in Eq. injection Eq as Eq.
    match goal with |- context [GET_FIELD (or_all ?l) AX_TXD_QSEL] =>
      rewrite (get_word l q AX_TXD_QSEL); [|vm_compute; reflexivity|in_list] end.
    rewrite <- Eq. by destruct (tr (m_band m)).
Qed.

Lemma mgnt_words ad m wd :
  intf ad = MAC_AX_INTF_USB -> tr (m_wdinfo_en m) = true -> txdes_proc_mgnt ad m (mac_txdesc_len m) = inr wd ->
  parse_wd wd = mgnt_view m.
Proof.
  intros Hi Hw. unfold txdes_proc_mgnt. rewrite Z.eqb_refl. cbn [negb]. destruct (_ || _); [done|].
  unfold intf_bits. rewrite Hi. intros E. assert (E' := f_equal Ret E). apply ret_inr in E' as <-. clear E.
  unfold wd_info. edestruct finish_words as [x ->]; [done|]. cbn [app].
  match goal with |- context [concat (put_le32 <$> ?l)] => set (ws := l) end. unfold parse_wd.
  read_words ws 0%nat. read_words ws 1%nat. read_words ws 2%nat. read_words ws 3%nat. read_words ws 6%nat.
  read_words ws 7%nat. read_words ws 8%nat. read_words ws 9%nat. read_words ws 10%nat.
  destruct (tr (m_band m)) eqn:Eb; unfold mgnt_view; rewrite ?Eb; f_equal; first [reflexivity|field].
Qed.

(** C39: On USB, the descriptor of a data or management frame that has its second part, the
    frame's information ([wdinfo_en], which core/rtw_xmit.c always sets), is read back as the
    meta data it was built from, each field reduced to the width of its place: the fields of
    a word do not overlap, whatever they hold and with or without a checksum.  Of a data
    frame, if its channel is not that of the high queue, its traffic identifier below 8 and
    its set of queues below 16 are found again although only an access category and one bit
    are stored; on the channel of the high queue it says the high queue of the band instead,
    and the traffic identifier and the set are lost ([high_queue_loses_tid]). *)
Theorem txdesc_roundtrip ad m wd :
  intf ad = MAC_AX_INTF_USB -> tr (m_wdinfo_en m) = true -> rtw_hal_mac_ax_fill_txdesc ad m = Ret (inr wd) ->
  (m_type m = RTW_PHL_PKT_TYPE_DATA ->
     parse_wd wd = data_view ad m /\
     (0 <= m_tid m < 8 -> m_dma_ch m <> MAC_AX_DATA_HIQ -> 0 <= m_wmm m < 16 ->
      let qsel := GET_FIELD (le32_at wd 8) AX_TXD_QSEL in
      tid_of qsel (get_flag (le32_at wd 8) AX_TXD_TID_IND) = m_tid m /\ Z.shiftr qsel 2 = m_wmm m) /\
     (m_dma_ch m = MAC_AX_DATA_HIQ ->
      GET_FIELD (le32_at wd 8) AX_TXD_QSEL = if tr (m_band m) then MAC_AX_HI1_SEL else MAC_AX_HI0_SEL)) /\
  (m_type m = RTW_PHL_PKT_TYPE_MGNT -> parse_wd wd = mgnt_view m).
Proof.
  intros Hi Hw Hb. unfold rtw_hal_mac_ax_fill_txdesc, mac_build_txdesc in Hb. split; intros Ht; rewrite Ht in Hb.
  - cbn [Z.eqb RTW_PHL_PKT_TYPE_DATA RTW_PHL_PKT_TYPE_H2C RTW_PHL_PKT_TYPE_FWDL orb] in Hb.
    by apply (data_words ad m wd).
  - cbn [Z.eqb Pos.eqb RTW_PHL_PKT_TYPE_MGNT RTW_PHL_PKT_TYPE_DATA RTW_PHL_PKT_TYPE_H2C RTW_PHL_PKT_TYPE_FWDL orb] in Hb.
    injection Hb as Hb. by apply (mgnt_words ad m wd).
Qed.

Definition demo_meta_of (ty : Z) : t_meta_data :=
  set_ring_fields 5 0 1 2 4 2 1500
    {| m_type := ty; m_band := 0; m_wmm := 0; m_tid := 0; m_bc := 0; m_mc := 1; m_pktlen := 0; m_hw_seq_mode := 0;
       m_hw_ssn_sel := 1; m_smh_en := 0; m_hw_amsdu := 0; m_hw_aes_iv := 0; m_wd_page_size := 1; m_hdr_len := 26;
       m_dma_ch := 0; m_usb_pkt_ofst := 0; m_wdinfo_en := 1; m_wp_offset := 0; m_shcut_camid := 0; m_macid := 0;
       m_sw_seq := 4094; m_ampdu_en := 1; m_bk := 0; m_mbssid := 0; m_hal_port := 0; m_data_bw_er := 0;
       m_dis_rts_rate_fb := 0; m_dis_data_rate_fb := 0; m_f_ldpc := 1; m_f_stbc := 0; m_f_dcm := 0; m_f_er := 0;
       m_f_rate := 0x187; m_f_gi_ltf := 1; m_f_bw := 2; m_userate_sel := 0; m_ack_ch_info := 0;
       m_max_agg_num := 0x3f; m_nav_use_hdr := 0; m_a_ctrl_uph := 0; m_a_ctrl_bsr := 1; m_a_ctrl_cas := 0;
       m_data_rty_lowest_rate := 4; m_data_tx_cnt_lmt := 8; m_data_tx_cnt_lmt_en := 1; m_sec_cam_idx := 3;
       m_sec_hw_enc := 1; m_sec_type := 6; m_life_time_sel := 0; m_ampdu_density := 5; m_ndpa := 0; m_snd_pkt_sel := 0;
       m_sifs_tx := 0; m_rtt_en := 0; m_spe_rpt := 1; m_sw_define := 9; m_rts_en := 1; m_cts2self := 0;
       m_rts_cca_mode := 0; m_hw_rts_en := 1 |}.
Definition demo_meta : t_meta_data := demo_meta_of RTW_PHL_PKT_TYPE_DATA.
Definition demo_adapter : adapter := mk_adapter MAC_AX_INTF_USB false 1.
Definition demo_wd : list Z :=
  match rtw_hal_mac_ax_fill_txdesc demo_adapter demo_meta with Ret (inr wd) => wd | _ => [] end.

Lemma txdesc_roundtrip_witness :
  m_sw_seq (parse_wd demo_wd) = 4094 /\ m_f_rate (parse_wd demo_wd) = 0x187 /\
  tid_of (GET_FIELD (le32_at demo_wd 8) AX_TXD_QSEL) (get_flag (le32_at demo_wd 8) AX_TXD_TID_IND) = 4.
Proof.
  destruct (txdesc_roundtrip demo_adapter demo_meta demo_wd) as [D _];
    [reflexivity|reflexivity|vm_compute; reflexivity|].
  destruct (D eq_refl) as (-> & T & _).
  split; [reflexivity|]. split; [reflexivity|].
  apply T; cbn; [lia|discriminate|lia].
Defined.

(** ** What does not work *)

(** A frame of the high queue with the traffic identifier 0 reads as one with 1 in the set
    of queues 4. *)
Example high_queue_loses_tid :
  match rtw_hal_mac_ax_fill_txdesc demo_adapter (set_ring_fields 1 0 0 0 0 MAC_AX_DATA_HIQ 100 demo_meta) with
  | Ret (inr wd) => let qsel := GET_FIELD (le32_at wd 8) AX_TXD_QSEL in
      (tid_of qsel (get_flag (le32_at wd 8) AX_TXD_TID_IND), Z.shiftr qsel 2) = (1, 4)
  | _ => False
  end.
Proof. vm_compute. reflexivity. Qed.

(** The frames to a group on the second band have the channel [MAC_AX_DMA_B1HI] and are
    refused, though [txdes_proc_data] has a case for them. *)
Example hiq_of_band_1_refused :
  rtw_hal_mac_ax_fill_txdesc demo_adapter (set_ring_fields 1 1 0 0 9 MAC_AX_DMA_B1HI 100 demo_meta)
  = Ret (inl MACTXCHDMA).
Proof. reflexivity. Qed.

(** A data frame with the traffic identifier of the management ring reads behind the table
    of the queues: the identifier is limited only afterwards. *)
Example tid_8_reads_behind_table :
  rtw_hal_mac_ax_fill_txdesc demo_adapter (set_ring_fields 1 0 0 0 8 8 100 demo_meta) = Oob.
Proof. reflexivity. Qed.

(** MAC ids have 7 bits in the descriptor. *)
Example macid_128_truncated : exists wd,
  rtw_hal_mac_ax_fill_txdesc demo_adapter (set_ring_fields 128 0 0 0 0 0 100 demo_meta) = Ret (inr wd) /\
  m_macid (parse_wd wd) = 0.
Proof. eexists. split; vm_compute; reflexivity. Qed.

(** The count of a transfer's frames is written after the checksum, which it makes wrong. *)
Example agg_count_breaks_checksum :
  exists wd, usb_tx_agg_cfg_8852a demo_wd 5 = Ret wd /\ xor16 demo_wd = 0 /\ xor16 wd <> 0.
Proof. eexists. split; [vm_compute; reflexivity|]. split; [vm_compute; reflexivity|vm_compute; discriminate]. Qed.
End TxDesc.
