(* ===== verification/PhlTx.v ===== *)
(** * The transmit rings of phl and USB

    phl/phl_tx.c: the rings between core and phl ([rtw_phl_add_tx_req]), the plan of a
    turn ([phl_check_xmit_ring_resource], [phl_tx_flow_ctrl]), the pool of ring states;
    phl/hci/phl_trx_usb.c: the buffers, the aggregation of a ring's frames into one
    transfer ([_phl_handle_xmit_ring_usb]), their release.  The turn as a whole and what
    pauses it are in [PhlRun], what holds of a ring and of a transfer in [PhlRing].

    A ring list is allocated and freed: [trings] is the heap, an access to a freed one
    is [Oob]. *)

From stdpp Require Import functions list.
From S2P Require Import Prelude Bytes TxDesc.
Import TxDesc.

Module PhlTx.

Definition MAX_PHL_RING_ENTRY_NUM : Z := 4096.
Definition MAX_PHL_RING_CAT_NUM : Z := 10.
Definition MAX_PHL_RING_STATUS_NUMBER : nat := 64.
Definition RTW_PHL_RING_CAT_MGNT : Z := 8.
Definition RTW_PHL_RING_CAT_HIQ : Z := 9.
Definition MGMT_TID : Z := 8.
Definition RTW_PHL_TREQ_TYPE_NORMAL : Z := 0.
Definition RTW_PHL_TREQ_TYPE_TEST_PATTERN : Z := 1.
Definition MAX_WD_LEN : Z := 48.
Definition MAX_WD_BODY_LEN : Z := 24.
Definition PKT_OFFSET_DUMMY : Z := 8.
Definition USB_SUPER_SPEED_BULK_SIZE : Z := 1024.
Definition USB_HIGH_SPEED_BULK_SIZE : Z := 512.

Inductive phl_status := RTW_PHL_STATUS_SUCCESS | RTW_PHL_STATUS_FAILURE | RTW_PHL_STATUS_RESOURCE.

(** ** Requests and rings *)

(** [rtw_xmit_req]; [None] is a piece without an address. *)
Record xmit_req := mk_req {
  req_id : nat; treq_type : Z; mdata : t_meta_data; total_len : Z; pkt_list : list (option (list Z))
}.

(** [rtw_phl_tx_ring]: [core_idx] is the last entry that was added, [phl_idx] the last
    one that was taken. *)
Record tx_ring := mk_ring {
  tid : Z; dma_ch : Z; core_idx : Z; phl_idx : Z; phl_next_idx : Z; entry : Z -> option xmit_req
}.

Definition set_core (i : Z) (r : xmit_req) (g : tx_ring) : tx_ring :=
  mk_ring (tid g) (dma_ch g) i (phl_idx g) (phl_next_idx g) (<[i := Some r]> (entry g)).
Definition set_phl_idx (i : Z) (g : tx_ring) : tx_ring :=
  mk_ring (tid g) (dma_ch g) (core_idx g) i (phl_next_idx g) (entry g).
Definition set_next_idx (i : Z) (g : tx_ring) : tx_ring :=
  mk_ring (tid g) (dma_ch g) (core_idx g) (phl_idx g) i (entry g).

Definition phl_calc_avail_rptr (rptr wptr bndy : Z) : Z :=
  if rptr <=? wptr then u16 (wptr - rptr) else u16 (wptr + (bndy - rptr)).

Definition phl_calc_avail_wptr (rptr wptr bndy : Z) : Z :=
  if wptr <? rptr then u16 (rptr - wptr - 1) else u16 (rptr + (bndy - wptr) - 1).

(** The entry after [i]. *)
Definition wrap_next (i : Z) : Z := if MAX_PHL_RING_ENTRY_NUM <=? i + 1 then 0 else i + 1.

(** [phl_ring_status]; [ring_ptr] is a ring list and a ring of it. *)
Record ring_status := mk_sts {
  sts_id : nat; sts_macid : Z; sts_band : Z; sts_wmm : Z; sts_port : Z; req_busy : Z; ring_ptr : nat * nat
}.

Record phl_tx_plan := mk_plan {
  sleep : bool; has_mgnt : bool; has_hiq : bool; sorted_ring : list ring_status
}.
Definition plan0 : phl_tx_plan := mk_plan false false false [].
Definition set_sorted (l : list ring_status) (p : phl_tx_plan) : phl_tx_plan :=
  mk_plan (sleep p) (has_mgnt p) (has_hiq p) l.

Record tring_list := mk_tring {
  macid : Z; band : Z; wmm : Z; port : Z; phl_ring : list tx_ring; tx_plan : phl_tx_plan
}.
Definition set_rings (l : list tx_ring) (t : tring_list) : tring_list :=
  mk_tring (macid t) (band t) (wmm t) (port t) l (tx_plan t).
Definition set_plan (p : phl_tx_plan) (t : tring_list) : tring_list :=
  mk_tring (macid t) (band t) (wmm t) (port t) (phl_ring t) p.

(** [phl_usb_buf]. *)
Record usb_buf := mk_buf { buf_id : nat; buffer : list Z; type : Z }.

(** What core and the bus see: requests that come back, by their identity, and transfers
    on a channel. *)
Inductive event :=
  | TxRecycle (id : nat)
  | TxTestRecycle (id : nat)
  | UsbTx (buf : nat) (ch : Z) (data : list Z).

(** ** State *)

Record phl := mk_phl {
  trings : list (option tring_list); t_ring_list : list nat; t_ring_free_list : list nat;
  ring_sts_idle : list nat; t_fctrl_result : list ring_status;
  idle_txbuf : list usb_buf; mgmt_txbuf : list usb_buf; in_flight : list usb_buf; log : list event;
  phl_sw_tx_more : bool
}.

Definition set_trings (x : list (option tring_list)) (s : phl) : phl :=
  mk_phl x (t_ring_list s) (t_ring_free_list s) (ring_sts_idle s) (t_fctrl_result s) (idle_txbuf s) (mgmt_txbuf s) (in_flight s) (log s) (phl_sw_tx_more s).
Definition set_lists (l f : list nat) (s : phl) : phl :=
  mk_phl (trings s) l f (ring_sts_idle s) (t_fctrl_result s) (idle_txbuf s) (mgmt_txbuf s) (in_flight s) (log s) (phl_sw_tx_more s).
Definition set_idle (l : list nat) (s : phl) : phl :=
  mk_phl (trings s) (t_ring_list s) (t_ring_free_list s) l (t_fctrl_result s) (idle_txbuf s) (mgmt_txbuf s) (in_flight s) (log s) (phl_sw_tx_more s).
Definition set_fctrl (l : list ring_status) (s : phl) : phl :=
  mk_phl (trings s) (t_ring_list s) (t_ring_free_list s) (ring_sts_idle s) l (idle_txbuf s) (mgmt_txbuf s) (in_flight s) (log s) (phl_sw_tx_more s).
Definition set_bufs (i m f : list usb_buf) (s : phl) : phl :=
  mk_phl (trings s) (t_ring_list s) (t_ring_free_list s) (ring_sts_idle s) (t_fctrl_result s) i m f (log s) (phl_sw_tx_more s).
Definition emit (e : event) (s : phl) : phl :=
  mk_phl (trings s) (t_ring_list s) (t_ring_free_list s) (ring_sts_idle s) (t_fctrl_result s) (idle_txbuf s) (mgmt_txbuf s) (in_flight s) (e :: log s) (phl_sw_tx_more s).
Definition set_more (b : bool) (s : phl) : phl :=
  mk_phl (trings s) (t_ring_list s) (t_ring_free_list s) (ring_sts_idle s) (t_fctrl_result s) (idle_txbuf s) (mgmt_txbuf s) (in_flight s) (log s) b.

Definition tring_at (s : phl) (id : nat) : res tring_list :=
  match trings s !! id with Some (Some t) => Ret t | _ => Oob end.

Definition on_tring (id : nat) (f : tring_list -> tring_list) (s : phl) : phl :=
  set_trings (alter (fmap f) id (trings s)) s.

Definition ring_at (s : phl) (p : nat * nat) : res tx_ring :=
  t ← tring_at s p.1; match phl_ring t !! p.2 with Some g => Ret g | None => Oob end.

Definition on_ring (p : nat * nat) (f : tx_ring -> tx_ring) (s : phl) : phl :=
  on_tring p.1 (λ t, set_rings (alter f p.2 (phl_ring t)) t) s.

(** [bus_cap], the bus, and whether core has a callback for test patterns. *)
Record cfg := mk_cfg {
  tx_buf_size : Z; bulk_size : Z; max_bulkout_wd_num : Z; hal : adapter; tx_test_recycle : bool
}.

(** ** Ring lists *)

Definition hal_mapping_hw_tx_chnl_8852au (cat b : Z) : Z :=
  if b =? 0 then
    if (cat =? 0) || (cat =? 3) || (cat =? 6) || (cat =? 7) then 0
    else if (cat =? 1) || (cat =? 2) || (cat =? 4) || (cat =? 5) then 2
    else if cat =? RTW_PHL_RING_CAT_MGNT then 8 else if cat =? RTW_PHL_RING_CAT_HIQ then 9 else 0
  else if b =? 1 then
    if (cat =? 0) || (cat =? 3) || (cat =? 6) || (cat =? 7) then 4
    else if (cat =? 1) || (cat =? 2) || (cat =? 4) || (cat =? 5) then 6
    else if cat =? RTW_PHL_RING_CAT_MGNT then 10 else if cat =? RTW_PHL_RING_CAT_HIQ then 11 else 0
  else 0.

Definition _phl_allocate_phl_tring_list (macid hw_band hw_wmm hw_port : Z) : tring_list :=
  mk_tring macid hw_band hw_wmm hw_port
    ((λ i, mk_ring i (hal_mapping_hw_tx_chnl_8852au i hw_band) 0 0 0 (λ _, None)) <$> seqZ 0 MAX_PHL_RING_CAT_NUM)
    plan0.

Definition phl_register_tx_ring (macid hw_band hw_wmm hw_port : Z) (s : phl) : phl :=
  set_lists (t_ring_list s ++ [length (trings s)]) (t_ring_free_list s)
    (set_trings (trings s ++ [Some (_phl_allocate_phl_tring_list macid hw_band hw_wmm hw_port)]) s).

(** The first ring list of a station. *)
Fixpoint find_tring (s : phl) (l : list nat) (m : Z) : res (option nat) :=
  match l with
  | [] => Ret None
  | id :: l => t ← tring_at s id; if m =? macid t then Ret (Some id) else find_tring s l m
  end.

Definition phl_deregister_tx_ring (m : Z) (s : phl) : res (phl_status * phl) :=
  o ← find_tring s (t_ring_list s) m;
  match o with
  | Some id => Ret (RTW_PHL_STATUS_SUCCESS,
                    set_lists (filter (.≠ id) (t_ring_list s)) (t_ring_free_list s ++ [id]) s)
  | None => Ret (RTW_PHL_STATUS_FAILURE, s)
  end.

(** The requests that are left in a ring go back to core. *)
Fixpoint recycle_left (fuel : nat) (rptr : Z) (g : tx_ring) (s : phl) : res phl :=
  match fuel with
  | O => Looping
  | S fuel =>
      if rptr =? core_idx g then Ret s
      else
        let rptr := wrap_next rptr in
        match entry g rptr with
        | None => Ret s
        | Some r => recycle_left fuel rptr g (emit (TxRecycle (req_id r)) s)
        end
  end.

Fixpoint free_rings (l : list tx_ring) (s : phl) : res phl :=
  match l with
  | [] => Ret s
  | g :: l => s ← recycle_left (S (Z.to_nat MAX_PHL_RING_ENTRY_NUM)) (phl_idx g) g s; free_rings l s
  end.

Definition _phl_free_phl_tring_list (id : nat) (s : phl) : res phl :=
  t ← tring_at s id;
  s ← free_rings (phl_ring t) s;
  Ret (set_trings (<[id := None]> (trings s)) s).

Fixpoint free_deferred (l : list nat) (s : phl) : res phl :=
  match l with
  | [] => Ret s
  | id :: l => s ← _phl_free_phl_tring_list id (set_lists (t_ring_list s) l s); free_deferred l s
  end.

Definition phl_free_deferred_tx_ring (s : phl) : res phl := free_deferred (t_ring_free_list s) s.

(** ** Core adds a request *)

Definition rtw_phl_add_tx_req (r : xmit_req) (s : phl) : res (phl_status * phl) :=
  o ← find_tring s (t_ring_list s) (m_macid (mdata r));
  match o with
  | None => Ret (RTW_PHL_STATUS_FAILURE, s)
  | Some id =>
      let p := (id, Z.to_nat (m_tid (mdata r))) in
      g ← ring_at s p;
      let ring_res := phl_calc_avail_wptr (phl_idx g) (core_idx g) MAX_PHL_RING_ENTRY_NUM in
      if 0 <? ring_res then
        Ret (RTW_PHL_STATUS_SUCCESS,
             set_more true (on_ring p (set_core ((core_idx g + 1) mod MAX_PHL_RING_ENTRY_NUM) r) s))
      else Ret (RTW_PHL_STATUS_RESOURCE, s)
  end.

(** How many requests a ring has. *)
Definition rtw_phl_tring_rsc (m t : Z) (s : phl) : res Z :=
  o ← find_tring s (t_ring_list s) m;
  match o with
  | None => Ret 0
  | Some id => g ← ring_at s (id, Z.to_nat t); Ret (phl_calc_avail_rptr (phl_idx g) (core_idx g) MAX_PHL_RING_ENTRY_NUM)
  end.

(** ** The plan of a turn *)

Definition phl_release_ring_sts (x : ring_status) (s : phl) : phl :=
  set_idle (ring_sts_idle s ++ [sts_id x]) s.

Definition _phl_check_ring_status (p : nat * nat) (s : phl) : res (option ring_status * phl) :=
  t ← tring_at s p.1;
  g ← ring_at s p;
  let avail := phl_calc_avail_rptr (phl_idx g) (core_idx g) MAX_PHL_RING_ENTRY_NUM in
  if avail =? 0 then Ret (None, s)
  else match ring_sts_idle s with
       | [] => Ret (None, s)
       | i :: l =>
           Ret (Some (mk_sts i (macid t) (band t) (wmm t) (port t) avail p),
                on_ring p (set_next_idx (wrap_next (phl_idx g))) (set_idle l s))
       end.

Definition _phl_reset_tx_plan (id : nat) (s : phl) : res phl :=
  t ← tring_at s id;
  Ret (on_tring id (set_plan plan0) (foldl (λ s x, phl_release_ring_sts x s) s (sorted_ring (tx_plan t)))).

Definition _phl_sort_ring_by_tid (s : phl) (x : ring_status) (p : phl_tx_plan) (cat : Z) : res phl_tx_plan :=
  g ← ring_at s (ring_ptr x);
  if tid g =? 1 then Ret (set_sorted (sorted_ring p ++ [x]) p)
  else if tid g =? 2 then
    match last (sorted_ring p) with
    | None => Ret (set_sorted (sorted_ring p ++ [x]) p)
    | Some y =>
        h ← ring_at s (ring_ptr y);
        Ret (set_sorted (if tid h =? 1 then removelast (sorted_ring p) ++ [x; y] else sorted_ring p ++ [x]) p)
    end
  else
    Ret (mk_plan (sleep p) (has_mgnt p || (cat =? RTW_PHL_RING_CAT_MGNT))
           (has_hiq p || negb (cat =? RTW_PHL_RING_CAT_MGNT) && (cat =? RTW_PHL_RING_CAT_HIQ)) (x :: sorted_ring p)).

(** The rings [cats] of a ring list. *)
Fixpoint check_rings (id : nat) (cats : list nat) (s : phl) : res phl :=
  match cats with
  | [] => Ret s
  | i :: cats =>
      '(o, s) ← _phl_check_ring_status (id, i) s;
      match o with
      | None => check_rings id cats s
      | Some x =>
          t ← tring_at s id;
          p ← _phl_sort_ring_by_tid s x (tx_plan t) (Z.of_nat i);
          check_rings id cats (on_tring id (set_plan p) s)
      end
  end.

(** Whether the station gets into the plan, too. *)
Definition _phl_check_tring_list (id : nat) (s : phl) : res (bool * phl) :=
  s ← check_rings id (seq 0 (Z.to_nat MAX_PHL_RING_CAT_NUM)) s;
  t ← tring_at s id;
  Ret (negb (bool_decide (length (sorted_ring (tx_plan t)) = 0%nat)), s).

Fixpoint check_tring_lists (l : list nat) (s : phl) : res (list nat * phl) :=
  match l with
  | [] => Ret ([], s)
  | id :: l =>
      '(b, s) ← _phl_check_tring_list id s;
      '(sta_list, s) ← check_tring_lists l s;
      Ret (if b : bool then id :: sta_list else sta_list, s)
  end.

Definition phl_check_xmit_ring_resource (s : phl) : res (list nat * phl) :=
  '(sta_list, s) ← check_tring_lists (t_ring_list s) s;
  Ret (sta_list, set_more false s).

(** [__list_add] behind the element [i]. *)
Fixpoint add_behind (i : nat) (x : ring_status) (l : list ring_status) : list ring_status :=
  match l with
  | [] => []
  | y :: l => if (sts_id y =? i)%nat then y :: x :: l else y :: add_behind i x l
  end.

(** The rings of a station; [te] has the last ring of a traffic identifier. *)
Fixpoint flow_ctrl_rings (s : phl) (l : list ring_status) (te : Z -> option nat) (out : list ring_status)
    : res ((Z -> option nat) * list ring_status) :=
  match l with
  | [] => Ret (te, out)
  | x :: l =>
      g ← ring_at s (ring_ptr x);
      let out := match te (tid g) with None => out ++ [x] | Some i => add_behind i x out end in
      flow_ctrl_rings s l (<[tid g := Some (sts_id x)]> te) out
  end.

(** The first ring of the plan goes to the front. *)
Definition take_first (b : bool) (l out : list ring_status) : res (list ring_status * list ring_status) :=
  if b then match l with x :: l => Ret (l, x :: out) | [] => Oob end else Ret (l, out).

Fixpoint flow_ctrl (sta_list : list nat) (te : Z -> option nat) (s : phl) : res phl :=
  match sta_list with
  | [] => Ret s
  | id :: sta_list =>
      t ← tring_at s id;
      let p := tx_plan t in
      if sleep p then s ← _phl_reset_tx_plan id s; flow_ctrl sta_list te s
      else
        '(l, out) ← take_first (has_hiq p) (sorted_ring p) (t_fctrl_result s);
        '(l, out) ← take_first (has_mgnt p) l out;
        '(te, out) ← flow_ctrl_rings s l te out;
        s ← _phl_reset_tx_plan id (on_tring id (set_plan (set_sorted [] p)) (set_fctrl out s));
        flow_ctrl sta_list te s
  end.

Definition phl_tx_flow_ctrl (sta_list : list nat) (s : phl) : res phl := flow_ctrl sta_list (λ _, None) s.

(** ** One transfer *)

(** [_ALIGN]. *)
Definition align8 (n : Z) : Z := Z.land (u32 (n + 7)) (u32 (Z.lnot 7)).

Definition get_shift_offset (bulk : Z) : Z :=
  if bulk =? USB_SUPER_SPEED_BULK_SIZE then 10 else if bulk =? USB_HIGH_SPEED_BULK_SIZE then 9 else 6.

Fixpoint copy_pkts (l : list (option (list Z))) (b : list Z) (off len : Z) : res (list Z * Z) :=
  match l with
  | [] => Ret (b, len)
  | None :: l => copy_pkts l b off len
  | Some d :: l => b ← blit b off d; copy_pkts l b (off + zlen d) (u32 (len + zlen d))
  end.

Definition recycle (c : cfg) (r : xmit_req) (s : phl) : phl :=
  if treq_type r =? RTW_PHL_TREQ_TYPE_TEST_PATTERN then
    if tx_test_recycle c then emit (TxTestRecycle (req_id r)) s else s
  else if treq_type r =? RTW_PHL_TREQ_TYPE_NORMAL then emit (TxRecycle (req_id r)) s else s.

(** The request [r] goes to [off] in the buffer and back to core; whether it succeeds,
    with the length. *)
Definition _phl_prepare_tx_usb (c : cfg) (r : xmit_req) (b : list Z) (off : Z) (s : phl)
    : res (bool * list Z * Z * phl) :=
  w ← rtw_hal_mac_ax_fill_txdesc (hal c) (mdata r);
  match w with
  | inl _ => Ret (false, b, 0, recycle c r s)
  | inr wd =>
      b ← blit b off wd;
      let dummy := if m_usb_pkt_ofst (mdata r) =? 1 then PKT_OFFSET_DUMMY else 0 in
      '(b, len) ← copy_pkts (pkt_list r) b (off + zlen wd + dummy) (zlen wd + dummy);
      Ret (true, b, len, recycle c r s)
  end.

(** What [_phl_handle_xmit_ring_usb] fills in.  It writes into the request itself, but each
    attempt writes the same fields first, so the entry of the ring stays as it is here. *)
Definition fill_mdata (x : ring_status) (g : tx_ring) (r : xmit_req) : xmit_req :=
  mk_req (req_id r) (treq_type r)
    (set_ring_fields (sts_macid x) (sts_band x) (sts_wmm x) (sts_port x) (tid g) (dma_ch g)
       (u16 (total_len r)) (mdata r)) (total_len r) (pkt_list r).

(** The variables of its loop: the buffer, [tx_buf_data] as an offset, the lengths and
    counters, the type of the last request and the status. *)
Record agg := mk_agg {
  a_buf : list Z; a_off : Z; a_packet_len : Z; a_tx_len : Z; a_cnt : Z; a_trasc_cnt : Z; a_trasc_idx : Z;
  a_type : Z; a_ok : bool
}.

(** Where the request goes: the offset and the length so far, [None] at the end of the
    transfer. *)
Definition place (c : cfg) (a : agg) (r : xmit_req) : option (Z * Z) :=
  let wd_len := if m_wdinfo_en (mdata r) =? 1 then MAX_WD_LEN else MAX_WD_BODY_LEN in
  if tx_buf_size c <? u32 (align8 (u32 (wd_len + total_len r)) + a_tx_len a) then None
  else if m_type (mdata r) =? RTW_PHL_PKT_TYPE_DATA then
    let packet_align_len := align8 (a_packet_len a) in
    if negb (a_tx_len a =? 0)
       && (u32 (a_tx_len a + wd_len + packet_align_len - a_packet_len a) mod bulk_size c =? 0) then None
    else Some (a_off a + packet_align_len,
               if a_packet_len a <? packet_align_len then u32 (a_tx_len a + (packet_align_len - a_packet_len a))
               else a_tx_len a)
  else Some (a_off a, a_tx_len a).

(** [trasc_agg_cnt] and [trasc_idx] after a request. *)
Definition trasc (c : cfg) (tx_len cnt idx : Z) : Z * Z :=
  let cnt := u8 (cnt + 1) in
  let blk := Z.shiftr tx_len (get_shift_offset (bulk_size c)) in
  if idx =? blk then (cnt, idx) else (0, u8 blk).

(** The loop for the [busy] requests of the ring [p]. *)
Fixpoint xmit_loop (c : cfg) (x : ring_status) (busy : nat) (a : agg) (s : phl) : res (agg * phl) :=
  match busy with
  | O => Ret (a, s)
  | S busy =>
      g ← ring_at s (ring_ptr x);
      let rptr := phl_next_idx g in
      match entry g rptr with
      | None => Ret (a, s)
      | Some r =>
          let r := fill_mdata x g r in
          let ty := m_type (mdata r) in
          match place c a r with
          | None => Ret (mk_agg (a_buf a) (a_off a) (a_packet_len a) (a_tx_len a) (a_cnt a) (a_trasc_cnt a)
                           (a_trasc_idx a) ty (a_ok a), s)
          | Some (off, tx_len) =>
              '(ok, b, len, s) ← _phl_prepare_tx_usb c r (a_buf a) off s;
              let tx_len := u32 (tx_len + len) in
              let s := on_ring (ring_ptr x) (set_phl_idx rptr) s in
              if negb (ok : bool) then
                Ret (mk_agg b off len tx_len (a_cnt a) (a_trasc_cnt a) (a_trasc_idx a) ty false, s)
              else
                let cnt := u8 (a_cnt a + 1) in
                if negb (ty =? RTW_PHL_PKT_TYPE_DATA) then
                  Ret (mk_agg b off len tx_len cnt (u8 (a_trasc_cnt a + 1)) (a_trasc_idx a) ty true, s)
                else
                  let '(tc, ti) := trasc c tx_len (a_trasc_cnt a) (a_trasc_idx a) in
                  let a := mk_agg b off len tx_len cnt tc ti ty true in
                  if max_bulkout_wd_num c <=? tc then Ret (a, s)
                  else xmit_loop c x busy a
                         (match busy with O => s | _ => on_ring (ring_ptr x) (set_next_idx (wrap_next rptr)) s end)
          end
      end
  end.

Definition agg0 (b : list Z) : agg := mk_agg b 0 0 0 0 0 0 0 false.

(** [enqueue_usb_buf], at the end. *)
Definition put_buf (mgmt : bool) (b : usb_buf) (s : phl) : phl :=
  if mgmt then set_bufs (idle_txbuf s) (mgmt_txbuf s ++ [b]) (in_flight s) s
  else set_bufs (idle_txbuf s ++ [b]) (mgmt_txbuf s) (in_flight s) s.

(** [usb_ok] is the answer of [os_usb_tx]. *)
Definition _phl_handle_xmit_ring_usb (c : cfg) (usb_ok : bool) (x : ring_status) (tx_buf : usb_buf) (s : phl) : res phl :=
  g ← ring_at s (ring_ptr x);
  '(a, s) ← xmit_loop c x (Z.to_nat (req_busy x)) (agg0 (buffer tx_buf)) s;
  d ← (if a_ok a && (a_type a =? RTW_PHL_PKT_TYPE_DATA) && (1 <? a_cnt a)
       then usb_tx_agg_cfg_8852a (a_buf a) (a_cnt a) else Ret (a_buf a));
  let b := mk_buf (buf_id tx_buf) d (type tx_buf) in
  let s :=
    if a_ok a && usb_ok then
      set_bufs (idle_txbuf s) (mgmt_txbuf s) (in_flight s ++ [b])
        (emit (UsbTx (buf_id b) (dma_ch g) (ztake (a_tx_len a) d)) s)
    else put_buf (tid g =? MGMT_TID) b s in
  Ret (phl_release_ring_sts x s).

(** [_phl_tx_flow_ctrl_usb]: a buffer for the ring; without one its state is released. *)
Definition _phl_tx_flow_ctrl_usb (x : ring_status) (s : phl) : res (option usb_buf * phl) :=
  g ← ring_at s (ring_ptr x);
  if tid g =? MGMT_TID then
    match mgmt_txbuf s with
    | b :: l => Ret (Some b, set_bufs (idle_txbuf s) l (in_flight s) s)
    | [] => Ret (None, phl_release_ring_sts x s)
    end
  else
    match idle_txbuf s with
    | b :: l => Ret (Some b, set_bufs l (mgmt_txbuf s) (in_flight s) s)
    | [] => Ret (None, phl_release_ring_sts x s)
    end.

(** The first ring of the plan. *)
Definition tx_ring_turn (c : cfg) (usb_ok : bool) (s : phl) : res phl :=
  match t_fctrl_result s with
  | [] => Ret s
  | x :: l =>
      '(o, s) ← _phl_tx_flow_ctrl_usb x (set_fctrl l s);
      match o with
      | Some b => _phl_handle_xmit_ring_usb c usb_ok x b s
      | None => Ret s
      end
  end.

(** A transfer is complete. *)
Definition phl_tx_release_buf_usb (k : nat) (s : phl) : phl :=
  match in_flight s !! k with
  | None => s
  | Some b =>
      put_buf (type b =? RTW_PHL_PKT_TYPE_MGNT) b
        (set_bufs (idle_txbuf s) (mgmt_txbuf s) (delete k (in_flight s)) s)
  end.

(** ** The start *)

Definition _phl_alloc_txbuf_pool_usb (size num mgnt_size mgnt_num : nat) : list usb_buf * list usb_buf :=
  ((λ i, mk_buf i (replicate size 0) RTW_PHL_PKT_TYPE_DATA) <$> seq 0 num,
   (λ i, mk_buf i (replicate mgnt_size 0) RTW_PHL_PKT_TYPE_MGNT) <$> seq num mgnt_num).

Definition phl_datapath_init (size num mgnt_size mgnt_num : nat) : phl :=
  let '(i, m) := _phl_alloc_txbuf_pool_usb size num mgnt_size mgnt_num in
  mk_phl [] [] [] (seq 0 MAX_PHL_RING_STATUS_NUMBER) [] i m [] [] false.
End PhlTx.
