(* ===== verification/PhlRing.v ===== *)
(** * What holds of a transmit ring and of a transfer

    A ring is a bounded queue ([ring_is]); the loop that fills a buffer from it is a
    function of the queue alone ([agg_loop], [xmit_loop_agg]), and [packed] says what is in
    the buffer then. *)

From stdpp Require Import functions list.
From S2P Require Import Prelude Bytes TxDesc PhlTx.
Import TxDesc PhlTx.

Module PhlRing.

Abbreviation N := MAX_PHL_RING_ENTRY_NUM.

Lemma ring_num : N = 4096.
Proof. done. Qed.

(** ** Rings *)

(** The ring holds the requests [l], in this order. *)
Record ring_is (g : tx_ring) (l : list xmit_req) : Prop := {
  ri_phl : 0 <= phl_idx g < N;
  ri_core : 0 <= core_idx g < N;
  ri_len : zlen l = (core_idx g - phl_idx g) mod N;
  ri_entry i r : l !! i = Some r -> entry g ((phl_idx g + 1 + Z.of_nat i) mod N) = Some r
}.

Lemma wrap_next_mod i : 0 <= i < N -> wrap_next i = (i + 1) mod N.
Proof.
  intros H. unfold wrap_next. rewrite ring_num in *. destruct (Z.leb_spec 4096 (i + 1)); dlia.
Qed.

Lemma wrap_next_range i : 0 <= i < N -> 0 <= wrap_next i < N.
Proof. intros H. rewrite wrap_next_mod by done. apply Z.mod_pos_bound. by rewrite ring_num. Qed.

Lemma ring_lt g l : ring_is g l -> zlen l < N.
Proof. intros [_ _ -> _]. apply Z.mod_pos_bound. by rewrite ring_num. Qed.

Lemma ring_avail g l : ring_is g l -> phl_calc_avail_rptr (phl_idx g) (core_idx g) N = zlen l.
Proof.
  intros [Hp Hc -> _]. unfold phl_calc_avail_rptr, u16. rewrite ring_num in *.
  destruct (Z.leb_spec (phl_idx g) (core_idx g)); dlia.
Qed.

Lemma ring_free g l : ring_is g l -> phl_calc_avail_wptr (phl_idx g) (core_idx g) N = N - 1 - zlen l.
Proof.
  intros [Hp Hc -> _]. unfold phl_calc_avail_wptr, u16. rewrite ring_num in *.
  destruct (Z.ltb_spec (core_idx g) (phl_idx g)); dlia.
Qed.

Lemma ring_put g l r : ring_is g l -> zlen l < N - 1 -> ring_is (set_core ((core_idx g + 1) mod N) r g) (l ++ [r]).
Proof.
  intros [Hp Hc Hl He] Hs. split; cbn.
  - done.
  - apply Z.mod_pos_bound. by rewrite ring_num.
  - rewrite zlen_app, zlen_cons, zlen_nil, Hl. rewrite ring_num in *. dlia.
  - intros i x Hi. apply lookup_app_Some in Hi as [Hi|[Hi1 Hi2]].
    + rewrite fn_lookup_insert_ne; [by apply He|]. apply lookup_lt_Some in Hi.
      unfold zlen in *. rewrite ring_num in *. dlia.
    + apply list_lookup_singleton_Some in Hi2 as [Hi2 <-].
      replace ((phl_idx g + 1 + Z.of_nat i) mod N) with ((core_idx g + 1) mod N); [by rewrite fn_lookup_insert|].
      unfold zlen in *. rewrite ring_num in *. dlia.
Qed.

Lemma ring_head g r l : ring_is g (r :: l) -> entry g (wrap_next (phl_idx g)) = Some r.
Proof.
  intros [Hp _ _ He]. specialize (He 0%nat r eq_refl). rewrite wrap_next_mod by done.
  by rewrite Z.add_0_r in He.
Qed.

Lemma ring_take g r l j : ring_is g (r :: l) -> ring_is (set_next_idx j (set_phl_idx (wrap_next (phl_idx g)) g)) l.
Proof.
  intros [Hp Hc Hl He]. split; cbn.
  - by apply wrap_next_range.
  - done.
  - rewrite zlen_cons in Hl. pose proof (zlen_nonneg l). rewrite wrap_next_mod by done. rewrite ring_num in *. dlia.
  - intros i x Hi. rewrite <- (He (S i) x Hi). f_equal. rewrite wrap_next_mod by done. rewrite ring_num in *. dlia.
Qed.

Lemma ring_next g l j : ring_is g l -> ring_is (set_next_idx j g) l.
Proof. by intros [? ? ? ?]. Qed.

Lemma ring_empty i j : ring_is (mk_ring i j 0 0 0 (λ _, None)) [].
Proof. by split. Qed.

Lemma ring_unique g l1 l2 : ring_is g l1 -> ring_is g l2 -> l1 = l2.
Proof.
  intros [_ _ H1 E1] [_ _ H2 E2]. assert (length l1 = length l2) by (unfold zlen in *; lia).
  apply list_eq_same_length with (n := length l1); [done|done|]. intros i x y _ Hx Hy.
  apply E1 in Hx. apply E2 in Hy. congruence.
Qed.

(** The end of a ring list returns what is left. *)
Lemma recycle_left_all g l s : ring_is g l -> forall fuel i, (length l - i < fuel)%nat -> (i <= length l)%nat ->
  recycle_left fuel ((phl_idx g + Z.of_nat i) mod N) g s =
  Ret (foldl (λ s r, emit (TxRecycle (req_id r)) s) s (drop i l)).
Proof.
  intros R fuel. revert s. induction fuel as [|fuel IH]; intros s i Hf Hi; [lia|]. cbn [recycle_left].
  destruct R as [Hp Hc Hl He]. destruct (Z.eqb_spec ((phl_idx g + Z.of_nat i) mod N) (core_idx g)) as [E|E].
  - assert (i = length l) as -> by (unfold zlen in *; rewrite ring_num in *; dlia). by rewrite drop_all.
  - assert (L : (i < length l)%nat).
    { destruct (decide (i = length l)) as [->|]; [|lia]. destruct E. unfold zlen in *. rewrite ring_num in *. dlia. }
    rewrite wrap_next_mod by (apply Z.mod_pos_bound; by rewrite ring_num).
    destruct (lookup_lt_is_Some_2 l i L) as [r Hr]. pose proof (He i r Hr) as Hr'.
    replace (((phl_idx g + Z.of_nat i) mod N + 1) mod N) with ((phl_idx g + Z.of_nat (S i)) mod N)
      by (rewrite ring_num; dlia).
    replace ((phl_idx g + Z.of_nat (S i)) mod N) with ((phl_idx g + 1 + Z.of_nat i) mod N) at 1 by (f_equal; lia).
    rewrite Hr'. rewrite (IH _ (S i)) by lia. by rewrite (drop_S l r i Hr).
Qed.

(** ** The state and one ring of it *)

Definition put_ring (p : nat * nat) (g : tx_ring) (s : phl) : phl := on_ring p (λ _, g) s.

Lemma ring_at_inv s p g : ring_at s p = Ret g ->
  exists t, trings s !! p.1 = Some (Some t) /\ phl_ring t !! p.2 = Some g.
Proof.
  unfold ring_at, tring_at. destruct (trings s !! p.1) as [[t|]|]; [|done..]. cbn [mbind res_bind].
  destruct (phl_ring t !! p.2) as [h|] eqn:E; [|done]. intros [= ->]. by exists t.
Qed.

Lemma ring_at_some s p t g : trings s !! p.1 = Some (Some t) -> phl_ring t !! p.2 = Some g -> ring_at s p = Ret g.
Proof. unfold ring_at, tring_at. intros -> E. cbn [mbind res_bind]. by rewrite E. Qed.

Lemma on_ring_put p f g s : ring_at s p = Ret g -> on_ring p f s = put_ring p (f g) s.
Proof.
  intros (t & Et & Eg)%ring_at_inv. unfold put_ring, on_ring, on_tring. f_equal.
  apply list_eq. intros i. destruct (decide (i = p.1)) as [->|]; [|by rewrite !list_lookup_alter_ne by done].
  rewrite !list_lookup_alter_eq, Et. cbn. do 3 f_equal. apply list_eq. intros j.
  destruct (decide (j = p.2)) as [->|]; [|by rewrite !list_lookup_alter_ne by done].
  by rewrite !list_lookup_alter_eq, Eg.
Qed.

Lemma put_ring_same p g s : ring_at s p = Ret g -> put_ring p g s = s.
Proof.
  intros E. assert (on_ring p (λ g, g) s = put_ring p g s) as <- by (by apply (on_ring_put p (λ g, g))).
  unfold on_ring, on_tring, set_trings. destruct s as [tr]; cbn. f_equal.
  apply list_alter_id. intros [t|]; [|done]. cbn. destruct t; cbn. do 2 f_equal. unfold set_rings. cbn.
  by rewrite list_alter_id.
Qed.

Lemma put_ring_put p g1 g2 s : put_ring p g2 (put_ring p g1 s) = put_ring p g2 s.
Proof.
  unfold put_ring, on_ring, on_tring, set_trings. cbn. f_equal. rewrite list_alter_alter_eq.
  apply list_alter_ext; [|done]. intros [t|] _; [|done]. cbn. unfold set_rings. cbn. by rewrite list_alter_alter_eq.
Qed.

Lemma ring_at_put p g g' s : ring_at s p = Ret g -> ring_at (put_ring p g' s) p = Ret g'.
Proof.
  intros (t & Et & Eg)%ring_at_inv. eapply ring_at_some; cbn.
  - by rewrite list_lookup_alter_eq, Et.
  - cbn. by rewrite list_lookup_alter_eq, Eg.
Qed.

Lemma ring_at_put_ne p q g s : p <> q -> ring_at (put_ring p g s) q = ring_at s q.
Proof.
  intros Hn. unfold ring_at, tring_at, put_ring, on_ring, on_tring. cbn.
  destruct (decide (p.1 = q.1)) as [E|E]; [|by rewrite list_lookup_alter_ne by done].
  rewrite E, list_lookup_alter_eq. destruct (trings s !! q.1) as [[t|]|]; [|done..]. cbn.
  rewrite list_lookup_alter_ne; [done|]. destruct p, q; cbn in *. congruence.
Qed.

Definition recycle_all (c : cfg) (l : list xmit_req) (s : phl) : phl := foldl (λ s r, recycle c r s) s l.

Lemma recycle_put c r p g s : recycle c r (put_ring p g s) = put_ring p g (recycle c r s).
Proof. unfold recycle. repeat case_match; done. Qed.

Lemma recycle_all_put c l p g s : recycle_all c l (put_ring p g s) = put_ring p g (recycle_all c l s).
Proof.
  unfold recycle_all. revert s; induction l as [|r l IH]; intros s; [done|]. cbn. by rewrite recycle_put, IH.
Qed.

Lemma recycle_ring_at c r s q : ring_at (recycle c r s) q = ring_at s q.
Proof. unfold recycle. repeat case_match; done. Qed.

(** ** The loop is a function of the queue *)

Fixpoint agg_loop (c : cfg) (fill : xmit_req -> xmit_req) (l : list xmit_req) (a : agg) : res (agg * nat) :=
  match l with
  | [] => Ret (a, 0%nat)
  | r :: l =>
      let r := fill r in
      let ty := m_type (mdata r) in
      match place c a r with
      | None => Ret (mk_agg (a_buf a) (a_off a) (a_packet_len a) (a_tx_len a) (a_cnt a) (a_trasc_cnt a)
                       (a_trasc_idx a) ty (a_ok a), 0%nat)
      | Some (off, tx_len) =>
          w ← rtw_hal_mac_ax_fill_txdesc (hal c) (mdata r);
          match w with
          | inl _ => Ret (mk_agg (a_buf a) off 0 (u32 (tx_len + 0)) (a_cnt a) (a_trasc_cnt a) (a_trasc_idx a) ty false, 1%nat)
          | inr wd =>
              b ← blit (a_buf a) off wd;
              let dummy := if m_usb_pkt_ofst (mdata r) =? 1 then PKT_OFFSET_DUMMY else 0 in
              '(b, len) ← copy_pkts (pkt_list r) b (off + zlen wd + dummy) (zlen wd + dummy);
              let tx_len := u32 (tx_len + len) in
              let cnt := u8 (a_cnt a + 1) in
              if negb (ty =? RTW_PHL_PKT_TYPE_DATA) then
                Ret (mk_agg b off len tx_len cnt (u8 (a_trasc_cnt a + 1)) (a_trasc_idx a) ty true, 1%nat)
              else
                let '(tc, ti) := trasc c tx_len (a_trasc_cnt a) (a_trasc_idx a) in
                let a := mk_agg b off len tx_len cnt tc ti ty true in
                if max_bulkout_wd_num c <=? tc then Ret (a, 1%nat)
                else '(a, k) ← agg_loop c fill l a; Ret (a, S k)
          end
      end
  end.

Lemma xmit_loop_agg c x p l rest : ring_ptr x = p -> forall g a s,
  ring_at s p = Ret g -> ring_is g (l ++ rest) -> (l <> [] -> phl_next_idx g = wrap_next (phl_idx g)) ->
  match agg_loop c (fill_mdata x g) l a with
  | Ret (a', k) => exists g',
      xmit_loop c x (length l) a s = Ret (a', put_ring p g' (recycle_all c (take k l) s)) /\
      (k <= length l)%nat /\ ring_is g' (drop k l ++ rest) /\ tid g' = tid g /\ dma_ch g' = dma_ch g
  | Oob => xmit_loop c x (length l) a s = Oob
  | Looping => xmit_loop c x (length l) a s = Looping
  end.
Proof.
  intros Hx. induction l as [|r l IH]; intros g a s Hg R Hn.
  { exists g. cbn. by rewrite put_ring_same. }
  cbn [agg_loop length xmit_loop]. rewrite Hx, Hg. cbn [mbind res_bind]. rewrite Hn by done.
  rewrite (ring_head g r (l ++ rest)) by done.
  destruct (place c a _) as [[off tl]|]; [|exists g; cbn; rewrite put_ring_same by done; split_all].
  unfold _phl_prepare_tx_usb. destruct (rtw_hal_mac_ax_fill_txdesc _ _) as [[e|wd]| |]; [| |done..]; cbn [mbind res_bind].
  all: set (s1 := recycle c (fill_mdata x g r) s); assert (Hg1 : ring_at s1 p = Ret g) by (unfold s1; by rewrite recycle_ring_at).
  { cbn [negb]. eexists. split; [by rewrite (on_ring_put p _ g) by done|]. split; [cbn; lia|].
    split; [|done]. cbn. by apply (ring_take g r (l ++ rest) (phl_next_idx g)). }
  destruct (blit _ _ _) as [b| |]; [|done..]. cbn [mbind res_bind].
  destruct (copy_pkts _ _ _ _) as [[b' len]| |]; [|done..]. cbn [mbind res_bind negb].
  rewrite (on_ring_put p _ g s1) by done.
  assert (T : ring_is (set_phl_idx (wrap_next (phl_idx g)) g) (l ++ rest)) by (by apply (ring_take g r (l ++ rest) (phl_next_idx g))).
  destruct (negb _); [eexists; cbn; split_all|].
  destruct (trasc _ _ _ _) as [tc ti]. destruct (max_bulkout_wd_num c <=? tc); [eexists; cbn; split_all|].
  set (g1 := set_phl_idx (wrap_next (phl_idx g)) g) in *.
  set (a1 := mk_agg b' off len _ _ tc ti _ true).
  set (g2 := match l with [] => g1 | _ => set_next_idx (wrap_next (wrap_next (phl_idx g))) g1 end).
  assert (E2 : match length l with 0%nat => put_ring p g1 s1 | S _ => on_ring p (set_next_idx (wrap_next (wrap_next (phl_idx g)))) (put_ring p g1 s1) end
               = put_ring p g2 s1).
  { destruct l; [done|]. cbn [length]. rewrite (on_ring_put p _ g1) by (by eapply ring_at_put). apply put_ring_put. }
  rewrite E2. assert (R2 : ring_is g2 (l ++ rest)) by (destruct l; [done|by apply ring_next]).
  assert (F2 : fill_mdata x g2 = fill_mdata x g) by (by destruct l).
  specialize (IH g2 a1 (put_ring p g2 s1)). rewrite F2 in IH.
  specialize (IH ltac:(by eapply ring_at_put) R2 ltac:(by destruct l)).
  destruct (agg_loop _ _ l a1) as [[a' k]| |]; cbn [mbind res_bind]; [|done..].
  destruct IH as (g' & E & Hk & R' & T1 & T2). exists g'. rewrite E. split.
  { cbn [take]. rewrite recycle_all_put, put_ring_put. done. }
  cbn [length]. split; [lia|]. split; [done|]. rewrite T1, T2. by destruct l.
Qed.

(** ** Lengths *)

Lemma align8_spec n : 0 <= n < 2 ^ 32 - 8 -> align8 n mod 8 = 0 /\ n <= align8 n < n + 8.
Proof.
  intros Hn. unfold align8. change (u32 (Z.lnot 7)) with 4294967288. rewrite u32_id by (unfold is_u32; lia).
  assert (E : Z.land (n + 7) 4294967288 + Z.land (n + 7) 7 = n + 7).
  { rewrite Z.add_nocarry_lxor, Z.lxor_lor.
    - rewrite <- Z.land_lor_distr_r. change (Z.lor 4294967288 7) with (Z.ones 32). rewrite land_mask by lia.
      apply Z.mod_small. lia.
    - rewrite (Z.land_comm (n + 7) 7), Z.land_assoc, <- (Z.land_assoc (n + 7)), (Z.land_comm (n + 7)).
      change (Z.land 4294967288 7) with 0. by rewrite !Z.land_0_l.
    - rewrite (Z.land_comm (n + 7) 7), Z.land_assoc, <- (Z.land_assoc (n + 7)), (Z.land_comm (n + 7)).
      change (Z.land 4294967288 7) with 0. by rewrite !Z.land_0_l. }
  assert (M : Z.land (n + 7) 7 = (n + 7) mod 8) by (apply (land_mask 3); lia). rewrite M in E.
  revert E. generalize (Z.land (n + 7) 4294967288). intros x E. dlia.
Qed.

Definition payload (r : xmit_req) : list Z := concat (omap id (pkt_list r)).

Lemma copy_pkts_spec l p q off len :
  off = zlen p -> zlen (concat (omap id l)) <= zlen q -> 0 <= len -> len + zlen q < 2 ^ 32 ->
  copy_pkts l (p ++ q) off len =
    Ret (p ++ concat (omap id l) ++ zdrop (zlen (concat (omap id l))) q, len + zlen (concat (omap id l))).
Proof.
  revert p q off len; induction l as [|[d|] l IH]; intros p q off len -> Hq Hl Hs; cbn [copy_pkts omap list_omap id].
  - cbn. by rewrite zlen_nil, Z.add_0_r.
  - cbn [omap list_omap id] in Hq. rewrite concat_cons in *. zlens.
    pose proof (zlen_nonneg d). pose proof (zlen_nonneg (concat (omap id l))).
    rewrite blit_over by (done || lia). cbn [mbind res_bind]. rewrite app_assoc.
    rewrite u32_id by (unfold is_u32; lia).
    rewrite (IH (p ++ d)) by (rewrite ?zlen_app, ?zlen_zdrop; lia). rewrite zdrop_zdrop by done.
    rewrite <- !app_assoc. f_equal. f_equal. lia.
  - by apply IH.
Qed.

Lemma len_put_le32 ws : zlen (concat (put_le32 <$> ws)) = 4 * zlen ws.
Proof. induction ws as [|w ws IH]; [done|]. rewrite fmap_cons, concat_cons, zlen_app, IH, zlen_cons. change (zlen (put_le32 w)) with 4. lia. Qed.

Lemma finish_len ad m b i : zlen b = 24 -> zlen i = 24 ->
  zlen (finish ad m b i) = if tr (m_wdinfo_en m) then 48 else 24.
Proof.
  intros Hb Hi. unfold finish.
  assert (L : zlen (b ++ (if tr (m_wdinfo_en m) then i else [])) = if tr (m_wdinfo_en m) then 48 else 24)
    by (case_match; zlens; lia).
  destruct (tr (wd_checksum_en ad)); [|done]. rewrite <- L. unfold mac_wd_checksum.
  set (wd := b ++ _) in *. assert (24 <= zlen wd) by (case_match; lia). unfold zlen in *.
  rewrite !length_app, length_take, length_drop. change (length (put_le32 _)) with 4%nat. lia.
Qed.

(** A descriptor has the length that was asked for, and is built without a stray access
    for the requests of a ring. *)
Lemma fill_txdesc_len ad m wd : m_type m = RTW_PHL_PKT_TYPE_DATA \/ m_type m = RTW_PHL_PKT_TYPE_MGNT ->
  rtw_hal_mac_ax_fill_txdesc ad m = Ret (inr wd) -> zlen wd = if tr (m_wdinfo_en m) then 48 else 24.
Proof.
  intros Ht. unfold rtw_hal_mac_ax_fill_txdesc, mac_build_txdesc. destruct Ht as [-> | ->].
  - cbn [Z.eqb orb RTW_PHL_PKT_TYPE_DATA RTW_PHL_PKT_TYPE_H2C RTW_PHL_PKT_TYPE_FWDL]. unfold txdes_proc_data.
    rewrite Z.eqb_refl. cbn [negb]. repeat (case_match; [done|]). case_match; [|done].
    destruct (qsel_of m); [|done..]. cbn [mbind res_bind]. destruct (byte_at _ _); [|done..]. cbn [mbind res_bind].
    intros <-%ret_inr. apply finish_len; [apply len_put_le32|]. unfold wd_info. apply len_put_le32.
  - cbn [Z.eqb Pos.eqb orb RTW_PHL_PKT_TYPE_DATA RTW_PHL_PKT_TYPE_H2C RTW_PHL_PKT_TYPE_FWDL RTW_PHL_PKT_TYPE_MGNT].
    unfold txdes_proc_mgnt. rewrite Z.eqb_refl. cbn [negb]. case_match; [done|]. case_match; [|done].
    intros <-%ret_inr. apply finish_len; [apply len_put_le32|]. unfold wd_info. apply len_put_le32.
Qed.

Lemma fill_txdesc_total ad m :
  (m_type m = RTW_PHL_PKT_TYPE_DATA /\ (0 <= m_tid m < 8 \/ 0 <= m_tid m /\ MAC_AX_DATA_HIQ <= m_dma_ch m)) \/ m_type m = RTW_PHL_PKT_TYPE_MGNT ->
  exists w, rtw_hal_mac_ax_fill_txdesc ad m = Ret w.
Proof.
  intros Ht. unfold rtw_hal_mac_ax_fill_txdesc, mac_build_txdesc. destruct Ht as [[-> Ht] | ->]; [|by eexists].
  cbn [Z.eqb orb RTW_PHL_PKT_TYPE_DATA RTW_PHL_PKT_TYPE_H2C RTW_PHL_PKT_TYPE_FWDL]. unfold txdes_proc_data.
  case_match; [by eexists|]. case_match eqn:E; [by eexists|]. case_match; [by eexists|]. case_match; [|by eexists].
  apply Z.ltb_ge in E. assert (Q : exists q, qsel_of m = Ret q).
  { unfold qsel_of. destruct (Z.eqb_spec (m_dma_ch m) MAC_AX_DATA_HIQ) as [Ed|Ed]; [by eexists|].
    destruct Ht as [Ht|Ht]; [|lia]. destruct (byte_at_some qsel_l (m_tid m)) as (x & -> & _); [done|]. by eexists. }
  destruct Q as [q ->]. cbn [mbind res_bind].
  assert (C : 0 <= clamp_tid m < 8).
  { unfold clamp_tid. unfold TID_MAX_NUM. destruct (Z.leb_spec 8 (m_tid m)); lia. }
  destruct (byte_at_some tid_ind (clamp_tid m)) as (x & -> & _); [done|]. by eexists.
Qed.

(** ** What is in a buffer *)

(** The frames [l], each a descriptor with its payload, in the bytes [d]: each starts at a
    multiple of 8, what is in between is not defined, and no descriptor but the first one
    ends where a packet of the bus does. *)
Inductive packed (c : cfg) : list xmit_req -> list Z -> Prop :=
  | packed_nil : packed c [] []
  | packed_snoc l d pad r wd :
      packed c l d -> rtw_hal_mac_ax_fill_txdesc (hal c) (mdata r) = Ret (inr wd) ->
      zlen pad < 8 -> zlen (d ++ pad) mod 8 = 0 ->
      (l <> [] -> zlen (d ++ pad ++ wd) mod bulk_size c <> 0) ->
      packed c (l ++ [r]) (d ++ pad ++ wd ++ payload r).

Record cfg_ok (c : cfg) : Prop := {
  co_size : 0 < tx_buf_size c < 2 ^ 30;
  co_align : tx_buf_size c mod 8 = 0;
  co_bulk : 0 < bulk_size c;
  co_usb : intf (hal c) = MAC_AX_INTF_USB
}.

(** A request with its meta data filled in, for a buffer of [size] bytes. *)
Record filled_ok (ty size : Z) (r : xmit_req) : Prop := {
  fo_type : m_type (mdata r) = ty;
  fo_chan : (ty = RTW_PHL_PKT_TYPE_DATA /\
             (0 <= m_tid (mdata r) < 8 \/ 0 <= m_tid (mdata r) /\ MAC_AX_DATA_HIQ <= m_dma_ch (mdata r)))
            \/ ty = RTW_PHL_PKT_TYPE_MGNT;
  fo_wdinfo : m_wdinfo_en (mdata r) = 0 \/ m_wdinfo_en (mdata r) = 1;
  fo_ofst : m_usb_pkt_ofst (mdata r) <> 1;
  fo_len : total_len r = zlen (payload r) /\ total_len r < 2 ^ 30;
  fo_fits : ty <> RTW_PHL_PKT_TYPE_DATA -> 48 + total_len r <= size
}.

(** Between two requests: [sent] is in the buffer. *)
Record agg_inv (c : cfg) (size : Z) (sent : list xmit_req) (a : agg) : Prop := {
  ai_size : zlen (a_buf a) = size;
  ai_packed : packed c sent (ztake (a_tx_len a) (a_buf a));
  ai_len : a_off a + a_packet_len a = a_tx_len a /\ a_tx_len a <= size;
  ai_off : 0 <= a_off a /\ a_off a mod 8 = 0 /\ 0 <= a_packet_len a;
  ai_cnt : a_cnt a = u8 (zlen sent);
  ai_ok : a_ok a = true <-> sent <> [];
  ai_empty : (sent = [] -> a_tx_len a = 0) /\ (sent <> [] -> 24 <= a_tx_len a)
}.

Lemma ztake_split {A} a b (l : list A) : 0 <= a <= b -> ztake b l = ztake a l ++ ztake (b - a) (zdrop a l).
Proof.
  intros H. unfold ztake, zdrop. rewrite <- (take_drop (Z.to_nat a) (take (Z.to_nat b) l)) at 1.
  rewrite take_take, Nat.min_l by lia. f_equal. rewrite skipn_firstn_comm. f_equal. lia.
Qed.

Section agg.
Context (c : cfg) (size ty : Z) (Hc : cfg_ok c) (Hs : ty = RTW_PHL_PKT_TYPE_DATA -> size = tx_buf_size c) (Hs2 : size < 2 ^ 30).

Definition wdl (r : xmit_req) : Z := if m_wdinfo_en (mdata r) =? 1 then MAX_WD_LEN else MAX_WD_BODY_LEN.

Lemma wdl_len r wd : filled_ok ty size r -> rtw_hal_mac_ax_fill_txdesc (hal c) (mdata r) = Ret (inr wd) -> zlen wd = wdl r.
Proof.
  intros F E. unfold wdl. apply fill_txdesc_len in E; [|rewrite (fo_type _ _ _ F); destruct (fo_chan _ _ _ F) as [[-> _]|]; auto].
  rewrite E. destruct (fo_wdinfo _ _ _ F) as [-> | ->]; done.
Qed.

Lemma wdl_range r : 24 <= wdl r <= 48.
Proof. unfold wdl, MAX_WD_LEN, MAX_WD_BODY_LEN. case_match; lia. Qed.

(** Where [place] puts a request. *)
Lemma place_spec sent a r off tl :
  agg_inv c size sent a -> filled_ok ty size r -> (ty = RTW_PHL_PKT_TYPE_DATA \/ sent = []) ->
  place c a r = Some (off, tl) ->
  tl = off /\ off mod 8 = 0 /\ a_tx_len a <= off < a_tx_len a + 8 /\ off + wdl r + total_len r <= size /\
  (a_tx_len a <> 0 -> (off + wdl r) mod bulk_size c <> 0).
Proof.
  intros [_ _ [L1 L2] (O1 & O2 & O3) _ _ Em] F Ht. destruct Hc as [C1 C2 C3]. unfold place. fold (wdl r).
  destruct (fo_len _ _ _ F) as [E1 E2]. pose proof (zlen_nonneg (payload r)). pose proof (wdl_range r).
  rewrite (u32_id (wdl r + total_len r)) by (unfold is_u32; lia).
  destruct (align8_spec (wdl r + total_len r)) as [A1 A2]; [lia|].
  destruct (align8_spec (a_packet_len a)) as [A3 A4]; [lia|].
  set (al := align8 (wdl r + total_len r)) in *. set (pa := align8 (a_packet_len a)) in *.
  rewrite (u32_id (al + a_tx_len a)) by (unfold is_u32; lia).
  destruct (Z.ltb_spec (tx_buf_size c) (al + a_tx_len a)) as [|G]; [done|]. rewrite (fo_type _ _ _ F).
  destruct (Z.eqb_spec ty RTW_PHL_PKT_TYPE_DATA) as [T|T].
  - rewrite (u32_id (a_tx_len a + wdl r + pa - a_packet_len a)) by (unfold is_u32; lia).
    destruct (negb _ && _) eqn:B; [done|]. intros [= <- <-]. rewrite Hs by done.
    split; [destruct (Z.ltb_spec (a_packet_len a) pa); [rewrite u32_id by (unfold is_u32; lia); lia|lia]|].
    split; [dlia|]. split; [lia|]. split; [dlia|]. intros Hz.
    apply andb_false_iff in B as [B|B]; [apply negb_false_iff, Z.eqb_eq in B; done|].
    apply Z.eqb_neq in B. replace (a_off a + pa + wdl r) with (a_tx_len a + wdl r + pa - a_packet_len a) by lia. done.
  - intros [= <- <-]. destruct Ht as [|He]; [done|]. apply (proj1 Em) in He. pose proof (fo_fits _ _ _ F T). split_all.
Qed.

Lemma place_first a r : agg_inv c size [] a -> filled_ok ty size r ->
  align8 (wdl r + total_len r) <= tx_buf_size c -> is_Some (place c a r).
Proof.
  intros [_ _ [L1 L2] (O1 & O2 & O3) _ _ Em] F Hf. destruct Hc as [C1 C2 C3]. assert (Em' := proj1 Em eq_refl).
  unfold place. fold (wdl r). destruct (fo_len _ _ _ F) as [E1 E2].
  pose proof (zlen_nonneg (payload r)). pose proof (wdl_range r).
  rewrite (u32_id (wdl r + total_len r)) by (unfold is_u32; lia).
  destruct (align8_spec (wdl r + total_len r)) as [A1 A2]; [lia|]. rewrite Em'.
  rewrite u32_id by (unfold is_u32; lia). destruct (Z.ltb_spec (tx_buf_size c) (align8 (wdl r + total_len r) + 0)); [lia|].
  case_match; by eexists.
Qed.

(** A request is copied behind what is there. *)
Lemma agg_step sent a r off tl wd tc ti :
  agg_inv c size sent a -> filled_ok ty size r -> (ty = RTW_PHL_PKT_TYPE_DATA \/ sent = []) ->
  place c a r = Some (off, tl) -> rtw_hal_mac_ax_fill_txdesc (hal c) (mdata r) = Ret (inr wd) ->
  exists b1 b2 len, blit (a_buf a) off wd = Ret b1 /\
    copy_pkts (pkt_list r) b1 (off + zlen wd + 0) (zlen wd + 0) = Ret (b2, len) /\
    agg_inv c size (sent ++ [r]) (mk_agg b2 off len (u32 (tl + len)) (u8 (a_cnt a + 1)) tc ti ty true).
Proof.
  intros I F Ht Hp Hw. destruct (place_spec sent a r off tl I F Ht Hp) as (-> & P1 & P2 & P3 & P4).
  pose proof (wdl_len r wd F Hw) as Lw. pose proof (wdl_range r). destruct (fo_len _ _ _ F) as [E1 E2].
  destruct I as [S1 S2 [L1 L2] (O1 & O2 & O3) Cn Ok Em]. pose proof (zlen_nonneg (payload r)).
  assert (Lp : zlen (ztake off (a_buf a)) = off) by (rewrite zlen_ztake; lia).
  rewrite <- (ztake_zdrop off (a_buf a)). set (p := ztake off (a_buf a)) in *. set (q := zdrop off (a_buf a)).
  assert (Lq : zlen q = size - off) by (unfold q; rewrite zlen_zdrop; lia).
  assert (Cp := copy_pkts_spec (pkt_list r) (p ++ wd) (zdrop (zlen wd) q) (off + zlen wd + 0) (zlen wd + 0)).
  fold (payload r) in Cp. rewrite zlen_zdrop in Cp by lia.
  rewrite zlen_app, <- app_assoc in Cp.
  exists (p ++ wd ++ zdrop (zlen wd) q). do 2 eexists. split; [apply blit_over; (done || lia)|]. split; [apply Cp; lia|].
  assert (Ln : zlen (p ++ wd ++ payload r) = off + zlen wd + zlen (payload r)) by (zlens; lia).
  assert (Tk : ztake (off + (zlen wd + 0 + zlen (payload r))) (p ++ wd ++ payload r ++ zdrop (zlen (payload r)) (zdrop (zlen wd) q))
               = p ++ wd ++ payload r).
  { rewrite (app_assoc wd), (app_assoc p), ztake_app by (rewrite Ln; lia). done. }
  split; cbn.
  - rewrite <- app_assoc. rewrite !zlen_app, !zlen_zdrop; rewrite ?zlen_zdrop; lia.
  - rewrite u32_id by (unfold is_u32; lia). rewrite <- app_assoc, Tk.
    unfold p. rewrite (ztake_split (a_tx_len a) off) by lia. rewrite <- app_assoc.
    apply packed_snoc; [done|done| | |].
    + rewrite zlen_ztake; [lia|]. rewrite zlen_zdrop; lia.
    + rewrite <- ztake_split by lia. fold p. by rewrite Lp.
    + intros Hn. rewrite app_assoc, <- ztake_split by lia. fold p. rewrite zlen_app, Lp, Lw. apply P4.
      specialize (proj2 Em Hn). lia.
  - rewrite u32_id by (unfold is_u32; lia). lia.
  - lia.
  - rewrite Cn, zlen_app, zlen_cons, zlen_nil. unfold u8. by rewrite Z.add_mod_idemp_l by lia.
  - split; [intros _ E; by apply app_nil in E as [_ ?]|done].
  - rewrite u32_id by (unfold is_u32; lia). split; [intros E; by apply app_nil in E as [_ ?]|lia].
Qed.

(** The loop as a whole: [k] requests are taken; if the last step succeeded, they are in the
    buffer, else the last one taken has no descriptor, or there was no room for the first. *)
Lemma agg_run l : forall sent a, agg_inv c size sent a -> Forall (filled_ok ty size) l ->
  (ty = RTW_PHL_PKT_TYPE_DATA \/ sent = []) -> (sent <> [] -> a_type a = ty) ->
  exists a' k, agg_loop c id l a = Ret (a', k) /\ (k <= length l)%nat /\ zlen (a_buf a') = size /\
    (a_ok a' = true -> agg_inv c size (sent ++ take k l) a' /\ a_type a' = ty) /\
    (a_ok a' = false -> sent ++ take k l = [] \/
       exists l' r e, take k l = l' ++ [r] /\ rtw_hal_mac_ax_fill_txdesc (hal c) (mdata r) = Ret (inl e)) /\
    (k = 0%nat -> sent = [] -> forall r, head l = Some r -> tx_buf_size c < align8 (wdl r + total_len r)) /\
    (ty <> RTW_PHL_PKT_TYPE_DATA -> (k <= 1)%nat).
Proof.
  induction l as [|r l IH]; intros sent a I F Ht Hty; cbn [agg_loop].
  { exists a, 0%nat. rewrite app_nil_r. split_all; [apply (ai_size _ _ _ _ I)| |].
    - intros E. split; [done|]. apply Hty. by apply (ai_ok _ _ _ _ I).
    - intros E. left. destruct sent; [done|]. rewrite (proj2 (ai_ok _ _ _ _ I)) in E; done. }
  apply Forall_cons in F as [F Fl]. change (id r) with r. destruct (place c a r) as [[off tl]|] eqn:Hp.
  - destruct (fill_txdesc_total (hal c) (mdata r)) as [[e|wd] Hw].
    { rewrite (fo_type _ _ _ F). destruct (fo_chan _ _ _ F) as [[-> ?]|]; auto. }
    + rewrite Hw. cbn [mbind res_bind]. do 2 eexists. split; [done|]. cbn.
      split_all; [apply (ai_size _ _ _ _ I)|]. intros _. right. by exists [], r, e.
    + destruct (agg_step sent a r off tl wd (trasc c (u32 (tl + 0)) 0 0).1 0 I F Ht Hp Hw) as (b1 & b2 & len & E1 & E2 & _).
      assert (G := λ tc ti, agg_step sent a r off tl wd tc ti I F Ht Hp Hw).
      rewrite Hw. cbn [mbind res_bind]. rewrite E1. cbn [mbind res_bind].
      destruct (Z.eqb_spec (m_usb_pkt_ofst (mdata r)) 1) as [Eo|_]; [by destruct (fo_ofst _ _ _ F)|].
      rewrite E2. cbn [mbind res_bind].
      assert (G' : ∀ tc ti, agg_inv c size (sent ++ [r]) (mk_agg b2 off len (u32 (tl + len)) (u8 (a_cnt a + 1)) tc ti ty true)).
      { intros tc ti. destruct (G tc ti) as (b1' & b2' & len' & E1' & E2' & I'). rewrite E1 in E1'. injection E1' as <-.
        rewrite E2 in E2'. injection E2' as <- <-. done. }
      rewrite (fo_type _ _ _ F). destruct (Z.eqb_spec ty RTW_PHL_PKT_TYPE_DATA) as [Et|Et]; cbn [negb].
      * destruct (trasc c _ _ _) as [tc ti]. destruct (max_bulkout_wd_num c <=? tc).
        -- do 2 eexists. split; [done|]. cbn. split_all. apply (ai_size _ _ _ _ (G' tc ti)).
        -- destruct (IH (sent ++ [r]) _ (G' tc ti) Fl (or_introl Et) ltac:(done)) as (a' & k & -> & Hk & S & O & B & _ & _).
           cbn [mbind res_bind]. do 2 eexists. split; [done|]. rewrite <- app_assoc in O, B. split_all; [cbn; lia|].
           intros Ea. destruct (B Ea) as [Bn|(l' & r' & e & Bt & Be)]; [by destruct sent|].
           right. exists (r :: l'), r', e. cbn. by rewrite Bt.
      * do 2 eexists. split; [done|]. cbn. split_all. apply (ai_size _ _ _ _ (G' 0 0)).
  - do 2 eexists. split; [done|]. cbn. rewrite app_nil_r. split_all.
    + apply (ai_size _ _ _ _ I).
    + intros E. split; [|apply (fo_type _ _ _ F)]. destruct I. by split.
    + intros E. left. destruct sent; [done|]. rewrite (proj2 (ai_ok _ _ _ _ I)) in E; done.
    + intros _ -> r' [= <-]. apply Z.nle_gt. intros L. destruct (place_first a r I F L) as [x Hx]. by rewrite Hp in Hx.
Qed.
End agg.

Lemma agg_loop_fill c fill l : forall a, agg_loop c fill l a = agg_loop c id (fill <$> l) a.
Proof.
  induction l as [|r l IH]; intros a; [done|]. cbn [agg_loop fmap list_fmap]. change (id (fill r)) with (fill r).
  destruct (place c a (fill r)) as [[off tl]|]; [|done].
  destruct (rtw_hal_mac_ax_fill_txdesc _ _) as [[e|wd]| |]; [done| |done..]. cbn [mbind res_bind].
  destruct (blit _ _ _); [|done..]. cbn [mbind res_bind]. destruct (copy_pkts _ _ _ _) as [[b len]| |]; [|done..].
  cbn [mbind res_bind]. destruct (negb _); [done|]. destruct (trasc _ _ _ _). destruct (_ <=? _); [done|]. by rewrite IH.
Qed.

Lemma agg_inv_0 c size b : zlen b = size -> 0 <= size -> agg_inv c size [] (agg0 b).
Proof. intros L H. split; cbn; [done|apply packed_nil|lia|by split_all|done..]. Qed.

(** ** One ring's turn *)

(** What core takes care of when it adds a request to ring [cat]: the type, the lengths, and
    room in the small buffers, which nobody checks for. *)
Record raw_ok (mg cat : Z) (r : xmit_req) : Prop := {
  ro_type : m_type (mdata r) = if cat =? MGMT_TID then RTW_PHL_PKT_TYPE_MGNT else RTW_PHL_PKT_TYPE_DATA;
  ro_wdinfo : m_wdinfo_en (mdata r) = 0 \/ m_wdinfo_en (mdata r) = 1;
  ro_ofst : m_usb_pkt_ofst (mdata r) <> 1;
  ro_len : total_len r = zlen (payload r) /\ total_len r < 2 ^ 30;
  ro_fits : cat = MGMT_TID -> 48 + total_len r <= mg;
  ro_normal : treq_type r = RTW_PHL_TREQ_TYPE_NORMAL
}.

(** The ring [cat] of a station on a band. *)
Record ring_wf (b cat : Z) (g : tx_ring) : Prop := {
  rw_tid : tid g = cat;
  rw_ch : dma_ch g = hal_mapping_hw_tx_chnl_8852au cat b;
  rw_cat : 0 <= cat < MAX_PHL_RING_CAT_NUM;
  rw_band : b = 0 \/ b = 1
}.

Definition ring_type (cat : Z) : Z := if cat =? MGMT_TID then RTW_PHL_PKT_TYPE_MGNT else RTW_PHL_PKT_TYPE_DATA.
Definition buf_len (c : cfg) (mg cat : Z) : Z := if cat =? MGMT_TID then mg else tx_buf_size c.

Lemma fill_ok c mg b cat g x r : ring_wf b cat g -> raw_ok mg cat r ->
  filled_ok (ring_type cat) (buf_len c mg cat) (fill_mdata x g r).
Proof.
  intros [W1 W2 W3 W4] [R1 R2 R3 R4 R5 _]. unfold ring_type, buf_len, MAX_PHL_RING_CAT_NUM in *. split; cbn; try done.
  - rewrite W1, W2. destruct (Z.eqb_spec cat MGMT_TID) as [E|E]; [by right|]. left. split; [done|].
    unfold MGMT_TID, MAC_AX_DATA_HIQ in *. destruct (decide (cat = 9)) as [->|]; [|lia]. right. split; [lia|].
    by destruct W4 as [-> | ->].
  - destruct (Z.eqb_spec cat MGMT_TID); [auto|done].
Qed.

(** The bytes of a transfer: the frames, with their number in the first descriptor when they
    are several; the number has 8 bits. *)
Definition transfer (c : cfg) (l : list xmit_req) (d : list Z) : Prop :=
  exists d0, packed c l d0 /\ l <> [] /\
    (if 1 <? u8 (zlen l) then usb_tx_agg_cfg_8852a d0 (u8 (zlen l)) = Ret d else d = d0).

Lemma agg_cfg_take b n k : 8 <= k <= zlen b ->
  exists b', usb_tx_agg_cfg_8852a b n = Ret b' /\ zlen b' = zlen b /\
    usb_tx_agg_cfg_8852a (ztake k b) n = Ret (ztake k b').
Proof.
  intros H. unfold usb_tx_agg_cfg_8852a. rewrite zlen_ztake by lia.
  destruct (Z.ltb_spec (zlen b) 8); [lia|]. destruct (Z.ltb_spec k 8); [lia|]. eexists. split; [done|].
  assert (E : le32_at (ztake k b) 4 = le32_at b 4).
  { unfold le32_at, ztake. rewrite !lookup_total_take, !decide_True by lia. done. }
  rewrite E. unfold ztake, zlen in *. set (w := put_le32 _). assert (Lw : length w = 4%nat) by done.
  split; [rewrite !length_app, length_take, length_drop; lia|]. f_equal.
  rewrite take_take, Nat.min_l by lia. rewrite take_app, take_take, Nat.min_r by lia. f_equal.
  rewrite length_take, Nat.min_l by lia. rewrite take_app, (take_ge w) by lia. f_equal. rewrite Lw, skipn_firstn_comm. f_equal. lia.
Qed.

(** What a turn does with the queue [l]: it sends its first [k] requests, or loses them
    since the bus refuses the transfer or the last of them gets no descriptor, or the first
    request is too long for any buffer. *)
Inductive turn_result (c : cfg) (ok : bool) (fill : xmit_req -> xmit_req) (l : list xmit_req) : nat -> option (list Z) -> Prop :=
  | turn_sent k d : ok = true -> (0 < k)%nat -> transfer c (fill <$> take k l) d -> turn_result c ok fill l k (Some d)
  | turn_lost k : (0 < k)%nat ->
      (ok = false \/ exists l' r e, fill <$> take k l = l' ++ [r] /\ rtw_hal_mac_ax_fill_txdesc (hal c) (mdata r) = Ret (inl e)) ->
      turn_result c ok fill l k None
  | turn_blocked r : head l = Some r -> tx_buf_size c < align8 (wdl (fill r) + total_len (fill r)) ->
      turn_result c ok fill l 0 None.

Definition after_turn (c : cfg) (x : ring_status) (cat : Z) (taken : list xmit_req) (ch : Z) (g' : tx_ring) (b : usb_buf)
    (o : option (list Z)) (s : phl) : phl :=
  let s := put_ring (ring_ptr x) g' (recycle_all c taken s) in
  phl_release_ring_sts x
    match o with
    | Some d => set_bufs (idle_txbuf s) (mgmt_txbuf s) (in_flight s ++ [b]) (emit (UsbTx (buf_id b) ch d) s)
    | None => put_buf (cat =? MGMT_TID) b s
    end.

Section turn.
Context (c : cfg) (mg b cat : Z) (Hc : cfg_ok c) (Hmg : 0 <= mg < 2 ^ 30).

Lemma buf_len_range : 0 <= buf_len c mg cat < 2 ^ 30.
Proof. unfold buf_len. destruct Hc. case_match; lia. Qed.

(** The loop from an empty buffer. *)
Lemma xmit_loop_spec x g l buf : ring_wf b cat g -> Forall (raw_ok mg cat) l -> zlen buf = buf_len c mg cat ->
  exists a k, agg_loop c (fill_mdata x g) l (agg0 buf) = Ret (a, k) /\ (k <= length l)%nat /\
    zlen (a_buf a) = buf_len c mg cat /\
    (a_ok a = true -> agg_inv c (buf_len c mg cat) (fill_mdata x g <$> take k l) a /\ a_type a = ring_type cat /\ (0 < k)%nat) /\
    (a_ok a = false -> k = 0%nat \/
       exists l' r e, fill_mdata x g <$> take k l = l' ++ [r] /\ rtw_hal_mac_ax_fill_txdesc (hal c) (mdata r) = Ret (inl e)) /\
    (k = 0%nat -> forall r, head l = Some r ->
       tx_buf_size c < align8 (wdl (fill_mdata x g r) + total_len (fill_mdata x g r))) /\
    (ring_type cat <> RTW_PHL_PKT_TYPE_DATA -> (k <= 1)%nat).
Proof.
  intros W F L. rewrite agg_loop_fill. pose proof buf_len_range as R.
  destruct (agg_run c (buf_len c mg cat) (ring_type cat) Hc) with (l := fill_mdata x g <$> l) (sent := @nil xmit_req) (a := agg0 buf)
    as (a & k & E & K & S & O & B & Z0 & K1).
  - unfold ring_type, buf_len. by case_match.
  - lia.
  - apply agg_inv_0; [done|lia].
  - apply Forall_fmap. eapply Forall_impl; [exact F|]. intros r Hr. by eapply fill_ok.
  - by right.
  - done.
  - rewrite length_fmap in K. rewrite <- fmap_take in O, B. cbn [app] in O, B. exists a, k.
    split_all.
    + intros Ea. destruct (O Ea) as [I T]. split_all. destruct k; [|lia].
      by destruct (proj1 (ai_ok _ _ _ _ I) Ea).
    + intros Ea. destruct (B Ea) as [N|N]; [left|by right]. apply fmap_nil_inv in N.
      destruct k, l; try done.
    + intros Ek r Hr. apply Z0; [done|done|]. by destruct l as [|r' l]; [|injection Hr as ->].
Qed.

(** What [_phl_handle_xmit_ring_usb] does with the ring. *)
Lemma handle_spec x tx_buf ok g l s :
  ring_at s (ring_ptr x) = Ret g -> ring_is g l -> ring_wf b cat g -> Forall (raw_ok mg cat) l ->
  0 < req_busy x <= zlen l -> phl_next_idx g = wrap_next (phl_idx g) -> zlen (buffer tx_buf) = buf_len c mg cat ->
  exists k o g' d, turn_result c ok (fill_mdata x g) l k o /\ (k <= length l)%nat /\
    ring_is g' (drop k l) /\ tid g' = tid g /\ dma_ch g' = dma_ch g /\ zlen d = buf_len c mg cat /\
    _phl_handle_xmit_ring_usb c ok x tx_buf s =
      Ret (after_turn c x cat (take k l) (dma_ch g) g' (mk_buf (buf_id tx_buf) d (type tx_buf)) o s).
Proof.
  intros Hg R W F Hb Hn Lb. set (n := Z.to_nat (req_busy x)).
  assert (Ln : (0 < n <= length l)%nat) by (unfold n, zlen in *; lia).
  destruct (xmit_loop_spec x g (take n l) (buffer tx_buf) W ltac:(by apply Forall_take) Lb) as (a & k & E & K & S & O & B & Z0 & K1).
  rewrite take_take in O, B. rewrite length_take, Nat.min_l in K by lia. rewrite Nat.min_l in O, B by lia.
  assert (X := xmit_loop_agg c x (ring_ptr x) (take n l) (drop n l) eq_refl g (agg0 (buffer tx_buf)) s Hg).
  rewrite take_drop in X. specialize (X R ltac:(done)). rewrite E in X. rewrite length_take, Nat.min_l in X by lia.
  destruct X as (g' & X & _ & R' & T1 & T2).
  rewrite take_take, Nat.min_l in X by lia.
  assert (R2 : ring_is g' (drop k l)).
  { rewrite <- (take_drop n l), drop_app, length_take, Nat.min_l by lia.
    by replace (k - n)%nat with 0%nat by lia; rewrite drop_0. }
  unfold _phl_handle_xmit_ring_usb. rewrite Hg. cbn [mbind res_bind]. fold n. rewrite X. cbn [mbind res_bind].
  destruct (a_ok a) eqn:Ea; cbn [andb].
  - destruct (O eq_refl) as ([I1 I2 [_ I3] _ I5 _ [_ I7]] & Ty & K0). set (fl := fill_mdata x g <$> take k l) in *.
    assert (Lf : zlen fl = Z.of_nat k) by (unfold fl, zlen; rewrite length_fmap, length_take; lia).
    assert (Hf : fl <> []) by (intros E0; rewrite E0, zlen_nil in Lf; lia). specialize (I7 Hf).
    assert (Cd : (a_type a =? RTW_PHL_PKT_TYPE_DATA) && (1 <? a_cnt a) = (1 <? u8 (zlen fl))).
    { rewrite Ty, I5. destruct (Z.eqb_spec (ring_type cat) RTW_PHL_PKT_TYPE_DATA) as [|Nd]; [done|].
      specialize (K1 Nd). rewrite Lf. assert (k = 1%nat) as -> by lia. done. }
    rewrite Cd, I5. destruct (agg_cfg_take (a_buf a) (u8 (zlen fl)) (a_tx_len a)) as (b' & A1 & A2 & A3); [lia|].
    set (d := if 1 <? u8 (zlen fl) then b' else a_buf a).
    assert (Ed : (if 1 <? u8 (zlen fl) then usb_tx_agg_cfg_8852a (a_buf a) (u8 (zlen fl)) else Ret (a_buf a)) = Ret d)
      by (unfold d; case_match; done).
    assert (Ld : zlen d = buf_len c mg cat) by (unfold d; case_match; lia).
    assert (Tr : transfer c fl (ztake (a_tx_len a) d)).
    { exists (ztake (a_tx_len a) (a_buf a)). split; [done|]. split; [done|]. unfold d. by case_match. }
    rewrite Ed. cbn [mbind res_bind]. destruct ok.
    + exists k, (Some (ztake (a_tx_len a) d)), g', d. split; [by constructor|]. split_all.
    + exists k, None, g', d. split; [apply turn_lost; [done|by left]|]. split_all.
      unfold after_turn. by rewrite <- (rw_tid _ _ _ W).
  - exists k, None, g', (a_buf a). split.
    + destruct k as [|k]; [|apply turn_lost; [lia|]; destruct (B eq_refl) as [|B']; [done|by right]].
      destruct l as [|r l]; [cbn in Ln; lia|]. apply (turn_blocked _ _ _ _ r); [done|]. apply Z0; [done|].
      by destruct n; [lia|].
    + split_all. unfold after_turn. by rewrite <- (rw_tid _ _ _ W).
Qed.
End turn.
End PhlRing.
