(* ===== verification/PhlPlan.v ===== *)
(** * The plan of a turn

    Which rings a turn of the transmit tasklet serves, and in which order
    ([phl_check_xmit_ring_resource] and [phl_tx_flow_ctrl] of [PhlTx]). *)

From stdpp Require Import functions list sorting.
From S2P Require Import Prelude Bytes TxDesc PhlTx PhlRing.
Import TxDesc PhlTx PhlRing.

Module PhlPlan.

(** ** One ring list of the heap *)

Definition put_tring (id : nat) (t : tring_list) (s : phl) : phl := on_tring id (λ _, t) s.

Lemma tring_at_inv s id t : tring_at s id = Ret t -> trings s !! id = Some (Some t).
Proof. unfold tring_at. by destruct (trings s !! id) as [[?|]|]; [intros [= ->]|..]. Qed.

Lemma tring_at_some s id t : trings s !! id = Some (Some t) -> tring_at s id = Ret t.
Proof. unfold tring_at. by intros ->. Qed.

Lemma on_tring_put id f t s : tring_at s id = Ret t -> on_tring id f s = put_tring id (f t) s.
Proof.
  intros E%tring_at_inv. unfold put_tring, on_tring. f_equal. apply list_eq. intros i.
  destruct (decide (id = i)) as [<-|]; [|by rewrite !list_lookup_alter_ne by done].
  by rewrite !list_lookup_alter_eq, E.
Qed.

Lemma put_tring_put id t1 t2 s : put_tring id t2 (put_tring id t1 s) = put_tring id t2 s.
Proof.
  unfold put_tring, on_tring, set_trings. cbn. f_equal. rewrite list_alter_alter_eq.
  apply list_alter_ext; [|done]. by intros [?|].
Qed.

Lemma put_tring_same id t s : tring_at s id = Ret t -> put_tring id t s = s.
Proof.
  intros E. assert (on_tring id (λ t, t) s = put_tring id t s) as <- by (by apply (on_tring_put id (λ t, t))).
  unfold on_tring, set_trings. destruct s; cbn. f_equal. apply list_alter_id. by intros [?|].
Qed.

Lemma tring_at_put id t t' s : tring_at s id = Ret t -> tring_at (put_tring id t' s) id = Ret t'.
Proof. intros E%tring_at_inv. apply tring_at_some. cbn. by rewrite list_lookup_alter_eq, E. Qed.

Lemma tring_at_put_ne id id' t s : id <> id' -> tring_at (put_tring id t s) id' = tring_at s id'.
Proof. intros. unfold tring_at, put_tring, on_tring. cbn. by rewrite list_lookup_alter_ne. Qed.

Lemma ring_at_tring s p t : tring_at s p.1 = Ret t ->
  ring_at s p = match phl_ring t !! p.2 with Some g => Ret g | None => Oob end.
Proof. intros E. unfold ring_at. by rewrite E. Qed.

(** ** The rings of one station *)

Definition avail (g : tx_ring) : Z := phl_calc_avail_rptr (phl_idx g) (core_idx g) MAX_PHL_RING_ENTRY_NUM.
Definition nonempty (t : tring_list) (i : nat) : Prop :=
  match phl_ring t !! i with Some g => avail g <> 0 | None => False end.
#[export] Instance nonempty_dec t i : Decision (nonempty t i).
Proof. unfold nonempty. case_match; apply _. Defined.

Definition cat_of (x : ring_status) : nat := (ring_ptr x).2.
Definition status_for (id : nat) (t : tring_list) (n i : nat) : ring_status :=
  mk_sts n (macid t) (band t) (wmm t) (port t)
    (match phl_ring t !! i with Some g => avail g | None => 0 end) (id, i).

(** The states that the rings [cats] with requests get, as long as there are idle ones. *)
Definition statuses (id : nat) (t : tring_list) (idle cats : list nat) : list ring_status :=
  zip_with (status_for id t) idle (filter (nonempty t) cats).

Definition ready (g : tx_ring) : tx_ring := set_next_idx (wrap_next (phl_idx g)) g.
Definition make_ready (l : list nat) (t : tring_list) : tring_list :=
  set_rings (foldl (λ r i, alter ready i r) (phl_ring t) l) t.

(** [_phl_sort_ring_by_tid] with the categories for the identifiers. *)
Definition sort_cat (p : phl_tx_plan) (x : ring_status) : phl_tx_plan :=
  if decide (cat_of x = 1%nat) then set_sorted (sorted_ring p ++ [x]) p
  else if decide (cat_of x = 2%nat) then
    match last (sorted_ring p) with
    | Some y => set_sorted (if decide (cat_of y = 1%nat) then removelast (sorted_ring p) ++ [x; y] else sorted_ring p ++ [x]) p
    | None => set_sorted (sorted_ring p ++ [x]) p
    end
  else mk_plan (sleep p) (has_mgnt p || bool_decide (cat_of x = 8%nat)) (has_hiq p || bool_decide (cat_of x = 9%nat))
         (x :: sorted_ring p).

Definition tids_ok (t : tring_list) : Prop := forall i g, phl_ring t !! i = Some g -> tid g = Z.of_nat i.

Lemma foldl_alter_lookup (l : list nat) (r : list tx_ring) i :
  i ∉ l -> foldl (λ r i, alter ready i r) r l !! i = r !! i.
Proof.
  revert r; induction l as [|j l IH]; intros r Hi; [done|]. cbn. rewrite not_elem_of_cons in Hi.
  rewrite IH by tauto. apply list_lookup_alter_ne. naive_solver.
Qed.

Lemma make_ready_lookup t l i :
  phl_ring (make_ready l t) !! i = (λ g, if decide (i ∈ l) then ready g else g) <$> phl_ring t !! i.
Proof.
  cbn. generalize (phl_ring t) as r. induction l as [|j l IH]; intros r; cbn.
  - destruct (r !! i); [|done]. cbn. rewrite decide_False; [done|apply not_elem_of_nil].
  - rewrite IH. destruct (decide (j = i)) as [->|Hn].
    + rewrite list_lookup_alter_eq. destruct (r !! i); [|done]. cbn. f_equal.
      rewrite (decide_True (P := i ∈ i :: l)) by apply list_elem_of_here. by case_decide.
    + rewrite list_lookup_alter_ne by done. destruct (r !! i); [|done]. cbn. f_equal.
      apply decide_ext. rewrite elem_of_cons. naive_solver.
Qed.

Lemma avail_ready g : avail (ready g) = avail g.
Proof. done. Qed.

Lemma statuses_ready id t l p idle cats : statuses id (set_plan p (make_ready l t)) idle cats = statuses id t idle cats.
Proof.
  unfold statuses. assert (E : ∀ i, nonempty (set_plan p (make_ready l t)) i <-> nonempty t i).
  { intros i. unfold nonempty. cbn [phl_ring set_plan]. rewrite make_ready_lookup.
    destruct (phl_ring t !! i); [|done]. cbn. by case_decide. }
  rewrite (list_filter_iff (nonempty (set_plan p (make_ready l t))) (nonempty t)) by done.
  apply zip_with_ext; [|done..]. intros n i. unfold status_for. cbn [phl_ring set_plan macid band wmm port make_ready set_rings].
  f_equal. change (foldl _ (phl_ring t) l) with (phl_ring (make_ready l t)). rewrite make_ready_lookup.
  destruct (phl_ring t !! i); [|done]. cbn. by case_decide.
Qed.

Lemma tids_ready t l p : tids_ok t -> tids_ok (set_plan p (make_ready l t)).
Proof.
  intros T i g. cbn [phl_ring set_plan]. rewrite make_ready_lookup. destruct (phl_ring t !! i) as [h|] eqn:E; [|done].
  cbn. intros [= <-]. rewrite <- (T i h E). by case_decide.
Qed.

(** The states of a plan point to rings of its list. *)
Definition own_ring (id : nat) (t : tring_list) (x : ring_status) : Prop :=
  (ring_ptr x).1 = id /\ is_Some (phl_ring t !! cat_of x).

Lemma own_ready id t l p x : own_ring id t x -> own_ring id (set_plan p (make_ready l t)) x.
Proof.
  intros [E [g Hg]]. split; [done|]. cbn [phl_ring set_plan]. rewrite make_ready_lookup, Hg. by eexists.
Qed.

Lemma own_ring_at s id t x : tring_at s id = Ret t -> tids_ok t -> own_ring id t x ->
  exists g, ring_at s (ring_ptr x) = Ret g /\ tid g = Z.of_nat (cat_of x).
Proof.
  intros Et T [E [g Hg]]. exists g. rewrite <- E in Et. rewrite (ring_at_tring _ _ _ Et). unfold cat_of in Hg.
  rewrite Hg. split; [done|]. by apply T.
Qed.

Lemma sort_cat_spec s id t x p : tring_at s id = Ret t -> tids_ok t -> Forall (own_ring id t) (x :: sorted_ring p) ->
  _phl_sort_ring_by_tid s x p (Z.of_nat (cat_of x)) = Ret (sort_cat p x).
Proof.
  intros Et T [Hx F]%Forall_cons. unfold _phl_sort_ring_by_tid, sort_cat.
  destruct (own_ring_at s id t x Et T Hx) as (g & Eg & Tg). rewrite Eg. cbn [mbind res_bind]. rewrite Tg.
  destruct (Z.eqb_spec (Z.of_nat (cat_of x)) 1); [rewrite decide_True by lia; done|]. rewrite decide_False by lia.
  destruct (Z.eqb_spec (Z.of_nat (cat_of x)) 2); [rewrite decide_True by lia|rewrite decide_False by lia].
  - destruct (last (sorted_ring p)) as [y|] eqn:El; [|done].
    assert (Hy : own_ring id t y).
    { apply last_Some_elem_of in El. by eapply Forall_forall. }
    destruct (own_ring_at s id t y Et T Hy) as (h & Eh & Th). rewrite Eh. cbn [mbind res_bind]. rewrite Th. do 2 f_equal.
    destruct (Z.eqb_spec (Z.of_nat (cat_of y)) 1); [rewrite decide_True by lia|rewrite decide_False by lia]; done.
  - do 2 f_equal; f_equal.
    + unfold RTW_PHL_RING_CAT_MGNT. destruct (Z.eqb_spec (Z.of_nat (cat_of x)) 8); symmetry;
        [apply bool_decide_eq_true|apply bool_decide_eq_false]; lia.
    + unfold RTW_PHL_RING_CAT_MGNT, RTW_PHL_RING_CAT_HIQ.
      destruct (Z.eqb_spec (Z.of_nat (cat_of x)) 8), (Z.eqb_spec (Z.of_nat (cat_of x)) 9); cbn; symmetry;
        first [apply bool_decide_eq_true; lia|apply bool_decide_eq_false; lia].
Qed.

Lemma sort_cat_elems p x y : y ∈ sorted_ring (sort_cat p x) <-> y = x \/ y ∈ sorted_ring p.
Proof.
  unfold sort_cat. case_decide; [cbn; rewrite elem_of_app, list_elem_of_singleton; tauto|].
  case_decide; [|cbn; by rewrite elem_of_cons]. destruct (last (sorted_ring p)) as [z|] eqn:El; cbn.
  - apply last_Some in El as [l' ->]. rewrite removelast_last.
    case_decide; rewrite ?elem_of_app, ?elem_of_cons, ?elem_of_nil, ?elem_of_app, ?list_elem_of_singleton; tauto.
  - apply last_None in El as ->. cbn. rewrite list_elem_of_singleton, elem_of_nil. tauto.
Qed.

Lemma make_ready_set_plan l p t : make_ready l (set_plan p t) = set_plan p (make_ready l t).
Proof. done. Qed.

Lemma alive_rings s id t i : tring_at s id = Ret t -> ring_at s (id, i) = match phl_ring t !! i with Some g => Ret g | None => Oob end.
Proof. intros E. by apply (ring_at_tring s (id, i)). Qed.

Lemma put_ring_tring id i g t s : tring_at s id = Ret t -> phl_ring t !! i = Some g ->
  on_ring (id, i) (set_next_idx (wrap_next (phl_idx g))) s = put_tring id (make_ready [i] t) s.
Proof.
  intros Et Eg. unfold on_ring. cbn [fst snd]. rewrite (on_tring_put id _ t) by done. f_equal. unfold make_ready. cbn [foldl].
  f_equal. apply list_eq. intros j. destruct (decide (i = j)) as [<-|]; [|by rewrite !list_lookup_alter_ne].
  by rewrite !list_lookup_alter_eq, Eg.
Qed.

Lemma tring_at_idle s l id : tring_at (set_idle l s) id = tring_at s id.
Proof. done. Qed.

Lemma put_tring_idle id t l s : put_tring id t (set_idle l s) = set_idle l (put_tring id t s).
Proof. done. Qed.

Lemma set_idle_idle l1 l2 s : set_idle l1 (set_idle l2 s) = set_idle l1 s.
Proof. done. Qed.

(** A ring with requests gets the first idle state. *)
Lemma check_rings_step id i cats s t g n idle : tring_at s id = Ret t -> tids_ok t ->
  Forall (own_ring id t) (sorted_ring (tx_plan t)) -> phl_ring t !! i = Some g -> avail g <> 0 ->
  ring_sts_idle s = n :: idle ->
  let x := status_for id t n i in
  check_rings id (i :: cats) s =
  check_rings id cats (put_tring id (set_plan (sort_cat (tx_plan t) x) (make_ready [i] t)) (set_idle idle s)).
Proof.
  intros Et T O Eg E0 Ei x. cbn [check_rings]. unfold _phl_check_ring_status. cbn [fst snd].
  rewrite Et. cbn [mbind res_bind]. rewrite (alive_rings s id t i Et), Eg. cbn [mbind res_bind]. fold (avail g).
  destruct (Z.eqb_spec (avail g) 0); [done|]. rewrite Ei. cbn [mbind res_bind].
  assert (Ex : mk_sts n (macid t) (band t) (wmm t) (port t) (avail g) (id, i) = x)
    by (unfold x, status_for; by rewrite Eg). rewrite Ex.
  rewrite (put_ring_tring id i g t) by done. set (s1 := put_tring id (make_ready [i] t) (set_idle idle s)).
  assert (E1 : tring_at s1 id = Ret (make_ready [i] t)) by (eapply tring_at_put; rewrite tring_at_idle; exact Et).
  rewrite E1. cbn [mbind res_bind].
  assert (Es : _phl_sort_ring_by_tid s1 x (tx_plan (make_ready [i] t)) (Z.of_nat i) = Ret (sort_cat (tx_plan t) x)).
  { apply (sort_cat_spec s1 id (make_ready [i] t) x (tx_plan t)); [done|apply (tids_ready t [i] plan0 T)|].
    apply Forall_cons. split; [apply (own_ready id t [i] plan0); split; [done|by exists g]|].
    eapply Forall_impl; [exact O|]. intros y. apply (own_ready id t [i] plan0). }
  rewrite Es. cbn [mbind res_bind]. rewrite (on_tring_put id _ (make_ready [i] t)) by done. f_equal.
  unfold s1. apply put_tring_put.
Qed.

(** The rings of a station: each with requests gets a state. *)
Lemma check_rings_spec id cats : forall s t, tring_at s id = Ret t -> tids_ok t ->
  Forall (own_ring id t) (sorted_ring (tx_plan t)) -> Forall (λ i, is_Some (phl_ring t !! i)) cats ->
  let X := statuses id t (ring_sts_idle s) cats in
  check_rings id cats s =
    Ret (set_idle (drop (length X) (ring_sts_idle s))
           (put_tring id (set_plan (foldl sort_cat (tx_plan t) X) (make_ready (cat_of <$> X) t)) s)).
Proof.
  induction cats as [|i cats IH]; intros s t Et T O F.
  { unfold statuses. cbn. rewrite zip_with_nil_r. cbn.
    replace (set_plan (tx_plan t) (make_ready [] t)) with t by (by destruct t).
    rewrite put_tring_same by done. by destruct s. }
  apply Forall_cons in F as [[g Eg] F]. unfold statuses. rewrite filter_cons.
  assert (Hn : nonempty t i <-> avail g <> 0) by (unfold nonempty; by rewrite Eg).
  destruct (decide (nonempty t i)) as [Hi|Hi].
  2:{ cbn [check_rings]. unfold _phl_check_ring_status. cbn [fst snd].
      rewrite Et. cbn [mbind res_bind]. rewrite (alive_rings s id t i Et), Eg. cbn [mbind res_bind]. fold (avail g).
      destruct (Z.eqb_spec (avail g) 0); [by apply IH|tauto]. }
  destruct (ring_sts_idle s) as [|n idle] eqn:Ei.
  { cbn [check_rings]. unfold _phl_check_ring_status. cbn [fst snd].
    rewrite Et. cbn [mbind res_bind]. rewrite (alive_rings s id t i Et), Eg, Ei. cbn [mbind res_bind].
    specialize (IH s t Et T O F). rewrite Ei in IH. destruct (_ =? 0); exact IH. }
  rewrite (check_rings_step id i cats s t g n idle) by tauto. cbn [zip_with length drop foldl fmap list_fmap].
  set (x := status_for id t n i). set (t1 := set_plan _ _). assert (Ox : own_ring id t x) by (split; [done|by exists g]).
  rewrite (IH _ t1).
  - cbv zeta. change (ring_sts_idle (put_tring id t1 (set_idle idle s))) with idle.
    assert (Es : statuses id t1 idle cats = statuses id t idle cats) by apply statuses_ready. rewrite Es.
    by rewrite !put_tring_idle, set_idle_idle, put_tring_put.
  - eapply tring_at_put. rewrite tring_at_idle. exact Et.
  - by apply tids_ready.
  - apply Forall_forall. intros y [-> | Hy]%sort_cat_elems; [by apply own_ready|]. apply own_ready. by eapply Forall_forall in O.
  - eapply Forall_impl; [exact F|]. intros j [h Hj]. unfold t1. cbn [phl_ring set_plan]. rewrite make_ready_lookup, Hj. by eexists.
Qed.
(** ** The order of a station's rings *)

Definition by_cat (X : list ring_status) : Prop := StronglySorted (λ x y, (cat_of x < cat_of y)%nat) X.

Lemma statuses_cat id t idle cats x : x ∈ statuses id t idle cats -> cat_of x ∈ cats /\ (ring_ptr x).1 = id /\ nonempty t (cat_of x).
Proof.
  intros (n & i & -> & _ & Hn)%elem_of_zip_with. apply list_elem_of_filter in Hn as [Hn Hc]. done.
Qed.

Lemma statuses_sorted id t cats : StronglySorted lt cats -> forall idle, by_cat (statuses id t idle cats).
Proof.
  induction 1 as [|i cats S IH F]; intros idle; [unfold statuses; cbn; rewrite zip_with_nil_r; constructor|].
  unfold statuses. rewrite filter_cons. case_decide; [|apply IH]. destruct idle as [|n idle]; [constructor|].
  constructor; [apply IH|]. apply Forall_forall. intros x [Hx _]%statuses_cat. by eapply Forall_forall in F.
Qed.

Lemma seq_sorted m n : StronglySorted lt (seq m n).
Proof.
  revert m; induction n as [|n IH]; intros m; constructor; [apply IH|]. apply Forall_forall. intros i Hi%elem_of_seq. lia.
Qed.

Lemma by_cat_split k X : by_cat X -> X = filter (λ x, cat_of x < k)%nat X ++ filter (λ x, k <= cat_of x)%nat X.
Proof.
  induction 1 as [|x X S IH F]; [done|]. rewrite !filter_cons. case_decide; case_decide; try lia.
  - by rewrite <- app_comm_cons, <- IH.
  - rewrite (filter_none _ X); [|eapply Forall_impl; [exact F|]; intros y Hy; cbn in *; lia].
    cbn. f_equal. symmetry. apply filter_all. eapply Forall_impl; [exact F|]. intros y Hy. cbn in *. lia.
Qed.

Lemma by_cat_filter X (P : ring_status -> Prop) `{!∀ x, Decision (P x)} : by_cat X -> by_cat (filter P X).
Proof.
  induction 1 as [|x X S IH F]; [constructor|]. rewrite filter_cons. case_decide; [|done]. constructor; [done|].
  apply Forall_forall. intros y [_ Hy]%list_elem_of_filter. by eapply Forall_forall in F.
Qed.

Definition of_cat (c : nat) (X : list ring_status) : list ring_status := filter (λ x, cat_of x = c) X.

Lemma of_cat_single c X : by_cat X -> of_cat c X = [] \/ exists x, of_cat c X = [x] /\ cat_of x = c.
Proof.
  intros S%(by_cat_filter X (λ x, cat_of x = c)). fold (of_cat c X) in S.
  destruct (of_cat c X) as [|x [|y l]] eqn:E; [by left|right; exists x; split; [done|]|].
  - assert (Hx : x ∈ of_cat c X) by (rewrite E; apply list_elem_of_here). by apply list_elem_of_filter in Hx as [? _].
  - assert (Hx : x ∈ of_cat c X) by (rewrite E; apply list_elem_of_here). apply list_elem_of_filter in Hx as [Hx _].
    assert (Hy : y ∈ of_cat c X) by (rewrite E; apply list_elem_of_further, list_elem_of_here). apply list_elem_of_filter in Hy as [Hy _].
    inversion_clear S as [|? ? _ F]. apply Forall_cons in F as [F _]. lia.
Qed.

(** From the front: the special rings and the traffic identifiers downwards, but 0, 2, 1. *)
Definition high (X : list ring_status) : list ring_status := filter (λ x, 3 <= cat_of x)%nat X.
Definition sorted (X : list ring_status) : list ring_status := reverse (high X) ++ of_cat 0 X ++ of_cat 2 X ++ of_cat 1 X.

Definition has_cat (c : nat) (X : list ring_status) : bool := bool_decide (of_cat c X <> []).

Lemma has_cat_cons c x X : has_cat c (x :: X) = bool_decide (cat_of x = c) || has_cat c X.
Proof.
  unfold has_cat, of_cat. rewrite filter_cons. case_decide as Hd.
  - by rewrite (bool_decide_eq_true_2 (cat_of x = c)), (bool_decide_eq_true_2 (_ :: _ <> [])).
  - by rewrite (bool_decide_eq_false_2 (cat_of x = c)).
Qed.

Lemma sort_high X p : Forall (λ x, 3 <= cat_of x)%nat X ->
  foldl sort_cat p X = mk_plan (sleep p) (has_mgnt p || has_cat 8 X) (has_hiq p || has_cat 9 X) (reverse X ++ sorted_ring p).
Proof.
  intros F. revert p. induction F as [|x X Hx F IH]; intros p; cbn [foldl].
  - destruct p; cbn. by rewrite !orb_false_r.
  - rewrite IH, !has_cat_cons, reverse_cons, <- app_assoc. unfold sort_cat. rewrite !decide_False by lia.
    cbn [sleep has_mgnt has_hiq sorted_ring app]. by rewrite !orb_assoc.
Qed.

Lemma has_cat_high c X : (3 <= c)%nat -> has_cat c (high X) = has_cat c X.
Proof.
  intros Hc. unfold has_cat, of_cat, high. rewrite list_filter_filter. f_equal. apply bool_decide_ext.
  rewrite (list_filter_iff _ (λ x, cat_of x = c)); [done|]. intros x. lia.
Qed.

Lemma by_cat_parts X : by_cat X -> X = of_cat 0 X ++ of_cat 1 X ++ of_cat 2 X ++ high X.
Proof.
  intros S. rewrite (by_cat_split 3 X S) at 1. fold (high X). rewrite !app_assoc. f_equal.
  pose proof (by_cat_filter X (λ x, cat_of x < 3)%nat S) as S3. rewrite (by_cat_split 2 _ S3).
  rewrite (by_cat_split 1 (filter (λ x, cat_of x < 2)%nat _)) by (by apply by_cat_filter).
  rewrite !list_filter_filter. unfold of_cat. f_equal; [f_equal|]; apply list_filter_iff; intros; lia.
Qed.

Lemma sort_spec X : by_cat X -> foldl sort_cat plan0 X = mk_plan false (has_cat 8 X) (has_cat 9 X) (sorted X).
Proof.
  intros S. rewrite (by_cat_parts X S) at 1. rewrite !foldl_app, sort_high by (apply Forall_forall; intros x [Hx _]%list_elem_of_filter; done).
  rewrite !has_cat_high by lia. unfold sorted.
  destruct (of_cat_single 0 X S) as [-> | (x & -> & Ex)], (of_cat_single 1 X S) as [-> | (y & -> & Ey)],
    (of_cat_single 2 X S) as [-> | (z & -> & Ez)]; cbn [foldl];
    unfold sort_cat; rewrite ?Ex, ?Ey, ?Ez; repeat (case_decide; try lia; cbn; rewrite ?Ey); done.
Qed.
Definition cats_ok (X : list ring_status) : Prop := by_cat X /\ Forall (λ x, cat_of x < 10)%nat X.

(** What goes before everything else, and what is grouped by traffic identifier. *)
Definition prio (X : list ring_status) : list ring_status := of_cat 8 X ++ of_cat 9 X.
Definition mid (X : list ring_status) : list ring_status := filter (λ x, 3 <= cat_of x < 8)%nat X.
Definition rest (X : list ring_status) : list ring_status := reverse (mid X) ++ of_cat 0 X ++ of_cat 2 X ++ of_cat 1 X.

Lemma sorted_parts X : cats_ok X -> sorted X = of_cat 9 X ++ of_cat 8 X ++ rest X.
Proof.
  intros [S F]. unfold sorted, rest. rewrite !app_assoc. do 3 f_equal.
  assert (E : high X = mid X ++ of_cat 8 X ++ of_cat 9 X).
  { unfold high. rewrite (by_cat_split 8 (filter _ X)) by (by apply by_cat_filter).
    rewrite (by_cat_split 9 (filter (λ x, 8 <= cat_of x)%nat _)) by (by repeat apply by_cat_filter).
    rewrite !list_filter_filter. f_equal; [apply list_filter_iff; intros; lia|].
    f_equal; [apply list_filter_iff; intros; lia|].
    clear S. unfold of_cat. induction F as [|x X Hx _ IH]; [done|]. rewrite !filter_cons, IH. by repeat case_decide; try lia. }
  rewrite E, !reverse_app. f_equal; f_equal.
  - by destruct (of_cat_single 9 X S) as [-> | (x & -> & _)].
  - by destruct (of_cat_single 8 X S) as [-> | (x & -> & _)].
Qed.

(** The first rings of a plan are the special ones. *)
Lemma take_first_hiq X out : cats_ok X ->
  take_first (has_cat 9 X) (sorted X) out = Ret (of_cat 8 X ++ rest X, of_cat 9 X ++ out).
Proof.
  intros H. rewrite (sorted_parts X H). unfold has_cat. destruct H as [S _].
  by destruct (of_cat_single 9 X S) as [-> | (x & -> & _)].
Qed.

Lemma take_first_mgnt X out : by_cat X ->
  take_first (has_cat 8 X) (of_cat 8 X ++ rest X) out = Ret (rest X, of_cat 8 X ++ out).
Proof. intros S. unfold has_cat. by destruct (of_cat_single 8 X S) as [-> | (x & -> & _)]. Qed.

(** ** Grouped by traffic identifier *)

(** The identifiers in the order in which they appear. *)
Definition firsts (l : list ring_status) : list nat :=
  foldl (λ acc x, if decide (cat_of x ∈ acc) then acc else acc ++ [cat_of x]) [] l.

Definition by_tid (l : list ring_status) : list ring_status := concat ((λ c, of_cat c l) <$> firsts l).

Lemma firsts_app l x : firsts (l ++ [x]) = if decide (cat_of x ∈ firsts l) then firsts l else firsts l ++ [cat_of x].
Proof. unfold firsts. by rewrite foldl_app. Qed.

Lemma firsts_nodup l : NoDup (firsts l).
Proof.
  induction l as [|x l IH] using rev_ind; [constructor|]. rewrite firsts_app. case_decide; [done|].
  apply NoDup_app. split; [done|]. split; [|apply NoDup_singleton]. intros c Hc ->%list_elem_of_singleton. done.
Qed.

Lemma firsts_elem l c : c ∈ firsts l <-> of_cat c l <> [].
Proof.
  induction l as [|x l IH] using rev_ind; [cbn; rewrite elem_of_nil; tauto|].
  rewrite firsts_app. unfold of_cat. rewrite filter_app, filter_cons, filter_nil. fold (of_cat c l).
  assert (E : of_cat c l ++ [x] <> []) by (by destruct (of_cat c l)).
  destruct (decide (cat_of x = c)) as [->|Hn].
  - case_decide; [tauto|]. rewrite elem_of_app, list_elem_of_singleton. tauto.
  - rewrite app_nil_r, <- IH. case_decide; [done|]. rewrite elem_of_app, list_elem_of_singleton. naive_solver.
Qed.

Lemma of_cat_app c l1 l2 : of_cat c (l1 ++ l2) = of_cat c l1 ++ of_cat c l2.
Proof. apply filter_app. Qed.

Lemma of_cat_self x : of_cat (cat_of x) [x] = [x].
Proof. unfold of_cat. by rewrite filter_cons_True. Qed.

Lemma fmap_of_cat_ne (cs : list nat) x l : cat_of x ∉ cs -> (λ c, of_cat c (l ++ [x])) <$> cs = (λ c, of_cat c l) <$> cs.
Proof.
  intros H. apply list_fmap_ext. intros i c Hc. unfold of_cat. rewrite filter_app, filter_cons_False, filter_nil, app_nil_r; [done|].
  intros E. apply H. rewrite E. by eapply list_elem_of_lookup_2.
Qed.

Lemma add_behind_app i x l1 y l2 : (forall z, z ∈ l1 -> sts_id z <> i) -> sts_id y = i ->
  add_behind i x (l1 ++ y :: l2) = l1 ++ y :: x :: l2.
Proof.
  intros H Hy. induction l1 as [|z l1 IH]; cbn.
  - by destruct (Nat.eqb_spec (sts_id y) i).
  - destruct (Nat.eqb_spec (sts_id z) i) as [E|E]; [by destruct (H z); [apply list_elem_of_here|]|].
    f_equal. apply IH. intros w Hw. apply H. by apply list_elem_of_further.
Qed.

(** A new identifier goes to the end, ... *)
Lemma by_tid_new l x : of_cat (cat_of x) l = [] -> by_tid (l ++ [x]) = by_tid l ++ [x].
Proof.
  intros E. unfold by_tid. assert (N : cat_of x ∉ firsts l) by (rewrite firsts_elem; tauto).
  rewrite firsts_app, decide_False by done. rewrite fmap_app, concat_app, fmap_of_cat_ne by done. f_equal. cbn.
  by rewrite of_cat_app, E, app_nil_r, of_cat_self.
Qed.

(** ... a known one behind the last of its kind. *)
Lemma by_tid_known front l x m y : of_cat (cat_of x) l = m ++ [y] -> NoDup (sts_id <$> front ++ by_tid l) ->
  add_behind (sts_id y) x (front ++ by_tid l) = front ++ by_tid (l ++ [x]).
Proof.
  intros E ND. unfold by_tid in *. assert (N : cat_of x ∈ firsts l) by (rewrite firsts_elem, E; by destruct m).
  rewrite firsts_app, decide_True by done. pose proof (firsts_nodup l) as NF. revert ND.
  apply list_elem_of_split in N as (c1 & c2 & Ec). rewrite Ec in *. apply NoDup_app in NF as (_ & N1 & N2).
  apply NoDup_cons in N2 as [N2 _].
  rewrite !fmap_app, !fmap_cons, !concat_app, !concat_cons, !fmap_of_cat_ne;
    [|done|intros Hx; apply (N1 _ Hx), list_elem_of_here].
  rewrite E, of_cat_app, E, of_cat_self. intros ND.
  rewrite <- !app_assoc in *. cbn [app].
  rewrite !(app_assoc front), !(app_assoc _ m), add_behind_app; [done| |done].
  intros z Hz Ez. rewrite <- fmap_app, !(app_assoc front), !(app_assoc _ m), fmap_app in ND. apply NoDup_app in ND as (_ & ND & _).
  apply (ND (sts_id z)); [by apply list_elem_of_fmap_2|]. rewrite Ez. apply list_elem_of_here.
Qed.
Lemma of_cat_cons_ne (cs : list nat) x l : cat_of x ∉ cs -> (λ c, of_cat c (x :: l)) <$> cs = (λ c, of_cat c l) <$> cs.
Proof.
  intros H. apply list_fmap_ext. intros i c Hc. unfold of_cat. rewrite filter_cons_False; [done|].
  intros E. apply H. rewrite E. by eapply list_elem_of_lookup_2.
Qed.

Lemma parts_perm cs l : NoDup cs -> (forall x, x ∈ l -> cat_of x ∈ cs) -> concat ((λ c, of_cat c l) <$> cs) ≡ₚ l.
Proof.
  intros ND. induction l as [|x l IH]; intros H; [clear; by induction cs|].
  assert (Hx : cat_of x ∈ cs) by (apply H, list_elem_of_here).
  transitivity (x :: concat ((λ c, of_cat c l) <$> cs)).
  - apply list_elem_of_split in Hx as (c1 & c2 & ->). apply NoDup_app in ND as (_ & N1 & [N2 _]%NoDup_cons).
    rewrite !fmap_app, !fmap_cons, !concat_app, !concat_cons, !of_cat_cons_ne;
      [|done|intros Hx; apply (N1 _ Hx), list_elem_of_here].
    assert (Ex : of_cat (cat_of x) (x :: l) = x :: of_cat (cat_of x) l) by (apply filter_cons_True; done). rewrite Ex.
    cbn [app]. symmetry. apply Permutation_middle.
  - constructor. apply IH. intros y Hy. apply H. by apply list_elem_of_further.
Qed.

Lemma by_tid_perm l : by_tid l ≡ₚ l.
Proof.
  apply parts_perm; [apply firsts_nodup|]. intros x Hx. apply firsts_elem. intros E. revert Hx.
  apply (filter_nil_not_elem_of (λ y, cat_of y = cat_of x) l x E). done.
Qed.

(** ** The plan of all stations *)

Definition ring_of (s : phl) (x : ring_status) : Prop := exists g, ring_at s (ring_ptr x) = Ret g /\ tid g = Z.of_nat (cat_of x).
Definition te_ok (te : Z -> option nat) (l : list ring_status) : Prop :=
  forall c, te (Z.of_nat c) = sts_id <$> last (of_cat c l).

Lemma flow_ctrl_rings_spec s front l : forall te done, te_ok te done -> Forall (ring_of s) l ->
  NoDup (sts_id <$> front ++ done ++ l) ->
  exists te', flow_ctrl_rings s l te (front ++ by_tid done) = Ret (te', front ++ by_tid (done ++ l)) /\ te_ok te' (done ++ l).
Proof.
  induction l as [|x l IH]; intros te done T F ND; cbn [flow_ctrl_rings].
  { exists te. by rewrite app_nil_r. }
  apply Forall_cons in F as [(g & Eg & Tg) F]. rewrite Eg. cbn [mbind res_bind]. rewrite Tg, (T (cat_of x)).
  assert (E : match sts_id <$> last (of_cat (cat_of x) done) with
              | None => (front ++ by_tid done) ++ [x] | Some i => add_behind i x (front ++ by_tid done) end
              = front ++ by_tid (done ++ [x])).
  { destruct (last (of_cat (cat_of x) done)) as [y|] eqn:El; cbn [fmap option_fmap option_map].
    - apply last_Some in El as [m El]. apply by_tid_known with (m := m); [done|].
      rewrite app_assoc, fmap_app in ND. apply NoDup_app in ND as [ND _]. by rewrite by_tid_perm.
    - apply last_None in El. by rewrite by_tid_new, <- app_assoc. }
  rewrite E. destruct (IH (<[Z.of_nat (cat_of x) := Some (sts_id x)]> te) (done ++ [x])) as (te' & E' & T').
  - intros c. rewrite of_cat_app. destruct (decide (c = cat_of x)) as [->|Hn].
    + by rewrite fn_lookup_insert, of_cat_self, last_snoc.
    + rewrite fn_lookup_insert_ne by lia. unfold of_cat at 2. rewrite filter_cons_False, filter_nil, app_nil_r by done. apply T.
  - done.
  - by rewrite <- app_assoc.
  - exists te'. rewrite <- app_assoc in E', T'. done.
Qed.

(** A station with its plan. *)
Definition planned (s : phl) (id : nat) (X : list ring_status) : Prop :=
  cats_ok X /\ exists t, tring_at s id = Ret t /\ tx_plan t = mk_plan false (has_cat 8 X) (has_cat 9 X) (sorted X).

Definition reset (s : phl) (l : list nat) : phl := foldl (λ s id, on_tring id (set_plan plan0) s) s l.

Lemma ring_at_plan s id p q : ring_at (on_tring id (set_plan p) s) q = ring_at s q.
Proof.
  unfold ring_at, tring_at, on_tring. cbn. destruct (decide (id = q.1)) as [<-|];
    [rewrite list_lookup_alter_eq|by rewrite list_lookup_alter_ne].
  by destruct (trings s !! id) as [[t|]|].
Qed.

Lemma ring_at_fctrl s l q : ring_at (set_fctrl l s) q = ring_at s q.
Proof. done. Qed.

Lemma elem_rest x X : x ∈ rest X -> x ∈ X.
Proof.
  unfold rest, mid, of_cat. rewrite !elem_of_app, elem_of_reverse, !list_elem_of_filter. naive_solver.
Qed.

Lemma nodup_sub {A} (l k : list A) : l ⊆+ k -> NoDup k -> NoDup l.
Proof. intros [k' ->]%submseteq_Permutation N. by apply NoDup_app in N as [N _]. Qed.

Lemma planned_plan s id id' p X : id <> id' -> planned s id' X -> planned (on_tring id (set_plan p) s) id' X.
Proof.
  intros Hn [C (t & Et & Ep)]. split; [done|]. exists t. split; [|done]. rewrite <- Et. unfold tring_at, on_tring. cbn.
  by rewrite list_lookup_alter_ne.
Qed.

(** The plan is taken and reset. *)
Lemma reset_taken s id t p out : tring_at s id = Ret t -> sorted_ring p = [] ->
  _phl_reset_tx_plan id (on_tring id (set_plan p) (set_fctrl out s)) = Ret (set_fctrl out (on_tring id (set_plan plan0) s)).
Proof.
  intros Et Ep. unfold _phl_reset_tx_plan. rewrite (on_tring_put id _ t) by done.
  erewrite tring_at_put by done. cbn [mbind res_bind tx_plan set_plan]. rewrite Ep. cbn [foldl]. f_equal.
  rewrite (on_tring_put id _ (set_plan p t)) by (by eapply tring_at_put).
  rewrite put_tring_put, (on_tring_put id _ t) by done. done.
Qed.

Lemma reset_fctrl l s sta : reset (set_fctrl l s) sta = set_fctrl l (reset s sta).
Proof. unfold reset. revert s; induction sta as [|id sta IH]; intros s; [done|]. cbn [foldl]. by rewrite <- IH. Qed.

Lemma flow_ctrl_spec sta XS : Forall2 (λ _ _, True) sta XS -> forall s front done te,
  NoDup sta -> Forall2 (planned s) sta XS -> Forall (Forall (ring_of s)) XS -> te_ok te done ->
  NoDup (sts_id <$> concat (reverse (prio <$> XS)) ++ front ++ done ++ concat (rest <$> XS)) ->
  t_fctrl_result s = front ++ by_tid done ->
  flow_ctrl sta te s =
    Ret (set_fctrl (concat (reverse (prio <$> XS)) ++ front ++ by_tid (done ++ concat (rest <$> XS))) (reset s sta)).
Proof.
  induction 1 as [|id X sta XS _ _ IH]; intros s front done te Ns P R T ND Ef; cbn [flow_ctrl].
  { cbn. rewrite app_nil_r, <- Ef. by destruct s. }
  apply NoDup_cons in Ns as [Ni Ns]. apply Forall2_cons in P as [[C (t & Et & Ep)] P]. apply Forall_cons in R as [RX R].
  rewrite Et. cbn [mbind res_bind]. rewrite Ep. cbn [sleep has_hiq has_mgnt sorted_ring].
  rewrite take_first_hiq by done. cbn [mbind res_bind]. rewrite take_first_mgnt by apply C. cbn [mbind res_bind].
  assert (Eo : of_cat 8 X ++ of_cat 9 X ++ t_fctrl_result s = prio X ++ front ++ by_tid done)
    by (unfold prio; by rewrite Ef, <- app_assoc). rewrite Eo.
  cbn [fmap list_fmap] in ND. rewrite reverse_cons, !concat_app, concat_cons in ND. cbn [concat] in ND. rewrite app_nil_r in ND.
  destruct (flow_ctrl_rings_spec s (prio X ++ front) (rest X) te done T) as (te' & E & T').
  { apply Forall_forall. intros x Hx%elem_rest. by eapply Forall_forall in RX. }
  { eapply nodup_sub; [|exact ND]. apply fmap_submseteq. solve_submseteq. }
  rewrite <- app_assoc in E. rewrite E. cbn [mbind res_bind].
  set (out' := prio X ++ _). rewrite (reset_taken s id t) by done. cbn [mbind res_bind reset foldl].
  rewrite (IH _ (prio X ++ front) (done ++ rest X) te').
  - unfold out'. rewrite fmap_cons, reverse_cons, concat_app. cbn [concat fmap list_fmap]. rewrite app_nil_r, <- !app_assoc, reset_fctrl. done.
  - done.
  - apply Forall2_same_length_lookup_2; [by eapply Forall2_length|]. intros i id' X' Hid HX.
    apply (planned_plan (set_fctrl _ s)); [intros ->; apply Ni; by eapply list_elem_of_lookup_2|].
    by apply (Forall2_lookup_lr _ _ _ _ _ _ P Hid HX).
  - eapply Forall_impl; [exact R|]. intros Y FY. eapply Forall_impl; [exact FY|]. intros x (g & Eg & Tg). exists g. split; [|done].
    by rewrite ring_at_fctrl, ring_at_plan.
  - done.
  - eapply nodup_sub; [|exact ND]. apply fmap_submseteq. solve_submseteq.
  - cbn. unfold out'. by rewrite <- app_assoc.
Qed.
(** Something is done to the ring lists of stations. *)
Abbreviation stations := (list (nat * list ring_status)).
Definition on_all (f : list ring_status -> tring_list -> tring_list) (A : stations) (s : phl) : phl :=
  foldl (λ s a, on_tring a.1 (f a.2) s) s A.

Lemma on_all_cons f a A s : on_all f (a :: A) s = on_all f A (on_tring a.1 (f a.2) s).
Proof. done. Qed.

Lemma on_all_eq f A s : on_all f A s = set_trings (trings (on_all f A s)) s.
Proof. revert s; induction A as [|a A IH]; intros s; [by destruct s|]. rewrite on_all_cons, IH. done. Qed.

Lemma on_all_idle f A l s : on_all f A (set_idle l s) = set_idle l (on_all f A s).
Proof. revert s; induction A as [|a A IH]; intros s; [done|]. by rewrite !on_all_cons, <- IH. Qed.

Lemma on_all_more f A b s : on_all f A (set_more b s) = set_more b (on_all f A s).
Proof. revert s; induction A as [|a A IH]; intros s; [done|]. by rewrite !on_all_cons, <- IH. Qed.

Lemma on_all_ne f A s id : id ∉ A.*1 -> trings (on_all f A s) !! id = trings s !! id.
Proof.
  revert s; induction A as [|a A IH]; intros s; [done|]. rewrite fmap_cons.
  intros [Hn Hi]%not_elem_of_cons. rewrite on_all_cons, IH by done. cbn. by rewrite list_lookup_alter_ne.
Qed.

Lemma on_all_lookup f A s id X : NoDup A.*1 -> (id, X) ∈ A ->
  trings (on_all f A s) !! id = fmap (f X) <$> trings s !! id.
Proof.
  revert s; induction A as [|a A IH]; intros s; [by intros _ ?%elem_of_nil|]. rewrite fmap_cons, on_all_cons.
  intros [Hn ND]%NoDup_cons [<- | Hi]%elem_of_cons.
  - rewrite on_all_ne by done. cbn. apply list_lookup_alter_eq.
  - rewrite IH by done. cbn. rewrite list_lookup_alter_ne; [done|]. intros E. apply Hn. rewrite E. by apply (list_elem_of_fmap_2 fst A (id, X)).
Qed.

Lemma reset_on_all s A : reset s A.*1 = on_all (λ _, set_plan plan0) A s.
Proof. unfold reset, on_all. revert s; induction A as [|a A IH]; intros s; cbn [foldl fmap list_fmap]; [done|]. apply IH. Qed.

(** Between two turns. *)
Record tring_wf (t : tring_list) : Prop := {
  tw_tids : tids_ok t;
  tw_len : length (phl_ring t) = 10%nat;
  tw_plan : tx_plan t = plan0
}.
Definition alive (s : phl) (id : nat) : Prop := exists t, tring_at s id = Ret t /\ tring_wf t.

(** The idle states are given out in the order of the stations. *)
Fixpoint assign (s : phl) (idle l : list nat) : stations :=
  match l with
  | [] => []
  | id :: l =>
      let X := match tring_at s id with Ret t => statuses id t idle (seq 0 10) | _ => [] end in
      (id, X) :: assign s (drop (length X) idle) l
  end.

Lemma assign_ids s idle l : (assign s idle l).*1 = l.
Proof. revert idle; induction l as [|id l IH]; intros idle; [done|]. cbn. by rewrite IH. Qed.

Lemma assign_put s id t idle' idle l : id ∉ l -> assign (set_idle idle' (put_tring id t s)) idle l = assign s idle l.
Proof.
  revert idle; induction l as [|id' l IH]; intros idle; [done|]. intros [Hn Hi]%not_elem_of_cons. cbn [assign].
  rewrite tring_at_idle, tring_at_put_ne by done. by rewrite IH.
Qed.

Lemma statuses_ok id t idle : cats_ok (statuses id t idle (seq 0 10)).
Proof.
  split; [apply statuses_sorted, seq_sorted|]. apply Forall_forall. intros x [Hx%elem_of_seq _]%statuses_cat. lia.
Qed.

Lemma assign_ok s idle l : Forall (λ a, cats_ok a.2) (assign s idle l).
Proof.
  revert idle; induction l as [|id l IH]; intros idle; constructor; [|apply IH]. cbn.
  destruct (tring_at s id); [apply statuses_ok|by repeat constructor..].
Qed.

Lemma sorted_perm X : cats_ok X -> sorted X ≡ₚ X.
Proof.
  intros [S _]. rewrite (by_cat_parts X S) at 2. unfold sorted. rewrite (reverse_Permutation (high X)). solve_Permutation.
Qed.

Definition plan_with (X : list ring_status) (t : tring_list) : tring_list :=
  set_plan (mk_plan false (has_cat 8 X) (has_cat 9 X) (sorted X)) (make_ready (cat_of <$> X) t).

Definition busy (a : nat * list ring_status) : Prop := a.2 <> [].
#[export] Instance busy_dec a : Decision (busy a).
Proof. unfold busy. apply _. Defined.

Lemma check_list_spec s id t : tring_at s id = Ret t -> tring_wf t ->
  let X := statuses id t (ring_sts_idle s) (seq 0 10) in
  _phl_check_tring_list id s =
    Ret (bool_decide (X <> []), set_idle (drop (length X) (ring_sts_idle s)) (put_tring id (plan_with X t) s)).
Proof.
  intros Et [T L P] X. unfold _phl_check_tring_list. change (Z.to_nat MAX_PHL_RING_CAT_NUM) with 10%nat.
  rewrite (check_rings_spec id (seq 0 10) s t) by
    (rewrite ?P; done || (apply Forall_forall; intros i [_ Hi]%elem_of_seq; apply lookup_lt_is_Some; lia)).
  cbn [mbind res_bind]. rewrite P. fold X. pose proof (statuses_ok id t (ring_sts_idle s)) as C. fold X in C.
  rewrite sort_spec by apply C. fold (plan_with X t). rewrite tring_at_idle. erewrite tring_at_put by done.
  cbn [mbind res_bind]. do 2 f_equal. unfold plan_with. cbn [tx_plan set_plan sorted_ring].
  rewrite (Permutation_length (sorted_perm X C)). case_bool_decide as H1; case_bool_decide as H2; try done.
  - by apply nil_length_inv in H1.
  - by destruct X.
Qed.

Lemma check_all_spec l : forall s, NoDup l -> Forall (alive s) l ->
  let A := assign s (ring_sts_idle s) l in
  check_tring_lists l s =
    Ret ((filter busy A).*1, set_idle (drop (length (concat A.*2)) (ring_sts_idle s)) (on_all plan_with A s)).
Proof.
  induction l as [|id l IH]; intros s N F; [cbn; by destruct s|]. apply NoDup_cons in N as [Ni N].
  apply Forall_cons in F as [(t & Et & W) F]. cbn [check_tring_lists].
  rewrite (check_list_spec s id t) by done. cbn [mbind res_bind assign]. rewrite Et.
  set (X := statuses id t _ _). set (s1 := set_idle _ _).
  assert (EA : assign s1 (ring_sts_idle s1) l = assign s (drop (length X) (ring_sts_idle s)) l) by (by apply assign_put).
  rewrite (IH s1), EA; [|done|].
  - set (A := assign s _ l). cbn [mbind res_bind]. rewrite filter_cons, fmap_cons, concat_cons, length_app, on_all_cons.
    cbn [fst snd]. rewrite (on_tring_put id _ t) by done. unfold s1. rewrite on_all_idle, set_idle_idle.
    change (ring_sts_idle (set_idle _ _)) with (drop (length X) (ring_sts_idle s)). rewrite drop_drop.
    do 2 f_equal. unfold busy at 2. cbn [snd]. case_bool_decide; by case_decide.
  - apply Forall_forall. intros id' Hid. eapply Forall_forall in F as (t' & Et' & W'); [|done]. exists t'. split; [|done].
    unfold s1. rewrite tring_at_idle, tring_at_put_ne; [done|]. by intros ->.
Qed.
Lemma assign_elem s idle l id X : (id, X) ∈ assign s idle l ->
  id ∈ l /\ exists idle', X = match tring_at s id with Ret t => statuses id t idle' (seq 0 10) | _ => [] end.
Proof.
  revert idle; induction l as [|i l IH]; intros idle; cbn [assign]; [by intros ?%elem_of_nil|].
  intros [[= -> ->]|Hi]%elem_of_cons; [split; [apply list_elem_of_here|by eexists]|].
  apply IH in Hi as [Hi ?]. split; [by apply list_elem_of_further|done].
Qed.

Lemma assign_sts s idle l : let XS := concat (assign s idle l).*2 in sts_id <$> XS = take (length XS) idle.
Proof.
  revert idle; induction l as [|i l IH]; intros idle; [done|]. cbn [assign fmap list_fmap concat snd]. set (X := match _ with Ret _ => _ | _ => _ end).
  assert (E : sts_id <$> X = take (length X) idle).
  { unfold X. destruct (tring_at s i) as [t| |]; [|done..]. unfold statuses. generalize (filter (nonempty t) (seq 0 10)) as cs.
    clear. induction idle as [|n idle IH]; intros [|c cs]; cbn; f_equal. apply IH. }
  specialize (IH (drop (length X) idle)). cbn zeta in *. rewrite fmap_app, E, IH, length_app.
  apply take_take_drop.
Qed.

Definition plan_out (XS : list (list ring_status)) : list ring_status :=
  concat (reverse (prio <$> XS)) ++ by_tid (concat (rest <$> XS)).

Lemma prio_rest_perm X : cats_ok X -> prio X ++ rest X ≡ₚ X.
Proof.
  intros H. rewrite <- (sorted_perm X H) at 3. rewrite (sorted_parts X H). unfold prio. solve_Permutation.
Qed.

Lemma plan_out_perm XS : Forall cats_ok XS -> plan_out XS ≡ₚ concat XS.
Proof.
  intros F. unfold plan_out. rewrite by_tid_perm, reverse_Permutation.
  induction F as [|X XS H _ IH]; [done|]. rewrite !fmap_cons, !concat_cons.
  transitivity ((prio X ++ rest X) ++ (concat (prio <$> XS) ++ concat (rest <$> XS))); [solve_Permutation|].
  by rewrite IH, (prio_rest_perm X H).
Qed.

Lemma plan_out_busy (A : stations) : plan_out (filter busy A).*2 = plan_out A.*2.
Proof.
  unfold plan_out. f_equal; [|f_equal]; induction A as [|[id X] A IH]; try done; rewrite filter_cons; case_decide as H.
  - by rewrite !fmap_cons, !reverse_cons, !concat_app, IH.
  - rewrite IH. unfold busy in H. cbn [snd] in H. destruct X; [|by destruct H]. rewrite !fmap_cons, reverse_cons, concat_app. cbn. by rewrite app_nil_r.
  - by rewrite !fmap_cons, !concat_cons, IH.
  - rewrite IH. unfold busy in H. cbn [snd] in H. destruct X; [done|by destruct H].
Qed.

Lemma NoDup_fst_inj {A B} (l : list (A * B)) a b b' : NoDup l.*1 -> (a, b) ∈ l -> (a, b') ∈ l -> b = b'.
Proof.
  intros ND [i Hi]%list_elem_of_lookup [j Hj]%list_elem_of_lookup.
  assert (i = j) as <-; [|congruence]. eapply (NoDup_lookup l.*1); [done|by rewrite list_lookup_fmap, Hi|by rewrite list_lookup_fmap, Hj].
Qed.

Lemma NoDup_fst_filter {A B} (Q : A * B -> Prop) `{!∀ a, Decision (Q a)} (l : list (A * B)) : NoDup l.*1 -> NoDup (filter Q l).*1.
Proof. intros ND. eapply sublist_NoDup; [exact ND|]. apply fmap_sublist, sublist_filter. Qed.

Definition ready_with (X : list ring_status) : tring_list -> tring_list := make_ready (cat_of <$> X).

(** The plan of a turn, as the tasklet makes it. *)
Definition make_plan (s : phl) : res phl :=
  '(sta_list, s) ← phl_check_xmit_ring_resource s; phl_tx_flow_ctrl sta_list s.

Record plan_pre (s : phl) : Prop := {
  pp_lists : NoDup (t_ring_list s);
  pp_alive : Forall (alive s) (t_ring_list s);
  pp_idle : NoDup (ring_sts_idle s);
  pp_result : t_fctrl_result s = []
}.

Section plan.
Context (s : phl) (P : plan_pre s).

Definition given : stations := assign s (ring_sts_idle s) (t_ring_list s).

Lemma given_nodup : NoDup given.*1.
Proof. unfold given. rewrite assign_ids. apply P. Qed.

Lemma given_tring id X : (id, X) ∈ given -> exists t idle, tring_at s id = Ret t /\ tring_wf t /\ X = statuses id t idle (seq 0 10).
Proof.
  intros [Hid [idle HX]]%assign_elem. destruct (proj1 (Forall_forall _ _) (pp_alive s P) id Hid) as (t & Et & W).
  rewrite Et in HX. by exists t, idle.
Qed.

Lemma given_at id X f : (id, X) ∈ given -> exists t, tring_at s id = Ret t /\ tring_wf t /\
  tring_at (on_all f given s) id = Ret (f X t).
Proof.
  intros H. destruct (given_tring id X H) as (t & _ & Et & W & _). exists t. split_all.
  apply tring_at_some. rewrite (on_all_lookup f given s id X given_nodup H), (tring_at_inv _ _ _ Et). done.
Qed.

Lemma given_planned id X : (id, X) ∈ given -> planned (on_all plan_with given s) id X.
Proof.
  intros H. split; [exact (proj1 (Forall_forall _ _) (assign_ok s _ _) _ H)|].
  destruct (given_at id X plan_with H) as (t & _ & _ & E). by exists (plan_with X t).
Qed.

Lemma given_ring id X x : (id, X) ∈ given -> x ∈ X -> ring_of (on_all plan_with given s) x.
Proof.
  intros H Hx. destruct (given_tring id X H) as (t & idle & Et & W & EX). rewrite EX in Hx.
  apply statuses_cat in Hx as (_ & Ep & Hn). unfold nonempty in Hn.
  destruct (phl_ring t !! cat_of x) as [g|] eqn:Eg; [|done].
  destruct (given_at id X plan_with H) as (t' & Et' & _ & E). rewrite Et in Et'. injection Et' as <-.
  rewrite <- Ep in E. unfold ring_of. rewrite (ring_at_tring _ _ _ E). fold (cat_of x). unfold plan_with.
  cbn [phl_ring set_plan]. rewrite make_ready_lookup, Eg. eexists. split; [done|].
  rewrite <- (tw_tids t W _ _ Eg). by case_decide.
Qed.

(** The stations' plans are reset when they are taken. *)
Lemma given_reset : reset (on_all plan_with given s) (filter busy given).*1 = on_all ready_with given s.
Proof.
  rewrite reset_on_all, (on_all_eq _ (filter _ _)), (on_all_eq ready_with), (on_all_eq plan_with). cbn.
  unfold set_trings. cbn. f_equal. apply list_eq. intros id. set (s1 := mk_phl _ _ _ _ _ _ _ _ _ _).
  assert (E1 : trings s1 !! id = trings (on_all plan_with given s) !! id) by done. clearbody s1.
  destruct (decide (id ∈ given.*1)) as [(a & -> & Ha)%list_elem_of_fmap|Hn].
  - destruct a as [id X]. cbn [fst] in *. destruct (given_tring id X Ha) as (t & _ & Et & W & _). apply tring_at_inv in Et.
    rewrite (on_all_lookup ready_with _ _ id X given_nodup Ha), Et.
    rewrite (on_all_lookup plan_with _ _ id X given_nodup Ha), Et in E1. cbn in E1. destruct (decide (X = [])) as [->|HX].
    + rewrite on_all_ne, E1.
      * cbn. do 2 f_equal. pose proof (tw_plan _ W) as Ep. destruct t; cbn in *. by subst.
      * intros ((id', X') & Ei & [Hb Hg]%list_elem_of_filter)%list_elem_of_fmap. cbn in Ei; subst id'. apply Hb.
        cbn. by eapply (NoDup_fst_inj given); [apply given_nodup|..].
    + rewrite (on_all_lookup _ (filter busy given) s1 id X), E1; [|apply NoDup_fst_filter, given_nodup|by apply list_elem_of_filter].
      cbn. do 2 f_equal. pose proof (tw_plan _ W) as Ep. destruct t; cbn in *. by subst.
  - rewrite (on_all_ne ready_with _ _ _ Hn), on_all_ne, E1, (on_all_ne plan_with _ _ _ Hn); [done|].
    intros (a & -> & [_ Ha]%list_elem_of_filter)%list_elem_of_fmap. apply Hn. by apply list_elem_of_fmap_2.
Qed.
Lemma make_plan_spec :
  make_plan s = Ret (set_fctrl (plan_out given.*2)
    (set_idle (drop (length (concat given.*2)) (ring_sts_idle s)) (set_more false (on_all ready_with given s)))).
Proof.
  unfold make_plan, phl_check_xmit_ring_resource. rewrite check_all_spec by apply P. fold given. cbn [mbind res_bind].
  set (idle := drop _ _). set (s2 := set_more false (set_idle idle (on_all plan_with given s))).
  assert (Ef : t_fctrl_result s2 = []) by (unfold s2; rewrite on_all_eq; apply P).
  assert (F2 : Forall2 (planned s2) (filter busy given).*1 (filter busy given).*2).
  { apply Forall2_same_length_lookup_2; [by rewrite !length_fmap|]. intros i id X. rewrite !list_lookup_fmap.
    destruct (filter busy given !! i) as [[id' X']|] eqn:E; [|done]. cbn. intros [= <-] [= <-].
    apply list_elem_of_lookup_2, list_elem_of_filter in E as [_ E]. exact (given_planned _ _ E). }
  unfold phl_tx_flow_ctrl. rewrite (flow_ctrl_spec _ (filter busy given).*2) with (front := []) (done := []).
  - rewrite !app_nil_l. fold (plan_out (filter busy given).*2). rewrite plan_out_busy. do 2 f_equal.
    unfold s2. rewrite reset_on_all, on_all_more, on_all_idle, <- reset_on_all. by rewrite given_reset.
  - eapply Forall2_impl; [exact F2|done].
  - apply NoDup_fst_filter, given_nodup.
  - exact F2.
  - apply Forall_fmap, Forall_forall. intros [id X] [_ E]%list_elem_of_filter. apply Forall_forall. intros x Hx.
    exact (given_ring _ _ _ E Hx).
  - by intros c.
  - rewrite !app_nil_l. eapply nodup_sub with (k := sts_id <$> concat given.*2).
    + apply fmap_submseteq. transitivity (plan_out (filter busy given).*2).
      * unfold plan_out. by rewrite by_tid_perm.
      * rewrite plan_out_busy, plan_out_perm; [done|]. apply Forall_fmap, assign_ok.
    + unfold given. rewrite assign_sts. eapply sublist_NoDup; [exact (pp_idle s P)|apply sublist_take].
  - by rewrite Ef.
Qed.
(** A planned ring has requests, as many as its state says, and its next index is set. *)
Lemma given_entry x : x ∈ concat given.*2 -> exists t g,
  (ring_ptr x).1 ∈ t_ring_list s /\ tring_at s (ring_ptr x).1 = Ret t /\ tring_wf t /\ phl_ring t !! cat_of x = Some g /\
  avail g <> 0 /\ req_busy x = avail g /\
  sts_macid x = macid t /\ sts_band x = band t /\ sts_wmm x = wmm t /\ sts_port x = port t /\
  ring_at (on_all ready_with given s) (ring_ptr x) = Ret (ready g).
Proof.
  intros (X & Hx & Hg)%elem_of_concat. apply list_elem_of_fmap in Hg as ([id X'] & -> & Hg). cbn [snd] in Hx.
  destruct (given_tring id X' Hg) as (t & idle & Et & W & EX). destruct (given_at id X' ready_with Hg) as (t' & Et' & _ & Er).
  rewrite Et in Et'. injection Et' as <-. assert (Hid := proj1 (assign_elem _ _ _ _ _ Hg)).
  assert (Hx' := Hx). rewrite EX in Hx. assert (Hst := Hx). apply statuses_cat in Hx as (_ & Ep & Hn).
  unfold nonempty in Hn. destruct (phl_ring t !! cat_of x) as [g|] eqn:Eg; [|done]. exists t, g. rewrite <- Ep in Er, Et, Hid.
  split_and!; [done..| | | | | |].
  1-5: apply elem_of_zip_with in Hst as (n & i & -> & _ & _); cbn in Eg |- *; by rewrite ?Eg.
  rewrite (ring_at_tring _ _ _ Er). fold (cat_of x). unfold ready_with. rewrite make_ready_lookup, Eg. cbn.
  rewrite decide_True; [done|]. by apply list_elem_of_fmap_2.
Qed.

(** No ring is planned twice. *)
Lemma given_ptrs : NoDup (ring_ptr <$> concat given.*2).
Proof.
  assert (G : forall a, a ∈ given -> NoDup (ring_ptr <$> a.2) /\ forall x, x ∈ a.2 -> (ring_ptr x).1 = a.1).
  { intros [id X] H. destruct (given_tring id X H) as (t & idle & _ & _ & EX). cbn. split.
    - destruct (statuses_ok id t idle) as [S _]. rewrite <- EX in S. clear - S. induction S as [|x X S IH F]; [constructor|].
      constructor; [|done]. intros (y & Ey & Hy)%list_elem_of_fmap. eapply Forall_forall in F; [|exact Hy]. unfold cat_of in F.
      rewrite Ey in F. lia.
    - intros x Hx. rewrite EX in Hx. by apply statuses_cat in Hx as (_ & ? & _). }
  pose proof given_nodup as ND. induction given as [|a A IH]; [constructor|]. rewrite fmap_cons in ND. apply NoDup_cons in ND as [Na ND].
  rewrite fmap_cons, concat_cons, fmap_app. apply NoDup_app. split; [apply G, list_elem_of_here|]. split.
  - intros p (x & -> & Hx)%list_elem_of_fmap (y & Ey & (Y & Hy & HY)%elem_of_concat)%list_elem_of_fmap.
    apply list_elem_of_fmap in HY as (b & -> & Hb). apply Na.
    rewrite <- (proj2 (G a ltac:(apply list_elem_of_here)) x Hx), Ey, (proj2 (G b ltac:(by apply list_elem_of_further)) y Hy).
    by apply list_elem_of_fmap_2.
  - apply IH; [|done]. intros b Hb. apply G. by apply list_elem_of_further.
Qed.

(** The plan changes no ring but for the next index. *)
Lemma ready_ring p g : ring_at s p = Ret g ->
  exists j, ring_at (on_all ready_with given s) p = Ret (set_next_idx j g).
Proof.
  intros (t & Et & Eg)%ring_at_inv. destruct (decide (p.1 ∈ given.*1)) as [(a & Ea & Ha)%list_elem_of_fmap|Hn].
  - destruct a as [id X]. cbn in Ea. subst id. destruct (given_at _ X ready_with Ha) as (t' & Et' & _ & Er).
    apply tring_at_inv in Et'. rewrite Et in Et'. injection Et' as <-. rewrite (ring_at_tring _ _ _ Er). unfold ready_with.
    rewrite make_ready_lookup, Eg. cbn. case_decide; [by eexists|]. exists (phl_next_idx g). by destruct g.
  - exists (phl_next_idx g). rewrite (ring_at_some _ p t g); [by destruct g|by rewrite on_all_ne|done].
Qed.
End plan.

(** As long as states are left, no ring with requests is left out. *)
Lemma statuses_all id t idle cats c : (length (statuses id t idle cats) < length idle)%nat -> c ∈ cats -> nonempty t c ->
  exists x, x ∈ statuses id t idle cats /\ ring_ptr x = (id, c).
Proof.
  intros L Hc Hn. assert (Hf : c ∈ filter (nonempty t) cats) by (by apply list_elem_of_filter).
  unfold statuses in *. rewrite length_zip_with in L. apply list_elem_of_lookup in Hf as [i Hi].
  destruct (lookup_lt_is_Some_2 idle i) as [n Hidle]; [apply lookup_lt_Some in Hi; lia|].
  exists (status_for id t n c). split; [|done]. apply list_elem_of_lookup. exists i.
  rewrite lookup_zip_with, Hidle, Hi. done.
Qed.

Lemma assign_all s l : forall idle, (length (concat (assign s idle l).*2) < length idle)%nat ->
  forall id t c, id ∈ l -> tring_at s id = Ret t -> (c < 10)%nat -> nonempty t c ->
  exists x, x ∈ concat (assign s idle l).*2 /\ ring_ptr x = (id, c).
Proof.
  induction l as [|i l IH]; intros idle L id t c Hid Et Hc Hn; [by apply elem_of_nil in Hid|].
  cbn [assign fmap list_fmap concat snd] in *. rewrite length_app in L. setoid_rewrite elem_of_app.
  apply elem_of_cons in Hid as [<-|Hid].
  - rewrite Et in *. destruct (statuses_all id t idle (seq 0 10) c) as (x & Hx & Ex); [lia|apply elem_of_seq; lia|done|].
    exists x. tauto.
  - destruct (IH (drop (length (match tring_at s i with Ret t => statuses i t idle (seq 0 10) | _ => [] end)) idle)) with (id := id) (t := t) (c := c)
      as (x & Hx & Ex); [rewrite length_drop; lia|done..|]. exists x. tauto.
Qed.

(** The plan of a turn.  With the rings that hold requests, station by station, as many
    as there are idle ring states ([given], a state each in the order of the pool): the
    management and then the high-priority ring of each station come first, the stations that
    were registered last in front; then the data rings, grouped by traffic identifier in the
    order in which these appear, each group in the order of the stations, where a station's
    own order is 7, 6, 5, 4, 3, 0, 2, 1.  No ring is planned twice, and none that holds
    requests is left out as long as a state is left. *)
Theorem plan_order s (P : plan_pre s) :
  let XS := (given s).*2 in
  exists s', make_plan s = Ret s' /\
    t_fctrl_result s' = concat (reverse (prio <$> XS)) ++ by_tid (concat (rest <$> XS)) /\
    t_fctrl_result s' ≡ₚ concat XS /\
    NoDup (ring_ptr <$> t_fctrl_result s') /\
    ring_sts_idle s = (sts_id <$> concat XS) ++ ring_sts_idle s' /\
    (ring_sts_idle s' <> [] -> forall id t c, id ∈ t_ring_list s -> tring_at s id = Ret t -> (c < 10)%nat -> nonempty t c ->
       exists x, x ∈ t_fctrl_result s' /\ ring_ptr x = (id, c)).
Proof.
  intros XS. eexists. split; [apply (make_plan_spec s P)|]. fold XS. cbn [t_fctrl_result set_fctrl ring_sts_idle set_idle].
  assert (Pm : plan_out XS ≡ₚ concat XS) by (apply plan_out_perm, Forall_fmap, assign_ok). split_all.
  - rewrite Pm. by apply given_ptrs.
  - unfold XS, given at 1. rewrite assign_sts. symmetry. apply take_drop.
  - intros Hi id t c Hid Et Hc Hn. setoid_rewrite Pm. apply (assign_all s (t_ring_list s) (ring_sts_idle s)) with (t := t); try done.
    fold (given s). fold XS. apply Nat.nle_gt. intros L. by rewrite drop_ge in Hi.
Qed.
End PhlPlan.
