(* ===== verification/PhlRun.v ===== *)
(** * The transmit tasklet and its control

    phl/hci/phl_trx_usb.c ([_phl_tx_callback_usb] with the turn of [PhlTx], the stop and the
    resumption of the data path), phl/phl_tx.c ([phl_datapath_chk_trx_pause],
    [_phl_sw_tx_pause], [_phl_sw_tx_resume], the power request), and what calls them:
    [core_tx_call_phl] of core/rtw_xmit.c and [rtw_usb_write_port_complete] of
    os_dep/linux/usb_ops_linux.c.

    The tasklet, the callers in core, the completions and the one thread that controls the
    data path interleave; each of the operations of [op] is atomic (the ring lists and the
    pools have their locks, and a ring has one reader and one writer). *)

From stdpp Require Import functions list.
From S2P Require Import Prelude Bytes TxDesc PhlTx.
Import TxDesc PhlTx.

Module PhlRun.

Inductive tx_status :=
  | PHL_TX_STATUS_IDLE | PHL_TX_STATUS_RUNNING | PHL_TX_STATUS_STOP_INPROGRESS | PHL_TX_STATUS_SW_PAUSE.
#[export] Instance tx_status_dec : EqDecision tx_status.
Proof. solve_decision. Defined.

Inductive phl_module_id := PHL_MDL_PHY_MGNT | PHL_MDL_SER | PHL_MDL_POWER_MGNT | PHL_MDL_OTHER.
Definition DATA_CTRL_MDL_NONE : Z := 0.
Definition DATA_CTRL_MDL_CMD_CTRLER : Z := 1.
Definition DATA_CTRL_MDL_SER : Z := 2.
Definition DATA_CTRL_MDL_PS : Z := 4.

Definition _phl_get_ctrl_mdl (id : phl_module_id) : Z :=
  match id with
  | PHL_MDL_PHY_MGNT => DATA_CTRL_MDL_CMD_CTRLER
  | PHL_MDL_SER => DATA_CTRL_MDL_SER
  | PHL_MDL_POWER_MGNT => DATA_CTRL_MDL_PS
  | PHL_MDL_OTHER => DATA_CTRL_MDL_NONE
  end.

(** ** State *)

(** [sched]: the tasklet is scheduled; [polling]: the module whose request to pause waits
    for the tasklet; [pwr_msgs]: power requests that the dispatcher has not answered. *)
Record run := mk_run {
  st : phl; phl_sw_tx_sts : tx_status; phl_sw_tx_req_pwr : bool; pause_tx_id : Z;
  sched : bool; polling : option phl_module_id; pwr_msgs : nat
}.

Definition set_phl (x : phl) (s : run) : run :=
  mk_run x (phl_sw_tx_sts s) (phl_sw_tx_req_pwr s) (pause_tx_id s) (sched s) (polling s) (pwr_msgs s).
Definition set_sts (x : tx_status) (s : run) : run :=
  mk_run (st s) x (phl_sw_tx_req_pwr s) (pause_tx_id s) (sched s) (polling s) (pwr_msgs s).
Definition set_pwr (x : bool) (n : nat) (s : run) : run :=
  mk_run (st s) (phl_sw_tx_sts s) x (pause_tx_id s) (sched s) (polling s) n.
Definition set_pause_id (x : Z) (s : run) : run :=
  mk_run (st s) (phl_sw_tx_sts s) (phl_sw_tx_req_pwr s) x (sched s) (polling s) (pwr_msgs s).
Definition set_sched (x : bool) (s : run) : run :=
  mk_run (st s) (phl_sw_tx_sts s) (phl_sw_tx_req_pwr s) (pause_tx_id s) x (polling s) (pwr_msgs s).
Definition set_polling (x : option phl_module_id) (s : run) : run :=
  mk_run (st s) (phl_sw_tx_sts s) (phl_sw_tx_req_pwr s) (pause_tx_id s) (sched s) x (pwr_msgs s).

Definition run0 (size num mgnt_size mgnt_num : nat) : run :=
  mk_run (phl_datapath_init size num mgnt_size mgnt_num) PHL_TX_STATUS_IDLE false 0 false None 0.

(** What the tasklet finds: whether power saving allows it to run, whether the dispatcher
    takes its message, and whether the bus takes the transfers, by their number. *)
Record env := mk_env { ps_allowed : bool; msg_sent : bool; usb : nat -> bool }.

(** ** The tasklet *)

Definition rtw_phl_tx_req_notify (s : run) : run := set_sched true s.

(** A request for power, at most one at a time, and only if power saving alone pauses. *)
Definition _phl_datapath_chk_pwr (e : env) (s : run) : run :=
  if negb (Z.land (pause_tx_id s) (Z.lnot DATA_CTRL_MDL_PS) =? 0) then s
  else if phl_sw_tx_more (st s) && negb (phl_sw_tx_req_pwr s) && msg_sent e
  then set_pwr true (S (pwr_msgs s)) s else s.

Definition phl_datapath_chk_trx_pause (e : env) (s : run) : bool * run :=
  if decide (phl_sw_tx_sts s = PHL_TX_STATUS_SW_PAUSE) then (true, _phl_datapath_chk_pwr e s) else (false, s).

(** The rings of the plan, one after the other. *)
Fixpoint serve (c : cfg) (usb : nat -> bool) (i n : nat) (s : phl) : res phl :=
  match n with
  | O => Ret s
  | S n => s ← tx_ring_turn c (usb i) s; serve c usb (S i) n s
  end.

Definition tx_turn (c : cfg) (usb : nat -> bool) (s : phl) : res phl :=
  '(sta_list, s) ← phl_check_xmit_ring_resource s;
  match sta_list with
  | [] => Ret s
  | _ => s ← phl_tx_flow_ctrl sta_list s; serve c usb 0 (length (t_fctrl_result s)) s
  end.

Definition _phl_tx_callback_usb (c : cfg) (e : env) (s : run) : res run :=
  let s := set_sched false s in
  let '(tx_pause, s) := phl_datapath_chk_trx_pause e s in
  s ← (if tx_pause : bool then Ret s
       else
         x ← (if phl_sw_tx_more (st s) && negb (ps_allowed e) then Ret (st s) else tx_turn c (usb e) (st s));
         let s := set_phl x s in
         Ret (if decide (phl_sw_tx_sts s = PHL_TX_STATUS_STOP_INPROGRESS) then set_sts PHL_TX_STATUS_SW_PAUSE s else s));
  x ← phl_free_deferred_tx_ring (st s);
  Ret (set_phl x s).

(** [_phl_req_pwr_cb], when the dispatcher answers. *)
Definition _phl_req_pwr_cb (ok : bool) (s : run) : run :=
  let s := set_pwr false (Nat.pred (pwr_msgs s)) s in
  if ok then rtw_phl_tx_req_notify s else s.

(** ** Pause and resumption *)

Inductive ctl_result := CTL_SUCCESS | CTL_FAILURE | CTL_TIMEOUT | CTL_POLL.

(** [_phl_sw_tx_pause] up to its loop: the tasklet is asked to stop, one last time. *)
Definition _phl_sw_tx_pause (id : phl_module_id) (s : run) : ctl_result * run :=
  if bool_decide (phl_sw_tx_sts s = PHL_TX_STATUS_SW_PAUSE) || bool_decide (phl_sw_tx_sts s = PHL_TX_STATUS_STOP_INPROGRESS)
  then (CTL_SUCCESS, set_pause_id (Z.lor (pause_tx_id s) (_phl_get_ctrl_mdl id)) s)
  else (CTL_POLL, set_polling (Some id) (rtw_phl_tx_req_notify (set_sts PHL_TX_STATUS_STOP_INPROGRESS s))).

(** The end of the loop: the tasklet has stopped, or there was no more time. *)
Definition poll_end (s : run) : ctl_result * run :=
  match polling s with
  | None => (CTL_FAILURE, s)
  | Some id =>
      (if decide (phl_sw_tx_sts s = PHL_TX_STATUS_SW_PAUSE) then CTL_SUCCESS else CTL_TIMEOUT,
       set_polling None (set_pause_id (Z.lor (pause_tx_id s) (_phl_get_ctrl_mdl id)) s))
  end.

Definition _phl_sw_tx_resume (id : phl_module_id) (s : run) : ctl_result * run :=
  let m := _phl_get_ctrl_mdl id in
  if negb (Z.land (pause_tx_id s) m =? m) then (CTL_FAILURE, s)
  else
    let s := set_pause_id (Z.land (pause_tx_id s) (Z.lnot m)) s in
    if negb (pause_tx_id s =? DATA_CTRL_MDL_NONE) then (CTL_SUCCESS, s)
    else (CTL_SUCCESS, rtw_phl_tx_req_notify (set_sts PHL_TX_STATUS_RUNNING s)).

(** ** Core and the bus *)

(** One request of [core_tx_call_phl]. *)
Definition core_tx_call_phl (r : xmit_req) (s : run) : res (bool * run) :=
  '(x, p) ← rtw_phl_add_tx_req r (st s);
  match x with
  | RTW_PHL_STATUS_SUCCESS => Ret (true, rtw_phl_tx_req_notify (set_phl p s))
  | _ => Ret (false, set_phl p s)
  end.

Definition rtw_usb_write_port_complete (k : nat) (s : run) : run :=
  rtw_phl_tx_req_notify (set_phl (phl_tx_release_buf_usb k (st s)) s).

Inductive op :=
  | Register (macid hw_band hw_wmm hw_port : Z)
  | Deregister (macid : Z)
  | Xmit (r : xmit_req)
  | Tasklet (e : env)
  | FreeDeferred
  | UsbDone (k : nat)
  | PwrDone (ok : bool)
  | Pause (id : phl_module_id)
  | PollEnd
  | Resume (id : phl_module_id).

(** A step that cannot happen leaves the state as it is. *)
Definition step (c : cfg) (o : op) (s : run) : res run :=
  match o with
  | Register m b w p => Ret (set_phl (phl_register_tx_ring m b w p (st s)) s)
  | Deregister m => '(_, x) ← phl_deregister_tx_ring m (st s); Ret (set_phl x s)
  | Xmit r => '(_, s) ← core_tx_call_phl r s; Ret s
  | Tasklet e => if sched s then _phl_tx_callback_usb c e s else Ret s
  | FreeDeferred => x ← phl_free_deferred_tx_ring (st s); Ret (set_phl x s)
  | UsbDone k => match in_flight (st s) !! k with Some _ => Ret (rtw_usb_write_port_complete k s) | None => Ret s end
  | PwrDone ok => match pwr_msgs s with O => Ret s | S _ => Ret (_phl_req_pwr_cb ok s) end
  | Pause id => match polling s with None => Ret (_phl_sw_tx_pause id s).2 | Some _ => Ret s end
  | PollEnd => Ret (poll_end s).2
  | Resume id => match polling s with None => Ret (_phl_sw_tx_resume id s).2 | Some _ => Ret s end
  end.

Fixpoint steps (c : cfg) (l : list op) (s : run) : res run :=
  match l with [] => Ret s | o :: l => s ← step c o s; steps c l s end.
End PhlRun.
