(* ===== verification/PhlInv.v ===== *)
(** * The transmit path between two operations

    The queues of [PhlTx] as a specification sees them ([fifo]: what a ring accepted is what
    it gave back and what it holds, in this order), the invariant of the state ([inv]), and
    that the operations keep it and only put and take ([takes]). *)

From stdpp Require Import functions list sorting.
From S2P Require Import Prelude Bytes TxDesc PhlTx PhlRing PhlPlan PhlRun.
Import TxDesc PhlTx PhlRing PhlPlan PhlRun.

Module PhlInv.

(** ** The specification: queues *)

Abbreviation ring_id := (nat * nat)%type.
Abbreviation queues := (ring_id -> list xmit_req).
Abbreviation history := (list (ring_id * nat)).

Definition accepted_at (p : ring_id) (acc : history) : list nat := (filter (λ a, a.1 = p) acc).*2.

(** What the ring accepted, it gave back or holds, in this order; nothing else comes back. *)
Record fifo (acc : history) (q : queues) (ret : list nat) : Prop := {
  ff_ids : NoDup acc.*2;
  ff_ret : forall i, i ∈ ret -> i ∈ acc.*2;
  ff_order : forall p, accepted_at p acc = filter (λ i, i ∈ accepted_at p acc) ret ++ (req_id <$> q p)
}.

Lemma elem_accepted_at i p acc : i ∈ accepted_at p acc <-> (p, i) ∈ acc.
Proof.
  unfold accepted_at. rewrite list_elem_of_fmap. split.
  - intros ([p' i'] & -> & [Ep H]%list_elem_of_filter). cbn in *. by subst.
  - intros H. exists (p, i). by rewrite list_elem_of_filter.
Qed.

Lemma accepted_at_unique i p p' acc : NoDup acc.*2 -> i ∈ accepted_at p acc -> i ∈ accepted_at p' acc -> p = p'.
Proof.
  rewrite !elem_accepted_at. intros ND [j Hj]%list_elem_of_lookup [j' Hj']%list_elem_of_lookup.
  assert (j = j') as <-; [|congruence].
  eapply (NoDup_lookup acc.*2); [done|by rewrite list_lookup_fmap, Hj|by rewrite list_lookup_fmap, Hj'].
Qed.

Lemma fifo_empty : fifo [] (λ _, []) [].
Proof. split; [constructor|by intros i ?%elem_of_nil|done]. Qed.

Lemma fifo_put acc q ret p r : fifo acc q ret -> req_id r ∉ acc.*2 ->
  fifo (acc ++ [(p, req_id r)]) (<[p := q p ++ [r]]> q) ret.
Proof.
  intros [F1 F2 F3] Hr. split.
  - rewrite fmap_app. apply NoDup_app. split; [done|]. split; [|apply NoDup_singleton].
    intros i Hi ->%list_elem_of_singleton. done.
  - intros i Hi. rewrite fmap_app, elem_of_app. left. by apply F2.
  - intros p'. unfold accepted_at at 1. rewrite filter_app, fmap_app. fold (accepted_at p' acc). rewrite (F3 p') at 1.
    assert (E : filter (λ i, i ∈ accepted_at p' acc) ret = filter (λ i, i ∈ accepted_at p' (acc ++ [(p, req_id r)])) ret).
    { clear F3. induction ret as [|i ret IH]; [done|]. rewrite !filter_cons, IH by (intros j Hj; apply F2; by right).
      assert (Hi : i <> req_id r) by (intros ->; apply Hr, F2; by left).
      apply decide_ext. rewrite !elem_accepted_at, elem_of_app, list_elem_of_singleton. naive_solver. }
    rewrite E, <- app_assoc. f_equal. destruct (decide (p' = p)) as [->|Hn].
    + rewrite fn_lookup_insert, filter_cons_True by done. by rewrite fmap_app.
    + rewrite fn_lookup_insert_ne by done. rewrite filter_cons_False by (cbn; congruence). by rewrite app_nil_r.
Qed.

Lemma fifo_take acc q ret p k : fifo acc q ret ->
  fifo acc (<[p := drop k (q p)]> q) (ret ++ (req_id <$> take k (q p))).
Proof.
  intros [F1 F2 F3].
  assert (T : forall i, i ∈ req_id <$> take k (q p) -> i ∈ accepted_at p acc).
  { intros i Hi. rewrite F3, elem_of_app. right. rewrite <- (take_drop k (q p)), fmap_app, elem_of_app. by left. }
  split; [done| |].
  - intros i [Hi|Hi]%elem_of_app; [by apply F2|]. apply T, elem_accepted_at in Hi. by apply (list_elem_of_fmap_2 snd) in Hi.
  - intros p'. rewrite (F3 p') at 1. rewrite filter_app, <- app_assoc. f_equal. destruct (decide (p' = p)) as [->|Hn].
    + rewrite fn_lookup_insert, filter_all by (by apply Forall_forall). by rewrite <- fmap_app, take_drop.
    + rewrite fn_lookup_insert_ne, filter_none; [done| |done]. apply Forall_forall. intros i Hi Hi'. apply Hn.
      by eapply accepted_at_unique; [| |apply T].
Qed.

(** Requests leave rings from the front, and come back in this order. *)
Inductive takes : queues -> list nat -> queues -> list nat -> Prop :=
  | takes_refl q ret : takes q ret q ret
  | takes_step q ret p k q' ret' :
      takes (<[p := drop k (q p)]> q) (ret ++ (req_id <$> take k (q p))) q' ret' -> takes q ret q' ret'.

Lemma takes_fifo acc q ret q' ret' : takes q ret q' ret' -> fifo acc q ret -> fifo acc q' ret'.
Proof. induction 1 as [|q ret p k q' ret' _ IH]; [done|]. intros F. by apply IH, fifo_take. Qed.

Lemma takes_one q ret p k : takes q ret (<[p := drop k (q p)]> q) (ret ++ (req_id <$> take k (q p))).
Proof. eapply takes_step. constructor. Qed.

Lemma takes_trans q ret q1 ret1 q2 ret2 : takes q ret q1 ret1 -> takes q1 ret1 q2 ret2 -> takes q ret q2 ret2.
Proof. induction 1 as [|q ret p k q1 ret1 _ IH]; [done|]. intros H. eapply takes_step. by apply IH. Qed.

(** A ring never holds anything that it did not hold before. *)
Lemma takes_suffix q ret q' ret' p : takes q ret q' ret' -> exists k, q' p = drop k (q p).
Proof.
  induction 1 as [|q ret p' k q' ret' _ [j IH]]; [by exists 0%nat; rewrite drop_0|]. destruct (decide (p = p')) as [->|Hn].
  - rewrite fn_lookup_insert, drop_drop in IH. by eexists.
  - rewrite fn_lookup_insert_ne in IH by done. by exists j.
Qed.

(** What came back, the first one first. *)
Definition returned (s : phl) : list nat :=
  omap (λ e, match e with TxRecycle i => Some i | _ => None end) (reverse (log s)).

Lemma returned_emit e s : returned (emit e s) = returned s ++ match e with TxRecycle i => [i] | _ => [] end.
Proof. unfold returned. cbn [log emit]. rewrite reverse_cons, omap_app. by destruct e. Qed.

Lemma returned_all c l s : Forall (λ r, treq_type r = RTW_PHL_TREQ_TYPE_NORMAL) l ->
  returned (recycle_all c l s) = returned s ++ (req_id <$> l).
Proof.
  unfold recycle_all. intros F. revert s. induction F as [|r l Hr F IH]; intros s; cbn [foldl fmap list_fmap]; [by rewrite app_nil_r|].
  rewrite IH. unfold recycle at 1. rewrite Hr. cbn [Z.eqb RTW_PHL_TREQ_TYPE_NORMAL RTW_PHL_TREQ_TYPE_TEST_PATTERN].
  by rewrite returned_emit, <- app_assoc.
Qed.
(** ** The invariant *)

Section inv.
Context (c : cfg) (mg : Z) (num mgnt_num : nat) (Hc : cfg_ok c) (Hmg : 0 <= mg < 2 ^ 30).

Record tring_inv (q : nat -> list xmit_req) (t : tring_list) : Prop := {
  ti_len : length (phl_ring t) = 10%nat;
  ti_plan : tx_plan t = plan0;
  ti_ring i g : phl_ring t !! i = Some g ->
    ring_is g (q i) /\ ring_wf (band t) (Z.of_nat i) g /\ Forall (raw_ok mg (Z.of_nat i)) (q i);
  ti_out i : (10 <= i)%nat -> q i = []
}.

Definition data_buf (b : usb_buf) : Prop := type b = RTW_PHL_PKT_TYPE_DATA /\ zlen (buffer b) = tx_buf_size c.
Definition mgnt_buf (b : usb_buf) : Prop := type b = RTW_PHL_PKT_TYPE_MGNT /\ zlen (buffer b) = mg.

(** Each buffer is in its pool or on its way. *)
Record bufs_inv (idle mgmt flight : list usb_buf) : Prop := {
  bi_data : Forall data_buf idle;
  bi_mgnt : Forall mgnt_buf mgmt;
  bi_flight : Forall (λ b, data_buf b \/ mgnt_buf b) flight;
  bi_data_ids : buf_id <$> idle ++ filter (λ b, type b = RTW_PHL_PKT_TYPE_DATA) flight ≡ₚ seq 0 num;
  bi_mgnt_ids : buf_id <$> mgmt ++ filter (λ b, type b = RTW_PHL_PKT_TYPE_MGNT) flight ≡ₚ seq num mgnt_num
}.

Lemma data_not_mgnt : RTW_PHL_PKT_TYPE_DATA <> RTW_PHL_PKT_TYPE_MGNT.
Proof. done. Qed.

Lemma data_send b b' i m f : bufs_inv (b :: i) m f -> data_buf b' -> buf_id b' = buf_id b -> bufs_inv i m (f ++ [b']).
Proof.
  intros [B1 B2 B3 B4 B5] [T L] E. apply Forall_cons in B1 as [_ B1]. split; [done|done| | |].
  - apply Forall_app. split; [done|]. apply Forall_singleton. by left.
  - rewrite <- B4, filter_app, filter_cons_True, filter_nil by done. rewrite !fmap_app, !fmap_cons, E. cbn. solve_Permutation.
  - rewrite filter_app, (filter_cons_False _ b'), filter_nil, app_nil_r; [done|]. rewrite T. apply data_not_mgnt.
Qed.

Lemma data_back b b' i m f : bufs_inv (b :: i) m f -> data_buf b' -> buf_id b' = buf_id b -> bufs_inv (i ++ [b']) m f.
Proof.
  intros [B1 B2 B3 B4 B5] D E. apply Forall_cons in B1 as [_ B1]. split; [|done|done| |done].
  - apply Forall_app. split; [done|]. by apply Forall_singleton.
  - rewrite <- B4. rewrite !fmap_app, !fmap_cons, E. cbn. solve_Permutation.
Qed.

Lemma mgnt_send b b' i m f : bufs_inv i (b :: m) f -> mgnt_buf b' -> buf_id b' = buf_id b -> bufs_inv i m (f ++ [b']).
Proof.
  intros [B1 B2 B3 B4 B5] [T L] E. apply Forall_cons in B2 as [_ B2]. split; [done|done| | |].
  - apply Forall_app. split; [done|]. apply Forall_singleton. by right.
  - rewrite filter_app, (filter_cons_False _ b'), filter_nil, app_nil_r; [done|]. rewrite T. intros E'. by apply data_not_mgnt.
  - rewrite <- B5, filter_app, filter_cons_True, filter_nil by done. rewrite !fmap_app, !fmap_cons, E. cbn. solve_Permutation.
Qed.

Lemma mgnt_back b b' i m f : bufs_inv i (b :: m) f -> mgnt_buf b' -> buf_id b' = buf_id b -> bufs_inv i (m ++ [b']) f.
Proof.
  intros [B1 B2 B3 B4 B5] D E. apply Forall_cons in B2 as [_ B2]. split; [done| |done|done|].
  - apply Forall_app. split; [done|]. by apply Forall_singleton.
  - rewrite <- B5. rewrite !fmap_app, !fmap_cons, E. cbn. solve_Permutation.
Qed.

(** A transfer is complete. *)
Lemma bufs_release i m f k b : bufs_inv i m f -> f !! k = Some b ->
  (type b = RTW_PHL_PKT_TYPE_MGNT -> bufs_inv i (m ++ [b]) (delete k f)) /\
  (type b <> RTW_PHL_PKT_TYPE_MGNT -> bufs_inv (i ++ [b]) m (delete k f)).
Proof.
  intros [B1 B2 B3 B4 B5] H. pose proof (delete_Permutation f k b H) as E.
  rewrite E in B3, B4, B5. apply Forall_cons in B3 as [D B3].
  rewrite filter_cons in B4, B5. destruct D as [[D L]|[D L]]; split; intros Ht; try (rewrite D in Ht; done).
  - rewrite decide_True in B4 by done. rewrite decide_False in B5 by (rewrite D; apply data_not_mgnt).
    split; [|done|done| |done]; [by apply Forall_app_2; [|apply Forall_singleton]|].
    rewrite <- B4, !fmap_app, !fmap_cons. cbn. solve_Permutation.
  - rewrite decide_True in B5 by done. rewrite decide_False in B4 by (rewrite D; intros E'; by apply data_not_mgnt).
    split; [done| |done|done|]; [by apply Forall_app_2; [|apply Forall_singleton]|].
    rewrite <- B5, !fmap_app, !fmap_cons. cbn. solve_Permutation.
Qed.

(** A planned ring has the requests that its state speaks of. *)
Definition planned_ring (q : queues) (s : phl) (x : ring_status) : Prop :=
  (ring_ptr x).1 ∈ t_ring_list s /\ 0 < req_busy x <= zlen (q (ring_ptr x)) /\
  exists g, ring_at s (ring_ptr x) = Ret g /\ phl_next_idx g = wrap_next (phl_idx g).

Record inv (q : queues) (s : phl) : Prop := {
  iv_lists : NoDup (t_ring_list s ++ t_ring_free_list s);
  iv_heap id : id ∈ t_ring_list s ++ t_ring_free_list s -> exists t, tring_at s id = Ret t /\ tring_inv (λ i, q (id, i)) t;
  iv_freed id : id ∉ t_ring_list s ++ t_ring_free_list s ->
    (forall i, q (id, i) = []) /\ ((id < length (trings s))%nat -> trings s !! id = Some None);
  iv_states : ring_sts_idle s ++ (sts_id <$> t_fctrl_result s) ≡ₚ seq 0 MAX_PHL_RING_STATUS_NUMBER;
  iv_result : NoDup (ring_ptr <$> t_fctrl_result s) /\ Forall (planned_ring q s) (t_fctrl_result s);
  iv_bufs : bufs_inv (idle_txbuf s) (mgmt_txbuf s) (in_flight s)
}.

Lemma inv_ext q q' s : (forall p, q' p = q p) -> inv q s -> inv q' s.
Proof.
  intros E [I1 I2 I3 I4 [I5 I6] I7]. split; [done| | |done| |done].
  - intros id Hid. destruct (I2 id Hid) as (t & Et & [T1 T2 T3 T4]). exists t. split; [done|]. split; [done|done| |].
    + intros i g Hg. rewrite E. by apply T3.
    + intros i Hi. rewrite E. by apply T4.
  - intros id Hid. destruct (I3 id Hid) as [H1 H2]. split; [|done]. intros i. by rewrite E.
  - split; [done|]. eapply Forall_impl; [exact I6|]. intros x (X1 & X2 & X3). split; [done|]. by rewrite E.
Qed.

(** *** A ring *)

Lemma inv_ring q s p : inv q s -> p.1 ∈ t_ring_list s ++ t_ring_free_list s -> (p.2 < 10)%nat ->
  exists t g, tring_at s p.1 = Ret t /\ ring_at s p = Ret g /\ ring_is g (q p) /\
    ring_wf (band t) (Z.of_nat p.2) g /\ Forall (raw_ok mg (Z.of_nat p.2)) (q p).
Proof.
  intros I Hid Hi. destruct (iv_heap _ _ I _ Hid) as (t & Et & T). destruct (lookup_lt_is_Some_2 (phl_ring t) p.2) as [g Eg].
  { rewrite (ti_len _ _ T). lia. }
  destruct (ti_ring _ _ T _ _ Eg) as (R & W & F). exists t, g. rewrite (ring_at_tring _ _ _ Et), Eg. destruct p. split_all.
Qed.

Lemma ring_lt10 q s p : inv q s -> p.1 ∈ t_ring_list s ++ t_ring_free_list s -> q p <> [] -> (p.2 < 10)%nat.
Proof.
  intros I Hp Hq. destruct (iv_heap _ _ I _ Hp) as (t & Et & T). destruct (decide (10 <= p.2)%nat) as [Hge|]; [|lia].
  destruct Hq. pose proof (ti_out _ _ T _ Hge) as E. by destruct p.
Qed.

Lemma put_ring_at s p g t : tring_at s p.1 = Ret t ->
  put_ring p g s = put_tring p.1 (set_rings (alter (λ _, g) p.2 (phl_ring t)) t) s.
Proof. intros Et. unfold put_ring, on_ring. by rewrite (on_tring_put _ _ t). Qed.

(** A ring changes with its queue. *)
Lemma tring_inv_put (q : queues) t p g l : tring_inv (λ i, q (p.1, i)) t -> (p.2 < 10)%nat -> ring_is g l ->
  ring_wf (band t) (Z.of_nat p.2) g -> Forall (raw_ok mg (Z.of_nat p.2)) l ->
  tring_inv (λ i, (<[p := l]> q) (p.1, i)) (set_rings (alter (λ _, g) p.2 (phl_ring t)) t).
Proof.
  intros [L P T O] Hp R W F. split; cbn.
  - by rewrite length_alter.
  - done.
  - intros i h. destruct (decide (p.2 = i)) as [<-|Hn].
    + rewrite list_lookup_alter_eq. intros (h' & _ & ->)%fmap_Some. replace (p.1, p.2) with p by (by destruct p).
      by rewrite fn_lookup_insert.
    + rewrite list_lookup_alter_ne by done. intros Hh. rewrite fn_lookup_insert_ne by (destruct p; cbn in *; congruence). by apply T.
  - intros i Hi. rewrite fn_lookup_insert_ne; [by apply O|]. destruct p; cbn in *. intros [= <-]. lia.
Qed.

Lemma heap_put q s p g l : inv q s -> p.1 ∈ t_ring_list s ++ t_ring_free_list s -> (p.2 < 10)%nat -> ring_is g l ->
  (forall t, tring_at s p.1 = Ret t -> ring_wf (band t) (Z.of_nat p.2) g) -> Forall (raw_ok mg (Z.of_nat p.2)) l ->
  let s' := put_ring p g s in let q' := <[p := l]> q in
  (forall id, id ∈ t_ring_list s ++ t_ring_free_list s -> exists t, tring_at s' id = Ret t /\ tring_inv (λ i, q' (id, i)) t) /\
  (forall id, id ∉ t_ring_list s ++ t_ring_free_list s ->
     (forall i, q' (id, i) = []) /\ ((id < length (trings s'))%nat -> trings s' !! id = Some None)).
Proof.
  intros I Hp Hi R W F s' q'. destruct (iv_heap _ _ I _ Hp) as (t & Et & T).
  assert (Es : s' = put_tring p.1 (set_rings (alter (λ _, g) p.2 (phl_ring t)) t) s) by (by apply put_ring_at). split.
  - intros id Hid. destruct (decide (p.1 = id)) as [<-|Hn].
    + eexists. split; [rewrite Es; by eapply tring_at_put|]. apply tring_inv_put; auto.
    + destruct (iv_heap _ _ I _ Hid) as (t' & Et' & T'). exists t'. rewrite Es, tring_at_put_ne by done. split; [done|].
      destruct T' as [L' P' R' O']. split; [done|done| |]; unfold q'.
      * intros i h Hh. rewrite fn_lookup_insert_ne by (destruct p; cbn in *; congruence). by apply R'.
      * intros i Hi'. rewrite fn_lookup_insert_ne by (destruct p; cbn in *; congruence). by apply O'.
  - intros id Hid. destruct (iv_freed _ _ I _ Hid) as [Q1 Q2]. assert (Hn : p.1 <> id) by (by intros <-). split.
    + intros i. unfold q'. rewrite fn_lookup_insert_ne by (destruct p; cbn in *; congruence). apply Q1.
    + rewrite Es. unfold put_tring, on_tring. cbn. rewrite length_alter, list_lookup_alter_ne by done. done.
Qed.
(** *** A ring's turn *)

Lemma recycle_all_eq l s : exists lg, recycle_all c l s =
  mk_phl (trings s) (t_ring_list s) (t_ring_free_list s) (ring_sts_idle s) (t_fctrl_result s) (idle_txbuf s)
    (mgmt_txbuf s) (in_flight s) lg (phl_sw_tx_more s).
Proof.
  unfold recycle_all. revert s. induction l as [|r l IH]; intros s; cbn [foldl]; [exists (log s); by destruct s|].
  destruct (IH (recycle c r s)) as [lg ->]. unfold recycle. repeat case_match; by eexists.
Qed.

Lemma after_turn_eq x cat l ch g b o s : exists lg, after_turn c x cat l ch g b o s =
  mk_phl (trings (put_ring (ring_ptr x) g s)) (t_ring_list s) (t_ring_free_list s) (ring_sts_idle s ++ [sts_id x]) (t_fctrl_result s)
    (match o with None => if cat =? MGMT_TID then idle_txbuf s else idle_txbuf s ++ [b] | Some _ => idle_txbuf s end)
    (match o with None => if cat =? MGMT_TID then mgmt_txbuf s ++ [b] else mgmt_txbuf s | Some _ => mgmt_txbuf s end)
    (match o with Some _ => in_flight s ++ [b] | None => in_flight s end) lg (phl_sw_tx_more s).
Proof.
  unfold after_turn. destruct (recycle_all_eq l s) as [lg ->]. destruct o; [by eexists|]. unfold put_buf.
  destruct (cat =? MGMT_TID); by eexists.
Qed.

Lemma after_turn_returned x cat l ch g b o s : Forall (raw_ok mg cat) l ->
  returned (after_turn c x cat l ch g b o s) = returned s ++ (req_id <$> l).
Proof.
  intros F. rewrite <- (returned_all c l s) by (eapply Forall_impl; [exact F|]; intros r; apply ro_normal).
  unfold after_turn. destruct o as [d|]; [|unfold put_buf; by destruct (cat =? MGMT_TID)].
  transitivity (returned (emit (UsbTx (buf_id b) ch d) (recycle_all c l s))); [done|]. by rewrite returned_emit, app_nil_r.
Qed.

(** The next ring of the plan leaves the others and their queues alone. *)
Lemma planned_put q s p g l y : ring_ptr y <> p -> planned_ring q s y -> planned_ring (<[p := l]> q) (put_ring p g s) y.
Proof.
  intros Hn (H1 & H2 & h & Eh & Hh). split; [done|]. rewrite fn_lookup_insert_ne by done. split; [done|]. exists h.
  by rewrite ring_at_put_ne.
Qed.

Lemma after_turn_inv q s x l idle mgmt k ch g b o : inv q s -> t_fctrl_result s = x :: l ->
  let p := ring_ptr x in let cat := Z.of_nat (cat_of x) in
  p.1 ∈ t_ring_list s ++ t_ring_free_list s -> (p.2 < 10)%nat -> ring_is g (drop k (q p)) ->
  (forall t, tring_at s p.1 = Ret t -> ring_wf (band t) cat g) -> Forall (raw_ok mg cat) (q p) ->
  bufs_inv (match o with None => if cat =? MGMT_TID then idle else idle ++ [b] | Some _ => idle end)
    (match o with None => if cat =? MGMT_TID then mgmt ++ [b] else mgmt | Some _ => mgmt end)
    (match o with Some _ => in_flight s ++ [b] | None => in_flight s end) ->
  inv (<[p := drop k (q p)]> q)
    (after_turn c x cat (take k (q p)) ch g b o (set_bufs idle mgmt (in_flight s) (set_fctrl l s))).
Proof.
  intros I Ef p cat Hp Hp2 R W F B. destruct (iv_result _ _ I) as [N P]. rewrite Ef in N, P.
  apply NoDup_cons in N as [Nx N]. apply Forall_cons in P as [_ P].
  destruct (heap_put q s p g (drop k (q p)) I Hp Hp2 R W) as [H1 H2]; [by apply Forall_drop|].
  destruct (after_turn_eq x cat (take k (q p)) ch g b o (set_bufs idle mgmt (in_flight s) (set_fctrl l s))) as [lg ->].
  split; cbn [t_ring_list t_ring_free_list trings ring_sts_idle t_fctrl_result idle_txbuf mgmt_txbuf in_flight set_bufs set_fctrl].
  - apply I.
  - exact H1.
  - exact H2.
  - rewrite <- (iv_states _ _ I), Ef. cbn. solve_Permutation.
  - split; [done|]. apply Forall_forall. intros y Hy. eapply Forall_forall in P; [|exact Hy].
    apply (planned_put q s p g); [|done]. intros E. apply Nx. fold p. rewrite <- E. by apply list_elem_of_fmap_2.
  - exact B.
Qed.

Record turn_post (q : queues) (x : ring_status) (l : list ring_status) (ok : bool) (s s' : phl) (k : nat) : Prop := {
  tp_inv : inv (<[ring_ptr x := drop k (q (ring_ptr x))]> q) s';
  tp_result : t_fctrl_result s' = l;
  tp_returned : returned s' = returned s ++ (req_id <$> take k (q (ring_ptr x)));
  tp_lists : t_ring_list s' = t_ring_list s /\ t_ring_free_list s' = t_ring_free_list s;
  tp_flight : in_flight s `prefix_of` in_flight s';
  tp_served : idle_txbuf s <> [] -> mgmt_txbuf s <> [] ->
    exists b g o, ring_wf b (Z.of_nat (cat_of x)) g /\ turn_result c ok (fill_mdata x g) (q (ring_ptr x)) k o /\ (o <> None -> in_flight s' <> [])
}.

(** With a buffer that was taken from its pool. *)
Lemma turn_with_buffer q s x l ok b0 idle mgmt : inv q s -> t_fctrl_result s = x :: l ->
  let mgnt := Z.of_nat (cat_of x) =? MGMT_TID in
  idle_txbuf s = (if mgnt then idle else b0 :: idle) -> mgmt_txbuf s = (if mgnt then b0 :: mgmt else mgmt) ->
  exists s' k, _phl_handle_xmit_ring_usb c ok x b0 (set_bufs idle mgmt (in_flight s) (set_fctrl l s)) = Ret s' /\
    turn_post q x l ok s s' k.
Proof.
  intros I Ef mgnt Ei Em. set (p := ring_ptr x). set (s1 := set_bufs _ _ _ _).
  destruct (iv_result _ _ I) as [N P]. rewrite Ef in N, P. apply NoDup_cons in N as [Nx N]. apply Forall_cons in P as [(P1 & P2 & g & Eg & Pn) P].
  assert (Hp : p.1 ∈ t_ring_list s ++ t_ring_free_list s) by (apply elem_of_app; by left).
  assert (Hp2 : (p.2 < 10)%nat) by (apply (ring_lt10 q s); [done|done|intros E; assert (zlen (q p) = 0) by (by rewrite E); unfold p in *; lia]).
  destruct (inv_ring q s p I Hp Hp2) as (t & g' & Et & Eg' & R & W & F). fold p in Eg. rewrite Eg in Eg'. injection Eg' as <-.
  assert (B := iv_bufs _ _ I). rewrite Ei, Em in B.
  assert (L0 : zlen (buffer b0) = buf_len c mg (Z.of_nat (cat_of x)) /\ (if mgnt then mgnt_buf b0 else data_buf b0)).
  { unfold buf_len. fold mgnt. destruct mgnt; [destruct B as [_ B _ _ _]|destruct B as [B _ _ _ _]]; apply Forall_cons in B as [[T L] _]; done. }
  destruct L0 as [L0 D0].
  destruct (handle_spec c mg (band t) (Z.of_nat (cat_of x)) Hc Hmg x b0 ok g (q p) s1) as (k & o & g1 & d & Tr & Hk & R1 & T1 & C1 & Ld & E); try done.
  set (b := mk_buf (buf_id b0) d (type b0)) in *. exists (after_turn c x (Z.of_nat (cat_of x)) (take k (q p)) (dma_ch g) g1 b o s1), k.
  split; [exact E|]. assert (Wg : ring_wf (band t) (Z.of_nat (cat_of x)) g1) 
    by (destruct W as [W1 W2 W3 W4]; split; [by rewrite T1|by rewrite C1|done|done]).
  assert (Fl : in_flight s `prefix_of` (match o with Some _ => in_flight s ++ [b] | None => in_flight s end))
    by (destruct o; [by apply prefix_app_r|done]).
  split.
  - apply after_turn_inv; try done; [intros t' Et'; assert (Ret t' = Ret t) as [= ->] by (rewrite <- Et'; exact Et); exact Wg|].
    assert (Ld' : zlen d = if mgnt then mg else tx_buf_size c) by exact Ld. fold mgnt. destruct mgnt, o.
    + eapply mgnt_send; [exact B|split; [apply D0|exact Ld']|done].
    + eapply mgnt_back; [exact B|split; [apply D0|exact Ld']|done].
    + eapply data_send; [exact B|split; [apply D0|exact Ld']|done].
    + eapply data_back; [exact B|split; [apply D0|exact Ld']|done].
  - by destruct (after_turn_eq x (Z.of_nat (cat_of x)) (take k (q p)) (dma_ch g) g1 b o s1) as [lg ->].
  - rewrite after_turn_returned; [done|by apply Forall_take].
  - by destruct (after_turn_eq x (Z.of_nat (cat_of x)) (take k (q p)) (dma_ch g) g1 b o s1) as [lg ->].
  - by destruct (after_turn_eq x (Z.of_nat (cat_of x)) (take k (q p)) (dma_ch g) g1 b o s1) as [lg ->].
  - intros _ _. exists (band t), g, o. split; [done|]. split; [done|]. intros Ho.
    destruct (after_turn_eq x (Z.of_nat (cat_of x)) (take k (q p)) (dma_ch g) g1 b o s1) as [lg ->].
    cbn. destruct o; [|done]. by destruct (in_flight s).
Qed.

(** Without a buffer the state of the ring goes back to the pool. *)
Lemma turn_without q s x l ok : inv q s -> t_fctrl_result s = x :: l -> (idle_txbuf s = [] \/ mgmt_txbuf s = []) ->
  turn_post q x l ok s (phl_release_ring_sts x (set_fctrl l s)) 0.
Proof.
  intros I Ef He. destruct (iv_result _ _ I) as [N P]. rewrite Ef in N, P.
  apply NoDup_cons in N as [Nx N]. apply Forall_cons in P as [_ P].
  split; [|done|by rewrite app_nil_r|done|done|by destruct He as [-> | ->]].
  apply (inv_ext q); [intros p; destruct (decide (p = ring_ptr x)) as [->|]; [by rewrite fn_lookup_insert, drop_0|by rewrite fn_lookup_insert_ne]|].
  destruct I as [I1 I2 I3 I4 I5 I6]. split; try done.
  cbn. rewrite <- I4, Ef. cbn. solve_Permutation.
Qed.

Lemma ring_turn q s x l ok : inv q s -> t_fctrl_result s = x :: l ->
  exists s' k, tx_ring_turn c ok s = Ret s' /\ turn_post q x l ok s s' k.
Proof.
  intros I Ef. unfold tx_ring_turn, _phl_tx_flow_ctrl_usb. rewrite Ef.
  destruct (iv_result _ _ I) as [_ P]. rewrite Ef in P. apply Forall_cons in P as [(P1 & P2 & g & Eg & _) _].
  assert (Hp : (ring_ptr x).1 ∈ t_ring_list s ++ t_ring_free_list s) by (apply elem_of_app; by left).
  destruct (inv_ring q s (ring_ptr x) I Hp) as (t & g' & _ & Eg' & _ & W & _).
  { apply (ring_lt10 q s); [done..|]. intros E. assert (zlen (q (ring_ptr x)) = 0) by (by rewrite E). lia. }
  rewrite Eg in Eg'. injection Eg' as <-. change (ring_at (set_fctrl l s) (ring_ptr x)) with (ring_at s (ring_ptr x)).
  rewrite Eg. cbn [mbind res_bind]. rewrite (rw_tid _ _ _ W). fold (cat_of x).
  pose proof (turn_without q s x l ok I Ef) as TW. pose proof (turn_with_buffer q s x l ok) as TB.
  destruct (Z.of_nat (cat_of x) =? MGMT_TID).
  - change (mgmt_txbuf (set_fctrl l s)) with (mgmt_txbuf s). destruct (mgmt_txbuf s) as [|b m] eqn:Em; cbn [mbind res_bind].
    + do 2 eexists. split; [done|]. apply TW. by right.
    + by apply (TB b (idle_txbuf s) m).
  - change (idle_txbuf (set_fctrl l s)) with (idle_txbuf s). destruct (idle_txbuf s) as [|b m] eqn:Em; cbn [mbind res_bind].
    + do 2 eexists. split; [done|]. apply TW. by left.
    + by apply (TB b m (mgmt_txbuf s)).
Qed.
(** *** The rings of a plan *)

Record serve_post (usb0 : bool) (q : queues) (s : phl) (q' : queues) (s' : phl) : Prop := {
  sp_inv : inv q' s';
  sp_result : t_fctrl_result s' = [];
  sp_takes : takes q (returned s) q' (returned s');
  sp_lists : t_ring_list s' = t_ring_list s /\ t_ring_free_list s' = t_ring_free_list s;
  sp_flight : in_flight s `prefix_of` in_flight s';
  sp_first x : head (t_fctrl_result s) = Some x -> idle_txbuf s <> [] -> mgmt_txbuf s <> [] ->
    exists b g k j o, ring_wf b (Z.of_nat (cat_of x)) g /\ turn_result c usb0 (fill_mdata x g) (q (ring_ptr x)) k o /\ (o <> None -> in_flight s' <> []) /\
      q' (ring_ptr x) = drop (k + j) (q (ring_ptr x))
}.

Lemma serve_inv usb n : forall i q s, inv q s -> length (t_fctrl_result s) = n ->
  exists q' s', serve c usb i n s = Ret s' /\ serve_post (usb i) q s q' s'.
Proof.
  induction n as [|n IH]; intros i q s I L.
  - apply nil_length_inv in L. exists q, s. split; [done|]. split; [done..|constructor|done|done|]. by rewrite L.
  - destruct (t_fctrl_result s) as [|x l] eqn:Ef; [done|]. cbn [serve].
    destruct (ring_turn q s x l (usb i) I Ef) as (s1 & k & -> & [P1 P2 P3 [P4 P4'] P5 P6]). cbn [mbind res_bind].
    destruct (IH (S i) _ s1 P1) as (q' & s' & -> & [S1 S2 S3 [S4 S4'] S5 _]); [rewrite P2; by injection L|].
    exists q', s'. split; [done|]. split; [done|done| |split; congruence|by etrans|].
    + eapply takes_trans; [apply takes_one|]. rewrite <- P3. exact S3.
    + rewrite Ef. intros y [= <-] Hi Hm. destruct (P6 Hi Hm) as (b & g & o & W & T & Ho).
      destruct (takes_suffix _ _ _ _ (ring_ptr x) S3) as [j Ej]. rewrite fn_lookup_insert, drop_drop in Ej.
      exists b, g, k, j, o. split; [done|]. split; [done|]. split; [|done]. intros H E. apply (Ho H). rewrite E in S5. by apply prefix_nil_inv in S5.
Qed.

Lemma tring_inv_wf q t : tring_inv q t -> tring_wf t.
Proof. intros [L P R _]. split; [|done|done]. intros i g Hg. destruct (R i g Hg) as (_ & W & _). apply W. Qed.

Lemma tring_inv_ready q l t : tring_inv q t -> tring_inv q (make_ready l t).
Proof.
  intros [L P R O]. split; [|done| |done].
  - rewrite <- L. cbn. generalize (phl_ring t). clear.
    induction l as [|i l IH]; intros r; cbn; [done|]. by rewrite IH, length_alter.
  - intros i g. rewrite make_ready_lookup. destruct (phl_ring t !! i) as [h|] eqn:E; [|done]. cbn. intros [= <-].
    destruct (R i h E) as (R1 & [W1 W2 W3 W4] & F). case_decide; split_all; by apply ring_next.
Qed.

Lemma on_all_len f A s : length (trings (on_all f A s)) = length (trings s).
Proof. revert s; induction A as [|a A IH]; intros s; [done|]. rewrite on_all_cons, IH. cbn. apply length_alter. Qed.

Lemma inv_plan_pre q s : inv q s -> t_fctrl_result s = [] -> plan_pre s.
Proof.
  intros I Ef. split.
  - pose proof (iv_lists _ _ I) as N. by apply NoDup_app in N as [N _].
  - apply Forall_forall. intros id Hid. destruct (iv_heap _ _ I id) as (t & Et & T); [apply elem_of_app; by left|].
    exists t. split; [done|]. by eapply tring_inv_wf.
  - pose proof (iv_states _ _ I) as E. rewrite Ef, app_nil_r in E. rewrite E. apply NoDup_seq.
  - done.
Qed.

(** The plan of the stations. *)
Lemma plan_inv q s : inv q s -> t_fctrl_result s = [] ->
  exists s', make_plan s = Ret s' /\ inv q s' /\ t_fctrl_result s' = plan_out (given s).*2 /\
    (t_ring_list s' = t_ring_list s /\ t_ring_free_list s' = t_ring_free_list s) /\ log s' = log s /\
    idle_txbuf s' = idle_txbuf s /\ mgmt_txbuf s' = mgmt_txbuf s /\ in_flight s' = in_flight s.
Proof.
  intros I Ef. pose proof (inv_plan_pre q s I Ef) as P. eexists. split; [apply (make_plan_spec s P)|].
  split; [|rewrite on_all_eq; by split_all].
  pose proof (on_all_eq ready_with (given s) s) as Hx. assert (Pm := plan_out_perm (given s).*2 ltac:(apply Forall_fmap, assign_ok)).
  destruct I as [I1 I2 I3 I4 I5 I6]. split; try rewrite Hx; cbn; try done.
  - intros id Hid. destruct (I2 id Hid) as (t & Et & T). destruct (decide (id ∈ (given s).*1)) as [(a & Ea & Ha)%list_elem_of_fmap|Hn].
    + destruct a as [id' X]. cbn in Ea. subst id'. destruct (given_at s P id X ready_with Ha) as (t' & Et' & _ & Er).
      rewrite Et in Et'. injection Et' as <-. exists (ready_with X t). split; [exact Er|]. by apply tring_inv_ready.
    + exists t. split; [|done]. apply tring_at_some. cbn. rewrite on_all_ne by done. by apply tring_at_inv.
  - intros id Hid. destruct (I3 id Hid) as [H1 H2]. split; [done|]. rewrite on_all_len. intros L. rewrite on_all_ne; [by apply H2|].
    unfold given. rewrite assign_ids. intros H. apply Hid, elem_of_app. by left.
  - rewrite Pm. unfold given at 2. rewrite assign_sts. rewrite <- I4, Ef, app_nil_r.
    rewrite (Permutation_app_comm (drop _ _)). by rewrite take_drop.
  - split; [rewrite Pm; by apply given_ptrs|]. apply Forall_forall. intros x Hg. rewrite Pm in Hg.
    destruct (given_entry s P x Hg) as (t & g & G1 & G2 & G3 & G4 & G5 & G6 & _ & _ & _ & _ & G7).
    split; [done|]. destruct (I2 (ring_ptr x).1) as (t' & Et & T); [apply elem_of_app; by left|].
    rewrite G2 in Et. injection Et as <-. destruct (ti_ring _ _ T _ _ G4) as (R & _ & _).
    assert (A : avail g = zlen (q (ring_ptr x))) by (unfold avail; rewrite (ring_avail g _ R); unfold cat_of; by destruct (ring_ptr x)).
    split; [pose proof (zlen_nonneg (q (ring_ptr x))); lia|]. exists (ready g). split; [|done]. exact G7.
Qed.
End inv.
End PhlInv.
