(* ===== verification/PhlFlow.v ===== *)
(** * What the transmit path does

    The operations of [PhlRun] keep the invariant of [PhlInv] and put and take; from this,
    that every ring is a queue whose requests come back in order, that nothing is lost or
    stands still, and that pauses are exact. *)

From stdpp Require Import functions list sorting.
From S2P Require Import Prelude Bytes TxDesc PhlTx PhlRing PhlPlan PhlRun PhlInv.
Import TxDesc PhlTx PhlRing PhlPlan PhlRun PhlInv.

Module PhlFlow.

Section flow.
Context (c : cfg) (mg : Z) (num mgnt_num : nat) (Hc : cfg_ok c) (Hmg : 0 <= mg < 2 ^ 30).
Local Abbreviation inv := (PhlInv.inv c mg num mgnt_num).

(** ** A turn of all rings *)

Lemma tx_turn_plan usb s : plan_pre s ->
  tx_turn c usb s = (s' ← make_plan s; serve c usb 0 (length (t_fctrl_result s')) s').
Proof.
  intros P. unfold tx_turn, make_plan, phl_check_xmit_ring_resource. rewrite check_all_spec by apply P. cbn [mbind res_bind].
  destruct (filter busy _).*1 as [|id sta]; [|done]. cbn [mbind res_bind]. unfold phl_tx_flow_ctrl. cbn [flow_ctrl mbind res_bind].
  rewrite on_all_eq. cbn. by rewrite (pp_result s P).
Qed.

Record turns_post (usb0 : bool) (q : queues) (s : phl) (q' : queues) (s' : phl) : Prop := {
  tt_inv : inv q' s';
  tt_result : t_fctrl_result s' = [];
  tt_takes : takes q (returned s) q' (returned s');
  tt_lists : t_ring_list s' = t_ring_list s /\ t_ring_free_list s' = t_ring_free_list s;
  tt_flight : in_flight s `prefix_of` in_flight s';
  tt_progress p : p.1 ∈ t_ring_list s -> q p <> [] -> idle_txbuf s <> [] -> mgmt_txbuf s <> [] ->
    exists p' x b g k j o, p'.1 ∈ t_ring_list s /\ q p' <> [] /\ ring_wf b (Z.of_nat p'.2) g /\ turn_result c usb0 (fill_mdata x g) (q p') k o /\
      (o <> None -> in_flight s' <> []) /\ q' p' = drop (k + j) (q p')
}.

Lemma tx_turn_inv usb q s : inv q s -> t_fctrl_result s = [] ->
  exists q' s', tx_turn c usb s = Ret s' /\ turns_post (usb 0%nat) q s q' s'.
Proof.
  intros I Ef. pose proof (inv_plan_pre _ _ _ _ q s I Ef) as P. rewrite tx_turn_plan by done.
  destruct (plan_inv c mg num mgnt_num q s I Ef) as (s1 & -> & I1 & E1 & [L1 L2] & Lg & B1 & B2 & B3). cbn [mbind res_bind].
  destruct (serve_inv c mg num mgnt_num Hc Hmg usb (length (t_fctrl_result s1)) 0 q s1 I1 eq_refl) as (q' & s' & -> & [S1 S2 S3 [S4 S4'] S5 S6]).
  exists q', s'. split; [done|]. assert (R1 : returned s1 = returned s) by (unfold returned; by rewrite Lg).
  split; [done|done|by rewrite <- R1|split; congruence|by rewrite <- B3|].
  intros p Hp Hq Hi Hm. destruct (head (t_fctrl_result s1)) as [x|] eqn:Eh.
  - destruct (S6 x eq_refl) as (b & g & k & j & o & W & T & Ho & Eq); [by rewrite B1|by rewrite B2|].
    assert (Hx : x ∈ t_fctrl_result s1) by (destruct (t_fctrl_result s1); [done|injection Eh as ->; apply list_elem_of_here]).
    destruct (iv_result _ _ _ _ _ _ I1) as [_ F]. eapply Forall_forall in F as (F1 & F2 & _); [|exact Hx].
    exists (ring_ptr x), x, b, g, k, j, o. split; [by rewrite <- L1|]. split; [|done].
    intros E. assert (zlen (q (ring_ptr x)) = 0) by (by rewrite E). lia.
  - (* nothing planned: every ring is empty *)
    exfalso. assert (En : t_fctrl_result s1 = []) by (by destruct (t_fctrl_result s1)). destruct (iv_heap _ _ _ _ _ _ I p.1) as (t & Et & T);
      [apply elem_of_app; by left|].
    assert (Hp10 : (p.2 < 10)%nat) by (apply (ring_lt10 c mg num mgnt_num q s); [done|apply elem_of_app; by left|done]).
    destruct (lookup_lt_is_Some_2 (phl_ring t) p.2) as [g Eg]; [rewrite (ti_len _ _ _ T); lia|].
    destruct (ti_ring _ _ _ T _ _ Eg) as (R & _ & _).
    destruct (assign_all s (t_ring_list s) (ring_sts_idle s)) with (id := p.1) (t := t) (c := p.2) as (x & Hx & _); try done.
    + fold (given s). pose proof (plan_out_perm (given s).*2 ltac:(apply Forall_fmap, assign_ok)) as Pm.
      rewrite <- E1, En in Pm. apply Permutation_nil_l in Pm. rewrite <- Pm. cbn.
      pose proof (iv_states _ _ _ _ _ _ I) as St. rewrite Ef, app_nil_r in St. rewrite St, length_seq. unfold MAX_PHL_RING_STATUS_NUMBER. lia.
    + unfold nonempty. rewrite Eg. unfold avail. rewrite (ring_avail _ _ R). intros E. apply Hq.
      replace (p.1, p.2) with p in E by (by destruct p). by apply length_zero_iff_nil; unfold zlen in E; lia.
    + pose proof (plan_out_perm (given s).*2 ltac:(apply Forall_fmap, assign_ok)) as Pm. fold (given s) in Hx. rewrite <- Pm, <- E1, En in Hx.
      by apply elem_of_nil in Hx.
Qed.
(** ** Freed ring lists *)

Definition with_log (lg : list event) (s : phl) : phl :=
  mk_phl (trings s) (t_ring_list s) (t_ring_free_list s) (ring_sts_idle s) (t_fctrl_result s) (idle_txbuf s)
    (mgmt_txbuf s) (in_flight s) lg (phl_sw_tx_more s).

Lemma emit_all l s : exists lg, foldl (λ s r, emit (TxRecycle (req_id r)) s) s l = with_log lg s /\
  returned (with_log lg s) = returned s ++ (req_id <$> l).
Proof.
  revert s; induction l as [|r l IH]; intros s; cbn [foldl fmap list_fmap].
  - exists (log s). split; [by destruct s|]. by rewrite app_nil_r.
  - destruct (IH (emit (TxRecycle (req_id r)) s)) as (lg & -> & E). exists lg. split; [done|].
    transitivity (returned (with_log lg (emit (TxRecycle (req_id r)) s))); [done|]. by rewrite E, returned_emit, <- app_assoc.
Qed.

Lemma recycle_ring g l s : ring_is g l ->
  recycle_left (S (Z.to_nat MAX_PHL_RING_ENTRY_NUM)) (phl_idx g) g s = Ret (foldl (λ s r, emit (TxRecycle (req_id r)) s) s l).
Proof.
  intros R. pose proof (ring_lt g l R) as L. assert (E : phl_idx g = (phl_idx g + Z.of_nat 0) mod MAX_PHL_RING_ENTRY_NUM).
  { rewrite Z.add_0_r. symmetry. apply Z.mod_small, R. }
  rewrite E. rewrite (recycle_left_all g l s R); [by rewrite drop_0| |lia]. unfold zlen in L. rewrite ring_num in *. lia.
Qed.

(** The rings from the [j]-th on. *)
Lemma free_rings_spec id gs : forall j q s, (forall i g, gs !! i = Some g -> ring_is g (q (id, (j + i)%nat))) ->
  exists q' lg, free_rings gs s = Ret (with_log lg s) /\ takes q (returned s) q' (returned (with_log lg s)) /\
    forall p, q' p = if decide (p.1 = id /\ (j <= p.2 < j + length gs)%nat) then [] else q p.
Proof.
  induction gs as [|g gs IH]; intros j q s H; cbn [free_rings].
  - exists q, (log s). split; [by destruct s|]. split; [by destruct s; constructor|]. intros p. rewrite decide_False; [done|]. cbn. lia.
  - specialize (IH (S j)). assert (R := H 0%nat g eq_refl). rewrite Nat.add_0_r in R. rewrite (recycle_ring g (q (id, j)) s R).
    destruct (emit_all (q (id, j)) s) as (lg & -> & E). cbn [mbind res_bind]. set (q1 := <[(id, j) := drop (length (q (id, j))) (q (id, j))]> q).
    destruct (IH q1 (with_log lg s)) as (q' & lg' & -> & T & Q).
    { intros i h Hh. unfold q1. rewrite fn_lookup_insert_ne by (intros [=]; lia). replace (S j + i)%nat with (j + S i)%nat by lia. by apply H. }
    exists q', lg'. split; [done|]. split.
    + eapply takes_step with (p := (id, j)) (k := length (q (id, j))). fold q1. rewrite take_ge, <- E by done. exact T.
    + intros p. rewrite Q. unfold q1. cbn [length]. destruct (decide (p = (id, j))) as [->|Hn].
      * rewrite fn_lookup_insert, drop_ge by done. cbn. case_decide; by rewrite decide_True by lia.
      * rewrite fn_lookup_insert_ne by done. apply decide_ext. destruct p as [a b]; cbn. assert (a <> id \/ b <> j) by (destruct (decide (a = id)), (decide (b = j)); naive_solver). lia.
Qed.

Lemma free_one q s id l : inv q s -> t_ring_free_list s = id :: l -> t_fctrl_result s = [] ->
  exists q' s', _phl_free_phl_tring_list id (set_lists (t_ring_list s) l s) = Ret s' /\ inv q' s' /\
    takes q (returned s) q' (returned s') /\ t_ring_free_list s' = l /\ t_ring_list s' = t_ring_list s /\
    t_fctrl_result s' = [] /\ in_flight s' = in_flight s /\ (forall p, p.1 <> id -> q' p = q p).
Proof.
  intros I El Ef. assert (Hid : id ∈ t_ring_list s ++ t_ring_free_list s) by (rewrite El, elem_of_app; right; by left).
  destruct (iv_heap _ _ _ _ _ _ I id Hid) as (t & Et & T). unfold _phl_free_phl_tring_list.
  change (tring_at (set_lists (t_ring_list s) l s) id) with (tring_at s id). rewrite Et. cbn [mbind res_bind].
  destruct (free_rings_spec id (phl_ring t) 0 q (set_lists (t_ring_list s) l s)) as (q' & lg & -> & Tk & Q).
  { intros i g Hg. apply (ti_ring _ _ _ T _ _ Hg). }
  cbn [mbind res_bind]. exists q'. eexists. split; [done|].
  assert (Qn : forall p, p.1 <> id -> q' p = q p) by (intros p Hp; rewrite Q, decide_False; [done|tauto]).
  assert (Q0 : forall i, q' (id, i) = []).
  { intros i. rewrite Q. rewrite (ti_len _ _ _ T). case_decide as Hd; [done|]. apply (ti_out _ _ _ T). cbn in Hd. lia. }
  split; [|by split_all]. destruct I as [I1 I2 I3 I4 I5 I6]. rewrite El in I1, I2, I3.
  assert (N1 : (id ∉ t_ring_list s ++ l) /\ NoDup (t_ring_list s ++ l)).
  { rewrite <- Permutation_middle in I1. by apply NoDup_cons in I1. }
  assert (Ee : forall i, i ∈ t_ring_list s ++ id :: l <-> i = id \/ i ∈ t_ring_list s ++ l) by (intros i; rewrite !elem_of_app, elem_of_cons; tauto).
  split; cbn; try done.
  - apply N1.
  - intros i Hi. assert (Hn : i <> id) by (intros ->; by apply N1). destruct (I2 i) as (t' & Et' & T'); [apply Ee; by right|].
    exists t'. split; [apply tring_at_some; cbn; rewrite list_lookup_insert_ne by done; by apply tring_at_inv|].
    destruct T' as [L' P' R' O']. split; [done|done| |].
    + intros k g Hk. rewrite Qn by done. by apply R'.
    + intros k Hk. rewrite Qn by done. by apply O'.
  - intros i Hi. rewrite length_insert. destruct (decide (i = id)) as [->|Hn].
    + split; [done|]. intros Hl. by rewrite list_lookup_insert_eq.
    + destruct (I3 i) as [H1 H2]; [rewrite Ee; tauto|]. split; [intros k; by rewrite Qn|]. by rewrite list_lookup_insert_ne.
  - rewrite Ef. by repeat constructor.
Qed.

Lemma free_all q s : inv q s -> t_fctrl_result s = [] ->
  exists q' s', phl_free_deferred_tx_ring s = Ret s' /\ inv q' s' /\ takes q (returned s) q' (returned s') /\
    t_ring_free_list s' = [] /\ t_ring_list s' = t_ring_list s /\ t_fctrl_result s' = [] /\ in_flight s' = in_flight s /\
    (forall p, p.1 ∈ t_ring_list s -> q' p = q p).
Proof.
  unfold phl_free_deferred_tx_ring. remember (t_ring_free_list s) as l eqn:El. revert q s El.
  induction l as [|id l IH]; intros q s El I Ef; cbn [free_deferred].
  - exists q, s. split_all. constructor.
  - symmetry in El. destruct (free_one q s id l I El Ef) as (q1 & s1 & -> & I1 & T1 & E1 & E2 & E3 & E4 & Q1). cbn [mbind res_bind].
    destruct (IH q1 s1) as (q' & s' & -> & I' & T' & F1 & F2 & F3 & F4 & Q'); [done..|]. exists q', s'.
    split; [done|]. split; [done|]. split; [by eapply takes_trans|]. split_all; [congruence..|].
    intros p Hp. rewrite Q' by (by rewrite E2). apply Q1. intros Ep. pose proof (iv_lists _ _ _ _ _ _ I) as N.
    rewrite El in N. apply NoDup_app in N as (_ & N & _). apply (N _ Hp). rewrite Ep. by left.
Qed.
(** ** The other operations *)

Lemma find_total s l m : (forall id, id ∈ l -> exists t, tring_at s id = Ret t) ->
  exists o, find_tring s l m = Ret o /\ (forall id, o = Some id -> id ∈ l).
Proof.
  induction l as [|id l IH]; intros H; cbn [find_tring]; [by eexists|].
  destruct (H id) as [t ->]; [by left|]. cbn [mbind res_bind]. destruct (m =? macid t).
  - exists (Some id). split; [done|]. intros id' [= <-]. by left.
  - destruct IH as (o & -> & Ho); [intros i Hi; apply H; by right|]. exists o. split; [done|]. intros i Hi. right. by apply Ho.
Qed.

Lemma inv_find q s m : inv q s -> exists o, find_tring s (t_ring_list s) m = Ret o /\ (forall id, o = Some id -> id ∈ t_ring_list s).
Proof.
  intros I. apply find_total. intros id Hid. destruct (iv_heap _ _ _ _ _ _ I id) as (t & Et & _); [apply elem_of_app; by left|]. by exists t.
Qed.

Lemma new_tring_inv q m b w p : (forall i, q i = []) -> b = 0 \/ b = 1 -> tring_inv mg q (_phl_allocate_phl_tring_list m b w p).
Proof.
  intros Q Hb. split; [done|done| |done]. intros i g. cbn [phl_ring _phl_allocate_phl_tring_list]. rewrite list_lookup_fmap.
  intros (j & Hj & ->)%fmap_Some. apply lookup_seqZ in Hj as [-> Hj]. rewrite Q. split; [apply ring_empty|]. split; [|done].
  cbn. unfold MAX_PHL_RING_CAT_NUM in *. split; [cbn; lia|cbn; f_equal; lia|unfold MAX_PHL_RING_CAT_NUM; lia|done].
Qed.

Lemma register_inv q s m b w p : inv q s -> t_fctrl_result s = [] -> b = 0 \/ b = 1 -> inv q (phl_register_tx_ring m b w p s).
Proof.
  intros [I1 I2 I3 I4 I5 I6] Ef Hb. set (n := length (trings s)).
  assert (Hn : n ∉ t_ring_list s ++ t_ring_free_list s).
  { intros H. destruct (I2 n H) as (t & Et%tring_at_inv & _). apply lookup_lt_Some in Et. unfold n in Et. lia. }
  assert (Ee : (t_ring_list s ++ [n]) ++ t_ring_free_list s ≡ₚ n :: t_ring_list s ++ t_ring_free_list s) by solve_Permutation.
  unfold phl_register_tx_ring. fold n. split; cbn; try done.
  - rewrite Ee. by apply NoDup_cons.
  - intros id Hid. rewrite Ee in Hid. apply elem_of_cons in Hid as [->|Hid].
    + eexists. split; [apply tring_at_some; cbn; by rewrite lookup_app_r, Nat.sub_diag|].
      apply new_tring_inv; [|done]. by apply I3.
    + destruct (I2 id Hid) as (t & Et%tring_at_inv & T). exists t. split; [|done]. apply tring_at_some. cbn. by apply lookup_app_l_Some.
  - intros id Hid. rewrite Ee, elem_of_cons in Hid. destruct (I3 id) as [H1 H2]; [tauto|]. split; [done|]. rewrite length_app. cbn. intros L.
    rewrite lookup_app_l; [apply H2|]; assert (id <> n) by tauto; unfold n in *; lia.
  - rewrite Ef. by repeat constructor.
Qed.

Lemma deregister_inv q s m : inv q s -> t_fctrl_result s = [] ->
  exists x s', phl_deregister_tx_ring m s = Ret (x, s') /\ inv q s' /\ t_fctrl_result s' = [] /\ log s' = log s /\
    in_flight s' = in_flight s /\ (forall id, id ∈ t_ring_list s' -> id ∈ t_ring_list s).
Proof.
  intros I Ef. unfold phl_deregister_tx_ring. destruct (inv_find q s m I) as (o & -> & Ho). cbn [mbind res_bind].
  destruct o as [id|]; [|by do 2 eexists]. specialize (Ho id eq_refl). do 2 eexists. split; [done|].
  split; [|split_all; intros i [_ Hi]%list_elem_of_filter; done].
  destruct I as [I1 I2 I3 I4 I5 I6]. assert (ND := proj1 (proj1 (NoDup_app _ _) I1)).
  assert (Ee : filter (.≠ id) (t_ring_list s) ++ t_ring_free_list s ++ [id] ≡ₚ t_ring_list s ++ t_ring_free_list s).
  { assert (E : t_ring_list s ≡ₚ id :: filter (.≠ id) (t_ring_list s)).
    { apply NoDup_Permutation; [done| |].
      - apply NoDup_cons. split; [intros [? _]%list_elem_of_filter; done|by apply NoDup_filter].
      - intros i. rewrite elem_of_cons, list_elem_of_filter. destruct (decide (i = id)) as [->|]; tauto. }
    rewrite E at 2. solve_Permutation. }
  split; cbn; try done.
  - by rewrite Ee.
  - intros i Hi. rewrite Ee in Hi. by apply I2.
  - intros i Hi. rewrite Ee in Hi. by apply I3.
  - rewrite Ef. by repeat constructor.
Qed.

Lemma add_inv q s r : inv q s -> t_fctrl_result s = [] -> 0 <= m_tid (mdata r) < 10 -> raw_ok mg (m_tid (mdata r)) r ->
  exists x s', rtw_phl_add_tx_req r s = Ret (x, s') /\ t_fctrl_result s' = [] /\ log s' = log s /\ in_flight s' = in_flight s /\
    t_ring_list s' = t_ring_list s /\
    ((x = RTW_PHL_STATUS_SUCCESS /\ exists id, find_tring s (t_ring_list s) (m_macid (mdata r)) = Ret (Some id) /\
        let p := (id, Z.to_nat (m_tid (mdata r))) in inv (<[p := q p ++ [r]]> q) s')
     \/ x <> RTW_PHL_STATUS_SUCCESS /\ s' = s).
Proof.
  intros I Ef Ht Hr. unfold rtw_phl_add_tx_req. destruct (inv_find q s (m_macid (mdata r)) I) as (o & Ho & Hi). rewrite Ho. cbn [mbind res_bind].
  destruct o as [id|]; [|by do 2 eexists; split_all; right]. specialize (Hi id eq_refl). set (p := (id, Z.to_nat (m_tid (mdata r)))).
  assert (Hp : p.1 ∈ t_ring_list s ++ t_ring_free_list s) by (apply elem_of_app; by left).
  destruct (inv_ring c mg num mgnt_num q s p I Hp) as (t & g & Et & Eg & R & W & F); [cbn; lia|]. rewrite Eg. cbn [mbind res_bind].
  rewrite (ring_free g _ R). destruct (Z.ltb_spec 0 (MAX_PHL_RING_ENTRY_NUM - 1 - zlen (q p))) as [L|]; [|by do 2 eexists; split_all; right].
  do 2 eexists. split; [done|]. split_all. left. split; [done|]. exists id. split; [done|]. cbv zeta. fold p.
  rewrite (on_ring_put p _ g) by done. set (g1 := set_core _ _ g).
  assert (R1 : ring_is g1 (q p ++ [r])) by (apply ring_put; [done|lia]).
  assert (Fr : Forall (raw_ok mg (Z.of_nat p.2)) (q p ++ [r])).
  { apply Forall_app_2; [done|]. apply Forall_singleton. cbn. by rewrite Z2Nat.id by lia. }
  destruct (heap_put c mg num mgnt_num q s p g1 (q p ++ [r]) I Hp) as [H1 H2]; [cbn; lia|done| |done|].
  { intros t' Et'. rewrite Et in Et'. injection Et' as <-. by destruct W. }
  destruct I as [I1 I2 I3 I4 I5 I6]. split; try done. cbn. rewrite Ef. by repeat constructor.
Qed.

Lemma release_inv q s k : inv q s -> t_fctrl_result s = [] ->
  let s' := phl_tx_release_buf_usb k s in
  inv q s' /\ t_fctrl_result s' = [] /\ log s' = log s /\ t_ring_list s' = t_ring_list s /\ in_flight s' = delete k (in_flight s).
Proof.
  intros I Ef. unfold phl_tx_release_buf_usb. destruct (in_flight s !! k) as [b|] eqn:Ek.
  - destruct (bufs_release _ _ _ _ _ _ _ k b (iv_bufs _ _ _ _ _ _ I) Ek) as [B1 B2]. unfold put_buf.
    destruct I as [I1 I2 I3 I4 I5 I6].
    destruct (Z.eqb_spec (type b) RTW_PHL_PKT_TYPE_MGNT); cbn; (split; [|done]); (split; try done); cbn; auto; rewrite Ef; by repeat constructor.
  - apply lookup_ge_None in Ek. rewrite delete_take_drop, take_ge, drop_ge, app_nil_r by lia. done.
Qed.
(** ** The tasklet *)

Definition rinv (q : queues) (s : run) : Prop := inv q (st s) /\ t_fctrl_result (st s) = [].

Definition stopped (s : run) : Prop := phl_sw_tx_sts s = PHL_TX_STATUS_SW_PAUSE.

Record tasklet_post (e : env) (q : queues) (s : run) (q' : queues) (s' : run) : Prop := {
  tk_inv : rinv q' s';
  tk_takes : takes q (returned (st s)) q' (returned (st s'));
  tk_list : t_ring_list (st s') = t_ring_list (st s);
  tk_flight : in_flight (st s) `prefix_of` in_flight (st s');
  tk_ctl : pause_tx_id s' = pause_tx_id s /\ polling s' = polling s;
  tk_sts : phl_sw_tx_sts s' = if decide (phl_sw_tx_sts s = PHL_TX_STATUS_STOP_INPROGRESS) then PHL_TX_STATUS_SW_PAUSE else phl_sw_tx_sts s;
  tk_stopped : stopped s -> in_flight (st s') = in_flight (st s) /\ forall p, p.1 ∈ t_ring_list (st s) -> q' p = q p;
  tk_progress p : ~ stopped s -> ps_allowed e = true -> p.1 ∈ t_ring_list (st s) -> q p <> [] ->
    idle_txbuf (st s) <> [] -> mgmt_txbuf (st s) <> [] ->
    exists p' x b g k j o, p'.1 ∈ t_ring_list (st s) /\ q p' <> [] /\ ring_wf b (Z.of_nat p'.2) g /\ turn_result c (usb e 0) (fill_mdata x g) (q p') k o /\
      (o <> None -> in_flight (st s') <> []) /\ q' p' = drop (k + j) (q p')
}.

Lemma chk_pwr_same e s : st (_phl_datapath_chk_pwr e s) = st s /\ pause_tx_id (_phl_datapath_chk_pwr e s) = pause_tx_id s /\
  polling (_phl_datapath_chk_pwr e s) = polling s /\ phl_sw_tx_sts (_phl_datapath_chk_pwr e s) = phl_sw_tx_sts s.
Proof. unfold _phl_datapath_chk_pwr. by repeat case_match. Qed.

(** The turn, or nothing while power saving forbids it. *)
Lemma turn_or_not e q s : rinv q s ->
  exists q' x, (if phl_sw_tx_more (st s) && negb (ps_allowed e) then Ret (st s) else tx_turn c (usb e) (st s)) = Ret x /\
    inv q' x /\ t_fctrl_result x = [] /\ takes q (returned (st s)) q' (returned x) /\ t_ring_list x = t_ring_list (st s) /\
    in_flight (st s) `prefix_of` in_flight x /\ (ps_allowed e = true -> turns_post (usb e 0%nat) q (st s) q' x).
Proof.
  intros [I Ef]. destruct (tx_turn_inv (usb e) q (st s) I Ef) as (q' & x & E & T). destruct (_ && _) eqn:Hp.
  - exists q, (st s). split_and!; [done|done|done|constructor|done|done|]. intros Ha. by rewrite Ha, andb_false_r in Hp.
  - exists q', x. rewrite E. assert (T' := T). destruct T' as [T1 T2 T3 [T4 _] T5 T6]. by split_and!.
Qed.

Lemma tasklet_inv e q s : rinv q s ->
  exists q' s', _phl_tx_callback_usb c e s = Ret s' /\ tasklet_post e q s q' s' /\ sched s' = false.
Proof.
  intros R. assert (R' := R). destruct R as [I Ef]. unfold _phl_tx_callback_usb, phl_datapath_chk_trx_pause.
  change (phl_sw_tx_sts (set_sched false s)) with (phl_sw_tx_sts s).
  destruct (decide (phl_sw_tx_sts s = PHL_TX_STATUS_SW_PAUSE)) as [Hs|Hs]; cbn [mbind res_bind].
  - destruct (chk_pwr_same e (set_sched false s)) as (C1 & C2 & C3 & C4). set (s1 := _phl_datapath_chk_pwr e _) in *.
    change (st (set_sched false s)) with (st s) in C1. rewrite C1.
    destruct (free_all q (st s) I Ef) as (q' & x & -> & I' & T & F1 & F2 & F3 & F4 & Q). cbn [mbind res_bind].
    exists q', (set_phl x s1). split; [done|]. split; [|unfold s1, _phl_datapath_chk_pwr; by repeat case_match].
    split; cbn; try done; [by rewrite F4|by rewrite C4, Hs].
  - destruct (turn_or_not e q s R') as (q1 & x & Ex & I1 & E1 & T1 & L1 & F1 & P1).
    change (st (set_sched false s)) with (st s). rewrite Ex. cbn [mbind res_bind].
    change (phl_sw_tx_sts (set_phl x (set_sched false s))) with (phl_sw_tx_sts s). set (s2 := if decide _ then _ else _).
    assert (E2 : st s2 = x) by (unfold s2; by case_decide). rewrite E2.
    destruct (free_all q1 x I1 E1) as (q' & x' & -> & I' & T & G1 & G2 & G3 & G4 & Q). cbn [mbind res_bind].
    exists q', (set_phl x' s2). split; [done|]. split; [|unfold s2; by case_decide].
    split; cbn; try done.
    + by eapply takes_trans.
    + by rewrite G2.
    + by rewrite G4.
    + unfold s2; by case_decide.
    + unfold s2; by case_decide.
    + intros p _ Ha Hp Hq Hi Hm. destruct (P1 Ha) as [_ _ _ _ _ P6].
      destruct (P6 p Hp Hq Hi Hm) as (p' & y & b & g & k & j & o & H1 & H2 & H2' & H3 & H4 & H5). exists p', y, b, g, k, j, o.
      split_and!; [done|done|done|done|by rewrite G4|]. rewrite Q; [done|by rewrite L1].
Qed.
End flow.
End PhlFlow.
