(* ===== verification/PhlQueue.v ===== *)
(** * The transmit path as queues

    Runs of [PhlRun] from the start of the data path: every ring is a first-in-first-out
    queue, no buffer or ring state is lost, nothing stands still, and pauses are exact. *)

From stdpp Require Import functions list sorting.
From S2P Require Import Prelude Bytes TxDesc PhlTx PhlRing PhlPlan PhlRun PhlInv PhlFlow.
Import TxDesc PhlTx PhlRing PhlPlan PhlRun PhlInv PhlFlow.

Module PhlQueue.

(** ** What can be seen *)

(** The requests that a ring holds, by their identity. *)
Definition queued (s : phl) (p : nat * nat) : list nat :=
  match ring_at s p with
  | Ret g => omap (λ k, req_id <$> entry g ((phl_idx g + k) mod MAX_PHL_RING_ENTRY_NUM)) (seqZ 1 (avail g))
  | _ => []
  end.

(** How many requests the registered stations have. *)
Definition pending (s : phl) : nat :=
  sum_list ((λ id, match tring_at s id with
                   | Ret t => sum_list ((λ g, Z.to_nat (avail g)) <$> phl_ring t)
                   | _ => 0%nat
                   end) <$> t_ring_list s).

(** The ring and the identity of a request that is accepted. *)
Definition accepts (o : op) (s : run) : list ((nat * nat) * nat) :=
  match o with
  | Xmit r =>
      match core_tx_call_phl r s, find_tring (st s) (t_ring_list (st s)) (m_macid (mdata r)) with
      | Ret (true, _), Ret (Some id) => [((id, Z.to_nat (m_tid (mdata r))), req_id r)]
      | _, _ => []
      end
  | _ => []
  end.

Fixpoint accepted (c : cfg) (l : list op) (s : run) : list ((nat * nat) * nat) :=
  match l with
  | [] => []
  | o :: l => accepts o s ++ match step c o s with Ret s' => accepted c l s' | _ => [] end
  end.

(** ** What core does *)

Definition op_ok (mg : Z) (o : op) : Prop :=
  match o with
  | Register _ b _ _ => b = 0 \/ b = 1
  | Xmit r => 0 <= m_tid (mdata r) < 10 /\ raw_ok mg (m_tid (mdata r)) r
  | _ => True
  end.

Definition xmit_ids (l : list op) : list nat := omap (λ o, match o with Xmit r => Some (req_id r) | _ => None end) l.

(** The request fits a buffer, ... *)
Definition fits (c : cfg) (r : xmit_req) : Prop := align8 (wdl r + total_len r) <= tx_buf_size c.
(** ... and gets a descriptor: the length fits its field, and it is not for the high-priority
    ring, whose channel on the second band is refused ([TxDesc.hiq_of_band_1_refused]). *)
Definition described (r : xmit_req) : Prop :=
  0 < total_len r <= AX_TXD_TXPKTSIZE.2 /\ m_tid (mdata r) <> RTW_PHL_RING_CAT_HIQ.

Definition fits_op (c : cfg) (o : op) : Prop := match o with Xmit r => fits c r | _ => True end.

(** Nothing fails: the bus takes every transfer, and the device is powered. *)
Definition smooth (c : cfg) (o : op) : Prop :=
  match o with
  | Xmit r => fits c r /\ described r
  | Tasklet e => ps_allowed e = true /\ forall i, usb e i = true
  | _ => True
  end.

Section queue.
Context (c : cfg) (mg : Z) (num mgnt_num : nat) (Hc : cfg_ok c) (Hmg : 0 <= mg < 2 ^ 30).
Local Abbreviation inv := (PhlInv.inv c mg num mgnt_num).
Local Abbreviation rinv := (PhlFlow.rinv c mg num mgnt_num).

Lemma omap_ring g l : ring_is g l ->
  omap (λ k, req_id <$> entry g ((phl_idx g + k) mod MAX_PHL_RING_ENTRY_NUM)) (seqZ 1 (zlen l)) = req_id <$> l.
Proof.
  intros [_ _ _ E]. revert E. generalize (entry g) as en, (phl_idx g) as i. intros en i. induction l as [|r l IH] using rev_ind; [done|]. intros E.
  unfold zlen in *. rewrite length_app, Nat.add_1_r, seqZ_S, omap_app, fmap_app. f_equal.
  - apply IH. intros k x Hk. apply E. by apply lookup_app_l_Some.
  - cbn. assert (Er : en ((i + 1 + Z.of_nat (length l)) mod MAX_PHL_RING_ENTRY_NUM) = Some r) by (apply E; by apply list_lookup_middle).
    rewrite Z.add_assoc, Er. done.
Qed.

Lemma queued_q q s p : inv q s -> queued s p = req_id <$> q p.
Proof.
  intros I. unfold queued. destruct (decide (p.1 ∈ t_ring_list s ++ t_ring_free_list s)) as [Hp|Hp].
  - destruct (decide (p.2 < 10)%nat) as [H|H].
    + destruct (inv_ring c mg num mgnt_num q s p I Hp H) as (t & g & _ & -> & R & _). unfold avail. rewrite (ring_avail g _ R). by apply omap_ring.
    + destruct (iv_heap _ _ _ _ _ _ I _ Hp) as (t & Et & T). rewrite (ring_at_tring _ _ _ Et).
      rewrite lookup_ge_None_2 by (rewrite (ti_len _ _ _ T); lia).
      pose proof (ti_out _ _ _ T p.2 ltac:(lia)) as E. destruct p; cbn in E. by rewrite E.
  - destruct (iv_freed _ _ _ _ _ _ I _ Hp) as [Q H]. assert (E : q p = []) by (destruct p; apply Q). rewrite E. unfold ring_at, tring_at.
    destruct (decide (p.1 < length (trings s))%nat) as [L|L]; [by rewrite H|]. by rewrite lookup_ge_None_2 by lia.
Qed.

Definition backlog (q : queues) (id : nat) : nat := sum_list ((λ i, length (q (id, i))) <$> seq 0 10).

Lemma pending_q q s : inv q s -> pending s = sum_list (backlog q <$> t_ring_list s).
Proof.
  intros I. unfold pending. f_equal. apply list_fmap_ext. intros k id Hid.
  destruct (iv_heap _ _ _ _ _ _ I id) as (t & -> & T); [apply elem_of_app; left; by eapply list_elem_of_lookup_2|].
  unfold backlog. f_equal. apply list_eq. intros i. rewrite !list_lookup_fmap. destruct (phl_ring t !! i) as [g|] eqn:Eg.
  - assert (L := lookup_lt_Some _ _ _ Eg). rewrite (ti_len _ _ _ T) in L. rewrite lookup_seq_lt by done. cbn. f_equal.
    destruct (ti_ring _ _ _ T _ _ Eg) as (R & _ & _). unfold avail. rewrite (ring_avail g _ R). unfold zlen. by rewrite Nat2Z.id.
  - apply lookup_ge_None in Eg. rewrite (ti_len _ _ _ T) in Eg. by rewrite lookup_seq_ge.
Qed.

Lemma sum_list_le {A} (f g : A -> nat) l : (forall x, x ∈ l -> f x <= g x)%nat -> (sum_list (f <$> l) <= sum_list (g <$> l))%nat.
Proof.
  induction l as [|x l IH]; intros H; cbn; [lia|]. pose proof (H x ltac:(by left)). specialize (IH ltac:(intros y Hy; apply H; by right)). cbn in *. lia.
Qed.

Lemma sum_list_lt {A} (f g : A -> nat) l x : (forall x, x ∈ l -> f x <= g x)%nat -> x ∈ l -> (f x < g x)%nat ->
  (sum_list (f <$> l) < sum_list (g <$> l))%nat.
Proof.
  induction l as [|y l IH]; intros H Hx Hl; [by apply elem_of_nil in Hx|]. cbn. pose proof (H y ltac:(by left)).
  assert (Hs : forall z, z ∈ l -> (f z <= g z)%nat) by (intros z Hz; apply H; by right).
  apply elem_of_cons in Hx as [->|Hx]; [pose proof (sum_list_le f g l Hs)|specialize (IH Hs Hx Hl)]; cbn in *; lia.
Qed.

(** ** A step *)

Definition running (s : run) : Prop := phl_sw_tx_sts s = PHL_TX_STATUS_IDLE \/ phl_sw_tx_sts s = PHL_TX_STATUS_RUNNING.

(** Nobody waits without a tasklet or a transfer on its way. *)
Definition still (q : queues) (s : run) : Prop :=
  sched s = false -> running s -> in_flight (st s) = [] -> forall p, p.1 ∈ t_ring_list (st s) -> q p = [].

Definition all_queued (P : nat -> xmit_req -> Prop) (q : queues) : Prop := forall p, Forall (P p.2) (q p).

(** A request of ring [i] that a smooth run sends. *)
Definition good (i : nat) (r : xmit_req) : Prop :=
  raw_ok mg (Z.of_nat i) r /\ fits c r /\ 0 < total_len r <= AX_TXD_TXPKTSIZE.2 /\ Z.of_nat i <> RTW_PHL_RING_CAT_HIQ.

Record step_post (o : op) (q : queues) (s : run) (q' : queues) (s' : run) : Prop := {
  so_inv : rinv q' s';
  so_fifo acc : fifo acc q (returned (st s)) -> (forall i, i ∈ (accepts o s).*2 -> i ∉ acc.*2) ->
    fifo (acc ++ accepts o s) q' (returned (st s'));
  so_queued P : (forall r, o = Xmit r -> P (Z.to_nat (m_tid (mdata r))) r) -> all_queued P q -> all_queued P q';
  so_still : (0 < num)%nat -> (0 < mgnt_num)%nat -> smooth c o -> all_queued good q -> still q s -> still q' s'
}.

Lemma good_op o r : o = Xmit r -> op_ok mg o -> smooth c o -> good (Z.to_nat (m_tid (mdata r))) r.
Proof. intros -> [Ht Hr] [Hf [Hl Hq]]. unfold good. by rewrite Z2Nat.id by lia. Qed.

(** Steps that touch no queue. *)
Lemma step_same o q s s' : (forall r, o <> Xmit r) -> rinv q s' -> returned (st s') = returned (st s) ->
  (still q s -> still q s') -> step_post o q s q s'.
Proof.
  intros Ho I E S. assert (Ea : accepts o s = []) by (destruct o; try done; by destruct (Ho r)). split; [done| |by intros P|intros; by apply S].
  intros acc F _. by rewrite Ea, app_nil_r, E.
Qed.

Lemma takes_queued P q ret q' ret' : takes q ret q' ret' -> all_queued P q -> all_queued P q'.
Proof. intros T A p. destruct (takes_suffix _ _ _ _ p T) as [k ->]. apply Forall_drop, A. Qed.

Lemma wdl_fill x g r : wdl (fill_mdata x g r) = wdl r /\ total_len (fill_mdata x g r) = total_len r.
Proof. done. Qed.

(** A turn takes something, and a smooth one sends it. *)
Lemma turn_takes ok x g l k o : turn_result c ok (fill_mdata x g) l k o -> Forall (fits c) l -> (0 < k)%nat.
Proof.
  intros [k' d _ K _|k' K _|r Hh L] F; [done|done|]. destruct l as [|r' l]; [done|]. injection Hh as ->.
  apply Forall_cons in F as [Fr _]. unfold fits in Fr. destruct (wdl_fill x g r) as [E1 E2]. rewrite E1, E2 in L. lia.
Qed.

Lemma fill_described b i x g r e : ring_wf b (Z.of_nat i) g -> good i r ->
  rtw_hal_mac_ax_fill_txdesc (hal c) (mdata (fill_mdata x g r)) <> Ret (inl e).
Proof.
  intros W (Hr & _ & Hl & Hq) E. destruct (fill_ok c mg b (Z.of_nat i) g x r W Hr) as [T _ _ _ _ _].
  set (m := mdata (fill_mdata x g r)) in *. assert (Hp : m_pktlen m = total_len r).
  { unfold m. cbn. unfold u16. rewrite Z.mod_small; [done|]. unfold AX_TXD_TXPKTSIZE in Hl. cbn in Hl. lia. }
  assert (Hn : (AX_TXD_TXPKTSIZE.2 <? m_pktlen m) || (m_pktlen m =? 0) = false).
  { rewrite Hp. apply orb_false_iff. split; [apply Z.ltb_ge|apply Z.eqb_neq]; lia. }
  unfold rtw_hal_mac_ax_fill_txdesc, mac_build_txdesc in E. rewrite T in E. unfold ring_type in E.
  destruct (Z.of_nat i =? MGMT_TID) eqn:Hi.
  - cbn [Z.eqb Pos.eqb RTW_PHL_PKT_TYPE_MGNT RTW_PHL_PKT_TYPE_DATA RTW_PHL_PKT_TYPE_H2C RTW_PHL_PKT_TYPE_FWDL orb] in E.
    unfold txdes_proc_mgnt, intf_bits in E. rewrite Z.eqb_refl, Hn, (co_usb c Hc) in E. done.
  - cbn [Z.eqb Pos.eqb RTW_PHL_PKT_TYPE_MGNT RTW_PHL_PKT_TYPE_DATA RTW_PHL_PKT_TYPE_H2C RTW_PHL_PKT_TYPE_FWDL orb] in E.
    unfold txdes_proc_data, intf_bits in E. rewrite Z.eqb_refl, Hn, (co_usb c Hc) in E. cbn [negb] in E.
    destruct (MAC_AX_DATA_HIQ <? m_dma_ch m) eqn:Hd.
    + apply Z.ltb_lt in Hd. change (m_dma_ch m) with (dma_ch g) in Hd. destruct W as [_ W2 W3 W4]. rewrite W2 in Hd.
      apply Z.eqb_neq in Hi. unfold MAC_AX_DATA_HIQ, RTW_PHL_RING_CAT_HIQ, MGMT_TID, MAX_PHL_RING_CAT_NUM in *.
      unfold hal_mapping_hw_tx_chnl_8852au, RTW_PHL_RING_CAT_MGNT, RTW_PHL_RING_CAT_HIQ in Hd.
      assert (Hc' : 0 <= Z.of_nat i < 8) by lia. revert Hd. clear - Hc' W4. destruct W4 as [-> | ->]; cbn [Z.eqb]; repeat case_match; lia.
    + destruct (qsel_of m) as [y| |]; cbn [mbind res_bind] in E; try done.
      destruct (byte_at tid_ind (clamp_tid m)) as [y'| |]; cbn [mbind res_bind] in E; done.
Qed.

Lemma turn_sends b i x g l k o : ring_wf b (Z.of_nat i) g -> turn_result c true (fill_mdata x g) l k o -> Forall (good i) l -> o <> None.
Proof.
  intros W T F. assert (F1 : Forall (fits c) l) by (eapply Forall_impl; [exact F|by intros r (_ & ? & _)]).
  pose proof (turn_takes _ _ _ _ _ _ T F1) as K. destruct T as [|k' _ [|(l' & r & e & El & Er)]|]; [done|done| |lia].
  assert (Hr : r ∈ fill_mdata x g <$> take k' l) by (rewrite El, elem_of_app; right; by left).
  apply list_elem_of_fmap in Hr as (r0 & -> & Hr). apply elem_of_take in Hr as (j & Hr & _).
  apply list_elem_of_lookup_2 in Hr. eapply Forall_forall in F; [|exact Hr]. by destruct (fill_described b i x g r0 e W F).
Qed.

Lemma pools_full q s : inv q s -> (0 < num)%nat -> (0 < mgnt_num)%nat -> in_flight s = [] -> idle_txbuf s <> [] /\ mgmt_txbuf s <> [].
Proof.
  intros I Hn Hm Ef. destruct (iv_bufs _ _ _ _ _ _ I) as [_ _ _ B4 B5]. rewrite Ef, filter_nil, app_nil_r in B4, B5.
  apply Permutation_length in B4, B5. rewrite length_fmap, length_seq in B4, B5. split; intros E; rewrite E in *; cbn in *; lia.
Qed.

Lemma tasklet_step e q s : rinv q s -> sched s = true -> exists q' s', _phl_tx_callback_usb c e s = Ret s' /\ step_post (Tasklet e) q s q' s'.
Proof.
  intros R Hsch. destruct (tasklet_inv c mg num mgnt_num Hc Hmg e q s R) as (q' & s' & E & [K1 K2 K3 K4 _ K6 _ K8] & Hs).
  exists q', s'. split; [done|]. split; [done| | |].
  - intros acc F _. cbn. rewrite app_nil_r. by eapply takes_fifo.
  - intros P _. by apply (takes_queued P _ _ _ _ K2).
  - intros Hn Hm [Ha Hu] G _ _ Run Ef p Hp. rewrite K3 in Hp. rewrite Ef in K4. apply prefix_nil_inv in K4.
    destruct (takes_suffix _ _ _ _ p K2) as [k Ek]. destruct (decide (q p = [])) as [Eq|Hq]; [by rewrite Ek, Eq, drop_nil|].
    destruct (pools_full q (st s)) as [Hi Hm']; [apply R|done..|]. exfalso.
    assert (Hst : ~ stopped s).
    { unfold stopped. intros Hst. rewrite Hst in K6. rewrite decide_False in K6 by done. destruct Run as [Run|Run]; by rewrite Run in K6. }
    destruct (K8 p Hst Ha Hp Hq Hi Hm') as (p' & x & b & g & k' & j & o & _ & _ & W & T & Ho & _). rewrite Hu in T.
    apply Ho; [|done]. by eapply turn_sends.
Qed.

Lemma accepts_success r s id x : rtw_phl_add_tx_req r (st s) = Ret (RTW_PHL_STATUS_SUCCESS, x) ->
  find_tring (st s) (t_ring_list (st s)) (m_macid (mdata r)) = Ret (Some id) ->
  accepts (Xmit r) s = [((id, Z.to_nat (m_tid (mdata r))), req_id r)].
Proof. intros E F. cbn. unfold core_tx_call_phl. rewrite E. cbn [mbind res_bind]. by rewrite F. Qed.

Lemma xmit_step r q s : rinv q s -> op_ok mg (Xmit r) -> exists q' s', step c (Xmit r) s = Ret s' /\ step_post (Xmit r) q s q' s'.
Proof.
  intros [I Ef] [Ht Hr]. destruct (add_inv c mg num mgnt_num q (st s) r I Ef Ht Hr) as (x & s1 & E & E1 & E2 & E3 & E4 & D).
  assert (Er : returned s1 = returned (st s)) by (unfold returned; by rewrite E2).
  cbn [step]. unfold core_tx_call_phl at 1. rewrite E. cbn [mbind res_bind]. destruct D as [(-> & id & Fd & I')|[Hx ->]].
  - set (p := (id, Z.to_nat (m_tid (mdata r)))) in *. do 2 eexists. split; [done|]. assert (Ea := accepts_success r s id s1 E Fd).
    split; [split; [exact I'|done]| | |done].
    + intros acc F Hi. rewrite Ea in *. cbn [st set_sched rtw_phl_tx_req_notify set_phl]. rewrite Er. apply fifo_put; [done|]. apply Hi. by left.
    + intros P Hp A p'. destruct (decide (p' = p)) as [->|Hn]; [|by rewrite fn_lookup_insert_ne].
      rewrite fn_lookup_insert. apply Forall_app_2; [apply A|]. apply Forall_singleton. by apply Hp.
  - exists q, (set_phl (st s) s). split; [by destruct x|].
    assert (Ea : accepts (Xmit r) s = []) by (cbn; unfold core_tx_call_phl; rewrite E; by destruct x).
    split; [done| |by intros P|by intros]. intros acc F _. by rewrite Ea, app_nil_r.
Qed.
Lemma step_inv o q s : rinv q s -> op_ok mg o -> exists q' s', step c o s = Ret s' /\ step_post o q s q' s'.
Proof.
  intros R Ho. assert (R' := R). destruct R' as [I Ef]. destruct o as [m b w p|m|r|e| |k|ok|id| |id]; cbn [step].
  - exists q. eexists. split; [done|]. apply step_same; [done|split; [by apply register_inv|done]|done|].
    intros S Hs Hr Hf p' Hp. cbn in Hp. apply elem_of_app in Hp as [Hp|Hp%list_elem_of_singleton]; [by apply S|].
    assert (Hn : p'.1 ∉ t_ring_list (st s) ++ t_ring_free_list (st s)).
    { intros H. destruct (iv_heap _ _ _ _ _ _ I _ H) as (t & Et%tring_at_inv & _). apply lookup_lt_Some in Et. rewrite Hp in Et. lia. }
    destruct (iv_freed _ _ _ _ _ _ I _ Hn) as [Q _]. destruct p'. apply Q.
  - destruct (deregister_inv c mg num mgnt_num Hmg q (st s) m I Ef) as (x & s1 & -> & I1 & E1 & E2 & E3 & E4). cbn [mbind res_bind].
    exists q. eexists. split; [done|]. apply step_same; [done|done|unfold returned; cbn; by rewrite E2|].
    intros S Hs Hr Hf p Hp. cbn in *. apply S; [done|done|by rewrite <- E3|by apply E4].
  - by apply xmit_step.
  - destruct (sched s) eqn:Es; [by apply tasklet_step|]. exists q, s. split; [done|]. by apply step_same.
  - destruct (free_all c mg num mgnt_num Hmg q (st s) I Ef) as (q' & x & -> & I' & T & F1 & F2 & F3 & F4 & Q). cbn [mbind res_bind].
    exists q'. eexists. split; [done|]. split; [done| | |].
    + intros acc F _. cbn. rewrite app_nil_r. by eapply takes_fifo.
    + intros P _. by apply (takes_queued P _ _ _ _ T).
    + intros _ _ _ _ S Hs Hr Hf p Hp. cbn in *. rewrite F2 in Hp. rewrite Q by done. apply S; [done|done|by rewrite <- F4|done].
  - destruct (in_flight (st s) !! k) as [b|]; [|exists q, s; split; [done|]; by apply step_same].
    destruct (release_inv c mg num mgnt_num q (st s) k I Ef) as (I' & E1 & E2 & E3 & E4).
    exists q. eexists. split; [done|]. apply step_same; [done|done|unfold returned; cbn; by rewrite E2|done].
  - destruct (pwr_msgs s); [exists q, s; split; [done|]; by apply step_same|]. exists q. eexists. split; [done|].
    apply step_same; [done|by destruct ok|by destruct ok|]. intros S. destruct ok; [done|]. exact S.
  - destruct (polling s); [exists q, s; split; [done|]; by apply step_same|]. exists q. eexists. split; [done|]. unfold _phl_sw_tx_pause.
    case_match; (apply step_same; [done|done|done|]); [done|]. intros _ _ [Hr|Hr]; done.
  - exists q. eexists. split; [done|]. unfold poll_end. destruct (polling s); by apply step_same.
  - destruct (polling s); [exists q, s; split; [done|]; by apply step_same|]. exists q. eexists. split; [done|]. unfold _phl_sw_tx_resume.
    repeat case_match; by apply step_same.
Qed.

(** ** Runs *)

Record steps_post (l : list op) (acc : history) (q : queues) (s : run) (q' : queues) (s' : run) : Prop := {
  ss_inv : rinv q' s';
  ss_fifo : fifo (acc ++ accepted c l s) q' (returned (st s'));
  ss_queued P : (forall r, Xmit r ∈ l -> P (Z.to_nat (m_tid (mdata r))) r) -> all_queued P q -> all_queued P q';
  ss_still : (0 < num)%nat -> (0 < mgnt_num)%nat -> Forall (smooth c) l -> all_queued good q -> still q s -> still q' s'
}.

Lemma accepts_sub o s : (accepts o s).*2 `sublist_of` xmit_ids [o].
Proof.
  destruct o; cbn; try done. repeat case_match; cbn; (done || apply sublist_nil_l).
Qed.

Lemma accepts_ids o s i : i ∈ (accepts o s).*2 -> i ∈ xmit_ids [o].
Proof.
  destruct o; cbn; try by intros ?%elem_of_nil. repeat case_match; cbn; by intros ?%elem_of_nil || done.
Qed.

Lemma steps_inv l : forall acc q s, rinv q s -> Forall (op_ok mg) l -> fifo acc q (returned (st s)) ->
  NoDup (acc.*2 ++ xmit_ids l) -> exists q' s', steps c l s = Ret s' /\ steps_post l acc q s q' s'.
Proof.
  induction l as [|o l IH]; intros acc q s R F Ff N; cbn [steps].
  - exists q, s. split; [done|]. split; [done|by rewrite app_nil_r|by intros P|done].
  - apply Forall_cons in F as [Ho F]. destruct (step_inv o q s R Ho) as (q1 & s1 & E & [R1 F1 Q1 S1]). rewrite E. cbn [mbind res_bind].
    change (xmit_ids (o :: l)) with (xmit_ids ([o] ++ l)) in N. unfold xmit_ids in N. rewrite omap_app in N. fold (xmit_ids [o]) (xmit_ids l) in N.
    rewrite app_assoc in N. assert (N0 := N). apply NoDup_app in N as (N1 & N2 & N3). apply NoDup_app in N1 as (N4 & N5 & N6).
    destruct (IH (acc ++ accepts o s) q1 s1 R1 F) as (q' & s' & -> & [R2 F2 Q2 S2]).
    { apply F1; [done|]. intros i Hi%accepts_ids Ha. by apply (N5 i). }
    { eapply nodup_sub; [|exact N0]. rewrite fmap_app. apply sublist_submseteq.
      apply sublist_app; [|done]. apply sublist_app; [done|]. apply accepts_sub. }
    exists q', s'. split; [done|]. split; [done| | |].
    + cbn [accepted]. rewrite E, app_assoc. exact F2.
    + intros P Hp A. apply Q2; [intros r Hr; apply Hp; by right|]. apply Q1; [intros r ->; apply Hp; by left|done].
    + intros Hn Hm [Sm Sl]%Forall_cons G St. apply S2; [done|done|done| |by apply S1].
      apply Q1; [|done]. intros r ->. by eapply good_op.
Qed.

(** ** From the start *)

Definition start : run := run0 (Z.to_nat (tx_buf_size c)) num (Z.to_nat mg) mgnt_num.

Lemma queue_start_inv : rinv (λ _, []) start /\ fifo [] (λ _, []) (returned (st start)).
Proof.
  split; [|apply fifo_empty]. split; [|done]. pose proof (co_size c Hc) as Hs.
  split; cbn; [apply NoDup_nil_2|by intros id ?%elem_of_nil|intros id _; split; [done|lia]|done|split; [apply NoDup_nil_2|done]|].
  assert (Hz : forall n, 0 <= n -> zlen (replicate (Z.to_nat n) 0) = n) by (intros n Hn; unfold zlen; rewrite length_replicate; lia).
  split.
  - apply Forall_fmap, Forall_forall. intros i _. split; [done|]. apply Hz. lia.
  - apply Forall_fmap, Forall_forall. intros i _. split; [done|]. apply Hz. lia.
  - constructor.
  - rewrite filter_nil, app_nil_r, <- list_fmap_compose. by rewrite list_fmap_id.
  - rewrite filter_nil, app_nil_r, <- list_fmap_compose. by rewrite list_fmap_id.
Qed.

Lemma start_steps l : Forall (op_ok mg) l -> NoDup (xmit_ids l) ->
  exists q s, steps c l start = Ret s /\ steps_post l [] (λ _, []) start q s.
Proof. intros F N. destruct queue_start_inv as [R Ff]. by apply (steps_inv l [] (λ _, []) start R F Ff). Qed.

(** Every ring is a queue: what it accepted is what came back to core, in this order,
    followed by what it holds; nothing else comes back.  No operation fails, and no ring
    state or buffer is lost.  A request comes back when its frame was sent, when it could
    not be, or when its station's rings are freed; [PhlRing.handle_spec] says which for a
    ring's turn. *)
Theorem tx_fifo l : Forall (op_ok mg) l -> NoDup (xmit_ids l) ->
  exists s, steps c l start = Ret s /\
    let acc := accepted c l start in
    (forall p, accepted_at p acc = filter (λ i, i ∈ accepted_at p acc) (returned (st s)) ++ queued (st s) p) /\
    (forall i, i ∈ returned (st s) -> i ∈ acc.*2) /\
    ring_sts_idle (st s) ≡ₚ seq 0 MAX_PHL_RING_STATUS_NUMBER /\
    bufs_inv c mg num mgnt_num (idle_txbuf (st s)) (mgmt_txbuf (st s)) (in_flight (st s)).
Proof.
  intros F N. destruct (start_steps l F N) as (q & s & E & [[I Ef] [F1 F2 F3] _ _]). cbn [app] in *. exists s.
  split; [done|]. split; [intros p; rewrite (queued_q q _ _ I); apply F3|]. split; [done|].
  split; [|apply I]. pose proof (iv_states _ _ _ _ _ _ I) as St. by rewrite Ef, app_nil_r in St.
Qed.

(** ** Nothing stands still *)

Definition live (q : queues) (s : run) : Prop :=
  rinv q s /\ still q s /\ running s /\ all_queued good q.

Lemma backlog_0 q id : (forall i, q (id, i) = []) -> backlog q id = 0%nat.
Proof.
  intros H. unfold backlog. generalize (seq 0 10). intros l. induction l as [|i l IH]; [done|]. cbn.
  by rewrite H, IH.
Qed.
Lemma total_0 q l : (forall p, p.1 ∈ l -> q p = []) -> sum_list (backlog q <$> l) = 0%nat.
Proof.
  induction l as [|id l IH]; intros H; [done|].
  change (backlog q id + sum_list (backlog q <$> l) = 0)%nat. rewrite backlog_0, IH; [done| |].
  - intros p Hp. apply H. by right.
  - intros i. apply (H (id, i)). by left.
Qed.

(** Without a transfer on its way and without a scheduled tasklet nothing waits. *)
Lemma idle_empty q s : live q s -> sched s = false -> in_flight (st s) = [] -> pending (st s) = 0%nat.
Proof. intros ([I _] & S & Rn & _) Hs Hf. rewrite (pending_q q _ I). apply total_0. by apply S. Qed.

Lemma done_step q s : live q s -> exists s', step c (UsbDone 0) s = Ret s' /\ live q s' /\
  length (in_flight (st s')) = Nat.pred (length (in_flight (st s))) /\ pending (st s') = pending (st s).
Proof.
  intros L. assert (L' := L). destruct L' as ([I Ef] & S & Rn & A). cbn [step].
  destruct (in_flight (st s)) as [|b f] eqn:Eb; cbn [lookup list_lookup].
  - exists s. by rewrite Eb.
  - destruct (release_inv c mg num mgnt_num q (st s) 0 I Ef) as (I' & E1 & E2 & E3 & E4).
    eexists. split; [done|]. split; [by split|]. cbn. rewrite E4, Eb. split; [done|].
    by rewrite (pending_q q _ I'), (pending_q q _ I), E3.
Qed.

Lemma steps_app l1 l2 s : steps c (l1 ++ l2) s = (s ← steps c l1 s; steps c l2 s).
Proof. revert s. induction l1 as [|o l1 IH]; intros s; cbn [steps app]; [done|]. destruct (step c o s); cbn; [apply IH|done..]. Qed.

Lemma done_all n : forall q s, live q s -> (length (in_flight (st s)) <= n)%nat ->
  exists s', steps c (replicate n (UsbDone 0)) s = Ret s' /\ live q s' /\ in_flight (st s') = [] /\
    pending (st s') = pending (st s).
Proof.
  induction n as [|n IH]; intros q s L Hn; cbn [replicate steps].
  - exists s. split; [done|]. split; [done|]. split; [|done]. apply nil_length_inv. lia.
  - destruct (done_step q s L) as (s1 & -> & L1 & E1 & P1). cbn [mbind res_bind].
    destruct (IH q s1 L1) as (s' & -> & L' & E' & P'); [lia|]. exists s'. by rewrite P', P1.
Qed.

Lemma same_empty q q' s p : inv q s -> inv q' s -> q p = [] -> q' p = [].
Proof.
  intros I I' E. apply (fmap_nil_inv req_id). rewrite <- (queued_q q' s p I'), (queued_q q s p I), E. done.
Qed.

(** A turn of the tasklet with all buffers in their pools. *)
Lemma tasklet_round e q s : (0 < num)%nat -> (0 < mgnt_num)%nat -> smooth c (Tasklet e) -> live q s ->
  in_flight (st s) = [] -> exists q' s', step c (Tasklet e) s = Ret s' /\ live q' s' /\
    (pending (st s') = 0 \/ pending (st s') < pending (st s))%nat.
Proof.
  intros Hn Hm Sm L Ef. assert (L' := L). destruct L' as (R & S & Rn & A). cbn [step]. destruct (sched s) eqn:Es.
  2:{ exists q, s. split; [done|]. split; [done|]. left. by eapply idle_empty. }
  destruct (tasklet_step e q s R Es) as (q' & s' & E & [R' _ Q' S']).
  destruct (tasklet_inv c mg num mgnt_num Hc Hmg e q s R) as (q2 & s2 & E2 & [K1 K2 K3 K4 _ K6 _ K8] & _).
  rewrite E in E2. injection E2 as <-. exists q2, s'. split; [done|]. split.
  { split; [done|]. split.
    { intros H1 H2 H3 p Hp. apply (same_empty q' q2 (st s')); [apply R'|apply K1|]. by apply S'. }
    split; [|by eapply takes_queued]. unfold running. rewrite K6.
    destruct Rn as [Rn|Rn]; rewrite Rn; rewrite decide_False by done; auto. }
  rewrite (pending_q q2 _ (proj1 K1)), (pending_q q _ (proj1 R)), K3.
  destruct (decide (Forall (λ id, backlog q id = 0%nat) (t_ring_list (st s)))) as [Z0|Nz].
  - left. rewrite <- (total_0 (λ _, []) (t_ring_list (st s))) by done. f_equal.
    apply list_fmap_ext. intros k id Hk. apply list_elem_of_lookup_2 in Hk. eapply Forall_forall in Z0; [|exact Hk].
    assert (backlog q2 id <= backlog q id)%nat; [|by rewrite (backlog_0 (λ _, [])); [lia|]].
    apply sum_list_le. intros i _. destruct (takes_suffix _ _ _ _ (id, i) K2) as [m ->]. rewrite length_drop. lia.
  - right. apply not_Forall_Exists in Nz; [|intros ?; apply _]. apply Exists_exists in Nz as (id & Hid & Hb).
    change (backlog q id <> 0%nat) in Hb.
    assert (Hp : exists i, q (id, i) <> []).
    { destruct (decide (Exists (λ i, q (id, i) <> []) (seq 0 10))) as [(i & _ & H)%Exists_exists|H]; [by exists i|].
      destruct Hb. unfold backlog. revert H. generalize (seq 0 10). intros l. induction l as [|i l IH]; intros H; [done|]. cbn.
      rewrite IH by (intros ?; apply H; by right). destruct (q (id, i)) eqn:Eq; [done|]. destruct H. left. by rewrite Eq. }
    destruct Hp as [i Hq]. destruct (pools_full q (st s)) as [Hi Hm']; [apply R|done..|]. destruct Sm as [Ha Hu].
    assert (Hst : ~ stopped s) by (unfold stopped; destruct Rn as [Rn|Rn]; by rewrite Rn).
    destruct (K8 (id, i) Hst Ha Hid Hq Hi Hm') as (p' & x & b & g & k & j & o & P1 & P2 & W & T & _ & P5).
    assert (Hk : (0 < k)%nat).
    { eapply turn_takes; [exact T|]. eapply Forall_impl; [apply A|]. by intros r (_ & ? & _). }
    apply (sum_list_lt _ _ _ p'.1); [|done|].
    + intros id' _. apply sum_list_le. intros i' _. destruct (takes_suffix _ _ _ _ (id', i') K2) as [m ->]. rewrite length_drop. lia.
    + apply (sum_list_lt _ _ _ p'.2).
      * intros i' _. destruct (takes_suffix _ _ _ _ (p'.1, i') K2) as [m ->]. rewrite length_drop. lia.
      * apply elem_of_seq. split; [lia|]. eapply (ring_lt10 c mg num mgnt_num q (st s) p'); [apply R|apply elem_of_app; by left|done].
      * replace (p'.1, p'.2) with p' by (by destruct p'). rewrite P5, length_drop. destruct (q p'); [done|]. cbn. lia.
Qed.

(** The bus completes what is on its way, and the tasklet runs if it is scheduled. *)
Definition round (e : env) : list op := replicate (num + mgnt_num) (UsbDone 0) ++ [Tasklet e].

Lemma flight_le q s : inv q s -> (length (in_flight s) <= num + mgnt_num)%nat.
Proof.
  intros I. destruct (iv_bufs _ _ _ _ _ _ I) as [_ _ B3 B4 B5]. apply Permutation_length in B4, B5.
  rewrite length_fmap, length_app, length_seq in B4, B5.
  assert (length (in_flight s) = length (filter (λ b, type b = RTW_PHL_PKT_TYPE_DATA) (in_flight s)) +
    length (filter (λ b, type b = RTW_PHL_PKT_TYPE_MGNT) (in_flight s)))%nat; [|lia].
  clear B4 B5. induction B3 as [|b f [[D _]|[D _]] _ IH]; [done|..]; cbn [length].
  - rewrite filter_cons_True by done. rewrite filter_cons_False by (rewrite D; apply data_not_mgnt). cbn. lia.
  - rewrite filter_cons_False by (rewrite D; intros E; by apply data_not_mgnt). rewrite filter_cons_True by done. cbn. lia.
Qed.

Lemma round_step e q s : (0 < num)%nat -> (0 < mgnt_num)%nat -> smooth c (Tasklet e) -> live q s ->
  exists q' s', steps c (round e) s = Ret s' /\ live q' s' /\ (pending (st s') = 0 \/ pending (st s') < pending (st s))%nat.
Proof.
  intros Hn Hm Sm L. unfold round. rewrite steps_app.
  destruct (done_all (num + mgnt_num) q s L) as (s1 & -> & L1 & E1 & P1); [by eapply flight_le; apply L|]. cbn [mbind res_bind steps].
  destruct (tasklet_round e q s1 Hn Hm Sm L1 E1) as (q' & s' & -> & L' & P'). exists q', s'. by rewrite <- P1.
Qed.

(** Nothing stands still: after a run without failures in which nobody has paused the data
    path, so many rounds of completions and turns of the tasklet as there are requests
    pending leave none; and where no transfer is on its way and the tasklet is not
    scheduled, none is pending. *)
Theorem tx_drains l s e k : (0 < num)%nat -> (0 < mgnt_num)%nat -> Forall (op_ok mg) l -> NoDup (xmit_ids l) ->
  Forall (smooth c) l -> steps c l start = Ret s -> running s -> smooth c (Tasklet e) -> (pending (st s) <= k)%nat ->
  (exists s', steps c (concat (replicate k (round e))) s = Ret s' /\ pending (st s') = 0%nat) /\
  (sched s = false -> in_flight (st s) = [] -> pending (st s) = 0%nat).
Proof.
  intros Hn Hm F N Sm E Rn Se Hk. destruct (start_steps l F N) as (q & s0 & E0 & [R _ Q S]).
  rewrite E in E0. injection E0 as <-.
  assert (A : all_queued good q).
  { apply Q; [|by intros p; constructor]. intros r Hr. rewrite Forall_forall in Sm, F. eapply good_op; [done|by apply F|by apply Sm]. }
  assert (L : live q s) by (split; [done|]; split; [apply S; [done..|by intros p; constructor|done]|done]).
  clear - L Hn Hm Se Hk Hc Hmg.
  split; [|by intros Hs Hf; eapply idle_empty]. revert q s L Hk. induction k as [|k IH]; intros q s L Hk; cbn [replicate concat].
  - exists s. split; [done|]. cbn. lia.
  - rewrite steps_app. destruct (round_step e q s Hn Hm Se L) as (q' & s' & -> & L' & P'). cbn [mbind res_bind].
    apply (IH q' s' L'). lia.
Qed.

(** ** Pauses *)

Definition known_module (o : op) : Prop := match o with Pause id | Resume id => id <> PHL_MDL_OTHER | _ => True end.

(** The data path is stopped, or about to be, exactly when some module wants it so. *)
Definition paused_by (s : run) : Prop := running s <-> pause_tx_id s = 0 /\ polling s = None.
Definition polls_known (s : run) : Prop := polling s <> Some PHL_MDL_OTHER.

Lemma mdl_pos id : id <> PHL_MDL_OTHER -> _phl_get_ctrl_mdl id <> 0.
Proof. by destruct id. Qed.

Lemma paused_same s s' : (running s' <-> running s) -> pause_tx_id s' = pause_tx_id s -> polling s' = polling s ->
  paused_by s -> paused_by s'.
Proof. unfold paused_by. intros H -> ->. tauto. Qed.

Lemma pause_step o q s s' : rinv q s -> op_ok mg o -> known_module o -> step c o s = Ret s' ->
  paused_by s /\ polls_known s -> paused_by s' /\ polls_known s'.
Proof.
  intros R Ho Hk E [P K].
  assert (Same : (running s' <-> running s) -> pause_tx_id s' = pause_tx_id s -> polling s' = polling s ->
    paused_by s' /\ polls_known s').
  { intros H1 H2 H3. split; [by apply (paused_same s)|]. unfold polls_known. by rewrite H3. }
  destruct o as [m b w p|m|r|e| |k|ok|id| |id]; cbn [step] in E.
  - injection E as <-. by apply Same.
  - destruct (phl_deregister_tx_ring _ _) as [[x y]| |]; try done. injection E as <-. by apply Same.
  - unfold core_tx_call_phl in E. destruct (rtw_phl_add_tx_req _ _) as [[x y]| |]; try done.
    destruct x; injection E as <-; by apply Same.
  - destruct (sched s); [|injection E as <-; by apply Same].
    destruct (tasklet_inv c mg num mgnt_num Hc Hmg e q s R) as (q' & s1 & E1 & [_ _ _ _ [K1 K2] K3 _ _] & _).
    rewrite E in E1. injection E1 as <-. apply Same; [|done|done]. unfold running. rewrite K3. case_decide as D; [|done].
    rewrite D. split; by intros [|].
  - destruct (phl_free_deferred_tx_ring _) as [x| |]; try done. injection E as <-. by apply Same.
  - destruct (in_flight _ !! _); injection E as <-; by apply Same.
  - destruct (pwr_msgs s); [injection E as <-; by apply Same|]. injection E as <-. unfold _phl_req_pwr_cb. destruct ok; by apply Same.
  - destruct (polling s) eqn:Ep; [injection E as <-; by apply Same|]. injection E as <-. unfold _phl_sw_tx_pause.
    pose proof (mdl_pos id Hk) as Hm. destruct (bool_decide _ || bool_decide _) eqn:B; cbn [snd].
    + split; [|by unfold polls_known; cbn; rewrite Ep]. unfold paused_by. cbn. rewrite Z.lor_eq_0_iff.
      apply orb_true_iff in B as [B%bool_decide_eq_true|B%bool_decide_eq_true]; unfold running; cbn; rewrite B;
        (split; [by intros [|]|by intros [[_ ?] _]]).
    + split; [|unfold polls_known; cbn; congruence]. unfold paused_by, running. cbn.
      split; [by intros [|]|by intros [_ ?]].
  - injection E as <-. unfold poll_end in *. destruct (polling s) as [id|] eqn:Ep; [|by apply Same].
    cbn [snd]. assert (Hm : _phl_get_ctrl_mdl id <> 0) by (apply mdl_pos; intros ->; by apply K).
    split; [|by unfold polls_known]. unfold paused_by in *. cbn. rewrite Z.lor_eq_0_iff.
    split; [|by intros [[_ ?] _]]. intros Hr. change (running s) in Hr. apply P in Hr as [_ Hr]. congruence.
  - destruct (polling s) eqn:Ep; [injection E as <-; by apply Same|]. injection E as <-. unfold _phl_sw_tx_resume in *.
    destruct (negb _) eqn:B; [by split|]. apply negb_false_iff, Z.eqb_eq in B. cbn [pause_tx_id set_pause_id].
    destruct (negb (_ =? DATA_CTRL_MDL_NONE)) eqn:B2; cbn [snd].
    + apply negb_true_iff, Z.eqb_neq in B2. split; [|by unfold polls_known; cbn; rewrite Ep].
      unfold paused_by in *. cbn in *. rewrite Ep. split; [|by intros [? _]].
      intros Hr. change (running s) in Hr. apply P in Hr as [E0 _]. destruct (mdl_pos id Hk). by rewrite <- B, E0.
    + apply negb_false_iff, Z.eqb_eq in B2. split; [|by unfold polls_known; cbn; rewrite Ep].
      unfold paused_by, running. cbn. rewrite Ep. split; [by split|auto].
Qed.

(** Pauses are exact: in every run, with modules that have a bit of their own, the data path
    runs exactly when no module holds it or waits for it to stop; and while it is stopped the
    tasklet sends nothing and takes nothing from a registered station's ring. *)
Theorem tx_pause_exact l s : Forall (op_ok mg) l -> Forall known_module l -> NoDup (xmit_ids l) ->
  steps c l start = Ret s ->
  (running s <-> pause_tx_id s = 0 /\ polling s = None) /\
  (phl_sw_tx_sts s = PHL_TX_STATUS_SW_PAUSE -> forall e, exists s', step c (Tasklet e) s = Ret s' /\
     in_flight (st s') = in_flight (st s) /\
     forall p, p.1 ∈ t_ring_list (st s) -> queued (st s') p = queued (st s) p).
Proof.
  intros F K N E. destruct (start_steps l F N) as (q & s0 & E0 & [R _ _ _]). rewrite E in E0. injection E0 as <-. split.
  - assert (G : forall l q s0 s, rinv q s0 -> Forall (op_ok mg) l -> Forall known_module l -> steps c l s0 = Ret s ->
      paused_by s0 /\ polls_known s0 -> paused_by s).
    { clear - Hc Hmg. intros l. induction l as [|o l IH]; intros q s0 s R F K E P; cbn [steps] in E;
        [injection E as <-; apply P|].
      apply Forall_cons in F as [Fo F]. apply Forall_cons in K as [Ko K].
      destruct (step_inv o q s0 R Fo) as (q1 & s1 & E1 & [R1 _ _ _]). rewrite E1 in E. cbn [mbind res_bind] in E.
      apply (IH q1 s1 s R1 F K E). by apply (pause_step o q s0). }
    apply (G l _ start s (proj1 queue_start_inv) F K E). split; [|done]. unfold paused_by, running. cbn.
    split; [done|by left].
  - intros Hs e. cbn [step]. destruct (sched s); [|by exists s].
    destruct (tasklet_inv c mg num mgnt_num Hc Hmg e q s R) as (q' & s' & -> & [K1 _ _ _ _ _ K7 _] & _). exists s'.
    split; [done|]. destruct (K7 Hs) as [H1 H2]. split; [done|]. intros p Hp.
    by rewrite (queued_q q' _ p (proj1 K1)), (queued_q q _ p (proj1 R)), H2.
Qed.
End queue.

(** ** Runs *)

Definition demo_cfg : cfg := mk_cfg 512 512 10 (mk_adapter MAC_AX_INTF_USB false 0) false.
Definition demo_req (id : nat) (ty tid n : Z) : xmit_req :=
  mk_req id RTW_PHL_TREQ_TYPE_NORMAL (set_ring_fields 5 0 0 0 tid 0 n (demo_meta_of ty)) n
    [Some (replicate (Z.to_nat n) (Z.of_nat id))].
Definition demo_env : env := mk_env true true (λ _, true).
Definition demo_ops : list op :=
  [Register 5 0 0 0; Xmit (demo_req 1 RTW_PHL_PKT_TYPE_DATA 0 100); Xmit (demo_req 2 RTW_PHL_PKT_TYPE_DATA 0 60);
   Xmit (demo_req 3 RTW_PHL_PKT_TYPE_MGNT 8 40)].

Definition transfers (s : run) : list (Z * Z) := omap (λ e, match e with UsbTx _ ch d => Some (ch, zlen d) | _ => None end) (log (st s)).
Definition run_of (l : list op) : run := match steps demo_cfg l (start demo_cfg 128 2 2) with Ret s => s | _ => start demo_cfg 128 2 2 end.

Lemma demo_cfg_ok : cfg_ok demo_cfg.
Proof. split; cbn; lia || done. Qed.

Lemma demo_ops_ok : Forall (op_ok 128) demo_ops.
Proof. repeat constructor; cbn; unfold MGMT_TID; try lia; by vm_compute. Qed.

Lemma demo_ops_smooth : Forall (smooth demo_cfg) demo_ops.
Proof. repeat constructor; by vm_compute. Qed.

(** The management frame goes first, in its own transfer; the two data frames share one. *)
Example two_frames_share_a_transfer : let s := run_of (demo_ops ++ [Tasklet demo_env]) in
  returned (st s) = [3; 1; 2]%nat /\ reverse (transfers s) = [(8, 88); (0, 260)] /\ pending (st s) = 0%nat.
Proof. vm_compute. done. Qed.

(** The run of [tx_drains]: three requests wait, and three rounds send them. *)
Example demo_drains : exists s', steps demo_cfg (concat (replicate 3 (round 2 2 demo_env))) (run_of demo_ops) = Ret s' /\
  pending (st s') = 0%nat.
Proof.
  eapply (tx_drains demo_cfg 128 2 2 demo_cfg_ok ltac:(lia) demo_ops); try lia.
  - apply demo_ops_ok.
  - by apply (bool_decide_unpack _).
  - apply demo_ops_smooth.
  - by vm_compute.
  - by left.
  - done.
  - vm_compute. lia.
Qed.

(** A frame that is longer than the buffers stays at the head of its ring: the tasklet is
    no longer scheduled, nothing is on its way, and what is behind it waits, too. *)
Example long_frame_blocks_its_ring :
  let s := run_of [Register 5 0 0 0; Xmit (demo_req 1 RTW_PHL_PKT_TYPE_DATA 0 600); Xmit (demo_req 2 RTW_PHL_PKT_TYPE_DATA 0 60);
                   Tasklet demo_env] in
  pending (st s) = 2%nat /\ sched s = false /\ in_flight (st s) = [] /\ returned (st s) = [] /\ running s.
Proof. vm_compute. auto 10. Qed.

(** A turn that power saving refuses is not repeated. *)
Example refused_turn_is_lost :
  let s := run_of (demo_ops ++ [Tasklet (mk_env false true (λ _, true))]) in
  pending (st s) = 3%nat /\ sched s = false /\ in_flight (st s) = [] /\ running s.
Proof. vm_compute. auto 10. Qed.

(** A second module that pauses is told that the data path has stopped while the tasklet
    has not seen the request of the first. *)
Example second_pause_too_early :
  let s := run_of (demo_ops ++ [Pause PHL_MDL_SER]) in
  phl_sw_tx_sts s = PHL_TX_STATUS_STOP_INPROGRESS /\ (_phl_sw_tx_pause PHL_MDL_POWER_MGNT s).1 = CTL_SUCCESS /\ sched s = true.
Proof. vm_compute. done. Qed.
End PhlQueue.
